(* ===== verification/_CoqProject ===== *)
-Q . S2P
Prelude.v
Scsi.v
Iovec.v
Sense.v
Device.v
Inquiry.v
Mode.v
Zbc.v
ZbcZone.v
ZbcFormat.v
ZbcIo.v
ZbcIoSpec.v
ZbcDefects.v
Backstore.v
FileBack.v
Aio.v
Rw.v
RwSpec.v
Unmap.v
WriteSame.v
Format.v
Xcopy.v
Rdev.v
Configfs.v
Target.v
Alua.v
Recovery.v
Dispatch.v
Ring.v
Log.v
LogRing.v
Config.v
ConfigThm.v
Life.v
Libtcmu.v
Runner.v
RunnerThm.v
LibThm.v
Optical.v
OpticalCfg.v
OpticalIo.v
OpticalThm.v
OpticalFmt.v
OpticalAll.v
OpticalBg.v
Qcow.v
QcowOpen.v
QcowTab.v
QcowCache.v
QcowSpec.v
QcowSeg.v
QcowIo.v
QcowWrite.v
QcowThm.v
QcowRef.v
RbdLock.v
Offload.v
Rbd.v
RbdThm.v
RbdOpen.v
RbdOpenThm.v
