(* ===== verification/Prelude.v ===== *)
(** * tcmu-runner: a verification library

    tcmu-runner (src/tcmu-runner/) serves SCSI commands in user space for the
    LIO target.  The kernel puts a command into a ring of shared memory; the
    thread of the device takes it out ([main.c], [libtcmu.c]), the dispatcher
    ([tcmur_cmd_handler.c]) answers what needs no medium ([api.c], [alua.c]),
    checks the state of the device ([tcmur_device.c], [alua.c]), and sends the
    rest through the callouts of a handler ([struct tcmur_handler]: read, write,
    unmap, flush, lock), in its own context or on a work queue ([tcmur_aio.c]).
    The status of the command becomes SCSI status and sense data in the ring.
    A device that loses its backend is recovered by a thread of its port group
    ([target.c]).  Handlers may also serve commands themselves: the zoned block
    device handler ([file_zbc.c]) and the optical handler ([file_optical.c]) do.
    The QCOW handler ([qcow.c]) serves a disk
    out of an image file, over a chain of backing files, the RBD handler
    ([rbd.c]) an image in a Ceph cluster.  Devices come and go by netlink messages
    of the kernel ([libtcmu.c]); the runner ([main.c]) is the library's client and
    sets up what serves a device.  All of it logs through a ring of messages
    ([libtcmu_log.c]) and is configured by a file ([libtcmu_config.c]).

    ** Conventions

    A definition has the name of the C function it translates, a record the
    name of the struct.  C integers are [Z]; where the code stores into a [w]-bit
    type the model says [u8], [u16], [u32], [u64] or [s32].  Memory that commands
    share is a map from blocks to byte lists ([Iovec]), so that overlapping
    buffers are visible; private buffers are byte lists.  [None] is undefined
    behaviour, an abort or non-termination: a theorem that an operation returns
    [Some] excludes all three.  Outcomes of the environment (memory allocation,
    system calls, thread creation, the answers of a handler, the order in which
    workers run) are parameters and the theorems quantify over them.  Loops
    whose recursion is not structural have fuel, and each theorem about one
    proves that the fuel its caller passes is enough.

    ** Files

    - [Prelude]: machine integers, big-endian fields, checked buffer stores,
      tactics ([wrap_facts], [zbool], [case_if], [dlia]) and the hint database
      [lio].
    - [Scsi]: constants, the TCMU_STS statuses, CDB decoding ([api.c]).  [Iovec]:
      memory, scatter lists, [struct tcmulib_cmd].  [Sense]: sense data and
      [tcmu_sts_to_scsi].  [Device]: [struct tcmu_device], [struct
      tcmur_handler], C strings.
    - [Inquiry], [Mode]: the emulated INQUIRY pages, READ CAPACITY, MODE SENSE and
      MODE SELECT, START STOP UNIT ([api.c]).
    - [Backstore]: the class [Backstore] of a handler's callouts and its laws
      [BackstoreLaws], against which every command is proved.  [FileBack]: the
      handler of [file_example.c] over short transfers and system call errors,
      and the proof that it satisfies the laws.
    - [Aio]: request tracking and wake-ups as a system of threads, and
      [async_handle_cmd].
    - [Rw], [RwSpec], [Unmap], [WriteSame], [Format], [Xcopy]: the commands for
      the medium ([tcmur_cmd_handler.c]); a compound command is a chain of
      callbacks over a state with the memory and the backstore.
    - [Rdev]: lock, reopening, stopping, unit attentions ([tcmur_device.c],
      [main.c]).  [Configfs]: attributes of the kernel as text; the kernel's
      file system is the class [Kernel].  [Target], [Alua]: target ports, port
      groups, REPORT and SET TARGET PORT GROUPS, the lock check before a command.
      [Recovery]: the recovery list and threads of [target.c] as a step relation.
    - [Dispatch]: [tcmur_generic_handle_cmd] and its passthrough variant, which
      put the above together; resizing.
    - [Ring]: the command ring as a step relation of kernel and daemon
      ([libtcmu.c], [target_core_user_local.h]).
    - [Log], [LogRing]: levels, message ring, outputs and directory of the log
      ([libtcmu_log.c], [libtcmu_time.c], [strlcpy.c]); the threads that log and
      the thread that writes as a step relation.
    - [Config], [ConfigThm]: the parser of the configuration file, loading and
      reloading ([libtcmu_config.c]).
    - [Life]: what a device and its service hold, as a monad with a resource per
      descriptor, mapping, allocation, lock and thread.  [Libtcmu], [LibThm]: adding,
      removing and reconfiguring devices, netlink commands, start and end
      ([libtcmu.c]) over the class [Callouts] of a client, with its laws
      [CalloutsLaws].  [Runner], [RunnerThm]: the runner as the client ([main.c],
      [tcmur_aio.c]), and the registry of handlers.
    - [Zbc], [ZbcZone], [ZbcFormat], [ZbcIo], [ZbcIoSpec], [ZbcDefects]: the zoned
      block device handler: configuration and metadata, zone operations,
      formatting and reopening, commands, what they do, and where they fail.
    - The handler of [file_optical.c].  [Optical]: the state of the drive and the
      responses that need no medium.  [OpticalCfg]: GET CONFIGURATION and a
      parser of its features.  [OpticalIo]: opening, READ, VERIFY, WRITE,
      SYNCHRONIZE CACHE, FORMAT UNIT and the dispatch.  [OpticalThm],
      [OpticalFmt]: data, formatting.  [OpticalAll]: every command.
      [OpticalBg]: commands and background threads as a step relation.
    - The handler of [qcow.c].  [Qcow]: headers, the cache of tables, table
      lookup, allocation, reference counts, reads and writes, over a class
      [Bdev] of the backing device; zlib's inflation is a parameter.
      [QcowOpen]: opening an image or a raw file, chains of images and the
      callouts of the handler.  [QcowTab], [QcowSpec]: the regions of an image
      file, the invariant [qwf] and the contents [qdata] it stands for, the
      class [BdevLaws] of what a device promises and the lookup lemmas.
      [QcowCache]: the cache against the file.  [QcowSeg]: pieces of scatter
      lists.  [QcowIo], [QcowWrite]: reads and writes against the contents,
      and the instances of [BdevLaws] for raw files and images over images.
      [QcowThm]: the properties and demonstration images.  [QcowRef]: reference
      counts and allocation of version 2.
    - The handler of [rbd.c], over librbd and librados as classes whose laws say
      what their calls are documented to do.  [RbdLock]: the lock of an image and
      its tag ([LockApi], [LockLaws]), and the nodes of a cluster as a step
      relation.  [Offload]: [tcmur_handle_caw] and [tcmur_handle_writesame] of
      [tcmur_cmd_handler.c].  [Rbd], [RbdThm]: requests, completions and bounce
      buffers ([RbdApi], [RbdLaws]), and the proof of [BackstoreLaws].
      [RbdOpen], [RbdOpenThm]: opening and closing ([RadosApi], [RadosLaws]).
      Each class has a concrete cluster as an instance, on which the examples
      run.

    ** What is shown

    - End to end: a WRITE through the dispatcher that completes with success is
      what a READ of its blocks returns ([generic_write_then_read]); a device
      that is in recovery or whose lock is not held is not changed by any command
      ([fenced_device_unchanged]); a change of size is reported once.
    - The ring: under every interleaving of submission, fetching, completion in
      any order and reading of answers, each command is answered once
      ([ring_protocol], [ring_drains]), except those with a CDB of unknown length
      ([ring_dropped_command]).
    - Commands for the medium: functional correctness over any backstore for
      READ, WRITE, COMPARE AND WRITE, UNMAP, WRITE SAME, FORMAT UNIT and EXTENDED
      COPY, with the error status of each branch, the release of the lock and
      termination of the chains.  The file handler refines the interface.
    - Concurrency: request tracking loses no wake-up; lock acquisition unblocks
      once; recovery loses no device and handles none twice, and its threads
      end.
    - Devices: every netlink message is answered and acts on the list of devices
      as it says, and each listed device holds exactly its resources
      ([netlink_refines]); from start to end of the library nothing leaks and no
      device of the kernel stays blocked ([library_lifetime]); a device gets the
      handler of its configuration string ([device_finds_handler]); workers and
      threads that cannot be created go unnoticed ([start_failure_unnoticed]).
    - The log is a queue that drops its oldest message under every interleaving
      ([log_ring_queue]) and can sleep on a message ([log_wakeup_lost]).  The
      configuration file is parsed back ([config_file_roundtrip]), reloading sets
      the level ([config_reload_level]), and a stray line hangs the parser
      ([config_stray_line_hangs]).
    - Emulated commands: round trips and prefixes of the pages, the capacity,
      the port groups; SET TARGET PORT GROUPS moves the lock with the state.
    - The zoned handler: a zone table invariant kept by every command, a
      refinement of the zone operations to an abstract table, reads after
      writes, and reopening of what was formatted.
    - The optical handler: a write changes its range and is read back, also past
      the old end of the file ([fbo_write_then_read]); every command is completed
      once and a format refuses the others with its progress ([fbo_one_answer]);
      under every interleaving of commands and threads the marks of the drive
      tell what is at work and no busy event is lost ([fbo_background_exact]),
      and the threads end ([fbo_background_drains]); FORMAT UNIT erases the
      drive ([fbo_format_unit_erases]); GET CONFIGURATION parses to the
      features of the drive ([fbo_configuration_parses]).  Reads past the end
      of the file hang the worker ([fbo_read_past_end_hangs]) and a format
      without memory blocks the drive ([fbo_stuck_formatting]).
    - The QCOW handler, version 1: a write changes the disk exactly at its
      offset, through allocation, inflation and copying ([qcow_write_contract]),
      hides the backing file only where the guest wrote
      ([allocation_hides_backing]), and is found again when the file that is left
      is opened ([qcow_disk_durable]); a read of a chain delivers each cluster
      from the first image that has it ([qcow_chain_read]); the cache of tables
      with its hits and evictions shows what is in the file
      ([cache_equals_file]).  Version 2: counts of every width are read as set
      ([refcount_set_get]); allocation takes the first free cluster
      ([qcow2_block_alloc_first_free]).
    - The RBD handler: under every interleaving of the nodes two that own the
      lock are one or one is fenced, and a tag that is read is the holder's
      ([rbd_lock_exclusive], [rbd_lock_tag_roundtrip]); its callouts keep the
      contract of a backstore ([rbd_laws]), so that the theorems on commands hold
      over it; COMPARE AND WRITE by librbd is atomic ([rbd_caw_atomic]), WRITE SAME
      is right below 4 GiB and wraps there ([rbd_writesame_truncated]); the loss of
      the cluster keeps later commands away ([rbd_loss_refuses]); opening is all or
      nothing ([rbd_open_all_or_nothing]), its configuration string is read back
      ([rbd_config_roundtrip]), and the class of the disks is that of the rule of
      the pool ([rbd_solid_state_exact]).
    - Defects: theorems of kind [error] show inputs on which the code goes
      wrong; the positive theorems carry the hypotheses that exclude them.

    ** Fuel and bounds

    The loops of the ring get one round more than the ring has entries; the
    transfer loops of the file handler one round per byte; the chains of WRITE
    SAME, FORMAT UNIT and EXTENDED COPY and the splitting of UNMAP one per block;
    the read loop of the zoned handler two per zone, its write loop one per byte.
    Each round makes that much progress, so the fuel never decides a result; the
    theorems that these operations return [Some] prove it.  The loops of
    the optical handler have one round per byte, its format one per block, MODE
    SELECT 52 for a buffer of 512 bytes, since a page has at least ten.  In the QCOW handler
    the loops of reads and writes have one round per sector or byte, the search
    for a free cluster one per cluster the reference table covers, setting a
    count one per byte of its table.  Use counts of cached tables stop at
    INT_MAX, so [qwf] carries a budget of lookups that is left, which each
    request lowers by what it uses; image files are at most 2^62 bytes.  One wake-up can be
    pending while another runs, so the wake-up loop has two rounds.  The parser of
    the configuration file has one round per character that is left, the loop
    over the options of an RBD device one per character of its string.

    ** Not modelled, and why

    - Process set-up, signals and D-Bus ([main.c], [libtcmu-register.c]), the
      netlink and uio system calls, and the two programs that use the library
      without the runner ([consumer.c], [tcmu-synthesizer.c]): I/O and library
      calls around what is modelled.
    - [glfs.c]: calls of libgfapi, which is not in the repository;
      [BackstoreLaws] is what the runner needs of them.
    - In [rbd.c]: the update of the service status and the warning about
      features, which only report.  librbd completes a request before the next
      one of the model starts.
    - In [file_optical.c]: closing and registering.  A command of its worker is
      one step between those of the background threads.
    - In [qcow.c]: zlib; the contents of version 2 images across writes (only
      counts and allocation are proved); failures of system calls while tables
      are updated, which the code mostly ignores (recorded as findings).
    - Entries of the ring are records, not bytes: the theorems on the ring do
      not show that a sense buffer of 96 bytes fits an entry, which the kernel
      guarantees by the size of its entries.
    - Condition variables and cancellation points.  Memory that a command or a
      request allocates is not tracked; what a device holds between commands is
      ([Life], [RbdOpen]). *)

From stdpp Require Export prelude gmap strings.
From Stdlib Require Export ZArith Lia.

#[global] Open Scope Z_scope.

Declare Scope lio_scope.
Delimit Scope lio_scope with lio.
#[global] Open Scope lio_scope.

(** ** Machine integers

    A [w]-bit unsigned C integer is a [Z] and every place where the C code
    stores into a narrower type wraps explicitly. *)

Definition wrap (w z : Z) : Z := z mod 2 ^ w.
Definition u8 (z : Z) : Z := wrap 8 z.
Definition u16 (z : Z) : Z := wrap 16 z.
Definition u32 (z : Z) : Z := wrap 32 z.
Definition u64 (z : Z) : Z := wrap 64 z.

(** Two's complement reading of the low 32 bits ([int]). *)
Definition s32 (z : Z) : Z := wrap 32 (z + 2 ^ 31) - 2 ^ 31.

(** The same for the low 64 bits. *)
Definition s64 (z : Z) : Z := wrap 64 (z + 2 ^ 63) - 2 ^ 63.

Definition is_byte (b : Z) : Prop := 0 <= b < 256.

Notation "'bytes_ok' l" := (Forall is_byte l) (at level 10, l at level 9, only parsing) : lio_scope.

#[export] Instance is_byte_dec b : Decision (is_byte b).
Proof. unfold is_byte. apply _. Defined.

Lemma wrap_bound w z : 0 <= w -> 0 <= wrap w z < 2 ^ w.
Proof. intros Hw. apply Z.mod_pos_bound. lia. Qed.

Lemma wrap_small w z : 0 <= z < 2 ^ w -> wrap w z = z.
Proof. intros Hz. by apply Z.mod_small. Qed.

Lemma u8_bound z : 0 <= u8 z < 256.
Proof. apply (wrap_bound 8). lia. Qed.
Lemma u16_bound z : 0 <= u16 z < 65536.
Proof. apply (wrap_bound 16). lia. Qed.
Lemma u32_bound z : 0 <= u32 z < 4294967296.
Proof. apply (wrap_bound 32). lia. Qed.
Lemma u64_bound z : 0 <= u64 z < 18446744073709551616.
Proof. apply (wrap_bound 64). lia. Qed.

Lemma u8_small z : 0 <= z < 256 -> u8 z = z.
Proof. apply (wrap_small 8). Qed.
Lemma u16_small z : 0 <= z < 65536 -> u16 z = z.
Proof. apply (wrap_small 16). Qed.
Lemma u32_small z : 0 <= z < 4294967296 -> u32 z = z.
Proof. apply (wrap_small 32). Qed.
Lemma u64_small z : 0 <= z < 18446744073709551616 -> u64 z = z.
Proof. apply (wrap_small 64). Qed.

(** Adds the range of every wrapped subterm of the goal and the hypotheses
    to the context, for [lia]. *)
Ltac wrap_facts :=
  repeat match goal with
  | |- context [u8 ?z] =>
      lazymatch goal with H : 0 <= u8 z < 256 |- _ => fail | _ => pose proof (u8_bound z) end
  | |- context [u16 ?z] =>
      lazymatch goal with H : 0 <= u16 z < 65536 |- _ => fail | _ => pose proof (u16_bound z) end
  | |- context [u32 ?z] =>
      lazymatch goal with H : 0 <= u32 z < 4294967296 |- _ => fail | _ => pose proof (u32_bound z) end
  | |- context [u64 ?z] =>
      lazymatch goal with
      | H : 0 <= u64 z < 18446744073709551616 |- _ => fail
      | _ => pose proof (u64_bound z) end
  end.

(** A disjoint [|] of a shifted value and a narrower one is an addition. *)
Lemma land_shiftl_low a b n : 0 <= n -> 0 <= b < 2 ^ n -> Z.land (Z.shiftl a n) b = 0.
Proof.
  intros Hn Hb. apply Z.bits_inj'. intros i Hi. rewrite Z.land_spec, Z.bits_0.
  destruct (decide (i < n)).
  - by rewrite Z.shiftl_spec_low by lia.
  - rewrite andb_false_iff. right. destruct (decide (b = 0)) as [->|]; [apply Z.bits_0|].
    apply Z.bits_above_log2; [lia|]. apply Z.log2_lt_pow2; [lia|].
    apply Z.lt_le_trans with (2 ^ n); [lia|apply Z.pow_le_mono_r; lia].
Qed.

Lemma lor_shiftl_low a b n :
  0 <= n -> 0 <= b < 2 ^ n -> Z.lor (Z.shiftl a n) b = a * 2 ^ n + b.
Proof.
  intros Hn Hb. rewrite <- Z.add_nocarry_lor by (by apply land_shiftl_low).
  by rewrite Z.shiftl_mul_pow2.
Qed.

Create HintDb lio.
#[export] Hint Resolve u8_bound u16_bound u32_bound u64_bound : lio.

(** [lia] with [/] and [mod] by constants. *)
Ltac dlia := Z.div_mod_to_equations; lia.

(** Boolean comparisons of the code, turned into facts for [lia]. *)
Ltac zbool :=
  repeat match goal with
  | H : (_ =? _)%Z = true |- _ => apply Z.eqb_eq in H
  | H : (_ =? _)%Z = false |- _ => apply Z.eqb_neq in H
  | H : (_ <? _)%Z = true |- _ => apply Z.ltb_lt in H
  | H : (_ <? _)%Z = false |- _ => apply Z.ltb_ge in H
  | H : (_ <=? _)%Z = true |- _ => apply Z.leb_le in H
  | H : (_ <=? _)%Z = false |- _ => apply Z.leb_gt in H
  | H : (_ && _)%bool = true |- _ => apply andb_prop in H as [? ?]
  | H : (_ || _)%bool = false |- _ => apply orb_false_elim in H as [? ?]
  | H : negb _ = true |- _ => apply negb_true_iff in H
  | H : negb _ = false |- _ => apply negb_false_iff in H
  end.

(** Splits on the condition of the first [if] of the goal. *)
Ltac case_if :=
  match goal with
  | |- context [if ?c then _ else _] =>
      lazymatch type of c with
      | bool => destruct c eqn:?
      | _ => destruct c
      end
  end; zbool.

Ltac case_if_in H :=
  match type of H with
  | context [if ?c then _ else _] =>
      lazymatch type of c with
      | bool => destruct c eqn:?
      | _ => destruct c
      end
  end; zbool.

(** ** Big-endian fields

    [be_enc n z] is what [htobe16/32/64] followed by a [memcpy] of [n] bytes
    leaves in the buffer, [be_dec] what [be16toh(*(uint16_t *)p)] and the like
    read. *)

Fixpoint be_enc (n : nat) (z : Z) : list Z :=
  match n with
  | O => []
  | S k => be_enc k (z / 256) ++ [z mod 256]
  end.

Definition be_dec (l : list Z) : Z := fold_left (fun a b => a * 256 + b) l 0.

Lemma be_dec_snoc l b : be_dec (l ++ [b]) = be_dec l * 256 + b.
Proof. unfold be_dec. by rewrite fold_left_app. Qed.

Lemma be_enc_length n z : length (be_enc n z) = n.
Proof. revert z. induction n; intros z; simpl; rewrite ?length_app, ?IHn; simpl; lia. Qed.

Lemma be_enc_bytes n z : bytes_ok (be_enc n z).
Proof.
  revert z. induction n; intros z; simpl; [constructor|].
  apply Forall_app. split; [apply IHn|].
  constructor; [apply Z.mod_pos_bound; lia|constructor].
Qed.

Lemma be_dec_enc n z : 0 <= z < 256 ^ Z.of_nat n -> be_dec (be_enc n z) = z.
Proof.
  revert z. induction n as [|n IH]; intros z Hz.
  - simpl in *. change (256 ^ 0) with 1 in Hz. unfold be_dec. simpl. lia.
  - cbn [be_enc]. rewrite be_dec_snoc, IH.
    + pose proof (Z.div_mod z 256). lia.
    + rewrite Nat2Z.inj_succ, Z.pow_succ_r in Hz by lia.
      split; [apply Z.div_pos; lia|apply Z.div_lt_upper_bound; lia].
Qed.

Lemma be_dec_bound l : bytes_ok l -> 0 <= be_dec l < 256 ^ Z.of_nat (length l).
Proof.
  induction l as [|b l IH] using rev_ind; intros Hl.
  - unfold be_dec. simpl. lia.
  - apply Forall_app in Hl as [Hl Hb]. specialize (IH Hl).
    inversion Hb as [|? ? Hb' _]; subst. unfold is_byte in Hb'.
    rewrite be_dec_snoc, length_app. simpl.
    rewrite Nat2Z.inj_add, Z.pow_add_r by lia. simpl. lia.
Qed.

Lemma be_enc_dec l : bytes_ok l -> be_enc (length l) (be_dec l) = l.
Proof.
  induction l as [|b l IH] using rev_ind; intros Hl; [done|].
  apply Forall_app in Hl as [Hl Hb].
  inversion Hb as [|? ? Hb' _]; subst. unfold is_byte in Hb'.
  rewrite length_app. simpl. rewrite Nat.add_comm. simpl.
  rewrite be_dec_snoc. f_equal.
  - rewrite Z.div_add_l, Z.div_small by lia. rewrite Z.add_0_r. auto.
  - rewrite Z.add_comm, Z.mod_add by lia. by rewrite Z.mod_small by lia.
Qed.

(** ** Bounds-checked byte buffers

    A C array of bytes is a list; [bset buf off bs] stores the bytes [bs] at
    offset [off] and is [None] (undefined behaviour) outside the array;
    [bget] is the checked read. *)

Definition bset (buf : list Z) (off : nat) (bs : list Z) : option (list Z) :=
  if decide (off + length bs <= length buf)%nat
  then Some (take off buf ++ bs ++ drop (off + length bs) buf)
  else None.

Definition bget (buf : list Z) (off n : nat) : option (list Z) :=
  if decide (off + n <= length buf)%nat then Some (take n (drop off buf)) else None.

(** A store of one byte: the C assignment converts to [uint8_t]. *)
Definition bset1 (buf : list Z) (off : nat) (v : Z) : option (list Z) :=
  bset buf off [u8 v].

Definition bget1 (buf : list Z) (off : nat) : option Z := buf !! off.

Definition zeros (n : nat) : list Z := replicate n 0.

Lemma bset_length buf off bs buf' :
  bset buf off bs = Some buf' -> length buf' = length buf.
Proof.
  unfold bset. intros H. case_decide; [|done]. inversion H; subst.
  rewrite !length_app, length_take, length_drop. lia.
Qed.

Lemma bset_is_Some buf off bs :
  (off + length bs <= length buf)%nat -> is_Some (bset buf off bs).
Proof. intros H. unfold bset. rewrite decide_True by done. eauto. Qed.

Lemma bget_is_Some buf off n :
  (off + n <= length buf)%nat -> is_Some (bget buf off n).
Proof. intros H. unfold bget. rewrite decide_True by done. eauto. Qed.

Lemma bget_length buf off n l : bget buf off n = Some l -> length l = n.
Proof.
  unfold bget. intros H. case_decide; [|done]. inversion H; subst.
  rewrite length_take, length_drop. lia.
Qed.

(** Reading back what was stored. *)
Lemma bget_bset buf off bs buf' :
  bset buf off bs = Some buf' -> bget buf' off (length bs) = Some bs.
Proof.
  intros H. pose proof (bset_length _ _ _ _ H) as Hl.
  unfold bset in H. case_decide as Hd; [|done]. inversion H; subst; clear H.
  unfold bget. rewrite Hl, decide_True by done. f_equal.
  rewrite drop_app_length' by (rewrite length_take; lia).
  by rewrite take_app_length.
Qed.

(** A field between what precedes and what follows it. *)
Lemma bget_app_at (l a r : list Z) off n :
  off = length l -> n = length a -> bget (l ++ a ++ r) off n = Some a.
Proof.
  intros -> ->. unfold bget. rewrite decide_True by (rewrite !length_app; lia).
  by rewrite drop_app_length, take_app_length.
Qed.

Lemma lookup_bset buf off bs buf' i :
  bset buf off bs = Some buf' ->
  buf' !! i = if decide (off <= i < off + length bs)%nat then bs !! (i - off)%nat
              else buf !! i.
Proof.
  unfold bset. intros H. case_decide as Hd; [|done]. inversion H; subst; clear H.
  assert (length (take off buf) = off) as Ht by (rewrite length_take; lia).
  destruct (decide (i < off)%nat).
  { rewrite lookup_app_l by lia. rewrite lookup_take_lt by lia.
    by rewrite decide_False by lia. }
  rewrite lookup_app_r, Ht by lia.
  case_decide.
  - by rewrite lookup_app_l by lia.
  - rewrite lookup_app_r by lia. rewrite lookup_drop. f_equal. lia.
Qed.

(** Checked stores at a constant offset inside a known prefix compute. *)
Lemma bset_cons x l off bs :
  bset (x :: l) (S off) bs = l' ← bset l off bs; Some (x :: l').
Proof. unfold bset. simpl. repeat case_decide; try lia; done. Qed.

Lemma bset_0 l bs : (length bs <= length l)%nat -> bset l 0 bs = Some (bs ++ drop (length bs) l).
Proof. intros. unfold bset. by rewrite decide_True by (simpl; lia). Qed.

Lemma bset_0_1 x l v : bset (x :: l) 0 [v] = Some (v :: l).
Proof. rewrite bset_0 by (simpl; lia). done. Qed.

(** A store past a prefix leaves the prefix alone. *)
Lemma bset_app_r w l off bs :
  bset (w ++ l) (length w + off) bs = l' ← bset l off bs; Some (w ++ l').
Proof.
  induction w as [|x w IH]; simpl.
  - destruct (bset l off bs); done.
  - rewrite bset_cons, IH. destruct (bset l off bs); done.
Qed.

Lemma bset_app_r0 w l bs :
  bset (w ++ l) (length w) bs = l' ← bset l 0 bs; Some (w ++ l').
Proof. rewrite <- (Nat.add_0_r (length w)) at 1. apply bset_app_r. Qed.

Lemma bget1_app_r w l off : bget1 (w ++ l) (length w + off) = bget1 l off.
Proof. unfold bget1. rewrite lookup_app_r by lia. f_equal. lia. Qed.

Lemma zeros_split n k : (n <= k)%nat -> zeros k = zeros n ++ zeros (k - n).
Proof. intros H. unfold zeros. rewrite <- replicate_add. f_equal. lia. Qed.

Lemma drop_zeros n k : drop n (zeros k) = zeros (k - n).
Proof. apply drop_replicate. Qed.

Lemma length_zeros n : length (zeros n) = n.
Proof. apply length_replicate. Qed.

(** Runs a sequence of checked stores into a list whose first elements are
    known. *)
Ltac bset_run :=
  repeat (rewrite ?bset_app_r0, ?bset_app_r, ?bset_cons, ?bset_0_1, ?bget1_app_r;
          cbn [mbind option_bind bget1 lookup list_lookup]).

(** ** Lists *)

Lemma take_app_split {A} (l k : list A) n :
  (length l <= n)%nat -> take n (l ++ k) = l ++ take (n - length l) k.
Proof. intros H. rewrite take_app. by rewrite take_ge by lia. Qed.

(** The sum of a list of integers, and how it behaves on appends. *)
Definition zsum (l : list Z) : Z := fold_right Z.add 0 l.

Lemma zsum_app l k : zsum (l ++ k) = zsum l + zsum k.
Proof. unfold zsum. induction l; simpl; lia. Qed.

Lemma zsum_nonneg l : Forall (fun z => 0 <= z) l -> 0 <= zsum l.
Proof. unfold zsum. induction 1; simpl; lia. Qed.

(** Number of elements that satisfy a boolean test. *)
Definition count {A} (f : A -> bool) (l : list A) : nat := length (List.filter f l).

Lemma count_cons {A} (f : A -> bool) x l :
  count f (x :: l) = ((if f x then 1 else 0) + count f l)%nat.
Proof. unfold count. simpl. destruct (f x); simpl; lia. Qed.

Lemma count_app {A} (f : A -> bool) l k : count f (l ++ k) = (count f l + count f k)%nat.
Proof. unfold count. rewrite List.filter_app. apply length_app. Qed.

(** Replacing one element changes the count by the difference of the tests. *)
Lemma count_insert {A} (f : A -> bool) l i x y :
  l !! i = Some x ->
  (count f (<[i:=y]> l) + (if f x then 1 else 0) =
   count f l + (if f y then 1 else 0))%nat.
Proof.
  revert i. induction l as [|z l IH]; intros [|i] H; simplify_eq/=.
  - rewrite !count_cons. lia.
  - rewrite !count_cons. specialize (IH i H). lia.
Qed.

Lemma count_le_length {A} (f : A -> bool) l : (count f l <= length l)%nat.
Proof. unfold count. induction l; simpl; [lia|]. destruct (f a); simpl; lia. Qed.

Lemma count_pos {A} (f : A -> bool) l i x :
  l !! i = Some x -> f x = true -> (0 < count f l)%nat.
Proof.
  revert i. induction l as [|z l IH]; intros [|i] H Hf; simplify_eq/=.
  - rewrite count_cons, Hf. lia.
  - rewrite count_cons. specialize (IH i H Hf). lia.
Qed.

(** ** [for] loops over an index range *)

(** [for (i = k; i < k + n; i++) s = f(s, i);], stopping on undefined
    behaviour. *)
Fixpoint for_range {S} (f : S -> nat -> option S) (k n : nat) (s : S) : option S :=
  match n with
  | O => Some s
  | Datatypes.S n' => s' ← f s k; for_range f (Datatypes.S k) n' s'
  end.

(** The usual rule: an invariant indexed by the loop counter. *)
Lemma for_range_inv {S} (P : nat -> S -> Prop) (f : S -> nat -> option S) k n s :
  (forall i s, (k <= i < k + n)%nat -> P i s -> exists s', f s i = Some s' /\ P (Datatypes.S i) s') ->
  P k s -> exists s', for_range f k n s = Some s' /\ P (k + n)%nat s'.
Proof.
  revert k s. induction n as [|n IH]; intros k s Hf HP; simpl.
  - exists s. by rewrite Nat.add_0_r.
  - destruct (Hf k s) as (s' & -> & HP'); [lia|done|]. simpl.
    destruct (IH (Datatypes.S k) s') as (s'' & -> & H); [|done|].
    + intros i t Hi. apply Hf. lia.
    + exists s''. split; [done|]. by rewrite Nat.add_succ_r.
Qed.

(** ** Transition systems: finite sequences of steps *)

Inductive steps {S : Type} (R : S -> S -> Prop) : S -> S -> Prop :=
| steps_refl s : steps R s s
| steps_step s t u : R s t -> steps R t u -> steps R s u.

Lemma steps_trans {S} (R : S -> S -> Prop) s t u :
  steps R s t -> steps R t u -> steps R s u.
Proof. induction 1; eauto using steps. Qed.

Lemma steps_invariant {S} (R : S -> S -> Prop) (P : S -> Prop) s t :
  (forall a b, P a -> R a b -> P b) -> P s -> steps R s t -> P t.
Proof. intros HR HP Hs. induction Hs; eauto. Qed.

#[export] Hint Resolve steps_refl steps_step : lio.
