(* ===== verification/Scsi.v ===== *)
(** * SCSI vocabulary and CDB decoding

    The constants of [scsi_defs.h] (and the standard ones of [<scsi/scsi.h>]),
    the [TCMU_STS_*] status codes of [libtcmu_common.h], and the CDB decoders
    at the top of [api.c].  Statuses are the C enumeration as an inductive type
    with its integer values. *)

From S2P Require Import Prelude.

(** ** Operation codes and service actions *)

Definition TEST_UNIT_READY : Z := 0x00.
Definition REQUEST_SENSE : Z := 0x03.
Definition FORMAT_UNIT : Z := 0x04.
Definition READ_6 : Z := 0x08.
Definition WRITE_6 : Z := 0x0a.
Definition INQUIRY : Z := 0x12.
Definition MODE_SELECT : Z := 0x15.
Definition MODE_SENSE : Z := 0x1a.
Definition START_STOP : Z := 0x1b.
Definition READ_CAPACITY : Z := 0x25.
Definition READ_10 : Z := 0x28.
Definition WRITE_10 : Z := 0x2a.
Definition WRITE_VERIFY : Z := 0x2e.
Definition SYNCHRONIZE_CACHE : Z := 0x35.
Definition WRITE_SAME : Z := 0x41.
Definition READ_12 : Z := 0xa8.
Definition WRITE_12 : Z := 0xaa.

Definition UNMAP : Z := 0x42.
Definition MODE_SELECT_10 : Z := 0x55.
Definition MODE_SENSE_10 : Z := 0x5a.
Definition EXTENDED_COPY : Z := 0x83.
Definition RECEIVE_COPY_RESULTS : Z := 0x84.
Definition READ_16 : Z := 0x88.
Definition COMPARE_AND_WRITE : Z := 0x89.
Definition WRITE_16 : Z := 0x8a.
Definition WRITE_VERIFY_16 : Z := 0x8e.
Definition SYNCHRONIZE_CACHE_16 : Z := 0x91.
Definition WRITE_SAME_16 : Z := 0x93.
Definition SERVICE_ACTION_IN_16 : Z := 0x9e.
Definition MAINTENANCE_IN : Z := 0xa3.
Definition MAINTENANCE_OUT : Z := 0xa4.
Definition MI_REPORT_TARGET_PGS : Z := 0x0a.
Definition MO_SET_TARGET_PGS : Z := 0x0a.
Definition READ_CAPACITY_16 : Z := 0x10.

Definition RCR_SA_OPERATING_PARAMETERS : Z := 0x03.
Definition RCR_OP_MAX_TARGET_DESC_COUNT : Z := 0x02.
Definition RCR_OP_MAX_SEGMENT_DESC_COUNT : Z := 0x01.
Definition RCR_OP_MAX_DESC_LIST_LEN : Z := 1024.
Definition RCR_OP_MAX_SEGMENT_LEN : Z := 16777216.
Definition RCR_OP_TOTAL_CONCURR_COPIES : Z := 0x01.
Definition RCR_OP_MAX_CONCURR_COPIES : Z := 0x01.
Definition RCR_OP_DATA_SEG_GRAN_LOG2 : Z := 0x09.
Definition RCR_OP_INLINE_DATA_GRAN_LOG2 : Z := 0x09.
Definition RCR_OP_HELD_DATA_GRAN_LOG2 : Z := 0x09.
Definition RCR_OP_IMPLE_DES_LIST_LENGTH : Z := 0x02.
Definition XCOPY_SEG_DESC_TYPE_CODE_B2B : Z := 0x02.
Definition XCOPY_TARGET_DESC_TYPE_CODE_ID : Z := 0xe4.

(** Sense keys of [<scsi/scsi.h>]. *)
Definition NOT_READY : Z := 0x02.
Definition MEDIUM_ERROR : Z := 0x03.
Definition HARDWARE_ERROR : Z := 0x04.
Definition ILLEGAL_REQUEST : Z := 0x05.
Definition UNIT_ATTENTION : Z := 0x06.
Definition DATA_PROTECT : Z := 0x07.
Definition COPY_ABORTED : Z := 0x0a.
Definition MISCOMPARE : Z := 0x0e.

Definition SAM_STAT_GOOD : Z := 0x00.
Definition SAM_STAT_CHECK_CONDITION : Z := 0x02.
Definition SAM_STAT_BUSY : Z := 0x08.
Definition SAM_STAT_TASK_SET_FULL : Z := 0x28.

Definition EINVAL : Z := 22.

(** [src tcmu-runner/libtcmu_common.h 77-77 VPD_MAX_UNMAP_LBA_COUNT] *)
Definition VPD_MAX_UNMAP_LBA_COUNT : Z := 32 * 1024 * 1024.
(** [src tcmu-runner/libtcmu_common.h 78-78 VPD_MAX_UNMAP_BLOCK_DESC_COUNT] *)
Definition VPD_MAX_UNMAP_BLOCK_DESC_COUNT : Z := 0x04.
(** [src tcmu-runner/libtcmu_common.h 104-104 VPD_MAX_WRITE_SAME_LENGTH] *)
Definition VPD_MAX_WRITE_SAME_LENGTH : Z := 0xFFFFFFFF.

(** ** Status codes *)

(** [src tcmu-runner/libtcmu_common.h 37-69 enum TCMU_STS] *)
Inductive tcmu_sts : Set :=
| TCMU_STS_ASYNC_HANDLED
| TCMU_STS_NOT_HANDLED
| TCMU_STS_OK
| TCMU_STS_NO_RESOURCE
| TCMU_STS_PASSTHROUGH_ERR
| TCMU_STS_BUSY
| TCMU_STS_WR_ERR
| TCMU_STS_RD_ERR
| TCMU_STS_MISCOMPARE
| TCMU_STS_INVALID_CMD
| TCMU_STS_INVALID_CDB
| TCMU_STS_INVALID_PARAM_LIST
| TCMU_STS_INVALID_PARAM_LIST_LEN
| TCMU_STS_TIMEOUT
| TCMU_STS_FENCED
| TCMU_STS_HW_ERR
| TCMU_STS_RANGE
| TCMU_STS_FRMT_IN_PROGRESS
| TCMU_STS_CAPACITY_CHANGED
| TCMU_STS_NOTSUPP_SAVE_PARAMS
| TCMU_STS_WR_ERR_INCOMPAT_FRMT
| TCMU_STS_TRANSITION
| TCMU_STS_IMPL_TRANSITION_ERR
| TCMU_STS_EXPL_TRANSITION_ERR
| TCMU_STS_NO_LOCK_HOLDERS
| TCMU_STS_NOTSUPP_SEG_DESC_TYPE
| TCMU_STS_NOTSUPP_TGT_DESC_TYPE
| TCMU_STS_CP_TGT_DEV_NOTCONN
| TCMU_STS_INVALID_CP_TGT_DEV_TYPE.

#[export] Instance tcmu_sts_eq_dec : EqDecision tcmu_sts.
Proof. solve_decision. Defined.

(** [if (ret)] in the C code: anything but [TCMU_STS_OK]. *)
Definition sts_ok (s : tcmu_sts) : bool := bool_decide (s = TCMU_STS_OK).

Lemma sts_ok_true s : sts_ok s = true <-> s = TCMU_STS_OK.
Proof. unfold sts_ok. by rewrite bool_decide_eq_true. Qed.

Lemma sts_ok_false s : sts_ok s = false <-> s <> TCMU_STS_OK.
Proof. unfold sts_ok. by rewrite bool_decide_eq_false. Qed.

(** ** CDB decoding

    A CDB is the byte list that [tcmulib_get_next_command] copies out of the
    ring; [byte_at] is [cdb[i]]. *)

Definition byte_at (l : list Z) (i : nat) : Z := nth i l 0.

(** The [n] bytes from [cdb[i]] on, as [be16toh]/[be32toh]/[be64toh] read
    them. *)
Definition be_at (l : list Z) (i n : nat) : Z := be_dec (map (byte_at l) (seq i n)).

(** [src tcmu-runner/api.c tcmu_get_cdb_length] *)
Definition tcmu_get_cdb_length (cdb : list Z) : Z :=
  let op := byte_at cdb 0 in
  let group_code := Z.shiftr op 5 in
  if group_code =? 0 then 6
  else if (group_code =? 1) || (group_code =? 2) then 10
  else if group_code =? 3 then
    if op =? 0x7f then 8 + byte_at cdb 7 else - EINVAL
  else if group_code =? 4 then 16
  else if group_code =? 5 then 12
  else - EINVAL.

(** [None] is the abort of [assert_perror(EINVAL)].
    [src tcmu-runner/api.c tcmu_get_lba] *)
Definition tcmu_get_lba (cdb : list Z) : option Z :=
  let n := tcmu_get_cdb_length cdb in
  if n =? 6 then
    Some (Z.lor (Z.shiftl (Z.land (byte_at cdb 1) 0x1f) 16) (be_at cdb 2 2))
  else if n =? 10 then Some (be_at cdb 2 4)
  else if n =? 12 then Some (be_at cdb 2 4)
  else if n =? 16 then Some (be_at cdb 2 8)
  else None.

(** [src tcmu-runner/api.c tcmu_get_xfer_length] *)
Definition tcmu_get_xfer_length (cdb : list Z) : option Z :=
  let n := tcmu_get_cdb_length cdb in
  if n =? 6 then Some (byte_at cdb 4)
  else if n =? 10 then Some (be_at cdb 7 2)
  else if n =? 12 then Some (be_at cdb 6 4)
  else if n =? 16 then Some (be_at cdb 10 4)
  else None.

(** ** Specification: the fixed-length CDB layouts of SPC/SBC *)

Definition cdb_encode (op lba len : Z) : list Z :=
  let g := Z.shiftr op 5 in
  if g =? 0 then op :: be_enc 3 lba ++ [len; 0]
  else if (g =? 1) || (g =? 2) then [op; 0] ++ be_enc 4 lba ++ [0] ++ be_enc 2 len ++ [0]
  else if g =? 4 then [op; 0] ++ be_enc 8 lba ++ be_enc 4 len ++ [0; 0]
  else [op; 0] ++ be_enc 4 lba ++ be_enc 4 len ++ [0; 0].

(** The largest LBA and transfer length that an operation code's layout can
    carry. *)
Definition cdb_lba_max (op : Z) : Z :=
  let g := Z.shiftr op 5 in
  if g =? 0 then 2 ^ 21 else if g =? 4 then 2 ^ 64 else 2 ^ 32.
Definition cdb_len_max (op : Z) : Z :=
  let g := Z.shiftr op 5 in
  if g =? 0 then 2 ^ 8 else if (g =? 1) || (g =? 2) then 2 ^ 16 else 2 ^ 32.

(** Operation codes whose CDB has a fixed length (groups 0, 1, 2, 4, 5). *)
Definition cdb_fixed (op : Z) : Prop :=
  Z.shiftr op 5 = 0 \/ Z.shiftr op 5 = 1 \/ Z.shiftr op 5 = 2 \/
  Z.shiftr op 5 = 4 \/ Z.shiftr op 5 = 5.

Lemma byte_at_0 b l : byte_at (b :: l) 0 = b.
Proof. done. Qed.

(** Fields of a CDB that starts with [pre]: the read depends only on the bytes
    at its offset. *)
Lemma be_at_app pre mid post :
  be_at (pre ++ mid ++ post) (length pre) (length mid) = be_dec mid.
Proof.
  unfold be_at. f_equal. apply list_eq. intros i.
  rewrite list_lookup_fmap.
  destruct (decide (i < length mid)%nat) as [Hi|Hi].
  - rewrite lookup_seq_lt by lia. simpl. unfold byte_at.
    destruct (lookup_lt_is_Some_2 mid i Hi) as [b Hb]. rewrite Hb. f_equal.
    apply nth_lookup_Some. rewrite lookup_app_r by lia.
    replace (length pre + i - length pre)%nat with i by lia.
    by rewrite lookup_app_l by lia.
  - rewrite lookup_seq_ge by lia. simpl. symmetry. apply lookup_ge_None_2. lia.
Qed.

Lemma be_at_enc pre n z post :
  0 <= z < 256 ^ Z.of_nat n ->
  be_at (pre ++ be_enc n z ++ post) (length pre) n = z.
Proof.
  intros Hz. pose proof (be_at_app pre (be_enc n z) post) as H.
  rewrite be_enc_length in H. rewrite H. by apply be_dec_enc.
Qed.

Lemma be_at_bound l i n :
  bytes_ok l -> 0 <= be_at l i n < 256 ^ Z.of_nat n.
Proof.
  intros Hl. unfold be_at.
  assert (bytes_ok (map (byte_at l) (seq i n))) as Hb.
  { apply Forall_map, Forall_forall. intros k _. unfold byte_at.
    destruct (nth_in_or_default k l 0) as [Hin| ->]; [|unfold is_byte; lia].
    rewrite List.Forall_forall in Hl. by apply Hl. }
  pose proof (be_dec_bound _ Hb) as H. by rewrite length_map, length_seq in H.
Qed.

Lemma byte_at_byte l i : bytes_ok l -> is_byte (byte_at l i).
Proof.
  intros Hl. unfold byte_at.
  destruct (nth_in_or_default i l 0) as [Hin| ->]; [|unfold is_byte; lia].
  rewrite List.Forall_forall in Hl. by apply Hl.
Qed.
#[export] Hint Resolve byte_at_byte be_at_bound : lio.

(** The 21-bit LBA of a 6-byte CDB is a three-byte field whose top three bits
    are masked off. *)
Lemma lba6_field l :
  bytes_ok l ->
  Z.lor (Z.shiftl (Z.land (byte_at l 1) 0x1f) 16) (be_at l 2 2) =
  (byte_at l 1) mod 32 * 65536 + be_at l 2 2.
Proof.
  intros Hl. change 0x1f with (Z.ones 5). rewrite Z.land_ones by lia.
  pose proof (be_at_bound l 2 2 Hl) as Hb. change (256 ^ Z.of_nat 2) with 65536 in Hb.
  rewrite lor_shiftl_low by (try change (2 ^ 16) with 65536; lia). done.
Qed.

(** ** Decoding is the inverse of the standard layouts *)

Lemma cdb_length_encode op lba len :
  cdb_fixed op -> tcmu_get_cdb_length (cdb_encode op lba len) = Z.of_nat (length (cdb_encode op lba len)).
Proof.
  intros Hop. unfold cdb_encode.
  destruct Hop as [E|[E|[E|[E|E]]]]; rewrite E; unfold tcmu_get_cdb_length;
    cbn [Z.eqb Pos.eqb orb app]; rewrite byte_at_0, E;
    rewrite ?length_cons, ?length_app, ?be_enc_length, ?length_cons, ?length_app, ?be_enc_length;
    done.
Qed.

(** the decoders read back exactly the LBA and the transfer length that the
    SCSI layouts of 6-, 10-, 12- and 16-byte CDBs encode, for every operation
    code of a fixed-length group and every value the layout can carry. *)
Theorem cdb_roundtrip (op lba len : Z)
  (Hop : cdb_fixed op)
  (Hlba : 0 <= lba < cdb_lba_max op) (Hlen : 0 <= len < cdb_len_max op) :
  tcmu_get_lba (cdb_encode op lba len) = Some lba /\
  tcmu_get_xfer_length (cdb_encode op lba len) = Some len.
Proof.
  pose proof (cdb_length_encode op lba len Hop) as Hl.
  unfold tcmu_get_lba, tcmu_get_xfer_length. rewrite Hl. clear Hl.
  unfold cdb_encode, cdb_lba_max, cdb_len_max in *.
  destruct Hop as [E|[E|[E|[E|E]]]]; rewrite E in *; cbn [Z.eqb Pos.eqb orb] in *;
    rewrite ?length_app, ?length_cons, ?be_enc_length, ?length_app, ?be_enc_length;
    cbn [length Z.of_nat Nat.add Pos.of_succ_nat Pos.succ Z.eqb Pos.eqb].
  - split; [|done]. f_equal.
    change (be_enc 3 lba) with (be_enc 2 (lba / 256) ++ [lba mod 256]).
    change (be_enc 2 (lba / 256)) with ([] ++ [lba / 256 / 256 mod 256] ++ [lba / 256 mod 256]).
    cbn [app]. unfold be_at, byte_at. cbn.
    change 0x1f with (Z.ones 5). rewrite Z.land_ones by lia.
    unfold be_dec. cbn [fold_left].
    rewrite lor_shiftl_low by (change (2 ^ 16) with 65536; dlia).
    change (2 ^ 16) with 65536. change (2 ^ 5) with 32. change (2 ^ 21) with 2097152 in Hlba.
    dlia.
  - split; f_equal.
    + apply (be_at_enc [op; 0] 4). simpl. lia.
    + apply (be_at_enc ([op; 0] ++ be_enc 4 lba ++ [0]) 2 len [0]). simpl. lia.
  - split; f_equal.
    + apply (be_at_enc [op; 0] 4). simpl. lia.
    + apply (be_at_enc ([op; 0] ++ be_enc 4 lba ++ [0]) 2 len [0]). simpl. lia.
  - split; f_equal.
    + apply (be_at_enc [op; 0] 8). simpl. lia.
    + apply (be_at_enc ([op; 0] ++ be_enc 8 lba) 4 len [0; 0]). simpl. lia.
  - split; f_equal.
    + apply (be_at_enc [op; 0] 4). simpl. lia.
    + apply (be_at_enc ([op; 0] ++ be_enc 4 lba) 4 len [0; 0]). simpl. lia.
Qed.

Lemma cdb_roundtrip_witness :
  tcmu_get_lba (cdb_encode READ_16 0x123456789a 77) = Some 0x123456789a /\
  tcmu_get_xfer_length (cdb_encode READ_16 0x123456789a 77) = Some 77.
Proof.
  apply (cdb_roundtrip READ_16 0x123456789a 77).
  - unfold cdb_fixed. right. right. right. left. reflexivity.
  - split; [discriminate|reflexivity].
  - split; [discriminate|reflexivity].
Defined.

(** Every LBA the decoder returns fits in 64 bits, every transfer length in
    32 bits, whatever the CDB holds. *)
Lemma tcmu_get_lba_bound cdb lba :
  bytes_ok cdb -> tcmu_get_lba cdb = Some lba -> 0 <= lba < 2 ^ 64.
Proof.
  intros Hc. unfold tcmu_get_lba.
  pose proof (be_at_bound cdb 2 2 Hc). pose proof (be_at_bound cdb 2 4 Hc).
  pose proof (be_at_bound cdb 2 8 Hc).
  repeat case_if; intros Hs; simplify_eq; simpl in *; try lia.
  rewrite lba6_field by done. pose proof (Z.mod_pos_bound (byte_at cdb 1) 32). lia.
Qed.

Lemma tcmu_get_xfer_length_bound cdb n :
  bytes_ok cdb -> tcmu_get_xfer_length cdb = Some n -> 0 <= n < 2 ^ 32.
Proof.
  intros Hc. unfold tcmu_get_xfer_length.
  pose proof (byte_at_byte cdb 4 Hc) as Hb. unfold is_byte in Hb.
  pose proof (be_at_bound cdb 7 2 Hc). pose proof (be_at_bound cdb 6 4 Hc).
  pose proof (be_at_bound cdb 10 4 Hc).
  repeat case_if; intros Hs; simplify_eq; simpl in *; lia.
Qed.

(** The two decoders abort on the same CDBs: those whose length is not one of
    the four fixed ones. *)
Lemma cdb_decoders_agree cdb :
  is_Some (tcmu_get_lba cdb) <-> is_Some (tcmu_get_xfer_length cdb).
Proof.
  unfold tcmu_get_lba, tcmu_get_xfer_length.
  repeat case_if; split; intros [? ?]; eauto; done.
Qed.

Lemma tcmu_get_lba_length cdb :
  tcmu_get_cdb_length cdb = 6 \/ tcmu_get_cdb_length cdb = 10 \/
  tcmu_get_cdb_length cdb = 12 \/ tcmu_get_cdb_length cdb = 16 <-> is_Some (tcmu_get_lba cdb).
Proof.
  unfold tcmu_get_lba.
  repeat case_if; split; intros H; eauto; try lia; destruct H; done.
Qed.
