(* ===== verification/Iovec.v ===== *)
(** * Memory and scatter/gather lists

    The shared data area as a block memory with bounds-checked loads and
    stores, [struct iovec], [struct tcmulib_cmd], and the iovec helpers of
    [api.c].  An access outside a block, or past the end of an iovec array, is
    undefined behaviour in C and [None] here. *)

From S2P Require Import Prelude Scsi.

(** ** Memory *)

Record ptr := Ptr { p_blk : nat; p_off : Z }.

#[export] Instance ptr_eq_dec : EqDecision ptr.
Proof. solve_decision. Defined.

Abbreviation mem := (gmap nat (list Z)).

Definition padd (p : ptr) (n : Z) : ptr := Ptr (p_blk p) (p_off p + n).

Definition mem_load (m : mem) (p : ptr) (n : Z) : option (list Z) :=
  if n =? 0 then Some []
  else b ← m !! p_blk p;
       if decide (0 <= p_off p /\ 0 <= n /\ p_off p + n <= Z.of_nat (length b))
       then Some (take (Z.to_nat n) (drop (Z.to_nat (p_off p)) b)) else None.

Definition mem_store (m : mem) (p : ptr) (bs : list Z) : option mem :=
  if Z.of_nat (length bs) =? 0 then Some m
  else b ← m !! p_blk p;
       if decide (0 <= p_off p /\ p_off p + Z.of_nat (length bs) <= Z.of_nat (length b))
       then b' ← bset b (Z.to_nat (p_off p)) bs; Some (<[p_blk p := b']> m) else None.

(** Two byte ranges that do not overlap. *)
Definition range_disj (p : ptr) (n : Z) (q : ptr) (k : Z) : Prop :=
  p_blk p <> p_blk q \/ p_off p + n <= p_off q \/ p_off q + k <= p_off p \/ n <= 0 \/ k <= 0.

Lemma range_disj_sym p n q k : range_disj p n q k -> range_disj q k p n.
Proof. unfold range_disj. intuition lia. Qed.

Lemma mem_load_0 m p : mem_load m p 0 = Some [].
Proof. done. Qed.

Lemma mem_load_length m p n l : mem_load m p n = Some l -> Z.of_nat (length l) = n.
Proof.
  unfold mem_load. case_if; intros H; simplify_eq/=; [done|].
  destruct (m !! p_blk p) as [b|] eqn:Hb; simplify_eq/=.
  case_decide; simplify_eq. rewrite length_take, length_drop. lia.
Qed.

Lemma mem_load_nonneg m p n l : mem_load m p n = Some l -> 0 <= n.
Proof. intros H. apply mem_load_length in H. lia. Qed.

(** Extensional description of a load: what each byte is. *)
Lemma mem_load_Some m p n l :
  0 < n ->
  mem_load m p n = Some l <->
  exists b, m !! p_blk p = Some b /\ 0 <= p_off p /\ p_off p + n <= Z.of_nat (length b) /\
            l = take (Z.to_nat n) (drop (Z.to_nat (p_off p)) b).
Proof.
  intros Hn. unfold mem_load. rewrite (proj2 (Z.eqb_neq n 0)) by lia.
  destruct (m !! p_blk p) as [b|]; simpl.
  - case_decide as Hd; split.
    + intros ?; simplify_eq. exists b. repeat split; tauto || lia.
    + intros (b' & ? & ? & ? & ?); by simplify_eq.
    + done.
    + intros (b' & ? & ? & ? & ?); simplify_eq. lia.
  - split; [done|]. by intros (b & ? & _).
Qed.

(** A load splits at any point. *)
Lemma mem_load_split m p n k l :
  0 <= k <= n -> mem_load m p n = Some l ->
  mem_load m p k = Some (take (Z.to_nat k) l) /\
  mem_load m (padd p k) (n - k) = Some (drop (Z.to_nat k) l).
Proof.
  intros Hk Hl.
  assert (Z.of_nat (length l) = n) as Hlen by (by eapply mem_load_length).
  destruct (decide (n = 0)) as [->|Hn0].
  { assert (k = 0) as -> by lia. destruct l; [|simpl in Hlen; lia]. split; done. }
  apply mem_load_Some in Hl as (b & Hb & Ho & Hbound & ->); [|lia]. split.
  - destruct (decide (k = 0)) as [->|]; [done|]. apply mem_load_Some; [lia|].
    exists b. repeat split; try done; try lia.
    rewrite take_take. f_equal. lia.
  - destruct (decide (k = n)) as [->|].
    + rewrite Z.sub_diag, mem_load_0. f_equal. symmetry. apply drop_ge.
      rewrite length_take, length_drop. lia.
    + apply mem_load_Some; [lia|]. exists b. simpl. repeat split; try done; try lia.
      rewrite skipn_firstn_comm, drop_drop. f_equal; [lia|]. f_equal. lia.
Qed.

Lemma mem_load_join m p n k l1 l2 :
  0 <= k <= n ->
  mem_load m p k = Some l1 -> mem_load m (padd p k) (n - k) = Some l2 ->
  mem_load m p n = Some (l1 ++ l2).
Proof.
  intros Hk H1 H2.
  pose proof (mem_load_length _ _ _ _ H1) as L1. pose proof (mem_load_length _ _ _ _ H2) as L2.
  destruct (decide (k = 0)) as [->|].
  { destruct l1; [|simpl in L1; lia]. simpl. unfold padd in H2.
    rewrite Z.add_0_r, Z.sub_0_r in H2. by destruct p. }
  destruct (decide (k = n)) as [->|].
  { destruct l2; [|simpl in L2; lia]. by rewrite app_nil_r. }
  apply mem_load_Some in H1 as (b & Hb & Ho & Hbd & ->); [|lia].
  apply mem_load_Some in H2 as (b' & Hb' & Ho' & Hbd' & ->); [|lia].
  simpl in *. simplify_eq. apply mem_load_Some; [lia|].
  exists b. repeat split; try done; try lia.
  replace (Z.to_nat (p_off p + k)) with (Z.to_nat (p_off p) + Z.to_nat k)%nat by lia.
  rewrite <- drop_drop, take_take_drop. f_equal. lia.
Qed.

(** A store succeeds wherever a load of the same length does. *)
Lemma mem_store_is_Some m p bs l :
  mem_load m p (Z.of_nat (length bs)) = Some l -> is_Some (mem_store m p bs).
Proof.
  unfold mem_store. case_if; [by eauto|]. intros Hl.
  apply mem_load_Some in Hl as (b & Hb & Ho & Hbd & ->); [|lia].
  rewrite Hb. simpl. rewrite decide_True by lia.
  destruct (bset_is_Some b (Z.to_nat (p_off p)) bs) as [b' ->]; [lia|]. simpl. eauto.
Qed.

Lemma mem_store_inv m p bs m' :
  mem_store m p bs = Some m' ->
  (bs = [] /\ m' = m) \/
  exists b b', m !! p_blk p = Some b /\ 0 <= p_off p /\
    p_off p + Z.of_nat (length bs) <= Z.of_nat (length b) /\ bs <> [] /\
    bset b (Z.to_nat (p_off p)) bs = Some b' /\ m' = <[p_blk p := b']> m.
Proof.
  unfold mem_store. case_if; intros H.
  { left. split; [|by simplify_eq]. destruct bs; [done|simpl in *; lia]. }
  right. destruct (m !! p_blk p) as [b|] eqn:Hb; simplify_eq/=.
  case_decide as Hd; [|done].
  destruct (bset b _ bs) as [b'|] eqn:Hb'; simplify_eq/=.
  exists b, b'. repeat split; try tauto; try lia. by intros ->.
Qed.

Lemma mem_load_store_same m p bs m' :
  mem_store m p bs = Some m' -> mem_load m' p (Z.of_nat (length bs)) = Some bs.
Proof.
  intros H. apply mem_store_inv in H as [[-> ->]|(b & b' & Hb & Ho & Hbd & Hne & Hs & ->)];
    [done|].
  assert (0 < Z.of_nat (length bs)) by (destruct bs; [done|simpl; lia]).
  apply mem_load_Some; [done|]. exists b'. rewrite lookup_insert_eq.
  rewrite (bset_length _ _ _ _ Hs). repeat split; try lia.
  apply bget_bset in Hs. unfold bget in Hs. case_decide; [|done]. simplify_eq.
  rewrite Nat2Z.id. congruence.
Qed.

Lemma mem_load_store_disj m p bs m' q n :
  mem_store m p bs = Some m' -> range_disj p (Z.of_nat (length bs)) q n ->
  mem_load m' q n = mem_load m q n.
Proof.
  intros H Hd. apply mem_store_inv in H as [[-> ->]|(b & b' & Hb & Ho & Hbd & Hne & Hs & ->)];
    [done|].
  assert (0 < Z.of_nat (length bs)) by (destruct bs; [done|simpl; lia]).
  destruct (decide (n = 0)) as [->|Hn]; [done|].
  unfold mem_load. rewrite (proj2 (Z.eqb_neq n 0)) by done.
  destruct (decide (p_blk p = p_blk q)) as [E|E]; [|by rewrite lookup_insert_ne].
  rewrite <- E, lookup_insert_eq, Hb. simpl.
  rewrite (bset_length _ _ _ _ Hs). case_decide as Hq; [|done]. f_equal.
  apply list_eq. intros i. destruct (decide (i < Z.to_nat n)%nat) as [Hi|Hi].
  - rewrite !lookup_take_lt by lia. rewrite !lookup_drop.
    rewrite (lookup_bset _ _ _ _ _ Hs).
    destruct Hd as [?|[?|[?|[?|?]]]]; try done; try lia; by rewrite decide_False by lia.
  - by rewrite !lookup_take_ge by lia.
Qed.

(** Overwriting a prefix of a range. *)
Lemma mem_load_store_prefix m p bs m' n l :
  mem_store m p bs = Some m' -> mem_load m p n = Some l -> Z.of_nat (length bs) <= n ->
  mem_load m' p n = Some (bs ++ drop (length bs) l).
Proof.
  intros Hs Hl Hn.
  apply (mem_load_join _ _ _ (Z.of_nat (length bs))); [lia|by eapply mem_load_store_same|].
  rewrite (mem_load_store_disj m p bs m') by (auto; right; left; simpl; lia).
  destruct (mem_load_split m p n (Z.of_nat (length bs)) l ltac:(lia) Hl) as [_ ->].
  by rewrite Nat2Z.id.
Qed.

(** ** [struct iovec] and [struct tcmulib_cmd] *)

Record iovec := Iov { iov_base : ptr; iov_len : Z }.

#[export] Instance iovec_eq_dec : EqDecision iovec.
Proof. solve_decision. Defined.

(** The fields of a command that the models read and write.  [cmdstate] and
    [done] are the continuation of a compound operation and are modelled by the
    operation's own state type.
    [src tcmu-runner/libtcmu_common.h 108-123 struct tcmulib_cmd] *)
Record tcmulib_cmd := Cmd {
  cmd_id : Z;
  cdb : list Z;
  cmd_iovec : list iovec;
  iov_cnt : Z;
  sense_buf : list Z
}.

Definition set_cmd_iovec (c : tcmulib_cmd) (v : list iovec) : tcmulib_cmd :=
  Cmd (cmd_id c) (cdb c) v (iov_cnt c) (sense_buf c).
Definition set_iov_cnt (c : tcmulib_cmd) (n : Z) : tcmulib_cmd :=
  Cmd (cmd_id c) (cdb c) (cmd_iovec c) n (sense_buf c).
Definition set_sense_buf (c : tcmulib_cmd) (s : list Z) : tcmulib_cmd :=
  Cmd (cmd_id c) (cdb c) (cmd_iovec c) (iov_cnt c) s.

(** The entry after [n] bytes of it were consumed. *)
Definition iov_advance (v : iovec) (n : Z) : iovec :=
  Iov (padd (iov_base v) n) (iov_len v - n).

(** ** Operations *)

(** [pos = 0; pos < part && *spos++ == *dpos++; pos++]
    [src tcmu-runner/api.c 123-135 tcmu_compare_with_iovec] *)
Fixpoint first_mismatch (a b : list Z) : Z :=
  match a, b with
  | x :: a', y :: b' => if x =? y then 1 + first_mismatch a' b' else 0
  | _, _ => 0
  end.

(** Byte offset of the first difference between [size] bytes at [p] and the
    iovec, [-1] when there is none.
    [src tcmu-runner/api.c tcmu_compare_with_iovec] *)
Fixpoint tcmu_compare_with_iovec (m : mem) (p : ptr) (iov : list iovec)
    (size mem_off : Z) : option Z :=
  if size =? 0 then Some (-1)
  else match iov with
  | [] => None
  | v :: iov' =>
      let part := Z.min size (iov_len v) in
      a ← mem_load m (padd p mem_off) part;
      b ← mem_load m (iov_base v) part;
      if decide (a = b)
      then tcmu_compare_with_iovec m p iov' (size - part) (mem_off + part)
      else Some (first_mismatch a b + mem_off)
  end.

(** [src tcmu-runner/api.c tcmu_seek_in_iovec] *)
Fixpoint tcmu_seek_in_iovec (iov : list iovec) (count : Z) : option (list iovec * Z) :=
  if count =? 0 then Some (iov, 0)
  else match iov with
  | [] => None
  | v :: iov' =>
      if iov_len v <=? count then
        '(iov'', consumed) ← tcmu_seek_in_iovec iov' (count - iov_len v);
        Some (Iov (iov_base v) 0 :: iov'', consumed + 1)
      else Some (iov_advance v count :: iov', 0)
  end.

(** [src tcmu-runner/api.c tcmu_seek_in_cmd_iovec] *)
Definition tcmu_seek_in_cmd_iovec (c : tcmulib_cmd) (count : Z) : option tcmulib_cmd :=
  '(iov, consumed) ← tcmu_seek_in_iovec (cmd_iovec c) count;
  Some (set_iov_cnt (set_cmd_iovec c iov) (u64 (iov_cnt c - consumed))).

(** [src tcmu-runner/api.c 182-189 tcmu_iovec_length] *)
Fixpoint iovec_length_loop (iov : list iovec) (cnt length : Z) : option Z :=
  if cnt =? 0 then Some length
  else match iov with
  | [] => None
  | v :: iov' => iovec_length_loop iov' (cnt - 1) (u64 (length + iov_len v))
  end.

(** [src tcmu-runner/api.c tcmu_iovec_length] *)
Definition tcmu_iovec_length (iov : list iovec) (cnt : Z) : option Z :=
  iovec_length_loop iov cnt 0.

(** [src tcmu-runner/api.c tcmu_zero_iovec] *)
Fixpoint tcmu_zero_iovec (m : mem) (iov : list iovec) (cnt : Z) : option mem :=
  if cnt =? 0 then Some m
  else match iov with
  | [] => None
  | v :: iov' =>
      m' ← mem_store m (iov_base v) (zeros (Z.to_nat (iov_len v)));
      tcmu_zero_iovec m' iov' (cnt - 1)
  end.

(** The [while] loop.
    [src tcmu-runner/api.c 253-269 tcmu_memcpy_into_iovec] *)
Fixpoint memcpy_into_loop (m : mem) (iov : list iovec) (cnt : Z) (src : list Z)
    (len copied : Z) : option (mem * list iovec * Z) :=
  if (len =? 0) || (cnt =? 0) then Some (m, iov, copied)
  else match iov with
  | [] => None
  | v :: iov' =>
      let to_copy := Z.min (iov_len v) len in
      if to_copy =? 0 then
        '(m', iov'', c) ← memcpy_into_loop m iov' (cnt - 1) src len copied;
        Some (m', v :: iov'', c)
      else
        d ← bget src (Z.to_nat copied) (Z.to_nat to_copy);
        m1 ← mem_store m (iov_base v) d;
        '(m', iov'', c) ← memcpy_into_loop m1 iov' (cnt - 1) src (len - to_copy) (copied + to_copy);
        Some (m', iov_advance v to_copy :: iov'', c)
  end.

(** [src tcmu-runner/api.c tcmu_memcpy_into_iovec] *)
Definition tcmu_memcpy_into_iovec (m : mem) (iov : list iovec) (cnt : Z)
    (src : list Z) (len : Z) : option (mem * list iovec * Z) :=
  memcpy_into_loop m iov cnt src len 0.

(** The [while] loop.
    [src tcmu-runner/api.c 282-299 tcmu_memcpy_from_iovec] *)
Fixpoint memcpy_from_loop (m : mem) (dest : list Z) (len : Z) (iov : list iovec)
    (cnt copied : Z) : option (list Z * list iovec * Z) :=
  if (len =? 0) || (cnt =? 0) then Some (dest, iov, copied)
  else match iov with
  | [] => None
  | v :: iov' =>
      let to_copy := Z.min (iov_len v) len in
      if to_copy =? 0 then
        '(dest', iov'', c) ← memcpy_from_loop m dest len iov' (cnt - 1) copied;
        Some (dest', v :: iov'', c)
      else
        d ← mem_load m (iov_base v) to_copy;
        dest1 ← bset dest (Z.to_nat copied) d;
        '(dest', iov'', c) ← memcpy_from_loop m dest1 (len - to_copy) iov' (cnt - 1) (copied + to_copy);
        Some (dest', iov_advance v to_copy :: iov'', c)
  end.

(** [src tcmu-runner/api.c tcmu_memcpy_from_iovec] *)
Definition tcmu_memcpy_from_iovec (m : mem) (dest : list Z) (len : Z)
    (iov : list iovec) (cnt : Z) : option (list Z * list iovec * Z) :=
  memcpy_from_loop m dest len iov cnt 0.

(** ** Specification: an iovec denotes the concatenation of its segments *)

Fixpoint gather (m : mem) (iov : list iovec) : option (list Z) :=
  match iov with
  | [] => Some []
  | v :: iov' =>
      a ← mem_load m (iov_base v) (iov_len v);
      b ← gather m iov';
      Some (a ++ b)
  end.

Definition iov_total (iov : list iovec) : Z := zsum (map iov_len iov).

Definition iov_apart (v w : iovec) : Prop :=
  range_disj (iov_base v) (iov_len v) (iov_base w) (iov_len w).

Fixpoint iov_disj (iov : list iovec) : Prop :=
  match iov with
  | [] => True
  | v :: iov' => Forall (iov_apart v) iov' /\ iov_disj iov'
  end.

(** A byte range outside every segment. *)
Definition outside (iov : list iovec) (q : ptr) (n : Z) : Prop :=
  Forall (fun v => range_disj (iov_base v) (iov_len v) q n) iov.

Lemma gather_cons_inv m v iov g :
  gather m (v :: iov) = Some g ->
  exists a b, mem_load m (iov_base v) (iov_len v) = Some a /\ gather m iov = Some b /\
              g = a ++ b /\ Z.of_nat (length a) = iov_len v.
Proof.
  simpl. intros H.
  destruct (mem_load m (iov_base v) (iov_len v)) as [a|] eqn:Ha; simplify_eq/=.
  destruct (gather m iov) as [b|]; simplify_eq/=.
  exists a, b. repeat split; auto. by eapply mem_load_length.
Qed.

Lemma gather_length m iov g : gather m iov = Some g -> Z.of_nat (length g) = iov_total iov.
Proof.
  revert g. induction iov as [|v iov IH]; intros g H.
  - simpl in H. by simplify_eq.
  - apply gather_cons_inv in H as (a & b & Ha & Hb & -> & Hl).
    unfold iov_total in *. simpl. rewrite length_app. specialize (IH b Hb). lia.
Qed.

Lemma iov_total_nonneg m iov g : gather m iov = Some g -> 0 <= iov_total iov.
Proof. intros H. apply gather_length in H. lia. Qed.

(** Memories that agree on every segment agree on the whole iovec. *)
Lemma gather_agree m m' iov :
  Forall (fun v => mem_load m' (iov_base v) (iov_len v) = mem_load m (iov_base v) (iov_len v)) iov ->
  gather m' iov = gather m iov.
Proof. induction 1 as [|v iov Hv _ IH]; simpl; [done|]. by rewrite Hv, IH. Qed.

Lemma range_disj_shorter p n q k n' :
  n' <= n -> range_disj p n q k -> range_disj p n' q k.
Proof. unfold range_disj. intros. intuition lia. Qed.

(** Storing a prefix of one segment leaves the segments apart from it alone. *)
Lemma gather_store_apart m v d m1 iov :
  mem_store m (iov_base v) d = Some m1 -> Z.of_nat (length d) <= iov_len v ->
  Forall (iov_apart v) iov -> gather m1 iov = gather m iov.
Proof.
  intros Hs Hd Hf. apply gather_agree. eapply Forall_impl; [exact Hf|].
  intros w Hw. eapply mem_load_store_disj; [exact Hs|].
  by apply (range_disj_shorter _ _ _ _ _ Hd).
Qed.

Lemma range_disj_within p n q k p' n' :
  p_blk p' = p_blk p -> p_off p <= p_off p' -> p_off p' + n' <= p_off p + n ->
  range_disj p n q k -> range_disj p' n' q k.
Proof. unfold range_disj. intros -> ? ?. intuition lia. Qed.

Definition min_nat (a b : Z) : nat := Z.to_nat (Z.min a b).

(** The list part of one iteration of the copy loop: the head segment holds the
    copied bytes [take tc s] and what is left of its old contents [a], the tail
    the next [c2] bytes and what is left of [b]. *)
Lemma splice_step (s a b : list Z) (tc c2 : nat) :
  (length a <= tc)%nat \/ c2 = 0%nat ->
  (take tc s ++ drop tc a) ++ take c2 (drop tc s) ++ drop c2 b =
  take (tc + c2) s ++ drop tc a ++ drop c2 b.
Proof.
  intros [Ha| ->].
  - rewrite (drop_ge a) by lia. rewrite app_nil_r, app_assoc, take_take_drop. done.
  - by rewrite take_0, Nat.add_0_r, <- app_assoc.
Qed.

Lemma drop_splice (a b : list Z) (lv len T : Z) :
  Z.of_nat (length a) = lv -> 0 <= len -> 0 <= T ->
  drop (min_nat len (lv + T)) (a ++ b) =
  drop (Z.to_nat (Z.min lv len)) a ++ drop (min_nat (len - Z.min lv len) T) b.
Proof.
  intros Ha Hlen HT. rewrite drop_app. unfold min_nat. destruct (decide (lv <= len)).
  - rewrite !(drop_ge a) by lia. simpl. f_equal. lia.
  - f_equal; f_equal; lia.
Qed.

(** One iteration on a non-empty head segment. *)
Lemma memcpy_into_head m v iov a b d :
  mem_load m (iov_base v) (iov_len v) = Some a -> gather m iov = Some b ->
  Forall (iov_apart v) iov -> Z.of_nat (length d) <= iov_len v ->
  exists m1, mem_store m (iov_base v) d = Some m1 /\ gather m1 iov = Some b /\
    (forall q n, range_disj (iov_base v) (iov_len v) q n -> mem_load m1 q n = mem_load m q n) /\
    forall m', (forall q n, outside iov q n -> mem_load m' q n = mem_load m1 q n) ->
      mem_load m' (iov_base v) (iov_len v) = Some (d ++ drop (length d) a) /\
      mem_load m' (padd (iov_base v) (Z.of_nat (length d))) (iov_len v - Z.of_nat (length d)) =
        Some (drop (length d) a).
Proof.
  intros Ha Hb Hap Hd.
  destruct (mem_load_split m (iov_base v) (iov_len v) (Z.of_nat (length d)) a ltac:(lia) Ha)
    as [Hpre Hpost].
  destruct (mem_store_is_Some m (iov_base v) d _ Hpre) as [m1 Hm1].
  exists m1. split; [done|]. split; [by rewrite (gather_store_apart m v d m1 iov)|]. split.
  { intros q n Hq. eapply mem_load_store_disj; [exact Hm1|].
    by apply (range_disj_shorter _ (iov_len v)). }
  intros m' HF.
  assert (forall p n, p_blk p = p_blk (iov_base v) -> p_off (iov_base v) <= p_off p ->
    p_off p + n <= p_off (iov_base v) + iov_len v -> mem_load m' p n = mem_load m1 p n) as Hsub.
  { intros p n E1 E2 E3. apply HF. eapply Forall_impl; [exact Hap|].
    intros w Hw. apply range_disj_sym. by eapply range_disj_within. }
  split.
  - rewrite Hsub by (try done; lia). by eapply mem_load_store_prefix.
  - rewrite Hsub by (simpl; try done; lia). rewrite Nat2Z.id in Hpost. rewrite <- Hpost.
    eapply mem_load_store_disj; [exact Hm1|]. right. left. simpl. lia.
Qed.

Lemma memcpy_into_loop_spec iov : forall m g src len copied,
  gather m iov = Some g -> iov_disj iov ->
  0 <= len -> 0 <= copied -> copied + len <= Z.of_nat (length src) ->
  exists m' iov',
    memcpy_into_loop m iov (Z.of_nat (length iov)) src len copied =
      Some (m', iov', copied + Z.min len (iov_total iov)) /\
    gather m' iov = Some (take (min_nat len (iov_total iov)) (drop (Z.to_nat copied) src)
                          ++ drop (min_nat len (iov_total iov)) g) /\
    gather m' iov' = Some (drop (min_nat len (iov_total iov)) g) /\
    (forall q n, outside iov q n -> mem_load m' q n = mem_load m q n).
Proof.
  induction iov as [|v iov IH]; intros m g src len copied Hg Hd Hlen Hc Hsrc.
  { assert (g = []) as -> by (simpl in Hg; congruence). exists m, [].
    unfold min_nat, iov_total. cbn [map zsum fold_right length Z.of_nat].
    rewrite Z.min_r by lia. cbn [memcpy_into_loop]. rewrite Z.eqb_refl, orb_true_r.
    rewrite Z.add_0_r. auto. }
  pose proof (gather_cons_inv _ _ _ _ Hg) as (a & b & Ha & Hb & -> & La).
  pose proof (iov_total_nonneg _ _ _ Hb) as HT.
  destruct Hd as [Hap Hd].
  change (iov_total (v :: iov)) with (iov_len v + iov_total iov).
  cbn [memcpy_into_loop].
  destruct (Z.eqb_spec len 0) as [->|Hl0]; cbn [orb].
  { exists m, (v :: iov). unfold min_nat. rewrite Z.min_l by lia. rewrite Z.add_0_r. auto. }
  rewrite (proj2 (Z.eqb_neq (Z.of_nat (length (v :: iov))) 0)) by (simpl; lia).
  replace (Z.of_nat (length (v :: iov)) - 1) with (Z.of_nat (length iov)) by (simpl; lia).
  destruct (Z.eqb_spec (Z.min (iov_len v) len) 0) as [Hz|Hz].
  - (* an empty segment is skipped *)
    assert (iov_len v = 0) as Hv0 by lia.
    destruct (IH m b src len copied) as (m' & iov' & E & G1 & G2 & F); auto.
    rewrite E. cbn. exists m', (v :: iov').
    destruct a; [|simpl in La; lia]. cbn. rewrite Hv0, mem_load_0, G1, G2. repeat split; auto.
    intros q n Hq. apply F. by inversion Hq.
  - set (tc := Z.min (iov_len v) len) in *.
    unfold bget. rewrite decide_True by lia. cbn [mbind option_bind].
    set (d := take (Z.to_nat tc) (drop (Z.to_nat copied) src)).
    assert (length d = Z.to_nat tc) as Ld by (unfold d; rewrite length_take, length_drop; lia).
    destruct (memcpy_into_head m v iov a b d) as (m1 & Hm1 & Hb1 & HF1 & Hhead); auto; [lia|].
    rewrite Hm1. cbn [mbind option_bind].
    destruct (IH m1 b src (len - tc) (copied + tc)) as (m' & iov' & E & G1 & G2 & F); auto; try lia.
    rewrite E. cbn [mbind option_bind]. exists m', (iov_advance v tc :: iov').
    destruct (Hhead m' F) as [H1 H2]. rewrite Ld, Z2Nat.id in H2 by lia. rewrite Ld in H1.
    split; [f_equal; f_equal; lia|].
    rewrite (drop_splice _ _ _ _ _ La) by lia. fold tc.
    cbn [gather]. rewrite H1. cbn [iov_base iov_len iov_advance]. rewrite H2, G1, G2.
    cbn [mbind option_bind]. split; [|split; [done|]].
    + f_equal. unfold d.
      replace (Z.to_nat (copied + tc)) with (Z.to_nat copied + Z.to_nat tc)%nat by lia.
      rewrite <- drop_drop, splice_step by (unfold min_nat; lia).
      f_equal. f_equal. unfold min_nat. lia.
    + intros q n Hq. inversion Hq as [|? ? Hq1 Hq2]; subst. rewrite F by done. by apply HF1.
Qed.

(** [tcmu_memcpy_into_iovec] writes the first [min len total] bytes of the
    source at the front of the iovec's data, leaves the rest of that data and
    every byte outside the iovec unchanged, never touches memory out of bounds,
    returns the number of bytes written and leaves the iovec denoting exactly
    the space that was not used. *)
Theorem tcmu_memcpy_into_iovec_spec (m : mem) (iov : list iovec) (g src : list Z) (len : Z)
  (Hg : gather m iov = Some g) (Hd : iov_disj iov)
  (Hlen : 0 <= len <= Z.of_nat (length src)) :
  let n := min_nat len (iov_total iov) in
  exists m' iov',
    tcmu_memcpy_into_iovec m iov (Z.of_nat (length iov)) src len =
      Some (m', iov', Z.min len (iov_total iov)) /\
    gather m' iov = Some (take n src ++ drop n g) /\
    gather m' iov' = Some (drop n g) /\
    (forall q k, outside iov q k -> mem_load m' q k = mem_load m q k).
Proof.
  destruct (memcpy_into_loop_spec iov m g src len 0 Hg Hd) as (m' & iov' & H); try lia.
  exists m', iov'. exact H.
Qed.

Lemma tcmu_memcpy_into_iovec_spec_witness :
  exists m' iov',
    tcmu_memcpy_into_iovec {[ 0%nat := zeros 8 ]} [Iov (Ptr 0 0) 2; Iov (Ptr 0 4) 3] 2 [1;2;3;4] 4 =
      Some (m', iov', 4) /\
    gather m' [Iov (Ptr 0 0) 2; Iov (Ptr 0 4) 3] = Some [1;2;3;4;0] /\
    gather m' iov' = Some [0] /\
    (forall q k, outside [Iov (Ptr 0 0) 2; Iov (Ptr 0 4) 3] q k ->
       mem_load m' q k = mem_load {[ 0%nat := zeros 8 ]} q k).
Proof.
  apply (tcmu_memcpy_into_iovec_spec {[ 0%nat := zeros 8 ]}
           [Iov (Ptr 0 0) 2; Iov (Ptr 0 4) 3] [0;0;0;0;0] [1;2;3;4] 4).
  - vm_compute. reflexivity.
  - split; [|split; [constructor|exact I]].
    constructor; [|constructor]. right. left. simpl. lia.
  - simpl. lia.
Defined.

(** The reading direction: one iteration's list identity is that of a prefix
    copy into the destination buffer. *)
Lemma bset_take_drop (dest d : list Z) k n :
  length d = n -> (k + n <= length dest)%nat ->
  bset dest k d = Some (take k dest ++ d ++ drop (k + n) dest).
Proof. intros <- H. unfold bset. by rewrite decide_True by lia. Qed.

Lemma splice_from (dest a b : list Z) (k tc c2 : nat) :
  (k + tc <= length dest)%nat -> (tc <= length a)%nat ->
  (length a <= tc)%nat \/ c2 = 0%nat ->
  let dest1 := take k dest ++ take tc a ++ drop (k + tc) dest in
  take (k + tc) dest1 ++ take c2 b ++ drop (k + tc + c2) dest1 =
  take k dest ++ take (tc + c2) (a ++ b) ++ drop (k + (tc + c2)) dest.
Proof.
  intros Hk Ht Hc dest1. unfold dest1.
  assert (length (take k dest) = k) as Lk by (rewrite length_take; lia).
  assert (length (take tc a) = tc) as La by (rewrite length_take; lia).
  rewrite (app_assoc (take k dest)).
  rewrite take_app_length', (drop_app_add' _ _ (k + tc)) by (rewrite length_app; lia).
  rewrite <- app_assoc. f_equal. rewrite drop_drop, <- Nat.add_assoc, app_assoc. f_equal.
  destruct Hc as [Hc| ->].
  - rewrite (take_ge a) by lia. rewrite take_app_split by lia. f_equal. f_equal. lia.
  - rewrite take_0, Nat.add_0_r, app_nil_r. by rewrite take_app_le by lia.
Qed.

Lemma memcpy_from_loop_spec iov : forall m g dest len copied,
  gather m iov = Some g ->
  0 <= len -> 0 <= copied -> copied + len <= Z.of_nat (length dest) ->
  exists iov',
    memcpy_from_loop m dest len iov (Z.of_nat (length iov)) copied =
      Some (take (Z.to_nat copied) dest ++ take (min_nat len (iov_total iov)) g
              ++ drop (Z.to_nat copied + min_nat len (iov_total iov)) dest,
            iov', copied + Z.min len (iov_total iov)) /\
    gather m iov' = Some (drop (min_nat len (iov_total iov)) g).
Proof.
  induction iov as [|v iov IH]; intros m g dest len copied Hg Hlen Hc Hdest.
  { assert (g = []) as -> by (simpl in Hg; congruence). exists [].
    unfold min_nat, iov_total. cbn [map zsum fold_right length Z.of_nat].
    rewrite Z.min_r by lia. cbn [memcpy_from_loop]. rewrite Z.eqb_refl, orb_true_r.
    rewrite Z.add_0_r, Nat.add_0_r. simpl. by rewrite take_drop. }
  pose proof (gather_cons_inv _ _ _ _ Hg) as (a & b & Ha & Hb & -> & La).
  pose proof (iov_total_nonneg _ _ _ Hb) as HT.
  change (iov_total (v :: iov)) with (iov_len v + iov_total iov).
  cbn [memcpy_from_loop].
  destruct (Z.eqb_spec len 0) as [->|Hl0]; cbn [orb].
  { exists (v :: iov). unfold min_nat. rewrite Z.min_l by lia. simpl.
    by rewrite Z.add_0_r, Nat.add_0_r, take_drop. }
  rewrite (proj2 (Z.eqb_neq (Z.of_nat (length (v :: iov))) 0)) by (simpl; lia).
  replace (Z.of_nat (length (v :: iov)) - 1) with (Z.of_nat (length iov)) by (simpl; lia).
  destruct (Z.eqb_spec (Z.min (iov_len v) len) 0) as [Hz|Hz].
  - assert (iov_len v = 0) as Hv0 by lia.
    destruct (IH m b dest len copied) as (iov' & E & G); auto.
    rewrite E. cbn [mbind option_bind]. exists (v :: iov').
    destruct a; [|simpl in La; lia]. rewrite Hv0, Z.add_0_l. split; [done|].
    cbn [gather]. by rewrite Hv0, mem_load_0, G.
  - set (tc := Z.min (iov_len v) len) in *.
    destruct (mem_load_split m (iov_base v) (iov_len v) tc a ltac:(lia) Ha) as [Hpre Hpost].
    rewrite Hpre. cbn [mbind option_bind].
    assert (length (take (Z.to_nat tc) a) = Z.to_nat tc) as Lt by (rewrite length_take; lia).
    rewrite (bset_take_drop _ _ _ _ Lt) by lia. cbn [mbind option_bind].
    set (dest1 := take (Z.to_nat copied) dest ++ take (Z.to_nat tc) a ++
                  drop (Z.to_nat copied + Z.to_nat tc) dest).
    assert (length dest1 = length dest) as Ld.
    { unfold dest1. rewrite !length_app, Lt, length_take, length_drop. lia. }
    destruct (IH m b dest1 (len - tc) (copied + tc)) as (iov' & E & G); auto; try lia.
    rewrite E. cbn [mbind option_bind]. exists (iov_advance v tc :: iov').
    rewrite (drop_splice _ _ _ _ _ La) by lia. fold tc. split.
    2: { cbn [gather]. cbn [iov_base iov_len iov_advance]. by rewrite Hpost, G. }
    f_equal. f_equal; [|lia]. f_equal.
    set (c2 := min_nat (len - tc) (iov_total iov)).
    assert (min_nat len (iov_len v + iov_total iov) = (Z.to_nat tc + c2)%nat) as ->
      by (unfold min_nat, c2, min_nat; lia).
    replace (Z.to_nat (copied + tc)) with (Z.to_nat copied + Z.to_nat tc)%nat by lia.
    apply splice_from; [lia|lia|]. unfold c2, min_nat. lia.
Qed.

(** [tcmu_memcpy_from_iovec] returns [min len total], puts exactly that
    many leading bytes of the iovec's data at the front of the destination and
    keeps the rest of the destination, without an out-of-bounds access. *)
Theorem tcmu_memcpy_from_iovec_spec (m : mem) (iov : list iovec) (g dest : list Z) (len : Z)
  (Hg : gather m iov = Some g) (Hlen : 0 <= len <= Z.of_nat (length dest)) :
  let n := min_nat len (iov_total iov) in
  exists iov',
    tcmu_memcpy_from_iovec m dest len iov (Z.of_nat (length iov)) =
      Some (take n g ++ drop n dest, iov', Z.min len (iov_total iov)) /\
    gather m iov' = Some (drop n g).
Proof.
  destruct (memcpy_from_loop_spec iov m g dest len 0 Hg) as (iov' & E & G); try lia.
  exists iov'. split; [exact E|exact G].
Qed.

Lemma tcmu_memcpy_from_iovec_spec_witness :
  exists iov',
    tcmu_memcpy_from_iovec {[ 0%nat := [9;8;7;6;5] ]} (zeros 4) 4
      [Iov (Ptr 0 0) 1; Iov (Ptr 0 3) 2] 2 = Some ([9;6;5;0], iov', 3) /\
    gather {[ 0%nat := [9;8;7;6;5] ]} iov' = Some [].
Proof.
  apply (tcmu_memcpy_from_iovec_spec {[ 0%nat := [9;8;7;6;5] ]}
           [Iov (Ptr 0 0) 1; Iov (Ptr 0 3) 2] [9;6;5] (zeros 4) 4).
  - vm_compute. reflexivity.
  - simpl. lia.
Defined.

(** ** Seeking *)

(** The whole of a scatter list into a zeroed buffer of its size. *)
Lemma gather_whole m iov g :
  gather m iov = Some g ->
  exists iov', tcmu_memcpy_from_iovec m (zeros (length g)) (Z.of_nat (length g)) iov (Z.of_nat (length iov)) =
    Some (g, iov', Z.of_nat (length g)).
Proof.
  intros Hg. unfold tcmu_memcpy_from_iovec.
  destruct (memcpy_from_loop_spec iov m g (zeros (length g)) (Z.of_nat (length g)) 0 Hg)
    as (iov' & E & _); [lia|lia|rewrite length_zeros; lia|].
  exists iov'. rewrite E, <- (gather_length _ _ _ Hg). unfold min_nat. rewrite Z.min_id, Nat2Z.id.
  by rewrite firstn_all, drop_ge, app_nil_r by (rewrite length_zeros; lia).
Qed.

Lemma tcmu_seek_in_iovec_spec iov : forall m g count,
  gather m iov = Some g -> 0 <= count <= iov_total iov ->
  exists iov' k,
    tcmu_seek_in_iovec iov count = Some (iov', k) /\
    length iov' = length iov /\ 0 <= k <= Z.of_nat (length iov) /\
    gather m iov' = Some (drop (Z.to_nat count) g) /\
    Forall (fun v => iov_len v = 0) (take (Z.to_nat k) iov').
Proof.
  induction iov as [|v iov IH]; intros m g count Hg Hc.
  { assert (count = 0) as -> by (unfold iov_total in Hc; simpl in Hc; lia).
    exists [], 0. simpl in *. simplify_eq. repeat split; auto; lia. }
  pose proof (gather_cons_inv _ _ _ _ Hg) as (a & b & Ha & Hb & -> & La).
  change (iov_total (v :: iov)) with (iov_len v + iov_total iov) in Hc.
  cbn [tcmu_seek_in_iovec].
  destruct (Z.eqb_spec count 0) as [->|Hc0].
  { exists (v :: iov), 0. rewrite take_0. simpl. repeat split; auto; lia. }
  destruct (Z.leb_spec (iov_len v) count) as [Hle|Hgt].
  - destruct (IH m b (count - iov_len v)) as (iov' & k & E & L & K & G & F); auto; [lia|].
    rewrite E. cbn [mbind option_bind]. exists (Iov (iov_base v) 0 :: iov'), (k + 1).
    split; [done|]. split; [simpl; lia|]. split; [simpl; lia|]. split.
    + cbn [gather iov_base iov_len]. rewrite mem_load_0, G. cbn [mbind option_bind app].
      rewrite drop_app, (drop_ge a) by lia. simpl. f_equal. f_equal. lia.
    + replace (Z.to_nat (k + 1)) with (S (Z.to_nat k)) by lia. simpl. auto.
  - destruct (mem_load_split m (iov_base v) (iov_len v) count a ltac:(lia) Ha) as [_ Hpost].
    exists (iov_advance v count :: iov), 0. repeat split; simpl; auto; try lia.
    rewrite Hpost, Hb. cbn [mbind option_bind]. rewrite drop_app.
    replace (Z.to_nat count - length a)%nat with 0%nat by lia. done.
Qed.

(** [tcmu_iovec_length] is the total modulo 2^64. *)
Lemma iovec_length_loop_spec iov : forall acc,
  iovec_length_loop iov (Z.of_nat (length iov)) (u64 acc) = Some (u64 (acc + iov_total iov)).
Proof.
  induction iov as [|v iov IH]; intros acc.
  - cbn. f_equal. unfold iov_total. simpl. f_equal. lia.
  - cbn [iovec_length_loop]. rewrite (proj2 (Z.eqb_neq _ 0)) by (simpl; lia).
    replace (Z.of_nat (length (v :: iov)) - 1) with (Z.of_nat (length iov)) by (simpl; lia).
    assert (u64 (u64 acc + iov_len v) = u64 (acc + iov_len v)) as ->
      by (unfold u64, wrap; by rewrite Zplus_mod_idemp_l).
    rewrite IH. f_equal. f_equal. unfold iov_total. simpl. lia.
Qed.

Lemma tcmu_iovec_length_spec iov :
  tcmu_iovec_length iov (Z.of_nat (length iov)) = Some (u64 (iov_total iov)).
Proof. apply (iovec_length_loop_spec iov 0). Qed.

(** ** Comparison *)

Lemma first_mismatch_spec a : forall b,
  length a = length b -> a <> b ->
  let k := Z.to_nat (first_mismatch a b) in
  0 <= first_mismatch a b < Z.of_nat (length a) /\ take k a = take k b /\ a !! k <> b !! k.
Proof.
  induction a as [|x a IH]; intros [|y b] Hl Hne; simplify_eq/=.
  destruct (Z.eqb_spec x y) as [->|Hxy].
  - destruct (IH b) as (Hr & Ht & Hd); [lia|by intros ->|].
    replace (Z.to_nat (1 + first_mismatch a b)) with (S (Z.to_nat (first_mismatch a b))) by lia.
    simpl. split; [lia|]. split; [by f_equal|done].
  - simpl. split; [lia|]. split; [done|]. congruence.
Qed.

(** What the comparison promises: [-1] exactly when the two byte strings are
    equal, otherwise the offset of the first difference. *)
Definition compare_result (x y : list Z) (base r : Z) : Prop :=
  if r =? -1 then x = y
  else base <= r < base + Z.of_nat (length x) /\
       let k := Z.to_nat (r - base) in take k x = take k y /\ x !! k <> y !! k.

Lemma compare_result_app_eq a x y base r :
  0 <= base ->
  compare_result x y (base + Z.of_nat (length a)) r ->
  compare_result (a ++ x) (a ++ y) base r.
Proof.
  intros Hb. unfold compare_result. case_if; [by intros ->|].
  intros (Hr & Ht & Hd). rewrite length_app. split; [lia|].
  assert (Z.to_nat (r - base) =
    (length a + Z.to_nat (r - (base + Z.of_nat (length a))))%nat) as -> by lia.
  rewrite !take_app_add, !lookup_app_r by lia. split; [by rewrite Ht|].
  by replace (length a + Z.to_nat (r - (base + Z.of_nat (length a))) - length a)%nat
    with (Z.to_nat (r - (base + Z.of_nat (length a)))) by lia.
Qed.

Lemma compare_result_app_ne a b x y base :
  0 <= base -> length a = length b -> a <> b ->
  compare_result (a ++ x) (b ++ y) base (first_mismatch a b + base).
Proof.
  intros Hb Hl Hne. destruct (first_mismatch_spec a b Hl Hne) as (Hr & Ht & Hd).
  unfold compare_result. rewrite (proj2 (Z.eqb_neq _ _)) by lia.
  rewrite length_app. split; [lia|]. cbv zeta.
  replace (Z.to_nat (first_mismatch a b + base - base)) with (Z.to_nat (first_mismatch a b)) by lia.
  rewrite !take_app_le, !lookup_app_l by lia. auto.
Qed.

Lemma compare_loop_spec iov : forall m p g x size mem_off,
  gather m iov = Some g -> 0 <= size <= iov_total iov -> 0 <= mem_off ->
  mem_load m (padd p mem_off) size = Some x ->
  exists r, tcmu_compare_with_iovec m p iov size mem_off = Some r /\
    compare_result x (take (Z.to_nat size) g) mem_off r.
Proof.
  induction iov as [|v iov IH]; intros m p g x size mem_off Hg Hs Ho Hx.
  { assert (size = 0) as -> by (unfold iov_total in Hs; simpl in Hs; lia).
    exists (-1). split; [done|]. rewrite mem_load_0 in Hx. simplify_eq. by unfold compare_result. }
  pose proof (gather_cons_inv _ _ _ _ Hg) as (a & b & Ha & Hb & -> & La).
  pose proof (iov_total_nonneg _ _ _ Hb) as HT.
  change (iov_total (v :: iov)) with (iov_len v + iov_total iov) in Hs.
  cbn [tcmu_compare_with_iovec].
  destruct (Z.eqb_spec size 0) as [->|Hs0].
  { exists (-1). split; [done|]. rewrite mem_load_0 in Hx. simplify_eq. by unfold compare_result. }
  remember (Z.min size (iov_len v)) as part eqn:Epart.
  destruct (mem_load_split m (padd p mem_off) size part x ltac:(lia) Hx) as [X1 X2].
  destruct (mem_load_split m (iov_base v) (iov_len v) part a ltac:(lia) Ha) as [A1 _].
  rewrite X1, A1. cbn [mbind option_bind].
  pose proof (mem_load_length _ _ _ _ X1) as LX. pose proof (mem_load_length _ _ _ _ A1) as LA.
  pose proof (mem_load_length _ _ _ _ Hx) as LXX.
  assert (take (Z.to_nat size) (a ++ b) =
          take (Z.to_nat part) a ++ take (Z.to_nat (size - part)) b) as Hg'.
  { rewrite take_app. f_equal; [|f_equal; lia].
    destruct (decide (size <= iov_len v)); [f_equal; lia|]. rewrite !take_ge by lia. done. }
  rewrite Hg'. case_decide as Heq.
  - destruct (IH m p b (drop (Z.to_nat part) x) (size - part) (mem_off + part))
      as (r & E & C); auto; try lia.
    { rewrite <- X2. unfold padd. simpl. by rewrite Z.add_assoc. }
    exists r. split; [done|]. rewrite <- Heq.
    rewrite <- (take_drop (Z.to_nat part) x) at 1. apply compare_result_app_eq; [done|].
    by rewrite LX.
  - exists (first_mismatch (take (Z.to_nat part) x) (take (Z.to_nat part) a) + mem_off).
    split; [done|]. rewrite <- (take_drop (Z.to_nat part) x) at 1.
    apply compare_result_app_ne; [done|lia|done].
Qed.

(** Comparing [size] bytes of a buffer with an iovec that holds at least
    that many returns [-1] exactly when they are equal and otherwise the
    offset of the first byte that differs. *)
Theorem tcmu_compare_with_iovec_spec (m : mem) (p : ptr) (iov : list iovec) (g x : list Z) (size : Z)
  (Hg : gather m iov = Some g) (Hs : 0 <= size <= iov_total iov)
  (Hx : mem_load m p size = Some x) :
  exists r, tcmu_compare_with_iovec m p iov size 0 = Some r /\
    compare_result x (take (Z.to_nat size) g) 0 r.
Proof.
  apply compare_loop_spec; auto; [lia|]. unfold padd. rewrite Z.add_0_r. by destruct p.
Qed.

Lemma tcmu_compare_with_iovec_spec_witness :
  exists r, tcmu_compare_with_iovec {[ 0%nat := [1;2;3;1;2;4] ]} (Ptr 0 0)
              [Iov (Ptr 0 3) 2; Iov (Ptr 0 5) 1] 3 0 = Some r /\
    compare_result [1;2;3] [1;2;4] 0 r.
Proof.
  apply (tcmu_compare_with_iovec_spec {[ 0%nat := [1;2;3;1;2;4] ]} (Ptr 0 0)
           [Iov (Ptr 0 3) 2; Iov (Ptr 0 5) 1] [1;2;4] [1;2;3] 3).
  - vm_compute. reflexivity.
  - vm_compute. split; discriminate.
  - vm_compute. reflexivity.
Defined.

(** ** The command-level seek

    [tcmu_seek_in_cmd_iovec] lowers [iov_cnt] by the number of consumed entries
    but leaves [cmd->iovec] pointing at the consumed ones, so the entries a
    caller can still reach are the first [iov_cnt - consumed] of the array. *)

Definition reachable_iovec (c : tcmulib_cmd) : list iovec :=
  take (Z.to_nat (iov_cnt c)) (cmd_iovec c).

(** When no entry is consumed entirely the seek is right. *)
Lemma tcmu_seek_in_cmd_iovec_inside c m g count c' :
  iov_cnt c = Z.of_nat (length (cmd_iovec c)) -> iov_cnt c < 2 ^ 64 ->
  gather m (cmd_iovec c) = Some g -> 0 <= count ->
  match cmd_iovec c with v :: _ => count < iov_len v | [] => False end ->
  tcmu_seek_in_cmd_iovec c count = Some c' ->
  gather m (reachable_iovec c') = Some (drop (Z.to_nat count) g).
Proof.
  intros Hn Hb Hg Hc Hv H. unfold tcmu_seek_in_cmd_iovec in H.
  destruct (cmd_iovec c) as [|v iov] eqn:E; [done|].
  destruct (tcmu_seek_in_iovec_spec (v :: iov) m g count Hg) as (iov' & k & Hk & L & _ & G & _).
  { pose proof (gather_cons_inv _ _ _ _ Hg) as (a & b & Ha & Hb' & -> & La).
    pose proof (iov_total_nonneg _ _ _ Hb').
    change (iov_total (v :: iov)) with (iov_len v + iov_total iov). lia. }
  rewrite Hk in H. cbn [mbind option_bind] in H. simplify_eq.
  assert (k = 0) as ->.
  { cbn [tcmu_seek_in_iovec] in Hk. destruct (Z.eqb_spec count 0); [congruence|].
    rewrite (proj2 (Z.leb_gt _ _)) in Hk by lia. congruence. }
  unfold reachable_iovec. simpl. rewrite Z.sub_0_r, u64_small by lia.
  rewrite take_ge by lia. done.
Qed.

(** The seek loses data as soon as one entry is consumed entirely.  On an
    iovec with two entries, seeking over exactly the first one leaves a command
    whose only reachable entry is the consumed one: nothing of the second
    entry's data can be reached although none of it was consumed.  This is the
    state in which [handle_caw_read_cbk] hands the command to the backend when
    the verify and the write data of a COMPARE AND WRITE arrive in separate
    entries. *)
Theorem tcmu_seek_in_cmd_iovec_drops_data (id : Z) (cb sb : list Z) (p q : ptr) (n k : Z)
  (Hn : 0 < n) (Hk : 0 < k) :
  exists c', tcmu_seek_in_cmd_iovec (Cmd id cb [Iov p n; Iov q k] 2 sb) n = Some c' /\
    reachable_iovec c' = [Iov p 0] /\
    tcmu_iovec_length (cmd_iovec c') (iov_cnt c') = Some 0.
Proof.
  exists (Cmd id cb [Iov p 0; Iov q k] 1 sb).
  unfold tcmu_seek_in_cmd_iovec. cbn [cmd_iovec tcmu_seek_in_iovec].
  rewrite (proj2 (Z.eqb_neq n 0)) by lia. rewrite (proj2 (Z.leb_le _ _)) by (simpl; lia).
  cbn [iov_len]. rewrite Z.sub_diag. cbn. repeat split.
Qed.

Lemma tcmu_seek_in_cmd_iovec_drops_data_witness :
  exists c', tcmu_seek_in_cmd_iovec (Cmd 1 [] [Iov (Ptr 0 0) 512; Iov (Ptr 0 512) 512] 2 []) 512 = Some c' /\
    reachable_iovec c' = [Iov (Ptr 0 0) 0] /\
    tcmu_iovec_length (cmd_iovec c') (iov_cnt c') = Some 0.
Proof. apply tcmu_seek_in_cmd_iovec_drops_data; lia. Defined.
