(* ===== verification/Sense.v ===== *)
(** * Sense data

    The big-endian stores of [be_byteshift.h], the sense-buffer builders of
    [api.c] and the translation of [TCMU_STS_*] codes into SCSI status and
    fixed-format sense data ([tcmu_sts_to_scsi] of [libtcmu.c]). *)

From S2P Require Import Prelude Scsi.

(** ** [be_byteshift.h] *)

(** [src tcmu-runner/be_byteshift.h 4-15 put_unaligned_be32] *)
Definition put_unaligned_be32 (val : Z) (buf : list Z) (off : nat) : option (list Z) :=
  buf ← bset1 buf off (Z.shiftr val 24);
  buf ← bset1 buf (off + 1) (Z.shiftr val 16);
  buf ← bset1 buf (off + 2) (Z.shiftr val 8);
  bset1 buf (off + 3) val.

(** [src tcmu-runner/be_byteshift.h 17-26 put_unaligned_be16] *)
Definition put_unaligned_be16 (val : Z) (buf : list Z) (off : nat) : option (list Z) :=
  buf ← bset1 buf off (Z.shiftr val 8);
  bset1 buf (off + 1) val.

(** [src tcmu-runner/be_byteshift.h 28-36 get_unaligned_be16] *)
Definition get_unaligned_be16 (buf : list Z) (off : nat) : option Z :=
  b0 ← bget1 buf off; b1 ← bget1 buf (off + 1);
  Some (u16 (Z.lor (Z.shiftl b0 8) b1)).

(** The public wrapper returns [uint16_t].
    [src tcmu-runner/be_byteshift.h 38-46 get_unaligned_be32] *)
Definition get_unaligned_be32 (buf : list Z) (off : nat) : option Z :=
  b0 ← bget1 buf off; b1 ← bget1 buf (off + 1);
  b2 ← bget1 buf (off + 2); b3 ← bget1 buf (off + 3);
  Some (u16 (u32 (Z.lor (Z.lor (Z.lor (Z.shiftl b0 24) (Z.shiftl b1 16)) (Z.shiftl b2 8)) b3))).

(** ** Sense buffers of [api.c] *)

(** [src tcmu-runner/api.c __tcmu_set_sense_data] *)
Definition __tcmu_set_sense_data (sense_buf : list Z) (key asc_ascq : Z) : option (list Z) :=
  sense_buf ← bset1 sense_buf 0 0x70;
  sense_buf ← bset1 sense_buf 2 key;
  sense_buf ← bset1 sense_buf 7 0xa;
  sense_buf ← bset1 sense_buf 12 (Z.land (Z.shiftr asc_ascq 8) 0xff);
  bset1 sense_buf 13 (Z.land asc_ascq 0xff).

(** [src tcmu-runner/api.c tcmu_set_sense_data] *)
Definition tcmu_set_sense_data (sense_buf : list Z) (key asc_ascq : Z)
    : option (list Z * tcmu_sts) :=
  sense_buf ← bset sense_buf 0 (zeros 18);
  sense_buf ← __tcmu_set_sense_data sense_buf key asc_ascq;
  Some (sense_buf, TCMU_STS_PASSTHROUGH_ERR).

(** [src tcmu-runner/api.c tcmu_set_sense_key_specific_info] *)
Definition tcmu_set_sense_key_specific_info (sense_buf : list Z) (info : Z) : option (list Z) :=
  sense_buf ← bset sense_buf 0 (zeros 18);
  sense_buf ← put_unaligned_be16 (u16 info) sense_buf 16;
  b ← bget1 sense_buf 15;
  bset1 sense_buf 15 (Z.lor b 0x80).

(** [src tcmu-runner/api.c tcmu_set_sense_info] *)
Definition tcmu_set_sense_info (sense_buf : list Z) (info : Z) : option (list Z) :=
  sense_buf ← bset sense_buf 0 (zeros 18);
  sense_buf ← put_unaligned_be32 (u32 info) sense_buf 3;
  b ← bget1 sense_buf 0;
  bset1 sense_buf 0 (Z.lor b 0x80).

(** ** [tcmu_sts_to_scsi] *)

Definition sense_and_check (sense : list Z) (key asc_ascq : Z) : option (Z * list Z) :=
  '(sense, _) ← tcmu_set_sense_data sense key asc_ascq;
  Some (SAM_STAT_CHECK_CONDITION, sense).

Definition sense_keep_and_check (sense : list Z) (key asc_ascq : Z) : option (Z * list Z) :=
  sense ← __tcmu_set_sense_data sense key asc_ascq;
  Some (SAM_STAT_CHECK_CONDITION, sense).

(** [src tcmu-runner/libtcmu.c tcmu_sts_to_scsi] *)
Definition tcmu_sts_to_scsi (s : tcmu_sts) (sense : list Z) : option (Z * list Z) :=
  match s with
  | TCMU_STS_OK => Some (SAM_STAT_GOOD, sense)
  | TCMU_STS_NO_RESOURCE => Some (SAM_STAT_TASK_SET_FULL, sense)
  | TCMU_STS_TIMEOUT | TCMU_STS_BUSY => Some (SAM_STAT_BUSY, sense)
  | TCMU_STS_PASSTHROUGH_ERR => Some (SAM_STAT_CHECK_CONDITION, sense)
  | TCMU_STS_RANGE => sense_and_check sense ILLEGAL_REQUEST 0x2100
  | TCMU_STS_HW_ERR => sense_and_check sense HARDWARE_ERROR 0x4400
  | TCMU_STS_MISCOMPARE => sense_keep_and_check sense MISCOMPARE 0x1d00
  | TCMU_STS_RD_ERR => sense_and_check sense MEDIUM_ERROR 0x1100
  | TCMU_STS_WR_ERR => sense_and_check sense MEDIUM_ERROR 0x0C00
  | TCMU_STS_INVALID_CDB => sense_and_check sense ILLEGAL_REQUEST 0x2400
  | TCMU_STS_INVALID_PARAM_LIST => sense_and_check sense ILLEGAL_REQUEST 0x2600
  | TCMU_STS_INVALID_PARAM_LIST_LEN => sense_and_check sense ILLEGAL_REQUEST 0x1a00
  | TCMU_STS_NOTSUPP_SEG_DESC_TYPE => sense_and_check sense ILLEGAL_REQUEST 0x2609
  | TCMU_STS_NOTSUPP_TGT_DESC_TYPE => sense_and_check sense ILLEGAL_REQUEST 0x2607
  | TCMU_STS_CP_TGT_DEV_NOTCONN => sense_and_check sense COPY_ABORTED 0x0D02
  | TCMU_STS_INVALID_CP_TGT_DEV_TYPE => sense_and_check sense COPY_ABORTED 0x0D03
  | TCMU_STS_CAPACITY_CHANGED => sense_and_check sense UNIT_ATTENTION 0x2A09
  | TCMU_STS_TRANSITION => sense_and_check sense NOT_READY 0x040A
  | TCMU_STS_IMPL_TRANSITION_ERR => sense_and_check sense UNIT_ATTENTION 0x2A07
  | TCMU_STS_EXPL_TRANSITION_ERR => sense_and_check sense HARDWARE_ERROR 0x670A
  | TCMU_STS_FENCED => sense_and_check sense NOT_READY 0x040B
  | TCMU_STS_WR_ERR_INCOMPAT_FRMT => sense_and_check sense ILLEGAL_REQUEST 0x3005
  | TCMU_STS_NOTSUPP_SAVE_PARAMS => sense_and_check sense ILLEGAL_REQUEST 0x3900
  | TCMU_STS_FRMT_IN_PROGRESS => sense_keep_and_check sense NOT_READY 0x0404
  | TCMU_STS_NOT_HANDLED | TCMU_STS_INVALID_CMD => sense_and_check sense ILLEGAL_REQUEST 0x2000
  | TCMU_STS_ASYNC_HANDLED | TCMU_STS_NO_LOCK_HOLDERS => Some (SAM_STAT_CHECK_CONDITION, sense)
  end.

(** ** The fixed-format sense data an initiator decodes (SPC-4 4.5.3) *)

Record sense_view := SenseView {
  sv_response : Z;      (** response code, low 7 bits of byte 0 *)
  sv_valid : bool;      (** VALID bit of byte 0: the INFORMATION field is defined *)
  sv_key : Z;
  sv_information : Z;
  sv_asc : Z;
  sv_ascq : Z;
  sv_sksv : bool;       (** SKSV bit of byte 15: the sense-key specific field is defined *)
  sv_specific : Z
}.

Definition view_sense (l : list Z) : sense_view :=
  SenseView (Z.land (byte_at l 0) 0x7f) (Z.testbit (byte_at l 0) 7)
    (Z.land (byte_at l 2) 0xf) (be_at l 3 4) (byte_at l 12) (byte_at l 13)
    (Z.testbit (byte_at l 15) 7) (be_at l 16 2).

#[export] Instance sense_view_eq_dec : EqDecision sense_view.
Proof. solve_decision. Defined.

(** A sense buffer of at least 18 bytes splits into the bytes the builders
    write and a tail they leave alone. *)
Lemma sense_split (l : list Z) :
  (18 <= length l)%nat ->
  exists a0 a1 a2 a3 a4 a5 a6 a7 a8 a9 a10 a11 a12 a13 a14 a15 a16 a17 t,
    l = [a0;a1;a2;a3;a4;a5;a6;a7;a8;a9;a10;a11;a12;a13;a14;a15;a16;a17] ++ t.
Proof.
  intros H. do 18 (destruct l as [|? l]; [simpl in H; lia|]).
  repeat eexists.
Qed.

Lemma asc_byte v : 0 <= v < 65536 -> u8 (Z.land (Z.shiftr v 8) 0xff) = v / 256.
Proof.
  intros Hv. change 0xff with (Z.ones 8). rewrite Z.land_ones, Z.shiftr_div_pow2 by lia.
  unfold u8, wrap. rewrite Z.mod_mod by lia. change (2 ^ 8) with 256. dlia.
Qed.

Lemma ascq_byte v : u8 (Z.land v 0xff) = v mod 256.
Proof.
  change 0xff with (Z.ones 8). rewrite Z.land_ones by lia.
  unfold u8, wrap. by rewrite Z.mod_mod by lia.
Qed.

(** What [tcmu_set_sense_data] leaves behind. *)
Lemma tcmu_set_sense_data_eq l key asc_ascq :
  (18 <= length l)%nat -> 0 <= asc_ascq < 65536 ->
  tcmu_set_sense_data l key asc_ascq =
  Some ([0x70; 0; u8 key; 0; 0; 0; 0; 0xa; 0; 0; 0; 0; asc_ascq / 256; asc_ascq mod 256; 0; 0; 0; 0]
          ++ drop 18 l, TCMU_STS_PASSTHROUGH_ERR).
Proof.
  intros Hl Ha. destruct (sense_split l Hl) as
    (?&?&?&?&?&?&?&?&?&?&?&?&?&?&?&?&?&?&t&->).
  unfold tcmu_set_sense_data, __tcmu_set_sense_data, bset1.
  rewrite bset_0 by (simpl; lia). cbn [mbind option_bind zeros replicate app length drop].
  repeat (rewrite ?bset_cons, ?bset_0_1; cbn [mbind option_bind]).
  by rewrite asc_byte, ascq_byte.
Qed.

Lemma sense_and_check_eq l key asc_ascq :
  (18 <= length l)%nat -> 0 <= asc_ascq < 65536 ->
  sense_and_check l key asc_ascq =
  Some (SAM_STAT_CHECK_CONDITION,
    [0x70; 0; u8 key; 0; 0; 0; 0; 0xa; 0; 0; 0; 0; asc_ascq / 256; asc_ascq mod 256; 0; 0; 0; 0]
      ++ drop 18 l).
Proof. intros. unfold sense_and_check. by rewrite tcmu_set_sense_data_eq. Qed.

Lemma sense_keep_and_check_eq a0 a1 a2 a3 a4 a5 a6 a7 a8 a9 a10 a11 a12 a13 t key asc_ascq :
  0 <= asc_ascq < 65536 ->
  sense_keep_and_check (a0::a1::a2::a3::a4::a5::a6::a7::a8::a9::a10::a11::a12::a13::t) key asc_ascq =
  Some (SAM_STAT_CHECK_CONDITION,
    0x70::a1::u8 key::a3::a4::a5::a6::0xa::a8::a9::a10::a11::asc_ascq / 256::asc_ascq mod 256::t).
Proof.
  intros Ha. unfold sense_keep_and_check, __tcmu_set_sense_data, bset1.
  repeat (rewrite ?bset_cons, ?bset_0_1; cbn [mbind option_bind]).
  by rewrite asc_byte, ascq_byte.
Qed.

(** ** The translation is total and identifies the status *)

(** The statuses whose translation writes sense data. *)
Definition sets_sense (s : tcmu_sts) : bool :=
  negb (bool_decide (s ∈ [TCMU_STS_OK; TCMU_STS_NO_RESOURCE; TCMU_STS_TIMEOUT; TCMU_STS_BUSY;
                          TCMU_STS_PASSTHROUGH_ERR; TCMU_STS_ASYNC_HANDLED;
                          TCMU_STS_NO_LOCK_HOLDERS])).

(** Sense key, ASC and ASCQ as the initiator reads them. *)
Definition sense_triple (l : list Z) : Z * Z * Z :=
  (sv_key (view_sense l), sv_asc (view_sense l), sv_ascq (view_sense l)).

(** The triple the translation of [s] produces, by running it on a zeroed
    buffer. *)
Definition sts_triple (s : tcmu_sts) : option (Z * Z * Z) :=
  '(_, r) ← tcmu_sts_to_scsi s (zeros 18); Some (sense_triple r).

Lemma sts_to_scsi_view s l :
  sets_sense s = true -> (18 <= length l)%nat ->
  exists r, tcmu_sts_to_scsi s l = Some (SAM_STAT_CHECK_CONDITION, r) /\
    length r = length l /\ drop 18 r = drop 18 l /\
    sv_response (view_sense r) = 0x70 /\ sts_triple s = Some (sense_triple r).
Proof.
  intros Hs Hl. destruct (sense_split l Hl) as
    (?&?&?&?&?&?&?&?&?&?&?&?&?&?&?&?&?&?&t&->).
  destruct s; vm_compute in Hs; try discriminate; cbn [tcmu_sts_to_scsi app];
    first [rewrite sense_and_check_eq by (simpl in *; lia)
          | rewrite sense_keep_and_check_eq by lia];
    eexists; repeat split.
Qed.

Lemma sts_triple_inj s1 s2 :
  sets_sense s1 = true -> sets_sense s2 = true -> sts_triple s1 = sts_triple s2 ->
  s1 = s2 \/ (s1 ∈ [TCMU_STS_NOT_HANDLED; TCMU_STS_INVALID_CMD] /\
              s2 ∈ [TCMU_STS_NOT_HANDLED; TCMU_STS_INVALID_CMD]).
Proof.
  destruct s1; intros H1; vm_compute in H1; try discriminate H1;
    destruct s2; intros H2 H; vm_compute in H2; try discriminate H2;
    first [left; reflexivity | vm_compute in H; discriminate H
          | right; split; set_solver].
Qed.

(** The translation never writes outside a sense buffer of the kernel's
    size, and the sense key, ASC and ASCQ it leaves identify the internal
    status: two statuses that are reported with sense data and look alike to
    the initiator are equal, or are the two spellings of INVALID COMMAND
    OPERATION CODE. *)
Theorem sense_identifies_status (s1 s2 : tcmu_sts) (l1 l2 : list Z)
  (Hs1 : sets_sense s1 = true) (Hs2 : sets_sense s2 = true)
  (Hl1 : (18 <= length l1)%nat) (Hl2 : (18 <= length l2)%nat) :
  exists r1 r2,
    tcmu_sts_to_scsi s1 l1 = Some (SAM_STAT_CHECK_CONDITION, r1) /\
    tcmu_sts_to_scsi s2 l2 = Some (SAM_STAT_CHECK_CONDITION, r2) /\
    length r1 = length l1 /\ drop 18 r1 = drop 18 l1 /\
    (sense_triple r1 = sense_triple r2 ->
     s1 = s2 \/ (s1 ∈ [TCMU_STS_NOT_HANDLED; TCMU_STS_INVALID_CMD] /\
                 s2 ∈ [TCMU_STS_NOT_HANDLED; TCMU_STS_INVALID_CMD])).
Proof.
  destruct (sts_to_scsi_view s1 l1 Hs1 Hl1) as (r1 & E1 & L1 & D1 & _ & T1).
  destruct (sts_to_scsi_view s2 l2 Hs2 Hl2) as (r2 & E2 & _ & _ & _ & T2).
  exists r1, r2. repeat split; auto. intros Ht.
  apply sts_triple_inj; auto. congruence.
Qed.

Lemma sense_identifies_status_witness :
  exists r1 r2,
    tcmu_sts_to_scsi TCMU_STS_RANGE (zeros 96) = Some (SAM_STAT_CHECK_CONDITION, r1) /\
    tcmu_sts_to_scsi TCMU_STS_INVALID_CDB (zeros 96) = Some (SAM_STAT_CHECK_CONDITION, r2) /\
    length r1 = 96%nat /\ drop 18 r1 = drop 18 (zeros 96) /\
    (sense_triple r1 = sense_triple r2 ->
     TCMU_STS_RANGE = TCMU_STS_INVALID_CDB \/
     (TCMU_STS_RANGE ∈ [TCMU_STS_NOT_HANDLED; TCMU_STS_INVALID_CMD] /\
      TCMU_STS_INVALID_CDB ∈ [TCMU_STS_NOT_HANDLED; TCMU_STS_INVALID_CMD])).
Proof.
  apply (sense_identifies_status TCMU_STS_RANGE TCMU_STS_INVALID_CDB (zeros 96) (zeros 96));
    [reflexivity|reflexivity|simpl; lia|simpl; lia].
Defined.

(** The translation is total on buffers of the kernel's size. *)
Lemma tcmu_sts_to_scsi_total s l :
  (18 <= length l)%nat -> exists st r, tcmu_sts_to_scsi s l = Some (st, r) /\ length r = length l.
Proof.
  intros Hl. destruct (sets_sense s) eqn:Hs.
  - destruct (sts_to_scsi_view s l Hs Hl) as (r & E & L & _). eauto.
  - destruct s; vm_compute in Hs; try discriminate Hs; simpl; eauto.
Qed.

(** ** Sense data prepared before the completion *)

Lemma be_enc_4 v :
  0 <= v < 4294967296 ->
  be_enc 4 v = [u8 (Z.shiftr v 24); u8 (Z.shiftr v 16); u8 (Z.shiftr v 8); u8 v].
Proof.
  intros Hv. rewrite !Z.shiftr_div_pow2 by lia. unfold u8, wrap.
  cbn [be_enc app]. rewrite !Z.div_div by lia. done.
Qed.

Lemma be_enc_2 v :
  0 <= v < 65536 -> be_enc 2 v = [u8 (Z.shiftr v 8); u8 v].
Proof. intros Hv. rewrite !Z.shiftr_div_pow2 by lia. unfold u8, wrap. done. Qed.

Lemma tcmu_set_sense_info_is_Some l info :
  (18 <= length l)%nat -> is_Some (tcmu_set_sense_info l info).
Proof.
  intros Hl. destruct (sense_split l Hl) as (?&?&?&?&?&?&?&?&?&?&?&?&?&?&?&?&?&?&t&->).
  unfold tcmu_set_sense_info, put_unaligned_be32, bset1.
  rewrite bset_0 by (simpl; lia). cbn [mbind option_bind zeros replicate app length drop Nat.add].
  repeat (rewrite ?bset_cons, ?bset_0_1; cbn [mbind option_bind bget1 lookup list_lookup]). by eexists.
Qed.

(** A miscompare loses its offset.  The callbacks of WRITE VERIFY and
    COMPARE AND WRITE store the offset of the first mismatch with
    [tcmu_set_sense_info], which sets the VALID bit; completing the command
    with [TCMU_STS_MISCOMPARE] then overwrites byte 0, so the initiator gets
    the offset in an INFORMATION field that is marked invalid. *)
Theorem miscompare_information_marked_invalid (l : list Z) (info : Z)
  (Hl : (18 <= length l)%nat) :
  exists l1 l2,
    tcmu_set_sense_info l info = Some l1 /\
    sv_valid (view_sense l1) = true /\ sv_information (view_sense l1) = u32 info /\
    tcmu_sts_to_scsi TCMU_STS_MISCOMPARE l1 = Some (SAM_STAT_CHECK_CONDITION, l2) /\
    sv_valid (view_sense l2) = false /\ sv_information (view_sense l2) = u32 info /\
    sv_key (view_sense l2) = MISCOMPARE.
Proof.
  destruct (sense_split l Hl) as (?&?&?&?&?&?&?&?&?&?&?&?&?&?&?&?&?&?&t&->).
  pose proof (u32_bound info) as Hi.
  unfold tcmu_set_sense_info, put_unaligned_be32, bset1.
  rewrite bset_0 by (simpl; lia). cbn [mbind option_bind zeros replicate app length drop Nat.add].
  repeat (rewrite ?bset_cons, ?bset_0_1; cbn [mbind option_bind bget1 lookup list_lookup]).
  eexists _, _. split; [reflexivity|]. cbn [tcmu_sts_to_scsi].
  rewrite sense_keep_and_check_eq by lia.
  assert (be_dec [u8 (Z.shiftr (u32 info) 24); u8 (Z.shiftr (u32 info) 16);
            u8 (Z.shiftr (u32 info) 8); u8 (u32 info)] = u32 info) as E.
  { rewrite <- be_enc_4 by done. apply be_dec_enc. simpl. lia. }
  repeat split; try exact E.
Qed.

Lemma miscompare_information_marked_invalid_witness :
  exists l1 l2,
    tcmu_set_sense_info (zeros 96) 513 = Some l1 /\
    sv_valid (view_sense l1) = true /\ sv_information (view_sense l1) = 513 /\
    tcmu_sts_to_scsi TCMU_STS_MISCOMPARE l1 = Some (SAM_STAT_CHECK_CONDITION, l2) /\
    sv_valid (view_sense l2) = false /\ sv_information (view_sense l2) = 513 /\
    sv_key (view_sense l2) = MISCOMPARE.
Proof. apply (miscompare_information_marked_invalid (zeros 96) 513). simpl. lia. Defined.

(** The progress indication fits every sense buffer. *)
Lemma format_sense_some l progress :
  (18 <= length l)%nat -> exists l1, tcmu_set_sense_key_specific_info l progress = Some l1.
Proof.
  intros Hl. destruct (sense_split l Hl) as (?&?&?&?&?&?&?&?&?&?&?&?&?&?&?&?&?&?&t&->).
  unfold tcmu_set_sense_key_specific_info, put_unaligned_be16, bset1.
  rewrite bset_0 by (simpl; lia). cbn [mbind option_bind zeros replicate app length drop Nat.add].
  repeat (rewrite ?bset_cons, ?bset_0_1; cbn [mbind option_bind bget1 lookup list_lookup]). by eexists.
Qed.

(** FORMAT IN PROGRESS keeps the progress indication: after
    [tcmu_set_sense_key_specific_info] and the completion, the sense data says
    NOT READY / 04h 04h with the SKSV bit set and the low 16 bits of the
    progress in the sense-key specific field. *)
Theorem format_in_progress_sense (l : list Z) (progress : Z)
  (Hl : (18 <= length l)%nat) :
  exists l1 l2,
    tcmu_set_sense_key_specific_info l progress = Some l1 /\
    tcmu_sts_to_scsi TCMU_STS_FRMT_IN_PROGRESS l1 = Some (SAM_STAT_CHECK_CONDITION, l2) /\
    view_sense l2 = SenseView 0x70 false NOT_READY 0 0x04 0x04 true (u16 progress) /\
    drop 18 l2 = drop 18 l.
Proof.
  destruct (sense_split l Hl) as (?&?&?&?&?&?&?&?&?&?&?&?&?&?&?&?&?&?&t&->).
  pose proof (u16_bound progress) as Hi.
  unfold tcmu_set_sense_key_specific_info, put_unaligned_be16, bset1.
  rewrite bset_0 by (simpl; lia). cbn [mbind option_bind zeros replicate app length drop Nat.add].
  repeat (rewrite ?bset_cons, ?bset_0_1; cbn [mbind option_bind bget1 lookup list_lookup]).
  eexists _, _. split; [reflexivity|]. cbn [tcmu_sts_to_scsi].
  rewrite sense_keep_and_check_eq by lia. split; [reflexivity|]. split; [|done].
  unfold view_sense, be_at, byte_at. cbn [nth map seq].
  rewrite <- be_enc_2, be_dec_enc by (simpl; lia). reflexivity.
Qed.

Lemma format_in_progress_sense_witness :
  exists l1 l2,
    tcmu_set_sense_key_specific_info (zeros 96) 0x4000 = Some l1 /\
    tcmu_sts_to_scsi TCMU_STS_FRMT_IN_PROGRESS l1 = Some (SAM_STAT_CHECK_CONDITION, l2) /\
    view_sense l2 = SenseView 0x70 false NOT_READY 0 0x04 0x04 true 0x4000 /\
    drop 18 l2 = drop 18 (zeros 96).
Proof. apply (format_in_progress_sense (zeros 96) 0x4000). simpl. lia. Defined.
