(* ===== verification/Device.v ===== *)
(** * Devices, handlers, ports

    The fields of [struct tcmu_device] that command processing reads, the
    accessors of [libtcmu.c], which callouts a [struct tcmur_handler] provides,
    and the ALUA group and target port records of [alua.h] and [target.h]. *)

From S2P Require Import Prelude Scsi.

(** Which callouts of the backstore handler are non-NULL, and its thread
    count.
    [src tcmu-runner/tcmu-runner.h 46-145 struct tcmur_handler] *)
Record tcmur_handler := Handler {
  has_handle_cmd : bool;
  has_write : bool;
  has_read : bool;
  has_flush : bool;
  has_unmap : bool;
  has_lock : bool;
  has_get_lock_tag : bool;
  nr_threads : Z
}.

(** A device.  [dev_wwn] is what [tcmu_get_wwn] reads from configfs
    ([None] when it cannot); [cfgstring] is the NUL-free configuration
    string.
    [src tcmu-runner/libtcmu_priv.h 51-77 struct tcmu_device] *)
Record tcmu_device := Dev {
  num_lbas : Z;
  block_size : Z;
  max_xfer_len : Z;
  opt_unmap_gran : Z;
  unmap_gran_align : Z;
  write_cache_enabled : bool;
  solid_state_media : bool;
  cfgstring : list Z;
  dev_wwn : option (list Z);
  rhandler : tcmur_handler
}.

(** Field widths of [struct tcmu_device]. *)
Record dev_ok (d : tcmu_device) : Prop := {
  dev_num_lbas_ok : 0 <= num_lbas d < 2 ^ 64;
  dev_block_size_ok : 0 < block_size d < 2 ^ 32;
  dev_max_xfer_ok : 0 <= max_xfer_len d < 2 ^ 32;
  dev_gran_ok : 0 <= opt_unmap_gran d < 2 ^ 32;
  dev_align_ok : 0 <= unmap_gran_align d < 2 ^ 32
}.

(** [src tcmu-runner/libtcmu.c tcmu_set_dev_num_lbas] *)
Definition tcmu_set_dev_num_lbas (d : tcmu_device) (n : Z) : tcmu_device :=
  Dev (u64 n) (block_size d) (max_xfer_len d) (opt_unmap_gran d) (unmap_gran_align d)
      (write_cache_enabled d) (solid_state_media d) (cfgstring d) (dev_wwn d) (rhandler d).

(** [src tcmu-runner/libtcmu.c tcmu_get_dev_num_lbas] *)
Definition tcmu_get_dev_num_lbas (d : tcmu_device) : Z := num_lbas d.
(** [src tcmu-runner/libtcmu.c tcmu_get_dev_block_size] *)
Definition tcmu_get_dev_block_size (d : tcmu_device) : Z := block_size d.
(** [src tcmu-runner/libtcmu.c tcmu_get_dev_max_xfer_len] *)
Definition tcmu_get_dev_max_xfer_len (d : tcmu_device) : Z := max_xfer_len d.
(** [src tcmu-runner/libtcmu.c tcmu_get_dev_opt_unmap_gran] *)
Definition tcmu_get_dev_opt_unmap_gran (d : tcmu_device) : Z := opt_unmap_gran d.
(** [src tcmu-runner/libtcmu.c tcmu_get_dev_unmap_gran_align] *)
Definition tcmu_get_dev_unmap_gran_align (d : tcmu_device) : Z := unmap_gran_align d.
(** [src tcmu-runner/libtcmu.c tcmu_get_dev_write_cache_enabled] *)
Definition tcmu_get_dev_write_cache_enabled (d : tcmu_device) : bool := write_cache_enabled d.
(** [src tcmu-runner/libtcmu.c tcmu_get_dev_solid_state_media] *)
Definition tcmu_get_dev_solid_state_media (d : tcmu_device) : bool := solid_state_media d.

(** [None]: division by a zero block size.
    [src tcmu-runner/libtcmu.c tcmu_update_num_lbas] *)
Definition tcmu_update_num_lbas (d : tcmu_device) (new_size : Z) : option (tcmu_device * Z) :=
  if new_size =? 0 then Some (d, - EINVAL)
  else if block_size d =? 0 then None
  else Some (tcmu_set_dev_num_lbas d (new_size / block_size d), 0).

(** ** Ports and groups *)

(** [src tcmu-runner/target.h 24-38 struct tgt_port] *)
Record tgt_port := Port {
  rel_port_id : Z;
  proto_id : Z;
  port_wwn : list Z;
  port_enabled : bool;
  tpgt : Z;
  fabric : list Z
}.

(** [src tcmu-runner/alua.h 25-45 struct alua_grp] *)
Record alua_grp := Grp {
  grp_state : Z;
  supported_states : Z;
  tpgs : Z;
  grp_status : Z;
  implicit_trans_secs : Z;
  grp_pref : bool;
  grp_id : Z;
  grp_name : list Z;
  num_tgt_ports : Z;
  tgt_ports : list tgt_port
}.

(** C strings are NUL-free byte lists here; literals come from Rocq strings. *)
Definition str (s : string) : list Z :=
  map (fun a => Z.of_N (Ascii.N_of_ascii a)) (String.list_ascii_of_string s).

(** [isspace] and [strtoul(s, &end, 10)] of the C library. *)
Definition is_space (c : Z) : bool := (c =? 32) || ((9 <=? c) && (c <=? 13)).
Definition is_digit (c : Z) : bool := (48 <=? c) && (c <=? 57).

Fixpoint skip_space (s : list Z) : list Z :=
  match s with
  | c :: s' => if is_space c then skip_space s' else s
  | [] => []
  end.

Fixpoint digits_val (acc : Z) (s : list Z) : Z * list Z :=
  match s with
  | c :: s' => if is_digit c then digits_val (acc * 10 + (c - 48)) s' else (acc, s)
  | [] => (acc, [])
  end.

Definition strtoul (s : list Z) : Z * list Z :=
  let '(neg, t) :=
    match skip_space s with
    | c :: t => if c =? 45 then (true, t) else if c =? 43 then (false, t) else (false, c :: t)
    | [] => (false, [])
    end in
  match t with
  | c :: _ =>
      if is_digit c then
        let '(v, rest) := digits_val 0 t in
        (if u64 (-1) <? v then u64 (-1) else if neg then u64 (- v) else v, rest)
      else (0, s)
  | [] => (0, s)
  end.

Fixpoint starts_with (p s : list Z) : bool :=
  match p, s with
  | [], _ => true
  | a :: p', b :: s' => (a =? b) && starts_with p' s'
  | _ :: _, [] => false
  end.

(** [snprintf(&buf[off], n, "%s", s)]: writes at most [n - 1] characters and a
    NUL, returns the length of [s]. *)
Definition snprintf_s (buf : list Z) (off : nat) (n : Z) (s : list Z) : option (list Z * Z) :=
  let len := Z.of_nat (length s) in
  if n =? 0 then Some (buf, len)
  else buf ← bset buf off (take (Z.to_nat (Z.min len (n - 1))) s ++ [0]); Some (buf, len).

(** [%04x] of a 16-bit value. *)
Definition hex_digit (d : Z) : Z := if d <? 10 then 48 + d else 87 + d.
Definition hex4 (v : Z) : list Z :=
  [hex_digit (v / 4096 mod 16); hex_digit (v / 256 mod 16); hex_digit (v / 16 mod 16);
   hex_digit (v mod 16)].

(** [src tcmu-runner/api.c char_to_hex] *)
Definition char_to_hex (c : Z) : option Z :=
  if (48 <=? c) && (c <=? 57) then Some (c - 48)
  else if (97 <=? c) && (c <=? 102) then Some (c - 97 + 10)
  else if (65 <=? c) && (c <=? 70) then Some (c - 65 + 10)
  else None.

Lemma char_to_hex_bound c v : char_to_hex c = Some v -> 0 <= v < 16.
Proof. unfold char_to_hex. repeat case_if; intros ?; simplify_eq; lia. Qed.

Lemma char_to_hex_digit d : 0 <= d < 16 -> char_to_hex (hex_digit d) = Some d.
Proof.
  intros H. unfold hex_digit, char_to_hex.
  destruct (Z.ltb_spec d 10).
  - rewrite (proj2 (Z.leb_le 48 _)), (proj2 (Z.leb_le _ 57)) by lia. simpl. f_equal. lia.
  - rewrite (proj2 (Z.leb_le 48 _)), (proj2 (Z.leb_gt _ 57)) by lia. cbn [andb].
    rewrite (proj2 (Z.leb_le 97 _)), (proj2 (Z.leb_le _ 102)) by lia. simpl. f_equal. lia.
Qed.

(** A device used by the concrete instances: 2 MiB of 512-byte blocks. *)
Definition demo_handler : tcmur_handler := Handler true true true true true false false 1.
Definition demo_dev : tcmu_device :=
  Dev 4096 512 128 8 0 true false (str "/disk") (Some (str "5f1ab3")) demo_handler.
