(* ===== verification/Inquiry.v ===== *)
(** * INQUIRY

    [tcmu_emulate_std_inquiry], the vital product data pages of
    [tcmu_emulate_evpd_inquiry] and the dispatch between them ([api.c]). *)

From Stdlib Require Import Sorting.Sorted.
From S2P Require Import Prelude Scsi Iovec Device.

(** What an emulation routine returns: the data area, the iovec it consumed
    from, and the status. *)
Abbreviation emu_result := (option (mem * list iovec * tcmu_sts)).

Definition reply (m : mem) (iov : list iovec) (cnt : Z) (buf : list Z) (len : Z) : emu_result :=
  '(m, iov, _) ← tcmu_memcpy_into_iovec m iov cnt buf len; Some (m, iov, TCMU_STS_OK).

(** A page that is one fixed-size buffer, sent whole. *)
Definition reply_page (m : mem) (iov : list iovec) (cnt : Z) (page : option (list Z)) : emu_result :=
  buf ← page; reply m iov cnt buf (Z.of_nat (length buf)).

(** ** Standard inquiry data *)

(** [src tcmu-runner/api.c 308-331 tcmu_emulate_std_inquiry] *)
Definition std_inquiry_data (port : option (alua_grp * tgt_port)) : option (list Z) :=
  let buf := zeros 36 in
  buf ← bset1 buf 2 0x05;
  buf ← bset1 buf 3 0x02;
  buf ← bset1 buf 5 0x08;
  buf ← match port with
        | Some (grp, _) => b ← bget1 buf 5; bset1 buf 5 (Z.lor b (tpgs grp))
        | None => Some buf
        end;
  buf ← bset1 buf 7 0x02;
  buf ← bset buf 8 (str "LIO-ORG ");
  buf ← bset buf 16 (replicate 16 0x20);
  buf ← bset buf 16 (str "TCMU device");
  buf ← bset buf 32 (str "0002");
  bset1 buf 4 31.

(** [src tcmu-runner/api.c tcmu_emulate_std_inquiry] *)
Definition tcmu_emulate_std_inquiry (port : option (alua_grp * tgt_port)) (m : mem)
    (iov : list iovec) (cnt : Z) : emu_result :=
  reply_page m iov cnt (std_inquiry_data port).

(** ** Vital product data pages *)

(** [src tcmu-runner/api.c 364-388 tcmu_emulate_evpd_inquiry] *)
Definition vpd_page_00 : option (list Z) :=
  let data := zeros 16 in
  data ← bset1 data 4 0x00; data ← bset1 data 5 0x80; data ← bset1 data 6 0x83;
  data ← bset1 data 7 0xb0; data ← bset1 data 8 0xb1; data ← bset1 data 9 0xb2;
  bset1 data 3 6.

(** [src tcmu-runner/api.c 389-416 tcmu_emulate_evpd_inquiry] *)
Definition vpd_page_80 (wwn : list Z) : option (list Z) :=
  let data := zeros 512 in
  data ← bset1 data 1 0x80;
  '(data, len) ← snprintf_s data 4 256 wwn;
  bset1 data 3 (len + 1).

(** The state of the device identification page while it is filled: the
    buffer, [used], and the offset of [ptr] in the buffer. *)
Record page83 := Page83 { pg_data : list Z; pg_used : Z; pg_ptr : nat }.

(** [src tcmu-runner/api.c 436-447 tcmu_emulate_evpd_inquiry] *)
Definition page83_t10 (wwn : list Z) (pg : page83) : option page83 :=
  let p := pg_ptr pg in
  d ← bset1 (pg_data pg) p 2;
  d ← bset1 d (p + 1) 1;
  d ← bset d (p + 4) (str "LIO-ORG ");
  '(d, len) ← snprintf_s d (p + 12) (512 - 16) wwn;
  d ← bset1 d (p + 3) (8 + len + 1);
  l ← bget1 d (p + 3);
  let used := pg_used pg + u8 l + 4 in
  Some (Page83 d used (p + Z.to_nat used)).

(** One step per character of the WWN, stopping when [i] reaches [limit] (20
    here, 16 in the same loop of [xcopy_gen_naa_ieee]).
    [src tcmu-runner/api.c 470-484 tcmu_emulate_evpd_inquiry] *)
Fixpoint hex_fill (limit : nat) (wwn : list Z) (d : list Z) (p i : nat) (next : bool)
    : option (list Z) :=
  match wwn with
  | [] => Some d
  | c :: wwn' =>
      if decide (i < limit)%nat then
        match char_to_hex c with
        | None => hex_fill limit wwn' d p i next
        | Some val =>
            if next then
              b ← bget1 d (p + i);
              d ← bset1 d (p + i) (Z.lor b val);
              hex_fill limit wwn' d p (i + 1) false
            else
              d ← bset1 d (p + i) (Z.shiftl val 4);
              hex_fill limit wwn' d p i true
        end
      else Some d
  end.

(** [src tcmu-runner/api.c 449-487 tcmu_emulate_evpd_inquiry] *)
Definition page83_naa (wwn : list Z) (pg : page83) : option page83 :=
  let p := pg_ptr pg in
  d ← bset1 (pg_data pg) p 1;
  d ← bset1 d (p + 1) 3;
  d ← bset1 d (p + 3) 16;
  d ← bset1 d (p + 4) 0x60; d ← bset1 d (p + 5) 0x01;
  d ← bset1 d (p + 6) 0x40; d ← bset1 d (p + 7) 0x50;
  d ← hex_fill 20 wwn d p 7 true;
  Some (Page83 d (pg_used pg + 20) (p + 20)).

(** [src tcmu-runner/api.c 489-497 tcmu_emulate_evpd_inquiry] *)
Definition page83_vendor (cfg : list Z) (pg : page83) : option page83 :=
  let p := pg_ptr pg in
  d ← bset1 (pg_data pg) p 2;
  d ← bset1 d (p + 1) 0;
  '(d, len) ← snprintf_s d (p + 4) (u64 (512 - pg_used pg - 4)) cfg;
  d ← bset1 d (p + 3) (len + 1);
  l ← bget1 d (p + 3);
  Some (Page83 d (pg_used pg + u8 l + 4) (p + Z.to_nat (u8 l + 4))).

(** The 8-byte binary designators of the target port.
    [src tcmu-runner/api.c 502-526 tcmu_emulate_evpd_inquiry] *)
Definition page83_port_id (proto type id : Z) (pg : page83) : option page83 :=
  let p := pg_ptr pg in
  d ← bset1 (pg_data pg) p (Z.lor (u8 (Z.shiftl proto 4)) 0x1);
  d ← bset1 d (p + 1) (Z.lor (Z.lor 0x80 0x10) type);
  d ← bset1 d (p + 3) 4;
  d ← bset1 d (p + 6) (Z.land (Z.shiftr id 8) 0xff);
  d ← bset1 d (p + 7) (Z.land id 0xff);
  Some (Page83 d (pg_used pg + 8) (p + 8)).

(** Length of a SCSI name string designator: NUL-terminated, padded to a
    multiple of four, at most 256.
    [src tcmu-runner/api.c 537-551 tcmu_emulate_evpd_inquiry] *)
Definition name_len (len : Z) : Z :=
  let len := len + 1 in
  let padding := (- len) mod 4 in
  let len := if padding =? 0 then len else len + padding in
  if 256 <? len then 256 else len.

(** [src tcmu-runner/api.c 528-575 tcmu_emulate_evpd_inquiry] *)
Definition page83_name (proto assoc : Z) (name : list Z) (pg : page83) : option page83 :=
  let p := pg_ptr pg in
  d ← bset1 (pg_data pg) p (Z.lor (u8 (Z.shiftl proto 4)) 0x3);
  d ← bset1 d (p + 1) (Z.lor (Z.lor 0x80 assoc) 0x8);
  '(d, len) ← snprintf_s d (p + 4) (u64 (512 - pg_used pg - 4)) name;
  let len := name_len len in
  d ← bset1 d (p + 3) len;
  Some (Page83 d (pg_used pg + len + 4) (p + Z.to_nat (len + 4))).

(** [src tcmu-runner/api.c 417-586 tcmu_emulate_evpd_inquiry] *)
Definition vpd_page_83 (wwn cfg : list Z) (port : option (alua_grp * tgt_port))
    : option (list Z * Z) :=
  data ← bset1 (zeros 512) 1 0x83;
  pg ← page83_t10 wwn (Page83 data 0 4);
  pg ← page83_naa wwn pg;
  pg ← page83_vendor cfg pg;
  pg ← match port with
       | None => Some pg
       | Some (grp, port) =>
           pg ← page83_port_id (proto_id port) 0x4 (rel_port_id port) pg;
           pg ← page83_port_id (proto_id port) 0x5 (grp_id grp) pg;
           pg ← page83_name (proto_id port) 0x10 (port_wwn port ++ str ",t,0x" ++ hex4 (tpgt port)) pg;
           page83_name (proto_id port) 0x20 (port_wwn port) pg
       end;
  data ← bset (pg_data pg) 2 (be_enc 2 (u16 (pg_used pg)));
  Some (data, pg_used pg + 4).

(** [src tcmu-runner/api.c 587-666 tcmu_emulate_evpd_inquiry] *)
Definition vpd_page_b0 (dev : tcmu_device) : option (list Z) :=
  let data := zeros 64 in
  data ← bset1 data 1 0xb0;
  data ← bset data 2 (be_enc 2 0x3c);
  data ← bset1 data 4 0x01;
  data ← bset1 data 5 0x01;
  let max_xfer_length := tcmu_get_dev_max_xfer_len dev in
  data ← bset data 8 (be_enc 4 max_xfer_length);
  data ← bset data 12 (be_enc 4 max_xfer_length);
  data ← (if has_unmap (rhandler dev) then
            data ← bset data 20 (be_enc 4 VPD_MAX_UNMAP_LBA_COUNT);
            data ← bset data 24 (be_enc 4 VPD_MAX_UNMAP_BLOCK_DESC_COUNT);
            data ← bset data 28 (be_enc 4 (tcmu_get_dev_opt_unmap_gran dev));
            data ← bset data 32 (be_enc 4 (tcmu_get_dev_unmap_gran_align dev));
            b ← bget1 data 32;
            bset1 data 32 (Z.lor b 0x80)
          else Some data);
  bset data 36 (be_enc 8 VPD_MAX_WRITE_SAME_LENGTH).

(** [src tcmu-runner/api.c 667-695 tcmu_emulate_evpd_inquiry] *)
Definition vpd_page_b1 (dev : tcmu_device) : option (list Z) :=
  let data := zeros 64 in
  data ← bset1 data 0 0x00;
  data ← bset1 data 1 0xb1;
  data ← bset data 2 (be_enc 2 0x003c);
  if tcmu_get_dev_solid_state_media dev then bset data 4 (be_enc 2 0x0001) else Some data.

(** [src tcmu-runner/api.c 696-738 tcmu_emulate_evpd_inquiry] *)
Definition vpd_page_b2 (dev : tcmu_device) : option (list Z) :=
  let data := zeros 64 in
  data ← bset1 data 0 0x00;
  data ← bset1 data 1 0xb2;
  data ← bset data 2 (be_enc 2 0x0004);
  data ← bset1 data 5 0x04;
  if has_unmap (rhandler dev) then b ← bget1 data 5; bset1 data 5 (Z.lor b 0xe0) else Some data.

(** [src tcmu-runner/api.c tcmu_emulate_evpd_inquiry] *)
Definition tcmu_emulate_evpd_inquiry (dev : tcmu_device) (port : option (alua_grp * tgt_port))
    (cdb : list Z) (m : mem) (iov : list iovec) (cnt : Z) : emu_result :=
  let page := byte_at cdb 2 in
  if page =? 0x0 then reply_page m iov cnt vpd_page_00
  else if page =? 0x80 then
    match dev_wwn dev with
    | None => Some (m, iov, TCMU_STS_HW_ERR)
    | Some wwn => reply_page m iov cnt (vpd_page_80 wwn)
    end
  else if page =? 0x83 then
    match dev_wwn dev with
    | None => Some (m, iov, TCMU_STS_HW_ERR)
    | Some wwn => '(data, len) ← vpd_page_83 wwn (cfgstring dev) port; reply m iov cnt data len
    end
  else if page =? 0xb0 then reply_page m iov cnt (vpd_page_b0 dev)
  else if page =? 0xb1 then reply_page m iov cnt (vpd_page_b1 dev)
  else if page =? 0xb2 then reply_page m iov cnt (vpd_page_b2 dev)
  else Some (m, iov, TCMU_STS_INVALID_CDB).

(** [src tcmu-runner/api.c tcmu_emulate_inquiry] *)
Definition tcmu_emulate_inquiry (dev : tcmu_device) (port : option (alua_grp * tgt_port))
    (cdb : list Z) (m : mem) (iov : list iovec) (cnt : Z) : emu_result :=
  if Z.land (byte_at cdb 1) 0x01 =? 0 then
    if byte_at cdb 2 =? 0 then tcmu_emulate_std_inquiry port m iov cnt
    else Some (m, iov, TCMU_STS_INVALID_CDB)
  else tcmu_emulate_evpd_inquiry dev port cdb m iov cnt.

(** ** The device identification page as a list of designators *)

(** A designator as SPC-4 7.8.6.1 lays it out. *)
Definition desig (c t : Z) (body : list Z) : list Z :=
  [c; t; 0; Z.of_nat (length body)] ++ body.

Lemma length_desig c t body : length (desig c t body) = (4 + length body)%nat.
Proof. done. Qed.

(** Reading a designator list back. *)
Fixpoint parse_designators (fuel : nat) (l : list Z) : option (list (Z * Z * list Z)) :=
  match l with
  | [] => Some []
  | c :: t :: _ :: n :: rest =>
      match fuel with
      | O => None
      | S f =>
          if decide (Z.to_nat n <= length rest)%nat then
            ds ← parse_designators f (drop (Z.to_nat n) rest);
            Some ((c, t, take (Z.to_nat n) rest) :: ds)
          else None
      end
  | _ => None
  end.

Lemma parse_designators_desig f c t body l :
  parse_designators (S f) (desig c t body ++ l) =
  ds ← parse_designators f l; Some ((c, t, body) :: ds).
Proof.
  unfold desig. cbn [app parse_designators]. rewrite Nat2Z.id.
  rewrite decide_True by (rewrite length_app; lia).
  by rewrite drop_app_length, take_app_length.
Qed.

Lemma parse_designators_le f g l ds :
  (f <= g)%nat -> parse_designators f l = Some ds -> parse_designators g l = Some ds.
Proof.
  revert g l ds. induction f as [|f IH]; intros g l ds Hfg.
  - by destruct l as [|c [|t [|r [|n rest]]]]; destruct g.
  - destruct g as [|g]; [lia|].
    destruct l as [|c [|t [|r [|n rest]]]]; simpl; try done.
    case_decide; [|done].
    destruct (parse_designators f (drop (Z.to_nat n) rest)) as [es|] eqn:He; [|done].
    rewrite (IH g _ _ ltac:(lia) He). done.
Qed.

(** The NAA IEEE Registered Extended identifier of a unit serial number: 25
    nibbles taken from its hexadecimal digits. *)
Definition nibbles (wwn : list Z) : list Z := omap char_to_hex wwn.

Fixpoint naa_tail (n : nat) (b : Z) (nibs : list Z) : list Z :=
  match n with
  | O => []
  | S n' =>
      match nibs with
      | [] => b :: zeros n'
      | x :: [] => Z.lor b x :: zeros n'
      | x :: y :: rest => Z.lor b x :: naa_tail n' (y * 16) rest
      end
  end.

Definition naa_ieee (wwn : list Z) : list Z := [0x60; 0x01; 0x40] ++ naa_tail 13 0x50 (nibbles wwn).

Lemma length_naa_tail n : forall b nibs, length (naa_tail n b nibs) = n.
Proof.
  induction n as [|n IH]; intros b nibs; [done|].
  destruct nibs as [|x [|y r]]; simpl; rewrite ?length_zeros, ?IH; done.
Qed.

Lemma length_naa_ieee wwn : length (naa_ieee wwn) = 16%nat.
Proof. unfold naa_ieee. by rewrite length_app, length_naa_tail. Qed.

(** The bytes when the next digit starts a new byte. *)
Definition naa_tail_lo (n : nat) (nibs : list Z) : list Z :=
  match nibs with [] => zeros n | y :: rest => naa_tail n (y * 16) rest end.

Lemma lor_nibble b v : 0 <= b < 256 -> 0 <= v < 16 -> u8 (Z.lor b v) = Z.lor b v.
Proof.
  intros Hb Hv. apply u8_small. split; [apply Z.lor_nonneg; lia|].
  destruct (decide (Z.lor b v = 0)) as [->|]; [lia|].
  apply (Z.log2_lt_pow2 _ 8); [pose proof (Z.lor_nonneg b v); lia|].
  rewrite Z.log2_lor by lia. apply Z.max_lub_lt.
  - destruct (decide (b = 0)) as [->|]; [reflexivity|]. apply Z.log2_lt_pow2; lia.
  - destruct (decide (v = 0)) as [->|]; [reflexivity|]. apply Z.log2_lt_pow2; lia.
Qed.

Lemma hex_fill_spec limit wwn : forall pre post p n,
  (forall b i, length pre = (p + i)%nat -> (i + S n = limit)%nat -> 0 <= b < 256 ->
     hex_fill limit wwn (pre ++ b :: zeros n ++ post) p i true =
     Some (pre ++ naa_tail (S n) b (nibbles wwn) ++ post)) /\
  (forall i, length pre = (p + i)%nat -> (i + n = limit)%nat ->
     hex_fill limit wwn (pre ++ zeros n ++ post) p i false =
     Some (pre ++ naa_tail_lo n (nibbles wwn) ++ post)).
Proof.
  induction wwn as [|c wwn IH]; intros pre post p n; [by split|].
  split.
  - intros b i Hpre Hi Hb. cbn [hex_fill]. rewrite decide_True by lia.
    unfold nibbles. cbn [omap list_omap]. fold (nibbles wwn).
    destruct (char_to_hex c) as [v|] eqn:Hc; [|by apply IH].
    apply char_to_hex_bound in Hc.
    rewrite <- Hpre, <- (Nat.add_0_r (length pre)). unfold bset1. bset_run.
    rewrite lor_nibble by lia.
    replace (pre ++ Z.lor b v :: zeros n ++ post) with ((pre ++ [Z.lor b v]) ++ zeros n ++ post)
      by (by rewrite <- app_assoc).
    destruct (IH (pre ++ [Z.lor b v]) post p n) as [_ H2].
    rewrite H2 by (rewrite ?length_app; simpl; lia). rewrite <- app_assoc. f_equal. f_equal.
    cbn [app naa_tail]. by destruct (nibbles wwn).
  - intros i Hpre Hi. cbn [hex_fill].
    unfold nibbles. cbn [omap list_omap]. fold (nibbles wwn).
    case_decide as Hlt.
    + destruct (char_to_hex c) as [v|] eqn:Hc; [|by apply IH].
      apply char_to_hex_bound in Hc. destruct n as [|n]; [lia|].
      change (zeros (S n)) with (0 :: zeros n). cbn [app].
      rewrite <- Hpre, <- (Nat.add_0_r (length pre)). unfold bset1. bset_run.
      rewrite Z.shiftl_mul_pow2 by lia. change (2 ^ 4) with 16. rewrite u8_small by lia.
      destruct (IH pre post p n) as [H1 _]. rewrite H1 by lia. done.
    + assert (n = 0%nat) as -> by lia. cbn [zeros replicate app].
      destruct (char_to_hex c); [done|]. unfold naa_tail_lo. by destruct (nibbles wwn).
Qed.

(** Each step of the page appends one designator: the buffer is the bytes
    written so far followed by zeros. *)
Definition page_at (w : list Z) (k : nat) : page83 :=
  Page83 (w ++ zeros k) (Z.of_nat (length w) - 4) (length w).

(** [snprintf] where the string fits. *)
Lemma snprintf_fits buf off n s :
  Z.of_nat (length s) < n ->
  snprintf_s buf off n s = buf' ← bset buf off (s ++ [0]); Some (buf', Z.of_nat (length s)).
Proof.
  intros Hn. unfold snprintf_s.
  rewrite (proj2 (Z.eqb_neq n 0)), Z.min_l, Nat2Z.id, take_ge by lia. done.
Qed.

(** Opens a step on [page_at w k] whose first [n] bytes (the list [hd]) are
    still zero, and runs the stores. *)
Ltac page_run := unfold bset1; cbn [app]; bset_run.
Ltac page_start n hd :=
  unfold page_at; cbn [pg_ptr pg_data pg_used];
  match goal with |- context [?w ++ zeros ?k] => rewrite (zeros_split n k) by lia end;
  change (zeros n) with hd; page_run.

(** The final state after the stores: the zeros that are left and the lengths
    agree. *)
Lemma page_at_eq d w' k u p :
  d = w' ++ zeros k -> u = Z.of_nat (length w') - 4 -> p = length w' ->
  Page83 d u p = page_at w' k.
Proof. by intros -> -> ->. Qed.

Ltac page_lengths :=
  rewrite ?length_app, ?length_desig; cbn [length]; rewrite ?length_app; cbn [length].

Ltac page_done :=
  f_equal; apply page_at_eq;
  [ match goal with |- _ = (?w ++ _) ++ _ => rewrite <- (app_assoc w) end;
    f_equal; unfold desig; cbn [app length];
    rewrite ?drop_0, ?drop_zeros, <- ?app_assoc; cbn [app];
    rewrite ?length_app; cbn [length];
    repeat (f_equal; try lia)
  | page_lengths; lia
  | page_lengths; lia ].

Lemma page83_t10_spec w wwn k :
  length w = 4%nat -> (4 + k = 512)%nat -> (length wwn <= 246)%nat ->
  page83_t10 wwn (page_at w k) =
  Some (page_at (w ++ desig 2 1 (str "LIO-ORG " ++ wwn ++ [0])) (k - (13 + length wwn))).
Proof.
  intros Hw Hk Hl. unfold page83_t10.
  change (str "LIO-ORG ") with [76; 73; 79; 45; 79; 82; 71; 32].
  page_start 12%nat [0;0;0;0;0;0;0;0;0;0;0;0].
  rewrite bset_0 by (simpl; lia). cbn [mbind option_bind app length drop].
  rewrite snprintf_fits by lia. page_run.
  rewrite bset_0 by (rewrite !length_app, ?drop_0, ?length_zeros; simpl; lia).
  cbn [mbind option_bind app drop]. page_run.
  rewrite (u8_small (8 + _ + 1)) by lia. rewrite !u8_small by lia. 
  page_done.
Qed.

Lemma page83_naa_spec w wwn k :
  (length w + k = 512)%nat -> (20 <= k)%nat ->
  page83_naa wwn (page_at w k) =
  Some (page_at (w ++ desig 1 3 (naa_ieee wwn)) (k - 20)).
Proof.
  intros Hw Hk. unfold page83_naa.
  page_start 20%nat [0;0;0;0;0;0;0;0;0;0;0;0;0;0;0;0;0;0;0;0].
  rewrite !u8_small by lia.
  replace (w ++ 1 :: _) with ((w ++ [1;3;0;16;0x60;0x01;0x40]) ++ 0x50 :: zeros 12 ++ zeros (k - 20))
    by (rewrite <- app_assoc; done).
  destruct (hex_fill_spec 20 wwn (w ++ [1;3;0;16;0x60;0x01;0x40]) (zeros (k - 20)) (length w) 12)
    as [Hf _].
  rewrite Hf by (rewrite ?length_app; simpl; lia). cbn [mbind option_bind].
  f_equal. apply page_at_eq.
  - unfold desig. rewrite length_naa_ieee. unfold naa_ieee. by rewrite <- !app_assoc.
  - page_lengths. rewrite length_naa_ieee. lia.
  - page_lengths. rewrite length_naa_ieee. lia.
Qed.

Lemma page83_vendor_spec w cfg k :
  (4 <= length w)%nat -> (length w + k = 512)%nat -> (5 + length cfg <= k)%nat ->
  (length cfg <= 254)%nat ->
  page83_vendor cfg (page_at w k) =
  Some (page_at (w ++ desig 2 0 (cfg ++ [0])) (k - (5 + length cfg))).
Proof.
  intros Hw Hk Hc Hl. unfold page83_vendor.
  page_start 4%nat [0;0;0;0].
  rewrite snprintf_fits by (rewrite u64_small by lia; lia). page_run.
  rewrite bset_0 by (rewrite !length_app, ?length_zeros; simpl; lia).
  cbn [mbind option_bind]. page_run. rewrite !u8_small by lia.
  page_done.
Qed.

Lemma page83_port_id_spec w proto type id k :
  (4 <= length w)%nat -> (length w + k = 512)%nat -> (8 <= k)%nat -> 
  page83_port_id proto type id (page_at w k) =
  Some (page_at (w ++ desig (u8 (Z.lor (u8 (Z.shiftl proto 4)) 0x1))
                            (u8 (Z.lor (Z.lor 0x80 0x10) type))
                            [0; 0; u8 (Z.land (Z.shiftr id 8) 0xff); u8 (Z.land id 0xff)])
                (k - 8)).
Proof.
  intros Hw Hk Hc. unfold page83_port_id.
  page_start 8%nat [0;0;0;0;0;0;0;0]. page_done.
Qed.

(** The padded body of a SCSI name designator. *)
Definition name_body (name : list Z) : list Z :=
  name ++ zeros (Z.to_nat (name_len (Z.of_nat (length name))) - length name).

Lemma name_len_spec n :
  0 <= n <= 250 -> n < name_len n <= 252 /\ name_len n mod 4 = 0 /\ name_len n <= n + 4.
Proof.
  intros Hn. unfold name_len.
  destruct (Z.eqb_spec ((- (n + 1)) mod 4) 0); rewrite (proj2 (Z.ltb_ge _ _)); dlia.
Qed.

Lemma page83_name_spec w proto assoc name k :
  (4 <= length w)%nat -> (length w + k = 512)%nat -> (length name <= 250)%nat ->
  (4 + length (name_body name) <= k)%nat -> 
  page83_name proto assoc name (page_at w k) =
  Some (page_at (w ++ desig (u8 (Z.lor (u8 (Z.shiftl proto 4)) 0x3))
                            (u8 (Z.lor (Z.lor 0x80 assoc) 0x8)) (name_body name))
                (k - (4 + length (name_body name)))).
Proof.
  intros Hw Hk Hn Hc. unfold page83_name.
  destruct (name_len_spec (Z.of_nat (length name))) as (Hl & _ & Hu); [lia|].
  assert (length (name_body name) = Z.to_nat (name_len (Z.of_nat (length name)))) as Hb.
  { unfold name_body. rewrite length_app, length_zeros. lia. }
  page_start 4%nat [0;0;0;0].
  rewrite snprintf_fits by (rewrite u64_small by lia; lia). page_run.
  rewrite bset_0 by (rewrite !length_app, ?length_zeros; simpl; lia).
  cbn [mbind option_bind]. page_run. rewrite (u8_small (name_len _)) by lia.
  f_equal. apply page_at_eq.
  - rewrite <- (app_assoc w). f_equal. unfold desig. rewrite Hb, Z2Nat.id by lia.
    cbn [app]. do 4 f_equal. unfold name_body. rewrite <- !app_assoc. f_equal.
    rewrite drop_zeros, length_app. change [0] with (zeros 1). unfold zeros.
    rewrite <- !replicate_add. f_equal. simpl. lia.
  - page_lengths. rewrite Hb. lia.
  - page_lengths. rewrite Hb. lia.
Qed.

(** The designators the page holds. *)
Definition page83_designators (wwn cfg : list Z) (port : option (alua_grp * tgt_port))
    : list (Z * Z * list Z) :=
  [(2, 1, str "LIO-ORG " ++ wwn ++ [0]); (1, 3, naa_ieee wwn); (2, 0, cfg ++ [0])] ++
  match port with
  | None => []
  | Some (grp, port) =>
      let code c := u8 (Z.lor (u8 (Z.shiftl (proto_id port) 4)) c) in
      let id16 v := [0; 0; u8 (Z.land (Z.shiftr v 8) 0xff); u8 (Z.land v 0xff)] in
      [(code 0x1, 0x94, id16 (rel_port_id port));
       (code 0x1, 0x95, id16 (grp_id grp));
       (code 0x3, 0x98, name_body (port_wwn port ++ str ",t,0x" ++ hex4 (tpgt port)));
       (code 0x3, 0xA8, name_body (port_wwn port))]
  end.

Definition flat (ds : list (Z * Z * list Z)) : list Z :=
  concat (map (fun '(c, t, body) => desig c t body) ds).

Lemma flat_cons c t body ds : flat ((c, t, body) :: ds) = desig c t body ++ flat ds.
Proof. done. Qed.

Lemma parse_flat ds : parse_designators (length ds) (flat ds) = Some ds.
Proof.
  induction ds as [|[[c t] body] ds IH]; [done|].
  cbn [length]. rewrite flat_cons, parse_designators_desig, IH. done.
Qed.

(** The strings fit their designators' one-byte lengths. *)
Definition page83_strings_ok (wwn cfg : list Z) (port : option (alua_grp * tgt_port)) : Prop :=
  (length wwn <= 246)%nat /\ (length cfg <= 254)%nat /\
  match port with None => True | Some (_, port) => (length (port_wwn port) <= 241)%nat end.

(** The page holding the designators [ds]. *)
Definition page_of (ds : list (Z * Z * list Z)) : page83 :=
  page_at ([0; 0x83; 0; 0] ++ flat ds) (508 - length (flat ds)).

Lemma flat_app ds es : flat (ds ++ es) = flat ds ++ flat es.
Proof. unfold flat. by rewrite map_app, concat_app. Qed.

Lemma page_of_snoc ds c t body k :
  k = (508 - length (flat ds) - (4 + length body))%nat ->
  page_at (([0; 0x83; 0; 0] ++ flat ds) ++ desig c t body) k = page_of (ds ++ [(c, t, body)]).
Proof.
  intros ->. unfold page_of. rewrite flat_app, flat_cons. cbn [flat map concat].
  rewrite app_nil_r, length_app, length_desig, app_assoc. f_equal. lia.
Qed.

(** One step of the page: [lem] appends a designator if there is room. *)
Ltac page_room :=
  rewrite ?flat_cons; change (flat []) with (@nil Z);
  repeat rewrite ?length_app, ?length_desig, ?length_naa_ieee; cbn [length] in *; lia.
Ltac page_step lem :=
  unfold page_of at 1; rewrite lem by page_room;
  rewrite page_of_snoc by page_room; cbn [mbind option_bind app].

(** The page length field is stored last. *)
Lemma page_finish ds :
  (4 + length (flat ds) <= 512)%nat ->
  (data ← bset (pg_data (page_of ds)) 2 (be_enc 2 (u16 (pg_used (page_of ds))));
   Some (data, pg_used (page_of ds) + 4)) =
  Some ([0; 0x83] ++ be_enc 2 (Z.of_nat (length (flat ds))) ++ flat ds ++
        zeros (508 - length (flat ds)), Z.of_nat (length (flat ds)) + 4).
Proof.
  intros Hds. unfold page_of, page_at. cbn [pg_data pg_used].
  rewrite length_app, Nat2Z.inj_add. cbn [length].
  replace (Z.of_nat 4 + _ - 4) with (Z.of_nat (length (flat ds))) by lia.
  rewrite u16_small by lia. cbn [app]. rewrite !bset_cons, bset_0 by (simpl; lia). done.
Qed.

Lemma vpd_page_83_steps wwn cfg port :
  page83_strings_ok wwn cfg port ->
  let D := flat (page83_designators wwn cfg port) in
  (4 + length D <= 512)%nat ->
  vpd_page_83 wwn cfg port =
  Some ([0; 0x83] ++ be_enc 2 (Z.of_nat (length D)) ++ D ++ zeros (508 - length D),
        Z.of_nat (length D) + 4).
Proof.
  intros (Hw & Hc & Hp) D HD. unfold D. rewrite <- page_finish by done.
  unfold vpd_page_83, D, page83_designators in *. clear D.
  change (bset1 (zeros 512) 1 0x83) with (Some ([0; 0x83; 0; 0] ++ zeros 508)).
  cbn [mbind option_bind].
  change (Page83 ([0; 131; 0; 0] ++ zeros 508) 0 4) with (page_of []).
  assert (length (str "LIO-ORG ") = 8%nat) as HL by done.
  destruct port as [[grp port]|]; cbn [app] in HD; rewrite !flat_cons in HD;
    repeat rewrite ?length_app, ?length_desig, ?length_naa_ieee in HD;
    change (flat []) with (@nil Z) in HD; cbn [length] in HD;
    page_step page83_t10_spec; page_step page83_naa_spec; page_step page83_vendor_spec; [|done].
  assert (length (port_wwn port ++ str ",t,0x" ++ hex4 (tpgt port)) <= 250)%nat as Hn.
  { rewrite !length_app. simpl. lia. }
  set (nm := port_wwn port ++ str _ ++ _) in *. clearbody nm.
  page_step page83_port_id_spec. page_step page83_port_id_spec.
  page_step page83_name_spec. page_step page83_name_spec. done.
Qed.

(** the device identification page is read back as the designators it is
    meant to hold.  When the serial number, the handler configuration and the
    port name fit their one-byte lengths and the page fits its 512 bytes, the
    page is built without a store outside the buffer, its PAGE LENGTH field is
    the length of the designator list, the returned length covers exactly the
    header and the list, and parsing the list gives the T10, NAA, vendor
    specific and (behind a target port) relative port, port group and two SCSI
    name designators with their bodies. *)
Theorem vpd_page_83_roundtrip wwn cfg port :
  page83_strings_ok wwn cfg port ->
  (4 + length (flat (page83_designators wwn cfg port)) <= 512)%nat ->
  exists data len,
    vpd_page_83 wwn cfg port = Some (data, len) /\
    length data = 512%nat /\
    byte_at data 1 = 0x83 /\
    len = be_at data 2 2 + 4 /\
    parse_designators 7 (take (Z.to_nat len - 4) (drop 4 data)) =
      Some (page83_designators wwn cfg port).
Proof.
  intros Hs Hl. pose proof (vpd_page_83_steps wwn cfg port Hs Hl) as Hv.
  set (ds := page83_designators wwn cfg port) in *. cbn zeta in Hv.
  eexists _, _. split; [exact Hv|].
  assert (length (be_enc 2 (Z.of_nat (length (flat ds)))) = 2%nat) as H2 by apply be_enc_length.
  destruct (be_enc 2 (Z.of_nat (length (flat ds)))) as [|x [|y [|]]] eqn:He; try done.
  split; [rewrite !length_app, length_zeros; cbn [length]; lia|]. split; [done|].
  split.
  - change (be_at ([0; 131] ++ [x; y] ++ flat ds ++ zeros (508 - length (flat ds))) 2 2)
      with (be_dec [x; y]).
    rewrite <- He, be_dec_enc by (change (256 ^ Z.of_nat 2) with 65536; lia). done.
  - replace (Z.to_nat _ - 4)%nat with (length (flat ds)) by lia.
    change (drop 4 _) with (flat ds ++ zeros (508 - length (flat ds))).
    rewrite take_app_length. unfold ds. destruct port as [[grp port]|].
    + exact (parse_flat (page83_designators wwn cfg (Some (grp, port)))).
    + apply (parse_designators_le 3); [lia|].
      exact (parse_flat (page83_designators wwn cfg None)).
Qed.

Definition demo_port : option (alua_grp * tgt_port) :=
  Some (Grp 0 0x81 1 0 0 false 1 (str "ao") 1 [], Port 5 1 (str "iqn.2003-01.org:x") true 3 (str "iscsi")).

Lemma vpd_page_83_roundtrip_witness :
  exists data len,
    vpd_page_83 (str "1f5ab-4c") (str "/dev/sda")
      demo_port = Some (data, len) /\
    length data = 512%nat /\ byte_at data 1 = 0x83 /\ len = be_at data 2 2 + 4 /\
    parse_designators 7 (take (Z.to_nat len - 4) (drop 4 data)) =
      Some (page83_designators (str "1f5ab-4c") (str "/dev/sda")
        demo_port).
Proof.
  apply vpd_page_83_roundtrip.
  - by vm_compute; repeat split; repeat constructor.
  - by apply leb_complete; vm_compute.
Defined.

(** The page is not always built inside its 512-byte buffer.  A serial
    number and a handler configuration string that each fit the one-byte
    length of their designator can overrun the stack buffer together: the
    bound passed for the configuration string reserves four bytes too few. *)
Theorem vpd_page_83_overflow :
  exists wwn cfg,
    page83_strings_ok wwn cfg None /\ vpd_page_83 wwn cfg None = None.
Proof.
  exists (replicate 246 65), (replicate 254 66). split.
  - by repeat split; apply leb_complete.
  - by vm_compute.
Qed.

(** The pages [tcmu_emulate_evpd_inquiry] lists in page 0. *)
Definition listed_pages : list Z :=
  match vpd_page_00 with
  | Some p => take (Z.to_nat (byte_at p 3)) (drop 4 p)
  | None => []
  end.

Lemma reply_status m iov cnt buf len m' iov' s :
  reply m iov cnt buf len = Some (m', iov', s) -> s = TCMU_STS_OK.
Proof.
  unfold reply. destruct (tcmu_memcpy_into_iovec _ _ _ _ _) as [[[? ?] ?]|]; simpl; congruence.
Qed.

Lemma reply_page_status m iov cnt page m' iov' s :
  reply_page m iov cnt page = Some (m', iov', s) -> s = TCMU_STS_OK.
Proof. unfold reply_page. destruct page; [apply reply_status|done]. Qed.

(** Page 00h tells the truth.  It lists page codes in ascending order,
    and INQUIRY with the EVPD bit rejects a page code as an invalid field
    exactly when page 00h does not list it. *)
Theorem supported_vpd_pages_exact dev port cdb m iov cnt :
  Sorted Z.lt listed_pages /\
  (Z.land (byte_at cdb 1) 1 <> 0 ->
   (byte_at cdb 2 ∉ listed_pages <->
    tcmu_emulate_inquiry dev port cdb m iov cnt = Some (m, iov, TCMU_STS_INVALID_CDB))).
Proof.
  change listed_pages with [0x00; 0x80; 0x83; 0xb0; 0xb1; 0xb2]. split.
  { repeat constructor. }
  intros Hevpd. unfold tcmu_emulate_inquiry. rewrite (proj2 (Z.eqb_neq _ _)) by done.
  unfold tcmu_emulate_evpd_inquiry. set (p := byte_at cdb 2).
  rewrite !not_elem_of_cons. split.
  - intros (? & ? & ? & ? & ? & ? & _). repeat (rewrite (proj2 (Z.eqb_neq p _)) by done). done.
  - repeat (case_if; [intros H; exfalso;
      first [ by apply reply_page_status in H
            | destruct (dev_wwn dev); [|done];
              first [by apply reply_page_status in H
                    |destruct (vpd_page_83 _ _ _) as [[? ?]|]; [|done]; by apply reply_status in H]]|]).
    intros _. repeat split; try done. apply not_elem_of_nil.
Qed.

Lemma supported_vpd_pages_exact_witness :
  Sorted Z.lt listed_pages /\
  (Z.land (byte_at [0x12; 1; 0xb3; 0; 0; 0] 1) 1 <> 0 ->
   (byte_at [0x12; 1; 0xb3; 0; 0; 0] 2 ∉ listed_pages <->
    tcmu_emulate_inquiry demo_dev None [0x12; 1; 0xb3; 0; 0; 0] ∅ [] 0 =
      Some (∅, [], TCMU_STS_INVALID_CDB))).
Proof. exact (supported_vpd_pages_exact demo_dev None [0x12; 1; 0xb3; 0; 0; 0] ∅ [] 0). Defined.
