(* ===== verification/Mode.v ===== *)
(** * READ CAPACITY, MODE SENSE, MODE SELECT, START STOP UNIT

    The remaining emulation routines of [api.c], and the CDB dump. *)

From S2P Require Import Prelude Scsi Iovec Device Inquiry.

(** [src tcmu-runner/api.c tcmu_emulate_test_unit_ready] *)
Definition tcmu_emulate_test_unit_ready (m : mem) (iov : list iovec) : emu_result :=
  Some (m, iov, TCMU_STS_OK).

(** ** READ CAPACITY *)

(** [src tcmu-runner/api.c 782-802 tcmu_emulate_read_capacity_10] *)
Definition read_capacity_10_data (num_lbas block_size : Z) : option (list Z) :=
  let buf := zeros 8 in
  let val32 := if num_lbas <? 0x100000000 then be_enc 4 (u32 (num_lbas - 1))
               else [0xff; 0xff; 0xff; 0xff] in
  buf ← bset buf 0 val32;
  bset buf 4 (be_enc 4 (u32 block_size)).

(** [src tcmu-runner/api.c tcmu_emulate_read_capacity_10] *)
Definition tcmu_emulate_read_capacity_10 (num_lbas block_size : Z) (m : mem) (iov : list iovec)
    (cnt : Z) : emu_result :=
  reply_page m iov cnt (read_capacity_10_data num_lbas block_size).

(** [src tcmu-runner/api.c 815-845 tcmu_emulate_read_capacity_16] *)
Definition read_capacity_16_data (num_lbas block_size : Z) : option (list Z) :=
  let buf := zeros 32 in
  buf ← bset buf 0 (be_enc 8 (u64 (num_lbas - 1)));
  buf ← bset buf 8 (be_enc 4 (u32 block_size));
  buf ← bset1 buf 14 0x80;
  b ← bget1 buf 14;
  bset1 buf 14 (Z.lor b 0x40).

(** [src tcmu-runner/api.c tcmu_emulate_read_capacity_16] *)
Definition tcmu_emulate_read_capacity_16 (num_lbas block_size : Z) (m : mem) (iov : list iovec)
    (cnt : Z) : emu_result :=
  reply_page m iov cnt (read_capacity_16_data num_lbas block_size).

(** ** MODE SENSE *)

(** The response buffer and the position written next ([None] is the NULL
    pointer that stops the copying). *)
Record response := Resp { r_buf : list Z; r_pos : option nat }.

(** [src tcmu-runner/api.c copy_to_response_buf] *)
Definition copy_to_response_buf (r : response) (to_len : Z) (from_buf : list Z) : option response :=
  match r_pos r with
  | None => Some r
  | Some off =>
      let from_len := Z.of_nat (length from_buf) in
      b ← bset (r_buf r) off (take (Z.to_nat (if from_len <? to_len then from_len else to_len)) from_buf);
      Some (Resp b (r_pos r))
  end.

(** [src tcmu-runner/api.c 870-875 handle_rwrecovery_page] *)
Definition rwrecovery_page : list Z := [0x1; 0xa] ++ zeros 10.

(** [src tcmu-runner/api.c 883-894 handle_cache_page] *)
Definition cache_page (dev : tcmu_device) : list Z :=
  [0x8; 0x12; if tcmu_get_dev_write_cache_enabled dev then 0x4 else 0] ++ zeros 17.

(** [src tcmu-runner/api.c 903-947 handle_control_page] *)
Definition control_page : list Z := [0x0a; 0x0a; 0x02; 0; 0; 0x40; 0; 0; 0xff; 0xff; 0; 0].

(** [src tcmu-runner/api.c handle_rwrecovery_page] *)
Definition handle_rwrecovery_page (dev : tcmu_device) (r : response) (len : Z)
    : option (response * Z) :=
  r ← copy_to_response_buf r len rwrecovery_page; Some (r, 12).

(** [src tcmu-runner/api.c handle_cache_page] *)
Definition handle_cache_page (dev : tcmu_device) (r : response) (len : Z)
    : option (response * Z) :=
  r ← copy_to_response_buf r len (cache_page dev); Some (r, 20).

(** [src tcmu-runner/api.c handle_control_page] *)
Definition handle_control_page (dev : tcmu_device) (r : response) (len : Z)
    : option (response * Z) :=
  r ← copy_to_response_buf r len control_page; Some (r, 12).

(** [src tcmu-runner/api.c 957-961 struct mode_sense_handler] *)
Record mode_sense_handler := ModeHandler {
  mh_page : Z;
  mh_subpage : Z;
  mh_get : tcmu_device -> response -> Z -> option (response * Z)
}.

(** [src tcmu-runner/api.c 961-965 modesense_handlers] *)
Definition modesense_handlers : list mode_sense_handler :=
  [ModeHandler 0x1 0 handle_rwrecovery_page;
   ModeHandler 0x8 0 handle_cache_page;
   ModeHandler 0xa 0 handle_control_page].

(** [None] inside is [-EINVAL].
    [src tcmu-runner/api.c handle_mode_sense] *)
Definition handle_mode_sense (dev : tcmu_device) (h : mode_sense_handler) (r : response)
    (alloc_len used_len : Z) (sense_ten : bool) : option (option (response * Z * Z)) :=
  '(r, ret) ← mh_get h dev r (u64 (alloc_len - used_len));
  if negb sense_ten && (255 <=? used_len + ret) then Some None
  else
    let pos := match r_pos r with
               | Some p => if alloc_len <=? used_len + ret then None else Some (p + Z.to_nat ret)%nat
               | None => None
               end in
    Some (Some (Resp (r_buf r) pos, used_len + ret, ret)).

(** The loop over all pages.
    [src tcmu-runner/api.c 1040-1047 tcmu_emulate_mode_sense] *)
Fixpoint sense_all_pages (dev : tcmu_device) (hs : list mode_sense_handler) (r : response)
    (alloc_len used_len : Z) (sense_ten : bool) : option (option (response * Z)) :=
  match hs with
  | [] => Some (Some (r, used_len))
  | h :: hs =>
      x ← handle_mode_sense dev h r alloc_len used_len sense_ten;
      match x with
      | None => Some None
      | Some (r, used_len, _) => sense_all_pages dev hs r alloc_len used_len sense_ten
      end
  end.

Definition find_page (page subpage : Z) : option mode_sense_handler :=
  List.find (fun h => (page =? mh_page h) && (subpage =? mh_subpage h)) modesense_handlers.

(** The whole response, before it is copied to the initiator; [None] inside is
    the [TCMU_STS_INVALID_CDB] exit.
    [src tcmu-runner/api.c 1028-1076 tcmu_emulate_mode_sense] *)
Definition mode_sense_data (dev : tcmu_device) (cdb : list Z) (alloc_len : Z)
    : option (option (list Z)) :=
  let sense_ten := byte_at cdb 0 =? MODE_SENSE_10 in
  let page_code := Z.land (byte_at cdb 2) 0x3f in
  let subpage_code := byte_at cdb 3 in
  let used_len := if sense_ten then 8 else 4 in
  if alloc_len <? used_len then Some None
  else
    let r := Resp (zeros (Z.to_nat alloc_len)) (Some (Z.to_nat used_len)) in
    x ← (if page_code =? 0x3f then
           sense_all_pages dev modesense_handlers r alloc_len used_len sense_ten
         else
           match find_page page_code subpage_code with
           | None => Some None
           | Some h =>
               y ← handle_mode_sense dev h r alloc_len used_len sense_ten;
               Some (match y with
                     | None => None
                     | Some (r, used_len, ret) => if ret <=? 0 then None else Some (r, used_len)
                     end)
           end);
    match x with
    | None => Some None
    | Some (r, used_len) =>
        b ← (if sense_ten then bset (r_buf r) 0 (be_enc 2 (u16 (used_len - 2)))
             else bset1 (r_buf r) 0 (used_len - 1));
        Some (Some b)
    end.

(** [mem_ok] is whether the response buffer could be allocated.
    [src tcmu-runner/api.c tcmu_emulate_mode_sense] *)
Definition tcmu_emulate_mode_sense (dev : tcmu_device) (cdb : list Z) (mem_ok : bool) (m : mem)
    (iov : list iovec) (cnt : Z) : emu_result :=
  alloc_len ← tcmu_get_xfer_length cdb;
  if alloc_len =? 0 then Some (m, iov, TCMU_STS_OK)
  else if negb mem_ok && negb (alloc_len <? if byte_at cdb 0 =? MODE_SENSE_10 then 8 else 4)
  then Some (m, iov, TCMU_STS_NO_RESOURCE)
  else
    x ← mode_sense_data dev cdb alloc_len;
    match x with
    | None => Some (m, iov, TCMU_STS_INVALID_CDB)
    | Some b => reply m iov cnt b alloc_len
    end.

(** ** MODE SELECT *)

(** [junk] is the uninitialised contents of the 512-byte parameter buffer.
    [src tcmu-runner/api.c tcmu_emulate_mode_select] *)
Definition tcmu_emulate_mode_select (dev : tcmu_device) (cdb junk : list Z) (m : mem)
    (iov : list iovec) (cnt : Z) : emu_result :=
  let select_ten := byte_at cdb 0 =? MODE_SELECT_10 in
  let page_code := Z.land (byte_at cdb 2) 0x3f in
  let subpage_code := byte_at cdb 3 in
  alloc_len ← tcmu_get_xfer_length cdb;
  let hdr_len := if select_ten then 8 else 4 in
  if alloc_len =? 0 then Some (m, iov, TCMU_STS_OK)
  else
    '(in_buf, iov, copied) ← tcmu_memcpy_from_iovec m junk 512 iov cnt;
    if 512 <=? copied then Some (m, iov, TCMU_STS_INVALID_PARAM_LIST_LEN)
    else if (Z.land (byte_at cdb 1) 0x10 =? 0) || negb (Z.land (byte_at cdb 1) 0x01 =? 0)
    then Some (m, iov, TCMU_STS_INVALID_CDB)
    else
      match find_page page_code subpage_code with
      | None => Some (m, iov, TCMU_STS_INVALID_CDB)
      | Some h =>
          '(r, ret) ← mh_get h dev (Resp (zeros 512) (Some (Z.to_nat hdr_len))) (512 - hdr_len);
          if ret <=? 0 then Some (m, iov, TCMU_STS_INVALID_CDB)
          else if negb select_ten && (255 <=? hdr_len + ret) then Some (m, iov, TCMU_STS_INVALID_CDB)
          else if alloc_len <? hdr_len + ret then Some (m, iov, TCMU_STS_INVALID_PARAM_LIST_LEN)
          else
            a ← bget (r_buf r) (Z.to_nat hdr_len) (Z.to_nat ret);
            b ← bget in_buf (Z.to_nat hdr_len) (Z.to_nat ret);
            if decide (a = b) then Some (m, iov, TCMU_STS_OK)
            else Some (m, iov, TCMU_STS_INVALID_PARAM_LIST)
      end.

(** [src tcmu-runner/api.c tcmu_emulate_start_stop] *)
Definition tcmu_emulate_start_stop (cdb : list Z) : tcmu_sts :=
  if negb (Z.land (Z.shiftr (byte_at cdb 4) 4) 0xf =? 0) then TCMU_STS_INVALID_CDB
  else if Z.land (byte_at cdb 4) 0x01 =? 0 then TCMU_STS_INVALID_CDB
  else TCMU_STS_OK.

(** ** The CDB dump *)

(** [src tcmu-runner/api.c 1169-1169 CDB_TO_BUF_SIZE] *)
Definition CDB_TO_BUF_SIZE (bytes : Z) : Z := bytes * 3 + 1.
Definition CDB_FIX_BYTES : Z := 64.
(** [src tcmu-runner/api.c 1171-1171 CDB_FIX_SIZE] *)
Definition CDB_FIX_SIZE : Z := CDB_TO_BUF_SIZE CDB_FIX_BYTES.

(** ["%x "] of a byte. *)
Definition hex_pair (v : Z) : list Z :=
  (if v <? 16 then [hex_digit v] else [hex_digit (v / 16); hex_digit (v mod 16)]) ++ [32].

(** [sprintf(buf + n, ...)]: the characters and a NUL. *)
Definition sprintf_at (buf : list Z) (n : nat) (s : list Z) : option (list Z * nat) :=
  buf ← bset buf n (s ++ [0]); Some (buf, (n + length s)%nat).

(** [src tcmu-runner/api.c 1194-1196 tcmu_print_cdb_info] *)
Fixpoint print_cdb_bytes (buf : list Z) (n : nat) (bytes : list Z) : option (list Z * nat) :=
  match bytes with
  | [] => Some (buf, n)
  | b :: bytes => '(buf, n) ← sprintf_at buf n (hex_pair b); print_cdb_bytes buf n bytes
  end.

(** The message handed to the log, [Some None] when there is none: a CDB of
    unknown length, or no memory.
    [src tcmu-runner/api.c tcmu_print_cdb_info] *)
Definition tcmu_print_cdb_info (cdb : list Z) (mem_ok : bool) (info : option (list Z))
    : option (option (list Z)) :=
  let bytes := tcmu_get_cdb_length cdb in
  if bytes <? 0 then Some None
  else if (CDB_FIX_SIZE <? bytes) && negb mem_ok then Some None
  else
    let size := if CDB_FIX_SIZE <? bytes then CDB_TO_BUF_SIZE bytes else CDB_FIX_SIZE in
    '(buf, n) ← print_cdb_bytes (zeros (Z.to_nat size)) 0 (map (byte_at cdb) (seq 0 (Z.to_nat bytes)));
    '(buf, n) ← match info with Some s => sprintf_at buf n s | None => Some (buf, n) end;
    '(buf, n) ← sprintf_at buf n [10];
    Some (Some (take n buf)).

(** ** Properties *)

(** An initiator that follows SBC: READ CAPACITY(10), and READ CAPACITY(16)
    when the first returns all ones. *)
Definition discover_capacity (num_lbas block_size : Z) : option (Z * Z) :=
  d10 ← read_capacity_10_data num_lbas block_size;
  if be_at d10 0 4 =? 0xffffffff then
    d16 ← read_capacity_16_data num_lbas block_size;
    Some (be_at d16 0 8 + 1, be_at d16 8 4)
  else Some (be_at d10 0 4 + 1, be_at d10 4 4).

Lemma be_at_app_r a b n :
  length a = n -> forall k, (k <= length b)%nat -> be_at (a ++ b) n k = be_dec (take k b).
Proof.
  intros <- k Hk. unfold be_at. f_equal.
  apply list_eq. intros i. rewrite list_lookup_fmap, lookup_take.
  destruct (decide (i < k)%nat).
  - rewrite lookup_seq_lt by done. simpl. unfold byte_at.
    rewrite app_nth2_plus. destruct (lookup_lt_is_Some_2 b i) as [x Hx]; [lia|].
    rewrite Hx. f_equal. by apply nth_lookup_Some.
  - rewrite lookup_seq_ge by lia. done.
Qed.

(** the capacity an initiator discovers is the device's number of blocks
    and block size, whether it fits in 32 bits or not. *)
Theorem read_capacity_discovered (num_lbas block_size : Z)
  (Hn : 0 < num_lbas < 2 ^ 64) (Hb : 0 <= block_size < 2 ^ 32) :
  discover_capacity num_lbas block_size = Some (num_lbas, block_size).
Proof.
  unfold discover_capacity, read_capacity_10_data, read_capacity_16_data.
  rewrite (u32_small block_size), (u64_small (num_lbas - 1)) by lia.
  pose proof (be_enc_length 4 block_size) as L4.
  pose proof (be_enc_length 8 (num_lbas - 1)) as L8.
  pose proof (be_dec_enc 4 block_size Hb) as D4.
  assert (be_dec (be_enc 8 (num_lbas - 1)) = num_lbas - 1) as D8 by (apply be_dec_enc; lia).
  set (v := if num_lbas <? 4294967296 then be_enc 4 (u32 (num_lbas - 1)) else [255; 255; 255; 255]).
  assert (length v = 4%nat) as Lv by (unfold v; case_if; [apply be_enc_length|done]).
  assert (be_dec v = if num_lbas <? 4294967296 then num_lbas - 1 else 0xffffffff) as Dv.
  { unfold v. destruct (Z.ltb_spec num_lbas 4294967296); [|done].
    rewrite u32_small by lia. apply be_dec_enc. lia. }
  destruct (be_enc 4 block_size) as [|b0 [|b1 [|b2 [|b3 [|]]]]]; try done.
  destruct (be_enc 8 (num_lbas - 1)) as [|c0 [|c1 [|c2 [|c3 [|c4 [|c5 [|c6 [|c7 [|]]]]]]]]]; try done.
  destruct v as [|v0 [|v1 [|v2 [|v3 [|]]]]]; try done.
  change (bset (zeros 8) 0 [v0; v1; v2; v3] ≫= _) with (Some [v0; v1; v2; v3; b0; b1; b2; b3]).
  change (bset (zeros 32) 0 [c0; c1; c2; c3; c4; c5; c6; c7] ≫= _)
    with (Some ([c0; c1; c2; c3; c4; c5; c6; c7; b0; b1; b2; b3; 0; 0; 192] ++ zeros 17)).
  cbn [mbind option_bind].
  change (be_at [v0; v1; v2; v3; b0; b1; b2; b3] 0 4) with (be_dec [v0; v1; v2; v3]).
  change (be_at [v0; v1; v2; v3; b0; b1; b2; b3] 4 4) with (be_dec [b0; b1; b2; b3]).
  rewrite Dv, D4. destruct (Z.ltb_spec num_lbas 4294967296).
  - rewrite (proj2 (Z.eqb_neq _ _)) by lia. f_equal. f_equal. lia.
  - change (4294967295 =? 4294967295) with true. cbn [mbind option_bind].
    match goal with |- Some (be_at (?l) 0 8 + 1, _) = _ =>
      change (be_at l 0 8) with (be_dec [c0; c1; c2; c3; c4; c5; c6; c7]);
      change (be_at l 8 4) with (be_dec [b0; b1; b2; b3]) end.
    rewrite D8, D4. f_equal. f_equal. lia.
Qed.

Lemma read_capacity_discovered_witness :
  discover_capacity 4294967296 4096 = Some (4294967296, 4096).
Proof. apply (read_capacity_discovered 4294967296 4096); lia. Defined.

(** *** MODE SENSE returns a prefix of the untruncated response *)

Definition page_bytes (dev : tcmu_device) (h : mode_sense_handler) : list Z :=
  if mh_page h =? 1 then rwrecovery_page else if mh_page h =? 8 then cache_page dev
  else control_page.

(** The invariant of the loop: [W] is the response so far, [a] the allocation
    length. *)
Definition resp_inv (a : nat) (W : list Z) (r : response) : Prop :=
  r_buf r = take a (W ++ zeros a) /\
  ((r_pos r = Some (length W) /\ (length W <= a)%nat) \/ (r_pos r = None /\ (a <= length W)%nat)).

Lemma take_zeros_le a b c : (a <= b)%nat -> (a <= c)%nat -> take a (zeros b) = take a (zeros c).
Proof. intros. unfold zeros. rewrite !take_replicate. f_equal. lia. Qed.

Lemma copy_step a W r p :
  Z.of_nat a < 2 ^ 32 -> resp_inv a W r ->
  exists r', copy_to_response_buf r (u64 (Z.of_nat a - Z.of_nat (length W))) p = Some r' /\
    r_buf r' = take a ((W ++ p) ++ zeros a) /\ r_pos r' = r_pos r.
Proof.
  intros Ha [Hb [[Hp Hl]|[Hp Hl]]]; unfold copy_to_response_buf; rewrite Hp.
  2:{ exists r. split_and!; [done| |done]. rewrite Hb, <- app_assoc, !take_app_le by lia. done. }
  rewrite u64_small by lia.
  set (n := Z.to_nat (if Z.of_nat (length p) <? Z.of_nat a - Z.of_nat (length W)
    then Z.of_nat (length p) else Z.of_nat a - Z.of_nat (length W))).
  assert (n = Nat.min (length p) (a - length W)) as -> by (unfold n; case_if; lia).
  rewrite Hb, take_app_split by done.
  rewrite bset_app_r0, bset_0 by (rewrite !length_take, length_zeros; lia).
  cbn [mbind option_bind]. eexists. split; [reflexivity|]. cbn [r_buf r_pos]. split; [|done].
  rewrite <- app_assoc, (take_app_split W) by done. f_equal.
  rewrite take_app. f_equal.
  - destruct (decide (length p <= a - length W)%nat).
    + by rewrite Nat.min_l, !take_ge by lia.
    + by rewrite Nat.min_r by lia.
  - unfold zeros. rewrite length_take, !take_replicate, drop_replicate. f_equal. lia.
Qed.

Lemma page_get_spec h dev r len :
  h ∈ modesense_handlers ->
  mh_get h dev r len = r' ← copy_to_response_buf r len (page_bytes dev h);
                       Some (r', Z.of_nat (length (page_bytes dev h))).
Proof.
  intros Hh. unfold modesense_handlers in Hh.
  repeat (apply elem_of_cons in Hh as [->|Hh]); [done..|]. by apply not_elem_of_nil in Hh.
Qed.

Lemma page_bytes_length dev h : (length (page_bytes dev h) <= 20)%nat /\ (12 <= length (page_bytes dev h))%nat.
Proof. unfold page_bytes. repeat case_if; simpl; lia. Qed.

Lemma handle_mode_sense_step h dev a W r ten :
  h ∈ modesense_handlers -> Z.of_nat a < 2 ^ 32 -> (length W <= 200)%nat -> resp_inv a W r ->
  exists r', handle_mode_sense dev h r (Z.of_nat a) (Z.of_nat (length W)) ten =
      Some (Some (r', Z.of_nat (length (W ++ page_bytes dev h)), Z.of_nat (length (page_bytes dev h)))) /\
    resp_inv a (W ++ page_bytes dev h) r'.
Proof.
  intros Hh Ha HW Hr. unfold handle_mode_sense. rewrite page_get_spec by done.
  destruct (copy_step a W r (page_bytes dev h) Ha Hr) as (r' & -> & Hb & Hp).
  cbn [mbind option_bind]. pose proof (page_bytes_length dev h).
  replace (negb ten && _) with false.
  2:{ symmetry. rewrite (proj2 (Z.leb_gt _ _)) by lia. apply andb_false_r. }
  rewrite length_app, Nat2Z.inj_add. eexists. split; [reflexivity|].
  unfold resp_inv. cbn [r_buf r_pos]. split; [done|]. rewrite Hp, length_app.
  destruct Hr as [_ [[-> Hl]|[-> Hl]]]; [|right; split; [done|lia]].
  destruct (Z.leb_spec (Z.of_nat a) (Z.of_nat (length W) + Z.of_nat (length (page_bytes dev h)))).
  - right. split; [done|lia].
  - left. rewrite Nat2Z.id. split; [done|lia].
Qed.

(** The pages a page code selects. *)
Definition selected_pages (cdb : list Z) : list mode_sense_handler :=
  if Z.land (byte_at cdb 2) 0x3f =? 0x3f then modesense_handlers
  else match find_page (Z.land (byte_at cdb 2) 0x3f) (byte_at cdb 3) with
       | Some h => [h]
       | None => []
       end.

(** The response to an unlimited allocation length: the header with the MODE
    DATA LENGTH, no block descriptors, the pages. *)
Definition mode_response (dev : tcmu_device) (cdb : list Z) : list Z :=
  let pages := concat (map (page_bytes dev) (selected_pages cdb)) in
  if byte_at cdb 0 =? MODE_SENSE_10
  then be_enc 2 (Z.of_nat (8 + length pages) - 2) ++ zeros 6 ++ pages
  else [Z.of_nat (4 + length pages) - 1] ++ zeros 3 ++ pages.

Lemma sense_all_pages_step dev hs a ten : forall W r,
  hs ⊆ modesense_handlers -> Z.of_nat a < 2 ^ 32 ->
  (length W + 20 * length hs <= 200)%nat -> resp_inv a W r ->
  let P := concat (map (page_bytes dev) hs) in
  exists r', sense_all_pages dev hs r (Z.of_nat a) (Z.of_nat (length W)) ten =
      Some (Some (r', Z.of_nat (length (W ++ P)))) /\ resp_inv a (W ++ P) r'.
Proof.
  induction hs as [|h hs IH]; intros W r Hs Ha HW Hr; cbn [map concat sense_all_pages].
  - exists r. rewrite app_nil_r. done.
  - destruct (handle_mode_sense_step h dev a W r ten) as (r1 & -> & Hr1); try done.
    { apply Hs. left. } { simpl in HW. lia. }
    cbn [mbind option_bind]. pose proof (page_bytes_length dev h).
    destruct (IH (W ++ page_bytes dev h) r1) as (r2 & -> & Hr2); try done.
    { intros x Hx. apply Hs. by right. } { rewrite length_app. simpl in HW. lia. }
    exists r2. by rewrite <- app_assoc in Hr2 |- *.
Qed.

Lemma find_page_elem p s h : find_page p s = Some h -> h ∈ modesense_handlers.
Proof. unfold find_page. intros H. apply find_some in H as [H _]. by apply list_elem_of_In. Qed.

Lemma bset_take a buf bs X :
  (length bs <= a)%nat -> (length bs <= length X)%nat -> buf = take a X ->
  bset buf 0 bs = Some (take a (bs ++ drop (length bs) X)).
Proof.
  intros Ha HX ->. rewrite bset_0 by (rewrite length_take; lia).
  f_equal. rewrite take_app_split by done. f_equal. by rewrite <- skipn_firstn_comm.
Qed.

(** MODE SENSE (6 and 10) returns, for every allocation length that holds
    the header, exactly the first ALLOCATION LENGTH bytes of the untruncated
    response (zero padded when it is longer): in particular the MODE DATA
    LENGTH field counts all the pages asked for, however short the allocation
    length is.  Without a matching page, or without room for the header, the
    CDB is rejected. *)
Theorem mode_sense_prefix (dev : tcmu_device) (cdb : list Z) (alloc_len : Z)
  (Ha : 0 <= alloc_len < 2 ^ 32) :
  mode_sense_data dev cdb alloc_len =
  Some (if (alloc_len <? if byte_at cdb 0 =? MODE_SENSE_10 then 8 else 4)
           || bool_decide (selected_pages cdb = [])
        then None
        else Some (take (Z.to_nat alloc_len)
                     (mode_response dev cdb ++ zeros (Z.to_nat alloc_len)))).
Proof.
  unfold mode_sense_data, mode_response, selected_pages.
  set (ten := byte_at cdb 0 =? MODE_SENSE_10).
  destruct (Z.ltb_spec alloc_len (if ten then 8 else 4)) as [|Hh]; [done|]. cbn [orb].
  set (a := Z.to_nat alloc_len). set (W := zeros (if ten then 8 else 4)).
  assert (Z.of_nat (length W) = if ten then 8 else 4) as LW by (unfold W; by destruct ten).
  assert (resp_inv a W (Resp (zeros a) (Some (Z.to_nat (if ten then 8 else 4))))) as Hr.
  { unfold resp_inv. cbn [r_buf r_pos]. rewrite <- LW, Nat2Z.id. split.
    - rewrite take_app_split by lia. unfold W, zeros.
      rewrite take_replicate, <- replicate_add. f_equal. rewrite length_replicate.
      destruct ten; lia.
    - left. split; [done|]. lia. }
  assert (forall hs r, resp_inv a (W ++ concat (map (page_bytes dev) hs)) r ->
    (length (concat (map (page_bytes dev) hs)) <= 60)%nat ->
    (b ← (if ten then bset (r_buf r) 0 (be_enc 2 (u16 (Z.of_nat (length (W ++ concat (map (page_bytes dev) hs))) - 2)))
          else bset1 (r_buf r) 0 (Z.of_nat (length (W ++ concat (map (page_bytes dev) hs))) - 1));
     Some (Some b)) =
    Some (Some (take a ((if ten
      then be_enc 2 (Z.of_nat (8 + length (concat (map (page_bytes dev) hs))) - 2) ++ zeros 6 ++
           concat (map (page_bytes dev) hs)
      else [Z.of_nat (4 + length (concat (map (page_bytes dev) hs))) - 1] ++ zeros 3 ++
           concat (map (page_bytes dev) hs)) ++ zeros a)))) as Hfin.
  { intros hs r [Hb _] HL. set (P := concat (map (page_bytes dev) hs)) in *.
    rewrite length_app, Nat2Z.inj_add, LW. unfold bset1. unfold W in Hb. destruct ten.
    - rewrite u16_small by lia. rewrite Nat2Z.inj_add.
      rewrite (bset_take a _ _ ((zeros 8 ++ P) ++ zeros a));
        rewrite ?be_enc_length; [|lia|rewrite !length_app, length_zeros; lia|done].
      cbn [mbind option_bind]. by rewrite <- app_assoc.
    - rewrite u8_small by lia. rewrite Nat2Z.inj_add.
      rewrite (bset_take a _ _ ((zeros 4 ++ P) ++ zeros a));
        cbn [length]; [|lia|rewrite !length_app, length_zeros; lia|done].
      cbn [mbind option_bind]. done. }
  assert (Z.of_nat a = alloc_len) as Ea by lia. rewrite <- Ea, <- LW.
  destruct (Z.land (byte_at cdb 2) 63 =? 63).
  - destruct (sense_all_pages_step dev modesense_handlers a ten W
      (Resp (zeros a) (Some (Z.to_nat (Z.of_nat (length W)))))) as (r & -> & Hr'); try done.
    { lia. } { unfold W. destruct ten; simpl; lia. } { by rewrite LW. }
    cbn [mbind option_bind]. rewrite bool_decide_false by done. apply Hfin; [done|simpl; lia].
  - destruct (find_page _ _) as [h|] eqn:Hf; [|by rewrite bool_decide_true].
    destruct (handle_mode_sense_step h dev a W
      (Resp (zeros a) (Some (Z.to_nat (Z.of_nat (length W))))) ten) as (r & -> & Hr').
    { by eapply find_page_elem. } { lia. } { unfold W. destruct ten; simpl; lia. } { by rewrite LW. }
    pose proof (page_bytes_length dev h).
    cbn [mbind option_bind]. rewrite (proj2 (Z.leb_gt _ 0)) by lia.
    rewrite bool_decide_false by done.
    pose proof (Hfin [h] r) as H1. cbn [map concat] in *. rewrite app_nil_r in *.
    apply H1; [done|lia].
Qed.

Lemma mode_sense_prefix_witness :
  mode_sense_data demo_dev [0x1a; 0; 0x3f; 0; 9; 0] 9 = Some (Some [47; 0; 0; 0; 1; 10; 0; 0; 0]).
Proof. exact (mode_sense_prefix demo_dev [0x1a; 0; 0x3f; 0; 9; 0] 9 ltac:(lia)). Defined.

(** *** MODE SELECT accepts what MODE SENSE reported *)

(** The length of the mode parameter header. *)
Definition select_hdr (cdb : list Z) : Z := if byte_at cdb 0 =? MODE_SELECT_10 then 8 else 4.

Lemma bget_take_drop (buf : list Z) off n :
  (off + n <= length buf)%nat -> bget buf off n = Some (take n (drop off buf)).
Proof. intros H. unfold bget. by rewrite decide_True. Qed.

(** MODE SELECT changes nothing and therefore accepts exactly the current
    values.  For a page the device has, with PF set, SP clear and a parameter
    list that holds the header and the page, the command succeeds when the
    page in the list is byte for byte the page MODE SENSE reports, and fails
    with INVALID FIELD IN PARAMETER LIST otherwise, whatever the header says. *)
Theorem mode_select_accepts_current (dev : tcmu_device) (cdb junk g : list Z) (m : mem)
  (iov : list iovec) (h : mode_sense_handler) (alloc_len : Z)
  (Hx : tcmu_get_xfer_length cdb = Some alloc_len)
  (Hp : find_page (Z.land (byte_at cdb 2) 0x3f) (byte_at cdb 3) = Some h)
  (Hpf : Z.land (byte_at cdb 1) 0x10 <> 0) (Hsp : Z.land (byte_at cdb 1) 1 = 0)
  (Hj : length junk = 512%nat)
  (Hg : gather m iov = Some g)
  (Hlen : select_hdr cdb + Z.of_nat (length (page_bytes dev h)) <= Z.of_nat (length g) < 512)
  (Hal : Z.of_nat (length g) <= alloc_len) :
  exists iov', tcmu_emulate_mode_select dev cdb junk m iov (Z.of_nat (length iov)) =
    Some (m, iov',
      if decide (take (length (page_bytes dev h)) (drop (Z.to_nat (select_hdr cdb)) g) = page_bytes dev h)
      then TCMU_STS_OK else TCMU_STS_INVALID_PARAM_LIST).
Proof.
  unfold tcmu_emulate_mode_select. rewrite Hx. cbn [mbind option_bind].
  pose proof (page_bytes_length dev h) as Hpl. fold (select_hdr cdb).
  assert (select_hdr cdb = 8 \/ select_hdr cdb = 4) as Hhdr by (unfold select_hdr; case_if; auto).
  rewrite (proj2 (Z.eqb_neq alloc_len 0)) by lia.
  pose proof (gather_length m iov g Hg) as Hgl.
  unfold tcmu_memcpy_from_iovec.
  destruct (memcpy_from_loop_spec iov m g junk 512 0 Hg) as (iov' & -> & _); try lia.
  unfold min_nat. rewrite Z.min_r, <- Hgl, Nat2Z.id by lia.
  cbn [mbind option_bind Z.to_nat take app Nat.add].
  replace (take (length g) g) with g by (by rewrite take_ge).
  exists iov'. rewrite (proj2 (Z.leb_gt 512 _)) by lia.
  rewrite (proj2 (Z.eqb_neq _ 0) Hpf), Hsp. cbn [Z.eqb negb orb]. rewrite Hp.
  rewrite page_get_spec by (by eapply find_page_elem).
  unfold copy_to_response_buf. cbn [r_pos r_buf].
  replace (Z.to_nat (if _ <? _ then _ else _)) with (length (page_bytes dev h)) by (case_if; lia).
  replace (take (length (page_bytes dev h)) (page_bytes dev h)) with (page_bytes dev h)
    by (by rewrite take_ge).
  set (L := length (page_bytes dev h)) in *. set (H := Z.to_nat (select_hdr cdb)) in *.
  destruct (bset_is_Some (zeros 512) H (page_bytes dev h)) as [b Hb];
    [rewrite length_zeros; fold L; unfold H; lia|].
  rewrite Hb. cbn [mbind option_bind r_buf].
  rewrite (proj2 (Z.leb_gt _ 0)) by lia.
  rewrite (proj2 (Z.leb_gt 255 _)), andb_false_r by lia.
  rewrite (proj2 (Z.ltb_ge alloc_len _)) by lia.
  pose proof (bget_bset _ _ _ _ Hb) as HB. fold L in HB.
  rewrite Nat2Z.id, HB. cbn [mbind option_bind].
  rewrite bget_take_drop by (rewrite !length_app; unfold H; lia).
  rewrite Z2Nat.inj_0, firstn_O. cbn [mbind option_bind app].
  rewrite (drop_app_le g) by (unfold H; lia).
  rewrite (take_app_le (drop H g)) by (rewrite length_drop; unfold H; lia).
  repeat case_decide; congruence.
Qed.

Lemma mode_select_accepts_current_witness :
  exists iov', tcmu_emulate_mode_select demo_dev [0x15; 0x10; 0x0a; 0; 16; 0] (replicate 512 7)
    {[ 0%nat := [15; 0; 0; 0] ++ control_page ]} [Iov (Ptr 0 0) 16] 1 =
    Some ({[ 0%nat := [15; 0; 0; 0] ++ control_page ]}, iov', TCMU_STS_OK).
Proof.
  apply (mode_select_accepts_current demo_dev [0x15; 0x10; 0x0a; 0; 16; 0] (replicate 512 7)
    ([15; 0; 0; 0] ++ control_page) {[ 0%nat := [15; 0; 0; 0] ++ control_page ]}
    [Iov (Ptr 0 0) 16] (ModeHandler 0xa 0 handle_control_page) 16); try (vm_compute; reflexivity).
  - by vm_compute.
  - vm_compute. split; [discriminate|reflexivity].
  - by vm_compute.
Defined.

(** *** The CDB dump *)

Lemma length_hex_pair b : (length (hex_pair b) <= 3)%nat.
Proof. unfold hex_pair. case_if; simpl; lia. Qed.

Lemma sprintf_at_spec buf n s :
  (n + length s + 1 <= length buf)%nat ->
  exists buf', sprintf_at buf n s = Some (buf', (n + length s)%nat) /\ length buf' = length buf.
Proof.
  intros H. unfold sprintf_at.
  destruct (bset_is_Some buf n (s ++ [0])) as [b Hb]; [rewrite length_app; simpl; lia|].
  rewrite Hb. exists b. split; [done|]. by eapply bset_length.
Qed.

Lemma print_cdb_bytes_spec bytes : forall buf n,
  (n + 3 * length bytes + 1 <= length buf)%nat ->
  exists buf' n', print_cdb_bytes buf n bytes = Some (buf', n') /\ length buf' = length buf /\
    (n' <= n + 3 * length bytes)%nat.
Proof.
  induction bytes as [|b bytes IH]; intros buf n Hn; cbn [print_cdb_bytes].
  - exists buf, n. split_and!; [done|done|lia].
  - pose proof (length_hex_pair b). cbn [length] in Hn.
    destruct (sprintf_at_spec buf n (hex_pair b)) as (b1 & -> & Hl); [lia|]. cbn [mbind option_bind].
    destruct (IH b1 (n + length (hex_pair b))%nat) as (b2 & n2 & -> & Hl2 & Hn2); [lia|].
    exists b2, n2. split_and!; [done|congruence|cbn [length]; lia].
Qed.

(** The CDB dump fits its 193-byte stack buffer for every CDB of a fixed
    length (6, 10, 12 or 16 bytes) with a message of up to 143 characters. *)
Theorem print_cdb_info_fits (cdb : list Z) (mem_ok : bool) (info : option (list Z))
  (Hop : 0 < tcmu_get_cdb_length cdb <= 16)
  (Hinfo : (length (default [] info) <= 143)%nat) :
  exists msg, tcmu_print_cdb_info cdb mem_ok info = Some (Some msg).
Proof.
  unfold tcmu_print_cdb_info. rewrite (proj2 (Z.ltb_ge _ 0)) by lia.
  rewrite (proj2 (Z.ltb_ge CDB_FIX_SIZE _)) by (unfold CDB_FIX_SIZE, CDB_TO_BUF_SIZE, CDB_FIX_BYTES; lia).
  cbn [andb]. set (bytes := map _ _).
  assert (length bytes <= 16)%nat by (unfold bytes; rewrite length_map, length_seq; lia).
  change (Z.to_nat CDB_FIX_SIZE) with 193%nat.
  destruct (print_cdb_bytes_spec bytes (zeros 193) 0) as (b1 & n1 & -> & Hl1 & Hn1);
    [rewrite length_zeros; lia|].
  rewrite length_zeros in Hl1. cbn [mbind option_bind].
  assert (exists b2 n2, (match info with Some s => sprintf_at b1 n1 s | None => Some (b1, n1) end)
    = Some (b2, n2) /\ length b2 = 193%nat /\ (n2 <= 191)%nat) as (b2 & n2 & -> & Hl2 & Hn2).
  { destruct info as [s|]; cbn [default id] in Hinfo.
    - destruct (sprintf_at_spec b1 n1 s) as (b2 & -> & Hl2); [lia|].
      exists b2, (n1 + length s)%nat. split_and!; [done|lia|lia].
    - exists b1, n1. split_and!; [done|lia|lia]. }
  cbn [mbind option_bind].
  destruct (sprintf_at_spec b2 n2 [10]) as (b3 & -> & _); [simpl; lia|].
  cbn [mbind option_bind]. eauto.
Qed.

Lemma print_cdb_info_fits_witness :
  exists msg, tcmu_print_cdb_info [0x12; 1; 0x83; 0; 255; 0] true (Some (str "is not supported")) =
              Some (Some msg).
Proof.
  apply print_cdb_info_fits.
  - vm_compute. split; [reflexivity|discriminate].
  - apply leb_complete. by vm_compute.
Defined.

(** The dump overflows for variable-length CDBs.  The switch to a heap
    buffer compares the CDB length with the size of the buffer (193) instead
    of the number of bytes the buffer is meant for (64): a CDB of opcode 7Fh
    with an additional length of 56 or more (64 bytes or more in all) and no
    small bytes is written past the end of the stack buffer. *)
Theorem print_cdb_info_overflow :
  exists cdb, tcmu_get_cdb_length cdb = 64 /\ bytes_ok cdb /\
    tcmu_print_cdb_info cdb true None = None.
Proof.
  exists ([0x7f] ++ replicate 6 255 ++ [56] ++ replicate 56 255). split_and!.
  - by vm_compute.
  - apply Forall_forall. intros x Hx. unfold is_byte.
    repeat (apply elem_of_app in Hx as [Hx|Hx] || apply elem_of_cons in Hx as [->|Hx] ||
      (apply elem_of_replicate in Hx as [-> _]) || apply not_elem_of_nil in Hx); lia || done.
  - by vm_compute.
Qed.
