(* ===== verification/Zbc.v ===== *)
(** * The zoned block device handler: configuration and metadata

    The data of [file_zbc.c], the parsing of its configuration string, and the
    creation and validation of the zone metadata at the head of the backstore
    file. *)

From S2P Require Import Prelude Scsi Device.

(** ** Constants *)

Definition ZBC_OUT : Z := 0x94.
Definition ZBC_IN : Z := 0x95.
Definition ZBC_SA_REPORT_ZONES : Z := 0x00.
Definition ZBC_SA_CLOSE_ZONE : Z := 0x01.
Definition ZBC_SA_FINISH_ZONE : Z := 0x02.
Definition ZBC_SA_OPEN_ZONE : Z := 0x03.
Definition ZBC_SA_RESET_WP : Z := 0x04.
Definition ASC_READ_ERROR : Z := 0x1100.
Definition ASC_WRITE_ERROR : Z := 0x0C00.
Definition ASC_LBA_OUT_OF_RANGE : Z := 0x2100.
Definition ASC_INVALID_FIELD_IN_CDB : Z := 0x2400.
Definition ASC_INTERNAL_TARGET_FAILURE : Z := 0x4400.
Definition ASC_UNALIGNED_WRITE_COMMAND : Z := 0x2104.
Definition ASC_WRITE_BOUNDARY_VIOLATION : Z := 0x2105.
Definition ASC_ATTEMPT_TO_READ_INVALID_DATA : Z := 0x2106.
Definition ASC_INSUFFICIENT_ZONE_RESOURCES : Z := 0x550E.

(** The device models.
    [src tcmu-runner/file_zbc.c 78-81 enum zbc_dev_model] *)
Definition ZBC_HA : Z := 0x00.
Definition ZBC_HM : Z := 0x14.

(** Zone types.
    [src tcmu-runner/file_zbc.c 86-90 enum zbc_zone_type] *)
Definition ZBC_ZONE_TYPE_CONVENTIONAL : Z := 0x1.
Definition ZBC_ZONE_TYPE_SEQWRITE_REQ : Z := 0x2.
Definition ZBC_ZONE_TYPE_SEQWRITE_PREF : Z := 0x3.

(** Zone conditions.
    [src tcmu-runner/file_zbc.c 95-104 enum zbc_zone_cond] *)
Definition ZBC_ZONE_COND_NOT_WP : Z := 0x0.
Definition ZBC_ZONE_COND_EMPTY : Z := 0x1.
Definition ZBC_ZONE_COND_IMP_OPEN : Z := 0x2.
Definition ZBC_ZONE_COND_EXP_OPEN : Z := 0x3.
Definition ZBC_ZONE_COND_CLOSED : Z := 0x4.
Definition ZBC_ZONE_COND_READONLY : Z := 0xD.
Definition ZBC_ZONE_COND_FULL : Z := 0xE.
Definition ZBC_ZONE_COND_OFFLINE : Z := 0xF.

(** ** Data *)

(** [src tcmu-runner/file_zbc.c 109-118 struct zbc_zone] *)
Record zbc_zone := Zone {
  z_start : Z;
  z_len : Z;
  z_wp : Z;
  z_type : Z;
  z_cond : Z;
  z_non_seq : Z;
  z_reset : Z
}.

(** [src tcmu-runner/file_zbc.c 123-123 zbc_zone_conv] *)
Definition zbc_zone_conv (z : zbc_zone) : bool := z_type z =? ZBC_ZONE_TYPE_CONVENTIONAL.
Definition zbc_zone_seq_req (z : zbc_zone) : bool := z_type z =? ZBC_ZONE_TYPE_SEQWRITE_REQ.
Definition zbc_zone_seq_pref (z : zbc_zone) : bool := z_type z =? ZBC_ZONE_TYPE_SEQWRITE_PREF.
Definition zbc_zone_seq (z : zbc_zone) : bool := negb (zbc_zone_conv z).

(** [src tcmu-runner/file_zbc.c 131-131 zbc_zone_empty] *)
Definition zbc_zone_empty (z : zbc_zone) : bool := z_cond z =? ZBC_ZONE_COND_EMPTY.
Definition zbc_zone_full (z : zbc_zone) : bool := z_cond z =? ZBC_ZONE_COND_FULL.
Definition zbc_zone_imp_open (z : zbc_zone) : bool := z_cond z =? ZBC_ZONE_COND_IMP_OPEN.
Definition zbc_zone_exp_open (z : zbc_zone) : bool := z_cond z =? ZBC_ZONE_COND_EXP_OPEN.
Definition zbc_zone_is_open (z : zbc_zone) : bool := zbc_zone_imp_open z || zbc_zone_exp_open z.
Definition zbc_zone_closed (z : zbc_zone) : bool := z_cond z =? ZBC_ZONE_COND_CLOSED.
Definition zbc_zone_not_wp (z : zbc_zone) : bool := z_cond z =? ZBC_ZONE_COND_NOT_WP.
Definition zbc_zone_offline (z : zbc_zone) : bool := z_cond z =? ZBC_ZONE_COND_OFFLINE.
Definition zbc_zone_rdonly (z : zbc_zone) : bool := z_cond z =? ZBC_ZONE_COND_READONLY.
Definition zbc_zone_rwp (z : zbc_zone) : bool := negb (z_reset z =? 0).
Definition zbc_zone_non_seq (z : zbc_zone) : bool := negb (z_non_seq z =? 0).

(** [src tcmu-runner/file_zbc.c 194-197 ZBC_MAGIC] *)
Definition ZBC_MAGIC : Z :=
  Z.lor (Z.lor (Z.lor (Z.shiftl 85 24) (Z.shiftl 90 16)) (Z.shiftl 66 8)) 67.

(** The head of the file.  The open counters it also holds are never read or
    written.
    [src tcmu-runner/file_zbc.c 202-233 struct zbc_meta] *)
Record zbc_meta := Meta {
  m_magic : Z;
  m_model : Z;
  m_capacity : Z;
  m_lba_size : Z;
  m_zone_size : Z;
  m_nr_zones : Z;
  m_nr_conv_zones : Z;
  m_nr_open_zones : Z
}.

(** [src tcmu-runner/file_zbc.c 241-257 struct zbc_dev_config] *)
Record zbc_dev_config := Cfg {
  c_path : list Z;
  c_dev_size : Z;
  c_need_format : bool;
  c_model : Z;
  c_lba_size : Z;
  c_zone_size : Z;
  c_conv_num : Z;
  c_open_num : Z
}.

(** [src tcmu-runner/file_zbc.c 259-259 ZBC_CONF_DEFAULT_MODEL] *)
Definition ZBC_CONF_DEFAULT_MODEL : Z := ZBC_HM.
Definition ZBC_CONF_DEFAULT_ZSIZE : Z := 256 * 1024 * 1024.
Definition ZBC_CONF_DEFAULT_LBA_SIZE : Z := 512.
(** [src tcmu-runner/file_zbc.c 262-262 ZBC_CONF_DEFAULT_CONV_NUM] *)
Definition ZBC_CONF_DEFAULT_CONV_NUM : Z := u32 (-1).
Definition ZBC_CONF_DEFAULT_OPEN_NUM : Z := 128.

(** The emulated device.  [zd_zones] is the zone array of the mapped metadata:
    [None] for a zone index means an access outside of it.
    [src tcmu-runner/file_zbc.c 268-292 struct zbc_dev] *)
Record zbc_dev := ZDev {
  zd_cfg : zbc_dev_config;
  zd_meta_size : Z;
  zd_model : Z;
  zd_capacity : Z;
  zd_lba_size : Z;
  zd_zone_size : Z;
  zd_zones : list zbc_zone;
  zd_nr_zones : Z;
  zd_nr_conv_zones : Z;
  zd_nr_open_zones : Z;
  zd_nr_imp_open : Z;
  zd_nr_exp_open : Z
}.

(** ** The configuration string *)

(** A parse function updates the configuration and returns the rest of the
    string; the failure carries the message. *)
Definition parsed : Type := (zbc_dev_config * list Z) + list Z.

Definition set_model (c : zbc_dev_config) (v : Z) : zbc_dev_config :=
  Cfg (c_path c) (c_dev_size c) (c_need_format c) v (c_lba_size c) (c_zone_size c)
      (c_conv_num c) (c_open_num c).
Definition set_lba_size (c : zbc_dev_config) (v : Z) : zbc_dev_config :=
  Cfg (c_path c) (c_dev_size c) (c_need_format c) (c_model c) v (c_zone_size c)
      (c_conv_num c) (c_open_num c).
Definition set_zone_size (c : zbc_dev_config) (v : Z) : zbc_dev_config :=
  Cfg (c_path c) (c_dev_size c) (c_need_format c) (c_model c) (c_lba_size c) v
      (c_conv_num c) (c_open_num c).
Definition set_conv_num (c : zbc_dev_config) (v : Z) : zbc_dev_config :=
  Cfg (c_path c) (c_dev_size c) (c_need_format c) (c_model c) (c_lba_size c) (c_zone_size c)
      v (c_open_num c).
Definition set_open_num (c : zbc_dev_config) (v : Z) : zbc_dev_config :=
  Cfg (c_path c) (c_dev_size c) (c_need_format c) (c_model c) (c_lba_size c) (c_zone_size c)
      (c_conv_num c) v.
Definition set_path (c : zbc_dev_config) (p : list Z) : zbc_dev_config :=
  Cfg p (c_dev_size c) (c_need_format c) (c_model c) (c_lba_size c) (c_zone_size c)
      (c_conv_num c) (c_open_num c).
Definition set_need_format (c : zbc_dev_config) (b : bool) : zbc_dev_config :=
  Cfg (c_path c) (c_dev_size c) b (c_model c) (c_lba_size c) (c_zone_size c)
      (c_conv_num c) (c_open_num c).
Definition set_dev_size (c : zbc_dev_config) (n : Z) : zbc_dev_config :=
  Cfg (c_path c) n (c_need_format c) (c_model c) (c_lba_size c) (c_zone_size c)
      (c_conv_num c) (c_open_num c).

(** [src tcmu-runner/file_zbc.c zbc_parse_model] *)
Definition zbc_parse_model (val : list Z) (cfg : zbc_dev_config) : parsed :=
  if starts_with (str "HA") val then inl (set_model cfg ZBC_HA, drop 2 val)
  else if starts_with (str "HM") val then inl (set_model cfg ZBC_HM, drop 2 val)
  else inr (str "Invalid device model").

(** [src tcmu-runner/file_zbc.c zbc_parse_lba] *)
Definition zbc_parse_lba (val : list Z) (cfg : zbc_dev_config) : parsed :=
  let '(v, rest) := strtoul val in
  let cfg := set_lba_size cfg v in
  if negb (c_lba_size cfg =? 512) && negb (c_lba_size cfg =? 4096)
  then inr (str "Invalid LBA size") else inl (cfg, rest).

(** [src tcmu-runner/file_zbc.c zbc_parse_zsize] *)
Definition zbc_parse_zsize (val : list Z) (cfg : zbc_dev_config) : parsed :=
  let '(v, rest) := strtoul val in
  let cfg := set_zone_size cfg (u64 (u64 (v * 1024) * 1024)) in
  let zs := c_zone_size cfg in
  if (zs =? 0) || negb (Z.land zs (u64 (zs - 1)) =? 0)
  then inr (str "Invalid zone size") else inl (cfg, rest).

(** [src tcmu-runner/file_zbc.c zbc_parse_conv] *)
Definition zbc_parse_conv (val : list Z) (cfg : zbc_dev_config) : parsed :=
  let '(v, rest) := strtoul val in inl (set_conv_num cfg (u32 v), rest).

(** [src tcmu-runner/file_zbc.c zbc_parse_open] *)
Definition zbc_parse_open (val : list Z) (cfg : zbc_dev_config) : parsed :=
  let '(v, rest) := strtoul val in
  let cfg := set_open_num cfg (u32 v) in
  if c_open_num cfg =? 0 then inr (str "Invalid number of open zones") else inl (cfg, rest).

(** [src tcmu-runner/file_zbc.c 361-372 zbc_params] *)
Definition zbc_params : list (list Z * (list Z -> zbc_dev_config -> parsed)) :=
  [(str "model-", zbc_parse_model); (str "lba-", zbc_parse_lba);
   (str "zsize-", zbc_parse_zsize); (str "conv-", zbc_parse_conv);
   (str "open-", zbc_parse_open)].

(** The [while] loop over the options.  The outer [None] is the fuel running
    out.
    [src tcmu-runner/file_zbc.c 403-426 zbc_parse_config] *)
Fixpoint zbc_parse_options (fuel : nat) (s : list Z) (cfg : zbc_dev_config) : option parsed :=
  match s with
  | [] => Some (inl (cfg, s))
  | c :: _ =>
      if c =? 64 then Some (inl (cfg, s))
      else
        match List.find (fun p => starts_with (fst p) s) zbc_params with
        | None => Some (inr (str "Invalid option name"))
        | Some (name, parse) =>
            match parse (drop (length name) s) cfg with
            | inr msg => Some (inr msg)
            | inl (cfg, s') =>
                match s' with
                | c :: s'' =>
                    if c =? 47 then
                      match fuel with
                      | O => None
                      | S fuel => zbc_parse_options fuel s'' cfg
                      end
                    else Some (inl (cfg, s'))
                | [] => Some (inl (cfg, s'))
                end
            end
        end
  end.

(** [src tcmu-runner/file_zbc.c 385-394 zbc_parse_config] *)
Definition zbc_default_config : zbc_dev_config :=
  Cfg [] 0 false ZBC_CONF_DEFAULT_MODEL ZBC_CONF_DEFAULT_LBA_SIZE ZBC_CONF_DEFAULT_ZSIZE
      ZBC_CONF_DEFAULT_CONV_NUM ZBC_CONF_DEFAULT_OPEN_NUM.

(** [exists_file] is whether [stat] finds the path.
    [src tcmu-runner/file_zbc.c zbc_parse_config] *)
Definition zbc_parse_config (exists_file : list Z -> bool) (cfgstring : list Z)
    : option (zbc_dev_config + list Z) :=
  let err := inr (str "Invalid configuration string format") in
  let cfg := zbc_default_config in
  if negb (starts_with (str "zbc/") cfgstring) then Some err
  else
    let s := drop 4 cfgstring in
    let finish cfg s :=
      let cfg := set_path cfg s in
      if exists_file s then inl cfg else inl (set_need_format cfg true) in
    if starts_with [47] s then Some (finish cfg s)
    else
      r ← zbc_parse_options (length s) s cfg;
      Some (match r with
            | inr msg => inr msg
            | inl (cfg, s') =>
                match s' with
                | c :: s'' => if c =? 64 then finish (set_need_format cfg true) s'' else err
                | [] => err
                end
            end).

(** ** Metadata *)

(** [sizeof(struct zbc_meta)] and [sizeof(struct zbc_zone)]. *)
Definition SIZEOF_ZBC_META : Z := 48.
Definition SIZEOF_ZBC_ZONE : Z := 64.
Definition PAGE_SIZE : Z := 4096.

(** [src tcmu-runner/file_zbc.c zbc_meta_size] *)
Definition zbc_meta_size (nr_zones : Z) : Z := SIZEOF_ZBC_META + nr_zones * SIZEOF_ZBC_ZONE.

(** [src tcmu-runner/file_zbc.c zbc_meta_size_aligned] *)
Definition zbc_meta_size_aligned (nr_zones : Z) : Z :=
  let meta_size := zbc_meta_size nr_zones in
  let pg_size := PAGE_SIZE - 1 in
  Z.land (u64 (meta_size + pg_size - 1)) (u64 (Z.lnot (pg_size - 1))).

(** The backstore file, with its metadata region viewed through the two
    structs it is mapped as. *)
Record zbc_file := ZFile { f_size : Z; f_meta : zbc_meta; f_zones : list zbc_zone }.

(** [src tcmu-runner/file_zbc.c zbc_check_zone] *)
Definition zbc_check_zone (f : zbc_file) (meta : zbc_meta) (zno : nat) : bool :=
  if f_size f <? SIZEOF_ZBC_META + (Z.of_nat zno + 1) * SIZEOF_ZBC_ZONE then false
  else match f_zones f !! zno with
  | None => false
  | Some zone =>
      if negb (zbc_zone_conv zone || zbc_zone_seq_pref zone || zbc_zone_seq_req zone) then false
      else if zbc_zone_seq_pref zone && negb (m_model meta =? ZBC_HA) then false
      else if zbc_zone_seq_req zone && negb (m_model meta =? ZBC_HM) then false
      else if zbc_zone_conv zone && negb (z_cond zone =? ZBC_ZONE_COND_NOT_WP) then false
      else if negb (z_start zone mod m_zone_size meta =? 0) || (m_zone_size meta <? z_len zone)
      then false
      else true
  end.

(** [nr_zones] as both the checking and the formatting code compute it. *)
Definition nr_zones_of (capacity zone_size : Z) : Z :=
  u32 (u64 (capacity + zone_size - 1) / zone_size).

(** Updates the device only when the metadata is accepted (the early
    assignment of [meta_size] is visible on failure too).
    [src tcmu-runner/file_zbc.c zbc_check_meta] *)
Definition zbc_check_meta (d : zbc_dev) (f : zbc_file) : zbc_dev * bool :=
  let meta := f_meta f in
  if f_size f <? SIZEOF_ZBC_META then (d, false)
  else if negb (m_magic meta =? ZBC_MAGIC) then (d, false)
  else if negb (m_model meta =? ZBC_HM) && negb (m_model meta =? ZBC_HA) then (d, false)
  else if negb (m_lba_size meta =? 512) && negb (m_lba_size meta =? 4096) then (d, false)
  else if negb (u64 (m_capacity meta * m_lba_size meta) =? c_dev_size (zd_cfg d)) then (d, false)
  else if (m_zone_size meta =? 0)
          || negb (Z.land (m_zone_size meta) (u32 (m_zone_size meta - 1)) =? 0) then (d, false)
  else
    let nr_zones := nr_zones_of (m_capacity meta) (m_zone_size meta) in
    if negb (m_nr_zones meta =? nr_zones) || (nr_zones <=? m_nr_conv_zones meta)
       || (nr_zones <? m_nr_open_zones meta) then (d, false)
    else
      let d := ZDev (zd_cfg d) (zbc_meta_size_aligned nr_zones) (zd_model d) (zd_capacity d)
                    (zd_lba_size d) (zd_zone_size d) (zd_zones d) (zd_nr_zones d)
                    (zd_nr_conv_zones d) (zd_nr_open_zones d) (zd_nr_imp_open d)
                    (zd_nr_exp_open d) in
      if negb (f_size f =? u64 (zd_meta_size d + c_dev_size (zd_cfg d))) then (d, false)
      else if negb (forallb (zbc_check_zone f meta) (seq 0 (Z.to_nat nr_zones))) then (d, false)
      else
        (ZDev (zd_cfg d) (zd_meta_size d) (m_model meta) (m_capacity meta) (m_lba_size meta)
              (m_zone_size meta) (zd_zones d) (m_nr_zones meta) (m_nr_conv_zones meta)
              (m_nr_open_zones meta) (zd_nr_imp_open d) (zd_nr_exp_open d), true).

(** The zone at [lba] as formatting writes it.
    [src tcmu-runner/file_zbc.c 716-734 zbc_format_meta] *)
Definition format_zone (meta : zbc_meta) (i nr_conv lba : Z) : zbc_zone :=
  let len := if m_capacity meta <? u64 (lba + m_zone_size meta)
             then u64 (m_capacity meta - lba) else m_zone_size meta in
  if i <? nr_conv then
    Zone lba len (u64 (-1)) ZBC_ZONE_TYPE_CONVENTIONAL ZBC_ZONE_COND_NOT_WP 0 0
  else
    Zone lba len lba
      (if m_model meta =? ZBC_HA then ZBC_ZONE_TYPE_SEQWRITE_PREF else ZBC_ZONE_TYPE_SEQWRITE_REQ)
      ZBC_ZONE_COND_EMPTY 0 0.

(** [src tcmu-runner/file_zbc.c 712-738 zbc_format_meta] *)
Fixpoint format_zones (meta : zbc_meta) (nr_conv : Z) (n : nat) (i lba : Z) : list zbc_zone :=
  match n with
  | O => []
  | S n =>
      let zone := format_zone meta i nr_conv lba in
      zone :: format_zones meta nr_conv n (i + 1) (u64 (lba + z_len zone))
  end.

(** The numbers of conventional and open zones; [None] is [-ENOSPC].
    [src tcmu-runner/file_zbc.c 651-671 zbc_format_meta] *)
Definition format_counts (cfg : zbc_dev_config) (nr_zones : Z) : option (Z * Z) :=
  let conv := if c_conv_num cfg =? ZBC_CONF_DEFAULT_CONV_NUM
              then if nr_zones / 100 =? 0 then Some 1 else Some (nr_zones / 100)
              else if nr_zones <=? c_conv_num cfg then None else Some (c_conv_num cfg) in
  nr_conv ← conv;
  let nr_seq_zones := u32 (nr_zones - nr_conv) in
  let nr_open :=
    if nr_seq_zones / 2 <=? c_open_num cfg
    then if nr_seq_zones / 2 =? 0 then 1 else nr_seq_zones / 2
    else c_open_num cfg in
  Some (nr_conv, nr_open).

(** Formatting with [ftruncate], [mmap] and [msync] succeeding: the device,
    and the file it leaves; [None] is the [-ENOSPC] return.
    [src tcmu-runner/file_zbc.c zbc_format_meta] *)
Definition zbc_format_meta (d : zbc_dev) : option (zbc_dev * zbc_file) :=
  let cfg := zd_cfg d in
  let capacity := c_dev_size cfg / c_lba_size cfg in
  let zone_size := c_zone_size cfg / c_lba_size cfg in
  let nr_zones := nr_zones_of capacity zone_size in
  '(nr_conv, nr_open) ← format_counts cfg nr_zones;
  let meta_size := zbc_meta_size_aligned nr_zones in
  let meta := Meta ZBC_MAGIC (u32 (c_model cfg)) capacity (u32 (c_lba_size cfg)) (u32 zone_size)
                   nr_zones nr_conv nr_open in
  let zones := format_zones meta nr_conv (Z.to_nat nr_zones) 0 0 in
  Some (ZDev cfg meta_size (c_model cfg) capacity (c_lba_size cfg) zone_size zones nr_zones nr_conv
             nr_open (zd_nr_imp_open d) (zd_nr_exp_open d),
        ZFile (u64 (meta_size + c_dev_size cfg)) meta zones).
