(* ===== verification/ZbcZone.v ===== *)
(** * The zoned block device handler: zone conditions

    Opening, closing, finishing and resetting zones ([file_zbc.c]), the
    ZBC OUT commands, and the invariant that ties the open zone counters and
    the write pointers to the zone table. *)

From S2P Require Import Prelude Scsi Device Sense Zbc.

(** ** Operations on one zone *)

Definition zd_set (d : zbc_dev) (zones : list zbc_zone) (imp exp : Z) : zbc_dev :=
  ZDev (zd_cfg d) (zd_meta_size d) (zd_model d) (zd_capacity d) (zd_lba_size d) (zd_zone_size d)
       zones (zd_nr_zones d) (zd_nr_conv_zones d) (zd_nr_open_zones d) imp exp.

(** [zone = &zdev->zones[i]] is the index [i]; stores through it. *)
Definition zd_store (d : zbc_dev) (i : nat) (z : zbc_zone) : zbc_dev :=
  zd_set d (<[i:=z]> (zd_zones d)) (zd_nr_imp_open d) (zd_nr_exp_open d).

Definition zset_cond (z : zbc_zone) (c : Z) : zbc_zone :=
  Zone (z_start z) (z_len z) (z_wp z) (z_type z) c (z_non_seq z) (z_reset z).
Definition zset_wp (z : zbc_zone) (wp : Z) : zbc_zone :=
  Zone (z_start z) (z_len z) wp (z_type z) (z_cond z) (z_non_seq z) (z_reset z).

(** [None]: division by a zero zone size, or a zone outside the table.
    [src tcmu-runner/file_zbc.c zbc_get_zone] *)
Definition zbc_get_zone (d : zbc_dev) (lba : Z) (lowest : bool) : option (option nat) :=
  if zd_zone_size d =? 0 then None
  else
    let zno := u32 (lba / zd_zone_size d) in
    if zd_nr_zones d <=? zno then Some None
    else
      let i := Z.to_nat zno in
      if lowest then
        zone ← zd_zones d !! i;
        Some (if lba =? z_start zone then Some i else None)
      else Some (Some i).

(** [src tcmu-runner/file_zbc.c __zbc_close_zone] *)
Definition __zbc_close_zone (d : zbc_dev) (i : nat) : option zbc_dev :=
  zone ← zd_zones d !! i;
  if zbc_zone_conv zone then Some d
  else if negb (zbc_zone_is_open zone) then Some d
  else
    let imp := if zbc_zone_imp_open zone then u32 (zd_nr_imp_open d - 1) else zd_nr_imp_open d in
    let exp := if zbc_zone_imp_open zone then zd_nr_exp_open d else u32 (zd_nr_exp_open d - 1) in
    let cond := if z_wp zone =? z_start zone then ZBC_ZONE_COND_EMPTY else ZBC_ZONE_COND_CLOSED in
    Some (zd_set d (<[i:=zset_cond zone cond]> (zd_zones d)) imp exp).

(** The loop: closes the first implicitly open zone from index [i] on.
    [src tcmu-runner/file_zbc.c 1398-1403 __zbc_close_imp_open_zone] *)
Fixpoint close_imp_from (d : zbc_dev) (i n : nat) : option zbc_dev :=
  match n with
  | O => Some d
  | S n =>
      zone ← zd_zones d !! i;
      if zbc_zone_imp_open zone then __zbc_close_zone d i else close_imp_from d (S i) n
  end.

(** [src tcmu-runner/file_zbc.c __zbc_close_imp_open_zone] *)
Definition __zbc_close_imp_open_zone (d : zbc_dev) : option zbc_dev :=
  close_imp_from d 0 (Z.to_nat (zd_nr_zones d)).

(** [src tcmu-runner/file_zbc.c __zbc_open_zone] *)
Definition __zbc_open_zone (d : zbc_dev) (i : nat) (explicit : bool) : option zbc_dev :=
  zone ← zd_zones d !! i;
  if (explicit && zbc_zone_exp_open zone) || (negb explicit && zbc_zone_imp_open zone) then Some d
  else
    d ← (if zd_nr_open_zones d <=? u32 (zd_nr_imp_open d + zd_nr_exp_open d)
         then __zbc_close_imp_open_zone d else Some d);
    zone ← zd_zones d !! i;
    if explicit then
      Some (zd_set d (<[i:=zset_cond zone ZBC_ZONE_COND_EXP_OPEN]> (zd_zones d))
                   (zd_nr_imp_open d) (u32 (zd_nr_exp_open d + 1)))
    else
      Some (zd_set d (<[i:=zset_cond zone ZBC_ZONE_COND_IMP_OPEN]> (zd_zones d))
                   (u32 (zd_nr_imp_open d + 1)) (zd_nr_exp_open d)).

(** [src tcmu-runner/file_zbc.c __zbc_finish_zone] *)
Definition __zbc_finish_zone (d : zbc_dev) (i : nat) (empty : bool) : option zbc_dev :=
  zone ← zd_zones d !! i;
  if zbc_zone_conv zone then Some d
  else if zbc_zone_closed zone || zbc_zone_is_open zone || (empty && zbc_zone_empty zone) then
    d ← (if zbc_zone_is_open zone then __zbc_close_zone d i else Some d);
    zone ← zd_zones d !! i;
    Some (zd_store d i (Zone (z_start zone) (z_len zone) (u64 (z_start zone + z_len zone))
                             (z_type zone) ZBC_ZONE_COND_FULL 0 0))
  else Some d.

(** [src tcmu-runner/file_zbc.c __zbc_reset_wp] *)
Definition __zbc_reset_wp (d : zbc_dev) (i : nat) : option zbc_dev :=
  zone ← zd_zones d !! i;
  if zbc_zone_conv zone then Some d
  else
    d ← (if zbc_zone_is_open zone then __zbc_close_zone d i else Some d);
    zone ← zd_zones d !! i;
    Some (zd_store d i (Zone (z_start zone) (z_len zone) (z_start zone)
                             (z_type zone) ZBC_ZONE_COND_EMPTY 0 0)).

(** ** ZBC OUT *)

(** A command's outcome: the device, the sense buffer and the status. *)
Abbreviation zbc_result := (option (zbc_dev * list Z * tcmu_sts)).

Definition zok (d : zbc_dev) (sense : list Z) : zbc_result := Some (d, sense, TCMU_STS_OK).
Definition zerr (d : zbc_dev) (sense : list Z) (key asc : Z) : zbc_result :=
  '(sense, sts) ← tcmu_set_sense_data sense key asc; Some (d, sense, sts).

Definition for_zones (f : zbc_dev -> nat -> option zbc_dev) (d : zbc_dev) : option zbc_dev :=
  for_range f 0 (Z.to_nat (zd_nr_zones d)) d.

(** The common part of the commands on one zone: the LBA must be the start of
    a zone that is not conventional. *)
Definition with_zone_at (d : zbc_dev) (cdb sense : list Z)
    (k : nat -> zbc_zone -> zbc_result) : zbc_result :=
  lba ← tcmu_get_lba cdb;
  if zd_capacity d <? lba then zerr d sense ILLEGAL_REQUEST ASC_LBA_OUT_OF_RANGE
  else
    z ← zbc_get_zone d lba true;
    match z with
    | None => zerr d sense ILLEGAL_REQUEST ASC_INVALID_FIELD_IN_CDB
    | Some i =>
        zone ← zd_zones d !! i;
        if zbc_zone_conv zone then zerr d sense ILLEGAL_REQUEST ASC_INVALID_FIELD_IN_CDB
        else k i zone
    end.

Definition cdb_all (cdb : list Z) : bool := negb (Z.land (byte_at cdb 14) 0x01 =? 0).

(** [src tcmu-runner/file_zbc.c 1446-1450 zbc_open_zone] *)
Definition count_closed (d : zbc_dev) : option Z :=
  for_range (fun n i => zone ← zd_zones d !! i;
                        Some (if zbc_zone_closed zone then u32 (n + 1) else n))
            0 (Z.to_nat (zd_nr_zones d)) 0.

(** [src tcmu-runner/file_zbc.c 1457-1461 zbc_open_zone] *)
Definition open_all_closed (d : zbc_dev) : option zbc_dev :=
  for_zones (fun d i => zone ← zd_zones d !! i;
                        if zbc_zone_closed zone then __zbc_open_zone d i true else Some d) d.

(** [src tcmu-runner/file_zbc.c zbc_open_zone] *)
Definition zbc_open_zone (d : zbc_dev) (cdb sense : list Z) : zbc_result :=
  if cdb_all cdb then
    nr_closed ← count_closed d;
    if zd_nr_open_zones d <? u32 (zd_nr_exp_open d + nr_closed)
    then zerr d sense DATA_PROTECT ASC_INSUFFICIENT_ZONE_RESOURCES
    else d ← open_all_closed d; zok d sense
  else
    with_zone_at d cdb sense (fun i zone =>
      if zbc_zone_exp_open zone || zbc_zone_full zone then zok d sense
      else if zd_nr_open_zones d <? u32 (zd_nr_exp_open d + 1)
      then zerr d sense DATA_PROTECT ASC_INSUFFICIENT_ZONE_RESOURCES
      else
        d ← (if zbc_zone_imp_open zone then __zbc_close_zone d i else Some d);
        d ← __zbc_open_zone d i true;
        zok d sense).

(** [src tcmu-runner/file_zbc.c zbc_close_zone] *)
Definition zbc_close_zone (d : zbc_dev) (cdb sense : list Z) : zbc_result :=
  if cdb_all cdb then d ← for_zones __zbc_close_zone d; zok d sense
  else with_zone_at d cdb sense (fun i _ => d ← __zbc_close_zone d i; zok d sense).

(** [src tcmu-runner/file_zbc.c zbc_finish_zone] *)
Definition zbc_finish_zone (d : zbc_dev) (cdb sense : list Z) : zbc_result :=
  if cdb_all cdb then d ← for_zones (fun d i => __zbc_finish_zone d i false) d; zok d sense
  else with_zone_at d cdb sense (fun i _ => d ← __zbc_finish_zone d i true; zok d sense).

(** [src tcmu-runner/file_zbc.c zbc_reset_wp] *)
Definition zbc_reset_wp (d : zbc_dev) (cdb sense : list Z) : zbc_result :=
  if cdb_all cdb then d ← for_zones __zbc_reset_wp d; zok d sense
  else with_zone_at d cdb sense (fun i _ => d ← __zbc_reset_wp d i; zok d sense).

(** [src tcmu-runner/file_zbc.c zbc_out] *)
Definition zbc_out (d : zbc_dev) (cdb sense : list Z) : zbc_result :=
  let sa := byte_at cdb 1 in
  if sa =? ZBC_SA_CLOSE_ZONE then zbc_close_zone d cdb sense
  else if sa =? ZBC_SA_FINISH_ZONE then zbc_finish_zone d cdb sense
  else if sa =? ZBC_SA_OPEN_ZONE then zbc_open_zone d cdb sense
  else if sa =? ZBC_SA_RESET_WP then zbc_reset_wp d cdb sense
  else zerr d sense ILLEGAL_REQUEST ASC_INVALID_FIELD_IN_CDB.

(** ** Attaching to existing metadata *)

(** The metadata is mapped (the device's zone table becomes the file's) and
    every zone is closed.
    [src tcmu-runner/file_zbc.c zbc_init_meta] *)
Definition zbc_init_meta (d : zbc_dev) (f : zbc_file) : option zbc_dev :=
  let d := zd_set d (f_zones f) (zd_nr_imp_open d) (zd_nr_exp_open d) in
  d ← for_zones __zbc_close_zone d;
  Some (zd_set d (zd_zones d) 0 0).

(** What [zbc_open_backstore] leaves: the device, the file and the block size
    and number of blocks it publishes; or an errno. *)
Definition opened : Type := (zbc_dev * zbc_file * Z * Z) + Z.
Definition ENOSPC : Z := 28.

(** With the system calls succeeding; [f] is the backstore file, [None] when
    it does not exist.
    [src tcmu-runner/file_zbc.c zbc_open_backstore] *)
Definition zbc_open_backstore (d : zbc_dev) (f : option zbc_file) : option opened :=
  let '(d, ok, f) :=
    match f with
    | None => (d, false, ZFile 0 (Meta 0 0 0 0 0 0 0 0) [])
    | Some f => let '(d, ok) := zbc_check_meta d f in (d, ok, f)
    end in
  if c_need_format (zd_cfg d) || negb ok then
    match zbc_format_meta d with
    | None => Some (inr (- ENOSPC))
    | Some (d, f) => Some (inl (d, f, zd_lba_size d, zd_capacity d))
    end
  else
    d ← zbc_init_meta d f;
    Some (inl (d, ZFile (f_size f) (f_meta f) (zd_zones d), zd_lba_size d, zd_capacity d)).

(** ** The invariant *)

Definition b2z (b : bool) : Z := if b then 1 else 0.

(** A zone by itself: its condition agrees with its write pointer, and a
    conventional zone has none. *)
Definition zone_ok (z : zbc_zone) : Prop :=
  0 <= z_start z /\ 0 < z_len z /\ z_start z + z_len z < 2 ^ 64 /\
  if zbc_zone_conv z then z_cond z = ZBC_ZONE_COND_NOT_WP
  else z_start z <= z_wp z <= z_start z + z_len z /\
       ((z_cond z = ZBC_ZONE_COND_EMPTY /\ z_wp z = z_start z) \/
        z_cond z = ZBC_ZONE_COND_IMP_OPEN \/ z_cond z = ZBC_ZONE_COND_EXP_OPEN \/
        (z_cond z = ZBC_ZONE_COND_CLOSED /\ z_start z < z_wp z) \/
        (z_cond z = ZBC_ZONE_COND_FULL /\ z_wp z = z_start z + z_len z)).

(** The zone types a device model allows. *)
Definition zone_typed (model : Z) (z : zbc_zone) : Prop :=
  z_type z = ZBC_ZONE_TYPE_CONVENTIONAL \/
  (z_type z = ZBC_ZONE_TYPE_SEQWRITE_PREF /\ model = ZBC_HA) \/
  (z_type z = ZBC_ZONE_TYPE_SEQWRITE_REQ /\ model = ZBC_HM).

(** The device: zone [i] covers the LBAs from [i * zone_size] on, the last one
    possibly cut by the capacity, and the two counters count the open zones.
    (The loops over the zones use an [int] counter, hence the bound.) *)
Record zinv (d : zbc_dev) : Prop := {
  zi_nr : Z.of_nat (length (zd_zones d)) = zd_nr_zones d;
  zi_nr32 : zd_nr_zones d < 2 ^ 31;
  zi_size : 0 < zd_zone_size d;
  zi_cap : (zd_nr_zones d - 1) * zd_zone_size d < zd_capacity d <= zd_nr_zones d * zd_zone_size d;
  zi_cap64 : 0 < zd_capacity d < 2 ^ 64;
  zi_lba : 0 < zd_lba_size d;
  zi_open : 0 <= zd_nr_open_zones d < 2 ^ 32;
  zi_imp : zd_nr_imp_open d = Z.of_nat (count zbc_zone_imp_open (zd_zones d));
  zi_exp : zd_nr_exp_open d = Z.of_nat (count zbc_zone_exp_open (zd_zones d));
  zi_zones : forall i z, zd_zones d !! i = Some z ->
    zone_ok z /\ z_start z = Z.of_nat i * zd_zone_size d /\
    z_len z = Z.min (zd_zone_size d) (zd_capacity d - z_start z);
  zi_type : forall i z, zd_zones d !! i = Some z -> zone_typed (zd_model d) z
}.

(** Everything but the zone table and the counters is unchanged. *)
Definition zframe (d d' : zbc_dev) : Prop :=
  exists zs i e, d' = zd_set d zs i e.

Lemma zframe_refl d : zframe d d.
Proof. exists (zd_zones d), (zd_nr_imp_open d), (zd_nr_exp_open d). by destruct d. Qed.

Lemma zframe_trans d1 d2 d3 : zframe d1 d2 -> zframe d2 d3 -> zframe d1 d3.
Proof. intros (? & ? & ? & ->) (? & ? & ? & ->). eexists _, _, _. reflexivity. Qed.

#[export] Hint Resolve zframe_refl zframe_trans : lio.

(** Replacing zone [i] ([z]) by [z'], with the counters following. *)
Definition upd (d : zbc_dev) (i : nat) (z z' : zbc_zone) : zbc_dev :=
  zd_set d (<[i:=z']> (zd_zones d))
    (zd_nr_imp_open d - b2z (zbc_zone_imp_open z) + b2z (zbc_zone_imp_open z'))
    (zd_nr_exp_open d - b2z (zbc_zone_exp_open z) + b2z (zbc_zone_exp_open z')).

Lemma zframe_upd d i z z' : zframe d (upd d i z z').
Proof. eexists _, _, _. reflexivity. Qed.
#[export] Hint Resolve zframe_upd : lio.

Lemma zinv_upd d i z z' :
  zinv d -> zd_zones d !! i = Some z -> zone_ok z' ->
  z_start z' = z_start z -> z_len z' = z_len z -> z_type z' = z_type z -> zinv (upd d i z z').
Proof.
  intros I Hi Hz' Hs Hl Ht. pose proof (zi_type d I i z Hi) as Hty. pose proof (zi_zones d I i z Hi) as (_ & Hs0 & Hl0).
  pose proof (count_insert zbc_zone_imp_open _ i z z' Hi) as C1.
  pose proof (count_insert zbc_zone_exp_open _ i z z' Hi) as C2.
  destruct I. split; cbn [upd zd_set zd_zones zd_nr_zones zd_zone_size zd_capacity zd_lba_size zd_model
    zd_nr_open_zones zd_nr_imp_open zd_nr_exp_open]; rewrite ?length_insert; try done.
  - rewrite zi_imp0. unfold b2z. destruct (zbc_zone_imp_open z), (zbc_zone_imp_open z'); lia.
  - rewrite zi_exp0. unfold b2z. destruct (zbc_zone_exp_open z), (zbc_zone_exp_open z'); lia.
  - intros k y Hk. destruct (decide (i = k)) as [<-|Hne].
    + rewrite list_lookup_insert_eq in Hk by (by eapply lookup_lt_Some). injection Hk as <-.
      rewrite Hs, Hl. done.
    + rewrite list_lookup_insert_ne in Hk by done. by apply zi_zones0.
  - intros k y Hk. destruct (decide (i = k)) as [<-|Hne].
    + rewrite list_lookup_insert_eq in Hk by (by eapply lookup_lt_Some). injection Hk as <-.
      unfold zone_typed. by rewrite Ht.
    + rewrite list_lookup_insert_ne in Hk by done. by apply (zi_type0 k).
Qed.

Lemma zd_eta d : zd_set d (zd_zones d) (zd_nr_imp_open d) (zd_nr_exp_open d) = d.
Proof. by destruct d. Qed.

Lemma upd_id d i z : zd_zones d !! i = Some z -> upd d i z z = d.
Proof.
  intros Hi. unfold upd. rewrite list_insert_id by done.
  replace (_ - _ + _) with (zd_nr_imp_open d) by lia.
  replace (_ - _ + _) with (zd_nr_exp_open d) by lia. apply zd_eta.
Qed.

Lemma upd_upd d i z y x :
  zd_zones d !! i = Some z -> upd (upd d i z y) i y x = upd d i z x.
Proof.
  intros Hi. unfold upd, zd_set. cbn. rewrite list_insert_insert_eq.
  f_equal; lia.
Qed.

Lemma upd_lookup d i z y : zd_zones d !! i = Some z -> zd_zones (upd d i z y) !! i = Some y.
Proof. intros Hi. cbn. apply list_lookup_insert_eq. by eapply lookup_lt_Some. Qed.

(** The counters cannot wrap. *)
Lemma count_disjoint {A} (f g : A -> bool) l :
  (forall x, f x = true -> g x = false) -> (count f l + count g l <= length l)%nat.
Proof.
  intros H. induction l as [|x l IH]; [done|]. rewrite !count_cons. simpl.
  specialize (H x). destruct (f x), (g x); lia.
Qed.

Lemma imp_not_exp z : zbc_zone_imp_open z = true -> zbc_zone_exp_open z = false.
Proof. unfold zbc_zone_imp_open, zbc_zone_exp_open. intros H. zbool. by rewrite H. Qed.

Lemma zinv_counts d :
  zinv d -> 0 <= zd_nr_imp_open d /\ 0 <= zd_nr_exp_open d /\
            zd_nr_imp_open d + zd_nr_exp_open d <= zd_nr_zones d < 2 ^ 31.
Proof.
  intros []. rewrite zi_imp0, zi_exp0.
  pose proof (count_disjoint zbc_zone_imp_open zbc_zone_exp_open (zd_zones d) imp_not_exp). lia.
Qed.

Lemma zinv_counts_at d i z :
  zinv d -> zd_zones d !! i = Some z ->
  b2z (zbc_zone_imp_open z) <= zd_nr_imp_open d /\ b2z (zbc_zone_exp_open z) <= zd_nr_exp_open d.
Proof.
  intros [] Hi. rewrite zi_imp0, zi_exp0. split.
  - destruct (zbc_zone_imp_open z) eqn:E; [pose proof (count_pos _ _ _ _ Hi E)|]; simpl; lia.
  - destruct (zbc_zone_exp_open z) eqn:E; [pose proof (count_pos _ _ _ _ Hi E)|]; simpl; lia.
Qed.

(** *** Each operation is an update of one zone *)

Definition close_of (z : zbc_zone) : zbc_zone :=
  if zbc_zone_conv z then z
  else if negb (zbc_zone_is_open z) then z
  else zset_cond z (if z_wp z =? z_start z then ZBC_ZONE_COND_EMPTY else ZBC_ZONE_COND_CLOSED).

Definition full_of (z : zbc_zone) : zbc_zone :=
  Zone (z_start z) (z_len z) (z_start z + z_len z) (z_type z) ZBC_ZONE_COND_FULL 0 0.

Definition finish_of (empty : bool) (z : zbc_zone) : zbc_zone :=
  if zbc_zone_conv z then z
  else if zbc_zone_closed z || zbc_zone_is_open z || (empty && zbc_zone_empty z) then full_of z
  else z.

Definition reset_of (z : zbc_zone) : zbc_zone :=
  if zbc_zone_conv z then z
  else Zone (z_start z) (z_len z) (z_start z) (z_type z) ZBC_ZONE_COND_EMPTY 0 0.

(** Splits on a zone's condition. *)
Ltac zcond :=
  unfold zone_ok, close_of, finish_of, full_of, reset_of, zset_cond, zset_wp, zbc_zone_conv,
    zbc_zone_is_open, zbc_zone_imp_open, zbc_zone_exp_open, zbc_zone_closed, zbc_zone_empty,
    zbc_zone_full in *;
  cbn [z_start z_len z_wp z_type z_cond] in *.

Lemma close_not_open z : zbc_zone_is_open (close_of z) = false \/ zbc_zone_conv z = true.
Proof.
  unfold close_of. destruct (zbc_zone_conv z); [by right|]. left.
  destruct (zbc_zone_is_open z) eqn:Ho; simpl; [|done]. by case_if.
Qed.

Lemma close_of_geom z : z_start (close_of z) = z_start z /\ z_len (close_of z) = z_len z.
Proof. unfold close_of. by repeat case_if. Qed.

Lemma close_of_type z : z_type (close_of z) = z_type z.
Proof. unfold close_of. by repeat case_if. Qed.

Lemma zone_ok_close z : zone_ok z -> zone_ok (close_of z).
Proof.
  unfold close_of, zone_ok. intros H. destruct (zbc_zone_conv z) eqn:Hc; [by rewrite Hc|].
  destruct (negb (zbc_zone_is_open z)) eqn:Ho; [by rewrite Hc|].
  destruct H as (? & ? & ? & Hw & _). unfold zset_cond, zbc_zone_conv in *. cbn.
  rewrite Hc. destruct (Z.eqb_spec (z_wp z) (z_start z)); split_and!; try lia.
Qed.

Lemma conv_not_open z : zone_ok z -> zbc_zone_conv z = true -> zbc_zone_is_open z = false.
Proof.
  unfold zone_ok. intros (_ & _ & _ & H) Hc. rewrite Hc in H.
  unfold zbc_zone_is_open, zbc_zone_imp_open, zbc_zone_exp_open. by rewrite H.
Qed.

Lemma is_open_spec z : zbc_zone_is_open z = zbc_zone_imp_open z || zbc_zone_exp_open z.
Proof. done. Qed.

Lemma close_zone_spec d i z :
  zinv d -> zd_zones d !! i = Some z -> __zbc_close_zone d i = Some (upd d i z (close_of z)).
Proof.
  intros I Hi. destruct (zinv_counts d I) as (? & ? & ?). destruct (zinv_counts_at d i z I Hi).
  unfold __zbc_close_zone, close_of. rewrite Hi. cbn [mbind option_bind].
  destruct (zbc_zone_conv z); [by rewrite upd_id|].
  destruct (negb (zbc_zone_is_open z)) eqn:Ho; [by rewrite upd_id|].
  unfold upd. zbool. rewrite is_open_spec in Ho. f_equal. f_equal.
  - destruct (zbc_zone_imp_open z); cbn [b2z] in *.
    + rewrite u32_small by lia. case_if; simpl; lia.
    + case_if; simpl; lia.
  - destruct (zbc_zone_imp_open z) eqn:Hm; [rewrite (imp_not_exp z Hm)|simpl in Ho; rewrite Ho in *];
      cbn [b2z] in *; [|rewrite u32_small by lia]; case_if; simpl; lia.
Qed.

Lemma zinv_close d i z :
  zinv d -> zd_zones d !! i = Some z -> zinv (upd d i z (close_of z)).
Proof.
  intros I Hi. destruct (close_of_geom z). apply zinv_upd; auto using close_of_type.
  apply zone_ok_close. by apply (zi_zones d I i z).
Qed.

Lemma close_of_closed z : zone_ok z -> zbc_zone_imp_open (close_of z) = false /\
                                       zbc_zone_exp_open (close_of z) = false.
Proof.
  intros Hz. destruct (close_not_open z) as [H|H].
  - rewrite is_open_spec in H. by apply orb_false_iff in H.
  - pose proof (conv_not_open z Hz H) as Ho. unfold close_of. rewrite H.
    rewrite is_open_spec in Ho. by apply orb_false_iff in Ho.
Qed.

(** Closing an open zone gives back exactly its slot. *)
Lemma close_counts d i z :
  zinv d -> zd_zones d !! i = Some z ->
  let d' := upd d i z (close_of z) in
  zd_nr_imp_open d' = zd_nr_imp_open d - b2z (zbc_zone_imp_open z) /\
  zd_nr_exp_open d' = zd_nr_exp_open d - b2z (zbc_zone_exp_open z).
Proof.
  intros I Hi. destruct (close_of_closed z) as [H1 H2]; [by apply (zi_zones d I i)|].
  cbn. rewrite H1, H2. simpl. lia.
Qed.

Lemma close_imp_from_spec d i n :
  zinv d -> (i + n <= length (zd_zones d))%nat ->
  (close_imp_from d i n = Some d /\
   forall k z, (i <= k < i + n)%nat -> zd_zones d !! k = Some z -> zbc_zone_imp_open z = false) \/
  (exists j z, zd_zones d !! j = Some z /\ zbc_zone_imp_open z = true /\
     close_imp_from d i n = Some (upd d j z (close_of z))).
Proof.
  intros I. revert i. induction n as [|n IH]; intros i Hn; simpl.
  - left. split; [done|]. lia.
  - destruct (lookup_lt_is_Some_2 (zd_zones d) i) as [z Hi]; [lia|]. rewrite Hi. simpl.
    destruct (zbc_zone_imp_open z) eqn:Hz.
    + right. exists i, z. split_and!; try done. by apply close_zone_spec.
    + destruct (IH (S i)) as [[-> H]|(j & y & H)]; [lia| |right; by exists j, y].
      left. split; [done|]. intros k y Hk Hy.
      destruct (decide (k = i)) as [->|]; [congruence|]. apply (H k y); [lia|done].
Qed.

Lemma count_zero {A} (f : A -> bool) l :
  (forall k x, l !! k = Some x -> f x = false) -> count f l = 0%nat.
Proof.
  induction l as [|x l IH]; intros H; [done|]. rewrite count_cons.
  rewrite (H 0%nat x eq_refl), IH; [done|]. intros k y Hy. exact (H (S k) y Hy).
Qed.

(** At the limit, opening makes room by closing one implicitly open zone, if
    there is one. *)
Lemma make_room_spec d :
  zinv d ->
  exists d1,
    (if zd_nr_open_zones d <=? u32 (zd_nr_imp_open d + zd_nr_exp_open d)
     then __zbc_close_imp_open_zone d else Some d) = Some d1 /\
    zinv d1 /\ zframe d d1 /\ zd_nr_exp_open d1 = zd_nr_exp_open d /\
    (forall i z, zd_zones d !! i = Some z -> zbc_zone_imp_open z = false -> zd_zones d1 !! i = Some z) /\
    zd_nr_imp_open d1 =
      zd_nr_imp_open d -
      (if (zd_nr_open_zones d <=? zd_nr_imp_open d + zd_nr_exp_open d) && (0 <? zd_nr_imp_open d)
       then 1 else 0) /\
    (d1 = d \/ exists j y, zd_zones d !! j = Some y /\ zbc_zone_imp_open y = true /\
                          d1 = upd d j y (close_of y)).
Proof.
  intros I. destruct (zinv_counts d I) as (? & ? & ?). rewrite u32_small by lia.
  destruct (Z.leb_spec (zd_nr_open_zones d) (zd_nr_imp_open d + zd_nr_exp_open d)); cbn [andb];
    [|exists d; split_and!; auto with lio; lia].
  unfold __zbc_close_imp_open_zone.
  pose proof (zi_nr d I).
  destruct (close_imp_from_spec d 0 (Z.to_nat (zd_nr_zones d)) I) as [[-> Hno]|(j & z & Hj & Hz & ->)];
    [lia| |].
  - exists d. split_and!; auto with lio.
    rewrite (zi_imp d I), count_zero; [simpl; lia|].
    intros k x Hk. apply (Hno k x); [|done]. apply lookup_lt_Some in Hk. lia.
  - destruct (close_counts d j z I Hj) as [C1 C2]. rewrite Hz in C1.
    rewrite (imp_not_exp z Hz) in C2. pose proof (zinv_counts_at d j z I Hj) as [C3 _].
    rewrite Hz in C3. cbn [b2z] in *.
    eexists. split; [reflexivity|]. split_and!; auto using zinv_close with lio.
    + lia.
    + intros i y Hi Hy. cbn. rewrite list_lookup_insert_ne; [done|].
      intros ->. rewrite Hi in Hj. congruence.
    + rewrite C1. destruct (Z.ltb_spec 0 (zd_nr_imp_open d)); lia.
    + right. by exists j, z.
Qed.

Definition open_cond (explicit : bool) : Z :=
  if explicit then ZBC_ZONE_COND_EXP_OPEN else ZBC_ZONE_COND_IMP_OPEN.

Lemma open_zone_spec d i z explicit :
  zinv d -> zd_zones d !! i = Some z -> zbc_zone_is_open z = false ->
  exists d1,
    __zbc_open_zone d i explicit = Some (upd d1 i z (zset_cond z (open_cond explicit))) /\
    zinv d1 /\ zframe d d1 /\ zd_zones d1 !! i = Some z /\
    zd_nr_exp_open d1 = zd_nr_exp_open d /\
    zd_nr_imp_open d1 =
      zd_nr_imp_open d -
      (if (zd_nr_open_zones d <=? zd_nr_imp_open d + zd_nr_exp_open d) && (0 <? zd_nr_imp_open d)
       then 1 else 0) /\
    (d1 = d \/ exists j y, zd_zones d !! j = Some y /\ zbc_zone_imp_open y = true /\
                          d1 = upd d j y (close_of y)).
Proof.
  intros I Hi Ho. rewrite is_open_spec in Ho. apply orb_false_iff in Ho as [Ho1 Ho2].
  destruct (make_room_spec d I) as (d1 & Hr & I1 & F1 & E1 & K1 & M1 & L1).
  exists d1. pose proof (K1 i z Hi Ho1) as Hi1.
  destruct (zinv_counts d1 I1) as (? & ? & ?).
  split; [|by split_and!].
  unfold __zbc_open_zone. rewrite Hi. cbn [mbind option_bind]. rewrite Ho1, Ho2, !andb_false_r.
  cbn [orb]. rewrite Hr. cbn [mbind option_bind]. rewrite Hi1. cbn [mbind option_bind].
  unfold upd. rewrite Ho1, Ho2. destruct explicit; cbn [b2z open_cond]; f_equal; f_equal;
    rewrite ?u32_small by lia; cbn; lia.
Qed.

Lemma zone_ok_open z explicit :
  zone_ok z -> zbc_zone_conv z = false -> zone_ok (zset_cond z (open_cond explicit)).
Proof.
  unfold zone_ok. intros H Hc. rewrite Hc in H. unfold zset_cond, zbc_zone_conv in *. cbn.
  rewrite Hc. destruct H as (? & ? & ? & ? & _). destruct explicit; cbn; split_and!; auto; lia.
Qed.

Lemma zone_ok_finish e z : zone_ok z -> zone_ok (finish_of e z).
Proof.
  unfold finish_of, zone_ok. intros H. destruct (zbc_zone_conv z) eqn:Hc; [by rewrite Hc|].
  case_if; [|by rewrite Hc]. unfold full_of, zbc_zone_conv in *. cbn. rewrite Hc.
  destruct H as (? & ? & ? & ?). split_and!; lia.
Qed.

Lemma zone_ok_reset z : zone_ok z -> zone_ok (reset_of z).
Proof.
  unfold reset_of, zone_ok. intros H. destruct (zbc_zone_conv z) eqn:Hc; [by rewrite Hc|].
  unfold zbc_zone_conv in *. cbn. rewrite Hc.
  destruct H as (? & ? & ? & ?). split_and!; lia.
Qed.

Lemma zd_store_upd d i z y :
  zbc_zone_is_open z = false -> zbc_zone_is_open y = false -> zd_store d i y = upd d i z y.
Proof.
  rewrite !is_open_spec. intros [H1 H2]%orb_false_iff [H3 H4]%orb_false_iff.
  unfold zd_store, upd. rewrite H1, H2, H3, H4. cbn. f_equal; lia.
Qed.

(** Closing a zone if it is open, then storing a zone that is not open. *)
Lemma close_then_store d i z y :
  zinv d -> zd_zones d !! i = Some z -> zbc_zone_is_open (y z) = false ->
  y (close_of z) = y z ->
  (d ← (if zbc_zone_is_open z then __zbc_close_zone d i else Some d);
   zone ← zd_zones d !! i; Some (zd_store d i (y zone))) = Some (upd d i z (y z)).
Proof.
  intros I Hi Hy Hyc. destruct (zbc_zone_is_open z) eqn:Ho.
  - rewrite (close_zone_spec d i z) by done. cbn [mbind option_bind].
    rewrite (upd_lookup d i z (close_of z) Hi). cbn [mbind option_bind]. rewrite Hyc.
    destruct (close_of_closed z) as [H1 H2]; [by apply (zi_zones d I i)|].
    rewrite (zd_store_upd _ i (close_of z)), upd_upd; [done|done| |done].
    by rewrite is_open_spec, H1, H2.
  - cbn [mbind option_bind]. rewrite Hi. cbn [mbind option_bind].
    by rewrite (zd_store_upd _ i z).
Qed.

Lemma finish_zone_spec d i z e :
  zinv d -> zd_zones d !! i = Some z -> __zbc_finish_zone d i e = Some (upd d i z (finish_of e z)).
Proof.
  intros I Hi. unfold __zbc_finish_zone, finish_of. rewrite Hi. cbn [mbind option_bind].
  pose proof (zi_zones d I i z Hi) as ((? & ? & ? & _) & _ & _).
  destruct (zbc_zone_conv z) eqn:Hc; [by rewrite upd_id|].
  case_if; [|by rewrite upd_id].
  unfold full_of. rewrite <- (u64_small (z_start z + z_len z)) by lia.
  apply (close_then_store d i z (fun z => Zone (z_start z) (z_len z) (u64 (z_start z + z_len z))
    (z_type z) ZBC_ZONE_COND_FULL 0 0)); try done.
  destruct (close_of_geom z) as [-> ->]. by rewrite close_of_type.
Qed.

Lemma reset_zone_spec d i z :
  zinv d -> zd_zones d !! i = Some z -> __zbc_reset_wp d i = Some (upd d i z (reset_of z)).
Proof.
  intros I Hi. unfold __zbc_reset_wp, reset_of. rewrite Hi. cbn [mbind option_bind].
  destruct (zbc_zone_conv z) eqn:Hc; [by rewrite upd_id|].
  apply (close_then_store d i z (fun z => Zone (z_start z) (z_len z) (z_start z)
    (z_type z) ZBC_ZONE_COND_EMPTY 0 0)); try done.
  destruct (close_of_geom z) as [-> ->]. by rewrite close_of_type.
Qed.

(** *** Loops over the zone table *)

(** A zone operation that never fails, keeps the zone's place and keeps it
    well formed. *)
Record zone_op (f : zbc_dev -> nat -> option zbc_dev) (g : zbc_zone -> zbc_zone) : Prop := {
  zo_upd : forall d i z, zinv d -> zd_zones d !! i = Some z -> f d i = Some (upd d i z (g z));
  zo_ok : forall z, zone_ok z -> zone_ok (g z);
  zo_geom : forall z, z_start (g z) = z_start z /\ z_len (g z) = z_len z;
  zo_type : forall z, z_type (g z) = z_type z
}.

Lemma zone_op_close : zone_op __zbc_close_zone close_of.
Proof. split; auto using close_zone_spec, zone_ok_close, close_of_geom, close_of_type. Qed.

Lemma finish_of_geom e z : z_start (finish_of e z) = z_start z /\ z_len (finish_of e z) = z_len z.
Proof. unfold finish_of. by repeat case_if. Qed.

Lemma zone_op_finish e : zone_op (fun d i => __zbc_finish_zone d i e) (finish_of e).
Proof.
  split; auto using finish_zone_spec, zone_ok_finish, finish_of_geom.
  intros z. unfold finish_of. by repeat case_if.
Qed.

Lemma zone_op_reset : zone_op __zbc_reset_wp reset_of.
Proof.
  split; auto using reset_zone_spec, zone_ok_reset; intros z; unfold reset_of; by case_if.
Qed.

Lemma zo_step f g d i z :
  zone_op f g -> zinv d -> zd_zones d !! i = Some z ->
  exists d', f d i = Some d' /\ zinv d' /\ zframe d d' /\ zd_zones d' = <[i:=g z]> (zd_zones d).
Proof.
  intros O I Hi. destruct (zo_geom f g O z). exists (upd d i z (g z)).
  split_and!; [by apply (zo_upd f g O)| |auto with lio|done].
  apply zinv_upd; auto; [|apply (zo_type f g O)]. apply (zo_ok f g O). by apply (zi_zones d I i).
Qed.

Lemma map_take_insert {A} (g : A -> A) l i x :
  l !! i = Some x ->
  <[i:=g x]> (map g (take i l) ++ drop i l) = map g (take (S i) l) ++ drop (S i) l.
Proof.
  intros Hi. pose proof (lookup_lt_Some _ _ _ Hi).
  rewrite (take_S_r l i x Hi), map_app, (drop_S l x i Hi).
  rewrite insert_app_r_alt by (rewrite length_map, length_take; lia).
  rewrite length_map, length_take, Nat.min_l, Nat.sub_diag by lia.
  rewrite <- app_assoc. done.
Qed.

Lemma zframe_nr d d' : zframe d d' -> zd_nr_zones d' = zd_nr_zones d.
Proof. by intros (? & ? & ? & ->). Qed.

(** The loop applies the operation to every zone. *)
Lemma for_zones_map f g d :
  zone_op f g -> zinv d ->
  exists d', for_zones f d = Some d' /\ zinv d' /\ zframe d d' /\ zd_zones d' = map g (zd_zones d).
Proof.
  intros O I. pose proof (zi_nr d I) as Hn. unfold for_zones.
  assert (Z.to_nat (zd_nr_zones d) = length (zd_zones d)) as Hl by lia. rewrite Hl.
  destruct (for_range_inv
    (fun i s => zinv s /\ zframe d s /\
                zd_zones s = map g (take i (zd_zones d)) ++ drop i (zd_zones d))
    f 0 (length (zd_zones d)) d) as (d' & Hd' & I' & F' & Z').
  - intros i s Hi (Is & Fs & Zs).
    destruct (lookup_lt_is_Some_2 (zd_zones d) i) as [z Hz]; [lia|].
    assert (zd_zones s !! i = Some z) as Hs.
    { rewrite Zs, lookup_app_r by (rewrite length_map, length_take; lia).
      rewrite length_map, length_take, Nat.min_l, Nat.sub_diag, lookup_drop, Nat.add_0_r by lia.
      done. }
    destruct (zo_step f g s i z O Is Hs) as (s' & -> & Is' & Fs' & Zs').
    exists s'. split_and!; eauto with lio. by rewrite Zs', Zs, map_take_insert.
  - split_and!; auto with lio.
  - exists d'. split_and!; auto. rewrite Z', take_ge, drop_ge by lia. apply app_nil_r.
Qed.

(** *** Addressing a zone *)

Lemma get_zone_spec d lba :
  zinv d -> 0 <= lba < 2 ^ 64 ->
  exists r, zbc_get_zone d lba true = Some r /\
    match r with
    | None => forall i z, zd_zones d !! i = Some z -> lba <= zd_capacity d -> z_start z <> lba
    | Some i => exists z, zd_zones d !! i = Some z /\ z_start z = lba
    end.
Proof.
  intros I Hlba. unfold zbc_get_zone. pose proof (zi_size d I). pose proof (zi_nr d I).
  pose proof (zi_nr32 d I). pose proof (zi_cap d I).
  rewrite (proj2 (Z.eqb_neq _ _)) by lia.
  assert (Hz : forall i z, zd_zones d !! i = Some z -> z_start z = lba ->
            lba / zd_zone_size d = Z.of_nat i).
  { intros i z Hi <-. destruct (zi_zones d I i z Hi) as (_ & -> & _). by rewrite Z.div_mul by lia. }
  assert (0 <= lba / zd_zone_size d) by (apply Z.div_pos; lia).
  set (q := lba / zd_zone_size d) in *. pose proof (u32_bound q).
  destruct (Z.leb_spec (zd_nr_zones d) (u32 q)).
  - exists None. split; [done|]. intros i z Hi Hc <-. specialize (Hz i z Hi eq_refl).
    pose proof (lookup_lt_Some _ _ _ Hi). rewrite Hz in *. rewrite u32_small in *; lia.
  - destruct (lookup_lt_is_Some_2 (zd_zones d) (Z.to_nat (u32 q))) as [y Hy]; [lia|].
    rewrite Hy. cbn [mbind option_bind].
    eexists. split; [reflexivity|]. destruct (Z.eqb_spec lba (z_start y)); [by exists y|].
    intros i z Hi Hc Hs. specialize (Hz i z Hi Hs). pose proof (lookup_lt_Some _ _ _ Hi).
    rewrite Hz, u32_small, Nat2Z.id in Hy by lia. congruence.
Qed.

(** ** The commands *)

(** A ZBC OUT command block with a sense buffer of the kernel's size. *)
Record out_cmd (cdb sense : list Z) : Prop := {
  oc_op : byte_at cdb 0 = ZBC_OUT;
  oc_bytes : bytes_ok cdb;
  oc_sense : (18 <= length sense)%nat
}.

Definition out_lba (cdb : list Z) : Z := be_at cdb 2 8.

Lemma out_cmd_lba cdb sense :
  out_cmd cdb sense -> tcmu_get_lba cdb = Some (out_lba cdb) /\ 0 <= out_lba cdb < 2 ^ 64.
Proof.
  intros []. split.
  - unfold tcmu_get_lba, tcmu_get_cdb_length. by rewrite oc_op0.
  - apply (be_at_bound cdb 2 8 oc_bytes0).
Qed.

(** A command either runs, giving a device that satisfies [Q], or is rejected
    with a check condition, leaving the device alone and satisfying [R]. *)
Definition zpost (d : zbc_dev) (r : zbc_result) (Q : zbc_dev -> Prop) (R : Prop) : Prop :=
  exists d' sense' s, r = Some (d', sense', s) /\ zinv d' /\ zframe d d' /\
    ((s = TCMU_STS_OK /\ Q d') \/ (s = TCMU_STS_PASSTHROUGH_ERR /\ d' = d /\ R)).

Lemma zpost_ok d d' sense (Q : zbc_dev -> Prop) (R : Prop) :
  zinv d' -> zframe d d' -> Q d' -> zpost d (zok d' sense) Q R.
Proof. intros. exists d', sense, TCMU_STS_OK. auto 8. Qed.

Lemma zpost_err d sense key asc (Q : zbc_dev -> Prop) (R : Prop) :
  zinv d -> (18 <= length sense)%nat -> 0 <= asc < 65536 -> R ->
  zpost d (zerr d sense key asc) Q R.
Proof.
  intros I Hs Ha HR. unfold zerr. rewrite tcmu_set_sense_data_eq by done.
  eexists _, _, _. split; [reflexivity|]. split_and!; auto with lio.
Qed.

(** The LBA names the start of a zone that has a write pointer. *)
Definition addresses (d : zbc_dev) (lba : Z) (i : nat) (z : zbc_zone) : Prop :=
  zd_zones d !! i = Some z /\ z_start z = lba /\ zbc_zone_conv z = false.

Lemma with_zone_at_spec d cdb sense k (Q : zbc_dev -> Prop) (R : Prop) :
  zinv d -> out_cmd cdb sense ->
  (forall i z, addresses d (out_lba cdb) i z -> zpost d (k i z) Q R) ->
  ((forall i z, ~ addresses d (out_lba cdb) i z) -> R) ->
  zpost d (with_zone_at d cdb sense k) Q R.
Proof.
  intros I HC Hk HR. destruct (out_cmd_lba cdb sense HC) as [Hlba Hb].
  pose proof (oc_sense _ _ HC). unfold with_zone_at. rewrite Hlba. cbn [mbind option_bind].
  destruct (Z.ltb_spec (zd_capacity d) (out_lba cdb)).
  - apply zpost_err; auto; try done. apply HR. intros i z (Hi & Hs & _).
    destruct (zi_zones d I i z Hi) as ((? & ? & ?) & ? & ?). lia.
  - destruct (get_zone_spec d (out_lba cdb) I Hb) as ([i|] & -> & Hr); cbn [mbind option_bind].
    + destruct Hr as (z & Hi & Hz). rewrite Hi. cbn [mbind option_bind].
      destruct (zbc_zone_conv z) eqn:Hc.
      * apply zpost_err; auto; try done. apply HR. intros j y (Hj & Hy & Hyc).
        destruct (zi_zones d I i z Hi) as (_ & E1 & _).
        destruct (zi_zones d I j y Hj) as (_ & E2 & _). pose proof (zi_size d I).
        assert (Z.of_nat i = Z.of_nat j) by nia. assert (i = j) as -> by lia. congruence.
      * by apply Hk.
    + apply zpost_err; auto; try done. apply HR. intros j y (Hj & Hy & Hyc).
      by apply (Hr j y).
Qed.

(** The abstract effect of closing, finishing or resetting on a zone table. *)
Definition table_effect (all : bool) (lba : Z) (g : zbc_zone -> zbc_zone)
    (zs zs' : list zbc_zone) : Prop :=
  if all then zs' = map g zs
  else exists i z, zs !! i = Some z /\ z_start z = lba /\ zbc_zone_conv z = false /\
                   zs' = <[i:=g z]> zs.

Definition out_effect (cdb : list Z) : option (zbc_zone -> zbc_zone) :=
  let sa := byte_at cdb 1 in
  if sa =? ZBC_SA_CLOSE_ZONE then Some close_of
  else if sa =? ZBC_SA_FINISH_ZONE then Some (finish_of (negb (cdb_all cdb)))
  else if sa =? ZBC_SA_RESET_WP then Some reset_of
  else None.

Lemma zone_command_spec d cdb sense f g h :
  zinv d -> out_cmd cdb sense -> zone_op f g -> zone_op h g ->
  zpost d (if cdb_all cdb then d ← for_zones f d; zok d sense
           else with_zone_at d cdb sense (fun i _ => d ← h d i; zok d sense))
    (fun d' => table_effect (cdb_all cdb) (out_lba cdb) g (zd_zones d) (zd_zones d'))
    (cdb_all cdb = false /\ forall i z, ~ addresses d (out_lba cdb) i z).
Proof.
  intros I HC Of Oh. unfold table_effect. destruct (cdb_all cdb).
  - destruct (for_zones_map f g d Of I) as (d' & -> & I' & F' & Z'). by apply zpost_ok.
  - apply with_zone_at_spec; auto.
    intros i z (Hi & Hs & Hc). destruct (zo_step h g d i z Oh I Hi) as (d' & -> & I' & F' & Z').
    apply zpost_ok; auto. by exists i, z.
Qed.

Lemma zbc_out_table (d : zbc_dev) (cdb sense : list Z) (g : zbc_zone -> zbc_zone)
  (I : zinv d) (HC : out_cmd cdb sense) (Hg : out_effect cdb = Some g) :
  exists d' sense' s,
    zbc_out d cdb sense = Some (d', sense', s) /\ zframe d d' /\
    ((s = TCMU_STS_OK /\
      table_effect (cdb_all cdb) (out_lba cdb) g (zd_zones d) (zd_zones d')) \/
     (s = TCMU_STS_PASSTHROUGH_ERR /\ d' = d /\
      cdb_all cdb = false /\ forall i z, ~ addresses d (out_lba cdb) i z)).
Proof.
  assert (zpost d (zbc_out d cdb sense)
    (fun d' => table_effect (cdb_all cdb) (out_lba cdb) g (zd_zones d) (zd_zones d'))
    (cdb_all cdb = false /\ forall i z, ~ addresses d (out_lba cdb) i z)) as H.
  { revert Hg. unfold out_effect, zbc_out.
    case_if; [intros [= <-]; by apply zone_command_spec; auto using zone_op_close|].
    case_if.
    { intros [= <-]. unfold zbc_finish_zone.
      pose proof (zone_command_spec d cdb sense _ _ _ I HC (zone_op_finish (negb (cdb_all cdb)))
        (zone_op_finish (negb (cdb_all cdb)))) as H.
      by destruct (cdb_all cdb). }
    case_if; [|done]. intros [= <-].
    case_if; [unfold ZBC_SA_OPEN_ZONE, ZBC_SA_RESET_WP in *; lia|].
    by apply zone_command_spec; auto using zone_op_reset. }
  destruct H as (d' & sense' & s & H1 & _ & H2 & H3). eauto 8.
Qed.

(** C29: CLOSE ZONE, FINISH ZONE and RESET WRITE POINTER implement their effect
    on the abstract zone table.  From a device whose counters and write
    pointers are consistent, the command always terminates without undefined
    behaviour; it succeeds exactly when the ALL bit is set or the LBA is the
    start of a zone with a write pointer, and then the new table is the old
    one with exactly the addressed zone (or all zones) closed, made full, or
    made empty; otherwise the device is untouched. *)
Theorem zbc_out_refines_table (d : zbc_dev) (cdb sense : list Z) (g : zbc_zone -> zbc_zone)
  (I : zinv d) (HC : out_cmd cdb sense) (Hg : out_effect cdb = Some g) :
  exists d' sense' s,
    zbc_out d cdb sense = Some (d', sense', s) /\ zframe d d' /\
    ((s = TCMU_STS_OK /\
      table_effect (cdb_all cdb) (out_lba cdb) g (zd_zones d) (zd_zones d')) \/
     (s = TCMU_STS_PASSTHROUGH_ERR /\ d' = d /\
      cdb_all cdb = false /\ forall i z, ~ addresses d (out_lba cdb) i z)).
Proof. by apply zbc_out_table. Qed.

(** *** OPEN ZONE *)

Definition zlimit (d : zbc_dev) : Prop :=
  zd_nr_imp_open d + zd_nr_exp_open d <= zd_nr_open_zones d.

Lemma open_counts d i z explicit :
  zinv d -> zd_zones d !! i = Some z -> zbc_zone_is_open z = false ->
  let d' := upd d i z (zset_cond z (open_cond explicit)) in
  zd_nr_imp_open d' = zd_nr_imp_open d + b2z (negb explicit) /\
  zd_nr_exp_open d' = zd_nr_exp_open d + b2z explicit.
Proof.
  intros I Hi Ho. rewrite is_open_spec in Ho. apply orb_false_iff in Ho as [H1 H2].
  cbn. rewrite H1, H2. destruct explicit; cbn; lia.
Qed.

Lemma zinv_open d i z explicit :
  zinv d -> zd_zones d !! i = Some z -> zbc_zone_conv z = false ->
  zinv (upd d i z (zset_cond z (open_cond explicit))).
Proof.
  intros I Hi Hc. apply zinv_upd; try done. apply zone_ok_open; [|done].
  by apply (zi_zones d I i).
Qed.

(** Explicitly opening a zone that is not open, within the limit: at most one
    implicitly open zone is closed to make room. *)
Lemma open_zone_inv d i z explicit :
  zinv d -> zd_zones d !! i = Some z -> zbc_zone_is_open z = false -> zbc_zone_conv z = false ->
  exists d', __zbc_open_zone d i explicit = Some d' /\ zinv d' /\ zframe d d' /\
    zd_zones d' !! i = Some (zset_cond z (open_cond explicit)) /\
    zd_nr_exp_open d' = zd_nr_exp_open d + b2z explicit /\
    zd_nr_imp_open d' <= zd_nr_imp_open d + b2z (negb explicit) /\
    (zlimit d -> zd_nr_exp_open d < zd_nr_open_zones d -> zlimit d').
Proof.
  intros I Hi Ho Hc.
  destruct (open_zone_spec d i z explicit I Hi Ho) as (d1 & -> & I1 & F1 & Z1 & E1 & M1 & _).
  destruct (open_counts d1 i z explicit I1 Z1 Ho) as [C1 C2].
  eexists. split; [reflexivity|]. split; [by apply zinv_open|].
  split; [eauto with lio|]. split; [by apply upd_lookup|].
  unfold zlimit. rewrite C1, C2.
  assert (zd_nr_open_zones (upd d1 i z (zset_cond z (open_cond explicit))) = zd_nr_open_zones d) as ->.
  { by destruct F1 as (? & ? & ? & ->). }
  pose proof (zinv_counts d I).
  destruct explicit; cbn [b2z negb]; split_and!;
    destruct (Z.leb_spec (zd_nr_open_zones d) (zd_nr_imp_open d + zd_nr_exp_open d)),
      (Z.ltb_spec 0 (zd_nr_imp_open d)); cbn [andb] in M1; lia.
Qed.

Lemma zlimit_upd_close d i z :
  zinv d -> zd_zones d !! i = Some z -> zlimit d -> zlimit (upd d i z (close_of z)).
Proof.
  intros I Hi. destruct (close_counts d i z I Hi) as [C1 C2]. unfold zlimit. rewrite C1, C2.
  change (zd_nr_open_zones (upd d i z (close_of z))) with (zd_nr_open_zones d).
  unfold b2z. repeat case_if; lia.
Qed.

(** The outcome of opening one addressed zone. *)
Definition opened_zone (d : zbc_dev) (lba : Z) (d' : zbc_dev) : Prop :=
  exists i z, addresses d lba i z /\ (zlimit d -> zlimit d') /\
    ((zbc_zone_exp_open z || zbc_zone_full z = true /\ d' = d) \/
     (zd_zones d' !! i = Some (zset_cond z ZBC_ZONE_COND_EXP_OPEN) /\
      zd_nr_exp_open d' = zd_nr_exp_open d + 1)).

Lemma open_one_spec d cdb sense :
  zinv d -> out_cmd cdb sense -> cdb_all cdb = false ->
  zpost d (zbc_open_zone d cdb sense) (opened_zone d (out_lba cdb))
    ((forall i z, ~ addresses d (out_lba cdb) i z) \/ zd_nr_open_zones d <= zd_nr_exp_open d).
Proof.
  intros I HC Ha. unfold zbc_open_zone. rewrite Ha.
  pose proof (zinv_counts d I). pose proof (oc_sense _ _ HC).
  apply with_zone_at_spec; auto.
  intros i z HA. pose proof HA as (Hi & Hs & Hc).
  destruct (zbc_zone_exp_open z || zbc_zone_full z) eqn:He.
  { apply zpost_ok; auto with lio. exists i, z. auto. }
  apply orb_false_iff in He as [He Hf].
  rewrite u32_small by lia. destruct (Z.ltb_spec (zd_nr_open_zones d) (zd_nr_exp_open d + 1)).
  { apply zpost_err; auto; try done. right. lia. }
  destruct (zbc_zone_imp_open z) eqn:Him.
  - rewrite (close_zone_spec d i z) by done. cbn [mbind option_bind].
    pose proof (upd_lookup d i z (close_of z) Hi) as Hi1.
    destruct (close_of_closed z) as [Hc1 Hc2]; [by apply (zi_zones d I i)|].
    destruct (close_counts d i z I Hi) as [C1 C2]. rewrite He in C2. cbn [b2z] in C2.
    destruct (open_zone_inv (upd d i z (close_of z)) i (close_of z) true)
      as (d' & -> & I' & F' & Z' & E' & _ & L'); auto using zinv_close.
    { by rewrite is_open_spec, Hc1, Hc2. }
    { unfold zbc_zone_conv. by rewrite close_of_type. }
    apply zpost_ok; eauto with lio. exists i, z. split; [done|]. split.
    + intros L. apply L'; [by apply zlimit_upd_close|].
      change (zd_nr_open_zones (upd _ _ _ _)) with (zd_nr_open_zones d). lia.
    + right. rewrite Z', E', C2. split; [|simpl; lia]. f_equal. unfold close_of, zset_cond.
      repeat case_if; done.
  - cbn [mbind option_bind].
    destruct (open_zone_inv d i z true) as (d' & -> & I' & F' & Z' & E' & _ & L'); auto.
    { by rewrite is_open_spec, Him, He. }
    apply zpost_ok; auto. exists i, z. split; [done|]. split; [intros; apply L'; [done|lia]|].
    right. split; [done|]. rewrite E'. simpl. lia.
Qed.

Lemma count_take_S {A} (f : A -> bool) l i x :
  l !! i = Some x -> count f (take (S i) l) = (count f (take i l) + (if f x then 1 else 0))%nat.
Proof.
  intros Hi. rewrite (take_S_r l i x Hi), count_app, count_cons.
  change (count f []) with 0%nat. lia.
Qed.

Lemma count_closed_spec d :
  zinv d -> count_closed d = Some (Z.of_nat (count zbc_zone_closed (zd_zones d))).
Proof.
  intros I. pose proof (zi_nr d I). pose proof (zi_nr32 d I).
  unfold count_closed. replace (Z.to_nat (zd_nr_zones d)) with (length (zd_zones d)) by lia.
  destruct (for_range_inv (fun i n => n = Z.of_nat (count zbc_zone_closed (take i (zd_zones d))))
    (fun n i => zone ← zd_zones d !! i; Some (if zbc_zone_closed zone then u32 (n + 1) else n))
    0 (length (zd_zones d)) 0) as (n & -> & ->).
  - intros i n Hi ->.
    destruct (lookup_lt_is_Some_2 (zd_zones d) i) as [z Hz]; [lia|]. rewrite Hz.
    cbn [mbind option_bind]. eexists. split; [reflexivity|].
    rewrite (count_take_S _ _ i z Hz).
    pose proof (count_le_length zbc_zone_closed (take i (zd_zones d))).
    rewrite length_take in *. destruct (zbc_zone_closed z); [rewrite u32_small; lia|lia].
  - done.
  - by rewrite take_ge by lia.
Qed.

Lemma closed_not_open z : zbc_zone_closed z = true -> zbc_zone_is_open z = false.
Proof.
  unfold zbc_zone_closed, zbc_zone_is_open, zbc_zone_imp_open, zbc_zone_exp_open. intros H.
  zbool. by rewrite H.
Qed.

Lemma closed_not_conv z : zone_ok z -> zbc_zone_closed z = true -> zbc_zone_conv z = false.
Proof.
  unfold zone_ok, zbc_zone_closed. intros (_ & _ & _ & H) Hc. zbool.
  destruct (zbc_zone_conv z); [|done]. rewrite Hc in H. discriminate H.
Qed.

(** Opening all closed zones keeps the counters exact. *)
Lemma open_all_inv d : zinv d -> exists d', open_all_closed d = Some d' /\ zinv d' /\ zframe d d'.
Proof.
  intros I. pose proof (zi_nr d I).
  destruct (for_range_inv (fun _ s => zinv s /\ zframe d s)
    (fun d i => zone ← zd_zones d !! i;
                if zbc_zone_closed zone then __zbc_open_zone d i true else Some d)
    0 (Z.to_nat (zd_nr_zones d)) d) as (d' & H1 & H2 & H3); [|auto with lio|by exists d'].
  intros i s Hi (Is & Fs). pose proof (zi_nr s Is). pose proof (zframe_nr _ _ Fs).
  destruct (lookup_lt_is_Some_2 (zd_zones s) i) as [z Hz]; [lia|]. rewrite Hz.
  cbn [mbind option_bind]. destruct (zbc_zone_closed z) eqn:Hc; [|eauto].
  destruct (open_zone_inv s i z true) as (s' & -> & ? & ? & _); eauto using closed_not_open.
  - apply closed_not_conv; [|done]. by apply (zi_zones s Is i).
  - eauto with lio.
Qed.

Lemma open_all_spec d cdb sense :
  zinv d -> out_cmd cdb sense -> cdb_all cdb = true ->
  zpost d (zbc_open_zone d cdb sense) (fun _ => True)
    (zd_nr_open_zones d < zd_nr_exp_open d + Z.of_nat (count zbc_zone_closed (zd_zones d))).
Proof.
  intros I HC Ha. unfold zbc_open_zone. rewrite Ha, count_closed_spec by done.
  cbn [mbind option_bind]. pose proof (zinv_counts d I). pose proof (zi_nr d I).
  pose proof (count_disjoint zbc_zone_exp_open zbc_zone_closed (zd_zones d)) as Hd.
  rewrite u32_small.
  2:{ rewrite (zi_exp d I).
      pose proof (count_le_length zbc_zone_closed (zd_zones d)).
      pose proof (count_le_length zbc_zone_exp_open (zd_zones d)). pose proof (zi_nr32 d I). lia. }
  case_if.
  - by apply zpost_err; auto; destruct HC.
  - destruct (open_all_inv d I) as (d' & -> & ? & ?). by apply zpost_ok.
Qed.

Lemma zbc_out_keeps (d : zbc_dev) (cdb sense : list Z)
  (I : zinv d) (HC : out_cmd cdb sense) :
  exists d' sense' s, zbc_out d cdb sense = Some (d', sense', s) /\ zinv d' /\ zframe d d' /\
    (s = TCMU_STS_OK \/ s = TCMU_STS_PASSTHROUGH_ERR /\ d' = d).
Proof.
  assert (forall r Q R, zpost d r Q R -> exists d' sense' s, r = Some (d', sense', s) /\ zinv d' /\
    zframe d d' /\ (s = TCMU_STS_OK \/ s = TCMU_STS_PASSTHROUGH_ERR /\ d' = d)) as Hw.
  { intros r Q R (d' & sense' & s & -> & I' & F' & [[-> _]|(-> & -> & _)]);
      eexists _, _, _; split; auto. }
  unfold zbc_out. case_if.
  { eapply Hw. by eapply (zone_command_spec d cdb sense); auto using zone_op_close. }
  case_if.
  { unfold zbc_finish_zone. pose proof (zone_command_spec d cdb sense _ _ _ I HC
      (zone_op_finish (negb (cdb_all cdb))) (zone_op_finish (negb (cdb_all cdb)))) as H.
    destruct (cdb_all cdb); eapply Hw; exact H. }
  case_if.
  { destruct (cdb_all cdb) eqn:Ha;
      [eapply Hw, (open_all_spec d cdb sense)|eapply Hw, (open_one_spec d cdb sense)]; done. }
  case_if.
  { eapply Hw. by eapply (zone_command_spec d cdb sense); auto using zone_op_reset. }
  eapply (Hw _ (fun _ => True) True), zpost_err; auto; [apply HC|done].
Qed.

(** the zone table invariant.  Every ZBC OUT command, with any service
    action, LBA and ALL bit, terminates without undefined behaviour on a
    consistent device and leaves a consistent device: the two counters are
    exactly the numbers of implicitly and explicitly open zones, every write
    pointer lies in its zone and agrees with the zone's condition, and the
    zones still tile the capacity. *)
Theorem zbc_out_invariant (d : zbc_dev) (cdb sense : list Z)
  (I : zinv d) (HC : out_cmd cdb sense) :
  exists d' sense' s, zbc_out d cdb sense = Some (d', sense', s) /\ zinv d' /\ zframe d d' /\
    (s = TCMU_STS_OK \/ s = TCMU_STS_PASSTHROUGH_ERR /\ d' = d).
Proof. by apply zbc_out_keeps. Qed.

(** A device formatted with six zones of 1 MiB, one of them conventional, and
    at most two open zones. *)
Definition demo_zcfg : zbc_dev_config :=
  Cfg (str "/zbc.raw") (6 * 1048576) true ZBC_HM 512 1048576 1 2.
Definition blank_zdev (cfg : zbc_dev_config) : zbc_dev := ZDev cfg 0 0 0 0 0 [] 0 0 0 0 0.
Definition demo_zdev : zbc_dev :=
  match zbc_format_meta (blank_zdev demo_zcfg) with Some (d, _) => d | None => blank_zdev demo_zcfg end.

(** Decides the zone part of the invariant. *)
Definition zone_okb (d : zbc_dev) (i : nat) (z : zbc_zone) : bool :=
  (0 <=? z_start z) && (0 <? z_len z) && (z_start z + z_len z <? 2 ^ 64) &&
  (if zbc_zone_conv z then z_cond z =? ZBC_ZONE_COND_NOT_WP
   else (z_start z <=? z_wp z) && (z_wp z <=? z_start z + z_len z) &&
        (((z_cond z =? ZBC_ZONE_COND_EMPTY) && (z_wp z =? z_start z)) ||
         (z_cond z =? ZBC_ZONE_COND_IMP_OPEN) || (z_cond z =? ZBC_ZONE_COND_EXP_OPEN) ||
         ((z_cond z =? ZBC_ZONE_COND_CLOSED) && (z_start z <? z_wp z)) ||
         ((z_cond z =? ZBC_ZONE_COND_FULL) && (z_wp z =? z_start z + z_len z)))) &&
  (z_start z =? Z.of_nat i * zd_zone_size d) &&
  (z_len z =? Z.min (zd_zone_size d) (zd_capacity d - z_start z)) &&
  (zbc_zone_conv z || (zbc_zone_seq_pref z && (zd_model d =? ZBC_HA)) ||
   (zbc_zone_seq_req z && (zd_model d =? ZBC_HM))).

Definition zinvb (d : zbc_dev) : bool :=
  (Z.of_nat (length (zd_zones d)) =? zd_nr_zones d) && (zd_nr_zones d <? 2 ^ 31) &&
  (0 <? zd_zone_size d) && ((zd_nr_zones d - 1) * zd_zone_size d <? zd_capacity d) &&
  (zd_capacity d <=? zd_nr_zones d * zd_zone_size d) && (0 <? zd_capacity d) &&
  (zd_capacity d <? 2 ^ 64) && (0 <? zd_lba_size d) && (0 <=? zd_nr_open_zones d) &&
  (zd_nr_open_zones d <? 2 ^ 32) &&
  (zd_nr_imp_open d =? Z.of_nat (count zbc_zone_imp_open (zd_zones d))) &&
  (zd_nr_exp_open d =? Z.of_nat (count zbc_zone_exp_open (zd_zones d))) &&
  forallb (fun p => zone_okb d (fst p) (snd p)) (imap pair (zd_zones d)).

Lemma zone_okb_sound d i z :
  zone_okb d i z = true ->
  (zone_ok z /\ z_start z = Z.of_nat i * zd_zone_size d /\
   z_len z = Z.min (zd_zone_size d) (zd_capacity d - z_start z)) /\ zone_typed (zd_model d) z.
Proof.
  unfold zone_okb. intros Hz. repeat (apply andb_prop in Hz as [Hz ?]). zbool. split.
  - unfold zone_ok. destruct (zbc_zone_conv z); zbool; split_and!; lia.
  - unfold zone_typed, zbc_zone_conv, zbc_zone_seq_pref, zbc_zone_seq_req in *. lia.
Qed.

Lemma zinvb_sound d : zinvb d = true -> zinv d.
Proof.
  unfold zinvb. intros H. apply andb_prop in H as [H HF]. rewrite forallb_forall in HF.
  assert (forall i z, zd_zones d !! i = Some z -> zone_okb d i z = true) as Hz.
  { intros i z Hi. apply (HF (i, z)). apply list_elem_of_In, elem_of_lookup_imap. eauto. }
  repeat (apply andb_prop in H as [H ?]).
  split; zbool; try lia; intros i z Hi; destruct (zone_okb_sound d i z (Hz i z Hi)); done.
Qed.

Lemma demo_zdev_inv : zinv demo_zdev.
Proof. apply zinvb_sound. by vm_compute. Qed.

(** [OPEN ZONE] on the zone at LBA 2048. *)
Definition demo_out (sa lba : Z) (all : bool) : list Z :=
  [0x94; sa] ++ be_enc 8 lba ++ [0; 0; 0; 0; (if all then 1 else 0); 0].

Lemma demo_out_ok sa lba all : is_byte sa -> out_cmd (demo_out sa lba all) (zeros 18).
Proof.
  intros Hs. split; [done| |done].
  unfold demo_out. apply Forall_app_2; [|apply Forall_app_2; [apply be_enc_bytes|]].
  - repeat apply Forall_cons_2; try apply Forall_nil_2; unfold is_byte in *; lia.
  - repeat apply Forall_cons_2; try apply Forall_nil_2; unfold is_byte; destruct all; lia.
Qed.

Lemma zbc_out_refines_table_witness :
  exists d' sense' s,
    zbc_out demo_zdev (demo_out ZBC_SA_FINISH_ZONE 4096 false) (zeros 18) = Some (d', sense', s) /\
    zframe demo_zdev d' /\
    ((s = TCMU_STS_OK /\
      table_effect false 4096 (finish_of true) (zd_zones demo_zdev) (zd_zones d')) \/
     (s = TCMU_STS_PASSTHROUGH_ERR /\ d' = demo_zdev /\
      false = false /\ forall i z, ~ addresses demo_zdev 4096 i z)).
Proof.
  apply (zbc_out_refines_table demo_zdev (demo_out ZBC_SA_FINISH_ZONE 4096 false) (zeros 18)).
  - exact demo_zdev_inv.
  - by apply demo_out_ok.
  - reflexivity.
Defined.

Lemma zbc_out_invariant_witness :
  exists d' sense' s,
    zbc_out demo_zdev (demo_out ZBC_SA_OPEN_ZONE 0 true) (zeros 18) = Some (d', sense', s) /\
    zinv d' /\ zframe demo_zdev d' /\
    (s = TCMU_STS_OK \/ s = TCMU_STS_PASSTHROUGH_ERR /\ d' = demo_zdev).
Proof.
  apply (zbc_out_invariant demo_zdev (demo_out ZBC_SA_OPEN_ZONE 0 true) (zeros 18)).
  - exact demo_zdev_inv.
  - by apply demo_out_ok.
Defined.

(** *** The open zone limit *)

Lemma count_map_le {A} (f : A -> bool) g l :
  (forall x, f (g x) = true -> f x = true) -> (count f (map g l) <= count f l)%nat.
Proof.
  intros H. induction l as [|x l IH]; [done|]. simpl. rewrite !count_cons. specialize (H x).
  destruct (f (g x)); [rewrite H by done|]; lia.
Qed.

Lemma count_insert_le {A} (f : A -> bool) g l i x :
  (forall x, f (g x) = true -> f x = true) -> l !! i = Some x ->
  (count f (<[i:=g x]> l) <= count f l)%nat.
Proof.
  intros H Hi. pose proof (count_insert f l i x (g x) Hi). specialize (H x).
  destruct (f (g x)); [rewrite H in * by done|]; destruct (f x); lia.
Qed.

(** Closing, finishing and resetting open nothing. *)
Lemma out_effect_closes cdb g z :
  out_effect cdb = Some g ->
  (zbc_zone_imp_open (g z) = true -> zbc_zone_imp_open z = true) /\
  (zbc_zone_exp_open (g z) = true -> zbc_zone_exp_open z = true).
Proof.
  unfold out_effect. intros H. repeat case_if_in H; simplify_eq.
  - unfold close_of. repeat case_if; auto; cbn; done.
  - unfold finish_of. repeat case_if; auto; cbn; done.
  - unfold reset_of. repeat case_if; auto; cbn; done.
Qed.

Lemma table_effect_limit cdb g d d' :
  out_effect cdb = Some g -> zinv d -> zinv d' -> zframe d d' ->
  table_effect (cdb_all cdb) (out_lba cdb) g (zd_zones d) (zd_zones d') -> zlimit d -> zlimit d'.
Proof.
  intros Hg I I' F T L. unfold zlimit in *.
  assert (zd_nr_open_zones d' = zd_nr_open_zones d) as -> by (by destruct F as (? & ? & ? & ->)).
  rewrite (zi_imp d I), (zi_exp d I) in L. rewrite (zi_imp d' I'), (zi_exp d' I').
  pose proof (fun z => proj1 (out_effect_closes cdb g z Hg)) as Hi.
  pose proof (fun z => proj2 (out_effect_closes cdb g z Hg)) as He.
  unfold table_effect in T. destruct (cdb_all cdb).
  - rewrite T. pose proof (count_map_le zbc_zone_imp_open g (zd_zones d) Hi).
    pose proof (count_map_le zbc_zone_exp_open g (zd_zones d) He). lia.
  - destruct T as (i & z & Hz & _ & _ & ->).
    pose proof (count_insert_le zbc_zone_imp_open g (zd_zones d) i z Hi Hz).
    pose proof (count_insert_le zbc_zone_exp_open g (zd_zones d) i z He Hz). lia.
Qed.

Lemma no_imp_open d j y :
  zinv d -> zd_nr_imp_open d = 0 -> zd_zones d !! j = Some y -> zbc_zone_imp_open y = false.
Proof.
  intros I H0 Hj. destruct (zbc_zone_imp_open y) eqn:Hy; [|done].
  pose proof (count_pos zbc_zone_imp_open _ j y Hj Hy). rewrite (zi_imp d I) in H0. lia.
Qed.

(** Without implicitly open zones, opening all closed zones uses one slot per
    closed zone. *)
Lemma open_all_limit d d' :
  zinv d -> zd_nr_imp_open d = 0 ->
  zd_nr_exp_open d + Z.of_nat (count zbc_zone_closed (zd_zones d)) <= zd_nr_open_zones d ->
  open_all_closed d = Some d' -> zlimit d'.
Proof.
  intros I H0 Hlim Hd'. pose proof (zi_nr d I).
  destruct (for_range_inv (fun i s => zinv s /\ zframe d s /\ zd_nr_imp_open s = 0 /\
      zd_nr_exp_open s + Z.of_nat (count zbc_zone_closed (drop i (zd_zones d))) <= zd_nr_open_zones d /\
      drop i (zd_zones s) = drop i (zd_zones d))
    (fun d i => zone ← zd_zones d !! i;
                if zbc_zone_closed zone then __zbc_open_zone d i true else Some d)
    0 (Z.to_nat (zd_nr_zones d)) d) as (s & H1 & _ & F & H2 & H3 & _);
    [|split_and!; auto with lio| ].
  - intros i s Hi (Is & Fs & Hs0 & Hsl & Hsd). pose proof (zi_nr s Is). pose proof (zframe_nr _ _ Fs).
    destruct (lookup_lt_is_Some_2 (zd_zones s) i) as [z Hz]; [lia|]. rewrite Hz.
    pose proof (drop_S _ _ _ Hz) as HS. rewrite Hsd in HS. rewrite HS, count_cons in Hsl.
    assert (drop (S i) (zd_zones s) = drop (S i) (zd_zones d)) as HdS.
    { replace (S i) with (i + 1)%nat by lia. by rewrite <- !drop_drop, Hsd. }
    rewrite <- HdS in *.
    cbn [mbind option_bind]. destruct (zbc_zone_closed z) eqn:Hc; [|exists s; split_and!; auto; lia].
    destruct (open_zone_spec s i z true Is Hz (closed_not_open z Hc))
      as (d1 & -> & I1 & F1 & Z1 & _ & _ & [->|(j & y & Hj & Hy & _)]).
    2:{ rewrite (no_imp_open s j y) in Hy by done. done. }
    destruct (open_counts s i z true Is Hz (closed_not_open z Hc)) as [C1 C2].
    eexists. split; [reflexivity|]. split_and!; eauto with lio.
    + apply zinv_open; auto. apply closed_not_conv; [|done]. by apply (zi_zones s Is i).
    + rewrite C1. simpl. lia.
    + rewrite C2. simpl. lia.
    + cbn. by rewrite drop_insert_lt by lia.
  - assert (d' = s) as -> by (unfold open_all_closed, for_zones in Hd'; congruence).
    unfold zlimit. destruct F as (? & ? & ? & ->). cbn in *. lia.
Qed.

(** The open zone limit.  No ZBC OUT command pushes the number of open
    zones past the device's limit, except OPEN ZONE with the ALL bit while some
    zone is implicitly open. *)
Theorem zbc_out_open_limit (d : zbc_dev) (cdb sense : list Z) (d' : zbc_dev) (sense' : list Z)
  (s : tcmu_sts) (I : zinv d) (HC : out_cmd cdb sense) (L : zlimit d)
  (Hr : zbc_out d cdb sense = Some (d', sense', s))
  (Hi : byte_at cdb 1 = ZBC_SA_OPEN_ZONE -> cdb_all cdb = true -> zd_nr_imp_open d = 0) :
  zlimit d'.
Proof.
  destruct (out_effect cdb) as [g|] eqn:Hg.
  { destruct (zbc_out_keeps d cdb sense I HC) as (d1 & ? & ? & H1 & I' & _).
    destruct (zbc_out_table d cdb sense g I HC Hg) as (? & ? & ? & H2 & F & H).
    rewrite Hr in H1, H2. simplify_eq.
    destruct H as [[_ T]|(_ & -> & _)]; [|done].
    exact (table_effect_limit cdb g d _ Hg I I' F T L). }
  revert Hg Hr. unfold out_effect, zbc_out. repeat case_if; try done; intros _ Hr.
  2:{ unfold zerr in Hr. rewrite tcmu_set_sense_data_eq in Hr by (try done; apply HC).
      cbn [mbind option_bind] in Hr. by simplify_eq. }
  destruct (cdb_all cdb) eqn:Ha.
  - revert Hr. unfold zbc_open_zone. rewrite Ha, count_closed_spec by done. cbn [mbind option_bind].
    pose proof (zi_nr d I). pose proof (zi_nr32 d I).
    pose proof (count_le_length zbc_zone_closed (zd_zones d)). pose proof (zinv_counts d I).
    rewrite u32_small by lia. case_if; intros Hr.
    + unfold zerr in Hr. rewrite tcmu_set_sense_data_eq in Hr by (try done; apply HC).
      cbn [mbind option_bind] in Hr. by simplify_eq.
    + destruct (open_all_closed d) as [d1|] eqn:Ho; [|done]. cbn [mbind option_bind] in Hr.
      unfold zok in Hr. simplify_eq. apply (open_all_limit d); auto.
  - destruct (open_one_spec d cdb sense I HC Ha) as (d1 & ? & ? & H1 & _ & _ & H2).
    rewrite Hr in H1. simplify_eq. destruct H2 as [[_ (? & ? & _ & HL & _)]|(_ & -> & _)]; auto.
Qed.

Lemma zbc_out_open_limit_witness :
  exists d' sense' s,
    zbc_out demo_zdev (demo_out ZBC_SA_OPEN_ZONE 2048 false) (zeros 18) = Some (d', sense', s) /\
    zlimit d'.
Proof.
  destruct (zbc_out demo_zdev (demo_out ZBC_SA_OPEN_ZONE 2048 false) (zeros 18))
    as [[[d' sense'] s]|] eqn:E; [|by vm_compute in E].
  exists d', sense', s. split; [done|].
  apply (zbc_out_open_limit demo_zdev (demo_out ZBC_SA_OPEN_ZONE 2048 false) (zeros 18) d' sense' s
    demo_zdev_inv); [by apply demo_out_ok| |done|done].
  apply Z.leb_le. by vm_compute.
Defined.
