(* ===== verification/ZbcFormat.v ===== *)
(** * The zoned block device handler: formatting and reopening

    What [zbc_format_meta] writes satisfies the zone invariant, passes
    [zbc_check_meta], and is found again by [zbc_open_backstore]. *)

From S2P Require Import Prelude Scsi Device Sense Zbc ZbcZone.

(** ** Size of the metadata *)

Lemma land_high y k : 0 <= y < 2 ^ 64 -> 0 <= k <= 64 ->
  Z.land y (2 ^ 64 - 2 ^ k) = y - y mod 2 ^ k.
Proof.
  intros Hy Hk.
  assert (2 ^ 64 - 2 ^ k = Z.shiftl (Z.ones (64 - k)) k) as ->.
  { rewrite Z.shiftl_mul_pow2, Z.ones_equiv, <- Z.sub_1_r, Z.mul_sub_distr_r, <- Z.pow_add_r by lia.
    replace (64 - k + k) with 64 by lia. lia. }
  assert (0 < 2 ^ k) by (apply Z.pow_pos_nonneg; lia).
  assert (y - y mod 2 ^ k = Z.shiftl (Z.shiftr y k) k) as ->.
  { rewrite Z.shiftl_mul_pow2, Z.shiftr_div_pow2 by lia. pose proof (Z.div_mod y (2 ^ k)). lia. }
  apply Z.bits_inj'. intros i Hi. rewrite Z.land_spec.
  destruct (decide (i < k)).
  { by rewrite !Z.shiftl_spec_low, andb_false_r by lia. }
  rewrite !Z.shiftl_spec, Z.shiftr_spec by lia. replace (i - k + k) with i by lia.
  destruct (decide (i < 64)).
  - rewrite Z.ones_spec_low by lia. apply andb_true_r.
  - rewrite Z.ones_spec_high by lia. rewrite andb_false_r.
    destruct (decide (y = 0)) as [->|]; [by rewrite Z.bits_0|].
    symmetry. apply Z.bits_above_log2; [lia|].
    apply Z.lt_le_trans with 64; [apply Z.log2_lt_pow2; lia|lia].
Qed.

(** The mask is off by one ([pg_size] is the page size less one) and keeps bit
    0, but the unaligned size is even: the result is the size rounded up to
    a page. *)
Lemma meta_size_aligned_spec n :
  0 <= n < 2 ^ 32 ->
  let s := zbc_meta_size_aligned n in
  s mod PAGE_SIZE = 0 /\ zbc_meta_size n <= s < zbc_meta_size n + PAGE_SIZE.
Proof.
  intros Hn. unfold zbc_meta_size_aligned, zbc_meta_size, SIZEOF_ZBC_META, SIZEOF_ZBC_ZONE, PAGE_SIZE.
  cbn zeta. rewrite u64_small by lia.
  set (y := 48 + n * 64 + (4096 - 1) - 1).
  change (u64 (Z.lnot (4096 - 1 - 1))) with (Z.lor (2 ^ 64 - 2 ^ 12) 1).
  rewrite Z.land_lor_distr_r, land_high by (unfold y; lia).
  assert (Z.land y 1 = 0) as ->.
  { change 1 with (Z.ones 1). rewrite Z.land_ones by lia. unfold y. change (2 ^ 1) with 2. dlia. }
  rewrite Z.lor_0_r. change (2 ^ 12) with 4096. unfold y. dlia.
Qed.

(** ** The zones formatting writes *)

Section format.
Context (meta : zbc_meta) (nr_conv : Z).
Hypothesis Hzs : 0 < m_zone_size meta < 2 ^ 32.
Hypothesis Hcap : 0 < m_capacity meta < 2 ^ 63.

Lemma format_zones_lookup n i k :
  (0 <= i) -> (i + Z.of_nat n - 1) * m_zone_size meta < m_capacity meta ->
  (k < n)%nat ->
  format_zones meta nr_conv n i (i * m_zone_size meta) !! k =
  Some (format_zone meta (i + Z.of_nat k) nr_conv ((i + Z.of_nat k) * m_zone_size meta)).
Proof.
  revert i k. induction n as [|n IH]; intros i k Hi Hn Hk; [lia|].
  destruct k as [|k]; cbn [format_zones lookup list_lookup].
  - by rewrite Z.add_0_r.
  - assert ((i + 1) * m_zone_size meta <= (i + Z.of_nat (S n) - 1) * m_zone_size meta)
      by (apply Z.mul_le_mono_nonneg_r; lia).
    assert ((i + 1) * m_zone_size meta < m_capacity meta) by (eapply Z.le_lt_trans; eassumption).
    assert (0 <= i * m_zone_size meta) by (apply Z.mul_nonneg_nonneg; lia).
    assert (0 < m_zone_size meta) by lia.
    assert ((i + 1 + Z.of_nat n - 1) * m_zone_size meta < m_capacity meta) as Hn'
      by (by replace (i + 1 + Z.of_nat n - 1) with (i + Z.of_nat (S n) - 1) by lia).
    clear Hn H.
    assert (z_len (format_zone meta i nr_conv (i * m_zone_size meta)) = m_zone_size meta) as ->.
    { unfold format_zone. rewrite !u64_small by lia.
      rewrite (proj2 (Z.ltb_ge (m_capacity meta) _)) by lia. by case_if. }
    rewrite u64_small by lia.
    replace (i * m_zone_size meta + m_zone_size meta) with ((i + 1) * m_zone_size meta) by lia.
    rewrite IH by (done || lia). by replace (i + 1 + Z.of_nat k) with (i + Z.of_nat (S k)) by lia.
Qed.

Lemma length_format_zones n i lba : length (format_zones meta nr_conv n i lba) = n.
Proof. revert i lba. induction n as [|n IH]; intros; simpl; [done|]. by rewrite IH. Qed.

Lemma format_zone_ok i :
  0 <= i -> i * m_zone_size meta < m_capacity meta ->
  let z := format_zone meta i nr_conv (i * m_zone_size meta) in
  zone_ok z /\ z_start z = i * m_zone_size meta /\
  z_len z = Z.min (m_zone_size meta) (m_capacity meta - z_start z) /\
  zbc_zone_is_open z = false /\ zbc_zone_closed z = false /\
  (z_type z = ZBC_ZONE_TYPE_CONVENTIONAL \/
   z_type z = if m_model meta =? ZBC_HA then ZBC_ZONE_TYPE_SEQWRITE_PREF
              else ZBC_ZONE_TYPE_SEQWRITE_REQ).
Proof.
  intros Hi Hc. unfold format_zone. rewrite !u64_small by nia.
  assert (forall l, (if m_capacity meta <? i * m_zone_size meta + m_zone_size meta
      then m_capacity meta - i * m_zone_size meta else m_zone_size meta) = l ->
      l = Z.min (m_zone_size meta) (m_capacity meta - i * m_zone_size meta)) as Hl.
  { intros l <-. case_if; lia. }
  specialize (Hl _ eq_refl). rewrite Hl. clear Hl.
  unfold zone_ok. destruct (i <? nr_conv); cbn.
  - split_and!; auto; nia.
  - unfold zbc_zone_conv. cbn. destruct (m_model meta =? ZBC_HA); cbn; split_and!; auto; nia.
Qed.
End format.

Lemma count_none {A} (f : A -> bool) l n :
  length l = n -> (forall k, (k < n)%nat -> exists x, l !! k = Some x /\ f x = false) -> count f l = 0%nat.
Proof.
  intros Hn H. apply count_zero. intros k x Hk.
  destruct (H k) as (y & Hy & Hf); [apply lookup_lt_Some in Hk; lia|]. congruence.
Qed.

(** A configuration formatting accepts: what the parser can produce, with a
    size in whole blocks. *)
Record cfg_ok (c : zbc_dev_config) : Prop := {
  co_lba : c_lba_size c = 512 \/ c_lba_size c = 4096;
  co_zone : exists k, 20 <= k /\ c_zone_size c = 2 ^ k;
  co_zone32 : c_zone_size c / c_lba_size c < 2 ^ 32;
  co_size : 0 < c_dev_size c < 2 ^ 63;
  co_blocks : c_dev_size c mod c_lba_size c = 0;
  co_zones : c_dev_size c / c_zone_size c < 2 ^ 31 - 1;
  co_model : c_model c = ZBC_HA \/ c_model c = ZBC_HM;
  co_conv : 0 <= c_conv_num c < 2 ^ 32;
  co_open : 0 < c_open_num c < 2 ^ 32
}.

Definition cfg_capacity (c : zbc_dev_config) : Z := c_dev_size c / c_lba_size c.
Definition cfg_zone_lbas (c : zbc_dev_config) : Z := c_zone_size c / c_lba_size c.

Lemma cfg_geometry c :
  cfg_ok c ->
  (exists k, 8 <= k < 32 /\ cfg_zone_lbas c = 2 ^ k) /\ 0 < cfg_capacity c < 2 ^ 63 /\
  c_dev_size c = cfg_capacity c * c_lba_size c /\
  0 < cfg_zone_lbas c < 2 ^ 32.
Proof.
  intros []. unfold cfg_capacity, cfg_zone_lbas. destruct co_zone0 as (k & Hk & Hz).
  assert (exists j, (j = 9 \/ j = 12) /\ c_lba_size c = 2 ^ j) as (j & Hj & Hl).
  { destruct co_lba0 as [->| ->]; [exists 9|exists 12]; auto. }
  assert (c_zone_size c / c_lba_size c = 2 ^ (k - j)) as Hq.
  { rewrite Hz, Hl, <- Z.pow_sub_r by lia. done. }
  assert (0 < 2 ^ (k - j)) by (apply Z.pow_pos_nonneg; lia).
  rewrite Hq in *.
  assert (k - j < 32) by (apply (Z.pow_lt_mono_r_iff 2); lia).
  split; [exists (k - j); split; [lia|done]|].
  assert (0 < c_lba_size c <= 4096) by lia.
  pose proof (Z.div_mod (c_dev_size c) (c_lba_size c)).
  split_and!; try lia; nia.
Qed.

Definition cfg_nr_zones (c : zbc_dev_config) : Z := nr_zones_of (cfg_capacity c) (cfg_zone_lbas c).

Lemma cfg_nr_zones_spec c :
  cfg_ok c ->
  let n := cfg_nr_zones c in
  0 < n < 2 ^ 31 /\ (n - 1) * cfg_zone_lbas c < cfg_capacity c <= n * cfg_zone_lbas c.
Proof.
  intros Hc. destruct (cfg_geometry c Hc) as (_ & Hcap & Hds & Hzs).
  unfold cfg_nr_zones, nr_zones_of. cbn zeta. rewrite u64_small by lia.
  set (cap := cfg_capacity c) in *. set (zs := cfg_zone_lbas c) in *.
  assert (cap / zs < 2 ^ 31 - 1) as Hq.
  { pose proof (co_zones c Hc) as H. destruct (co_zone c Hc) as (k & Hk & Hz).
    assert (c_zone_size c = zs * c_lba_size c) as Hzz.
    { unfold zs, cfg_zone_lbas. rewrite Hz.
      destruct (co_lba c Hc) as [->| ->]; [change 512 with (2 ^ 9)|change 4096 with (2 ^ 12)];
        rewrite <- Z.pow_sub_r, <- Z.pow_add_r by lia; f_equal; lia. }
    rewrite Hds, Hzz in H. destruct (co_lba c Hc); rewrite Z.div_mul_cancel_r in H; lia. }
  pose proof (Z.div_mod cap zs). pose proof (Z.mod_pos_bound cap zs).
  pose proof (Z.div_mod (cap + zs - 1) zs). pose proof (Z.mod_pos_bound (cap + zs - 1) zs).
  assert (0 <= (cap + zs - 1) / zs < 2 ^ 31) by (split; [apply Z.div_pos; lia|nia]).
  rewrite u32_small by lia. split_and!; nia.
Qed.

(** ** Formatting *)

Definition cfg_fits (c : zbc_dev_config) : Prop :=
  c_conv_num c = ZBC_CONF_DEFAULT_CONV_NUM \/ c_conv_num c < cfg_nr_zones c.

Lemma format_counts_spec c :
  cfg_ok c -> cfg_fits c ->
  exists nr_conv nr_open, format_counts c (cfg_nr_zones c) = Some (nr_conv, nr_open) /\
    0 <= nr_conv <= cfg_nr_zones c /\ 0 < nr_open <= cfg_nr_zones c /\
    (nr_conv = cfg_nr_zones c -> cfg_nr_zones c = 1 /\ c_conv_num c = ZBC_CONF_DEFAULT_CONV_NUM).
Proof.
  intros Hc Hf. destruct (cfg_nr_zones_spec c Hc) as (Hn & _).
  pose proof (co_conv c Hc). pose proof (co_open c Hc). unfold format_counts.
  set (n := cfg_nr_zones c) in *.
  assert (exists k, (if c_conv_num c =? ZBC_CONF_DEFAULT_CONV_NUM
     then if n / 100 =? 0 then Some 1 else Some (n / 100)
     else if n <=? c_conv_num c then None else Some (c_conv_num c)) = Some k /\ 0 <= k <= n /\
     (k = n -> n = 1 /\ c_conv_num c = ZBC_CONF_DEFAULT_CONV_NUM)) as (k & -> & Hk & Hkn).
  { destruct (Z.eqb_spec (c_conv_num c) ZBC_CONF_DEFAULT_CONV_NUM).
    - destruct (Z.eqb_spec (n / 100) 0); eexists; (split; [reflexivity|]); split; dlia.
    - destruct Hf as [|Hf]; [done|]. rewrite (proj2 (Z.leb_gt _ _)) by (fold n in Hf; lia).
      eexists; (split; [reflexivity|]); fold n in Hf; lia. }
  cbn [mbind option_bind]. rewrite u32_small by lia.
  eexists k, _. split; [reflexivity|]. split; [done|]. split; [|done].
  repeat case_if; dlia.
Qed.

(** The metadata record that formatting writes. *)
Definition format_record (c : zbc_dev_config) (nr_conv nr_open : Z) : zbc_meta :=
  Meta ZBC_MAGIC (c_model c) (cfg_capacity c) (c_lba_size c) (cfg_zone_lbas c) (cfg_nr_zones c)
       nr_conv nr_open.

Definition format_table (c : zbc_dev_config) (nr_conv nr_open : Z) : list zbc_zone :=
  format_zones (format_record c nr_conv nr_open) nr_conv (Z.to_nat (cfg_nr_zones c)) 0 0.

Definition format_dev (c : zbc_dev_config) (zones : list zbc_zone) (nr_conv nr_open : Z) : zbc_dev :=
  ZDev c (zbc_meta_size_aligned (cfg_nr_zones c)) (c_model c) (cfg_capacity c) (c_lba_size c)
       (cfg_zone_lbas c) zones (cfg_nr_zones c) nr_conv nr_open 0 0.

Lemma format_meta_spec c :
  cfg_ok c -> cfg_fits c ->
  exists nr_conv nr_open,
    let T := format_table c nr_conv nr_open in
    zbc_format_meta (blank_zdev c) =
      Some (format_dev c T nr_conv nr_open,
            ZFile (u64 (zbc_meta_size_aligned (cfg_nr_zones c) + c_dev_size c))
                  (format_record c nr_conv nr_open) T) /\
    0 <= nr_conv <= cfg_nr_zones c /\ 0 < nr_open <= cfg_nr_zones c /\
    (nr_conv = cfg_nr_zones c -> cfg_nr_zones c = 1 /\ c_conv_num c = ZBC_CONF_DEFAULT_CONV_NUM).
Proof.
  intros Hc Hf. destruct (format_counts_spec c Hc Hf) as (k & o & Hk & H).
  destruct (cfg_geometry c Hc) as (_ & _ & _ & Hzs).
  exists k, o. split; [|exact H]. unfold zbc_format_meta, blank_zdev. cbn [zd_cfg].
  fold (cfg_capacity c). fold (cfg_zone_lbas c). fold (cfg_nr_zones c). rewrite Hk.
  cbn [mbind option_bind]. rewrite (u32_small (cfg_zone_lbas c)) by lia.
  rewrite (u32_small (c_model c)) by (destruct (co_model c Hc) as [->| ->]; done).
  rewrite (u32_small (c_lba_size c)) by (destruct (co_lba c Hc) as [->| ->]; done). done.
Qed.

Lemma format_table_lookup c nr_conv nr_open i :
  cfg_ok c -> (i < Z.to_nat (cfg_nr_zones c))%nat ->
  let m := format_record c nr_conv nr_open in
  format_table c nr_conv nr_open !! i =
    Some (format_zone m (Z.of_nat i) nr_conv (Z.of_nat i * cfg_zone_lbas c)) /\
  Z.of_nat i * cfg_zone_lbas c < cfg_capacity c.
Proof.
  intros Hc Hi m. destruct (cfg_geometry c Hc) as (_ & Hcap & _ & Hzs).
  destruct (cfg_nr_zones_spec c Hc) as (Hn & Hlo & _).
  split.
  - unfold format_table. fold m.
    pose proof (format_zones_lookup m nr_conv Hzs Hcap (Z.to_nat (cfg_nr_zones c)) 0 i) as H.
    rewrite Z.mul_0_l, !Z.add_0_l in H. apply H; [lia| |done].
    by rewrite Z2Nat.id by lia.
  - apply Z.le_lt_trans with ((cfg_nr_zones c - 1) * cfg_zone_lbas c); [|done].
    apply Z.mul_le_mono_nonneg_r; lia.
Qed.

Lemma length_format_table c k o : length (format_table c k o) = Z.to_nat (cfg_nr_zones c).
Proof. apply length_format_zones. Qed.

Lemma format_dev_inv c k o :
  cfg_ok c -> 0 <= k <= cfg_nr_zones c -> 0 < o <= cfg_nr_zones c ->
  zinv (format_dev c (format_table c k o) k o).
Proof.
  intros Hc Hk Ho. destruct (cfg_geometry c Hc) as (_ & Hcap & _ & Hzs).
  destruct (cfg_nr_zones_spec c Hc) as (Hn & Hlo).
  assert (forall i z, format_table c k o !! i = Some z ->
    zone_ok z /\ z_start z = Z.of_nat i * cfg_zone_lbas c /\
    z_len z = Z.min (cfg_zone_lbas c) (cfg_capacity c - z_start z) /\
    zbc_zone_is_open z = false /\ zone_typed (c_model c) z) as Hz.
  { intros i z Hi. pose proof (lookup_lt_Some _ _ _ Hi) as Hl. rewrite length_format_table in Hl.
    destruct (format_table_lookup c k o i Hc Hl) as [E Hb]. rewrite E in Hi. injection Hi as <-.
    destruct (format_zone_ok (format_record c k o) k Hzs Hcap (Z.of_nat i)) as (? & ? & ? & ? & _ & Ht);
      [lia|done|]. split_and!; try done. unfold zone_typed.
    destruct Ht as [Ht|Ht]; [by left|]. cbn [m_model format_record] in Ht. right.
    destruct (co_model c Hc) as [Hm|Hm]; rewrite Hm in Ht |- *; [by left|by right]. }
  assert (forall i z, format_table c k o !! i = Some z ->
            zbc_zone_imp_open z = false /\ zbc_zone_exp_open z = false) as Ho'.
  { intros i z Hi. apply Hz in Hi as (_ & _ & _ & Hio & _). rewrite is_open_spec in Hio.
    by apply orb_false_iff in Hio. }
  split; cbn [format_dev zd_zones zd_nr_zones zd_zone_size zd_capacity zd_lba_size zd_model
    zd_nr_open_zones zd_nr_imp_open zd_nr_exp_open]; try lia.
  - rewrite length_format_table. lia.
  - destruct (co_lba c Hc); lia.
  - rewrite count_zero; [done|]. intros i z Hi. by apply (Ho' i z).
  - rewrite count_zero; [done|]. intros i z Hi. by apply (Ho' i z).
  - intros i z Hi. destruct (Hz i z Hi) as (? & ? & ? & _). auto.
  - intros i z Hi. by apply (Hz i z Hi).
Qed.


Lemma demo_cfg_ok : cfg_ok demo_zcfg.
Proof.
  split; unfold demo_zcfg; cbn -[Z.pow Z.div Z.modulo]; try (auto; fail); try (cbv; done).
  by exists 20.
Qed.


(** ** Reopening *)

Lemma close_zone_table d i z :
  zd_zones d !! i = Some z ->
  exists imp exp, __zbc_close_zone d i = Some (zd_set d (<[i:=close_of z]> (zd_zones d)) imp exp).
Proof.
  intros Hi. unfold __zbc_close_zone, close_of. rewrite Hi. cbn [mbind option_bind].
  repeat case_if; rewrite ?list_insert_id by done;
    first [eexists _, _; reflexivity
          |exists (zd_nr_imp_open d), (zd_nr_exp_open d); by destruct d].
Qed.

(** Whatever the counters say, attaching to a zone table closes its zones. *)
Lemma init_meta_spec d f :
  Z.of_nat (length (f_zones f)) = zd_nr_zones d ->
  zbc_init_meta d f = Some (zd_set d (map close_of (f_zones f)) 0 0).
Proof.
  intros Hn. unfold zbc_init_meta, for_zones. cbn [zd_set zd_nr_zones].
  destruct (for_range_inv (fun i s => zframe d s /\
      zd_zones s = map close_of (take i (f_zones f)) ++ drop i (f_zones f))
    __zbc_close_zone 0 (Z.to_nat (zd_nr_zones d))
    (zd_set d (f_zones f) (zd_nr_imp_open d) (zd_nr_exp_open d))) as (s & H1 & H2 & H3).
  - intros i s Hi (F & Zs). destruct (lookup_lt_is_Some_2 (f_zones f) i) as [z Hz]; [lia|].
    assert (zd_zones s !! i = Some z) as Hs.
    { rewrite Zs, lookup_app_r by (rewrite length_map, length_take; lia).
      rewrite length_map, length_take, Nat.min_l, Nat.sub_diag, lookup_drop, Nat.add_0_r by lia.
      done. }
    destruct (close_zone_table s i z Hs) as (imp & exp & ->). eexists. split; [reflexivity|].
    split; [eapply zframe_trans; [done|eexists _, _, _; reflexivity]|].
    cbn. by rewrite Zs, map_take_insert.
  - split; [eexists _, _, _; reflexivity|done].
  - unfold zd_set in H1. unfold zd_set. rewrite H1. cbn [mbind option_bind]. destruct H2 as (? & ? & ? & ->).
    cbn in H3 |- *. rewrite H3, take_ge, drop_ge, app_nil_r by lia. done.
Qed.

Lemma check_zones_ok c k o d :
  cfg_ok c -> 0 < o <= cfg_nr_zones c -> 0 <= k <= cfg_nr_zones c ->
  zinv d -> zframe (format_dev c (format_table c k o) k o) d ->
  forallb (zbc_check_zone
    (ZFile (u64 (zbc_meta_size_aligned (cfg_nr_zones c) + c_dev_size c)) (format_record c k o)
       (zd_zones d)) (format_record c k o)) (seq 0 (Z.to_nat (cfg_nr_zones c))) = true.
Proof.
  intros Hc Ho Hk I (zs & im & ex & ->). rewrite forallb_forall. intros i Hi.
  apply in_seq in Hi. destruct (cfg_nr_zones_spec c Hc) as (Hn & _).
  destruct (meta_size_aligned_spec (cfg_nr_zones c)) as (_ & Hm1); [lia|].
  pose proof (co_size c Hc). destruct (cfg_geometry c Hc) as (_ & _ & _ & Hzs).
  unfold zbc_meta_size, SIZEOF_ZBC_META, SIZEOF_ZBC_ZONE, PAGE_SIZE in Hm1.
  pose proof (zi_nr _ I) as Hl. cbn in Hl.
  destruct (lookup_lt_is_Some_2 zs i) as [z Hz]; [lia|].
  destruct (zi_zones _ I i z Hz) as ((_ & _ & _ & Hw) & Hs & Hlen). pose proof (zi_type _ I i z Hz) as Ht.
  cbn [zd_set format_dev zd_zone_size zd_capacity zd_model] in *.
  unfold zbc_check_zone. cbn [f_size f_zones zd_zones zd_set].
  unfold SIZEOF_ZBC_META, SIZEOF_ZBC_ZONE. rewrite u64_small by lia.
  rewrite (proj2 (Z.ltb_ge _ _)), Hz by lia.
  cbn [format_record m_model m_zone_size]. rewrite Hs at 1.
  rewrite Z.mod_mul by lia. unfold zone_typed in Ht.
  unfold zbc_zone_conv, zbc_zone_seq_pref, zbc_zone_seq_req in *.
  destruct Ht as [Ht|[[Ht Hmod]|[Ht Hmod]]]; rewrite Ht in *; cbn in Hw |- *; rewrite ?Hw, ?Hmod; cbn;
    rewrite (proj2 (Z.ltb_ge _ _)) by lia; done.
Qed.

Lemma pow2_check k : 0 <= k < 32 -> Z.land (2 ^ k) (u32 (2 ^ k - 1)) = 0.
Proof.
  intros Hk. assert (0 < 2 ^ k < 2 ^ 32).
  { split; [apply Z.pow_pos_nonneg; lia|apply Z.pow_lt_mono_r; lia]. }
  rewrite u32_small, Z.sub_1_r, <- Z.ones_equiv, Z.land_ones by lia. apply Z.mod_same. lia.
Qed.

Lemma check_meta_spec c c' k o d :
  cfg_ok c -> c_dev_size c' = c_dev_size c -> 0 < o <= cfg_nr_zones c -> 0 <= k <= cfg_nr_zones c ->
  zinv d -> zframe (format_dev c (format_table c k o) k o) d ->
  let f := ZFile (u64 (zbc_meta_size_aligned (cfg_nr_zones c) + c_dev_size c)) (format_record c k o)
             (zd_zones d) in
  k < cfg_nr_zones c ->
  zbc_check_meta (blank_zdev c') f = (ZDev c' (zbc_meta_size_aligned (cfg_nr_zones c)) (c_model c)
    (cfg_capacity c) (c_lba_size c) (cfg_zone_lbas c) [] (cfg_nr_zones c) k o 0 0, true).
Proof.
  intros Hc Hds Ho Hk I F f Hlt. pose proof (check_zones_ok c k o d Hc Ho Hk I F) as Hz.
  destruct (cfg_nr_zones_spec c Hc) as (Hn & _).
  destruct (meta_size_aligned_spec (cfg_nr_zones c)) as (_ & Hm1); [lia|].
  destruct (cfg_geometry c Hc) as ((j & Hj & Hzl) & Hcap & Hsz & Hzs). pose proof (co_size c Hc).
  unfold zbc_meta_size, SIZEOF_ZBC_META, SIZEOF_ZBC_ZONE, PAGE_SIZE in Hm1.
  unfold zbc_check_meta. cbn [f f_size f_meta format_record m_magic m_model m_lba_size m_capacity
    m_zone_size m_nr_zones m_nr_conv_zones m_nr_open_zones blank_zdev zd_cfg zd_meta_size].
  unfold SIZEOF_ZBC_META. rewrite (u64_small (_ + c_dev_size c)) by lia.
  rewrite (proj2 (Z.ltb_ge _ 48)) by lia. rewrite Z.eqb_refl. cbn [negb].
  replace (negb (c_model c =? ZBC_HM) && negb (c_model c =? ZBC_HA)) with false
    by (destruct (co_model c Hc) as [->| ->]; done).
  replace (negb (c_lba_size c =? 512) && negb (c_lba_size c =? 4096)) with false
    by (destruct (co_lba c Hc) as [->| ->]; done).
  rewrite Hds, <- Hsz, u64_small, Z.eqb_refl by lia. cbn [negb].
  replace (_ || _) with false.
  2:{ rewrite Hzl, pow2_check by lia. rewrite <- Hzl. rewrite (proj2 (Z.eqb_neq _ 0)) by lia. done. }
  fold (cfg_nr_zones c). rewrite Z.eqb_refl. cbn [negb orb].
  rewrite (proj2 (Z.leb_gt _ k)), (proj2 (Z.ltb_ge _ o)) by lia. cbn [orb].
  rewrite u64_small, Z.eqb_refl by lia. cbn [negb].
  unfold format_record in Hz.
  unfold f, format_record. by rewrite Hz.
Qed.

Lemma count_map_zero {A} (f : A -> bool) (g : A -> A) l :
  (forall x, x ∈ l -> f (g x) = false) -> count f (map g l) = 0%nat.
Proof.
  intros H. apply count_zero. intros i y Hi. apply list_lookup_fmap_Some in Hi as (x & -> & Hx).
  apply H. by eapply list_elem_of_lookup_2.
Qed.

(** Closing every zone of a consistent table gives a consistent table. *)
Lemma zinv_close_all d : zinv d -> zinv (zd_set d (map close_of (zd_zones d)) 0 0).
Proof.
  intros I. assert (forall x, x ∈ zd_zones d -> zone_ok x) as Hok.
  { intros x [i Hi]%list_elem_of_lookup_1. by apply (zi_zones d I i). }
  destruct I. split; cbn [zd_set zd_zones zd_nr_zones zd_zone_size zd_capacity zd_lba_size zd_model
    zd_nr_open_zones zd_nr_imp_open zd_nr_exp_open]; rewrite ?length_map; try done.
  - rewrite count_map_zero; [done|]. intros x Hx. by apply close_of_closed, Hok.
  - rewrite count_map_zero; [done|]. intros x Hx. by apply close_of_closed, Hok.
  - intros i z Hi. apply list_lookup_fmap_Some in Hi as (x & -> & Hx).
    destruct (close_of_geom x) as [-> ->]. destruct (zi_zones i x Hx) as (? & ? & ?).
    auto using zone_ok_close.
  - intros i z Hi. apply list_lookup_fmap_Some in Hi as (x & -> & Hx).
    unfold zone_typed. rewrite close_of_type. by apply (zi_type i).
Qed.

(** persistence.  Take a formatted device with at least one sequential
    zone, change its zones by any commands that keep the invariant, drop it,
    and open the backstore again without forcing a format: the file is
    recognised, the geometry is the same, every zone keeps its write pointer
    and data, every open zone comes back closed (or empty), and the counters
    restart from zero consistently. *)
Theorem zbc_reopen_keeps_zones (c c' : zbc_dev_config) (d0 d : zbc_dev) (f0 : zbc_file)
  (Hc : cfg_ok c) (Hf : cfg_fits c) (Hfm : zbc_format_meta (blank_zdev c) = Some (d0, f0))
  (Hseq : zd_nr_conv_zones d0 < zd_nr_zones d0)
  (I : zinv d) (F : zframe d0 d)
  (Hds : c_dev_size c' = c_dev_size c) (Hnf : c_need_format c' = false) :
  exists d1 f1,
    zbc_open_backstore (blank_zdev c') (Some (ZFile (f_size f0) (f_meta f0) (zd_zones d))) =
      Some (inl (d1, f1, zd_lba_size d0, zd_capacity d0)) /\
    zinv d1 /\ zd_zones d1 = map close_of (zd_zones d) /\ f_zones f1 = zd_zones d1 /\
    zd_nr_imp_open d1 = 0 /\ zd_nr_exp_open d1 = 0 /\
    zd_nr_open_zones d1 = zd_nr_open_zones d0 /\ zd_meta_size d1 = zd_meta_size d0 /\
    Forall2 (fun z z1 => z_start z1 = z_start z /\ z_len z1 = z_len z /\ z_wp z1 = z_wp z)
      (zd_zones d) (zd_zones d1).
Proof.
  destruct (format_meta_spec c Hc Hf) as (k & o & Hfm' & Hk & Ho & _).
  rewrite Hfm in Hfm'. injection Hfm' as -> ->. cbn [format_dev zd_nr_conv_zones zd_nr_zones] in Hseq.
  cbn [f_size f_meta]. pose proof (zinv_close_all d I) as I'. pose proof (zi_nr d I) as Hl.
  unfold zbc_open_backstore.
  rewrite (check_meta_spec c c' k o d) by done. cbn [zd_cfg]. rewrite Hnf. cbn [orb negb].
  rewrite init_meta_spec by (cbn [f_zones zd_nr_zones]; rewrite Hl; by destruct F as (? & ? & ? & ->)).
  cbn [mbind option_bind]. eexists _, _. split; [reflexivity|].
  destruct F as (zs & im & ex & ->). cbn in I', Hl |- *. split.
  { destruct I'. by split. }
  split_and!; try done. apply Forall2_fmap_r, Forall_Forall2_diag, Forall_true. intros z.
  destruct (close_of_geom z). split_and!; try done. unfold close_of. by repeat case_if.
Qed.

Lemma zbc_reopen_keeps_zones_witness :
  exists d1 f1,
    zbc_open_backstore (blank_zdev (set_need_format demo_zcfg false))
      (Some (ZFile (zd_meta_size demo_zdev + 6 * 1048576) (Meta ZBC_MAGIC ZBC_HM 12288 512 2048 6 1 2)
               (zd_zones demo_zdev))) =
      Some (inl (d1, f1, 512, 12288)) /\
    zinv d1 /\ zd_zones d1 = map close_of (zd_zones demo_zdev) /\ f_zones f1 = zd_zones d1 /\
    zd_nr_imp_open d1 = 0 /\ zd_nr_exp_open d1 = 0 /\
    zd_nr_open_zones d1 = 2 /\ zd_meta_size d1 = 4096 /\
    Forall2 (fun z z1 => z_start z1 = z_start z /\ z_len z1 = z_len z /\ z_wp z1 = z_wp z)
      (zd_zones demo_zdev) (zd_zones d1).
Proof.
  apply (zbc_reopen_keeps_zones demo_zcfg (set_need_format demo_zcfg false) demo_zdev demo_zdev
    (ZFile (zd_meta_size demo_zdev + 6 * 1048576) (Meta ZBC_MAGIC ZBC_HM 12288 512 2048 6 1 2)
               (zd_zones demo_zdev)) demo_cfg_ok).
  - right. by vm_compute.
  - by vm_compute.
  - by vm_compute.
  - exact demo_zdev_inv.
  - apply zframe_refl.
  - reflexivity.
  - reflexivity.
Defined.

(** A device that fits in one zone loses its data at every start.  With
    the default number of conventional zones its only zone is conventional;
    the metadata check demands a sequential zone, so the backstore that
    formatting just wrote is rejected and formatted again (all zones lose
    their state) each time it is opened. *)
Theorem zbc_single_zone_reformatted (c c' : zbc_dev_config) (Hc : cfg_ok c)
  (Hconv : c_conv_num c = ZBC_CONF_DEFAULT_CONV_NUM) (H1 : cfg_nr_zones c = 1) :
  exists d f, zbc_format_meta (blank_zdev c) = Some (d, f) /\
    snd (zbc_check_meta (blank_zdev c') f) = false /\
    (forall zs, snd (zbc_check_meta (blank_zdev c') (ZFile (f_size f) (f_meta f) zs)) = false).
Proof.
  assert (cfg_fits c) as Hf by (by left).
  destruct (format_meta_spec c Hc Hf) as (k & o & Hfm & Hk & Ho & Hkn).
  eexists _, _. split; [exact Hfm|].
  assert (k = 1) as ->.
  { revert Hfm. unfold zbc_format_meta, blank_zdev. cbn [zd_cfg].
    fold (cfg_capacity c). fold (cfg_zone_lbas c). fold (cfg_nr_zones c). unfold format_counts.
    rewrite H1, Hconv. cbn. intros Hq. by injection Hq. }
  assert (forall zs, snd (zbc_check_meta (blank_zdev c')
    (ZFile (u64 (zbc_meta_size_aligned (cfg_nr_zones c) + c_dev_size c)) (format_record c 1 o) zs)) = false)
    as Hall.
  { intros zs. unfold zbc_check_meta. cbn [f_meta f_size format_record m_nr_conv_zones m_nr_zones
      m_capacity m_zone_size].
    repeat match goal with |- snd (if ?b then (_, false) else _) = false =>
      destruct b eqn:?; [reflexivity|] end.
    exfalso. zbool. fold (cfg_nr_zones c) in *. lia. }
  split; [apply Hall|exact Hall].
Qed.

(** 512 KiB in one 1 MiB zone. *)
Definition small_zcfg : zbc_dev_config :=
  Cfg (str "/zbc.raw") 524288 false ZBC_HM 512 1048576 ZBC_CONF_DEFAULT_CONV_NUM 128.

Lemma zbc_single_zone_reformatted_witness :
  cfg_nr_zones small_zcfg = 1 /\
  exists d f, zbc_format_meta (blank_zdev small_zcfg) = Some (d, f) /\
    snd (zbc_check_meta (blank_zdev small_zcfg) f) = false /\
    (forall zs, snd (zbc_check_meta (blank_zdev small_zcfg) (ZFile (f_size f) (f_meta f) zs)) = false).
Proof.
  split; [by vm_compute|].
  apply (zbc_single_zone_reformatted small_zcfg small_zcfg).
  - split; unfold small_zcfg; cbn -[Z.pow Z.div Z.modulo]; try (auto; fail); try (cbv; done).
    by exists 20.
  - reflexivity.
  - by vm_compute.
Defined.
