(* ===== verification/ZbcIo.v ===== *)
(** * The zoned block device handler: commands and I/O

    INQUIRY, REPORT ZONES, READ CAPACITY, MODE SENSE, READ and WRITE of
    [file_zbc.c], the dispatch of [zbc_handle_cmd], and what reads and writes
    do to the data and the write pointers. *)

From S2P Require Import Prelude Scsi Iovec Sense Device Inquiry Mode Zbc ZbcZone.

(** ** State of a command *)

(** The device, the data area of the backstore file (its bytes from
    [meta_size] on), the memory, the command's iovec and its sense buffer. *)
Record zst := ZSt {
  zs_dev : zbc_dev;
  zs_data : list Z;
  zs_mem : mem;
  zs_iov : list iovec;
  zs_sense : list Z
}.

Abbreviation zcmd_result := (option (zst * tcmu_sts)).

Definition set_zdev (s : zst) (d : zbc_dev) : zst :=
  ZSt d (zs_data s) (zs_mem s) (zs_iov s) (zs_sense s).
Definition set_zdata (s : zst) (f : list Z) : zst :=
  ZSt (zs_dev s) f (zs_mem s) (zs_iov s) (zs_sense s).
Definition set_zmem (s : zst) (m : mem) : zst :=
  ZSt (zs_dev s) (zs_data s) m (zs_iov s) (zs_sense s).
Definition set_ziov (s : zst) (v : list iovec) : zst :=
  ZSt (zs_dev s) (zs_data s) (zs_mem s) v (zs_sense s).

(** [return tcmu_set_sense_data(cmd->sense_buf, ...)]. *)
Definition zfail (s : zst) (key asc : Z) : zcmd_result :=
  '(sense, sts) ← tcmu_set_sense_data (zs_sense s) key asc;
  Some (ZSt (zs_dev s) (zs_data s) (zs_mem s) (zs_iov s) sense, sts).

(** Copies a buffer to the initiator. *)
Definition zsend (s : zst) (buf : list Z) (len : Z) : zcmd_result :=
  '(m, iov, _) ← tcmu_memcpy_into_iovec (zs_mem s) (zs_iov s) (Z.of_nat (length (zs_iov s))) buf len;
  Some (ZSt (zs_dev s) (zs_data s) m iov (zs_sense s), TCMU_STS_OK).

Definition zsend_page (s : zst) (page : option (list Z)) (len : Z) : zcmd_result :=
  buf ← page; zsend s buf len.

(** Runs a command that only touches the zone table. *)
Definition zlift (s : zst) (r : zbc_result) : zcmd_result :=
  '(d, sense, sts) ← r;
  Some (ZSt d (zs_data s) (zs_mem s) (zs_iov s) sense, sts).

(** ** INQUIRY *)

(** [src tcmu-runner/file_zbc.c 951-969 zbc_evpd_inquiry] *)
Definition zbc_vpd_00 (model : Z) : option (list Z) :=
  let data := zeros 512 in
  data ← bset1 data 0 model;
  data ← bset1 data 1 0x00;
  data ← bset1 data 3 5;
  data ← bset1 data 4 0x83; data ← bset1 data 5 0xb0;
  data ← bset1 data 6 0xb1; bset1 data 7 0xb6.

(** [src tcmu-runner/file_zbc.c 970-1034 zbc_evpd_inquiry] *)
Definition zbc_vpd_83 (model : Z) (wwn : list Z) : option (list Z * Z) :=
  let data := zeros 512 in
  data ← bset1 data 0 model;
  data ← bset1 data 1 0x83;
  pg ← page83_t10 wwn (Page83 data 0 4);
  pg ← page83_naa wwn pg;
  data ← bset (pg_data pg) 2 (be_enc 2 (u16 (pg_used pg)));
  Some (data, pg_used pg + 4).

(** [src tcmu-runner/file_zbc.c 1036-1087 zbc_evpd_inquiry] *)
Definition zbc_vpd_b0 (model max_xfer_len : Z) : option (list Z) :=
  let data := zeros 512 in
  data ← bset1 data 0 model;
  data ← bset1 data 1 0xb0;
  data ← bset data 2 (be_enc 2 0x003c);
  data ← bset1 data 4 0x01;
  data ← bset1 data 5 0x01;
  data ← bset data 8 (be_enc 4 (u32 max_xfer_len));
  data ← bset data 12 (be_enc 4 (u32 max_xfer_len));
  bset data 36 (be_enc 8 VPD_MAX_WRITE_SAME_LENGTH).

(** [src tcmu-runner/file_zbc.c 1089-1105 zbc_evpd_inquiry] *)
Definition zbc_vpd_b1 (model dev_model : Z) : option (list Z) :=
  let data := zeros 512 in
  data ← bset1 data 0 model;
  data ← bset1 data 1 0xb1;
  data ← bset data 2 (be_enc 2 0x003c);
  data ← bset data 4 (be_enc 2 0x1C20);
  data ← bset1 data 8 0x02;
  if dev_model =? ZBC_HA then b ← bget1 data 8; bset1 data 8 (Z.lor b 0x10) else Some data.

(** [src tcmu-runner/file_zbc.c 1107-1145 zbc_evpd_inquiry] *)
Definition zbc_vpd_b6 (model dev_model nr_open : Z) : option (list Z) :=
  let data := zeros 512 in
  data ← bset1 data 0 model;
  data ← bset1 data 1 0xb6;
  data ← bset data 2 (be_enc 2 0x003c);
  data ← bset1 data 4 0x01;
  if dev_model =? ZBC_HA then
    data ← bset data 8 (be_enc 4 nr_open); bset data 12 (be_enc 4 nr_open)
  else bset data 16 (be_enc 4 nr_open).

(** [hw_block_size] is what [tcmu_get_attribute] reads from configfs; the
    mapped metadata's model is the device's.
    [src tcmu-runner/file_zbc.c zbc_evpd_inquiry] *)
Definition zbc_evpd_inquiry (dev : tcmu_device) (hw_block_size : Z) (cdb : list Z) (s : zst)
    : zcmd_result :=
  let d := zs_dev s in
  let page := byte_at cdb 2 in
  if page =? 0x00 then zsend_page s (zbc_vpd_00 (zd_model d)) 8
  else if page =? 0x83 then
    match dev_wwn dev with
    | None => zfail s HARDWARE_ERROR ASC_INTERNAL_TARGET_FAILURE
    | Some wwn => '(data, len) ← zbc_vpd_83 (zd_model d) wwn; zsend s data len
    end
  else if page =? 0xb0 then
    if hw_block_size <=? 0 then zfail s ILLEGAL_REQUEST ASC_INVALID_FIELD_IN_CDB
    else if tcmu_get_dev_max_xfer_len dev =? 0
    then zfail s HARDWARE_ERROR ASC_INTERNAL_TARGET_FAILURE
    else zsend_page s (zbc_vpd_b0 (zd_model d) (tcmu_get_dev_max_xfer_len dev)) 64
  else if page =? 0xb1 then zsend_page s (zbc_vpd_b1 (zd_model d) (zd_model d)) 64
  else if page =? 0xb6 then
    zsend_page s (zbc_vpd_b6 (zd_model d) (zd_model d) (zd_nr_open_zones d)) 64
  else zfail s ILLEGAL_REQUEST ASC_INVALID_FIELD_IN_CDB.

(** [src tcmu-runner/file_zbc.c zbc_std_inquiry] *)
Definition zbc_std_inquiry (s : zst) : zcmd_result :=
  let buf := zeros 36 in
  zsend_page s
    (buf ← bset1 buf 0 (zd_model (zs_dev s));
     buf ← bset1 buf 2 0x05;
     buf ← bset1 buf 3 0x02;
     buf ← bset1 buf 4 31;
     buf ← bset1 buf 7 0x02;
     buf ← bset buf 8 (str "LIO-ORG ");
     buf ← bset buf 16 (str "TCMU ZBC device");
     bset buf 32 (str "0002")) 36.

(** [src tcmu-runner/file_zbc.c zbc_inquiry] *)
Definition zbc_inquiry (dev : tcmu_device) (hw_block_size : Z) (cdb : list Z) (s : zst)
    : zcmd_result :=
  if negb (Z.land (byte_at cdb 1) 0x01 =? 0) then zbc_evpd_inquiry dev hw_block_size cdb s
  else if negb (byte_at cdb 2 =? 0) then zfail s ILLEGAL_REQUEST ASC_INVALID_FIELD_IN_CDB
  else zbc_std_inquiry s.

(** ** REPORT ZONES *)

Definition ZBC_RO_ALL : Z := 0x00.
Definition ZBC_RO_EMPTY : Z := 0x01.
Definition ZBC_RO_IMP_OPEN : Z := 0x02.
Definition ZBC_RO_EXP_OPEN : Z := 0x03.
Definition ZBC_RO_CLOSED : Z := 0x04.
Definition ZBC_RO_FULL : Z := 0x05.
Definition ZBC_RO_READONLY : Z := 0x06.
Definition ZBC_RO_OFFLINE : Z := 0x07.
Definition ZBC_RO_RWP_RECOMMENDED : Z := 0x10.
Definition ZBC_RO_NON_SEQ : Z := 0x11.
Definition ZBC_RO_NOT_WP : Z := 0x3f.
Definition ZBC_RO_PARTIAL : Z := 0x80.

(** [src tcmu-runner/file_zbc.c zbc_should_report_zone] *)
Definition zbc_should_report_zone (zone : zbc_zone) (ro : Z) : bool :=
  let options := Z.land ro (u32 (Z.lnot ZBC_RO_PARTIAL)) in
  if options =? ZBC_RO_ALL then true
  else if options =? ZBC_RO_EMPTY then zbc_zone_empty zone
  else if options =? ZBC_RO_IMP_OPEN then zbc_zone_imp_open zone
  else if options =? ZBC_RO_EXP_OPEN then zbc_zone_exp_open zone
  else if options =? ZBC_RO_CLOSED then zbc_zone_closed zone
  else if options =? ZBC_RO_FULL then zbc_zone_full zone
  else if options =? ZBC_RO_READONLY then zbc_zone_rdonly zone
  else if options =? ZBC_RO_OFFLINE then zbc_zone_offline zone
  else if options =? ZBC_RO_RWP_RECOMMENDED then zbc_zone_rwp zone
  else if options =? ZBC_RO_NON_SEQ then zbc_zone_non_seq zone
  else if options =? ZBC_RO_NOT_WP then zbc_zone_not_wp zone
  else false.

(** [src tcmu-runner/file_zbc.c 1274-1293 zbc_report_zones] *)
Definition ro_valid (ro : Z) : bool :=
  existsb (Z.eqb ro)
    [ZBC_RO_ALL; ZBC_RO_EMPTY; ZBC_RO_IMP_OPEN; ZBC_RO_EXP_OPEN; ZBC_RO_CLOSED; ZBC_RO_FULL;
     ZBC_RO_READONLY; ZBC_RO_OFFLINE; ZBC_RO_RWP_RECOMMENDED; ZBC_RO_NON_SEQ; ZBC_RO_NOT_WP].

(** The first pass, from zone [i] on; [fuel] bounds the number of zones.
    [src tcmu-runner/file_zbc.c 1300-1322 zbc_report_zones] *)
Fixpoint report_count (fuel : nat) (d : zbc_dev) (ro : Z) (partial : bool) (lba : Z) (i : nat)
    (len nr_zones : Z) : option Z :=
  if lba <? zd_capacity d then
    match fuel with
    | O => None
    | S fuel =>
        zone ← zd_zones d !! i;
        if zbc_should_report_zone zone ro then
          if partial && (len <? 64) then Some nr_zones
          else report_count fuel d ro partial (u64 (z_start zone + z_len zone)) (S i)
                 (if 64 <? len then len - 64 else 0) (u32 (nr_zones + 1))
        else report_count fuel d ro partial (u64 (z_start zone + z_len zone)) (S i) len nr_zones
    end
  else Some nr_zones.

(** A zone descriptor.
    [src tcmu-runner/file_zbc.c 1342-1356 zbc_report_zones] *)
Definition zone_descriptor (zone : zbc_zone) : option (list Z) :=
  let data := zeros 64 in
  data ← bset1 data 0 (Z.land (z_type zone) 0x0f);
  data ← bset1 data 1 (Z.land (Z.shiftl (z_cond zone) 4) 0xf0);
  data ← (if zbc_zone_rwp zone then b ← bget1 data 1; bset1 data 1 (Z.lor b 0x01) else Some data);
  data ← (if zbc_zone_non_seq zone then b ← bget1 data 1; bset1 data 1 (Z.lor b 0x02) else Some data);
  data ← bset data 8 (be_enc 8 (z_len zone));
  data ← bset data 16 (be_enc 8 (z_start zone));
  bset data 24 (be_enc 8 (z_wp zone)).

(** The second pass.
    [src tcmu-runner/file_zbc.c 1334-1362 zbc_report_zones] *)
Fixpoint report_fill (fuel : nat) (s : zst) (ro : Z) (lba : Z) (i : nat) (len : Z) : zcmd_result :=
  if (lba <? zd_capacity (zs_dev s)) && (64 <=? len) then
    match fuel with
    | O => None
    | S fuel =>
        zone ← zd_zones (zs_dev s) !! i;
        if zbc_should_report_zone zone ro then
          data ← zone_descriptor zone;
          '(s, _) ← zsend s data 64;
          report_fill fuel s ro (u64 (z_start zone + z_len zone)) (S i) (len - 64)
        else report_fill fuel s ro (u64 (z_start zone + z_len zone)) (S i) len
    end
  else Some (s, TCMU_STS_OK).

(** [src tcmu-runner/file_zbc.c 1324-1329 zbc_report_zones] *)
Definition report_header (nr_zones capacity : Z) : option (list Z) :=
  let data := zeros 64 in
  data ← bset data 0 (be_enc 4 (u32 (nr_zones * 64)));
  bset data 8 (be_enc 8 (u64 (capacity - 1))).

(** [src tcmu-runner/file_zbc.c zbc_report_zones] *)
Definition zbc_report_zones (cdb : list Z) (s : zst) : zcmd_result :=
  let d := zs_dev s in
  let partial := negb (Z.land (byte_at cdb 14) ZBC_RO_PARTIAL =? 0) in
  let ro := Z.land (byte_at cdb 14) (u32 (Z.lnot ZBC_RO_PARTIAL)) in
  if negb (ro_valid ro) then zfail s ILLEGAL_REQUEST ASC_INVALID_FIELD_IN_CDB
  else
    lba ← tcmu_get_lba cdb;
    if zd_capacity d <=? lba then zfail s ILLEGAL_REQUEST ASC_LBA_OUT_OF_RANGE
    else
      len ← tcmu_get_xfer_length cdb;
      z ← zbc_get_zone d lba false;
      i ← z;
      let fuel := length (zd_zones d) in
      nr_zones ← report_count fuel d ro partial lba i (if 64 <? len then len - 64 else 0) 0;
      data ← report_header nr_zones (zd_capacity d);
      '(m, iov, len) ← tcmu_memcpy_into_iovec (zs_mem s) (zs_iov s)
                         (Z.of_nat (length (zs_iov s))) data 64;
      let s := set_ziov (set_zmem s m) iov in
      if len <? 64 then Some (s, TCMU_STS_OK)
      else
        len ← tcmu_iovec_length iov (Z.of_nat (length iov));
        report_fill fuel s ro lba i len.

(** [src tcmu-runner/file_zbc.c zbc_in] *)
Definition zbc_in (cdb : list Z) (s : zst) : zcmd_result :=
  if byte_at cdb 1 =? ZBC_SA_REPORT_ZONES then zbc_report_zones cdb s
  else zfail s ILLEGAL_REQUEST ASC_INVALID_FIELD_IN_CDB.

(** ** READ CAPACITY and MODE SENSE *)

(** [src tcmu-runner/file_zbc.c zbc_read_capacity] *)
Definition zbc_read_capacity (s : zst) : zcmd_result :=
  let data := zeros 32 in
  zsend_page s
    (data ← bset data 0 (be_enc 8 (u64 (zd_capacity (zs_dev s) - 1)));
     data ← bset data 8 (be_enc 4 (u32 (zd_lba_size (zs_dev s))));
     bset1 data 12 0x10) 32.

(** [src tcmu-runner/file_zbc.c zbc_mode_sense_rwrecovery_page] *)
Definition zbc_mode_sense_rwrecovery_page (buf : list Z) (off : nat) : option (list Z * Z) :=
  if (length buf - off <? 12)%nat then Some (buf, -1)
  else buf ← bset1 buf off 0x1; buf ← bset1 buf (off + 1) 0xa; Some (buf, 12).

(** [src tcmu-runner/file_zbc.c zbc_mode_sense_cache_page] *)
Definition zbc_mode_sense_cache_page (buf : list Z) (off : nat) : option (list Z * Z) :=
  if (length buf - off <? 20)%nat then Some (buf, -1)
  else
    buf ← bset1 buf off 0x08; buf ← bset1 buf (off + 1) 0x12; buf ← bset1 buf (off + 2) 0x04;
    Some (buf, 20).

(** [src tcmu-runner/file_zbc.c zbc_mode_sense_control_page] *)
Definition zbc_mode_sense_control_page (buf : list Z) (off : nat) : option (list Z * Z) :=
  if (length buf - off <? 12)%nat then Some (buf, -1)
  else
    buf ← bset1 buf off 0x0a; buf ← bset1 buf (off + 1) 0x0a; buf ← bset1 buf (off + 2) 0x02;
    buf ← bset1 buf (off + 5) 0x40; buf ← bset1 buf (off + 8) 0xff; buf ← bset1 buf (off + 9) 0xff;
    Some (buf, 12).

(** [src tcmu-runner/file_zbc.c 1809-1817 modesense_handlers] *)
Definition zbc_modesense_handlers : list (Z * Z * (list Z -> nat -> option (list Z * Z))) :=
  [(0x01, 0, zbc_mode_sense_rwrecovery_page); (0x08, 0, zbc_mode_sense_cache_page);
   (0x0a, 0, zbc_mode_sense_control_page)].

(** All pages: the loop stops early when the response is full.
    [src tcmu-runner/file_zbc.c 1842-1855 zbc_mode_sense] *)
Fixpoint zbc_sense_all (hs : list (Z * Z * (list Z -> nat -> option (list Z * Z))))
    (data : list Z) (used_len alloc_len : Z) (sense_ten : bool) : option (list Z * Z) :=
  match hs with
  | [] => Some (data, used_len)
  | (_, _, get) :: hs =>
      '(data, ret) ← get data (Z.to_nat used_len);
      if ret <=? 0 then Some (data, used_len)
      else
        let used_len := used_len + ret in
        if negb sense_ten && (255 <=? used_len) then Some (data, used_len)
        else if alloc_len <? used_len then Some (data, used_len)
        else zbc_sense_all hs data used_len alloc_len sense_ten
  end.

(** [src tcmu-runner/file_zbc.c zbc_mode_sense] *)
Definition zbc_mode_sense (cdb : list Z) (s : zst) : zcmd_result :=
  let sense_ten := byte_at cdb 0 =? MODE_SENSE_10 in
  let page_code := Z.land (byte_at cdb 2) 0x3f in
  let subpage_code := byte_at cdb 3 in
  alloc_len ← tcmu_get_xfer_length cdb;
  let used_len := if sense_ten then 8 else 4 in
  x ← (if page_code =? 0x3f then
         '(data, used) ← zbc_sense_all zbc_modesense_handlers (zeros 512) used_len alloc_len sense_ten;
         Some (Some (data, used))
       else
         match List.find (fun h => (page_code =? fst (fst h)) && (subpage_code =? snd (fst h)))
                 zbc_modesense_handlers with
         | None => Some None
         | Some (_, _, get) =>
             '(data, ret) ← get (zeros 512) (Z.to_nat used_len);
             Some (if ret <=? 0 then None else Some (data, used_len + ret))
         end);
  match x with
  | None => zfail s ILLEGAL_REQUEST ASC_INVALID_FIELD_IN_CDB
  | Some (data, used) =>
      zsend_page s (if sense_ten then bset data 0 (be_enc 2 (u16 (used - 2)))
                    else bset1 data 0 (used - 1)) 512
  end.

(** ** READ and WRITE *)

(** [src tcmu-runner/file_zbc.c zbc_check_rdwr] *)
Definition zbc_check_rdwr (cdb : list Z) (s : zst) : zcmd_result :=
  let d := zs_dev s in
  lba ← tcmu_get_lba cdb;
  nr_lbas ← tcmu_get_xfer_length cdb;
  iov_length ← tcmu_iovec_length (zs_iov s) (Z.of_nat (length (zs_iov s)));
  if negb (iov_length =? u64 (nr_lbas * zd_lba_size d))
  then zfail s HARDWARE_ERROR ASC_INTERNAL_TARGET_FAILURE
  else if (zd_capacity d <? u64 (lba + nr_lbas)) || (u64 (lba + nr_lbas) <? lba)
  then zfail s ILLEGAL_REQUEST ASC_LBA_OUT_OF_RANGE
  else Some (s, TCMU_STS_OK).

(** The system calls on the backstore: how many bytes a call at an offset of
    the data area with a byte count transfers, or a negative number for an
    error. *)
Record zbc_sys := Sys {
  pread_ret : Z -> Z -> Z;
  pwrite_ret : Z -> Z -> Z
}.

(** Every transfer completes. *)
Definition sys_ok : zbc_sys := Sys (fun _ n => n) (fun _ n => n).

Definition pread (sys : zbc_sys) (data : list Z) (off count : Z) : Z * list Z :=
  let r := pread_ret sys off count in
  if r <? 0 then (r, [])
  else
    let bs := take (Z.to_nat (Z.min r count)) (drop (Z.to_nat off) data) in
    (Z.of_nat (length bs), bs).

Definition pwrite (sys : zbc_sys) (data : list Z) (off : Z) (bs : list Z) : Z * list Z :=
  let r := pwrite_ret sys off (Z.of_nat (length bs)) in
  if r <? 0 then (r, data)
  else
    let n := Z.to_nat (Z.min r (Z.of_nat (length bs))) in
    (Z.of_nat n, take (Z.to_nat off) data ++ take n bs ++ drop (Z.to_nat off + n) data).

(** The result of reading: the memory, the zone type carried between calls
    (0 is unset), and [ret], [-EIO] or the number of blocks. *)
Definition EIO : Z := 5.

(** [buf] is the destination, [nr_lbas] the number asked for, [lba_count] what
    is left.
    [src tcmu-runner/file_zbc.c 1929-1975 __zbc_read] *)
Fixpoint zbc_read_loop (fuel : nat) (sys : zbc_sys) (d : zbc_dev) (data : list Z) (m : mem)
    (buf : ptr) (nr_lbas lba lba_count zone_type : Z) : option (mem * Z * Z) :=
  if lba_count =? 0 then Some (m, zone_type, nr_lbas)
  else
    match fuel with
    | O => None
    | S fuel =>
        z ← zbc_get_zone d lba false;
        i ← z;
        zone ← zd_zones d !! i;
        let is_hm := zd_model d =? ZBC_HM in
        if is_hm && negb (zone_type =? 0) && negb (zone_type =? z_type zone)
        then Some (m, 0, - EIO)
        else
          let zone_type := if is_hm && (zone_type =? 0) then z_type zone else zone_type in
          if zbc_zone_seq zone && (z_wp zone <=? lba) then
            m ← mem_store m buf (zeros (Z.to_nat (u64 (lba_count * zd_lba_size d))));
            Some (m, zone_type, nr_lbas)
          else
            let boundary := if zbc_zone_seq zone then z_wp zone
                            else u64 (z_start zone + z_len zone) in
            let count := if boundary <? u64 (lba + nr_lbas) then u64 (boundary - lba) else lba_count in
            let bytes := u64 (count * zd_lba_size d) in
            let '(ret, bs) := pread sys data (lba * zd_lba_size d) bytes in
            m ← mem_store m buf bs;
            if negb (ret =? bytes) then Some (m, zone_type, - EIO)
            else
              zbc_read_loop fuel sys d data m (padd buf bytes) nr_lbas (u64 (lba + count))
                (u64 (lba_count - count)) zone_type
    end.

(** Each round passes at least one zone boundary or write pointer, so two
    rounds per zone are enough.
    [src tcmu-runner/file_zbc.c __zbc_read] *)
Definition __zbc_read (sys : zbc_sys) (d : zbc_dev) (data : list Z) (m : mem) (buf : ptr)
    (nr_lbas lba zone_type : Z) : option (mem * Z * Z) :=
  zbc_read_loop (S (2 * length (zd_zones d))) sys d data m buf nr_lbas lba nr_lbas zone_type.

(** The loop over the iovec.
    [src tcmu-runner/file_zbc.c 2001-2016 zbc_read] *)
Fixpoint zbc_read_iov (sys : zbc_sys) (s : zst) (iov : list iovec) (lba zone_type : Z)
    : zcmd_result :=
  match iov with
  | [] => Some (s, TCMU_STS_OK)
  | v :: iov =>
      '(m, zone_type, ret) ← __zbc_read sys (zs_dev s) (zs_data s) (zs_mem s) (iov_base v)
                               (iov_len v / zd_lba_size (zs_dev s)) lba zone_type;
      let s := set_zmem s m in
      if ret <=? 0 then
        if zone_type =? 0 then zfail s ILLEGAL_REQUEST ASC_ATTEMPT_TO_READ_INVALID_DATA
        else zfail s MEDIUM_ERROR ASC_READ_ERROR
      else zbc_read_iov sys s iov (u64 (lba + ret)) zone_type
  end.

(** [src tcmu-runner/file_zbc.c zbc_read] *)
Definition zbc_read (sys : zbc_sys) (cdb : list Z) (s : zst) : zcmd_result :=
  lba ← tcmu_get_lba cdb;
  '(s, ret) ← zbc_check_rdwr cdb s;
  if negb (sts_ok ret) then Some (s, ret)
  else zbc_read_iov sys s (zs_iov s) lba 0.

(** [src tcmu-runner/file_zbc.c zbc_write_check_zones] *)
Fixpoint zbc_write_check_zones (fuel : nat) (s : zst) (nr_lbas lba zone_type : Z) : zcmd_result :=
  if nr_lbas =? 0 then Some (s, TCMU_STS_OK)
  else
    match fuel with
    | O => None
    | S fuel =>
        z ← zbc_get_zone (zs_dev s) lba false;
        match z with
        | None => zfail s HARDWARE_ERROR ASC_INTERNAL_TARGET_FAILURE
        | Some i =>
            zone ← zd_zones (zs_dev s) !! i;
            let zone_type := if zone_type =? 0 then z_type zone else zone_type in
            let zend := u64 (z_start zone + z_len zone) in
            if negb (z_type zone =? zone_type)
               || (zbc_zone_seq_req zone && (zend <? u64 (lba + nr_lbas)))
            then zfail s ILLEGAL_REQUEST ASC_WRITE_BOUNDARY_VIOLATION
            else if zbc_zone_seq_req zone && negb (lba =? z_wp zone) then
              if zbc_zone_full zone then zfail s ILLEGAL_REQUEST ASC_INVALID_FIELD_IN_CDB
              else zfail s ILLEGAL_REQUEST ASC_UNALIGNED_WRITE_COMMAND
            else
              let count := if zend <? u64 (lba + nr_lbas) then u64 (zend - lba) else nr_lbas in
              zbc_write_check_zones fuel s (u64 (nr_lbas - count)) (u64 (lba + count)) zone_type
        end
    end.

(** What a successful [pwrite] of [count] blocks does to the zone.
    [src tcmu-runner/file_zbc.c 2169-2183 zbc_write] *)
Definition write_advance (d : zbc_dev) (i : nat) (lba count : Z) : option zbc_dev :=
  zone ← zd_zones d !! i;
  let zone :=
    if zbc_zone_seq_req zone then zset_wp zone (u64 (z_wp zone + count))
    else if zbc_zone_seq_pref zone then
      if z_wp zone <=? u64 (lba + count) then zset_wp zone (u64 (lba + count)) else zone
    else zone in
  let d := zd_store d i zone in
  let zend := u64 (z_start zone + z_len zone) in
  if zbc_zone_seq zone && (zend <=? z_wp zone) then
    d ← (if zbc_zone_is_open zone then __zbc_close_zone d i else Some d);
    zone ← zd_zones d !! i;
    Some (zd_store d i (zset_cond (zset_wp zone zend) ZBC_ZONE_COND_FULL))
  else Some d.

(** The [while] loop: [iovec] stays at the head of the command's iovec.
    [src tcmu-runner/file_zbc.c 2125-2188 zbc_write] *)
Fixpoint zbc_write_loop (fuel : nat) (sys : zbc_sys) (s : zst) (nr_lbas lba : Z) : zcmd_result :=
  if nr_lbas =? 0 then Some (s, TCMU_STS_OK)
  else
    match fuel with
    | O => None
    | S fuel =>
        let d := zs_dev s in
        z ← zbc_get_zone d lba false;
        i ← z;
        zone ← zd_zones d !! i;
        let zend := u64 (z_start zone + z_len zone) in
        if zend <? u64 (lba + nr_lbas)
        then zfail s ILLEGAL_REQUEST ASC_WRITE_BOUNDARY_VIOLATION
        else if zbc_zone_seq zone && negb (zbc_zone_is_open zone)
                && (zd_nr_open_zones d <=? zd_nr_exp_open d)
        then zfail s DATA_PROTECT ASC_INSUFFICIENT_ZONE_RESOURCES
        else
          d ← (if zbc_zone_seq zone && negb (zbc_zone_is_open zone)
               then __zbc_open_zone d i false else Some d);
          let s := set_zdev s d in
          let count := if zend <? u64 (lba + nr_lbas) then u64 (zend - lba) else nr_lbas in
          match zs_iov s with
          | [] => None
          | v :: _ =>
              let lba_count := iov_len v / zd_lba_size d in
              let count := if lba_count <? count then lba_count else count in
              bs ← mem_load (zs_mem s) (iov_base v) (u64 (count * zd_lba_size d));
              let '(ret, data) := pwrite sys (zs_data s) (lba * zd_lba_size d) bs in
              let s := set_zdata s data in
              if ret <=? 0 then zfail s MEDIUM_ERROR ASC_WRITE_ERROR
              else
                '(iov, _) ← tcmu_seek_in_iovec (zs_iov s) ret;
                let s := set_ziov s iov in
                let count := ret / zd_lba_size d in
                d ← write_advance (zs_dev s) i lba count;
                zbc_write_loop fuel sys (set_zdev s d) (u64 (nr_lbas - count)) (u64 (lba + count))
          end
    end.

(** The number of rounds of a write: the rounds transfer at least one byte
    each.
    [src tcmu-runner/file_zbc.c zbc_write] *)
Definition zbc_write (sys : zbc_sys) (cdb : list Z) (s : zst) : zcmd_result :=
  lba ← tcmu_get_lba cdb;
  nr_lbas ← tcmu_get_xfer_length cdb;
  '(s, ret) ← zbc_check_rdwr cdb s;
  if negb (sts_ok ret) then Some (s, ret)
  else
    '(s, ret) ← zbc_write_check_zones (S (length (zd_zones (zs_dev s)))) s nr_lbas lba 0;
    if negb (sts_ok ret) then Some (s, ret)
    else zbc_write_loop (S (Z.to_nat (nr_lbas * zd_lba_size (zs_dev s)))) sys s nr_lbas lba.

(** [flush_ret] is what [fsync] and [msync] return: non-zero for an error.
    [src tcmu-runner/file_zbc.c zbc_flush] *)
Definition zbc_flush (flush_ret : Z) (s : zst) : zcmd_result :=
  if flush_ret =? 0 then Some (s, TCMU_STS_OK) else zfail s MEDIUM_ERROR ASC_WRITE_ERROR.

(** Adapts a routine of [api.c]. *)
Definition zapi (s : zst) (r : emu_result) : zcmd_result :=
  '(m, iov, sts) ← r; Some (set_ziov (set_zmem s m) iov, sts).

(** The environment of a command: the SCSI device, the configfs attribute, the
    outcomes of the system calls, and the uninitialised stack buffer of MODE
    SELECT. *)
Record zbc_env := ZEnv {
  ze_dev : tcmu_device;
  ze_hw_block_size : Z;
  ze_sys : zbc_sys;
  ze_flush_ret : Z;
  ze_junk : list Z
}.

(** [src tcmu-runner/file_zbc.c zbc_handle_cmd] *)
Definition zbc_handle_cmd (e : zbc_env) (cdb : list Z) (s : zst) : zcmd_result :=
  let op := byte_at cdb 0 in
  if op =? INQUIRY then zbc_inquiry (ze_dev e) (ze_hw_block_size e) cdb s
  else if op =? TEST_UNIT_READY then zapi s (tcmu_emulate_test_unit_ready (zs_mem s) (zs_iov s))
  else if op =? SERVICE_ACTION_IN_16 then
    if byte_at cdb 1 =? READ_CAPACITY_16 then zbc_read_capacity s
    else Some (s, TCMU_STS_NOT_HANDLED)
  else if (op =? MODE_SENSE) || (op =? MODE_SENSE_10) then zbc_mode_sense cdb s
  else if (op =? MODE_SELECT) || (op =? MODE_SELECT_10) then
    zapi s (tcmu_emulate_mode_select (ze_dev e) cdb (ze_junk e) (zs_mem s) (zs_iov s)
              (Z.of_nat (length (zs_iov s))))
  else if op =? ZBC_IN then zbc_in cdb s
  else if op =? ZBC_OUT then zlift s (zbc_out (zs_dev s) cdb (zs_sense s))
  else if (op =? READ_10) || (op =? READ_12) || (op =? READ_16) then zbc_read (ze_sys e) cdb s
  else if (op =? WRITE_10) || (op =? WRITE_12) || (op =? WRITE_16) then zbc_write (ze_sys e) cdb s
  else if (op =? SYNCHRONIZE_CACHE) || (op =? SYNCHRONIZE_CACHE_16)
  then zbc_flush (ze_flush_ret e) s
  else Some (s, TCMU_STS_NOT_HANDLED).
