(* ===== verification/ZbcIoSpec.v ===== *)
(** * The zoned block device handler: what the I/O commands do

    Reads return the data below the write pointer and zeros above it, writes
    store their data and advance the write pointer, every command keeps the
    zone invariant; and where the code departs from this. *)

From S2P Require Import Prelude Scsi Iovec Sense Device Inquiry Mode Zbc ZbcZone ZbcIo.

(** ** Addressing *)

Lemma get_zone_at d lba :
  zinv d -> 0 <= lba < zd_capacity d ->
  exists i z, zbc_get_zone d lba false = Some (Some i) /\ zd_zones d !! i = Some z /\
    z_start z <= lba < z_start z + z_len z.
Proof.
  intros I Hlba. unfold zbc_get_zone. pose proof (zi_size d I). pose proof (zi_nr d I).
  pose proof (zi_nr32 d I). pose proof (zi_cap d I).
  rewrite (proj2 (Z.eqb_neq _ _)) by lia.
  assert (0 <= lba / zd_zone_size d < zd_nr_zones d) as Hq.
  { split; [apply Z.div_pos; lia|apply Z.div_lt_upper_bound; nia]. }
  rewrite u32_small by lia. rewrite (proj2 (Z.leb_gt _ _)) by lia.
  destruct (lookup_lt_is_Some_2 (zd_zones d) (Z.to_nat (lba / zd_zone_size d))) as [z Hz]; [lia|].
  exists (Z.to_nat (lba / zd_zone_size d)), z. split; [done|]. split; [done|].
  destruct (zi_zones d I _ z Hz) as (_ & Hs & Hl). rewrite Hl, Hs, Z2Nat.id by lia.
  pose proof (Z.div_mod lba (zd_zone_size d)). pose proof (Z.mod_pos_bound lba (zd_zone_size d)). nia.
Qed.

(** The zone holding an LBA is unique. *)
Lemma zone_unique d i j z y lba :
  zinv d -> zd_zones d !! i = Some z -> zd_zones d !! j = Some y ->
  z_start z <= lba < z_start z + z_len z -> z_start y <= lba < z_start y + z_len y -> i = j.
Proof.
  intros I Hi Hj H1 H2. destruct (zi_zones d I i z Hi) as (_ & E1 & L1).
  destruct (zi_zones d I j y Hj) as (_ & E2 & L2). pose proof (zi_size d I).
  rewrite L1, E1 in H1. rewrite L2, E2 in H2. nia.
Qed.

Lemma get_zone_in d i z lba :
  zinv d -> zd_zones d !! i = Some z -> z_start z <= lba < z_start z + z_len z ->
  zbc_get_zone d lba false = Some (Some i) /\ 0 <= lba < zd_capacity d.
Proof.
  intros I Hi Hlba. destruct (zi_zones d I i z Hi) as ((H0 & _) & _ & Hl).
  assert (0 <= lba < zd_capacity d) as Hc by lia.
  destruct (get_zone_at d lba I Hc) as (j & y & -> & Hj & Hy).
  by rewrite (zone_unique d i j z y lba).
Qed.

(** The zone boundary does not wrap, and lies within the capacity. *)
Lemma zone_end d i z :
  zinv d -> zd_zones d !! i = Some z ->
  u64 (z_start z + z_len z) = z_start z + z_len z /\ z_start z + z_len z <= zd_capacity d /\
  0 <= z_start z /\ 0 < z_len z.
Proof.
  intros I Hi. destruct (zi_zones d I i z Hi) as ((? & ? & ? & _) & _ & Hl).
  rewrite u64_small by lia. lia.
Qed.

(** ** Reading within one zone *)

(** The blocks from [lba] on. *)
Definition blocks (d : zbc_dev) (data : list Z) (lba n : Z) : list Z :=
  take (Z.to_nat (n * zd_lba_size d)) (drop (Z.to_nat (lba * zd_lba_size d)) data).

(** What an initiator must see of [n] blocks of a zone: data up to the write
    pointer, zeros from there. *)
Definition visible (d : zbc_dev) (z : zbc_zone) (data : list Z) (lba n : Z) : list Z :=
  if zbc_zone_conv z then blocks d data lba n
  else
    let k := Z.max 0 (Z.min n (z_wp z - lba)) in
    blocks d data lba k ++ zeros (Z.to_nat ((n - k) * zd_lba_size d)).

(** Sizes: the data area holds the capacity, and byte offsets fit. *)
Record data_ok (d : zbc_dev) (data : list Z) : Prop := {
  do_len : Z.of_nat (length data) = zd_capacity d * zd_lba_size d;
  do_64 : zd_capacity d * zd_lba_size d < 2 ^ 64
}.

Lemma length_blocks d data lba n :
  zinv d -> data_ok d data -> 0 <= lba -> 0 <= n -> lba + n <= zd_capacity d ->
  Z.of_nat (length (blocks d data lba n)) = n * zd_lba_size d.
Proof.
  intros I [Hl _] H1 H2 H3. pose proof (zi_lba d I). unfold blocks.
  rewrite length_take, length_drop.
  assert ((lba + n) * zd_lba_size d <= zd_capacity d * zd_lba_size d) by (apply Z.mul_le_mono_nonneg_r; lia).
  assert (0 <= lba * zd_lba_size d) by (apply Z.mul_nonneg_nonneg; lia).
  assert (0 <= n * zd_lba_size d) by (apply Z.mul_nonneg_nonneg; lia). lia.
Qed.

Lemma pread_blocks d data lba n :
  zinv d -> data_ok d data -> 0 <= lba -> 0 <= n -> lba + n <= zd_capacity d ->
  pread sys_ok data (lba * zd_lba_size d) (n * zd_lba_size d) =
    (n * zd_lba_size d, blocks d data lba n).
Proof.
  intros I Hd H1 H2 H3. pose proof (zi_lba d I). pose proof (length_blocks d data lba n I Hd H1 H2 H3) as L.
  unfold pread. cbn [pread_ret sys_ok].
  assert (0 <= n * zd_lba_size d) by (apply Z.mul_nonneg_nonneg; lia).
  rewrite (proj2 (Z.ltb_ge _ 0)), Z.min_id by lia. fold (blocks d data lba n). by rewrite L.
Qed.

(** A byte count of blocks within the device does not wrap. *)
Lemma bytes_small d data n :
  zinv d -> data_ok d data -> 0 <= n <= zd_capacity d ->
  u64 (n * zd_lba_size d) = n * zd_lba_size d.
Proof.
  intros I [_ H64] Hn. pose proof (zi_lba d I). apply u64_small. nia.
Qed.

(** The zone type that a round records on a host managed device. *)
Definition note_type (d : zbc_dev) (z : zbc_zone) (zt : Z) : Z :=
  if (zd_model d =? ZBC_HM) && (zt =? 0) then z_type z else zt.

Section read_zone.
Context (d : zbc_dev) (data : list Z) (I : zinv d) (D : data_ok d data).
Context (i : nat) (z : zbc_zone) (Hi : zd_zones d !! i = Some z).

(** The first test of a round passes. *)
Lemma type_check zt :
  zt = 0 \/ zt = z_type z ->
  (zd_model d =? ZBC_HM) && negb (zt =? 0) && negb (zt =? z_type z) = false.
Proof. intros [->| ->]; destruct (zd_model d =? ZBC_HM); rewrite ?Z.eqb_refl; simpl; lia. Qed.

(** A round that reads [count] blocks from the file. *)
Lemma read_round fuel m buf nr lba cnt zt old k :
  z_start z <= lba < z_start z + z_len z -> 0 < k <= cnt -> cnt <= zd_capacity d ->
  zt = 0 \/ zt = z_type z ->
  (zbc_zone_conv z = true /\ k = (if z_start z + z_len z <? lba + nr then z_start z + z_len z - lba else cnt)
   \/ zbc_zone_conv z = false /\ lba < z_wp z <= z_start z + z_len z /\
      k = (if z_wp z <? lba + nr then z_wp z - lba else cnt)) ->
  lba + k <= z_start z + z_len z -> 0 <= lba + nr < 2 ^ 64 ->
  mem_load m buf (cnt * zd_lba_size d) = Some old ->
  exists m',
    zbc_read_loop (S fuel) sys_ok d data m buf nr lba cnt zt =
      zbc_read_loop fuel sys_ok d data m' (padd buf (k * zd_lba_size d)) nr (lba + k) (cnt - k)
        (note_type d z zt) /\
    mem_load m' buf (cnt * zd_lba_size d) =
      Some (blocks d data lba k ++ drop (length (blocks d data lba k)) old) /\
    mem_store m buf (blocks d data lba k) = Some m'.
Proof.
  intros Hl Hk Hcnt Hzt Hc Hend Hnr Hm. cbn [zbc_read_loop].
  destruct (get_zone_in d i z lba I Hi Hl) as [-> Hlc]. cbn [mbind option_bind]. rewrite Hi.
  cbn [mbind option_bind]. rewrite (proj2 (Z.eqb_neq cnt 0)), type_check by (done || lia).
  destruct (zone_end d i z I Hi) as (Hu & Hcap & _). rewrite Hu.
  pose proof (zi_cap64 d I) as H64. pose proof (zi_lba d I) as Hls.
  assert (0 <= cnt * zd_lba_size d) by (apply Z.mul_nonneg_nonneg; lia).
  replace (zbc_zone_seq z && (z_wp z <=? lba)) with false.
  2:{ unfold zbc_zone_seq. destruct Hc as [[-> _]|(-> & Hw & _)]; [done|].
      rewrite (proj2 (Z.leb_gt _ _)) by lia. done. }
  set (boundary := if zbc_zone_seq z then z_wp z else z_start z + z_len z).
  replace (if boundary <? u64 (lba + nr) then u64 (boundary - lba) else cnt) with k.
  2:{ unfold boundary, zbc_zone_seq. rewrite (u64_small (lba + nr)) by lia.
      destruct Hc as [[-> ->]|(-> & Hw & ->)]; cbn [negb]; case_if; rewrite ?u64_small; lia. }
  rewrite (bytes_small d data k) by (done || lia).
  rewrite (pread_blocks d data lba k) by (done || lia).
  pose proof (length_blocks d data lba k I D ltac:(lia) ltac:(lia) ltac:(lia)) as Lb.
  assert (k * zd_lba_size d <= cnt * zd_lba_size d) by (apply Z.mul_le_mono_nonneg_r; lia).
  destruct (mem_load_split m buf (cnt * zd_lba_size d) (k * zd_lba_size d) old) as [Hl1 _];
    [lia|done|].
  destruct (mem_store_is_Some m buf (blocks d data lba k) (take (Z.to_nat (k * zd_lba_size d)) old))
    as [m' Hm']; [by rewrite Lb|].
  rewrite Hm'. cbn [mbind option_bind]. rewrite Z.eqb_refl. cbn [negb].
  rewrite !u64_small by lia. exists m'. split; [done|]. split; [|done].
  apply (mem_load_store_prefix m buf _ m' _ old Hm' Hm). lia.
Qed.

(** A round that finds only unwritten blocks. *)
Lemma zero_round fuel m buf nr lba cnt zt old :
  z_start z <= lba < z_start z + z_len z -> 0 < cnt <= zd_capacity d ->
  zt = 0 \/ zt = z_type z -> zbc_zone_conv z = false -> z_wp z <= lba ->
  mem_load m buf (cnt * zd_lba_size d) = Some old ->
  exists m',
    zbc_read_loop (S fuel) sys_ok d data m buf nr lba cnt zt = Some (m', note_type d z zt, nr) /\
    mem_store m buf (zeros (Z.to_nat (cnt * zd_lba_size d))) = Some m'.
Proof.
  intros Hl Hcnt Hzt Hc Hw Hm. cbn [zbc_read_loop].
  destruct (get_zone_in d i z lba I Hi Hl) as [-> Hlc]. cbn [mbind option_bind]. rewrite Hi.
  cbn [mbind option_bind]. rewrite (proj2 (Z.eqb_neq cnt 0)), type_check by (done || lia).
  unfold zbc_zone_seq. rewrite Hc, (proj2 (Z.leb_le _ _) Hw). cbn [negb andb].
  rewrite (bytes_small d data cnt) by (done || lia).
  assert (0 <= cnt * zd_lba_size d) by (pose proof (zi_lba d I); apply Z.mul_nonneg_nonneg; lia).
  destruct (mem_store_is_Some m buf (zeros (Z.to_nat (cnt * zd_lba_size d))) old) as [m' Hm'].
  { by rewrite length_zeros, Z2Nat.id. }
  rewrite Hm'. cbn [mbind option_bind]. by exists m'.
Qed.

Lemma read_zone_spec fuel m buf n lba zt old :
  z_start z <= lba -> 0 < n -> lba + n <= z_start z + z_len z ->
  zt = 0 \/ zt = z_type z -> mem_load m buf (n * zd_lba_size d) = Some old ->
  exists m',
    zbc_read_loop (S (S (S fuel))) sys_ok d data m buf n lba n zt = Some (m', note_type d z zt, n) /\
    mem_load m' buf (n * zd_lba_size d) = Some (visible d z data lba n) /\
    (forall q j, range_disj buf (n * zd_lba_size d) q j -> mem_load m' q j = mem_load m q j).
Proof.
  intros Hl Hn He Hzt Hm. destruct (zone_end d i z I Hi) as (_ & Hcap & H0 & _).
  pose proof (zi_cap64 d I) as H64. pose proof (zi_lba d I) as Hls.
  assert (0 <= n * zd_lba_size d) as Hnb by (apply Z.mul_nonneg_nonneg; lia).
  assert (forall m1, zbc_read_loop (S (S fuel)) sys_ok d data m1 (padd buf (n * zd_lba_size d)) n (lba + n)
    (n - n) (note_type d z zt) = Some (m1, note_type d z zt, n)) as Hstop.
  { intros m1. rewrite Z.sub_diag. done. }
  assert (Z.of_nat (length old) = n * zd_lba_size d) as Lold by (by eapply mem_load_length).
  assert (Z.of_nat (length (blocks d data lba n)) = n * zd_lba_size d) as Lb
    by (apply length_blocks; auto; lia).
  unfold visible. destruct (zbc_zone_conv z) eqn:Hc.
  - destruct (read_round (S (S fuel)) m buf n lba n zt old n) as (m' & E & Hm1 & Hst); auto; try lia.
    { left. split; [done|]. case_if; lia. }
    exists m'. rewrite E, Hstop. split; [done|]. split.
    + rewrite Hm1, drop_ge by lia. by rewrite app_nil_r.
    + intros q j Hq. eapply mem_load_store_disj; [done|]. by rewrite Lb.
  - destruct (zi_zones d I i z Hi) as ((_ & _ & _ & Hw) & _ & _). rewrite Hc in Hw. destruct Hw as [Hw _].
    destruct (Z.leb_spec (z_wp z) lba) as [Hwl|Hwl].
    + destruct (zero_round (S (S fuel)) m buf n lba n zt old) as (m' & E & Hst); auto; try lia.
      exists m'. split; [done|].
      replace (Z.max 0 (Z.min n (z_wp z - lba))) with 0 by lia.
      pose proof (mem_load_store_same _ _ _ _ Hst) as Hsame.
      rewrite length_zeros, Z2Nat.id in Hsame by lia. split.
      * rewrite Hsame, Z.sub_0_r. by unfold blocks.
      * intros q j Hq. eapply mem_load_store_disj; [done|]. by rewrite length_zeros, Z2Nat.id.
    + set (k := Z.max 0 (Z.min n (z_wp z - lba))).
      destruct (read_round (S (S fuel)) m buf n lba n zt old k) as (m' & E & Hm1 & Hst); auto; try lia.
      { right. split; [done|]. split; [lia|]. unfold k. case_if; lia. }
      assert (Z.of_nat (length (blocks d data lba k)) = k * zd_lba_size d) as Lk
        by (apply length_blocks; auto; lia).
      assert (k * zd_lba_size d <= n * zd_lba_size d) by (apply Z.mul_le_mono_nonneg_r; lia).
      assert (0 <= k * zd_lba_size d) by (apply Z.mul_nonneg_nonneg; lia).
      destruct (decide (k = n)) as [Hkn|Hkn].
      * rewrite Hkn in *. exists m'. rewrite E, Hstop. split; [done|]. split.
        { rewrite Hm1, drop_ge by lia. by rewrite Z.sub_diag. }
        intros q j Hq. eapply mem_load_store_disj; [done|]. by rewrite Lb.
      * destruct (mem_load_split m' buf (n * zd_lba_size d) (k * zd_lba_size d) _
          ltac:(lia) Hm1) as [Hm2 Hm3].
        rewrite <- Z.mul_sub_distr_r in Hm3.
        assert (note_type d z (note_type d z zt) = note_type d z zt) as Hnn.
        { unfold note_type. destruct (zd_model d =? ZBC_HM), (zt =? 0) eqn:Hz0; cbn; try done.
          - by case_if.
          - by rewrite Hz0. }
        match type of Hm3 with _ = Some ?o =>
          destruct (zero_round (S fuel) m' (padd buf (k * zd_lba_size d)) n (lba + k) (n - k)
            (note_type d z zt) o) as (m'' & E2 & Hst2); auto; try lia end.
        { unfold note_type. case_if; auto. }
        exists m''. rewrite E, E2, Hnn. split; [done|].
        assert ((n - k) * zd_lba_size d = n * zd_lba_size d - k * zd_lba_size d) as Hsub by lia.
        pose proof (mem_load_store_same _ _ _ _ Hst2) as Hsame.
        rewrite length_zeros, Z2Nat.id in Hsame by lia. split.
        { apply (mem_load_join _ _ _ (k * zd_lba_size d)); [lia| |by rewrite <- Hsub].
          rewrite (mem_load_store_disj m' _ _ m'' _ _ Hst2).
          - rewrite Hm2. f_equal. by rewrite <- Lk, Nat2Z.id, take_app_length.
          - right. right. left. simpl. lia. }
        intros q j Hq. rewrite (mem_load_store_disj m' _ _ m'' _ _ Hst2).
        { eapply mem_load_store_disj; [done|]. rewrite Lk. unfold range_disj in *. lia. }
        rewrite length_zeros, Z2Nat.id by lia. unfold range_disj in *. simpl. lia.
Qed.
End read_zone.

(** Reading inside a zone.  [__zbc_read] over blocks of one zone
    terminates, returns the number of blocks asked for, and leaves in the
    buffer exactly what the initiator must see: the file's blocks below the
    write pointer and zeros from the write pointer on (all blocks of a
    conventional zone); nothing outside the buffer changes. *)
Theorem zbc_read_zone_visible (d : zbc_dev) (data : list Z) (i : nat) (z : zbc_zone) (m : mem)
  (buf : ptr) (n lba zt : Z) (old : list Z)
  (I : zinv d) (D : data_ok d data) (Hi : zd_zones d !! i = Some z)
  (Hl : z_start z <= lba) (Hn : 0 < n) (He : lba + n <= z_start z + z_len z)
  (Hzt : zt = 0 \/ zt = z_type z) (Hm : mem_load m buf (n * zd_lba_size d) = Some old) :
  exists m',
    __zbc_read sys_ok d data m buf n lba zt = Some (m', note_type d z zt, n) /\
    mem_load m' buf (n * zd_lba_size d) = Some (visible d z data lba n) /\
    (forall q j, range_disj buf (n * zd_lba_size d) q j -> mem_load m' q j = mem_load m q j).
Proof.
  unfold __zbc_read. pose proof (lookup_lt_Some _ _ _ Hi).
  destruct (length (zd_zones d)) as [|k]; [lia|].
  replace (S (2 * S k)) with (S (S (S (2 * k)))) by lia.
  by apply (read_zone_spec d data I D i z Hi (2 * k) m buf n lba zt old).
Qed.

(** ** Writing *)

Definition advanced_wp (z : zbc_zone) (lba count : Z) : Z :=
  if zbc_zone_seq_req z then z_wp z + count
  else if zbc_zone_seq_pref z then Z.max (z_wp z) (lba + count) else z_wp z.

(** The zone after [count] blocks were written at [lba]. *)
Definition advanced_zone (z : zbc_zone) (lba count : Z) : zbc_zone :=
  let z1 := zset_wp z (advanced_wp z lba count) in
  if zbc_zone_seq z && (z_start z + z_len z <=? z_wp z1)
  then zset_cond (zset_wp z1 (z_start z + z_len z)) ZBC_ZONE_COND_FULL else z1.

Lemma typed_cases d i z :
  zinv d -> zd_zones d !! i = Some z ->
  zbc_zone_conv z = true /\ zbc_zone_seq_req z = false /\ zbc_zone_seq_pref z = false \/
  zbc_zone_conv z = false /\ (zbc_zone_seq_req z = true /\ zbc_zone_seq_pref z = false \/
                              zbc_zone_seq_req z = false /\ zbc_zone_seq_pref z = true).
Proof.
  intros I Hi. pose proof (zi_type d I i z Hi) as Ht. unfold zone_typed in Ht.
  unfold zbc_zone_conv, zbc_zone_seq_req, zbc_zone_seq_pref.
  destruct Ht as [->|[[-> _]|[-> _]]]; auto.
Qed.

(** Storing a zone with the same condition. *)
Lemma zd_store_same_cond d i z y :
  zd_zones d !! i = Some z -> z_cond y = z_cond z -> zd_store d i y = upd d i z y.
Proof.
  intros Hi Hc. unfold zd_store, upd, zbc_zone_imp_open, zbc_zone_exp_open. rewrite Hc. f_equal; lia.
Qed.

Lemma write_advance_spec d i z lba count :
  zinv d -> zd_zones d !! i = Some z ->
  z_start z <= lba -> 0 <= count -> lba + count <= z_start z + z_len z ->
  (zbc_zone_conv z = true \/ zbc_zone_is_open z = true) ->
  (zbc_zone_seq_req z = true -> z_wp z = lba) ->
  write_advance d i lba count = Some (upd d i z (advanced_zone z lba count)) /\
  zinv (upd d i z (advanced_zone z lba count)).
Proof.
  intros I Hi Hl Hc He Ho Hreq. destruct (zone_end d i z I Hi) as (Hu & Hcap & H0 & Hlen).
  pose proof (zi_cap64 d I) as H64. pose proof (zi_zones d I i z Hi) as (Hz & _ & _).
  unfold write_advance. rewrite Hi. cbn [mbind option_bind].
  destruct (typed_cases d i z I Hi) as [(Hcv & Hr & Hp)|(Hcv & Hty)].
  - rewrite Hr, Hp. unfold advanced_zone, advanced_wp, zbc_zone_seq. rewrite Hcv, Hr, Hp. cbn [negb andb].
    replace (zset_wp z (z_wp z)) with z by (by destruct z).
    rewrite (zd_store_same_cond d i z z) by done. split; [done|]. by rewrite upd_id.
  - assert (zbc_zone_is_open z = true) as Hop by (destruct Ho; congruence).
    unfold zone_ok in Hz. rewrite Hcv in Hz. destruct Hz as (_ & _ & _ & Hw & _).
    set (w := advanced_wp z lba count).
    assert ((if zbc_zone_seq_req z then zset_wp z (u64 (z_wp z + count))
             else if zbc_zone_seq_pref z then
               if z_wp z <=? u64 (lba + count) then zset_wp z (u64 (lba + count)) else z
             else z) = zset_wp z w /\ z_wp z <= w <= z_start z + z_len z) as [-> Hwb].
    { unfold w, advanced_wp. destruct Hty as [[Hr Hp]|[Hr Hp]]; rewrite Hr, ?Hp.
      - rewrite (Hreq Hr) in *. rewrite u64_small by lia. split; [done|lia].
      - rewrite u64_small by lia. split; [|lia]. destruct (Z.leb_spec (z_wp z) (lba + count)).
        + by rewrite Z.max_r by lia.
        + rewrite Z.max_l by lia. by destruct z. }
    assert (zone_ok (zset_wp z w)) as Hzw.
    { unfold zone_ok, zset_wp, zbc_zone_conv in *. cbn. rewrite Hcv. split_and!; try lia.
      unfold zbc_zone_is_open, zbc_zone_imp_open, zbc_zone_exp_open in Hop.
      apply orb_prop in Hop as [Hop|Hop]; zbool; rewrite Hop; auto. }
    rewrite (zd_store_same_cond d i z (zset_wp z w)) by done.
    assert (zinv (upd d i z (zset_wp z w))) as I1 by (by apply zinv_upd).
    pose proof (upd_lookup d i z (zset_wp z w) Hi) as Hi1.
    cbn [zset_wp z_start z_len z_wp]. rewrite Hu.
    unfold advanced_zone. fold w. cbn [zset_wp z_wp].
    assert (zbc_zone_seq z = true) as Hseq by (unfold zbc_zone_seq; by rewrite Hcv).
    change (zbc_zone_seq (zset_wp z w)) with (zbc_zone_seq z). rewrite Hseq. cbn [andb].
    destruct (Z.leb_spec (z_start z + z_len z) w) as [Hfull|Hfull]; [|split; done].
    assert (w = z_start z + z_len z) as Hwe by lia.
    set (y := fun x => zset_cond (zset_wp x (z_start z + z_len z)) ZBC_ZONE_COND_FULL).
    pose proof (close_then_store (upd d i z (zset_wp z w)) i (zset_wp z w) y I1 Hi1) as Hcs.
    assert (zinv (upd d i z (y (zset_wp z w)))) as I2.
    { apply zinv_upd; try done. unfold zone_ok, y, zset_wp, zset_cond, zbc_zone_conv in *. cbn.
      rewrite Hcv. split_and!; auto 8; lia. }
    split; [|exact I2].
    unfold y in Hcs. rewrite Hcs, upd_upd; [done|done|done|].
    unfold close_of. by repeat case_if.
Qed.

Lemma zlimit_advance d i z lba count :
  zlimit d -> zlimit (upd d i z (advanced_zone z lba count)).
Proof.
  unfold zlimit, upd. cbn. intros L.
  assert ((zbc_zone_imp_open (advanced_zone z lba count) = zbc_zone_imp_open z /\
           zbc_zone_exp_open (advanced_zone z lba count) = zbc_zone_exp_open z) \/
          (zbc_zone_imp_open (advanced_zone z lba count) = false /\
           zbc_zone_exp_open (advanced_zone z lba count) = false)) as [[-> ->]|[-> ->]].
  { unfold advanced_zone. case_if; auto. }
  - lia.
  - unfold b2z. repeat case_if; lia.
Qed.

Lemma advanced_zone_geom z lba count :
  z_start (advanced_zone z lba count) = z_start z /\ z_len (advanced_zone z lba count) = z_len z /\
  z_type (advanced_zone z lba count) = z_type z.
Proof. unfold advanced_zone. by case_if. Qed.

(** The zone a write goes to is made ready: open, if it has a write pointer. *)
Definition ready_zone (z : zbc_zone) : zbc_zone :=
  if zbc_zone_seq z && negb (zbc_zone_is_open z) then zset_cond z ZBC_ZONE_COND_IMP_OPEN else z.

Lemma ready_spec d i z :
  zinv d -> zd_zones d !! i = Some z ->
  zbc_zone_seq z && negb (zbc_zone_is_open z) && (zd_nr_open_zones d <=? zd_nr_exp_open d) = false ->
  exists d1, (if zbc_zone_seq z && negb (zbc_zone_is_open z) then __zbc_open_zone d i false else Some d)
      = Some d1 /\
    zinv d1 /\ zframe d d1 /\ zd_zones d1 !! i = Some (ready_zone z) /\ (zlimit d -> zlimit d1).
Proof.
  intros I Hi Hg. unfold ready_zone.
  destruct (zbc_zone_seq z) eqn:Hs; cbn [andb] in *; [|exists d; auto with lio].
  destruct (zbc_zone_is_open z) eqn:Ho; cbn [negb andb] in *; [exists d; auto with lio|].
  zbool. destruct (open_zone_inv d i z false I Hi Ho) as (d1 & H1 & H2 & H3 & H4 & _ & _ & H5).
  { unfold zbc_zone_seq in Hs. by apply negb_true_iff. }
  exists d1. by split_and!; auto.
Qed.

Lemma ready_zone_facts z :
  z_start (ready_zone z) = z_start z /\ z_len (ready_zone z) = z_len z /\
  z_wp (ready_zone z) = z_wp z /\ z_type (ready_zone z) = z_type z /\
  (zbc_zone_conv (ready_zone z) = true \/ zbc_zone_is_open (ready_zone z) = true).
Proof.
  unfold ready_zone, zbc_zone_seq. destruct (zbc_zone_conv z) eqn:Hc; cbn; [auto 6|].
  destruct (zbc_zone_is_open z) eqn:Ho; cbn; auto 6.
Qed.

Lemma zframe_facts d d' : zframe d d' ->
  zd_capacity d' = zd_capacity d /\ zd_lba_size d' = zd_lba_size d /\ zd_model d' = zd_model d /\
  zd_zone_size d' = zd_zone_size d /\ zd_nr_open_zones d' = zd_nr_open_zones d.
Proof. by intros (? & ? & ? & ->). Qed.

(** What the write commands rely on at [lba]: in a sequential write required
    zone it is the write pointer. *)
Definition aligned (d : zbc_dev) (lba : Z) : Prop :=
  forall i z, zd_zones d !! i = Some z -> z_start z <= lba < z_start z + z_len z ->
    zbc_zone_seq_req z = true -> z_wp z = lba.

Definition zgood (d d' : zbc_dev) : Prop :=
  zinv d' /\ zframe d d' /\ (zlimit d -> zlimit d').

Lemma zfail_dev s key asc s' st : zfail s key asc = Some (s', st) -> zs_dev s' = zs_dev s.
Proof.
  unfold zfail. destruct (tcmu_set_sense_data _ _ _) as [[? ?]|]; simpl; intros H; by simplify_eq.
Qed.

Lemma zgood_refl d : zinv d -> zgood d d.
Proof. intros. split_and!; auto with lio. Qed.

Lemma zgood_trans d1 d2 d3 : zgood d1 d2 -> zgood d2 d3 -> zgood d1 d3.
Proof. intros (? & ? & ?) (? & ? & ?). split_and!; eauto with lio. Qed.

Lemma zfail_good s d key asc s' st :
  zgood d (zs_dev s) -> zfail s key asc = Some (s', st) -> zgood d (zs_dev s').
Proof. intros H E. by rewrite (zfail_dev _ _ _ _ _ E). Qed.

Lemma pwrite_bound sys data off bs ret data' :
  pwrite sys data off bs = (ret, data') -> ret <= Z.of_nat (length bs).
Proof. unfold pwrite. case_if; intros ?; simplify_eq; lia. Qed.

(** The lengths of an iovec are sizes, and seeking keeps them so. *)
Abbreviation iov_sizes iov := (Forall (fun v => 0 <= iov_len v) iov).

Lemma seek_sizes iov : forall n iov' c,
  0 <= n -> iov_sizes iov -> tcmu_seek_in_iovec iov n = Some (iov', c) -> iov_sizes iov'.
Proof.
  induction iov as [|v iov IH]; intros n iov' c Hn Hs; cbn [tcmu_seek_in_iovec];
    (case_if; [intros; by simplify_eq|]); [done|].
  inversion Hs as [|? ? Hv Hs']; subst. case_if.
  - destruct (tcmu_seek_in_iovec iov (n - iov_len v)) as [[v' c']|] eqn:E; [|done].
    cbn. intros ?; simplify_eq. constructor; [simpl; lia|]. eapply IH; [|done|exact E]. lia.
  - intros ?; simplify_eq. constructor; [simpl; lia|done].
Qed.

Lemma aligned_advance d i z lba nr cnt :
  zinv d -> zd_zones d !! i = Some z -> z_start z <= lba < z_start z + z_len z ->
  0 <= cnt <= nr -> lba + nr <= z_start z + z_len z ->
  (zbc_zone_seq_req z = true -> z_wp z = lba) ->
  0 < nr - cnt -> aligned (upd d i z (advanced_zone z lba cnt)) (lba + cnt).
Proof.
  intros I Hi Hl Hc He Hreq Hn j y Hj Hy Hr. destruct (advanced_zone_geom z lba cnt) as (G1 & G2 & G3).
  destruct (decide (i = j)) as [<-|Hne].
  - rewrite (upd_lookup d i z _ Hi) in Hj. injection Hj as <-.
    assert (zbc_zone_seq_req z = true) as Hr' by (unfold zbc_zone_seq_req in *; by rewrite <- G3).
    specialize (Hreq Hr'). unfold advanced_zone, advanced_wp. rewrite Hr'. cbn [zset_wp z_wp].
    case_if; cbn; lia.
  - cbn in Hj. rewrite list_lookup_insert_ne in Hj by done.
    exfalso. apply Hne. by apply (zone_unique d i j z y (lba + cnt)); auto; lia.
Qed.

Lemma write_count_bound ls count nr (bs : list Z) ret :
  0 < ls -> 0 <= count <= nr -> nr * ls < 2 ^ 64 -> Z.of_nat (length bs) = u64 (count * ls) ->
  0 < ret <= Z.of_nat (length bs) -> 0 <= ret / ls <= nr.
Proof.
  intros Hls Hc Hn Hb Hr. rewrite u64_small in Hb by nia.
  split; [apply Z.div_pos; lia|]. apply Z.div_le_upper_bound; nia.
Qed.

Lemma write_loop_inv sys fuel : forall s nr lba s' st,
  zinv (zs_dev s) -> zd_capacity (zs_dev s) * zd_lba_size (zs_dev s) < 2 ^ 64 ->
  iov_sizes (zs_iov s) -> 0 <= lba -> 0 <= nr -> lba + nr <= zd_capacity (zs_dev s) ->
  (0 < nr -> aligned (zs_dev s) lba) ->
  zbc_write_loop fuel sys s nr lba = Some (s', st) -> zgood (zs_dev s) (zs_dev s').
Proof.
  induction fuel as [|fuel IH]; intros s nr lba s' st I H64 Hsz Hl Hn Hc Ha; cbn [zbc_write_loop];
    (destruct (Z.eqb_spec nr 0) as [->|Hn0]; [intros; simplify_eq; by apply zgood_refl|]); [done|].
  set (d := zs_dev s) in *. pose proof (zi_cap64 d I) as Hc64. pose proof (zi_lba d I) as Hls.
  destruct (get_zone_at d lba I) as (i & z & -> & Hi & Hz); [lia|]. cbn [mbind option_bind]. rewrite Hi.
  cbn [mbind option_bind]. destruct (zone_end d i z I Hi) as (Hu & Hcap & Hz0 & _). rewrite Hu.
  rewrite (u64_small (lba + nr)) by lia.
  destruct (Z.ltb_spec (z_start z + z_len z) (lba + nr)) as [|Hend].
  { intros E. eapply zfail_good; [|exact E]. by apply zgood_refl. }
  destruct (zbc_zone_seq z && negb (zbc_zone_is_open z) && (zd_nr_open_zones d <=? zd_nr_exp_open d)) eqn:Hg.
  { intros E. eapply zfail_good; [|exact E]. by apply zgood_refl. }
  destruct (ready_spec d i z I Hi Hg) as (d1 & -> & I1 & F1 & Hi1 & L1). cbn [mbind option_bind].
  destruct (zframe_facts _ _ F1) as (EC & EL & _ & _ & EO).
  assert (zgood d d1) as G1 by (by split_and!).
  cbn [set_zdev zs_iov zs_mem zs_data]. rewrite !EL.
  destruct (zs_iov s) as [|v iov] eqn:Hiov; [done|].
  set (count := if iov_len v / zd_lba_size d <? nr then iov_len v / zd_lba_size d else nr).
  assert (0 <= count <= nr) as Hcount.
  { inversion Hsz; subst. assert (0 <= iov_len v / zd_lba_size d) by (by apply Z.div_pos).
    unfold count. case_if; lia. }
  destruct (mem_load (zs_mem s) (iov_base v) (u64 (count * zd_lba_size d))) as [bs|] eqn:Hbs; [|cbn; done].
  cbn [mbind option_bind].
  destruct (pwrite sys (zs_data s) (lba * zd_lba_size d) bs) as [ret data] eqn:Hpw.
  destruct (Z.leb_spec ret 0) as [|Hret].
  { intros E. eapply zfail_good; [|exact E]. done. }
  cbn [set_zdata zs_iov zs_dev set_ziov set_zdev]. rewrite Hiov.
  destruct (tcmu_seek_in_iovec (v :: iov) ret) as [[iov' c']|] eqn:Hsk; [|cbn; done]. cbn [mbind option_bind].
  set (cnt := ret / zd_lba_size d).
  assert (0 <= cnt <= nr) as Hcnt.
  { apply (write_count_bound _ count nr bs); try lia.
    - nia.
    - by eapply mem_load_length.
    - split; [lia|by eapply pwrite_bound]. }
  destruct (ready_zone_facts z) as (R1 & R2 & R3 & R4 & R5).
  assert (zbc_zone_seq_req (ready_zone z) = true -> z_wp (ready_zone z) = lba) as Hreq.
  { intros Hr. rewrite R3. apply (Ha ltac:(lia) i z Hi Hz). unfold zbc_zone_seq_req in *. by rewrite <- R4. }
  destruct (write_advance_spec d1 i (ready_zone z) lba cnt I1 Hi1) as [-> I2];
    rewrite ?R1, ?R2; auto; try lia.
  cbn [mbind option_bind set_zdev].
  assert (zgood d1 (upd d1 i (ready_zone z) (advanced_zone (ready_zone z) lba cnt))) as G2.
  { split_and!; auto using zlimit_advance with lio. }
  rewrite !u64_small by lia. intros E.
  eapply zgood_trans; [exact G1|]. eapply zgood_trans; [exact G2|].
  refine (IH _ _ _ _ _ _ _ _ _ _ _ _ E); clear E IH;
    cbn [zs_dev zs_iov set_zdev set_ziov zd_capacity zd_lba_size upd zd_set].
  - exact I2.
  - by rewrite EC, EL.
  - eapply seek_sizes; [|exact Hsz|exact Hsk]. lia.
  - lia.
  - lia.
  - rewrite EC. lia.
  - intros Hpos. apply (aligned_advance d1 i (ready_zone z) lba nr cnt); rewrite ?R1, ?R2; auto; lia.
Qed.

Lemma zfail_status s key asc s' st : zfail s key asc = Some (s', st) -> st <> TCMU_STS_OK.
Proof.
  unfold zfail, tcmu_set_sense_data. destruct (bset _ _ _); [|done]. cbn [mbind option_bind].
  destruct (__tcmu_set_sense_data _ _ _); [|done]. cbn. intros H; by simplify_eq.
Qed.

Lemma check_zones_facts fuel : forall s nr lba zt s' st,
  zinv (zs_dev s) -> 0 <= lba -> lba + nr <= zd_capacity (zs_dev s) ->
  zbc_write_check_zones fuel s nr lba zt = Some (s', st) ->
  zs_dev s' = zs_dev s /\ (st = TCMU_STS_OK -> s' = s /\ (0 < nr -> aligned (zs_dev s) lba)).
Proof.
  assert (forall s key asc s' st (P : Prop), zfail s key asc = Some (s', st) ->
    zs_dev s' = zs_dev s /\ (st = TCMU_STS_OK -> P)) as Hf.
  { intros s key asc s' st P E. split; [by eapply zfail_dev|].
    intros ->. by apply zfail_status in E. }
  assert (forall fuel s nr lba zt s' st, zbc_write_check_zones fuel s nr lba zt = Some (s', st) ->
    zs_dev s' = zs_dev s /\ (st = TCMU_STS_OK -> s' = s)) as Hs.
  { clear fuel. induction fuel as [|fuel IH]; intros s nr lba zt s' st; cbn [zbc_write_check_zones];
      (case_if; [by intros; simplify_eq|]); [done|].
    destruct (zbc_get_zone _ _ _) as [[i|]|]; [|by apply Hf|cbn; done]. cbn [mbind option_bind].
    destruct (_ !! i) as [z|]; [|cbn; done]. cbn [mbind option_bind].
    case_if; [by apply Hf|]. case_if; [case_if; by apply Hf|]. apply IH. }
  intros s nr lba zt s' st I Hl Hc E. destruct (Hs _ _ _ _ _ _ _ E) as [H1 H2]. split; [done|].
  intros Hst. split; [auto|]. intros Hn.
  destruct fuel as [|fuel]; cbn [zbc_write_check_zones] in E;
    rewrite (proj2 (Z.eqb_neq nr 0)) in E by lia; [done|].
  destruct (get_zone_at (zs_dev s) lba I) as (i & z & Hg & Hi & Hz); [lia|].
  rewrite Hg in E. cbn [mbind option_bind] in E. rewrite Hi in E. cbn [mbind option_bind] in E.
  intros j y Hj Hy Hr. rewrite (zone_unique _ j i y z lba I Hj Hi Hy Hz) in Hj.
  rewrite Hi in Hj. injection Hj as ->.
  case_if_in E; [by apply zfail_status in E|].
  rewrite Hr in E. cbn [andb] in E. destruct (Z.eqb_spec lba (z_wp y)); [done|].
  cbn [negb] in E. case_if_in E; by apply zfail_status in E.
Qed.

(** ** Every command *)

Lemma zsend_dev s buf len s' st : zsend s buf len = Some (s', st) -> zs_dev s' = zs_dev s.
Proof.
  unfold zsend. destruct (tcmu_memcpy_into_iovec _ _ _ _ _) as [[[? ?] ?]|]; cbn; [|done].
  intros; by simplify_eq.
Qed.

Lemma zsend_page_dev s page len s' st : zsend_page s page len = Some (s', st) -> zs_dev s' = zs_dev s.
Proof. unfold zsend_page. destruct page; [apply zsend_dev|done]. Qed.

Lemma zapi_dev s r s' st : zapi s r = Some (s', st) -> zs_dev s' = zs_dev s.
Proof. unfold zapi. destruct r as [[[? ?] ?]|]; cbn; [|done]. intros; by simplify_eq. Qed.

#[local] Hint Resolve zfail_dev zsend_dev zsend_page_dev zapi_dev : zdev.

(** Commands that only report leave the device alone. *)
Ltac dev_only :=
  repeat first
    [ case_if
    | match goal with
      | |- context [match ?x with Some _ => _ | None => _ end] => destruct x
      | |- (?x ≫= _) = Some _ -> _ => destruct x as [?|]; cbn [mbind option_bind]; [|done]
      | |- context [let '(_, _) := ?x in _] => destruct x as [? ?]
      end ];
  first [by eauto with zdev | intros; by simplify_eq].

Lemma zbc_inquiry_dev dev hw cdb s s' st :
  zbc_inquiry dev hw cdb s = Some (s', st) -> zs_dev s' = zs_dev s.
Proof.
  unfold zbc_inquiry, zbc_evpd_inquiry, zbc_std_inquiry. dev_only.
Qed.

Lemma report_fill_dev fuel : forall s ro lba i len s' st,
  report_fill fuel s ro lba i len = Some (s', st) -> zs_dev s' = zs_dev s.
Proof.
  induction fuel as [|fuel IH]; intros s ro lba i len s' st; cbn [report_fill];
    (case_if; [|by intros; simplify_eq]); [done|].
  destruct (_ !! i) as [z|]; [|cbn; done]. cbn [mbind option_bind]. case_if; [|apply IH].
  destruct (zone_descriptor z); [|cbn; done]. cbn [mbind option_bind].
  destruct (zsend s _ 64) as [[s1 st1]|] eqn:E; [|cbn; done]. cbn [mbind option_bind].
  intros HE. rewrite (IH _ _ _ _ _ _ _ HE). by eapply zsend_dev.
Qed.

Lemma zbc_in_dev cdb s s' st : zbc_in cdb s = Some (s', st) -> zs_dev s' = zs_dev s.
Proof.
  unfold zbc_in, zbc_report_zones. case_if; [|by eauto with zdev].
  case_if; [by eauto with zdev|].
  destruct (tcmu_get_lba cdb); [|cbn; done]. cbn [mbind option_bind].
  case_if; [by eauto with zdev|].
  destruct (tcmu_get_xfer_length cdb); [|cbn; done]. cbn [mbind option_bind].
  destruct (zbc_get_zone _ _ _) as [[i|]|]; [|cbn; done..]. cbn [mbind option_bind].
  destruct (report_count _ _ _ _ _ _ _ _); [|cbn; done]. cbn [mbind option_bind].
  destruct (report_header _ _); [|cbn; done]. cbn [mbind option_bind].
  destruct (tcmu_memcpy_into_iovec _ _ _ _ _) as [[[? ?] ?]|]; [|cbn; done]. cbn [mbind option_bind].
  case_if; [by intros; simplify_eq|].
  destruct (tcmu_iovec_length _ _); [|cbn; done]. cbn [mbind option_bind].
  intros HE. by apply report_fill_dev in HE.
Qed.

Lemma zbc_mode_sense_dev cdb s s' st : zbc_mode_sense cdb s = Some (s', st) -> zs_dev s' = zs_dev s.
Proof.
  unfold zbc_mode_sense. destruct (tcmu_get_xfer_length cdb); [|cbn; done]. cbn [mbind option_bind].
  match goal with |- (?x ≫= _) = _ -> _ => destruct x as [[[d u]|]|] end; cbn [mbind option_bind];
    by eauto with zdev.
Qed.

Lemma read_iov_dev sys iov : forall s lba zt s' st,
  zbc_read_iov sys s iov lba zt = Some (s', st) -> zs_dev s' = zs_dev s.
Proof.
  induction iov as [|v iov IH]; intros s lba zt s' st; cbn [zbc_read_iov]; [by intros; simplify_eq|].
  destruct (__zbc_read _ _ _ _ _ _ _ _) as [[[m zt'] ret]|]; [|cbn; done]. cbn [mbind option_bind].
  case_if; [case_if; intros HE; by apply zfail_dev in HE|].
  intros HE. by apply IH in HE.
Qed.

Lemma check_rdwr_facts cdb s s' st :
  zbc_check_rdwr cdb s = Some (s', st) ->
  zs_dev s' = zs_dev s /\ (st = TCMU_STS_OK -> s' = s /\
    forall lba nr, tcmu_get_lba cdb = Some lba -> tcmu_get_xfer_length cdb = Some nr ->
      u64 (lba + nr) <= zd_capacity (zs_dev s) /\ lba <= u64 (lba + nr)).
Proof.
  unfold zbc_check_rdwr. destruct (tcmu_get_lba cdb); [|cbn; done]. cbn [mbind option_bind].
  destruct (tcmu_get_xfer_length cdb); [|cbn; done]. cbn [mbind option_bind].
  destruct (tcmu_iovec_length _ _); [|cbn; done]. cbn [mbind option_bind].
  case_if.
  { intros E. split; [by eapply zfail_dev|]. intros ->. by apply zfail_status in E. }
  case_if.
  { intros E. split; [by eapply zfail_dev|]. intros ->. by apply zfail_status in E. }
  intros; simplify_eq. split; [done|]. intros _. split; [done|]. intros; simplify_eq. lia.
Qed.

Lemma zbc_read_dev sys cdb s s' st : zbc_read sys cdb s = Some (s', st) -> zs_dev s' = zs_dev s.
Proof.
  unfold zbc_read. destruct (tcmu_get_lba cdb); [|cbn; done]. cbn [mbind option_bind].
  destruct (zbc_check_rdwr cdb s) as [[s1 st1]|] eqn:E; [|cbn; done]. cbn [mbind option_bind].
  apply check_rdwr_facts in E as [E _]. case_if; [by intros; simplify_eq|].
  intros HE. apply read_iov_dev in HE. congruence.
Qed.

Lemma zbc_write_good sys cdb s s' st :
  zinv (zs_dev s) -> zd_capacity (zs_dev s) * zd_lba_size (zs_dev s) < 2 ^ 64 ->
  iov_sizes (zs_iov s) -> bytes_ok cdb ->
  zbc_write sys cdb s = Some (s', st) -> zgood (zs_dev s) (zs_dev s').
Proof.
  intros I H64 Hsz Hb. unfold zbc_write.
  destruct (tcmu_get_lba cdb) as [lba|] eqn:Hlba; [|cbn; done]. cbn [mbind option_bind].
  destruct (tcmu_get_xfer_length cdb) as [nr|] eqn:Hnr; [|cbn; done]. cbn [mbind option_bind].
  pose proof (tcmu_get_lba_bound cdb lba Hb Hlba). pose proof (tcmu_get_xfer_length_bound cdb nr Hb Hnr).
  destruct (zbc_check_rdwr cdb s) as [[s1 st1]|] eqn:E1; [|cbn; done]. cbn [mbind option_bind].
  apply check_rdwr_facts in E1 as [D1 F1]. unfold sts_ok. case_if.
  { intros; simplify_eq. rewrite D1. by apply zgood_refl. }
  zbool. rewrite bool_decide_eq_true in *. subst st1. destruct (F1 eq_refl) as [-> Hr].
  destruct (Hr lba nr Hlba Hnr) as [Hr1 Hr2].
  assert (lba + nr <= zd_capacity (zs_dev s)) as Hcap.
  { unfold u64, wrap in *. pose proof (zi_cap64 _ I). dlia. }
  destruct (zbc_write_check_zones _ s nr lba 0) as [[s2 st2]|] eqn:E2; [|cbn; done].
  cbn [mbind option_bind]. apply check_zones_facts in E2 as [D2 F2]; [|done|lia|done]. case_if.
  { intros; simplify_eq. rewrite D2. by apply zgood_refl. }
  zbool. rewrite bool_decide_eq_true in *. subst st2. destruct (F2 eq_refl) as [-> Ha].
  apply write_loop_inv; auto; lia.
Qed.


(** Small devices for the concrete instances: 8-block zones of 512 bytes. *)
Definition tiny_zones (model : Z) (zs : list zbc_zone) (imp exp : Z) : zbc_dev :=
  ZDev demo_zcfg 4096 model 24 512 8 zs 3 1 1 imp exp.
Definition tiny_conv : zbc_zone := Zone 0 8 (2 ^ 64 - 1) ZBC_ZONE_TYPE_CONVENTIONAL ZBC_ZONE_COND_NOT_WP 0 0.
Definition tiny_seq (i wp cond : Z) : zbc_zone :=
  Zone (8 * i) 8 wp ZBC_ZONE_TYPE_SEQWRITE_REQ cond 0 0.
Definition tiny_dev : zbc_dev :=
  tiny_zones ZBC_HM [tiny_conv; tiny_seq 1 16 ZBC_ZONE_COND_FULL; tiny_seq 2 20 ZBC_ZONE_COND_IMP_OPEN] 1 0.
Definition tiny_data : list Z := replicate 12288 170.

Lemma tiny_inv : zinv tiny_dev.
Proof. apply zinvb_sound. by vm_compute. Qed.

Lemma tiny_data_ok : data_ok tiny_dev tiny_data.
Proof. by split. Qed.

Lemma zbc_read_zone_visible_witness :
  exists m',
    __zbc_read sys_ok tiny_dev tiny_data {[ 0%nat := replicate 2048 1 ]} (Ptr 0 0) 4 18 0 =
      Some (m', ZBC_ZONE_TYPE_SEQWRITE_REQ, 4) /\
    mem_load m' (Ptr 0 0) 2048 = Some (visible tiny_dev (tiny_seq 2 20 ZBC_ZONE_COND_IMP_OPEN) tiny_data 18 4) /\
    (forall q j, range_disj (Ptr 0 0) 2048 q j ->
       mem_load m' q j = mem_load {[ 0%nat := replicate 2048 1 ]} q j).
Proof.
  apply (zbc_read_zone_visible tiny_dev tiny_data 2 (tiny_seq 2 20 ZBC_ZONE_COND_IMP_OPEN)
    {[ 0%nat := replicate 2048 1 ]} (Ptr 0 0) 4 18 0 (replicate 2048 1) tiny_inv tiny_data_ok);
    try done; try (left; done); try (vm_compute; done).
Defined.

Definition tiny_cmd (iov : list iovec) : zst :=
  ZSt tiny_dev tiny_data {[ 0%nat := replicate 2048 7 ]} iov (zeros 18).
(** WRITE(10) and READ(10). *)
Definition cdb10 (op lba n : Z) : list Z := [op; 0] ++ be_enc 4 lba ++ [0] ++ be_enc 2 n ++ [0].
Definition tiny_env : zbc_env := ZEnv demo_dev 512 sys_ok 0 [].


(** ** A write at the write pointer *)

Definition spliced (d : zbc_dev) (data : list Z) (lba : Z) (bs : list Z) : list Z :=
  take (Z.to_nat (lba * zd_lba_size d)) data ++ bs ++
  drop (Z.to_nat (lba * zd_lba_size d) + length bs) data.

Lemma pwrite_all data off bs :
  pwrite sys_ok data off bs =
  (Z.of_nat (length bs), take (Z.to_nat off) data ++ bs ++ drop (Z.to_nat off + length bs) data).
Proof.
  unfold pwrite. cbn [pwrite_ret sys_ok]. rewrite (proj2 (Z.ltb_ge _ 0)) by lia.
  by rewrite Z.min_id, Nat2Z.id, (take_ge bs) by lia.
Qed.

Lemma seq_wp d i z :
  zinv d -> zd_zones d !! i = Some z -> zbc_zone_seq_req z = true ->
  zbc_zone_conv z = false /\ z_start z <= z_wp z <= z_start z + z_len z.
Proof.
  intros I Hi Hreq. destruct (zi_zones _ I i z Hi) as ((_ & _ & _ & Hw) & _ & _).
  destruct (typed_cases _ i z I Hi) as [(? & ? & _)|(Hc & _)]; [congruence|].
  rewrite Hc in Hw. by destruct Hw as [Hw _].
Qed.

Section write_zone.
Context (cdb : list Z) (s : zst) (i : nat) (z : zbc_zone) (v : iovec) (vs : list iovec) (nr n : Z) (bs : list Z).
Hypothesis I : zinv (zs_dev s).
Hypothesis D : data_ok (zs_dev s) (zs_data s).
Hypothesis Hi : zd_zones (zs_dev s) !! i = Some z.
Hypothesis Hreq : zbc_zone_seq_req z = true.
Hypothesis Hlba : tcmu_get_lba cdb = Some (z_wp z).
Hypothesis Hnr : tcmu_get_xfer_length cdb = Some nr.
Hypothesis Hpos : 0 < nr.
Hypothesis Hfit : z_wp z + nr <= z_start z + z_len z.
Hypothesis Hroom : zbc_zone_is_open z = true \/ zd_nr_exp_open (zs_dev s) < zd_nr_open_zones (zs_dev s).
Hypothesis Hiov : zs_iov s = v :: vs.
Hypothesis Hn : 0 < n <= nr.
Hypothesis Hlen : iov_len v = n * zd_lba_size (zs_dev s).
Hypothesis Htot : tcmu_iovec_length (v :: vs) (Z.of_nat (length (v :: vs))) =
  Some (nr * zd_lba_size (zs_dev s)).
Hypothesis Hbs : mem_load (zs_mem s) (iov_base v) (n * zd_lba_size (zs_dev s)) = Some bs.

Local Lemma wz_facts :
  zbc_zone_conv z = false /\ z_start z <= z_wp z /\ z_start z + z_len z <= zd_capacity (zs_dev s) /\
  u64 (z_start z + z_len z) = z_start z + z_len z /\ 0 <= z_start z /\
  0 < nr * zd_lba_size (zs_dev s) /\
  u64 (nr * zd_lba_size (zs_dev s)) = nr * zd_lba_size (zs_dev s).
Proof.
  destruct (zone_end _ i z I Hi) as (Hu & Hcap & H0 & _).
  destruct (seq_wp _ i z I Hi Hreq) as [Hc Hw]. pose proof (zi_lba _ I).
  rewrite (bytes_small _ (zs_data s) nr) by (done || lia). split_and!; auto; try lia; nia.
Qed.

Local Lemma wz_check : zbc_check_rdwr cdb s = Some (s, TCMU_STS_OK).
Proof.
  destruct wz_facts as (_ & Hs & Hcap & _ & H0 & Hb & Hu). pose proof (zi_cap64 _ I).
  unfold zbc_check_rdwr. rewrite Hlba, Hnr, Hiov, Htot. cbn [mbind option_bind].
  rewrite Hu, Z.eqb_refl. cbn [negb].
  rewrite (u64_small (z_wp z + nr)) by lia.
  rewrite (proj2 (Z.ltb_ge (zd_capacity _) _)), (proj2 (Z.ltb_ge _ (z_wp z))) by lia. done.
Qed.

Local Lemma wz_zones fuel zt :
  zt = 0 -> zbc_write_check_zones (S (S fuel)) s nr (z_wp z) zt = Some (s, TCMU_STS_OK).
Proof.
  intros ->. destruct wz_facts as (Hc & Hs & Hcap & Hu & H0 & _). pose proof (zi_cap64 _ I).
  cbn [zbc_write_check_zones]. rewrite (proj2 (Z.eqb_neq nr 0)) by lia.
  destruct (get_zone_in _ i z (z_wp z) I Hi) as [-> _]; [lia|]. cbn [mbind option_bind].
  rewrite Hi. cbn [mbind option_bind]. rewrite Hu, (u64_small (z_wp z + nr)) by lia.
  rewrite Z.eqb_refl, Hreq, (proj2 (Z.ltb_ge _ _)), Z.eqb_refl by lia. cbn [negb orb andb Z.eqb]. cbn [negb orb andb]. by rewrite Z.sub_diag.
Qed.

(** The first round of the loop writes the first segment. *)
Local Lemma wz_round fuel :
  exists s', zbc_write_loop (S fuel) sys_ok s nr (z_wp z) =
      zbc_write_loop fuel sys_ok s' (nr - n) (z_wp z + n) /\
    zgood (zs_dev s) (zs_dev s') /\ zs_mem s' = zs_mem s /\
    zd_zones (zs_dev s') !! i = Some (advanced_zone (ready_zone z) (z_wp z) n) /\
    zs_data s' = spliced (zs_dev s) (zs_data s) (z_wp z) bs /\
    zs_sense s' = zs_sense s /\ zs_iov s' = Iov (iov_base v) 0 :: vs.
Proof.
  destruct wz_facts as (Hc & Hs & Hcap & Hu & H0 & Hb & Hub). pose proof (zi_cap64 _ I).
  pose proof (zi_lba _ I) as Hls. pose proof (do_64 _ _ D).
  assert (0 < n * zd_lba_size (zs_dev s)) as Hnb by nia.
  assert (u64 (n * zd_lba_size (zs_dev s)) = n * zd_lba_size (zs_dev s)) as Hun
    by (apply (bytes_small _ (zs_data s)); auto; lia).
  cbn [zbc_write_loop]. rewrite (proj2 (Z.eqb_neq nr 0)) by lia.
  destruct (get_zone_in _ i z (z_wp z) I Hi) as [-> _]; [lia|]. cbn [mbind option_bind].
  rewrite Hi. cbn [mbind option_bind]. rewrite Hu, (u64_small (z_wp z + nr)) by lia.
  rewrite (proj2 (Z.ltb_ge _ (z_wp z + nr))) by lia.
  assert (zbc_zone_seq z && negb (zbc_zone_is_open z) &&
    (zd_nr_open_zones (zs_dev s) <=? zd_nr_exp_open (zs_dev s)) = false) as Hg.
  { destruct Hroom as [->|]; [by rewrite andb_false_r|].
    rewrite (proj2 (Z.leb_gt _ _)) by lia. apply andb_false_r. }
  rewrite Hg. destruct (ready_spec _ i z I Hi Hg) as (d1 & -> & I1 & F1 & Hi1 & L1).
  destruct (zframe_facts _ _ F1) as (EC & EL & _ & _ & _).
  cbn [mbind option_bind set_zdev zs_iov zs_mem zs_data]. rewrite Hiov, EL, Hlen, Z.div_mul by lia.
  replace (if n <? nr then n else nr) with n by (case_if; lia).
  rewrite Hun, Hbs. cbn [mbind option_bind].
  pose proof (mem_load_length _ _ _ _ Hbs) as Lb.
  rewrite pwrite_all, (proj2 (Z.leb_gt _ 0)) by lia.
  cbn [set_zdata zs_iov zs_dev set_ziov set_zdev]. rewrite Hiov.
  cbn [tcmu_seek_in_iovec].
  rewrite (proj2 (Z.eqb_neq (Z.of_nat (length bs)) 0)), Hlen, Lb, Z.leb_refl, Z.sub_diag by lia.
  replace (tcmu_seek_in_iovec vs 0) with (Some (vs, 0)) by (by destruct vs).
  cbn [mbind option_bind]. rewrite Z.div_mul by lia.
  destruct (ready_zone_facts z) as (R1 & R2 & R3 & R4 & R5).
  destruct (write_advance_spec d1 i (ready_zone z) (z_wp z) n I1 Hi1) as [-> I2];
    rewrite ?R1, ?R2; auto; try lia.
  cbn [mbind option_bind]. rewrite !u64_small by lia.
  eexists. split; [reflexivity|]. cbn [zs_dev zs_mem zs_data zs_iov zs_sense set_zdev set_ziov set_zdata].
  split; [unfold zgood; split_and!; eauto using zlimit_advance with lio|].
  split; [done|]. split; [by apply upd_lookup|done].
Qed.

(** The checks before the loop pass. *)
Local Lemma wz_start :
  exists fuel, zbc_write sys_ok cdb s = zbc_write_loop (S (S fuel)) sys_ok s nr (z_wp z).
Proof.
  destruct wz_facts as (_ & _ & _ & _ & _ & Hb & _).
  unfold zbc_write. rewrite Hlba, Hnr, wz_check. cbn [mbind option_bind].
  unfold sts_ok. rewrite bool_decide_true by done. cbn [negb].
  pose proof (lookup_lt_Some _ _ _ Hi). destruct (length (zd_zones (zs_dev s))) as [|k]; [lia|].
  rewrite wz_zones by done. cbn [mbind option_bind]. rewrite bool_decide_true by done. cbn [negb].
  destruct (Z.to_nat (nr * zd_lba_size (zs_dev s))) as [|j] eqn:Hj; [lia|]. by exists j.
Qed.

Lemma write_zone_spec :
  n = nr ->
  exists s', zbc_write sys_ok cdb s = Some (s', TCMU_STS_OK) /\
    zgood (zs_dev s) (zs_dev s') /\ zs_mem s' = zs_mem s /\
    zd_zones (zs_dev s') !! i = Some (advanced_zone (ready_zone z) (z_wp z) nr) /\
    zs_data s' = spliced (zs_dev s) (zs_data s) (z_wp z) bs.
Proof.
  intros Hnn. destruct wz_start as [fuel ->]. destruct (wz_round (S fuel)) as (s' & -> & G & M & Z & F & _).
  exists s'. replace (nr - n) with 0 by lia. rewrite Hnn in Z. by split_and!; try apply G.
Qed.

(** A segment shorter than the write: the next round finds it consumed. *)
Lemma write_segment_spec :
  n < nr -> (18 <= length (zs_sense s))%nat ->
  exists s', zbc_write sys_ok cdb s = zfail s' MEDIUM_ERROR ASC_WRITE_ERROR /\
    zgood (zs_dev s) (zs_dev s') /\ zs_sense s' = zs_sense s /\
    zd_zones (zs_dev s') !! i = Some (advanced_zone (ready_zone z) (z_wp z) n) /\
    zs_data s' = spliced (zs_dev s) (zs_data s) (z_wp z) bs.
Proof.
  intros Hlt HS. destruct wz_start as [fuel ->].
  destruct (wz_round (S fuel)) as (s1 & -> & G & M & Hz & F & HS1 & V).
  destruct G as (I1 & F1 & L1). destruct (zframe_facts _ _ F1) as (EC & EL & _ & _ & _).
  destruct wz_facts as (Hc & Hs & Hcap & Hu & H0 & Hb & Hub). pose proof (zi_cap64 _ I).
  destruct (ready_zone_facts z) as (R1 & R2 & R3 & R4 & R5).
  destruct (advanced_zone_geom (ready_zone z) (z_wp z) n) as (A1 & A2 & A3).
  set (y := advanced_zone (ready_zone z) (z_wp z) n) in *.
  assert (zbc_zone_is_open y = true) as Ho.
  { unfold y, advanced_zone, advanced_wp, zbc_zone_seq_req. rewrite R4.
    unfold zbc_zone_seq_req in Hreq. rewrite Hreq. cbn [zset_wp z_wp]. rewrite R1, R2, R3.
    rewrite (proj2 (Z.leb_gt _ _)) by lia. rewrite andb_false_r.
    destruct R5 as [R5|R5]; [unfold zbc_zone_conv in *; congruence|]. by rewrite <- R5. }
  cbn [zbc_write_loop]. rewrite (proj2 (Z.eqb_neq (nr - n) 0)) by lia.
  destruct (get_zone_in _ i y (z_wp z + n) I1 Hz) as [-> _]; [rewrite A1, A2, R1, R2; lia|].
  cbn [mbind option_bind]. rewrite Hz. cbn [mbind option_bind].
  rewrite A1, A2, R1, R2, Hu, (u64_small (z_wp z + n + (nr - n))) by lia.
  rewrite (proj2 (Z.ltb_ge _ (z_wp z + n + (nr - n)))) by lia.
  rewrite Ho, andb_false_r. cbn [negb andb mbind option_bind set_zdev zs_iov zs_mem zs_data zs_dev].
  rewrite V. cbn [iov_len iov_base]. rewrite Z.div_0_l by (rewrite EL; pose proof (zi_lba _ I); lia).
  rewrite (proj2 (Z.ltb_lt 0 _)) by lia. cbn [Z.mul]. change (u64 0) with 0.
  rewrite mem_load_0. cbn [mbind option_bind]. rewrite pwrite_all. cbn [length Z.of_nat Z.leb Z.compare].
  eexists. split; [reflexivity|]. cbn [zs_dev zs_sense zs_data set_zdata set_zdev app].
  split; [done|]. split; [done|]. split; [done|]. by rewrite Nat.add_0_r, take_drop.
Qed.
End write_zone.

Lemma blocks_spliced d d' data lba nr bs :
  zd_lba_size d' = zd_lba_size d -> Z.of_nat (length bs) = nr * zd_lba_size d ->
  0 <= lba * zd_lba_size d <= Z.of_nat (length data) ->
  blocks d' (spliced d data lba bs) lba nr = bs.
Proof.
  intros E L Hl. unfold blocks, spliced. rewrite E, <- L, Nat2Z.id.
  rewrite drop_app_length' by (rewrite length_take; lia). by rewrite take_app_length.
Qed.

(** write, then read.  On a consistent host managed device, a write at
    the write pointer of a sequential zone that fits the zone (and finds an
    open zone or a free open slot) succeeds; it stores exactly its data and
    touches no other byte of the backstore, advances the write pointer by the
    number of blocks, leaves the zone open, or full when its end is reached,
    keeps the zone invariant and the open zone limit; and reading the same
    blocks afterwards, from any buffer, returns the data written. *)
Theorem zbc_write_then_read (cdb : list Z) (s : zst) (i : nat) (z : zbc_zone) (v : iovec) (nr : Z)
  (bs : list Z) (I : zinv (zs_dev s)) (D : data_ok (zs_dev s) (zs_data s))
  (Hi : zd_zones (zs_dev s) !! i = Some z) (Hreq : zbc_zone_seq_req z = true)
  (Hlba : tcmu_get_lba cdb = Some (z_wp z)) (Hnr : tcmu_get_xfer_length cdb = Some nr)
  (Hpos : 0 < nr) (Hfit : z_wp z + nr <= z_start z + z_len z)
  (Hroom : zbc_zone_is_open z = true \/ zd_nr_exp_open (zs_dev s) < zd_nr_open_zones (zs_dev s))
  (Hiov : zs_iov s = [v]) (Hlen : iov_len v = nr * zd_lba_size (zs_dev s))
  (Hbs : mem_load (zs_mem s) (iov_base v) (nr * zd_lba_size (zs_dev s)) = Some bs) :
  exists s' z', zbc_write sys_ok cdb s = Some (s', TCMU_STS_OK) /\
    zs_data s' = spliced (zs_dev s) (zs_data s) (z_wp z) bs /\
    zinv (zs_dev s') /\ (zlimit (zs_dev s) -> zlimit (zs_dev s')) /\
    zd_zones (zs_dev s') !! i = Some z' /\ z_wp z' = z_wp z + nr /\
    z_cond z' = (if z_wp z + nr =? z_start z + z_len z then ZBC_ZONE_COND_FULL
                 else if zbc_zone_is_open z then z_cond z else ZBC_ZONE_COND_IMP_OPEN) /\
    (forall m buf old, mem_load m buf (nr * zd_lba_size (zs_dev s)) = Some old ->
       exists m', __zbc_read sys_ok (zs_dev s') (zs_data s') m buf nr (z_wp z) 0 =
           Some (m', note_type (zs_dev s') z' 0, nr) /\
         mem_load m' buf (nr * zd_lba_size (zs_dev s)) = Some bs).
Proof.
  assert (tcmu_iovec_length [v] (Z.of_nat (length [v])) = Some (nr * zd_lba_size (zs_dev s))) as Htot.
  { change (tcmu_iovec_length [v] _) with (Some (u64 (0 + iov_len v))).
    destruct (zone_end _ i z I Hi) as (_ & Hcap & H0 & _).
    assert (z_start z <= z_wp z) by (apply (seq_wp (zs_dev s) i z I Hi Hreq)).
    rewrite Z.add_0_l, Hlen, (bytes_small _ (zs_data s)) by (done || lia). done. }
  destruct (write_zone_spec cdb s i z v [] nr nr bs) as (s' & E & (I' & F' & L') & _ & Hz' & Hd');
    auto; [lia|].
  destruct (wz_facts s i z nr nr) as (Hc & Hs & Hcap & _ & H0 & Hb & _); auto; [lia|].
  destruct (ready_zone_facts z) as (R1 & R2 & R3 & R4 & _).
  set (z' := advanced_zone (ready_zone z) (z_wp z) nr) in *.
  destruct (advanced_zone_geom (ready_zone z) (z_wp z) nr) as (A1 & A2 & A3). fold z' in A1, A2, A3.
  assert (z_wp z' = z_wp z + nr /\ z_cond z' = (if z_wp z + nr =? z_start z + z_len z then ZBC_ZONE_COND_FULL
    else if zbc_zone_is_open z then z_cond z else ZBC_ZONE_COND_IMP_OPEN)) as [Hw Hcd].
  { unfold z', advanced_zone, advanced_wp. 
    assert (zbc_zone_seq_req (ready_zone z) = true) as -> by (unfold zbc_zone_seq_req in *; by rewrite R4).
    assert (zbc_zone_seq (ready_zone z) = true) as ->.
    { unfold zbc_zone_seq, zbc_zone_conv in *. rewrite R4. by rewrite Hc. }
    cbn [andb zset_wp z_wp]. rewrite R1, R2, R3.
    destruct (Z.leb_spec (z_start z + z_len z) (z_wp z + nr)).
    - cbn. rewrite (proj2 (Z.eqb_eq _ _)) by lia. split; [lia|done].
    - cbn. rewrite (proj2 (Z.eqb_neq _ _)) by lia. split; [done|].
      unfold ready_zone, zbc_zone_seq. rewrite Hc. by destruct (zbc_zone_is_open z). }
  destruct (zframe_facts _ _ F') as (EC & EL & _).
  pose proof (mem_load_length _ _ _ _ Hbs) as Lb. destruct D as [Dl D64].
  assert (0 <= z_wp z * zd_lba_size (zs_dev s)) by (pose proof (zi_lba _ I); apply Z.mul_nonneg_nonneg; lia).
  assert ((z_wp z + nr) * zd_lba_size (zs_dev s) <= zd_capacity (zs_dev s) * zd_lba_size (zs_dev s))
    by (pose proof (zi_lba _ I); apply Z.mul_le_mono_nonneg_r; lia).
  exists s', z'. split; [done|]. split; [done|]. split; [done|]. split; [done|]. split; [done|].
  split; [done|]. split; [done|]. intros m buf old Hm.
  pose proof (lookup_lt_Some _ _ _ Hz') as Hlt. unfold __zbc_read.
  destruct (length (zd_zones (zs_dev s'))) as [|k]; [lia|].
  replace (S (2 * S k)) with (S (S (S (2 * k)))) by lia. rewrite <- EL in Hm.
  destruct (read_zone_spec (zs_dev s') (zs_data s') I') with (i := i) (z := z') (fuel := (2 * k)%nat)
    (m := m) (buf := buf) (n := nr) (lba := z_wp z) (zt := 0) (old := old)
    as (m' & Er & Hm' & _); auto; rewrite ?A1, ?A2, ?R1, ?R2; try lia.
  { split; rewrite EC, EL; [|done]. rewrite Hd'. unfold spliced.
    rewrite !length_app, length_take, length_drop. lia. }
  exists m'. split; [done|]. rewrite <- EL, Hm'. f_equal.
  unfold visible. assert (zbc_zone_conv z' = false) as -> by (unfold zbc_zone_conv in *; by rewrite A3, R4).
  rewrite Hw. replace (Z.max 0 (Z.min nr (z_wp z + nr - z_wp z))) with nr by lia.
  rewrite Z.sub_diag, Hd', (blocks_spliced (zs_dev s)) by (done || lia). apply app_nil_r.
Qed.

Lemma zbc_write_then_read_witness :
  exists s' z', zbc_write sys_ok (cdb10 WRITE_10 20 4) (tiny_cmd [Iov (Ptr 0 0) 2048]) =
      Some (s', TCMU_STS_OK) /\
    zd_zones (zs_dev s') !! 2%nat = Some z' /\ z_wp z' = 24 /\ z_cond z' = ZBC_ZONE_COND_FULL /\
    exists m', __zbc_read sys_ok (zs_dev s') (zs_data s') {[ 0%nat := replicate 2048 1 ]} (Ptr 0 0) 4 20 0 =
        Some (m', note_type (zs_dev s') z' 0, 4) /\
      mem_load m' (Ptr 0 0) 2048 = Some (replicate 2048 7).
Proof.
  destruct (zbc_write_then_read (cdb10 WRITE_10 20 4) (tiny_cmd [Iov (Ptr 0 0) 2048]) 2
    (tiny_seq 2 20 ZBC_ZONE_COND_IMP_OPEN) (Iov (Ptr 0 0) 2048) 4 (replicate 2048 7)
    tiny_inv tiny_data_ok) as (s' & z' & E & _ & _ & _ & Hz & Hw & Hc & Hrd);
    [vm_compute; reflexivity|vm_compute; reflexivity|vm_compute; reflexivity|vm_compute; reflexivity
    |lia|cbn; lia|left; vm_compute; reflexivity|vm_compute; reflexivity|vm_compute; reflexivity
    |vm_compute; reflexivity|].
  exists s', z'. split; [exact E|]. split; [exact Hz|]. split; [exact Hw|]. split; [exact Hc|].
  exact (Hrd {[ 0%nat := replicate 2048 1 ]} (Ptr 0 0) (replicate 2048 1) eq_refl).
Defined.
