(* ===== verification/ZbcDefects.v ===== *)
(** * The zoned block device handler: where it departs from its contract

    Three command sequences that every initiator can issue and that
    [file_zbc.c] handles wrongly: a write whose data comes in more than one
    segment, a read that runs from a full zone into a partly written one, and
    OPEN ZONE with the ALL bit while a zone is implicitly open.  The positive
    theorems of [ZbcZone] and [ZbcIoSpec] carry the hypotheses that exclude
    them; here each is shown to be needed. *)

From S2P Require Import Prelude Scsi Iovec Sense Device Inquiry Mode Zbc ZbcZone ZbcIo ZbcIoSpec.

(** ** Writes in several segments *)

(** A write whose first segment is shorter than the write.  The loop of
    [zbc_write] keeps looking at the first segment, which the seek has
    emptied: the second round asks [pwrite] for 0 bytes and takes its answer 0
    for an error.  The command fails with MEDIUM ERROR / WRITE ERROR although
    every system call succeeds; the first segment is on the disk, and the
    write pointer has advanced by it, so a retry of the same command is
    unaligned. *)
Theorem zbc_segmented_write_fails (cdb : list Z) (s : zst) (i : nat) (z : zbc_zone) (v : iovec)
  (vs : list iovec) (nr n : Z) (bs : list Z) (I : zinv (zs_dev s)) (D : data_ok (zs_dev s) (zs_data s))
  (Hi : zd_zones (zs_dev s) !! i = Some z) (Hreq : zbc_zone_seq_req z = true)
  (Hlba : tcmu_get_lba cdb = Some (z_wp z)) (Hnr : tcmu_get_xfer_length cdb = Some nr)
  (Hn : 0 < n < nr) (Hfit : z_wp z + nr <= z_start z + z_len z)
  (Hroom : zbc_zone_is_open z = true \/ zd_nr_exp_open (zs_dev s) < zd_nr_open_zones (zs_dev s))
  (Hiov : zs_iov s = v :: vs) (Hlen : iov_len v = n * zd_lba_size (zs_dev s))
  (Htot : tcmu_iovec_length (v :: vs) (Z.of_nat (length (v :: vs))) =
            Some (nr * zd_lba_size (zs_dev s)))
  (Hbs : mem_load (zs_mem s) (iov_base v) (n * zd_lba_size (zs_dev s)) = Some bs)
  (Hsense : (18 <= length (zs_sense s))%nat) :
  exists s' z', zbc_write sys_ok cdb s = Some (s', TCMU_STS_PASSTHROUGH_ERR) /\
    byte_at (zs_sense s') 2 = MEDIUM_ERROR /\
    zd_zones (zs_dev s') !! i = Some z' /\ z_wp z' = z_wp z + n /\
    zs_data s' = spliced (zs_dev s) (zs_data s) (z_wp z) bs.
Proof.
  destruct (write_segment_spec cdb s i z v vs nr n bs) as (s1 & E & _ & HS & Hz & Hd); auto; try lia.
  rewrite E. unfold zfail. rewrite tcmu_set_sense_data_eq by (by rewrite ?HS).
  cbn [mbind option_bind]. eexists _, _. split; [reflexivity|]. cbn [zs_sense zs_dev zs_data].
  split; [done|]. split; [exact Hz|]. split; [|done].
  destruct (ready_zone_facts z) as (R1 & R2 & R3 & R4 & _).
  unfold advanced_zone, advanced_wp, zbc_zone_seq_req in *. rewrite R4, Hreq. cbn [zset_wp z_wp].
  rewrite R1, R2, R3, (proj2 (Z.leb_gt _ _)), andb_false_r by lia. reflexivity.
Qed.

Definition two_segments : zst := tiny_cmd [Iov (Ptr 0 0) 512; Iov (Ptr 0 512) 1024].

Lemma zbc_segmented_write_fails_witness :
  exists s' z', zbc_write sys_ok (cdb10 WRITE_10 20 3) two_segments = Some (s', TCMU_STS_PASSTHROUGH_ERR) /\
    zd_zones (zs_dev s') !! 2%nat = Some z' /\ z_wp z' = 21 /\
    zbc_write sys_ok (cdb10 WRITE_10 20 3) (set_ziov s' (zs_iov two_segments)) =
      zfail (set_ziov s' (zs_iov two_segments)) ILLEGAL_REQUEST ASC_UNALIGNED_WRITE_COMMAND.
Proof.
  destruct (zbc_segmented_write_fails (cdb10 WRITE_10 20 3) two_segments 2
    (tiny_seq 2 20 ZBC_ZONE_COND_IMP_OPEN) (Iov (Ptr 0 0) 512) [Iov (Ptr 0 512) 1024] 3 1 (replicate 512 7)
    tiny_inv tiny_data_ok) as (s' & z' & E & _ & Hz & Hw & _);
    [vm_compute; reflexivity|reflexivity|vm_compute; reflexivity|vm_compute; reflexivity|lia|cbn; lia
    |left; reflexivity|reflexivity|reflexivity|vm_compute; reflexivity|vm_compute; reflexivity
    |by apply leb_complete|].
  exists s', z'. split; [exact E|]. split; [exact Hz|]. split; [exact Hw|].
  vm_compute in E. injection E as <-. by vm_compute.
Defined.

(** ** Reads across a zone boundary *)

Lemma mem_store_covers m p bs m' j :
  mem_store m p bs = Some m' -> 0 <= j < Z.of_nat (length bs) -> is_Some (mem_load m (padd p j) 1).
Proof.
  intros H Hj. apply mem_store_inv in H as [[-> _]|(b & b' & Hb & H0 & Hl & _)]; [simpl in Hj; lia|].
  eexists. apply mem_load_Some; [lia|]. exists b. cbn [padd p_blk p_off]. split_and!; [done|lia|lia|done].
Qed.

(** A read from a full zone into a partly written one.  [__zbc_read]
    compares [lba + nr_lbas] with the boundary, with [nr_lbas] the number of
    blocks of the whole read and [lba] already advanced; in the second zone it
    therefore takes the distance to the write pointer for the number of blocks
    left, although fewer are left.  [pread] is asked for more bytes than the
    buffer holds: with the buffer's end at the end of its memory block, the
    access is out of bounds (and [lba_count] underflows after it). *)
Theorem zbc_read_overruns_buffer (d : zbc_dev) (data : list Z) (i : nat) (z y : zbc_zone) (m : mem)
  (buf : ptr) (lba n : Z) (old : list Z) (I : zinv d) (D : data_ok d data)
  (Hi : zd_zones d !! i = Some z) (Hy : zd_zones d !! S i = Some y)
  (Hz : zbc_zone_seq_req z = true) (Hyr : zbc_zone_seq_req y = true)
  (Hfull : z_wp z = z_start z + z_len z) (Hl : z_start z <= lba < z_start z + z_len z)
  (Hleft : z_start z + z_len z < lba + n <= zd_capacity d)
  (Hover : z_start y + (lba + n - (z_start z + z_len z)) < z_wp y < z_start y + n)
  (H64 : z_start y + n < 2 ^ 64)
  (Hm : mem_load m buf (n * zd_lba_size d) = Some old)
  (Hend : mem_load m (padd buf (n * zd_lba_size d)) 1 = None) :
  __zbc_read sys_ok d data m buf n lba 0 = None.
Proof.
  destruct (seq_wp d i z I Hi Hz) as [Hzc _]. destruct (seq_wp d (S i) y I Hy Hyr) as [Hyc Hyw].
  destruct (zone_end d i z I Hi) as (_ & _ & H0 & _). destruct (zone_end d (S i) y I Hy) as (Hyu & Hycap & _).
  pose proof (zi_cap64 d I). pose proof (zi_lba d I) as Hls. pose proof (lookup_lt_Some _ _ _ Hy).
  assert (z_start y = z_start z + z_len z) as Hadj.
  { destruct (zi_zones d I i z Hi) as (_ & E1 & L1). destruct (zi_zones d I (S i) y Hy) as (_ & E2 & L2).
    pose proof (zi_size d I). pose proof (zi_zones d I (S i) y Hy) as ((_ & ? & _) & _). nia. }
  unfold __zbc_read. destruct (length (zd_zones d)) as [|k]; [lia|].
  replace (S (2 * S k)) with (S (S (S (2 * k)))) by lia.
  set (c := z_wp z - lba).
  destruct (read_round d data I D i z Hi (S (S (2 * k))) m buf n lba n 0 old c) as (m' & -> & _ & Hst);
    auto; try (unfold c; lia).
  { right. split; [done|]. split; [lia|]. unfold c. case_if; lia. }
  set (w := z_wp y - z_start y).
  assert (0 < w <= zd_capacity d) as Hw by (unfold w; lia).
  pose proof (length_blocks d data lba c I D ltac:(unfold c; lia) ltac:(unfold c; lia) ltac:(unfold c; lia)) as Lc.
  pose proof (length_blocks d data (z_start y) w I D ltac:(lia) ltac:(lia) ltac:(unfold w; lia)) as Lw.
  assert (lba + c = z_start y) as -> by (unfold c; lia).
  cbn [zbc_read_loop]. rewrite (proj2 (Z.eqb_neq (n - c) 0)) by (unfold c; lia).
  destruct (get_zone_in d (S i) y (z_start y) I Hy) as [-> _]; [lia|]. cbn [mbind option_bind].
  rewrite Hy. cbn [mbind option_bind].
  assert (z_type z = z_type y) as Hty by (unfold zbc_zone_seq_req in *; zbool; congruence).
  rewrite (type_check d y) by (unfold note_type; rewrite <- Hty; case_if; auto).
  unfold zbc_zone_seq. rewrite Hyc, (proj2 (Z.leb_gt (z_wp y) _)) by lia. cbn [negb andb].
  rewrite (u64_small (z_start y + n)) by lia.
  rewrite (proj2 (Z.ltb_lt (z_wp y) (z_start y + n))) by lia.
  rewrite (u64_small (z_wp y - z_start y)) by lia. fold w.
  rewrite (bytes_small d data w), (pread_blocks d data (z_start y) w) by (done || unfold w in *; lia).
  destruct (mem_store m' (padd buf (c * zd_lba_size d)) _) as [m''|] eqn:Hst2; [|done].
  exfalso. apply (mem_store_covers _ _ _ _ ((n - c) * zd_lba_size d)) in Hst2 as [x Hx].
  2:{ rewrite Lw. split; [apply Z.mul_nonneg_nonneg|apply Zmult_lt_compat_r]; unfold c, w; lia. }
  unfold padd in *. cbn [p_blk p_off] in Hx.
  replace (p_off buf + c * zd_lba_size d + (n - c) * zd_lba_size d) with
    (p_off buf + n * zd_lba_size d) in Hx by lia.
  rewrite (mem_load_store_disj m buf _ m' _ _ Hst) in Hx; [congruence|].
  right. left. cbn [p_off]. rewrite Lc.
  assert (c * zd_lba_size d <= n * zd_lba_size d) by (apply Z.mul_le_mono_nonneg_r; unfold c; lia). lia.
Qed.

Lemma zbc_read_overruns_buffer_witness :
  zbc_handle_cmd tiny_env (cdb10 READ_10 12 6)
    (ZSt (tiny_zones ZBC_HM [tiny_conv; tiny_seq 1 16 ZBC_ZONE_COND_FULL;
                             tiny_seq 2 20 ZBC_ZONE_COND_IMP_OPEN] 1 0)
         tiny_data {[ 0%nat := replicate 3072 7 ]} [Iov (Ptr 0 0) 3072] (zeros 18)) = None /\
  __zbc_read sys_ok tiny_dev tiny_data {[ 0%nat := replicate 3072 7 ]} (Ptr 0 0) 6 12 0 = None.
Proof.
  assert (__zbc_read sys_ok tiny_dev tiny_data {[ 0%nat := replicate 3072 7 ]} (Ptr 0 0) 6 12 0 = None) as E.
  { apply (zbc_read_overruns_buffer tiny_dev tiny_data 1 (tiny_seq 1 16 ZBC_ZONE_COND_FULL)
      (tiny_seq 2 20 ZBC_ZONE_COND_IMP_OPEN) {[ 0%nat := replicate 3072 7 ]} (Ptr 0 0) 12 6 (replicate 3072 7)
      tiny_inv tiny_data_ok); first [reflexivity|cbn; lia|vm_compute; reflexivity]. }
  split; [by vm_compute|exact E].
Defined.

(** ** OPEN ZONE with the ALL bit *)

(** A sequence of commands that all succeed. *)
Fixpoint zbc_run (e : zbc_env) (s : zst) (cmds : list (list Z * list iovec)) : option zst :=
  match cmds with
  | [] => Some s
  | (cdb, iov) :: cmds =>
      '(s, sts) ← zbc_handle_cmd e cdb (set_ziov s iov);
      if sts_ok sts then zbc_run e s cmds else None
  end.

(** Three empty sequential zones, of which two may be open. *)
Definition limit_dev : zbc_dev :=
  ZDev demo_zcfg 4096 ZBC_HM 24 512 8
    [tiny_seq 0 0 ZBC_ZONE_COND_EMPTY; tiny_seq 1 8 ZBC_ZONE_COND_EMPTY; tiny_seq 2 16 ZBC_ZONE_COND_EMPTY]
    3 0 2 0 0.
Definition limit_start : zst :=
  ZSt limit_dev [] {[ 0%nat := replicate 512 7 ]} [] (zeros 18).

(** One block into each zone; the first two zones are closed again. *)
Definition limit_cmds : list (list Z * list iovec) :=
  let one := [Iov (Ptr 0 0) 512] in
  [(cdb10 WRITE_10 0 1, one); (demo_out ZBC_SA_CLOSE_ZONE 0 false, []);
   (cdb10 WRITE_10 8 1, one); (demo_out ZBC_SA_CLOSE_ZONE 8 false, []);
   (cdb10 WRITE_10 16 1, one)].

(** OPEN ALL can exceed the open zone limit.  Starting from empty zones,
    five ordinary commands (three writes, two CLOSE ZONE) reach a consistent
    device within its limit of two open zones: two closed zones and an
    implicitly open one.  OPEN ZONE with the ALL bit is then accepted, since
    two zones are closed; opening the second of them closes the implicitly
    open zone to make room, and the loop, arriving at that zone, finds it
    closed and opens it as well: three zones are explicitly open. *)
Theorem zbc_open_all_exceeds_limit :
  exists s s', zbc_run tiny_env limit_start limit_cmds = Some s /\
    zinv (zs_dev s) /\ zlimit (zs_dev s) /\
    Z.of_nat (count zbc_zone_closed (zd_zones (zs_dev s))) = zd_nr_open_zones (zs_dev s) /\
    zbc_handle_cmd tiny_env (demo_out ZBC_SA_OPEN_ZONE 0 true) s = Some (s', TCMU_STS_OK) /\
    zinv (zs_dev s') /\ zd_nr_open_zones (zs_dev s') = 2 /\ zd_nr_exp_open (zs_dev s') = 3 /\
    ~ zlimit (zs_dev s').
Proof.
  destruct (zbc_run tiny_env limit_start limit_cmds) as [s|] eqn:E; [|by vm_compute in E].
  destruct (zbc_handle_cmd tiny_env (demo_out ZBC_SA_OPEN_ZONE 0 true) s) as [[s' st]|] eqn:E'.
  2:{ vm_compute in E. injection E as <-. by vm_compute in E'. }
  exists s, s'. split; [done|].
  vm_compute in E. injection E as <-. vm_compute in E'. injection E' as <- <-.
  split; [apply zinvb_sound; by vm_compute|]. split; [apply Z.leb_le; by vm_compute|].
  split; [by vm_compute|]. split; [reflexivity|]. split; [apply zinvb_sound; by vm_compute|].
  split; [done|]. split; [done|]. intros H%Z.leb_le. by vm_compute in H.
Qed.
