(* ===== verification/Backstore.v ===== *)
(** * Backstore handlers

    The contract of the read, write, unmap and flush callouts of a
    [struct tcmur_handler] ([tcmu-runner.h]) as an interface, the state that
    compound commands run in, and the file handler of [file_example.c] as an
    implementation that satisfies the contract. *)

From S2P Require Import Prelude Scsi Iovec Device.

(** ** The interface *)

(** How a callout answers.  [Rejected s]: it returns the status [s], not
    [TCMU_STS_OK], and never calls [cmd->done].  [Done s]: it returns
    [TCMU_STS_OK] and calls [cmd->done] with [s], now or later. *)
Inductive reply := Rejected (s : tcmu_sts) | Done (s : tcmu_sts).

#[export] Instance reply_eq_dec : EqDecision reply.
Proof. solve_decision. Defined.

(** [bs_read b m iov cnt len off]: the handler's private state, the memory,
    the iovec it may consume, the number of its entries, the byte count and the
    byte offset; the result has the new state, memory and iovec. *)
Class Backstore (B : Type) := {
  bs_data : B -> list Z;
  bs_read : B -> mem -> list iovec -> Z -> Z -> Z -> option (B * mem * list iovec * reply);
  bs_write : B -> mem -> list iovec -> Z -> Z -> Z -> option (B * list iovec * reply);
  bs_unmap : B -> Z -> Z -> option (B * reply);
  bs_flush : B -> option (B * reply)
}.

(** [bs] stored at byte offset [off]. *)
Definition write_at (data : list Z) (off : Z) (bs : list Z) : list Z :=
  take (Z.to_nat off) data ++ bs ++ drop (Z.to_nat off + length bs) data.

(** [n] bytes from offset [off] on. *)
Definition read_at (data : list Z) (off n : Z) : list Z :=
  take (Z.to_nat n) (drop (Z.to_nat off) data).

(** What commands rely on: a callout within the device never crashes; a write
    that succeeds stores exactly its data, and a failing one touches at most
    the addressed bytes; a read that succeeds delivers the device's bytes, and
    no read changes the device or memory outside its buffers. *)
Class BackstoreLaws (B : Type) `{Backstore B} := {
  bs_wf : B -> Prop;
  bs_write_law (b : B) (m : mem) (iov : list iovec) (g : list Z) (off : Z) :
    bs_wf b -> gather m iov = Some g -> Forall (fun v => 0 <= iov_len v) iov -> 0 <= off ->
    off + Z.of_nat (length g) <= Z.of_nat (length (bs_data b)) ->
    exists b' iov' r w,
      bs_write b m iov (Z.of_nat (length iov)) (Z.of_nat (length g)) off = Some (b', iov', r) /\
      bs_wf b' /\ r <> Rejected TCMU_STS_OK /\ length w = length g /\
      bs_data b' = write_at (bs_data b) off w /\ (r = Done TCMU_STS_OK -> w = g);
  bs_read_law (b : B) (m : mem) (iov : list iovec) (g : list Z) (off : Z) :
    bs_wf b -> gather m iov = Some g -> iov_disj iov -> 0 <= off ->
    off + Z.of_nat (length g) <= Z.of_nat (length (bs_data b)) ->
    exists b' m' iov' r,
      bs_read b m iov (Z.of_nat (length iov)) (Z.of_nat (length g)) off = Some (b', m', iov', r) /\
      bs_wf b' /\ r <> Rejected TCMU_STS_OK /\ bs_data b' = bs_data b /\
      (exists g', gather m' iov = Some g' /\
         (r = Done TCMU_STS_OK -> g' = read_at (bs_data b) off (Z.of_nat (length g)))) /\
      (forall q k, outside iov q k -> mem_load m' q k = mem_load m q k)
}.

(** ** Lemmas on the device contents *)

Lemma length_write_at data off bs :
  0 <= off -> off + Z.of_nat (length bs) <= Z.of_nat (length data) ->
  length (write_at data off bs) = length data.
Proof. intros H1 H2. unfold write_at. rewrite !length_app, length_take, length_drop. lia. Qed.

Lemma length_read_at data off n :
  0 <= off -> 0 <= n -> off + n <= Z.of_nat (length data) -> Z.of_nat (length (read_at data off n)) = n.
Proof. intros H1 H2 H3. unfold read_at. rewrite length_take, length_drop. lia. Qed.

Lemma read_write_at data off bs :
  0 <= off -> off <= Z.of_nat (length data) ->
  read_at (write_at data off bs) off (Z.of_nat (length bs)) = bs.
Proof.
  intros H1 H2. unfold read_at, write_at. rewrite Nat2Z.id.
  rewrite drop_app_length' by (rewrite length_take; lia). by rewrite take_app_length.
Qed.

(** Two writes one after the other. *)
Lemma write_at_app data off b1 b2 :
  0 <= off -> off + Z.of_nat (length b1) <= Z.of_nat (length data) ->
  write_at (write_at data off b1) (off + Z.of_nat (length b1)) b2 = write_at data off (b1 ++ b2).
Proof.
  intros H0 Hl. unfold write_at.
  replace (Z.to_nat (off + Z.of_nat (length b1))) with (Z.to_nat off + length b1)%nat by lia.
  rewrite (app_assoc (take _ data)).
  assert (length (take (Z.to_nat off) data ++ b1) = Z.to_nat off + length b1)%nat as L
    by (rewrite length_app, length_take; lia).
  rewrite take_app_length' by lia. rewrite <- L, drop_app_add. rewrite drop_drop, <- !app_assoc. f_equal. f_equal. f_equal.
  f_equal. rewrite !length_app in *. lia.
Qed.

(** Storing what is already there. *)
Lemma write_read_at data off n :
  0 <= off -> 0 <= n -> off + n <= Z.of_nat (length data) ->
  write_at data off (read_at data off n) = data.
Proof.
  intros H0 H1 H2. unfold write_at, read_at. rewrite length_take, length_drop.
  replace (Z.to_nat n `min` (length data - Z.to_nat off))%nat with (Z.to_nat n) by lia.
  rewrite <- drop_drop, take_drop. apply take_drop.
Qed.

Lemma write_at_nil data off : write_at data off [] = data.
Proof. unfold write_at. cbn. by rewrite Nat.add_0_r, take_drop. Qed.

(** ** Running commands *)

(** The state a command of the runner works in: the handler's private state,
    the memory, the outcomes of the coming allocations (successful once the
    list is used up), and whether the device's [caw_lock] is held. *)
Record xst (B : Type) := XSt { x_bs : B; x_mem : mem; x_alloc : list bool; x_caw : bool }.
Arguments XSt {B}. Arguments x_bs {B}. Arguments x_mem {B}. Arguments x_alloc {B}. Arguments x_caw {B}.

Definition set_bs {B} (x : xst B) (b : B) : xst B := XSt b (x_mem x) (x_alloc x) (x_caw x).
Definition set_mem {B} (x : xst B) (m : mem) : xst B := XSt (x_bs x) m (x_alloc x) (x_caw x).
Definition set_caw {B} (x : xst B) (l : bool) : xst B := XSt (x_bs x) (x_mem x) (x_alloc x) l.

(** [calloc]/[malloc] of a structure: whether it succeeds. *)
Definition x_try {B} (x : xst B) : bool * xst B :=
  match x_alloc x with
  | [] => (true, x)
  | ok :: l => (ok, XSt (x_bs x) (x_mem x) l (x_caw x))
  end.

(** A new block for [calloc(1, n)]. *)
Definition fresh_blk (m : mem) : nat := fresh (dom m : gset nat).

Definition mem_new (m : mem) (bs : list Z) : mem * ptr :=
  (<[fresh_blk m := bs]> m, Ptr (fresh_blk m) 0).

Definition mem_free (m : mem) (p : ptr) : mem := delete (p_blk p) m.

Lemma fresh_blk_spec m : m !! fresh_blk m = None.
Proof. unfold fresh_blk. apply (not_elem_of_dom (D := gset nat)). exact (is_fresh (dom m : gset nat)). Qed.

(** Loads from existing blocks do not see the new one. *)
Lemma mem_new_load m bs q n l :
  mem_load m q n = Some l -> mem_load (mem_new m bs).1 q n = Some l.
Proof.
  unfold mem_new, mem_load. cbn [fst]. case_if; [done|].
  destruct (decide (p_blk q = fresh_blk m)) as [E|E].
  - by rewrite E, fresh_blk_spec.
  - by rewrite lookup_insert_ne by done.
Qed.

Lemma mem_new_same m bs : mem_load (mem_new m bs).1 (mem_new m bs).2 (Z.of_nat (length bs)) = Some bs.
Proof.
  unfold mem_new, mem_load. cbn [fst snd p_blk p_off]. case_if.
  - destruct bs; [done|simpl in *; lia].
  - rewrite lookup_insert_eq. cbn. rewrite decide_True by lia. by rewrite Nat2Z.id, drop_0, firstn_all.
Qed.

Lemma gather_new m bs iov g : gather m iov = Some g -> gather (mem_new m bs).1 iov = Some g.
Proof.
  revert g. induction iov as [|v iov IH]; intros g Hg; [done|].
  destruct (gather_cons_inv _ _ _ _ Hg) as (a & b & Ha & Hb & -> & _).
  cbn [gather]. by rewrite (mem_new_load _ _ _ _ _ Ha), (IH _ Hb).
Qed.

(** The new block is apart from every buffer that was readable before. *)
Lemma mem_new_apart m bs q n l k :
  0 < n -> mem_load m q n = Some l -> range_disj q n (mem_new m bs).2 k.
Proof.
  intros Hn Hl. left. intros E. unfold mem_load in Hl. rewrite (proj2 (Z.eqb_neq n 0)) in Hl by lia.
  rewrite E in Hl. cbn in Hl. by rewrite fresh_blk_spec in Hl.
Qed.

(** The block of [p] holds none of the iovec's bytes. *)
Definition apart_blk (iov : list iovec) (p : ptr) : Prop :=
  Forall (fun v => iov_len v <= 0 \/ p_blk (iov_base v) <> p_blk p) iov.

Lemma mem_new_apart_blk m bs iov g : gather m iov = Some g -> apart_blk iov (mem_new m bs).2.
Proof.
  revert g. induction iov as [|v iov IH]; intros g Hg; constructor.
  - destruct (gather_cons_inv _ _ _ _ Hg) as (a & b & Ha & _).
    destruct (decide (iov_len v <= 0)); [by left|right]. intros E. cbn in E.
    apply mem_load_Some in Ha as (blk & Hb & _); [|lia]. by rewrite E, fresh_blk_spec in Hb.
  - destruct (gather_cons_inv _ _ _ _ Hg) as (a & b & _ & Hb & _). by eapply IH.
Qed.

(** What happens in the block of [p] does not show in the iovec. *)
Lemma gather_frame m m' iov p n :
  apart_blk iov p ->
  (forall q k, outside [Iov p n] q k -> mem_load m' q k = mem_load m q k) ->
  gather m' iov = gather m iov.
Proof.
  intros Ha HF. apply gather_agree. eapply Forall_impl; [exact Ha|]. intros v Hv. apply HF.
  constructor; [|constructor]. cbn. unfold range_disj. destruct Hv; [lia|]. left. congruence.
Qed.

Lemma gather_free m iov p : apart_blk iov p -> gather (mem_free m p) iov = gather m iov.
Proof.
  intros Ha. apply gather_agree. eapply Forall_impl; [exact Ha|]. intros v Hv.
  unfold mem_load, mem_free. case_if; [done|]. destruct Hv as [Hv|Hv]; [|by rewrite lookup_delete_ne].
  destruct (delete _ _ !! _), (m !! _); cbn; repeat case_decide; try done; exfalso; lia.
Qed.

(** How a command ends: [f_async] when its status went to the ring through
    [aio_command_finish], else the handler function returned it. *)
Record fin (B : Type) := Fin { f_x : xst B; f_sense : list Z; f_async : bool; f_sts : tcmu_sts }.
Arguments Fin {B}. Arguments f_x {B}. Arguments f_sense {B}. Arguments f_async {B}. Arguments f_sts {B}.
