(* ===== verification/FileBack.v ===== *)
(** * The file handler

    [file_example.c] over its system calls, with short transfers and errors,
    and the proof that it satisfies the contract of [Backstore]. *)

From S2P Require Import Prelude Scsi Iovec Device Backstore.

(** ** The file and its system calls *)

(** The bytes the file has; the device is at least as large, and the bytes
    past the end of the file are zeros. *)
Record file_state := File { fl_bytes : list Z; fl_size : nat }.

(** What [preadv] and [pwritev] answer for an offset and a byte count: a
    negative number is an error, otherwise the number of bytes they are willing
    to transfer at most. *)
Record file_sys := FSys { preadv_ret : Z -> Z -> Z; pwritev_ret : Z -> Z -> Z; fsync_ret : Z }.

(** Documented behaviour: a call for at least one byte fails or makes
    progress ([preadv] returns 0 at the end of the file only). *)
Record file_sys_ok (sys : file_sys) : Prop := {
  fs_read : forall off n, 0 < n -> preadv_ret sys off n <> 0;
  fs_write : forall off n, 0 < n -> pwritev_ret sys off n <> 0
}.

(** The kernel's scatter into user memory. *)
Definition scatter (m : mem) (iov : list iovec) (cnt : Z) (bs : list Z) : option mem :=
  '(m, _, _) ← memcpy_into_loop m iov cnt bs (Z.of_nat (length bs)) 0; Some m.

Definition preadv (sys : file_sys) (f : list Z) (m : mem) (iov : list iovec) (cnt off : Z)
    : option (mem * Z) :=
  want ← tcmu_iovec_length iov cnt;
  let r := preadv_ret sys off want in
  if r <? 0 then Some (m, r)
  else
    let bs := take (Z.to_nat (Z.min r want)) (drop (Z.to_nat off) f) in
    m ← scatter m iov cnt bs;
    Some (m, Z.of_nat (length bs)).

(** A write past the end of the file fills the gap with zeros. *)
Definition grow (f : list Z) (n : nat) : list Z := f ++ zeros (n - length f).

Definition pwritev (sys : file_sys) (f : list Z) (m : mem) (iov : list iovec) (cnt off : Z)
    : option (list Z * Z) :=
  want ← tcmu_iovec_length iov cnt;
  let r := pwritev_ret sys off want in
  if r <? 0 then Some (f, r)
  else
    bs ← gather m (take (Z.to_nat cnt) iov);
    let bs := take (Z.to_nat (Z.min r want)) bs in
    if Z.of_nat (length bs) =? 0 then Some (f, 0)
    else
      Some (write_at (grow f (Z.to_nat off)) off bs, Z.of_nat (length bs)).

(** ** The callouts *)

(** [fuel] bounds the rounds, each of which transfers at least one byte.
    [src tcmu-runner/file_example.c 102-118 file_read] *)
Fixpoint file_read_loop (fuel : nat) (sys : file_sys) (f : list Z) (m : mem) (iov : list iovec)
    (iov_cnt remaining offset : Z) : option (mem * list iovec * tcmu_sts) :=
  if remaining =? 0 then Some (m, iov, TCMU_STS_OK)
  else
    match fuel with
    | O => None
    | S fuel =>
        '(m, ret) ← preadv sys f m iov iov_cnt offset;
        if ret <? 0 then Some (m, iov, TCMU_STS_RD_ERR)
        else if ret =? 0 then m ← tcmu_zero_iovec m iov iov_cnt; Some (m, iov, TCMU_STS_OK)
        else
          '(iov, _) ← tcmu_seek_in_iovec iov ret;
          file_read_loop fuel sys f m iov iov_cnt (remaining - ret) (offset + ret)
    end.

(** [src tcmu-runner/file_example.c file_read] *)
Definition file_read (sys : file_sys) (s : file_state) (m : mem) (iov : list iovec)
    (iov_cnt len offset : Z) : option (file_state * mem * list iovec * reply) :=
  '(m, iov, ret) ← file_read_loop (Z.to_nat len) sys (fl_bytes s) m iov iov_cnt len offset;
  Some (s, m, iov, Done ret).

(** [src tcmu-runner/file_example.c 134-144 file_write] *)
Fixpoint file_write_loop (fuel : nat) (sys : file_sys) (f : list Z) (m : mem) (iov : list iovec)
    (iov_cnt remaining offset : Z) : option (list Z * list iovec * tcmu_sts) :=
  if remaining =? 0 then Some (f, iov, TCMU_STS_OK)
  else
    match fuel with
    | O => None
    | S fuel =>
        '(f, ret) ← pwritev sys f m iov iov_cnt offset;
        if ret <? 0 then Some (f, iov, TCMU_STS_WR_ERR)
        else
          '(iov, _) ← tcmu_seek_in_iovec iov ret;
          file_write_loop fuel sys f m iov iov_cnt (remaining - ret) (offset + ret)
    end.

(** [src tcmu-runner/file_example.c file_write] *)
Definition file_write (sys : file_sys) (s : file_state) (m : mem) (iov : list iovec)
    (iov_cnt len offset : Z) : option (file_state * list iovec * reply) :=
  '(f, iov, ret) ← file_write_loop (Z.to_nat len) sys (fl_bytes s) m iov iov_cnt len offset;
  Some (File f (fl_size s), iov, Done ret).

(** [src tcmu-runner/file_example.c file_flush] *)
Definition file_flush (sys : file_sys) (s : file_state) : option (file_state * reply) :=
  Some (s, Done (if fsync_ret sys =? 0 then TCMU_STS_OK else TCMU_STS_WR_ERR)).

(** [file_handler] has no [unmap].
    [src tcmu-runner/file_example.c 187-200 file_handler] *)
Definition file_backstore (sys : file_sys) : Backstore file_state := {|
  bs_data s := grow (fl_bytes s) (fl_size s);
  bs_read := file_read sys;
  bs_write := file_write sys;
  bs_unmap s _ _ := None;
  bs_flush := file_flush sys
|}.
#[export] Existing Instance file_backstore.

(** ** Contents *)

Lemma length_grow f n : length (grow f n) = Nat.max (length f) n.
Proof. unfold grow. rewrite length_app, length_zeros. lia. Qed.

Lemma lookup_grow f n i :
  grow f n !! i = if decide (i < length f)%nat then f !! i
                  else if decide (i < n)%nat then Some 0 else None.
Proof.
  unfold grow, zeros. case_decide.
  - by rewrite lookup_app_l.
  - rewrite lookup_app_r by lia. case_decide.
    + rewrite lookup_replicate_2 by lia. done.
    + apply lookup_ge_None. rewrite length_replicate. lia.
Qed.

Lemma lookup_write_at data off bs i :
  0 <= off -> off <= Z.of_nat (length data) ->
  write_at data off bs !! i =
    if decide (i < Z.to_nat off)%nat then data !! i
    else if decide (i < Z.to_nat off + length bs)%nat then bs !! (i - Z.to_nat off)%nat else data !! i.
Proof.
  intros H1 H2. unfold write_at.
  assert (length (take (Z.to_nat off) data) = Z.to_nat off) as L by (rewrite length_take; lia).
  case_decide; [|case_decide].
  - rewrite lookup_app_l by lia. by rewrite lookup_take_lt.
  - rewrite lookup_app_r, L by lia. by rewrite lookup_app_l by lia.
  - rewrite lookup_app_r, L by lia. rewrite lookup_app_r by lia. rewrite lookup_drop. f_equal. lia.
Qed.

(** Writing to the file is writing to the device. *)
Lemma grow_write_at f n off bs :
  0 <= off -> (length f <= n)%nat -> off + Z.of_nat (length bs) <= Z.of_nat n ->
  grow (write_at (grow f (Z.to_nat off)) off bs) n = write_at (grow f n) off bs.
Proof.
  intros H0 Hf Hn. apply list_eq. intros i.
  pose proof (length_grow f (Z.to_nat off)) as L1. pose proof (length_grow f n) as L2.
  rewrite lookup_grow, !lookup_write_at, !lookup_grow by lia.
  assert (length (write_at (grow f (Z.to_nat off)) off bs) =
          Nat.max (length f) (Z.to_nat off + length bs)) as ->.
  { unfold write_at. rewrite !length_app, length_take, length_drop. lia. }
  repeat case_decide; try done; try lia.
  all: try (symmetry; apply lookup_ge_None; lia); try (apply lookup_ge_None; lia).
Qed.

Lemma length_file_write f n off bs :
  0 <= off -> (length f <= n)%nat -> off + Z.of_nat (length bs) <= Z.of_nat n ->
  (length (write_at (grow f (Z.to_nat off)) off bs) <= n)%nat.
Proof.
  intros. unfold write_at. rewrite !length_app, length_take, length_drop.
  pose proof (length_grow f (Z.to_nat off)). lia.
Qed.

(** The bytes of the device at the front of a range, as [preadv] finds them. *)
Lemma read_at_grow f n off k bs :
  0 <= off -> 0 <= k -> off + k <= Z.of_nat n -> (length f <= n)%nat ->
  bs = take (length bs) (drop (Z.to_nat off) f) -> Z.of_nat (length bs) <= k ->
  read_at (grow f n) off k = bs ++ read_at (grow f n) (off + Z.of_nat (length bs)) (k - Z.of_nat (length bs)).
Proof.
  intros H0 Hk Hn Hf Hbs Hl. unfold read_at.
  replace (Z.to_nat k) with (length bs + Z.to_nat (k - Z.of_nat (length bs)))%nat by lia.
  replace (Z.to_nat (off + Z.of_nat (length bs))) with (Z.to_nat off + length bs)%nat by lia.
  rewrite <- take_take_drop, drop_drop. f_equal.
  unfold grow. destruct (decide (bs = [])) as [->|Hne]; [done|].
  assert (length bs <= length f - Z.to_nat off)%nat.
  { rewrite Hbs, length_take, length_drop. lia. }
  assert (0 < length bs)%nat by (destruct bs; [done|simpl; lia]).
  rewrite drop_app_le by lia. rewrite take_app_le by (rewrite length_drop; lia). done.
Qed.

Lemma read_at_past f n off k :
  0 <= off -> 0 <= k -> off + k <= Z.of_nat n -> drop (Z.to_nat off) f = [] ->
  read_at (grow f n) off k = zeros (Z.to_nat k).
Proof.
  intros H0 Hk Hn Hd. unfold read_at. apply list_eq. intros i.
  assert (length f <= Z.to_nat off)%nat.
  { apply (f_equal length) in Hd. rewrite length_drop in Hd. simpl in Hd. lia. }
  destruct (decide (i < Z.to_nat k)%nat).
  - rewrite lookup_take_lt, lookup_drop, lookup_grow by lia.
    rewrite decide_False, decide_True by lia. unfold zeros. by rewrite lookup_replicate_2.
  - rewrite lookup_take_ge by lia. symmetry. apply lookup_ge_None. rewrite length_zeros. lia.
Qed.

(** ** Consumed iovecs *)

(** What a continuation does to the remaining iovec is what it does to the
    tail of the whole one. *)
Lemma seek_frame iov : forall m m' k iov' c x y,
  tcmu_seek_in_iovec iov k = Some (iov', c) -> 0 <= k -> iov_disj iov ->
  gather m iov = Some x -> gather m' iov' = Some y ->
  (forall q n, outside iov' q n -> mem_load m' q n = mem_load m q n) ->
  gather m' iov = Some (take (Z.to_nat k) x ++ y) /\ iov_disj iov' /\
  (forall q n, outside iov q n -> outside iov' q n).
Proof.
  induction iov as [|v iov IH]; intros m m' k iov' c x y Hs Hk Hd Hx Hy HF.
  { cbn [tcmu_seek_in_iovec] in Hs. destruct (Z.eqb_spec k 0); [|done]. simplify_eq. done. }
  cbn [tcmu_seek_in_iovec] in Hs. destruct (Z.eqb_spec k 0) as [->|Hk0].
  { simplify_eq. done. }
  destruct (gather_cons_inv _ _ _ _ Hx) as (a & b & Ha & Hb & -> & La). destruct Hd as [Hv Hd].
  destruct (Z.leb_spec (iov_len v) k) as [Hle|Hgt].
  - destruct (tcmu_seek_in_iovec iov (k - iov_len v)) as [[iov2 c2]|] eqn:E; [|done].
    cbn [mbind option_bind] in Hs. simplify_eq.
    cbn [gather iov_base iov_len] in Hy. rewrite mem_load_0 in Hy.
    destruct (gather m' iov2) as [y2|] eqn:Hy2; [|done]. cbn in Hy. simplify_eq.
    assert (forall q n, range_disj (iov_base v) 0 q n) as Hnil by (intros; unfold range_disj; lia).
    destruct (IH m m' (k - iov_len v) iov2 c2 b y E ltac:(lia) Hd Hb Hy2) as (G & D & O).
    { intros q n Hq. apply HF. by constructor. }
    assert (mem_load m' (iov_base v) (iov_len v) = Some a) as Ha'.
    { rewrite <- Ha. apply HF. constructor; [apply Hnil|]. apply O.
      eapply Forall_impl; [exact Hv|]. intros w Hw. by apply range_disj_sym. }
    split; [|split].
    + cbn [gather]. rewrite Ha', G. cbn [mbind option_bind].
      rewrite take_app, (take_ge a) by lia. rewrite <- app_assoc. f_equal. f_equal. f_equal. f_equal. lia.
    + split; [|done]. apply Forall_forall. intros w _. apply Hnil.
    + intros q n Hq. inversion Hq; subst. constructor; [apply Hnil|by apply O].
  - simplify_eq. destruct (gather_cons_inv _ _ _ _ Hy) as (y1 & y2 & Hy1 & Hy2 & -> & Ly1).
    cbn [iov_advance iov_base iov_len] in *.
    assert (forall w, iov_apart v w -> iov_apart (iov_advance v k) w) as Hadv.
    { intros w Hw. eapply range_disj_within; [..|exact Hw]; simpl; try done; lia. }
    assert (mem_load m' (iov_base v) k = Some (take (Z.to_nat k) a)) as Hpre.
    { destruct (mem_load_split m (iov_base v) (iov_len v) k a ltac:(lia) Ha) as [Hp _].
      rewrite <- Hp. apply HF. constructor.
      - right. right. left. simpl. lia.
      - eapply Forall_impl; [exact Hv|]. intros w Hw. apply range_disj_sym.
        eapply range_disj_within; [..|exact Hw]; simpl; try done; lia. }
    split; [|split].
    + cbn [gather]. rewrite (mem_load_join m' (iov_base v) (iov_len v) k _ y1) by (done || lia).
      rewrite Hy2. cbn [mbind option_bind]. rewrite take_app_le by lia. by rewrite app_assoc.
    + split; [|done]. by eapply Forall_impl.
    + intros q n Hq. inversion Hq; subst. constructor; [|done].
      eapply range_disj_within; [..|eassumption]; simpl; try done; lia.
Qed.

Lemma zero_iovec_spec iov : forall m g,
  gather m iov = Some g -> iov_disj iov ->
  exists m', tcmu_zero_iovec m iov (Z.of_nat (length iov)) = Some m' /\
    gather m' iov = Some (zeros (length g)) /\
    (forall q n, outside iov q n -> mem_load m' q n = mem_load m q n).
Proof.
  induction iov as [|v iov IH]; intros m g Hg Hd.
  { simpl in Hg. simplify_eq. by exists m. }
  destruct (gather_cons_inv _ _ _ _ Hg) as (a & b & Ha & Hb & -> & La). destruct Hd as [Hv Hd].
  cbn [tcmu_zero_iovec]. rewrite (proj2 (Z.eqb_neq _ 0)) by (simpl; lia).
  replace (Z.of_nat (length (v :: iov)) - 1) with (Z.of_nat (length iov)) by (simpl; lia).
  destruct (memcpy_into_head m v iov a b (zeros (Z.to_nat (iov_len v))) Ha Hb Hv) as (m1 & -> & Hb1 & F1 & Hh).
  { rewrite length_zeros. lia. }
  cbn [mbind option_bind]. destruct (IH m1 b Hb1 Hd) as (m' & -> & G & F). exists m'.
  split; [done|]. destruct (Hh m' F) as [Hv' _]. split.
  - cbn [gather]. rewrite Hv', G. cbn [mbind option_bind]. rewrite drop_ge by (rewrite length_zeros; lia).
    rewrite app_nil_r, length_app. unfold zeros. rewrite <- replicate_add. do 3 f_equal. lia.
  - intros q n Hq. inversion Hq; subst. rewrite F by done. by apply F1.
Qed.

(** ** The read loop *)

Section file_io.
Context (sys : file_sys) (Hsys : file_sys_ok sys).

Lemma want_length m iov g :
  gather m iov = Some g -> Z.of_nat (length g) < 2 ^ 63 ->
  tcmu_iovec_length iov (Z.of_nat (length iov)) = Some (Z.of_nat (length g)).
Proof.
  intros Hg Hl. rewrite tcmu_iovec_length_spec. rewrite <- (gather_length _ _ _ Hg).
  by rewrite u64_small by lia.
Qed.

Lemma preadv_spec f m iov g off :
  gather m iov = Some g -> iov_disj iov -> 0 < Z.of_nat (length g) < 2 ^ 63 ->
  exists m' ret, preadv sys f m iov (Z.of_nat (length iov)) off = Some (m', ret) /\
    (forall q n, outside iov q n -> mem_load m' q n = mem_load m q n) /\
    (ret < 0 /\ gather m' iov = Some g \/
     exists bs, ret = Z.of_nat (length bs) /\ (length bs <= length g)%nat /\
       bs = take (length bs) (drop (Z.to_nat off) f) /\
       gather m' iov = Some (bs ++ drop (length bs) g) /\ (bs = [] -> drop (Z.to_nat off) f = [])).
Proof.
  intros Hg Hd Hl. unfold preadv. rewrite (want_length m iov g) by (done || lia).
  cbn [mbind option_bind]. pose proof (fs_read _ Hsys off (Z.of_nat (length g)) ltac:(lia)).
  destruct (Z.ltb_spec (preadv_ret sys off (Z.of_nat (length g))) 0) as [Hneg|Hpos].
  { eexists _, _. split; [done|]. split; [done|]. by left. }
  set (n := Z.to_nat (Z.min _ _)). assert (0 < n)%nat by (unfold n; lia).
  set (bs := take n (drop (Z.to_nat off) f)).
  assert (length bs <= length g)%nat as Hb by (unfold bs, n; rewrite length_take; lia).
  destruct (memcpy_into_loop_spec iov m g bs (Z.of_nat (length bs)) 0 Hg Hd) as (m' & iov' & E & G & _ & F);
    try lia.
  unfold scatter. rewrite E. cbn [mbind option_bind]. eexists _, _. split; [done|]. split; [done|].
  right. exists bs. split; [done|]. split; [done|]. split.
  { unfold bs. rewrite length_take. destruct (Nat.min_spec n (length (drop (Z.to_nat off) f))) as [[? ->]|[? ->]];
      [done|]. by rewrite !take_ge by lia. }
  split.
  - rewrite G. rewrite <- (gather_length _ _ _ Hg). unfold min_nat. rewrite Z.min_l by lia.
    rewrite Nat2Z.id. cbn [Z.to_nat]. by rewrite drop_0, firstn_all.
  - unfold bs. destruct (drop (Z.to_nat off) f); [done|]. destruct n; [lia|done].
Qed.

Lemma file_read_loop_spec f n fuel : forall m iov g off,
  gather m iov = Some g -> iov_disj iov -> (length g <= fuel)%nat -> (length f <= n)%nat ->
  Z.of_nat n < 2 ^ 63 -> 0 <= off -> off + Z.of_nat (length g) <= Z.of_nat n ->
  exists m' iov' st g',
    file_read_loop fuel sys f m iov (Z.of_nat (length iov)) (Z.of_nat (length g)) off =
      Some (m', iov', st) /\
    gather m' iov = Some g' /\
    (st = TCMU_STS_OK -> g' = read_at (grow f n) off (Z.of_nat (length g))) /\
    (forall q k, outside iov q k -> mem_load m' q k = mem_load m q k).
Proof.
  induction fuel as [|fuel IH]; intros m iov g off Hg Hd Hfu Hf H63 Ho Hl.
  { assert (g = []) as -> by (destruct g; [done|simpl in *; lia]).
    eexists _, _, _, []. split; [reflexivity|]. split; [done|]. split; [|done]. by intros _. }
  cbn [file_read_loop]. destruct (Z.eqb_spec (Z.of_nat (length g)) 0) as [E|E].
  { assert (g = []) as -> by (destruct g; [done|simpl in *; lia]).
    eexists _, _, _, []. split; [reflexivity|]. split; [done|]. split; [|done]. by intros _. }
  destruct (preadv_spec f m iov g off Hg Hd ltac:(lia)) as (m1 & ret & -> & F1 & Hret).
  cbn [mbind option_bind]. destruct Hret as [[Hneg G1]|(bs & -> & Hb & Hbs & G1 & Heof)].
  { rewrite (proj2 (Z.ltb_lt _ _)) by done. eexists _, _, _, g. split; [reflexivity|]. by split. }
  rewrite (proj2 (Z.ltb_ge _ _)) by lia. destruct (Z.eqb_spec (Z.of_nat (length bs)) 0) as [E0|E0].
  - assert (bs = []) as -> by (destruct bs; [done|simpl in *; lia]).
    destruct (zero_iovec_spec iov m1 g G1 Hd) as (m2 & -> & G2 & F2). cbn [mbind option_bind].
    eexists _, _, _, _. split; [reflexivity|]. split; [exact G2|]. split.
    + intros _. rewrite (read_at_past f n) by (auto; lia). by rewrite Nat2Z.id.
    + intros q k Hq. by rewrite F2, F1.
  - assert (iov_total iov = Z.of_nat (length g)) as T by (symmetry; by eapply gather_length).
    destruct (tcmu_seek_in_iovec_spec iov m1 _ (Z.of_nat (length bs)) G1 ltac:(lia))
      as (iov' & c & Es & L & _ & G2 & _). rewrite Es. cbn [mbind option_bind].
    rewrite Nat2Z.id, drop_app_length in G2.
    pose proof (seek_frame iov m1 m1 _ iov' c _ _ Es ltac:(lia) Hd G1 G2 (fun _ _ _ => eq_refl)) as (_ & D2 & _).
    destruct (IH m1 iov' (drop (length bs) g) (off + Z.of_nat (length bs)) G2 D2) as
      (m' & iov2 & st & g2 & El & G3 & R & F3); try (rewrite length_drop); try lia.
    rewrite length_drop in El, R.
    replace (Z.of_nat (length g - length bs)) with (Z.of_nat (length g) - Z.of_nat (length bs)) in El, R by lia.
    rewrite L in El.
    destruct (seek_frame iov m1 m' _ iov' c _ _ Es ltac:(lia) Hd G1 G3 F3) as (G4 & _ & O).
    rewrite Nat2Z.id, take_app_length in G4.
    exists m', iov2, st, (bs ++ g2). split; [exact El|]. split; [done|]. split.
    + intros Hst. rewrite (read_at_grow f n off _ bs) by (auto; lia). f_equal. by apply R.
    + intros q k Hq. rewrite F3 by auto. by apply F1.
Qed.

(** ** The write loop *)

Lemma pwritev_spec f m iov g off :
  gather m iov = Some g -> 0 < Z.of_nat (length g) < 2 ^ 63 ->
  exists f' ret, pwritev sys f m iov (Z.of_nat (length iov)) off = Some (f', ret) /\
    (ret < 0 /\ f' = f \/
     exists k, ret = Z.of_nat k /\ (0 < k <= length g)%nat /\
       f' = write_at (grow f (Z.to_nat off)) off (take k g)).
Proof.
  intros Hg Hl. unfold pwritev. rewrite (want_length m iov g) by (done || lia).
  cbn [mbind option_bind]. pose proof (fs_write _ Hsys off (Z.of_nat (length g)) ltac:(lia)).
  destruct (Z.ltb_spec (pwritev_ret sys off (Z.of_nat (length g))) 0) as [Hneg|Hpos].
  { eexists _, _. split; [done|]. by left. }
  rewrite Nat2Z.id, firstn_all, Hg. cbn [mbind option_bind].
  set (k := Z.to_nat (Z.min _ _)). assert (0 < k <= length g)%nat by (unfold k; lia).
  rewrite (proj2 (Z.eqb_neq _ 0)) by (rewrite length_take; lia).
  eexists _, _. split; [reflexivity|]. right. exists k. split; [rewrite length_take; lia|]. done.
Qed.

Lemma file_write_loop_spec n fuel : forall f m iov g off,
  gather m iov = Some g -> (length g <= fuel)%nat -> (length f <= n)%nat ->
  Z.of_nat n < 2 ^ 63 -> 0 <= off -> off + Z.of_nat (length g) <= Z.of_nat n ->
  exists f' iov' st w,
    file_write_loop fuel sys f m iov (Z.of_nat (length iov)) (Z.of_nat (length g)) off =
      Some (f', iov', st) /\
    (length f' <= n)%nat /\ length w = length g /\ grow f' n = write_at (grow f n) off w /\
    (st = TCMU_STS_OK -> w = g).
Proof.
  induction fuel as [|fuel IH]; intros f m iov g off Hg Hfu Hf H63 Ho Hl.
  { assert (g = []) as -> by (destruct g; [done|simpl in *; lia]).
    eexists _, _, _, []. split; [reflexivity|]. split_and!; auto. by rewrite write_at_nil. }
  cbn [file_write_loop]. destruct (Z.eqb_spec (Z.of_nat (length g)) 0) as [E|E].
  { assert (g = []) as -> by (destruct g; [done|simpl in *; lia]).
    eexists _, _, _, []. split; [reflexivity|]. split_and!; auto. by rewrite write_at_nil. }
  pose proof (length_grow f n) as Lg.
  destruct (pwritev_spec f m iov g off Hg ltac:(lia)) as (f1 & ret & -> & Hret).
  cbn [mbind option_bind]. destruct Hret as [[Hneg ->]|(k & -> & Hk & ->)].
  { rewrite (proj2 (Z.ltb_lt _ _)) by done.
    eexists _, _, _, (read_at (grow f n) off (Z.of_nat (length g))). split; [reflexivity|].
    split; [done|]. pose proof (length_read_at (grow f n) off (Z.of_nat (length g))).
    split; [lia|]. split; [by rewrite write_read_at by lia|done]. }
  rewrite (proj2 (Z.ltb_ge _ _)) by lia.
  assert (iov_total iov = Z.of_nat (length g)) as T by (symmetry; by eapply gather_length).
  destruct (tcmu_seek_in_iovec_spec iov m _ (Z.of_nat k) Hg ltac:(lia))
    as (iov' & c & Es & L & _ & G2 & _). rewrite Es. cbn [mbind option_bind]. rewrite Nat2Z.id in G2.
  assert (length (take k g) = k) as Lk by (rewrite length_take; lia).
  destruct (IH (write_at (grow f (Z.to_nat off)) off (take k g)) m iov' (drop k g) (off + Z.of_nat k) G2) as
    (f' & iov2 & st & w & El & Hf' & Lw & Hw & Hst); try (rewrite length_drop); try lia.
  { apply length_file_write; lia. }
  rewrite length_drop in El, Lw. rewrite L in El.
  replace (Z.of_nat (length g - k)) with (Z.of_nat (length g) - Z.of_nat k) in El by lia.
  exists f', iov2, st, (take k g ++ w). split; [exact El|]. split; [done|].
  split; [rewrite length_app; lia|]. split.
  - rewrite Hw, grow_write_at by lia.
    pose proof (write_at_app (grow f n) off (take k g) w) as W. rewrite Lk in W. by rewrite W by lia.
  - intros Hok. rewrite Hst by done. apply take_drop.
Qed.
End file_io.

(** C13: the file handler keeps the contract of a backstore, whatever short
    transfers and errors the system calls produce, on a file of any length up to
    the device's (blocks past the end of the file read as zeros): it never
    crashes and its loops end; a read that succeeds delivers exactly the
    device's bytes; a write that succeeds stores exactly its data, and a
    failing one changes no byte outside the addressed range. *)
Theorem file_handler_contract (sys : file_sys) (s : file_state) (m : mem) (iov : list iovec)
  (g : list Z) (off : Z) (Hsys : file_sys_ok sys)
  (Hs : (length (fl_bytes s) <= fl_size s)%nat /\ Z.of_nat (fl_size s) < 2 ^ 63)
  (Hg : gather m iov = Some g) (Hd : iov_disj iov) (Ho : 0 <= off)
  (Hl : off + Z.of_nat (length g) <= Z.of_nat (fl_size s)) :
  (exists m' iov' st g',
     file_read sys s m iov (Z.of_nat (length iov)) (Z.of_nat (length g)) off = Some (s, m', iov', Done st) /\
     gather m' iov = Some g' /\
     (st = TCMU_STS_OK -> g' = read_at (grow (fl_bytes s) (fl_size s)) off (Z.of_nat (length g))) /\
     (forall q k, outside iov q k -> mem_load m' q k = mem_load m q k)) /\
  (exists s' iov' st w,
     file_write sys s m iov (Z.of_nat (length iov)) (Z.of_nat (length g)) off = Some (s', iov', Done st) /\
     fl_size s' = fl_size s /\ (length (fl_bytes s') <= fl_size s')%nat /\ length w = length g /\
     grow (fl_bytes s') (fl_size s') = write_at (grow (fl_bytes s) (fl_size s)) off w /\
     (st = TCMU_STS_OK -> w = g)).
Proof.
  destruct Hs as [Hf H63]. unfold file_read, file_write. rewrite Nat2Z.id. split.
  - destruct (file_read_loop_spec sys Hsys (fl_bytes s) (fl_size s) (length g) m iov g off)
      as (m' & iov' & st & g' & -> & H); auto. exists m', iov', st, g'. by split.
  - destruct (file_write_loop_spec sys Hsys (fl_size s) (length g) (fl_bytes s) m iov g off)
      as (f' & iov' & st & w & -> & H); auto. exists (File f' (fl_size s)), iov', st, w. by split.
Qed.

(** Short transfers of at most three bytes. *)
Definition short_sys : file_sys := FSys (fun _ _ => 3) (fun _ _ => 3) 0.
Definition demo_file : file_state := File (replicate 10 5) 16.

Lemma file_handler_contract_witness :
  (exists m' iov' g',
     file_read short_sys demo_file {[ 0%nat := zeros 8 ]} [Iov (Ptr 0 0) 5; Iov (Ptr 0 6) 2] 2 7 6 =
       Some (demo_file, m', iov', Done TCMU_STS_OK) /\
     gather m' [Iov (Ptr 0 0) 5; Iov (Ptr 0 6) 2] = Some g' /\ g' = [5; 5; 5; 5; 0; 0; 0]) /\
  (exists s' iov',
     file_write short_sys demo_file {[ 0%nat := replicate 8 9 ]} [Iov (Ptr 0 0) 5; Iov (Ptr 0 6) 2] 2 7 8 =
       Some (s', iov', Done TCMU_STS_OK) /\ fl_bytes s' = replicate 8 5 ++ replicate 7 9).
Proof.
  assert (file_sys_ok short_sys) as Hok by (by split).
  assert (iov_disj [Iov (Ptr 0 0) 5; Iov (Ptr 0 6) 2]) as Hd.
  { split; [|by split]. constructor; [|constructor]. right. left. simpl. lia. }
  destruct (file_handler_contract short_sys demo_file {[ 0%nat := zeros 8 ]}
    [Iov (Ptr 0 0) 5; Iov (Ptr 0 6) 2] (zeros 7) 6 Hok) as [(m' & iov' & st & g' & E & G & R & _) _];
    [simpl; lia|reflexivity|exact Hd|lia|simpl; lia|].
  split.
  - vm_compute in E. injection E as <- <- <-.
    eexists _, _, _. split; [reflexivity|]. split; [exact G|]. by rewrite R.
  - eexists _, _. split; reflexivity.
Defined.

(** The contract as an instance, for the theorems about commands. *)
#[export] Instance file_laws (sys : file_sys) (Hsys : file_sys_ok sys) :
  @BackstoreLaws file_state (file_backstore sys).
Proof.
  refine {| bs_wf (s : file_state) := (length (fl_bytes s) <= fl_size s)%nat /\ Z.of_nat (fl_size s) < 2 ^ 63 |}.
  - intros s m iov g off [Hf H63] Hg _ Ho Hl. cbn in *.
    rewrite length_grow in Hl.
    destruct (file_write_loop_spec sys Hsys (fl_size s) (length g) (fl_bytes s) m iov g off)
      as (f' & iov' & st & w & E & Hf' & Lw & Hw & Hst); auto; [lia|].
    exists (File f' (fl_size s)), iov', (Done st), w. unfold file_write. rewrite Nat2Z.id, E. cbn.
    split_and!; auto. by intros [= ->]; auto.
  - intros s m iov g off [Hf H63] Hg Hd Ho Hl. cbn in *. rewrite length_grow in Hl.
    destruct (file_read_loop_spec sys Hsys (fl_bytes s) (fl_size s) (length g) m iov g off)
      as (m' & iov' & st & g' & E & G & R & F); auto; [lia|].
    exists s, m', iov', (Done st). unfold file_read. rewrite Nat2Z.id, E. cbn.
    split_and!; auto. exists g'. split; [done|]. by intros [= ->]; auto.
Defined.
