(* ===== verification/Aio.v ===== *)
(** * Asynchronous completion

    The request tracking and the wake-up protocol of [tcmur_aio.c] as a system
    of concurrent threads, and [async_handle_cmd], which runs a callout in the
    caller's context or on the work queue. *)

From S2P Require Import Prelude Scsi Iovec Device Backstore.

(** ** Request tracking *)

(** [is_empty_cond] is whether a thread waits for the queue to drain; the
    operations run under [track_lock].
    [src tcmu-runner/tcmur_aio.h 26-31 struct tcmu_track_aio] *)
Record tcmu_track_aio := Track {
  pending_wakeups : Z;
  tracked_aio_ops : Z;
  is_empty_cond : bool
}.

(** [src tcmu-runner/tcmur_aio.c track_aio_request_start] *)
Definition track_aio_request_start (t : tcmu_track_aio) : tcmu_track_aio :=
  Track (pending_wakeups t) (u32 (tracked_aio_ops t + 1)) (is_empty_cond t).

(** The result has the value of [*wake_up] ([false] without one) and whether
    the waiting thread was signalled; [None] is the failing [assert].
    [src tcmu-runner/tcmur_aio.c track_aio_request_finish] *)
Definition track_aio_request_finish (t : tcmu_track_aio) (wake_up : bool)
    : option (tcmu_track_aio * bool * bool) :=
  if tracked_aio_ops t <=? 0 then None
  else
    let ops := u32 (tracked_aio_ops t - 1) in
    let pending := if wake_up then u32 (pending_wakeups t + 1) else pending_wakeups t in
    let signal := (ops =? 0) && is_empty_cond t in
    Some (Track pending ops (if signal then false else is_empty_cond t),
          wake_up && (pending =? 1), signal).

(** [src tcmu-runner/tcmur_aio.c track_aio_wakeup_finish] *)
Definition track_aio_wakeup_finish (t : tcmu_track_aio) : option (tcmu_track_aio * bool) :=
  if 1 <? pending_wakeups t then Some (Track 1 (tracked_aio_ops t) (is_empty_cond t), true)
  else if pending_wakeups t <=? 0 then None
  else Some (Track 0 (tracked_aio_ops t) (is_empty_cond t), false).

(** ** The threads that finish commands

    A thread in [aio_command_finish] completes its command on the ring
    ([tcmur_command_complete]), then finishes the request, and while it has to
    wake the kernel it calls [tcmulib_processing_complete] and finishes the
    wake-up.  Each of these runs under its own lock, in any order among
    threads.
    [src tcmu-runner/tcmur_cmd_handler.c aio_command_finish] *)
Inductive finish_pc := PComplete | PFinish | PNotify | PWakeup | PDone.

#[export] Instance finish_pc_eq_dec : EqDecision finish_pc.
Proof. solve_decision. Defined.

(** [w_ring] counts the commands completed on the ring, [w_seen] those the
    kernel has been told about: a notification covers everything on the ring
    at that time. *)
Record wsys := WSys {
  w_track : tcmu_track_aio;
  w_ring : nat;
  w_seen : nat;
  w_pcs : list finish_pc
}.

Inductive finish_step : wsys -> wsys -> Prop :=
| fs_complete t r s pcs i :
    pcs !! i = Some PComplete ->
    finish_step (WSys t r s pcs) (WSys t (S r) s (<[i := PFinish]> pcs))
| fs_finish t r s pcs i t' wake signal :
    pcs !! i = Some PFinish -> track_aio_request_finish t true = Some (t', wake, signal) ->
    finish_step (WSys t r s pcs) (WSys t' r s (<[i := if wake then PNotify else PDone]> pcs))
| fs_notify t r s pcs i :
    pcs !! i = Some PNotify ->
    finish_step (WSys t r s pcs) (WSys t r r (<[i := PWakeup]> pcs))
| fs_wakeup t r s pcs i t' wake :
    pcs !! i = Some PWakeup -> track_aio_wakeup_finish t = Some (t', wake) ->
    finish_step (WSys t r s pcs) (WSys t' r s (<[i := if wake then PNotify else PDone]> pcs)).

(** A new command: [tcmur_cmd_handler] starts the request, a thread will
    finish it.  (Fewer than 2^32 commands exist.) *)
Inductive start_step : wsys -> wsys -> Prop :=
| ss_start t r s pcs :
    Z.of_nat (length pcs) + 1 < 2 ^ 32 ->
    start_step (WSys t r s pcs) (WSys (track_aio_request_start t) r s (pcs ++ [PComplete])).

Definition any_step (a b : wsys) : Prop := start_step a b \/ finish_step a b.

Definition wsys_init : wsys := WSys (Track 0 0 false) 0 0 [].

(** ** No wake-up is lost *)

Definition at_pc (p : finish_pc) (q : finish_pc) : bool := bool_decide (q = p).
Abbreviation npc p pcs := (count (at_pc p) pcs).

#[local] Arguments count : simpl never.

Record winv (s : wsys) : Prop := {
  wi_len : Z.of_nat (length (w_pcs s)) < 2 ^ 32;
  wi_ops : tracked_aio_ops (w_track s) = Z.of_nat (npc PComplete (w_pcs s) + npc PFinish (w_pcs s));
  wi_pend : 0 <= pending_wakeups (w_track s);
  wi_waker : Z.of_nat (npc PNotify (w_pcs s) + npc PWakeup (w_pcs s)) =
             (if pending_wakeups (w_track s) =? 0 then 0 else 1);
  wi_room : pending_wakeups (w_track s) + Z.of_nat (npc PComplete (w_pcs s) + npc PFinish (w_pcs s)) <=
            Z.of_nat (length (w_pcs s));
  wi_seen : (w_seen s <= w_ring s)%nat;
  wi_cover : (w_seen s < w_ring s)%nat ->
             (0 < npc PFinish (w_pcs s))%nat \/ (0 < npc PNotify (w_pcs s))%nat \/
             2 <= pending_wakeups (w_track s)
}.

Lemma npc_insert p pcs i old new :
  pcs !! i = Some old ->
  (npc p (<[i := new]> pcs) + (if decide (old = p) then 1 else 0) =
   npc p pcs + (if decide (new = p) then 1 else 0))%nat.
Proof.
  intros Hi. pose proof (count_insert (at_pc p) pcs i old new Hi) as H. unfold at_pc in *.
  repeat case_decide; repeat case_bool_decide; simplify_eq; lia.
Qed.

(** All the counts after one thread moved. *)
Ltac pc_counts pcs i old new Hi :=
  pose proof (npc_insert PComplete pcs i old new Hi);
  pose proof (npc_insert PFinish pcs i old new Hi);
  pose proof (npc_insert PNotify pcs i old new Hi);
  pose proof (npc_insert PWakeup pcs i old new Hi).

Lemma winv_init : winv wsys_init.
Proof. split; cbn; rewrite ?Nat.add_0_r; unfold count; cbn; lia. Qed.

Lemma winv_start a b : winv a -> start_step a b -> winv b.
Proof.
  intros [L O P W R S C] H. destruct H. cbn in *.
  assert (forall p, npc p (pcs ++ [PComplete]) = (npc p pcs + npc p [PComplete])%nat) as E
    by (intros; apply count_app).

  assert (npc PComplete (pcs ++ [PComplete]) = (npc PComplete pcs + 1)%nat) as E1 by apply E.
  assert (npc PFinish (pcs ++ [PComplete]) = (npc PFinish pcs + 0)%nat) as E2 by apply E.
  assert (npc PNotify (pcs ++ [PComplete]) = (npc PNotify pcs + 0)%nat) as E3 by apply E.
  assert (npc PWakeup (pcs ++ [PComplete]) = (npc PWakeup pcs + 0)%nat) as E4 by apply E.
  split; cbn [w_pcs w_track w_ring w_seen track_aio_request_start tracked_aio_ops pending_wakeups];
    rewrite ?E1, ?E2, ?E3, ?E4, ?length_app; cbn [length]; try lia.
  - rewrite u32_small by lia. lia.
Qed.

Lemma winv_finish a b : winv a -> finish_step a b -> winv b.
Proof.
  intros [L O P W R S C] H. destruct H as [t r s pcs i Hi|t r s pcs i t' wk sg Hi Ht|t r s pcs i Hi|t r s pcs i t' wk Hi Ht];
    cbn in *.
  - pc_counts pcs i PComplete PFinish Hi. repeat case_decide; try done.
    split; cbn [w_pcs w_track w_ring w_seen]; rewrite ?length_insert; try lia. 
  - unfold track_aio_request_finish in Ht. case_if_in Ht; [done|].
    pc_counts pcs i PFinish (if wk then PNotify else PDone) Hi.
    injection Ht as <- Hwk _. rewrite u32_small in Hwk by lia.
    assert ((pending_wakeups t + 1 =? 0) = false) as E1 by lia.
    split; cbn [w_pcs w_track w_ring w_seen pending_wakeups tracked_aio_ops];
      rewrite ?length_insert, ?u32_small, ?E1 by lia; try lia;
      destruct wk; repeat case_decide; try done; zbool;
      destruct (Z.eqb_spec (pending_wakeups t) 0); lia.
  - pc_counts pcs i PNotify PWakeup Hi. repeat case_decide; try done.
    split; cbn [w_pcs w_track w_ring w_seen]; rewrite ?length_insert; try lia.
  - unfold track_aio_wakeup_finish in Ht.
    pc_counts pcs i PWakeup (if wk then PNotify else PDone) Hi.
    destruct (Z.eqb_spec (pending_wakeups t) 0); repeat case_if_in Ht; simplify_eq;
      repeat case_decide; try done;
      split; cbn [w_pcs w_track w_ring w_seen pending_wakeups tracked_aio_ops];
      rewrite ?length_insert; cbn [Z.eqb]; lia.
Qed.

Lemma winv_any a b : winv a -> any_step a b -> winv b.
Proof. intros I [H|H]; eauto using winv_start, winv_finish. Qed.

(** A thread that is not done can always move: no assertion fails, nothing
    waits for anything. *)
Lemma finish_progress s i p :
  winv s -> w_pcs s !! i = Some p -> p <> PDone -> exists s', finish_step s s'.
Proof.
  intros [L O P W R S C] Hi Hp. destruct s as [t r se pcs]. cbn in *.
  assert (0 < npc p pcs)%nat as Hc.
  { apply (count_pos _ _ i p); [done|]. by apply bool_decide_eq_true. }
  destruct p; [..|done].
  - eexists. by apply (fs_complete _ _ _ _ i).
  - destruct (track_aio_request_finish t true) as [[[t' wk] sg]|] eqn:E.
    + eexists. by eapply (fs_finish _ _ _ _ i).
    + exfalso. unfold track_aio_request_finish in E. case_if_in E; [lia|done].
  - eexists. by apply (fs_notify _ _ _ _ i).
  - destruct (track_aio_wakeup_finish t) as [[t' wk]|] eqn:E.
    + eexists. by eapply (fs_wakeup _ _ _ _ i).
    + exfalso. unfold track_aio_wakeup_finish in E. repeat case_if_in E; try done.
      rewrite (proj2 (Z.eqb_eq _ _)) in W by lia. lia.
Qed.

(** Every finishing step brings the threads closer to the end. *)
Definition wmeasure (s : wsys) : nat :=
  7 * npc PComplete (w_pcs s) + 6 * npc PFinish (w_pcs s) + 2 * npc PNotify (w_pcs s) +
  npc PWakeup (w_pcs s) + 3 * Z.to_nat (pending_wakeups (w_track s)).

Lemma finish_decreases a b : winv a -> finish_step a b -> (wmeasure b < wmeasure a)%nat.
Proof.
  intros [L O P W R S C] H. unfold wmeasure. destruct H as [t r s pcs i Hi|t r s pcs i t' wk sg Hi Ht|t r s pcs i Hi|t r s pcs i t' wk Hi Ht];
    cbn in *.
  - pc_counts pcs i PComplete PFinish Hi. repeat case_decide; try done; lia.
  - unfold track_aio_request_finish in Ht. case_if_in Ht; [done|].
    pc_counts pcs i PFinish (if wk then PNotify else PDone) Hi.
    injection Ht as <- Hwk _. cbn. rewrite u32_small by lia.
    destruct wk; repeat case_decide; try done; lia.
  - pc_counts pcs i PNotify PWakeup Hi. repeat case_decide; try done; lia.
  - unfold track_aio_wakeup_finish in Ht.
    pc_counts pcs i PWakeup (if wk then PNotify else PDone) Hi.
    repeat case_if_in Ht; simplify_eq; repeat case_decide; cbn; try done; lia.
Qed.

Lemma finish_terminates s : winv s -> Acc (fun b a => finish_step a b) s.
Proof.
  remember (wmeasure s) as n eqn:Hn. revert s Hn.
  induction (lt_wf n) as [n _ IH]. intros s -> I. constructor. intros b Hb.
  apply (IH (wmeasure b)); [by apply finish_decreases| done|by eapply winv_finish].
Qed.

Lemma npc_done pcs : Forall (eq PDone) pcs -> forall p, p <> PDone -> npc p pcs = 0%nat.
Proof.
  induction 1 as [|x l <- _ IH]; intros p Hp; [done|]. rewrite count_cons.
  replace (at_pc p PDone) with false by (symmetry; apply bool_decide_eq_false; congruence).
  by apply IH.
Qed.

(** C8: no completion is lost.  Whatever the interleaving of the threads that
    start and finish commands: the assertions of the tracking code hold and a
    thread that is not done can always move; once no more commands start, every
    schedule ends; and when all threads are done the kernel has been notified
    after the last completion was put on the ring, the number of tracked
    requests is zero (so a thread draining the queue proceeds) and no wake-up is
    pending. *)
Theorem aio_no_lost_wakeup (s : wsys) (Hr : steps any_step wsys_init s) :
  (forall i p, w_pcs s !! i = Some p -> p <> PDone -> exists s', finish_step s s') /\
  Acc (fun b a => finish_step a b) s /\
  (Forall (eq PDone) (w_pcs s) ->
     w_seen s = w_ring s /\ tracked_aio_ops (w_track s) = 0 /\ pending_wakeups (w_track s) = 0).
Proof.
  assert (winv s) as I by (eapply steps_invariant; [apply winv_any|apply winv_init|exact Hr]).
  split; [|split].
  - intros i p Hi Hp. by apply (finish_progress s i p).
  - by apply finish_terminates.
  - intros HD. destruct I as [L O P W R S C].
    pose proof (npc_done (w_pcs s) HD) as Z0.
    rewrite !Z0 in * by done. destruct (Z.eqb_spec (pending_wakeups (w_track s)) 0); [|lia].
    split; [|split]; lia.
Qed.

Definition demo_run : wsys := WSys (Track 0 0 false) 1 1 [PDone].

Lemma aio_no_lost_wakeup_witness :
  steps any_step wsys_init demo_run /\ w_seen demo_run = w_ring demo_run /\
  tracked_aio_ops (w_track demo_run) = 0.
Proof.
  assert (steps any_step wsys_init demo_run) as Hr.
  { eapply steps_step; [left; apply ss_start; simpl; lia|].
    eapply steps_step; [right; apply (fs_complete _ _ _ _ 0); reflexivity|].
    eapply steps_step; [right; eapply (fs_finish _ _ _ _ 0); reflexivity|].
    eapply steps_step; [right; apply (fs_notify _ _ _ _ 0); reflexivity|].
    eapply steps_step; [right; eapply (fs_wakeup _ _ _ _ 0); reflexivity|]. apply steps_refl. }
  split; [exact Hr|].
  destruct (aio_no_lost_wakeup demo_run Hr) as (_ & _ & H). destruct H as (H1 & H2 & _).
  - repeat constructor.
  - by split.
Defined.

(** ** Running a callout *)

(** What a worker thread does with an entry of the queue: it runs the callout
    and hands a status other than [TCMU_STS_OK] to the callback itself.
    [src tcmu-runner/tcmur_aio.c 173-179 io_work_queue] *)
Definition io_work {B R : Type} (work : xst B -> option (xst B * reply))
    (done : xst B -> tcmu_sts -> option R) (x : xst B) : option R :=
  '(x, r) ← work x;
  match r with Rejected s | Done s => done x s end.

(** [inl]: the status the caller gets back, other than
    [TCMU_STS_ASYNC_HANDLED]; [inr]: the caller gets [TCMU_STS_ASYNC_HANDLED],
    and this is what the callback does when its time comes.
    [src tcmu-runner/tcmur_aio.c aio_schedule] *)
Definition aio_schedule {B R : Type} (work : xst B -> option (xst B * reply))
    (done : xst B -> tcmu_sts -> option R) (x : xst B) : option ((xst B * tcmu_sts) + R) :=
  let '(ok, x) := x_try x in
  if ok then r ← io_work work done x; Some (inr r)
  else Some (inl (x, TCMU_STS_NO_RESOURCE)).

(** [work] is the [work_fn] and [done] the callback the command carries.  With
    [nr_threads = 0] the callout runs in the caller's context and a refusal is
    returned to it.
    [src tcmu-runner/tcmur_aio.c async_handle_cmd] *)
Definition async_handle_cmd {B R : Type} (dev : tcmu_device) (work : xst B -> option (xst B * reply))
    (done : xst B -> tcmu_sts -> option R) (x : xst B) : option ((xst B * tcmu_sts) + R) :=
  if nr_threads (rhandler dev) =? 0 then
    '(x, r) ← work x;
    match r with
    | Rejected s => Some (inl (x, s))
    | Done s => r ← done x s; Some (inr r)
    end
  else aio_schedule work done x.

(** Everything the two modes can do: the callout did not run, for want of
    memory, or it ran and its status went to the caller or to the callback. *)
Lemma async_handle_cmd_alloc {B R : Type} dev (work : xst B -> option (xst B * reply))
    (done : xst B -> tcmu_sts -> option R) x (P : option ((xst B * tcmu_sts) + R) -> Prop) :
  (forall l, x_alloc x <> [] -> P (Some (inl (XSt (x_bs x) (x_mem x) l (x_caw x), TCMU_STS_NO_RESOURCE)))) ->
  (forall l, (x_alloc x = [] -> l = []) -> exists x' r, work (XSt (x_bs x) (x_mem x) l (x_caw x)) = Some (x', r) /\
     match r with
     | Rejected s => P (Some (inl (x', s))) /\ P (r ← done x' s; Some (inr r))
     | Done s => P (r ← done x' s; Some (inr r))
     end) ->
  P (async_handle_cmd dev work done x).
Proof.
  intros H1 H2. unfold async_handle_cmd, aio_schedule, io_work, x_try. case_if.
  - destruct (H2 (x_alloc x) ltac:(done)) as (x' & r & E & H). destruct x as [b m a c]. cbn in *. rewrite E. cbn.
    destruct r; tauto.
  - destruct (x_alloc x) as [|ok l] eqn:Ea; cbn [fst snd].
    + destruct (H2 [] ltac:(done)) as (x' & r & E & H). destruct x as [b m a c]. cbn in *. subst a. rewrite E. cbn.
      destruct r; tauto.
    + destruct ok; [|by apply H1]. destruct (H2 l ltac:(done)) as (x' & r & E & H). rewrite E. cbn. destruct r; tauto.
Qed.

Lemma async_handle_cmd_cases {B R : Type} dev (work : xst B -> option (xst B * reply))
    (done : xst B -> tcmu_sts -> option R) x (P : option ((xst B * tcmu_sts) + R) -> Prop) :
  (forall l, P (Some (inl (XSt (x_bs x) (x_mem x) l (x_caw x), TCMU_STS_NO_RESOURCE)))) ->
  (forall l, exists x' r, work (XSt (x_bs x) (x_mem x) l (x_caw x)) = Some (x', r) /\
     match r with
     | Rejected s => P (Some (inl (x', s))) /\ P (r ← done x' s; Some (inr r))
     | Done s => P (r ← done x' s; Some (inr r))
     end) ->
  P (async_handle_cmd dev work done x).
Proof. intros H1 H2. apply async_handle_cmd_alloc; auto. Qed.
