(* ===== verification/Rw.v ===== *)
(** * Reads, writes, WRITE AND VERIFY, COMPARE AND WRITE

    The block I/O commands of [tcmur_cmd_handler.c] over a backstore: range
    and length checks, and the compound commands as chains of callbacks. *)

From S2P Require Import Prelude Scsi Iovec Sense Device Backstore Aio.

(** ** Checks *)

(** The product of the two [uint32_t] wraps.
    [src tcmu-runner/tcmur_cmd_handler.c check_iovec_length] *)
Definition check_iovec_length (dev : tcmu_device) (iov : list iovec) (cnt sectors : Z)
    : option tcmu_sts :=
  iov_length ← tcmu_iovec_length iov cnt;
  Some (if negb (iov_length =? u32 (sectors * tcmu_get_dev_block_size dev))
        then TCMU_STS_HW_ERR else TCMU_STS_OK).

(** [src tcmu-runner/tcmur_cmd_handler.c check_lbas] *)
Definition check_lbas (dev : tcmu_device) (start_lba lba_cnt : Z) : tcmu_sts :=
  if (tcmu_get_dev_num_lbas dev <? u64 (start_lba + lba_cnt)) || (u64 (start_lba + lba_cnt) <? start_lba)
  then TCMU_STS_RANGE else TCMU_STS_OK.

(** [src tcmu-runner/tcmur_cmd_handler.c check_lba_and_length] *)
Definition check_lba_and_length (dev : tcmu_device) (cdb : list Z) (iov : list iovec) (cnt sectors : Z)
    : option tcmu_sts :=
  start_lba ← tcmu_get_lba cdb;
  ret ← check_iovec_length dev iov cnt sectors;
  if negb (sts_ok ret) then Some ret else Some (check_lbas dev start_lba sectors).

Section commands.
Context {B : Type} {HB : Backstore B} (dev : tcmu_device).

(** ** Callouts

    A callout gets a pointer and a count: it sees the first [cnt] entries. *)

Definition iov_view (iov : list iovec) (cnt : Z) : list iovec := take (Z.to_nat cnt) iov.

(** [src tcmu-runner/tcmur_cmd_handler.c read_work_fn] *)
Definition read_work_fn (cdb : list Z) (iov : list iovec) (cnt : Z) (x : xst B)
    : option (xst B * reply) :=
  lba ← tcmu_get_lba cdb;
  len ← tcmu_iovec_length iov cnt;
  '(b, m, _, r) ← bs_read (x_bs x) (x_mem x) (iov_view iov cnt) cnt len
                     (u64 (tcmu_get_dev_block_size dev * lba));
  Some (set_mem (set_bs x b) m, r).

(** [src tcmu-runner/tcmur_cmd_handler.c write_work_fn] *)
Definition write_work_fn (cdb : list Z) (iov : list iovec) (cnt : Z) (x : xst B)
    : option (xst B * reply) :=
  lba ← tcmu_get_lba cdb;
  len ← tcmu_iovec_length iov cnt;
  '(b, _, r) ← bs_write (x_bs x) (x_mem x) (iov_view iov cnt) cnt len
                  (u64 (tcmu_get_dev_block_size dev * lba));
  Some (set_bs x b, r).

(** [src tcmu-runner/tcmur_cmd_handler.c flush_work_fn] *)
Definition flush_work_fn (x : xst B) : option (xst B * reply) :=
  '(b, r) ← bs_flush (x_bs x); Some (set_bs x b, r).

(** The status goes to the ring.
    [src tcmu-runner/tcmur_cmd_handler.c handle_generic_cbk] *)
Definition handle_generic_cbk (sense : list Z) (x : xst B) (ret : tcmu_sts) : option (fin B) :=
  Some (Fin x sense true ret).

(** What a command does with the answer of [async_handle_cmd] when it has
    nothing to clean up. *)
Definition async_return (sense : list Z) (r : (xst B * tcmu_sts) + fin B) : fin B :=
  match r with inl (x, s) => Fin x sense false s | inr f => f end.

(** ** READ, WRITE and SYNCHRONIZE CACHE *)

(** [src tcmu-runner/tcmur_cmd_handler.c handle_read] *)
Definition handle_read (cmd : tcmulib_cmd) (x : xst B) : option (fin B) :=
  n ← tcmu_get_xfer_length (cdb cmd);
  ret ← check_lba_and_length dev (cdb cmd) (cmd_iovec cmd) (iov_cnt cmd) n;
  if negb (sts_ok ret) then Some (Fin x (sense_buf cmd) false ret)
  else
    r ← async_handle_cmd dev (read_work_fn (cdb cmd) (cmd_iovec cmd) (iov_cnt cmd))
          (handle_generic_cbk (sense_buf cmd)) x;
    Some (async_return (sense_buf cmd) r).

(** [src tcmu-runner/tcmur_cmd_handler.c handle_write] *)
Definition handle_write (cmd : tcmulib_cmd) (x : xst B) : option (fin B) :=
  n ← tcmu_get_xfer_length (cdb cmd);
  ret ← check_lba_and_length dev (cdb cmd) (cmd_iovec cmd) (iov_cnt cmd) n;
  if negb (sts_ok ret) then Some (Fin x (sense_buf cmd) false ret)
  else
    r ← async_handle_cmd dev (write_work_fn (cdb cmd) (cmd_iovec cmd) (iov_cnt cmd))
          (handle_generic_cbk (sense_buf cmd)) x;
    Some (async_return (sense_buf cmd) r).

(** [src tcmu-runner/tcmur_cmd_handler.c handle_flush] *)
Definition handle_flush (cmd : tcmulib_cmd) (x : xst B) : option (fin B) :=
  r ← async_handle_cmd dev flush_work_fn (handle_generic_cbk (sense_buf cmd)) x;
  Some (async_return (sense_buf cmd) r).

(** ** Allocation *)

(** [n] structures, one after the other, up to the first failure. *)
Fixpoint x_tries (n : nat) (x : xst B) : bool * xst B :=
  match n with
  | O => (true, x)
  | S n => let '(ok, x) := x_try x in if ok then x_tries n x else (false, x)
  end.

(** The iovec and its buffer of zeros; [length] is what [calloc] gets.
    [src tcmu-runner/tcmur_cmd_handler.c alloc_iovec] *)
Definition alloc_iovec (length : Z) (x : xst B) : option ptr * xst B :=
  let '(ok, x) := x_tries 2 x in
  if ok then let '(m, p) := mem_new (x_mem x) (zeros (Z.to_nat length)) in (Some p, set_mem x m)
  else (None, x).

(** [src tcmu-runner/tcmur_cmd_handler.c free_iovec] *)
Definition free_iovec (p : ptr) (x : xst B) : xst B := set_mem x (mem_free (x_mem x) p).

(** A comparison result of [-1], stored in a [uint32_t]. *)
Definition cmp_equal (cmp_offset : Z) : bool := u32 cmp_offset =? 0xffffffff.

(** ** WRITE AND VERIFY *)

(** What the callbacks share; the read command's buffer and the copy of the
    write command's iovec.
    [src tcmu-runner/tcmur_cmd_handler.c struct write_verify_state] *)
Record write_verify_state := WvState {
  wv_requested : Z;
  wv_iovec : list iovec;
  wv_read_buf : ptr
}.

(** [readcmd], its iovec, the state and the copy of the iovec.
    [src tcmu-runner/tcmur_cmd_handler.c write_verify_init] *)
Definition write_verify_init (cmd : tcmulib_cmd) (length : Z) (x : xst B)
    : option write_verify_state * xst B :=
  let '(ok, x) := x_try x in
  if negb ok then (None, x)
  else
    let '(buf, x) := alloc_iovec length x in
    match buf with
    | None => (None, x)
    | Some buf =>
        let '(ok, x) := x_tries 2 x in
        if ok then (Some (WvState length (cmd_iovec cmd) buf), x) else (None, free_iovec buf x)
    end.

(** [src tcmu-runner/tcmur_cmd_handler.c write_verify_free] *)
Definition write_verify_free (s : write_verify_state) (x : xst B) : xst B := free_iovec (wv_read_buf s) x.

(** [src tcmu-runner/tcmur_cmd_handler.c handle_write_verify_read_cbk] *)
Definition handle_write_verify_read_cbk (s : write_verify_state) (sense : list Z) (x : xst B)
    (ret : tcmu_sts) : option (fin B) :=
  if negb (sts_ok ret) then Some (Fin (write_verify_free s x) sense true ret)
  else
    cmp ← tcmu_compare_with_iovec (x_mem x) (wv_read_buf s) (wv_iovec s) (wv_requested s) 0;
    if cmp_equal cmp then Some (Fin (write_verify_free s x) sense true TCMU_STS_OK)
    else
      sense ← tcmu_set_sense_info sense (u32 cmp);
      Some (Fin (write_verify_free s x) sense true TCMU_STS_MISCOMPARE).

(** [src tcmu-runner/tcmur_cmd_handler.c handle_write_verify_write_cbk] *)
Definition handle_write_verify_write_cbk (cmd : tcmulib_cmd) (s : write_verify_state) (x : xst B)
    (ret : tcmu_sts) : option (fin B) :=
  if negb (sts_ok ret) then Some (Fin (write_verify_free s x) (sense_buf cmd) true ret)
  else
    r ← async_handle_cmd dev (read_work_fn (cdb cmd) [Iov (wv_read_buf s) (wv_requested s)] 1)
          (handle_write_verify_read_cbk s (sense_buf cmd)) x;
    match r with
    | inl (x, ret) => Some (Fin (write_verify_free s x) (sense_buf cmd) true ret)
    | inr f => Some f
    end.

(** [src tcmu-runner/tcmur_cmd_handler.c handle_write_verify] *)
Definition handle_write_verify (cmd : tcmulib_cmd) (x : xst B) : option (fin B) :=
  n ← tcmu_get_xfer_length (cdb cmd);
  let length := u32 (n * tcmu_get_dev_block_size dev) in
  ret ← check_lba_and_length dev (cdb cmd) (cmd_iovec cmd) (iov_cnt cmd) n;
  if negb (sts_ok ret) then Some (Fin x (sense_buf cmd) false ret)
  else
    let '(st, x) := write_verify_init cmd length x in
    match st with
    | None => Some (Fin x (sense_buf cmd) false TCMU_STS_NO_RESOURCE)
    | Some st =>
        r ← async_handle_cmd dev (write_work_fn (cdb cmd) (cmd_iovec cmd) (iov_cnt cmd))
              (handle_write_verify_write_cbk cmd st) x;
        match r with
        | inl (x, ret) => Some (Fin (write_verify_free st x) (sense_buf cmd) false ret)
        | inr f => Some f
        end
    end.

(** ** COMPARE AND WRITE *)

(** [src tcmu-runner/tcmur_cmd_handler.c struct caw_state] *)
Record caw_state := CawState { cs_requested : Z; cs_read_buf : ptr }.

(** [src tcmu-runner/tcmur_cmd_handler.c caw_init_readcmd] *)
Definition caw_init_readcmd (length : Z) (x : xst B) : option caw_state * xst B :=
  let '(ok, x) := x_tries 2 x in
  if negb ok then (None, x)
  else
    let '(buf, x) := alloc_iovec length x in
    match buf with
    | None => (None, x)
    | Some buf => (Some (CawState length buf), x)
    end.

(** [src tcmu-runner/tcmur_cmd_handler.c caw_free_readcmd] *)
Definition caw_free_readcmd (s : caw_state) (x : xst B) : xst B := free_iovec (cs_read_buf s) x.

(** [pthread_mutex_lock]; a lock that is held is waited for forever in a run
    of one command. *)
Definition caw_lock (x : xst B) : option (xst B) :=
  if x_caw x then None else Some (set_caw x true).
Definition caw_unlock (x : xst B) : xst B := set_caw x false.

(** [src tcmu-runner/tcmur_cmd_handler.c handle_caw_write_cbk] *)
Definition handle_caw_write_cbk (sense : list Z) (x : xst B) (ret : tcmu_sts) : option (fin B) :=
  Some (Fin (caw_unlock x) sense true ret).

(** The error exit of [handle_caw_read_cbk].
    [src tcmu-runner/tcmur_cmd_handler.c 1688-1692 handle_caw_read_cbk] *)
Definition caw_finish_err (s : caw_state) (sense : list Z) (x : xst B) (ret : tcmu_sts) : fin B :=
  Fin (caw_free_readcmd s (caw_unlock x)) sense true ret.

(** On success the write command's continuation ends the command and
    [caw_free_readcmd] runs after the dispatch.
    [src tcmu-runner/tcmur_cmd_handler.c handle_caw_read_cbk] *)
Definition handle_caw_read_cbk (cmd : tcmulib_cmd) (s : caw_state) (x : xst B) (ret : tcmu_sts)
    : option (fin B) :=
  if negb (sts_ok ret) then Some (caw_finish_err s (sense_buf cmd) x ret)
  else
    cmp ← tcmu_compare_with_iovec (x_mem x) (cs_read_buf s) (cmd_iovec cmd) (cs_requested s) 0;
    if negb (cmp_equal cmp) then
      sense ← tcmu_set_sense_info (sense_buf cmd) (u32 cmp);
      Some (caw_finish_err s sense x TCMU_STS_MISCOMPARE)
    else
      cmd ← tcmu_seek_in_cmd_iovec cmd (cs_requested s);
      r ← async_handle_cmd dev (write_work_fn (cdb cmd) (cmd_iovec cmd) (iov_cnt cmd))
            (handle_caw_write_cbk (sense_buf cmd)) x;
      match r with
      | inl (x, ret) => Some (caw_finish_err s (sense_buf cmd) x ret)
      | inr f => Some (Fin (caw_free_readcmd s (f_x f)) (f_sense f) (f_async f) (f_sts f))
      end.

(** [sectors] is a byte of the CDB.
    [src tcmu-runner/tcmur_cmd_handler.c handle_caw_check] *)
Definition handle_caw_check (cmd : tcmulib_cmd) : option tcmu_sts :=
  start_lba ← tcmu_get_lba (cdb cmd);
  let sectors := byte_at (cdb cmd) 13 in
  ret ← check_iovec_length dev (cmd_iovec cmd) (iov_cnt cmd) (sectors * 2);
  if negb (sts_ok ret) then Some ret else Some (check_lbas dev start_lba sectors).

(** [src tcmu-runner/tcmur_cmd_handler.c handle_caw] *)
Definition handle_caw (cmd : tcmulib_cmd) (x : xst B) : option (fin B) :=
  total ← tcmu_iovec_length (cmd_iovec cmd) (iov_cnt cmd);
  let half := total / 2 in
  ret ← handle_caw_check cmd;
  if negb (sts_ok ret) then Some (Fin x (sense_buf cmd) false ret)
  else
    let '(st, x) := caw_init_readcmd half x in
    match st with
    | None => Some (Fin x (sense_buf cmd) false TCMU_STS_NO_RESOURCE)
    | Some st =>
        x ← caw_lock x;
        r ← async_handle_cmd dev (read_work_fn (cdb cmd) [Iov (cs_read_buf st) (cs_requested st)] 1)
              (handle_caw_read_cbk cmd st) x;
        match r with
        | inl (x, ret) => Some (Fin (caw_free_readcmd st (caw_unlock x)) (sense_buf cmd) false ret)
        | inr f => Some f
        end
    end.
End commands.
