(* ===== verification/RwSpec.v ===== *)
(** * Reads, writes, WRITE AND VERIFY, COMPARE AND WRITE: what they do

    The commands of [Rw] over any backstore that keeps the contract of
    [Backstore], and the concrete runs over the file handler. *)

From S2P Require Import Prelude Scsi Iovec Sense Device Backstore FileBack Aio Rw.

(** ** The device and its backstore *)

(** The backstore holds the device's blocks, and byte offsets are positive
    [off_t] values. *)
Definition dev_over {B} {HB : Backstore B} {HL : BackstoreLaws B} (dev : tcmu_device) (b : B) : Prop :=
  bs_wf b /\ dev_ok dev /\ Z.of_nat (length (bs_data b)) = num_lbas dev * block_size dev /\
  num_lbas dev * block_size dev < 2 ^ 63.

(** What a write of [g] at [off] that ended with [st] may leave: all of [g]
    on success, and on failure anything inside the range but nothing else. *)
Definition wrote (data : list Z) (off : Z) (g data' : list Z) (st : tcmu_sts) : Prop :=
  exists w, length w = length g /\ data' = write_at data off w /\ (st = TCMU_STS_OK -> w = g).

(** A command's data: [iov_cnt] counts the iovec, whose bytes are [g]. *)
Record cmd_data (cmd : tcmulib_cmd) (m : mem) (g : list Z) : Prop := {
  cd_cnt : iov_cnt cmd = Z.of_nat (length (cmd_iovec cmd));
  cd_gather : gather m (cmd_iovec cmd) = Some g;
  cd_disj : iov_disj (cmd_iovec cmd);
  cd_len : Z.of_nat (length g) < 2 ^ 63;
  cd_cnt64 : iov_cnt cmd < 2 ^ 64
}.

Lemma gather_lens m iov g : gather m iov = Some g -> Forall (fun v => 0 <= iov_len v) iov.
Proof.
  revert g. induction iov as [|v iov IH]; intros g Hg; constructor.
  - destruct (gather_cons_inv _ _ _ _ Hg) as (a & b & _ & _ & _ & La). lia.
  - destruct (gather_cons_inv _ _ _ _ Hg) as (a & b & _ & Hb & _). by eapply IH.
Qed.

Lemma iovec_length_view iov cnt :
  0 <= cnt <= Z.of_nat (length iov) ->
  tcmu_iovec_length iov cnt = tcmu_iovec_length (iov_view iov cnt) cnt.
Proof.
  unfold tcmu_iovec_length, iov_view. generalize 0 at 2 3. revert cnt.
  induction iov as [|v iov IH]; intros cnt acc Hc; [by rewrite take_nil|].
  destruct (Z.to_nat cnt) as [|k] eqn:Hk.
  - assert (cnt = 0) as -> by lia. done.
  - cbn [take iovec_length_loop]. rewrite (proj2 (Z.eqb_neq cnt 0)) by lia.
    replace k with (Z.to_nat (cnt - 1)) by lia. apply IH. simpl in Hc. lia.
Qed.

Lemma iov_view_all iov : iov_view iov (Z.of_nat (length iov)) = iov.
Proof. unfold iov_view. by rewrite Nat2Z.id, firstn_all. Qed.

Lemma length_iov_view iov cnt :
  0 <= cnt <= Z.of_nat (length iov) -> Z.of_nat (length (iov_view iov cnt)) = cnt.
Proof. intros Hc. unfold iov_view. rewrite length_take. lia. Qed.

Lemma iovec_length_gather m iov g :
  gather m iov = Some g -> Z.of_nat (length g) < 2 ^ 63 ->
  tcmu_iovec_length iov (Z.of_nat (length iov)) = Some (Z.of_nat (length g)).
Proof.
  intros Hg Hl. rewrite tcmu_iovec_length_spec, <- (gather_length _ _ _ Hg). by rewrite u64_small by lia.
Qed.

Section laws.
Context {B : Type} {HB : Backstore B} {HL : BackstoreLaws B} (dev : tcmu_device).

Lemma dev_over_step b b' :
  dev_over dev b -> bs_wf b' -> length (bs_data b') = length (bs_data b) -> dev_over dev b'.
Proof. intros (W & D & L & S) W' E. split_and!; auto. by rewrite E. Qed.

Lemma wrote_length data off g data' st :
  wrote data off g data' st -> 0 <= off -> off + Z.of_nat (length g) <= Z.of_nat (length data) ->
  length data' = length data.
Proof. intros (w & L & -> & _) H1 H2. apply length_write_at; lia. Qed.

(** The byte offset of a block inside the device. *)
Lemma lba_offset b lba n :
  dev_over dev b -> 0 <= lba -> 0 <= n -> lba + n <= num_lbas dev ->
  u64 (tcmu_get_dev_block_size dev * lba) = block_size dev * lba /\
  0 <= block_size dev * lba /\
  block_size dev * lba + n * block_size dev <= Z.of_nat (length (bs_data b)).
Proof.
  intros (_ & D & -> & S) H1 H2 H3. pose proof (dev_block_size_ok _ D).
  assert ((lba + n) * block_size dev <= num_lbas dev * block_size dev) by (apply Z.mul_le_mono_nonneg_r; lia).
  assert (0 <= lba * block_size dev) by (apply Z.mul_nonneg_nonneg; lia).
  assert (0 <= n * block_size dev) by (apply Z.mul_nonneg_nonneg; lia).
  unfold tcmu_get_dev_block_size. rewrite u64_small by lia. lia.
Qed.

(** ** The callouts *)

Lemma write_work_spec cdb iov cnt lba g x :
  dev_over dev (x_bs x) -> tcmu_get_lba cdb = Some lba ->
  0 <= cnt <= Z.of_nat (length iov) -> gather (x_mem x) (iov_view iov cnt) = Some g ->
  0 <= lba -> block_size dev * lba + Z.of_nat (length g) <= Z.of_nat (length (bs_data (x_bs x))) ->
  exists b' r, write_work_fn dev cdb iov cnt x = Some (set_bs x b', r) /\
    dev_over dev b' /\ r <> Rejected TCMU_STS_OK /\
    (forall st, r = Done st \/ r = Rejected st ->
       wrote (bs_data (x_bs x)) (block_size dev * lba) g (bs_data b') st).
Proof.
  intros D Hlba Hcnt Hg H0 Hl. pose proof D as (W & DO & L & S). pose proof (dev_block_size_ok _ DO).
  assert (0 <= block_size dev * lba) by (apply Z.mul_nonneg_nonneg; lia).
  pose proof (iovec_length_gather _ _ _ Hg ltac:(lia)) as El. rewrite length_iov_view in El by done.
  unfold write_work_fn. rewrite Hlba, iovec_length_view, El by done. cbn [mbind option_bind].
  unfold tcmu_get_dev_block_size. rewrite u64_small by lia.
  destruct (bs_write_law (x_bs x) (x_mem x) (iov_view iov cnt) g (block_size dev * lba) W Hg
    (gather_lens _ _ _ Hg)) as (b' & iov' & r & w & E & W' & Hr & Lw & Hd & Hok); try lia.
  rewrite length_iov_view in E by done. rewrite E.
  cbn [mbind option_bind]. exists b', r. split; [done|]. split; [|split; [done|]].
  - apply (dev_over_step (x_bs x)); auto. rewrite Hd. apply length_write_at; lia.
  - intros st Hst. exists w. split; [done|]. split; [done|]. intros ->. destruct Hst as [->| ->]; [by apply Hok|done].
Qed.

Lemma read_work_spec cdb iov lba g x :
  dev_over dev (x_bs x) -> tcmu_get_lba cdb = Some lba -> gather (x_mem x) iov = Some g -> iov_disj iov ->
  0 <= lba -> block_size dev * lba + Z.of_nat (length g) <= Z.of_nat (length (bs_data (x_bs x))) ->
  exists b' m' r, read_work_fn dev cdb iov (Z.of_nat (length iov)) x = Some (set_mem (set_bs x b') m', r) /\
    dev_over dev b' /\ r <> Rejected TCMU_STS_OK /\ bs_data b' = bs_data (x_bs x) /\
    (exists g', gather m' iov = Some g' /\ (r = Done TCMU_STS_OK ->
       g' = read_at (bs_data (x_bs x)) (block_size dev * lba) (Z.of_nat (length g)))) /\
    (forall q k, outside iov q k -> mem_load m' q k = mem_load (x_mem x) q k).
Proof.
  intros D Hlba Hg Hd H0 Hl. pose proof D as (W & DO & L & S). pose proof (dev_block_size_ok _ DO).
  assert (0 <= block_size dev * lba) by (apply Z.mul_nonneg_nonneg; lia).
  unfold read_work_fn. rewrite iov_view_all, Hlba, (iovec_length_gather _ _ _ Hg) by lia. cbn [mbind option_bind].
  unfold tcmu_get_dev_block_size. rewrite u64_small by lia.
  destruct (bs_read_law (x_bs x) (x_mem x) iov g (block_size dev * lba) W Hg Hd)
    as (b' & m' & iov' & r & -> & W' & Hr & Hdata & Hg' & HF); try lia.
  cbn [mbind option_bind]. exists b', m', r. split_and!; auto.
  apply (dev_over_step (x_bs x)); auto. by rewrite Hdata.
Qed.

(** ** Checks *)

Lemma check_lbas_spec lba n :
  0 <= lba < 2 ^ 64 -> 0 <= n < 2 ^ 64 -> num_lbas dev < 2 ^ 64 ->
  check_lbas dev lba n = if lba + n <=? num_lbas dev then TCMU_STS_OK else TCMU_STS_RANGE.
Proof.
  intros H1 H2 H3. unfold check_lbas, tcmu_get_dev_num_lbas, u64, wrap.
  destruct (Z.leb_spec (lba + n) (num_lbas dev)).
  - rewrite Z.mod_small by lia. rewrite (proj2 (Z.ltb_ge (num_lbas dev) _)), (proj2 (Z.ltb_ge _ lba)) by lia. done.
  - destruct (Z.ltb_spec (num_lbas dev) ((lba + n) mod 2 ^ 64)); [done|].
    rewrite (proj2 (Z.ltb_lt _ lba)); [done|]. dlia.
Qed.

(** The common part of READ, WRITE and WRITE AND VERIFY. *)
Lemma check_rw_spec cmd m g lba n b :
  dev_over dev b -> cmd_data cmd m g -> bytes_ok (cdb cmd) ->
  tcmu_get_lba (cdb cmd) = Some lba -> tcmu_get_xfer_length (cdb cmd) = Some n ->
  check_lba_and_length dev (cdb cmd) (cmd_iovec cmd) (iov_cnt cmd) n =
    Some (if negb (Z.of_nat (length g) =? u32 (n * block_size dev)) then TCMU_STS_HW_ERR
          else if lba + n <=? num_lbas dev then TCMU_STS_OK else TCMU_STS_RANGE) /\
  0 <= lba /\ 0 <= n /\
  (Z.of_nat (length g) = u32 (n * block_size dev) -> lba + n <= num_lbas dev ->
   block_size dev * lba + Z.of_nat (length g) <= Z.of_nat (length (bs_data b))).
Proof.
  intros D [Hc Hg Hd Hl Hc64] Hb Hlba Hn. pose proof D as (W & DO & L & S).
  pose proof (tcmu_get_lba_bound _ _ Hb Hlba). pose proof (tcmu_get_xfer_length_bound _ _ Hb Hn).
  pose proof (dev_num_lbas_ok _ DO). pose proof (dev_block_size_ok _ DO).
  unfold check_lba_and_length, check_iovec_length. rewrite Hlba, Hc, (iovec_length_gather _ _ _ Hg) by lia.
  cbn [mbind option_bind]. unfold tcmu_get_dev_block_size.
  split; [|split; [lia|split; [lia|]]].
  - destruct (negb (_ =? _)); unfold sts_ok; [by rewrite bool_decide_false|].
    rewrite bool_decide_true by done. cbn [negb]. by rewrite check_lbas_spec by lia.
  - intros E Hr. destruct (lba_offset b lba n D) as (_ & _ & Ho); [lia..|].
    assert (u32 (n * block_size dev) <= n * block_size dev); [|lia].
    apply Z.mod_le; [apply Z.mul_nonneg_nonneg; lia|lia].
Qed.

Lemma wrote_none data off g st :
  0 <= off -> off + Z.of_nat (length g) <= Z.of_nat (length data) -> st <> TCMU_STS_OK ->
  wrote data off g data st.
Proof.
  intros H1 H2 H3. exists (read_at data off (Z.of_nat (length g))).
  pose proof (length_read_at data off (Z.of_nat (length g))). split; [lia|].
  split; [by rewrite write_read_at by lia|done].
Qed.

(** Consecutive writes, of which the last decides the status. *)
Lemma wrote_app data data1 data2 off g1 g2 s1 s2 :
  0 <= off -> off + Z.of_nat (length g1 + length g2) <= Z.of_nat (length data) ->
  wrote data off g1 data1 s1 -> wrote data1 (off + Z.of_nat (length g1)) g2 data2 s2 ->
  (s2 = TCMU_STS_OK -> s1 = TCMU_STS_OK) -> wrote data off (g1 ++ g2) data2 s2.
Proof.
  intros H0 Hl (w1 & L1 & -> & O1) (w2 & L2 & -> & O2) Hs. exists (w1 ++ w2). split; [rewrite !length_app; lia|].
  split; [rewrite <- L1; apply write_at_app; lia|]. intros E. by rewrite O1, O2 by auto.
Qed.

(** A write that failed leaves what follows its range as it was. *)
Lemma wrote_partial data data1 off g1 g2 s :
  0 <= off -> off + Z.of_nat (length g1 + length g2) <= Z.of_nat (length data) ->
  wrote data off g1 data1 s -> s <> TCMU_STS_OK -> wrote data off (g1 ++ g2) data1 s.
Proof.
  intros H0 Hl H Hs. eapply wrote_app; [done..|exact H| |done].
  apply wrote_none; [lia| |done]. rewrite (wrote_length _ _ _ _ _ H) by lia. lia.
Qed.

(** Reporting a failure instead. *)
Lemma wrote_weaken data off g data' s s' :
  wrote data off g data' s -> s' <> TCMU_STS_OK -> wrote data off g data' s'.
Proof. intros (w & L & E & _) Hs. by exists w. Qed.

(** ** READ and WRITE *)

Lemma handle_write_spec cmd x g lba n :
  dev_over dev (x_bs x) -> cmd_data cmd (x_mem x) g -> bytes_ok (cdb cmd) ->
  tcmu_get_lba (cdb cmd) = Some lba -> tcmu_get_xfer_length (cdb cmd) = Some n ->
  exists f, handle_write dev cmd x = Some f /\ dev_over dev (x_bs (f_x f)) /\
    x_mem (f_x f) = x_mem x /\ f_sense f = sense_buf cmd /\
    if negb (Z.of_nat (length g) =? u32 (n * block_size dev))
    then f = Fin x (sense_buf cmd) false TCMU_STS_HW_ERR
    else if lba + n <=? num_lbas dev
    then wrote (bs_data (x_bs x)) (block_size dev * lba) g (bs_data (x_bs (f_x f))) (f_sts f)
    else f = Fin x (sense_buf cmd) false TCMU_STS_RANGE.
Proof.
  intros D C Hb Hlba Hn.
  destruct (check_rw_spec cmd _ g lba n (x_bs x) D C Hb Hlba Hn) as (E & H0 & _ & Hr).
  unfold handle_write. rewrite Hn. cbn [mbind option_bind]. rewrite E. cbn [mbind option_bind].
  destruct (Z.eqb_spec (Z.of_nat (length g)) (u32 (n * block_size dev))) as [Hlen|]; cbn [negb].
  2:{ eexists. split; [reflexivity|]. by split_and!. }
  destruct (Z.leb_spec (lba + n) (num_lbas dev)) as [Hin|].
  2:{ eexists. split; [reflexivity|]. by split_and!. }
  specialize (Hr Hlen Hin). unfold sts_ok. rewrite bool_decide_true by done. cbn [negb].
  destruct C as [Hc Hg Hd Hl Hc64]. rewrite Hc. pose proof (dev_block_size_ok _ (proj1 (proj2 D))).
  assert (0 <= block_size dev * lba) by (apply Z.mul_nonneg_nonneg; lia).
  pattern (async_handle_cmd dev (write_work_fn dev (cdb cmd) (cmd_iovec cmd) (Z.of_nat (length (cmd_iovec cmd))))
            (handle_generic_cbk (sense_buf cmd)) x).
  apply async_handle_cmd_cases.
  - intros l. cbn. eexists. split; [reflexivity|]. cbn. split_and!; auto. by apply wrote_none.
  - intros l. destruct (write_work_spec (cdb cmd) (cmd_iovec cmd) (Z.of_nat (length (cmd_iovec cmd))) lba g
      (XSt (x_bs x) (x_mem x) l (x_caw x))) as (b' & r & -> & D' & Hr' & HW); rewrite ?iov_view_all; auto; [lia|].
    eexists _, _. split; [reflexivity|].
    destruct r as [s|s]; [split|]; cbn; eexists; (split; [reflexivity|]); cbn; split_and!; auto.
Qed.

Lemma handle_read_spec cmd x g lba n :
  dev_over dev (x_bs x) -> cmd_data cmd (x_mem x) g -> bytes_ok (cdb cmd) ->
  tcmu_get_lba (cdb cmd) = Some lba -> tcmu_get_xfer_length (cdb cmd) = Some n ->
  exists f, handle_read dev cmd x = Some f /\ dev_over dev (x_bs (f_x f)) /\
    bs_data (x_bs (f_x f)) = bs_data (x_bs x) /\ f_sense f = sense_buf cmd /\
    (forall q k, outside (cmd_iovec cmd) q k -> mem_load (x_mem (f_x f)) q k = mem_load (x_mem x) q k) /\
    if negb (Z.of_nat (length g) =? u32 (n * block_size dev))
    then f = Fin x (sense_buf cmd) false TCMU_STS_HW_ERR
    else if lba + n <=? num_lbas dev
    then exists g', gather (x_mem (f_x f)) (cmd_iovec cmd) = Some g' /\
           (f_sts f = TCMU_STS_OK ->
            g' = read_at (bs_data (x_bs x)) (block_size dev * lba) (Z.of_nat (length g)))
    else f = Fin x (sense_buf cmd) false TCMU_STS_RANGE.
Proof.
  intros D C Hb Hlba Hn.
  destruct (check_rw_spec cmd _ g lba n (x_bs x) D C Hb Hlba Hn) as (E & H0 & _ & Hr).
  unfold handle_read. rewrite Hn. cbn [mbind option_bind]. rewrite E. cbn [mbind option_bind].
  destruct (Z.eqb_spec (Z.of_nat (length g)) (u32 (n * block_size dev))) as [Hlen|]; cbn [negb].
  2:{ eexists. split; [reflexivity|]. by split_and!. }
  destruct (Z.leb_spec (lba + n) (num_lbas dev)) as [Hin|].
  2:{ eexists. split; [reflexivity|]. by split_and!. }
  specialize (Hr Hlen Hin). unfold sts_ok. rewrite bool_decide_true by done. cbn [negb].
  destruct C as [Hc Hg Hd Hl Hc64]. rewrite Hc.
  pattern (async_handle_cmd dev (read_work_fn dev (cdb cmd) (cmd_iovec cmd) (Z.of_nat (length (cmd_iovec cmd))))
            (handle_generic_cbk (sense_buf cmd)) x).
  apply async_handle_cmd_cases.
  - intros l. cbn. eexists. split; [reflexivity|]. cbn. split_and!; auto. exists g. by split.
  - intros l. destruct (read_work_spec (cdb cmd) (cmd_iovec cmd) lba g
      (XSt (x_bs x) (x_mem x) l (x_caw x))) as (b' & m' & r & -> & D' & Hr' & Hd' & (g' & Hg' & Hok) & HF); auto.
    eexists _, _. split; [reflexivity|].
    destruct r as [s|s]; [split|]; cbn; eexists; (split; [reflexivity|]); cbn; split_and!; auto;
      exists g'; (split; [exact Hg'|]); intros ->; try done; by apply Hok.
Qed.
End laws.

(** ** COMPARE AND WRITE *)

Lemma x_try_same {B} (x : xst B) : exists ok l, x_try x = (ok, XSt (x_bs x) (x_mem x) l (x_caw x)).
Proof. unfold x_try. destruct (x_alloc x) eqn:E; eauto. exists true, []. rewrite <- E. by destruct x. Qed.

Lemma x_tries_same {B} n : forall (x : xst B), exists ok l,
  x_tries n x = (ok, XSt (x_bs x) (x_mem x) l (x_caw x)).
Proof.
  induction n as [|n IH]; intros x; cbn [x_tries]; [exists true, (x_alloc x); by destruct x|].
  unfold x_try. destruct (x_alloc x) as [|ok l] eqn:E.
  - destruct (IH x) as (ok & l & ->). by exists ok, l.
  - destruct ok; [|by exists false, l]. destruct (IH (XSt (x_bs x) (x_mem x) l (x_caw x))) as (ok & l' & ->).
    by exists ok, l'.
Qed.

Lemma x_tries_keep {B} n (x : xst B) : exists ok l,
  x_tries n x = (ok, XSt (x_bs x) (x_mem x) l (x_caw x)) /\ (x_alloc x = [] -> ok = true /\ l = []).
Proof.
  destruct (x_tries_same n x) as (ok & l & E). exists ok, l. split; [done|]. intros Ha.
  assert (x_tries n x = (true, x)) as E'.
  { clear E. induction n as [|n IH]; [done|]. cbn [x_tries]. unfold x_try. by rewrite Ha. }
  rewrite E' in E. destruct x as [b m a c]. cbn in *. by simplify_eq.
Qed.

(** A buffer of zeros, apart from every iovec that could be read. *)
Lemma alloc_iovec_cases {B} (n : Z) (x : xst B) :
  0 <= n -> exists buf l, (alloc_iovec n x = (None, XSt (x_bs x) (x_mem x) l (x_caw x)) \/
    alloc_iovec n x = (Some buf, XSt (x_bs x) (mem_new (x_mem x) (zeros (Z.to_nat n))).1 l (x_caw x))) /\
    buf = (mem_new (x_mem x) (zeros (Z.to_nat n))).2 /\
    mem_load (mem_new (x_mem x) (zeros (Z.to_nat n))).1 buf n = Some (zeros (Z.to_nat n)).
Proof.
  intros Hn. unfold alloc_iovec. destruct (x_tries_same 2 x) as (ok & l & ->).
  exists (mem_new (x_mem x) (zeros (Z.to_nat n))).2, l. split; [destruct ok; [right|left]; reflexivity|].
  split; [done|]. pose proof (mem_new_same (x_mem x) (zeros (Z.to_nat n))) as Hs.
  by rewrite length_zeros, Z2Nat.id in Hs.
Qed.

Lemma gather_one m p n l : mem_load m p n = Some l -> gather m [Iov p n] = Some l.
Proof. intros Hl. cbn [gather iov_base iov_len]. rewrite Hl. cbn. by rewrite app_nil_r. Qed.

Lemma gather_one_inv m p n l : gather m [Iov p n] = Some l -> mem_load m p n = Some l.
Proof.
  cbn [gather iov_base iov_len]. destruct (mem_load m p n); [|done]. cbn. rewrite app_nil_r. congruence.
Qed.

(** The outcome of comparing, as the [uint32_t] sees it. *)
Lemma cmp_equal_spec x y r :
  compare_result x y 0 r -> Z.of_nat (length x) < 2 ^ 32 -> cmp_equal r = bool_decide (x = y).
Proof.
  unfold compare_result, cmp_equal. intros Hr Hl. destruct (Z.eqb_spec r (-1)) as [E|Hne].
  - by rewrite E, bool_decide_true.
  - destruct Hr as (Hb & _ & Hd). rewrite bool_decide_false by (intros Hxy; apply Hd; by rewrite Hxy).
    rewrite u32_small by lia. apply Z.eqb_neq. lia.
Qed.

(** Seeking inside the first entry. *)
Lemma seek_inside cmd m g v vs n :
  cmd_iovec cmd = v :: vs -> cmd_data cmd m g -> 0 < n < iov_len v ->
  exists c, tcmu_seek_in_cmd_iovec cmd n = Some c /\ cdb c = cdb cmd /\ sense_buf c = sense_buf cmd /\
    0 <= iov_cnt c <= Z.of_nat (length (cmd_iovec c)) /\
    gather m (reachable_iovec c) = Some (drop (Z.to_nat n) g).
Proof.
  intros Hv [Hc Hg Hd Hl Hc64] Hn. rewrite Hv in *. pose proof (gather_length _ _ _ Hg) as T.
  destruct (gather_cons_inv _ _ _ _ Hg) as (a & b & _ & Hb & _ & La).
  pose proof (iov_total_nonneg _ _ _ Hb) as Tb.
  change (iov_total (v :: vs)) with (iov_len v + iov_total vs) in T.
  destruct (tcmu_seek_in_iovec_spec (v :: vs) m g n Hg) as (iov' & k & E & L & _ & G & _).
  { change (iov_total (v :: vs)) with (iov_len v + iov_total vs). lia. }
  unfold tcmu_seek_in_cmd_iovec. rewrite Hv, E. cbn [mbind option_bind].
  assert (k = 0) as ->.
  { cbn [tcmu_seek_in_iovec] in E. rewrite (proj2 (Z.eqb_neq n 0)), (proj2 (Z.leb_gt (iov_len v) n)) in E by lia.
    congruence. }
  eexists. split; [reflexivity|]. cbn [set_iov_cnt set_cmd_iovec cdb sense_buf iov_cnt cmd_iovec].
  unfold reachable_iovec. cbn [set_iov_cnt set_cmd_iovec iov_cnt cmd_iovec].
  rewrite Z.sub_0_r, u64_small, Hc, <- L, Nat2Z.id, firstn_all by lia. by split_and!; try lia.
Qed.

Section caw.
Context {B : Type} {HB : Backstore B} {HL : BackstoreLaws B} (dev : tcmu_device).
Context (cmd : tcmulib_cmd) (g : list Z) (lba : Z) (w : list Z).

Let h : Z := byte_at (cdb cmd) 13 * block_size dev.
Let off : Z := block_size dev * lba.

Hypothesis Hbytes : bytes_ok (cdb cmd).
Hypothesis Hlba : tcmu_get_lba (cdb cmd) = Some lba.
Hypothesis Hlen : Z.of_nat (length g) = 2 * h.
Hypothesis Hh : 0 < h.
Hypothesis Hh32 : 2 * h < 2 ^ 32.
Hypothesis Hin : lba + byte_at (cdb cmd) 13 <= num_lbas dev.
Hypothesis Hsense : (18 <= length (sense_buf cmd))%nat.

(** What the write callout sees after the seek over the verify data: [w]. *)
Hypothesis Hseek : forall m, cmd_data cmd m g ->
  exists c, tcmu_seek_in_cmd_iovec cmd h = Some c /\ cdb c = cdb cmd /\ sense_buf c = sense_buf cmd /\
    0 <= iov_cnt c <= Z.of_nat (length (cmd_iovec c)) /\ gather m (reachable_iovec c) = Some w.
Hypothesis Hw : Z.of_nat (length w) <= h.

(** What a COMPARE AND WRITE that started on [x0] guarantees when it ends. *)
Definition caw_post (x0 : xst B) (f : fin B) : Prop :=
  x_caw (f_x f) = false /\ dev_over dev (x_bs (f_x f)) /\
  gather (x_mem (f_x f)) (cmd_iovec cmd) = Some g /\
  (take (Z.to_nat h) g <> read_at (bs_data (x_bs x0)) off h ->
     bs_data (x_bs (f_x f)) = bs_data (x_bs x0) /\ f_sts f <> TCMU_STS_OK) /\
  (take (Z.to_nat h) g = read_at (bs_data (x_bs x0)) off h ->
     wrote (bs_data (x_bs x0)) off w (bs_data (x_bs (f_x f))) (f_sts f)).

Local Lemma caw_facts b :
  dev_over dev b -> 0 <= lba /\ 0 <= off /\ off + h <= Z.of_nat (length (bs_data b)).
Proof.
  intros D. pose proof (tcmu_get_lba_bound _ _ Hbytes Hlba). pose proof D as (_ & DO & _).
  pose proof (dev_block_size_ok _ DO).
  assert (0 <= byte_at (cdb cmd) 13) by (unfold h in Hh; nia).
  destruct (lba_offset dev b lba (byte_at (cdb cmd) 13) D) as (_ & Hq1 & Hq2); [lia..|].
  unfold off, h in *. lia.
Qed.

(** Ends that leave the device alone. *)
Local Lemma caw_post_same x0 x sense a st :
  dev_over dev (x_bs x0) -> dev_over dev (x_bs x) -> bs_data (x_bs x) = bs_data (x_bs x0) ->
  gather (x_mem x) (cmd_iovec cmd) = Some g -> x_caw x = false -> st <> TCMU_STS_OK ->
  caw_post x0 (Fin x sense a st).
Proof.
  intros D0 D Hd Hg Hc Hst. destruct (caw_facts _ D0) as (_ & Hq1 & Hq2).
  unfold caw_post. cbn [f_x f_sts]. split_and!; auto. intros _. rewrite Hd. apply wrote_none; auto; lia.
Qed.

Local Lemma caw_check m b :
  cmd_data cmd m g -> dev_over dev b ->
  handle_caw_check dev cmd = Some TCMU_STS_OK /\
  tcmu_iovec_length (cmd_iovec cmd) (iov_cnt cmd) = Some (2 * h).
Proof.
  intros [Hc Hg Hd Hl Hc64] D. pose proof (tcmu_get_lba_bound _ _ Hbytes Hlba). pose proof D as (_ & DO & _).
  pose proof (dev_block_size_ok _ DO). pose proof (dev_num_lbas_ok _ DO).
  assert (0 <= byte_at (cdb cmd) 13) by (unfold h in Hh; nia).
  assert (tcmu_iovec_length (cmd_iovec cmd) (iov_cnt cmd) = Some (2 * h)) as El.
  { rewrite Hc, (iovec_length_gather _ _ _ Hg) by done. by rewrite Hlen. }
  split; [|done]. unfold handle_caw_check, check_iovec_length. rewrite Hlba, El. cbn [mbind option_bind].
  unfold tcmu_get_dev_block_size.
  replace (byte_at (cdb cmd) 13 * 2 * block_size dev) with (2 * h) by (unfold h; lia).
  rewrite u32_small, Z.eqb_refl by lia. cbn [negb]. unfold sts_ok. rewrite bool_decide_true by done. cbn [negb].
  by rewrite check_lbas_spec, (proj2 (Z.leb_le _ _)) by lia.
Qed.

(** The second phase: the device's bytes [g'] are in the buffer. *)
Local Lemma caw_read_cbk st x0 x g' ret :
  cs_requested st = h -> dev_over dev (x_bs x0) -> dev_over dev (x_bs x) ->
  bs_data (x_bs x) = bs_data (x_bs x0) -> cmd_data cmd (x_mem x) g -> apart_blk (cmd_iovec cmd) (cs_read_buf st) ->
  mem_load (x_mem x) (cs_read_buf st) h = Some g' ->
  (ret = TCMU_STS_OK -> g' = read_at (bs_data (x_bs x0)) off h) ->
  exists f, handle_caw_read_cbk dev cmd st x ret = Some f /\ caw_post x0 f.
Proof.
  intros Hreq D0 D Hdata C Hap Hbuf Hok. pose proof C as [Hc Hg Hd Hl Hc64].
  destruct (caw_facts _ D0) as (Hlp & Ho & Hob).
  assert (forall x' : xst B, gather (x_mem x') (cmd_iovec cmd) = Some g ->
    gather (x_mem (caw_free_readcmd st (caw_unlock x'))) (cmd_iovec cmd) = Some g) as Hfree.
  { intros x' Hx. cbn. by rewrite (gather_free _ _ _ Hap). }
  unfold handle_caw_read_cbk. destruct (sts_ok ret) eqn:Hret; cbn [negb].
  2:{ eexists. split; [reflexivity|]. apply caw_post_same; auto. by apply sts_ok_false. }
  apply sts_ok_true in Hret. specialize (Hok Hret). rewrite Hreq.
  destruct (tcmu_compare_with_iovec_spec (x_mem x) (cs_read_buf st) (cmd_iovec cmd) g g' h Hg) as (r & -> & Hr).
  { rewrite <- (gather_length _ _ _ Hg). lia. }
  { done. }
  cbn [mbind option_bind]. pose proof (mem_load_length _ _ _ _ Hbuf).
  rewrite (cmp_equal_spec _ _ _ Hr) by lia. case_bool_decide as Heq; cbn [negb].
  2:{ destruct (tcmu_set_sense_info_is_Some (sense_buf cmd) (u32 r) Hsense) as [sn ->].
      cbn [mbind option_bind]. eexists. split; [reflexivity|]. apply caw_post_same; auto. }
  destruct (Hseek _ C) as (c & -> & Ecdb & Esn & Ecnt & Gc).
  cbn [mbind option_bind]. rewrite Ecdb, Esn.
  pattern (async_handle_cmd dev (write_work_fn dev (cdb cmd) (cmd_iovec c) (iov_cnt c))
            (handle_caw_write_cbk (sense_buf cmd)) x).
  apply async_handle_cmd_cases.
  - intros l. eexists. split; [reflexivity|]. by apply caw_post_same; auto.
  - intros l. destruct (write_work_spec dev (cdb cmd) (cmd_iovec c) (iov_cnt c) lba w
      (XSt (x_bs x) (x_mem x) l (x_caw x))) as (b' & rp & -> & D' & Hrp & HW); auto.
    { cbn. rewrite Hdata. fold off. lia. }
    eexists _, _. split; [reflexivity|].
    assert (forall s a sn, rp = Done s \/ rp = Rejected s -> forall x' : xst B, x_bs x' = b' -> x_caw x' = false ->
      gather (x_mem x') (cmd_iovec cmd) = Some g -> caw_post x0 (Fin x' sn a s)) as Hpost.
    { intros s a sn Hs x' Eb El Hx. unfold caw_post. cbn [f_x f_sts]. rewrite Eb. split_and!; auto.
      - intros Hne. exfalso. apply Hne. by rewrite <- Heq.
      - intros _. rewrite <- Hdata. by apply (HW s). }
    destruct rp as [s|s]; [split|]; eexists; (split; [reflexivity|]); apply Hpost; auto; by apply Hfree.
Qed.

(** The read buffer. *)
Local Lemma caw_init_cases (x : xst B) :
  exists l, caw_init_readcmd h x = (None, XSt (x_bs x) (x_mem x) l (x_caw x)) \/
    exists buf, caw_init_readcmd h x =
        (Some (CawState h buf), XSt (x_bs x) (mem_new (x_mem x) (zeros (Z.to_nat h))).1 l (x_caw x)) /\
      buf = (mem_new (x_mem x) (zeros (Z.to_nat h))).2 /\
      mem_load (mem_new (x_mem x) (zeros (Z.to_nat h))).1 buf h = Some (zeros (Z.to_nat h)).
Proof.
  unfold caw_init_readcmd. destruct (x_tries_same 2 x) as (ok & l & ->). destruct ok; cbn [negb].
  2:{ exists l. by left. }
  destruct (alloc_iovec_cases h (XSt (x_bs x) (x_mem x) l (x_caw x))) as (buf & l' & [E|E] & Hb & Hz); [lia|..];
    rewrite E; exists l'; [by left|right]. by exists buf.
Qed.

Lemma handle_caw_spec x :
  dev_over dev (x_bs x) -> cmd_data cmd (x_mem x) g -> x_caw x = false ->
  exists f, handle_caw dev cmd x = Some f /\ caw_post x f.
Proof.
  intros D C Hcaw. pose proof C as [Hc Hg Hd Hl Hc64]. destruct (caw_facts _ D) as (Hlp & Ho & Hob).
  unfold handle_caw. destruct (caw_check _ _ C D) as [-> ->]. cbn [mbind option_bind].
  unfold sts_ok. rewrite bool_decide_true by done. cbn [negb]. rewrite Z.mul_comm, Z.div_mul by lia.
  destruct (caw_init_cases x) as (l & [->|(buf & -> & Hbuf & Hz)]).
  { eexists. split; [reflexivity|]. by apply caw_post_same. }
  set (m1 := (mem_new (x_mem x) (zeros (Z.to_nat h))).1) in *.
  assert (apart_blk (cmd_iovec cmd) buf) as Hap by (rewrite Hbuf; by eapply mem_new_apart_blk).
  assert (gather m1 (cmd_iovec cmd) = Some g) as Hg1 by (by apply gather_new).
  assert (forall m, gather m (cmd_iovec cmd) = Some g -> cmd_data cmd m g) as HC by (intros; by split).
  unfold caw_lock. cbn [x_caw]. rewrite Hcaw. cbn [mbind option_bind set_caw x_bs x_mem x_alloc].
  change (set_caw _ true) with (XSt (x_bs x) m1 l true).
  pattern (async_handle_cmd dev (read_work_fn dev (cdb cmd)
    [Iov (cs_read_buf (CawState h buf)) (cs_requested (CawState h buf))] 1)
    (handle_caw_read_cbk dev cmd (CawState h buf)) (XSt (x_bs x) m1 l true)).
  apply async_handle_cmd_cases.
  - intros l'. eexists. split; [reflexivity|]. apply caw_post_same; auto. cbn. by rewrite gather_free.
  - intros l'. cbn [cs_read_buf cs_requested x_bs x_mem x_caw].
    destruct (read_work_spec dev (cdb cmd) [Iov buf h] lba (zeros (Z.to_nat h)) (XSt (x_bs x) m1 l' true))
      as (b' & m' & r & E & D' & Hr & Hdata & (g' & Hg' & Hok) & HF); auto.
    { by apply gather_one. }
    { split; [constructor|done]. }
    { cbn. rewrite length_zeros. fold off. lia. }
    change (Z.of_nat (length [Iov buf h])) with 1 in E. rewrite E. eexists _, _. split; [reflexivity|].
    cbn [x_bs x_mem] in *. rewrite length_zeros, Z2Nat.id in Hok by lia. fold off in Hok.
    assert (gather m' (cmd_iovec cmd) = Some g) as Hgm by (by rewrite (gather_frame _ _ _ _ _ Hap HF)).
    apply gather_one_inv in Hg'.
    assert (forall s, (s = TCMU_STS_OK -> r = Done TCMU_STS_OK) ->
      exists f, (r0 ← handle_caw_read_cbk dev cmd (CawState h buf)
                        (set_mem (set_bs (XSt (x_bs x) m1 l' true) b') m') s; Some (inr r0)) =
                Some (inr f : xst B * tcmu_sts + fin B) /\ caw_post x f) as Hcbk.
    { intros s Hs. destruct (caw_read_cbk (CawState h buf) x
        (set_mem (set_bs (XSt (x_bs x) m1 l' true) b') m') g' s) as (f & -> & Hf); auto.
      by exists f. }
    destruct r as [s|s]; [split|].
    + eexists. split; [reflexivity|]. apply caw_post_same; auto; [cbn; by rewrite gather_free|congruence].
    + destruct (Hcbk s) as (f & -> & Hf); [congruence|]. by exists f.
    + destruct (Hcbk s) as (f & -> & Hf); [congruence|]. by exists f.
Qed.
End caw.


(** ** Concrete runs over the file handler *)

Definition caw_dev : tcmu_device :=
  Dev 4 4 128 8 0 true false (str "/disk") (Some (str "5f1ab3")) demo_handler.
Definition good_sys : file_sys := FSys (fun _ n => n) (fun _ n => n) 0.
Definition caw_file : file_state := File (replicate 16 5) 16.
Definition caw_cdb (lba sectors : Z) : list Z :=
  [COMPARE_AND_WRITE; 0] ++ be_enc 8 lba ++ [0; 0; 0; sectors; 0; 0].
Definition caw_cmd (iov : list iovec) : tcmulib_cmd :=
  Cmd 1 (caw_cdb 1 1) iov (Z.of_nat (length iov)) (zeros 96).
Definition caw_start : xst file_state := XSt caw_file {[ 0%nat := [5; 5; 5; 5; 7; 7; 7; 7] ]} [] false.

Lemma good_sys_ok : file_sys_ok good_sys.
Proof. split; cbn; lia. Qed.

#[export] Instance good_laws : @BackstoreLaws file_state (file_backstore good_sys) :=
  file_laws good_sys good_sys_ok.

Lemma caw_dev_over : dev_over (HL := good_laws) caw_dev caw_file.
Proof.
  split; [split; [by apply leb_complete|done]|]. split; [split; cbn; lia|]. by split.
Qed.

Lemma caw_cdb_ok lba sectors : is_byte sectors -> bytes_ok (caw_cdb lba sectors).
Proof.
  intros Hs. unfold caw_cdb. apply Forall_app_2; [|apply Forall_app_2; [apply be_enc_bytes|]];
    repeat apply Forall_cons_2; try apply Forall_nil_2; auto; unfold is_byte, COMPARE_AND_WRITE; lia.
Qed.


Definition split_cmd : tcmulib_cmd := caw_cmd [Iov (Ptr 0 0) 4; Iov (Ptr 0 4) 4].

(** COMPARE AND WRITE loses the write when the verify and the write data
    are separate segments.  [tcmu_seek_in_cmd_iovec] lowers [iov_cnt] but
    leaves the iovec pointing at the consumed verify segment, so the write
    callout sees one empty segment: over any backstore the command leaves the
    device as it was.  It does not fail: over the file handler, with equal verify
    data and system calls that all succeed, the command completes with
    [TCMU_STS_OK] and the write data is nowhere. *)
Theorem caw_split_data_lost {B} {HB : Backstore B} {HL : BackstoreLaws B} (dev : tcmu_device)
  (cmd : tcmulib_cmd) (g : list Z) (lba : Z) (p q : ptr) (x : xst B)
  (Hbytes : bytes_ok (cdb cmd)) (Hlba : tcmu_get_lba (cdb cmd) = Some lba)
  (Hlen : Z.of_nat (length g) = 2 * (byte_at (cdb cmd) 13 * block_size dev))
  (Hh : 0 < byte_at (cdb cmd) 13 * block_size dev)
  (Hh32 : 2 * (byte_at (cdb cmd) 13 * block_size dev) < 2 ^ 32)
  (Hin : lba + byte_at (cdb cmd) 13 <= num_lbas dev)
  (Hiov : cmd_iovec cmd = [Iov p (byte_at (cdb cmd) 13 * block_size dev);
                           Iov q (byte_at (cdb cmd) 13 * block_size dev)])
  (Hsense : (18 <= length (sense_buf cmd))%nat)
  (D : dev_over dev (x_bs x)) (C : cmd_data cmd (x_mem x) g) (Hcaw : x_caw x = false) :
  (exists f, handle_caw dev cmd x = Some f /\ x_caw (f_x f) = false /\
     bs_data (x_bs (f_x f)) = bs_data (x_bs x)) /\
  exists f, handle_caw (HB := file_backstore good_sys) caw_dev split_cmd caw_start = Some f /\
    f_sts f = TCMU_STS_OK /\ gather (x_mem (f_x f)) [Iov (Ptr 0 4) 4] = Some (replicate 4 7) /\
    bs_data (Backstore := file_backstore good_sys) (x_bs (f_x f)) = replicate 16 5.
Proof.
  split; [|eexists; by split_and!].
  destruct (handle_caw_spec dev cmd g lba []) with (x := x) as (f & E & Hc & _ & _ & H1 & H2); auto; [|simpl; lia|].
  - intros m [Hcnt Hg Hd Hl Hc64]. exists (Cmd (cmd_id cmd) (cdb cmd)
      [Iov p 0; Iov q (byte_at (cdb cmd) 13 * block_size dev)] 1 (sense_buf cmd)).
    unfold tcmu_seek_in_cmd_iovec. rewrite Hiov. cbn [tcmu_seek_in_iovec iov_len iov_base].
    rewrite (proj2 (Z.eqb_neq _ 0)), Z.leb_refl, Z.sub_diag, Z.eqb_refl by lia. cbn [mbind option_bind].
    split.
    + unfold set_iov_cnt, set_cmd_iovec. cbn. rewrite Hcnt, Hiov. done.
    + cbn. split_and!; done.
  - exists f. split; [done|]. split; [done|].
    destruct (decide (take (Z.to_nat (byte_at (cdb cmd) 13 * block_size dev)) g =
      read_at (bs_data (x_bs x)) (block_size dev * lba) (byte_at (cdb cmd) 13 * block_size dev))) as [Hv|Hv].
    + destruct (H2 Hv) as (w & Lw & -> & _). destruct w; [|done]. apply write_at_nil.
    + by apply H1.
Qed.

Lemma caw_split_data_lost_witness :
  (exists f, handle_caw (HB := file_backstore good_sys) caw_dev split_cmd caw_start = Some f /\
     x_caw (f_x f) = false /\
     bs_data (Backstore := file_backstore good_sys) (x_bs (f_x f)) = replicate 16 5).
Proof.
  apply (caw_split_data_lost (HL := good_laws) caw_dev split_cmd [5; 5; 5; 5; 7; 7; 7; 7] 1 (Ptr 0 0) (Ptr 0 4)
    caw_start).
  - apply caw_cdb_ok. unfold is_byte. lia.
  - reflexivity.
  - reflexivity.
  - reflexivity.
  - reflexivity.
  - cbn. lia.
  - reflexivity.
  - by apply leb_complete.
  - apply caw_dev_over.
  - split; [done|reflexivity| |cbn; lia|cbn; lia]. split; [|split; [constructor|done]].
    constructor; [|constructor]. right. left. cbn. lia.
  - reflexivity.
Defined.

(** ** Write, then read *)

(** C3: READ returns what WRITE stored.  Over any backstore that keeps its
    contract: a WRITE whose data has the length the CDB says and whose range is
    on the device ends without undefined behaviour, changes no byte of the
    device outside its range, and stores exactly its data when it reports
    success; a READ of the same blocks that reports success then delivers that
    data, and leaves the device and all memory outside its buffers alone.  A
    length that disagrees with the CDB is a hardware error, and a range past
    the end is refused, with nothing written. *)
Theorem write_then_read {B} {HB : Backstore B} {HL : BackstoreLaws B} (dev : tcmu_device)
  (wcmd : tcmulib_cmd) (g : list Z) (lba n : Z) (x : xst B)
  (D : dev_over dev (x_bs x)) (C : cmd_data wcmd (x_mem x) g) (Hb : bytes_ok (cdb wcmd))
  (Hlba : tcmu_get_lba (cdb wcmd) = Some lba) (Hn : tcmu_get_xfer_length (cdb wcmd) = Some n) :
  exists f, handle_write dev wcmd x = Some f /\
    (Z.of_nat (length g) <> u32 (n * block_size dev) ->
       f_sts f = TCMU_STS_HW_ERR /\ bs_data (x_bs (f_x f)) = bs_data (x_bs x)) /\
    (Z.of_nat (length g) = u32 (n * block_size dev) -> num_lbas dev < lba + n ->
       f_sts f = TCMU_STS_RANGE /\ bs_data (x_bs (f_x f)) = bs_data (x_bs x)) /\
    (Z.of_nat (length g) = u32 (n * block_size dev) -> lba + n <= num_lbas dev ->
       wrote (bs_data (x_bs x)) (block_size dev * lba) g (bs_data (x_bs (f_x f))) (f_sts f) /\
       forall rcmd g0, f_sts f = TCMU_STS_OK -> cmd_data rcmd (x_mem (f_x f)) g0 -> length g0 = length g ->
         bytes_ok (cdb rcmd) -> tcmu_get_lba (cdb rcmd) = Some lba ->
         tcmu_get_xfer_length (cdb rcmd) = Some n ->
         exists f2, handle_read dev rcmd (f_x f) = Some f2 /\
           bs_data (x_bs (f_x f2)) = bs_data (x_bs (f_x f)) /\
           (f_sts f2 = TCMU_STS_OK -> gather (x_mem (f_x f2)) (cmd_iovec rcmd) = Some g) /\
           (forall q k, outside (cmd_iovec rcmd) q k ->
              mem_load (x_mem (f_x f2)) q k = mem_load (x_mem (f_x f)) q k)).
Proof.
  destruct (handle_write_spec dev wcmd x g lba n D C Hb Hlba Hn) as (f & E & D' & _ & _ & H).
  destruct (check_rw_spec dev wcmd _ g lba n (x_bs x) D C Hb Hlba Hn) as (_ & H0 & _ & Hoff).
  exists f. split; [done|]. split; [|split].
  - intros Hne. rewrite (proj2 (Z.eqb_neq _ _) Hne) in H. cbn [negb] in H. by subst f.
  - intros He Hr. rewrite (proj2 (Z.eqb_eq _ _) He), (proj2 (Z.leb_gt _ _) Hr) in H. cbn [negb] in H. by subst f.
  - intros He Hr. specialize (Hoff He Hr).
    rewrite (proj2 (Z.eqb_eq _ _) He), (proj2 (Z.leb_le _ _) Hr) in H. cbn [negb] in H. split; [done|].
    intros rcmd g0 Hok C0 L0 Hb0 Hlba0 Hn0. destruct H as (w & Lw & Hd & Hw). specialize (Hw Hok) as ->.
    destruct (handle_read_spec dev rcmd (f_x f) g0 lba n D' C0 Hb0 Hlba0 Hn0) as (f2 & E2 & _ & Hd2 & _ & HF & H2).
    exists f2. split; [done|]. split; [done|]. split; [|done].
    rewrite L0, (proj2 (Z.eqb_eq _ _) He), (proj2 (Z.leb_le _ _) Hr) in H2. cbn [negb] in H2.
    destruct H2 as (g' & Hg' & Hok2). intros Hs. rewrite Hg', (Hok2 Hs), Hd, read_write_at; [done| |].
    + pose proof (dev_block_size_ok _ (proj1 (proj2 D))). apply Z.mul_nonneg_nonneg; lia.
    + lia.
Qed.

Definition rw_cmd (op : Z) (iov : list iovec) : tcmulib_cmd :=
  Cmd 1 ([op; 0] ++ be_enc 4 1 ++ [0] ++ be_enc 2 2 ++ [0]) iov (Z.of_nat (length iov)) (zeros 96).

Lemma write_then_read_witness :
  exists f f2, handle_write (HB := file_backstore good_sys) caw_dev (rw_cmd WRITE_10 [Iov (Ptr 0 0) 8]) caw_start = Some f /\
    handle_read (HB := file_backstore good_sys) caw_dev (rw_cmd READ_10 [Iov (Ptr 0 0) 8]) (f_x f) = Some f2 /\
    f_sts f2 = TCMU_STS_OK /\
    gather (x_mem (f_x f2)) [Iov (Ptr 0 0) 8] = Some [5; 5; 5; 5; 7; 7; 7; 7].
Proof.
  assert (forall op, is_byte op -> bytes_ok (cdb (rw_cmd op [Iov (Ptr 0 0) 8]))) as Hb.
  { intros op Ho. cbn. repeat apply Forall_cons_2; try apply Forall_nil_2; auto; unfold is_byte; by vm_compute. }
  assert (forall op m, gather m [Iov (Ptr 0 0) 8] = Some [5; 5; 5; 5; 7; 7; 7; 7] ->
    cmd_data (rw_cmd op [Iov (Ptr 0 0) 8]) m [5; 5; 5; 5; 7; 7; 7; 7]) as HC.
  { intros op m Hm. split; [done|exact Hm|by split; constructor|cbn; lia|cbn; lia]. }
  destruct (write_then_read (HL := good_laws) caw_dev (rw_cmd WRITE_10 [Iov (Ptr 0 0) 8])
    [5; 5; 5; 5; 7; 7; 7; 7] 1 2 caw_start caw_dev_over) as (f & E & _ & _ & H).
  - by apply HC.
  - apply Hb. unfold is_byte. by vm_compute.
  - reflexivity.
  - reflexivity.
  - assert (fmap (fun f => (f_sts f, gather (x_mem (f_x f)) [Iov (Ptr 0 0) 8]))
      (handle_write (HB := file_backstore good_sys) caw_dev (rw_cmd WRITE_10 [Iov (Ptr 0 0) 8]) caw_start) =
      Some (TCMU_STS_OK, Some [5; 5; 5; 5; 7; 7; 7; 7])) as E1 by (vm_compute; reflexivity).
    assert (fmap f_sts (handle_write (HB := file_backstore good_sys) caw_dev (rw_cmd WRITE_10 [Iov (Ptr 0 0) 8]) caw_start
      ≫= fun f => handle_read (HB := file_backstore good_sys) caw_dev (rw_cmd READ_10 [Iov (Ptr 0 0) 8]) (f_x f)) =
      Some TCMU_STS_OK) as E3 by (vm_compute; reflexivity).
    rewrite E in E1, E3. cbn [fmap option_fmap option_map mbind option_bind] in E1, E3.
    assert (f_sts f = TCMU_STS_OK /\ gather (x_mem (f_x f)) [Iov (Ptr 0 0) 8] = Some [5; 5; 5; 5; 7; 7; 7; 7]) as [Hs Hg]
      by (split; congruence).
    destruct H as [_ H]; [reflexivity|by vm_compute|].
    destruct (H (rw_cmd READ_10 [Iov (Ptr 0 0) 8]) [5; 5; 5; 5; 7; 7; 7; 7]) as (f2 & E2 & _ & Hr & _); auto.
    { apply Hb. unfold is_byte. by vm_compute. }
    rewrite E2 in E3. cbn [fmap option_fmap option_map] in E3.
    assert (f_sts f2 = TCMU_STS_OK) as Hs2 by congruence.
    exists f, f2. split_and!; [done|done|done|]. by apply Hr.
Defined.
