(* ===== verification/Unmap.v ===== *)
(** * UNMAP

    The parameter list of UNMAP, the split of each range at the granularity
    boundaries, and the reference-counted completion of the pieces
    ([tcmur_cmd_handler.c]).  The pieces are put on the queue while
    [state->lock] is held, so no callback runs before all are submitted;
    afterwards they run in any order. *)

From S2P Require Import Prelude Scsi Iovec Device Backstore Aio Rw.

(** ** State *)

(** [src tcmu-runner/tcmur_cmd_handler.c struct unmap_state] *)
Record unmap_state := UnmapState { us_refcount : Z; us_error : bool; us_status : tcmu_sts }.

(** A submitted piece.  [up_reply]: with [nr_threads = 0] the callout has run
    and this is what it will call [done] with; otherwise a worker runs it.
    [src tcmu-runner/tcmur_cmd_handler.c struct unmap_descriptor] *)
Record unmap_descriptor := UnmapDesc { ud_offset : Z; ud_length : Z; ud_reply : option tcmu_sts }.

(** The callback of one piece; the second component is the status the original
    command is finished with, when this was the last piece.
    [src tcmu-runner/tcmur_cmd_handler.c handle_unmap_cbk] *)
Definition handle_unmap_cbk (state : unmap_state) (ret : tcmu_sts) : unmap_state * option tcmu_sts :=
  let '(error, status) :=
    if negb (us_error state) && negb (sts_ok ret) then (true, ret) else (us_error state, us_status state) in
  let refcount := u32 (us_refcount state - 1) in
  (UnmapState refcount error status,
   if 0 <? refcount then None else Some (if error then status else ret)).

(** The callbacks with the replies of the pieces, in the order they arrive.
    The result has every status that was handed to [aio_command_finish]; a
    callback after the state was freed is undefined behaviour. *)
Fixpoint run_unmap_cbks (state : unmap_state) (replies : list tcmu_sts) : option (list tcmu_sts) :=
  match replies with
  | [] => Some []
  | ret :: l =>
      match handle_unmap_cbk state ret with
      | (state, None) => run_unmap_cbks state l
      | (_, Some s) => match l with [] => Some [s] | _ => None end
      end
  end.

Section commands.
Context {B : Type} {HB : Backstore B} (dev : tcmu_device).

(** [src tcmu-runner/tcmur_cmd_handler.c unmap_state_alloc] *)
Definition unmap_state_alloc (x : xst B) : option unmap_state * xst B :=
  let '(ok, x) := x_try x in
  (if ok then Some (UnmapState 0 false TCMU_STS_OK) else None, x).

(** [src tcmu-runner/tcmur_cmd_handler.c unmap_work_fn] *)
Definition unmap_work_fn (d : unmap_descriptor) (x : xst B) : option (xst B * reply) :=
  '(b, r) ← bs_unmap (x_bs x) (ud_offset d) (ud_length d); Some (set_bs x b, r).

(** [async_handle_cmd(dev, ucmd, unmap_work_fn)], whose callback cannot run
    yet: [inl] is the status it returned, [inr] the piece it accepted.
    [src tcmu-runner/tcmur_aio.c async_handle_cmd] *)
Definition unmap_submit (offset length : Z) (x : xst B)
    : option (xst B * (tcmu_sts + unmap_descriptor)) :=
  if nr_threads (rhandler dev) =? 0 then
    '(x, r) ← unmap_work_fn (UnmapDesc offset length None) x;
    match r with
    | Rejected s => Some (x, inl s)
    | Done s => Some (x, inr (UnmapDesc offset length (Some s)))
    end
  else
    let '(ok, x) := x_try x in
    if ok then Some (x, inr (UnmapDesc offset length None)) else Some (x, inl TCMU_STS_NO_RESOURCE).

(** The pieces run in the order of the list; their replies. *)
Fixpoint run_pieces (q : list unmap_descriptor) (x : xst B) : option (xst B * list tcmu_sts) :=
  match q with
  | [] => Some (x, [])
  | d :: q =>
      '(x, s) ← match ud_reply d with
                | Some s => Some (x, s)
                | None => '(x, r) ← unmap_work_fn d x; match r with Rejected s | Done s => Some (x, s) end
                end;
      '(x, l) ← run_pieces q x;
      Some (x, s :: l)
  end.

(** The [while (nlbas)] loop; [q] has the pieces accepted so far, the newest
    last.  [None]: the loop does not end within [fuel] rounds.
    [src tcmu-runner/tcmur_cmd_handler.c 315-358 align_and_split_unmap] *)
Fixpoint split_loop (fuel : nat) (lba nlbas lbas : Z) (ret : tcmu_sts) (refcount : Z)
    (q : list unmap_descriptor) (x : xst B) : option (xst B * Z * list unmap_descriptor * tcmu_sts) :=
  if nlbas =? 0 then Some (x, refcount, q, ret)
  else match fuel with
  | O => None
  | S fuel =>
      let '(ok, x) := x_tries 2 x in
      if negb ok then Some (x, refcount, q, TCMU_STS_NO_RESOURCE)
      else
        let block_size := tcmu_get_dev_block_size dev in
        '(x, r) ← unmap_submit (u64 (lba * block_size)) (u64 (lbas * block_size)) x;
        match r with
        | inl ret => Some (x, refcount, q, ret)
        | inr d =>
            let nlbas := u64 (nlbas - lbas) in
            split_loop fuel (u64 (lba + lbas)) nlbas (Z.min (tcmu_get_dev_opt_unmap_gran dev) nlbas)
              TCMU_STS_ASYNC_HANDLED (u32 (refcount + 1)) (q ++ [d]) x
        end
  end.

(** [src tcmu-runner/tcmur_cmd_handler.c align_and_split_unmap] *)
Definition align_and_split_unmap (lba nlbas : Z) (refcount : Z) (q : list unmap_descriptor) (x : xst B)
    : option (xst B * Z * list unmap_descriptor * tcmu_sts) :=
  let mask := u64 (tcmu_get_dev_unmap_gran_align dev - 1) in
  let lbas := u64 (tcmu_get_dev_opt_unmap_gran dev - Z.land lba mask) in
  split_loop (Z.to_nat nlbas) lba nlbas (Z.min lbas nlbas) TCMU_STS_NOT_HANDLED refcount q x.

(** The descriptors from [par[offset]] on, [n] of them.
    [src tcmu-runner/tcmur_cmd_handler.c 378-408 handle_unmap_internal] *)
Fixpoint unmap_descs (n : nat) (par : list Z) (offset : Z) (refcount : Z) (q : list unmap_descriptor)
    (ret : tcmu_sts) (x : xst B) : option (xst B * Z * list unmap_descriptor * tcmu_sts) :=
  match n with
  | O => Some (x, refcount, q, ret)
  | S n =>
      lba ← bget par (8 + Z.to_nat offset) 8;
      nlbas ← bget par (8 + Z.to_nat (offset + 8)) 4;
      let lba := be_dec lba in
      let nlbas := be_dec nlbas in
      if VPD_MAX_UNMAP_LBA_COUNT <? nlbas then Some (x, refcount, q, TCMU_STS_INVALID_PARAM_LIST)
      else
        let ret := check_lbas dev lba nlbas in
        if negb (sts_ok ret) then Some (x, refcount, q, ret)
        else if negb (nlbas =? 0) then
          '(x, refcount, q, ret) ← align_and_split_unmap lba nlbas refcount q x;
          if bool_decide (ret = TCMU_STS_ASYNC_HANDLED)
          then unmap_descs n par (u16 (offset + 16)) refcount q ret x
          else Some (x, refcount, q, ret)
        else unmap_descs n par (u16 (offset + 16)) refcount q ret x
  end.

(** The status returned, and what is left for the callbacks: the state (unless
    freed) and the pieces.
    [src tcmu-runner/tcmur_cmd_handler.c handle_unmap_internal] *)
Definition handle_unmap_internal (bddl : Z) (par : list Z) (x : xst B)
    : option (xst B * tcmu_sts * option unmap_state * list unmap_descriptor) :=
  '(x, refcount, q, ret) ← unmap_descs (Z.to_nat (bddl / 16)) par 0 0 [] TCMU_STS_OK x;
  if refcount =? 0 then Some (x, ret, None, q)
  else Some (x, TCMU_STS_ASYNC_HANDLED,
             Some (UnmapState refcount (negb (bool_decide (ret = TCMU_STS_ASYNC_HANDLED))) ret), q).

(** [src tcmu-runner/tcmur_cmd_handler.c handle_unmap] *)
Definition handle_unmap (cmd : tcmulib_cmd) (x : xst B)
    : option (xst B * tcmu_sts * option unmap_state * list unmap_descriptor) :=
  let ret x s := Some (x, s, None, []) in
  data_length ← tcmu_get_xfer_length (cdb cmd);
  if negb (Z.land (byte_at (cdb cmd) 1) 0x01 =? 0) then ret x TCMU_STS_INVALID_CDB
  else if data_length =? 0 then ret x TCMU_STS_OK
  else if data_length <? 8 then ret x TCMU_STS_INVALID_PARAM_LIST_LEN
  else
    let '(ok, x) := x_try x in
    if negb ok then ret x TCMU_STS_NO_RESOURCE
    else
      '(par, _, copied) ← tcmu_memcpy_from_iovec (x_mem x) (zeros (Z.to_nat data_length)) data_length
                             (cmd_iovec cmd) (iov_cnt cmd);
      if negb (copied =? data_length) then ret x TCMU_STS_INVALID_PARAM_LIST_LEN
      else
        bddl ← bget par 2 2;
        let bddl := Z.land (be_dec bddl) 0xfff0 in
        if bddl =? 0 then ret x TCMU_STS_OK
        else if VPD_MAX_UNMAP_BLOCK_DESC_COUNT <? bddl / 16 then ret x TCMU_STS_INVALID_PARAM_LIST
        else match unmap_state_alloc x with
             | (None, x) => ret x TCMU_STS_NO_RESOURCE
             | (Some _, x) => handle_unmap_internal bddl par x
             end.
End commands.

(** ** The split *)

(** The pieces cover the blocks [lba .. lba + n) in order and without gaps;
    each has at most [gran] blocks, and each but the last ends at a multiple of
    [gran]. *)
Fixpoint tiles (gran lba n : Z) (l : list (Z * Z)) : Prop :=
  match l with
  | [] => n = 0
  | (o, k) :: l =>
      o = lba /\ 0 < k <= gran /\ k <= n /\ ((lba + k) mod gran = 0 \/ k = n) /\ tiles gran (lba + k) (n - k) l
  end.

Lemma tiles_length gran lba n l : tiles gran lba n l -> Z.of_nat (length l) <= n.
Proof.
  revert lba n. induction l as [|[o k] l IH]; intros lba n; cbn [tiles length]; [lia|].
  intros (_ & Hk & _ & _ & T). apply IH in T. lia.
Qed.

(** Descriptors as they are queued for a worker. *)
Definition pieces_of (bs : Z) (l : list (Z * Z)) : list unmap_descriptor :=
  map (fun '(o, k) => UnmapDesc (o * bs) (k * bs) None) l.

Section split.
Context {B : Type} {HB : Backstore B} (dev : tcmu_device).
Context (Hthr : nr_threads (rhandler dev) <> 0) (D : dev_ok dev) (Hdev : num_lbas dev * block_size dev < 2 ^ 63).

Lemma x_tries_ok n (x : xst B) : x_alloc x = [] -> x_tries n x = (true, x).
Proof. intros E. revert x E. induction n as [|n IH]; intros x E; [done|]. cbn. unfold x_try. rewrite E. by apply IH. Qed.

Lemma unmap_submit_ok o l (x : xst B) :
  x_alloc x = [] -> unmap_submit dev o l x = Some (x, inr (UnmapDesc o l None)).
Proof. intros E. unfold unmap_submit, x_try. rewrite (proj2 (Z.eqb_neq _ _) Hthr), E. done. Qed.

Lemma blocks_small n : 0 <= n <= num_lbas dev -> 0 <= n * block_size dev < 2 ^ 63.
Proof. intros Hn. pose proof (dev_block_size_ok _ D). split; nia. Qed.

Lemma split_loop_spec (gran : Z) (Hg : opt_unmap_gran dev = gran) (Hg0 : 0 < gran) fuel :
  forall lba n ret rc q (x : xst B), x_alloc x = [] -> (Z.to_nat n <= fuel)%nat -> 0 <= n -> 0 <= lba ->
  lba + n <= num_lbas dev -> 0 <= rc -> rc + n < 2 ^ 32 ->
  exists ps, split_loop dev fuel lba n (Z.min (gran - lba mod gran) n) ret rc q x =
      Some (x, rc + Z.of_nat (length ps), q ++ pieces_of (block_size dev) ps,
            if n =? 0 then ret else TCMU_STS_ASYNC_HANDLED) /\
    tiles gran lba n ps.
Proof.
  pose proof (dev_num_lbas_ok _ D). pose proof (dev_gran_ok _ D).
  induction fuel as [|fuel IH]; intros lba n ret rc q x Hx Hf Hn Hlba Hin Hrc Hrn.
  { exists []. assert (n = 0) as -> by lia. cbn. by rewrite Z.add_0_r, app_nil_r. }
  cbn [split_loop]. destruct (Z.eqb_spec n 0) as [->|Hn0].
  { exists []. cbn. by rewrite Z.add_0_r, app_nil_r. }
  set (k := Z.min (gran - lba mod gran) n). pose proof (Z.mod_pos_bound lba gran Hg0).
  assert (0 < k <= n) as Hk by (unfold k; lia).
  rewrite x_tries_ok by done. cbn [negb]. rewrite unmap_submit_ok by done. cbn [mbind option_bind].
  unfold tcmu_get_dev_block_size, tcmu_get_dev_opt_unmap_gran. rewrite Hg.
  pose proof (blocks_small lba ltac:(lia)). pose proof (blocks_small k ltac:(lia)).
  rewrite !u64_small, u32_small by lia.
  assert ((lba + k) mod gran = 0 \/ k = n) as Hal.
  { unfold k. destruct (Z.min_spec (gran - lba mod gran) n) as [[? ->]|[? ->]]; [left|by right].
    replace (lba + (gran - lba mod gran)) with ((lba / gran + 1) * gran).
    - apply Z.mod_mul. lia.
    - pose proof (Z.div_mod lba gran). lia. }
  replace (Z.min gran (n - k)) with (Z.min (gran - (lba + k) mod gran) (n - k)).
  2:{ destruct Hal as [->|E]; [by rewrite Z.sub_0_r|]. pose proof (Z.mod_pos_bound (lba + k) gran Hg0). lia. }
  destruct (IH (lba + k) (n - k) TCMU_STS_ASYNC_HANDLED (rc + 1)
    (q ++ [UnmapDesc (lba * block_size dev) (k * block_size dev) None]) x) as (ps & -> & T); [done|lia..|].
  exists ((lba, k) :: ps). split.
  - cbn [length pieces_of map]. rewrite <- app_assoc. cbn [app].
    replace (rc + 1 + Z.of_nat (length ps)) with (rc + Z.of_nat (S (length ps))) by lia. by case_if.
  - cbn. by split_and!; try lia.
Qed.

(** The alignment of the first piece, when granularity and alignment are the
    same power of two, as the code assumes. *)
Lemma align_and_split_spec k lba n rc q (x : xst B) :
  0 <= k < 32 -> opt_unmap_gran dev = 2 ^ k -> unmap_gran_align dev = 2 ^ k ->
  x_alloc x = [] -> 0 < n -> 0 <= lba -> lba + n <= num_lbas dev -> 0 <= rc -> rc + n < 2 ^ 32 ->
  exists ps, align_and_split_unmap dev lba n rc q x =
      Some (x, rc + Z.of_nat (length ps), q ++ pieces_of (block_size dev) ps, TCMU_STS_ASYNC_HANDLED) /\
    tiles (2 ^ k) lba n ps.
Proof.
  intros Hk Hg Ha Hx Hn Hlba Hin Hrc Hrn. assert (0 < 2 ^ k) by (apply Z.pow_pos_nonneg; lia).
  assert (2 ^ k < 2 ^ 32) by (apply Z.pow_lt_mono_r; lia).
  unfold align_and_split_unmap, tcmu_get_dev_unmap_gran_align, tcmu_get_dev_opt_unmap_gran. rewrite Hg, Ha.
  assert (u64 (2 ^ k - 1) = Z.ones k) as -> by (rewrite Z.ones_equiv; apply u64_small; lia).
  rewrite Z.land_ones by lia. pose proof (Z.mod_pos_bound lba (2 ^ k)). rewrite u64_small by lia.
  destruct (split_loop_spec (2 ^ k) Hg ltac:(lia) (Z.to_nat n) lba n TCMU_STS_NOT_HANDLED rc q x) as (ps & -> & T);
    [done|lia..|].
  exists ps. by rewrite (proj2 (Z.eqb_neq n 0)) by lia.
Qed.

(** ** The parameter list *)

Definition unmap_desc_bytes (d : Z * Z) : list Z := be_enc 8 d.1 ++ be_enc 4 d.2 ++ zeros 4.

Definition desc_ok (d : Z * Z) : Prop :=
  0 <= d.1 /\ 0 <= d.2 <= VPD_MAX_UNMAP_LBA_COUNT /\ d.1 + d.2 <= num_lbas dev.

(** The status the walk over the descriptors ends with: that of the last
    one. *)
Fixpoint walk_ret (ds : list (Z * Z)) (ret : tcmu_sts) : tcmu_sts :=
  match ds with
  | [] => ret
  | d :: ds => walk_ret ds (if d.2 =? 0 then TCMU_STS_OK else TCMU_STS_ASYNC_HANDLED)
  end.

Lemma check_lbas_in lba n :
  0 <= lba -> 0 <= n -> lba + n <= num_lbas dev -> check_lbas dev lba n = TCMU_STS_OK.
Proof.
  intros H1 H2 H3. pose proof (dev_num_lbas_ok _ D). unfold check_lbas, tcmu_get_dev_num_lbas.
  rewrite u64_small by lia. by rewrite (proj2 (Z.ltb_ge (num_lbas dev) _)), (proj2 (Z.ltb_ge _ lba)) by lia.
Qed.

(** The lists of pieces of all the descriptors, and the status the walk ends
    with. *)
Lemma unmap_descs_spec k ds : forall pre rest rc q ret (x : xst B),
  0 <= k < 32 -> opt_unmap_gran dev = 2 ^ k -> unmap_gran_align dev = 2 ^ k ->
  x_alloc x = [] -> Forall desc_ok ds -> (8 <= length pre)%nat -> Z.of_nat (length pre + 16 * length ds) < 65536 ->
  0 <= rc -> rc + Z.of_nat (length ds) * VPD_MAX_UNMAP_LBA_COUNT < 2 ^ 32 ->
  exists pss, unmap_descs dev (length ds) (pre ++ concat (map unmap_desc_bytes ds) ++ rest)
      (Z.of_nat (length pre) - 8) rc q ret x =
    Some (x, rc + Z.of_nat (length (concat pss)), q ++ pieces_of (block_size dev) (concat pss),
          walk_ret ds ret) /\
    Forall2 (fun d ps => tiles (2 ^ k) d.1 d.2 ps) ds pss /\
    Z.of_nat (length (concat pss)) <= Z.of_nat (length ds) * VPD_MAX_UNMAP_LBA_COUNT.
Proof.
  induction ds as [|[lba n] ds IH]; intros pre rest rc q ret x Hk Hg Ha Hx Hds Hpre Hlen Hrc Hrn.
  { exists []. cbn. by rewrite Z.add_0_r, app_nil_r. }
  apply Forall_cons in Hds as [(H1 & H2 & H3) Hds]. unfold desc_ok in *. cbn [fst snd] in *.
  assert (length (unmap_desc_bytes (lba, n)) = 16)%nat as L16
    by (unfold unmap_desc_bytes; rewrite !length_app, !be_enc_length; done).
  pose proof (dev_num_lbas_ok _ D). cbn [unmap_descs map concat length]. cbn [length] in Hlen, Hrn.
  change VPD_MAX_UNMAP_LBA_COUNT with 33554432 in *.
  replace (8 + Z.to_nat (Z.of_nat (length pre) - 8))%nat with (length pre) by lia.
  replace (8 + Z.to_nat (Z.of_nat (length pre) - 8 + 8))%nat with (length (pre ++ be_enc 8 lba))
    by (rewrite length_app, be_enc_length; lia).
  set (par := pre ++ (unmap_desc_bytes (lba, n) ++ concat (map unmap_desc_bytes ds)) ++ rest).
  assert (bget par (length pre) 8 = Some (be_enc 8 lba)) as ->.
  { unfold par, unmap_desc_bytes. cbn [fst snd]. rewrite <- !app_assoc. by apply bget_app_at. }
  assert (bget par (length (pre ++ be_enc 8 lba)) 4 = Some (be_enc 4 n)) as ->.
  { unfold par, unmap_desc_bytes. cbn [fst snd]. rewrite <- !app_assoc, app_assoc. by apply bget_app_at. }
  cbn [mbind option_bind]. rewrite !be_dec_enc by (cbn; lia).
  rewrite (proj2 (Z.ltb_ge 33554432 n)), check_lbas_in by lia.
  unfold sts_ok. rewrite bool_decide_true by done. cbn [negb].
  assert (exists ps, (if negb (n =? 0)
      then '(x, refcount, q, ret) ← align_and_split_unmap dev lba n rc q x;
           if bool_decide (ret = TCMU_STS_ASYNC_HANDLED)
           then unmap_descs dev (length ds) par (u16 (Z.of_nat (length pre) - 8 + 16)) refcount q ret x
           else Some (x, refcount, q, ret)
      else unmap_descs dev (length ds) par (u16 (Z.of_nat (length pre) - 8 + 16)) rc q TCMU_STS_OK x) =
    unmap_descs dev (length ds) par (u16 (Z.of_nat (length pre) - 8 + 16)) (rc + Z.of_nat (length ps))
      (q ++ pieces_of (block_size dev) ps) (if n =? 0 then TCMU_STS_OK else TCMU_STS_ASYNC_HANDLED) x /\
    tiles (2 ^ k) lba n ps) as (ps & -> & T).
  { destruct (Z.eqb_spec n 0) as [->|Hn]; cbn [negb].
    - exists []. cbn. by rewrite Z.add_0_r, app_nil_r.
    - destruct (align_and_split_spec k lba n rc q x) as (ps & -> & T); [done|done|done|done|lia..|].
      exists ps. cbn [mbind option_bind]. by rewrite bool_decide_true. }
  pose proof (tiles_length _ _ _ _ T). rewrite u16_small by lia.
  destruct (IH (pre ++ unmap_desc_bytes (lba, n)) rest (rc + Z.of_nat (length ps)) (q ++ pieces_of (block_size dev) ps)
    (if n =? 0 then TCMU_STS_OK else TCMU_STS_ASYNC_HANDLED) x) as (pss & E & F & Lp);
    try done; rewrite ?length_app, ?L16; try lia.
  exists (ps :: pss). split; [|split].
  - unfold par. rewrite <- app_assoc, app_assoc.
    replace (Z.of_nat (length pre) - 8 + 16) with (Z.of_nat (length (pre ++ unmap_desc_bytes (lba, n))) - 8)
      by (rewrite length_app; lia). rewrite E.
    unfold pieces_of. cbn [concat]. by rewrite map_app, !length_app, <- app_assoc, Nat2Z.inj_add, Z.add_assoc.
  - by constructor.
  - cbn [concat]. rewrite length_app. lia.
Qed.

(** ** Completion *)

(** The first status that is not [TCMU_STS_OK]. *)
Definition first_error (l : list tcmu_sts) : tcmu_sts :=
  match List.find (fun s => negb (sts_ok s)) l with Some s => s | None => TCMU_STS_OK end.

Lemma run_cbks_spec l : forall st,
  l <> [] -> us_refcount st = Z.of_nat (length l) -> us_refcount st < 2 ^ 32 ->
  run_unmap_cbks st l = Some [if us_error st then us_status st else first_error l].
Proof.
  unfold first_error. induction l as [|s l IH]; intros [rc e stt] Hne Hrc Hlt; [done|].
  cbn [us_refcount us_error us_status length] in *. cbn [run_unmap_cbks List.find].
  unfold handle_unmap_cbk. cbn [us_refcount us_error us_status]. rewrite u32_small by lia.
  destruct l as [|s' l].
  - cbn [length] in Hrc. replace rc with 1 by (cbn in Hrc; lia). cbn.
    destruct e; cbn; [done|]. unfold sts_ok. repeat case_bool_decide; by simplify_eq/=.
  - rewrite (proj2 (Z.ltb_lt 0 _)) by (simpl in *; lia).
    destruct (negb e && negb (sts_ok s)) eqn:E;
      rewrite IH by (cbn [us_refcount length] in *; done || lia); cbn [us_error us_status].
    + apply andb_prop in E as [E1 E2]. rewrite E2. by destruct e.
    + destruct e; [done|]. cbn in E. by rewrite E.
Qed.

Lemma run_pieces_length (q : list unmap_descriptor) : forall (x x' : xst B) l,
  run_pieces q x = Some (x', l) -> length l = length q.
Proof.
  induction q as [|d q IH]; intros x x' l; cbn [run_pieces]; [by intros [= <- <-]|].
  destruct (match ud_reply d with Some s => _ | None => _ end) as [[y s]|]; cbn; [|done].
  destruct (run_pieces q y) as [[z l']|] eqn:E; cbn; [|done].
  intros [= <- <-]. cbn. f_equal. by eapply IH.
Qed.

Lemma land_fff0 v : 0 <= v < 80 -> Z.land v 0xfff0 = 16 * (v / 16).
Proof.
  intros Hv. assert (forallb (fun i => Z.land (Z.of_nat i) 0xfff0 =? 16 * (Z.of_nat i / 16)) (seq 0 80) = true) as H
    by (by vm_compute).
  rewrite forallb_forall in H. specialize (H (Z.to_nat v)). rewrite Z2Nat.id in H by lia.
  apply Z.eqb_eq, H, in_seq. lia.
Qed.

(** The steps before the descriptors. *)
Lemma handle_unmap_header cmd (x : xst B) g dl v body :
  g = be_enc 2 dl ++ be_enc 2 v ++ body -> (4 <= length body)%nat -> 16 <= v < 80 ->
  gather (x_mem x) (cmd_iovec cmd) = Some g -> iov_cnt cmd = Z.of_nat (length (cmd_iovec cmd)) ->
  tcmu_get_xfer_length (cdb cmd) = Some (Z.of_nat (length g)) ->
  Z.land (byte_at (cdb cmd) 1) 1 = 0 -> x_alloc x = [] ->
  handle_unmap dev cmd x = handle_unmap_internal dev (16 * (v / 16)) g x.
Proof.
  intros Eg Hbody Hv Hg Hcnt Hxl Hanchor Hx.
  assert (length g = 4 + length body)%nat as Lg by (rewrite Eg, !length_app, !be_enc_length; lia).
  unfold handle_unmap. rewrite Hxl, Hanchor. cbn [mbind option_bind Z.eqb negb].
  rewrite (proj2 (Z.eqb_neq (Z.of_nat (length g)) 0)), (proj2 (Z.ltb_ge (Z.of_nat (length g)) 8)) by lia.
  unfold x_try. rewrite Hx. cbn [negb].
  assert (exists iov', tcmu_memcpy_from_iovec (x_mem x) (zeros (Z.to_nat (Z.of_nat (length g)))) (Z.of_nat (length g))
    (cmd_iovec cmd) (iov_cnt cmd) = Some (g, iov', Z.of_nat (length g))) as (iov' & ->).
  { rewrite Hcnt, Nat2Z.id. by apply gather_whole. }
  cbn [mbind option_bind]. rewrite Z.eqb_refl. cbn [negb].
  assert (bget g 2 2 = Some (be_enc 2 v)) as -> by (rewrite Eg; by apply bget_app_at).
  cbn [mbind option_bind]. rewrite be_dec_enc, land_fff0 by (cbn; lia).
  rewrite (proj2 (Z.eqb_neq (16 * (v / 16)) 0)) by dlia.
  replace (16 * (v / 16) / 16) with (v / 16) by dlia.
  change VPD_MAX_UNMAP_BLOCK_DESC_COUNT with 4. rewrite (proj2 (Z.ltb_ge 4 _)) by dlia.
  unfold unmap_state_alloc, x_try. by rewrite Hx.
Qed.
End split.

(** ** What UNMAP does *)

(** A command whose Data-Out buffer is an UNMAP parameter list: the data
    lengths, four reserved bytes, the descriptors [ds], and what is left of the
    buffer.  [v] is the descriptor data length, which may end in an incomplete
    descriptor. *)
Record unmap_cmd {B} (cmd : tcmulib_cmd) (x : xst B) (dl v : Z) (rsv : list Z) (ds : list (Z * Z))
    (rest : list Z) : Prop := {
  uc_v : 16 * Z.of_nat (length ds) <= v < 16 * Z.of_nat (length ds) + 16;
  uc_gather : gather (x_mem x) (cmd_iovec cmd) =
    Some (be_enc 2 dl ++ be_enc 2 v ++ rsv ++ concat (map unmap_desc_bytes ds) ++ rest);
  uc_rsv : length rsv = 4%nat;
  uc_cnt : iov_cnt cmd = Z.of_nat (length (cmd_iovec cmd));
  uc_xfer : tcmu_get_xfer_length (cdb cmd) =
    Some (Z.of_nat (length (be_enc 2 dl ++ be_enc 2 v ++ rsv ++ concat (map unmap_desc_bytes ds) ++ rest)));
  uc_anchor : Z.land (byte_at (cdb cmd) 1) 1 = 0;
  uc_alloc : x_alloc x = []
}.

Section unmap.
Context {B : Type} {HB : Backstore B} (dev : tcmu_device) (k : Z).
Context (Hthr : nr_threads (rhandler dev) <> 0) (D : dev_ok dev) (Hdev : num_lbas dev * block_size dev < 2 ^ 63).
Context (Hk : 0 <= k < 32) (Hg : opt_unmap_gran dev = 2 ^ k) (Ha : unmap_gran_align dev = 2 ^ k).

(** The walk over the descriptors of a command. *)
Lemma unmap_walk cmd (x : xst B) dl v rsv ds rest :
  unmap_cmd cmd x dl v rsv ds rest -> Forall (desc_ok dev) ds -> (1 <= length ds <= 4)%nat ->
  exists pss,
    Forall2 (fun d ps => tiles (2 ^ k) d.1 d.2 ps) ds pss /\
    let n := Z.of_nat (length (concat pss)) in
    0 <= n < 2 ^ 32 /\
    handle_unmap dev cmd x =
      if n =? 0 then Some (x, walk_ret ds TCMU_STS_OK, None, [])
      else Some (x, TCMU_STS_ASYNC_HANDLED,
             Some (UnmapState n (negb (bool_decide (walk_ret ds TCMU_STS_OK = TCMU_STS_ASYNC_HANDLED)))
                    (walk_ret ds TCMU_STS_OK)), pieces_of (block_size dev) (concat pss)).
Proof.
  intros [Hv HG Hr Hc Hx Hanc Hal] Hds Hlen.
  set (g := be_enc 2 dl ++ be_enc 2 v ++ rsv ++ concat (map unmap_desc_bytes ds) ++ rest) in *.
  destruct (unmap_descs_spec dev Hthr D Hdev k ds (be_enc 2 dl ++ be_enc 2 v ++ rsv) rest 0 [] TCMU_STS_OK x)
    as (pss & E & F & L); try done; rewrite ?length_app, ?be_enc_length, ?Hr;
    change VPD_MAX_UNMAP_LBA_COUNT with 33554432 in *; try lia.
  exists pss. split; [done|]. split; [lia|].
  rewrite (handle_unmap_header dev cmd x g dl v (rsv ++ concat (map unmap_desc_bytes ds) ++ rest));
    try done; [|rewrite !length_app; lia|lia].
  unfold handle_unmap_internal. replace (16 * (v / 16) / 16) with (Z.of_nat (length ds)) by dlia.
  rewrite Nat2Z.id. rewrite !length_app, !be_enc_length, Hr in E. change (Z.of_nat (2 + (2 + 4)) - 8) with 0 in E.
  rewrite <- !app_assoc in E. fold g in E. rewrite E. cbn [mbind option_bind app]. rewrite Z.add_0_l. case_if; [|done].
  by destruct (concat pss).
Qed.
End unmap.

Lemma walk_ret_cases ds ret :
  ds <> [] -> walk_ret ds ret = match last ds with
              | Some d => if d.2 =? 0 then TCMU_STS_OK else TCMU_STS_ASYNC_HANDLED
              | None => ret end.
Proof.
  revert ret. induction ds as [|d ds IH]; intros ret H; [done|]. destruct ds as [|d' ds]; [done|].
  change (walk_ret (d :: d' :: ds) ret)
    with (walk_ret (d' :: ds) (if d.2 =? 0 then TCMU_STS_OK else TCMU_STS_ASYNC_HANDLED)).
  rewrite IH, last_cons_cons by done. destruct (last (d' :: ds)) eqn:E; [done|]. by apply last_None in E.
Qed.

(** Descriptors whose pieces are none all have no blocks. *)
Lemma no_pieces gran ds pss :
  Forall2 (fun d ps => tiles gran d.1 d.2 ps) ds pss -> concat pss = [] -> Forall (fun d => d.2 = 0) ds.
Proof.
  induction 1 as [|d ps ds pss T _ IH]; intros E; constructor.
  - destruct ps; [done|discriminate].
  - apply IH. by destruct ps.
Qed.


(** A handler that keeps a list of the ranges it unmapped and fails. *)
Definition failing_unmap : Backstore (list (Z * Z)) := {|
  bs_data _ := [];
  bs_read b m iov cnt len off := None;
  bs_write b m iov cnt len off := None;
  bs_unmap b off len := Some (b ++ [(off, len)], Done TCMU_STS_WR_ERR);
  bs_flush b := Some (b, Done TCMU_STS_OK)
|}.

Definition unmap_dev : tcmu_device :=
  Dev 16 4 1 4 4 false false [] None (Handler false true true true true false false 1).
Definition unmap_list : list Z :=
  be_enc 2 38 ++ be_enc 2 32 ++ zeros 4 ++ concat (map unmap_desc_bytes [(1, 6); (9, 0)]) ++ [].
Definition unmap_demo_cmd : tcmulib_cmd :=
  Cmd 1 [UNMAP; 0; 0; 0; 0; 0; 0; 0; 40; 0] [Iov (Ptr 0 0) 40] 1 [].
Definition unmap_demo_x : xst (list (Z * Z)) := XSt [] {[ 0%nat := unmap_list ]} [] false.


(** The parameter list is read past its end.  The number of descriptors is
    taken from the parameter data and never compared with the length of the
    list: a list shorter than its first descriptor, which by the comment in the
    code is truncated and ignored, makes the command read outside the buffer it
    allocated. *)
Theorem unmap_list_overread {B} {HB : Backstore B} (dev : tcmu_device) (cmd : tcmulib_cmd) (x : xst B)
  (g : list Z) (dl v : Z) (body : list Z)
  (Eg : g = be_enc 2 dl ++ be_enc 2 v ++ body) (Hbody : (4 <= length body < 16)%nat) (Hv : 16 <= v < 80)
  (Hg : gather (x_mem x) (cmd_iovec cmd) = Some g) (Hcnt : iov_cnt cmd = Z.of_nat (length (cmd_iovec cmd)))
  (Hxl : tcmu_get_xfer_length (cdb cmd) = Some (Z.of_nat (length g)))
  (Ha : Z.land (byte_at (cdb cmd) 1) 1 = 0) (Hx : x_alloc x = []) :
  handle_unmap dev cmd x = None.
Proof.
  rewrite (handle_unmap_header dev cmd x g dl v body) by (done || lia).
  unfold handle_unmap_internal. replace (16 * (v / 16) / 16) with (v / 16) by dlia.
  destruct (Z.to_nat (v / 16)) as [|n] eqn:E; [dlia|]. cbn [unmap_descs].
  assert (length g < 20)%nat by (rewrite Eg, !length_app, !be_enc_length; lia).
  destruct (bget g (8 + Z.to_nat 0) 8) as [lba|]; [|done]. cbn [mbind option_bind].
  replace (bget g (8 + Z.to_nat (0 + 8)) 4) with (@None (list Z)); [done|].
  symmetry. unfold bget. apply decide_False. cbn. lia.
Qed.

Lemma unmap_list_overread_witness :
  handle_unmap (HB := failing_unmap) unmap_dev
    (Cmd 1 [UNMAP; 0; 0; 0; 0; 0; 0; 0; 8; 0] [Iov (Ptr 0 0) 8] 1 [])
    (XSt [] {[ 0%nat := be_enc 2 22 ++ be_enc 2 16 ++ zeros 4 ]} [] false) = None.
Proof.
  apply (unmap_list_overread (HB := failing_unmap) _ _ _ (be_enc 2 22 ++ be_enc 2 16 ++ zeros 4) 22 16 (zeros 4)).
  - reflexivity.
  - cbn. lia.
  - lia.
  - reflexivity.
  - reflexivity.
  - reflexivity.
  - reflexivity.
  - reflexivity.
Defined.
