(* ===== verification/WriteSame.v ===== *)
(** * WRITE SAME

    [handle_writesame] of [tcmur_cmd_handler.c]: the block is copied into a
    buffer of up to a megabyte that a chain of callbacks writes again and
    again; with the UNMAP bit the range is unmapped instead. *)

From S2P Require Import Prelude Scsi Iovec Sense Device Backstore FileBack Aio Rw RwSpec Unmap.

(** The iovec is rebuilt from [iov_base] and [iov_len] before each write.
    [src tcmu-runner/tcmur_cmd_handler.c struct write_same] *)
Record write_same := WriteSame {
  ws_cur_lba : Z;
  ws_lba_cnt : Z;
  ws_iov_base : ptr;
  ws_iov_len : Z
}.

(** [src tcmu-runner/libtcmu_common.h 92-95 round_up] *)
Definition round_up (a b : Z) : option Z :=
  if b =? 0 then None else Some (u64 (u64 (a + (b - 1)) / b * b)).

(** What UNMAP and WRITE SAME with the UNMAP bit leave behind. *)
Abbreviation unmap_result B := (xst B * tcmu_sts * option unmap_state * list unmap_descriptor)%type.

Section commands.
Context {B : Type} {HB : Backstore B} (dev : tcmu_device).

(** [src tcmu-runner/tcmur_cmd_handler.c writesame_work_fn] *)
Definition writesame_work_fn (ws : write_same) (x : xst B) : option (xst B * reply) :=
  '(b, _, r) ← bs_write (x_bs x) (x_mem x) [Iov (ws_iov_base ws) (ws_iov_len ws)] 1 (ws_iov_len ws)
                  (u64 (tcmu_get_dev_block_size dev * ws_cur_lba ws));
  Some (set_bs x b, r).

(** Each round dispatches the next write with itself as callback; [fuel]
    bounds the rounds.
    [src tcmu-runner/tcmur_cmd_handler.c handle_writesame_cbk] *)
Fixpoint handle_writesame_cbk (fuel : nat) (sense : list Z) (ws : write_same) (x : xst B) (ret : tcmu_sts)
    : option (fin B) :=
  let finish x ret := Some (Fin (set_mem x (mem_free (x_mem x) (ws_iov_base ws))) sense true ret) in
  let block_size := tcmu_get_dev_block_size dev in
  if negb (sts_ok ret) then finish x ret
  else
    let write_lbas := ws_iov_len ws / block_size in
    let cur_lba := u64 (ws_cur_lba ws + write_lbas) in
    let left_lbas := u64 (ws_lba_cnt ws - write_lbas) in
    if left_lbas =? 0 then finish x ret
    else match fuel with
    | O => None
    | S fuel =>
        let iov_len := if left_lbas <=? write_lbas then u64 (left_lbas * block_size) else ws_iov_len ws in
        let ws := WriteSame cur_lba left_lbas (ws_iov_base ws) iov_len in
        r ← async_handle_cmd dev (writesame_work_fn ws) (handle_writesame_cbk fuel sense ws) x;
        match r with
        | inl (x, _) => finish x TCMU_STS_WR_ERR
        | inr f => Some f
        end
    end.

(** [src tcmu-runner/tcmur_cmd_handler.c handle_writesame_check] *)
Definition handle_writesame_check (cmd : tcmulib_cmd) : option tcmu_sts :=
  lba_cnt ← tcmu_get_xfer_length (cdb cmd);
  start_lba ← tcmu_get_lba (cdb cmd);
  bad ← (if negb (iov_cnt cmd =? 1) then Some true
         else v ← head (cmd_iovec cmd); Some (negb (iov_len v =? tcmu_get_dev_block_size dev)));
  Some (if bad : bool then TCMU_STS_INVALID_CDB
        else if lba_cnt =? 0 then TCMU_STS_INVALID_CDB
        else if VPD_MAX_WRITE_SAME_LENGTH <? lba_cnt then TCMU_STS_INVALID_CDB
        else check_lbas dev start_lba lba_cnt).

(** [src tcmu-runner/tcmur_cmd_handler.c handle_unmap_in_writesame] *)
Definition handle_unmap_in_writesame (cmd : tcmulib_cmd) (x : xst B) : option (unmap_result B) :=
  lba ← tcmu_get_lba (cdb cmd);
  nlbas ← tcmu_get_xfer_length (cdb cmd);
  match unmap_state_alloc x with
  | (None, x) => Some (x, TCMU_STS_NO_RESOURCE, None, [])
  | (Some st, x) =>
      '(x, refcount, q, ret) ← align_and_split_unmap dev lba nlbas 0 [] x;
      Some (x, ret,
            if refcount =? 0 then None
            else Some (UnmapState refcount (negb (bool_decide (ret = TCMU_STS_ASYNC_HANDLED))) (us_status st)), q)
  end.

(** The loop that copies the block [n] times, from the [i]-th place on.
    [src tcmu-runner/tcmur_cmd_handler.c 743-747 handle_writesame] *)
Fixpoint copy_pattern (n : nat) (i : Z) (base src : ptr) (m : mem) : option mem :=
  match n with
  | O => Some m
  | S n =>
      blk ← mem_load m src (tcmu_get_dev_block_size dev);
      m ← mem_store m (padd base (u32 (i * tcmu_get_dev_block_size dev))) blk;
      copy_pattern n (i + 1) base src m
  end.

(** [inr] when the range is unmapped.  An error from the first dispatch is
    returned without freeing the buffer.
    [src tcmu-runner/tcmur_cmd_handler.c handle_writesame] *)
Definition handle_writesame (cmd : tcmulib_cmd) (x : xst B) : option (fin B + unmap_result B) :=
  let ret x s := Some (inl (Fin x (sense_buf cmd) false s)) in
  let block_size := tcmu_get_dev_block_size dev in
  lba_cnt ← tcmu_get_xfer_length (cdb cmd);
  start_lba ← tcmu_get_lba (cdb cmd);
  s ← handle_writesame_check cmd;
  if negb (sts_ok s) then ret x s
  else if has_unmap (rhandler dev) && negb (Z.land (byte_at (cdb cmd) 1) 0x08 =? 0) then
    r ← handle_unmap_in_writesame cmd x; Some (inr r)
  else
    let '(ok, x) := x_try x in
    if negb ok then ret x TCMU_STS_NO_RESOURCE
    else
      length ← round_up (1024 * 1024) (u32 (tcmu_get_dev_max_xfer_len dev * block_size));
      let length := Z.min length (u64 (lba_cnt * block_size)) in
      let '(ok, x) := x_try x in
      if negb ok then ret x TCMU_STS_NO_RESOURCE
      else
        let '(m, base) := mem_new (x_mem x) (zeros (Z.to_nat length)) in
        v ← head (cmd_iovec cmd);
        m ← copy_pattern (Z.to_nat (length / block_size)) 0 base (iov_base v) m;
        let ws := WriteSame start_lba lba_cnt base length in
        r ← async_handle_cmd dev (writesame_work_fn ws)
              (handle_writesame_cbk (Z.to_nat lba_cnt) (sense_buf cmd) ws) (set_mem x m);
        Some (inl (async_return (sense_buf cmd) r)).
End commands.

(** ** The chain of writes *)

(** [n] copies of the block. *)
Definition same_blocks (n : Z) (g : list Z) : list Z := concat (replicate (Z.to_nat n) g).

Lemma length_same_blocks n g bs :
  Z.of_nat (length g) = bs -> 0 <= n -> Z.of_nat (length (same_blocks n g)) = n * bs.
Proof.
  intros <- Hn. unfold same_blocks. replace n with (Z.of_nat (Z.to_nat n)) at 2 by lia.
  induction (Z.to_nat n) as [|k IH]; [done|]. cbn [replicate concat]. rewrite length_app. lia.
Qed.

Lemma same_blocks_add a b g : 0 <= a -> 0 <= b -> same_blocks (a + b) g = same_blocks a g ++ same_blocks b g.
Proof. intros Ha Hb. unfold same_blocks. by rewrite Z2Nat.inj_add, replicate_add, concat_app by lia. Qed.

Section chain.
Context {B : Type} {HB : Backstore B} {HL : BackstoreLaws B} (dev : tcmu_device) (g : list Z).
Context (Hg : Z.of_nat (length g) = block_size dev).

(** A round that writes [k] blocks of the [ws_lba_cnt ws] that are left. *)
Record ws_inv (ws : write_same) (k : Z) (x : xst B) : Prop := {
  wi_dev : dev_over dev (x_bs x);
  wi_k : 0 < k <= ws_lba_cnt ws;
  wi_cur : 0 <= ws_cur_lba ws /\ ws_cur_lba ws + ws_lba_cnt ws <= num_lbas dev;
  wi_iov_len : ws_iov_len ws = k * block_size dev;
  wi_buf : mem_load (x_mem x) (ws_iov_base ws) (k * block_size dev) = Some (same_blocks k g)
}.

Lemma ws_range ws k x : ws_inv ws k x ->
  0 <= block_size dev * ws_cur_lba ws /\
  block_size dev * ws_cur_lba ws + ws_lba_cnt ws * block_size dev <= Z.of_nat (length (bs_data (x_bs x))) /\
  u64 (tcmu_get_dev_block_size dev * ws_cur_lba ws) = block_size dev * ws_cur_lba ws.
Proof.
  intros [D Hk Hc _ _]. destruct (lba_offset dev (x_bs x) (ws_cur_lba ws) (ws_lba_cnt ws) D) as (E & H1 & H2); lia.
Qed.

Lemma writesame_work_spec ws k x :
  ws_inv ws k x ->
  exists b r, writesame_work_fn dev ws x = Some (set_bs x b, r) /\ dev_over dev b /\
    r <> Rejected TCMU_STS_OK /\
    forall st, r = Done st \/ r = Rejected st ->
      wrote (bs_data (x_bs x)) (block_size dev * ws_cur_lba ws) (same_blocks k g) (bs_data b) st.
Proof.
  intros I. destruct (ws_range _ _ _ I) as (H1 & H2 & H3). destruct I as [D Hk Hc Hl Hb].
  pose proof D as (W & DO & L & S). pose proof (dev_block_size_ok _ DO).
  pose proof (length_same_blocks k g _ Hg ltac:(lia)) as Lk.
  assert (k * block_size dev <= ws_lba_cnt ws * block_size dev) by (apply Z.mul_le_mono_nonneg_r; lia).
  assert (0 < k * block_size dev) by (apply Z.mul_pos_pos; lia).
  unfold writesame_work_fn. rewrite H3, Hl.
  destruct (bs_write_law (x_bs x) (x_mem x) [Iov (ws_iov_base ws) (k * block_size dev)] (same_blocks k g)
    (block_size dev * ws_cur_lba ws) W) as (b & iov' & r & w & E & W' & Hr & Lw & Hd & Hok); try lia.
  { cbn. rewrite Hb. cbn. by rewrite app_nil_r. }
  { repeat constructor. cbn. lia. }
  rewrite Lk in E. cbn [length] in E. change (Z.of_nat 1) with 1 in E. rewrite E. cbn [mbind option_bind].
  exists b, r. split; [done|]. split; [|split; [done|]].
  - apply (dev_over_step dev (x_bs x)); auto. rewrite Hd. apply length_write_at; lia.
  - intros st Hst. exists w. split; [lia|]. split; [done|]. intros ->. destruct Hst as [->| ->]; [by apply Hok|done].
Qed.

(** What a dispatch of [ws] on [data] amounts to, when the buffer [base] is to
    be freed by the callback. *)
Definition ws_post (data : list Z) (cur cnt : Z) (x' : xst B) (st : tcmu_sts) : Prop :=
  dev_over dev (x_bs x') /\ wrote data (block_size dev * cur) (same_blocks cnt g) (bs_data (x_bs x')) st.

Definition ws_fin (ws : write_same) (sense : list Z) (x : xst B) (f : fin B) : Prop :=
  x_mem (f_x f) = mem_free (x_mem x) (ws_iov_base ws) /\ f_async f = true /\ f_sense f = sense /\
  ws_post (bs_data (x_bs x)) (ws_cur_lba ws) (ws_lba_cnt ws) (f_x f) (f_sts f).

Definition ws_dispatched (fuel : nat) : Prop :=
  forall sense ws k x, ws_inv ws k x -> ws_lba_cnt ws - 1 <= Z.of_nat fuel ->
  exists r, async_handle_cmd dev (writesame_work_fn dev ws) (handle_writesame_cbk dev fuel sense ws) x = Some r /\
    match r with
    | inl (x', st) => x_mem x' = x_mem x /\ st <> TCMU_STS_OK /\
                      ws_post (bs_data (x_bs x)) (ws_cur_lba ws) (ws_lba_cnt ws) x' st
    | inr f => ws_fin ws sense x f
    end.

(** The callback of a round that failed. *)
Lemma ws_cbk_bad fuel sense ws k x b l st :
  ws_inv ws k x -> dev_over dev b -> st <> TCMU_STS_OK ->
  wrote (bs_data (x_bs x)) (block_size dev * ws_cur_lba ws) (same_blocks k g) (bs_data b) st ->
  ws_post (bs_data (x_bs x)) (ws_cur_lba ws) (ws_lba_cnt ws) (XSt b (x_mem x) l (x_caw x)) st /\
  exists f, handle_writesame_cbk dev fuel sense ws (XSt b (x_mem x) l (x_caw x)) st = Some f /\ ws_fin ws sense x f.
Proof.
  intros I D Hst HW. destruct (ws_range _ _ _ I) as (H1 & H2 & _). pose proof (wi_k _ _ _ I).
  assert (ws_post (bs_data (x_bs x)) (ws_cur_lba ws) (ws_lba_cnt ws) (XSt b (x_mem x) l (x_caw x)) st) as P.
  { split; [done|]. replace (ws_lba_cnt ws) with (k + (ws_lba_cnt ws - k)) by lia. rewrite same_blocks_add by lia.
    apply wrote_partial; [done| |done..].
    rewrite <- length_app, <- same_blocks_add, length_same_blocks with (bs := block_size dev) by (done || lia).
    replace (k + (ws_lba_cnt ws - k)) with (ws_lba_cnt ws) by lia. lia. }
  split; [done|]. destruct fuel; cbn [handle_writesame_cbk]; unfold sts_ok; rewrite bool_decide_false by done;
    eexists; (split; [reflexivity|]); by split_and!.
Qed.

(** The callback of a round that succeeded. *)
Lemma ws_cbk_ok fuel sense ws k x b l :
  (forall fuel', (fuel' < fuel)%nat -> ws_dispatched fuel') ->
  ws_inv ws k x -> ws_lba_cnt ws - 1 <= Z.of_nat fuel -> dev_over dev b ->
  wrote (bs_data (x_bs x)) (block_size dev * ws_cur_lba ws) (same_blocks k g) (bs_data b) TCMU_STS_OK ->
  exists f, handle_writesame_cbk dev fuel sense ws (XSt b (x_mem x) l (x_caw x)) TCMU_STS_OK = Some f /\
    ws_fin ws sense x f.
Proof.
  intros IH I Hfuel D HW. destruct (ws_range _ _ _ I) as (H1 & H2 & _). destruct I as [D0 Hk Hc Hl Hb].
  destruct D0 as (_ & DO & _ & _). pose proof (dev_block_size_ok _ DO). pose proof (dev_num_lbas_ok _ DO).
  set (left := ws_lba_cnt ws - k).
  assert (ws_iov_len ws / tcmu_get_dev_block_size dev = k) as Ek
    by (rewrite Hl; unfold tcmu_get_dev_block_size; apply Z.div_mul; lia).
  pose proof (length_same_blocks k g _ Hg ltac:(lia)) as Lk.
  pose proof (length_same_blocks left g _ Hg ltac:(lia)) as Ll.
  assert (same_blocks (ws_lba_cnt ws) g = same_blocks k g ++ same_blocks left g) as Ecnt
    by (rewrite <- same_blocks_add by lia; f_equal; lia).
  assert (left = 0 \/ 0 < left) as [Hz|Hleft] by lia.
  { exists (Fin (XSt b (mem_free (x_mem x) (ws_iov_base ws)) l (x_caw x)) sense true TCMU_STS_OK).
    split; [|split_and!; try done]; [|split; [done|]; cbn; by rewrite Ecnt, Hz, app_nil_r].
    destruct fuel; cbn [handle_writesame_cbk]; rewrite Ek, !u64_small by lia;
      (replace (ws_lba_cnt ws - k) with 0 by lia); reflexivity. }
  destruct fuel as [|fuel]; [lia|]. cbn [handle_writesame_cbk]. rewrite Ek, !(u64_small (_ + _)), u64_small by lia.
  fold left. unfold sts_ok. rewrite bool_decide_true, (proj2 (Z.eqb_neq left 0)) by (done || lia). cbn [negb].
  assert ((if left <=? k then u64 (left * tcmu_get_dev_block_size dev) else ws_iov_len ws) =
          Z.min k left * block_size dev) as ->.
  { destruct (Z.leb_spec left k); [|rewrite Hl; f_equal; lia].
    assert (0 <= left * block_size dev) by (apply Z.mul_nonneg_nonneg; lia).
    assert (left * block_size dev < 2 ^ 64).
    { destruct D as (_ & _ & L & S).
      assert (left * block_size dev <= num_lbas dev * block_size dev) by (apply Z.mul_le_mono_nonneg_r; lia). lia. }
    unfold tcmu_get_dev_block_size. rewrite u64_small by lia. f_equal. lia. }
  set (ws' := WriteSame _ left _ _).
  destruct (IH fuel ltac:(lia) sense ws' (Z.min k left) (XSt b (x_mem x) l (x_caw x))) as (r & -> & Hr).
  { split; cbn; [done|lia|lia|done|].
    replace (same_blocks k g) with (same_blocks (Z.min k left) g ++ same_blocks (k - Z.min k left) g) in Hb
      by (rewrite <- same_blocks_add by lia; f_equal; lia).
    pose proof (length_same_blocks (Z.min k left) g _ Hg ltac:(lia)) as Lm.
    assert (0 <= Z.min k left * block_size dev <= k * block_size dev) as Hm
      by (split; [apply Z.mul_nonneg_nonneg|apply Z.mul_le_mono_nonneg_r]; lia).
    destruct (mem_load_split _ _ _ _ _ Hm Hb) as [-> _].
    rewrite <- Lm, Nat2Z.id, take_app_length. done. }
  { cbn. lia. }
  assert (forall x' st, ws_post (bs_data b) (ws_cur_lba ws + k) left x' st ->
    ws_post (bs_data (x_bs x)) (ws_cur_lba ws) (ws_lba_cnt ws) x' st) as Hpost.
  { intros x' st [D' W']. split; [done|]. rewrite Ecnt. eapply wrote_app; [done| |exact HW| |done].
    - assert (left * block_size dev + k * block_size dev = ws_lba_cnt ws * block_size dev) by (unfold left; ring). lia.
    - rewrite Lk. replace (block_size dev * ws_cur_lba ws + k * block_size dev)
        with (block_size dev * (ws_cur_lba ws + k)) by ring. done. }
  destruct r as [[x' st]|f]; cbn [mbind option_bind].
  - destruct Hr as (E & Hst & P). eexists. split; [reflexivity|]. split_and!; try done; [by cbn; rewrite E|].
    apply Hpost. destruct P as [D' W']. split; [done|]. cbn. eapply (wrote_weaken _ _ _ _ st); done.
  - destruct Hr as (E & Ha & Hs & P). eexists. split; [reflexivity|]. split_and!; try done. by apply Hpost.
Qed.

Lemma ws_dispatch fuel : ws_dispatched fuel.
Proof.
  induction fuel as [fuel IH] using lt_wf_ind. intros sense ws k x I Hfuel.
  destruct (ws_range _ _ _ I) as (H1 & H2 & _).
  pattern (async_handle_cmd dev (writesame_work_fn dev ws) (handle_writesame_cbk dev fuel sense ws) x).
  apply async_handle_cmd_cases.
  { intros l. eexists. split; [reflexivity|]. pose proof (wi_k _ _ _ I). split_and!; [done..|].
    split; [by destruct I|]. apply wrote_none; [done| |done]. rewrite length_same_blocks with (bs := block_size dev) by (done || lia). cbn. lia. }
  intros l. destruct (writesame_work_spec ws k (XSt (x_bs x) (x_mem x) l (x_caw x))) as (b & r & -> & D' & Hr & HW);
    [by destruct I|].
  eexists _, _. split; [reflexivity|]. cbn in HW.
  assert (forall st, r = Done st \/ r = Rejected st -> exists f,
    handle_writesame_cbk dev fuel sense ws (XSt b (x_mem x) l (x_caw x)) st = Some f /\
    ws_fin ws sense x f) as Hcbk.
  { intros st Hst. destruct (decide (st = TCMU_STS_OK)) as [->|Hne].
    - apply (ws_cbk_ok fuel sense ws k); auto.
    - eapply (ws_cbk_bad fuel sense ws k); auto. }
  change (set_bs (XSt (x_bs x) (x_mem x) l (x_caw x)) b) with (XSt b (x_mem x) l (x_caw x)).
  destruct r as [s|s].
  - split.
    + eexists. split; [reflexivity|]. assert (s <> TCMU_STS_OK) by congruence. split_and!; [done..|].
      eapply (ws_cbk_bad fuel sense ws k); auto.
    + destruct (Hcbk s) as (f & -> & F); [by right|]. by exists (inr f).
  - destruct (Hcbk s) as (f & -> & F); [by left|]. by exists (inr f).
Qed.
End chain.

(** ** The buffer *)

Lemma copy_pattern_spec dev g src n : forall i base m pre suf blk,
  Z.of_nat (length g) = block_size dev -> p_off base = 0 -> p_blk src <> p_blk base ->
  mem_load m src (block_size dev) = Some g -> m !! p_blk base = Some (pre ++ blk ++ suf) ->
  Z.of_nat (length pre) = i * block_size dev -> Z.of_nat (length blk) = Z.of_nat n * block_size dev ->
  Z.of_nat (length pre + length blk) < 2 ^ 32 -> 0 <= i ->
  copy_pattern dev n i base src m =
    Some (<[p_blk base := pre ++ concat (replicate n g) ++ suf]> m).
Proof.
  induction n as [|n IH]; intros i base m pre suf blk Hg H0 Hne Hs Hb Lp Lb Hlt Hi.
  - destruct blk; [|simpl in Lb; lia]. cbn. by rewrite insert_id.
  - cbn [copy_pattern]. unfold tcmu_get_dev_block_size. rewrite Hs. cbn [mbind option_bind].
    set (b1 := take (length g) blk). set (b2 := drop (length g) blk).
    assert (blk = b1 ++ b2) as Eb by (symmetry; apply take_drop).
    assert (length b1 = length g) as L1 by (unfold b1; rewrite length_take; nia).
    rewrite Eb, !length_app in *. rewrite u32_small by nia.
    assert (mem_store m (padd base (i * block_size dev)) g = Some (<[p_blk base := pre ++ g ++ b2 ++ suf]> m)) as ->.
    { unfold mem_store, padd. cbn [p_blk p_off]. rewrite H0, Hb. cbn [mbind option_bind].
      case_if. { destruct g; [|simpl in *; lia]. destruct b1; [|done]. by rewrite insert_id. }
      rewrite decide_True by (rewrite !length_app; lia).
      replace (Z.to_nat (0 + i * block_size dev)) with (length pre) by lia.
      rewrite bset_app_r0, <- app_assoc, bset_0 by (rewrite !length_app; lia).
      by rewrite <- L1, drop_app_length. }
    cbn [mbind option_bind]. rewrite (IH (i + 1) base _ (pre ++ g) suf b2); try done.
    + f_equal. rewrite insert_insert_eq. cbn. by rewrite <- !app_assoc.
    + rewrite <- Hs. unfold mem_load. cbn [p_blk]. by rewrite lookup_insert_ne.
    + rewrite lookup_insert_eq. by rewrite <- !app_assoc.
    + rewrite length_app. lia.
    + rewrite L1 in Lb. nia.
    + rewrite length_app. lia.
    + lia.
Qed.

(** The buffer holds a whole number of blocks, at least one and at most those
    asked for. *)
Lemma writesame_length dev n :
  0 < max_xfer_len dev -> 0 < block_size dev -> max_xfer_len dev * block_size dev < 2 ^ 32 ->
  0 < n -> n * block_size dev < 2 ^ 64 ->
  exists len k, round_up (1024 * 1024) (u32 (tcmu_get_dev_max_xfer_len dev * block_size dev)) = Some len /\
    Z.min len (u64 (n * block_size dev)) = k * block_size dev /\ 0 < k <= n /\ k * block_size dev < 2 ^ 32.
Proof.
  intros Hm Hb Hmb Hn Hnb. set (mb := max_xfer_len dev * block_size dev) in *.
  assert (0 < mb) by (unfold mb; apply Z.mul_pos_pos; lia).
  unfold round_up, tcmu_get_dev_max_xfer_len. fold mb. rewrite u32_small by lia.
  rewrite (proj2 (Z.eqb_neq mb 0)) by lia. set (q := u64 (1024 * 1024 + (mb - 1)) / mb).
  assert (1024 * 1024 <= q * mb < 2 ^ 32) as Hq.
  { unfold q. rewrite u64_small by lia. pose proof (Z.div_mod (1024 * 1024 + (mb - 1)) mb ltac:(lia)).
    pose proof (Z.mod_pos_bound (1024 * 1024 + (mb - 1)) mb ltac:(lia)). split; [lia|].
    destruct (decide (mb < 1024 * 1024)); [lia|].
    replace ((1024 * 1024 + (mb - 1)) / mb) with 1; [lia|]. apply Z.div_unique with (1024 * 1024 - 1); lia. }
  exists (u64 (q * mb)), (Z.min (q * max_xfer_len dev) n). split; [done|].
  assert (0 < n * block_size dev) by (apply Z.mul_pos_pos; lia).
  assert (q * max_xfer_len dev * block_size dev = q * mb) as Eq by (unfold mb; ring).
  assert (0 < q) by (assert (0 < q * mb) by lia; nia).
  assert (0 < q * max_xfer_len dev) by (apply Z.mul_pos_pos; lia).
  rewrite !u64_small by lia. split; [|split; [lia|]].
  - rewrite <- Eq. apply Z.mul_min_distr_nonneg_r. lia.
  - assert (Z.min (q * max_xfer_len dev) n * block_size dev <= q * max_xfer_len dev * block_size dev)
      by (apply Z.mul_le_mono_nonneg_r; lia). lia.
Qed.

Lemma writesame_check_ok dev cmd p lba n :
  dev_ok dev -> cmd_iovec cmd = [Iov p (block_size dev)] -> iov_cnt cmd = 1 ->
  tcmu_get_lba (cdb cmd) = Some lba -> tcmu_get_xfer_length (cdb cmd) = Some n ->
  0 <= lba -> 0 < n < 2 ^ 32 -> lba + n <= num_lbas dev -> handle_writesame_check dev cmd = Some TCMU_STS_OK.
Proof.
  intros DO Hiov Hcnt Hlba Hn H0 H1 Hin. pose proof (dev_num_lbas_ok _ DO).
  unfold handle_writesame_check, tcmu_get_dev_block_size. rewrite Hlba, Hn, Hiov, Hcnt. cbn [mbind option_bind head].
  rewrite !Z.eqb_refl. cbn [negb mbind option_bind iov_len].
  change VPD_MAX_WRITE_SAME_LENGTH with 0xffffffff.
  rewrite (proj2 (Z.eqb_neq n 0)), (proj2 (Z.ltb_ge 0xffffffff n)), check_lbas_spec by lia.
  by rewrite (proj2 (Z.leb_le _ _) Hin).
Qed.

(** WRITE SAME fills its range.  Over any backstore that keeps its contract,
    on a device whose transfer size fits 32 bits: a WRITE SAME of one block of
    data without the UNMAP bit whose range is on the device terminates, whatever
    the answers of the backstore and the allocations; it changes no byte of the
    device outside the range, and when it reports success every block of the
    range is that block of data.  Its buffer is freed, except when the first
    write cannot be dispatched (then it is leaked). *)
Theorem writesame_fills {B} {HB : Backstore B} {HL : BackstoreLaws B} (dev : tcmu_device)
  (cmd : tcmulib_cmd) (p : ptr) (g : list Z) (lba n : Z) (x : xst B)
  (D : dev_over dev (x_bs x)) (Hb : bytes_ok (cdb cmd))
  (Hmx : 0 < max_xfer_len dev /\ max_xfer_len dev * block_size dev < 2 ^ 32)
  (Hun : has_unmap (rhandler dev) && negb (Z.land (byte_at (cdb cmd) 1) 0x08 =? 0) = false)
  (Hiov : cmd_iovec cmd = [Iov p (block_size dev)] /\ iov_cnt cmd = 1)
  (Hg : mem_load (x_mem x) p (block_size dev) = Some g)
  (Hlba : tcmu_get_lba (cdb cmd) = Some lba) (Hn : tcmu_get_xfer_length (cdb cmd) = Some n)
  (H0 : 0 < n) (Hin : lba + n <= num_lbas dev) :
  exists f, handle_writesame dev cmd x = Some (inl f) /\
    wrote (bs_data (x_bs x)) (block_size dev * lba) (same_blocks n g) (bs_data (x_bs (f_x f))) (f_sts f) /\
    (f_async f = true -> x_mem (f_x f) = x_mem x) /\
    (f_async f = false -> f_sts f <> TCMU_STS_OK /\ forall q k l,
       mem_load (x_mem x) q k = Some l -> mem_load (x_mem (f_x f)) q k = Some l).
Proof.
  pose proof D as (W & DO & L & S). pose proof (dev_block_size_ok _ DO). pose proof (dev_num_lbas_ok _ DO).
  pose proof (tcmu_get_lba_bound _ _ Hb Hlba). pose proof (tcmu_get_xfer_length_bound _ _ Hb Hn).
  pose proof (mem_load_length _ _ _ _ Hg) as Lg. pose proof (length_same_blocks n g _ Lg ltac:(lia)) as Ln.
  assert (n * block_size dev <= num_lbas dev * block_size dev) by (apply Z.mul_le_mono_nonneg_r; lia).
  destruct (lba_offset dev (x_bs x) lba n D) as (_ & Ho1 & Ho2); [lia..|].
  destruct (writesame_length dev n) as (len & k & Er & Em & Hk & Hkb); try lia.
  destruct Hiov as [Hiov Hcnt]. unfold handle_writesame.
  rewrite (writesame_check_ok dev cmd p lba n DO Hiov Hcnt Hlba Hn), Hlba, Hn, Hun by lia.
  cbn [mbind option_bind]. unfold sts_ok at 1. rewrite bool_decide_true by done. cbn [negb].
  rewrite Hiov. cbn [head]. unfold tcmu_get_dev_block_size.
  assert (forall l, exists f, Some (inl (Fin (XSt (x_bs x) (x_mem x) l (x_caw x)) (sense_buf cmd) false
      TCMU_STS_NO_RESOURCE)) = Some (inl f : fin B + unmap_result B) /\
    wrote (bs_data (x_bs x)) (block_size dev * lba) (same_blocks n g) (bs_data (x_bs (f_x f))) (f_sts f) /\
    (f_async f = true -> x_mem (f_x f) = x_mem x) /\
    (f_async f = false -> f_sts f <> TCMU_STS_OK /\ forall q k l,
       mem_load (x_mem x) q k = Some l -> mem_load (x_mem (f_x f)) q k = Some l)) as Hnores.
  { intros l. eexists. split; [reflexivity|]. cbn. split_and!; try done. apply wrote_none; [lia| |done]. lia. }
  destruct (x_try_same x) as (ok & l & ->). destruct ok; cbn [negb]; [|apply Hnores].
  rewrite Er. cbn [mbind option_bind]. rewrite Em.
  destruct (x_try_same (XSt (x_bs x) (x_mem x) l (x_caw x))) as (ok & l' & ->). destruct ok; cbn [negb]; [|apply Hnores].
  cbn [x_bs x_mem x_alloc x_caw]. clear Hnores.
  pose proof (length_same_blocks k g _ Lg ltac:(lia)) as Lk.
  assert (p_blk p <> fresh_blk (x_mem x)) as Hp.
  { intros E. apply mem_load_Some in Hg as (blk & Hblk & _); [|lia]. by rewrite E, fresh_blk_spec in Hblk. }
  unfold mem_new. cbn [iov_base]. rewrite Z.div_mul by lia.
  rewrite (copy_pattern_spec dev g p (Z.to_nat k) 0 _ _ [] [] (zeros (Z.to_nat (k * block_size dev))));
    try done; rewrite ?length_zeros; cbn [length p_blk]; try lia.
  2:{ by apply (mem_new_load (x_mem x) (zeros (Z.to_nat (k * block_size dev)))). }
  2:{ rewrite lookup_insert_eq. cbn. by rewrite app_nil_r. }
  cbn [mbind option_bind app]. rewrite insert_insert_eq, app_nil_r. fold (same_blocks k g).
  set (ws := WriteSame lba n _ _). set (m := <[_ := _]> (x_mem x)). unfold set_mem. cbn [x_bs x_alloc x_caw].
  destruct (ws_dispatch dev g Lg (Z.to_nat n) (sense_buf cmd) ws k (XSt (x_bs x) m l' (x_caw x))) as (r & -> & Hr).
  { split; cbn; try lia; try done. rewrite <- Lk. apply (mem_new_same (x_mem x) (same_blocks k g)). }
  { cbn. lia. }
  cbn [mbind option_bind]. eexists. split; [reflexivity|].
  destruct r as [[x' st]|f]; cbn [async_return f_x f_sts f_async].
  - destruct Hr as (-> & Hst & _ & HW). split_and!; try done. intros _. split; [done|]. intros q j v Hq.
    by apply (mem_new_load (x_mem x) (same_blocks k g)).
  - destruct Hr as (-> & -> & _ & _ & HW). split_and!; try done. intros _. cbn. unfold mem_free, m. cbn.
    rewrite delete_insert_eq. apply delete_id, fresh_blk_spec.
Qed.

Lemma writesame_fills_witness :
  exists f, handle_writesame (HB := file_backstore good_sys) caw_dev (rw_cmd WRITE_SAME [Iov (Ptr 0 4) 4]) caw_start =
      Some (inl f) /\
    f_sts f = TCMU_STS_OK /\ x_mem (f_x f) = x_mem caw_start /\
    bs_data (Backstore := file_backstore good_sys) (x_bs (f_x f)) = replicate 4 5 ++ replicate 8 7 ++ replicate 4 5.
Proof.
  destruct (writesame_fills (HL := good_laws) caw_dev (rw_cmd WRITE_SAME [Iov (Ptr 0 4) 4]) (Ptr 0 4) [7; 7; 7; 7] 1 2
    caw_start caw_dev_over) as (f & E & (w & Lw & Hd & Hw) & Hm & _).
  - cbn. repeat apply Forall_cons_2; try apply Forall_nil_2; unfold is_byte; by vm_compute.
  - by vm_compute.
  - reflexivity.
  - by split.
  - reflexivity.
  - reflexivity.
  - reflexivity.
  - lia.
  - by vm_compute.
  - assert (fmap (fun r => match r with inl f => (f_sts f, f_async f) | inr _ => (TCMU_STS_OK, false) end)
      (handle_writesame (HB := file_backstore good_sys) caw_dev (rw_cmd WRITE_SAME [Iov (Ptr 0 4) 4]) caw_start) =
      Some (TCMU_STS_OK, true)) as E1 by (vm_compute; reflexivity).
    rewrite E in E1. cbn [fmap option_fmap option_map] in E1.
    assert (f_sts f = TCMU_STS_OK) as Hs by congruence. assert (f_async f = true) as Ha by congruence.
    exists f. split; [exact E|]. split; [exact Hs|]. split; [by apply Hm|].
    rewrite (Hw Hs) in Hd. rewrite Hd. reflexivity.
Defined.
