(* ===== verification/Format.v ===== *)
(** * FORMAT UNIT

    The emulated format of [tcmur_cmd_handler.c]: the device is overwritten
    with zeros, one chunk after the other, each write starting the next from its
    callback. *)

From S2P Require Import Prelude Scsi Iovec Sense Device Backstore FileBack Aio Rw RwSpec WriteSame.

(** [write_buf] is the buffer of the current write command, whose iovec is
    allocated anew for every chunk.
    [src tcmu-runner/tcmur_cmd_handler.c struct format_unit_state] *)
Record format_unit_state := FormatState {
  fu_length : Z;
  fu_offset : Z;
  fu_write_buf : ptr;
  fu_done_blocks : Z
}.

(** [TCMUR_DEV_FLAG_FORMATTING] and the progress indication of the device.
    [src tcmu-runner/tcmur_device.h 77-78 struct tcmur_device] *)
Record format_dev := FormatDev { formatting : bool; format_progress : Z }.

Section commands.
Context {B : Type} {HB : Backstore B} (dev : tcmu_device).

(** [src tcmu-runner/tcmur_cmd_handler.c format_unit_work_fn] *)
Definition format_unit_work_fn (st : format_unit_state) (x : xst B) : option (xst B * reply) :=
  '(b, _, r) ← bs_write (x_bs x) (x_mem x) [Iov (fu_write_buf st) (fu_length st)] 1 (fu_length st) (fu_offset st);
  Some (set_bs x b, r).

(** The end of the command, after its buffer is freed.
    [src tcmu-runner/tcmur_cmd_handler.c 2003-2008 handle_format_unit_cbk] *)
Definition format_finish (sense : list Z) (progress : Z) (x : xst B) (ret : tcmu_sts) : fin B * format_dev :=
  (Fin x sense true ret, FormatDev false progress).

(** [ret] only matters for the last chunk.  [None] also stands for the
    command that is never completed, when [done_blocks] jumps over [num_lbas].
    [src tcmu-runner/tcmur_cmd_handler.c handle_format_unit_cbk] *)
Fixpoint handle_format_unit_cbk (fuel : nat) (sense : list Z) (st : format_unit_state) (progress : Z)
    (x : xst B) (ret : tcmu_sts) : option (fin B * format_dev) :=
  let block_size := tcmu_get_dev_block_size dev in
  let num_lbas := tcmu_get_dev_num_lbas dev in
  let offset := fu_offset st + fu_length st in
  let done_blocks := u32 (fu_done_blocks st + fu_length st / block_size) in
  let progress := if done_blocks <? num_lbas then u32 (u32 (0x10000 * done_blocks) / num_lbas) else progress in
  if done_blocks =? num_lbas then Some (format_finish sense progress (free_iovec (fu_write_buf st) x) ret)
  else if done_blocks <? num_lbas then
    match fuel with
    | O => None
    | S fuel =>
        let x := free_iovec (fu_write_buf st) x in
        let left := u64 ((num_lbas - done_blocks) * block_size) in
        let length := if left <? fu_length st then left else fu_length st in
        let '(buf, x) := alloc_iovec length x in
        match buf with
        | None => Some (format_finish sense progress x TCMU_STS_NO_RESOURCE)
        | Some buf =>
            let st := FormatState length offset buf done_blocks in
            r ← async_handle_cmd dev (format_unit_work_fn st) (handle_format_unit_cbk fuel sense st progress) x;
            match r with
            | inl (x, _) => Some (format_finish sense progress (free_iovec buf x) TCMU_STS_WR_ERR)
            | inr f => Some f
            end
        end
    end
  else None.

(** Every failure to start is [TCMU_STS_NO_RESOURCE].
    [src tcmu-runner/tcmur_cmd_handler.c handle_format_unit] *)
Definition handle_format_unit (cmd : tcmulib_cmd) (d : format_dev) (x : xst B) : option (fin B * format_dev) :=
  let block_size := tcmu_get_dev_block_size dev in
  let num_lbas := tcmu_get_dev_num_lbas dev in
  let nores x := Some (Fin x (sense_buf cmd) false TCMU_STS_NO_RESOURCE, FormatDev false 0) in
  if formatting d then
    sense ← tcmu_set_sense_key_specific_info (sense_buf cmd) (u16 (format_progress d));
    Some (Fin x sense false TCMU_STS_FRMT_IN_PROGRESS, d)
  else
    let '(ok, x) := x_tries 2 x in
    if negb ok then nores x
    else
      length ← round_up (1024 * 1024) (u32 (tcmu_get_dev_max_xfer_len dev * block_size));
      let all := u64 (num_lbas * block_size) in
      let length := if all <? length then all else length in
      let '(buf, x) := alloc_iovec length x in
      match buf with
      | None => nores x
      | Some buf =>
          let st := FormatState length 0 buf 0 in
          r ← async_handle_cmd dev (format_unit_work_fn st)
                (handle_format_unit_cbk (Z.to_nat num_lbas) (sense_buf cmd) st 0) x;
          match r with
          | inl (x, _) => nores (free_iovec buf x)
          | inr f => Some f
          end
      end.
End commands.

(** ** The chain of writes *)

(** A handler whose writes all succeed. *)
Definition writes_succeed (B : Type) {HB : Backstore B} : Prop :=
  forall b m iov cnt len off b' iov' r, bs_write b m iov cnt len off = Some (b', iov', r) -> r = Done TCMU_STS_OK.

Section chain.
Context {B : Type} {HB : Backstore B} {HL : BackstoreLaws B} (dev : tcmu_device).
Context (Hn : num_lbas dev < 2 ^ 32).

(** A chunk of [k] blocks is about to be written after [fu_done_blocks]. *)
Record fu_inv (st : format_unit_state) (k : Z) (x : xst B) : Prop := {
  fi_dev : dev_over dev (x_bs x);
  fi_k : 0 <= fu_done_blocks st /\ 0 < k /\ fu_done_blocks st + k <= num_lbas dev;
  fi_off : fu_offset st = fu_done_blocks st * block_size dev /\ fu_length st = k * block_size dev;
  fi_buf : mem_load (x_mem x) (fu_write_buf st) (fu_length st) = Some (zeros (Z.to_nat (fu_length st)))
}.

(** What is left: some bytes from [off] on to the end of the device, zeros
    if nothing failed. *)
Definition fu_post (off : Z) (data : list Z) (ok : bool) (x' : xst B) (st : tcmu_sts) : Prop :=
  dev_over dev (x_bs x') /\
  (ok -> writes_succeed B ->
   bs_data (x_bs x') = write_at data off (zeros (Z.to_nat (num_lbas dev * block_size dev - off))) /\ st = TCMU_STS_OK).

Definition fu_fin (st : format_unit_state) (sense : list Z) (x : xst B) (r : fin B * format_dev) : Prop :=
  formatting r.2 = false /\ f_async r.1 = true /\ f_sense r.1 = sense /\
  fu_post (fu_offset st) (bs_data (x_bs x)) (bool_decide (x_alloc x = [])) (f_x r.1) (f_sts r.1).

Definition fu_dispatched (fuel : nat) : Prop :=
  forall sense st p k x, fu_inv st k x -> num_lbas dev - fu_done_blocks st - 1 <= Z.of_nat fuel ->
  exists r, async_handle_cmd dev (format_unit_work_fn st) (handle_format_unit_cbk dev fuel sense st p) x = Some r /\
    match r with
    | inl (x', s) => fu_post (fu_offset st) (bs_data (x_bs x)) (bool_decide (x_alloc x = [])) x' s /\ s <> TCMU_STS_OK
    | inr f => fu_fin st sense x f
    end.

Lemma fu_ranges st k x : fu_inv st k x ->
  0 < block_size dev < 2 ^ 32 /\ 0 <= fu_offset st /\ 0 < fu_length st /\
  fu_offset st + fu_length st <= num_lbas dev * block_size dev /\
  Z.of_nat (length (bs_data (x_bs x))) = num_lbas dev * block_size dev /\ num_lbas dev * block_size dev < 2 ^ 63 /\
  fu_length st / block_size dev = k.
Proof.
  intros [(W & DO & L & S) (H1 & H2 & H3) (-> & ->) _]. pose proof (dev_block_size_ok _ DO).
  assert ((fu_done_blocks st + k) * block_size dev <= num_lbas dev * block_size dev) by (apply Z.mul_le_mono_nonneg_r; lia).
  assert (0 <= fu_done_blocks st * block_size dev) by (apply Z.mul_nonneg_nonneg; lia).
  assert (0 < k * block_size dev) by (apply Z.mul_pos_pos; lia).
  split_and!; try lia. apply Z.div_mul. lia.
Qed.

Lemma format_unit_work_spec st k x :
  fu_inv st k x ->
  exists b r w, format_unit_work_fn st x = Some (set_bs x b, r) /\ dev_over dev b /\ r <> Rejected TCMU_STS_OK /\
    Z.of_nat (length w) = fu_length st /\ bs_data b = write_at (bs_data (x_bs x)) (fu_offset st) w /\
    (r = Done TCMU_STS_OK -> w = zeros (Z.to_nat (fu_length st))) /\ (writes_succeed B -> r = Done TCMU_STS_OK).
Proof.
  intros I. destruct (fu_ranges _ _ _ I) as (? & ? & ? & ? & ? & ? & _). destruct I as [D _ _ Hb].
  pose proof D as (W & DO & L & S). unfold format_unit_work_fn.
  assert (Z.of_nat (length (zeros (Z.to_nat (fu_length st)))) = fu_length st) as Lz by (rewrite length_zeros; lia).
  destruct (bs_write_law (x_bs x) (x_mem x) [Iov (fu_write_buf st) (fu_length st)] _ (fu_offset st) W (gather_one _ _ _ _ Hb))
    as (b & iov' & r & w & E & W' & Hr & Lw & Hd & Hok); [repeat constructor; cbn; lia|lia|lia|].
  rewrite Lz in E. cbn [length] in E. change (Z.of_nat 1) with 1 in E. rewrite E. cbn [mbind option_bind].
  exists b, r, w. split; [done|]. split_and!; auto; [|lia|].
  - apply (dev_over_step dev (x_bs x)); auto. rewrite Hd. apply length_write_at; lia.
  - intros Hs. by eapply Hs.
Qed.

(** Allocations when memory is sufficient. *)
Lemma alloc_iovec_keep (n : Z) (x : xst B) :
  0 <= n -> exists l, (x_alloc x = [] -> l = []) /\
    (alloc_iovec n x = (Some (mem_new (x_mem x) (zeros (Z.to_nat n))).2,
       XSt (x_bs x) (mem_new (x_mem x) (zeros (Z.to_nat n))).1 l (x_caw x)) \/
     x_alloc x <> [] /\ alloc_iovec n x = (None, XSt (x_bs x) (x_mem x) l (x_caw x))).
Proof.
  intros Hn'. destruct (x_alloc x) as [|a l0] eqn:E.
  - exists []. split; [done|]. left. unfold alloc_iovec. cbn [x_tries]. unfold x_try. rewrite E, E. cbn. destruct x.
    cbn in *. by subst.
  - destruct (alloc_iovec_cases n x Hn') as (buf & l & [H|H] & -> & _); exists l; (split; [done|]); [by right|by left].
Qed.

(** The command is over. *)
Lemma fu_fin_finish st sense x x' p ret :
  fu_post (fu_offset st) (bs_data (x_bs x)) (bool_decide (x_alloc x = [])) x' ret ->
  fu_fin st sense x (format_finish sense p x' ret).
Proof. intros [D H]. by split_and!. Qed.

Lemma fu_cbk fuel sense st k p x b l w ret :
  (forall fuel', (fuel' < fuel)%nat -> fu_dispatched fuel') ->
  fu_inv st k x -> num_lbas dev - fu_done_blocks st - 1 <= Z.of_nat fuel -> dev_over dev b ->
  Z.of_nat (length w) = fu_length st -> bs_data b = write_at (bs_data (x_bs x)) (fu_offset st) w ->
  (x_alloc x = [] -> l = []) ->
  (writes_succeed B -> ret = TCMU_STS_OK /\ w = zeros (Z.to_nat (fu_length st))) ->
  exists f, handle_format_unit_cbk dev fuel sense st p (XSt b (x_mem x) l (x_caw x)) ret = Some f /\
    fu_fin st sense x f.
Proof.
  intros IH I Hfuel D Lw Hd Hl Hgood. destruct (fu_ranges _ _ _ I) as (? & ? & ? & ? & ? & ? & Ek).
  destruct I as [_ (Hd0 & Hk & Hd1) [Eo El] _]. set (d := fu_done_blocks st) in *.
  destruct (decide (d + k = num_lbas dev)) as [Hlast|Hmore].
  - eexists. split.
    + destruct fuel; cbn [handle_format_unit_cbk]; unfold tcmu_get_dev_block_size, tcmu_get_dev_num_lbas;
        rewrite Ek, u32_small, (proj2 (Z.eqb_eq (fu_done_blocks st + k) _)) by lia; reflexivity.
    + apply fu_fin_finish. split; [done|]. intros _ Hs. destruct (Hgood Hs) as [-> ->]. split; [|done].
      cbn. rewrite Hd. do 2 f_equal. rewrite Eo, El, <- Hlast. f_equal. ring.
  - destruct fuel as [|fuel]; [lia|]. cbn [handle_format_unit_cbk]. unfold tcmu_get_dev_block_size, tcmu_get_dev_num_lbas.
    rewrite Ek. fold d. rewrite (u32_small (d + k)), (proj2 (Z.eqb_neq (d + k) _)), (proj2 (Z.ltb_lt (d + k) _)) by lia.
    set (k' := Z.min k (num_lbas dev - (d + k))).
    assert ((num_lbas dev - (d + k)) * block_size dev = num_lbas dev * block_size dev - (fu_offset st + fu_length st)) as Eleft
      by (rewrite Eo, El; ring).
    assert (0 < (num_lbas dev - (d + k)) * block_size dev) by (apply Z.mul_pos_pos; lia).
    rewrite u64_small by lia.
    assert ((if (num_lbas dev - (d + k)) * block_size dev <? fu_length st then (num_lbas dev - (d + k)) * block_size dev
             else fu_length st) = k' * block_size dev) as ->.
    { rewrite El. unfold k'. case_if; rewrite <- Z.mul_lt_mono_pos_r in * || rewrite <- Z.mul_le_mono_pos_r in * by lia;
        f_equal; lia. }
    assert (0 < k' * block_size dev) by (apply Z.mul_pos_pos; lia).
    set (x0 := XSt b (mem_free (x_mem x) (fu_write_buf st)) l (x_caw x)).
    change (free_iovec (fu_write_buf st) (XSt b (x_mem x) l (x_caw x))) with x0.
    generalize (u32 (u32 (0x10000 * (d + k)) / num_lbas dev)) as pr. intros pr.
    assert (forall x' s (Hx : bs_data (x_bs x') = bs_data b /\ dev_over dev (x_bs x')) (Hs : x_alloc x = [] -> ~ writes_succeed B),
      fu_fin st sense x (format_finish sense pr x' s)) as Hfail.
    { intros x' s [_ Dx] Hs. apply fu_fin_finish. split; [done|]. intros Ha W. apply bool_decide_unpack in Ha.
      by destruct (Hs Ha). }
    destruct (alloc_iovec_keep (k' * block_size dev) x0) as (l' & Hl' & [E|[Hne E]]); [lia| |]; rewrite E; clear E.
    2:{ eexists. split; [reflexivity|]. apply Hfail; [by split|]. intros Ha. by destruct (Hne (Hl Ha)). }
    set (m := mem_new _ _). set (st' := FormatState _ _ m.2 _). set (x1 := XSt (x_bs x0) m.1 l' (x_caw x0)).
    destruct (IH fuel ltac:(lia) sense st' pr k' x1) as (r & -> & Hr).
    { split; cbn; [done|unfold k'; lia|split; [rewrite Eo, El; ring|done]|].
      pose proof (mem_new_same (x_mem x0) (zeros (Z.to_nat (k' * block_size dev)))) as Hz.
      rewrite length_zeros, Z2Nat.id in Hz by lia. exact Hz. }
    { cbn. lia. }
    assert (forall x' s, fu_post (fu_offset st') (bs_data (x_bs x1)) (bool_decide (x_alloc x1 = [])) x' s ->
      fu_post (fu_offset st) (bs_data (x_bs x)) (bool_decide (x_alloc x = [])) x' s) as Hnext.
    { intros x' s [D' Hx]. split; [done|]. intros Ha W. apply bool_decide_unpack in Ha.
      destruct (Hgood W) as [_ Hw]. destruct Hx as [-> ->]; [|done|].
      { apply bool_decide_pack. cbn. apply Hl'. by apply Hl. }
      split; [|done]. cbn [x1 x0 x_bs st' fu_offset]. rewrite Hd, <- Lw, write_at_app by lia. f_equal. rewrite Hw.
      unfold zeros. rewrite <- replicate_add, length_replicate. f_equal. lia. }
    cbn [mbind option_bind]. destruct r as [[x' s]|f].
    + destruct Hr as [P Hs]. eexists. split; [reflexivity|]. apply fu_fin_finish.
      destruct (Hnext _ _ P) as [D' Hx]. split; [done|]. intros Ha W. by destruct (Hx Ha W).
    + destruct Hr as (A1 & A2 & A3 & P). eexists. split; [reflexivity|]. split_and!; auto.
Qed.

Lemma fu_dispatch fuel : fu_dispatched fuel.
Proof.
  induction fuel as [fuel IH] using lt_wf_ind. intros sense st p k x I Hfuel.
  pattern (async_handle_cmd dev (format_unit_work_fn st) (handle_format_unit_cbk dev fuel sense st p) x).
  apply async_handle_cmd_alloc.
  { intros l Hne. eexists. split; [reflexivity|]. split; [|done]. split; [by destruct I|].
    intros Ha _. by apply bool_decide_unpack in Ha. }
  intros l Hl. destruct (format_unit_work_spec st k (XSt (x_bs x) (x_mem x) l (x_caw x)))
    as (b & r & w & -> & D & Hr & Lw & Hd & Hok & Hgood); [by destruct I|].
  eexists _, _. split; [reflexivity|]. cbn [x_bs] in Hd.
  change (set_bs (XSt (x_bs x) (x_mem x) l (x_caw x)) b) with (XSt b (x_mem x) l (x_caw x)).
  assert (forall s, r = Done s \/ r = Rejected s -> exists f,
    handle_format_unit_cbk dev fuel sense st p (XSt b (x_mem x) l (x_caw x)) s = Some f /\ fu_fin st sense x f) as Hcbk.
  { intros s Hs. apply (fu_cbk fuel sense st k p x b l w s); auto. intros W. specialize (Hgood W). subst r.
    split; [by destruct Hs; simplify_eq|auto]. }
  destruct r as [s|s]; [split|].
  - eexists. split; [reflexivity|]. split; [|congruence]. split; [done|]. intros _ W. by specialize (Hgood W).
  - destruct (Hcbk s) as (f & -> & F); [by right|]. by exists (inr f).
  - destruct (Hcbk s) as (f & -> & F); [by left|]. by exists (inr f).
Qed.
End chain.

(** ** What FORMAT UNIT does *)

(** FORMAT UNIT ends, and erases the device when nothing fails.  Over any
    backstore that keeps its contract, on a device of fewer than 2^32 blocks
    whose transfer size fits 32 bits: the chain of writes terminates whatever
    their answers, the device is no longer marked as formatting, and when all
    writes and allocations succeed every byte of the device is zero and the
    command reports success.  While a format is running another one is refused
    and changes nothing. *)
Theorem format_unit_erases {B} {HB : Backstore B} {HL : BackstoreLaws B} (dev : tcmu_device)
  (cmd : tcmulib_cmd) (d : format_dev) (x : xst B)
  (D : dev_over dev (x_bs x)) (Hn : 0 < num_lbas dev < 2 ^ 32)
  (Hmx : 0 < max_xfer_len dev /\ max_xfer_len dev * block_size dev < 2 ^ 32)
  (Hsense : (18 <= length (sense_buf cmd))%nat) :
  exists f d', handle_format_unit dev cmd d x = Some (f, d') /\
    (formatting d = true ->
       d' = d /\ f_sts f = TCMU_STS_FRMT_IN_PROGRESS /\ x_bs (f_x f) = x_bs x) /\
    (formatting d = false ->
       formatting d' = false /\ dev_over dev (x_bs (f_x f)) /\
       (x_alloc x = [] -> writes_succeed B ->
        bs_data (x_bs (f_x f)) = zeros (length (bs_data (x_bs x))) /\ f_sts f = TCMU_STS_OK)).
Proof.
  pose proof D as (W & DO & L & S). pose proof (dev_block_size_ok _ DO).
  unfold handle_format_unit. destruct (formatting d) eqn:Ef.
  { destruct (format_sense_some (sense_buf cmd) (u16 (format_progress d)) Hsense) as (s & ->).
    cbn [mbind option_bind]. eexists _, _. split; [reflexivity|]. split; [done|]. by intros ?. }
  set (good := fun (f : fin B) (d' : format_dev) => formatting d' = false /\ dev_over dev (x_bs (f_x f)) /\
       (x_alloc x = [] -> writes_succeed B ->
        bs_data (x_bs (f_x f)) = zeros (length (bs_data (x_bs x))) /\ f_sts f = TCMU_STS_OK)).
  assert (forall r, (exists f d', r = Some (f, d') /\ good f d') -> exists f d', r = Some (f, d') /\
    (false = true -> d' = d /\ f_sts f = TCMU_STS_FRMT_IN_PROGRESS /\ x_bs (f_x f) = x_bs x) /\
    (false = false -> good f d')) as Hred by (intros r (f & d' & -> & G); by exists f, d').
  apply Hred. clear Hred Ef.
  assert (forall x', dev_over dev (x_bs x') -> (x_alloc x = [] -> ~ writes_succeed B) ->
    exists f d', Some (Fin x' (sense_buf cmd) false TCMU_STS_NO_RESOURCE, FormatDev false 0) = Some (f, d') /\ good f d')
    as Hnores.
  { intros x' Hx Ha. eexists _, _. split; [reflexivity|]. split_and!; [done|done|]. intros Ha' Hw. by destruct (Ha Ha'). }
  destruct (x_tries_keep 2 x) as (ok & l & E & Hok). rewrite E. clear E.
  destruct ok; cbn [negb]. 2:{ apply Hnores; [done|]. intros Ha. by destruct (Hok Ha). }
  assert (num_lbas dev * block_size dev < 2 ^ 64) by lia.
  unfold tcmu_get_dev_num_lbas, tcmu_get_dev_block_size in *.
  destruct (writesame_length dev (num_lbas dev)) as (len & k & -> & Em & Hk & Hkb); [lia..|].
  cbn [mbind option_bind].
  assert ((if u64 (num_lbas dev * block_size dev) <? len then u64 (num_lbas dev * block_size dev) else len) =
    k * block_size dev) as -> by (rewrite <- Em; case_if; lia).
  assert (0 < k * block_size dev) by (apply Z.mul_pos_pos; lia).
  set (x1 := XSt (x_bs x) (x_mem x) l (x_caw x)).
  destruct (alloc_iovec_keep (k * block_size dev) x1) as (l' & Hl' & [E|[Hne E]]); [lia| |]; rewrite E; clear E.
  2:{ apply Hnores; [done|]. intros Ha. exfalso. apply Hne. cbn. by destruct (Hok Ha). }
  set (m := mem_new _ _). set (st := FormatState _ _ _ _). set (x2 := XSt (x_bs x1) m.1 l' (x_caw x1)).
  destruct (fu_dispatch dev ltac:(lia) (Z.to_nat (num_lbas dev)) (sense_buf cmd) st 0 k x2) as (r & -> & Hr).
  { split; cbn; [done|lia|split; [lia|done]|].
    pose proof (mem_new_same (x_mem x1) (zeros (Z.to_nat (k * block_size dev)))) as Hz.
    rewrite length_zeros, Z2Nat.id in Hz by lia. exact Hz. }
  { cbn. lia. }
  cbn [mbind option_bind].
  assert (x_alloc x = [] -> bool_decide (x_alloc x2 = [])) as Ha2
    by (intros Ha; apply bool_decide_pack; apply Hl'; cbn; by destruct (Hok Ha)).
  destruct r as [[x' s]|[f d']].
  - destruct Hr as [[D' P] Hs]. apply Hnores; [done|]. intros Ha Hw. by destruct (P (Ha2 Ha) Hw).
  - destruct Hr as (A1 & A2 & A3 & D' & P). eexists _, _. split; [reflexivity|]. split_and!; [done|done|].
    intros Ha Hw. destruct (P (Ha2 Ha) Hw) as [Pd Ps]. cbn [fst snd] in Pd, Ps. rewrite Pd. split; [|done]. cbn [st fu_offset x2 x_bs x1].
    rewrite Z.sub_0_r, <- L, Nat2Z.id. unfold write_at. change (Z.to_nat 0) with 0%nat.
    by rewrite take_0, drop_ge, app_nil_r by (rewrite length_zeros; lia).
Qed.

Lemma iovec_length_nonneg iov : forall cnt acc n, 0 <= acc -> iovec_length_loop iov cnt acc = Some n -> 0 <= n.
Proof.
  induction iov as [|v iov IH]; intros cnt acc n Ha; cbn [iovec_length_loop]; (destruct (cnt =? 0); [by intros [= <-]|]); [done|].
  apply IH. apply u64_bound.
Qed.

(** The file handler's writes succeed when the system calls do. *)
Lemma good_writes_succeed : writes_succeed (HB := file_backstore good_sys) file_state.
Proof.
  assert (forall fuel f m iov cnt rem off f' iov' st,
    file_write_loop fuel good_sys f m iov cnt rem off = Some (f', iov', st) -> st = TCMU_STS_OK) as H.
  { induction fuel as [|fuel IH]; intros f m iov cnt rem off f' iov' st; cbn [file_write_loop];
      (destruct (rem =? 0); [by intros [= _ _ <-]|]); [done|].
    unfold pwritev. destruct (tcmu_iovec_length iov cnt) as [want|] eqn:E; [|done].
    apply iovec_length_nonneg in E; [|done]. cbn [mbind option_bind good_sys pwritev_ret].
    rewrite (proj2 (Z.ltb_ge want 0)) by done.
    destruct (gather m _) as [bs|]; [|done]. cbn [mbind option_bind].
    case_if; cbn [mbind option_bind].
    - destruct (tcmu_seek_in_iovec iov 0) as [[iov0 c]|]; [|done]. cbn [mbind option_bind]. apply IH.
    - rewrite (proj2 (Z.ltb_ge (Z.of_nat _) 0)) by lia.
      destruct (tcmu_seek_in_iovec iov _) as [[iov0 c]|]; [|done]. cbn [mbind option_bind]. apply IH. }
  intros b m iov cnt len off b' iov' r. cbn. unfold file_write.
  destruct (file_write_loop _ _ _ _ _ _ _ _) as [[[f iov0] st]|] eqn:E; [|done]. apply H in E as ->.
  cbn. by intros [= _ _ <-].
Qed.

Lemma format_unit_erases_witness :
  exists f d', handle_format_unit (HB := file_backstore good_sys) caw_dev (Cmd 1 [FORMAT_UNIT; 0; 0; 0; 0; 0] [] 0 (zeros 96))
      (FormatDev false 0) caw_start = Some (f, d') /\
    f_sts f = TCMU_STS_OK /\ formatting d' = false /\
    bs_data (Backstore := file_backstore good_sys) (x_bs (f_x f)) = zeros 16.
Proof.
  destruct (format_unit_erases (HL := good_laws) caw_dev (Cmd 1 [FORMAT_UNIT; 0; 0; 0; 0; 0] [] 0 (zeros 96))
    (FormatDev false 0) caw_start caw_dev_over) as (f & d' & E & _ & H).
  - cbn. lia.
  - cbn. lia.
  - cbn. lia.
  - destruct (H eq_refl) as (Hf & _ & Hg). destruct (Hg eq_refl good_writes_succeed) as [Hd Hs].
    exists f, d'. split; [exact E|]. split; [exact Hs|]. split; [exact Hf|]. exact Hd.
Defined.

(** ** Failing writes *)

(** A handler that keeps the offsets it was asked to write and fails the
    first time only. *)
Definition first_write_fails : Backstore (list Z) := {|
  bs_data _ := [];
  bs_read b m iov cnt len off := None;
  bs_write b m iov cnt len off :=
    Some (b ++ [off], iov, Done (match b with [] => TCMU_STS_WR_ERR | _ => TCMU_STS_OK end));
  bs_unmap b off len := None;
  bs_flush b := Some (b, Done TCMU_STS_OK)
|}.

(** Two blocks of a mebibyte, one to a chunk. *)
Definition format_dev2 : tcmu_device := Dev 2 1048576 1 0 0 false false [] None demo_handler.

(** A failed write is forgotten.  The callback of a chunk that is not the
    last does the same whatever the status of its write, so a format whose first
    write fails writes the rest and reports success. *)
Theorem format_hides_write_errors :
  (forall B (HB : Backstore B) dev fuel sense st p (x : xst B) ret ret',
     u32 (fu_done_blocks st + fu_length st / block_size dev) <> num_lbas dev ->
     handle_format_unit_cbk dev fuel sense st p x ret = handle_format_unit_cbk dev fuel sense st p x ret') /\
  (fun r => (x_bs (f_x r.1), f_sts r.1)) <$> handle_format_unit (HB := first_write_fails) format_dev2
      (Cmd 1 [FORMAT_UNIT; 0; 0; 0; 0; 0] [] 0 []) (FormatDev false 0) (XSt [] (∅ : mem) [] false) =
    Some ([0; 1048576], TCMU_STS_OK).
Proof.
  split.
  - intros B HB dev fuel sense st p x ret ret' Hne.
    destruct fuel; cbn [handle_format_unit_cbk]; unfold tcmu_get_dev_block_size, tcmu_get_dev_num_lbas;
      by rewrite (proj2 (Z.eqb_neq _ _) Hne).
  - reflexivity.
Qed.
