(* ===== verification/Xcopy.v ===== *)
(** * EXTENDED COPY

    The parameter list of EXTENDED COPY and the copy loop of
    [tcmur_cmd_handler.c], which reads chunks from one device and writes them
    to another.  The devices of the context are a list; a pointer to one of
    them is its index, and the state has the backstores in the same order. *)

From S2P Require Import Prelude Scsi Iovec Sense Device Inquiry Backstore FileBack Aio Rw RwSpec.

Definition XCOPY_HDR_LEN : Z := 16.
Definition XCOPY_TARGET_DESC_LEN : Z := 32.
Definition XCOPY_SEGMENT_DESC_B2B_LEN : Z := 28.
Definition XCOPY_NAA_IEEE_REGEX_LEN : Z := 16.
Definition XCOPY_MAX_SECTORS : Z := 1024.

(** ** State *)

(** [None]: a NULL device.  The iovec is [iov_base] and [iov_len].
    [src tcmu-runner/tcmur_cmd_handler.c struct xcopy] *)
Record xcopy := Xcopy {
  src_dev : option nat;
  src_tid_wwn : list Z;
  dst_dev : option nat;
  dst_tid_wwn : list Z;
  src_lba : Z;
  dst_lba : Z;
  stdi : Z;
  dtdi : Z;
  xc_lba_cnt : Z;
  copy_lbas : Z;
  xc_iov_base : ptr;
  xc_iov_len : Z
}.

(** After [calloc]. *)
Definition xcopy_zero : xcopy :=
  Xcopy None (zeros 16) None (zeros 16) 0 0 0 0 0 0 (Ptr 0 0) 0.

Definition set_src (c : xcopy) (d : option nat) (w : list Z) : xcopy :=
  Xcopy d w (dst_dev c) (dst_tid_wwn c) (src_lba c) (dst_lba c) (stdi c) (dtdi c) (xc_lba_cnt c)
    (copy_lbas c) (xc_iov_base c) (xc_iov_len c).
Definition set_dst (c : xcopy) (d : option nat) (w : list Z) : xcopy :=
  Xcopy (src_dev c) (src_tid_wwn c) d w (src_lba c) (dst_lba c) (stdi c) (dtdi c) (xc_lba_cnt c)
    (copy_lbas c) (xc_iov_base c) (xc_iov_len c).
Definition set_segment (c : xcopy) (s d cnt slba dlba : Z) : xcopy :=
  Xcopy (src_dev c) (src_tid_wwn c) (dst_dev c) (dst_tid_wwn c) slba dlba s d cnt
    (copy_lbas c) (xc_iov_base c) (xc_iov_len c).
Definition set_chunk (c : xcopy) (slba dlba cnt n : Z) : xcopy :=
  Xcopy (src_dev c) (src_tid_wwn c) (dst_dev c) (dst_tid_wwn c) slba dlba (stdi c) (dtdi c) cnt
    n (xc_iov_base c) (xc_iov_len c).
Definition set_buffer (c : xcopy) (n : Z) (p : ptr) (len : Z) : xcopy :=
  Xcopy (src_dev c) (src_tid_wwn c) (dst_dev c) (dst_tid_wwn c) (src_lba c) (dst_lba c) (stdi c) (dtdi c)
    (xc_lba_cnt c) n p len.

(** ** The parameter list *)

Definition u16_at (par : list Z) (i : nat) : option Z := b ← bget par i 2; Some (be_dec b).
Definition u64_at (par : list Z) (i : nat) : option Z := b ← bget par i 8; Some (be_dec b).

(** [sdll] and [desc_len] are bytes.
    [src tcmu-runner/tcmur_cmd_handler.c xcopy_parse_segment_descs] *)
Definition xcopy_parse_segment_descs (par : list Z) (seg : nat) (c : xcopy) (sdll : Z)
    : option (tcmu_sts * xcopy) :=
  if negb (sdll mod XCOPY_SEGMENT_DESC_B2B_LEN =? 0) then Some (TCMU_STS_INVALID_PARAM_LIST, c)
  else if RCR_OP_MAX_SEGMENT_DESC_COUNT * XCOPY_SEGMENT_DESC_B2B_LEN <? sdll
  then Some (TCMU_STS_INVALID_PARAM_LIST, c)
  else
    code ← bget1 par seg;
    if negb (code =? XCOPY_SEG_DESC_TYPE_CODE_B2B) then Some (TCMU_STS_NOTSUPP_SEG_DESC_TYPE, c)
    else
      desc_len ← u16_at par (seg + 2);
      if negb (u8 desc_len =? 0x18) then Some (TCMU_STS_INVALID_PARAM_LIST, c)
      else
        s ← u16_at par (seg + 4);
        d ← u16_at par (seg + 6);
        cnt ← u16_at par (seg + 10);
        slba ← u64_at par (seg + 12);
        dlba ← u64_at par (seg + 20);
        Some (TCMU_STS_OK, set_segment c s d cnt slba dlba).

(** The 16 bytes of [wwn], which the callers have zeroed; [Some None] when
    there is no serial number and it returns -1.
    [src tcmu-runner/tcmur_cmd_handler.c xcopy_gen_naa_ieee] *)
Definition xcopy_gen_naa_ieee (dev : tcmu_device) : option (option (list Z)) :=
  match dev_wwn dev with
  | None => Some None
  | Some buf =>
      wwn ← hex_fill (Z.to_nat XCOPY_NAA_IEEE_REGEX_LEN) buf ([0x60; 0x01; 0x40; 0x50] ++ zeros 12) 0 3 true;
      Some (Some wwn)
  end.

(** [Some None]: it returns -1.
    [src tcmu-runner/tcmur_cmd_handler.c xcopy_locate_udev] *)
Fixpoint xcopy_locate_udev (devs : list tcmu_device) (i : nat) (w : list Z) : option (option nat) :=
  match devs with
  | [] => Some None
  | dev :: devs =>
      wwn ← xcopy_gen_naa_ieee dev;
      match wwn with
      | None => Some None
      | Some wwn => if decide (wwn = w) then Some (Some i) else xcopy_locate_udev devs (S i) w
      end
  end.

Section parse.
Context (devs : list tcmu_device).

(** [src tcmu-runner/tcmur_cmd_handler.c xcopy_parse_target_id] *)
Definition xcopy_parse_target_id (udev : nat) (par : list Z) (tgt : nat) (index : Z) (c : xcopy)
    : option (tcmu_sts * xcopy) :=
  dev ← devs !! udev;
  gen ← xcopy_gen_naa_ieee dev;
  match gen with
  | None => Some (TCMU_STS_HW_ERR, c)
  | Some wwn =>
      d4 ← bget1 par (tgt + 4); d5 ← bget1 par (tgt + 5);
      if negb (Z.land d4 0x0f =? 0x1) then Some (TCMU_STS_INVALID_PARAM_LIST, c)
      else if negb (Z.land d5 0x30 =? 0) then Some (TCMU_STS_INVALID_PARAM_LIST, c)
      else if negb (Z.land d5 0x0f =? 0x3) then Some (TCMU_STS_INVALID_PARAM_LIST, c)
      else
        d7 ← bget1 par (tgt + 7);
        if negb (d7 =? 16) then Some (TCMU_STS_INVALID_PARAM_LIST, c)
        else
          d8 ← bget1 par (tgt + 8);
          if negb (Z.shiftr d8 4 =? 0x06) then Some (TCMU_STS_INVALID_PARAM_LIST, c)
          else
            c ← (if index =? stdi c then
                   w ← bget par (tgt + 8) 16;
                   Some (set_src c (if decide (wwn = w) then Some udev else src_dev c) w)
                 else Some c);
            c ← (if index =? dtdi c then
                   w ← bget par (tgt + 8) 16;
                   Some (set_dst c (if decide (wwn = w) then Some udev else dst_dev c) w)
                 else Some c);
            Some (TCMU_STS_OK, c)
  end.

(** The loop over the target descriptors, from the [i]-th on.
    [src tcmu-runner/tcmur_cmd_handler.c 1212-1228 xcopy_parse_target_descs] *)
Fixpoint xcopy_target_loop (n : nat) (udev : nat) (par : list Z) (tgt : nat) (i : Z) (c : xcopy)
    : option (tcmu_sts * xcopy) :=
  match n with
  | O => Some (TCMU_STS_OK, c)
  | S n =>
      code ← bget1 par tgt;
      if code =? XCOPY_TARGET_DESC_TYPE_CODE_ID then
        '(ret, c) ← xcopy_parse_target_id udev par tgt i c;
        if negb (sts_ok ret) then Some (ret, c)
        else xcopy_target_loop n udev par (tgt + 32) (i + 1) c
      else Some (TCMU_STS_NOTSUPP_TGT_DESC_TYPE, c)
  end.

(** When neither designator is that of the local device, [ret] keeps the
    [TCMU_STS_OK] of the loop.
    [src tcmu-runner/tcmur_cmd_handler.c xcopy_parse_target_descs] *)
Definition xcopy_parse_target_descs (udev : nat) (par : list Z) (c : xcopy) (tdll : Z)
    : option (tcmu_sts * xcopy) :=
  if RCR_OP_MAX_TARGET_DESC_COUNT * XCOPY_TARGET_DESC_LEN <? tdll
  then Some (TCMU_STS_INVALID_PARAM_LIST, c)
  else
    '(ret, c) ← xcopy_target_loop (Z.to_nat RCR_OP_MAX_TARGET_DESC_COUNT) udev par 16 0 c;
    if negb (sts_ok ret) then Some (ret, c)
    else match src_dev c, dst_dev c with
    | Some _, _ =>
        d ← xcopy_locate_udev devs 0 (dst_tid_wwn c);
        match d with
        | Some d => Some (TCMU_STS_OK, set_dst c (Some d) (dst_tid_wwn c))
        | None => Some (TCMU_STS_CP_TGT_DEV_NOTCONN, c)
        end
    | None, Some _ =>
        d ← xcopy_locate_udev devs 0 (src_tid_wwn c);
        match d with
        | Some d => Some (TCMU_STS_OK, set_src c (Some d) (src_tid_wwn c))
        | None => Some (TCMU_STS_CP_TGT_DEV_NOTCONN, c)
        end
    | None, None => Some (TCMU_STS_OK, c)
    end.

(** The checks that follow the target descriptors; a NULL device is
    dereferenced.
    [src tcmu-runner/tcmur_cmd_handler.c 1386-1411 xcopy_parse_parameter_list] *)
Definition xcopy_check_devices (c : xcopy) : option (tcmu_sts * xcopy) :=
  s ← src_dev c; d ← dst_dev c;
  src ← devs !! s; dst ← devs !! d;
  if negb (tcmu_get_dev_block_size src =? tcmu_get_dev_block_size dst)
  then Some (TCMU_STS_INVALID_CP_TGT_DEV_TYPE, c)
  else if tcmu_get_dev_num_lbas src <? u64 (src_lba c + xc_lba_cnt c) then Some (TCMU_STS_RANGE, c)
  else if tcmu_get_dev_num_lbas dst <? u64 (dst_lba c + xc_lba_cnt c) then Some (TCMU_STS_RANGE, c)
  else Some (TCMU_STS_OK, c).

(** The parameter list itself, [data_length] bytes; [sdll] is cut to 16 bits
    and the sum of the lengths to 32.
    [src tcmu-runner/tcmur_cmd_handler.c 1294-1417 xcopy_parse_parameter_list] *)
Definition xcopy_parse_list (udev : nat) (par : list Z) (data_length : Z) (c : xcopy)
    : option (tcmu_sts * xcopy) :=
  p0 ← bget1 par 0; p1 ← bget1 par 1;
  if negb (Z.land p1 0x18 =? 0x18) || negb (p0 =? 0) then Some (TCMU_STS_INVALID_PARAM_LIST, c)
  else
    tdll ← u16_at par 2;
    if negb (tdll mod 32 =? 0) then Some (TCMU_STS_INVALID_PARAM_LIST_LEN, c)
    else
      sd ← bget par 8 4;
      let sdll := u16 (be_dec sd) in
      if sdll <? 8 then Some (TCMU_STS_INVALID_PARAM_LIST_LEN, c)
      else if RCR_OP_MAX_DESC_LIST_LEN <? tdll + sdll then Some (TCMU_STS_INVALID_PARAM_LIST_LEN, c)
      else
        idl ← bget par 12 4;
        if data_length <? u32 (XCOPY_HDR_LEN + tdll + sdll + be_dec idl)
        then Some (TCMU_STS_INVALID_PARAM_LIST_LEN, c)
        else
          '(ret, c) ← xcopy_parse_segment_descs par (Z.to_nat (XCOPY_HDR_LEN + tdll)) c (u8 sdll);
          if negb (sts_ok ret) then Some (ret, c)
          else
            '(ret, c) ← xcopy_parse_target_descs udev par c tdll;
            if negb (sts_ok ret) then Some (ret, c) else xcopy_check_devices c.

Section commands.
Context {B : Type} {HB : Backstore B}.

(** [src tcmu-runner/tcmur_cmd_handler.c xcopy_parse_parameter_list] *)
Definition xcopy_parse_parameter_list (dev : nat) (cmd : tcmulib_cmd) (c : xcopy) (x : xst (list B))
    : option (xst (list B) * tcmu_sts * xcopy) :=
  data_length ← tcmu_get_xfer_length (cdb cmd);
  let '(ok, x) := x_try x in
  if negb ok then Some (x, TCMU_STS_NO_RESOURCE, c)
  else
    '(par, _, _) ← tcmu_memcpy_from_iovec (x_mem x) (zeros (Z.to_nat data_length)) data_length
                      (cmd_iovec cmd) (iov_cnt cmd);
    '(ret, c) ← xcopy_parse_list dev par data_length c;
    Some (x, ret, c).

(** ** The copy loop *)

(** [src tcmu-runner/tcmur_cmd_handler.c 1500-1517 xcopy_read_work_fn] *)
Definition xcopy_read_work_fn (c : xcopy) (x : xst (list B)) : option (xst (list B) * reply) :=
  i ← src_dev c; dev ← devs !! i; b ← x_bs x !! i;
  '(b, m, _, r) ← bs_read b (x_mem x) [Iov (xc_iov_base c) (xc_iov_len c)] 1 (xc_iov_len c)
                     (u64 (tcmu_get_dev_block_size dev * src_lba c));
  Some (set_mem (set_bs x (<[i := b]> (x_bs x))) m, r).

(** [src tcmu-runner/tcmur_cmd_handler.c xcopy_write_work_fn] *)
Definition xcopy_write_work_fn (c : xcopy) (x : xst (list B)) : option (xst (list B) * reply) :=
  i ← dst_dev c; dev ← devs !! i; b ← x_bs x !! i;
  '(b, _, r) ← bs_write b (x_mem x) [Iov (xc_iov_base c) (xc_iov_len c)] 1 (xc_iov_len c)
                  (u64 (tcmu_get_dev_block_size dev * dst_lba c));
  Some (set_bs x (<[i := b]> (x_bs x)), r).

(** The command is finished and the buffer freed.
    [src tcmu-runner/tcmur_cmd_handler.c 1452-1456 handle_xcopy_write_cbk] *)
Definition xcopy_finish (sense : list Z) (c : xcopy) (x : xst (list B)) (ret : tcmu_sts) : fin (list B) :=
  Fin (set_mem x (mem_free (x_mem x) (xc_iov_base c))) sense true ret.

(** [write_cbk] is the callback of the write command.
    [src tcmu-runner/tcmur_cmd_handler.c 1474-1498 handle_xcopy_read_cbk] *)
Definition handle_xcopy_read_cbk (write_cbk : xst (list B) -> tcmu_sts -> option (fin (list B)))
    (sense : list Z) (c : xcopy) (x : xst (list B)) (ret : tcmu_sts) : option (fin (list B)) :=
  if negb (sts_ok ret) then Some (xcopy_finish sense c x ret)
  else
    i ← dst_dev c; dev ← devs !! i;
    r ← async_handle_cmd dev (xcopy_write_work_fn c) write_cbk x;
    match r with
    | inl (x, ret) => Some (xcopy_finish sense c x ret)
    | inr f => Some f
    end.

(** [copy_lbas] is reduced for the last chunk, [iov_len] is not; [fuel] bounds
    the chunks.
    [src tcmu-runner/tcmur_cmd_handler.c handle_xcopy_write_cbk] *)
Fixpoint handle_xcopy_write_cbk (fuel : nat) (sense : list Z) (c : xcopy) (x : xst (list B)) (ret : tcmu_sts)
    : option (fin (list B)) :=
  if negb (sts_ok ret) then Some (xcopy_finish sense c x ret)
  else
    let lba_cnt := u32 (xc_lba_cnt c - copy_lbas c) in
    if lba_cnt =? 0 then Some (xcopy_finish sense c x ret)
    else match fuel with
    | O => None
    | S fuel =>
        let c := set_chunk c (u64 (src_lba c + copy_lbas c)) (u64 (dst_lba c + copy_lbas c)) lba_cnt
                   (Z.min lba_cnt (copy_lbas c)) in
        i ← src_dev c; dev ← devs !! i;
        r ← async_handle_cmd dev (xcopy_read_work_fn c)
              (handle_xcopy_read_cbk (handle_xcopy_write_cbk fuel sense c) sense c) x;
        match r with
        | inl (x, ret) => Some (xcopy_finish sense c x ret)
        | inr f => Some f
        end
    end.

(** What follows the parameter list.
    [src tcmu-runner/tcmur_cmd_handler.c 1558-1592 handle_xcopy] *)
Definition xcopy_start (block_size : Z) (sense : list Z) (c : xcopy) (x : xst (list B))
    : option (fin (list B)) :=
  if xc_lba_cnt c =? 0 then Some (Fin x sense false TCMU_STS_OK)
  else
    i ← src_dev c; src ← devs !! i; j ← dst_dev c; dst ← devs !! j;
    let max_sectors := Z.min (Z.min (tcmu_get_dev_max_xfer_len src) (tcmu_get_dev_max_xfer_len dst))
                         XCOPY_MAX_SECTORS in
    let n := Z.min max_sectors (xc_lba_cnt c) in
    let len := u32 (n * block_size) in
    let '(ok, x) := x_try x in
    if negb ok then Some (Fin x sense false TCMU_STS_NO_RESOURCE)
    else
      let '(m, base) := mem_new (x_mem x) (zeros (Z.to_nat len)) in
      let c := set_buffer c n base len in
      r ← async_handle_cmd src (xcopy_read_work_fn c)
            (handle_xcopy_read_cbk (handle_xcopy_write_cbk (Z.to_nat (xc_lba_cnt c)) sense c) sense c)
            (set_mem x m);
      match r with
      | inl (x, ret) => Some (Fin (set_mem x (mem_free (x_mem x) base)) sense false ret)
      | inr f => Some f
      end.

(** [dev] is the device that got the command.
    [src tcmu-runner/tcmur_cmd_handler.c handle_xcopy] *)
Definition handle_xcopy (dev : nat) (cmd : tcmulib_cmd) (x : xst (list B)) : option (fin (list B)) :=
  let ret x s := Some (Fin x (sense_buf cmd) false s) in
  data_length ← tcmu_get_xfer_length (cdb cmd);
  if data_length =? 0 then ret x TCMU_STS_OK
  else if data_length <? XCOPY_HDR_LEN then ret x TCMU_STS_INVALID_PARAM_LIST_LEN
  else
    let '(ok, x) := x_try x in
    if negb ok then ret x TCMU_STS_NO_RESOURCE
    else
      '(x, s, c) ← xcopy_parse_parameter_list dev cmd xcopy_zero x;
      if negb (sts_ok s) then ret x s
      else d ← devs !! dev; xcopy_start (tcmu_get_dev_block_size d) (sense_buf cmd) c x.
End commands.
End parse.

(** ** The copy loop *)

(** The blocks that are copied when [cnt] are asked for, in chunks of [n]. *)
Definition xcopy_total (n cnt : Z) : Z := (cnt + n - 1) / n * n.

Lemma xcopy_total_last n cnt : 0 < cnt <= n -> xcopy_total n cnt = n.
Proof.
  intros H. unfold xcopy_total. replace ((cnt + n - 1) / n) with 1; [lia|].
  apply Z.div_unique with (cnt - 1); lia.
Qed.

Lemma xcopy_total_next n cnt : 0 < n < cnt -> xcopy_total n cnt = n + xcopy_total n (cnt - n).
Proof.
  intros H. unfold xcopy_total. replace (cnt + n - 1) with ((cnt - n + n - 1) + 1 * n) by lia.
  rewrite Z.div_add by lia. lia.
Qed.

Lemma xcopy_total_bound n cnt : 0 < n -> 0 < cnt -> cnt <= xcopy_total n cnt < cnt + n.
Proof.
  intros H1 H2. unfold xcopy_total. pose proof (Z.div_mod (cnt + n - 1) n ltac:(lia)).
  pose proof (Z.mod_pos_bound (cnt + n - 1) n H1). lia.
Qed.

Lemma read_at_app data off a b :
  0 <= off -> 0 <= a -> 0 <= b -> read_at data off (a + b) = read_at data off a ++ read_at data (off + a) b.
Proof.
  intros H0 H1 H2. unfold read_at. rewrite !Z2Nat.inj_add, <- drop_drop by lia. by rewrite take_take_drop.
Qed.

Section copy.
Context {B : Type} {HB : Backstore B} {HL : BackstoreLaws B} (devs : list tcmu_device) (i j : nat).
Context (src dst : tcmu_device) (bs n : Z).
Context (Hij : i <> j) (Hi : devs !! i = Some src) (Hj : devs !! j = Some dst).
Context (Hbs : block_size src = bs) (Hbd : block_size dst = bs) (Hn : 0 < n).

(** The two backstores and the buffer between two chunks. *)
Record xc_inv (c : xcopy) (x : xst (list B)) (sb db : B) : Prop := {
  xi_src : src_dev c = Some i /\ x_bs x !! i = Some sb /\ dev_over src sb;
  xi_dst : dst_dev c = Some j /\ x_bs x !! j = Some db /\ dev_over dst db;
  xi_cnt : 0 < xc_lba_cnt c < 2 ^ 32;
  xi_n : copy_lbas c = Z.min (xc_lba_cnt c) n /\ xc_iov_len c = n * bs;
  xi_slba : 0 <= src_lba c /\ src_lba c + xcopy_total n (xc_lba_cnt c) <= num_lbas src;
  xi_dlba : 0 <= dst_lba c /\ dst_lba c + xcopy_total n (xc_lba_cnt c) <= num_lbas dst;
  xi_buf : exists g, mem_load (x_mem x) (xc_iov_base c) (n * bs) = Some g
}.

(** What the copy of [cnt] blocks leaves: the source as it was, in the
    destination what [wrote] says of the source's blocks, all other backstores
    and blocks of memory untouched. *)
Definition xc_post (sb db : B) (c : xcopy) (x x' : xst (list B)) (st : tcmu_sts) : Prop :=
  exists sb' db',
    x_bs x' !! i = Some sb' /\ x_bs x' !! j = Some db' /\ dev_over src sb' /\ dev_over dst db' /\
    bs_data sb' = bs_data sb /\
    wrote (bs_data db) (bs * dst_lba c)
      (read_at (bs_data sb) (bs * src_lba c) (xcopy_total n (xc_lba_cnt c) * bs)) (bs_data db') st /\
    (forall k, k <> i -> k <> j -> x_bs x' !! k = x_bs x !! k) /\
    (forall q k, p_blk q <> p_blk (xc_iov_base c) -> mem_load (x_mem x') q k = mem_load (x_mem x) q k).

Lemma xc_ranges c x sb db : xc_inv c x sb db ->
  let t := xcopy_total n (xc_lba_cnt c) in
  0 < bs < 2 ^ 32 /\ 0 < n * bs /\ n <= t /\ n * bs <= t * bs /\
  0 <= bs * src_lba c /\ bs * src_lba c + t * bs <= Z.of_nat (length (bs_data sb)) /\
  u64 (tcmu_get_dev_block_size src * src_lba c) = bs * src_lba c /\
  0 <= bs * dst_lba c /\ bs * dst_lba c + t * bs <= Z.of_nat (length (bs_data db)) /\
  u64 (tcmu_get_dev_block_size dst * dst_lba c) = bs * dst_lba c.
Proof.
  intros [(_ & _ & S) (_ & _ & T) Hc _ [Hs1 Hs2] [Hd1 Hd2] _] t.
  pose proof (dev_block_size_ok _ (proj1 (proj2 S))). rewrite Hbs in *.
  assert (n <= t).
  { unfold t. destruct (decide (xc_lba_cnt c <= n)); [rewrite xcopy_total_last; lia|].
    pose proof (xcopy_total_bound n (xc_lba_cnt c)). lia. }
  destruct (lba_offset src sb (src_lba c) t S) as (A1 & A2 & A3); [lia..|].
  destruct (lba_offset dst db (dst_lba c) t T) as (B1 & B2 & B3); [lia..|].
  rewrite Hbs, Hbd in *. assert (n * bs <= t * bs) by (apply Z.mul_le_mono_nonneg_r; lia).
  assert (0 < n * bs) by (apply Z.mul_pos_pos; lia). split_and!; auto; lia.
Qed.

Lemma read_len c x sb db : xc_inv c x sb db ->
  Z.of_nat (length (read_at (bs_data sb) (bs * src_lba c) (xcopy_total n (xc_lba_cnt c) * bs))) =
  xcopy_total n (xc_lba_cnt c) * bs.
Proof. intros I. destruct (xc_ranges _ _ _ _ I) as (? & ? & ? & ? & ? & ? & _). apply length_read_at; lia. Qed.

(** Nothing was written. *)
Lemma xc_post_none c x sb db sb' x' st :
  xc_inv c x sb db -> st <> TCMU_STS_OK ->
  x_bs x' !! i = Some sb' -> x_bs x' !! j = Some db -> dev_over src sb' -> bs_data sb' = bs_data sb ->
  (forall k, k <> i -> k <> j -> x_bs x' !! k = x_bs x !! k) ->
  (forall q k, p_blk q <> p_blk (xc_iov_base c) -> mem_load (x_mem x') q k = mem_load (x_mem x) q k) ->
  xc_post sb db c x x' st.
Proof.
  intros I Hst E1 E2 D1 Ed Hk Hm. pose proof (read_len _ _ _ _ I) as L.
  destruct (xc_ranges _ _ _ _ I) as (? & ? & ? & ? & ? & ? & ? & ? & ? & _).
  exists sb', db. split_and!; auto. { by destruct I as [_ (_ & _ & D) _]. }
  apply wrote_none; [lia| |done]. rewrite L. lia.
Qed.

Lemma xcopy_read_work_spec c x sb db l :
  xc_inv c x sb db ->
  exists sb' m' r,
    xcopy_read_work_fn devs c (XSt (x_bs x) (x_mem x) l (x_caw x)) =
      Some (XSt (<[i := sb']> (x_bs x)) m' l (x_caw x), r) /\
    r <> Rejected TCMU_STS_OK /\ dev_over src sb' /\ bs_data sb' = bs_data sb /\
    (exists g', mem_load m' (xc_iov_base c) (n * bs) = Some g' /\
       (r = Done TCMU_STS_OK -> g' = read_at (bs_data sb) (bs * src_lba c) (n * bs))) /\
    (forall q k, p_blk q <> p_blk (xc_iov_base c) -> mem_load m' q k = mem_load (x_mem x) q k).
Proof.
  intros I. destruct (xc_ranges _ _ _ _ I) as (? & ? & ? & ? & ? & ? & Es & _).
  destruct I as [(Es1 & Es2 & S) _ _ [_ Hlen] _ _ (g & Hg)]. pose proof S as (W & DO & L & Hsz).
  pose proof (mem_load_length _ _ _ _ Hg) as Lg.
  unfold xcopy_read_work_fn. rewrite Es1. cbn [mbind option_bind]. rewrite Hi. cbn [mbind option_bind x_bs].
  rewrite Es2. cbn [mbind option_bind x_mem]. rewrite Hlen, Es.
  assert (gather (x_mem x) [Iov (xc_iov_base c) (n * bs)] = Some g) as HG
    by (cbn; rewrite Hg; cbn; by rewrite app_nil_r).
  destruct (bs_read_law sb (x_mem x) [Iov (xc_iov_base c) (n * bs)] g (bs * src_lba c) W HG)
    as (sb' & m' & iov' & r & E & W' & Hr & Hd & (g' & Hg' & Hok) & HF); [by split; constructor|lia|lia|].
  rewrite Lg in *. change (Z.of_nat (length [Iov (xc_iov_base c) (n * bs)])) with 1 in E. rewrite E.
  cbn [mbind option_bind]. exists sb', m', r. split; [done|]. split; [done|]. split; [|split; [done|split]].
  - apply (dev_over_step src sb); auto. by rewrite Hd.
  - exists g'. split; [|done]. cbn in Hg'. destruct (mem_load m' _ _) as [a|]; [|done]. cbn in Hg'.
    by rewrite app_nil_r in Hg'.
  - intros q k Hq. apply HF. constructor; [|constructor]. left. cbn. congruence.
Qed.

Lemma xcopy_write_work_spec c x sb db l g :
  xc_inv c x sb db -> mem_load (x_mem x) (xc_iov_base c) (n * bs) = Some g ->
  exists db' r,
    xcopy_write_work_fn devs c (XSt (x_bs x) (x_mem x) l (x_caw x)) =
      Some (XSt (<[j := db']> (x_bs x)) (x_mem x) l (x_caw x), r) /\
    r <> Rejected TCMU_STS_OK /\ dev_over dst db' /\
    (forall st, r = Done st \/ r = Rejected st -> wrote (bs_data db) (bs * dst_lba c) g (bs_data db') st).
Proof.
  intros I Hg. destruct (xc_ranges _ _ _ _ I) as (? & ? & ? & ? & ? & ? & _ & ? & ? & Es).
  destruct I as [_ (Es1 & Es2 & S) _ [_ Hlen] _ _ _]. pose proof S as (W & DO & L & Hsz).
  pose proof (mem_load_length _ _ _ _ Hg) as Lg.
  unfold xcopy_write_work_fn. rewrite Es1. cbn [mbind option_bind]. rewrite Hj. cbn [mbind option_bind x_bs].
  rewrite Es2. cbn [mbind option_bind x_mem]. rewrite Hlen, Es.
  assert (gather (x_mem x) [Iov (xc_iov_base c) (n * bs)] = Some g) as HG
    by (cbn; rewrite Hg; cbn; by rewrite app_nil_r).
  destruct (bs_write_law db (x_mem x) [Iov (xc_iov_base c) (n * bs)] g (bs * dst_lba c) W HG)
    as (db' & iov' & r & w & E & W' & Hr & Lw & Hd & Hok); [repeat constructor; cbn; lia|lia|lia|].
  rewrite Lg in *. change (Z.of_nat (length [Iov (xc_iov_base c) (n * bs)])) with 1 in E. rewrite E.
  cbn [mbind option_bind]. exists db', r. split; [done|]. split; [done|]. split.
  - apply (dev_over_step dst db); auto. rewrite Hd. apply length_write_at; lia.
  - intros st Hst. exists w. split; [lia|]. split; [done|]. intros ->. destruct Hst as [->| ->]; [by apply Hok|done].
Qed.

(** The end of the command by [aio_command_finish]: the buffer is gone. *)
Definition xc_fin (sb db : B) (sense : list Z) (c : xcopy) (x : xst (list B)) (f : fin (list B)) : Prop :=
  f_async f = true /\ f_sense f = sense /\ x_mem (f_x f) !! p_blk (xc_iov_base c) = None /\
  xc_post sb db c x (f_x f) (f_sts f).

Lemma xc_fin_finish sb db sense c c' x x' st :
  xc_iov_base c' = xc_iov_base c -> xc_post sb db c x x' st -> xc_fin sb db sense c x (xcopy_finish sense c' x' st).
Proof.
  intros Ec (sb' & db' & E1 & E2 & D1 & D2 & Ed & W & Hk & Hm). split; [done|]. split; [done|]. split.
  { cbn. rewrite Ec. apply lookup_delete_eq. }
  exists sb', db'. split_and!; auto. intros q k Hq. rewrite <- Hm by done. cbn.
  unfold mem_load, mem_free. cbn. by rewrite Ec, lookup_delete_ne by done.
Qed.

(** After the read and the write of one chunk. *)
Record xc_mid (sb db sb1 db1 : B) (c : xcopy) (x x1 : xst (list B)) (st : tcmu_sts) : Prop := {
  xm_src : x_bs x1 !! i = Some sb1 /\ dev_over src sb1 /\ bs_data sb1 = bs_data sb;
  xm_dst : x_bs x1 !! j = Some db1 /\ dev_over dst db1 /\
    wrote (bs_data db) (bs * dst_lba c) (read_at (bs_data sb) (bs * src_lba c) (n * bs)) (bs_data db1) st;
  xm_rest : forall k, k <> i -> k <> j -> x_bs x1 !! k = x_bs x !! k;
  xm_mem : forall q k, p_blk q <> p_blk (xc_iov_base c) -> mem_load (x_mem x1) q k = mem_load (x_mem x) q k;
  xm_buf : exists g, mem_load (x_mem x1) (xc_iov_base c) (n * bs) = Some g
}.

(** A chunk followed by a copy of the rest, or by nothing when it failed. *)
Lemma xc_mid_end sb db sb1 db1 c x x1 st :
  xc_inv c x sb db -> xc_mid sb db sb1 db1 c x x1 st -> st <> TCMU_STS_OK \/ xc_lba_cnt c <= n ->
  xc_post sb db c x x1 st.
Proof.
  intros I [(E1 & S1 & Ed) (E2 & D2 & W) Hk Hm _] Hst. pose proof (read_len _ _ _ _ I) as L.
  destruct (xc_ranges _ _ _ _ I) as (? & ? & ? & ? & ? & ? & _ & ? & ? & _).
  exists sb1, db1. split_and!; auto. destruct (decide (xc_lba_cnt c <= n)) as [Hc|Hc].
  { pose proof (xi_cnt _ _ _ _ I). rewrite xcopy_total_last by lia. done. }
  set (t := xcopy_total n (xc_lba_cnt c)) in *.
  pose proof (length_read_at (bs_data sb) (bs * src_lba c) (n * bs)) as Ln.
  replace (t * bs) with (n * bs + (t - n) * bs) by ring.
  assert (0 <= (t - n) * bs) by lia. rewrite read_at_app by lia.
  pose proof (length_read_at (bs_data sb) (bs * src_lba c + n * bs) ((t - n) * bs)).
  apply wrote_partial; [lia|lia|done|]. destruct Hst; [done|lia].
Qed.

Lemma xc_mid_next sb db sb1 db1 c c' x x1 x' st :
  xc_inv c x sb db -> xc_mid sb db sb1 db1 c x x1 TCMU_STS_OK -> n < xc_lba_cnt c ->
  src_lba c' = src_lba c + n -> dst_lba c' = dst_lba c + n -> xc_lba_cnt c' = xc_lba_cnt c - n ->
  xc_iov_base c' = xc_iov_base c ->
  xc_post sb1 db1 c' x1 x' st -> xc_post sb db c x x' st.
Proof.
  intros I [(E1 & S1 & Ed) (E2 & D2 & W) Hk Hm _] Hc Es Edst Ec Eb (sb' & db' & F1 & F2 & G1 & G2 & Fd & W' & Hk' & Hm').
  destruct (xc_ranges _ _ _ _ I) as (? & ? & ? & ? & ? & ? & _ & ? & ? & _).
  rewrite Es, Edst, Ec, Ed, Eb in *. exists sb', db'. split_and!; auto.
  - rewrite xcopy_total_next in * by lia. set (t := xcopy_total n (xc_lba_cnt c - n)) in *.
    rewrite Z.mul_add_distr_r in *.
    pose proof (xcopy_total_bound n (xc_lba_cnt c - n) ltac:(lia) ltac:(lia)).
    assert (0 <= t * bs) by (apply Z.mul_nonneg_nonneg; lia).
    rewrite read_at_app by lia.
    pose proof (length_read_at (bs_data sb) (bs * src_lba c) (n * bs)) as L1.
    pose proof (length_read_at (bs_data sb) (bs * src_lba c + n * bs) (t * bs)) as L2.
    eapply wrote_app; [lia|lia|exact W| |done]. rewrite L1 by lia.
    replace (bs * dst_lba c + n * bs) with (bs * (dst_lba c + n)) by ring.
    replace (bs * src_lba c + n * bs) with (bs * (src_lba c + n)) by ring. done.
  - intros k K1 K2. by rewrite Hk', Hk.
  - intros q k Hq. by rewrite Hm', Hm.
Qed.

Definition xc_dispatched (fuel : nat) : Prop :=
  forall sense c x sb db, xc_inv c x sb db -> xc_lba_cnt c - 1 <= Z.of_nat fuel ->
  exists r, async_handle_cmd src (xcopy_read_work_fn devs c)
      (handle_xcopy_read_cbk devs (handle_xcopy_write_cbk devs fuel sense c) sense c) x = Some r /\
    match r with
    | inl (x', st) => st <> TCMU_STS_OK /\ xc_post sb db c x x' st
    | inr f => xc_fin sb db sense c x f
    end.

Lemma xc_write_cbk fuel sense c x x1 sb db sb1 db1 st :
  (forall fuel', (fuel' < fuel)%nat -> xc_dispatched fuel') ->
  xc_inv c x sb db -> xc_mid sb db sb1 db1 c x x1 st -> xc_lba_cnt c - 1 <= Z.of_nat fuel ->
  exists f, handle_xcopy_write_cbk devs fuel sense c x1 st = Some f /\ xc_fin sb db sense c x f.
Proof.
  intros IH I M Hfuel. destruct (xi_n _ _ _ _ I) as [En El]. pose proof (xi_cnt _ _ _ _ I) as Hc.
  assert (xc_post sb db c x x1 st -> xc_fin sb db sense c x (xcopy_finish sense c x1 st)) as Hfin
    by (by apply xc_fin_finish).
  destruct (decide (st = TCMU_STS_OK)) as [->|Hst].
  2:{ eexists. split; [|apply Hfin; eapply xc_mid_end; eauto].
      destruct fuel; cbn [handle_xcopy_write_cbk]; unfold sts_ok; by rewrite bool_decide_false. }
  destruct (decide (xc_lba_cnt c <= n)) as [Hle|Hgt].
  { eexists. split; [|apply Hfin; eapply xc_mid_end; eauto].
    destruct fuel; cbn [handle_xcopy_write_cbk]; rewrite En, Z.min_l, Z.sub_diag by lia; reflexivity. }
  destruct fuel as [|fuel]; [lia|]. cbn [handle_xcopy_write_cbk]. rewrite En, Z.min_r, u32_small by lia.
  unfold sts_ok. rewrite bool_decide_true, (proj2 (Z.eqb_neq _ 0)) by (done || lia). cbn [negb].
  assert (H := I). destruct H as [_ _ _ _ [? ?] [? ?] _]. rewrite xcopy_total_next in * by lia.
  pose proof (xcopy_total_bound n (xc_lba_cnt c - n) ltac:(lia) ltac:(lia)).
  assert (num_lbas src < 2 ^ 64 /\ num_lbas dst < 2 ^ 64) as [? ?].
  { destruct I as [(_ & _ & S) (_ & _ & T) _ _ _ _ _]. pose proof (dev_num_lbas_ok _ (proj1 (proj2 S))).
    pose proof (dev_num_lbas_ok _ (proj1 (proj2 T))). lia. }
  rewrite !u64_small by lia. set (c' := set_chunk c _ _ _ _).
  assert (src_dev c' = Some i) as -> by (by destruct I as [(? & _) _]). cbn [mbind option_bind]. rewrite Hi.
  cbn [mbind option_bind]. pose proof M as [(E1 & S1 & Ed) (E2 & D2 & W) _ _ Hb].
  destruct (IH fuel ltac:(lia) sense c' x1 sb1 db1) as (r & -> & Hr).
  { split; cbn; try lia; try done.
    - split_and!; try done. by destruct I as [(? & _) _].
    - split_and!; try done. by destruct I as [_ (? & _) _]. }
  { cbn. lia. }
  cbn [mbind option_bind].
  assert (forall x' st', xc_post sb1 db1 c' x1 x' st' -> xc_post sb db c x x' st') as Hnext
    by (intros x' st'; apply xc_mid_next; auto; lia).
  destruct r as [[x' st']|f].
  - destruct Hr as [Hst P]. eexists. split; [reflexivity|]. apply xc_fin_finish; [done|]. by apply Hnext.
  - destruct Hr as (A1 & A2 & A3 & P). eexists. split; [reflexivity|]. split_and!; auto.
Qed.

(** The callback of a read that delivered the source's blocks. *)
Lemma xc_read_cbk_ok fuel sense c x x1 sb db sb' :
  (forall fuel', (fuel' < fuel)%nat -> xc_dispatched fuel') ->
  xc_inv c x sb db -> xc_lba_cnt c - 1 <= Z.of_nat fuel -> xc_inv c x1 sb' db -> bs_data sb' = bs_data sb ->
  (forall k, k <> i -> k <> j -> x_bs x1 !! k = x_bs x !! k) ->
  (forall q k, p_blk q <> p_blk (xc_iov_base c) -> mem_load (x_mem x1) q k = mem_load (x_mem x) q k) ->
  mem_load (x_mem x1) (xc_iov_base c) (n * bs) = Some (read_at (bs_data sb) (bs * src_lba c) (n * bs)) ->
  exists f, handle_xcopy_read_cbk devs (handle_xcopy_write_cbk devs fuel sense c) sense c x1 TCMU_STS_OK = Some f /\
    xc_fin sb db sense c x f.
Proof.
  intros IH I Hfuel I1 Hd Hrest HF Hg. pose proof I1 as [(_ & Es2 & S) (Ed1 & Ed2 & D) _ _ _ _ _].
  unfold handle_xcopy_read_cbk, sts_ok. rewrite bool_decide_true by done. cbn [negb]. rewrite Ed1.
  cbn [mbind option_bind]. rewrite Hj. cbn [mbind option_bind].
  pattern (async_handle_cmd dst (xcopy_write_work_fn devs c) (handle_xcopy_write_cbk devs fuel sense c) x1).
  apply async_handle_cmd_cases.
  { intros l'. cbn. eexists. split; [reflexivity|]. apply xc_fin_finish; [done|].
    by apply (xc_post_none c x sb db sb'). }
  intros l'. destruct (xcopy_write_work_spec c x1 sb' db l' _ I1 Hg) as (db' & r & E & Hr & D' & HW).
  rewrite E. eexists _, _. split; [reflexivity|]. set (x2 := XSt (<[j := db']> (x_bs x1)) (x_mem x1) l' (x_caw x1)).
  assert (forall st, r = Done st \/ r = Rejected st -> xc_mid sb db sb' db' c x x2 st) as HM.
  { intros st Hs. split; cbn.
    - split_and!; auto. by rewrite list_lookup_insert_ne.
    - split_and!; auto. apply list_lookup_insert_eq. by eapply lookup_lt_Some.
    - intros k K1 K2. rewrite list_lookup_insert_ne by done. by apply Hrest.
    - done.
    - by eexists. }
  assert (forall st, r = Done st \/ r = Rejected st -> exists f,
    handle_xcopy_write_cbk devs fuel sense c x2 st = Some f /\ xc_fin sb db sense c x f) as Hc2
    by (intros st Hs; by eapply xc_write_cbk; eauto).
  destruct r as [s|s]; [split|].
  - cbn. eexists. split; [reflexivity|]. apply xc_fin_finish; [done|]. eapply xc_mid_end; eauto. left. congruence.
  - destruct (Hc2 s) as (f & -> & F); [by right|]. cbn. eexists. by split.
  - destruct (Hc2 s) as (f & -> & F); [by left|]. cbn. eexists. by split.
Qed.

Lemma xc_dispatch fuel : xc_dispatched fuel.
Proof.
  induction fuel as [fuel IH] using lt_wf_ind. intros sense c x sb db I Hfuel.
  pose proof I as [(Es1 & Es2 & S) (Ed1 & Ed2 & D) _ _ _ _ Hbuf].
  pattern (async_handle_cmd src (xcopy_read_work_fn devs c)
      (handle_xcopy_read_cbk devs (handle_xcopy_write_cbk devs fuel sense c) sense c) x).
  apply async_handle_cmd_cases.
  { intros l. eexists. split; [reflexivity|]. split; [done|]. by apply (xc_post_none c x sb db sb). }
  intros l. destruct (xcopy_read_work_spec c x sb db l I) as (sb' & m' & r & -> & Hr & S' & Hd & (g' & Hg' & Hok) & HF).
  eexists _, _. split; [reflexivity|]. set (x1 := XSt _ m' l _).
  assert (x_bs x1 !! i = Some sb') as F1 by (cbn; apply list_lookup_insert_eq; by eapply lookup_lt_Some).
  assert (x_bs x1 !! j = Some db) as F2 by (cbn; by rewrite list_lookup_insert_ne).
  assert (forall k, k <> i -> k <> j -> x_bs x1 !! k = x_bs x !! k) as F3
    by (intros k K _; cbn; by rewrite list_lookup_insert_ne).
  assert (xc_inv c x1 sb' db) as I1 by (destruct I; split; auto; by exists g').
  assert (forall st, st <> TCMU_STS_OK -> xc_post sb db c x x1 st) as Hnone
    by (intros st Hst; by apply (xc_post_none c x sb db sb')).
  assert (forall st, r = Done st \/ r = Rejected st -> exists f,
    handle_xcopy_read_cbk devs (handle_xcopy_write_cbk devs fuel sense c) sense c x1 st = Some f /\
    xc_fin sb db sense c x f) as Hcbk.
  { intros st Hst. destruct (decide (st = TCMU_STS_OK)) as [->|Hne].
    - destruct Hst; [|congruence]. eapply (xc_read_cbk_ok fuel sense c x x1 sb db sb'); auto. cbn.
      by rewrite Hg', (Hok ltac:(done)).
    - unfold handle_xcopy_read_cbk, sts_ok. rewrite bool_decide_false by done. eexists. split; [reflexivity|].
      apply xc_fin_finish; [done|]. by apply Hnone. }
  destruct r as [s|s]; [split|].
  - eexists. split; [reflexivity|]. assert (s <> TCMU_STS_OK) by congruence. split; [done|]. by apply Hnone.
  - destruct (Hcbk s) as (f & -> & F); [by right|]. by exists (inr f).
  - destruct (Hcbk s) as (f & -> & F); [by left|]. by exists (inr f).
Qed.
End copy.

(** ** The parameter list *)

(** The designator of EXTENDED COPY is the NAA designator that VPD page 83h
    reports ([page83_naa_spec]). *)
Lemma xcopy_gen_naa_spec dev : xcopy_gen_naa_ieee dev = Some (naa_ieee <$> dev_wwn dev).
Proof.
  unfold xcopy_gen_naa_ieee. destruct (dev_wwn dev) as [wwn|]; [|done]. cbn [fmap option_fmap option_map].
  destruct (hex_fill_spec 16 wwn [0x60; 0x01; 0x40] [] 0 12) as [H _].
  change (Z.to_nat XCOPY_NAA_IEEE_REGEX_LEN) with 16%nat.
  change ([0x60; 0x01; 0x40; 0x50] ++ zeros 12) with ([0x60; 0x01; 0x40] ++ 0x50 :: zeros 12 ++ []).
  rewrite H by (cbn; lia). cbn [mbind option_bind]. by rewrite app_nil_r.
Qed.

(** The first device with the designator, when all devices before it have
    serial numbers. *)
Lemma xcopy_locate_spec devs w : forall k0 i dev s,
  Forall (fun d => is_Some (dev_wwn d)) devs -> devs !! i = Some dev -> dev_wwn dev = Some s -> naa_ieee s = w ->
  (forall k d s', devs !! k = Some d -> dev_wwn d = Some s' -> naa_ieee s' = w -> k = i) ->
  xcopy_locate_udev devs k0 w = Some (Some (k0 + i)%nat).
Proof.
  induction devs as [|d devs IH]; intros k0 i dev s Hall Hi Hs Hw Huniq; [done|].
  apply Forall_cons in Hall as [[s0 Hs0] Hall]. cbn [xcopy_locate_udev].
  rewrite xcopy_gen_naa_spec, Hs0. cbn [fmap option_fmap option_map mbind option_bind]. case_decide as Hd.
  - specialize (Huniq 0%nat d s0 eq_refl Hs0 Hd). subst i. by rewrite Nat.add_0_r.
  - destruct i as [|i]; cbn in Hi; [congruence|].
    rewrite (IH (S k0) i dev s Hall Hi Hs Hw).
    + f_equal. f_equal. lia.
    + intros k d' s' Hk Hs' Hw'. specialize (Huniq (S k) d' s' Hk Hs' Hw'). lia.
Qed.

(** An identification descriptor for a logical unit, and the parameter list of
    a copy of [cnt] blocks from the first of two of them to the second. *)
Definition xcopy_target (w : list Z) : list Z :=
  [XCOPY_TARGET_DESC_TYPE_CODE_ID; 0; 0; 0; 1; 3; 0; 16] ++ w ++ zeros 8.
Definition xcopy_list (ws wd : list Z) (cnt slba dlba : Z) : list Z :=
  [0; 0x18] ++ be_enc 2 64 ++ zeros 4 ++ be_enc 4 28 ++ zeros 4 ++ xcopy_target ws ++ xcopy_target wd ++
  [XCOPY_SEG_DESC_TYPE_CODE_B2B; 0] ++ be_enc 2 0x18 ++ be_enc 2 0 ++ be_enc 2 1 ++ zeros 2 ++ be_enc 2 cnt ++
  be_enc 8 slba ++ be_enc 8 dlba.

(** The fields of the list, by position. *)
Definition xcopy_fields (par ws wd : list Z) (cnt slba dlba : Z) : Prop :=
  (length par = 108%nat /\ bget1 par 0 = Some 0 /\ bget1 par 1 = Some 0x18 /\ bget par 2 2 = Some (be_enc 2 64) /\
   bget par 8 4 = Some (be_enc 4 28) /\ bget par 12 4 = Some (be_enc 4 0)) /\
  ((bget1 par 16 = Some XCOPY_TARGET_DESC_TYPE_CODE_ID /\ bget1 par 20 = Some 1 /\ bget1 par 21 = Some 3 /\
    bget1 par 23 = Some 16 /\ bget1 par 24 = head ws /\ bget par 24 16 = Some ws) /\
   (bget1 par 48 = Some XCOPY_TARGET_DESC_TYPE_CODE_ID /\ bget1 par 52 = Some 1 /\ bget1 par 53 = Some 3 /\
    bget1 par 55 = Some 16 /\ bget1 par 56 = head wd /\ bget par 56 16 = Some wd)) /\
  (bget1 par 80 = Some XCOPY_SEG_DESC_TYPE_CODE_B2B /\ bget par 82 2 = Some (be_enc 2 24) /\
   bget par 84 2 = Some (be_enc 2 0) /\ bget par 86 2 = Some (be_enc 2 1) /\ bget par 90 2 = Some (be_enc 2 cnt) /\
   bget par 92 8 = Some (be_enc 8 slba) /\ bget par 100 8 = Some (be_enc 8 dlba)).

Lemma xcopy_list_fields ws wd cnt slba dlba :
  length ws = 16%nat -> length wd = 16%nat ->
  xcopy_fields (xcopy_list ws wd cnt slba dlba) ws wd cnt slba dlba.
Proof.
  intros H1 H2. do 16 (destruct ws as [|? ws]; [discriminate|]). destruct ws; [|discriminate].
  do 16 (destruct wd as [|? wd]; [discriminate|]). destruct wd; [|discriminate].
  by split_and!.
Qed.

Section fields.
Context (devs : list tcmu_device) (ss sd : list Z) (cnt slba dlba : Z).
Context (Hcnt : 0 <= cnt < 2 ^ 16) (Hslba : 0 <= slba < 2 ^ 64) (Hdlba : 0 <= dlba < 2 ^ 64).

Notation par := (xcopy_list (naa_ieee ss) (naa_ieee sd) cnt slba dlba).

Lemma par_fields : xcopy_fields par (naa_ieee ss) (naa_ieee sd) cnt slba dlba.
Proof. apply xcopy_list_fields; apply length_naa_ieee. Qed.

Lemma xcopy_list_segment c :
  xcopy_parse_segment_descs par 80 c 28 = Some (TCMU_STS_OK, set_segment c 0 1 cnt slba dlba).
Proof.
  destruct par_fields as (_ & _ & E1 & E2 & E3 & E4 & E5 & E6 & E7).
  unfold xcopy_parse_segment_descs, u16_at, u64_at. cbn [Nat.add] in *.
  rewrite E1, E2, E3, E4, E5, E6, E7. cbn [mbind option_bind]. rewrite !be_dec_enc by (cbn; lia). reflexivity.
Qed.

(** One target descriptor, at offset [tgt], with the designator of device
    [k]. *)
Lemma xcopy_list_target u ud us tgt index c w :
  devs !! u = Some ud -> dev_wwn ud = Some us ->
  bget1 par (tgt + 4) = Some 1 -> bget1 par (tgt + 5) = Some 3 -> bget1 par (tgt + 7) = Some 16 ->
  bget1 par (tgt + 8) = Some 0x60 -> bget par (tgt + 8) 16 = Some w -> stdi c = 0 -> dtdi c = 1 ->
  xcopy_parse_target_id devs u par tgt index c =
    Some (TCMU_STS_OK,
      let d := decide (naa_ieee us = w) in
      let c := if index =? 0 then set_src c (if d then Some u else src_dev c) w else c in
      if index =? 1 then set_dst c (if d then Some u else dst_dev c) w else c).
Proof.
  intros Hu Hus E4 E5 E7 E8 Ew Hst Hdt. unfold xcopy_parse_target_id. rewrite Hu. cbn [mbind option_bind].
  rewrite xcopy_gen_naa_spec, Hus, E4, E5, E7, E8, Ew. cbn [fmap option_fmap option_map mbind option_bind].
  cbn -[Z.eqb naa_ieee]. rewrite Hst. destruct (index =? 0); cbn -[Z.eqb naa_ieee]; rewrite Hdt;
    destruct (index =? 1); done.
Qed.

(** The target descriptors of the list, received by device [u]. *)
Lemma xcopy_list_loop u ud us :
  devs !! u = Some ud -> dev_wwn ud = Some us ->
  xcopy_target_loop devs 2 u par 16 0 (set_segment xcopy_zero 0 1 cnt slba dlba) =
    Some (TCMU_STS_OK,
      Xcopy (if decide (naa_ieee us = naa_ieee ss) then Some u else None) (naa_ieee ss)
            (if decide (naa_ieee us = naa_ieee sd) then Some u else None) (naa_ieee sd)
            slba dlba 0 1 cnt 0 (Ptr 0 0) 0).
Proof.
  intros U1 U2.
  destruct par_fields as (_ & ((A0 & A4 & A5 & A7 & A8 & Aw) & (B0 & B4 & B5 & B7 & B8 & Bw)) & _).
  cbn [xcopy_target_loop]. rewrite A0. cbn [mbind option_bind]. rewrite Z.eqb_refl.
  rewrite (xcopy_list_target u ud us 16 0 _ (naa_ieee ss)) by done. cbn [Z.eqb Z.add mbind option_bind].
  change (sts_ok TCMU_STS_OK) with true. cbn [negb xcopy_target_loop Nat.add]. rewrite B0. cbn [mbind option_bind].
  rewrite Z.eqb_refl, (xcopy_list_target u ud us 48 1 _ (naa_ieee sd)) by done. reflexivity.
Qed.

(** What precedes the target descriptors is in order. *)
Lemma xcopy_list_header u :
  xcopy_parse_list devs u par 108 xcopy_zero =
    '(ret, c) ← xcopy_parse_target_descs devs u par (set_segment xcopy_zero 0 1 cnt slba dlba) 64;
    if negb (sts_ok ret) then Some (ret, c) else xcopy_check_devices devs c.
Proof.
  destruct par_fields as ((_ & P0 & P1 & P2 & P8 & P12) & _).
  unfold xcopy_parse_list, u16_at. rewrite P0, P1, P2, P8, P12. cbn [mbind option_bind].
  rewrite !be_dec_enc by (cbn; lia).
  change (Z.land 24 24 =? 24) with true. change (64 mod 32 =? 0) with true. change (u16 28) with 28.
  cbn [Z.eqb negb orb]. change (28 <? 8) with false. change (RCR_OP_MAX_DESC_LIST_LEN <? 64 + 28) with false.
  change (108 <? u32 (XCOPY_HDR_LEN + 64 + 28 + 0)) with false. cbn iota.
  change (Z.to_nat (XCOPY_HDR_LEN + 64)) with 80%nat. change (u8 28) with 28.
  rewrite xcopy_list_segment. cbn [mbind option_bind]. by change (sts_ok TCMU_STS_OK) with true.
Qed.

End fields.

Section list.
Context (devs : list tcmu_device) (i j : nat) (src dst : tcmu_device) (ss sd : list Z) (cnt slba dlba : Z).
Context (Hall : Forall (fun d => is_Some (dev_wwn d)) devs).
Context (Hi : devs !! i = Some src) (Hj : devs !! j = Some dst) (Hss : dev_wwn src = Some ss) (Hsd : dev_wwn dst = Some sd).
Context (Huniq : forall k l d e s s', devs !! k = Some d -> devs !! l = Some e ->
  dev_wwn d = Some s -> dev_wwn e = Some s' -> naa_ieee s = naa_ieee s' -> k = l).
Context (Hcnt : 0 <= cnt < 2 ^ 16) (Hbs : block_size src = block_size dst).
Context (Hs : 0 <= slba /\ slba + cnt <= num_lbas src < 2 ^ 64) (Hd : 0 <= dlba /\ dlba + cnt <= num_lbas dst < 2 ^ 64).

Notation par := (xcopy_list (naa_ieee ss) (naa_ieee sd) cnt slba dlba).

(** What the parser makes of it. *)
Definition xcopy_parsed : xcopy :=
  Xcopy (Some i) (naa_ieee ss) (Some j) (naa_ieee sd) slba dlba 0 1 cnt 0 (Ptr 0 0) 0.

Lemma xcopy_locate_i : xcopy_locate_udev devs 0 (naa_ieee ss) = Some (Some i).
Proof. apply (xcopy_locate_spec devs (naa_ieee ss) 0 i src ss); auto. intros k d s' Hk Hs' E. by eapply Huniq. Qed.

Lemma xcopy_locate_j : xcopy_locate_udev devs 0 (naa_ieee sd) = Some (Some j).
Proof. apply (xcopy_locate_spec devs (naa_ieee sd) 0 j dst sd); auto. intros k d s' Hk Hs' E. by eapply Huniq. Qed.

(** They name the devices, whichever of the two receives the list. *)
Lemma xcopy_list_targets u :
  u = i \/ u = j ->
  xcopy_parse_target_descs devs u par (set_segment xcopy_zero 0 1 cnt slba dlba) 64 = Some (TCMU_STS_OK, xcopy_parsed).
Proof.
  intros Hu.
  assert (exists ud us, devs !! u = Some ud /\ dev_wwn ud = Some us /\ (u = i -> us = ss) /\ (u = j -> us = sd))
    as (ud & us & U1 & U2 & Ui & Uj).
  { destruct Hu as [->| ->]; eexists _, _; (split; [eassumption|split; [eassumption|split; congruence]]). }
  unfold xcopy_parse_target_descs. change (RCR_OP_MAX_TARGET_DESC_COUNT * XCOPY_TARGET_DESC_LEN <? 64) with false.
  change (Z.to_nat RCR_OP_MAX_TARGET_DESC_COUNT) with 2%nat. cbn iota. rewrite (xcopy_list_loop devs ss sd cnt slba dlba u ud us U1 U2).
  cbn [mbind option_bind]. change (sts_ok TCMU_STS_OK) with true. cbn [negb src_dev dst_dev dst_tid_wwn src_tid_wwn].
  destruct (decide (u = i)) as [Eu|Eu].
  - rewrite (Ui Eu), decide_True by done. rewrite xcopy_locate_j. by subst u.
  - assert (u = j) as Ej by (by destruct Hu). rewrite (Uj Ej).
    rewrite (decide_False (P := (naa_ieee sd = naa_ieee ss)))
      by (intros E; apply Eu; subst u; exact (Huniq j i dst src sd ss Hj Hi Hsd Hss E)).
    rewrite decide_True by done. rewrite xcopy_locate_i. by subst u.
Qed.

(** A well-formed list is accepted. *)
Lemma xcopy_list_parsed u :
  u = i \/ u = j -> xcopy_parse_list devs u par 108 xcopy_zero = Some (TCMU_STS_OK, xcopy_parsed).
Proof.
  intros Hu. rewrite xcopy_list_header by lia. rewrite (xcopy_list_targets u Hu). cbn [mbind option_bind].
  change (sts_ok TCMU_STS_OK) with true. cbn [negb].
  unfold xcopy_check_devices, tcmu_get_dev_num_lbas, tcmu_get_dev_block_size. cbn [src_dev dst_dev xcopy_parsed mbind option_bind].
  rewrite Hi, Hj. cbn [mbind option_bind src_lba dst_lba xc_lba_cnt xcopy_parsed].
  rewrite Hbs, Z.eqb_refl, !u64_small by lia. cbn [negb].
  by rewrite (proj2 (Z.ltb_ge (num_lbas src) _)), (proj2 (Z.ltb_ge (num_lbas dst) _)) by lia.
Qed.
End list.

(** ** What EXTENDED COPY does *)

(** A request to copy [cnt > 0] blocks from device [i] to the device [j], both
    with distinct serial numbers. *)
Record xcopy_request (devs : list tcmu_device) (i j : nat) (src dst : tcmu_device) (ss sd : list Z)
    (cnt : Z) : Prop := {
  xr_wwns : Forall (fun d => is_Some (dev_wwn d)) devs;
  xr_src : devs !! i = Some src /\ dev_wwn src = Some ss;
  xr_dst : devs !! j = Some dst /\ dev_wwn dst = Some sd;
  xr_uniq : forall k l d e s s', devs !! k = Some d -> devs !! l = Some e ->
    dev_wwn d = Some s -> dev_wwn e = Some s' -> naa_ieee s = naa_ieee s' -> k = l;
  xr_ne : i <> j;
  xr_cnt : 0 < cnt < 2 ^ 16;
  xr_bs : block_size src = block_size dst;
  xr_xfer : 0 < max_xfer_len src /\ 0 < max_xfer_len dst
}.

(** The size of a chunk. *)
Definition xcopy_chunk (src dst : tcmu_device) (cnt : Z) : Z :=
  Z.min (Z.min (Z.min (max_xfer_len src) (max_xfer_len dst)) XCOPY_MAX_SECTORS) cnt.

Section start.
Context {B : Type} {HB : Backstore B} {HL : BackstoreLaws B} (devs : list tcmu_device) (i j : nat).
Context (src dst : tcmu_device) (ss sd : list Z) (cnt slba dlba : Z).
Context (R : xcopy_request devs i j src dst ss sd cnt).

Notation n := (xcopy_chunk src dst cnt).
Notation t := (xcopy_total n cnt).

(** Everything after the parameter list. *)
Lemma xcopy_start_spec sense (x : xst (list B)) sb db :
  x_bs x !! i = Some sb -> dev_over src sb -> x_bs x !! j = Some db -> dev_over dst db ->
  n * block_size src < 2 ^ 32 -> 0 <= slba /\ slba + t <= num_lbas src -> 0 <= dlba /\ dlba + t <= num_lbas dst ->
  exists f, xcopy_start devs (block_size src) sense (xcopy_parsed i j ss sd cnt slba dlba) x = Some f /\
    exists sb' db', x_bs (f_x f) !! i = Some sb' /\ x_bs (f_x f) !! j = Some db' /\ bs_data sb' = bs_data sb /\
      wrote (bs_data db) (block_size src * dlba) (read_at (bs_data sb) (block_size src * slba) (t * block_size src))
        (bs_data db') (f_sts f) /\
      (forall k, k <> i -> k <> j -> x_bs (f_x f) !! k = x_bs x !! k) /\
      (forall q k l, mem_load (x_mem x) q k = Some l -> mem_load (x_mem (f_x f)) q k = Some l).
Proof.
  intros Esb S Edb D H32 Hs Hd. destruct R as [_ [Hi _] [Hj _] _ Hne Hcnt Hbs [Hx1 Hx2]].
  pose proof (dev_block_size_ok _ (proj1 (proj2 S))).
  assert (0 < n <= cnt) as Hn by (unfold xcopy_chunk, XCOPY_MAX_SECTORS; lia).
  pose proof (xcopy_total_bound n cnt ltac:(lia) ltac:(lia)).
  destruct (lba_offset src sb slba t S) as (_ & ? & ?); [lia..|].
  destruct (lba_offset dst db dlba t D) as (_ & Hd1 & Hd2); [lia..|]. rewrite <- Hbs in Hd1, Hd2.
  set (bs := block_size src) in *.
  assert (0 < n * bs) by (apply Z.mul_pos_pos; lia).
  unfold xcopy_start, xcopy_parsed at 1. cbn [xc_lba_cnt]. rewrite (proj2 (Z.eqb_neq cnt 0)) by lia.
  cbn [src_dev dst_dev xcopy_parsed mbind option_bind]. rewrite Hi, Hj. cbn [mbind option_bind].
  change (xc_lba_cnt (xcopy_parsed i j ss sd cnt slba dlba)) with cnt.
  change (Z.min (Z.min (Z.min (tcmu_get_dev_max_xfer_len src) (tcmu_get_dev_max_xfer_len dst)) XCOPY_MAX_SECTORS) cnt)
    with n.
  rewrite u32_small by lia. destruct (x_try_same x) as (ok & l & ->).
  assert (0 <= t * bs) by (apply Z.mul_nonneg_nonneg; lia).
  pose proof (length_read_at (bs_data sb) (bs * slba) (t * bs)) as Lr.
  destruct ok; cbn [negb].
  2:{ eexists. split; [reflexivity|]. exists sb, db. cbn. split_and!; auto. apply wrote_none; [lia|lia|done]. }
  unfold mem_new. cbn [x_mem]. set (base := Ptr (fresh_blk (x_mem x)) 0). set (m := <[fresh_blk (x_mem x) := zeros (Z.to_nat (n * bs))]> (x_mem x)).
  set (c := set_buffer (xcopy_parsed i j ss sd cnt slba dlba) n base (n * bs)).
  change (xc_lba_cnt c) with cnt.
  destruct (xc_dispatch devs i j src dst bs n Hne Hi Hj eq_refl (eq_sym Hbs) (proj1 Hn) (Z.to_nat cnt) sense c
    (set_mem (XSt (x_bs x) (x_mem x) l (x_caw x)) m) sb db) as (r & -> & Hr).
  { split; cbn; try lia; try done.
    pose proof (mem_new_same (x_mem x) (zeros (Z.to_nat (n * bs)))) as Hz.
    rewrite length_zeros, Z2Nat.id in Hz by lia. by eexists. }
  { cbn. lia. }
  cbn [mbind option_bind].
  assert (forall x' st, xc_post i j src dst bs n sb db c (set_mem (XSt (x_bs x) (x_mem x) l (x_caw x)) m) x' st ->
    (exists sb' db', x_bs x' !! i = Some sb' /\ x_bs x' !! j = Some db' /\ bs_data sb' = bs_data sb /\
      wrote (bs_data db) (bs * dlba) (read_at (bs_data sb) (bs * slba) (t * bs)) (bs_data db') st /\
      (forall k, k <> i -> k <> j -> x_bs x' !! k = x_bs x !! k)) /\
    (forall q k v, mem_load (x_mem x) q k = Some v -> mem_load (mem_free (x_mem x') base) q k = Some v /\
       mem_load (x_mem x') q k = Some v)) as Hpost.
  { intros x' st (sb' & db' & E1 & E2 & _ & _ & Ed & W & Hk & Hm). split; [by exists sb', db'|].
    intros q k v Hq. destruct (Z.eqb_spec k 0) as [->|Hk0]; [by rewrite mem_load_0 in *|].
    assert (0 < k) by (apply mem_load_nonneg in Hq; lia).
    assert (p_blk q <> p_blk base) as Hne'.
    { intros E. apply mem_load_Some in Hq as (blk & Hb & _); [|done]. rewrite E in Hb. cbn in Hb.
      by rewrite fresh_blk_spec in Hb. }
    assert (mem_load (x_mem x') q k = Some v) as Hv.
    { rewrite Hm by done. by apply (mem_new_load (x_mem x) (zeros (Z.to_nat (n * bs)))). }
    split; [|done]. rewrite <- Hv. unfold mem_load, mem_free. by rewrite lookup_delete_ne. }
  destruct r as [[x' st]|f].
  - destruct Hr as [_ P]. destruct (Hpost _ _ P) as [(sb' & db' & ?) Hm]. eexists. split; [reflexivity|].
    exists sb', db'. cbn. split_and!; try tauto. intros q k v Hq. by apply (Hm q k v).
  - destruct Hr as (_ & _ & _ & P). destruct (Hpost _ _ P) as [(sb' & db' & ?) Hm]. eexists. split; [reflexivity|].
    exists sb', db'. split_and!; try tauto. intros q k v Hq. by apply (Hm q k v).
Qed.
End start.

(** C6: EXTENDED COPY copies, but not always what it was asked to.  A parameter
    list with the designators that VPD page 83h reports for two devices, sent to
    either of them, finds both of them; over any backstores that keep their
    contract the command then terminates, changes neither the source nor any
    other device, and reports success only when the destination holds a copy of
    the source's blocks: of the [cnt] blocks asked for rounded up to a multiple
    of the chunk size, so with [cnt] not a multiple of it blocks after the
    requested range are overwritten. *)
Theorem xcopy_copies {B} {HB : Backstore B} {HL : BackstoreLaws B} (devs : list tcmu_device) (i j u : nat)
  (src dst : tcmu_device) (ss sd : list Z) (cnt slba dlba : Z) (cmd : tcmulib_cmd) (x : xst (list B)) (sb db : B)
  (R : xcopy_request devs i j src dst ss sd cnt) (Hu : u = i \/ u = j)
  (Hsb : x_bs x !! i = Some sb /\ dev_over src sb) (Hdb : x_bs x !! j = Some db /\ dev_over dst db)
  (Hg : gather (x_mem x) (cmd_iovec cmd) = Some (xcopy_list (naa_ieee ss) (naa_ieee sd) cnt slba dlba))
  (Hc : iov_cnt cmd = Z.of_nat (length (cmd_iovec cmd))) (Hxl : tcmu_get_xfer_length (cdb cmd) = Some 108)
  (H32 : xcopy_chunk src dst cnt * block_size src < 2 ^ 32)
  (Hs : 0 <= slba /\ slba + xcopy_total (xcopy_chunk src dst cnt) cnt <= num_lbas src)
  (Hd : 0 <= dlba /\ dlba + xcopy_total (xcopy_chunk src dst cnt) cnt <= num_lbas dst) :
  exists f, handle_xcopy devs u cmd x = Some f /\
    exists sb' db', x_bs (f_x f) !! i = Some sb' /\ x_bs (f_x f) !! j = Some db' /\ bs_data sb' = bs_data sb /\
      wrote (bs_data db) (block_size src * dlba)
        (read_at (bs_data sb) (block_size src * slba) (xcopy_total (xcopy_chunk src dst cnt) cnt * block_size src))
        (bs_data db') (f_sts f) /\
      (forall k, k <> i -> k <> j -> x_bs (f_x f) !! k = x_bs x !! k) /\
      (forall q k l, mem_load (x_mem x) q k = Some l -> mem_load (x_mem (f_x f)) q k = Some l).
Proof.
  set (n := xcopy_chunk src dst cnt) in *. set (t := xcopy_total n cnt) in *.
  pose proof R as [Hall [Hi Hss] [Hj Hsd] Huniq Hne Hcnt Hbs Hx].
  destruct Hsb as [Esb S], Hdb as [Edb D]. pose proof (dev_num_lbas_ok _ (proj1 (proj2 S))).
  pose proof (dev_num_lbas_ok _ (proj1 (proj2 D))). pose proof (dev_block_size_ok _ (proj1 (proj2 S))).
  assert (0 < n) by (unfold n, xcopy_chunk, XCOPY_MAX_SECTORS; lia).
  pose proof (xcopy_total_bound n cnt ltac:(lia) ltac:(lia)) as Ht. fold t in Ht.
  assert (length (xcopy_list (naa_ieee ss) (naa_ieee sd) cnt slba dlba) = 108%nat) as Lp
    by (apply xcopy_list_fields; apply length_naa_ieee).
  assert (forall l, exists f, Some (Fin (XSt (x_bs x) (x_mem x) l (x_caw x)) (sense_buf cmd) false TCMU_STS_NO_RESOURCE) =
      Some f /\ exists sb' db', x_bs (f_x f) !! i = Some sb' /\ x_bs (f_x f) !! j = Some db' /\ bs_data sb' = bs_data sb /\
      wrote (bs_data db) (block_size src * dlba) (read_at (bs_data sb) (block_size src * slba) (t * block_size src))
        (bs_data db') (f_sts f) /\
      (forall k, k <> i -> k <> j -> x_bs (f_x f) !! k = x_bs x !! k) /\
      (forall q k l, mem_load (x_mem x) q k = Some l -> mem_load (x_mem (f_x f)) q k = Some l)) as Hnores.
  { intros l. eexists. split; [reflexivity|]. exists sb, db. cbn. split_and!; auto.
    destruct (lba_offset src sb slba t S) as (_ & ? & ?); [lia..|].
    destruct (lba_offset dst db dlba t D) as (_ & Hd1 & Hd2); [lia..|]. rewrite <- Hbs in Hd1, Hd2.
    assert (0 <= t * block_size src) by (apply Z.mul_nonneg_nonneg; lia).
    pose proof (length_read_at (bs_data sb) (block_size src * slba) (t * block_size src)).
    apply wrote_none; [lia|lia|done]. }
  unfold handle_xcopy, xcopy_parse_parameter_list. rewrite Hxl. cbn [mbind option_bind].
  change (108 =? 0) with false. change (108 <? XCOPY_HDR_LEN) with false. cbn iota.
  destruct (x_try_same x) as (ok & l & ->). destruct ok; cbn [negb]; [|apply Hnores].
  destruct (x_try_same (XSt (x_bs x) (x_mem x) l (x_caw x))) as (ok & l' & ->). cbn [x_bs x_mem x_caw].
  destruct ok; cbn [negb mbind option_bind]; [|apply Hnores]. rewrite Hc.
  assert (exists iov', tcmu_memcpy_from_iovec (x_mem x) (zeros (Z.to_nat 108)) 108 (cmd_iovec cmd)
    (Z.of_nat (length (cmd_iovec cmd))) = Some (xcopy_list (naa_ieee ss) (naa_ieee sd) cnt slba dlba, iov', 108))
    as (iov' & ->).
  { pose proof (gather_whole (x_mem x) (cmd_iovec cmd) _ Hg) as H'. rewrite Lp in H'. exact H'. }
  cbn [mbind option_bind].
  rewrite (xcopy_list_parsed devs i j src dst ss sd cnt slba dlba) by (done || lia).
  cbn [mbind option_bind]. change (sts_ok TCMU_STS_OK) with true. cbn [negb].
  assert (exists d, devs !! u = Some d /\ block_size d = block_size src) as (d & -> & Ed)
    by (destruct Hu as [->| ->]; eexists; split; [exact Hi|done|exact Hj|done]).
  cbn [mbind option_bind]. unfold tcmu_get_dev_block_size. rewrite Ed.
  by apply (xcopy_start_spec devs i j src dst ss sd cnt slba dlba R (sense_buf cmd) (XSt (x_bs x) (x_mem x) l' (x_caw x))).
Qed.

Definition xcopy_devs : list tcmu_device :=
  [Dev 8 4 2 8 0 true false (str "/a") (Some (str "1")) demo_handler;
   Dev 8 4 2 8 0 true false (str "/b") (Some (str "2")) demo_handler].
Definition xcopy_demo_list : list Z := xcopy_list (naa_ieee (str "1")) (naa_ieee (str "2")) 3 0 1.
Definition xcopy_demo_cmd : tcmulib_cmd :=
  Cmd 1 ([EXTENDED_COPY; 0] ++ zeros 8 ++ be_enc 4 108 ++ [0; 0]) [Iov (Ptr 0 0) 108] 1 (zeros 96).
Definition xcopy_demo_x : xst (list file_state) :=
  XSt [File (replicate 32 7) 32; File (replicate 32 0) 32] {[ 0%nat := xcopy_demo_list ]} [] false.

Lemma xcopy_demo_request :
  xcopy_request xcopy_devs 0 1 (Dev 8 4 2 8 0 true false (str "/a") (Some (str "1")) demo_handler)
    (Dev 8 4 2 8 0 true false (str "/b") (Some (str "2")) demo_handler) (str "1") (str "2") 3.
Proof.
  split; [repeat constructor; by eexists|by split|by split| |done|done|done|done].
  intros [|[|k]] [|[|l]] d e s s' Hk Hl Hs Hs' E; try done; simplify_eq/=; by vm_compute in E.
Qed.

(** Three blocks were asked for, four are overwritten. *)
Lemma xcopy_copies_witness :
  exists f db', handle_xcopy (HB := file_backstore good_sys) xcopy_devs 0 xcopy_demo_cmd xcopy_demo_x = Some f /\
    f_sts f = TCMU_STS_OK /\ x_bs (f_x f) !! 1%nat = Some db' /\
    bs_data (Backstore := file_backstore good_sys) db' = replicate 4 0 ++ replicate 16 7 ++ replicate 12 0.
Proof.
  assert (forall l, length l = 32%nat -> forall d, num_lbas d = 8 -> block_size d = 4 -> dev_ok d ->
    dev_over (HL := good_laws) d (File l 32)) as HD.
  { intros l Hl d H1 H2 H3. unfold dev_over. rewrite H1, H2. cbn -[Z.lt Z.of_nat Z.pow Nat.le]. rewrite Hl.
    split_and!; try done. by rewrite app_nil_r, Hl. }
  destruct (xcopy_copies (HL := good_laws) xcopy_devs 0 1 0 _ _ (str "1") (str "2") 3 0 1 xcopy_demo_cmd xcopy_demo_x
    (File (replicate 32 7) 32) (File (replicate 32 0) 32) xcopy_demo_request)
    as (f & E & sb' & db' & _ & E2 & _ & (w & Lw & Hd & Hw) & _).
  - by left.
  - split; [reflexivity|]. apply HD; try done.
  - split; [reflexivity|]. apply HD; try done.
  - reflexivity.
  - reflexivity.
  - reflexivity.
  - by vm_compute.
  - by vm_compute.
  - by vm_compute.
  - assert (f_sts <$> handle_xcopy (HB := file_backstore good_sys) xcopy_devs 0 xcopy_demo_cmd xcopy_demo_x =
      Some TCMU_STS_OK) as E1 by (vm_compute; reflexivity).
    rewrite E in E1. cbn [fmap option_fmap option_map] in E1. assert (f_sts f = TCMU_STS_OK) as Hs by congruence.
    exists f, db'. split; [exact E|]. split; [exact Hs|]. split; [exact E2|].
    rewrite Hd, (Hw Hs). vm_compute. reflexivity.
Defined.

(** A copy between two other devices crashes.  The same parameter list sent
    to a device whose designator is in neither target descriptor passes the
    parser with both device pointers NULL (the status of the loop over the
    target descriptors is mistaken for that of a search that was never made),
    and the block sizes are read through them. *)
Theorem xcopy_foreign_targets_crash {B} {HB : Backstore B} (devs : list tcmu_device) (u : nat) (ud : tcmu_device)
  (us ss sd : list Z) (cnt slba dlba : Z) (cmd : tcmulib_cmd) (x : xst (list B))
  (Hu : devs !! u = Some ud /\ dev_wwn ud = Some us) (Hs : naa_ieee us <> naa_ieee ss) (Hd : naa_ieee us <> naa_ieee sd)
  (Hcnt : 0 <= cnt < 2 ^ 16) (Hsl : 0 <= slba < 2 ^ 64) (Hdl : 0 <= dlba < 2 ^ 64)
  (Hg : gather (x_mem x) (cmd_iovec cmd) = Some (xcopy_list (naa_ieee ss) (naa_ieee sd) cnt slba dlba))
  (Hc : iov_cnt cmd = Z.of_nat (length (cmd_iovec cmd))) (Hxl : tcmu_get_xfer_length (cdb cmd) = Some 108)
  (Hx : x_alloc x = []) :
  handle_xcopy devs u cmd x = None.
Proof.
  destruct Hu as [Hu Hus].
  assert (length (xcopy_list (naa_ieee ss) (naa_ieee sd) cnt slba dlba) = 108%nat) as Lp
    by (apply xcopy_list_fields; apply length_naa_ieee).
  unfold handle_xcopy, xcopy_parse_parameter_list. rewrite Hxl. cbn [mbind option_bind].
  change (108 =? 0) with false. change (108 <? XCOPY_HDR_LEN) with false. cbn iota.
  unfold x_try. rewrite Hx. cbn [negb]. rewrite Hx. cbn [negb]. rewrite Hc.
  destruct (gather_whole (x_mem x) (cmd_iovec cmd) _ Hg) as (iov' & E). rewrite Lp in E.
  change (Z.to_nat 108) with 108%nat. change (Z.of_nat 108) with 108 in E. rewrite E. cbn [mbind option_bind].
  rewrite xcopy_list_header by lia.
  unfold xcopy_parse_target_descs. change (RCR_OP_MAX_TARGET_DESC_COUNT * XCOPY_TARGET_DESC_LEN <? 64) with false.
  change (Z.to_nat RCR_OP_MAX_TARGET_DESC_COUNT) with 2%nat. cbn iota.
  rewrite (xcopy_list_loop devs ss sd cnt slba dlba u ud us Hu Hus).
  rewrite !decide_False by done. reflexivity.
Qed.

Lemma xcopy_foreign_targets_crash_witness :
  handle_xcopy (HB := file_backstore good_sys) [Dev 8 4 2 8 0 true false (str "/c") (Some (str "3")) demo_handler] 0
    xcopy_demo_cmd xcopy_demo_x = None.
Proof.
  apply (xcopy_foreign_targets_crash (HB := file_backstore good_sys) _ 0
    (Dev 8 4 2 8 0 true false (str "/c") (Some (str "3")) demo_handler) (str "3") (str "1") (str "2") 3 0 1).
  - by split.
  - intros E. by vm_compute in E.
  - intros E. by vm_compute in E.
  - lia.
  - lia.
  - lia.
  - reflexivity.
  - reflexivity.
  - reflexivity.
  - reflexivity.
Defined.
