(* ===== verification/Rdev.v ===== *)
(** * The runner's device: lock state, recovery, unit attentions

    [tcmur_device.c]: acquiring and releasing the handler's lock, closing and
    reopening a device that lost its backend, stopping it; the pending unit
    attentions of [tcmur_cmd_handler.c].  The operations are sequential
    functions of the device state and of the answers that the handler, the
    other threads and configfs will give; what they ask for is kept in a log. *)

From S2P Require Import Prelude Scsi Device Backstore.

Definition EIO : Z := 5.
Definition EBUSY : Z := 16.

(** ** State *)

(** [src tcmu-runner/tcmur_device.h 34-38 TMCUR_DEV_FAILOVER_ALL_ACTIVE] *)
Inductive failover := FAILOVER_ALL_ACTIVE | FAILOVER_IMPLICIT | FAILOVER_EXPLICIT.

(** [src tcmu-runner/tcmur_device.h 40-44 TCMUR_DEV_LOCK_UNLOCKED] *)
Inductive lock_status := UNLOCKED | LOCKED | LOCKING.

#[export] Instance failover_eq_dec : EqDecision failover.
Proof. solve_decision. Defined.
#[export] Instance lock_status_eq_dec : EqDecision lock_status.
Proof. solve_decision. Defined.

(** [flags] is a boolean per [TCMUR_DEV_FLAG_*] bit; the formatting flag and
    its progress are in [Format.format_dev].
    [src tcmu-runner/tcmur_device.h struct tcmur_device] *)
Record tcmur_device := Rdev {
  in_recovery : bool;
  is_open : bool;
  stopping : bool;
  stopped : bool;
  failover_type : failover;
  lock_state : lock_status;
  pending_uas : Z
}.

Definition set_recovery (d : tcmur_device) (b : bool) : tcmur_device :=
  Rdev b (is_open d) (stopping d) (stopped d) (failover_type d) (lock_state d) (pending_uas d).
Definition set_open (d : tcmur_device) (b : bool) : tcmur_device :=
  Rdev (in_recovery d) b (stopping d) (stopped d) (failover_type d) (lock_state d) (pending_uas d).
Definition set_stop (d : tcmur_device) (stopping stopped : bool) : tcmur_device :=
  Rdev (in_recovery d) (is_open d) stopping stopped (failover_type d) (lock_state d) (pending_uas d).
Definition set_lock (d : tcmur_device) (l : lock_status) : tcmur_device :=
  Rdev (in_recovery d) (is_open d) (stopping d) (stopped d) (failover_type d) l (pending_uas d).
Definition set_uas (d : tcmur_device) (u : Z) : tcmur_device :=
  Rdev (in_recovery d) (is_open d) (stopping d) (stopped d) (failover_type d) (lock_state d) u.

(** What the device asks its surroundings for: handler callouts, and blocking
    and flushing the kernel device ([configfs.c]). *)
Inductive event :=
| EvBlock | EvUnblock | EvFlush
| EvLock (tag : Z) (s : tcmu_sts) | EvUnlock | EvGetTag (s : tcmu_sts)
| EvOpen (ret : Z) | EvClose.

#[export] Instance event_eq_dec : EqDecision event.
Proof. solve_decision. Defined.

(** The answers to come; once a list is used up calls succeed.
    [a_wait]: results of [aio_wait_for_empty_queue]; [a_recov]: of
    [tcmu_add_dev_to_recovery_list]; [a_thread]: the state in which a lock
    thread that is waited for leaves the device. *)
Record answers := Answers {
  a_wait : list Z;
  a_lock : list tcmu_sts;
  a_tag : list (tcmu_sts * Z);
  a_open : list Z;
  a_recov : list Z;
  a_thread : lock_status
}.

Record dst := DSt { d_rdev : tcmur_device; d_ans : answers; d_log : list event }.

Definition upd (s : dst) (f : tcmur_device -> tcmur_device) : dst := DSt (f (d_rdev s)) (d_ans s) (d_log s).
Definition logged (s : dst) (e : event) : dst := DSt (d_rdev s) (d_ans s) (d_log s ++ [e]).

Definition next_wait (s : dst) : Z * dst :=
  let a := d_ans s in
  (default 0 (head (a_wait a)),
   DSt (d_rdev s) (Answers (tail (a_wait a)) (a_lock a) (a_tag a) (a_open a) (a_recov a) (a_thread a)) (d_log s)).
Definition next_recov (s : dst) : Z * dst :=
  let a := d_ans s in
  (default 0 (head (a_recov a)),
   DSt (d_rdev s) (Answers (a_wait a) (a_lock a) (a_tag a) (a_open a) (tail (a_recov a)) (a_thread a)) (d_log s)).
Definition next_lock (tag : Z) (s : dst) : tcmu_sts * dst :=
  let a := d_ans s in
  let r := default TCMU_STS_OK (head (a_lock a)) in
  (r, DSt (d_rdev s) (Answers (a_wait a) (tail (a_lock a)) (a_tag a) (a_open a) (a_recov a) (a_thread a))
        (d_log s ++ [EvLock tag r])).
Definition next_tag (s : dst) : (tcmu_sts * Z) * dst :=
  let a := d_ans s in
  let r := default (TCMU_STS_OK, 0) (head (a_tag a)) in
  (r, DSt (d_rdev s) (Answers (a_wait a) (a_lock a) (tail (a_tag a)) (a_open a) (a_recov a) (a_thread a))
        (d_log s ++ [EvGetTag r.1])).

(** ** Recovery *)

(** [src tcmu-runner/tcmur_device.c tcmu_dev_in_recovery] *)
Definition tcmu_dev_in_recovery (d : tcmur_device) : bool := in_recovery d.

(** Waits for the lock thread, which leaves [a_thread].
    [src tcmu-runner/tcmur_device.c tcmu_cancel_lock_thread] *)
Definition tcmu_cancel_lock_thread (s : dst) : dst :=
  if decide (lock_state (d_rdev s) = LOCKING) then upd s (fun d => set_lock d (a_thread (d_ans s))) else s.

(** The attempts to open the device, by the answers of the handler; the
    number of those used and the result.
    [src tcmu-runner/tcmur_device.c 89-106 __tcmu_reopen_dev] *)
Fixpoint open_loop (ans : list Z) (stopping : bool) (attempt retries : Z) (ret : Z)
    : list event * list Z * Z :=
  if (ret =? 0) || stopping || negb ((retries <? 0) || (attempt <=? retries)) then ([], ans, ret)
  else match ans with
       | [] => ([EvOpen 0], [], 0)
       | r :: ans =>
           let '(evs, ans, ret) := open_loop ans stopping (attempt + 1) retries r in
           (EvOpen r :: evs, ans, ret)
       end.

(** [src tcmu-runner/tcmur_device.c __tcmu_reopen_dev] *)
Definition __tcmu_reopen_dev (in_lock_thread : bool) (retries : Z) (s : dst) : Z * dst :=
  let '(ret, s) := next_wait s in
  let finish ret s := (ret, upd s (fun d => set_recovery d false)) in
  if negb (ret =? 0) then finish ret s
  else if stopping (d_rdev s) then finish 0 s
  else
    let s := if in_lock_thread then s else tcmu_cancel_lock_thread s in
    let s := if decide (lock_state (d_rdev s) = LOCKING) then s else upd s (fun d => set_lock d UNLOCKED) in
    let s := upd (logged s EvClose) (fun d => set_open d false) in
    let a := d_ans s in
    let '(evs, ans, ret) := open_loop (a_open a) (stopping (d_rdev s)) 0 retries (- EIO) in
    let s := DSt (set_open (d_rdev s) (ret =? 0))
               (Answers (a_wait a) (a_lock a) (a_tag a) ans (a_recov a) (a_thread a)) (d_log s ++ evs) in
    finish ret s.

(** [src tcmu-runner/tcmur_device.c tcmu_reopen_dev] *)
Definition tcmu_reopen_dev (in_lock_thread : bool) (retries : Z) (s : dst) : Z * dst :=
  if in_recovery (d_rdev s) then (- EBUSY, s)
  else __tcmu_reopen_dev in_lock_thread retries (upd s (fun d => set_recovery d true)).

(** [src tcmu-runner/tcmur_device.c tcmu_notify_conn_lost] *)
Definition tcmu_notify_conn_lost (s : dst) : dst :=
  if stopping (d_rdev s) || in_recovery (d_rdev s) then s
  else
    let '(r, s) := next_recov s in
    if r =? 0 then upd s (fun d => set_recovery d true) else s.

(** ** The lock *)

(** [src tcmu-runner/tcmur_device.c tcmu_notify_lock_lost] *)
Definition tcmu_notify_lock_lost (s : dst) : dst :=
  if decide (lock_state (d_rdev s) = LOCKING) then s else upd s (fun d => set_lock d UNLOCKED).

(** [src tcmu-runner/tcmur_device.c tcmu_release_dev_lock] *)
Definition tcmu_release_dev_lock (s : dst) : dst :=
  if decide (lock_state (d_rdev s) = LOCKED)
  then upd (logged s EvUnlock) (fun d => set_lock d UNLOCKED) else s.

(** [tries] is how often the call may still be repeated.
    [src tcmu-runner/tcmur_device.c 358-380 tcmu_acquire_dev_lock] *)
Fixpoint lock_loop (tries : nat) (tag : Z) (s : dst) : tcmu_sts * dst :=
  let '(ret, s) := next_lock tag s in
  match ret with
  | TCMU_STS_FENCED =>
      match tries with
      | S tries =>
          let '(r, s) := tcmu_reopen_dev true 0 s in
          if r =? 0 then lock_loop tries tag s else (ret, tcmu_notify_conn_lost s)
      | O => (ret, tcmu_notify_conn_lost s)
      end
  | TCMU_STS_TIMEOUT => (ret, tcmu_notify_conn_lost s)
  | _ => (ret, s)
  end.

(** When the queue cannot be flushed [ret] is still [TCMU_STS_OK].
    [src tcmu-runner/tcmur_device.c tcmu_acquire_dev_lock] *)
Definition tcmu_acquire_dev_lock (is_sync : bool) (tag : Z) (s : dst) : tcmu_sts * dst :=
  let s := logged s EvBlock in
  let '(w, s) := next_wait s in
  let '(ret, s) :=
    if negb (w =? 0) then (TCMU_STS_OK, s)
    else lock_loop 1 tag (if is_sync then s else logged s EvFlush) in
  let s := upd s (fun d => set_lock d (if sts_ok ret then LOCKED else UNLOCKED)) in
  (ret, logged s EvUnblock).

(** [src tcmu-runner/tcmur_device.c 277-324 tcmu_get_lock_tag] *)
Fixpoint get_tag_loop (tries : nat) (s : dst) : (tcmu_sts * Z) * dst :=
  let '((ret, tag), s) := next_tag s in
  match ret with
  | TCMU_STS_OK | TCMU_STS_NO_LOCK_HOLDERS => ((ret, tag), s)
  | TCMU_STS_FENCED =>
      let '(r, s) := tcmu_reopen_dev false 0 s in
      match tries with
      | S tries => if r =? 0 then get_tag_loop tries s else ((TCMU_STS_BUSY, tag), tcmu_notify_conn_lost s)
      | O => ((TCMU_STS_BUSY, tag), tcmu_notify_conn_lost s)
      end
  | _ => ((TCMU_STS_BUSY, tag), tcmu_notify_conn_lost s)
  end.

(** [tag0]: the caller's value, kept when the handler is not asked.
    [src tcmu-runner/tcmur_device.c tcmu_get_lock_tag] *)
Definition tcmu_get_lock_tag (tag0 : Z) (s : dst) : (tcmu_sts * Z) * dst :=
  if decide (failover_type (d_rdev s) = FAILOVER_EXPLICIT) then get_tag_loop 1 s else ((TCMU_STS_OK, tag0), s).

(** ** Stopping *)

(** [tcmu_cancel_recovery] waits until the recovery thread is done.
    [src tcmu-runner/main.c tcmur_stop_device] *)
Definition tcmur_stop_device (s : dst) : dst :=
  if stopped (d_rdev s) then s
  else
    let s := upd s (fun d => set_stop d true (stopped d)) in
    let s := tcmu_cancel_lock_thread s in
    let s := upd s (fun d => set_recovery d false) in
    let open := is_open (d_rdev s) in
    let s := if open then upd s (fun d => set_open d false) else s in
    let s := if open then logged (tcmu_release_dev_lock s) EvClose else s in
    upd s (fun d => set_stop d (stopping d) true).

(** ** Unit attentions *)

(** [src tcmu-runner/tcmur_cmd_handler.c tcmur_set_pending_ua] *)
Definition tcmur_set_pending_ua (d : tcmur_device) (ua : Z) : tcmur_device :=
  set_uas d (Z.lor (pending_uas d) (Z.shiftl 1 ua)).

(** ** The lock and the handler *)

(** A log entry that neither blocks nor unblocks the device. *)
Definition quiet (e : event) : Prop := e <> EvBlock /\ e <> EvUnblock.

(** [s'] comes after [s] without blocking or unblocking. *)
Definition after (s s' : dst) : Prop := exists l, d_log s' = d_log s ++ l /\ Forall quiet l.

Lemma after_refl s : after s s.
Proof. exists []. split; [by rewrite app_nil_r|constructor]. Qed.

Lemma after_trans s t u : after s t -> after t u -> after s u.
Proof. intros (l & E & H) (l' & E' & H'). exists (l ++ l'). rewrite E', E, <- app_assoc. split; [done|]. by apply Forall_app. Qed.

Lemma after_same s s' : d_log s' = d_log s -> after s s'.
Proof. intros E. exists []. rewrite E, app_nil_r. by split. Qed.

Lemma open_loop_quiet ans : forall st at_ rt ret, Forall quiet (open_loop ans st at_ rt ret).1.1.
Proof.
  induction ans as [|r ans IH]; intros st at_ rt ret; cbn [open_loop]; case_if; try constructor; try done.
  specialize (IH st (at_ + 1) rt r). destruct (open_loop ans st (at_ + 1) rt r) as [[evs a'] x]. by constructor.
Qed.

Lemma reopen_after il rt s : after s (__tcmu_reopen_dev il rt s).2.
Proof.
  unfold __tcmu_reopen_dev, next_wait. destruct (negb _); [by apply after_same|].
  destruct (stopping _); [by apply after_same|].
  set (s1 := if il then _ else _).
  assert (d_log s1 = d_log s) as E1 by (unfold s1, tcmu_cancel_lock_thread; destruct il; [done|]; by case_decide).
  set (s2 := if decide _ then s1 else _). assert (d_log s2 = d_log s) as E2 by (unfold s2; case_decide; exact E1).
  cbn [d_rdev d_ans upd logged].
  pose proof (open_loop_quiet (a_open (d_ans s2)) (stopping (set_open (d_rdev s2) false)) 0 rt (- EIO)) as H.
  destruct (open_loop _ _ _ _ _) as [[evs a'] x]. cbn in *. exists (EvClose :: evs). rewrite E2, <- app_assoc.
  split; [done|]. by constructor.
Qed.

Lemma tcmu_reopen_after il rt s : after s (tcmu_reopen_dev il rt s).2.
Proof.
  unfold tcmu_reopen_dev. case_if; [apply after_refl|].
  eapply after_trans; [|apply reopen_after]. by apply after_same.
Qed.

Lemma conn_lost_after s : after s (tcmu_notify_conn_lost s).
Proof. unfold tcmu_notify_conn_lost, next_recov. case_if; [apply after_refl|]. case_if; by apply after_same. Qed.

(** A lock call that succeeds is the last thing that happens. *)
Lemma lock_loop_spec tries tag : forall s,
  after s (lock_loop tries tag s).2 /\
  ((lock_loop tries tag s).1 = TCMU_STS_OK -> last (d_log (lock_loop tries tag s).2) = Some (EvLock tag TCMU_STS_OK)).
Proof.
  assert (forall r, quiet (EvLock tag r)) as Q by done.
  induction tries as [|tries IH]; intros s; cbn [lock_loop]; unfold next_lock;
    set (r := default TCMU_STS_OK _); set (s1 := DSt _ _ _);
    assert (after s s1) as A1 by (eexists; split; [reflexivity|by constructor]).
  - assert (d_log s1 = d_log s ++ [EvLock tag r]) as El by done. clearbody s1.
    destruct r; cbn [fst snd]; (split; [|try done]); try done;
      try (eapply after_trans; [exact A1|apply conn_lost_after]). intros _. by rewrite El, last_snoc.
  - assert (d_log s1 = d_log s ++ [EvLock tag r]) as El by done. clearbody s1.
    destruct r; cbn [fst snd]; try ((split; [|try done]); try done;
      try (eapply after_trans; [exact A1|apply conn_lost_after]); intros _; by rewrite El, last_snoc).
    pose proof (tcmu_reopen_after true 0 s1) as A2. destruct (tcmu_reopen_dev true 0 s1) as [x s2]. cbn [snd] in A2.
    case_if.
    + destruct (IH s2) as [A3 H3]. split; [|exact H3]. eapply after_trans; [exact A1|]. by eapply after_trans.
    + split; [|done]. eapply after_trans; [exact A1|]. eapply after_trans; [exact A2|apply conn_lost_after].
Qed.

(** The device is left locked or unlocked. *)
Lemma acquire_lock_state is_sync tag s :
  lock_state (d_rdev (tcmu_acquire_dev_lock is_sync tag s).2) =
    (if sts_ok (tcmu_acquire_dev_lock is_sync tag s).1 then LOCKED else UNLOCKED).
Proof.
  unfold tcmu_acquire_dev_lock. destruct (next_wait _) as [w s1].
  destruct (negb (w =? 0)); [done|]. by destruct (lock_loop _ _ _).
Qed.

(** C32: taking the lock.  Whatever the handler, the recovery and the waits
    answer: acquiring the lock ends; the device is unblocked exactly once after
    it was blocked; afterwards it is marked as locked if and only if the call
    reports success, and never left in the transitional state.  Success means
    that the last thing that happened was a successful lock call of the handler,
    unless the outstanding commands could not be waited for: then success is
    reported and the device marked as locked without the handler being asked. *)
Theorem lock_acquisition (is_sync : bool) (tag : Z) (s : dst) :
  let ret := (tcmu_acquire_dev_lock is_sync tag s).1 in
  let s' := (tcmu_acquire_dev_lock is_sync tag s).2 in
  lock_state (d_rdev s') = (if sts_ok ret then LOCKED else UNLOCKED) /\
  exists mid, d_log s' = d_log s ++ [EvBlock] ++ mid ++ [EvUnblock] /\ Forall quiet mid /\
    (ret = TCMU_STS_OK ->
     if default 0 (head (a_wait (d_ans s))) =? 0 then last mid = Some (EvLock tag TCMU_STS_OK) else mid = []).
Proof.
  unfold tcmu_acquire_dev_lock, next_wait. cbn [d_ans logged d_rdev d_log].
  destruct (Z.eqb_spec (default 0 (head (a_wait (d_ans s)))) 0) as [E|E]; cbn [negb].
  - set (s1 := if is_sync then _ else _). destruct (lock_loop_spec 1 tag s1) as [(l & El & Ql) Hl].
    assert (exists fl, d_log s1 = d_log s ++ [EvBlock] ++ fl /\ Forall quiet fl) as (fl & Es & Qf).
    { unfold s1. destruct is_sync; cbn.
      - exists []. by split.
      - exists [EvFlush]. rewrite <- app_assoc. split; [done|]. by repeat constructor. }
    destruct (lock_loop 1 tag s1) as [ret s2]. cbn [fst snd] in *. cbn [upd logged d_rdev d_log]. split; [done|].
    exists (fl ++ l). rewrite El, Es, <- !app_assoc. split; [done|]. split; [by apply Forall_app|].
    intros Hr. specialize (Hl Hr). rewrite El, Es, <- app_assoc in Hl.
    rewrite last_app in Hl. cbn [app] in Hl. rewrite last_cons in Hl.
    destruct (last (fl ++ l)); [exact Hl|discriminate].
  - cbn [fst snd upd logged d_rdev d_log]. split; [done|]. exists []. by rewrite <- app_assoc.
Qed.

(** A device that could not be reopened is closed again.  When the handler
    fences the lock call and the device, once closed, cannot be opened, it is
    handed to the recovery thread, which closes it a second time although it is
    not open. *)
Theorem reopen_closes_twice (tag r : Z) (s : dst)
  (Hr : r <> 0) (Hst : stopping (d_rdev s) = false) (Hrec : in_recovery (d_rdev s) = false)
  (Hans : exists l, d_ans s = Answers [] [TCMU_STS_FENCED] [] [r] [] l) :
  let s1 := (tcmu_acquire_dev_lock false tag s).2 in
  let s2 := (__tcmu_reopen_dev false (-1) s1).2 in
  in_recovery (d_rdev s1) = true /\ is_open (d_rdev s1) = false /\
  d_log s2 = d_log s ++
    [EvBlock; EvFlush; EvLock tag TCMU_STS_FENCED; EvClose; EvOpen r; EvUnblock; EvClose; EvOpen 0].
Proof.
  destruct Hans as [l Hans]. destruct s as [[rec op st sp ft lk ua] a lg]. cbn in Hans, Hst, Hrec. subst a st rec.
  intros s1. assert (s1 = DSt (Rdev true false false sp ft UNLOCKED ua) (Answers [] [] [] [] [] l)
    ((((((lg ++ [EvBlock]) ++ [EvFlush]) ++ [EvLock tag TCMU_STS_FENCED]) ++ [EvClose]) ++ [EvOpen r]) ++ [EvUnblock]))
    as Es1.
  { destruct r as [|p|p]; [done| |]; destruct lk; reflexivity. }
  intros s2. assert (s2 = DSt (Rdev false true false sp ft UNLOCKED ua) (Answers [] [] [] [] [] l)
    ((d_log s1 ++ [EvClose]) ++ [EvOpen 0])) as Es2.
  { unfold s2. rewrite Es1. reflexivity. }
  rewrite Es2, Es1. cbn [d_rdev d_log in_recovery is_open]. by rewrite <- !app_assoc.
Qed.

Lemma reopen_closes_twice_witness :
  let s := DSt (Rdev false true false false FAILOVER_EXPLICIT LOCKING 0)
             (Answers [] [TCMU_STS_FENCED] [] [- EIO] [] UNLOCKED) [] in
  d_log (__tcmu_reopen_dev false (-1) (tcmu_acquire_dev_lock false 7 s).2).2 =
    [EvBlock; EvFlush; EvLock 7 TCMU_STS_FENCED; EvClose; EvOpen (- EIO); EvUnblock; EvClose; EvOpen 0].
Proof. apply (reopen_closes_twice 7 (- EIO)); try done. by eexists. Defined.
