(* ===== verification/Configfs.v ===== *)
(** * Attributes of the kernel in configfs

    The readers and writers of [configfs.c]: integers, strings, the unit serial
    number, the size of the device.  The kernel is a parameter: what its files
    contain and what a write does. *)

From S2P Require Import Prelude Scsi Device.

Definition CFGFS_BUF_SIZE : Z := 4096.
Definition INT_MAX : Z := 2147483647.
Definition PATH_MAX : nat := 4096.

Definition CFGFS_ROOT : list Z := str "/sys/kernel/config/target".
Definition CFGFS_CORE : list Z := CFGFS_ROOT ++ str "/core".

(** The kernel's side of configfs: the contents of a file (or [errno]), the
    effect of a write ([errno] when it fails), whether a file exists, and the
    names in a directory in alphabetical order ([None] when it cannot be
    scanned). *)
Class Kernel (K : Type) := {
  k_read : K -> list Z -> Z + list Z;
  k_write : K -> list Z -> list Z -> K * option Z;
  k_exists : K -> list Z -> bool;
  k_scandir : K -> list Z -> option (list (list Z))
}.

(** The fields that name the device in configfs.
    [src tcmu-runner/libtcmu_priv.h 68-69 struct tcmu_device] *)
Record dev_names := DevNames { tcm_hba_name : list Z; tcm_dev_name : list Z }.

(** [snprintf] into a path buffer. *)
Definition path (s : list Z) : list Z := take (PATH_MAX - 1) s.

Definition dev_path (nm : dev_names) (rest : list Z) : list Z :=
  path (CFGFS_CORE ++ str "/" ++ tcm_hba_name nm ++ str "/" ++ tcm_dev_name nm ++ str "/" ++ rest).

(** ** Numbers as text *)

(** [%lu], for values below 2^64. *)
Fixpoint dec_loop (fuel : nat) (n : Z) (acc : list Z) : list Z :=
  match fuel with
  | O => acc
  | S fuel => if n <? 10 then (48 + n) :: acc else dec_loop fuel (n / 10) ((48 + n mod 10) :: acc)
  end.
Definition dec (n : Z) : list Z := dec_loop 20 n [].

(** [strtoul(s, NULL, 0)] on a buffer without a terminating NUL: [None] when
    it reads past the bytes of the buffer. *)
Fixpoint radix_val (base acc : Z) (s : list Z) : option Z :=
  match s with
  | [] => None
  | c :: s =>
      match char_to_hex c with
      | Some d => if d <? base then radix_val base (acc * base + d) s else Some acc
      | None => Some acc
      end
  end.

Definition radix_prefix (s : list Z) : option Z :=
  match s with
  | [] => None
  | c :: t =>
      if negb (c =? 48) then radix_val 10 0 s
      else match t with
           | [] => None
           | x :: h =>
               if (x =? 120) || (x =? 88) then
                 match h with
                 | [] => None
                 | d :: _ => match char_to_hex d with Some _ => radix_val 16 0 h | None => Some 0 end
                 end
               else radix_val 8 0 t
           end
  end.

Definition strtoul0 (s : list Z) : option Z :=
  match skip_space s with
  | [] => None
  | c :: t =>
      let '(neg, s) := if c =? 45 then (true, t) else if c =? 43 then (false, t) else (false, c :: t) in
      v ← radix_prefix s;
      Some (if u64 (-1) <? v then u64 (-1) else if neg : bool then u64 (- v) else v)
  end.

(** ** C strings in buffers *)

Definition strlen (buf : list Z) : option nat := fst <$> list_find (fun c => c = 0) buf.
Definition cstring (buf : list Z) : option (list Z) := n ← strlen buf; Some (take n buf).

(** [strstr], from the found place on. *)
Fixpoint strstr (pat s : list Z) : option (list Z) :=
  if starts_with pat s then Some s else match s with [] => None | _ :: s => strstr pat s end.

(** The fields that [strsep(&s, delim)] returns one after the other. *)
Fixpoint fields (delim : Z) (cur s : list Z) : list (list Z) :=
  match s with
  | [] => [cur]
  | c :: s => if c =? delim then cur :: fields delim [] s else fields delim (cur ++ [c]) s
  end.

(** The do-while loop over the NULs inside the contents. *)
Fixpoint nul_to_newline (fuel : nat) (ret : nat) (buf : list Z) : option (list Z) :=
  match fuel with
  | O => None
  | S fuel =>
      n ← strlen buf;
      buf ← bset1 buf n 10;
      if decide (n < ret)%nat then nul_to_newline fuel ret buf else Some buf
  end.

(** ** The readers and writers *)

Section kernel.
Context {K : Type} {HK : Kernel K}.

(** Only the first 16 bytes are read; there is no terminating NUL.
    [src tcmu-runner/configfs.c tcmu_get_cfgfs_int] *)
Definition tcmu_get_cfgfs_int (k : K) (p : list Z) : option Z :=
  match k_read k p with
  | inl errno => Some (- errno)
  | inr content =>
      v ← strtoul0 (take 16 content);
      Some (if INT_MAX <? v then - EINVAL else v)
  end.

(** [src tcmu-runner/configfs.c tcmu_get_attribute] *)
Definition tcmu_get_attribute (k : K) (nm : dev_names) (name : list Z) : option Z :=
  tcmu_get_cfgfs_int k (dev_path nm (str "attrib/" ++ name)).

(** [val] with its terminating NUL.
    [src tcmu-runner/configfs.c tcmu_set_cfgfs_str] *)
Definition tcmu_set_cfgfs_str (k : K) (p val : list Z) : K * Z :=
  let '(k, r) := k_write k p val in (k, match r with Some errno => - errno | None => 0 end).

(** [None]: the text overruns [char buf[20]].
    [src tcmu-runner/configfs.c tcmu_set_cfgfs_ul] *)
Definition tcmu_set_cfgfs_ul (k : K) (p : list Z) (val : Z) : option (K * Z) :=
  let s := dec (u64 val) in
  if decide (length s + 1 <= 20)%nat then Some (tcmu_set_cfgfs_str k p (s ++ [0])) else None.

(** [src tcmu-runner/configfs.c tcmu_set_control] *)
Definition tcmu_set_control (k : K) (nm : dev_names) (key : list Z) (val : Z) : K * Z :=
  tcmu_set_cfgfs_str k (dev_path nm (str "control"))
    (take 4095 (key ++ str "=" ++ dec (u64 val)) ++ [0]).

(** The serial number starts after the 28 bytes of its title.
    [src tcmu-runner/configfs.c tcmu_get_wwn] *)
Definition tcmu_get_wwn (k : K) (nm : dev_names) : option (option (list Z)) :=
  match k_read k (dev_path nm (str "wwn/vpd_unit_serial")) with
  | inl _ => Some None
  | inr content =>
      let buf := take 4096 content in
      buf ← bset1 buf (pred (length buf)) 0;
      s ← cstring (drop 28 buf);
      Some (Some s)
  end.

(** [src tcmu-runner/configfs.c tcmu_set_dev_size] *)
Definition tcmu_set_dev_size (k : K) (nm : dev_names) (dev : tcmu_device) : K * Z :=
  tcmu_set_control k nm (str "dev_size") (u64 (tcmu_get_dev_num_lbas dev * tcmu_get_dev_block_size dev)).

Definition dev_size_of (s : list Z) : option Z :=
  v ← strtoul0 s; Some (if v =? u64 (-1) then - EINVAL else s64 v).

(** The bytes after the contents are indeterminate, except the last.
    [src tcmu-runner/configfs.c tcmu_get_dev_size] *)
Definition tcmu_get_dev_size (k : K) (nm : dev_names) : option Z :=
  match k_read k (dev_path nm (str "info")) with
  | inl _ => Some (- EINVAL)
  | inr content =>
      let buf := if decide (length content < 4096)%nat then content else take 4095 content ++ [0] in
      match cstring buf with
      | Some text =>
          match strstr (str " Size: ") text with
          | None => Some (- EINVAL)
          | Some rover => dev_size_of (drop 7 rover ++ [0])
          end
      | None => rover ← strstr (str " Size: ") buf; dev_size_of (drop 7 rover)
      end
  end.

(** [None] is undefined behaviour, [Some None] a NULL result.
    [src tcmu-runner/configfs.c tcmu_get_cfgfs_str] *)
Definition tcmu_get_cfgfs_str (k : K) (p : list Z) : option (option (list Z)) :=
  match k_read k p with
  | inl _ => Some None
  | inr content =>
      let ret := Nat.min (length content) 4096 in
      if decide (ret = 0)%nat then Some None
      else
        let buf := take ret content ++ zeros (4096 - ret) in
        n ← strlen buf;
        buf ← (if decide (ret = n) then Some buf else nul_to_newline (S ret) ret buf);
        c ← bget1 buf (pred ret);
        buf ← (if c =? 10 then bset1 buf (pred ret) 0 else Some buf);
        c ← bget1 buf (pred ret);
        if negb (c =? 0) && bool_decide (4096 <= ret)%nat then Some None
        else
          buf ← (if negb (c =? 0) then bset1 buf ret 0 else Some buf);
          s ← cstring buf;
          Some (Some s)
  end.

(** [src tcmu-runner/configfs.c tcmu_cfgfs_file_is_supported] *)
Definition tcmu_cfgfs_file_is_supported (k : K) (nm : dev_names) (name : list Z) : bool :=
  k_exists k (dev_path nm name).

(** [src tcmu-runner/configfs.c tcmu_exec_cfgfs_dev_action] *)
Definition tcmu_exec_cfgfs_dev_action (k : K) (nm : dev_names) (name : list Z) (val : Z) : option (K * Z) :=
  tcmu_set_cfgfs_ul k (dev_path nm (str "action/" ++ name)) val.
End kernel.

(** ** Numbers come back *)

Lemma dec_loop_app f : forall n acc t, dec_loop f n acc ++ t = dec_loop f n (acc ++ t).
Proof. induction f as [|f IH]; intros n acc t; [done|]. cbn [dec_loop]. case_if; [done|]. by rewrite IH. Qed.

Lemma char_to_hex_decimal d : 0 <= d < 10 -> char_to_hex (48 + d) = Some d.
Proof.
  intros Hd. unfold char_to_hex. rewrite (proj2 (Z.leb_le 48 (48 + d))), (proj2 (Z.leb_le (48 + d) 57)) by lia.
  cbn. f_equal. lia.
Qed.

(** Reading the digits of [n] off. *)
Lemma radix_dec_loop f : forall n acc,
  0 <= n < 10 ^ Z.of_nat f -> radix_val 10 0 (dec_loop f n acc) = radix_val 10 n acc.
Proof.
  induction f as [|f IH]; intros n acc Hn; cbn [dec_loop].
  - replace n with 0 by (cbn in Hn; lia). done.
  - rewrite Nat2Z.inj_succ, Z.pow_succ_r in Hn by lia. destruct (Z.ltb_spec n 10).
    + cbn [radix_val]. rewrite char_to_hex_decimal by lia.
      rewrite (proj2 (Z.ltb_lt n 10)) by lia. by rewrite Z.mul_0_l.
    + rewrite IH.
      * cbn [radix_val]. pose proof (Z.mod_pos_bound n 10 ltac:(lia)). rewrite char_to_hex_decimal by lia.
        rewrite (proj2 (Z.ltb_lt _ _)) by lia. f_equal. pose proof (Z.div_mod n 10 ltac:(lia)). lia.
      * split; [apply Z.div_pos; lia|]. apply Z.div_lt_upper_bound; lia.
Qed.

(** The first character of a positive number. *)
Lemma dec_loop_head f : forall n acc,
  0 < n < 10 ^ Z.of_nat f -> exists d t, dec_loop f n acc = (48 + d) :: t /\ 1 <= d <= 9.
Proof.
  induction f as [|f IH]; intros n acc Hn; cbn [dec_loop]; [cbn in Hn; lia|].
  rewrite Nat2Z.inj_succ, Z.pow_succ_r in Hn by lia. destruct (Z.ltb_spec n 10).
  - exists n, acc. split; [done|lia].
  - apply IH. split; [apply Z.div_str_pos; lia|]. apply Z.div_lt_upper_bound; lia.
Qed.

Lemma length_dec_loop f : forall n acc k,
  0 <= n < 10 ^ Z.of_nat k -> (0 < k <= f)%nat -> (length (dec_loop f n acc) <= k + length acc)%nat.
Proof.
  induction f as [|f IH]; intros n acc k Hn Hk; cbn [dec_loop]; [lia|].
  destruct (Z.ltb_spec n 10); [cbn; lia|]. destruct k as [|[|k]]; [lia|cbn in Hn; lia|].
  rewrite Nat2Z.inj_succ, Z.pow_succ_r in Hn by lia.
  etransitivity; [apply (IH _ _ (S k)); [|lia]|cbn [length]; lia].
  split; [apply Z.div_pos; lia|]. apply Z.div_lt_upper_bound; lia.
Qed.

Lemma length_dec_loop_ge f : forall n acc k,
  10 ^ Z.of_nat k <= n -> (k < f)%nat -> (k + length acc < length (dec_loop f n acc))%nat.
Proof.
  induction f as [|f IH]; intros n acc k Hn Hk; cbn [dec_loop]; [lia|].
  destruct (Z.ltb_spec n 10).
  - destruct k; [cbn; lia|]. rewrite Nat2Z.inj_succ, Z.pow_succ_r in Hn by lia.
    pose proof (Z.pow_pos_nonneg 10 (Z.of_nat k) ltac:(lia) ltac:(lia)). lia.
  - destruct k as [|k].
    + destruct f as [|f]; [cbn; lia|].
      specialize (IH (n / 10) ((48 + n mod 10) :: acc) 0%nat). cbn [length] in IH.
      eapply Nat.le_lt_trans; [|apply IH]; [lia| |lia]. change (10 ^ Z.of_nat 0) with 1. apply Z.div_le_lower_bound; lia.
    + rewrite Nat2Z.inj_succ, Z.pow_succ_r in Hn by lia.
      specialize (IH (n / 10) ((48 + n mod 10) :: acc) k). cbn [length] in IH.
      eapply Nat.le_lt_trans; [|apply IH]; [lia| |lia]. apply Z.div_le_lower_bound; lia.
Qed.

(** The text of a number and its [strtoul]: the converse of [%lu]. *)
Lemma strtoul0_dec n c t : 0 <= n < 2 ^ 64 -> char_to_hex c = None -> c <> 120 -> c <> 88 ->
  strtoul0 (dec n ++ c :: t) = Some n.
Proof.
  intros Hn Hc H1 H2. unfold strtoul0, dec. rewrite dec_loop_app. cbn [app].
  assert (n < 10 ^ Z.of_nat 20) as Hb by lia.
  destruct (decide (n = 0)) as [->|Hz].
  - change (dec_loop 20 0 (c :: t)) with (48 :: c :: t). cbn [skip_space is_space].
    change (is_space 48) with false. cbv iota. change (48 =? 45) with false. change (48 =? 43) with false. cbv iota.
    unfold radix_prefix. change (negb (48 =? 48)) with false. cbv iota.
    rewrite (proj2 (Z.eqb_neq c 120)), (proj2 (Z.eqb_neq c 88)) by done. cbn [orb radix_val]. by rewrite Hc.
  - destruct (dec_loop_head 20 n (c :: t) ltac:(lia)) as (d & u & E & Hd). rewrite E.
    assert (skip_space ((48 + d) :: u) = (48 + d) :: u) as ->.
    { cbn. unfold is_space. rewrite (proj2 (Z.eqb_neq (48 + d) 32)), (proj2 (Z.leb_gt (48 + d) 13)) by lia.
      by rewrite andb_false_r. }
    rewrite (proj2 (Z.eqb_neq (48 + d) 45)), (proj2 (Z.eqb_neq (48 + d) 43)) by lia. rewrite <- E.
    assert (radix_prefix (dec_loop 20 n (c :: t)) = Some n) as Ep.
    { assert (radix_val 10 0 (dec_loop 20 n (c :: t)) = Some n) as Er.
      { rewrite radix_dec_loop by lia. cbn. by rewrite Hc. }
      rewrite E in *. cbn [radix_prefix]. by rewrite (proj2 (Z.eqb_neq (48 + d) 48)) by lia. }
    rewrite Ep. cbn [mbind option_bind]. change (u64 (-1)) with 18446744073709551615.
    by rewrite (proj2 (Z.ltb_ge 18446744073709551615 n)) by lia.
Qed.

Lemma set_cfgfs_ul_small {K} {HK : Kernel K} (k : K) p n : 0 <= n < 10 ^ 19 ->
  tcmu_set_cfgfs_ul k p n = Some (tcmu_set_cfgfs_str k p (dec n ++ [0])).
Proof.
  intros Hn. unfold tcmu_set_cfgfs_ul. rewrite u64_small by lia.
  pose proof (length_dec_loop 20 n [] 19 ltac:(lia) ltac:(lia)) as L. cbn [length] in L.
  rewrite decide_True; [done|]. unfold dec. lia.
Qed.


(** A kernel with one read-only file, for examples. *)
#[export] Instance one_file : Kernel (list Z) :=
  {| k_read k _ := inr k; k_write k _ _ := (k, None); k_exists _ _ := true; k_scandir _ _ := None |}.


(** ** Lines come back *)

Definition text_line (l : list Z) : Prop := l <> [] /\ Forall (fun c => c <> 0 /\ c <> 10) l.

Lemma strlen_app l t : Forall (fun c => c <> 0) l -> strlen (l ++ 0 :: t) = Some (length l).
Proof.
  intros Hl. unfold strlen. assert (list_find (fun c => c = 0) (l ++ 0 :: t) = Some (length l, 0)) as ->; [|done].
  apply list_find_Some. split; [by rewrite lookup_app_r, Nat.sub_diag by done|]. split; [done|].
  intros j y Hj Hlt. rewrite lookup_app_l in Hj by done. rewrite Forall_lookup in Hl. by apply (Hl j).
Qed.

Lemma cstring_app l t : Forall (fun c => c <> 0) l -> cstring (l ++ 0 :: t) = Some l.
Proof. intros Hl. unfold cstring. rewrite strlen_app by done. cbn. by rewrite take_app_length. Qed.

Definition ended (c : Z) (ls : list (list Z)) : list Z := concat (map (fun l => l ++ [c]) ls).

Lemma text_nonzero ls : Forall text_line ls -> Forall (fun c => c <> 0) (ended 10 ls).
Proof.
  induction 1 as [|l ls [_ Hl] _ IH]; [constructor|]. unfold ended. cbn [map concat]. rewrite <- app_assoc.
  apply Forall_app. split; [eapply Forall_impl; [exact Hl|]; cbn; tauto|]. by constructor.
Qed.

Lemma length_ended c ls : length (ended c ls) = length (ended 0 ls).
Proof. unfold ended. induction ls as [|l ls IH]; [done|]. cbn. rewrite !length_app, IH. done. Qed.

Lemma length_ended_ge c ls : (length ls <= length (ended c ls))%nat.
Proof. unfold ended. induction ls as [|l ls IH]; [done|]. cbn. rewrite !length_app. cbn. lia. Qed.

Lemma bset1_app l c t v : 0 <= v < 256 -> bset1 (l ++ c :: t) (length l) v = Some (l ++ v :: t).
Proof.
  intros Hv. unfold bset1. rewrite u8_small by done. rewrite <- (Nat.add_0_r (length l)), bset_app_r. cbn.
  by rewrite bset_0_1.
Qed.

(** The loop turns every terminator into a newline, and one more. *)
Lemma nul_to_newline_lines ls : forall fuel pre k,
  Forall text_line ls -> Forall (fun c => c <> 0) pre -> (length ls < fuel)%nat ->
  nul_to_newline fuel (length pre + length (ended 0 ls)) (pre ++ ended 0 ls ++ zeros (S k)) =
    Some (pre ++ ended 10 ls ++ 10 :: zeros k).
Proof.
  induction ls as [|l ls IH]; intros fuel pre k Hls Hpre Hf; (destruct fuel as [|fuel]; [cbn in Hf; lia|]).
  - cbn [nul_to_newline ended map concat app length].
    change (zeros (S k)) with (0 :: zeros k). rewrite strlen_app by done. cbn [mbind option_bind]. rewrite bset1_app by lia. cbn [mbind option_bind].
    rewrite decide_False by lia. done.
  - inversion Hls as [|? ? [Hne Hl] Hls']; subst. unfold ended in *. cbn [nul_to_newline map concat].
    rewrite <- !app_assoc. cbn [app]. rewrite (app_assoc pre l).
    assert (Forall (fun c => c <> 0) (pre ++ l)) as Hpl.
    { apply Forall_app. split; [done|]. eapply Forall_impl; [exact Hl|]. cbn. tauto. }
    rewrite strlen_app by done. cbn [mbind option_bind]. rewrite bset1_app by lia. cbn [mbind option_bind].
    rewrite decide_True by (rewrite !length_app; cbn [length]; lia).
    specialize (IH fuel ((pre ++ l) ++ [10]) k Hls' ltac:(by apply Forall_app; split; [|repeat constructor]) ltac:(cbn in Hf; lia)).
    rewrite <- !app_assoc in IH. cbn [app] in IH. rewrite !length_app in *. cbn [length] in *.
    rewrite <- IH. f_equal; [lia|]. by rewrite <- !app_assoc.
Qed.

Lemma ended_snoc c ls : ls <> [] -> exists t, ended c ls = t ++ [c].
Proof.
  induction ls as [|l ls IH]; intros H; [done|]. unfold ended in *. cbn [map concat].
  destruct ls as [|l2 ls]; [exists l; by rewrite app_nil_r|].
  destruct IH as [t E]; [done|]. rewrite E. exists (l ++ c :: t). by rewrite <- !app_assoc.
Qed.

(** Splitting at the newlines. *)
Lemma fields_ended ls : forall t cur,
  Forall text_line ls -> ended 10 ls = t ++ [10] ->
  fields 10 cur t = match ls with [] => [cur] | l :: ls => (cur ++ l) :: ls end.
Proof.
  assert (forall l cur t, Forall (fun c => c <> 0 /\ c <> 10) l -> fields 10 cur (l ++ t) = fields 10 (cur ++ l) t) as HF.
  { induction l as [|c l IH]; intros cur t Hl; [by rewrite app_nil_r|]. inversion Hl as [|? ? [_ Hc] Hl']; subst.
    cbn [fields app]. rewrite (proj2 (Z.eqb_neq c 10)) by done. rewrite IH by done. by rewrite <- app_assoc. }
  induction ls as [|l ls IH]; intros t cur Hls E; [by destruct t|].
  inversion Hls as [|? ? [Hne Hl] Hls']; subst. unfold ended in *. cbn [map concat] in E. rewrite <- app_assoc in E.
  destruct ls as [|l2 ls].
  - cbn in E. apply app_inj_tail in E as [<- _]. rewrite <- (app_nil_r l) at 1. rewrite HF by done. done.
  - destruct (ended_snoc 10 (l2 :: ls) ltac:(done)) as [u Eu]. unfold ended in Eu. rewrite Eu in E.
    assert (t = l ++ 10 :: u) as ->.
    { apply (app_inj_tail t (l ++ 10 :: u) 10 10). by rewrite <- E, <- !app_assoc. }
    rewrite HF by done. cbn [fields]. rewrite Z.eqb_refl. f_equal. by rewrite (IH u []).
Qed.

(** Text attributes.  For a file of non-empty lines, each ended by a NUL
    (as in [members]), that fits the buffer with a byte to spare,
    [tcmu_get_cfgfs_str] returns a string whose newline-separated fields are
    exactly those lines; for one line ended by a newline (as in the ALUA
    attributes) it returns the line; an empty file is NULL.  A file that fills
    the buffer without any NUL makes it read past the buffer. *)
Theorem cfgfs_str_lines {K} {HK : Kernel K} (k : K) (p : list Z) (ls : list (list Z)) (c : list Z)
  (Hr : k_read k p = inr c) (Hls : Forall text_line ls) :
  (c = ended 0 ls -> ls <> [] -> (length c < 4096)%nat ->
   exists s, tcmu_get_cfgfs_str k p = Some (Some s) /\ fields 10 [] s = ls) /\
  (forall l, c = l ++ [10] -> text_line l -> (length c < 4096)%nat -> tcmu_get_cfgfs_str k p = Some (Some l)) /\
  (c = [] -> tcmu_get_cfgfs_str k p = Some None) /\
  (0 ∉ c -> (4096 <= length c)%nat -> tcmu_get_cfgfs_str k p = None).
Proof.
  unfold tcmu_get_cfgfs_str. rewrite Hr. split_and!.
  - intros -> Hne Hlen. destruct (ended_snoc 10 ls Hne) as [t Et].
    assert (length (ended 0 ls) = S (length t)) as Elen by (rewrite <- (length_ended 10), Et, length_app; cbn; lia).
    rewrite Nat.min_l, firstn_all, Elen by lia. cbn [pred]. rewrite decide_False by lia.
    replace (4096 - S (length t))%nat with (S (4094 - length t)) by lia.
    assert (exists n, strlen (ended 0 ls ++ zeros (S (4094 - length t))) = Some n /\ (n <= length t)%nat) as (n & Es & Hn).
    { destruct ls as [|l ls]; [done|]. inversion Hls as [|? ? [_ Hl] _]; subst. unfold ended in *. cbn [map concat] in *.
      rewrite <- !app_assoc. cbn [app]. exists (length l). split.
      - apply strlen_app. eapply Forall_impl; [exact Hl|]. cbn. tauto.
      - apply (f_equal length) in Et. rewrite !length_app in Et. cbn in Et. lia. }
    rewrite Es. cbn [mbind option_bind]. rewrite decide_False by lia.
    pose proof (nul_to_newline_lines ls (S (S (length t))) [] (4094 - length t) Hls ltac:(constructor)) as E.
    cbn [app length] in E. rewrite Elen in E. cbn [Nat.add] in E. rewrite E; clear E.
    2: { pose proof (length_ended_ge 0 ls). lia. }
    cbn [mbind option_bind]. rewrite Et, <- app_assoc. cbn [app]. unfold bget1.
    rewrite list_lookup_middle by done. cbn [mbind option_bind]. change (10 =? 10) with true. cbv iota.
    rewrite bset1_app by lia. cbn [mbind option_bind]. rewrite list_lookup_middle by done. cbn [mbind option_bind].
    change (negb (0 =? 0)) with false. cbn [andb]. cbv iota. cbn [mbind option_bind].
    rewrite cstring_app.
    + exists t. split; [done|]. rewrite (fields_ended ls t [] Hls Et). by destruct ls.
    + pose proof (text_nonzero ls Hls) as Hz. rewrite Et in Hz. by apply Forall_app in Hz as [Hz _].
  - intros l -> [Hne Hl] Hlen. rewrite Nat.min_l, firstn_all by lia. rewrite length_app. cbn [length].
    rewrite Nat.add_1_r. cbn [pred]. rewrite decide_False by lia.
    assert (Forall (fun c => c <> 0) (l ++ [10])) as Hz.
    { apply Forall_app. split; [|by repeat constructor]. eapply Forall_impl; [exact Hl|]. cbn. tauto. }
    rewrite length_app in Hlen. cbn [length] in Hlen.
    replace (4096 - S (length l))%nat with (S (4094 - length l)) by lia.
    change (zeros (S (4094 - length l))) with (0 :: zeros (4094 - length l)).
    rewrite strlen_app by done. cbn [mbind option_bind]. rewrite length_app, Nat.add_1_r.
    rewrite decide_True by done. rewrite <- app_assoc. cbn [app mbind option_bind]. unfold bget1.
    rewrite list_lookup_middle by done. cbn [mbind option_bind]. change (10 =? 10) with true. cbv iota.
    rewrite bset1_app by lia. cbn [mbind option_bind]. rewrite list_lookup_middle by done. cbn [mbind option_bind].
    change (negb (0 =? 0)) with false. cbn [andb]. cbv iota. cbn [mbind option_bind].
    rewrite cstring_app; [done|]. eapply Forall_impl; [exact Hl|]. cbn. tauto.
  - by intros ->.
  - intros Hz Hlen. rewrite Nat.min_r by lia. rewrite decide_False by lia.
    assert (strlen (take 4096 c ++ zeros (4096 - 4096)) = None) as ->; [|done].
    unfold strlen. rewrite Nat.sub_diag. change (zeros 0) with (@nil Z). rewrite app_nil_r.
    rewrite (proj2 (list_find_None _ _)); [done|].
    apply Forall_take, Forall_forall. intros x Hx ->. done.
Qed.

Lemma cfgfs_str_lines_witness :
  tcmu_get_cfgfs_str (ended 0 [str "iscsi/iqn.x/tpgt_1/lun_0"; str "loopback/naa.1/tpgt_2/lun_3"]) [] =
    Some (Some (str "iscsi/iqn.x/tpgt_1/lun_0" ++ [10] ++ str "loopback/naa.1/tpgt_2/lun_3")) /\
  tcmu_get_cfgfs_str (str "Implicit" ++ [10]) [] = Some (Some (str "Implicit")).
Proof.
  assert (forall l, bool_decide (l <> []) && forallb (fun c => negb (c =? 0) && negb (c =? 10)) l = true -> text_line l) as Ht.
  { intros l H. apply andb_true_iff in H as [H1 H2]. split; [by apply bool_decide_eq_true in H1|].
    apply Forall_forall. intros c Hc. rewrite forallb_forall in H2. specialize (H2 c ltac:(by apply list_elem_of_In)).
    apply andb_true_iff in H2 as [H3 H4]. apply negb_true_iff in H3, H4. apply Z.eqb_neq in H3, H4. done. }
  split.
  - destruct (cfgfs_str_lines (HK := one_file) (ended 0 [str "iscsi/iqn.x/tpgt_1/lun_0"; str "loopback/naa.1/tpgt_2/lun_3"]) []
      [str "iscsi/iqn.x/tpgt_1/lun_0"; str "loopback/naa.1/tpgt_2/lun_3"]
      (ended 0 [str "iscsi/iqn.x/tpgt_1/lun_0"; str "loopback/naa.1/tpgt_2/lun_3"]) eq_refl) as [H _].
    + constructor; [by apply Ht|constructor; [by apply Ht|constructor]].
    + destruct (H eq_refl) as (s & Es & _); [done|cbn; lia|]. rewrite Es. vm_compute in Es. injection Es as <-. reflexivity.
  - destruct (cfgfs_str_lines (HK := one_file) (str "Implicit" ++ [10]) [] [] (str "Implicit" ++ [10]) eq_refl ltac:(constructor)) as (_ & H & _).
    apply (H (str "Implicit")); [done|by apply Ht|cbn; lia].
Defined.
