(* ===== verification/Target.v ===== *)
(** * Target ports

    The first half of [target.c]: a member of an ALUA group named in configfs
    is parsed and its port attributes are read.  The recovery of port groups is
    in [Recovery]. *)

From S2P Require Import Prelude Scsi Device Configfs.

(** ** [sscanf(s, "%16[^/]/%223[^/]/tpgt_%hu/lun_%lu")] *)

Fixpoint upto_slash (s : list Z) : list Z :=
  match s with [] => [] | c :: s => if c =? 47 then [] else c :: upto_slash s end.

(** [%n[^/]]: at least one and at most [n] characters other than a slash. *)
Definition scan_set (n : nat) (s : list Z) : option (list Z * list Z) :=
  let l := take n (upto_slash s) in
  match l with [] => None | _ => Some (l, drop (length l) s) end.

(** A literal. *)
Definition scan_lit (l s : list Z) : option (list Z) :=
  if starts_with l s then Some (drop (length l) s) else None.

(** [%u] conversions: at least one digit, perhaps after spaces and a sign. *)
Definition scan_num (s : list Z) : option (Z * list Z) :=
  let s := skip_space s in
  let t := match s with c :: t => if (c =? 43) || (c =? 45) then t else s | [] => s end in
  match t with
  | c :: _ => if is_digit c then Some (strtoul s) else None
  | [] => None
  end.

Definition scan_member (s : list Z) : option (list Z * list Z * Z * Z) :=
  '(fabric, s) ← scan_set 16 s;
  s ← scan_lit (str "/") s;
  '(wwn, s) ← scan_set 223 s;
  s ← scan_lit (str "/tpgt_") s;
  '(tpgt, s) ← scan_num s;
  s ← scan_lit (str "/lun_") s;
  '(lun, s) ← scan_num s;
  Some (fabric, wwn, u16 tpgt, lun).

Section kernel.
Context {K : Type} {HK : Kernel K}.

(** [src tcmu-runner/target.c tcmu_get_lun_int_stat] *)
Definition tcmu_get_lun_int_stat (k : K) (port : tgt_port) (lun : Z) (stat_name : list Z) : option Z :=
  tcmu_get_cfgfs_int k (path (CFGFS_ROOT ++ str "/" ++ fabric port ++ str "/" ++ port_wwn port ++
    str "/tpgt_" ++ dec (tpgt port) ++ str "/lun/lun_" ++ dec lun ++ str "/statistics/" ++ stat_name)).

(** [src tcmu-runner/target.c tcmu_get_tpg_int] *)
Definition tcmu_get_tpg_int (k : K) (port : tgt_port) (name : list Z) : option Z :=
  tcmu_get_cfgfs_int k (path (CFGFS_ROOT ++ str "/" ++ fabric port ++ str "/" ++ port_wwn port ++
    str "/tpgt_" ++ dec (tpgt port) ++ str "/" ++ name)).

(** The inner [None] is the NULL result; memory suffices.
    [src tcmu-runner/target.c tcmu_get_tgt_port] *)
Definition tcmu_get_tgt_port (k : K) (member_str : list Z) : option (option tgt_port) :=
  match scan_member member_str with
  | None => Some None
  | Some (fab, wwn, tp, lun) =>
      let fab := if decide (fab = str "iSCSI") then str "iscsi" else fab in
      let port := Port 0 0 wwn false tp fab in
      idx ← tcmu_get_lun_int_stat k port lun (str "scsi_port/indx");
      if idx <? 0 then Some None
      else
        proto ← tcmu_get_lun_int_stat k port lun (str "scsi_transport/proto_id");
        if proto <? 0 then Some None
        else
          en ← tcmu_get_tpg_int k port (str "enable");
          if en <? 0 then Some None
          else Some (Some (Port (u16 idx) (u8 proto) wwn (negb (en =? 0)) tp fab))
  end.
End kernel.
