(* ===== verification/Alua.v ===== *)
(** * Asymmetric access

    [alua.c]: the target port groups of a device as configfs describes them,
    REPORT TARGET PORT GROUPS and SET TARGET PORT GROUPS, and the check that
    stands between a command and a device whose lock is not held. *)

From S2P Require Import Prelude Scsi Iovec Device Backstore Configfs Target Rdev.

Definition ALUA_ACCESS_STATE_OPTIMIZED : Z := 0x0.
Definition ALUA_ACCESS_STATE_NON_OPTIMIZED : Z := 0x1.
Definition ALUA_ACCESS_STATE_STANDBY : Z := 0x2.
Definition ALUA_ACCESS_STATE_UNAVAILABLE : Z := 0x3.
Definition ALUA_ACCESS_STATE_OFFLINE : Z := 0xe.
Definition ALUA_SUP_OPTIMIZED : Z := 0x01.
Definition ALUA_SUP_NON_OPTIMIZED : Z := 0x02.
Definition ALUA_SUP_STANDBY : Z := 0x04.
Definition ALUA_SUP_UNAVAILABLE : Z := 0x08.
Definition ALUA_SUP_LBA_DEPENDENT : Z := 0x10.
Definition ALUA_SUP_OFFLINE : Z := 0x40.
Definition ALUA_SUP_TRANSITIONING : Z := 0x80.
Definition TPGS_ALUA_IMPLICIT : Z := 0x10.
Definition TPGS_ALUA_EXPLICIT : Z := 0x20.
Definition ALUA_STAT_NONE : Z := 0x00.
Definition ALUA_STAT_ALTERED_BY_EXPLICIT_STPG : Z := 0x01.
Definition ALUA_STAT_ALTERED_BY_IMPLICIT_ALUA : Z := 0x02.
Definition TCMU_ALUA_INVALID_GROUP_ID : Z := 65535.

Definition set_failover (d : tcmur_device) (f : failover) : tcmur_device :=
  Rdev (in_recovery d) (is_open d) (stopping d) (stopped d) f (lock_state d) (pending_uas d).

(** [group->state] and [group->status]. *)
Definition set_access (g : alua_grp) (state status : Z) : alua_grp :=
  Grp state (supported_states g) (tpgs g) status (implicit_trans_secs g) (grp_pref g) (grp_id g)
      (grp_name g) (num_tgt_ports g) (tgt_ports g).

(** [src tcmu-runner/alua.c failover_is_supported] *)
Definition failover_is_supported (dev : tcmu_device) : bool := has_lock (rhandler dev).

Section kernel.
Context {K : Type} {HK : Kernel K} (dev : tcmu_device) (nm : dev_names).

Definition alua_path (name setting : list Z) : list Z :=
  dev_path nm (str "alua/" ++ name ++ str "/" ++ setting).

(** [src tcmu-runner/alua.c tcmu_get_alua_str_setting] *)
Definition tcmu_get_alua_str_setting (k : K) (name setting : list Z) : option (option (list Z)) :=
  tcmu_get_cfgfs_str k (alua_path name setting).

(** [src tcmu-runner/alua.c tcmu_get_alua_int_setting] *)
Definition tcmu_get_alua_int_setting (k : K) (name setting : list Z) : option Z :=
  tcmu_get_cfgfs_int k (alua_path name setting).

(** [src tcmu-runner/alua.c tcmu_set_alua_int_setting] *)
Definition tcmu_set_alua_int_setting (k : K) (name setting : list Z) (val : Z) : option (K * Z) :=
  tcmu_set_cfgfs_ul k (alua_path name setting) val.

(** ** Reading the groups *)

(** What reading a group leaves: the device (its failover type may be set
    although the group is then given up) and the group, if any. *)
Abbreviation grp_result := (option (tcmur_device * option alua_grp)).

(** An integer setting; a negative one gives the group up. *)
Definition with_int (k : K) (rdev : tcmur_device) (name : list Z) (setting : string)
    (f : Z -> grp_result) : grp_result :=
  v ← tcmu_get_alua_int_setting k name (str setting);
  if v <? 0 then Some (rdev, None) else f v.

(** A flag of [supported_states]. *)
Definition sup (v bit : Z) : Z := if v =? 0 then 0 else bit.

(** The members of the group, in their order.
    [src tcmu-runner/alua.c 250-264 tcmu_get_alua_grp] *)
Fixpoint grp_members (k : K) (ms : list (list Z)) : option (option (list tgt_port)) :=
  match ms with
  | [] => Some (Some [])
  | m :: ms =>
      if decide (m = []) then grp_members k ms
      else
        p ← tcmu_get_tgt_port k m;
        match p with
        | None => Some None
        | Some p =>
            r ← grp_members k ms;
            Some (ps ← r; Some (p :: ps))
        end
  end.

(** The access type: failover type of the device and [tpgs]; [None] when it is
    not supported.
    [src tcmu-runner/alua.c 198-246 tcmu_get_alua_grp] *)
Definition grp_access_type (s : list Z) : option (failover * Z) :=
  if decide (s = str "None") then Some (FAILOVER_ALL_ACTIVE, TPGS_ALUA_IMPLICIT)
  else if decide (s = str "Implicit") then
    if failover_is_supported dev then Some (FAILOVER_IMPLICIT, TPGS_ALUA_IMPLICIT) else None
  else if decide (s = str "Explicit") then None
  else if decide (s = str "Implicit and Explicit") then
    if failover_is_supported dev then Some (FAILOVER_EXPLICIT, TPGS_ALUA_EXPLICIT) else None
  else None.

(** [src tcmu-runner/alua.c 186-195 tcmu_get_alua_grp] *)
Definition grp_access_status (s : list Z) : option Z :=
  if decide (s = str "None") then Some ALUA_STAT_NONE
  else if decide (s = str "Altered by Explicit STPG") then Some ALUA_STAT_ALTERED_BY_EXPLICIT_STPG
  else if decide (s = str "Altered by Implicit ALUA") then Some ALUA_STAT_ALTERED_BY_IMPLICIT_ALUA
  else None.

(** The delays are checked and not used.
    [src tcmu-runner/alua.c tcmu_get_alua_grp] *)
Definition tcmu_get_alua_grp (k : K) (rdev : tcmur_device) (name : list Z) : grp_result :=
  let int := with_int k rdev name in
  int "alua_access_state" (fun state =>
  int "alua_support_active_nonoptimized" (fun ano =>
  int "alua_support_active_optimized" (fun ao =>
  int "alua_support_lba_dependent" (fun lba =>
  int "alua_support_offline" (fun off =>
  int "alua_support_standby" (fun stb =>
  int "alua_support_transitioning" (fun tr =>
  int "alua_support_unavailable" (fun un =>
  int "implicit_trans_secs" (fun secs =>
  int "nonop_delay_msecs" (fun _ =>
  int "trans_delay_msecs" (fun _ =>
  int "tg_pt_gp_id" (fun id =>
  int "preferred" (fun pref =>
    s ← tcmu_get_alua_str_setting k name (str "alua_access_status");
    match s ≫= grp_access_status with
    | None => Some (rdev, None)
    | Some status =>
        t ← tcmu_get_alua_str_setting k name (str "alua_access_type");
        match t ≫= grp_access_type with
        | None => Some (rdev, None)
        | Some (fo, tpgs) =>
            let rdev := set_failover rdev fo in
            ms ← tcmu_get_alua_str_setting k name (str "members");
            ports ← grp_members k (match ms with Some ms => fields 10 [] ms | None => [] end);
            let supported :=
              Z.lor (sup ano ALUA_SUP_NON_OPTIMIZED) (Z.lor (sup ao ALUA_SUP_OPTIMIZED)
              (Z.lor (sup lba ALUA_SUP_LBA_DEPENDENT) (Z.lor (sup off ALUA_SUP_OFFLINE)
              (Z.lor (sup stb ALUA_SUP_STANDBY) (Z.lor (sup tr ALUA_SUP_TRANSITIONING)
              (sup un ALUA_SUP_UNAVAILABLE)))))) in
            Some (rdev,
              ports ← ports;
              Some (Grp (u8 state) supported tpgs status (u8 secs) (negb (pref =? 0)) (u16 id) name
                        (u8 (Z.of_nat (length ports))) ports))
        end
    end))))))))))))).

(** [src tcmu-runner/alua.c 328-339 tcmu_get_alua_grps] *)
Fixpoint alua_grps_loop (k : K) (rdev : tcmur_device) (names : list (list Z))
    : option (tcmur_device * option (list alua_grp)) :=
  match names with
  | [] => Some (rdev, Some [])
  | name :: names =>
      if decide (name = str "default_tg_pt_gp") then alua_grps_loop k rdev names
      else
        '(rdev, g) ← tcmu_get_alua_grp k rdev name;
        match g with
        | None => Some (rdev, None)
        | Some g =>
            '(rdev, l) ← alua_grps_loop k rdev names;
            Some (rdev, gs ← l; Some (g :: gs))
        end
  end.

(** The groups, or the failure.
    [src tcmu-runner/alua.c tcmu_get_alua_grps] *)
Definition tcmu_get_alua_grps (k : K) (rdev : tcmur_device)
    : option (tcmur_device * option (list alua_grp)) :=
  match k_scandir k (dev_path nm (str "alua")) with
  | None => Some (rdev, None)
  | Some names => alua_grps_loop k rdev names
  end.
End kernel.

(** The first enabled port, and the place of its group.
    [src tcmu-runner/alua.c tcmu_get_enabled_port] *)
Fixpoint tcmu_get_enabled_port (gs : list alua_grp) : option (nat * tgt_port) :=
  match gs with
  | [] => None
  | g :: gs =>
      match List.find port_enabled (tgt_ports g) with
      | Some p => Some (0%nat, p)
      | None => '(i, p) ← tcmu_get_enabled_port gs; Some (S i, p)
      end
  end.

(** ** Changing states *)

(** What the ALUA commands work on: the groups read for the command, the
    runner's device with the answers of the handler, and the kernel. *)
Record alua_st (K : Type) := AluaSt { al_grps : list alua_grp; al_dev : dst; al_k : K }.
Arguments AluaSt {K}. Arguments al_grps {K}. Arguments al_dev {K}. Arguments al_k {K}.

Definition set_grp {K} (s : alua_st K) (i : nat) (g : alua_grp) : alua_st K :=
  AluaSt (<[i := g]> (al_grps s)) (al_dev s) (al_k s).
Definition set_dev {K} (s : alua_st K) (d : dst) : alua_st K := AluaSt (al_grps s) d (al_k s).
Definition set_k {K} (s : alua_st K) (k : K) : alua_st K := AluaSt (al_grps s) (al_dev s) k.

Section commands.
Context {K : Type} {HK : Kernel K} (dev : tcmu_device) (nm : dev_names).

(** [i]: the place of the group.  A failure to store the status is ignored.
    [src tcmu-runner/alua.c alua_set_state] *)
Definition alua_set_state (i : nat) (new_state alua_status : Z) (s : alua_st K)
    : option (tcmu_sts * alua_st K) :=
  g ← al_grps s !! i;
  '(k, ret) ← tcmu_set_alua_int_setting nm (al_k s) (grp_name g) (str "alua_access_state") new_state;
  if negb (ret =? 0) then Some (TCMU_STS_EXPL_TRANSITION_ERR, set_k s k)
  else
    '(k, _) ← tcmu_set_alua_int_setting nm k (grp_name g) (str "alua_access_status") alua_status;
    Some (TCMU_STS_OK, set_grp (set_k s k) i (set_access g new_state alua_status)).

(** The loop of [alua_sync_state], over the [n] groups from the [i]-th on.
    [src tcmu-runner/alua.c 431-458 alua_sync_state] *)
Fixpoint sync_loop (n i : nat) (ao_group_id enabled_group_id : Z) (s : alua_st K) : option (alua_st K) :=
  match n with
  | O => Some s
  | S n =>
      group ← al_grps s !! i;
      let holder := ao_group_id =? grp_id group in
      let alua_state := if holder then ALUA_ACCESS_STATE_OPTIMIZED else ALUA_ACCESS_STATE_STANDBY in
      let s :=
        if negb holder && (enabled_group_id =? grp_id group)
           && bool_decide (lock_state (d_rdev (al_dev s)) = LOCKED)
        then set_dev s (upd (al_dev s) (fun d => set_lock d UNLOCKED)) else s in
      s ← (if alua_state =? grp_state group then Some s
           else '(_, s) ← alua_set_state i alua_state ALUA_STAT_ALTERED_BY_IMPLICIT_ALUA s; Some s);
      sync_loop n (S i) ao_group_id enabled_group_id s
  end.

(** [src tcmu-runner/alua.c alua_sync_state] *)
Definition alua_sync_state (enabled_group_id : Z) (s : alua_st K) : option (tcmu_sts * alua_st K) :=
  if negb (bool_decide (failover_type (d_rdev (al_dev s)) = FAILOVER_EXPLICIT))
     || negb (has_get_lock_tag (rhandler dev))
  then Some (TCMU_STS_OK, s)
  else
    let '((ret, tag), d) := tcmu_get_lock_tag TCMU_ALUA_INVALID_GROUP_ID (al_dev s) in
    let s := set_dev s d in
    let sync tag := s ← sync_loop (length (al_grps s)) 0 tag enabled_group_id s; Some (TCMU_STS_OK, s) in
    match ret with
    | TCMU_STS_NO_LOCK_HOLDERS => sync TCMU_ALUA_INVALID_GROUP_ID
    | TCMU_STS_OK => sync tag
    | _ => Some (ret, s)
    end.

(** ** REPORT TARGET PORT GROUPS *)

(** The ports of a group's descriptor.
    [src tcmu-runner/alua.c 527-534 tcmu_emulate_report_tgt_port_grps] *)
Fixpoint rtpg_ports (ps : list tgt_port) (buf : list Z) (off ret_data_len : Z) : option (list Z * Z * Z) :=
  match ps with
  | [] => Some (buf, off, ret_data_len)
  | port :: ps =>
      let off := off + 2 in
      buf ← bset1 buf (Z.to_nat off) (Z.land (Z.shiftr (rel_port_id port) 8) 0xff);
      let off := off + 1 in
      buf ← bset1 buf (Z.to_nat off) (Z.land (rel_port_id port) 0xff);
      let off := off + 1 in
      rtpg_ports ps buf off (u32 (ret_data_len + 4))
  end.

(** The fixed part of a group's descriptor.
    [src tcmu-runner/alua.c 511-523 tcmu_emulate_report_tgt_port_grps] *)
Definition rtpg_fixed (group : alua_grp) (buf : list Z) (off : Z) : option (list Z) :=
  buf ← (if grp_pref group then bset1 buf (Z.to_nat off) 0x80 else Some buf);
  b ← bget1 buf (Z.to_nat off);
  buf ← bset1 buf (Z.to_nat off) (Z.lor b (grp_state group));
  b ← bget1 buf (Z.to_nat (off + 1));
  buf ← bset1 buf (Z.to_nat (off + 1)) (Z.lor b (supported_states group));
  buf ← bset1 buf (Z.to_nat (off + 2)) (Z.land (Z.shiftr (grp_id group) 8) 0xff);
  buf ← bset1 buf (Z.to_nat (off + 3)) (Z.land (grp_id group) 0xff);
  buf ← bset1 buf (Z.to_nat (off + 5)) (grp_status group);
  bset1 buf (Z.to_nat (off + 7)) (num_tgt_ports group).

(** The loop over the groups; [off] and [ret_data_len] are 32 bits wide.
    [src tcmu-runner/alua.c 503-536 tcmu_emulate_report_tgt_port_grps] *)
Fixpoint rtpg_groups (gs : list alua_grp) (alloc_len : Z) (buf : list Z) (off ret_data_len : Z)
    : option (list Z * Z) :=
  match gs with
  | [] => Some (buf, ret_data_len)
  | group :: gs =>
      let next_off := u32 (off + 8 + num_tgt_ports group * 4) in
      if alloc_len <? next_off then
        rtpg_groups gs alloc_len buf off (u32 (ret_data_len + (8 + num_tgt_ports group * 4)))
      else
        buf ← rtpg_fixed group buf off;
        '(buf, off, ret_data_len) ← rtpg_ports (tgt_ports group) buf (off + 8) (u32 (ret_data_len + 8));
        rtpg_groups gs alloc_len buf off ret_data_len
  end.

(** The response buffer, before the groups: the extended header.
    [src tcmu-runner/alua.c 487-497 tcmu_emulate_report_tgt_port_grps] *)
Definition rtpg_header (gs : list alua_grp) (ext_hdr : Z) (alloc_len : Z) : option (list Z * Z) :=
  let buf := zeros (Z.to_nat alloc_len) in
  if negb (ext_hdr =? 0) && (5 <? alloc_len) then
    buf ← bset1 buf 4 0x10;
    buf ← match gs with g :: _ => bset1 buf 5 (implicit_trans_secs g) | [] => Some buf end;
    Some (buf, 8)
  else Some (buf, 4).

(** The state, the memory and iovec, and the status.
    [src tcmu-runner/alua.c tcmu_emulate_report_tgt_port_grps] *)
Definition tcmu_emulate_report_tgt_port_grps (cmd : tcmulib_cmd) (m : mem) (s : alua_st K)
    : option (alua_st K * mem * list iovec * tcmu_sts) :=
  let ext_hdr := Z.land (byte_at (cdb cmd) 1) 0x20 in
  alloc_len ← tcmu_get_xfer_length (cdb cmd);
  match tcmu_get_enabled_port (al_grps s) with
  | None => Some (s, m, cmd_iovec cmd, TCMU_STS_INVALID_CMD)
  | Some (e, _) =>
      if alloc_len <? 4 then Some (s, m, cmd_iovec cmd, TCMU_STS_INVALID_CDB)
      else
        '(buf, off) ← rtpg_header (al_grps s) ext_hdr alloc_len;
        enabled ← al_grps s !! e;
        '(ret, s) ← alua_sync_state (grp_id enabled) s;
        if negb (sts_ok ret) then Some (s, m, cmd_iovec cmd, ret)
        else
          '(buf, len) ← rtpg_groups (al_grps s) alloc_len buf off 0;
          buf ← bset buf 0 (be_enc 4 len);
          '(m, iov, _) ← tcmu_memcpy_into_iovec m (cmd_iovec cmd) (iov_cnt cmd) buf alloc_len;
          Some (s, m, iov, TCMU_STS_OK)
  end.

(** ** SET TARGET PORT GROUPS *)

(** [src tcmu-runner/alua.c alua_check_sup_state] *)
Definition alua_check_sup_state (state sup : Z) : bool :=
  if state =? ALUA_ACCESS_STATE_OPTIMIZED then negb (Z.land sup ALUA_SUP_OPTIMIZED =? 0)
  else if state =? ALUA_ACCESS_STATE_NON_OPTIMIZED then negb (Z.land sup ALUA_SUP_NON_OPTIMIZED =? 0)
  else if state =? ALUA_ACCESS_STATE_STANDBY then negb (Z.land sup ALUA_SUP_STANDBY =? 0)
  else if state =? ALUA_ACCESS_STATE_UNAVAILABLE then negb (Z.land sup ALUA_SUP_UNAVAILABLE =? 0)
  else false.

(** Every group but the [i]-th to standby, from the [j]-th on; the results are
    not looked at.
    [src tcmu-runner/alua.c 673-678 tcmu_explicit_transition] *)
Fixpoint others_standby (n j i : nat) (alua_status : Z) (s : alua_st K) : option (alua_st K) :=
  match n with
  | O => Some s
  | S n =>
      s ← (if decide (j = i) then Some s
           else '(_, s) ← alua_set_state j ALUA_ACCESS_STATE_STANDBY alua_status s; Some s);
      others_standby n (S j) i alua_status s
  end.

(** [src tcmu-runner/alua.c tcmu_explicit_transition] *)
Definition tcmu_explicit_transition (i : nat) (new_state alua_status : Z) (s : alua_st K)
    : option (tcmu_sts * alua_st K) :=
  group ← al_grps s !! i;
  if negb (alua_check_sup_state new_state (supported_states group)) then Some (TCMU_STS_INVALID_PARAM_LIST, s)
  else if new_state =? ALUA_ACCESS_STATE_OPTIMIZED then
    if negb (failover_is_supported dev) then alua_set_state i new_state alua_status s
    else
      let '(ret, d) := tcmu_acquire_dev_lock true (grp_id group) (al_dev s) in
      let s := set_dev s d in
      match ret with
      | TCMU_STS_OK =>
          s ← others_standby (length (al_grps s)) 0 i alua_status s;
          alua_set_state i new_state alua_status s
      | TCMU_STS_HW_ERR => Some (TCMU_STS_EXPL_TRANSITION_ERR, s)
      | _ => Some (TCMU_STS_BUSY, s)
      end
  else if new_state =? ALUA_ACCESS_STATE_STANDBY then
    let s := if failover_is_supported dev then set_dev s (tcmu_release_dev_lock (al_dev s)) else s in
    alua_set_state i new_state alua_status s
  else Some (TCMU_STS_INVALID_PARAM_LIST, s).

(** The descriptors from offset [off] on; [e] is the place of the group with
    the enabled port.
    [src tcmu-runner/alua.c 725-769 tcmu_emulate_set_tgt_port_grps] *)
Fixpoint stpg_loop (fuel : nat) (buf : list Z) (off param_list_len : Z) (e : nat) (ret : tcmu_sts)
    (s : alua_st K) : option (tcmu_sts * alua_st K) :=
  if negb (off <? param_list_len) then Some (ret, s)
  else match fuel with
  | O => None
  | S fuel =>
      b ← bget1 buf (Z.to_nat off);
      let new_state := Z.land b 0x0f in
      idb ← bget buf (Z.to_nat (off + 2)) 2;
      let id := be_dec idb in
      match list_find (fun g => grp_id g = id) (al_grps s) with
      | None => Some (TCMU_STS_EXPL_TRANSITION_ERR, s)
      | Some (i, _) =>
          if negb (bool_decide (i = e)) then Some (TCMU_STS_HW_ERR, s)
          else
            '(ret, s) ← tcmu_explicit_transition i new_state ALUA_STAT_ALTERED_BY_EXPLICIT_STPG s;
            if negb (sts_ok ret) then Some (ret, s)
            else stpg_loop fuel buf (off + 4) param_list_len e ret s
      end
  end.

(** Memory suffices for the parameter list.
    [src tcmu-runner/alua.c tcmu_emulate_set_tgt_port_grps] *)
Definition tcmu_emulate_set_tgt_port_grps (cmd : tcmulib_cmd) (m : mem) (s : alua_st K)
    : option (tcmu_sts * alua_st K) :=
  param_list_len ← tcmu_get_xfer_length (cdb cmd);
  match tcmu_get_enabled_port (al_grps s) with
  | None => Some (TCMU_STS_INVALID_CMD, s)
  | Some (e, _) =>
      if param_list_len =? 0 then Some (TCMU_STS_OK, s)
      else
        '(buf, _, copied) ← tcmu_memcpy_from_iovec m (zeros (Z.to_nat param_list_len)) param_list_len
                              (cmd_iovec cmd) (iov_cnt cmd);
        if negb (copied =? param_list_len) then Some (TCMU_STS_INVALID_PARAM_LIST_LEN, s)
        else stpg_loop (Z.to_nat param_list_len) buf 4 param_list_len e TCMU_STS_OK s
  end.
End commands.

(** ** The check before a command *)

(** [spawn_ok]: whether the lock thread can be created.
    [src tcmu-runner/alua.c alua_implicit_transition] *)
Definition alua_implicit_transition (spawn_ok : bool) (rdev : tcmur_device) : tcmu_sts * tcmur_device :=
  match lock_state rdev with
  | LOCKED => (TCMU_STS_OK, rdev)
  | LOCKING => (TCMU_STS_TRANSITION, rdev)
  | UNLOCKED =>
      if spawn_ok then (TCMU_STS_TRANSITION, set_lock rdev LOCKING)
      else (TCMU_STS_IMPL_TRANSITION_ERR, set_lock rdev UNLOCKED)
  end.

(** [src tcmu-runner/alua.c alua_check_state] *)
Definition alua_check_state (dev : tcmu_device) (spawn_ok : bool) (rdev : tcmur_device)
    : tcmu_sts * tcmur_device :=
  if negb (failover_is_supported dev) then (TCMU_STS_OK, rdev)
  else match failover_type rdev with
  | FAILOVER_EXPLICIT =>
      (if bool_decide (lock_state rdev = LOCKED) then TCMU_STS_OK else TCMU_STS_FENCED, rdev)
  | FAILOVER_IMPLICIT => alua_implicit_transition spawn_ok rdev
  | FAILOVER_ALL_ACTIVE => (TCMU_STS_OK, rdev)
  end.

(** What the lock thread does.
    [src tcmu-runner/alua.c alua_lock_thread_fn] *)
Definition alua_lock_thread_fn (s : dst) : dst :=
  (tcmu_acquire_dev_lock false TCMU_ALUA_INVALID_GROUP_ID s).2.

(** Reading the groups sets the failover type and nothing else. *)
Definition sets_failover {A} (rdev : tcmur_device) (x : option (tcmur_device * A)) : Prop :=
  forall r g, x = Some (r, g) -> exists fo, r = set_failover rdev fo.

Lemma set_failover_same d : set_failover d (failover_type d) = d.
Proof. by destruct d. Qed.

Section failover_lemmas.
Context {K : Type} {HK : Kernel K} (dev : tcmu_device) (nm : dev_names).

Lemma with_int_failover (k : K) rdev name st f :
  (forall v, sets_failover rdev (f v)) -> sets_failover rdev (with_int nm k rdev name st f).
Proof.
  intros Hf r g. unfold with_int. destruct (tcmu_get_alua_int_setting _ _ _ _) as [v|]; [|done].
  cbn [mbind option_bind]. case_if; [|apply Hf].
  intros [= <- <-]. exists (failover_type rdev). by rewrite set_failover_same.
Qed.

Lemma alua_grp_failover (k : K) rdev name : sets_failover rdev (tcmu_get_alua_grp dev nm k rdev name).
Proof.
  unfold tcmu_get_alua_grp. do 13 (apply with_int_failover; intros ?). intros r g.
  assert (exists fo, rdev = set_failover rdev fo) as Hr
    by (exists (failover_type rdev); by rewrite set_failover_same).
  destruct (tcmu_get_alua_str_setting nm k name (str "alua_access_status")) as [s|]; [|done].
  cbn [mbind option_bind]. destruct (s ≫= grp_access_status) as [st|]; [|by intros [= <- <-]].
  destruct (tcmu_get_alua_str_setting nm k name (str "alua_access_type")) as [ty|]; [|done].
  cbn [mbind option_bind]. destruct (ty ≫= grp_access_type dev) as [[fo tp]|]; [|by intros [= <- <-]].
  destruct (tcmu_get_alua_str_setting nm k name (str "members")) as [ms|]; [|done]. cbn [mbind option_bind].
  destruct (grp_members _ _) as [ps|]; [|done]. cbn [mbind option_bind]. intros [= <- <-]. by exists fo.
Qed.

Lemma alua_grps_failover (k : K) rdev : sets_failover rdev (tcmu_get_alua_grps dev nm k rdev).
Proof.
  assert (forall rdev, exists fo, rdev = set_failover rdev fo) as Hr
    by (intros d; exists (failover_type d); by rewrite set_failover_same).
  unfold tcmu_get_alua_grps. destruct (k_scandir _ _) as [names|]; [|by intros r g [= <- <-]].
  revert rdev. induction names as [|name names IH]; intros rdev r g; cbn [alua_grps_loop]; [by intros [= <- <-]|].
  case_if; [apply IH|].
  destruct (tcmu_get_alua_grp dev nm k rdev name) as [[rd gr]|] eqn:Eg; [|done]. cbn [mbind option_bind].
  apply alua_grp_failover in Eg as [fo ->]. destruct gr as [gr|]; [|by intros [= <- <-]; exists fo].
  destruct (alua_grps_loop dev nm k _ names) as [[rd2 l]|] eqn:El; [|done]. cbn [mbind option_bind].
  intros [= <- _]. destruct (IH _ _ _ El) as [fo' ->]. by exists fo'.
Qed.
End failover_lemmas.

(** ** Changing states, when the kernel takes them *)

Definition accepts {K} {HK : Kernel K} : Prop := forall (k : K) p v, (k_write k p v).2 = None.

(** What synchronising with the lock holder [tag] makes of a group. *)
Definition synced (tag : Z) (g : alua_grp) : alua_grp :=
  let st := if tag =? grp_id g then ALUA_ACCESS_STATE_OPTIMIZED else ALUA_ACCESS_STATE_STANDBY in
  if st =? grp_state g then g else set_access g st ALUA_STAT_ALTERED_BY_IMPLICIT_ALUA.

Lemma synced_state tag g : grp_state (synced tag g) = ALUA_ACCESS_STATE_OPTIMIZED <-> grp_id g = tag.
Proof.
  unfold synced. destruct (Z.eqb_spec tag (grp_id g)) as [E|E].
  - destruct (Z.eqb_spec ALUA_ACCESS_STATE_OPTIMIZED (grp_state g)); by split.
  - destruct (Z.eqb_spec ALUA_ACCESS_STATE_STANDBY (grp_state g)) as [Es|Es]; [rewrite <- Es|]; by split; [|congruence].
Qed.

Section accepting.
Context {K : Type} {HK : Kernel K} (dev : tcmu_device) (nm : dev_names) (Hacc : accepts (K := K)).

Lemma set_setting_accepted k name setting v : 0 <= v < 10 ^ 19 ->
  exists k', tcmu_set_alua_int_setting nm k name setting v = Some (k', 0).
Proof.
  intros Hv. unfold tcmu_set_alua_int_setting. rewrite set_cfgfs_ul_small by done. unfold tcmu_set_cfgfs_str.
  pose proof (Hacc k (alua_path nm name setting) (dec v ++ [0])) as E.
  destruct (k_write k _ _) as [k' r]. cbn in E. subst r. by eexists.
Qed.

Lemma set_state_accepted i st status s g :
  al_grps s !! i = Some g -> 0 <= st < 10 ^ 19 -> 0 <= status < 10 ^ 19 ->
  exists k', alua_set_state nm i st status s =
    Some (TCMU_STS_OK, AluaSt (<[i := set_access g st status]> (al_grps s)) (al_dev s) k').
Proof.
  intros Hg H1 H2. unfold alua_set_state. rewrite Hg. cbn [mbind option_bind].
  destruct (set_setting_accepted (al_k s) (grp_name g) (str "alua_access_state") st H1) as [k1 ->].
  cbn [mbind option_bind]. change (negb (0 =? 0)) with false. cbv iota.
  destruct (set_setting_accepted k1 (grp_name g) (str "alua_access_status") status H2) as [k2 ->]. cbn. by eexists.
Qed.

(** The device after the synchronisation of the groups [gs]. *)
Definition dropped (tag eid : Z) (gs : list alua_grp) (d : dst) : dst :=
  if existsb (fun g => negb (tag =? grp_id g) && (eid =? grp_id g)) gs && bool_decide (lock_state (d_rdev d) = LOCKED)
  then upd d (fun r => set_lock r UNLOCKED) else d.

Lemma sync_loop_spec tag eid gs : forall pre s,
  al_grps s = pre ++ gs ->
  exists k', sync_loop nm (length gs) (length pre) tag eid s =
    Some (AluaSt (pre ++ map (synced tag) gs) (dropped tag eid gs (al_dev s)) k').
Proof.
  induction gs as [|g gs IH]; intros pre s Es; cbn [sync_loop length map].
  - destruct s as [l d k]. cbn in *. subst l. rewrite app_nil_r. unfold dropped. cbn. by eexists.
  - rewrite Es, list_lookup_middle by done. cbn [mbind option_bind].
    set (b := negb (tag =? grp_id g) && (eid =? grp_id g)).
    set (s1 := if b && _ then _ else s).
    assert (al_grps s1 = pre ++ g :: gs) as Es1 by (unfold s1; destruct (b && _); exact Es).
    assert (dropped tag eid gs (al_dev s1) = dropped tag eid (g :: gs) (al_dev s)) as Ed.
    { unfold s1, dropped. cbn [existsb]. fold b. destruct b; cbn [andb orb]; [|done].
      destruct (bool_decide (lock_state (d_rdev (al_dev s)) = LOCKED)) eqn:Hl.
      - cbn [al_dev set_dev]. rewrite bool_decide_eq_false_2 by done. by rewrite andb_false_r.
      - rewrite Hl. by rewrite andb_false_r. }
    clearbody s1. rewrite <- Ed. clear Ed Es s.
    destruct ((if tag =? grp_id g then _ else _) =? grp_state g) eqn:Ek.
    + cbn [mbind option_bind]. specialize (IH (pre ++ [g]) s1). rewrite length_app, Nat.add_1_r, <- !app_assoc in IH.
      destruct (IH Es1) as [k' E]. exists k'. rewrite E. unfold synced at 2. by rewrite Ek.
    + assert (exists k1, alua_set_state nm (length pre)
        (if tag =? grp_id g then ALUA_ACCESS_STATE_OPTIMIZED else ALUA_ACCESS_STATE_STANDBY)
        ALUA_STAT_ALTERED_BY_IMPLICIT_ALUA s1 =
        Some (TCMU_STS_OK, AluaSt (pre ++ synced tag g :: gs) (al_dev s1) k1)) as [k1 E1].
      { edestruct (set_state_accepted (length pre)) as [k1 E1];
          [rewrite Es1; by apply list_lookup_middle| | |exists k1; rewrite E1].
        - by case_if.
        - done.
        - rewrite Es1. do 3 f_equal. rewrite insert_app_r_alt, Nat.sub_diag by done. cbn. unfold synced. by rewrite Ek. }
      rewrite E1. cbn [mbind option_bind].
      specialize (IH (pre ++ [synced tag g]) (AluaSt (pre ++ synced tag g :: gs) (al_dev s1) k1)).
      rewrite length_app, Nat.add_1_r, <- !app_assoc in IH. exact (IH eq_refl).
Qed.
End accepting.

(** ** The response of REPORT TARGET PORT GROUPS *)

(** The target port descriptor and the group descriptor of SPC-4. *)
Definition port_desc (p : tgt_port) : list Z :=
  [0; 0; Z.land (Z.shiftr (rel_port_id p) 8) 0xff; Z.land (rel_port_id p) 0xff].

Definition grp_desc (g : alua_grp) : list Z :=
  [Z.lor (if grp_pref g then 0x80 else 0) (grp_state g); supported_states g;
   Z.land (Z.shiftr (grp_id g) 8) 0xff; Z.land (grp_id g) 0xff; 0; grp_status g; 0; num_tgt_ports g]
  ++ concat (map port_desc (tgt_ports g)).

Definition grps_desc (gs : list alua_grp) : list Z := concat (map grp_desc gs).

Record grp_ok (g : alua_grp) : Prop := {
  go_state : 0 <= grp_state g < 128;
  go_sup : 0 <= supported_states g < 256;
  go_status : 0 <= grp_status g < 256;
  go_ports : num_tgt_ports g = Z.of_nat (length (tgt_ports g)) /\ num_tgt_ports g < 256
}.

Lemma land_ff_bound z : 0 <= Z.land z 0xff < 256.
Proof. change 0xff with (Z.ones 8). rewrite Z.land_ones by lia. apply (Z.mod_pos_bound z (2 ^ 8)). lia. Qed.

Lemma length_ports_desc ps : length (concat (map port_desc ps)) = (4 * length ps)%nat.
Proof. induction ps as [|p ps IH]; [done|]. cbn [map concat]. rewrite length_app, IH. cbn. lia. Qed.

Lemma length_grp_desc g : grp_ok g -> Z.of_nat (length (grp_desc g)) = 8 + num_tgt_ports g * 4.
Proof. intros [_ _ _ [E _]]. unfold grp_desc. rewrite length_app, length_ports_desc, E. cbn [length]. lia. Qed.

(** Storing a byte of a group's descriptor. *)
Lemma bset1_at pre n k c t v : length pre = n -> 0 <= v < 256 ->
  forall l, length l = k -> bset1 (pre ++ l ++ c :: t) (n + k) v = Some (pre ++ l ++ v :: t).
Proof.
  intros <- Hv l <-. unfold bset1. rewrite u8_small by done. rewrite bset_app_r.
  rewrite <- (Nat.add_0_r (length l)), bset_app_r. by rewrite bset_0_1.
Qed.

Lemma bget1_at pre n k c t : length pre = n ->
  forall l, length l = k -> bget1 (pre ++ l ++ c :: t) (n + k) = Some c.
Proof. intros <- l <-. rewrite bget1_app_r. unfold bget1. by apply list_lookup_middle. Qed.

Lemma rtpg_ports_spec ps : forall pre n len,
  (4 * length ps <= n)%nat -> 0 <= len -> len + 4 * Z.of_nat (length ps) < 2 ^ 32 ->
  rtpg_ports ps (pre ++ zeros n) (Z.of_nat (length pre)) len =
    Some ((pre ++ concat (map port_desc ps)) ++ zeros (n - 4 * length ps),
          Z.of_nat (length pre) + 4 * Z.of_nat (length ps), len + 4 * Z.of_nat (length ps)).
Proof.
  induction ps as [|p ps IH]; intros pre n len Hn H0 Hlen.
  - cbn. rewrite app_nil_r, Nat.sub_0_r, !Z.add_0_r. done.
  - cbn [length] in *. destruct n as [|[|[|[|n]]]]; try lia. cbn [rtpg_ports].
    replace (Z.to_nat (Z.of_nat (length pre) + 2)) with (length pre + 2)%nat by lia.
    change (zeros (S (S (S (S n))))) with ([0; 0] ++ 0 :: 0 :: zeros n).
    rewrite (bset1_at pre (length pre) 2) by (done || apply land_ff_bound). cbn [mbind option_bind].
    replace (Z.to_nat (Z.of_nat (length pre) + 2 + 1)) with (length pre + 3)%nat by lia.
    set (hi := Z.land (Z.shiftr _ _) _). change ([0; 0] ++ hi :: 0 :: zeros n) with ([0; 0; hi] ++ 0 :: zeros n).
    rewrite (bset1_at pre (length pre) 3) by (done || apply land_ff_bound). cbn [mbind option_bind].
    rewrite u32_small by lia. specialize (IH (pre ++ port_desc p) n (len + 4) ltac:(lia) ltac:(lia) ltac:(lia)).
    rewrite length_app in IH. cbn [length port_desc] in IH. fold hi in IH. rewrite <- app_assoc in IH. cbn [app] in *.
    replace (Z.of_nat (length pre) + 2 + 1 + 1) with (Z.of_nat (length pre + 4)) by lia.
    change (0 :: 0 :: hi :: _ :: zeros n) with (port_desc p ++ zeros n). rewrite IH.
    cbn [map concat]. rewrite <- !app_assoc.
    replace (S (S (S (S n))) - 4 * S (length ps))%nat with (n - 4 * length ps)%nat by lia.
    f_equal. f_equal; [f_equal|]; lia.
Qed.

(** The fixed part goes in front of the port descriptors. *)
Lemma rtpg_fixed_spec g pre r : grp_ok g ->
  exists h, rtpg_fixed g (pre ++ zeros (8 + r)) (Z.of_nat (length pre)) = Some (pre ++ h ++ zeros r) /\
  length h = 8%nat /\ grp_desc g = h ++ concat (map port_desc (tgt_ports g)).
Proof.
  intros [H1 H2 H3 [H4 H5]]. unfold rtpg_fixed, grp_desc. eexists; split; [|split; [|reflexivity]]; [|reflexivity].
  change (zeros (8 + r)) with ([] ++ 0 :: [0; 0; 0; 0; 0; 0; 0] ++ zeros r).
  set (p0 := if grp_pref g then 0x80 else 0).
  assert ((if grp_pref g then bset1 (pre ++ [] ++ 0 :: [0; 0; 0; 0; 0; 0; 0] ++ zeros r) (Z.to_nat (Z.of_nat (length pre))) 128
           else Some (pre ++ [] ++ 0 :: [0; 0; 0; 0; 0; 0; 0] ++ zeros r)) =
          Some (pre ++ [] ++ p0 :: [0; 0; 0; 0; 0; 0; 0] ++ zeros r)) as ->.
  { unfold p0. destruct (grp_pref g); [|done]. rewrite Nat2Z.id, <- (Nat.add_0_r (length pre)) at 1.
    by rewrite (bset1_at pre (length pre) 0). }
  assert (0 <= Z.lor p0 (grp_state g) < 256) as Hb0.
  { unfold p0. destruct (grp_pref g); [|rewrite Z.lor_0_l; lia].
    change 128 with (Z.shiftl 1 7). rewrite (lor_shiftl_low 1 (grp_state g) 7) by lia. lia. }
  cbn [mbind option_bind]. set (l := length pre).
  assert (forall j k, j = Z.of_nat k -> Z.to_nat (Z.of_nat l + j) = (l + k)%nat) as Hj by (intros; lia).
  rewrite Nat2Z.id. rewrite <- (Nat.add_0_r l) at 1. rewrite (bget1_at pre l 0) by done. cbn [mbind option_bind].
  rewrite <- (Nat.add_0_r l) at 1. rewrite (bset1_at pre l 0) by done. cbn [mbind option_bind].
  set (b0 := Z.lor p0 (grp_state g)) in *.
  rewrite (Hj 1 1%nat eq_refl). change ([] ++ b0 :: [0; 0; 0; 0; 0; 0; 0] ++ zeros r) with ([b0] ++ 0 :: [0; 0; 0; 0; 0; 0] ++ zeros r).
  rewrite (bget1_at pre l 1) by done. cbn [mbind option_bind]. rewrite Z.lor_0_l.
  rewrite (bset1_at pre l 1) by done. cbn [mbind option_bind].
  set (b1 := supported_states g) in *.
  rewrite (Hj 2 2%nat eq_refl). change ([b0] ++ b1 :: [0; 0; 0; 0; 0; 0] ++ zeros r) with ([b0; b1] ++ 0 :: [0; 0; 0; 0; 0] ++ zeros r).
  rewrite (bset1_at pre l 2) by (done || apply land_ff_bound). cbn [mbind option_bind].
  set (b2 := Z.land (Z.shiftr (grp_id g) 8) 255).
  rewrite (Hj 3 3%nat eq_refl). change ([b0; b1] ++ b2 :: [0; 0; 0; 0; 0] ++ zeros r) with ([b0; b1; b2] ++ 0 :: [0; 0; 0; 0] ++ zeros r).
  rewrite (bset1_at pre l 3) by (done || apply land_ff_bound). cbn [mbind option_bind].
  set (b3 := Z.land (grp_id g) 255).
  rewrite (Hj 5 5%nat eq_refl). change ([b0; b1; b2] ++ b3 :: [0; 0; 0; 0] ++ zeros r) with ([b0; b1; b2; b3; 0] ++ 0 :: [0; 0] ++ zeros r).
  rewrite (bset1_at pre l 5) by done. cbn [mbind option_bind].
  set (b5 := grp_status g) in *.
  rewrite (Hj 7 7%nat eq_refl). change ([b0; b1; b2; b3; 0] ++ b5 :: [0; 0] ++ zeros r) with ([b0; b1; b2; b3; 0; b5; 0] ++ 0 :: zeros r).
  by rewrite (bset1_at pre l 7) by (done || lia).
Qed.

Lemma rtpg_groups_spec gs : forall pre n len alloc,
  Forall grp_ok gs -> (length (grps_desc gs) <= n)%nat -> Z.of_nat (length pre + n) = alloc -> alloc < 2 ^ 32 ->
  0 <= len -> len + Z.of_nat (length (grps_desc gs)) < 2 ^ 32 ->
  rtpg_groups gs alloc (pre ++ zeros n) (Z.of_nat (length pre)) len =
    Some (pre ++ grps_desc gs ++ zeros (n - length (grps_desc gs)), len + Z.of_nat (length (grps_desc gs))).
Proof.
  induction gs as [|g gs IH]; intros pre n len alloc Hok Hn Ha H32 H0 Hlen.
  - cbn. by rewrite Nat.sub_0_r, Z.add_0_r.
  - inversion Hok as [|? ? Hg Hok']; subst. unfold grps_desc in *. cbn [map concat] in *. rewrite length_app in *.
    pose proof (length_grp_desc g Hg) as Lg. pose proof (go_ports g Hg) as [H4 H5]. cbn [rtpg_groups].
    rewrite u32_small by lia. rewrite (proj2 (Z.ltb_ge _ _)) by lia.
    destruct (rtpg_fixed_spec g pre (n - 8) Hg) as (h & Eh & Lh & Eg).
    replace (8 + (n - 8))%nat with n in Eh by lia. rewrite Eh. cbn [mbind option_bind].
    set (r := (n - 8)%nat) in *. set (l := length pre).
    rewrite Eg, length_app, length_ports_desc in Lg. rewrite Eg, length_app, length_ports_desc in Hn, Hlen.
    rewrite Lh in Lg, Hn, Hlen. rewrite u32_small by lia.
    pose proof (rtpg_ports_spec (tgt_ports g) (pre ++ h) r (len + 8) ltac:(lia) ltac:(lia) ltac:(lia)) as Ep.
    rewrite length_app in Ep. rewrite Lh in Ep. rewrite <- (app_assoc pre h (zeros r)) in Ep.
    replace (Z.of_nat (length pre + 8)) with (Z.of_nat l + 8) in Ep by lia.
    rewrite Ep. clear Ep.
    cbn [mbind option_bind]. rewrite <- (app_assoc pre h (concat _)), <- Eg.
    specialize (IH (pre ++ grp_desc g) (r - 4 * length (tgt_ports g))%nat
      (len + 8 + 4 * Z.of_nat (length (tgt_ports g))) _ Hok' ltac:(lia) eq_refl).
    assert (length (grp_desc g) = 8 + 4 * length (tgt_ports g))%nat as Lg2
      by (rewrite Eg, length_app, length_ports_desc, Lh; reflexivity).
    rewrite length_app, Lg2 in IH. unfold l in *.
    replace (Z.of_nat (length pre) + 8 + 4 * Z.of_nat (length (tgt_ports g)))
      with (Z.of_nat (length pre + (8 + 4 * length (tgt_ports g)))) by lia.
    replace (Z.of_nat (length pre + n))
      with (Z.of_nat (length pre + (8 + 4 * length (tgt_ports g)) + (r - 4 * length (tgt_ports g)))) by lia.
    rewrite IH by lia. rewrite <- !app_assoc. rewrite Lg2.
    f_equal. f_equal; [|lia]. f_equal. f_equal. f_equal. f_equal. lia.
Qed.

(** Who holds the lock, by the handler's answer. *)
Definition holder (r : tcmu_sts * Z) : Z :=
  match r.1 with TCMU_STS_OK => r.2 | _ => TCMU_ALUA_INVALID_GROUP_ID end.

Lemma get_lock_tag_answer t0 s r :
  failover_type (d_rdev s) = FAILOVER_EXPLICIT -> head (a_tag (d_ans s)) = Some r ->
  r.1 = TCMU_STS_OK \/ r.1 = TCMU_STS_NO_LOCK_HOLDERS ->
  exists d, tcmu_get_lock_tag t0 s = (r, d) /\ d_rdev d = d_rdev s.
Proof.
  intros Hfo Hr Hrs. unfold tcmu_get_lock_tag. rewrite decide_True by done. cbn [get_tag_loop].
  destruct (next_tag s) as [[ret tag] d] eqn:E. unfold next_tag in E. rewrite Hr in E. cbn in E.
  injection E as -> <-. exists (DSt (d_rdev s) (Answers (a_wait (d_ans s)) (a_lock (d_ans s)) (tail (a_tag (d_ans s)))
    (a_open (d_ans s)) (a_recov (d_ans s)) (a_thread (d_ans s))) (d_log s ++ [EvGetTag ret])).
  cbn in Hrs. by destruct Hrs as [-> | ->].
Qed.

(** Synchronisation with a handler that answers. *)
Lemma alua_sync_state_spec {K} {HK : Kernel K} dev nm eid (s : alua_st K) r :
  accepts (K := K) -> failover_type (d_rdev (al_dev s)) = FAILOVER_EXPLICIT ->
  has_get_lock_tag (rhandler dev) = true -> head (a_tag (d_ans (al_dev s))) = Some r ->
  r.1 = TCMU_STS_OK \/ r.1 = TCMU_STS_NO_LOCK_HOLDERS ->
  exists d k', d_rdev d = d_rdev (al_dev s) /\
    alua_sync_state dev nm eid s =
      Some (TCMU_STS_OK, AluaSt (map (synced (holder r)) (al_grps s)) (dropped (holder r) eid (al_grps s) d) k').
Proof.
  intros Hacc Hfo Htag Hr Hrs.
  destruct (get_lock_tag_answer TCMU_ALUA_INVALID_GROUP_ID _ r Hfo Hr Hrs) as (d & Ed & Hd).
  destruct (sync_loop_spec nm Hacc (holder r) eid (al_grps s) [] (set_dev s d) eq_refl) as [k' Es].
  exists d, k'. split; [done|]. unfold alua_sync_state. rewrite Hfo, bool_decide_eq_true_2, Htag by done. cbn [negb orb].
  rewrite Ed. destruct r as [ret tag]. cbn [length app al_dev set_dev] in Es. cbn [fst] in Hrs.
  destruct Hrs as [-> | ->]; cbn [holder fst snd] in Es |- *; cbn [al_grps set_dev]; by rewrite Es.
Qed.

Lemma synced_ok tag g : grp_ok g -> grp_ok (synced tag g).
Proof.
  intros [H1 H2 H3 H4]. unfold synced. case_match; [by constructor|]. constructor; cbn; try done. by destruct (tag =? grp_id g).
Qed.

Lemma length_synced_desc tag gs : Forall grp_ok gs ->
  Forall grp_ok (map (synced tag) gs) /\ length (grps_desc (map (synced tag) gs)) = length (grps_desc gs).
Proof.
  unfold grps_desc. induction 1 as [|g gs Hg _ [IH1 IH2]]; [by split|]. cbn [map concat]. rewrite !length_app, IH2. split.
  - constructor; [by apply synced_ok|done].
  - f_equal. apply Nat2Z.inj. rewrite !length_grp_desc by (try apply synced_ok; done).
    unfold synced. by case_match.
Qed.

Definition rtpg_response (alloc : Z) (gs : list alua_grp) : list Z :=
  let body := grps_desc gs in
  be_enc 4 (Z.of_nat (length body)) ++ body ++ zeros (Z.to_nat alloc - 4 - length body).


(** A kernel that takes every write and shows nothing. *)
#[export] Instance accept_all : Kernel unit :=
  {| k_read _ _ := inl 2; k_write _ _ _ := (tt, None); k_exists _ _ := true; k_scandir _ _ := None |}.

Definition ha_handler : tcmur_handler := Handler false true true true true true true 1.
Definition ha_dev : tcmu_device := Dev 64 512 128 0 0 true false [] None ha_handler.
Definition ha_names : dev_names := DevNames (str "user_1") (str "disk").
Definition ha_groups : list alua_grp :=
  [Grp 0 5 0x20 1 0 false 1 (str "local") 1 [Port 1 5 (str "iqn.a") true 1 (str "iscsi")];
   Grp 2 5 0x20 1 0 false 2 (str "remote") 1 [Port 2 5 (str "iqn.a") false 2 (str "iscsi")]].
Definition ha_state (lock : lock_status) (locks : list tcmu_sts) (tags : list (tcmu_sts * Z)) : alua_st unit :=
  AluaSt ha_groups (DSt (Rdev false true false false FAILOVER_EXPLICIT lock 0)
    (Answers [] locks tags [] [] UNLOCKED) []) tt.
Definition rtpg_cmd : tcmulib_cmd :=
  Cmd 1 [0xa3; 0x0a; 0; 0; 0; 0; 0; 0; 0; 40; 0; 0] [Iov (Ptr 0 0) 40] 1 (zeros 96).


(** ** What SET TARGET PORT GROUPS does *)

Lemma others_standby_spec {K} {HK : Kernel K} nm i status (Hacc : accepts (K := K)) (Hst : 0 <= status < 10 ^ 19) n :
  forall j (s : alua_st K), (j + n = length (al_grps s))%nat ->
  exists gs k', others_standby nm n j i status s = Some (AluaSt gs (al_dev s) k') /\
    (forall x g, al_grps s !! x = Some g ->
       gs !! x = Some (if decide ((j <= x)%nat /\ x <> i) then set_access g ALUA_ACCESS_STATE_STANDBY status else g)).
Proof.
  induction n as [|n IH]; intros j s Hl; cbn [others_standby].
  - exists (al_grps s), (al_k s). split; [by destruct s|]. intros x g Hg. rewrite decide_False; [done|].
    apply lookup_lt_Some in Hg. lia.
  - destruct (lookup_lt_is_Some_2 (al_grps s) j ltac:(lia)) as [gj Hj]. case_decide as Hji.
    + subst j. cbn [mbind option_bind]. destruct (IH (S i) s ltac:(lia)) as (gs & k' & E & H). exists gs, k'.
      split; [done|]. intros x g Hg. rewrite (H x g Hg). destruct (decide (x = i)); repeat case_decide; try done; lia.
    + destruct (set_state_accepted nm Hacc j ALUA_ACCESS_STATE_STANDBY status s gj Hj ltac:(done) Hst) as [k1 E1].
      rewrite E1. cbn [mbind option_bind].
      destruct (IH (S j) (AluaSt (<[j := set_access gj ALUA_ACCESS_STATE_STANDBY status]> (al_grps s)) (al_dev s) k1))
        as (gs & k' & E & H); [cbn; rewrite length_insert; lia|].
      exists gs, k'. split; [done|]. intros x g Hg. destruct (decide (x = j)) as [->|Hx].
      * rewrite (H j (set_access gj ALUA_ACCESS_STATE_STANDBY status)); [|cbn; apply list_lookup_insert_eq; by apply lookup_lt_Some in Hj].
        rewrite decide_False by lia. rewrite decide_True by lia. congruence.
      * rewrite (H x g) by (cbn; by rewrite list_lookup_insert_ne). repeat case_decide; try done; lia.
Qed.

(** A parameter list with one descriptor. *)
Lemma stpg_one {K} {HK : Kernel K} dev nm (cmd : tcmulib_cmd) m (s : alua_st K) e port par :
  tcmu_get_xfer_length (cdb cmd) = Some 8 -> tcmu_get_enabled_port (al_grps s) = Some (e, port) ->
  gather m (cmd_iovec cmd) = Some par -> length par = 8%nat -> iov_cnt cmd = Z.of_nat (length (cmd_iovec cmd)) ->
  tcmu_emulate_set_tgt_port_grps dev nm cmd m s = stpg_loop dev nm 8 par 4 8 e TCMU_STS_OK s.
Proof.
  intros Hx He Hg Hl Hc. unfold tcmu_emulate_set_tgt_port_grps. rewrite Hx, He. cbn [mbind option_bind].
  change (8 =? 0) with false. cbv iota.
  destruct (gather_whole m (cmd_iovec cmd) par Hg) as [iov' E]. rewrite Hl in E. rewrite Hc.
  change (Z.to_nat 8) with 8%nat. change (Z.of_nat 8) with 8 in E. rewrite E. cbn [mbind option_bind].
  by change (negb (8 =? 8)) with false.
Qed.


Definition stpg_cmd (len : Z) : tcmulib_cmd :=
  Cmd 1 [0xa4; 0x0a; 0; 0; 0; 0; 0; 0; 0; len; 0; 0] [Iov (Ptr 0 0) len] 1 (zeros 96).


(** The parameter list of SET TARGET PORT GROUPS is read past its end.  A
    list whose length is not a multiple of four leaves an incomplete descriptor,
    whose group id is read from after the end of the buffer that was allocated
    for the list. *)
Theorem stpg_overread {K} {HK : Kernel K} (dev : tcmu_device) (nm : dev_names) (cmd : tcmulib_cmd) (m : mem)
    (s : alua_st K) (e : nat) (port : tgt_port) (par : list Z) (len : Z)
  (Hlen : 4 < len < 8) (Hx : tcmu_get_xfer_length (cdb cmd) = Some len)
  (He : tcmu_get_enabled_port (al_grps s) = Some (e, port))
  (Hg : gather m (cmd_iovec cmd) = Some par) (Hl : Z.of_nat (length par) = len)
  (Hc : iov_cnt cmd = Z.of_nat (length (cmd_iovec cmd))) :
  tcmu_emulate_set_tgt_port_grps dev nm cmd m s = None.
Proof.
  unfold tcmu_emulate_set_tgt_port_grps. rewrite Hx, He. cbn [mbind option_bind].
  rewrite (proj2 (Z.eqb_neq len 0)) by lia. destruct (gather_whole m (cmd_iovec cmd) par Hg) as [iov' E].
  rewrite <- Hl, Nat2Z.id, Hc, E. cbn [mbind option_bind]. rewrite Z.eqb_refl. cbn [negb].
  destruct (length par) as [|f] eqn:El; [lia|]. cbn [stpg_loop]. rewrite (proj2 (Z.ltb_lt _ _)) by lia. cbn [negb].
  change (Z.to_nat 4) with 4%nat. change (Z.to_nat (4 + 2)) with 6%nat.
  destruct (bget1 par 4); [|done]. cbn [mbind option_bind]. unfold bget. by rewrite decide_False by lia.
Qed.

Lemma stpg_overread_witness :
  tcmu_emulate_set_tgt_port_grps ha_dev ha_names (stpg_cmd 6) {[ 0%nat := [0; 0; 0; 0; 2; 0] ]}
    (ha_state UNLOCKED [] []) = None.
Proof.
  apply (stpg_overread ha_dev ha_names (stpg_cmd 6) {[ 0%nat := [0; 0; 0; 0; 2; 0] ]} (ha_state UNLOCKED [] []) 0
    (Port 1 5 (str "iqn.a") true 1 (str "iscsi")) [0; 0; 0; 0; 2; 0] 6); try reflexivity. lia.
Defined.
