(* ===== verification/Recovery.v ===== *)
(** * The recovery of target port groups

    The second half of [target.c]: a device that lost its backend is put on the
    list of the port group it is exported through, and one thread per group
    disables the group, reopens its devices and enables the group again.  The
    threads interleave at the operations that [tpg_recovery_lock] or the
    kernel serialise. *)

From S2P Require Import Prelude Scsi Device Backstore Rdev Configfs Target Alua.

Definition ENOMEM : Z := 12.

(** [devs] holds the numbers of the devices to recover, the last added first.
    [src tcmu-runner/target.c 44-54 struct tgt_port_grp] *)
Record tgt_port_grp := Tpg { g_wwn : list Z; g_fabric : list Z; g_tpgt : Z; g_devs : list nat }.

(** [src tcmu-runner/target.c port_is_on_tgt_port_grp] *)
Definition port_is_on_tgt_port_grp (port : tgt_port) (tpg : tgt_port_grp) : bool :=
  bool_decide (fabric port = g_fabric tpg) && bool_decide (port_wwn port = g_wwn tpg)
  && (tpgt port =? g_tpgt tpg).

(** Where a thread is: before [enable] is cleared; with the result of that,
    still on the list; reopening the remaining devices. *)
Inductive phase := Disabling | Disabled (ret : Z) | Reopening (rest : list nat) (enable_tpg : bool).

Definition on_list (p : phase) : bool := match p with Reopening _ _ => false | _ => true end.

(** Groups are named by numbers (their addresses); a group exists as long as
    its thread does. *)
Record world (K : Type) := World {
  w_list : list nat;
  w_grps : gmap nat (tgt_port_grp * phase);
  w_devs : gmap nat dst;
  w_k : K
}.
Arguments World {K}. Arguments w_list {K}. Arguments w_grps {K}. Arguments w_devs {K}. Arguments w_k {K}.

Section recovery.
Context {K : Type} {HK : Kernel K} (dev_of : nat -> tcmu_device) (nm_of : nat -> dev_names).

(** The outer [None] is an access to a group that was freed.
    [src tcmu-runner/target.c port_is_on_recovery_list] *)
Fixpoint port_is_on_recovery_list (grps : gmap nat (tgt_port_grp * phase)) (l : list nat) (port : tgt_port)
    : option (option nat) :=
  match l with
  | [] => Some None
  | i :: l =>
      '(tpg, _) ← grps !! i;
      if port_is_on_tgt_port_grp port tpg then Some (Some i) else port_is_on_recovery_list grps l port
  end.

(** The ports of all groups, in order: the first group on the list that one of
    them belongs to, or the last enabled port.
    [src tcmu-runner/target.c 313-327 tcmu_add_dev_to_recovery_list] *)
Fixpoint scan_ports (w : world K) (ports : list tgt_port) (enabled_port : option tgt_port)
    : option (nat + option tgt_port) :=
  match ports with
  | [] => Some (inr enabled_port)
  | port :: ports =>
      let enabled_port := if port_enabled port then Some port else enabled_port in
      i ← port_is_on_recovery_list (w_grps w) (w_list w) port;
      match i with
      | Some i => Some (inl i)
      | None => scan_ports w ports enabled_port
      end
  end.

(** [src tcmu-runner/target.c setup_tgt_port_grp] *)
Definition setup_tgt_port_grp (mem_ok : bool) (port : tgt_port) : option tgt_port_grp :=
  if mem_ok then Some (Tpg (port_wwn port) (fabric port) (tpgt port) []) else None.

(** [src tcmu-runner/target.c 344-345 tcmu_add_dev_to_recovery_list] *)
Definition add_to_list (i u : nat) (w : world K) : option (world K) :=
  '(tpg, ph) ← w_grps w !! i;
  Some (World (w_list w)
    (<[i := (Tpg (g_wwn tpg) (g_fabric tpg) (g_tpgt tpg) (u :: g_devs tpg), ph)]> (w_grps w)) (w_devs w) (w_k w)).

(** [new] is the address of a new group; [spawn] the result of
    [pthread_create].  The device record changes because reading the groups sets
    the failover type; all failures to read them are [-1] here.
    [src tcmu-runner/target.c tcmu_add_dev_to_recovery_list] *)
Definition tcmu_add_dev_to_recovery_list (u new : nat) (mem_ok : bool) (spawn : Z) (rdev : tcmur_device)
    (w : world K) : option (world K * tcmur_device * Z) :=
  '(rdev, gs) ← tcmu_get_alua_grps (dev_of u) (nm_of u) (w_k w) rdev;
  match gs with
  | None => Some (w, rdev, -1)
  | Some gs =>
      r ← scan_ports w (concat (map tgt_ports gs)) None;
      match r with
      | inl i => w ← add_to_list i u w; Some (w, rdev, 0)
      | inr None => Some (w, rdev, - EIO)
      | inr (Some port) =>
          match setup_tgt_port_grp mem_ok port with
          | None => Some (w, rdev, - ENOMEM)
          | Some tpg =>
              if negb (spawn =? 0) then Some (w, rdev, spawn)
              else
                w ← add_to_list new u
                      (World (new :: w_list w) (<[new := (tpg, Disabling)]> (w_grps w)) (w_devs w) (w_k w));
                Some (w, rdev, 0)
          end
      end
  end.

(** [tcmu_notify_conn_lost] with the list for its answer.
    [src tcmu-runner/tcmur_device.c tcmu_notify_conn_lost] *)
Definition conn_lost (u new : nat) (mem_ok : bool) (spawn : Z) (w : world K) : option (world K) :=
  s ← w_devs w !! u;
  if stopping (d_rdev s) || in_recovery (d_rdev s) then Some w
  else
    '(w, rdev, r) ← tcmu_add_dev_to_recovery_list u new mem_ok spawn (d_rdev s) w;
    let rdev := if r =? 0 then set_recovery rdev true else rdev in
    Some (World (w_list w) (w_grps w) (<[u := upd s (fun _ => rdev)]> (w_devs w)) (w_k w)).

(** [src tcmu-runner/target.c tcmu_set_tpg_int] *)
Definition tcmu_set_tpg_int (k : K) (tpg : tgt_port_grp) (name : list Z) (val : Z) : option (K * Z) :=
  tcmu_set_cfgfs_ul k (path (CFGFS_ROOT ++ str "/" ++ g_fabric tpg ++ str "/" ++ g_wwn tpg ++
    str "/tpgt_" ++ dec (g_tpgt tpg) ++ str "/" ++ name)) val.

(** One step of the thread of a group.
    [src tcmu-runner/target.c tgt_port_grp_recovery_thread_fn] *)
Definition tgt_port_grp_recovery_thread_fn (i : nat) (w : world K) : option (world K) :=
  '(tpg, ph) ← w_grps w !! i;
  match ph with
  | Disabling =>
      '(k, ret) ← tcmu_set_tpg_int (w_k w) tpg (str "enable") 0;
      Some (World (w_list w) (<[i := (tpg, Disabled ret)]> (w_grps w)) (w_devs w) k)
  | Disabled ret =>
      Some (World (filter (fun j => j <> i) (w_list w))
        (<[i := (tpg, Reopening (g_devs tpg) (negb (ret <? 0)))]> (w_grps w)) (w_devs w) (w_k w))
  | Reopening (u :: rest) enable =>
      s ← w_devs w !! u;
      let '(ret, s) := __tcmu_reopen_dev false (-1) s in
      let enable := if negb (ret =? 0) && negb (stopping (d_rdev s)) then false else enable in
      Some (World (w_list w) (<[i := (tpg, Reopening rest enable)]> (w_grps w)) (<[u := s]> (w_devs w)) (w_k w))
  | Reopening [] enable =>
      '(k, _) ← (if enable then tcmu_set_tpg_int (w_k w) tpg (str "enable") 1 else Some (w_k w, 0));
      Some (World (w_list w) (delete i (w_grps w)) (w_devs w) k)
  end.
End recovery.

(** ** The system *)

Section system.
Context {K : Type} {HK : Kernel K} (dev_of : nat -> tcmu_device) (nm_of : nat -> dev_names).

Definition put_dev (u : nat) (s : dst) (w : world K) : world K :=
  World (w_list w) (w_grps w) (<[u := s]> (w_devs w)) (w_k w).

(** A lost connection, a step of a group's thread, a lock thread that reopens
    its device, the rest of the daemon (which leaves the recovery flag alone),
    and other writers of configfs. *)
Inductive rstep : world K -> world K -> Prop :=
| rs_lost u new mem_ok spawn w w' :
    w_grps w !! new = None ->
    conn_lost dev_of nm_of u new mem_ok spawn w = Some w' -> rstep w w'
| rs_thread i w w' : tgt_port_grp_recovery_thread_fn i w = Some w' -> rstep w w'
| rs_reopen u retries w s : w_devs w !! u = Some s -> rstep w (put_dev u (tcmu_reopen_dev true retries s).2 w)
| rs_device u s s' w :
    w_devs w !! u = Some s -> in_recovery (d_rdev s') = in_recovery (d_rdev s) -> rstep w (put_dev u s' w)
| rs_kernel w k : rstep w (World (w_list w) (w_grps w) (w_devs w) k).

(** No recovery is running. *)
Definition quiescent (w : world K) : Prop :=
  w_list w = [] /\ w_grps w = ∅ /\ forall u s, w_devs w !! u = Some s -> in_recovery (d_rdev s) = false.

(** The devices that a thread has still to reopen. *)
Definition pending (g : tgt_port_grp * phase) : list nat :=
  match g.2 with Reopening rest _ => rest | _ => g_devs g.1 end.

Definition recovering (w : world K) (u : nat) : Prop :=
  exists s, w_devs w !! u = Some s /\ in_recovery (d_rdev s) = true.

Record recovery_inv (w : world K) : Prop := {
  rv_list : NoDup (w_list w);
  rv_on : forall i, i ∈ w_list w <-> exists g, w_grps w !! i = Some g /\ on_list g.2 = true;
  rv_nodup : forall i g, w_grps w !! i = Some g -> NoDup (pending g);
  rv_disj : forall i j gi gj u, w_grps w !! i = Some gi -> w_grps w !! j = Some gj ->
    u ∈ pending gi -> u ∈ pending gj -> i = j;
  rv_rec : forall u, recovering w u <-> exists i g, w_grps w !! i = Some g /\ u ∈ pending g
}.

Lemma quiescent_inv w : quiescent w -> recovery_inv w.
Proof.
  intros (Hl & Hg & Hd). split; rewrite ?Hl, ?Hg.
  - constructor.
  - intros i. rewrite elem_of_nil. split; [done|]. by intros (g & Hi & _).
  - done.
  - done.
  - intros u. split; [|by intros (i & g & Hi & _)]. intros (s & Hs & Hr). apply Hd in Hs. congruence.
Qed.

(** ** The operations *)

(** Reading the groups leaves the flag alone. *)
Definition keeps {A} (rdev : tcmur_device) (x : option (tcmur_device * A)) : Prop :=
  forall r g, x = Some (r, g) -> in_recovery r = in_recovery rdev.

Lemma alua_grps_keeps dev nm k rdev : keeps rdev (tcmu_get_alua_grps dev nm k rdev).
Proof. intros r g H. by destruct (alua_grps_failover _ _ _ _ _ _ H) as [fo ->]. Qed.

(** A group found on the list is one of the list. *)
Lemma on_recovery_list grps l port i : port_is_on_recovery_list grps l port = Some (Some i) -> i ∈ l.
Proof.
  induction l as [|j l IH]; cbn [port_is_on_recovery_list]; [done|].
  destruct (grps !! j) as [[tpg ph]|]; [|done]. cbn [mbind option_bind].
  case_if; [intros [= <-]; left|]. intros H. right. auto.
Qed.

Lemma scan_ports_on_list (w : world K) ports en i : scan_ports w ports en = Some (inl i) -> i ∈ w_list w.
Proof.
  revert en. induction ports as [|p ports IH]; intros en; cbn [scan_ports]; [done|].
  destruct (port_is_on_recovery_list _ _ _) as [[j|]|] eqn:E; [|apply IH|done]. cbn [mbind option_bind].
  intros [= <-]. by eapply on_recovery_list.
Qed.

Lemma reopen_not_recovering il retries s : in_recovery (d_rdev (__tcmu_reopen_dev il retries s).2) = false.
Proof.
  unfold __tcmu_reopen_dev. destruct (next_wait s) as [r s']. case_if; [done|]. case_if; [done|].
  by destruct (open_loop _ _ _ _ _) as [[? ?] ?].
Qed.

Lemma tcmu_reopen_recovering il retries s :
  in_recovery (d_rdev (tcmu_reopen_dev il retries s).2) = in_recovery (d_rdev s).
Proof.
  unfold tcmu_reopen_dev. destruct (in_recovery (d_rdev s)) eqn:E; [done|]. apply reopen_not_recovering.
Qed.

Lemma recovering_put u s (w : world K) v :
  recovering (put_dev u s w) v <-> if decide (v = u) then in_recovery (d_rdev s) = true else recovering w v.
Proof.
  unfold recovering, put_dev. cbn [w_devs]. case_decide as E; [subst|by setoid_rewrite (lookup_insert_ne _ u v s); [|done]].
  setoid_rewrite lookup_insert_eq. split; [by intros (x & [= <-] & Hx)|eauto].
Qed.

(** Changing a device but not its flag keeps the invariant. *)
Lemma put_dev_inv u s s' (w : world K) :
  w_devs w !! u = Some s -> in_recovery (d_rdev s') = in_recovery (d_rdev s) ->
  recovery_inv w -> recovery_inv (put_dev u s' w).
Proof.
  intros Hs Hr [H1 H2 H3 H4 H5]. split; try done. intros v. rewrite recovering_put, <- H5.
  case_decide as E; [subst v|done]. unfold recovering. rewrite Hs, Hr. split; [eauto|by intros (x & [= <-] & Hx)].
Qed.

(** Putting a device that is not in recovery on the list of a group whose
    thread has not taken its devices yet. *)
Lemma add_inv i u s rdev (w w' : world K) :
  i ∈ w_list w -> w_devs w !! u = Some s -> in_recovery (d_rdev s) = false ->
  add_to_list i u w = Some w' -> recovery_inv w ->
  recovery_inv (put_dev u (upd s (fun _ => set_recovery rdev true)) w').
Proof.
  intros Hi Hs Hr Hadd [H1 H2 H3 H4 H5]. unfold add_to_list in Hadd.
  apply H2 in Hi as ([tpg ph] & Hg & Hon). rewrite Hg in Hadd. cbn [mbind option_bind] in Hadd. injection Hadd as <-.
  set (g' := (Tpg (g_wwn tpg) (g_fabric tpg) (g_tpgt tpg) (u :: g_devs tpg), ph)).
  assert (pending g' = u :: pending (tpg, ph)) as Ep by (destruct ph; [done|done|discriminate Hon]).
  assert (forall j g, w_grps w !! j = Some g -> u ∉ pending g) as Hu.
  { intros j g Hj Hin. assert (recovering w u) as (s0 & Hs0 & Hr0) by (apply H5; eauto).
    rewrite Hs in Hs0. injection Hs0 as <-. congruence. }
  assert (forall j g v, <[i := g']> (w_grps w) !! j = Some g -> v ∈ pending g ->
    (v = u /\ j = i) \/ (v <> u /\ exists g0, w_grps w !! j = Some g0 /\ v ∈ pending g0)) as Hcase.
  { intros j g v. destruct (decide (j = i)) as [->|Hj].
    - rewrite lookup_insert_eq. intros [= <-]. rewrite Ep. intros [->|Hv]%elem_of_cons; [by left|].
      right. split; [|eauto]. intros ->. by apply (Hu _ _ Hg).
    - rewrite lookup_insert_ne by done. intros Hgj Hv. right. split; [|eauto]. intros ->. by apply (Hu _ _ Hgj). }
  split; cbn [put_dev w_list w_grps w_devs].
  - done.
  - intros j. rewrite H2. destruct (decide (j = i)) as [->|Hj].
    + setoid_rewrite lookup_insert_eq. split; intros _; eauto.
    + by setoid_rewrite (lookup_insert_ne _ i j g'); [|done].
  - intros j g. destruct (decide (j = i)) as [->|Hj].
    + rewrite lookup_insert_eq. intros [= <-]. rewrite Ep. constructor; eauto.
    + rewrite lookup_insert_ne by done. apply H3.
  - intros j k gj gk v Hj Hk Hvj Hvk.
    destruct (Hcase _ _ _ Hj Hvj) as [[-> ->]|[Hv (g1 & G1 & V1)]],
      (Hcase _ _ _ Hk Hvk) as [[E ->]|[Hv' (g2 & G2 & V2)]]; try done. by eapply H4.
  - intros v. rewrite recovering_put. case_decide as Hv; [subst v|].
    + split; intros _; [|done]. exists i, g'. cbn [w_grps]. rewrite lookup_insert_eq, Ep. split; [done|left].
    + change (recovering w v <-> exists j g, <[i := g']> (w_grps w) !! j = Some g /\ v ∈ pending g). rewrite H5. split.
      * intros (j & g & Hj & Hin). destruct (decide (j = i)) as [->|Hne].
        { rewrite Hg in Hj. injection Hj as <-. exists i, g'. rewrite lookup_insert_eq, Ep. split; [done|by right]. }
        exists j, g. by rewrite lookup_insert_ne.
      * intros (j & g & Hj & Hin). by destruct (Hcase _ _ _ Hj Hin) as [[-> _]|[_ (g0 & ? & ?)]]; eauto.
Qed.

(** A new group without devices. *)
Lemma new_group_inv new tpg (w : world K) :
  w_grps w !! new = None -> g_devs tpg = [] -> recovery_inv w ->
  recovery_inv (World (new :: w_list w) (<[new := (tpg, Disabling)]> (w_grps w)) (w_devs w) (w_k w)).
Proof.
  intros Hn Hd [H1 H2 H3 H4 H5].
  assert (forall j g v, <[new := (tpg, Disabling)]> (w_grps w) !! j = Some g -> v ∈ pending g ->
    w_grps w !! j = Some g) as Hcase.
  { intros j g v. destruct (decide (j = new)) as [->|Hj]; [|by rewrite lookup_insert_ne].
    rewrite lookup_insert_eq. intros [= <-]. unfold pending. simpl. rewrite Hd. by intros ?%elem_of_nil. }
  split; cbn [w_list w_grps w_devs].
  - constructor; [|done]. intros Hin. apply H2 in Hin as (g & Hg & _). congruence.
  - intros i. rewrite elem_of_cons, H2. destruct (decide (i = new)) as [->|Hi].
    + setoid_rewrite lookup_insert_eq. split; [eauto|by left].
    + setoid_rewrite (lookup_insert_ne _ new i (tpg, Disabling)); [|done]. split; [by intros [?|?]|by right].
  - intros i g. destruct (decide (i = new)) as [->|Hi].
    + rewrite lookup_insert_eq. intros [= <-]. unfold pending. simpl. rewrite Hd. constructor.
    + rewrite lookup_insert_ne by done. apply H3.
  - intros i j gi gj u Hi Hj Hui Huj. eapply H4; eauto.
  - intros u. change (recovering w u <-> exists i g, <[new := (tpg, Disabling)]> (w_grps w) !! i = Some g /\ u ∈ pending g).
    rewrite H5. split; intros (i & g & Hi & Hu); exists i, g; split; try done; [|by eapply Hcase].
    rewrite lookup_insert_ne; [done|]. intros ->. congruence.
Qed.

Lemma conn_lost_inv u new mem_ok spawn (w w' : world K) :
  w_grps w !! new = None -> conn_lost dev_of nm_of u new mem_ok spawn w = Some w' ->
  recovery_inv w -> recovery_inv w'.
Proof.
  intros Hnew H Hi. unfold conn_lost in H. destruct (w_devs w !! u) as [s|] eqn:Hs; [|done]. cbn [mbind option_bind] in H.
  destruct (stopping (d_rdev s) || in_recovery (d_rdev s)) eqn:Eg; [by injection H as <-|].
  apply orb_false_elim in Eg as [_ Hr]. unfold tcmu_add_dev_to_recovery_list in H.
  destruct (tcmu_get_alua_grps (dev_of u) (nm_of u) (w_k w) (d_rdev s)) as [[rdev gs]|] eqn:Ea; [|done].
  apply alua_grps_keeps in Ea. rewrite Hr in Ea. cbn [mbind option_bind] in H.
  assert (forall r, r <> 0 -> recovery_inv (World (w_list w) (w_grps w)
    (<[u := upd s (fun _ => if r =? 0 then set_recovery rdev true else rdev)]> (w_devs w)) (w_k w))) as Hfail.
  { intros r Hr0. rewrite (proj2 (Z.eqb_neq _ _)) by done. apply (put_dev_inv u s); [done| |done]. by cbn; rewrite Ea. }
  destruct gs as [gs|]; [|injection H as <-; by apply (Hfail (-1))].
  destruct (scan_ports w _ _) as [[i|[port|]]|] eqn:Esc; [| | |done]; cbn [mbind option_bind] in H.
  - destruct (add_to_list i u w) as [w1|] eqn:Eadd; [|done]. cbn in H. injection H as <-.
    apply (add_inv i u s rdev w w1); try done. by eapply scan_ports_on_list.
  - destruct (setup_tgt_port_grp mem_ok port) as [tpg|] eqn:Etpg; [|injection H as <-; by apply (Hfail (- ENOMEM))].
    destruct (negb (spawn =? 0)) eqn:Esp.
    + injection H as <-. apply Hfail. by zbool.
    + destruct (add_to_list new u _) as [w1|] eqn:Eadd; [|done]. cbn in H. injection H as <-.
      assert (g_devs tpg = []) as Hd by (unfold setup_tgt_port_grp in Etpg; destruct mem_ok; by simplify_eq).
      apply (add_inv new u s rdev (World (new :: w_list w) (<[new := (tpg, Disabling)]> (w_grps w)) (w_devs w) (w_k w)) w1);
        [left|done|done|done|by apply new_group_inv].
  - injection H as <-. by apply (Hfail (- EIO)).
Qed.

(** A change of a group that keeps its pending devices and its place. *)
Lemma set_phase_inv i g g' k (w : world K) :
  w_grps w !! i = Some g -> on_list g.2 = on_list g'.2 -> pending g' = pending g -> recovery_inv w ->
  recovery_inv (World (w_list w) (<[i := g']> (w_grps w)) (w_devs w) k).
Proof.
  intros Hg Hon Hp [H1 H2 H3 H4 H5].
  assert (forall j h, <[i := g']> (w_grps w) !! j = Some h ->
    exists h0, w_grps w !! j = Some h0 /\ pending h0 = pending h /\ on_list h0.2 = on_list h.2) as Hcase.
  { intros j h. destruct (decide (j = i)) as [->|Hj]; [|rewrite lookup_insert_ne by done; eauto].
    rewrite lookup_insert_eq. intros [= <-]. eauto. }
  assert (forall j h0, w_grps w !! j = Some h0 -> exists h, <[i := g']> (w_grps w) !! j = Some h /\
    pending h = pending h0 /\ on_list h.2 = on_list h0.2) as Hback.
  { intros j h. destruct (decide (j = i)) as [->|Hj]; [|rewrite lookup_insert_ne by done; eauto].
    rewrite lookup_insert_eq, Hg. intros [= <-]. eauto. }
  split; cbn [w_list w_grps w_devs].
  - done.
  - intros j. rewrite H2. split; intros (h & Hh & Ho).
    + destruct (Hback _ _ Hh) as (h' & Hh' & _ & E). exists h'. by rewrite E.
    + destruct (Hcase _ _ Hh) as (h' & Hh' & _ & E). exists h'. by rewrite E.
  - intros j h Hh. destruct (Hcase _ _ Hh) as (h' & Hh' & <- & _). by eapply H3.
  - intros j l gj gl v Hj Hl Hvj Hvl. destruct (Hcase _ _ Hj) as (h1 & A1 & E1 & _), (Hcase _ _ Hl) as (h2 & A2 & E2 & _).
    rewrite <- E1 in Hvj. rewrite <- E2 in Hvl. by eapply H4.
  - intros v. change (recovering w v <-> exists j h, <[i := g']> (w_grps w) !! j = Some h /\ v ∈ pending h).
    rewrite H5. split; intros (j & h & Hh & Hv).
    + destruct (Hback _ _ Hh) as (h' & Hh' & E & _). exists j, h'. by rewrite E.
    + destruct (Hcase _ _ Hh) as (h' & Hh' & E & _). exists j, h'. by rewrite E.
Qed.

(** The thread takes its group off the list. *)
Lemma off_list_inv i tpg ret en (w : world K) :
  w_grps w !! i = Some (tpg, Disabled ret) -> recovery_inv w ->
  recovery_inv (World (filter (fun j => j <> i) (w_list w)) (<[i := (tpg, Reopening (g_devs tpg) en)]> (w_grps w))
    (w_devs w) (w_k w)).
Proof.
  intros Hg [H1 H2 H3 H4 H5].
  assert (forall j h, <[i := (tpg, Reopening (g_devs tpg) en)]> (w_grps w) !! j = Some h ->
    exists h0, w_grps w !! j = Some h0 /\ pending h0 = pending h) as Hcase.
  { intros j h. destruct (decide (j = i)) as [->|Hj]; [|rewrite lookup_insert_ne by done; eauto].
    rewrite lookup_insert_eq. intros [= <-]. eauto. }
  split; cbn [w_list w_grps w_devs].
  - by apply NoDup_filter.
  - intros j. rewrite list_elem_of_filter. destruct (decide (j = i)) as [->|Hj].
    + setoid_rewrite lookup_insert_eq. split; [by intros []|]. by intros (h & [= <-] & Ho).
    + setoid_rewrite (lookup_insert_ne _ i j (tpg, Reopening (g_devs tpg) en)); [|done]. rewrite H2. tauto.
  - intros j h Hh. destruct (Hcase _ _ Hh) as (h' & Hh' & <-). by eapply H3.
  - intros j l gj gl v Hj Hl Hvj Hvl. destruct (Hcase _ _ Hj) as (h1 & A1 & E1), (Hcase _ _ Hl) as (h2 & A2 & E2).
    rewrite <- E1 in Hvj. rewrite <- E2 in Hvl. by eapply H4.
  - intros v. change (recovering w v <->
      exists j h, <[i := (tpg, Reopening (g_devs tpg) en)]> (w_grps w) !! j = Some h /\ v ∈ pending h).
    rewrite H5. split; intros (j & h & Hh & Hv).
    + destruct (decide (j = i)) as [->|Hj]; [|exists j, h; by rewrite lookup_insert_ne].
      exists i, (tpg, Reopening (g_devs tpg) en). rewrite lookup_insert_eq. rewrite Hg in Hh. by injection Hh as <-.
    + destruct (Hcase _ _ Hh) as (h' & Hh' & E). exists j, h'. by rewrite E.
Qed.

(** A device that its thread has reopened. *)
Lemma reopened_inv i u tpg rest en en' s (w : world K) :
  w_grps w !! i = Some (tpg, Reopening (u :: rest) en) -> in_recovery (d_rdev s) = false -> recovery_inv w ->
  recovery_inv (World (w_list w) (<[i := (tpg, Reopening rest en')]> (w_grps w)) (<[u := s]> (w_devs w)) (w_k w)).
Proof.
  intros Hg Hs [H1 H2 H3 H4 H5]. pose proof (H3 _ _ Hg) as Hnd. apply NoDup_cons in Hnd as [Hu Hnd].
  set (g' := (tpg, Reopening rest en')).
  assert (forall j h v, <[i := g']> (w_grps w) !! j = Some h -> v ∈ pending h ->
    v <> u /\ exists h0, w_grps w !! j = Some h0 /\ v ∈ pending h0) as Hcase.
  { intros j h v. destruct (decide (j = i)) as [->|Hj].
    - rewrite lookup_insert_eq. intros [= <-] Hv. split; [by intros ->|]. exists (tpg, Reopening (u :: rest) en).
      split; [done|]. by right.
    - rewrite lookup_insert_ne by done. intros Hh Hv. split; [|eauto]. intros ->. apply Hj.
      eapply (H4 j i); [exact Hh|exact Hg|exact Hv|left]. }
  split; cbn [w_list w_grps w_devs].
  - done.
  - intros j. rewrite H2. destruct (decide (j = i)) as [->|Hj].
    + setoid_rewrite lookup_insert_eq. rewrite Hg. split; by intros (h & [= <-] & Ho).
    + by setoid_rewrite (lookup_insert_ne _ i j g'); [|done].
  - intros j h. destruct (decide (j = i)) as [->|Hj]; [|rewrite lookup_insert_ne by done; apply H3].
    rewrite lookup_insert_eq. by intros [= <-].
  - intros j l gj gl v Hj Hl Hvj Hvl. destruct (Hcase _ _ _ Hj Hvj) as (_ & h1 & A1 & E1),
      (Hcase _ _ _ Hl Hvl) as (_ & h2 & A2 & E2). by eapply H4.
  - intros v. change (recovering (put_dev u s w) v <-> exists j h, <[i := g']> (w_grps w) !! j = Some h /\ v ∈ pending h).
    rewrite recovering_put. case_decide as Hv; [subst v|rewrite H5].
    + split; [congruence|]. intros (j & h & Hh & Hv). by destruct (Hcase _ _ _ Hh Hv).
    + split; intros (j & h & Hh & Hin); [|by destruct (Hcase _ _ _ Hh Hin) as (_ & h' & ? & ?); eauto].
      destruct (decide (j = i)) as [->|Hj]; [|exists j, h; by rewrite lookup_insert_ne].
      rewrite Hg in Hh. injection Hh as <-. apply elem_of_cons in Hin as [?|Hin]; [done|].
      exists i, g'. by rewrite lookup_insert_eq.
Qed.

(** The end of a thread. *)
Lemma group_done_inv i tpg en k (w : world K) :
  w_grps w !! i = Some (tpg, Reopening [] en) -> recovery_inv w ->
  recovery_inv (World (w_list w) (delete i (w_grps w)) (w_devs w) k).
Proof.
  intros Hg [H1 H2 H3 H4 H5]. split; cbn [w_list w_grps w_devs].
  - done.
  - intros j. rewrite H2. destruct (decide (j = i)) as [->|Hj].
    + setoid_rewrite lookup_delete_eq. rewrite Hg. split; [by intros (h & [= <-] & Ho)|by intros (h & ? & _)].
    + by setoid_rewrite (lookup_delete_ne _ i j); [|done].
  - intros j h [_ Hh]%lookup_delete_Some. by eapply H3.
  - intros j l gj gl v [_ Hj]%lookup_delete_Some [_ Hl]%lookup_delete_Some. by apply H4.
  - intros v. change (recovering w v <-> exists j h, delete i (w_grps w) !! j = Some h /\ v ∈ pending h).
    rewrite H5. split; intros (j & h & Hh & Hv); exists j, h; [|by apply lookup_delete_Some in Hh as [_ ?]].
    rewrite lookup_delete_ne; [done|]. intros ->. rewrite Hg in Hh. injection Hh as <-. by apply elem_of_nil in Hv.
Qed.

Lemma thread_inv i (w w' : world K) : tgt_port_grp_recovery_thread_fn i w = Some w' -> recovery_inv w -> recovery_inv w'.
Proof.
  intros H Hi. unfold tgt_port_grp_recovery_thread_fn in H.
  destruct (w_grps w !! i) as [[tpg ph]|] eqn:Hg; [|done]. cbn [mbind option_bind] in H.
  destruct ph as [|ret|[|u rest] en].
  - destruct (tcmu_set_tpg_int _ _ _ _) as [[k r]|]; [|done]. injection H as <-. by apply (set_phase_inv i (tpg, Disabling)).
  - injection H as <-. by eapply off_list_inv.
  - destruct en; [destruct (tcmu_set_tpg_int _ _ _ _) as [[k r]|]; [|done]|]; injection H as <-; by eapply group_done_inv.
  - destruct (w_devs w !! u) as [s|] eqn:Hs; [|done]. cbn [mbind option_bind] in H.
    pose proof (reopen_not_recovering false (-1) s) as Hr.
    destruct (__tcmu_reopen_dev false (-1) s) as [ret s']. injection H as <-. by eapply reopened_inv.
Qed.

Lemma rstep_inv (w w' : world K) : rstep w w' -> recovery_inv w -> recovery_inv w'.
Proof.
  destruct 1 as [u new m sp w w' Hn H|i w w' H|u n w s Hs|u s s' w Hs Hr|w k].
  - by eapply conn_lost_inv.
  - by eapply thread_inv.
  - apply (put_dev_inv u s); [done|]. apply tcmu_reopen_recovering.
  - by apply (put_dev_inv u s).
  - by intros [].
Qed.

(** ** What a thread achieves *)

(** Only the thread of group [i] runs, to its end. *)
Fixpoint run_thread (fuel : nat) (i : nat) (w : world K) : option (world K) :=
  match w_grps w !! i with
  | None => Some w
  | Some _ =>
      match fuel with
      | O => None
      | S fuel => w ← tgt_port_grp_recovery_thread_fn i w; run_thread fuel i w
      end
  end.

(** The devices after they were reopened, and whether none of them failed other
    than by being stopped. *)
Definition reopen1 (s : dst) : Z * dst := __tcmu_reopen_dev false (-1) s.
Definition reopened_ok (s : dst) : bool :=
  let '(ret, s) := reopen1 s in (ret =? 0) || stopping (d_rdev s).
Definition reopen_all (us : list nat) (ds : gmap nat dst) : gmap nat dst :=
  map_imap (fun u s => Some (if decide (u ∈ us) then (reopen1 s).2 else s)) ds.
Definition all_ok (us : list nat) (ds : gmap nat dst) : bool :=
  forallb (fun u => match ds !! u with Some s => reopened_ok s | None => false end) us.

Lemma reopen_all_lookup us ds u :
  reopen_all us ds !! u = (fun s => if decide (u ∈ us) then (reopen1 s).2 else s) <$> ds !! u.
Proof. unfold reopen_all. rewrite map_lookup_imap. by destruct (ds !! u). Qed.

Lemma reopen_all_cons u us ds s : u ∉ us -> ds !! u = Some s ->
  reopen_all us (<[u := (reopen1 s).2]> ds) = reopen_all (u :: us) ds.
Proof.
  intros Hu Hs. apply map_eq. intros v. rewrite !reopen_all_lookup. destruct (decide (v = u)) as [->|Hv].
  - rewrite lookup_insert_eq, Hs. simpl. rewrite decide_False by done. rewrite decide_True by left. done.
  - rewrite lookup_insert_ne by done. destruct (ds !! v); [|done]. simpl. f_equal.
    destruct (decide (v ∈ us)) as [H|H]; [rewrite decide_True by by right|rewrite decide_False by set_solver]; done.
Qed.

Lemma all_ok_insert u us ds s : u ∉ us -> all_ok us (<[u := s]> ds) = all_ok us ds.
Proof.
  intros Hu. unfold all_ok. induction us as [|v us IH]; [done|]. cbn [forallb].
  rewrite not_elem_of_cons in Hu. by rewrite lookup_insert_ne, IH by naive_solver.
Qed.

(** The kernel after [enable] was written. *)
Definition enabled_k (k : K) (tpg : tgt_port_grp) (val : Z) : K :=
  match tcmu_set_tpg_int k tpg (str "enable") val with Some (k, _) => k | None => k end.

Lemma set_enable k tpg val : val = 0 \/ val = 1 -> exists k' r, tcmu_set_tpg_int k tpg (str "enable") val = Some (k', r).
Proof.
  intros Hv. unfold tcmu_set_tpg_int, tcmu_set_cfgfs_ul. destruct Hv as [-> | ->]; cbn -[path tcmu_set_cfgfs_str str];
    by destruct (tcmu_set_cfgfs_str _ _ _) as [k' r]; exists k', r.
Qed.

Lemma run_reopening i tpg us : forall fuel en (w : world K),
  w_grps w !! i = Some (tpg, Reopening us en) -> NoDup us -> (forall u, u ∈ us -> is_Some (w_devs w !! u)) ->
  (length us < fuel)%nat ->
  run_thread fuel i w = Some (World (w_list w) (delete i (w_grps w)) (reopen_all us (w_devs w))
    (if en && all_ok us (w_devs w) then enabled_k (w_k w) tpg 1 else w_k w)).
Proof.
  induction us as [|u us IH]; intros fuel en w Hg Hnd Hd Hf; (destruct fuel as [|fuel]; [simpl in Hf; lia|]);
    cbn [run_thread]; rewrite Hg; unfold tgt_port_grp_recovery_thread_fn; rewrite Hg; cbn [mbind option_bind].
  - assert (reopen_all [] (w_devs w) = w_devs w) as ->.
    { apply map_eq. intros v. rewrite reopen_all_lookup. by destruct (w_devs w !! v). }
    destruct (set_enable (w_k w) tpg 1 ltac:(by right)) as (k & r & Ek). unfold enabled_k. rewrite Ek.
    destruct en; cbn [mbind option_bind andb all_ok forallb]; destruct fuel; cbn [run_thread w_grps];
      by rewrite lookup_delete_eq.
  - apply NoDup_cons in Hnd as [Hu Hnd]. destruct (Hd u) as [s Hs]; [left|]. rewrite Hs. cbn [mbind option_bind].
    fold (reopen1 s). destruct (reopen1 s) as [ret s'] eqn:Er. cbn [mbind option_bind].
    match goal with |- run_thread _ _ ?w2 = _ => rewrite (IH fuel
      (if negb (ret =? 0) && negb (stopping (d_rdev s')) then false else en) w2); [|apply lookup_insert_eq|done| |] end.
    2:{ intros v Hv. cbn [w_devs]. rewrite lookup_insert_ne; [apply Hd; by right|]. by intros ->. }
    2:{ simpl in Hf. lia. }
    cbn [w_list w_grps w_devs w_k]. rewrite delete_insert_eq, all_ok_insert by done.
    replace s' with (reopen1 s).2 at 1 by by rewrite Er. rewrite reopen_all_cons by done. f_equal. f_equal.
    unfold all_ok at 2. cbn [forallb]. rewrite Hs. unfold reopened_ok. rewrite Er. fold (all_ok us (w_devs w)).
    destruct (ret =? 0), (stopping (d_rdev s')), en; cbn [negb andb orb]; done.
Qed.

Lemma run_thread_step fuel i (w w' : world K) g :
  w_grps w !! i = Some g -> tgt_port_grp_recovery_thread_fn i w = Some w' ->
  run_thread (S fuel) i w = run_thread fuel i w'.
Proof. intros Hg Hs. cbn [run_thread]. by rewrite Hg, Hs. Qed.

(** From the start of a thread. *)
Lemma run_disabling i tpg (w : world K) :
  w_grps w !! i = Some (tpg, Disabling) -> NoDup (g_devs tpg) -> (forall u, u ∈ g_devs tpg -> is_Some (w_devs w !! u)) ->
  exists k ret, tcmu_set_tpg_int (w_k w) tpg (str "enable") 0 = Some (k, ret) /\
    run_thread (3 + length (g_devs tpg)) i w =
      Some (World (filter (fun j => j <> i) (w_list w)) (delete i (w_grps w)) (reopen_all (g_devs tpg) (w_devs w))
        (if negb (ret <? 0) && all_ok (g_devs tpg) (w_devs w) then enabled_k k tpg 1 else k)).
Proof.
  intros Hg Hnd Hd. destruct (set_enable (w_k w) tpg 0 ltac:(by left)) as (k & ret & Ek). exists k, ret. split; [done|].
  set (w1 := World (w_list w) (<[i := (tpg, Disabled ret)]> (w_grps w)) (w_devs w) k).
  assert (w_grps w1 !! i = Some (tpg, Disabled ret)) as Hg1 by apply lookup_insert_eq.
  change (3 + length (g_devs tpg))%nat with (S (S (S (length (g_devs tpg))))).
  rewrite (run_thread_step _ i w w1 _ Hg) by (unfold tgt_port_grp_recovery_thread_fn; rewrite Hg; cbn [mbind option_bind]; by rewrite Ek).
  erewrite (run_thread_step _ i w1 _ _ Hg1) by (unfold tgt_port_grp_recovery_thread_fn; by rewrite Hg1).
  rewrite (run_reopening i tpg (g_devs tpg) _ (negb (ret <? 0))).
  - unfold w1. cbn [w_list w_grps w_devs w_k]. by rewrite !delete_insert_eq.
  - cbn [w_grps]. apply lookup_insert_eq.
  - done.
  - done.
  - lia.
Qed.

Definition reachable_world (w : world K) : Prop := exists w0, quiescent w0 /\ rtc rstep w0 w.

Lemma reachable_world_inv w : reachable_world w -> recovery_inv w.
Proof.
  intros (w0 & H0 & Hr). apply quiescent_inv in H0. induction Hr as [|w1 w2 w3 Hs _ IH]; [done|].
  apply IH. by eapply rstep_inv.
Qed.
End system.



(** ** An execution *)

Definition ends_with (suf p : list Z) : bool := bool_decide (drop (length p - length suf) p = suf).

(** A kernel with one group of one port for every device; it keeps what was
    written. *)
#[export] Instance one_port : Kernel (list (list Z)) := {|
  k_read _ p :=
    if ends_with (str "members") p then inr (str "iSCSI/iqn.a/tpgt_1/lun_0" ++ [0])
    else if ends_with (str "alua_access_status") p then inr (str "None" ++ [10])
    else if ends_with (str "alua_access_type") p then inr (str "None" ++ [10])
    else inr (str "1" ++ [10]);
  k_write k _ val := (k ++ [val], None);
  k_exists _ _ := true;
  k_scandir _ _ := Some [str "default_tg_pt_gp"; str "ga"] |}.

Definition fresh_dev : dst :=
  DSt (Rdev false true false false FAILOVER_ALL_ACTIVE UNLOCKED 0) (Answers [] [] [] [] [] UNLOCKED) [].
Definition two_devs : world (list (list Z)) := World [] ∅ (<[1%nat := fresh_dev]> (<[0%nat := fresh_dev]> ∅)) [].
Definition lost_dev : dst := upd fresh_dev (fun d => set_recovery d true).
Definition two_tpg : tgt_port_grp := Tpg (str "iqn.a") (str "iscsi") 1 [1%nat; 0%nat].
Definition two_lost : world (list (list Z)) :=
  World [0%nat] (<[0%nat := (two_tpg, Disabling)]> ∅) (<[1%nat := lost_dev]> (<[0%nat := lost_dev]> ∅)) [].

Lemma two_lost_reachable : reachable_world (fun _ => ha_dev) (fun _ => ha_names) two_lost.
Proof.
  exists two_devs. split.
  { split; [done|]. split; [done|]. intros u s. unfold two_devs. cbn [w_devs].
    rewrite !lookup_insert_Some. intros [[_ <-]|[_ [[_ <-]|[_ []%lookup_empty_Some]]]]; done. }
  eapply rtc_l.
  { apply (rs_lost _ _ 0 0 true 0); [done|]. vm_compute. reflexivity. }
  eapply rtc_l; [|apply rtc_refl].
  apply (rs_lost _ _ 1 1 true 0); [done|]. vm_compute. reflexivity.
Qed.


