(* ===== verification/Dispatch.v ===== *)
(** * Command dispatch

    [tcmur_generic_handle_cmd] and what it calls: pending unit attentions, the
    format in progress, the handler's own [handle_cmd], the commands that are
    answered at once, and the commands that reach the backstore; the request
    tracking around them. *)

From S2P Require Import Prelude Scsi Iovec Sense Device Inquiry Mode Backstore FileBack Aio Rw RwSpec Unmap.
From S2P Require Import WriteSame Format Xcopy Rdev Configfs Target Alua.

Definition TCMUR_UA_DEV_SIZE_CHANGED : Z := 0.

(** ** RECEIVE COPY RESULTS *)

(** The operating parameters.
    [src tcmu-runner/tcmur_cmd_handler.c 1787-1896 handle_recv_copy_result] *)
Definition recv_copy_result_data : option (list Z) :=
  let buf := zeros 128 in
  buf ← bset1 buf 4 0x01;
  buf ← bset buf 8 (be_enc 2 RCR_OP_MAX_TARGET_DESC_COUNT);
  buf ← bset buf 10 (be_enc 2 RCR_OP_MAX_SEGMENT_DESC_COUNT);
  buf ← bset buf 12 (be_enc 4 RCR_OP_MAX_DESC_LIST_LEN);
  buf ← bset buf 16 (be_enc 4 RCR_OP_MAX_SEGMENT_LEN);
  buf ← bset buf 34 (be_enc 2 RCR_OP_TOTAL_CONCURR_COPIES);
  buf ← bset1 buf 36 RCR_OP_MAX_CONCURR_COPIES;
  buf ← bset1 buf 37 RCR_OP_DATA_SEG_GRAN_LOG2;
  buf ← bset1 buf 38 RCR_OP_INLINE_DATA_GRAN_LOG2;
  buf ← bset1 buf 39 RCR_OP_HELD_DATA_GRAN_LOG2;
  buf ← bset1 buf 43 RCR_OP_IMPLE_DES_LIST_LENGTH;
  buf ← bset1 buf 44 XCOPY_SEG_DESC_TYPE_CODE_B2B;
  buf ← bset1 buf 45 XCOPY_TARGET_DESC_TYPE_CODE_ID;
  bset buf 0 (be_enc 4 42).

(** [src tcmu-runner/tcmur_cmd_handler.c handle_recv_copy_result] *)
Definition handle_recv_copy_result (cmd : tcmulib_cmd) (m : mem) : emu_result :=
  reply_page m (cmd_iovec cmd) (iov_cnt cmd) recv_copy_result_data.

(** ** Opcodes *)

Definition op_in (op : Z) (l : list Z) : bool := existsb (Z.eqb op) l.

(** The commands that need the lock.
    [src tcmu-runner/tcmur_cmd_handler.c 2181-2205 tcmur_cmd_handler] *)
Definition media_cmd (op : Z) : bool :=
  op_in op [READ_6; READ_10; READ_12; READ_16; WRITE_6; WRITE_10; WRITE_12; WRITE_16; UNMAP;
            SYNCHRONIZE_CACHE; SYNCHRONIZE_CACHE_16; EXTENDED_COPY; COMPARE_AND_WRITE; WRITE_VERIFY;
            WRITE_VERIFY_16; WRITE_SAME; WRITE_SAME_16; FORMAT_UNIT].

(** [src tcmu-runner/tcmur_cmd_handler.c tcmur_handler_is_passthrough_only] *)
Definition tcmur_handler_is_passthrough_only (h : tcmur_handler) : bool :=
  negb (has_write h || has_read h || has_flush h).

(** ** Completion *)

(** The rest of [aio_command_finish] after the command is on the ring, when no
    other thread runs: the wake-ups.
    [src tcmu-runner/tcmur_cmd_handler.c 65-68 aio_command_finish] *)
Fixpoint wake_loop (fuel : nat) (wake_up : bool) (t : tcmu_track_aio) : option tcmu_track_aio :=
  if negb wake_up then Some t
  else match fuel with
  | O => None
  | S fuel => '(t, wake_up) ← track_aio_wakeup_finish t; wake_loop fuel wake_up t
  end.

Definition finish_tracking (t : tcmu_track_aio) : option tcmu_track_aio :=
  '(t, wake_up, _) ← track_aio_request_finish t true; wake_loop 2 wake_up t.

(** One completion after the other. *)
Fixpoint finish_all (n : nat) (t : tcmu_track_aio) : option tcmu_track_aio :=
  match n with O => Some t | S n => t ← finish_tracking t; finish_all n t end.

(** ** The state *)

(** What surrounds a command: the order in which workers run the pieces of
    UNMAP, whether a thread can be created and a buffer allocated, and the
    uninitialised contents of a buffer. *)
Record env := Env {
  e_order : list unmap_descriptor -> list unmap_descriptor;
  e_spawn : bool;
  e_mem_ok : bool;
  e_junk : list Z
}.

(** The backstores of all devices, memory and allocations; the runner's device;
    the state of a format; the tracked requests; the kernel's configuration. *)
Record rst (B K : Type) := RSt {
  r_x : xst (list B);
  r_dev : dst;
  r_fmt : format_dev;
  r_track : tcmu_track_aio;
  r_k : K
}.
Arguments RSt {B K}. Arguments r_x {B K}. Arguments r_dev {B K}. Arguments r_fmt {B K}.
Arguments r_track {B K}. Arguments r_k {B K}.

(** How a command ends: the status its handler returned and the statuses it
    was completed with asynchronously. *)
Record outcome (B K : Type) := Out {
  o_st : rst B K;
  o_sense : list Z;
  o_ret : tcmu_sts;
  o_done : list tcmu_sts
}.
Arguments Out {B K}. Arguments o_st {B K}. Arguments o_sense {B K}. Arguments o_ret {B K}. Arguments o_done {B K}.

Section state.
Context {B K : Type}.

Definition set_x (s : rst B K) (x : xst (list B)) : rst B K := RSt x (r_dev s) (r_fmt s) (r_track s) (r_k s).
Definition set_rdev (s : rst B K) (d : tcmur_device) : rst B K :=
  RSt (r_x s) (upd (r_dev s) (fun _ => d)) (r_fmt s) (r_track s) (r_k s).
Definition set_dst (s : rst B K) (d : dst) : rst B K := RSt (r_x s) d (r_fmt s) (r_track s) (r_k s).
Definition set_fmt (s : rst B K) (f : format_dev) : rst B K := RSt (r_x s) (r_dev s) f (r_track s) (r_k s).
Definition set_track (s : rst B K) (t : tcmu_track_aio) : rst B K := RSt (r_x s) (r_dev s) (r_fmt s) t (r_k s).
Definition set_rk (s : rst B K) (k : K) : rst B K := RSt (r_x s) (r_dev s) (r_fmt s) (r_track s) k.

(** A command of one device, seen from all. *)
Definition view (u : nat) (x : xst (list B)) : option (xst B) :=
  b ← x_bs x !! u; Some (XSt b (x_mem x) (x_alloc x) (x_caw x)).
Definition unview (u : nat) (x : xst (list B)) (y : xst B) : xst (list B) :=
  XSt (<[u := x_bs y]> (x_bs x)) (x_mem y) (x_alloc y) (x_caw y).

Definition ret_out (s : rst B K) (sense : list Z) (ret : tcmu_sts) : outcome B K := Out s sense ret [].

(** The answer of a handler function, as its caller sees it. *)
Definition of_fin (s : rst B K) (f : fin (list B)) : outcome B K :=
  if f_async f then Out (set_x s (f_x f)) (f_sense f) TCMU_STS_ASYNC_HANDLED [f_sts f]
  else Out (set_x s (f_x f)) (f_sense f) (f_sts f) [].

Definition fin_on (u : nat) (x : xst (list B)) (f : fin B) : fin (list B) :=
  Fin (unview u x (f_x f)) (f_sense f) (f_async f) (f_sts f).
End state.

Section dispatch.
Context {B K : Type} {HB : Backstore B} {HK : Kernel K}.
Context (devs : list tcmu_device) (u : nat) (nm : dev_names) (ev : env).
(** The handler's own [handle_cmd]: the state, the sense data, the status it
    returned and the statuses it completed the command with. *)
Context (handle_cmd : tcmulib_cmd -> xst B -> option (xst B * list Z * tcmu_sts * list tcmu_sts)).

(** ** Commands that reach the backstore *)

Definition run_fin (f : tcmu_device -> xst B -> option (fin B)) (s : rst B K) : option (outcome B K) :=
  dev ← devs !! u;
  x ← view u (r_x s);
  r ← f dev x;
  Some (of_fin s (fin_on u (r_x s) r)).

(** The pieces of an UNMAP run after it was submitted. *)
Definition run_unmap (sense : list Z) (f : tcmu_device -> xst B -> option (unmap_result B)) (s : rst B K)
    : option (outcome B K) :=
  dev ← devs !! u;
  x ← view u (r_x s);
  '(x, ret, st, q) ← f dev x;
  match st with
  | None => Some (Out (set_x s (unview u (r_x s) x)) sense ret [])
  | Some st =>
      '(x, replies) ← run_pieces (e_order ev q) x;
      l ← run_unmap_cbks st replies;
      Some (Out (set_x s (unview u (r_x s) x)) sense ret l)
  end.

(** The second switch.
    [src tcmu-runner/tcmur_cmd_handler.c 2208-2248 tcmur_cmd_handler] *)
Definition media_handler (cmd : tcmulib_cmd) (ret : tcmu_sts) (s : rst B K) : option (outcome B K) :=
  let op := byte_at (cdb cmd) 0 in
  if op_in op [READ_6; READ_10; READ_12; READ_16] then run_fin (fun dev => handle_read dev cmd) s
  else if op_in op [WRITE_6; WRITE_10; WRITE_12; WRITE_16] then run_fin (fun dev => handle_write dev cmd) s
  else if op =? UNMAP then run_unmap (sense_buf cmd) (fun dev => handle_unmap dev cmd) s
  else if op_in op [SYNCHRONIZE_CACHE; SYNCHRONIZE_CACHE_16] then
    dev ← devs !! u;
    if has_flush (rhandler dev) then run_fin (fun dev => handle_flush dev cmd) s
    else Some (ret_out s (sense_buf cmd) ret)
  else if op =? EXTENDED_COPY then f ← handle_xcopy devs u cmd (r_x s); Some (of_fin s f)
  else if op =? COMPARE_AND_WRITE then run_fin (fun dev => handle_caw dev cmd) s
  else if op_in op [WRITE_VERIFY; WRITE_VERIFY_16] then run_fin (fun dev => handle_write_verify dev cmd) s
  else if op_in op [WRITE_SAME; WRITE_SAME_16] then
    dev ← devs !! u;
    x ← view u (r_x s);
    r ← handle_writesame dev cmd x;
    match r with
    | inl f => Some (of_fin s (fin_on u (r_x s) f))
    | inr r => run_unmap (sense_buf cmd) (fun _ _ => Some r) s
    end
  else if op =? FORMAT_UNIT then
    dev ← devs !! u;
    x ← view u (r_x s);
    '(f, fmt) ← handle_format_unit dev cmd (r_fmt s) x;
    Some (of_fin (set_fmt s fmt) (fin_on u (r_x s) f))
  else Some (ret_out s (sense_buf cmd) TCMU_STS_NOT_HANDLED).

(** The end of a tracked command: a status returned to the caller finishes the
    request, and every asynchronous completion does.
    [src tcmu-runner/tcmur_cmd_handler.c 2250-2253 tcmur_cmd_handler] *)
Definition untrack (o : outcome B K) : option (outcome B K) :=
  t ← (if bool_decide (o_ret o = TCMU_STS_ASYNC_HANDLED) then Some (r_track (o_st o))
       else '(t, _, _) ← track_aio_request_finish (r_track (o_st o)) false; Some t);
  t ← finish_all (length (o_done o)) t;
  Some (Out (set_track (o_st o) t) (o_sense o) (o_ret o) (o_done o)).

(** [src tcmu-runner/tcmur_cmd_handler.c tcmur_cmd_handler] *)
Definition tcmur_cmd_handler (cmd : tcmulib_cmd) (s : rst B K) : option (outcome B K) :=
  let s := set_track s (track_aio_request_start (r_track s)) in
  if tcmu_dev_in_recovery (d_rdev (r_dev s)) then untrack (ret_out s (sense_buf cmd) TCMU_STS_BUSY)
  else
    dev ← devs !! u;
    let '(ret, s) :=
      if media_cmd (byte_at (cdb cmd) 0) then
        let '(ret, d) := alua_check_state dev (e_spawn ev) (d_rdev (r_dev s)) in (ret, set_rdev s d)
      else (TCMU_STS_NOT_HANDLED, s) in
    if media_cmd (byte_at (cdb cmd) 0) && negb (sts_ok ret) then untrack (ret_out s (sense_buf cmd) ret)
    else o ← media_handler cmd ret s; untrack o.

(** ** Commands answered at once *)

(** The groups of the device, and what reading them did to it. *)
Definition read_grps (s : rst B K) : option (rst B K * option (list alua_grp)) :=
  dev ← devs !! u;
  '(d, gs) ← tcmu_get_alua_grps dev nm (r_k s) (d_rdev (r_dev s));
  Some (set_rdev s d, gs).

(** [src tcmu-runner/tcmur_cmd_handler.c handle_stpg] *)
Definition handle_stpg (cmd : tcmulib_cmd) (s : rst B K) : option (outcome B K) :=
  '(s, gs) ← read_grps s;
  match gs with
  | None => Some (ret_out s (sense_buf cmd) TCMU_STS_HW_ERR)
  | Some gs =>
      dev ← devs !! u;
      '(ret, a) ← tcmu_emulate_set_tgt_port_grps dev nm cmd (x_mem (r_x s)) (AluaSt gs (r_dev s) (r_k s));
      Some (ret_out (set_rk (set_dst s (al_dev a)) (al_k a)) (sense_buf cmd) ret)
  end.

(** [src tcmu-runner/tcmur_cmd_handler.c handle_rtpg] *)
Definition handle_rtpg (cmd : tcmulib_cmd) (s : rst B K) : option (outcome B K) :=
  '(s, gs) ← read_grps s;
  match gs with
  | None => Some (ret_out s (sense_buf cmd) TCMU_STS_HW_ERR)
  | Some gs =>
      dev ← devs !! u;
      '(a, m, _, ret) ← tcmu_emulate_report_tgt_port_grps dev nm cmd (x_mem (r_x s)) (AluaSt gs (r_dev s) (r_k s));
      Some (ret_out (set_x (set_rk (set_dst s (al_dev a)) (al_k a)) (set_mem (r_x s) m)) (sense_buf cmd) ret)
  end.

(** An emulation routine that writes to the command's buffers. *)
Definition emulate (cmd : tcmulib_cmd) (s : rst B K) (r : emu_result) : option (outcome B K) :=
  '(m, _, ret) ← r; Some (ret_out (set_x s (set_mem (r_x s) m)) (sense_buf cmd) ret).

(** [src tcmu-runner/tcmur_cmd_handler.c handle_inquiry] *)
Definition handle_inquiry (cmd : tcmulib_cmd) (s : rst B K) : option (outcome B K) :=
  '(s, gs) ← read_grps s;
  match gs with
  | None => Some (ret_out s (sense_buf cmd) TCMU_STS_HW_ERR)
  | Some gs =>
      dev ← devs !! u;
      let port := '(i, p) ← tcmu_get_enabled_port gs; g ← gs !! i; Some (g, p) in
      emulate cmd s (tcmu_emulate_inquiry dev port (cdb cmd) (x_mem (r_x s)) (cmd_iovec cmd) (iov_cnt cmd))
  end.

(** [src tcmu-runner/tcmur_cmd_handler.c handle_sync_cmd] *)
Definition handle_sync_cmd (cmd : tcmulib_cmd) (s : rst B K) : option (outcome B K) :=
  let op := byte_at (cdb cmd) 0 in
  let b1 := byte_at (cdb cmd) 1 in
  let m := x_mem (r_x s) in
  let iov := cmd_iovec cmd in
  let cnt := iov_cnt cmd in
  let not_handled := Some (ret_out s (sense_buf cmd) TCMU_STS_NOT_HANDLED) in
  dev ← devs !! u;
  let num_lbas := tcmu_get_dev_num_lbas dev in
  let block_size := tcmu_get_dev_block_size dev in
  if op =? INQUIRY then handle_inquiry cmd s
  else if op =? TEST_UNIT_READY then emulate cmd s (tcmu_emulate_test_unit_ready m iov)
  else if op =? SERVICE_ACTION_IN_16 then
    if b1 =? READ_CAPACITY_16 then emulate cmd s (tcmu_emulate_read_capacity_16 num_lbas block_size m iov cnt)
    else not_handled
  else if op =? READ_CAPACITY then
    if negb (Z.land b1 0x01 =? 0) || negb (Z.land (byte_at (cdb cmd) 8) 0x01 =? 0)
    then Some (ret_out s (sense_buf cmd) TCMU_STS_INVALID_CDB)
    else emulate cmd s (tcmu_emulate_read_capacity_10 num_lbas block_size m iov cnt)
  else if op_in op [MODE_SENSE; MODE_SENSE_10] then
    emulate cmd s (tcmu_emulate_mode_sense dev (cdb cmd) (e_mem_ok ev) m iov cnt)
  else if op =? START_STOP then Some (ret_out s (sense_buf cmd) (tcmu_emulate_start_stop (cdb cmd)))
  else if op_in op [MODE_SELECT; MODE_SELECT_10] then
    emulate cmd s (tcmu_emulate_mode_select dev (cdb cmd) (e_junk ev) m iov cnt)
  else if op =? RECEIVE_COPY_RESULTS then
    if Z.land b1 0x1f =? RCR_SA_OPERATING_PARAMETERS then emulate cmd s (handle_recv_copy_result cmd m)
    else not_handled
  else if op =? MAINTENANCE_OUT then
    if b1 =? MO_SET_TARGET_PGS then handle_stpg cmd s else not_handled
  else if op =? MAINTENANCE_IN then
    if Z.land b1 0x1f =? MI_REPORT_TARGET_PGS then handle_rtpg cmd s else not_handled
  else not_handled.

(** ** The handler's own commands *)

Definition run_handle_cmd (cmd : tcmulib_cmd) (s : rst B K) : option (outcome B K) :=
  x ← view u (r_x s);
  '(x, sense, ret, l) ← handle_cmd cmd x;
  Some (Out (set_x s (unview u (r_x s) x)) sense ret l).

(** [src tcmu-runner/tcmur_cmd_handler.c handle_try_passthrough] *)
Definition handle_try_passthrough (cmd : tcmulib_cmd) (s : rst B K) : option (outcome B K) :=
  dev ← devs !! u;
  if negb (has_handle_cmd (rhandler dev)) then Some (ret_out s (sense_buf cmd) TCMU_STS_NOT_HANDLED)
  else
    let s := set_track s (track_aio_request_start (r_track s)) in
    o ← (if tcmu_dev_in_recovery (d_rdev (r_dev s)) then Some (ret_out s (sense_buf cmd) TCMU_STS_BUSY)
         else run_handle_cmd cmd s);
    untrack o.

(** The callout runs in the caller's context or on a worker, which completes
    the command itself with a status other than [TCMU_STS_OK].
    [src tcmu-runner/tcmur_cmd_handler.c 2113-2125 handle_passthrough] *)
Definition handle_passthrough (cmd : tcmulib_cmd) (s : rst B K) : option (outcome B K) :=
  dev ← devs !! u;
  if nr_threads (rhandler dev) =? 0 then
    o ← run_handle_cmd cmd s;
    Some (if sts_ok (o_ret o) then Out (o_st o) (o_sense o) TCMU_STS_ASYNC_HANDLED (o_done o) else o)
  else
    let '(ok, x) := x_try (r_x s) in
    let s := set_x s x in
    if negb ok then Some (ret_out s (sense_buf cmd) TCMU_STS_NO_RESOURCE)
    else
      o ← run_handle_cmd cmd s;
      Some (Out (o_st o) (o_sense o) TCMU_STS_ASYNC_HANDLED
              (if sts_ok (o_ret o) then o_done o else o_done o ++ [o_ret o])).

(** [src tcmu-runner/tcmur_cmd_handler.c tcmur_cmd_passthrough_handler] *)
Definition tcmur_cmd_passthrough_handler (cmd : tcmulib_cmd) (s : rst B K) : option (outcome B K) :=
  dev ← devs !! u;
  if negb (has_handle_cmd (rhandler dev)) then Some (ret_out s (sense_buf cmd) TCMU_STS_NOT_HANDLED)
  else if nr_threads (rhandler dev) =? 0 then run_handle_cmd cmd s
  else o ← handle_passthrough cmd (set_track s (track_aio_request_start (r_track s))); untrack o.

(** ** Unit attentions *)

(** [ffs(n) - 1]: the lowest bit of a number other than zero. *)
Definition lowest_bit (n : Z) : Z := Z.log2 (Z.land n (- n)).

(** [src tcmu-runner/tcmur_cmd_handler.c handle_pending_ua] *)
Definition handle_pending_ua (cmd : tcmulib_cmd) (d : tcmur_device) : tcmu_sts * tcmur_device :=
  let op := byte_at (cdb cmd) 0 in
  if (op =? INQUIRY) || (op =? REQUEST_SENSE) then (TCMU_STS_NOT_HANDLED, d)
  else if pending_uas d =? 0 then (TCMU_STS_NOT_HANDLED, d)
  else
    let ua := lowest_bit (pending_uas d) in
    (if ua =? TCMUR_UA_DEV_SIZE_CHANGED then TCMU_STS_CAPACITY_CHANGED else TCMU_STS_NOT_HANDLED,
     set_uas d (Z.ldiff (pending_uas d) (Z.shiftl 1 ua))).

(** ** All commands *)

Definition handled (o : outcome B K) : bool := negb (bool_decide (o_ret o = TCMU_STS_NOT_HANDLED)).

(** [src tcmu-runner/tcmur_cmd_handler.c tcmur_generic_handle_cmd] *)
Definition tcmur_generic_handle_cmd (cmd : tcmulib_cmd) (s : rst B K) : option (outcome B K) :=
  let '(ret, d) := handle_pending_ua cmd (d_rdev (r_dev s)) in
  let s := set_rdev s d in
  if negb (bool_decide (ret = TCMU_STS_NOT_HANDLED)) then Some (ret_out s (sense_buf cmd) ret)
  else if formatting (r_fmt s) && negb (byte_at (cdb cmd) 0 =? INQUIRY) then
    sense ← tcmu_set_sense_key_specific_info (sense_buf cmd) (u16 (format_progress (r_fmt s)));
    Some (ret_out s sense TCMU_STS_FRMT_IN_PROGRESS)
  else
    o ← handle_try_passthrough cmd s;
    if handled o then Some o
    else
      let cmd := set_sense_buf cmd (o_sense o) in
      o ← handle_sync_cmd cmd (o_st o);
      if handled o then Some o else tcmur_cmd_handler cmd (o_st o).

(** The command on the device's thread, up to the completion on the ring.
    [src tcmu-runner/main.c 629-632 tcmur_cmdproc_thread] *)
Definition process_cmd (cmd : tcmulib_cmd) (s : rst B K) : option (outcome B K) :=
  dev ← devs !! u;
  if tcmur_handler_is_passthrough_only (rhandler dev) then tcmur_cmd_passthrough_handler cmd s
  else tcmur_generic_handle_cmd cmd s.

(** ** Resizing *)

(** The new device, the new state and [ret].
    [src tcmu-runner/tcmur_cmd_handler.c tcmur_dev_update_size] *)
Definition tcmur_dev_update_size (dev : tcmu_device) (new_size : Z) (d : tcmur_device) (k : K)
    : option (tcmu_device * tcmur_device * K * Z) :=
  let old_size := u64 (tcmu_get_dev_num_lbas dev * tcmu_get_dev_block_size dev) in
  '(dev, ret) ← tcmu_update_num_lbas dev new_size;
  if negb (ret =? 0) then Some (dev, d, k, ret)
  else
    let '(k, ret) := tcmu_set_dev_size k nm dev in
    if negb (ret =? 0) then '(dev, _) ← tcmu_update_num_lbas dev old_size; Some (dev, d, k, ret)
    else Some (dev, tcmur_set_pending_ua d TCMUR_UA_DEV_SIZE_CHANGED, k, ret).
End dispatch.

(** ** Which commands reach the backstore *)

Ltac op_cases H :=
  unfold media_cmd, op_in in H; cbn [existsb] in H;
  repeat (apply orb_true_iff in H as [H|H]); try discriminate H; apply Z.eqb_eq in H.

Section gate.
Context {B K : Type} {HB : Backstore B} {HK : Kernel K}.
Context (devs : list tcmu_device) (u : nat) (nm : dev_names) (ev : env).
Context (handle_cmd : tcmulib_cmd -> xst B -> option (xst B * list Z * tcmu_sts * list tcmu_sts)).
Implicit Types s : rst B K.

(** Commands for the backstore are not answered at once. *)
Lemma sync_media cmd s dev :
  devs !! u = Some dev -> media_cmd (byte_at (cdb cmd) 0) = true ->
  handle_sync_cmd devs u nm ev cmd s = Some (ret_out s (sense_buf cmd) TCMU_STS_NOT_HANDLED).
Proof.
  intros Hdev H. unfold handle_sync_cmd. rewrite Hdev. cbn [mbind option_bind].
  op_cases H; rewrite H; reflexivity.
Qed.

(** Other commands do not get to the backstore. *)
Lemma media_handler_other cmd ret s :
  media_cmd (byte_at (cdb cmd) 0) = false ->
  media_handler devs u ev cmd ret s = Some (ret_out s (sense_buf cmd) TCMU_STS_NOT_HANDLED).
Proof.
  intros H. unfold media_cmd, op_in in H. cbn [existsb] in H. repeat (apply orb_false_iff in H as [? H]).
  unfold media_handler, op_in. cbn [existsb].
  repeat match goal with E : (byte_at _ _ =? _) = false |- _ => rewrite E; clear E end. done.
Qed.

(** [o] leaves all backstores as they are in [s]. *)
Definition keeps_data s (o : outcome B K) : Prop := x_bs (r_x (o_st o)) = x_bs (r_x s) /\ o_done o = [].

Lemma emulate_keeps cmd s r o : emulate cmd s r = Some o -> keeps_data s o.
Proof. unfold emulate. destruct r as [[[m iov] ret]|]; [|done]. cbn. intros [= <-]. done. Qed.

Lemma read_grps_keeps s s' gs : read_grps devs u nm s = Some (s', gs) -> r_x s' = r_x s.
Proof.
  unfold read_grps. destruct (devs !! u); [|done]. cbn [mbind option_bind].
  destruct (tcmu_get_alua_grps _ _ _ _) as [[d g]|]; [|done]. cbn. intros [= <- <-]. done.
Qed.

Lemma grps_cmd_keeps s o (f : rst B K -> option (list alua_grp) -> option (outcome B K)) :
  (forall s' gs o, f s' gs = Some o -> keeps_data s' o) ->
  ('(s, gs) ← read_grps devs u nm s; f s gs) = Some o -> keeps_data s o.
Proof.
  intros Hf. destruct (read_grps devs u nm s) as [[s' gs]|] eqn:E; [|done]. cbn. intros H.
  apply read_grps_keeps in E. destruct (Hf _ _ _ H) as [H1 H2]. split; [by rewrite H1, E|done].
Qed.

Lemma inquiry_keeps cmd s o : handle_inquiry devs u nm cmd s = Some o -> keeps_data s o.
Proof.
  apply grps_cmd_keeps. intros s' [gs|] o'; [|by intros [= <-]].
  destruct (devs !! u); [|done]. cbn [mbind option_bind]. apply emulate_keeps.
Qed.

Lemma stpg_keeps cmd s o : handle_stpg devs u nm cmd s = Some o -> keeps_data s o.
Proof.
  apply grps_cmd_keeps. intros s' [gs|] o'; [|by intros [= <-]].
  destruct (devs !! u); [|done]. cbn [mbind option_bind].
  destruct (tcmu_emulate_set_tgt_port_grps _ _ _ _ _) as [[ret a]|]; [|done]. cbn. by intros [= <-].
Qed.

Lemma rtpg_keeps cmd s o : handle_rtpg devs u nm cmd s = Some o -> keeps_data s o.
Proof.
  apply grps_cmd_keeps. intros s' [gs|] o'; [|by intros [= <-]].
  destruct (devs !! u); [|done]. cbn [mbind option_bind].
  destruct (tcmu_emulate_report_tgt_port_grps _ _ _ _ _) as [[[[a m] iov] ret]|]; [|done]. cbn. by intros [= <-].
Qed.

Lemma sync_keeps cmd s o : handle_sync_cmd devs u nm ev cmd s = Some o -> keeps_data s o.
Proof.
  unfold handle_sync_cmd. destruct (devs !! u) as [dev|]; [|done]. cbn [mbind option_bind].
  assert (forall ret, Some (ret_out s (sense_buf cmd) ret) = Some o -> keeps_data s o) as Hret
    by (by intros ret [= <-]).
  repeat case_if; eauto using emulate_keeps, inquiry_keeps, stpg_keeps, rtpg_keeps.
Qed.

(** A tracking state in which as many requests run as in [t]; a thread that
    waits for none may have been signalled. *)
Definition same_load (t t' : tcmu_track_aio) : Prop :=
  tracked_aio_ops t' = tracked_aio_ops t /\ pending_wakeups t' = pending_wakeups t.

Definition track_ok (t : tcmu_track_aio) : Prop := 0 <= tracked_aio_ops t < 2 ^ 32 - 1 /\ pending_wakeups t = 0.

(** Finishing a command that was answered by its handler. *)
Lemma untrack_ret t s sense ret :
  r_track s = track_aio_request_start t -> track_ok t -> ret <> TCMU_STS_ASYNC_HANDLED ->
  exists t', untrack (ret_out s sense ret) = Some (ret_out (set_track s t') sense ret) /\ same_load t t'.
Proof.
  intros Et [Hn _] Hr. unfold untrack, ret_out. cbn [o_ret o_st o_done o_sense length finish_all].
  rewrite bool_decide_eq_false_2 by done. rewrite Et. unfold track_aio_request_finish, track_aio_request_start.
  cbn [tracked_aio_ops pending_wakeups is_empty_cond]. rewrite (u32_small (_ + 1)) by lia.
  rewrite (proj2 (Z.leb_gt (tracked_aio_ops t + 1) 0)) by lia. cbn [mbind option_bind].
  eexists. split; [reflexivity|]. split; [|done]. cbn [tracked_aio_ops]. rewrite u32_small; lia.
Qed.

(** What stands between a command and the backstore. *)
Definition refusal (dev : tcmu_device) (d : tcmur_device) : option tcmu_sts :=
  if in_recovery d then Some TCMU_STS_BUSY
  else let ret := (alua_check_state dev (e_spawn ev) d).1 in if sts_ok ret then None else Some ret.

Lemma cmd_handler_other cmd s o :
  media_cmd (byte_at (cdb cmd) 0) = false -> tcmur_cmd_handler devs u ev cmd s = Some o -> keeps_data s o.
Proof.
  intros Hm. unfold tcmur_cmd_handler. rewrite Hm. cbn [andb].
  assert (forall s' ret o, r_x s' = r_x s -> untrack (ret_out s' (sense_buf cmd) ret) = Some o -> keeps_data s o) as Hu.
  { intros s' ret o' E. unfold untrack, ret_out. cbn [o_ret o_st o_done o_sense length finish_all].
    destruct (if bool_decide _ then _ else _) as [t|]; [|done]. cbn. intros [= <-]. split; cbn; by rewrite ?E. }
  case_if; [by apply Hu|]. destruct (devs !! u); [|done]. cbn [mbind option_bind].
  rewrite media_handler_other by done. cbn [mbind option_bind]. by apply Hu.
Qed.

(** A refused command only changes the lock state, if it starts the lock
    thread. *)
Lemma cmd_handler_refused cmd s dev ret :
  devs !! u = Some dev -> media_cmd (byte_at (cdb cmd) 0) = true -> refusal dev (d_rdev (r_dev s)) = Some ret ->
  track_ok (r_track s) ->
  exists o, tcmur_cmd_handler devs u ev cmd s = Some o /\ o_ret o = ret /\ o_done o = [] /\
    r_x (o_st o) = r_x s /\ r_fmt (o_st o) = r_fmt s /\ r_k (o_st o) = r_k s /\ same_load (r_track s) (r_track (o_st o)).
Proof.
  intros Hdev Hm Hr Ht. unfold refusal in Hr. unfold tcmur_cmd_handler. rewrite Hm, Hdev. cbn [andb mbind option_bind].
  unfold tcmu_dev_in_recovery. cbn [r_dev set_track].
  assert (forall s' ret', r_track s' = track_aio_request_start (r_track s) -> ret' <> TCMU_STS_ASYNC_HANDLED ->
    r_x s' = r_x s -> r_fmt s' = r_fmt s -> r_k s' = r_k s ->
    exists o, untrack (ret_out s' (sense_buf cmd) ret') = Some o /\ o_ret o = ret' /\ o_done o = [] /\
      r_x (o_st o) = r_x s /\ r_fmt (o_st o) = r_fmt s /\ r_k (o_st o) = r_k s /\ same_load (r_track s) (r_track (o_st o))) as Hu.
  { intros s' ret' E1 E2 E3 E4 E5. destruct (untrack_ret (r_track s) s' (sense_buf cmd) ret' E1 Ht E2) as (t' & E & Hl).
    eexists. split; [exact E|]. by split_and!. }
  destruct (in_recovery _); [injection Hr as <-; by apply Hu|].
  destruct (alua_check_state dev (e_spawn ev) (d_rdev (r_dev s))) as [r d] eqn:Ea. cbn [fst] in Hr.
  destruct (sts_ok r) eqn:Es; [done|]. injection Hr as <-. cbn [negb]. apply Hu; try done.
  unfold alua_check_state, alua_implicit_transition in Ea. intros ->.
  repeat first [case_match | case_if | case_bool_decide]; discriminate Ea || congruence.
Qed.
Lemma refusal_uas dev d n : refusal dev (set_uas d n) = refusal dev d.
Proof.
  destruct d as [rec op st sp ft lk ua]. unfold refusal, alua_check_state, alua_implicit_transition. cbn.
  destruct rec, (failover_is_supported dev), ft, lk, (e_spawn ev); reflexivity.
Qed.

(** The handler has no commands of its own. *)
Lemma no_passthrough cmd s dev :
  devs !! u = Some dev -> has_handle_cmd (rhandler dev) = false ->
  handle_try_passthrough devs u handle_cmd cmd s = Some (ret_out s (sense_buf cmd) TCMU_STS_NOT_HANDLED).
Proof. intros Hdev Hh. unfold handle_try_passthrough. rewrite Hdev. cbn [mbind option_bind]. by rewrite Hh. Qed.

(** Without unit attention and format, a command for the backstore gets to
    [tcmur_cmd_handler]. *)
Lemma generic_media cmd s dev :
  devs !! u = Some dev -> has_handle_cmd (rhandler dev) = false -> media_cmd (byte_at (cdb cmd) 0) = true ->
  pending_uas (d_rdev (r_dev s)) = 0 -> formatting (r_fmt s) = false ->
  tcmur_generic_handle_cmd devs u nm ev handle_cmd cmd s = tcmur_cmd_handler devs u ev cmd s.
Proof.
  intros Hdev Hh Hm Hua Hf. unfold tcmur_generic_handle_cmd.
  assert (handle_pending_ua cmd (d_rdev (r_dev s)) = (TCMU_STS_NOT_HANDLED, d_rdev (r_dev s))) as ->.
  { unfold handle_pending_ua. rewrite Hua. cbn [Z.eqb]. by case_if. }
  assert (set_rdev s (d_rdev (r_dev s)) = s) as ->.
  { by destruct s as [x [rd a l] f t k]. }
  rewrite bool_decide_eq_true_2 by done. cbn [negb]. rewrite Hf. cbn [andb].
  rewrite (no_passthrough cmd s dev Hdev Hh). cbn [mbind option_bind handled o_ret ret_out o_sense o_st].
  unfold handled. cbn [o_ret]. rewrite bool_decide_eq_true_2 by done. cbn [negb].
  replace (set_sense_buf cmd (sense_buf cmd)) with cmd by (by destruct cmd).
  rewrite (sync_media cmd s dev Hdev Hm). cbn [mbind option_bind o_ret ret_out o_st]. unfold handled. cbn [o_ret].
  by rewrite bool_decide_eq_true_2.
Qed.

Lemma generic_keeps cmd s dev o :
  devs !! u = Some dev -> has_handle_cmd (rhandler dev) = false ->
  is_Some (refusal dev (d_rdev (r_dev s))) -> track_ok (r_track s) ->
  tcmur_generic_handle_cmd devs u nm ev handle_cmd cmd s = Some o -> keeps_data s o.
Proof.
  intros Hdev Hh [ret Hr] Ht. unfold tcmur_generic_handle_cmd.
  destruct (handle_pending_ua cmd (d_rdev (r_dev s))) as [r d] eqn:Eu.
  assert (refusal dev d = Some ret) as Hr'.
  { unfold handle_pending_ua in Eu. rewrite <- Hr.
    repeat case_match; simplify_eq; rewrite ?refusal_uas; done. }
  case_match; [by intros [= <-]|]. case_match.
  { destruct (tcmu_set_sense_key_specific_info _ _); [|done]. cbn. by intros [= <-]. }
  rewrite (no_passthrough cmd _ dev Hdev Hh). cbn [mbind option_bind ret_out o_sense o_st]. unfold handled at 1. cbn [o_ret].
  rewrite bool_decide_eq_true_2 by done. cbn [negb].
  replace (set_sense_buf cmd (sense_buf cmd)) with cmd by (by destruct cmd).
  destruct (media_cmd (byte_at (cdb cmd) 0)) eqn:Hm.
  - rewrite (sync_media cmd _ dev Hdev Hm). cbn [mbind option_bind ret_out o_st]. unfold handled. cbn [o_ret].
    rewrite bool_decide_eq_true_2 by done. cbn [negb].
    destruct (cmd_handler_refused cmd (set_rdev s d) dev ret Hdev Hm Hr' Ht) as (o' & E & _ & Hd & Hx & _).
    rewrite E. intros [= <-]. split; [by rewrite Hx|done].
  - destruct (handle_sync_cmd _ _ _ _ _ _) as [o1|] eqn:E1; [|done]. cbn [mbind option_bind].
    apply sync_keeps in E1 as [K1 K2]. destruct (handled o1); [intros [= <-]; by split|].
    intros Hc. destruct (cmd_handler_other cmd (o_st o1) o Hm Hc) as [K3 K4]. split; [by rewrite K3, K1|done].
Qed.
End gate.



(** ** A device that may be used *)

(** The status a command is completed with, when that happens once. *)
Definition status_of {B K} (o : outcome B K) : option tcmu_sts :=
  match o_done o with
  | [] => if decide (o_ret o = TCMU_STS_ASYNC_HANDLED) then None else Some (o_ret o)
  | [s] => if decide (o_ret o = TCMU_STS_ASYNC_HANDLED) then Some s else None
  | _ => None
  end.

(** Nothing stands before the backstore. *)
Definition usable {B K} (ev : env) (dev : tcmu_device) (s : rst B K) : Prop :=
  refusal ev dev (d_rdev (r_dev s)) = None /\ pending_uas (d_rdev (r_dev s)) = 0 /\
  formatting (r_fmt s) = false /\ track_ok (r_track s).

Section usable.
Context {B K : Type} {HB : Backstore B} {HK : Kernel K}.
Context (devs : list tcmu_device) (u : nat) (nm : dev_names) (ev : env).
Context (handle_cmd : tcmulib_cmd -> xst B -> option (xst B * list Z * tcmu_sts * list tcmu_sts)).
Implicit Types s : rst B K.

Lemma untrack_fin t s (f : fin (list B)) :
  r_track s = track_aio_request_start t -> track_ok t ->
  exists o, untrack (of_fin s f) = Some o /\ r_x (o_st o) = f_x f /\ r_dev (o_st o) = r_dev s /\
    r_fmt (o_st o) = r_fmt s /\ o_done o = o_done (of_fin s f) /\ o_ret o = o_ret (of_fin s f) /\
    (is_Some (status_of o) -> status_of o = Some (f_sts f) /\ same_load t (r_track (o_st o))).
Proof.
  intros Et Ht. unfold of_fin. destruct (f_async f) eqn:Ea.
  - destruct Ht as [Hn Hp]. unfold untrack. cbn [o_ret o_st o_done o_sense length finish_all].
    rewrite bool_decide_eq_true_2 by done. cbn [r_track set_x mbind option_bind]. rewrite Et.
    unfold finish_tracking, track_aio_request_finish, track_aio_request_start.
    cbn [tracked_aio_ops pending_wakeups is_empty_cond]. rewrite (u32_small (_ + 1)) by lia.
    rewrite (proj2 (Z.leb_gt (tracked_aio_ops t + 1) 0)) by lia. rewrite Hp. change (u32 (0 + 1)) with 1.
    cbn [mbind option_bind]. change (true && (1 =? 1)) with true. cbn [wake_loop negb].
    unfold track_aio_wakeup_finish. cbn [pending_wakeups]. change (1 <? 1) with false. change (1 <=? 0) with false.
    cbn [mbind option_bind wake_loop negb]. eexists. split; [reflexivity|]. split_and!; try done.
    intros _. split; [done|]. split; cbn [tracked_aio_ops pending_wakeups r_track o_st set_track].
    + rewrite u32_small by lia. lia.
    + done.
  - destruct (decide (f_sts f = TCMU_STS_ASYNC_HANDLED)) as [Es|Es].
    + unfold untrack. cbn [o_ret o_st o_done o_sense length finish_all]. rewrite Es, bool_decide_eq_true_2 by done.
      cbn [mbind option_bind]. eexists. split; [reflexivity|]. split_and!; try done. by intros [? ?].
    + destruct (untrack_ret t (set_x s (f_x f)) (f_sense f) (f_sts f) Et Ht Es) as (t' & E & Hl).
      eexists. split; [exact E|]. split_and!; try done. intros _. unfold status_of. cbn. by rewrite decide_False.
Qed.

Lemma set_rdev_same s d : d = d_rdev (r_dev s) -> set_rdev s d = s.
Proof. intros ->. by destruct s as [x [rd a l] f t k]. Qed.

Lemma usable_check dev s : refusal ev dev (d_rdev (r_dev s)) = None ->
  in_recovery (d_rdev (r_dev s)) = false /\
  alua_check_state dev (e_spawn ev) (d_rdev (r_dev s)) = (TCMU_STS_OK, d_rdev (r_dev s)).
Proof.
  unfold refusal, alua_check_state, alua_implicit_transition. destruct (in_recovery _); [done|].
  repeat first [case_match | case_bool_decide | case_if]; try done; cbn in *; simplify_eq; done.
Qed.

(** A command whose handler is [f]. *)
Lemma generic_fin cmd s dev x r f :
  devs !! u = Some dev -> has_handle_cmd (rhandler dev) = false -> usable ev dev s ->
  media_cmd (byte_at (cdb cmd) 0) = true ->
  (forall ret s, media_handler devs u ev cmd ret s = run_fin devs u f s) ->
  view u (r_x s) = Some x -> f dev x = Some r ->
  exists o, tcmur_generic_handle_cmd devs u nm ev handle_cmd cmd s = Some o /\
    r_x (o_st o) = unview u (r_x s) (f_x r) /\ r_dev (o_st o) = r_dev s /\ r_fmt (o_st o) = r_fmt s /\
    (is_Some (status_of o) -> status_of o = Some (f_sts r) /\ same_load (r_track s) (r_track (o_st o))).
Proof.
  intros Hdev Hh (Hr & Hua & Hf & Ht) Hm Hmh Hv Hfx.
  rewrite (generic_media devs u nm ev handle_cmd cmd s dev) by done.
  destruct (usable_check dev s Hr) as [Hrec Hc]. unfold tcmur_cmd_handler, tcmu_dev_in_recovery.
  cbn [r_dev set_track]. rewrite Hrec, Hdev, Hm. cbn [mbind option_bind]. rewrite Hc.
  rewrite set_rdev_same by done. change (negb (sts_ok TCMU_STS_OK)) with false. cbn [andb].
  rewrite Hmh. unfold run_fin. rewrite Hdev. cbn [mbind option_bind r_x set_track]. rewrite Hv. cbn [mbind option_bind].
  rewrite Hfx. cbn [mbind option_bind].
  destruct (untrack_fin (r_track s) (set_track s (track_aio_request_start (r_track s))) (fin_on u (r_x s) r) eq_refl Ht)
    as (o & E & H1 & H2 & H3 & H4 & H5 & H6).
  exists o. by split_and!.
Qed.

Lemma media_write cmd ret s : op_in (byte_at (cdb cmd) 0) [WRITE_6; WRITE_10; WRITE_12; WRITE_16] = true ->
  media_cmd (byte_at (cdb cmd) 0) = true /\
  media_handler devs u ev cmd ret s = run_fin devs u (fun dev => handle_write dev cmd) s.
Proof. intros H. unfold media_handler. op_cases H; rewrite H; by split. Qed.

Lemma media_read cmd ret s : op_in (byte_at (cdb cmd) 0) [READ_6; READ_10; READ_12; READ_16] = true ->
  media_cmd (byte_at (cdb cmd) 0) = true /\
  media_handler devs u ev cmd ret s = run_fin devs u (fun dev => handle_read dev cmd) s.
Proof. intros H. unfold media_handler. op_cases H; rewrite H; by split. Qed.
End usable.

(** C1: what an initiator sees.  On a device that is not in recovery or
    formatting, has no unit attention, and whose lock is held where one is
    needed, over any backstore that keeps its contract, a WRITE(6/10/12/16)
    whose data has the length the CDB says and whose range is on the device is
    dispatched, changes at most that range of that device and, when it is
    completed with [TCMU_STS_OK], a READ(6/10/12/16) of the same blocks that is
    completed with [TCMU_STS_OK] delivers its data.  Both leave as many tracked
    requests as before when they are completed. *)
Theorem generic_write_then_read {B K} {HB : Backstore B} {HL : BackstoreLaws B} {HK : Kernel K}
    (devs : list tcmu_device) (u : nat) (nm : dev_names) (ev : env)
    (handle_cmd : tcmulib_cmd -> xst B -> option (xst B * list Z * tcmu_sts * list tcmu_sts))
    (dev : tcmu_device) (b : B) (wcmd : tcmulib_cmd) (g : list Z) (lba n : Z) (s : rst B K)
  (Hdev : devs !! u = Some dev) (Hh : has_handle_cmd (rhandler dev) = false) (Hus : usable ev dev s)
  (Hb : x_bs (r_x s) !! u = Some b) (D : dev_over dev b)
  (Hop : op_in (byte_at (cdb wcmd) 0) [WRITE_6; WRITE_10; WRITE_12; WRITE_16] = true)
  (C : cmd_data wcmd (x_mem (r_x s)) g) (Hby : bytes_ok (cdb wcmd))
  (Hlba : tcmu_get_lba (cdb wcmd) = Some lba) (Hn : tcmu_get_xfer_length (cdb wcmd) = Some n)
  (Hlen : Z.of_nat (length g) = u32 (n * block_size dev)) (Hin : lba + n <= num_lbas dev) :
  exists o b', tcmur_generic_handle_cmd devs u nm ev handle_cmd wcmd s = Some o /\
    x_bs (r_x (o_st o)) = <[u := b']> (x_bs (r_x s)) /\
    wrote (bs_data b) (block_size dev * lba) g (bs_data b') (default TCMU_STS_HW_ERR (status_of o)) /\
    (is_Some (status_of o) -> same_load (r_track s) (r_track (o_st o))) /\
    forall rcmd g0, status_of o = Some TCMU_STS_OK ->
      op_in (byte_at (cdb rcmd) 0) [READ_6; READ_10; READ_12; READ_16] = true ->
      cmd_data rcmd (x_mem (r_x (o_st o))) g0 -> length g0 = length g -> bytes_ok (cdb rcmd) ->
      tcmu_get_lba (cdb rcmd) = Some lba -> tcmu_get_xfer_length (cdb rcmd) = Some n ->
      exists o2, tcmur_generic_handle_cmd devs u nm ev handle_cmd rcmd (o_st o) = Some o2 /\
        (status_of o2 = Some TCMU_STS_OK -> gather (x_mem (r_x (o_st o2))) (cmd_iovec rcmd) = Some g) /\
        (is_Some (status_of o2) -> same_load (r_track s) (r_track (o_st o2))).
Proof.
  set (x := XSt b (x_mem (r_x s)) (x_alloc (r_x s)) (x_caw (r_x s))).
  assert (view u (r_x s) = Some x) as Hv by (unfold view; by rewrite Hb).
  assert (u < length (x_bs (r_x s)))%nat as Hu by (by apply lookup_lt_Some in Hb).
  destruct (handle_write_spec dev wcmd x g lba n D C Hby Hlba Hn) as (f & Ef & D' & _ & _ & Hw).
  rewrite (proj2 (Z.eqb_eq _ _) Hlen), (proj2 (Z.leb_le _ _) Hin) in Hw. cbn [negb] in Hw.
  destruct (generic_fin devs u nm ev handle_cmd wcmd s dev x f (fun dev => handle_write dev wcmd) Hdev Hh Hus
    (proj1 (media_write devs u ev wcmd TCMU_STS_OK s Hop)) (fun ret s => proj2 (media_write devs u ev wcmd ret s Hop)) Hv Ef)
    as (o & Eo & Hx & Hd & Hf & Hst).
  exists o, (x_bs (f_x f)). split; [exact Eo|]. split; [by rewrite Hx|]. split; [|split].
  - destruct (status_of o) as [st|]; [|destruct Hw as (w & H1 & H2 & _); by exists w].
    destruct (Hst ltac:(by eexists)) as [[= ->] _]. exact Hw.
  - intros H. by apply Hst.
  - intros rcmd g0 Hok Hop2 C2 L2 Hby2 Hlba2 Hn2. destruct (Hst ltac:(by eexists)) as [Hs Hl].
    rewrite Hok in Hs. injection Hs as Hs. destruct Hw as (w & Lw & Hdata & Hwg). rewrite (Hwg (eq_sym Hs)) in Hdata. clear Hwg.
    assert (view u (r_x (o_st o)) = Some (f_x f)) as Hv2.
    { unfold view. rewrite Hx. unfold unview. cbn [x_bs x_mem x_alloc x_caw].
      rewrite list_lookup_insert_eq by done. cbn. by destruct (f_x f). }
    assert (usable ev dev (o_st o)) as Hus2.
    { destruct Hus as (U1 & U2 & U3 & U4 & U5). destruct Hl as [L3 L4]. unfold usable, track_ok.
      rewrite Hd, Hf, L3, L4. exact (conj U1 (conj U2 (conj U3 (conj U4 U5)))). }
    assert (x_mem (r_x (o_st o)) = x_mem (f_x f)) as Em by (by rewrite Hx). rewrite Em in C2.
    destruct (handle_read_spec dev rcmd (f_x f) g0 lba n D' C2 Hby2 Hlba2 Hn2) as (f2 & E2 & _ & _ & _ & _ & H2).
    rewrite L2, (proj2 (Z.eqb_eq _ _) Hlen), (proj2 (Z.leb_le _ _) Hin) in H2. cbn [negb] in H2.
    destruct H2 as (g' & Hg' & Hok2).
    destruct (generic_fin devs u nm ev handle_cmd rcmd (o_st o) dev (f_x f) f2 (fun dev => handle_read dev rcmd) Hdev Hh Hus2
      (proj1 (media_read devs u ev rcmd TCMU_STS_OK s Hop2)) (fun ret s => proj2 (media_read devs u ev rcmd ret s Hop2)) Hv2 E2)
      as (o2 & Eo2 & Hx2 & _ & _ & Hst2).
    exists o2. split; [exact Eo2|]. split.
    + intros Hs2. destruct (Hst2 ltac:(by eexists)) as [Hs3 _]. rewrite Hs2 in Hs3. injection Hs3 as Hs3.
      assert (x_mem (r_x (o_st o2)) = x_mem (f_x f2)) as -> by (by rewrite Hx2).
      rewrite Hg', (Hok2 (eq_sym Hs3)), Hdata. cbn [x_bs x]. destruct (check_rw_spec dev wcmd _ g lba n b D C Hby Hlba Hn) as (_ & Hl0 & _ & Hoff).
      specialize (Hoff Hlen Hin). pose proof (dev_block_size_ok _ (proj1 (proj2 D))).
      rewrite read_write_at; [done|apply Z.mul_nonneg_nonneg; lia|lia].
    + intros H. destruct (Hst2 H) as [_ [L3 L4]]. destruct Hl as [L5 L6]. split; congruence.
Qed.

Definition rw_dev : tcmu_device := Dev 4 4 128 8 0 true false (str "/disk") (Some (str "5f1ab3")) ha_handler.

Lemma rw_dev_over : dev_over (HL := good_laws) rw_dev caw_file.
Proof.
  split; [split; [by apply leb_complete|done]|]. split; [split; cbn; lia|]. by split.
Qed.

Definition rw_start : rst file_state unit :=
  RSt (XSt [caw_file] {[ 0%nat := [5; 5; 5; 5; 7; 7; 7; 7] ]} [] false)
    (DSt (Rdev false true false false FAILOVER_EXPLICIT LOCKED 0) (Answers [] [] [] [] [] LOCKED) [])
    (FormatDev false 0) (Track 0 0 false) tt.

(** A command on the demonstration device. *)
Definition rw_run (cmd : tcmulib_cmd) (s : rst file_state unit) : option (outcome file_state unit) :=
  tcmur_generic_handle_cmd (HB := file_backstore good_sys) (HK := accept_all) [rw_dev] 0 ha_names
    (Env id true true []) (fun _ _ => None) cmd s.

Lemma rw_cmd_ok op iov : is_byte op -> bytes_ok (cdb (rw_cmd op iov)).
Proof. intros Ho. cbn. repeat apply Forall_cons_2; try apply Forall_nil_2; auto; unfold is_byte; by vm_compute. Qed.

Lemma rw_cmd_data op m : gather m [Iov (Ptr 0 0) 8] = Some [5; 5; 5; 5; 7; 7; 7; 7] ->
  cmd_data (rw_cmd op [Iov (Ptr 0 0) 8]) m [5; 5; 5; 5; 7; 7; 7; 7].
Proof. intros Hm. split; [done|exact Hm|by split; constructor|cbn; lia|cbn; lia]. Qed.

Lemma generic_write_then_read_witness :
  exists o o2, rw_run (rw_cmd WRITE_10 [Iov (Ptr 0 0) 8]) rw_start = Some o /\
    rw_run (rw_cmd READ_10 [Iov (Ptr 0 0) 8]) (o_st o) = Some o2 /\ status_of o2 = Some TCMU_STS_OK /\
    gather (x_mem (r_x (o_st o2))) [Iov (Ptr 0 0) 8] = Some [5; 5; 5; 5; 7; 7; 7; 7].
Proof.
  destruct (generic_write_then_read (HL := good_laws) (HK := accept_all) [rw_dev] 0 ha_names (Env id true true [])
    (fun _ _ => None) rw_dev caw_file (rw_cmd WRITE_10 [Iov (Ptr 0 0) 8]) [5; 5; 5; 5; 7; 7; 7; 7] 1 2 rw_start)
    as (o & b' & E & _ & _ & _ & H); try done.
  - apply rw_cmd_ok. unfold is_byte. by vm_compute.
  - assert (fmap (fun o => (status_of o, gather (x_mem (r_x (o_st o))) [Iov (Ptr 0 0) 8]))
      (rw_run (rw_cmd WRITE_10 [Iov (Ptr 0 0) 8]) rw_start) =
      Some (Some TCMU_STS_OK, Some [5; 5; 5; 5; 7; 7; 7; 7])) as E1 by (vm_compute; reflexivity).
    assert (fmap status_of (rw_run (rw_cmd WRITE_10 [Iov (Ptr 0 0) 8]) rw_start ≫=
      fun o => rw_run (rw_cmd READ_10 [Iov (Ptr 0 0) 8]) (o_st o)) = Some (Some TCMU_STS_OK)) as E3
      by (vm_compute; reflexivity).
    change (rw_run (rw_cmd WRITE_10 [Iov (Ptr 0 0) 8]) rw_start = Some o) in E.
    rewrite E in E1, E3. cbn [fmap option_fmap option_map mbind option_bind] in E1, E3.
    assert (status_of o = Some TCMU_STS_OK /\
      gather (x_mem (r_x (o_st o))) [Iov (Ptr 0 0) 8] = Some [5; 5; 5; 5; 7; 7; 7; 7]) as [Hs Hg] by (split; congruence).
    destruct (H (rw_cmd READ_10 [Iov (Ptr 0 0) 8]) [5; 5; 5; 5; 7; 7; 7; 7] Hs) as (o2 & E2 & Hr & _); try done.
    { apply rw_cmd_ok. unfold is_byte. by vm_compute. }
    change (rw_run (rw_cmd READ_10 [Iov (Ptr 0 0) 8]) (o_st o) = Some o2) in E2.
    rewrite E2 in E3. cbn [fmap option_fmap option_map] in E3.
    assert (status_of o2 = Some TCMU_STS_OK) as Hs2 by congruence.
    exists o, o2. split_and!; [exact E|exact E2|exact Hs2|exact (Hr Hs2)].
Defined.

(** ** Unit attentions *)

(** a change of size is reported once.  Resizing a device either fails and
    leaves it as it was, or sets the number of blocks and a unit attention; then
    the next command other than INQUIRY and REQUEST SENSE, whatever it is, is
    answered with [TCMU_STS_CAPACITY_CHANGED] and nothing else happens, and with
    that the unit attention is gone; INQUIRY and REQUEST SENSE neither report
    nor clear it. *)
Theorem resize_reported_once {B K} {HB : Backstore B} {HK : Kernel K} (devs : list tcmu_device) (u : nat)
    (nm : dev_names) (ev : env)
    (handle_cmd : tcmulib_cmd -> xst B -> option (xst B * list Z * tcmu_sts * list tcmu_sts))
    (dev : tcmu_device) (new_size : Z) (d : tcmur_device) (k : K)
  (D : dev_ok dev) (Hsz : num_lbas dev * block_size dev < 2 ^ 64) (Hpos : 0 < num_lbas dev)
  (Hnew : 0 < new_size < 2 ^ 64) (Hua : pending_uas d = 0) :
  exists dev' d' k' ret,
    tcmur_dev_update_size nm dev new_size d k = Some (dev', d', k', ret) /\
    (ret <> 0 -> dev' = dev /\ d' = d) /\
    (ret = 0 -> num_lbas dev' = new_size / block_size dev /\ d' <> d /\
       forall cmd (s : rst B K), d_rdev (r_dev s) = d' ->
         if (byte_at (cdb cmd) 0 =? INQUIRY) || (byte_at (cdb cmd) 0 =? REQUEST_SENSE)
         then handle_pending_ua cmd d' = (TCMU_STS_NOT_HANDLED, d')
         else tcmur_generic_handle_cmd devs u nm ev handle_cmd cmd s =
                Some (ret_out (set_rdev s d) (sense_buf cmd) TCMU_STS_CAPACITY_CHANGED)).
Proof.
  destruct D as [D1 D2 _ _ _].
  unfold tcmur_dev_update_size, tcmu_update_num_lbas, tcmu_get_dev_num_lbas, tcmu_get_dev_block_size.
  rewrite (proj2 (Z.eqb_neq new_size 0)), (proj2 (Z.eqb_neq (block_size dev) 0)) by lia. cbn [mbind option_bind].
  change (negb (0 =? 0)) with false. cbv iota. destruct (tcmu_set_dev_size k nm _) as [k' ret].
  destruct (Z.eqb_spec ret 0) as [->|Hr]; cbn [negb].
  - eexists _, _, _, 0. split; [reflexivity|]. split; [done|]. intros _. split; [|split].
    + unfold tcmu_set_dev_num_lbas. cbn [num_lbas]. rewrite u64_small; [done|].
      split; [apply Z.div_pos; lia|]. apply Z.div_lt_upper_bound; [lia|]. nia.
    + intros E. apply (f_equal pending_uas) in E. cbn in E. rewrite Hua in E. discriminate E.
    + intros cmd s Hs. set (d' := tcmur_set_pending_ua d TCMUR_UA_DEV_SIZE_CHANGED) in *.
      assert (pending_uas d' = 1) as E1 by (unfold d', tcmur_set_pending_ua; cbn; by rewrite Hua).
      assert (set_uas d' 0 = d) as E2 by (unfold d'; destruct d; cbn in Hua; by subst).
      unfold tcmur_generic_handle_cmd, handle_pending_ua. rewrite Hs, E1.
      destruct (_ || _); [done|]. change (1 =? 0) with false. cbv iota. change (lowest_bit 1) with 0.
      change (Z.ldiff 1 (Z.shiftl 1 0)) with 0. rewrite E2. done.
  - assert (u64 (num_lbas dev * block_size dev) = num_lbas dev * block_size dev) as Eo by (apply u64_small; nia).
    rewrite Eo, (proj2 (Z.eqb_neq _ 0)) by nia. unfold tcmu_set_dev_num_lbas. cbn [block_size].
    rewrite (proj2 (Z.eqb_neq (block_size dev) 0)) by lia. cbn [mbind option_bind].
    eexists _, _, _, _. split; [reflexivity|]. split; [|done]. intros _. split; [|done].
    rewrite Z.div_mul by lia. rewrite u64_small by lia. by destruct dev.
Qed.

Lemma resize_reported_once_witness :
  exists dev' d' k', tcmur_dev_update_size ha_names ha_dev 65536 (d_rdev (r_dev rw_start)) tt = Some (dev', d', k', 0) /\
    num_lbas dev' = 128 /\
    fmap o_ret (rw_run (rw_cmd READ_10 []) (set_rdev rw_start d')) = Some TCMU_STS_CAPACITY_CHANGED.
Proof.
  destruct (resize_reported_once (HB := file_backstore good_sys) (HK := accept_all) [rw_dev] 0 ha_names (Env id true true [])
    (fun _ _ => None) ha_dev 65536 (d_rdev (r_dev rw_start)) tt) as (dev' & d' & k' & ret & E & _ & H).
  - split; cbn; lia.
  - cbn. lia.
  - cbn. lia.
  - lia.
  - reflexivity.
  - assert (ret = 0) as -> by (vm_compute in E; congruence). destruct (H eq_refl) as (Hn & _ & Hc).
    exists dev', d', k'. split; [exact E|]. split; [exact Hn|].
    specialize (Hc (rw_cmd READ_10 []) (set_rdev rw_start d') eq_refl). cbn in Hc. unfold rw_run. rewrite Hc. reflexivity.
Defined.

(** SYNCHRONIZE CACHE for a handler without a flush callout: the status that
    is returned is that of the ALUA check, not [TCMU_STS_NOT_HANDLED]. *)
Lemma sync_cache_without_flush {B K} {HB : Backstore B} {HK : Kernel K} devs u nm ev handle_cmd dev cmd (s : rst B K) :
  devs !! u = Some dev -> has_handle_cmd (rhandler dev) = false -> usable ev dev s ->
  byte_at (cdb cmd) 0 = SYNCHRONIZE_CACHE -> has_flush (rhandler dev) = false ->
  fmap o_ret (tcmur_generic_handle_cmd devs u nm ev handle_cmd cmd s) = Some TCMU_STS_OK.
Proof.
  intros Hdev Hh (Hr & Hua & Hf & Ht) Hop Hfl.
  assert (media_cmd (byte_at (cdb cmd) 0) = true) as Hm by (by rewrite Hop).
  rewrite (generic_media devs u nm ev handle_cmd cmd s dev) by done.
  destruct (usable_check ev dev s Hr) as [Hrec Hc]. unfold tcmur_cmd_handler, tcmu_dev_in_recovery.
  cbn [r_dev set_track]. rewrite Hrec, Hdev, Hm. cbn [mbind option_bind]. rewrite Hc.
  rewrite set_rdev_same by done. change (negb (sts_ok TCMU_STS_OK)) with false. cbn [andb].
  assert (media_handler devs u ev cmd TCMU_STS_OK (set_track s (track_aio_request_start (r_track s))) =
    Some (ret_out (set_track s (track_aio_request_start (r_track s))) (sense_buf cmd) TCMU_STS_OK)) as ->.
  { unfold media_handler. rewrite Hop. cbn -[has_flush]. rewrite Hdev. cbn [mbind option_bind]. by rewrite Hfl. }
  cbn [mbind option_bind].
  destruct (untrack_ret (r_track s) (set_track s (track_aio_request_start (r_track s))) (sense_buf cmd) TCMU_STS_OK eq_refl Ht)
    as (t' & E & _); [done|]. rewrite E. reflexivity.
Qed.
