(* ===== verification/Ring.v ===== *)
(** * The command ring

    The memory that [target_core_user] shares with the daemon: the mailbox,
    the entries of the command ring, [tcmulib_get_next_command] and
    [tcmulib_command_complete], and the kernel's side of the protocol as the
    comment of [target_core_user_local.h] states it.

    An entry is a record at its offset from [cmdr_off]; the union of request
    and response is a sum, so that a request that was overwritten by a response
    cannot be read again.  An offset where no entry was written is undefined
    contents: reading it is [None]. *)

From S2P Require Import Prelude Scsi Iovec Sense.

(** ** Entries and mailbox *)

Definition TCMU_OP_MASK : Z := 0x7.
Definition TCMU_UFLAG_UNKNOWN_OP : Z := 0x1.
Definition TCMU_SENSE_BUFFERSIZE : Z := 96.

(** [src tcmu-runner/target_core_user_local.h 64-67 enum tcmu_opcode] *)
Inductive tcmu_opcode := TCMU_OP_PAD | TCMU_OP_CMD.

Definition opcode_val (op : tcmu_opcode) : Z :=
  match op with TCMU_OP_PAD => 0 | TCMU_OP_CMD => 1 end.

(** [src tcmu-runner/target_core_user_local.h 72-79 struct tcmu_cmd_entry_hdr] *)
Record tcmu_cmd_entry_hdr := Hdr {
  len_op : Z;
  hdr_cmd_id : Z;
  uflags : Z
}.

(** [src tcmu-runner/target_core_user_local.h 83-86 tcmu_hdr_get_op] *)
Definition tcmu_hdr_get_op (len_op : Z) : Z := Z.land len_op TCMU_OP_MASK.

(** [src tcmu-runner/target_core_user_local.h 88-92 tcmu_hdr_set_op] *)
Definition tcmu_hdr_set_op (len_op op : Z) : Z :=
  Z.lor (Z.land len_op (u32 (Z.lnot TCMU_OP_MASK))) (Z.land op TCMU_OP_MASK).

(** [src tcmu-runner/target_core_user_local.h 94-97 tcmu_hdr_get_len] *)
Definition tcmu_hdr_get_len (len_op : Z) : Z := Z.land len_op (u32 (Z.lnot TCMU_OP_MASK)).

(** [src tcmu-runner/target_core_user_local.h 99-103 tcmu_hdr_set_len] *)
Definition tcmu_hdr_set_len (len_op len : Z) : Z := Z.lor (Z.land len_op TCMU_OP_MASK) len.

(** What follows the header: nothing that is used (padding, unknown opcodes); a
    request with [iov_cnt], the [iov] array as offsets and lengths, and the
    bytes of the CDB that [cdb_off] leads to; a response, with its sense buffer
    once it was written.
    [src tcmu-runner/target_core_user_local.h 108-130 struct tcmu_cmd_entry] *)
Inductive entry_body :=
| NoBody
| Req (iov_cnt : Z) (iov : list (Z * Z)) (cdb : list Z)
| Rsp (scsi_status : Z) (sense_buffer : option (list Z)).

Record tcmu_cmd_entry := Ent { hdr : tcmu_cmd_entry_hdr; body : entry_body }.

Definition ent_op (e : tcmu_cmd_entry) : Z := tcmu_hdr_get_op (len_op (hdr e)).
Definition is_cmd (e : tcmu_cmd_entry) : bool := ent_op e =? opcode_val TCMU_OP_CMD.

(** [src tcmu-runner/target_core_user_local.h 51-62 struct tcmu_mailbox] *)
Record tcmu_mailbox := Mb {
  cmdr_size : Z;
  cmd_head : Z;
  mb_cmd_tail : Z;
  ring : gmap Z tcmu_cmd_entry
}.

Definition set_ring (mb : tcmu_mailbox) (r : gmap Z tcmu_cmd_entry) : tcmu_mailbox :=
  Mb (cmdr_size mb) (cmd_head mb) (mb_cmd_tail mb) r.
Definition set_tail (mb : tcmu_mailbox) (t : Z) : tcmu_mailbox :=
  Mb (cmdr_size mb) (cmd_head mb) t (ring mb).

(** [src tcmu-runner/libtcmu.c device_cmd_head] *)
Definition device_cmd_head (mb : tcmu_mailbox) : Z := cmd_head mb.

(** The entry at the device's tail.
    [src tcmu-runner/libtcmu.c device_cmd_tail] *)
Definition device_cmd_tail (mb : tcmu_mailbox) (cmd_tail : Z) : option tcmu_cmd_entry :=
  ring mb !! cmd_tail.

(** A tail moved past an entry ([TCMU_UPDATE_DEV_TAIL], [TCMU_UPDATE_RB_TAIL]).
    [src tcmu-runner/libtcmu.c 955-958 TCMU_UPDATE_DEV_TAIL] *)
Definition ring_next (size tail : Z) (e : tcmu_cmd_entry) : Z :=
  u32 (tail + tcmu_hdr_get_len (len_op (hdr e))) mod size.

(** ** Fetching *)

(** The CDB of an entry that is a request.
    [src tcmu-runner/libtcmu.c 974-977 tcmulib_get_next_command] *)
Definition ent_cdb (e : tcmu_cmd_entry) : option (list Z) :=
  match body e with Req _ _ cdb => Some cdb | _ => None end.

(** The command copied out of an entry.  [mb_blk] is the block of the shared
    memory, [garbage] the sense buffer as [malloc] returns it.
    [src tcmu-runner/libtcmu.c 987-1003 tcmulib_get_next_command] *)
Definition ent_cmd (mb_blk : nat) (garbage : list Z) (e : tcmu_cmd_entry) : option tcmulib_cmd :=
  match body e with
  | Req cnt iov cdb_at =>
      if Z.of_nat (length iov) <? cnt then None
      else
        cdb ← bget cdb_at 0 (Z.to_nat (tcmu_get_cdb_length cdb_at));
        Some (Cmd (hdr_cmd_id (hdr e)) cdb
          (map (fun v => Iov (Ptr mb_blk v.1) v.2) (take (Z.to_nat cnt) iov)) cnt garbage)
  | _ => None
  end.

Definition flag_unknown (e : tcmu_cmd_entry) : tcmu_cmd_entry :=
  Ent (Hdr (len_op (hdr e)) (hdr_cmd_id (hdr e)) (Z.lor (uflags (hdr e)) TCMU_UFLAG_UNKNOWN_OP)) (body e).

(** The loop; [mem_ok] is the outcome of [malloc].
    [src tcmu-runner/libtcmu.c 965-1017 tcmulib_get_next_command] *)
Fixpoint get_next_loop (fuel : nat) (mb_blk : nat) (garbage : list Z) (mem_ok : bool)
    (mb : tcmu_mailbox) (cmd_tail : Z) : option (tcmu_mailbox * Z * option tcmulib_cmd) :=
  if cmd_tail =? device_cmd_head mb then Some (mb, cmd_tail, None)
  else match fuel with
  | O => None
  | S fuel =>
      e ← device_cmd_tail mb cmd_tail;
      let next := ring_next (cmdr_size mb) cmd_tail e in
      if ent_op e =? opcode_val TCMU_OP_PAD
      then get_next_loop fuel mb_blk garbage mem_ok mb next
      else if ent_op e =? opcode_val TCMU_OP_CMD then
        cdb ← ent_cdb e;
        if tcmu_get_cdb_length cdb <? 0 then get_next_loop fuel mb_blk garbage mem_ok mb next
        else if negb mem_ok then Some (mb, cmd_tail, None)
        else cmd ← ent_cmd mb_blk garbage e; Some (mb, next, Some cmd)
      else
        get_next_loop fuel mb_blk garbage mem_ok
          (set_ring mb (<[cmd_tail := flag_unknown e]> (ring mb))) next
  end.

(** One round per entry is enough: a tail that passes more offsets than the
    ring has entries runs in a circle.
    [src tcmu-runner/libtcmu.c tcmulib_get_next_command] *)
Definition tcmulib_get_next_command (mb_blk : nat) (garbage : list Z) (mem_ok : bool)
    (mb : tcmu_mailbox) (cmd_tail : Z) : option (tcmu_mailbox * Z * option tcmulib_cmd) :=
  get_next_loop (S (size (ring mb))) mb_blk garbage mem_ok mb cmd_tail.

(** ** Completing *)

(** The first command at or after the tail, or the head.
    [src tcmu-runner/libtcmu.c 1143-1149 tcmulib_command_complete] *)
Fixpoint skip_pads (fuel : nat) (mb : tcmu_mailbox) : option tcmu_mailbox :=
  if mb_cmd_tail mb =? cmd_head mb then Some mb
  else match fuel with
  | O => None
  | S fuel =>
      e ← ring mb !! mb_cmd_tail mb;
      if is_cmd e then Some mb
      else skip_pads fuel (set_tail mb (ring_next (cmdr_size mb) (mb_cmd_tail mb) e))
  end.

(** The response in the entry: an unwritten sense buffer keeps what the union
    holds. *)
Definition respond (e : tcmu_cmd_entry) (id st : Z) (sense : option (list Z)) : tcmu_cmd_entry :=
  Ent (Hdr (len_op (hdr e)) id (uflags (hdr e)))
    (Rsp st (match sense, body e with Some s, _ => Some s | None, Rsp _ s => s | None, _ => None end)).

(** [src tcmu-runner/libtcmu.c tcmulib_command_complete] *)
Definition tcmulib_command_complete (mb : tcmu_mailbox) (cmd : tcmulib_cmd) (result : tcmu_sts)
    : option tcmu_mailbox :=
  mb ← skip_pads (S (size (ring mb))) mb;
  e ← ring mb !! mb_cmd_tail mb;
  '(st, sense) ← tcmu_sts_to_scsi result (sense_buf cmd);
  sense ← (if st =? SAM_STAT_CHECK_CONDITION
           then s ← bget sense 0 (Z.to_nat TCMU_SENSE_BUFFERSIZE); Some (Some s) else Some None);
  let e := respond e (cmd_id cmd) st sense in
  let mb := set_ring mb (<[mb_cmd_tail mb := e]> (ring mb)) in
  Some (set_tail mb (ring_next (cmdr_size mb) (mb_cmd_tail mb) e)).

(** ** Walks over the ring

    [path r size a l b]: the entries [l], each with its offset, lead from
    offset [a] to offset [b]. *)

Abbreviation slot := (Z * tcmu_cmd_entry)%type.

Fixpoint path (r : gmap Z tcmu_cmd_entry) (size a : Z) (l : list slot) (b : Z) : Prop :=
  match l with
  | [] => a = b
  | (o, e) :: l => o = a /\ r !! a = Some e /\ path r size (ring_next size a e) l b
  end.

Lemma path_app r size a l1 l2 b :
  path r size a (l1 ++ l2) b <-> exists c, path r size a l1 c /\ path r size c l2 b.
Proof.
  revert a. induction l1 as [|[o e] l1 IH]; intros a; simpl; [naive_solver|].
  rewrite IH. naive_solver.
Qed.

Lemma path_insert r size a l b o e :
  o ∉ l.*1 -> path r size a l b -> path (<[o := e]> r) size a l b.
Proof.
  revert a. induction l as [|[o' e'] l IH]; intros a Ho; simpl; [done|].
  intros (-> & Hr & Hp). csimpl in *. apply not_elem_of_cons in Ho as [Ho Hl].
  by rewrite lookup_insert_ne, Hr by done; auto.
Qed.

(** Replacing an entry by one of the same length keeps every walk. *)
Lemma path_replace r size a l1 o e e' l2 b :
  NoDup (l1 ++ (o, e) :: l2).*1 -> len_op (hdr e') = len_op (hdr e) ->
  path r size a (l1 ++ (o, e) :: l2) b ->
  path (<[o := e']> r) size a (l1 ++ (o, e') :: l2) b.
Proof.
  rewrite fmap_app. csimpl. intros Hnd Hlen.
  apply NoDup_app in Hnd as (_ & H1 & [H2 _]%NoDup_cons).
  rewrite !path_app. intros (c & Hp1 & -> & Hc & Hp2). exists c. split.
  { apply path_insert; [|done]. intros Hin. apply (H1 _ Hin). left. }
  simpl. rewrite lookup_insert_eq. repeat split; [].
  apply path_insert; [done|]. unfold ring_next in *. by rewrite Hlen.
Qed.

Lemma path_length r size a l b : NoDup l.*1 -> path r size a l b -> (length l <= base.size r)%nat.
Proof.
  intros Hnd Hp. rewrite <- (length_fmap fst), <- size_dom, <- (size_list_to_set (C:=gset Z)) by done.
  apply subseteq_size. clear Hnd. revert a Hp. induction l as [|[o e] l IH]; intros a Hp; [set_solver|].
  destruct Hp as (-> & Hr & Hp). csimpl. apply IH in Hp. apply elem_of_dom_2 in Hr. set_solver.
Qed.

(** ** What a request must be

    A command entry as the kernel writes it: a request with as many iovec
    entries as it says, and a CDB of known length. *)

Definition ent_wf (e : tcmu_cmd_entry) : Prop :=
  is_cmd e = true ->
  exists cnt iov cdb, body e = Req cnt iov cdb /\ 0 <= cnt <= Z.of_nat (length iov) /\
    0 <= tcmu_get_cdb_length cdb <= Z.of_nat (length cdb).

Definition slot_cmd (x : slot) : bool := is_cmd x.2.
Definition cmds (l : list slot) : list slot := filter slot_cmd l.

(** An entry that the device's loop has passed without a command. *)
Definition pass (x : slot) : slot :=
  if ent_op x.2 =? opcode_val TCMU_OP_PAD then x else (x.1, flag_unknown x.2).

Lemma pass_eq o e :
  pass (o, e) = (o, if ent_op e =? opcode_val TCMU_OP_PAD then e else flag_unknown e).
Proof. unfold pass. cbn [fst snd]. by case_if. Qed.

Lemma pass_offsets l : (map pass l).*1 = l.*1.
Proof. induction l as [|x l IH]; csimpl; [done|]. unfold pass at 1. case_if; simpl; by f_equal. Qed.

Lemma pass_slot_cmd x : slot_cmd (pass x) = slot_cmd x.
Proof. unfold pass. by case_if. Qed.

Lemma cmds_app l1 l2 : cmds (l1 ++ l2) = cmds l1 ++ cmds l2.
Proof. apply filter_app. Qed.

Lemma cmds_none l : Forall (fun x => slot_cmd x = false) l -> cmds l = [].
Proof.
  intros H. unfold cmds. induction H as [|x l Hx _ IH]; [done|].
  rewrite filter_cons_False by (rewrite Hx; intros []). exact IH.
Qed.

Lemma cmds_pass l : Forall (fun x => slot_cmd x = false) l -> cmds (map pass l) = [].
Proof. intros H. apply cmds_none, Forall_map. eapply Forall_impl; [exact H|]. intros x. simpl. by rewrite pass_slot_cmd. Qed.

Lemma cmds_one o e : is_cmd e = true -> cmds [(o, e)] = [(o, e)].
Proof. intros H. unfold cmds. rewrite filter_cons_True by (unfold slot_cmd; simpl; by rewrite H). done. Qed.

(** The first command of a walk. *)
Lemma cmds_split l : cmds l <> [] ->
  exists p o e q, l = p ++ (o, e) :: q /\ Forall (fun x => slot_cmd x = false) p /\ is_cmd e = true.
Proof.
  induction l as [|[o e] l IH]; intros H; [done|]. destruct (is_cmd e) eqn:He.
  - exists [], o, e, l. by repeat split.
  - destruct IH as (p & o' & e' & q & -> & Hp & He').
    { unfold cmds in *. by rewrite filter_cons_False in H by (unfold slot_cmd; simpl; rewrite He; intros []). }
    exists ((o, e) :: p), o', e', q. split; [done|]. split; [|done]. by constructor.
Qed.

Lemma ent_cmd_wf mb_blk garbage e :
  ent_wf e -> is_cmd e = true ->
  exists cdb c, ent_cdb e = Some cdb /\ 0 <= tcmu_get_cdb_length cdb /\ ent_cmd mb_blk garbage e = Some c /\
    cmd_id c = hdr_cmd_id (hdr e) /\ sense_buf c = garbage.
Proof.
  intros Hwf Hc. destruct (Hwf Hc) as (cnt & iov & cdb & Hb & Hcnt & Hlen).
  unfold ent_cdb, ent_cmd. rewrite Hb. rewrite (proj2 (Z.ltb_ge _ _)) by lia.
  destruct (bget_is_Some cdb 0 (Z.to_nat (tcmu_get_cdb_length cdb)) ltac:(lia)) as [x Hx]. rewrite Hx.
  simpl. do 2 eexists. by repeat split; try lia.
Qed.

(** ** The loops on a walk *)

Lemma get_next_loop_spec mb_blk garbage mem_ok size head kt mt l3 : forall fuel l0 r dt,
  path r size kt l0 dt -> path r size dt l3 head ->
  NoDup (l0 ++ l3).*1 -> head ∉ (l0 ++ l3).*1 -> Forall (fun x => ent_wf x.2) l3 -> (length l3 < fuel)%nat ->
  exists r' dt' oc p tk rest,
    get_next_loop fuel mb_blk garbage mem_ok (Mb size head mt r) dt = Some (Mb size head mt r', dt', oc) /\
    l3 = p ++ tk ++ rest /\ Forall (fun x => slot_cmd x = false) p /\
    path r' size kt (l0 ++ map pass p ++ tk) dt' /\ path r' size dt' rest head /\
    match oc with
    | None => tk = [] /\ (mem_ok = true -> rest = [])
    | Some c => exists o e, tk = [(o, e)] /\ is_cmd e = true /\ ent_cmd mb_blk garbage e = Some c
    end.
Proof.
  induction l3 as [|[o e] l3 IH]; intros fuel l0 r dt Hp0 Hp Hnd Hh Hwf Hf.
  { simpl in Hp. subst dt. exists r, head, None, [], [], []. rewrite !app_nil_r. destruct fuel; simpl;
      rewrite Z.eqb_refl; by repeat split. }
  destruct fuel as [|fuel]; [simpl in Hf; lia|]. destruct Hp as (<- & Hr & Hp).
  apply Forall_cons in Hwf as [He Hwf]. simpl in He, Hf.
  assert (o <> head) as Hoh.
  { intros ->. apply Hh. rewrite fmap_app. csimpl. rewrite elem_of_app. right. left. }
  assert (l0 ++ (o, e) :: l3 = (l0 ++ [(o, e)]) ++ l3) as Eapp by by rewrite <- app_assoc.
  cbn [get_next_loop]. unfold device_cmd_head, device_cmd_tail. cbn [cmd_head ring cmdr_size].
  rewrite (proj2 (Z.eqb_neq _ _)) by done. rewrite Hr. cbn [mbind option_bind].
  destruct (ent_op e =? opcode_val TCMU_OP_PAD) eqn:Epad.
  { destruct (IH fuel (l0 ++ [(o, e)]) r (ring_next size o e)) as (r' & dt' & oc & p & tk & rest & E & -> & Hn & H1 & H2 & H3).
    - apply path_app. exists o. by repeat split.
    - done.
    - by rewrite <- Eapp.
    - by rewrite <- Eapp.
    - done.
    - lia.
    - exists r', dt', oc, ((o, e) :: p), tk, rest. rewrite E. split; [done|]. split; [done|]. split.
      { constructor; [|done]. unfold slot_cmd, is_cmd. simpl. zbool. rewrite Epad. done. }
      split; [|done]. cbn [map]. rewrite pass_eq, Epad. by rewrite <- app_assoc in H1. }
  destruct (ent_op e =? opcode_val TCMU_OP_CMD) eqn:Ecmd.
  { destruct (ent_cmd_wf mb_blk garbage e He Ecmd) as (cdb & c & -> & Hl & Hc & _). cbn [mbind option_bind].
    rewrite (proj2 (Z.ltb_ge _ _)) by done. destruct mem_ok; cbn [negb].
    - rewrite Hc. cbn [mbind option_bind]. exists r, (ring_next size o e), (Some c), [], [(o, e)], l3.
      split; [done|]. split; [done|]. split; [done|]. split; [|split; [done|eauto]].
      apply path_app. exists o. by repeat split.
    - exists r, o, None, [], [], ((o, e) :: l3). cbn [map app]. rewrite !app_nil_r. by repeat split. }
  set (r1 := <[o := flag_unknown e]> r). unfold set_ring. cbn [cmd_head mb_cmd_tail ring cmdr_size].
  assert (path r1 size kt (l0 ++ (o, flag_unknown e) :: l3) head) as Hp1.
  { apply path_replace with e; [done|done|]. apply path_app. exists o. by repeat split. }
  apply path_app in Hp1 as (o1 & Hp01 & <- & Hr1 & Hp1).
  assert (((l0 ++ [(o, flag_unknown e)]) ++ l3).*1 = (l0 ++ (o, e) :: l3).*1) as Efst.
  { by rewrite <- app_assoc, !fmap_app. }
  destruct (IH fuel (l0 ++ [(o, flag_unknown e)]) r1 (ring_next size o e))
    as (r' & dt' & oc & p & tk & rest & E & -> & Hn & H1 & H2 & H3).
  - apply path_app. exists o. by repeat split.
  - done.
  - by rewrite Efst.
  - by rewrite Efst.
  - done.
  - lia.
  - exists r', dt', oc, ((o, e) :: p), tk, rest. rewrite E. split; [done|]. split; [done|]. split.
    { constructor; [|done]. unfold slot_cmd, is_cmd. simpl. done. }
    split; [|done]. cbn [map]. rewrite pass_eq, Epad. by rewrite <- app_assoc in H1.
Qed.

Lemma skip_pads_spec size head r p o e : forall fuel t,
  path r size t p o -> r !! o = Some e -> is_cmd e = true ->
  Forall (fun x => slot_cmd x = false) p -> head ∉ o :: p.*1 -> (length p < fuel)%nat ->
  skip_pads fuel (Mb size head t r) = Some (Mb size head o r).
Proof.
  induction p as [|[o1 e1] p IH]; intros fuel t Hp Hr Hc Hn Hh Hf; (destruct fuel as [|fuel]; [simpl in Hf; lia|]);
    csimpl in *; cbn [skip_pads]; cbn [mb_cmd_tail cmd_head ring cmdr_size].
  - subst t. rewrite (proj2 (Z.eqb_neq _ _)) by (intros ->; apply Hh; left). rewrite Hr. cbn [mbind option_bind].
    by rewrite Hc.
  - destruct Hp as (<- & Hr1 & Hp). rewrite (proj2 (Z.eqb_neq _ _)) by (intros ->; apply Hh; right; left).
    apply Forall_cons in Hn as [Hn1 Hn]. rewrite Hr1. cbn [mbind option_bind].
    change (is_cmd e1 = false) in Hn1. rewrite Hn1. unfold set_tail. cbn [mb_cmd_tail cmd_head ring cmdr_size].
    apply IH; try done; [|lia]. intros Hin. apply Hh. apply elem_of_cons in Hin as [->|Hin]; [left|]. right. by right.
Qed.

(** ** The protocol

    The kernel submits entries at the head and reads responses behind the
    daemon's tail; the daemon fetches, and completes what it has fetched in any
    order, with any status.  [submitted] are the identifiers of the commands
    that the kernel wrote, [completed] the answers that the daemon gave, [seen]
    those that the kernel read. *)

Abbreviation answer := (Z * Z * option (list Z))%type.

(** What the kernel reads in an entry: the sense data with CHECK CONDITION
    only. *)
Definition ent_answer (e : tcmu_cmd_entry) : option answer :=
  match body e with
  | Rsp st s => Some (hdr_cmd_id (hdr e), st, if st =? SAM_STAT_CHECK_CONDITION then s else None)
  | _ => None
  end.

(** The answer to a command, from the status and the sense data of its
    completion. *)
Definition cmd_answer (cmd : tcmulib_cmd) (result : tcmu_sts) : option answer :=
  '(st, sense) ← tcmu_sts_to_scsi result (sense_buf cmd);
  Some (cmd_id cmd, st, if st =? SAM_STAT_CHECK_CONDITION then Some sense else None).

Record sys := Sys {
  s_mb : tcmu_mailbox;
  s_dtail : Z;
  s_ktail : Z;
  inflight : list tcmulib_cmd;
  submitted : list Z;
  completed : list answer;
  seen : list (option answer)
}.

Definition sys_init (size : Z) : sys := Sys (Mb size 0 0 ∅) 0 0 [] [] [] [].

Inductive ring_step (mb_blk : nat) : sys -> sys -> Prop :=
(** The new head is at no entry that the kernel has not read yet, nor where the
    next one would be. *)
| k_submit mb dt kt fl sub don see e :
    ent_wf e ->
    (forall l, path (ring mb) (cmdr_size mb) kt l (cmd_head mb) ->
       ring_next (cmdr_size mb) (cmd_head mb) e ∉ cmd_head mb :: l.*1) ->
    ring_step mb_blk (Sys mb dt kt fl sub don see)
      (Sys (Mb (cmdr_size mb) (ring_next (cmdr_size mb) (cmd_head mb) e) (mb_cmd_tail mb)
              (<[cmd_head mb := e]> (ring mb)))
         dt kt fl (sub ++ if is_cmd e then [hdr_cmd_id (hdr e)] else []) don see)
| k_read mb dt kt fl sub don see e :
    kt <> mb_cmd_tail mb -> ring mb !! kt = Some e ->
    ring_step mb_blk (Sys mb dt kt fl sub don see)
      (Sys mb dt (ring_next (cmdr_size mb) kt e) fl sub don
         (see ++ if is_cmd e then [ent_answer e] else []))
| d_fetch mb dt kt fl sub don see garbage mem_ok mb' dt' oc :
    length garbage = Z.to_nat TCMU_SENSE_BUFFERSIZE ->
    tcmulib_get_next_command mb_blk garbage mem_ok mb dt = Some (mb', dt', oc) ->
    ring_step mb_blk (Sys mb dt kt fl sub don see)
      (Sys mb' dt' kt (fl ++ option_list oc) sub don see)
(** The handler may have written to the sense buffer and consumed the iovec. *)
| d_complete mb dt kt fl1 cmd fl2 sub don see cmd' result mb' a :
    cmd_id cmd' = cmd_id cmd -> length (sense_buf cmd') = Z.to_nat TCMU_SENSE_BUFFERSIZE ->
    tcmulib_command_complete mb cmd' result = Some mb' -> cmd_answer cmd' result = Some a ->
    ring_step mb_blk (Sys mb dt kt (fl1 ++ cmd :: fl2) sub don see)
      (Sys mb' dt kt (fl1 ++ fl2) sub (don ++ [a]) see).

Definition reachable (mb_blk : nat) (size : Z) (s : sys) : Prop :=
  rtc (ring_step mb_blk) (sys_init size) s.

Definition ids (l : list slot) : list Z := map (fun x => hdr_cmd_id (hdr x.2)) (cmds l).

(** The ring in three parts: entries that were answered and not read by the
    kernel, entries that were fetched, entries that were not. *)
Record ring_inv_parts (s : sys) (l1 l2 l3 : list slot) : Prop := {
  ri_answered : path (ring (s_mb s)) (cmdr_size (s_mb s)) (s_ktail s) l1 (mb_cmd_tail (s_mb s));
  ri_fetched : path (ring (s_mb s)) (cmdr_size (s_mb s)) (mb_cmd_tail (s_mb s)) l2 (s_dtail s);
  ri_unfetched : path (ring (s_mb s)) (cmdr_size (s_mb s)) (s_dtail s) l3 (cmd_head (s_mb s));
  ri_nodup : NoDup (l1 ++ l2 ++ l3).*1;
  ri_head : cmd_head (s_mb s) ∉ (l1 ++ l2 ++ l3).*1;
  ri_wf : Forall (fun x => ent_wf x.2) l3;
  ri_seen : seen s ++ map (fun x => ent_answer x.2) (cmds l1) = map Some (completed s);
  ri_inflight : length (cmds l2) = length (inflight s);
  ri_ids : submitted s ≡ₚ map (fun a => a.1.1) (completed s) ++ map cmd_id (inflight s) ++ ids l3
}.

Definition ring_inv (s : sys) : Prop := exists l1 l2 l3, ring_inv_parts s l1 l2 l3.

Lemma ids_app l1 l2 : ids (l1 ++ l2) = ids l1 ++ ids l2.
Proof. unfold ids. by rewrite cmds_app, map_app. Qed.

Lemma ids_none l : Forall (fun x => slot_cmd x = false) l -> ids l = [].
Proof. intros H. unfold ids. by rewrite cmds_none. Qed.

(** A completion answers the first fetched command that has no answer yet. *)
Lemma complete_spec size head kt dt t r l1 p o e q l3 cmd result :
  path r size kt l1 t -> path r size t (p ++ (o, e) :: q) dt -> path r size dt l3 head ->
  NoDup (l1 ++ (p ++ (o, e) :: q) ++ l3).*1 -> head ∉ (l1 ++ (p ++ (o, e) :: q) ++ l3).*1 ->
  is_cmd e = true -> Forall (fun x => slot_cmd x = false) p ->
  length (sense_buf cmd) = Z.to_nat TCMU_SENSE_BUFFERSIZE ->
  exists e' a r' t',
    tcmulib_command_complete (Mb size head t r) cmd result = Some (Mb size head t' r') /\
    cmd_answer cmd result = Some a /\ a.1.1 = cmd_id cmd /\
    is_cmd e' = true /\ ent_answer e' = Some a /\
    path r' size kt (l1 ++ p ++ [(o, e')]) t' /\ path r' size t' q dt /\ path r' size dt l3 head.
Proof.
  intros H1 H2 H3 Hnd Hh Hc Hn Hs.
  apply path_app in H2 as (o' & Hp & <- & Hr & Hq).
  assert ((l1 ++ (p ++ (o, e) :: q) ++ l3).*1 = l1.*1 ++ p.*1 ++ o :: q.*1 ++ l3.*1) as Ef.
  { rewrite !fmap_app. csimpl. by rewrite <- !app_assoc. }
  assert (length p < S (base.size r))%nat as Hlen.
  { apply path_length in Hp; [lia|]. rewrite Ef in Hnd.
    by apply NoDup_app in Hnd as (_ & _ & (? & _)%NoDup_app). }
  unfold tcmulib_command_complete, cmd_answer. cbn [ring].
  rewrite (skip_pads_spec size head r p o e) by
    (try done; intros Hin; apply Hh; rewrite Ef, !elem_of_app, elem_of_cons; set_solver).
  cbn [mbind option_bind ring mb_cmd_tail]. rewrite Hr. cbn [mbind option_bind].
  destruct (tcmu_sts_to_scsi_total result (sense_buf cmd)) as (st & sense & Est & El).
  { rewrite Hs. unfold TCMU_SENSE_BUFFERSIZE. lia. }
  rewrite Est. cbn [mbind option_bind]. unfold set_ring, set_tail. cbn [ring cmdr_size cmd_head mb_cmd_tail].
  assert (bget sense 0 (Z.to_nat TCMU_SENSE_BUFFERSIZE) = Some sense) as Eg.
  { unfold bget. rewrite decide_True by lia. rewrite drop_0, take_ge by lia. done. }
  set (ss := if st =? SAM_STAT_CHECK_CONDITION then Some sense else None).
  assert ((if st =? SAM_STAT_CHECK_CONDITION
     then s ← bget sense 0 (Z.to_nat TCMU_SENSE_BUFFERSIZE); Some (Some s) else Some None) = Some ss) as ->.
  { unfold ss. rewrite Eg. by case_if. }
  cbn [mbind option_bind]. set (e' := respond e (cmd_id cmd) st ss).
  assert (path (<[o:=e']> r) size kt (l1 ++ p ++ (o, e') :: q ++ l3) head) as Hall.
  { rewrite app_assoc. apply path_replace with e; [|done|].
    - rewrite <- !app_assoc in Hnd |- *. done.
    - rewrite <- app_assoc. apply path_app. exists t. split; [done|]. apply path_app. exists o. split; [done|].
      split; [done|]. split; [done|]. apply path_app. eauto. }
  exists e', (cmd_id cmd, st, ss), (<[o:=e']> r), (ring_next size o e').
  split; [done|]. split; [done|]. split; [done|]. split; [done|]. split.
  { unfold ent_answer, e', respond, ss. cbn [body hdr hdr_cmd_id]. by case_if. }
  assert (o ∉ q.*1 /\ o ∉ l3.*1) as [Ho1 Ho2].
  { rewrite Ef in Hnd. apply NoDup_app in Hnd as (_ & _ & (_ & _ & [Ho _]%NoDup_cons)%NoDup_app). set_solver. }
  split; [|split; by apply path_insert].
  apply path_app in Hall as (x & Hx1 & Hx2). apply path_app in Hx2 as (y & Hy1 & <- & Hy2 & _).
  apply path_app. exists x. split; [done|]. apply path_app. exists o. by repeat split.
Qed.

(** Where a walk ends does not depend on the ring. *)
Lemma path_end r r' size a l b b' : path r size a l b -> path r' size a l b' -> b = b'.
Proof.
  revert a. induction l as [|[o e] l IH]; intros a; simpl; [by intros -> ->|].
  intros (_ & _ & H1) (_ & _ & H2). eauto.
Qed.

Lemma ring_inv_init size : ring_inv (sys_init size).
Proof. exists [], [], []. by split; simpl; try constructor; try apply not_elem_of_nil. Qed.

Lemma whole_path s l1 l2 l3 : ring_inv_parts s l1 l2 l3 ->
  path (ring (s_mb s)) (cmdr_size (s_mb s)) (s_ktail s) (l1 ++ l2 ++ l3) (cmd_head (s_mb s)).
Proof.
  intros []. apply path_app. exists (mb_cmd_tail (s_mb s)). split; [done|]. apply path_app. by exists (s_dtail s).
Qed.

Lemma submit_inv mb dt kt fl sub don see e :
  ent_wf e ->
  (forall l, path (ring mb) (cmdr_size mb) kt l (cmd_head mb) ->
     ring_next (cmdr_size mb) (cmd_head mb) e ∉ cmd_head mb :: l.*1) ->
  ring_inv (Sys mb dt kt fl sub don see) ->
  ring_inv (Sys (Mb (cmdr_size mb) (ring_next (cmdr_size mb) (cmd_head mb) e) (mb_cmd_tail mb)
              (<[cmd_head mb := e]> (ring mb)))
         dt kt fl (sub ++ if is_cmd e then [hdr_cmd_id (hdr e)] else []) don see).
Proof.
  intros He Hroom (l1 & l2 & l3 & Hi). pose proof (whole_path _ _ _ _ Hi) as Hw. apply Hroom in Hw.
  destruct Hi as [H1 H2 H3 Hnd Hh Hwf Hse Hfl Hid]. cbn [s_mb s_dtail s_ktail] in *.
  rewrite !fmap_app, !not_elem_of_app in Hh. destruct Hh as (Hh1 & Hh2 & Hh3).
  apply not_elem_of_cons in Hw as [Hw1 Hw].
  exists l1, l2, (l3 ++ [(cmd_head mb, e)]). split; cbn -[fmap list_fmap]; try done.
  - by apply path_insert.
  - by apply path_insert.
  - apply path_app. exists (cmd_head mb). split; [by apply path_insert|]. split; [done|]. split; [|done].
    apply lookup_insert_eq.
  - rewrite !app_assoc, fmap_app, <- !app_assoc. csimpl. apply NoDup_app. split; [done|].
    split; [|by apply NoDup_singleton]. intros x Hx ->%list_elem_of_singleton.
    rewrite !fmap_app, !elem_of_app in Hx. tauto.
  - rewrite !app_assoc, fmap_app, <- !app_assoc. csimpl. rewrite not_elem_of_app, list_elem_of_singleton.
    by split.
  - apply Forall_app. split; [done|]. by constructor.
  - rewrite ids_app. destruct (is_cmd e) eqn:Hc.
    + unfold ids at 2. rewrite cmds_one by done. cbn [map snd]. cbn in Hid. rewrite Hid. by rewrite <- !app_assoc.
    + rewrite (ids_none [_]) by by constructor. by rewrite !app_nil_r.
Qed.

Lemma read_parts mb dt kt o fl sub don see e l1 l2 l3 :
  ring_inv_parts (Sys mb dt kt fl sub don see) ((o, e) :: l1) l2 l3 ->
  ring_inv_parts (Sys mb dt (ring_next (cmdr_size mb) kt e) fl sub don (see ++ if is_cmd e then [ent_answer e] else []))
    l1 l2 l3.
Proof.
  intros [H1 H2 H3 Hnd Hh Hwf Hse Hfl Hid]. cbn [s_mb s_dtail s_ktail inflight submitted completed seen] in *. destruct H1 as (-> & He & H1).
  csimpl in *. apply NoDup_cons in Hnd as [_ Hnd]. apply not_elem_of_cons in Hh as [_ Hh].
  split; cbn [s_mb s_dtail s_ktail inflight submitted completed seen]; try done. rewrite <- Hse, <- app_assoc. f_equal.
  change ((kt, e) :: l1) with ([(kt, e)] ++ l1).
  rewrite cmds_app, map_app. f_equal. destruct (is_cmd e) eqn:Hc.
  - by rewrite cmds_one.
  - by rewrite cmds_none by by constructor.
Qed.

Lemma read_inv mb dt kt fl sub don see e :
  kt <> mb_cmd_tail mb -> ring mb !! kt = Some e ->
  ring_inv (Sys mb dt kt fl sub don see) ->
  ring_inv (Sys mb dt (ring_next (cmdr_size mb) kt e) fl sub don (see ++ if is_cmd e then [ent_answer e] else [])).
Proof.
  intros Hk He (l1 & l2 & l3 & Hi). pose proof (ri_answered _ _ _ _ Hi) as H1. cbn in H1.
  destruct l1 as [|[o e1] l1]; [by simpl in H1|]. destruct H1 as (-> & He1 & _).
  rewrite He in He1. injection He1 as <-. exists l1, l2, l3. by eapply read_parts.
Qed.

Lemma fetch_total mb_blk garbage mem_ok mb dt kt fl sub don see l1 l2 l3 :
  ring_inv_parts (Sys mb dt kt fl sub don see) l1 l2 l3 ->
  length garbage = Z.to_nat TCMU_SENSE_BUFFERSIZE ->
  exists mb' dt' oc, tcmulib_get_next_command mb_blk garbage mem_ok mb dt = Some (mb', dt', oc) /\
    ring_inv (Sys mb' dt' kt (fl ++ option_list oc) sub don see) /\
    (forall c, oc = Some c -> sense_buf c = garbage) /\
    (oc = None -> mem_ok = true -> ids l3 = []).
Proof.
  intros [H1 H2 H3 Hnd Hh Hwf Hse Hfl Hid] Hg. destruct mb as [size head t r].
  cbn -[fmap list_fmap tcmulib_get_next_command tcmulib_command_complete] in *.
  rewrite app_assoc in Hnd, Hh.
  assert (length l3 < S (base.size r))%nat as Hf.
  { apply path_length in H3; [lia|]. rewrite fmap_app in Hnd. by apply NoDup_app in Hnd as (_ & _ & ?). }
  destruct (get_next_loop_spec mb_blk garbage mem_ok size head kt t l3 (S (base.size r)) (l1 ++ l2) r dt)
    as (r' & dt' & oc & p & tk & rest & E & -> & Hn & P1 & P2 & P3); try done.
  { apply path_app. eauto. }
  unfold tcmulib_get_next_command. cbn [ring]. rewrite E. eexists _, _, _. split; [done|].
  rewrite <- app_assoc in P1. apply path_app in P1 as (t' & P0 & P1).
  pose proof (path_end _ _ _ _ _ _ _ H1 P0) as <-.
  assert (ids (p ++ tk ++ rest) = map cmd_id (option_list oc) ++ ids rest /\
          length (cmds (map pass p ++ tk)) = length (option_list oc) /\
          (forall c, oc = Some c -> sense_buf c = garbage)) as (Eids & Elen & Esb).
  { rewrite !ids_app, (ids_none p) by done. rewrite cmds_app, cmds_pass by done. cbn [app].
    destruct oc as [c|].
    - destruct P3 as (o & e & -> & Hc & Hcmd). unfold ids at 1. rewrite cmds_one by done.
      apply Forall_app in Hwf as [_ Hwf]. apply Forall_cons in Hwf as [He _].
      destruct (ent_cmd_wf mb_blk garbage e He Hc) as (? & c' & _ & _ & Hc' & Hci & Hsb).
      rewrite Hcmd in Hc'. injection Hc' as <-. split; [by simpl; rewrite Hci|]. split; [done|].
      by intros c0 [= <-].
    - by destruct P3 as [-> _]. }
  split; [|split; [done|]].
  - exists l1, (l2 ++ map pass p ++ tk), rest.
    assert ((l1 ++ (l2 ++ map pass p ++ tk) ++ rest).*1 = ((l1 ++ l2) ++ p ++ tk ++ rest).*1) as Ef.
    { rewrite !fmap_app, pass_offsets, <- !app_assoc. done. }
    split; cbn -[fmap list_fmap]; rewrite ?Ef; try done.
    + rewrite !Forall_app in Hwf. by destruct Hwf as (_ & _ & ?).
    + rewrite cmds_app, !length_app, Hfl, Elen. done.
    + rewrite Hid, Eids, map_app, <- !app_assoc. done.
  - intros -> Hm. destruct P3 as [-> P3]. rewrite !ids_app, (ids_none p), P3 by done. done.
Qed.

Lemma complete_total mb dt kt fl1 cmd fl2 sub don see cmd' result :
  ring_inv (Sys mb dt kt (fl1 ++ cmd :: fl2) sub don see) ->
  cmd_id cmd' = cmd_id cmd -> length (sense_buf cmd') = Z.to_nat TCMU_SENSE_BUFFERSIZE ->
  exists mb' a, tcmulib_command_complete mb cmd' result = Some mb' /\ cmd_answer cmd' result = Some a /\
    ring_inv (Sys mb' dt kt (fl1 ++ fl2) sub (don ++ [a]) see).
Proof.
  intros (l1 & l2 & l3 & [H1 H2 H3 Hnd Hh Hwf Hse Hfl Hid]) Hcid Hs.
  destruct mb as [size head t r].
  cbn -[fmap list_fmap tcmulib_get_next_command tcmulib_command_complete] in *.
  destruct (cmds_split l2) as (p & o & e & q & -> & Hn & Hc).
  { intros E. rewrite E, length_app in Hfl. simpl in Hfl. lia. }
  destruct (complete_spec size head kt dt t r l1 p o e q l3 cmd' result)
    as (e' & a & r' & t' & E & Ea & Eid & Hc' & Eans & P1 & P2 & P3); try done.
  exists (Mb size head t' r'), a. split; [done|]. split; [done|].
  exists (l1 ++ p ++ [(o, e')]), q, l3.
  assert (((l1 ++ p ++ [(o, e')]) ++ q ++ l3).*1 = (l1 ++ (p ++ (o, e) :: q) ++ l3).*1) as Ef.
  { rewrite !fmap_app. csimpl. by rewrite <- !app_assoc. }
  split; cbn -[fmap list_fmap]; rewrite ?Ef; try done.
  - rewrite !cmds_app, (cmds_none p), cmds_one, map_app by done. cbn [app map snd]. rewrite app_assoc, Hse, Eans.
    by rewrite map_app.
  - change ((o, e) :: q) with ([(o, e)] ++ q) in Hfl. rewrite !cmds_app, (cmds_none p), cmds_one in Hfl by done.
    rewrite !length_app in *. cbn [length] in Hfl. lia.
  - rewrite Hid, !map_app. cbn [map]. rewrite Eid, Hcid, <- !app_assoc. cbn [app].
    by rewrite <- (Permutation_middle (map cmd_id fl1)).
Qed.

Lemma step_inv mb_blk s s' : ring_step mb_blk s s' -> ring_inv s -> ring_inv s'.
Proof.
  intros Hst Hi. destruct Hst.
  - by apply submit_inv.
  - by apply read_inv.
  - destruct Hi as (l1 & l2 & l3 & Hi).
    destruct (fetch_total mb_blk garbage mem_ok _ _ _ _ _ _ _ _ _ _ Hi) as (? & ? & ? & E & Hi' & _); [done|].
    by simplify_eq.
  - destruct (complete_total mb dt kt fl1 cmd fl2 sub don see cmd' result) as (? & ? & E & Ea & Hi'); try done.
    by simplify_eq.
Qed.

Lemma reachable_inv mb_blk size s : reachable mb_blk size s -> ring_inv s.
Proof.
  intros H. unfold reachable in H. assert (ring_inv (sys_init size)) as Hi by apply ring_inv_init.
  induction H as [|s1 s2 s3 Hs _ IH]; [done|]. apply IH. by eapply step_inv.
Qed.

(** ** Every command is answered once *)

(** C2: whatever the kernel and the daemon do in turn, the daemon completing in
    any order with any status, every submitted command is in exactly one of
    three places: answered, in flight, or not fetched; the kernel reads the
    answers of [tcmulib_command_complete], all of them and in their order; and
    neither fetching nor completing can fail or run forever, a fetch with
    memory finding a command whenever one is left. *)
Theorem ring_protocol (mb_blk : nat) (size : Z) (s : sys) (Hr : reachable mb_blk size s) :
  exists l1 l3,
    path (ring (s_mb s)) (cmdr_size (s_mb s)) (s_dtail s) l3 (cmd_head (s_mb s)) /\
    submitted s ≡ₚ map (fun a => a.1.1) (completed s) ++ map cmd_id (inflight s) ++ ids l3 /\
    path (ring (s_mb s)) (cmdr_size (s_mb s)) (s_ktail s) l1 (mb_cmd_tail (s_mb s)) /\
    seen s ++ map (fun x => ent_answer x.2) (cmds l1) = map Some (completed s) /\
    (forall garbage mem_ok, length garbage = Z.to_nat TCMU_SENSE_BUFFERSIZE ->
       exists mb' dt' oc,
         tcmulib_get_next_command mb_blk garbage mem_ok (s_mb s) (s_dtail s) = Some (mb', dt', oc) /\
         (oc = None -> mem_ok = true -> ids l3 = [])) /\
    (forall cmd cmd' result, cmd ∈ inflight s -> cmd_id cmd' = cmd_id cmd ->
       length (sense_buf cmd') = Z.to_nat TCMU_SENSE_BUFFERSIZE ->
       is_Some (tcmulib_command_complete (s_mb s) cmd' result)).
Proof.
  destruct (reachable_inv _ _ _ Hr) as (l1 & l2 & l3 & Hi). exists l1, l3.
  destruct s as [mb dt kt fl sub don see].
  split; [apply Hi|]. split; [apply Hi|]. split; [apply Hi|]. split; [apply Hi|]. split.
  - intros g m Hg. destruct (fetch_total mb_blk g m _ _ _ _ _ _ _ _ _ _ Hi Hg) as (mb' & dt' & oc & E & _ & _ & Hn).
    by exists mb', dt', oc.
  - intros cmd cmd' result Hin Hid Hs. apply list_elem_of_split in Hin as (fl1 & fl2 & Efl). cbn [inflight] in Efl.
    subst fl. destruct (complete_total mb dt kt fl1 cmd fl2 sub don see cmd' result)
      as (mb' & a & E & _); [by exists l1, l2, l3|done|done|]. by exists mb'.
Qed.

(** An empty sense buffer, for the executions below. *)
Definition sense0 : list Z := zeros 96.

(** The answered identifiers. *)
Definition answered (s : sys) : list Z := map (fun a => a.1.1) (completed s).

(** The daemon fetches what is left, *)
Lemma drain_ring mb_blk n : forall s, ring_inv s ->
  (length (submitted s) = length (completed s) + length (inflight s) + n)%nat ->
  exists s', rtc (ring_step mb_blk) s s' /\ ring_inv s' /\ submitted s' = submitted s /\
    submitted s' ≡ₚ answered s' ++ map cmd_id (inflight s').
Proof.
  induction n as [|n IH]; intros [mb dt kt fl sub don see] (l1 & l2 & l3 & Hi) Hn.
  all: pose proof (ri_ids _ _ _ _ Hi) as Hid; pose proof (Permutation_length Hid) as Hl;
    rewrite !length_app, !length_map in Hl; cbn [submitted completed inflight] in *.
  { exists (Sys mb dt kt fl sub don see). split; [done|]. split; [by exists l1, l2, l3|]. split; [done|].
    assert (ids l3 = []) as E by (apply nil_length_inv; lia).
    by rewrite E, app_nil_r in Hid. }
  destruct (fetch_total mb_blk sense0 true _ _ _ _ _ _ _ _ _ _ Hi eq_refl) as (mb' & dt' & oc & E & Hi' & _ & Hnone).
  pose proof (d_fetch mb_blk mb dt kt fl sub don see sense0 true mb' dt' oc eq_refl E) as Hst.
  destruct oc as [c|].
  - destruct (IH _ Hi') as (s' & Hs & Hinv & Hsub & Hp).
    { cbn [submitted completed inflight]. rewrite length_app. simpl. lia. }
    exists s'. split; [by eapply rtc_l|]. by repeat split.
  - exfalso. specialize (Hnone eq_refl eq_refl). rewrite Hnone in Hl. simpl in Hl. lia.
Qed.

(** answers what is in flight, *)
Lemma drain_inflight mb_blk n : forall s, ring_inv s -> length (inflight s) = n ->
  exists s', rtc (ring_step mb_blk) s s' /\ ring_inv s' /\ submitted s' = submitted s /\
    answered s' ≡ₚ answered s ++ map cmd_id (inflight s).
Proof.
  induction n as [|n IH]; intros [mb dt kt fl sub don see] Hi Hl; cbn [inflight] in Hl.
  { apply nil_length_inv in Hl as ->. exists (Sys mb dt kt [] sub don see). cbn. rewrite app_nil_r. by repeat split. }
  destruct fl as [|c fl]; [done|]. injection Hl as Hl.
  set (c' := set_sense_buf c sense0).
  destruct (complete_total mb dt kt [] c fl sub don see c' TCMU_STS_OK Hi) as (mb' & a & E & Ea & Hi'); [done|done|].
  destruct (IH (Sys mb' dt kt fl sub (don ++ [a]) see) Hi' Hl) as (s' & Hs & H1 & H2 & H3).
  assert (a.1.1 = cmd_id c) as Hid by (injection Ea as <-; done).
  exists s'. split; [|split; [done|split; [done|]]].
  - eapply rtc_l; [|exact Hs].
    exact (d_complete mb_blk mb dt kt [] c fl sub don see c' TCMU_STS_OK mb' a eq_refl eq_refl E Ea).
  - unfold answered in *. cbn [completed inflight] in H3 |- *. rewrite H3, map_app. cbn [map].
    by rewrite Hid, <- app_assoc.
Qed.

(** and the kernel reads the answers. *)
Lemma drain_answers mb_blk l1 : forall s l2 l3, ring_inv_parts s l1 l2 l3 ->
  exists s', rtc (ring_step mb_blk) s s' /\ submitted s' = submitted s /\ completed s' = completed s /\
    seen s' = map Some (completed s').
Proof.
  induction l1 as [|[o e] l1 IH]; intros s l2 l3 Hi.
  { exists s. split; [done|]. pose proof (ri_seen _ _ _ _ Hi) as H. by rewrite app_nil_r in H. }
  destruct s as [mb dt kt fl sub don see]. pose proof (ri_answered _ _ _ _ Hi) as Ha.
  cbn [s_mb s_ktail] in Ha. destruct Ha as (-> & He & _). assert (kt <> mb_cmd_tail mb) as Ht.
  { pose proof (ri_nodup _ _ _ _ Hi) as Hnd. pose proof (ri_head _ _ _ _ Hi) as Hh.
    pose proof (ri_fetched _ _ _ _ Hi) as H2. pose proof (ri_unfetched _ _ _ _ Hi) as H3.
    csimpl in *. apply NoDup_cons in Hnd as [Hnd _]. apply not_elem_of_cons in Hh as [Hh _].
    rewrite !fmap_app, !not_elem_of_app in Hnd.
    destruct l2 as [|[o2 e2] l2]; [destruct l3 as [|[o3 e3] l3]|]; simpl in H2, H3; csimpl in *; [congruence| |];
      destruct Hnd as (_ & Hn2 & Hn3).
    - destruct H3 as (-> & _). rewrite H2. intros ->. apply Hn3. left.
    - destruct H2 as (-> & _). intros ->. apply Hn2. left. }
  pose proof (k_read mb_blk mb dt kt fl sub don see e Ht He) as Hst.
  pose proof (read_parts _ _ _ _ _ _ _ _ _ _ _ _ Hi) as Hi'.
  destruct (IH _ _ _ Hi') as (s' & Hs & H). exists s'. split; [by eapply rtc_l|exact H].
Qed.

(** C9: from every state that the protocol reaches the daemon can answer all
    that is left and the kernel can read it: every submitted command ends with
    exactly one answer, whichever were in flight, answered or not fetched. *)
Theorem ring_drains (mb_blk : nat) (size : Z) (s : sys) (Hr : reachable mb_blk size s) :
  exists s', rtc (ring_step mb_blk) s s' /\ submitted s' = submitted s /\
    seen s' = map Some (completed s') /\ submitted s' ≡ₚ answered s'.
Proof.
  pose proof (reachable_inv _ _ _ Hr) as Hi.
  assert (exists n, length (submitted s) = length (completed s) + length (inflight s) + n)%nat as [n Hn].
  { destruct Hi as (l1 & l2 & l3 & Hi). pose proof (Permutation_length (ri_ids _ _ _ _ Hi)) as Hl.
    rewrite !length_app, !length_map in Hl. exists (length (ids l3)). lia. }
  destruct (drain_ring mb_blk n s Hi Hn) as (s1 & R1 & Hi1 & Hs1 & Hp1).
  destruct (drain_inflight mb_blk _ s1 Hi1 eq_refl) as (s2 & R2 & (l1 & l2 & l3 & Hi2) & Hs2 & Hp2).
  destruct (drain_answers mb_blk l1 s2 l2 l3 Hi2) as (s3 & R3 & Hs3 & Hc3 & Hseen).
  exists s3. split; [by do 2 (etransitivity; [eassumption|])|]. split; [congruence|]. split; [done|].
  rewrite Hs3, Hs2, <- Hs1 in *. unfold answered in *. rewrite Hc3, Hp2. done.
Qed.

(** ** An execution *)

(** TEST UNIT READY, in an entry of 128 bytes. *)
Definition tur_entry (id : Z) : tcmu_cmd_entry := Ent (Hdr 129 id 0) (Req 0 [] [0; 0; 0; 0; 0; 0]).
Definition tur_cmd (id : Z) : tcmulib_cmd := Cmd id [0; 0; 0; 0; 0; 0] [] 0 sense0.

(** A command with a vendor specific operation code: its CDB has no length. *)
Definition vendor_entry (id : Z) : tcmu_cmd_entry := Ent (Hdr 129 id 0) (Req 0 [] [0xc0; 0; 0; 0; 0; 0]).

Lemma tur_wf id : ent_wf (tur_entry id).
Proof. intros _. exists 0, [], [0; 0; 0; 0; 0; 0]. by vm_compute. Qed.

(** Decides [k_submit]'s condition on a concrete ring. *)
Ltac solve_room :=
  cbn [cmd_head ring cmdr_size mb_cmd_tail];
  match goal with |- forall l, path ?r ?s ?k l ?h -> ?x ∉ _ =>
    let l := fresh "l" in let x' := eval vm_compute in x in
    change x with x'; intros l; repeat (
      destruct l as [|[? ?] l];
      [intros [=]; simpl; rewrite ?not_elem_of_cons; repeat split; solve [lia | apply not_elem_of_nil]|];
      cbn [path]; intros (-> & Hr & Hp);
      first [by vm_compute in Hr | vm_compute in Hr; injection Hr as <-; revert Hp;
        match goal with |- context [ring_next ?a ?b ?c] =>
          let y := eval vm_compute in (ring_next a b c) in change (ring_next a b c) with y end]) end.

(** Two commands, fetched in order and answered in the opposite order. *)
Definition ring2 : gmap Z tcmu_cmd_entry := <[128 := tur_entry 8]> (<[0 := tur_entry 7]> ∅).
Definition sys2 : sys :=
  Sys (Mb 1024 256 128 (<[0 := respond (tur_entry 7) 8 0 None]> ring2)) 256 0 [tur_cmd 7] [7; 8] [(8, 0, None)] [].

Lemma sys2_reachable mb_blk : reachable mb_blk 1024 sys2.
Proof.
  eapply rtc_l; [apply (k_submit mb_blk (Mb 1024 0 0 ∅) 0 0 [] [] [] [] (tur_entry 7)); [apply tur_wf|solve_room]|].
  eapply rtc_l; [apply (k_submit mb_blk (Mb 1024 128 0 (<[0 := tur_entry 7]> ∅)) 0 0 [] [7] [] [] (tur_entry 8));
    [apply tur_wf|solve_room]|].
  eapply rtc_l; [exact (d_fetch mb_blk (Mb 1024 256 0 ring2) 0 0 [] [7; 8] [] [] sense0 true
    (Mb 1024 256 0 ring2) 128 (Some (tur_cmd 7)) eq_refl eq_refl)|].
  eapply rtc_l; [exact (d_fetch mb_blk (Mb 1024 256 0 ring2) 128 0 [tur_cmd 7] [7; 8] [] [] sense0 true
    (Mb 1024 256 0 ring2) 256 (Some (tur_cmd 8)) eq_refl eq_refl)|].
  eapply rtc_l; [|apply rtc_refl].
  exact (d_complete mb_blk (Mb 1024 256 0 ring2) 256 0 [tur_cmd 7] (tur_cmd 8) [] [7; 8] [] [] (tur_cmd 8) TCMU_STS_OK
    (s_mb sys2) (8, 0, None) eq_refl eq_refl eq_refl eq_refl).
Qed.

Lemma ring_protocol_witness :
  reachable 0 1024 sys2 /\
  exists l1 l3,
    path (ring (s_mb sys2)) (cmdr_size (s_mb sys2)) (s_dtail sys2) l3 (cmd_head (s_mb sys2)) /\
    submitted sys2 ≡ₚ map (fun a => a.1.1) (completed sys2) ++ map cmd_id (inflight sys2) ++ ids l3 /\
    path (ring (s_mb sys2)) (cmdr_size (s_mb sys2)) (s_ktail sys2) l1 (mb_cmd_tail (s_mb sys2)) /\
    seen sys2 ++ map (fun x => ent_answer x.2) (cmds l1) = map Some (completed sys2) /\
    (forall garbage mem_ok, length garbage = Z.to_nat TCMU_SENSE_BUFFERSIZE ->
       exists mb' dt' oc,
         tcmulib_get_next_command 0 garbage mem_ok (s_mb sys2) (s_dtail sys2) = Some (mb', dt', oc) /\
         (oc = None -> mem_ok = true -> ids l3 = [])) /\
    (forall cmd cmd' result, cmd ∈ inflight sys2 -> cmd_id cmd' = cmd_id cmd ->
       length (sense_buf cmd') = Z.to_nat TCMU_SENSE_BUFFERSIZE ->
       is_Some (tcmulib_command_complete (s_mb sys2) cmd' result)).
Proof. split; [apply sys2_reachable|]. apply (ring_protocol 0 1024 sys2). apply sys2_reachable. Defined.

Lemma ring_drains_witness :
  reachable 0 1024 sys2 /\
  exists s', rtc (ring_step 0) sys2 s' /\ submitted s' = submitted sys2 /\
    seen s' = map Some (completed s') /\ submitted s' ≡ₚ answered s'.
Proof. split; [apply sys2_reachable|]. apply (ring_drains 0 1024 sys2). apply sys2_reachable. Defined.

(** ** A command that is dropped *)

Lemma get_next_at_head mb_blk garbage mem_ok mb :
  tcmulib_get_next_command mb_blk garbage mem_ok mb (cmd_head mb) = Some (mb, cmd_head mb, None).
Proof. unfold tcmulib_get_next_command, get_next_loop, device_cmd_head. by rewrite Z.eqb_refl. Qed.

(** C40: a command whose CDB length [tcmu_get_cdb_length] does not know is
    dropped when it is fetched, and never answered: the answer of the next
    command takes its entry, and the mailbox tail stops one command short of the
    head, with nothing in flight and nothing left to fetch. *)
Theorem ring_dropped_command (mb_blk : nat) (mb : tcmu_mailbox) (garbage : list Z) (mem_ok : bool)
  (e1 e2 : tcmu_cmd_entry) (cdb1 : list Z) (t1 : Z) (cmd : tcmulib_cmd) (result : tcmu_sts)
  (H1 : ring mb !! mb_cmd_tail mb = Some e1) (Hc1 : is_cmd e1 = true)
  (Hcdb : ent_cdb e1 = Some cdb1) (Hlen : tcmu_get_cdb_length cdb1 < 0)
  (Ht1 : ring_next (cmdr_size mb) (mb_cmd_tail mb) e1 = t1)
  (H2 : ring mb !! t1 = Some e2) (Hc2 : is_cmd e2 = true) (Hwf : ent_wf e2)
  (Ht2 : ring_next (cmdr_size mb) t1 e2 = cmd_head mb)
  (Hd : NoDup [mb_cmd_tail mb; t1; cmd_head mb])
  (Hid : cmd_id cmd = hdr_cmd_id (hdr e2)) (Hs : length (sense_buf cmd) = Z.to_nat TCMU_SENSE_BUFFERSIZE) :
  exists c mb' e1' a,
    tcmulib_get_next_command mb_blk garbage true mb (mb_cmd_tail mb) = Some (mb, cmd_head mb, Some c) /\
    cmd_id c = hdr_cmd_id (hdr e2) /\
    tcmulib_command_complete mb cmd result = Some mb' /\
    cmd_answer cmd result = Some a /\
    ring mb' !! mb_cmd_tail mb = Some e1' /\ ent_answer e1' = Some a /\
    ring mb' !! t1 = Some e2 /\ mb_cmd_tail mb' = t1 /\ t1 <> cmd_head mb' /\
    tcmulib_get_next_command mb_blk garbage mem_ok mb' (cmd_head mb) = Some (mb', cmd_head mb, None).
Proof.
  apply NoDup_cons in Hd as [Hd1 Hd2]. apply NoDup_cons in Hd2 as [Hd2 _].
  rewrite !not_elem_of_cons in Hd1. rewrite not_elem_of_cons in Hd2. destruct Hd1 as (N1 & N2 & _), Hd2 as [N3 _].
  destruct (ent_cmd_wf mb_blk garbage e2 Hwf Hc2) as (cdb2 & c & Hcdb2 & Hl2 & Hec & Hci & _).
  destruct mb as [size head t r]. cbn [ring mb_cmd_tail cmdr_size cmd_head] in *.
  destruct (complete_spec size head t head t r [] [] t e1 [(t1, e2)] [] cmd result)
    as (e' & a & r' & t' & E & Ea & _ & _ & Eans & (_ & P1 & P1') & (P2 & P2' & _) & _); try done.
  { cbn [path app]. rewrite Ht1. by repeat split. }
  { csimpl. apply NoDup_cons. split; [by rewrite list_elem_of_singleton|apply NoDup_singleton]. }
  { csimpl. rewrite !not_elem_of_cons. repeat split; [done|done|apply not_elem_of_nil]. }
  cbn [path app fst snd] in P1, P1', P2, P2'. subst t'.
  exists c, (Mb size head t1 r'), e', a. split.
  { unfold tcmulib_get_next_command. cbn [ring].
    destruct (base.size r) as [|n] eqn:Es; [apply map_size_empty_inv in Es; by rewrite Es, lookup_empty in H1|].
    cbn [get_next_loop]. unfold device_cmd_head, device_cmd_tail. cbn [ring cmd_head cmdr_size].
    rewrite (proj2 (Z.eqb_neq _ _) N2), H1. cbn [mbind option_bind].
    assert (forall e, is_cmd e = true -> (ent_op e =? opcode_val TCMU_OP_PAD) = false /\
      (ent_op e =? opcode_val TCMU_OP_CMD) = true) as Hop.
    { intros e He. split; [|done]. unfold is_cmd in He. zbool. by rewrite He. }
    destruct (Hop _ Hc1) as [-> ->]. rewrite Hcdb. cbn [mbind option_bind].
    rewrite (proj2 (Z.ltb_lt _ _) Hlen), Ht1, (proj2 (Z.eqb_neq _ _) N3), H2. cbn [mbind option_bind].
    destruct (Hop _ Hc2) as [-> ->]. rewrite Hcdb2. cbn [mbind option_bind negb].
    rewrite (proj2 (Z.ltb_ge _ _) Hl2), Hec, Ht2. done. }
  rewrite <- P2 in E, P2'. repeat split; try done.
  apply (get_next_at_head mb_blk garbage mem_ok (Mb size head t1 r')).
Qed.

Definition ring_dropped : tcmu_mailbox := Mb 1024 256 0 (<[128 := tur_entry 8]> (<[0 := vendor_entry 7]> ∅)).

Lemma ring_dropped_command_witness :
  exists c mb' e1' a,
    tcmulib_get_next_command 0 sense0 true ring_dropped 0 = Some (ring_dropped, 256, Some c) /\
    cmd_id c = 8 /\
    tcmulib_command_complete ring_dropped (tur_cmd 8) TCMU_STS_OK = Some mb' /\
    cmd_answer (tur_cmd 8) TCMU_STS_OK = Some a /\
    ring mb' !! 0 = Some e1' /\ ent_answer e1' = Some a /\
    ring mb' !! 128 = Some (tur_entry 8) /\ mb_cmd_tail mb' = 128 /\ 128 <> cmd_head mb' /\
    tcmulib_get_next_command 0 sense0 true mb' 256 = Some (mb', 256, None).
Proof.
  apply (ring_dropped_command 0 ring_dropped sense0 true (vendor_entry 7) (tur_entry 8) [0xc0; 0; 0; 0; 0; 0] 128
    (tur_cmd 8) TCMU_STS_OK); try reflexivity; try apply tur_wf.
  apply (bool_decide_unpack _). vm_compute. exact I.
Defined.
