(* ===== verification/Log.v ===== *)
(** * The log

    [libtcmu_log.c], [libtcmu_time.c] and [strlcpy.c]: levels, the ring of
    messages, the outputs, the directory of the log file.  The threads that use
    the ring are in [LogRing]. *)

From S2P Require Import Prelude Scsi Device Configfs.

(** ** Levels *)

Definition LOG_ERR : Z := 3.
Definition LOG_WARNING : Z := 4.
Definition LOG_INFO : Z := 6.
Definition LOG_DEBUG : Z := 7.

Definition TCMU_LOG_ERROR : Z := LOG_ERR.
Definition TCMU_LOG_WARN : Z := LOG_WARNING.
Definition TCMU_LOG_INFO : Z := LOG_INFO.
Definition TCMU_LOG_DEBUG : Z := LOG_DEBUG.
Definition TCMU_LOG_DEBUG_SCSI_CMD : Z := LOG_DEBUG + 1.

Definition TCMU_CONF_LOG_LEVEL_MIN : Z := 1.
Definition TCMU_CONF_LOG_ERROR : Z := 1.
Definition TCMU_CONF_LOG_WARN : Z := 2.
Definition TCMU_CONF_LOG_INFO : Z := 3.
Definition TCMU_CONF_LOG_DEBUG : Z := 4.
Definition TCMU_CONF_LOG_DEBUG_SCSI_CMD : Z := 5.
Definition TCMU_CONF_LOG_LEVEL_MAX : Z := TCMU_CONF_LOG_DEBUG_SCSI_CMD.

(** [src tcmu-runner/libtcmu_log.c to_syslog_level] *)
Definition to_syslog_level (level : Z) : Z :=
  if level =? TCMU_CONF_LOG_ERROR then TCMU_LOG_ERROR
  else if level =? TCMU_CONF_LOG_WARN then TCMU_LOG_WARN
  else if level =? TCMU_CONF_LOG_INFO then TCMU_LOG_INFO
  else if level =? TCMU_CONF_LOG_DEBUG then TCMU_LOG_DEBUG
  else if level =? TCMU_CONF_LOG_DEBUG_SCSI_CMD then TCMU_LOG_DEBUG_SCSI_CMD
  else TCMU_LOG_INFO.

(** The new [tcmu_log_level].
    [src tcmu-runner/libtcmu_log.c tcmu_set_log_level] *)
Definition tcmu_set_log_level (level : Z) : Z :=
  to_syslog_level
    (if TCMU_CONF_LOG_LEVEL_MAX <? level then TCMU_CONF_LOG_LEVEL_MAX
     else if level <? TCMU_CONF_LOG_LEVEL_MIN then TCMU_CONF_LOG_LEVEL_MIN
     else level).

(** [src tcmu-runner/libtcmu_log.c loglevel_string] *)
Definition loglevel_string (priority : Z) : list Z :=
  if priority =? TCMU_LOG_ERROR then str "ERROR"
  else if priority =? TCMU_LOG_WARN then str "WARN"
  else if priority =? TCMU_LOG_INFO then str "INFO"
  else if priority =? TCMU_LOG_DEBUG then str "DEBUG"
  else if priority =? TCMU_LOG_DEBUG_SCSI_CMD then str "DEBUG_SCSI_CMD"
  else str "UNKONWN".

(** ** The time *)

Record tm := Tm {
  tm_year : Z; tm_mon : Z; tm_mday : Z; tm_hour : Z; tm_min : Z; tm_sec : Z
}.

(** [%4d], [%02d] and [%03d] of a number that is not negative. *)
Definition pad (w : nat) (c n : Z) : list Z := replicate (w - length (dec n)) c ++ dec n.

Definition TCMU_TIME_STRING_BUFLEN : nat := 24.
Definition ERANGE : Z := 34.

(** The clock and the local time are arguments; the fields of the time are
    not negative.
    [src tcmu-runner/libtcmu_time.c time_string_now] *)
Definition time_string_now (now : option Z) (localtime : option tm) : Z * list Z :=
  match now, localtime with
  | Some usec, Some t =>
      let s := pad 4 32 (tm_year t + 1900) ++ str "-" ++ pad 2 48 (tm_mon t + 1) ++ str "-"
               ++ pad 2 48 (tm_mday t) ++ str " " ++ pad 2 48 (tm_hour t) ++ str ":"
               ++ pad 2 48 (tm_min t) ++ str ":" ++ pad 2 48 (tm_sec t) ++ str "."
               ++ pad 3 48 (usec / 1000 mod 1000) in
      (if (TCMU_TIME_STRING_BUFLEN <=? length s)%nat then ERANGE else 0, take 23 s)
  | _, _ => (-1, [])
  end.

(** ** Outputs *)

Inductive tcmu_log_destination := TCMU_LOG_TO_STDOUT | TCMU_LOG_TO_SYSLOG | TCMU_LOG_TO_FILE.

#[export] Instance log_destination_eq_dec : EqDecision tcmu_log_destination.
Proof. solve_decision. Defined.

(** [src tcmu-runner/libtcmu_log.c struct log_output] *)
Record log_out := LogOut { lo_priority : Z; lo_name : option (list Z); lo_dest : tcmu_log_destination; lo_bypass : bool }.

(** What an output function is called with. *)
Record delivery := Delivery { dl_dest : tcmu_log_destination; dl_pri : Z; dl_time : list Z; dl_msg : list Z }.

(** The message is the C string in the copy [msg].
    [src tcmu-runner/libtcmu_log.c log_output] *)
Definition log_output (outputs : list log_out) (time : Z * list Z) (pri : Z) (msg : list Z) (bypass : bool)
    : option (list delivery) :=
  if fst time <? 0 then Some []
  else
    s ← cstring msg;
    Some (map (fun o => Delivery (lo_dest o) pri (snd time) s)
              (List.filter (fun o => Bool.eqb (lo_bypass o) bypass && (pri <=? lo_priority o)) outputs)).

(** [strdup] of the name succeeds or not.
    [src tcmu-runner/libtcmu_log.c append_output] *)
Definition append_output (strdup_ok : bool) (outputs : list log_out) (pri : Z) (dest : tcmu_log_destination)
    (name : option (list Z)) (bypass : bool) : list log_out * Z :=
  if bool_decide (dest = TCMU_LOG_TO_FILE) then
    match name with
    | None => (outputs, -1)
    | Some _ => if strdup_ok then (outputs ++ [LogOut pri name dest bypass], 0) else (outputs, -1)
    end
  else (outputs ++ [LogOut pri None dest bypass], 0).

(** [src tcmu-runner/libtcmu_log.c create_syslog_output] *)
Definition create_syslog_output (outputs : list log_out) (pri : Z) : list log_out * Z :=
  append_output true outputs pri TCMU_LOG_TO_SYSLOG None false.

(** [src tcmu-runner/libtcmu_log.c create_stdout_output] *)
Definition create_stdout_output (outputs : list log_out) (pri : Z) : list log_out * Z :=
  append_output true outputs pri TCMU_LOG_TO_STDOUT None true.

(** [open_ret] is the file descriptor or a negative number; the path was made.
    [src tcmu-runner/libtcmu_log.c create_file_output] *)
Definition create_file_output (strdup_ok : bool) (open_ret : Z) (outputs : list log_out) (pri : Z)
    (filename : list Z) : list log_out * Z :=
  if open_ret <? 0 then (outputs, open_ret)
  else append_output strdup_ok outputs pri TCMU_LOG_TO_FILE (Some filename) true.

(** The level that is passed to [syslog].
    [src tcmu-runner/libtcmu_log.c output_to_syslog] *)
Definition output_to_syslog (pri : Z) : Z := if TCMU_LOG_DEBUG <? pri then TCMU_LOG_DEBUG else pri.

(** The result of [write]: an interruption, an error, or a number of bytes. *)
Inductive write_ret := WEintr | WError | WBytes (n : Z).

(** The writing loop: [rs] are the results of the calls, [out] what the file
    has got.  [None]: the loop goes on.
    [src tcmu-runner/libtcmu_log.c 378-393 output_to_fd] *)
Fixpoint safe_write (rs : list write_ret) (buf : list Z) (written : Z) (out : list Z) : option (Z * list Z) :=
  match buf with
  | [] => Some (written, out)
  | _ =>
      match rs with
      | [] => None
      | WEintr :: rs => safe_write rs buf written out
      | WError :: _ => Some (-1, out)
      | WBytes r :: rs =>
          if r =? 0 then Some (written, out)
          else safe_write rs (drop (Z.to_nat r) buf) (written + r) (out ++ take (Z.to_nat r) buf)
      end
  end.

(** [src tcmu-runner/libtcmu_log.c output_to_fd] *)
Definition output_to_fd (fd pid : Z) (asprintf_ok : bool) (rs : list write_ret) (pri : Z)
    (timestamp msg out : list Z) : option (Z * list Z) :=
  if fd <? 0 then Some (-1, out)
  else if pid <=? 0 then Some (-1, out)
  else if negb asprintf_ok then Some (-1, out)
  else safe_write rs (timestamp ++ str " " ++ dec pid ++ str " [" ++ loglevel_string pri ++ str "] " ++ msg) 0 out.

(** ** The ring *)

Definition LOG_ENTRY_LEN : Z := 256.
Definition LOG_MSG_LEN : Z := LOG_ENTRY_LEN - 1.
Definition LOG_ENTRYS : Z := 1024 * 32.

(** [src tcmu-runner/libtcmu_log.c struct log_buf] *)
Record log_buf := LogBuf {
  lb_active : bool;
  lb_ready : bool;
  lb_head : Z;
  lb_tail : Z;
  lb_buf : list (list Z)
}.

Definition lb_set_active (lb : log_buf) (b : bool) : log_buf :=
  LogBuf b (lb_ready lb) (lb_head lb) (lb_tail lb) (lb_buf lb).
Definition lb_set_ready (lb : log_buf) : log_buf :=
  LogBuf (lb_active lb) true (lb_head lb) (lb_tail lb) (lb_buf lb).

(** An entry; [None] when the index is outside the ring. *)
Definition rb_row (lb : log_buf) (cur : Z) : option (list Z) := lb_buf lb !! Z.to_nat cur.

(** [src tcmu-runner/libtcmu_log.c rb_get_pri] *)
Definition rb_get_pri (row : list Z) : option Z := bget1 row 0.

(** [src tcmu-runner/libtcmu_log.c rb_set_pri] *)
Definition rb_set_pri (row : list Z) (pri : Z) : option (list Z) := bset1 row 0 pri.

(** [src tcmu-runner/libtcmu_log.c rb_get_msg] *)
Definition rb_get_msg (row : list Z) : list Z := drop 1 row.

(** [src tcmu-runner/libtcmu_log.c rb_is_empty] *)
Definition rb_is_empty (lb : log_buf) : bool := lb_tail lb =? lb_head lb.

(** [src tcmu-runner/libtcmu_log.c rb_is_full] *)
Definition rb_is_full (lb : log_buf) : bool := lb_tail lb =? u32 (lb_head lb + 1) mod LOG_ENTRYS.

(** [src tcmu-runner/libtcmu_log.c rb_update_tail] *)
Definition rb_update_tail (lb : log_buf) : log_buf :=
  LogBuf (lb_active lb) (lb_ready lb) (lb_head lb) (u32 (lb_tail lb + 1) mod LOG_ENTRYS) (lb_buf lb).

(** [src tcmu-runner/libtcmu_log.c rb_update_head] *)
Definition rb_update_head (lb : log_buf) : log_buf :=
  let lb := if rb_is_full lb then rb_update_tail lb else lb in
  LogBuf (lb_active lb) (lb_ready lb) (u32 (lb_head lb + 1) mod LOG_ENTRYS) (lb_tail lb) (lb_buf lb).

(** A call of the log functions: where it is, the handler's subtype and the
    name of the device if there is one, the message that the format gives. *)
Record log_call := LogCall {
  lc_pri : Z; lc_func : list Z; lc_line : Z; lc_dev : option (list Z * list Z); lc_text : list Z
}.

Definition log_prefix (c : log_call) : list Z :=
  lc_func c ++ str ":" ++ dec (lc_line c)
  ++ match lc_dev c with
     | Some (subtype, name) => str " " ++ subtype ++ str "/" ++ name ++ str ": "
     | None => str ": "
     end.

(** The entry after [sprintf] and [vsnprintf]; [None] when the prefix overruns
    it.
    [src tcmu-runner/libtcmu_log.c 199-212 log_internal] *)
Definition log_entry (row : list Z) (c : log_call) : option (list Z) :=
  row ← rb_set_pri row (lc_pri c);
  row ← bset row 1 (log_prefix c ++ [0]);
  let n := Z.of_nat (length (log_prefix c)) in
  '(row, _) ← snprintf_s row (1 + length (log_prefix c)) (LOG_MSG_LEN - n) (lc_text c);
  Some row.

(** [src tcmu-runner/libtcmu_log.c tcmu_err_message] *)
Definition tcmu_err_message (dev : option (list Z * list Z)) (func : list Z) (line : Z) (text : list Z) : log_call :=
  LogCall TCMU_LOG_ERROR func line dev text.

(** [src tcmu-runner/libtcmu_log.c tcmu_warn_message] *)
Definition tcmu_warn_message (dev : option (list Z * list Z)) (func : list Z) (line : Z) (text : list Z) : log_call :=
  LogCall TCMU_LOG_WARN func line dev text.

(** [src tcmu-runner/libtcmu_log.c tcmu_info_message] *)
Definition tcmu_info_message (dev : option (list Z * list Z)) (func : list Z) (line : Z) (text : list Z) : log_call :=
  LogCall TCMU_LOG_INFO func line dev text.

(** [src tcmu-runner/libtcmu_log.c tcmu_dbg_message] *)
Definition tcmu_dbg_message (dev : option (list Z * list Z)) (func : list Z) (line : Z) (text : list Z) : log_call :=
  LogCall TCMU_LOG_DEBUG func line dev text.

(** [src tcmu-runner/libtcmu_log.c tcmu_dbg_scsi_cmd_message] *)
Definition tcmu_dbg_scsi_cmd_message (dev : option (list Z * list Z)) (func : list Z) (line : Z) (text : list Z)
    : log_call :=
  LogCall TCMU_LOG_DEBUG_SCSI_CMD func line dev text.

(** The ring, what is delivered, and whether the log thread is signalled.
    Before the log is set up the message only goes to [stderr].  The format is
    not NULL.
    [src tcmu-runner/libtcmu_log.c log_internal] *)
Definition log_internal (level : Z) (outputs : list log_out) (time : Z * list Z) (lb : log_buf) (c : log_call)
    : option (log_buf * list delivery * bool) :=
  if level <? lc_pri c then Some (lb, [], false)
  else if negb (lb_ready lb) then Some (lb, [], false)
  else
    row ← rb_row lb (lb_head lb);
    row ← log_entry row c;
    let lb := LogBuf (lb_active lb) (lb_ready lb) (lb_head lb) (lb_tail lb)
                     (<[Z.to_nat (lb_head lb) := row]> (lb_buf lb)) in
    out ← log_output outputs time (lc_pri c) (take (Z.to_nat LOG_MSG_LEN) (rb_get_msg row)) true;
    let lb := rb_update_head lb in
    Some (lb, out, negb (lb_active lb)).

(** The critical section: the entry that is taken, if there is one.
    [src tcmu-runner/libtcmu_log.c 446-457 log_buf_not_empty_output] *)
Definition log_take (lb : log_buf) : option (log_buf * option (Z * list Z)) :=
  if rb_is_empty lb then Some (lb, None)
  else
    row ← rb_row lb (lb_tail lb);
    pri ← rb_get_pri row;
    Some (rb_update_tail lb, Some (pri, take (Z.to_nat LOG_MSG_LEN) (rb_get_msg row))).

(** ** Setting up *)

(** The outcomes of the environment: [strdup], [open] of the log file, creation
    of the thread; what [malloc] leaves in the ring. *)
Record log_env := LogEnv { le_strdup : bool; le_open : Z; le_thread : bool; le_rows : list (list Z) }.

(** A return of [None] is a failure to create the thread.
    [src tcmu-runner/libtcmu_log.c tcmu_setup_log] *)
Definition tcmu_setup_log (e : log_env) : option (log_buf * list log_out) :=
  let '(outputs, _) := create_syslog_output [] TCMU_LOG_INFO in
  let '(outputs, _) := create_stdout_output outputs TCMU_LOG_DEBUG_SCSI_CMD in
  let '(outputs, _) := create_file_output (le_strdup e) (le_open e) outputs TCMU_LOG_DEBUG (str "tcmu-runner.log") in
  if le_thread e then Some (LogBuf false false 0 0 (le_rows e), outputs) else None.

(** ** The directory of the log file *)

(** The first loop: at most [nleft - 1] bytes, up to the NUL.
    [src tcmu-runner/strlcpy.c 33-39 strlcpy] *)
Fixpoint strlcpy_loop (nleft : nat) (dst : list Z) (i : nat) (src : list Z) (j : nat)
    : option (nat * list Z * nat * nat) :=
  match nleft with
  | O => Some (O, dst, i, j)
  | S k =>
      match k with
      | O => Some (O, dst, i, j)
      | S _ =>
          c ← bget1 src j;
          dst ← bset1 dst i c;
          if c =? 0 then Some (k, dst, S i, S j) else strlcpy_loop k dst (S i) src (S j)
      end
  end.

(** [src tcmu-runner/strlcpy.c strlcpy] *)
Definition strlcpy (dst src : list Z) (dsize : nat) : option (list Z * nat) :=
  '(nleft, dst, i, j) ← strlcpy_loop dsize dst 0 src 0;
  match nleft with
  | O =>
      dst ← (if decide (dsize = 0%nat) then Some dst else bset1 dst i 0);
      n ← strlen (drop j src);
      Some (dst, (j + n)%nat)
  | S _ => Some (dst, pred j)
  end.

Definition TCMU_LOG_FILENAME_MAX : nat := 32.
Definition TCMU_LOG_FILENAME : list Z := str "tcmu-runner.log".
Definition TCMU_LOG_DIR_DEFAULT : list Z := str "/var/log/".

(** Directories: [opendir] finds one, reports that there is none, or fails in
    another way; [mkdir]. *)
Inductive opendir_ret := DirOpen | DirNone | DirError.

Class Dirs (F : Type) := {
  fs_opendir : F -> list Z -> opendir_ret;
  fs_mkdir : F -> list Z -> F * bool
}.

(** A directory that was made can be opened, and [mkdir] removes none. *)
Class DirsLaws (F : Type) {HF : Dirs F} := {
  fs_mkdir_open : forall f p f', fs_mkdir f p = (f', true) -> fs_opendir f' p = DirOpen;
  fs_mkdir_keeps : forall f p f' r q, fs_mkdir f p = (f', r) -> fs_opendir f q = DirOpen -> fs_opendir f' q = DirOpen
}.

Section dirs.
Context {F : Type} {HF : Dirs F}.

(** [src tcmu-runner/libtcmu_log.c tcmu_mkdir] *)
Definition tcmu_mkdir (f : F) (p : list Z) : F * bool :=
  match fs_opendir f p with
  | DirOpen => (f, true)
  | DirNone => fs_mkdir f p
  | DirError => (f, false)
  end.

(** Each round goes past a slash.
    [src tcmu-runner/libtcmu_log.c 592-606 tcmu_mkdirs] *)
Fixpoint mkdirs_loop (fuel : nat) (f : F) (p : list Z) (ind : nat) : option (F * bool) :=
  match fuel with
  | O => None
  | S fuel =>
      match list_find (fun c => c = 47) (drop ind p) with
      | None => Some (tcmu_mkdir f p)
      | Some (k, _) =>
          let '(f, ok) := tcmu_mkdir f (take (ind + k) p) in
          if ok then mkdirs_loop fuel f p (ind + k + 1) else Some (f, false)
      end
  end.

(** [junk] is the buffer [path] before it is written.
    [src tcmu-runner/libtcmu_log.c tcmu_mkdirs] *)
Definition tcmu_mkdirs (junk : list Z) (f : F) (pathname : list Z) : option (F * bool) :=
  '(buf, _) ← strlcpy junk (pathname ++ [0]) PATH_MAX;
  p ← cstring buf;
  c ← bget1 buf 0;
  mkdirs_loop (S (length p)) f p (if c =? 47 then 1 else 0).

(** [src tcmu-runner/libtcmu_log.c tcmu_logdir_check] *)
Definition tcmu_logdir_check (p : option (list Z)) : bool :=
  match p with
  | None => false
  | Some p => negb (PATH_MAX - TCMU_LOG_FILENAME_MAX <=? length p)%nat
  end.

(** The new [tcmu_log_dir] and whether it is set.
    [src tcmu-runner/libtcmu_log.c tcmu_alloc_and_set_log_dir] *)
Definition tcmu_alloc_and_set_log_dir (strdup_ok : bool) (p : list Z) : option (list Z) * bool :=
  if strdup_ok then (Some p, true) else (None, false).

(** [src tcmu-runner/libtcmu_log.c tcmu_logdir_create] *)
Definition tcmu_logdir_create (junk : list Z) (strdup_ok : bool) (f : F) (log_dir : option (list Z))
    (p : option (list Z)) : option (F * option (list Z) * bool) :=
  match p with
  | Some q =>
      if tcmu_logdir_check p then
        '(f, ok) ← tcmu_mkdirs junk f q;
        if ok : bool then
          let '(log_dir, ok) := tcmu_alloc_and_set_log_dir strdup_ok q in Some (f, log_dir, ok)
        else Some (f, log_dir, false)
      else Some (f, log_dir, false)
  | None => Some (f, log_dir, false)
  end.

(** [env] is the value of the variable TCMU_LOGDIR.
    [src tcmu-runner/libtcmu_log.c tcmu_logdir_getenv] *)
Definition tcmu_logdir_getenv (junk : list Z) (strdup_ok : bool) (f : F) (log_dir env : option (list Z))
    : option (F * option (list Z) * bool) :=
  match log_dir, env with
  | Some _, _ | None, None => Some (f, log_dir, true)
  | None, Some _ => tcmu_logdir_create junk strdup_ok f log_dir env
  end.
End dirs.

(** [src tcmu-runner/libtcmu_log.c tcmu_make_absolute_logfile] *)
Definition tcmu_make_absolute_logfile (log_dir : option (list Z)) (filename : list Z) : list Z :=
  path (default TCMU_LOG_DIR_DEFAULT log_dir ++ str "/" ++ filename).

(** ** [strlcpy] *)

(** Characters of a C string. *)
Definition is_text (s : list Z) : Prop := Forall (fun c => 0 < c < 256) s.

Lemma is_text_nonzero s : is_text s -> Forall (fun c => c <> 0) s.
Proof. intros H. eapply Forall_impl; [exact H|]. cbn. lia. Qed.

Lemma bget1_drop (l r : list Z) j c : drop j l = c :: r -> bget1 l j = Some c.
Proof. intros H. unfold bget1. rewrite <- (Nat.add_0_r j), <- lookup_drop, H. done. Qed.

Lemma drop_next {A} (l r : list A) j c : drop j l = c :: r -> drop (S j) l = r.
Proof. intros H. rewrite <- Nat.add_1_r, <- drop_drop, H. done. Qed.

Lemma strlcpy_loop_spec k : forall s w rest src j t,
  is_text s -> drop j src = s ++ 0 :: t -> (k < length rest)%nat ->
  strlcpy_loop (S k) (w ++ rest) (length w) src j =
    if decide (length s < k)%nat
    then Some ((k - length s)%nat, w ++ s ++ 0 :: drop (S (length s)) rest,
               (length w + S (length s))%nat, (j + S (length s))%nat)
    else Some (0%nat, w ++ take k s ++ drop k rest, (length w + k)%nat, (j + k)%nat).
Proof.
  induction k as [|k IH]; intros s w rest src j t Hs Hd Hr.
  - cbn [strlcpy_loop]. rewrite decide_False by lia. cbn. by rewrite !Nat.add_0_r.
  - cbn [strlcpy_loop]. destruct rest as [|r rest]; [cbn in Hr; lia|]. cbn [length] in Hr.
    destruct s as [|c s].
    + cbn in Hd. rewrite (bget1_drop _ _ _ _ Hd). cbn [mbind option_bind]. rewrite bset1_app by lia.
      cbn [mbind option_bind]. change (0 =? 0) with true. cbv iota. cbn [length]. rewrite decide_True by lia.
      cbn. repeat f_equal; lia.
    + cbn in Hd. rewrite (bget1_drop _ _ _ _ Hd). inversion Hs as [|? ? Hc Hs']; subst.
      cbn [mbind option_bind]. rewrite bset1_app by lia. cbn [mbind option_bind].
      rewrite (proj2 (Z.eqb_neq _ _)) by lia.
      specialize (IH s (w ++ [c]) rest src (S j) t Hs' (drop_next _ _ _ _ Hd) ltac:(lia)).
      rewrite length_app, <- app_assoc in IH. cbn [app length] in IH. rewrite Nat.add_1_r in IH. etransitivity; [exact IH|].
      cbn [length]. case_decide; case_decide; try lia; cbn [take drop]; rewrite <- !app_assoc; cbn;
        repeat f_equal; lia.
Qed.

(** [strlcpy] copies as much as fits, always ends the copy with a NUL, touches
    no byte after it, and returns the length of its source. *)
Lemma strlcpy_spec dst s t dsize :
  is_text s -> (0 < dsize <= length dst)%nat ->
  strlcpy dst (s ++ 0 :: t) dsize =
    let c := take (dsize - 1) s in
    Some (c ++ 0 :: drop (S (length c)) dst, length s).
Proof.
  intros Hs Hd. unfold strlcpy. destruct dsize as [|k]; [lia|].
  pose proof (strlcpy_loop_spec k s [] dst (s ++ 0 :: t) 0 t Hs eq_refl ltac:(lia)) as E. cbn [app length] in E.
  rewrite E. clear E. cbn [Nat.sub]. rewrite Nat.sub_0_r. cbv zeta.
  destruct (decide (length s < k)%nat) as [H|H]; cbn [mbind option_bind].
  - destruct (k - length s)%nat eqn:Ek; [lia|]. cbn. rewrite take_ge by lia. done.
  - cbn [Nat.add]. rewrite length_take, Nat.min_l by lia.
    destruct (decide (S k = 0%nat)) as [?|_]; [lia|].
    destruct (drop k dst) as [|x r] eqn:Er.
    { apply (f_equal length) in Er. rewrite length_drop in Er. cbn in Er. lia. }
    assert (bset1 (take k s ++ x :: r) k 0 = Some (take k s ++ 0 :: r)) as ->.
    { pose proof (bset1_app (take k s) x r 0 ltac:(lia)) as E. by rewrite firstn_length_le in E by lia. }
    cbn [mbind option_bind]. rewrite drop_app_le by lia.
    rewrite strlen_app by (apply is_text_nonzero, Forall_drop, Hs). cbn. rewrite length_drop.
    rewrite (drop_next _ _ _ _ Er). repeat f_equal. lia.
Qed.

Lemma is_text_take n s : is_text s -> is_text (take n s).
Proof. apply Forall_take. Qed.

(** ** Writing to a file descriptor *)

(** Results of [write] as the kernel gives them: never more than was asked for. *)
Inductive writes_fit : list write_ret -> list Z -> Prop :=
| FitNil buf : writes_fit [] buf
| FitEintr rs buf : writes_fit rs buf -> writes_fit (WEintr :: rs) buf
| FitError rs buf : writes_fit (WError :: rs) buf
| FitBytes n rs buf : 0 <= n <= Z.of_nat (length buf) -> writes_fit rs (drop (Z.to_nat n) buf) ->
    writes_fit (WBytes n :: rs) buf.

(** The loop writes a prefix of the text: all of it unless a call fails or
    writes nothing; its result is the number of bytes, or -1. *)
Lemma safe_write_prefix rs : forall buf written out w out',
  writes_fit rs buf -> safe_write rs buf written out = Some (w, out') ->
  exists k, (k <= length buf)%nat /\ out' = out ++ take k buf /\
    (w = written + Z.of_nat k /\ (k = length buf \/ In (WBytes 0) rs) \/ w = -1 /\ In WError rs).
Proof.
  induction rs as [|r rs IH]; intros buf written out w out' Hf E; (destruct buf as [|x buf];
    [cbn in E; simplify_eq; exists 0%nat; cbn; rewrite app_nil_r, Z.add_0_r; intuition|]); [done|].
  cbn [safe_write] in E. destruct r as [| |n].
  - inversion Hf as [|? ? Hf'| |]; subst. destruct (IH _ _ _ _ _ Hf' E) as (k & Hk & -> & H).
    exists k. split; [done|]. split; [done|]. cbn [In]. tauto.
  - simplify_eq. exists 0%nat. split; [lia|]. rewrite take_0, app_nil_r. split; [done|]. right. split; [done|by left].
  - inversion Hf as [| | |? ? ? Hn Hf']; subst. destruct (Z.eqb_spec n 0) as [->|Hz].
    { simplify_eq. exists 0%nat. split; [lia|]. rewrite take_0, app_nil_r. split; [done|]. left.
      split; [lia|]. right. by left. }
    destruct (IH _ _ _ _ _ Hf' E) as (k & Hk & -> & H). rewrite length_drop in Hk, H.
    exists (Z.to_nat n + k)%nat. split; [lia|]. split.
    { rewrite <- app_assoc. f_equal. apply take_take_drop. }
    cbn [In]. destruct H as [[-> [->|Hz']]|[-> Hz']]; [left|left|right]; (split; [lia|]).
    + left. lia.
    + tauto.
    + tauto.
Qed.

(** ** Directories *)

Section dirs_laws.
Context {F : Type} {HF : Dirs F} {HL : DirsLaws F}.

Lemma tcmu_mkdir_spec f p f' ok :
  tcmu_mkdir f p = (f', ok) ->
  (ok = true -> fs_opendir f' p = DirOpen) /\ (forall q, fs_opendir f q = DirOpen -> fs_opendir f' q = DirOpen).
Proof.
  unfold tcmu_mkdir. destruct (fs_opendir f p) eqn:E; intros H; simplify_eq; try (by split).
  split; [intros ->; by eapply fs_mkdir_open|]. intros q. by eapply fs_mkdir_keeps.
Qed.

(** The directories a path goes through from the index [ind] on. *)
Definition path_dirs (p : list Z) (ind : nat) (q : list Z) : Prop :=
  q = p \/ exists k, (ind <= k)%nat /\ p !! k = Some 47 /\ q = take k p.

Lemma mkdirs_loop_spec fuel : forall f p ind,
  (length p - ind < fuel)%nat ->
  exists f' ok, mkdirs_loop fuel f p ind = Some (f', ok) /\
    (forall q, fs_opendir f q = DirOpen -> fs_opendir f' q = DirOpen) /\
    (ok = true -> forall q, path_dirs p ind q -> fs_opendir f' q = DirOpen).
Proof.
  induction fuel as [|fuel IH]; intros f p ind Hf; [lia|]. cbn [mkdirs_loop].
  destruct (list_find (fun c => c = 47) (drop ind p)) as [[k c]|] eqn:E.
  - apply list_find_Some in E as (Hk & -> & Hbefore). rewrite lookup_drop in Hk.
    pose proof (lookup_lt_Some _ _ _ Hk) as Hlt.
    destruct (tcmu_mkdir f (take (ind + k) p)) as [f1 ok] eqn:E1.
    destruct (tcmu_mkdir_spec _ _ _ _ E1) as [Hopen Hkeep]. destruct ok; [|by exists f1, false].
    destruct (IH f1 p (ind + k + 1)%nat) as (f2 & ok & -> & Hk2 & Ho2); [lia|].
    exists f2, ok. split; [done|]. split; [by auto|]. intros Hok q [->|(j & Hj & Hpj & ->)].
    { apply Ho2; [done|by left]. }
    destruct (decide (j = ind + k)%nat) as [->|Hne]; [by apply Hk2, Hopen|].
    apply Ho2; [done|]. right. exists j. split; [|done].
    destruct (decide (j < ind + k)%nat); [|lia]. exfalso.
    apply (Hbefore (j - ind)%nat 47); [|lia|done]. rewrite lookup_drop, <- Hpj. f_equal. lia.
  - destruct (tcmu_mkdir f p) as [f1 ok] eqn:E1. destruct (tcmu_mkdir_spec _ _ _ _ E1) as [Hopen Hkeep].
    exists f1, ok. split; [done|]. split; [done|]. intros Hok q [->|(j & Hj & Hpj & ->)]; [by apply Hopen|].
    apply list_find_None in E. exfalso. rewrite Forall_lookup in E. apply (E (j - ind)%nat 47); [|done].
    rewrite lookup_drop, <- Hpj. f_equal. lia.
Qed.

(** The buffer holds the path. *)
Lemma mkdirs_path junk p :
  is_text p -> length junk = PATH_MAX ->
  exists buf n, strlcpy junk (p ++ [0]) PATH_MAX = Some (buf, n) /\
    cstring buf = Some (take (PATH_MAX - 1) p) /\ bget1 buf 0 = Some (default 0 (p !! 0%nat)).
Proof.
  intros Hp Hj. rewrite strlcpy_spec by (try done; rewrite Hj; unfold PATH_MAX; lia). cbv zeta.
  eexists _, _. split; [done|]. split; [by apply cstring_app, is_text_nonzero, is_text_take|].
  by destruct p.
Qed.

(** A directory for the log that is accepted exists afterwards, with all
    directories on the way to it, all directories there were, and the name of
    the log file in it is not cut off. *)
Theorem logdir_ready (junk : list Z) (strdup_ok : bool) (f : F) (old : option (list Z)) (p : list Z)
  (Hp : is_text p) (Hj : length junk = PATH_MAX) :
  exists f' d ok, tcmu_logdir_create junk strdup_ok f old (Some p) = Some (f', d, ok) /\
    (forall q, fs_opendir f q = DirOpen -> fs_opendir f' q = DirOpen) /\
    (ok = true ->
       d = Some p /\ (forall q, path_dirs p 1 q -> fs_opendir f' q = DirOpen) /\
       forall file, (length file < TCMU_LOG_FILENAME_MAX)%nat ->
         tcmu_make_absolute_logfile d file = p ++ str "/" ++ file).
Proof.
  unfold tcmu_logdir_create. destruct (tcmu_logdir_check (Some p)) eqn:Hc; [|by exists f, old, false].
  cbn [tcmu_logdir_check] in Hc. apply negb_true_iff, Nat.leb_gt in Hc. unfold PATH_MAX, TCMU_LOG_FILENAME_MAX in Hc.
  destruct (mkdirs_path junk p Hp Hj) as (buf & n & E & Es & E0). unfold tcmu_mkdirs. rewrite E.
  cbn [mbind option_bind]. rewrite Es. cbn [mbind option_bind]. rewrite E0. cbn [mbind option_bind].
  rewrite take_ge by (unfold PATH_MAX; lia). set (ind := if default 0 (p !! 0%nat) =? 47 then 1%nat else 0%nat).
  destruct (mkdirs_loop_spec (S (length p)) f p ind) as (f' & ok & -> & Hk & Ho); [lia|].
  cbn [mbind option_bind]. destruct ok; [|by exists f', old, false].
  destruct strdup_ok; cbn; [|by exists f', None, false]. exists f', (Some p), true. split; [done|]. split; [done|].
  intros _. split; [done|]. split.
  - intros q Hq. apply Ho; [done|]. destruct Hq as [->|(k & Hk1 & Hk2 & ->)]; [by left|]. right. exists k.
    split; [unfold ind; case_if; lia|done].
  - intros file Hfile. unfold tcmu_make_absolute_logfile, path. cbn [default]. unfold PATH_MAX, TCMU_LOG_FILENAME_MAX in *.
    apply take_ge. rewrite !length_app. cbn [length]. change (length (str "/")) with 1%nat. lia.
Qed.
End dirs_laws.

(** A file system of directories that can always be made. *)
#[export] Instance set_dirs : Dirs (gset (list Z)) :=
  {| fs_opendir f p := if decide (p ∈ f) then DirOpen else DirNone; fs_mkdir f p := ({[p]} ∪ f, true) |}.

#[export] Instance set_dirs_laws : DirsLaws (gset (list Z)).
Proof.
  split; cbn; intros; simplify_eq; [by rewrite decide_True by set_solver|]. case_decide; [|done].
  by rewrite decide_True by set_solver.
Qed.

Lemma logdir_ready_witness :
  exists f' d, tcmu_logdir_create (zeros 4096) true (∅ : gset (list Z)) None (Some (str "/var/tcmu")) = Some (f', d, true) /\
    fs_opendir f' (str "/var") = DirOpen /\
    tcmu_make_absolute_logfile d TCMU_LOG_FILENAME = str "/var/tcmu/tcmu-runner.log".
Proof.
  destruct (logdir_ready (zeros 4096) true (∅ : gset (list Z)) None (str "/var/tcmu")) as (f' & d & ok & E & _ & H).
  - repeat constructor.
  - apply length_zeros.
  - assert (ok = true) as ->.
    { assert (forall x : option (gset (list Z) * option (list Z) * bool), (snd <$> x) = Some ok -> (snd <$> x) = Some true -> ok = true) as Hx
        by (intros x -> Hx; congruence).
      eapply Hx; [exact (f_equal (fmap snd) E)|vm_compute; reflexivity]. }
    destruct (H eq_refl) as (-> & H1 & H2).
    exists f', (Some (str "/var/tcmu")). split; [done|]. split.
    + apply H1. right. exists 4%nat. split; [lia|by split].
    + rewrite H2; [done|]. apply Nat.ltb_lt. reflexivity.
Defined.
