(* ===== verification/LogRing.v ===== *)
(** * The log: threads

    The threads that log and the thread that empties the ring, as a step
    relation; the ring as a bounded queue that drops the oldest message. *)

From S2P Require Import Prelude Scsi Device Configfs Log.

(** ** Messages and entries *)

Definition log_msg : Type := Z * list Z.

(** The message of an entry. *)
Definition row_msg (row : list Z) : option log_msg :=
  pri ← rb_get_pri row;
  s ← cstring (take (Z.to_nat LOG_MSG_LEN) (rb_get_msg row));
  Some (pri, s).

(** The message a call leaves in the ring: what fits. *)
Definition msg_of (c : log_call) : log_msg := (lc_pri c, take 254 (log_prefix c ++ lc_text c)).

(** A call with a level of the interface, whose prefix fits an entry. *)
Record call_ok (c : log_call) : Prop := {
  ca_pri : 0 <= lc_pri c < 256;
  ca_prefix : is_text (log_prefix c);
  ca_short : (length (log_prefix c) <= 254)%nat;
  ca_text : is_text (lc_text c)
}.

Lemma take_nul s t n : (length s < n)%nat -> exists t', take n (s ++ 0 :: t) = s ++ 0 :: t'.
Proof.
  intros H. rewrite take_app, take_ge by lia. destruct (n - length s)%nat as [|k] eqn:E; [lia|].
  cbn. by eexists.
Qed.

(** Entries hold what they are given. *)
Lemma log_entry_spec row c :
  length row = 256%nat -> call_ok c ->
  exists row', log_entry row c = Some row' /\ length row' = 256%nat /\ row_msg row' = Some (msg_of c).
Proof.
  intros Hl [Hp Hx Hs Ht]. unfold log_entry, rb_set_pri.
  destruct row as [|r0 row]; [done|]. cbn [length] in Hl.
  unfold bset1. rewrite u8_small, bset_0_1 by lia. cbn [mbind option_bind].
  set (pre := log_prefix c) in *. set (txt := lc_text c) in *.
  rewrite bset_cons, bset_0 by (rewrite length_app; cbn; lia). cbn [mbind option_bind].
  rewrite <- app_assoc. set (l := [0] ++ drop (length (pre ++ [0])) row).
  assert (length l = 255 - length pre)%nat as Hll.
  { unfold l. rewrite length_app, length_drop, length_app. cbn. lia. }
  clearbody l. unfold snprintf_s. change LOG_MSG_LEN with 255. rewrite (proj2 (Z.eqb_neq _ _)) by lia.
  set (k := Z.to_nat (Z.min (Z.of_nat (length txt)) (255 - Z.of_nat (length pre) - 1))).
  assert (k = Nat.min (length txt) (254 - length pre)) as Hk by (unfold k; lia). clearbody k.
  change (1 + length pre)%nat with (S (length pre)).
  rewrite bset_cons, bset_app_r0, bset_0 by (rewrite length_app, length_take; cbn; lia). cbn [mbind option_bind].
  eexists. split; [reflexivity|].
  assert (take k txt ++ [0] = take (254 - length pre) txt ++ [0]) as Ek.
  { f_equal. destruct (decide (length txt <= 254 - length pre)%nat); [|f_equal; lia].
    by rewrite !take_ge by lia. }
  split.
  { cbn [length]. rewrite !length_app, length_drop, ?length_app, !length_take. cbn [length]. lia. }
  unfold row_msg, rb_get_pri, rb_get_msg. cbn [bget1 lookup list_lookup mbind option_bind drop].
  change (Z.to_nat LOG_MSG_LEN) with 255%nat.
  assert (is_text (take 254 (pre ++ txt))) as Hm by (apply is_text_take, Forall_app; done).
  rewrite Ek, <- app_assoc, app_assoc.
  assert (pre ++ take (254 - length pre) txt = take 254 (pre ++ txt)) as ->.
  { rewrite take_app, take_ge with (l := pre) by lia. done. }
  cbn [app]. destruct (take_nul (take 254 (pre ++ txt)) (drop (length (take k txt ++ [0])) l) 255) as [t' E];
    [rewrite length_take; lia|].
  rewrite <- Ek, drop_0, E, cstring_app by (by apply is_text_nonzero). done.
Qed.

(** ** The ring as a queue *)

(** A message goes to the end of the queue; when the ring is full, the oldest
    one goes. *)
Definition q_full (q : list log_msg) : bool := Z.of_nat (length q) =? LOG_ENTRYS - 1.
Definition q_put (q : list log_msg) (m : log_msg) : list log_msg := (if q_full q then tl q else q) ++ [m].

(** The slot of the [i]-th message. *)
Definition slot (lb : log_buf) (i : nat) : nat := Z.to_nat ((lb_tail lb + Z.of_nat i) mod LOG_ENTRYS).

(** The ring stands for the queue [q]. *)
Record ring_holds (lb : log_buf) (q : list log_msg) : Prop := {
  rh_rows : Z.of_nat (length (lb_buf lb)) = LOG_ENTRYS;
  rh_row : Forall (fun row => length row = 256%nat) (lb_buf lb);
  rh_tail : 0 <= lb_tail lb < LOG_ENTRYS;
  rh_head : lb_head lb = (lb_tail lb + Z.of_nat (length q)) mod LOG_ENTRYS;
  rh_short : Z.of_nat (length q) < LOG_ENTRYS;
  rh_msgs : forall i m, q !! i = Some m -> exists row, lb_buf lb !! slot lb i = Some row /\ row_msg row = Some m
}.

Lemma u32_index x : 0 <= x < LOG_ENTRYS -> u32 (x + 1) = x + 1.
Proof. intros H. apply u32_small. unfold LOG_ENTRYS in H. lia. Qed.

Lemma ring_head_bound lb q : ring_holds lb q -> 0 <= lb_head lb < LOG_ENTRYS.
Proof. intros H. rewrite (rh_head _ _ H). by apply Z.mod_pos_bound. Qed.

Lemma ring_empty lb q : ring_holds lb q -> rb_is_empty lb = bool_decide (q = []).
Proof.
  intros [_ _ Ht Hh Hs _]. unfold rb_is_empty. rewrite Hh. unfold LOG_ENTRYS in *. destruct q as [|m q].
  - rewrite bool_decide_eq_true_2 by done. apply Z.eqb_eq. cbn [length]. dlia.
  - rewrite bool_decide_eq_false_2 by done. apply Z.eqb_neq. cbn [length] in *. dlia.
Qed.

Lemma ring_full lb q : ring_holds lb q -> rb_is_full lb = q_full q.
Proof.
  intros H. pose proof (ring_head_bound _ _ H) as Hr. destruct H as [_ _ Ht Hh Hs _]. unfold rb_is_full, q_full.
  rewrite u32_index, Hh by done. clear Hh Hr. unfold LOG_ENTRYS in *.
  destruct (Z.eqb_spec (Z.of_nat (length q)) (1024 * 32 - 1)).
  - apply Z.eqb_eq. dlia.
  - apply Z.eqb_neq. dlia.
Qed.

(** The oldest message leaves. *)
Lemma ring_pop lb m q : ring_holds lb (m :: q) -> ring_holds (rb_update_tail lb) q.
Proof.
  intros [H1 H2 Ht Hh Hs Hm]. cbn [length] in *.
  split; cbn [rb_update_tail lb_buf lb_tail lb_head]; rewrite ?u32_index by done; try assumption.
  - by apply Z.mod_pos_bound.
  - rewrite Hh, Zplus_mod_idemp_l. f_equal. lia.
  - lia.
  - intros i x Hi. destruct (Hm (S i) x Hi) as (row & Hr & Hx). exists row. split; [|done].
    rewrite <- Hr. unfold slot. cbn [lb_tail rb_update_tail]. rewrite u32_index, Zplus_mod_idemp_l by done.
    do 3 f_equal. lia.
Qed.

(** The row of the oldest message. *)
Lemma ring_first lb m q :
  ring_holds lb (m :: q) -> exists row, rb_row lb (lb_tail lb) = Some row /\ row_msg row = Some m.
Proof.
  intros [_ _ Ht _ _ Hm]. destruct (Hm 0%nat m eq_refl) as (row & Hr & Hx). exists row. split; [|done].
  unfold rb_row. rewrite <- Hr. unfold slot. by rewrite Z.add_0_r, Z.mod_small by done.
Qed.

(** An entry is written and the head goes on; there is room. *)
Lemma ring_push lb q row m :
  ring_holds lb q -> Z.of_nat (length q) < LOG_ENTRYS - 1 -> length row = 256%nat -> row_msg row = Some m ->
  ring_holds (LogBuf (lb_active lb) (lb_ready lb) (u32 (lb_head lb + 1) mod LOG_ENTRYS) (lb_tail lb)
                (<[Z.to_nat (lb_head lb) := row]> (lb_buf lb))) (q ++ [m]).
Proof.
  intros H Hroom Hrow Hx. pose proof (ring_head_bound _ _ H) as Hr. destruct H as [H1 H2 Ht Hh Hs Hm].
  split; cbn [lb_buf lb_tail lb_head]; try assumption.
  - by rewrite length_insert.
  - by apply Forall_insert.
  - rewrite u32_index, Hh, Zplus_mod_idemp_l, length_app by done. cbn [length]. f_equal. lia.
  - rewrite length_app. cbn [length]. lia.
  - intros i x Hi. unfold slot. cbn [lb_tail]. destruct (decide (i < length q)%nat) as [Hlt|Hge].
    + rewrite lookup_app_l in Hi by done. destruct (Hm i x Hi) as (r & Hr1 & Hr2). exists r. split; [|done].
      rewrite list_lookup_insert_ne; [done|]. rewrite Hh. clear -Hlt Hs Ht. unfold LOG_ENTRYS in *. dlia.
    + rewrite lookup_app_r in Hi by lia. destruct (i - length q)%nat eqn:E; [|done]. cbn in Hi. simplify_eq.
      exists row. split; [|done]. assert (i = length q) as -> by lia. rewrite <- Hh.
      rewrite list_lookup_insert_eq; [done|]. lia.
Qed.

(** What the outputs of one kind get of a message. *)
Definition deliver (outputs : list log_out) (time : Z * list Z) (m : log_msg) (bypass : bool) : list delivery :=
  if fst time <? 0 then []
  else map (fun o => Delivery (lo_dest o) (fst m) (snd time) (snd m))
           (List.filter (fun o => Bool.eqb (lo_bypass o) bypass && (fst m <=? lo_priority o)) outputs).

Lemma log_output_spec outputs time pri buf s bypass :
  cstring buf = Some s -> log_output outputs time pri buf bypass = Some (deliver outputs time (pri, s) bypass).
Proof. intros H. unfold log_output, deliver. case_if; [done|]. by rewrite H. Qed.

(** The two parts of the message of an entry. *)
Lemma row_msg_parts row m :
  row_msg row = Some m ->
  rb_get_pri row = Some (fst m) /\ cstring (take (Z.to_nat LOG_MSG_LEN) (rb_get_msg row)) = Some (snd m).
Proof.
  unfold row_msg. intros H. destruct (rb_get_pri row); [|done]. cbn [mbind option_bind] in H.
  destruct (cstring _); [|done]. cbn in H. by simplify_eq.
Qed.

Lemma update_head_fields lb :
  lb_active (rb_update_head lb) = lb_active lb /\ lb_ready (rb_update_head lb) = lb_ready lb.
Proof. unfold rb_update_head. by case_if. Qed.

(** Logging is an operation of the queue. *)
Lemma log_internal_spec level outputs time lb q c :
  ring_holds lb q -> lb_ready lb = true -> call_ok c -> lc_pri c <= level ->
  exists lb', log_internal level outputs time lb c =
      Some (lb', deliver outputs time (msg_of c) true, negb (lb_active lb)) /\
    ring_holds lb' (q_put q (msg_of c)) /\ lb_active lb' = lb_active lb /\ lb_ready lb' = true.
Proof.
  intros H Hrdy Hc Hl. unfold log_internal. rewrite (proj2 (Z.ltb_ge _ _)) by done.
  replace (negb (lb_ready lb)) with false by (by rewrite Hrdy). cbn [negb].
  pose proof (ring_head_bound _ _ H) as Hr. pose proof (rh_rows _ _ H) as Hn.
  destruct (lookup_lt_is_Some_2 (lb_buf lb) (Z.to_nat (lb_head lb))) as [row Erow]; [lia|].
  unfold rb_row. rewrite Erow. cbn [mbind option_bind].
  assert (length row = 256%nat) as Lrow.
  { pose proof (rh_row _ _ H) as Hrow. rewrite Forall_lookup in Hrow. by eapply Hrow. }
  destruct (log_entry_spec row c Lrow Hc) as (row' & -> & L' & M'). cbn [mbind option_bind].
  destruct (row_msg_parts _ _ M') as [_ Hs]. rewrite (log_output_spec _ _ _ _ _ _ Hs). cbn [mbind option_bind].
  change (lc_pri c, (msg_of c).2) with (msg_of c). eexists. split; [|split; [|split]].
  - by rewrite (proj1 (update_head_fields _)).
  - unfold rb_update_head.
    match goal with |- context [rb_is_full ?x] => change (rb_is_full x) with (rb_is_full lb) end.
    rewrite (ring_full _ _ H). unfold q_put.
    destruct (q_full q) eqn:Hf; unfold q_full in Hf; zbool.
    + destruct q as [|m q]; [done|]. cbn [length] in Hf.
      pose proof (ring_push _ _ row' (msg_of c) (ring_pop _ _ _ H) ltac:(lia) L' M') as P. exact P.
    + pose proof (rh_short _ _ H). pose proof (ring_push _ _ row' (msg_of c) H ltac:(lia) L' M') as P. exact P.
  - exact (proj1 (update_head_fields _)).
  - etransitivity; [exact (proj2 (update_head_fields _))|done].
Qed.

Lemma log_internal_quiet level outputs time lb c :
  level < lc_pri c \/ lb_ready lb = false -> log_internal level outputs time lb c = Some (lb, [], false).
Proof.
  intros H. unfold log_internal. destruct (Z.ltb_spec level (lc_pri c)); [done|].
  destruct H as [?| ->]; [lia|done].
Qed.

Lemma log_take_empty lb : ring_holds lb [] -> log_take lb = Some (lb, None).
Proof. intros H. unfold log_take. by rewrite (ring_empty _ _ H). Qed.

Lemma log_take_spec lb m q :
  ring_holds lb (m :: q) ->
  exists buf, log_take lb = Some (rb_update_tail lb, Some (fst m, buf)) /\ cstring buf = Some (snd m).
Proof.
  intros H. unfold log_take. rewrite (ring_empty _ _ H).
  rewrite bool_decide_eq_false_2 by done.
  destruct (ring_first _ _ _ H) as (row & -> & M). destruct (row_msg_parts _ _ M) as [Hp Hs].
  cbn [mbind option_bind]. rewrite Hp. cbn [mbind option_bind]. by eexists.
Qed.

(** ** Threads *)

(** Where the log thread is: before it announces itself, at the head of its
    loop, waiting, woken, about to take a message, about to deliver one. *)
Inductive log_pc := LStart | LTop | LWait | LWoken | LDrain | LOut (pri : Z) (buf : list Z).

#[export] Instance log_pc_eq_dec : EqDecision log_pc.
Proof. solve_decision. Defined.

(** One critical section of the thread, or one delivery.  A waiting thread does
    not run.
    [src tcmu-runner/libtcmu_log.c log_thread_start] *)
Definition log_thread_step (outputs : list log_out) (time : Z * list Z) (p : log_pc) (lb : log_buf)
    : option (log_pc * log_buf * list delivery) :=
  match p with
  | LStart => Some (LTop, lb_set_ready lb, [])
  | LTop => Some (LWait, lb_set_active lb false, [])
  | LWait => None
  | LWoken => Some (LDrain, lb_set_active lb true, [])
  | LDrain =>
      '(lb, x) ← log_take lb;
      Some (match x with Some (pri, buf) => (LOut pri buf, lb, []) | None => (LTop, lb, []) end)
  | LOut pri buf => d ← log_output outputs time pri buf false; Some (LDrain, lb, d)
  end.

(** The ring, the thread, and the history: the messages that were logged and
    taken, what the outputs got from the callers and from the thread. *)
Record log_sys := LogSys {
  ls_lb : log_buf;
  ls_pc : log_pc;
  ls_logged : list log_msg;
  ls_taken : list log_msg;
  ls_direct : list delivery;
  ls_late : list delivery
}.

Section system.
Context (level : Z) (outputs : list log_out).

(** A message that the thread has just taken. *)
Definition taken_now (p : log_pc) (q : log_pc) : list log_msg :=
  match p, q with
  | LDrain, LOut pri buf => [(pri, default [] (cstring buf))]
  | _, _ => []
  end.

(** A step of the thread. *)
Inductive log_runs : log_sys -> log_sys -> Prop :=
| LogRuns time lb p lg tk di la p' lb' d :
    log_thread_step outputs time p lb = Some (p', lb', d) ->
    log_runs (LogSys lb p lg tk di la) (LogSys lb' p' lg (tk ++ taken_now p p') di (la ++ d)).

(** A call of a log function by any thread, a step of the log thread, or a
    wake-up without a signal. *)
Inductive log_step : log_sys -> log_sys -> Prop :=
| StepLog time c lb p lg tk di la lb' d sig :
    call_ok c -> log_internal level outputs time lb c = Some (lb', d, sig) ->
    log_step (LogSys lb p lg tk di la)
             (LogSys lb' (match p with LWait => if sig then LWoken else LWait | _ => p end)
                     (lg ++ (if (level <? lc_pri c) || negb (lb_ready lb) then [] else [msg_of c]))
                     tk (di ++ d) la)
| StepRuns s s' : log_runs s s' -> log_step s s'
| StepSpurious lb lg tk di la :
    log_step (LogSys lb LWait lg tk di la) (LogSys lb LWoken lg tk di la).

(** After [tcmu_setup_log]: a ring of whatever [malloc] gave. *)
Definition log_initial (s : log_sys) : Prop :=
  exists rows, Z.of_nat (length rows) = LOG_ENTRYS /\ Forall (fun row => length row = 256%nat) rows /\
    s = LogSys (LogBuf false false 0 0 rows) LStart [] [] [] [].

Inductive log_reachable : log_sys -> Prop :=
| LogInit s : log_initial s -> log_reachable s
| LogNext s s' : log_reachable s -> log_step s s' -> log_reachable s'.

(** ** The abstract queue *)

(** What was logged and taken, what is left, and how many messages were
    dropped. *)
Record queue_spec := QSpec {
  qs_logged : list log_msg; qs_taken : list log_msg; qs_queue : list log_msg; qs_dropped : nat
}.

Inductive spec_step : queue_spec -> queue_spec -> Prop :=
| SpecPut lg tk q n m :
    spec_step (QSpec lg tk q n) (QSpec (lg ++ [m]) tk (q_put q m) (if q_full q then S n else n))
| SpecTake lg tk m q n : spec_step (QSpec lg tk (m :: q) n) (QSpec lg (tk ++ [m]) q n).

Inductive spec_reachable : queue_spec -> Prop :=
| SpecInit : spec_reachable (QSpec [] [] [] 0)
| SpecNext x y : spec_reachable x -> spec_step x y -> spec_reachable y.

(** The queue is the end of what was logged; what was taken is the rest without
    what was dropped, in order. *)
Definition in_order (x : queue_spec) : Prop :=
  exists old, qs_logged x = old ++ qs_queue x /\ sublist (qs_taken x) old /\
    length old = (length (qs_taken x) + qs_dropped x)%nat.

Lemma spec_in_order x : spec_reachable x -> in_order x.
Proof.
  induction 1 as [|x y _ (old & E & S & L) H]; [by exists []|].
  destruct H as [lg tk q n m|lg tk m q n]; cbn in *; subst.
  - unfold q_put. destruct (q_full q) eqn:Hf.
    + destruct q as [|m0 q]; [done|]. exists (old ++ [m0]). cbn. split; [by rewrite <- !app_assoc|].
      split; [by apply sublist_inserts_r|]. rewrite length_app. cbn. lia.
    + exists old. cbn. rewrite app_assoc. split; [done|]. split; [done|lia].
  - exists (old ++ [m]). cbn. split; [by rewrite <- app_assoc|]. split; [by apply sublist_app|].
    rewrite !length_app. cbn. lia.
Qed.

(** ** The invariant *)

Definition pc_ready (p : log_pc) : bool := match p with LStart => false | _ => true end.
Definition pc_inactive (p : log_pc) : bool := match p with LStart | LWait | LWoken => true | _ => false end.

(** A delivery of one of the messages to an output that takes it. *)
Definition delivery_ok (bypass : bool) (l : list log_msg) (d : delivery) : Prop :=
  In (dl_pri d, dl_msg d) l /\
  exists o, In o outputs /\ lo_bypass o = bypass /\ dl_dest d = lo_dest o /\ dl_pri d <= lo_priority o.

Record log_inv (s : log_sys) : Prop := {
  li_queue : exists q n, spec_reachable (QSpec (ls_logged s) (ls_taken s) q n) /\ ring_holds (ls_lb s) q;
  li_ready : lb_ready (ls_lb s) = pc_ready (ls_pc s);
  li_active : pc_inactive (ls_pc s) = true -> lb_active (ls_lb s) = false;
  li_out : match ls_pc s with
           | LOut pri buf => exists t, cstring buf = Some t /\ In (pri, t) (ls_taken s)
           | _ => True
           end;
  li_direct : Forall (delivery_ok true (ls_logged s)) (ls_direct s);
  li_late : Forall (delivery_ok false (ls_taken s)) (ls_late s)
}.

Lemma ring_holds_fields lb lb' q :
  lb_buf lb' = lb_buf lb -> lb_tail lb' = lb_tail lb -> lb_head lb' = lb_head lb ->
  ring_holds lb q -> ring_holds lb' q.
Proof.
  intros E1 E2 E3 [H1 H2 Ht Hh Hs Hm]. split; rewrite ?E1, ?E2, ?E3; try assumption.
  intros i m Hi. unfold slot. rewrite E2. by apply Hm.
Qed.

Lemma log_inv_initial s : log_initial s -> log_inv s.
Proof.
  intros (rows & Hn & Hr & ->). split; cbn; try done. exists [], 0%nat. split; [constructor|].
  split; cbn; try done.
Qed.

Lemma deliver_ok time m bypass l :
  In m l -> Forall (delivery_ok bypass l) (deliver outputs time m bypass).
Proof.
  intros Hm. unfold deliver. case_if; [constructor|]. apply Forall_forall. intros d Hd.
  apply list_elem_of_In, in_map_iff in Hd as (o & <- & Ho). apply filter_In in Ho as [Ho Hf]. zbool.
  destruct m as [pri t]. split; [done|]. exists o. cbn in *. split; [done|]. split; [|split; [done|]].
  - by destruct (lo_bypass o), bypass.
  - lia.
Qed.

Lemma delivery_ok_more bypass l k d : delivery_ok bypass l d -> delivery_ok bypass (l ++ k) d.
Proof. intros [H1 H2]. split; [apply in_or_app; by left|done]. Qed.

Lemma deliveries_more bypass l k ds :
  Forall (delivery_ok bypass l) ds -> Forall (delivery_ok bypass (l ++ k)) ds.
Proof. intros H. eapply Forall_impl; [exact H|]. intros d. apply delivery_ok_more. Qed.

Lemma log_inv_runs s s' : log_inv s -> log_runs s s' -> log_inv s'.
Proof.
  intros I H. destruct H as [time lb p lg tk di la p' lb' d E].
  destruct I as [(q & n & Sq & R) Hrdy Hact Hout Hdi Hla]. cbn in *.
  destruct p; cbn in E; simplify_eq; cbn [taken_now]; rewrite ?app_nil_r.
  - split; cbn; try done. exists q, n. split; [done|]. by eapply ring_holds_fields; [..|exact R].
  - split; cbn; try done. exists q, n. split; [done|]. by eapply ring_holds_fields; [..|exact R].
  - split; cbn; try done. exists q, n. split; [done|]. by eapply ring_holds_fields; [..|exact R].
  - destruct q as [|m q].
    + rewrite (log_take_empty _ R) in E. cbn in E. simplify_eq. rewrite !app_nil_r. split; cbn; try done. by exists [], n.
    + destruct (log_take_spec _ _ _ R) as (buf & Et & Hs). rewrite Et in E. cbn in E. simplify_eq.
      destruct m as [pri t]. cbn [fst snd] in *. rewrite Hs, app_nil_r. cbn [default].
      split; cbn; try done.
      * exists q, n. split; [|by eapply ring_pop]. eapply SpecNext; [exact Sq|]. constructor.
      * exists t. split; [done|]. apply in_or_app. right. by left.
      * by apply deliveries_more.
  - destruct Hout as (t & Ht & Hin). rewrite (log_output_spec _ _ _ _ _ _ Ht) in E. cbn in E. simplify_eq.
    split; cbn; try done; [by exists q, n|]. apply Forall_app. split; [done|by apply deliver_ok].
Qed.

Lemma log_inv_step s s' : log_inv s -> log_step s s' -> log_inv s'.
Proof.
  intros I H. destruct H as [time c lb p lg tk di la lb' d sig Hc E|s s' H|lb lg tk di la];
    [|by eapply log_inv_runs|].
  - destruct I as [(q & n & Sq & R) Hrdy Hact Hout Hdi Hla]. cbn in *.
    destruct ((level <? lc_pri c) || negb (lb_ready lb)) eqn:Hq.
    + rewrite log_internal_quiet in E
        by (apply orb_true_iff in Hq as [Hq%Z.ltb_lt|Hq%negb_true_iff]; [by left|by right]).
      simplify_eq. rewrite !app_nil_r.
      split; cbn; try done; destruct p; cbn in *; try done. all: by exists q, n.
    + apply orb_false_iff in Hq as [Hlv Hr]. zbool.
      destruct (log_internal_spec level outputs time lb q c R Hr Hc Hlv) as (lb2 & E2 & R2 & A2 & R3).
      rewrite E in E2. simplify_eq.
      split; cbn; try done.
      * exists (q_put q (msg_of c)), (if q_full q then S n else n). split; [|done].
        eapply SpecNext; [exact Sq|]. constructor.
      * rewrite R3, <- Hr, Hrdy. destruct p; try done. by case_if.
      * rewrite A2. destruct p; try done; intros _; by apply Hact.
      * destruct p; try done. by case_if.
      * apply Forall_app. split; [by apply deliveries_more|]. apply deliver_ok. apply in_or_app. right. by left.
  - destruct I as [Hq Hrdy Hact Hout Hdi Hla]. by split.
Qed.

Lemma log_inv_reachable s : log_reachable s -> log_inv s.
Proof. induction 1 as [s H|s s' _ IH H]; [by apply log_inv_initial|by eapply log_inv_step]. Qed.

End system.

(** ** Theorems *)

Lemma sublist_same_length {A} (l k : list A) : sublist l k -> length k = length l -> l = k.
Proof.
  induction 1 as [|x l k H IH|x l k H IH]; cbn; intros L; [done| |].
  - f_equal. apply IH. lia.
  - apply sublist_length in H. lia.
Qed.

(** C26: The ring of the log implements a bounded queue that drops its oldest
    message: under every interleaving of threads that log and the log thread,
    what was logged is, in order, what the log thread took or was dropped,
    followed by what is in the ring; without drops nothing is missing.  Outputs
    only get messages that were logged and that their level admits.  No store
    leaves the ring, and only waiting stops the thread. *)
Theorem log_ring_queue (level : Z) (outputs : list log_out) (s : log_sys)
  (H : log_reachable level outputs s) :
  exists q old n,
    spec_reachable (QSpec (ls_logged s) (ls_taken s) q n) /\ ring_holds (ls_lb s) q /\
    ls_logged s = old ++ q /\ sublist (ls_taken s) old /\ length old = (length (ls_taken s) + n)%nat /\
    (n = 0%nat -> ls_logged s = ls_taken s ++ q) /\
    Forall (delivery_ok outputs true (ls_logged s)) (ls_direct s) /\
    Forall (delivery_ok outputs false (ls_logged s)) (ls_late s) /\
    (forall time c, call_ok c -> is_Some (log_internal level outputs time (ls_lb s) c)) /\
    (forall time, ls_pc s <> LWait -> is_Some (log_thread_step outputs time (ls_pc s) (ls_lb s))).
Proof.
  destruct (log_inv_reachable _ _ _ H) as [(q & n & Sq & R) Hrdy _ Hout Hdi Hla].
  destruct (spec_in_order _ Sq) as (old & E & Su & L). cbn in E, Su, L.
  exists q, old, n. split; [done|]. split; [done|]. split; [done|]. split; [done|]. split; [done|]. split.
  { intros ->. rewrite E. f_equal. symmetry. apply sublist_same_length; [done|lia]. }
  split; [done|]. split.
  { eapply Forall_impl; [exact Hla|]. intros d [Hin Ho]. split; [|done]. rewrite E. apply in_or_app. left.
    apply list_elem_of_In. eapply elem_of_submseteq; [by apply list_elem_of_In|by apply sublist_submseteq]. }
  split.
  - intros time c Hc. destruct (Z.ltb_spec level (lc_pri c)) as [Hl|Hl].
    { rewrite log_internal_quiet by (by left). by eexists. }
    destruct (lb_ready (ls_lb s)) eqn:Hr; [|rewrite log_internal_quiet by (by right); by eexists].
    destruct (log_internal_spec level outputs time _ q c R Hr Hc Hl) as (lb' & -> & _). by eexists.
  - intros time Hw. destruct (ls_pc s); try done; try by eexists; cbn.
    + destruct q as [|m q]; cbn; [rewrite (log_take_empty _ R); by eexists|].
      destruct (log_take_spec _ _ _ R) as (buf & -> & _). by eexists.
    + destruct Hout as (t & Ht & _). cbn. rewrite (log_output_spec _ _ _ _ _ _ Ht). by eexists.
Qed.

(** A call of [main] and the set-up of the log. *)
Definition demo_call : log_call := tcmu_info_message None (str "main") 7 (str "up").
Definition demo_outputs : list log_out := [LogOut 6 None TCMU_LOG_TO_SYSLOG false; LogOut 8 None TCMU_LOG_TO_STDOUT true].

Lemma demo_call_ok : call_ok demo_call.
Proof.
  split; [by split|repeat constructor|apply Nat.leb_le; reflexivity|repeat constructor].
Qed.

Definition demo_rows : list (list Z) := replicate (Z.to_nat LOG_ENTRYS) (zeros 256).

Lemma demo_rows_ok :
  Z.of_nat (length demo_rows) = LOG_ENTRYS /\ Forall (fun row => length row = 256%nat) demo_rows.
Proof.
  unfold demo_rows. rewrite length_replicate. split; [by apply Z2Nat.id|]. apply Forall_replicate. reflexivity.
Qed.

(** The log thread has announced itself; then a message is logged. *)
Lemma demo_logged :
  exists lb d, lb_active lb = false /\ ring_holds lb [msg_of demo_call] /\
    log_reachable LOG_INFO demo_outputs (LogSys lb LTop [msg_of demo_call] [] d []).
Proof.
  pose proof demo_rows_ok as Hrows. revert Hrows. generalize demo_rows. intros rows [Hn Hr].
  set (lb0 := LogBuf false false 0 0 rows).
  assert (log_reachable LOG_INFO demo_outputs (LogSys (lb_set_ready lb0) LTop [] [] [] [])) as H.
  { eapply LogNext; [apply LogInit; by exists rows|]. apply StepRuns.
    by apply (LogRuns demo_outputs (0, []) lb0 LStart [] [] [] [] LTop). }
  assert (ring_holds (lb_set_ready lb0) []) as R by (split; done).
  destruct (log_internal_spec LOG_INFO demo_outputs (0, []) _ [] demo_call R eq_refl demo_call_ok ltac:(done))
    as (lb & E & R2 & A & _).
  exists lb, (deliver demo_outputs (0, []) (msg_of demo_call) true). split; [done|]. split; [exact R2|].
  eapply LogNext; [exact H|].
  apply (StepLog LOG_INFO demo_outputs (0, []) demo_call _ LTop [] [] [] [] _ _ _ demo_call_ok E).
Qed.

Lemma log_ring_queue_witness :
  exists lb d old n, log_reachable LOG_INFO demo_outputs (LogSys lb LTop [msg_of demo_call] [] d []) /\
    Forall (delivery_ok demo_outputs true [msg_of demo_call]) d /\
    (length old = n)%nat /\ exists q, [msg_of demo_call] = old ++ q.
Proof.
  destruct demo_logged as (lb & d & _ & _ & H).
  destruct (log_ring_queue _ _ _ H) as (q & old & n & _ & _ & E & _ & L & _ & D & _).
  exists lb, d, old, n. split; [exact H|]. split; [exact D|]. split; [exact L|]. by exists q.
Defined.

(** A message can be left behind: when it is logged after the thread has
    found the ring empty, or before it first waits, nobody is signalled, and
    the thread goes to wait without looking at the ring.  The message stays until
    another one is logged. *)
Theorem log_wakeup_lost :
  exists s m, log_reachable LOG_INFO demo_outputs s /\ ls_logged s = [m] /\ ls_taken s = [] /\ ls_late s = [] /\
    rb_is_empty (ls_lb s) = false /\ ls_pc s = LWait /\ forall s', ~ log_runs demo_outputs s s'.
Proof.
  destruct demo_logged as (lb & d & A & R & H).
  exists (LogSys (lb_set_active lb false) LWait [msg_of demo_call] [] d []), (msg_of demo_call).
  split; [|split; [done|split; [done|split; [done|split; [|split; [done|]]]]]].
  - eapply LogNext; [exact H|]. apply StepRuns.
    by apply (LogRuns demo_outputs (0, []) lb LTop [msg_of demo_call] [] d [] LWait (lb_set_active lb false) []).
  - cbn. change (rb_is_empty (lb_set_active lb false)) with (rb_is_empty lb). by rewrite (ring_empty _ _ R).
  - intros s' Hs. by inversion Hs.
Qed.

(** Runs of the log thread alone. *)
Inductive log_run (outputs : list log_out) : nat -> log_sys -> log_sys -> Prop :=
| LogRun0 s : log_run outputs 0 s s
| LogRunS n s s1 s2 : log_runs outputs s s1 -> log_run outputs n s1 s2 -> log_run outputs (S n) s s2.

Definition log_measure (p : log_pc) (q : list log_msg) : nat :=
  match p with
  | LWait => 0 | LTop => 1 | LStart => 2
  | LDrain => 2 + 2 * length q
  | LWoken | LOut _ _ => 3 + 2 * length q
  end.

(** Whether the thread empties the ring before it waits again. *)
Definition draining (p : log_pc) : bool := match p with LWoken | LDrain | LOut _ _ => true | _ => false end.

(** A step of the thread brings it closer to waiting. *)
Lemma log_runs_measure outputs s s' q :
  ring_holds (ls_lb s) q -> log_runs outputs s s' ->
  exists q', ring_holds (ls_lb s') q' /\ (log_measure (ls_pc s') q' < log_measure (ls_pc s) q)%nat /\
    ls_logged s' = ls_logged s /\
    (draining (ls_pc s) = true -> ls_taken s' ++ q' = ls_taken s ++ q /\ (draining (ls_pc s') = false -> q' = [])) /\
    (draining (ls_pc s) = false -> draining (ls_pc s') = false /\ ls_taken s' = ls_taken s /\ q' = q).
Proof.
  intros R H. destruct H as [time lb p lg tk di la p' lb' d E]. cbn in *.
  destruct p; cbn in E; simplify_eq; cbn [taken_now draining log_measure]; rewrite ?app_nil_r.
  - exists q. split; [by eapply ring_holds_fields; [..|exact R]|]. split; [lia|]. split; [done|]. split; [done|]. auto.
  - exists q. split; [by eapply ring_holds_fields; [..|exact R]|]. split; [lia|]. split; [done|]. split; [done|]. auto.
  - exists q. split; [by eapply ring_holds_fields; [..|exact R]|]. split; [lia|]. split; [done|]. by split.
  - destruct q as [|m q].
    + rewrite (log_take_empty _ R) in E. cbn in E. simplify_eq. exists []. rewrite !app_nil_r. split; [done|].
      split; [cbn; lia|]. by split.
    + destruct (log_take_spec _ _ _ R) as (buf & Et & Hs). rewrite Et in E. cbn in E. simplify_eq.
      rewrite Hs. cbn [default]. exists q. split; [by eapply ring_pop|]. split; [cbn; lia|]. split; [done|].
      split; [|done]. intros _. rewrite <- app_assoc. cbn. by destruct m.
  - destruct (log_output _ _ _ _ _) as [dd|]; [|done]. cbn in E. simplify_eq. exists q.
    split; [done|]. split; [cbn; lia|]. by split.
Qed.

(** A thread that does not wait has a next step. *)
Lemma log_runs_progress outputs (time : Z * list Z) s :
  log_inv outputs s -> ls_pc s <> LWait -> exists s', log_runs outputs s s'.
Proof.
  intros [(q & n & _ & R) _ _ Hout _ _] Hne. destruct s as [lb p lg tk di la]. cbn in *.
  assert (exists r, log_thread_step outputs time p lb = Some r) as [[[p' lb'] d] E].
  { destruct p; try done; try by eexists; cbn.
    - destruct q as [|m q]; cbn; [rewrite (log_take_empty _ R); by eexists|].
      destruct (log_take_spec _ _ _ R) as (buf & -> & _). by eexists.
    - destruct Hout as (t & Ht & _). cbn. rewrite (log_output_spec _ _ _ _ _ _ Ht). by eexists. }
  eexists. by eapply LogRuns.
Qed.

Lemma log_run_to_wait outputs (time : Z * list Z) k : forall s q,
  log_inv outputs s -> ring_holds (ls_lb s) q -> (log_measure (ls_pc s) q <= k)%nat ->
  exists n s' q', log_run outputs n s s' /\ ls_pc s' = LWait /\ ls_logged s' = ls_logged s /\
    ring_holds (ls_lb s') q' /\
    if draining (ls_pc s) then ls_taken s' = ls_taken s ++ q /\ q' = [] else ls_taken s' = ls_taken s /\ q' = q.
Proof.
  induction k as [|k IH]; intros s q I R Hk; (destruct (decide (ls_pc s = LWait)) as [Hw|Hne];
    [exists 0%nat, s, q; split; [constructor|]; rewrite Hw; done|]).
  { destruct (ls_pc s); cbn in Hk; lia || done. }
  destruct (log_runs_progress _ time _ I Hne) as [s1 Hs].
  destruct (log_runs_measure _ _ _ _ R Hs) as (q1 & R1 & Hm & Hlg & Hd & Hnd).
  destruct (IH s1 q1 (log_inv_runs _ _ _ I Hs) R1 ltac:(lia)) as (n & s' & q' & Hr & Hw & Hl & R' & Ht).
  exists (S n), s', q'. split; [by econstructor|]. split; [done|]. split; [congruence|]. split; [done|].
  destruct (draining (ls_pc s)).
  - destruct (Hd eq_refl) as [Hq He]. destruct (draining (ls_pc s1)).
    + destruct Ht as [-> ->]. by split.
    + specialize (He eq_refl) as ->. destruct Ht as [-> ->]. by rewrite app_nil_r in Hq.
  - destruct (Hnd eq_refl) as (Hn1 & Htk & ->). rewrite Hn1, Htk in Ht. done.
Qed.

(** From every reachable state a run of the log thread alone ends, after at
    most two steps per message in the ring and three more, in its wait; and if it
    was woken or at work, it has then taken every message that was in the ring,
    in order, and the ring is empty. *)
Theorem log_thread_drains (level : Z) (outputs : list log_out) (s : log_sys) (time : Z * list Z)
  (H : log_reachable level outputs s) :
  exists q, ring_holds (ls_lb s) q /\
    (forall n s', log_run outputs n s s' -> (n <= 2 * length q + 3)%nat) /\
    exists n s', log_run outputs n s s' /\ ls_pc s' = LWait /\ ls_logged s' = ls_logged s /\
      (draining (ls_pc s) = true -> ls_taken s' = ls_taken s ++ q /\ rb_is_empty (ls_lb s') = true).
Proof.
  pose proof (log_inv_reachable _ _ _ H) as I. clear H. pose proof (li_queue _ _ I) as (q & n0 & _ & R).
  exists q. split; [done|]. split.
  { intros n s' Hr. assert (n <= log_measure (ls_pc s) q)%nat as Hn.
    { clear I n0. revert q R. induction Hr as [s|n s s1 s2 Hs _ IH]; intros q R; [lia|].
      destruct (log_runs_measure _ _ _ _ R Hs) as (q1 & R1 & Hm & _). specialize (IH q1 R1). lia. }
    destruct (ls_pc s); cbn in Hn; lia. }
  destruct (log_run_to_wait outputs time _ s q I R (Nat.le_refl _)) as (n & s' & q' & Hr & Hw & Hl & R' & Ht).
  exists n, s'. split; [done|]. split; [done|]. split; [done|]. intros Hd. rewrite Hd in Ht. destruct Ht as [Ht ->].
  split; [done|]. by rewrite (ring_empty _ _ R').
Qed.

(** A signal: the message is taken. *)
Lemma log_thread_drains_witness :
  exists lb d, log_reachable LOG_INFO demo_outputs (LogSys lb LWoken [msg_of demo_call] [] d []) /\
    exists q, ring_holds lb q /\
    exists n s', log_run demo_outputs n (LogSys lb LWoken [msg_of demo_call] [] d []) s' /\
      ls_taken s' = q /\ rb_is_empty (ls_lb s') = true.
Proof.
  destruct demo_logged as (lb & d & A & R & H). exists (lb_set_active lb false), d.
  assert (log_reachable LOG_INFO demo_outputs (LogSys (lb_set_active lb false) LWoken [msg_of demo_call] [] d [])) as Hw.
  { eapply LogNext; [|apply StepSpurious]. eapply LogNext; [exact H|]. apply StepRuns.
    by apply (LogRuns demo_outputs (0, []) lb LTop [msg_of demo_call] [] d [] LWait (lb_set_active lb false) []). }
  split; [exact Hw|]. destruct (log_thread_drains _ _ _ (0, []) Hw) as (q & Rq & _ & n & s' & Hr & _ & _ & Ht).
  exists q. split; [exact Rq|]. exists n, s'. destruct (Ht eq_refl) as [T E]. split; [exact Hr|]. by split.
Defined.
