(* ===== verification/Config.v ===== *)
(** * The configuration file

    [libtcmu_config.c]: the parser of the file, which works in place in a buffer,
    the options it registers, and what they set. *)

From S2P Require Import Prelude Scsi Device Configfs Log.

(** ** Characters and scanning *)

Definition isblank (c : Z) : bool := (c =? 32) || (c =? 9).
Definition isalpha (c : Z) : bool := (65 <=? c) && (c <=? 90) || (97 <=? c) && (c <=? 122).
Definition is_eol (c : Z) : bool := (c =? 10) || (c =? 13).
Definition is_quote (c : Z) : bool := (c =? 34) || (c =? 39).
Definition blank_or_eq (c : Z) : bool := isblank c || (c =? 61).

(** [while (x < x + n && p( *x)) x++]. *)
Fixpoint scan_to (n : nat) (p : Z -> bool) (buf : list Z) (x : nat) : option nat :=
  match n with
  | O => Some x
  | S n => c ← bget1 buf x; if p c then scan_to n p buf (S x) else Some x
  end.

(** [while (p( *x)) x++]; [None] when it leaves the buffer. *)
Definition scan (p : Z -> bool) (buf : list Z) (x : nat) : option nat :=
  scan_to (S (length buf - x)) p buf x.

(** [while (p( *x)) x--]. *)
Fixpoint scan_back (p : Z -> bool) (buf : list Z) (x : nat) : option nat :=
  c ← bget1 buf x;
  if p c then match x with O => None | S x => scan_back p buf x end else Some x.

(** The C string at [x]. *)
Definition cstr_at (buf : list Z) (x : nat) : option (list Z) := cstring (drop x buf).

(** [strchr]: [Some None] when the character is not in the string. *)
Definition strchr_at (c : Z) (buf : list Z) (x : nat) : option (option nat) :=
  r ← scan (fun d => negb (d =? c) && negb (d =? 0)) buf x;
  d ← bget1 buf r;
  Some (if d =? c then Some r else None).

(** [TCMU_SKIP_BLANK_LINES].
    [src tcmu-runner/libtcmu_config.c 200-203 TCMU_SKIP_BLANK_LINES] *)
Definition skip_blank_lines (buf : list Z) (x y : nat) : option nat :=
  scan_to (y - x) (fun c => isblank c || is_eol c) buf x.

(** [TCMU_TO_LINE_END].
    [src tcmu-runner/libtcmu_config.c 194-197 TCMU_TO_LINE_END] *)
Definition to_line_end (buf : list Z) (x y : nat) : option nat :=
  scan_to (y - x) (fun c => negb (is_eol c)) buf x.

(** [TCMU_SKIP_COMMENT_LINES]; each round goes past one character at least.
    [src tcmu-runner/libtcmu_config.c 206-216 TCMU_SKIP_COMMENT_LINES] *)
Fixpoint skip_comment_lines (fuel : nat) (buf : list Z) (x y : nat) : option nat :=
  if (x <? y)%nat then
    c ← bget1 buf x;
    if c =? 35 then
      match fuel with
      | O => None
      | S fuel => x ← to_line_end buf x y; skip_comment_lines fuel buf (S x) y
      end
    else Some x
  else Some x.

(** ** Options *)

(** [src tcmu-runner/libtcmu_config.h 53-59 tcmu_option_type] *)
Inductive tcmu_option_type := TCMU_OPT_INT | TCMU_OPT_STR | TCMU_OPT_BOOL.

#[export] Instance option_type_eq_dec : EqDecision tcmu_option_type.
Proof. solve_decision. Defined.

(** The union of an option: a number (zero is also NULL and false), a pointer
    to a string, or a pointer of which a byte was overwritten. *)
Inductive opt_value := VInt (z : Z) | VPtr (s : list Z) | VBad.

(** [src tcmu-runner/libtcmu_config.h 61-71 struct tcmu_conf_option] *)
Record tcmu_conf_option := COpt { op_key : list Z; op_type : tcmu_option_type; op_val : opt_value }.

(** The buffer, the registered options, and the outcomes of the next
    allocations (which succeed when the list has ended). *)
Record conf := Conf { cf_buf : list Z; cf_opts : list tcmu_conf_option; cf_alloc : list bool }.

Definition cf_set_buf (s : conf) (b : list Z) : conf := Conf b (cf_opts s) (cf_alloc s).
Definition cf_set_opts (s : conf) (l : list tcmu_conf_option) : conf := Conf (cf_buf s) l (cf_alloc s).

Definition store (s : conf) (x : nat) (c : Z) : option conf := b ← bset1 (cf_buf s) x c; Some (cf_set_buf s b).

Definition alloc (s : conf) : bool * conf :=
  match cf_alloc s with
  | [] => (true, s)
  | b :: l => (b, Conf (cf_buf s) (cf_opts s) l)
  end.

(** The index of the option in the list.
    [src tcmu-runner/libtcmu_config.c tcmu_get_option] *)
Definition tcmu_get_option (opts : list tcmu_conf_option) (key : list Z) : option nat :=
  fst <$> list_find (fun o => op_key o = key) opts.

Definition set_value (s : conf) (i : nat) (v : opt_value) : conf :=
  cf_set_opts s (alter (fun o => COpt (op_key o) (op_type o) v) i (cf_opts s)).

(** The new option goes to the end; [calloc] and [strdup] can fail.
    [src tcmu-runner/libtcmu_config.c tcmu_register_option] *)
Definition tcmu_register_option (s : conf) (key : list Z) (type : tcmu_option_type) : conf * option nat :=
  let '(ok, s) := alloc s in
  if negb ok then (s, None)
  else
    let '(ok, s) := alloc s in
    if negb ok then (s, None)
    else (cf_set_opts s (cf_opts s ++ [COpt key type (VInt 0)]), Some (length (cf_opts s))).

(** [opt_bool = true] sets the lowest byte of the union. *)
Definition union_true (v : opt_value) : opt_value :=
  match v with
  | VInt z => VInt (s32 (Z.lor (Z.ldiff (u32 z) 0xff) 1))
  | _ => VBad
  end.

(** The digits at [x]; [None] for a number that no [int] holds. *)
Definition atoi_at (buf : list Z) (x : nat) : option Z :=
  s ← cstr_at buf x;
  let n := fst (digits_val 0 s) in
  if INT_MAX <? n then None else Some n.

(** A line with a word and no [=].
    [src tcmu-runner/libtcmu_config.c 259-273 tcmu_parse_option] *)
Definition parse_bool (s : conf) (p q : nat) : option conf :=
  r ← scan_to (q - p) (fun c => negb (isblank c)) (cf_buf s) p;
  s ← store s r 0;
  key ← cstr_at (cf_buf s) p;
  let '(s, i) := match tcmu_get_option (cf_opts s) key with
                 | Some i => (s, Some i)
                 | None => tcmu_register_option s key TCMU_OPT_BOOL
                 end in
  match i with
  | None => Some s
  | Some i => o ← cf_opts s !! i; Some (set_value s i (union_true (op_val o)))
  end.

(** The type of a new option from its value, which starts at [s].
    [src tcmu-runner/libtcmu_config.c 283-294 tcmu_parse_option] *)
Definition value_type (buf : list Z) (x : nat) : option (option tcmu_option_type) :=
  r ← scan blank_or_eq buf x;
  c ← bget1 buf r;
  Some (if is_quote c then Some TCMU_OPT_STR else if is_digit c then Some TCMU_OPT_INT else None).

(** [src tcmu-runner/libtcmu_config.c 303-312 tcmu_parse_option] *)
Definition parse_int (s : conf) (i x : nat) : option conf :=
  x ← scan (fun c => negb (is_digit c)) (cf_buf s) x;
  r ← scan is_digit (cf_buf s) x;
  s ← store s r 0;
  n ← atoi_at (cf_buf s) x;
  Some (set_value s i (VInt n)).

(** [q] is the end of the line; a pointer that was damaged is freed.
    [src tcmu-runner/libtcmu_config.c 313-331 tcmu_parse_option] *)
Definition parse_str (s : conf) (i x q : nat) : option conf :=
  x ← scan isblank (cf_buf s) (S x);
  c ← bget1 (cf_buf s) x;
  let x := if is_quote c then S x else x in
  r ← (match q with O => None | S r => scan_back isblank (cf_buf s) r end);
  c ← bget1 (cf_buf s) r;
  s ← (if is_quote c then store s r 0 else Some s);
  o ← cf_opts s !! i;
  match op_val o with
  | VBad => None
  | VInt z => if z =? 0 then v ← cstr_at (cf_buf s) x;
                let '(ok, s) := alloc s in Some (set_value s i (if ok : bool then VPtr v else VInt 0))
              else None
  | VPtr _ => v ← cstr_at (cf_buf s) x;
                let '(ok, s) := alloc s in Some (set_value s i (if ok : bool then VPtr v else VInt 0))
  end.

(** A line with [=] at [e].  For an option without a value the message that
    is logged has a conversion without an argument, which is undefined.
    [src tcmu-runner/libtcmu_config.c 274-335 tcmu_parse_option] *)
Definition parse_value (s : conf) (p e q : nat) : option conf :=
  let x := S e in
  r ← scan_back blank_or_eq (cf_buf s) e;
  s ← store s (S r) 0;
  key ← cstr_at (cf_buf s) p;
  y ← (match tcmu_get_option (cf_opts s) key with
       | Some i => Some (s, Some i)
       | None =>
           type ← value_type (cf_buf s) x;
           Some (match type with None => (s, None) | Some type => tcmu_register_option s key type end)
       end);
  match y with
  | (s, None) => Some s
  | (s, Some i) =>
      o ← cf_opts s !! i;
      match op_type o with
      | TCMU_OPT_INT => parse_int s i x
      | TCMU_OPT_STR => parse_str s i x q
      | TCMU_OPT_BOOL => None
      end
  end.

(** The state after the line, and where the next one starts.
    [src tcmu-runner/libtcmu_config.c tcmu_parse_option] *)
Definition tcmu_parse_option (s : conf) (cur end_ : nat) : option (conf * nat) :=
  p ← scan isblank (cf_buf s) cur;
  q ← to_line_end (cf_buf s) cur end_;
  s ← store s q 0;
  e ← strchr_at 61 (cf_buf s) p;
  s ← (match e with None => parse_bool s p q | Some e => parse_value s p e q end);
  Some (s, S q).

(** The loop; [None]: it goes on.
    [src tcmu-runner/libtcmu_config.c 342-357 tcmu_parse_options] *)
Fixpoint parse_loop (fuel : nat) (s : conf) (cur end_ : nat) : option conf :=
  if (cur <? end_)%nat then
    match fuel with
    | O => None
    | S fuel =>
        cur ← skip_blank_lines (cf_buf s) cur end_;
        cur ← skip_comment_lines (end_ - cur) (cf_buf s) cur end_;
        if (end_ <=? cur)%nat then Some s
        else
          c ← bget1 (cf_buf s) cur;
          if negb (isalpha c) then parse_loop fuel s cur end_
          else '(s, cur) ← tcmu_parse_option s cur end_; parse_loop fuel s cur end_
    end
  else Some s.

(** ** Loading *)

(** [src tcmu-runner/libtcmu_config.h struct tcmu_config] *)
Record tcmu_config := Cfg { cfg_log_level : Z; cfg_log_dir_path : option (list Z) }.

Definition log_level_key : list Z := str "log_level".
Definition log_dir_key : list Z := str "log_dir_path".

(** [TCMU_PARSE_CFG_INT] with [log_level]; a pointer read as a number is
    unspecified.
    [src tcmu-runner/libtcmu_config.c 107-115 TCMU_PARSE_CFG_INT] *)
Definition parse_cfg_int (s : conf) (cfg : tcmu_config) (def : Z) : option (conf * tcmu_config) :=
  match tcmu_get_option (cf_opts s) log_level_key with
  | None => Some (s, cfg)
  | Some i =>
      o ← cf_opts s !! i;
      match op_val o with
      | VInt z => Some (set_value s i (VInt def), Cfg z (cfg_log_dir_path cfg))
      | _ => None
      end
  end.

(** [TCMU_PARSE_CFG_STR] with [log_dir_path]: only a pointer can be copied.
    [src tcmu-runner/libtcmu_config.c 126-132 TCMU_PARSE_CFG_STR] *)
Definition parse_cfg_str (s : conf) (cfg : tcmu_config) : option (conf * tcmu_config) :=
  match tcmu_get_option (cf_opts s) log_dir_key with
  | None => Some (s, cfg)
  | Some i =>
      o ← cf_opts s !! i;
      match op_val o with
      | VPtr v => let '(ok, s) := alloc s in
                  Some (s, Cfg (cfg_log_level cfg) (if ok : bool then Some v else None))
      | _ => None
      end
  end.

Section loading.
Context {F : Type} {HF : Dirs F}.

(** What the rest of the program sees: the directories, the level of the log
    and its directory. *)
Record log_world := World { lw_dirs : F; lw_level : Z; lw_dir : option (list Z) }.

(** [junk] is the path buffer of [tcmu_mkdirs].
    [src tcmu-runner/libtcmu_config.c tcmu_conf_set_options] *)
Definition tcmu_conf_set_options (junk : list Z) (s : conf) (cfg : tcmu_config) (w : log_world)
    (reloading : bool) : option (conf * tcmu_config * log_world) :=
  '(s, cfg) ← parse_cfg_int s cfg TCMU_CONF_LOG_INFO;
  let w := if cfg_log_level cfg =? 0 then w
           else World (lw_dirs w) (tcmu_set_log_level (cfg_log_level cfg)) (lw_dir w) in
  if reloading then Some (s, cfg, w)
  else
    '(s, cfg) ← parse_cfg_str s cfg;
    match lw_dir w with
    | None =>
        let '(ok, s) := alloc s in
        '(f, d, _) ← tcmu_logdir_create junk ok (lw_dirs w) (lw_dir w) (cfg_log_dir_path cfg);
        Some (s, cfg, World f (lw_level w) d)
    | Some _ => Some (s, cfg, w)
    end.

(** [src tcmu-runner/libtcmu_config.c tcmu_parse_options] *)
Definition tcmu_parse_options (junk : list Z) (s : conf) (cfg : tcmu_config) (w : log_world) (len : nat)
    (reloading : bool) : option (conf * tcmu_config * log_world) :=
  s ← parse_loop len s 0 len;
  tcmu_conf_set_options junk s cfg w reloading.

Definition ENOMEM : Z := 12.
Definition TCMU_MAX_CFG_FILE_SIZE : Z := 2 * 1024 * 1024.

(** The calls of [read], each with what it puts into the buffer ([None] for an
    error), and whether [errno] is EAGAIN after it.
    [src tcmu-runner/libtcmu_config.c tcmu_read_config] *)
Fixpoint tcmu_read_config (reads : list (option (list Z) * bool)) (buf : list Z) : option (list Z * Z) :=
  match reads with
  | [] => None
  | (r, again) :: reads =>
      '(buf, len) ← (match r with
                     | None => Some (buf, -1)
                     | Some d => b ← bset buf 0 d; Some (b, Z.of_nat (length d))
                     end);
      if again : bool then tcmu_read_config reads buf else Some (buf, len)
  end.

(** The environment of a load: [malloc] and what it returns, [open], the reads,
    the allocations of the parser, the path buffer. *)
Record load_env := LoadEnv {
  ld_malloc : bool; ld_buf : list Z; ld_open : bool; ld_reads : list (option (list Z) * bool);
  ld_alloc : list bool; ld_path : list Z
}.

(** The options outlive a load.
    [src tcmu-runner/libtcmu_config.c tcmu_load_config] *)
Definition tcmu_load_config (e : load_env) (opts : list tcmu_conf_option) (cfg : tcmu_config) (w : log_world)
    (reloading : bool) : option (list tcmu_conf_option * tcmu_config * log_world * Z) :=
  if negb (ld_malloc e) then Some (opts, cfg, w, - ENOMEM)
  else if negb (ld_open e) then Some (opts, cfg, w, -1)
  else
    '(buf, len) ← tcmu_read_config (ld_reads e) (ld_buf e);
    if len <? 0 then Some (opts, cfg, w, -1)
    else
      buf ← bset1 buf (Z.to_nat len) 0;
      '(s, cfg, w) ← tcmu_parse_options (ld_path e) (Conf buf opts (ld_alloc e)) cfg w (Z.to_nat len) reloading;
      Some (cf_opts s, cfg, w, 0).

(** An event of the watched file: the watch it is for, the two bits of its
    mask, and what [access] and [inotify_add_watch] return if they are called. *)
Record inotify_event := IEvent {
  ev_wd : Z; ev_modify : bool; ev_ignored : bool; ev_access : bool; ev_watch : Z; ev_load : load_env
}.

(** The events of one [read].  An event of another watch is looked at again and
    again: [None].
    [src tcmu-runner/libtcmu_config.c 428-450 dyn_config_start] *)
Fixpoint dyn_config_events (evs : list inotify_event) (wd : Z) (opts : list tcmu_conf_option) (cfg : tcmu_config)
    (w : log_world) : option (Z * list tcmu_conf_option * tcmu_config * log_world) :=
  match evs with
  | [] => Some (wd, opts, cfg, w)
  | ev :: evs =>
      if negb (ev_wd ev =? wd) then None
      else
        let wd := if ev_ignored ev && ev_access ev then ev_watch ev else wd in
        '(opts, cfg, w) ←
          (if ev_modify ev || ev_ignored ev
           then '(opts, cfg, w, _) ← tcmu_load_config (ev_load ev) opts cfg w true; Some (opts, cfg, w)
           else Some (opts, cfg, w));
        dyn_config_events evs wd opts cfg w
  end.

(** [None] inside: no configuration.
    [src tcmu-runner/libtcmu_config.c tcmu_setup_config] *)
Definition tcmu_setup_config (calloc_ok strdup_ok : bool) (e : load_env) (opts : list tcmu_conf_option)
    (w : log_world) : option (list tcmu_conf_option * log_world * option tcmu_config) :=
  if negb calloc_ok || negb strdup_ok then Some (opts, w, None)
  else
    '(opts, cfg, w, ret) ← tcmu_load_config e opts (Cfg 0 None) w false;
    Some (opts, w, if ret =? 0 then Some cfg else None).
End loading.

#[global] Arguments log_world : clear implicits.

(** Freeing the options; a damaged pointer cannot be freed.
    [src tcmu-runner/libtcmu_config.c 531-538 tcmu_destroy_config] *)
Fixpoint free_options (opts : list tcmu_conf_option) : option unit :=
  match opts with
  | [] => Some tt
  | o :: opts =>
      match op_type o, op_val o with
      | TCMU_OPT_STR, VBad => None
      | TCMU_OPT_STR, VInt z => if z =? 0 then free_options opts else None
      | _, _ => free_options opts
      end
  end.
