(* ===== verification/ConfigThm.v ===== *)
(** * The configuration file: what the parser does

    Files as lists of lines, the parser against them, the level of the log, and
    the files on which the parser never ends. *)

From S2P Require Import Prelude Scsi Device Configfs Log Config.

(** ** Scanning *)

Definition all (p : Z -> bool) (l : list Z) : Prop := Forall (fun c => p c = true) l.

Lemma scan_to_stop n p buf : forall a x c r,
  drop x buf = a ++ c :: r -> all p a -> p c = false -> (length a < n)%nat ->
  scan_to n p buf x = Some (x + length a)%nat.
Proof.
  induction n as [|n IH]; intros a x c r Hd Ha Hc Hn; [lia|]. cbn [scan_to]. destruct a as [|d a].
  - cbn in Hd. rewrite (bget1_drop _ _ _ _ Hd). cbn. rewrite Hc. by rewrite Nat.add_0_r.
  - cbn in Hd. inversion Ha as [|? ? Hp Ha']; subst. rewrite (bget1_drop _ _ _ _ Hd). cbn [mbind option_bind].
    rewrite Hp. cbn [length] in Hn. rewrite (IH a (S x) c r (drop_next _ _ _ _ Hd) Ha' Hc ltac:(lia)).
    f_equal. cbn [length]. lia.
Qed.

Lemma scan_to_bound p buf a : forall x r,
  drop x buf = a ++ r -> all p a -> scan_to (length a) p buf x = Some (x + length a)%nat.
Proof.
  induction a as [|d a IH]; intros x r Hd Ha; cbn [length scan_to]; [by rewrite Nat.add_0_r|].
  cbn in Hd. inversion Ha as [|? ? Hp Ha']; subst. rewrite (bget1_drop _ _ _ _ Hd). cbn [mbind option_bind].
  rewrite Hp, (IH (S x) r (drop_next _ _ _ _ Hd) Ha'). f_equal. lia.
Qed.

Lemma scan_stop p buf a x c r :
  drop x buf = a ++ c :: r -> all p a -> p c = false -> scan p buf x = Some (x + length a)%nat.
Proof.
  intros Hd Ha Hc. unfold scan. eapply scan_to_stop; [exact Hd|done|done|].
  apply (f_equal length) in Hd. rewrite length_drop, length_app in Hd. cbn in Hd. lia.
Qed.

Lemma drop_add {A} (l : list A) x a r : drop x l = a ++ r -> drop (x + length a) l = r.
Proof. intros H. rewrite <- drop_drop, H. apply drop_app_length. Qed.

Lemma scan_back_stop p buf c a : forall y r,
  drop y buf = c :: a ++ r -> p c = false -> all p a -> scan_back p buf (y + length a) = Some y.
Proof.
  induction a as [|d a IH] using rev_ind; intros y r Hd Hc Ha.
  - rewrite Nat.add_0_r. cbn in Hd. destruct y; cbn [scan_back]; rewrite (bget1_drop _ _ _ _ Hd); cbn; by rewrite Hc.
  - apply Forall_app in Ha as [Ha Hp]. inversion Hp as [|? ? Hp' _]; subst.
    rewrite length_app, Nat.add_1_r. replace (y + S (length a))%nat with (S (y + length a)) by lia. cbn [scan_back].
    rewrite <- app_assoc in Hd.
    assert (drop (S (y + length a)) buf = d :: r) as Hd'.
    { replace (S (y + length a)) with (y + length (c :: a))%nat by (cbn; lia). by apply (drop_add buf y (c :: a)). }
    rewrite (bget1_drop _ _ _ _ Hd'). cbn [mbind option_bind]. rewrite Hp'. by eapply IH.
Qed.

(** A store behind a known part of the buffer. *)
Lemma store_at buf y a c r v :
  drop y buf = a ++ c :: r -> 0 <= v < 256 ->
  exists b, bset1 buf (y + length a) v = Some b /\ drop y b = a ++ v :: r.
Proof.
  intros Hd Hv. assert (buf = (take y buf ++ a) ++ c :: r) as E by (rewrite <- app_assoc, <- Hd; by rewrite take_drop).
  assert (length (take y buf) = y) as Ly.
  { apply length_take_le. apply (f_equal length) in Hd. rewrite length_drop, length_app in Hd. cbn in Hd. lia. }
  assert (bset1 buf (y + length a) v = Some ((take y buf ++ a) ++ v :: r)) as ->.
  { replace (y + length a)%nat with (length (take y buf ++ a)) by (rewrite length_app; lia).
    rewrite E at 1. by apply bset1_app. }
  eexists. split; [done|]. rewrite <- app_assoc, <- Ly at 1. apply drop_app_length.
Qed.

Lemma store_conf opts l buf y a c r v :
  drop y buf = a ++ c :: r -> 0 <= v < 256 ->
  exists b, store (Conf buf opts l) (y + length a) v = Some (Conf b opts l) /\ drop y b = a ++ v :: r.
Proof.
  intros Hd Hv. destruct (store_at buf y a c r v Hd Hv) as (b & E & Hb). exists b. split; [|done].
  unfold store. cbn [cf_buf]. by rewrite E.
Qed.

Lemma cstr_at_spec buf x s r :
  drop x buf = s ++ 0 :: r -> Forall (fun c => c <> 0) s -> cstr_at buf x = Some s.
Proof. intros H Hs. unfold cstr_at. rewrite H. by apply cstring_app. Qed.

(** ** Lines *)

(** A line of a file: an option with a number, with a quoted text, without a
    value; a comment; an empty line. *)
Inductive entry :=
| EInt (key : list Z) (n : Z)
| EStr (key : list Z) (quote : Z) (text : list Z)
| EFlag (key : list Z)
| EComment (text : list Z)
| EBlank.

Definition line (e : entry) : list Z :=
  match e with
  | EInt key n => key ++ [32; 61; 32] ++ dec n
  | EStr key quote text => key ++ [32; 61; 32; quote] ++ text ++ [quote]
  | EFlag key => key
  | EComment text => 35 :: text
  | EBlank => []
  end.

Definition print (es : list entry) : list Z := concat (map (fun e => line e ++ [10]) es).

(** Characters of keys, and of the rest of a line. *)
Definition key_char (c : Z) : bool := (0 <? c) && (c <? 256) && negb (isblank c) && negb (c =? 61) && negb (is_eol c).
Definition line_char (c : Z) : bool := (0 <? c) && (c <? 256) && negb (is_eol c).

Definition key_ok (k : list Z) : Prop :=
  all key_char k /\ match k with c :: _ => isalpha c = true | [] => False end.

Definition entry_ok (e : entry) : Prop :=
  match e with
  | EInt key n => key_ok key /\ 0 <= n <= INT_MAX
  | EStr key quote text => key_ok key /\ is_quote quote = true /\ all line_char text
  | EFlag key => key_ok key
  | EComment text => all line_char text
  | EBlank => True
  end.

(** What a line does to the options. *)
Definition put_option (opts : list tcmu_conf_option) (key : list Z) (type : tcmu_option_type) (v : opt_value)
    : list tcmu_conf_option :=
  match tcmu_get_option opts key with
  | Some i => alter (fun o => COpt (op_key o) (op_type o) v) i opts
  | None => opts ++ [COpt key type v]
  end.

Definition apply_entry (opts : list tcmu_conf_option) (e : entry) : list tcmu_conf_option :=
  match e with
  | EInt key n => put_option opts key TCMU_OPT_INT (VInt n)
  | EStr key _ text => put_option opts key TCMU_OPT_STR (VPtr text)
  | EFlag key => put_option opts key TCMU_OPT_BOOL (VInt 1)
  | EComment _ | EBlank => opts
  end.

(** The option of the line is new, or was registered with the same type. *)
Definition fits (opts : list tcmu_conf_option) (key : list Z) (type : tcmu_option_type) : Prop :=
  forall i o, tcmu_get_option opts key = Some i -> opts !! i = Some o ->
  op_type o = type /\
  match type with
  | TCMU_OPT_INT => True
  | TCMU_OPT_STR => exists t, op_val o = VPtr t
  | TCMU_OPT_BOOL => op_val o = VInt 1
  end.

Definition entry_fits (opts : list tcmu_conf_option) (e : entry) : Prop :=
  match e with
  | EInt key _ => fits opts key TCMU_OPT_INT
  | EStr key _ _ => fits opts key TCMU_OPT_STR
  | EFlag key => fits opts key TCMU_OPT_BOOL
  | EComment _ | EBlank => True
  end.

Fixpoint entries_fit (opts : list tcmu_conf_option) (es : list entry) : Prop :=
  match es with
  | [] => True
  | e :: es => entry_fits opts e /\ entries_fit (apply_entry opts e) es
  end.

(** ** Lines and the parser *)

Lemma get_option_lookup opts key i :
  tcmu_get_option opts key = Some i -> exists o, opts !! i = Some o /\ op_key o = key.
Proof.
  unfold tcmu_get_option. intros H. apply fmap_Some in H as ([j o] & H & ->). apply list_find_Some in H as (H & Hk & _).
  by exists o.
Qed.

Lemma alter_last {A} (f : A -> A) l x : alter f (length l) (l ++ [x]) = l ++ [f x].
Proof. induction l as [|y l IH]; [done|]. cbn. f_equal. exact IH. Qed.

Lemma put_option_new opts key type v w :
  tcmu_get_option opts key = None ->
  alter (fun o => COpt (op_key o) (op_type o) v) (length opts) (opts ++ [COpt key type w]) = put_option opts key type v.
Proof. intros H. unfold put_option. rewrite H. exact (alter_last (fun o => COpt (op_key o) (op_type o) v) opts _). Qed.

Lemma put_option_old opts key type v i :
  tcmu_get_option opts key = Some i ->
  alter (fun o => COpt (op_key o) (op_type o) v) i opts = put_option opts key type v.
Proof. intros H. unfold put_option. by rewrite H. Qed.

Lemma register_ok b opts key type :
  tcmu_register_option (Conf b opts []) key type = (Conf b (opts ++ [COpt key type (VInt 0)]) [], Some (length opts)).
Proof. done. Qed.

Lemma key_char_spec c :
  key_char c = true ->
  0 < c < 256 /\ isblank c = false /\ (c =? 61) = false /\ is_eol c = false.
Proof.
  unfold key_char. rewrite !andb_true_iff, !negb_true_iff, !Z.ltb_lt. tauto.
Qed.

Lemma line_char_spec c : line_char c = true -> 0 < c < 256 /\ is_eol c = false.
Proof.
  unfold line_char. rewrite !andb_true_iff, !negb_true_iff, !Z.ltb_lt. tauto.
Qed.

Lemma all_impl (p q : Z -> bool) l : (forall c, p c = true -> q c = true) -> all p l -> all q l.
Proof. intros H Ha. eapply Forall_impl; [exact Ha|]. exact H. Qed.

Lemma key_nonzero k : all key_char k -> Forall (fun c => c <> 0) k.
Proof. intros H. eapply Forall_impl; [exact H|]. cbn. intros c Hc%key_char_spec. lia. Qed.

Lemma line_nonzero k : all line_char k -> Forall (fun c => c <> 0) k.
Proof. intros H. eapply Forall_impl; [exact H|]. cbn. intros c Hc%line_char_spec. lia. Qed.

(** A word alone on its line. *)
Lemma parse_bool_spec buf opts p key r :
  drop p buf = key ++ 0 :: r -> all key_char key -> fits opts key TCMU_OPT_BOOL ->
  exists b, parse_bool (Conf buf opts []) p (p + length key) = Some (Conf b (put_option opts key TCMU_OPT_BOOL (VInt 1)) []) /\
    drop p b = key ++ 0 :: r.
Proof.
  intros Hd Hk Hf. unfold parse_bool. replace (p + length key - p)%nat with (length key) by lia. cbn [cf_buf].
  rewrite (scan_to_bound _ buf key p (0 :: r)); [|done|].
  2:{ eapply all_impl; [|exact Hk]. intros c Hc%key_char_spec. by destruct Hc as (_ & -> & _). }
  cbn [mbind option_bind].
  destruct (store_conf opts [] buf p key 0 r 0 Hd ltac:(lia)) as (b & -> & Hb). cbn [mbind option_bind cf_buf cf_opts].
  rewrite (cstr_at_spec _ _ _ _ Hb (key_nonzero _ Hk)). cbn [mbind option_bind].
  destruct (tcmu_get_option opts key) as [i|] eqn:E.
  - destruct (get_option_lookup _ _ _ E) as (o & Ho & Hko). destruct (Hf i o E Ho) as [_ Hv]. cbn [cf_opts].
    rewrite Ho. cbn [mbind option_bind]. rewrite Hv. exists b. split; [|done].
    unfold set_value, cf_set_opts. cbn [cf_buf cf_opts cf_alloc]. by rewrite (put_option_old _ _ TCMU_OPT_BOOL _ _ E).
  - rewrite register_ok. cbn [cf_opts]. rewrite lookup_app_r, Nat.sub_diag by lia. cbn [lookup list_lookup mbind option_bind op_val].
    exists b. split; [|done]. unfold set_value, cf_set_opts. cbn [cf_buf cf_opts cf_alloc].
    by rewrite (put_option_new _ _ TCMU_OPT_BOOL _ _ E).
Qed.

(** The digits of a number. *)
Lemma dec_digits n : 0 <= n < 2 ^ 64 -> all is_digit (dec n).
Proof.
  intros Hn. unfold dec. assert (forall f m acc, 0 <= m -> all is_digit acc -> all is_digit (dec_loop f m acc)) as H.
  { induction f as [|f IH]; intros m acc Hm Ha; cbn [dec_loop]; [done|].
    pose proof (Z.mod_pos_bound m 10 ltac:(lia)).
    case_if; [constructor; [|done]; unfold is_digit; apply andb_true_iff; split; apply Z.leb_le; lia|].
    apply IH; [by apply Z.div_pos|]. constructor; [|done]. unfold is_digit. apply andb_true_iff; split; apply Z.leb_le; lia. }
  apply H; [lia|constructor].
Qed.

Lemma dec_nonempty n : dec n <> [].
Proof.
  unfold dec. assert (forall f m acc, acc <> [] -> dec_loop f m acc <> []) as H.
  { induction f as [|f IH]; intros m acc Ha; cbn [dec_loop]; [done|]. case_if; [done|]. by apply IH. }
  assert (forall f m acc, dec_loop (S f) m acc <> []) as H' by (intros; cbn [dec_loop]; case_if; [done|by apply H]).
  apply (H' 19%nat).
Qed.

Lemma digits_val_dec n : 0 <= n < 2 ^ 64 -> digits_val 0 (dec n) = (n, []).
Proof.
  intros Hn. assert (forall f m acc, 0 <= m < 10 ^ Z.of_nat f -> digits_val 0 (dec_loop f m acc) = digits_val m acc) as H.
  { induction f as [|f IH]; intros m acc Hm; cbn [dec_loop].
    - replace m with 0 by (cbn in Hm; lia). done.
    - rewrite Nat2Z.inj_succ, Z.pow_succ_r in Hm by lia. destruct (Z.ltb_spec m 10).
      + cbn [digits_val]. unfold is_digit. rewrite (proj2 (Z.leb_le 48 (48 + m))), (proj2 (Z.leb_le (48 + m) 57)) by lia.
        cbn [andb]. f_equal. lia.
      + pose proof (Z.mod_pos_bound m 10 ltac:(lia)). rewrite IH.
        * cbn [digits_val]. unfold is_digit. rewrite (proj2 (Z.leb_le 48 _)), (proj2 (Z.leb_le _ 57)) by lia.
          cbn [andb]. f_equal. pose proof (Z.div_mod m 10 ltac:(lia)). lia.
        * split; [apply Z.div_pos; lia|]. apply Z.div_lt_upper_bound; lia. }
  unfold dec. rewrite H by lia. done.
Qed.

(** The key of a line with a value. *)
Lemma value_key opts buf p key t :
  key_ok key -> drop p buf = key ++ 32 :: 61 :: t ->
  scan_back blank_or_eq buf (p + length key + 1) = Some (p + length key - 1)%nat /\
  exists b, store (Conf buf opts []) (S (p + length key - 1)) 0 = Some (Conf b opts []) /\ drop p b = key ++ 0 :: 61 :: t.
Proof.
  intros [Hk Hne] Hd. destruct key as [|z k _] using rev_ind; [done|]. clear Hne.
  apply Forall_app in Hk as [_ Hz]. inversion Hz as [|? ? Hz' _]; subst. apply key_char_spec in Hz' as (_ & Hb & He & _).
  rewrite length_app. cbn [length]. split.
  - replace (p + (length k + 1) + 1)%nat with ((p + length k) + length ([32; 61] : list Z)%Z)%nat by (cbn; lia).
    pose proof (scan_back_stop blank_or_eq buf z [32; 61] (p + length k) t) as ->.
    + f_equal. lia.
    + rewrite <- app_assoc in Hd. apply (drop_add buf p k). exact Hd.
    + unfold blank_or_eq. by rewrite Hb, He.
    + repeat constructor.
  - destruct (store_conf opts [] buf p (k ++ [z]) 32 (61 :: t) 0 Hd ltac:(lia)) as (b & E & Hb').
    exists b. split; [|done]. rewrite length_app in E. cbn [length] in E. rewrite <- E. f_equal. lia.
Qed.

(** A digit is neither a quote, nor blank, nor an equals sign. *)
Lemma digit_other c : is_digit c = true -> is_quote c = false /\ blank_or_eq c = false.
Proof.
  unfold is_digit, is_quote, blank_or_eq, isblank. intros H. apply andb_true_iff in H as [H1%Z.leb_le H2%Z.leb_le].
  rewrite !orb_false_iff, !Z.eqb_neq. lia.
Qed.

Lemma quote_other c : is_quote c = true -> isblank c = false /\ blank_or_eq c = false /\ is_digit c = false /\ (c =? 0) = false.
Proof.
  unfold is_quote, blank_or_eq, isblank, is_digit. intros H. apply orb_true_iff in H as [->%Z.eqb_eq| ->%Z.eqb_eq]; done.
Qed.

Definition parse_typed (type : tcmu_option_type) (s : conf) (i x q : nat) : option conf :=
  match type with
  | TCMU_OPT_INT => parse_int s i x
  | TCMU_OPT_STR => parse_str s i x q
  | TCMU_OPT_BOOL => None
  end.

(** The option of a line: found, or registered with the type of its value. *)
Lemma parse_value_option buf opts p key t q type
  (Hk : key_ok key) (Hd : drop p buf = key ++ 32 :: 61 :: t) (Hf : fits opts key type)
  (Ht : forall b, drop p b = key ++ 0 :: 61 :: t -> value_type b (S (p + length key + 1)) = Some (Some type)) :
  exists b opts' i o, drop p b = key ++ 0 :: 61 :: t /\ opts' !! i = Some o /\
    (op_val o = VInt 0 \/ fits opts key type /\ opts !! i = Some o /\ tcmu_get_option opts key = Some i) /\
    parse_value (Conf buf opts []) p (p + length key + 1) q =
      parse_typed type (Conf b opts' []) i (S (p + length key + 1)) q /\
    forall v, alter (fun o => COpt (op_key o) (op_type o) v) i opts' = put_option opts key type v.
Proof.
  destruct (value_key opts buf p key t Hk Hd) as [Es (b & Eb & Hb)]. unfold parse_value. cbn [cf_buf].
  rewrite Es. cbn [mbind option_bind]. rewrite Eb. cbn [mbind option_bind cf_buf cf_opts].
  rewrite (cstr_at_spec _ _ _ _ Hb (key_nonzero _ (proj1 Hk))). cbn [mbind option_bind].
  destruct (tcmu_get_option opts key) as [i|] eqn:E.
  - destruct (get_option_lookup _ _ _ E) as (o & Ho & Hko). destruct (Hf i o E Ho) as [Hty _].
    exists b, opts, i, o. split; [done|]. split; [done|]. split; [by right|].
    split; [|intros v; by apply put_option_old].
    cbn [mbind option_bind cf_opts]. rewrite Ho. cbn [mbind option_bind]. rewrite Hty. by destruct type.
  - rewrite (Ht b Hb). cbn [mbind option_bind]. rewrite register_ok.
    assert ((opts ++ [COpt key type (VInt 0)]) !! length opts = Some (COpt key type (VInt 0))) as Ho
      by (rewrite lookup_app_r, Nat.sub_diag by lia; done).
    exists b, (opts ++ [COpt key type (VInt 0)]), (length opts), (COpt key type (VInt 0)). split; [done|].
    split; [done|]. split; [by left|]. split; [|intros v; by apply put_option_new].
    cbn [mbind option_bind cf_opts]. rewrite Ho. cbn [mbind option_bind op_type]. by destruct type.
Qed.

Lemma drop_value p b key x t : drop p b = key ++ 0 :: x :: t -> drop (S (p + length key + 1)) b = t.
Proof.
  intros H. replace (S (p + length key + 1)) with (p + length ((key ++ [0; x])%Z))%nat by (rewrite length_app; cbn; lia).
  apply (drop_add b p (key ++ [0; x])). by rewrite <- app_assoc.
Qed.

(** A line with a number. *)
Lemma parse_int_line buf opts p key n q r :
  key_ok key -> 0 <= n <= INT_MAX -> fits opts key TCMU_OPT_INT ->
  drop p buf = key ++ 32 :: 61 :: 32 :: dec n ++ 0 :: r ->
  exists b, parse_value (Conf buf opts []) p (p + length key + 1) q =
      Some (Conf b (put_option opts key TCMU_OPT_INT (VInt n)) []) /\
    drop p b = key ++ 0 :: 61 :: 32 :: dec n ++ 0 :: r.
Proof.
  intros Hk Hn Hf Hd. unfold INT_MAX in Hn. pose proof (dec_digits n ltac:(lia)) as Hdig.
  destruct (dec n) as [|d ds] eqn:Ed; [by destruct (dec_nonempty n)|]. inversion Hdig as [|? ? Hd0 Hds]; subst.
  destruct (digit_other d Hd0) as [Hq Hbe].
  set (t := 32 :: (d :: ds) ++ 0 :: r) in *.
  assert (forall b, drop p b = key ++ 0 :: 61 :: t -> drop (S (p + length key + 1)) b = t) as Hx
    by (intros b; apply drop_value).
  destruct (parse_value_option buf opts p key t q TCMU_OPT_INT Hk Hd Hf) as (b & opts' & i & o & Hb & _ & _ & E & Hput).
  { intros b Hb. specialize (Hx b Hb). unfold value_type.
    rewrite (scan_stop blank_or_eq b [32] _ d (ds ++ 0 :: r) Hx) by first [done|by repeat constructor].
    cbn [mbind option_bind]. pose proof (drop_next _ _ _ _ Hx) as Hx1. cbn [length]. rewrite Nat.add_1_r.
    rewrite (bget1_drop _ _ _ _ Hx1). cbn [mbind option_bind]. by rewrite Hq, Hd0. }
  specialize (Hx b Hb). rewrite E. unfold parse_typed, parse_int. cbn [cf_buf].
  rewrite (scan_stop _ b [32] _ d (ds ++ 0 :: r) Hx) by first [by repeat constructor|by rewrite Hd0].
  cbn [mbind option_bind length]. rewrite Nat.add_1_r. pose proof (drop_next _ _ _ _ Hx) as Hx1.
  rewrite (scan_stop is_digit b (d :: ds) _ 0 r Hx1) by done. cbn [mbind option_bind].
  (* the store of the NUL, seen from the start of the line *)
  set (a := key ++ 0 :: 61 :: 32 :: d :: ds).
  assert (drop p b = a ++ 0 :: r) as Ha by (rewrite Hb; unfold a, t; rewrite <- app_assoc; done).
  destruct (store_conf opts' [] b p a 0 r 0 Ha ltac:(lia)) as (b2 & E2 & Hb2).
  replace (S (S (p + length key + 1)) + length (d :: ds))%nat with (p + length a)%nat
    by (unfold a; rewrite length_app; cbn; lia).
  rewrite E2. cbn [mbind option_bind cf_buf]. unfold atoi_at.
  assert (drop (S (S (p + length key + 1))) b2 = (d :: ds) ++ 0 :: r) as Hx2.
  { apply (drop_next _ _ _ 32). apply (drop_value p b2 key 61). rewrite Hb2. unfold a. by rewrite <- app_assoc. }
  rewrite (cstr_at_spec _ _ _ _ Hx2); [|].
  2:{ eapply Forall_impl; [exact Hdig|]. cbn. intros c Hc. destruct (digit_other c Hc). intros ->. done. }
  cbn [mbind option_bind]. rewrite <- Ed, digits_val_dec by lia. cbn [fst]. unfold INT_MAX.
  rewrite (proj2 (Z.ltb_ge _ _)) by lia. cbn [mbind option_bind].
  exists b2. split; [unfold set_value, cf_set_opts; cbn [cf_buf cf_opts cf_alloc]; by rewrite Hput|].
  rewrite Hb2. unfold a, t. by rewrite <- app_assoc.
Qed.

(** A line with a text. *)
Lemma parse_str_line buf opts p key quote text r :
  key_ok key -> is_quote quote = true -> all line_char text -> fits opts key TCMU_OPT_STR ->
  let l := key ++ 32 :: 61 :: 32 :: quote :: text ++ [quote] in
  drop p buf = l ++ 0 :: r ->
  exists b, parse_value (Conf buf opts []) p (p + length key + 1) (p + length l) =
      Some (Conf b (put_option opts key TCMU_OPT_STR (VPtr text)) []) /\
    drop (p + length l) b = 0 :: r.
Proof.
  intros Hk Hq Ht Hf l Hd. destruct (quote_other quote Hq) as (Hqb & Hqe & Hqd & Hq0).
  set (t := 32 :: quote :: text ++ quote :: 0 :: r).
  assert (l ++ 0 :: r = key ++ 32 :: 61 :: t) as El by (unfold l, t; rewrite <- !app_assoc; cbn; by rewrite <- app_assoc).
  rewrite El in Hd.
  assert (forall b, drop p b = key ++ 0 :: 61 :: t -> drop (S (p + length key + 1)) b = t) as Hx
    by (intros b; apply drop_value).
  destruct (parse_value_option buf opts p key t (p + length l) TCMU_OPT_STR Hk Hd Hf) as
    (b & opts' & i & o & Hb & Ho & Hv & E & Hput).
  { intros b Hb. specialize (Hx b Hb). unfold value_type.
    rewrite (scan_stop blank_or_eq b [32] _ quote _ Hx) by first [done|by repeat constructor].
    cbn [mbind option_bind]. pose proof (drop_next _ _ _ _ Hx) as Hx1. cbn [length]. rewrite Nat.add_1_r.
    rewrite (bget1_drop _ _ _ _ Hx1). cbn [mbind option_bind]. by rewrite Hq. }
  specialize (Hx b Hb). rewrite E. unfold parse_typed, parse_str. cbn [cf_buf]. set (x := S (p + length key + 1)) in *.
  pose proof (drop_next _ _ _ _ Hx) as Hx1.
  rewrite (scan_stop isblank b [] _ quote _ Hx1) by first [done|constructor]. cbn [mbind option_bind length]. rewrite Nat.add_0_r.
  rewrite (bget1_drop _ _ _ _ Hx1). cbn [mbind option_bind]. rewrite Hq.
  assert (length l = length key + 5 + length text)%nat as Ll.
  { unfold l. rewrite length_app. cbn [length]. rewrite length_app. cbn. lia. }
  replace (p + length l)%nat with (S (S (S x) + length text)) by (unfold x; lia).
  pose proof (drop_next _ _ _ _ Hx1) as Hx2. pose proof (drop_add _ _ _ _ Hx2) as Hx3.
  pose proof (scan_back_stop isblank b quote [] _ (0 :: r) Hx3 Hqb ltac:(constructor)) as Eb.
  cbn [length] in Eb. rewrite Nat.add_0_r in Eb. rewrite Eb. cbn [mbind option_bind].
  rewrite (bget1_drop _ _ _ _ Hx3). cbn [mbind option_bind]. rewrite Hq.
  destruct (store_conf opts' [] b _ text quote (0 :: r) 0 Hx2 ltac:(lia)) as (b2 & E2 & Hb2).
  rewrite E2. cbn [mbind option_bind cf_opts]. rewrite Ho. cbn [mbind option_bind].
  pose proof (cstr_at_spec _ _ _ _ Hb2 (line_nonzero _ Ht)) as Ec.
  assert (drop (S (S (S x) + length text)) b2 = 0 :: r) as Hend.
  { apply (drop_next _ _ _ 0). by apply (drop_add b2 _ text). }
  assert (exists b3, Some (set_value (Conf b2 opts' []) i (VPtr text)) =
    Some (Conf b3 (put_option opts key TCMU_OPT_STR (VPtr text)) []) /\ drop (S (S (S x) + length text)) b3 = 0 :: r) as Hfin.
  { exists b2. split; [|exact Hend]. unfold set_value, cf_set_opts. cbn [cf_buf cf_opts cf_alloc]. by rewrite Hput. }
  destruct Hv as [->|(_ & Ho2 & Eo)].
  - change (0 =? 0) with true. cbv iota. cbn [cf_buf]. rewrite Ec. exact Hfin.
  - destruct (Hf i o Eo Ho2) as [_ [v ->]]. cbn [cf_buf]. rewrite Ec. exact Hfin.
Qed.

(** ** A line of options *)

Definition is_option (e : entry) : bool := match e with EInt _ _ | EStr _ _ _ | EFlag _ => true | _ => false end.

Lemma alpha_other c : isalpha c = true -> isblank c = false /\ is_eol c = false /\ (c =? 35) = false.
Proof.
  unfold isalpha, isblank, is_eol. rewrite orb_true_iff, !andb_true_iff, !Z.leb_le, !orb_false_iff, !Z.eqb_neq. lia.
Qed.

(** A line of an option starts with a letter. *)
Lemma option_head e : is_option e = true -> entry_ok e -> exists c t, line e = c :: t /\ isalpha c = true.
Proof.
  assert (forall k, key_ok k -> exists c t, k = c :: t /\ isalpha c = true) as H.
  { intros [|c t] [_ Hk]; [done|]. by exists c, t. }
  destruct e as [key n|key q text|key| |]; cbn; try done.
  - intros _ [Hk _]. destruct (H _ Hk) as (c & t & -> & Hc). by eexists _, _.
  - intros _ [Hk _]. destruct (H _ Hk) as (c & t & -> & Hc). by eexists _, _.
  - intros _ Hk. destruct (H _ Hk) as (c & t & -> & Hc). by eexists _, _.
Qed.

Lemma key_no_eol k : all key_char k -> all (fun c => negb (is_eol c)) k.
Proof. apply all_impl. intros c Hc%key_char_spec. destruct Hc as (_ & _ & _ & ->). done. Qed.

Lemma line_no_eol k : all line_char k -> all (fun c => negb (is_eol c)) k.
Proof. apply all_impl. intros c Hc%line_char_spec. destruct Hc as (_ & ->). done. Qed.

Lemma digit_no_eol c : is_digit c = true -> negb (is_eol c) = true.
Proof.
  unfold is_digit, is_eol. rewrite andb_true_iff, !Z.leb_le. intros H. rewrite (proj2 (Z.eqb_neq c 10)), (proj2 (Z.eqb_neq c 13)) by lia.
  done.
Qed.

Lemma quote_no_eol c : is_quote c = true -> negb (is_eol c) = true.
Proof. unfold is_quote. rewrite orb_true_iff, !Z.eqb_eq. by intros [-> | ->]. Qed.

Lemma entry_no_eol e : entry_ok e -> all (fun c => negb (is_eol c)) (line e).
Proof.
  destruct e as [key n|key q text|key|text|]; cbn.
  - intros [[Hk _] Hn]. apply Forall_app. split; [by apply key_no_eol|]. do 3 (constructor; [done|]).
    unfold INT_MAX in Hn. eapply all_impl; [apply digit_no_eol|]. apply dec_digits. lia.
  - intros ([Hk _] & Hq & Ht). apply Forall_app. split; [by apply key_no_eol|]. do 3 (constructor; [done|]).
    constructor; [by apply quote_no_eol|]. apply Forall_app. split; [by apply line_no_eol|].
    repeat constructor. by apply quote_no_eol.
  - intros [Hk _]. by apply key_no_eol.
  - intros H. constructor; [done|]. by apply line_no_eol.
  - constructor.
Qed.

Definition not_eq_nul (d : Z) : bool := negb (d =? 61) && negb (d =? 0).

Lemma key_not_eq k : all key_char k -> all not_eq_nul k.
Proof.
  apply all_impl. intros c Hc%key_char_spec. destruct Hc as (H & _ & H1 & _). unfold not_eq_nul. rewrite H1.
  by rewrite (proj2 (Z.eqb_neq c 0)) by lia.
Qed.

(** The first equals sign of a line with a value. *)
Lemma strchr_value b p key t :
  all key_char key -> drop p b = key ++ 32 :: 61 :: t -> strchr_at 61 b p = Some (Some (p + length key + 1)%nat).
Proof.
  intros Hk Hd. unfold strchr_at.
  rewrite (scan_stop _ b (key ++ [32]) p 61 t); [| |apply Forall_app; split; [by apply key_not_eq|by repeat constructor]|done].
  2:{ by rewrite <- app_assoc. }
  cbn [mbind option_bind]. rewrite length_app. cbn [length].
  replace (p + (length key + 1))%nat with (p + length (key ++ [32%Z]))%nat by (rewrite length_app; done).
  assert (drop (p + length (key ++ [32]%Z)) b = 61 :: t) as H.
  { apply (drop_add b p (key ++ [32])). by rewrite <- app_assoc. }
  rewrite (bget1_drop _ _ _ _ H). cbn. rewrite length_app. cbn. f_equal. f_equal. lia.
Qed.

Lemma strchr_flag b p key t :
  all key_char key -> drop p b = key ++ 0 :: t -> strchr_at 61 b p = Some None.
Proof.
  intros Hk Hd. unfold strchr_at. rewrite (scan_stop _ b key p 0 t Hd); [|by apply key_not_eq|done].
  cbn [mbind option_bind]. rewrite (bget1_drop _ _ _ _ (drop_add _ _ _ _ Hd)). done.
Qed.

Lemma parse_option_line e buf opts cur end_ r :
  is_option e = true -> entry_ok e -> entry_fits opts e ->
  drop cur buf = line e ++ 10 :: r -> (cur + length (line e) < end_)%nat ->
  exists b, tcmu_parse_option (Conf buf opts []) cur end_ =
      Some (Conf b (apply_entry opts e) [], S (cur + length (line e))) /\
    drop (S (cur + length (line e))) b = r.
Proof.
  intros Ho Hok Hf Hd Hlt. destruct (option_head e Ho Hok) as (c & t & El & Hc).
  destruct (alpha_other c Hc) as (Hcb & _ & _). unfold tcmu_parse_option. cbn [cf_buf].
  rewrite (scan_stop isblank buf [] cur c (t ++ 10 :: r)); [|by rewrite Hd, El|constructor|done].
  cbn [mbind option_bind length]. rewrite Nat.add_0_r. unfold to_line_end.
  rewrite (scan_to_stop _ _ buf (line e) cur 10 r Hd (entry_no_eol _ Hok) eq_refl) by lia.
  cbn [mbind option_bind].
  destruct (store_conf opts [] buf cur (line e) 10 r 0 Hd ltac:(lia)) as (b & -> & Hb). cbn [mbind option_bind cf_buf].
  destruct e as [key n|key q text|key| |]; try done; cbn [line entry_ok entry_fits apply_entry app] in *.
  - destruct Hok as [Hk Hn]. rewrite (strchr_value b cur key (32 :: dec n ++ 0 :: r)).
    + cbn [mbind option_bind]. destruct (parse_int_line b opts cur key n (cur + length (key ++ 32 :: 61 :: 32 :: dec n)) r
        Hk Hn Hf) as (b2 & -> & Hb2); [by rewrite Hb, <- app_assoc|].
      cbn [mbind option_bind]. exists b2. split; [done|]. apply (drop_next _ _ _ 0).
      replace (length (key ++ 32 :: 61 :: 32 :: dec n)) with (length (key ++ 0 :: 61 :: 32 :: dec n))
        by (by rewrite !length_app).
      apply drop_add. by rewrite Hb2, <- app_assoc.
    + by destruct Hk.
    + by rewrite Hb, <- app_assoc.
  - destruct Hok as (Hk & Hq & Ht). rewrite (strchr_value b cur key (32 :: q :: (text ++ [q]) ++ 0 :: r)).
    + cbn [mbind option_bind]. destruct (parse_str_line b opts cur key q text r Hk Hq Ht Hf Hb) as (b2 & E & Hb2).
      cbn [app] in *. rewrite E. cbn [mbind option_bind]. exists b2. split; [done|]. by apply (drop_next _ _ _ 0).
    + by destruct Hk.
    + rewrite Hb, <- app_assoc. done.
  - rewrite (strchr_flag b cur key r); [|by destruct Hok|done]. cbn [mbind option_bind].
    destruct (parse_bool_spec b opts cur key r Hb (proj1 Hok) Hf) as (b2 & -> & Hb2). cbn [mbind option_bind].
    exists b2. split; [done|]. apply (drop_next _ _ _ 0). by apply drop_add.
Qed.

(** ** Files *)

Lemma print_cons e es : print (e :: es) = line e ++ 10 :: print es.
Proof. unfold print. cbn [map concat]. by rewrite <- app_assoc. Qed.

(** The lines [es] are what is left of the text that ends at [end_]. *)
Definition pos (end_ : nat) (es : list entry) : nat := end_ - length (print es).

Record at_text (buf : list Z) (end_ : nat) (es : list entry) : Prop := {
  ax_text : exists j, drop (pos end_ es) buf = print es ++ 0 :: j;
  ax_fits : (length (print es) <= end_)%nat
}.

Lemma length_print_cons e es : length (print (e :: es)) = (length (line e) + S (length (print es)))%nat.
Proof. rewrite print_cons, length_app. done. Qed.

Lemma pos_cons end_ e es :
  (length (print (e :: es)) <= end_)%nat -> pos end_ es = S (pos end_ (e :: es) + length (line e)).
Proof. unfold pos. rewrite length_print_cons. lia. Qed.

Lemma at_text_tail buf end_ e es : at_text buf end_ (e :: es) -> at_text buf end_ es.
Proof.
  intros [[j Hd] Hf]. split; [|rewrite length_print_cons in Hf; lia]. exists j.
  rewrite (pos_cons _ _ _ Hf). apply (drop_next _ _ _ 10). rewrite print_cons, <- app_assoc in Hd.
  exact (drop_add _ _ _ _ Hd).
Qed.

Fixpoint drop_blank (es : list entry) : list entry := match es with EBlank :: es => drop_blank es | _ => es end.
Fixpoint drop_comment (es : list entry) : list entry := match es with EComment _ :: es => drop_comment es | _ => es end.

(** The first character of a line that is not empty. *)
Lemma entry_first buf end_ e es :
  entry_ok e -> at_text buf end_ (e :: es) ->
  exists c r, drop (pos end_ (e :: es)) buf = c :: r /\
    match e with
    | EBlank => c = 10
    | EComment _ => c = 35
    | _ => isalpha c = true
    end.
Proof.
  intros Hok [[j Hd] _]. rewrite print_cons, <- app_assoc in Hd.
  assert (is_option e = true -> exists c r, drop (pos end_ (e :: es)) buf = c :: r /\ isalpha c = true) as H.
  { intros Ho. destruct (option_head e Ho Hok) as (c & t & E & Hc). rewrite E in Hd. eexists _, _. by split. }
  destruct e; try exact (H eq_refl); (eexists _, _; split; [exact Hd|done]).
Qed.

Lemma skip_blank_spec buf end_ es :
  Forall entry_ok es -> at_text buf end_ es ->
  skip_blank_lines buf (pos end_ es) end_ = Some (pos end_ (drop_blank es)) /\ at_text buf end_ (drop_blank es).
Proof.
  intros Hok. induction Hok as [|e es He Hes IH]; intros T.
  - split; [|exact T]. unfold skip_blank_lines, pos. cbn. by rewrite Nat.sub_0_r, Nat.sub_diag.
  - pose proof T as [_ Hf]. destruct (entry_first buf end_ e es He T) as (c & r & Hd & Hc).
    unfold skip_blank_lines. replace (end_ - pos end_ (e :: es))%nat with (length (print (e :: es))) by (unfold pos; lia).
    rewrite length_print_cons, Nat.add_succ_r. cbn [scan_to]. rewrite (bget1_drop _ _ _ _ Hd). cbn [mbind option_bind].
    assert (is_option e = true \/ (exists t, e = EComment t) ->
      isblank c || is_eol c = false) as Hnb.
    { intros [Ho|[t ->]]; [|by subst].
      assert (isalpha c = true) as Ha by (by destruct e). destruct (alpha_other c Ha) as (-> & -> & _). done. }
    destruct e; cbn [drop_blank]; try (rewrite Hnb by (by left); by split).
    + rewrite Hnb by (right; by eexists). by split.
    + subst c. cbn [isblank is_eol orb Z.eqb Pos.eqb line length Nat.add].
      destruct (IH (at_text_tail _ _ _ _ T)) as [E T']. split; [|exact T'].
      rewrite <- E. unfold skip_blank_lines. rewrite (pos_cons _ _ _ Hf). cbn [line length]. rewrite Nat.add_0_r.
      f_equal. unfold pos. rewrite length_print_cons in *. cbn [line length] in *. lia.
Qed.

Lemma skip_comment_spec buf end_ es : forall fuel,
  Forall entry_ok es -> at_text buf end_ es -> (length (print es) <= fuel)%nat ->
  skip_comment_lines fuel buf (pos end_ es) end_ = Some (pos end_ (drop_comment es)) /\ at_text buf end_ (drop_comment es).
Proof.
  induction es as [|e es IH]; intros fuel Hok T Hfu.
  - split; [|exact T]. unfold pos. cbn. rewrite Nat.sub_0_r. destruct fuel; cbn [skip_comment_lines]; by rewrite Nat.ltb_irrefl.
  - inversion Hok as [|? ? He Hes]; subst. pose proof T as [[j Ht] Hf].
    destruct (entry_first buf end_ e es He T) as (c & r & Hd & Hc).
    assert (pos end_ (e :: es) <? end_ = true)%nat as Hlt
      by (apply Nat.ltb_lt; unfold pos; rewrite length_print_cons in *; lia).
    assert ((exists t, e = EComment t) \/ drop_comment (e :: es) = e :: es /\ (c =? 35) = false) as [[t ->]|[E Hne]].
    { destruct e; try (right; split; [done|]; by destruct (alpha_other c Hc) as (_ & _ & ?)); [left; by eexists|].
      right. by subst. }
    + subst c. rewrite length_print_cons in Hfu. destruct fuel as [|fuel]; [lia|]. cbn [skip_comment_lines].
      rewrite Hlt, (bget1_drop _ _ _ _ Hd). cbn [mbind option_bind]. change (35 =? 35) with true. cbv iota.
      unfold to_line_end. rewrite print_cons, <- app_assoc in Ht.
      rewrite (scan_to_stop _ _ buf _ _ 10 _ Ht (entry_no_eol _ He) eq_refl).
      2:{ unfold pos. rewrite length_print_cons in *. lia. }
      cbn [mbind option_bind]. rewrite <- (pos_cons _ _ _ Hf). cbn [drop_comment].
      apply IH; [done|by eapply at_text_tail|]. lia.
    + rewrite E. split; [|exact T]. destruct fuel; cbn [skip_comment_lines]; rewrite Hlt, (bget1_drop _ _ _ _ Hd);
        cbn [mbind option_bind]; by rewrite Hne.
Qed.

(** Lines that are skipped change nothing. *)
Lemma drop_blank_same es opts :
  fold_left apply_entry (drop_blank es) opts = fold_left apply_entry es opts /\
  (entries_fit opts es -> entries_fit opts (drop_blank es)) /\ (Forall entry_ok es -> Forall entry_ok (drop_blank es)) /\
  (length (drop_blank es) <= length es)%nat /\ (length (print (drop_blank es)) <= length (print es))%nat.
Proof.
  induction es as [|e es (IH1 & IH2 & IH3 & IH4 & IH5)]; [done|]. destruct e; cbn [drop_blank]; try done.
  split; [done|]. split; [intros [_ H]; by apply IH2|]. split; [intros H; inversion H; by apply IH3|].
  rewrite length_print_cons. cbn [length]. lia.
Qed.

Lemma drop_comment_same es opts :
  fold_left apply_entry (drop_comment es) opts = fold_left apply_entry es opts /\
  (entries_fit opts es -> entries_fit opts (drop_comment es)) /\
  (Forall entry_ok es -> Forall entry_ok (drop_comment es)) /\
  (length (drop_comment es) <= length es)%nat /\ (length (print (drop_comment es)) <= length (print es))%nat.
Proof.
  induction es as [|e es (IH1 & IH2 & IH3 & IH4 & IH5)]; [done|]. destruct e; cbn [drop_comment]; try done.
  split; [done|]. split; [intros [_ H]; by apply IH2|]. split; [intros H; inversion H; by apply IH3|].
  rewrite length_print_cons. cbn [length]. lia.
Qed.

(** What a round skips: something, unless the line is an option. *)
Lemma skipped es :
  let es2 := drop_comment (drop_blank es) in
  match es2 with [] => True | e :: _ => (is_option e = true \/ e = EBlank) end /\
  match es with
  | [] => True
  | e :: _ => is_option e = true /\ es2 = es \/ (length es2 < length es)%nat /\ (length (print es2) < length (print es))%nat
  end.
Proof.
  cbv zeta. split.
  { assert (forall l, match drop_comment l with [] => True | e :: _ => is_option e = true \/ e = EBlank end) as H.
    { induction l as [|e l IH]; [done|]. destruct e; cbn; auto. }
    apply H. }
  destruct es as [|e es]; [done|].
  destruct (drop_blank_same es []) as (_ & _ & _ & L1 & P1).
  destruct (drop_comment_same (drop_blank es) []) as (_ & _ & _ & L2 & P2).
  destruct (drop_comment_same es []) as (_ & _ & _ & L3 & P3).
  destruct e; cbn [drop_blank drop_comment]; try (by left); right; rewrite length_print_cons; cbn [length]; lia.
Qed.

(** A whole file. *)
Lemma parse_loop_spec end_ n : forall es fuel buf opts,
  (length es <= n)%nat -> (length (print es) <= fuel)%nat -> Forall entry_ok es -> entries_fit opts es ->
  at_text buf end_ es ->
  exists b, parse_loop fuel (Conf buf opts []) (pos end_ es) end_ = Some (Conf b (fold_left apply_entry es opts) []).
Proof.
  induction n as [|n IH]; intros es fuel buf opts Hn Hfu Hok Hfit T;
    (destruct es as [|e0 es0];
     [exists buf; unfold pos; cbn; rewrite Nat.sub_0_r; destruct fuel; cbn [parse_loop]; by rewrite Nat.ltb_irrefl|]);
    [cbn in Hn; lia|].
  pose proof (skipped (e0 :: es0)) as [Hhead Hless]. set (es := e0 :: es0) in *.
  pose proof T as [_ Hf].
  assert (0 < length (print es))%nat as Hpos by (unfold es; rewrite length_print_cons; lia).
  destruct fuel as [|fuel]; [lia|]. cbn [parse_loop]. rewrite (proj2 (Nat.ltb_lt _ _)) by (unfold pos; lia). cbn [cf_buf].
  destruct (skip_blank_spec _ _ _ Hok T) as [-> T1]. cbn [mbind option_bind].
  destruct (drop_blank_same es opts) as (F1 & Fit1 & Ok1 & _ & P1).
  destruct (skip_comment_spec buf end_ _ (end_ - pos end_ (drop_blank es)) (Ok1 Hok) T1) as [-> T2].
  { destruct T1 as [_ Hf1]. unfold pos. lia. }
  cbn [mbind option_bind].
  destruct (drop_comment_same (drop_blank es) opts) as (F2 & Fit2 & Ok2 & _ & P2).
  rewrite <- F1, <- F2. pose proof (Fit2 (Fit1 Hfit)) as Hfit2. pose proof (Ok2 (Ok1 Hok)) as Hok2.
  destruct (drop_comment (drop_blank es)) as [|e es2] eqn:Ees.
  { exists buf. unfold pos. cbn [print map concat length]. rewrite Nat.sub_0_r, Nat.leb_refl. done. }
  pose proof T2 as [[j Ht2] Hf2]. rewrite (proj2 (Nat.leb_gt _ _)) by (unfold pos; rewrite length_print_cons in *; lia).
  inversion Hok2 as [|? ? He Hes2]; subst.
  destruct (entry_first buf end_ e es2 He T2) as (c & r & Hd & Hc). rewrite (bget1_drop _ _ _ _ Hd). cbn [mbind option_bind].
  destruct Hhead as [Ho| ->].
  - assert (isalpha c = true) as -> by (by destruct e). cbn [negb]. destruct Hfit2 as [Hfe Hfes].
    rewrite print_cons, <- app_assoc in Ht2.
    destruct (parse_option_line e buf opts (pos end_ (e :: es2)) end_ _ Ho He Hfe Ht2) as (b & -> & Hb).
    { unfold pos. rewrite length_print_cons in *. lia. }
    cbn [mbind option_bind]. rewrite <- (pos_cons _ _ _ Hf2) in *. cbn [fold_left].
    rewrite length_print_cons in *.
    apply IH; [|lia|done|done|].
    + destruct Hless as [[_ E]|[Hl _]]; [unfold es in *; simplify_eq; cbn [length] in Hn; lia|unfold es in *; cbn [length] in Hl, Hn; lia].
    + split; [by exists j|lia].
  - subst c. change (negb (isalpha 10)) with true. cbv iota.
    destruct Hless as [[Ho E]|[Hl Hp]]; [unfold es in E; simplify_eq; done|].
    apply IH; [unfold es in *; cbn [length] in Hl, Hn |- *; lia|lia|done|done|done].
Qed.

(** ** Theorems *)

Definition entry_option (e : entry) : option tcmu_conf_option :=
  match e with
  | EInt key n => Some (COpt key TCMU_OPT_INT (VInt n))
  | EStr key _ text => Some (COpt key TCMU_OPT_STR (VPtr text))
  | EFlag key => Some (COpt key TCMU_OPT_BOOL (VInt 1))
  | EComment _ | EBlank => None
  end.

Definition entry_options (es : list entry) : list tcmu_conf_option := omap entry_option es.

Lemma get_option_none opts key : ~ In key (map op_key opts) -> tcmu_get_option opts key = None.
Proof.
  intros H. unfold tcmu_get_option. assert (list_find (fun o => op_key o = key) opts = None) as ->; [|done].
  apply list_find_None, Forall_forall. intros o Ho E. apply H, in_map_iff. exists o. split; [done|].
  by apply list_elem_of_In.
Qed.

Lemma put_option_fresh opts key type v :
  ~ In key (map op_key opts) -> put_option opts key type v = opts ++ [COpt key type v].
Proof. intros H. unfold put_option. by rewrite get_option_none. Qed.

Lemma fits_fresh opts key type : ~ In key (map op_key opts) -> fits opts key type.
Proof. intros H i o E. by rewrite get_option_none in E. Qed.

(** New options with different keys. *)
Lemma apply_distinct es : forall opts,
  NoDup (map op_key (opts ++ entry_options es)) ->
  fold_left apply_entry es opts = opts ++ entry_options es /\ entries_fit opts es.
Proof.
  induction es as [|e es IH]; intros opts Hnd; [by rewrite app_nil_r|]. cbn [fold_left entries_fit].
  destruct (entry_option e) as [o|] eqn:Eo.
  - assert (entry_options (e :: es) = o :: entry_options es) as E by (unfold entry_options; cbn; by rewrite Eo).
    rewrite E in *. replace (opts ++ o :: entry_options es) with ((opts ++ [o]) ++ entry_options es) in *
      by (by rewrite <- app_assoc).
    assert (~ In (op_key o) (map op_key opts)) as Hfr.
    { rewrite !map_app, <- app_assoc in Hnd. intros Hin. apply NoDup_app in Hnd as (_ & H & _).
      apply (H (op_key o)); [by apply list_elem_of_In|]. cbn. by left. }
    assert (apply_entry opts e = opts ++ [o] /\ entry_fits opts e) as [-> Hfe].
    { destruct e; cbn in Eo; simplify_eq; cbn [apply_entry entry_fits]; (split; [by apply put_option_fresh|by apply fits_fresh]). }
    destruct (IH (opts ++ [o]) Hnd) as [-> Hes]. by split.
  - assert (entry_options (e :: es) = entry_options es) as E by (unfold entry_options; cbn; by rewrite Eo).
    rewrite E in *. destruct (IH opts Hnd) as [H1 H2]. destruct e; cbn in Eo; try done; by split.
Qed.

Lemma at_text_start es j : at_text (print es ++ 0 :: j) (length (print es)) es.
Proof. split; [|done]. exists j. unfold pos. by rewrite Nat.sub_diag. Qed.

(** C27: A configuration file that consists of lines as the comment in the source
    describes them (numbers, quoted texts with any characters, flags, comments,
    empty lines; different keys) is parsed back: the parser ends within one round
    per character, stays inside its buffer, and registers exactly the options of
    the file, in order, with their values. *)
Theorem config_file_roundtrip (es : list entry) (junk : list Z)
  (Hok : Forall entry_ok es) (Hnd : NoDup (map op_key (entry_options es))) :
  exists b, parse_loop (length (print es)) (Conf (print es ++ 0 :: junk) [] []) 0 (length (print es)) =
    Some (Conf b (entry_options es) []).
Proof.
  destruct (apply_distinct es [] Hnd) as [E Hfit]. cbn [app] in E.
  destruct (parse_loop_spec (length (print es)) (length es) es (length (print es)) (print es ++ 0 :: junk) []
    (Nat.le_refl _) (Nat.le_refl _) Hok Hfit (at_text_start es junk)) as [b H].
  exists b. unfold pos in H. by rewrite Nat.sub_diag, E in H.
Qed.

Definition demo_file : list entry :=
  [EComment (str " tcmu.conf"); EBlank; EInt log_level_key 4; EBlank; EStr log_dir_key 39 (str "/var/a = b"); EFlag (str "daemon")].

Lemma demo_file_ok : Forall entry_ok demo_file.
Proof. repeat constructor; cbn; unfold INT_MAX; lia. Qed.

Lemma config_file_roundtrip_witness :
  exists b, parse_loop (length (print demo_file)) (Conf (print demo_file ++ 0 :: zeros 8) [] []) 0 (length (print demo_file)) =
    Some (Conf b [COpt log_level_key TCMU_OPT_INT (VInt 4); COpt log_dir_key TCMU_OPT_STR (VPtr (str "/var/a = b"));
                  COpt (str "daemon") TCMU_OPT_BOOL (VInt 1)] []).
Proof.
  apply (config_file_roundtrip demo_file (zeros 8) demo_file_ok).
  apply (bool_decide_unpack _). by vm_compute.
Defined.

(** Characters that neither are skipped nor start an option. *)
Definition stray (c : Z) : Prop := isblank c = false /\ is_eol c = false /\ (c =? 35) = false /\ isalpha c = false.

Lemma scan_to_here n p buf x c : bget1 buf x = Some c -> p c = false -> scan_to n p buf x = Some x.
Proof. intros H Hp. destruct n; cbn [scan_to]; [done|]. rewrite H. cbn. by rewrite Hp. Qed.

(** Wherever the parser comes to a line that starts with a character that is
    not a letter, a blank or a hash, it never ends: with such a line at its
    start a configuration file is never loaded. *)
Theorem config_stray_line_hangs (c : Z) (Hc : stray c) :
  (forall fuel s cur end_, (cur < end_)%nat -> bget1 (cf_buf s) cur = Some c -> parse_loop fuel s cur end_ = None) /\
  (forall (F : Type) (HF : Dirs F) (e : load_env) opts cfg (w : log_world F) reloading text,
     ld_malloc e = true -> ld_open e = true -> ld_reads e = [(Some (c :: text), false)] ->
     tcmu_load_config e opts cfg w reloading = None).
Proof.
  destruct Hc as (H1 & H2 & H3 & H4).
  assert (forall fuel s cur end_, (cur < end_)%nat -> bget1 (cf_buf s) cur = Some c -> parse_loop fuel s cur end_ = None) as Hp.
  { induction fuel as [|fuel IH]; intros s cur end_ Hlt Hb; cbn [parse_loop]; rewrite (proj2 (Nat.ltb_lt _ _)) by done; [done|].
    unfold skip_blank_lines. rewrite (scan_to_here _ _ _ _ c Hb) by (by rewrite H1, H2). cbn [mbind option_bind].
    assert (skip_comment_lines (end_ - cur) (cf_buf s) cur end_ = Some cur) as ->.
    { destruct (end_ - cur)%nat; cbn [skip_comment_lines]; rewrite (proj2 (Nat.ltb_lt _ _)), Hb by done;
        cbn [mbind option_bind]; by rewrite H3. }
    cbn [mbind option_bind]. rewrite (proj2 (Nat.leb_gt _ _)), Hb by done. cbn [mbind option_bind]. rewrite H4. by apply IH. }
  split; [exact Hp|]. intros F HF e opts cfg w reloading text Hm Ho Hr. unfold tcmu_load_config. rewrite Hm, Ho, Hr. cbn [negb].
  cbn [tcmu_read_config]. destruct (bset (ld_buf e) 0 (c :: text)) as [b|] eqn:Eb; [|done]. cbn [mbind option_bind].
  rewrite (proj2 (Z.ltb_ge _ _)) by lia. rewrite Nat2Z.id.
  destruct (bset1 b (length (c :: text)) 0) as [b2|] eqn:Eb2; [|done]. cbn [mbind option_bind].
  unfold tcmu_parse_options. rewrite Hp; [done|cbn; lia|]. cbn [cf_buf]. unfold bget1.
  rewrite (lookup_bset _ _ _ _ _ Eb2), decide_False by (cbn; lia). rewrite (lookup_bset _ _ _ _ _ Eb), decide_True by (cbn; lia).
  done.
Qed.

Lemma config_stray_line_hangs_witness :
  tcmu_load_config (LoadEnv true (zeros 64) true [(Some (str "[tcmu]"), false)] [] []) [] (Cfg 0 None)
    (World (∅ : gset (list Z)) 6 None) false = None.
Proof.
  apply (proj2 (config_stray_line_hangs 91 ltac:(by repeat split)) (gset (list Z)) set_dirs _ _ _ _ _ (str "tcmu]")); reflexivity.
Defined.

(** ** The level of the log *)

(** The value of an option. *)
Definition opt_lookup (opts : list tcmu_conf_option) (key : list Z) : option opt_value :=
  i ← tcmu_get_option opts key; op_val <$> opts !! i.

Lemma get_option_cons o opts key :
  tcmu_get_option (o :: opts) key = if decide (op_key o = key) then Some 0%nat else S <$> tcmu_get_option opts key.
Proof.
  unfold tcmu_get_option. cbn [list_find]. case_decide; [done|]. by destruct (list_find _ opts) as [[i x]|].
Qed.

Lemma put_option_cons o opts key type v :
  put_option (o :: opts) key type v =
    if decide (op_key o = key) then COpt (op_key o) (op_type o) v :: opts else o :: put_option opts key type v.
Proof.
  unfold put_option. rewrite get_option_cons. case_decide; [done|]. by destruct (tcmu_get_option opts key).
Qed.

Lemma opt_lookup_cons o opts key :
  opt_lookup (o :: opts) key = if decide (op_key o = key) then Some (op_val o) else opt_lookup opts key.
Proof.
  unfold opt_lookup. rewrite get_option_cons. case_decide; [done|]. by destruct (tcmu_get_option opts key).
Qed.

Lemma opt_lookup_put opts key type v key' :
  opt_lookup (put_option opts key type v) key' = if decide (key' = key) then Some v else opt_lookup opts key'.
Proof.
  induction opts as [|o opts IH].
  - change (put_option [] key type v) with [COpt key type v]. rewrite opt_lookup_cons. cbn [op_key op_val].
    repeat case_decide; by subst.
  - rewrite put_option_cons. destruct (decide (op_key o = key)) as [<-|Hne]; rewrite !opt_lookup_cons; cbn.
    + repeat case_decide; by subst.
    + rewrite IH. repeat case_decide; by subst.
Qed.

(** The last line for [log_level]. *)
Fixpoint last_level (es : list entry) : option Z :=
  match es with
  | [] => None
  | e :: es =>
      match last_level es, e with
      | Some n, _ => Some n
      | None, EInt key n => if decide (key = log_level_key) then Some n else None
      | None, _ => None
      end
  end.

(** The level is a number, or not set. *)
Definition level_int (opts : list tcmu_conf_option) : Prop :=
  forall v, opt_lookup opts log_level_key = Some v -> exists n, v = VInt n.

(** Lines for [log_level] are numbers. *)
Definition level_lines_ok (e : entry) : Prop :=
  match e with EStr key _ _ | EFlag key => key <> log_level_key | _ => True end.

Lemma level_after es : forall opts,
  Forall level_lines_ok es ->
  opt_lookup (fold_left apply_entry es opts) log_level_key =
    match last_level es with Some n => Some (VInt n) | None => opt_lookup opts log_level_key end.
Proof.
  induction es as [|e es IH]; intros opts Hok; [done|]. inversion Hok as [|? ? He Hes]; subst. cbn [fold_left last_level].
  rewrite IH by done. destruct (last_level es) as [n|]; [done|].
  destruct e as [key n|key q text|key| |]; cbn [apply_entry] in *; try done; rewrite opt_lookup_put.
  - repeat case_decide; by subst.
  - cbn [level_lines_ok] in He. rewrite decide_False; [done|congruence].
  - cbn [level_lines_ok] in He. rewrite decide_False; [done|congruence].
Qed.

Section load.
Context {F : Type} {HF : Dirs F}.

(** A file that can be read, and fits the buffer with its NUL. *)
Record load_ok (e : load_env) (text : list Z) : Prop := {
  lo_malloc : ld_malloc e = true;
  lo_open : ld_open e = true;
  lo_reads : ld_reads e = [(Some text, false)];
  lo_alloc : ld_alloc e = [];
  lo_buf : (length text < length (ld_buf e))%nat
}.

(** A reload: the options of the file, the level, and the default put back. *)
Lemma load_file e es opts cfg (w : log_world F) :
  load_ok e (print es) -> Forall entry_ok es -> entries_fit opts es ->
  let opts1 := fold_left apply_entry es opts in
  level_int opts1 ->
  exists opts2 cfg2,
    tcmu_load_config e opts cfg w true =
      Some (opts2, cfg2, World (lw_dirs w)
        (if cfg_log_level cfg2 =? 0 then lw_level w else tcmu_set_log_level (cfg_log_level cfg2)) (lw_dir w), 0) /\
    match opt_lookup opts1 log_level_key with
    | Some (VInt n) => cfg2 = Cfg n (cfg_log_dir_path cfg) /\ opts2 = put_option opts1 log_level_key TCMU_OPT_INT (VInt 3)
    | _ => cfg2 = cfg /\ opts2 = opts1
    end.
Proof.
  intros [Hm Ho Hr Ha Hb] Hok Hfit opts1 Hint. unfold tcmu_load_config. rewrite Hm, Ho, Hr. cbn [negb tcmu_read_config].
  rewrite bset_0 by lia. cbn [mbind option_bind].
  rewrite (proj2 (Z.ltb_ge _ _)) by lia. rewrite Nat2Z.id.
  destruct (drop (length (print es)) (ld_buf e)) as [|x j] eqn:Ed.
  { apply (f_equal length) in Ed. rewrite length_drop in Ed. cbn in Ed. lia. }
  rewrite bset1_app by lia. cbn [mbind option_bind]. rewrite Ha. unfold tcmu_parse_options.
  destruct (parse_loop_spec (length (print es)) (length es) es (length (print es)) (print es ++ 0 :: j) opts
    (Nat.le_refl _) (Nat.le_refl _) Hok Hfit (at_text_start es j)) as [b H].
  unfold pos in H. rewrite Nat.sub_diag in H. rewrite H. cbn [mbind option_bind]. fold opts1.
  unfold tcmu_conf_set_options, parse_cfg_int. cbn [cf_opts].
  destruct (tcmu_get_option opts1 log_level_key) as [i|] eqn:E.
  - destruct (get_option_lookup _ _ _ E) as (o & Hoi & _).
    assert (opt_lookup opts1 log_level_key = Some (op_val o)) as Ev by (unfold opt_lookup; rewrite E; cbn; by rewrite Hoi).
    rewrite Hoi. cbn [mbind option_bind]. destruct (Hint _ Ev) as [n Hn]. rewrite Ev, Hn. cbn [mbind option_bind].
    eexists _, (Cfg n (cfg_log_dir_path cfg)). cbn [cfg_log_level cf_opts set_value cf_set_opts].
    split; [by case_if; destruct w|]. split; [done|]. by apply (put_option_old _ _ TCMU_OPT_INT).
  - assert (opt_lookup opts1 log_level_key = None) as -> by (unfold opt_lookup; by rewrite E).
    cbn [mbind option_bind]. eexists _, cfg. split; [|by split]. cbn [cf_opts]. by case_if; destruct w.
Qed.

(** Reloading the configuration: a file whose last [log_level] line says
    [n] sets the level of the log to it, cut to the supported range (zero keeps
    the level); and when a later file no longer has such a line, the level goes
    back to the default.  Both loads succeed, whatever else the files set. *)
Theorem config_reload_level (e1 e2 : load_env) (es1 es2 : list entry) (opts : list tcmu_conf_option)
  (cfg : tcmu_config) (w : log_world F) (n : Z)
  (Hl1 : load_ok e1 (print es1)) (Hl2 : load_ok e2 (print es2))
  (Hok1 : Forall entry_ok es1) (Hok2 : Forall entry_ok es2)
  (Hv1 : Forall level_lines_ok es1) (Hv2 : Forall level_lines_ok es2)
  (Hf1 : entries_fit opts es1)
  (Hf2 : entries_fit (put_option (fold_left apply_entry es1 opts) log_level_key TCMU_OPT_INT (VInt 3)) es2)
  (Hn : last_level es1 = Some n) (Hnone : last_level es2 = None) :
  exists opts1 cfg1 w1 opts2 cfg2 w2,
    tcmu_load_config e1 opts cfg w true = Some (opts1, cfg1, w1, 0) /\
    lw_level w1 = (if n =? 0 then lw_level w else tcmu_set_log_level n) /\
    tcmu_load_config e2 opts1 cfg1 w1 true = Some (opts2, cfg2, w2, 0) /\ lw_level w2 = TCMU_LOG_INFO.
Proof.
  pose proof (level_after es1 opts Hv1) as E1. rewrite Hn in E1.
  destruct (load_file e1 es1 opts cfg w Hl1 Hok1 Hf1) as (opts1 & cfg1 & L1 & R1).
  { intros v Hv. rewrite E1 in Hv. simplify_eq. by eexists. }
  rewrite E1 in R1. destruct R1 as [-> ->]. cbn [cfg_log_level] in L1.
  pose proof (level_after es2 (put_option (fold_left apply_entry es1 opts) log_level_key TCMU_OPT_INT (VInt 3)) Hv2) as E2.
  rewrite Hnone, opt_lookup_put, decide_True in E2 by done.
  eexists _, _, _. destruct (load_file e2 es2 _ (Cfg n (cfg_log_dir_path cfg))
    (World (lw_dirs w) (if n =? 0 then lw_level w else tcmu_set_log_level n) (lw_dir w)) Hl2 Hok2 Hf2) as (opts2 & cfg2 & L2 & R2).
  { intros v Hv. rewrite E2 in Hv. simplify_eq. by eexists. }
  rewrite E2 in R2. destruct R2 as [-> ->]. cbn [cfg_log_level] in L2.
  eexists _, _, _. split; [exact L1|]. cbn [lw_level]. split; [done|]. split; [exact L2|done].
Qed.
End load.

(** A file, and the same with its option commented out. *)
Definition demo_level (n : Z) : list entry := [EInt log_level_key n; EFlag (str "daemon")].
Definition demo_commented : list entry := [EComment (str " log_level = 9"); EBlank].
Definition demo_load (es : list entry) : load_env := LoadEnv true (zeros 64) true [(Some (print es), false)] [] [].

Lemma demo_load_ok es : (length (print es) < 64)%nat -> load_ok (demo_load es) (print es).
Proof. intros H. by split. Qed.

Lemma config_reload_level_witness :
  exists opts1 cfg1 w1 opts2 cfg2 w2,
    tcmu_load_config (demo_load (demo_level 9)) [] (Cfg 0 None) (World (∅ : gset (list Z)) 6 None) true = Some (opts1, cfg1, w1, 0) /\
    lw_level w1 = TCMU_LOG_DEBUG_SCSI_CMD /\
    tcmu_load_config (demo_load demo_commented) opts1 cfg1 w1 true = Some (opts2, cfg2, w2, 0) /\ lw_level w2 = TCMU_LOG_INFO.
Proof.
  apply (config_reload_level (demo_load (demo_level 9)) (demo_load demo_commented) (demo_level 9) demo_commented []
    (Cfg 0 None) (World (∅ : gset (list Z)) 6 None) 9); try reflexivity.
  - apply demo_load_ok. cbn. lia.
  - apply demo_load_ok. cbn. lia.
  - repeat constructor; cbn; unfold INT_MAX; lia.
  - repeat constructor.
  - repeat constructor. by intros ?.
  - repeat constructor.
  - split; [by intros i o E|]. split; [by intros i o E|done].
  - by split.
Defined.

(** An event for another watch in the same batch, such as one that was queued
    before the file was replaced, stops the reloading thread for good. *)
Lemma dyn_config_stuck {F} {HF : Dirs F} ev evs wd opts cfg (w : log_world F) :
  ev_wd ev <> wd -> dyn_config_events (ev :: evs) wd opts cfg w = None.
Proof. intros H. cbn [dyn_config_events]. by rewrite (proj2 (Z.eqb_neq _ _)). Qed.
