(* ===== verification/Life.v ===== *)
(** * The life of a device: what it holds and what it asks for

    A device is built by [libtcmu.c] and its client [main.c] out of descriptors,
    a mapping, allocations, locks and threads.  A resource is held or not; it is
    acquired once, and released once and only when nothing that is still held
    needs it.  Everything else is undefined ([None]): a lock that is initialised
    twice, destroyed twice, or destroyed under a running thread, an access
    through a freed pointer.  Operations are functions in a monad of their own
    over the kernel, the object of the device and what it holds. *)

From S2P Require Import Prelude Scsi Device Rdev Configfs.

(** ** Resources *)

(** The uio descriptor, the mapping of the ring and [struct tcmu_device]; the
    rest is what [main.c] and [tcmur_aio.c] set up for it: [struct
    tcmur_device], its locks, the work queue with its threads, the lock of the
    tracking, the open handler, the condition of the lock and the thread that
    fetches commands. *)
Inductive res :=
| RDev | RFd | RMap
| RRdev | RSpin | RCawLock | RFormatLock | RStateLock
| RIoLock | RIoCond | RThreads | RWorker (i : nat)
| RTrackLock | RHandler | RLockCond | RCmdproc.

#[export] Instance res_eq_dec : EqDecision res.
Proof. solve_decision. Defined.

Definition res_code (r : res) : nat :=
  match r with
  | RDev => 0 | RFd => 1 | RMap => 2 | RRdev => 3 | RSpin => 4 | RCawLock => 5 | RFormatLock => 6
  | RStateLock => 7 | RIoLock => 8 | RIoCond => 9 | RThreads => 10 | RTrackLock => 11 | RHandler => 12
  | RLockCond => 13 | RCmdproc => 14 | RWorker i => 15 + i
  end.
Definition res_of (n : nat) : res :=
  match n with
  | 0 => RDev | 1 => RFd | 2 => RMap | 3 => RRdev | 4 => RSpin | 5 => RCawLock | 6 => RFormatLock
  | 7 => RStateLock | 8 => RIoLock | 9 => RIoCond | 10 => RThreads | 11 => RTrackLock | 12 => RHandler
  | 13 => RLockCond | 14 => RCmdproc | S (S (S (S (S (S (S (S (S (S (S (S (S (S (S i)))))))))))))) => RWorker i
  end%nat.

#[export] Program Instance res_countable : Countable res := inj_countable' res_code res_of _.
Next Obligation. by intros []. Qed.

(** What must outlive a resource.  A worker calls the handler, waits on the
    condition of the work queue and reads the device; the thread of the device
    also reads the ring. *)
Definition needs (r x : res) : bool :=
  match r, x with
  | RWorker _, (RIoLock | RIoCond | RHandler | RRdev | RDev) => true
  | RCmdproc, (RStateLock | RTrackLock | RHandler | RRdev | RMap | RFd | RDev) => true
  | (RSpin | RCawLock | RFormatLock | RStateLock | RIoLock | RIoCond | RTrackLock | RLockCond), RRdev => true
  | RHandler, (RRdev | RDev) => true
  | _, _ => false
  end.

(** ** The device as the library sees it *)

(** A handler as the client registers it: its subtype, [check_config] unless it is
    NULL, the handler of the runner that [hm_private] points to and whether
    that one has a [reconfig] callout.
    [src tcmu-runner/libtcmu.h struct tcmulib_handler] *)
Record tcmulib_handler := TH {
  subtype : list Z;
  check_config : option (list Z -> bool);
  hm_private : tcmur_handler;
  rh_reconfig : bool
}.

(** [cd_handler] is NULL until the handler was found.  [io_wq_threads]: NULL or one entry per thread, which is set when the thread
    was created.  [cd_rdev]: the client's [struct tcmur_device], valid while
    [RRdev] is held. *)
Record cdev := CDev {
  cd_name : list Z;
  cd_names : dev_names;
  cd_handler : option tcmulib_handler;
  cd_dev : tcmu_device;
  cd_map_len : Z;
  cd_cmd_tail : Z;
  cd_rdev : tcmur_device;
  io_wq_threads : option (list bool)
}.

Definition cd_set_dev (c : cdev) (d : tcmu_device) : cdev :=
  CDev (cd_name c) (cd_names c) (cd_handler c) d (cd_map_len c) (cd_cmd_tail c) (cd_rdev c) (io_wq_threads c).
Definition cd_set_rdev (c : cdev) (d : tcmur_device) : cdev :=
  CDev (cd_name c) (cd_names c) (cd_handler c) (cd_dev c) (cd_map_len c) (cd_cmd_tail c) d (io_wq_threads c).
Definition cd_set_threads (c : cdev) (t : option (list bool)) : cdev :=
  CDev (cd_name c) (cd_names c) (cd_handler c) (cd_dev c) (cd_map_len c) (cd_cmd_tail c) (cd_rdev c) t.
Definition cd_set_ring (c : cdev) (len tail : Z) : cdev :=
  CDev (cd_name c) (cd_names c) (cd_handler c) (cd_dev c) len tail (cd_rdev c) (io_wq_threads c).

Record lst (K : Type) := LSt { l_k : K; l_held : gset res; l_dev : cdev }.
Arguments LSt {K} _ _ _.
Arguments l_k {K} _.
Arguments l_held {K} _.
Arguments l_dev {K} _.

(** ** The monad *)

Definition L (K A : Type) : Type := lst K -> option (A * lst K).

#[export] Instance L_ret {K} : MRet (L K) := fun A a s => Some (a, s).
#[export] Instance L_bind {K} : MBind (L K) := fun A B f m s =>
  match m s with None => None | Some (a, s) => f a s end.

Section ops.
Context {K : Type}.

Definition undefined {A} : L K A := fun _ => None.
Definition get_dev : L K cdev := fun s => Some (l_dev s, s).
Definition mod_dev (f : cdev -> cdev) : L K unit := fun s => Some (tt, LSt (l_k s) (l_held s) (f (l_dev s))).
Definition get_k : L K K := fun s => Some (l_k s, s).
Definition put_k (k : K) : L K unit := fun s => Some (tt, LSt k (l_held s) (l_dev s)).

(** A result that may be undefined. *)
Definition opt {A} (o : option A) : L K A := fun s => a ← o; Some (a, s).

Definition acquire (r : res) : L K unit := fun s =>
  if decide (r ∈ l_held s) then None else Some (tt, LSt (l_k s) (l_held s ∪ {[r]}) (l_dev s)).

(** An access through what the resource stands for. *)
Definition holding (r : res) : L K unit := fun s => if decide (r ∈ l_held s) then Some (tt, s) else None.

Definition needed (r : res) (h : gset res) : bool := existsb (fun x => needs x r) (elements h).

Definition release (r : res) : L K unit := fun s =>
  if decide (r ∈ l_held s) then
    if needed r (l_held s) then None
    else Some (tt, LSt (l_k s) (l_held s ∖ {[r]}) (l_dev s))
  else None.
End ops.

(** What the library itself holds of a device. *)
Definition lib_res : gset res := {[RDev; RFd; RMap]}.

(** ** The environment of an operation *)

(** What allocations, [pthread_*_init] and [pthread_create] return, by resource
    (0 or an error number), and [strdup] of a name; the system calls on the uio device; the version and
    the tail in the mailbox; the callouts of the handler; the answers and the
    number of tracked commands while the device is stopped; whether the ring
    clears while the device is flushed. *)
Record life_env := LifeEnv {
  en_calloc : res -> bool;
  en_strdup : bool;
  en_init : res -> Z;
  en_open_uio : bool;
  en_mmap : bool;
  en_version : Z;
  en_tail : Z;
  en_open : Z;
  en_reconfig : Z;
  en_answers : answers;
  en_tracked : Z;
  en_drains : bool
}.

(** [pthread_mutex_init] and the like: 0, or an error number. *)
Definition init {K} (e : life_env) (r : res) : L K Z :=
  if en_init e r =? 0 then acquire r;; mret 0 else mret (en_init e r).

(** ** Lemmas *)

Lemma needed_false r h : (forall x, x ∈ h -> needs x r = false) -> needed r h = false.
Proof.
  intros H. unfold needed. destruct (existsb _ _) eqn:E; [|done].
  apply existsb_exists in E as (x & Hx%list_elem_of_In & E). rewrite H in E; [done|set_solver].
Qed.

Lemma acquire_ok {K} r (s : lst K) : r ∉ l_held s -> acquire r s = Some (tt, LSt (l_k s) (l_held s ∪ {[r]}) (l_dev s)).
Proof. intros H. unfold acquire. by rewrite decide_False. Qed.

Lemma holding_ok {K} r (s : lst K) : r ∈ l_held s -> holding r s = Some (tt, s).
Proof. intros H. unfold holding. by rewrite decide_True. Qed.

Lemma release_ok {K} r (s : lst K) : r ∈ l_held s -> (forall x, x ∈ l_held s -> needs x r = false) ->
  release r s = Some (tt, LSt (l_k s) (l_held s ∖ {[r]}) (l_dev s)).
Proof. intros H Hn. unfold release. rewrite decide_True by done. by rewrite needed_false. Qed.

Lemma bind_some {K A B} (m : L K A) (f : A -> L K B) s a s' : m s = Some (a, s') -> (m ≫= f) s = f a s'.
Proof. intros H. unfold mbind, L_bind. by rewrite H. Qed.

(** ** Automation *)

Definition no_workers (h : gset res) : Prop := forall j, RWorker j ∉ h.

Ltac nobody :=
  let x := fresh "x" in let Hx := fresh "Hx" in
  intros x Hx; destruct x; try reflexivity; exfalso; unfold lib_res, no_workers in *; set_solver.

Lemma release_last {K} r (k : K) h c : r ∉ h -> (forall x, x ∈ h -> needs x r = false) -> needs r r = false ->
  release r (LSt k (h ∪ {[r]}) c) = Some (tt, LSt k h c).
Proof.
  intros Hr Hn Hs. rewrite release_ok; cbn [l_held l_k l_dev]; [|set_solver|].
  - do 3 f_equal. set_solver.
  - intros x [Hx|Hx%elem_of_singleton]%elem_of_union; [by apply Hn|by subst].
Qed.

Lemma release_from {K} r (k : K) h h' c : h = h' ∪ {[r]} -> r ∉ h' ->
  (forall x, x ∈ h' -> needs x r = false) -> needs r r = false -> release r (LSt k h c) = Some (tt, LSt k h' c).
Proof. intros -> ???. by apply release_last. Qed.

Lemma init_zero {K} e r (k : K) h c : en_init e r = 0 -> r ∉ h ->
  init e r (LSt k h c) = Some (0, LSt k (h ∪ {[r]}) c).
Proof.
  intros He Hr. unfold init. rewrite He. cbn [Z.eqb]. rewrite (bind_some _ _ _ _ _ (acquire_ok r (LSt k h c) Hr)). done.
Qed.

Lemma init_fails {K} e r (s : lst K) : en_init e r <> 0 -> init e r s = Some (en_init e r, s).
Proof. intros He. unfold init. by rewrite (proj2 (Z.eqb_neq _ _) He). Qed.

(** Releases [r] and leaves [h]. *)
Ltac rel r h :=
  rewrite (release_from r _ _ h); [|set_solver|set_solver|nobody|done].
