(* ===== verification/Libtcmu.v ===== *)
(** * The library: devices of the kernel and their handlers

    [libtcmu.c]: parsing the configuration string the kernel gives a device,
    finding its handler, opening the uio device and mapping its ring, adding and
    removing devices when netlink says so and at start and end.  What the client
    does with a device is the class [Callouts]. *)

From S2P Require Import Prelude Scsi Device Rdev Configfs Target Life.

Definition ENOENT : Z := 2.
Definition ENOMEM : Z := 12.
Definition ENODEV : Z := 19.
Definition EOPNOTSUPP : Z := 95.
Definition KERN_IFACE_VER : Z := 2.
Definition ULLONG_MAX : Z := u64 (-1).

(** [src tcmu-runner/libtcmu.h 34-48 struct tcmulib_cfg_info] *)
Inductive tcmulib_cfg_info :=
| TCMULIB_CFG_DEV_CFGSTR (s : list Z)
| TCMULIB_CFG_DEV_SIZE (size : Z)
| TCMULIB_CFG_WRITE_CACHE (b : Z).

(** The callouts of [struct tcmulib_handler]. *)
Class Callouts (K : Type) := {
  added : life_env -> L K Z;
  removed : life_env -> L K unit;
  reconfig : option (life_env -> tcmulib_cfg_info -> L K Z)
}.

(** ** Names *)

(** The field up to the next slash, and what follows it. *)
Definition cut_slash (s : list Z) : option (list Z * list Z) :=
  let f := upto_slash s in
  match drop (length f) s with [] => None | _ :: rest => Some (f, rest) end.

(** [snprintf] into a buffer of [n] bytes, as the string that is in it. *)
Definition fit (n : nat) (s : list Z) : list Z := take (n - 1) s.

(** The names of the device in configfs, and the configuration string for its
    handler; [None]: the string is invalid.
    [src tcmu-runner/libtcmu.c 449-486 add_device] *)
Definition parse_cfgstring (cfg : list Z) : option (dev_names * list Z) :=
  '(pre, rest) ← cut_slash cfg;
  if negb (starts_with pre (str "tcm-user")) then None
  else
    '(hba, rest) ← cut_slash rest;
    '(name, rest) ← cut_slash rest;
    Some (DevNames (fit 16 (str "user_" ++ hba)) (fit 128 name), fit PATH_MAX rest).

(** [strncmp(cfgstring, subtype, len) == 0] with the characters before the
    first slash.
    [src tcmu-runner/libtcmu.c find_handler] *)
Definition find_handler (handlers : list tcmulib_handler) (cfgstring : list Z) : option tcmulib_handler :=
  List.find (fun h => starts_with (upto_slash cfgstring) (subtype h)) handlers.

Section lib.
Context {K : Type} {HK : Kernel K} {HC : Callouts K}.

(** ** Blocking the device of the kernel *)

(** [src tcmu-runner/libtcmu.c tcmu_block_device] *)
Definition tcmu_block_device : L K unit :=
  c ← get_dev; k ← get_k;
  if negb (tcmu_cfgfs_file_is_supported k (cd_names c) (str "action")) then mret tt
  else '(k, _) ← opt (tcmu_exec_cfgfs_dev_action k (cd_names c) (str "block_dev") 1); put_k k.

(** [src tcmu-runner/libtcmu.c tcmu_unblock_device] *)
Definition tcmu_unblock_device : L K unit :=
  c ← get_dev; k ← get_k;
  if negb (tcmu_cfgfs_file_is_supported k (cd_names c) (str "action")) then mret tt
  else '(k, _) ← opt (tcmu_exec_cfgfs_dev_action k (cd_names c) (str "block_dev") 0); put_k k.

(** Waits until the ring is empty; [None]: it never is.
    [src tcmu-runner/libtcmu.c tcmu_flush_device] *)
Definition tcmu_flush_device (e : life_env) : L K unit :=
  holding RMap;; if en_drains e then mret tt else undefined.

(** [src tcmu-runner/libtcmu.c 511-518 add_device] *)
Definition reset_ring : L K unit :=
  c ← get_dev; k ← get_k;
  if tcmu_cfgfs_file_is_supported k (cd_names c) (str "action")
  then '(k, _) ← opt (tcmu_exec_cfgfs_dev_action k (cd_names c) (str "reset_ring") 1); put_k k
  else mret tt.

(** ** Adding a device *)

(** The labels at the end, each of which goes on with the next.
    [src tcmu-runner/libtcmu.c 586-589 add_device] *)
Definition err_free : L K Z := release RDev;; mret (- ENOENT).
(** [src tcmu-runner/libtcmu.c 583-585 add_device] *)
Definition err_unblock (reopen : bool) : L K Z := (if reopen then tcmu_unblock_device else mret tt);; err_free.
(** [src tcmu-runner/libtcmu.c 581-582 add_device] *)
Definition err_fd_close (reopen : bool) : L K Z := release RFd;; err_unblock reopen.
(** [src tcmu-runner/libtcmu.c 579-580 add_device] *)
Definition err_munmap (reopen : bool) : L K Z := release RMap;; err_fd_close reopen.

(** The size of the mapping, from sysfs; [Some None]: it cannot be read.
    [src tcmu-runner/libtcmu.c 529-548 add_device] *)
Definition read_map_len (k : K) (name : list Z) : option (option Z) :=
  match k_read k (fit 256 (str "/sys/class/uio/" ++ name ++ str "/maps/map0/size")) with
  | inl _ => Some None
  | inr content =>
      let buf := take 256 content in
      if decide (length buf = 0)%nat then Some None
      else
        len ← strtoul0 (take (length buf - 1) buf ++ [0]);
        Some (if len =? ULLONG_MAX then None else Some len)
  end.

(** From the opening of the uio device on.
    [src tcmu-runner/libtcmu.c 521-580 add_device] *)
Definition open_uio (e : life_env) (reopen : bool) : L K Z :=
  if negb (en_open_uio e) then err_unblock reopen
  else
    acquire RFd;;
    c ← get_dev; k ← get_k;
    len ← opt (read_map_len k (cd_name c));
    match len with
    | None => err_fd_close reopen
    | Some len =>
        if negb (en_mmap e) then err_fd_close reopen
        else
          acquire RMap;;
          if negb (en_version e =? KERN_IFACE_VER) then err_munmap reopen
          else
            mod_dev (fun c => cd_set_ring c len (en_tail e));;
            ret ← added e;
            if negb (ret =? 0) then err_munmap reopen
            else
              (if reopen then tcmu_unblock_device else mret tt);;
              mret 0
    end.

(** From the allocated object on: names, handler, blocking, opening.
    [src tcmu-runner/libtcmu.c 449-590 add_device] *)
Definition build_device (e : life_env) (handlers : list tcmulib_handler) (cfgstring : list Z) (reopen : bool)
    : L K Z :=
  match parse_cfgstring cfgstring with
  | None => err_free
  | Some (nm, cfg) =>
      match find_handler handlers cfg with
      | None => err_free
      | Some h =>
          mod_dev (fun c => CDev (cd_name c) nm (Some h)
            (Dev 0 0 0 0 0 false false cfg None (hm_private h)) 0 0 (cd_rdev c) None);;
          if match check_config h with Some check => negb (check cfg) | None => false end then err_free
          else
            (if reopen then tcmu_block_device;; reset_ring else mret tt);;
            open_uio e reopen
      end
  end.

(** The process: the kernel, the devices in the order in which they were added
    with what each holds, and what objects that are gone still held. *)
Record proc := Proc { p_k : K; p_devs : list (cdev * gset res); p_lost : list (gset res) }.

Definition lose (h : gset res) (l : list (gset res)) : list (gset res) := if decide (h = ∅) then l else h :: l.

(** What [calloc] gives. *)
Definition no_handler : tcmur_handler := Handler false false false false false false false 0.
Definition rdev0 : tcmur_device := Rdev false false false false FAILOVER_ALL_ACTIVE UNLOCKED 0.
Definition cdev0 (dev_name : list Z) : cdev :=
  CDev (fit 16 dev_name) (DevNames [] []) None (Dev 0 0 0 0 0 false false [] None no_handler) 0 0 rdev0 None.

(** [src tcmu-runner/libtcmu.c add_device] *)
Definition add_device (e : life_env) (handlers : list tcmulib_handler) (dev_name cfgstring : list Z)
    (reopen : bool) (p : proc) : option (Z * proc) :=
  if negb (en_calloc e RDev) then Some (- ENOMEM, p)
  else
    '(ret, s) ← build_device e handlers cfgstring reopen (LSt (p_k p) {[RDev]} (cdev0 dev_name));
    if ret =? 0 then Some (ret, Proc (l_k s) (p_devs p ++ [(l_dev s, l_held s)]) (p_lost p))
    else Some (ret, Proc (l_k s) (p_devs p) (lose (l_held s) (p_lost p))).

(** ** Removing a device *)

(** The first device of that name.
    [src tcmu-runner/libtcmu.c lookup_dev_by_name] *)
Definition lookup_dev_by_name (devs : list (cdev * gset res)) (dev_name : list Z) : option (nat * (cdev * gset res)) :=
  list_find (fun d => cd_name d.1 = dev_name) devs.

(** [src tcmu-runner/libtcmu.c 621-643 remove_device] *)
Definition drop_device (e : life_env) (should_block : bool) : L K unit :=
  (if should_block then tcmu_block_device;; tcmu_flush_device e else mret tt);;
  removed e;;
  release RFd;;
  release RMap;;
  (if should_block then tcmu_unblock_device else mret tt);;
  release RDev.

(** [src tcmu-runner/libtcmu.c remove_device] *)
Definition remove_device (e : life_env) (dev_name : list Z) (should_block : bool) (p : proc) : option proc :=
  match lookup_dev_by_name (p_devs p) dev_name with
  | None => Some p
  | Some (i, (c, h)) =>
      '(_, s) ← drop_device e should_block (LSt (p_k p) h c);
      Some (Proc (l_k s) (delete i (p_devs p)) (lose (l_held s) (p_lost p)))
  end.

(** ** Netlink *)

(** The attributes of a message. *)
Record genl_info := Info {
  nl_version : Z;
  nl_minor : option Z;
  nl_device : option (list Z);
  nl_device_id : option Z;
  nl_dev_cfg : option (list Z);
  nl_dev_size : option Z;
  nl_writecache : option Z
}.

(** [src tcmu-runner/target_core_user_local.h 134-144 enum tcmu_genl_cmd] *)
Inductive tcmu_genl_cmd := TCMU_CMD_ADDED_DEVICE | TCMU_CMD_REMOVED_DEVICE | TCMU_CMD_RECONFIG_DEVICE | TCMU_CMD_OTHER.

#[export] Instance tcmu_genl_cmd_eq_dec : EqDecision tcmu_genl_cmd.
Proof. solve_decision. Defined.

(** The reconfiguration that a message asks for.
    [src tcmu-runner/libtcmu.c 173-188 reconfig_device] *)
Definition cfg_of (info : genl_info) : option tcmulib_cfg_info :=
  match nl_dev_cfg info, nl_dev_size info, nl_writecache info with
  | Some s, _, _ => Some (TCMULIB_CFG_DEV_CFGSTR s)
  | None, Some n, _ => Some (TCMULIB_CFG_DEV_SIZE n)
  | None, None, Some b => Some (TCMULIB_CFG_WRITE_CACHE b)
  | None, None, None => None
  end.

(** [src tcmu-runner/libtcmu.c reconfig_device] *)
Definition reconfig_device (e : life_env) (dev_name : list Z) (info : genl_info) (p : proc) : option (Z * proc) :=
  match lookup_dev_by_name (p_devs p) dev_name with
  | None => Some (- ENODEV, p)
  | Some (i, (c, h)) =>
      match reconfig with
      | None => Some (- EOPNOTSUPP, p)
      | Some f =>
          match cfg_of info with
          | None => Some (- EOPNOTSUPP, p)
          | Some cfg =>
              '(ret, s) ← f e cfg (LSt (p_k p) h c);
              Some (if ret <? 0 then ret else 0,
                    Proc (l_k s) (<[i := (l_dev s, l_held s)]> (p_devs p)) (p_lost p))
          end
      end
  end.

(** A reply: its command, the id of the device and the status. *)
Record nl_reply := Reply { rp_cmd : tcmu_genl_cmd; rp_id : Z; rp_status : Z }.

(** [%d] of an unsigned number of 32 bits. *)
Definition dec_int (n : Z) : list Z := if s32 n <? 0 then 45 :: dec (- s32 n) else dec (s32 n).
Definition uio_name (minor : Z) : list Z := fit 32 (str "uio" ++ dec_int minor).

(** The command itself.  [None] as a status: the command is unknown.
    [src tcmu-runner/libtcmu.c 222-244 handle_netlink] *)
Definition netlink_command (e : life_env) (handlers : list tcmulib_handler) (cmd : tcmu_genl_cmd)
    (name device : list Z) (info : genl_info) (p : proc) : option (option Z * proc) :=
  match cmd with
  | TCMU_CMD_ADDED_DEVICE => '(ret, p) ← add_device e handlers name device false p; Some (Some ret, p)
  | TCMU_CMD_REMOVED_DEVICE => p ← remove_device e name false p; Some (Some 0, p)
  | TCMU_CMD_RECONFIG_DEVICE => '(ret, p) ← reconfig_device e name info p; Some (Some ret, p)
  | TCMU_CMD_OTHER => Some (None, p)
  end.

(** The result, the new process and the reply that is sent; [sent]: what
    [send_netlink_reply] returns.
    [src tcmu-runner/libtcmu.c handle_netlink] *)
Definition handle_netlink (e : life_env) (sent : Z) (handlers : list tcmulib_handler) (cmd : tcmu_genl_cmd)
    (info : genl_info) (p : proc) : option (Z * proc * option nl_reply) :=
  match nl_minor info, nl_device info with
  | Some minor, Some device =>
      if (1 <? nl_version info) && match nl_device_id info with None => true | Some _ => false end
      then Some (0, p, None)
      else
        '(ret, p) ← netlink_command e handlers cmd (uio_name minor) device info p;
        match ret with
        | None => Some (- EOPNOTSUPP, p, None)
        | Some ret =>
            if 1 <? nl_version info then Some (sent, p, Some (Reply cmd (default 0 (nl_device_id info)) ret))
            else Some (ret, p, None)
        end
  | _, _ => Some (0, p, None)
  end.

(** ** Start and end *)

(** The name of a uio device, without its newline; [None]: the caller is told
    that it cannot be read.  [Some None]: the caller is told that it was read and
    the name is NULL, as when the file is empty or [strdup] fails.
    [src tcmu-runner/libtcmu.c read_uio_name] *)
Definition read_uio_name (strdup_ok : bool) (k : K) (uio_dev : list Z) : option (option (list Z)) :=
  match k_read k (str "/sys/class/uio/" ++ uio_dev ++ str "/name") with
  | inl _ => None
  | inr content =>
      if decide (length content = 0)%nat then Some None
      else if decide (PATH_MAX <= length content)%nat then None
      else Some (if strdup_ok then cstring (take (length content - 1) content ++ [0]) else None)
  end.

(** [None]: a NULL name is compared.
    [src tcmu-runner/libtcmu.c is_uio] *)
Definition is_uio (strdup_ok : bool) (k : K) (d_name : list Z) : option bool :=
  if negb (starts_with (str "uio") d_name) then Some false
  else
    match read_uio_name strdup_ok k d_name with
    | None => Some false
    | Some None => None
    | Some (Some name) => Some (starts_with (str "tcm-user") name)
    end.

(** What [scandir] keeps. *)
Fixpoint uio_devices (es : nat -> life_env) (i : nat) (k : K) (names : list (list Z)) : option (list (list Z)) :=
  match names with
  | [] => Some []
  | n :: names =>
      b ← is_uio (en_strdup (es i)) k n;
      l ← uio_devices es (S i) k names;
      Some (if b : bool then n :: l else l)
  end.

(** [src tcmu-runner/libtcmu.c 715-728 open_devices] *)
Fixpoint open_loop (es : nat -> life_env) (handlers : list tcmulib_handler) (i : nat) (names : list (list Z))
    (num_good : Z) (p : proc) : option (Z * proc) :=
  match names with
  | [] => Some (num_good, p)
  | n :: names =>
      match read_uio_name (en_strdup (es i)) (p_k p) n with
      | None => open_loop es handlers (S i) names num_good p
      | Some None => None
      | Some (Some cfg) =>
          '(ret, p) ← add_device (es i) handlers n cfg true p;
          open_loop es handlers (S i) names (if ret <? 0 then num_good else num_good + 1) p
      end
  end.

(** [src tcmu-runner/libtcmu.c open_devices] *)
Definition open_devices (es : nat -> life_env) (handlers : list tcmulib_handler) (p : proc) : option (Z * proc) :=
  match k_scandir (p_k p) (str "/dev") with
  | None => Some (-1, p)
  | Some names => names ← uio_devices es 0 (p_k p) names; open_loop es handlers 0 names 0 p
  end.

(** The context, unless it cannot be made; [netlink]: the socket was set up.
    [src tcmu-runner/libtcmu.c tcmulib_initialize] *)
Definition tcmulib_initialize (calloc_ok netlink : bool) (es : nat -> life_env) (handlers : list tcmulib_handler)
    (k : K) : option (K * option proc) :=
  if negb (calloc_ok && netlink) then Some (k, None)
  else
    '(ret, p) ← open_devices es handlers (Proc k [] []);
    Some (if ret <? 0 then (p_k p, None) else (p_k p, Some p)).

(** The loop goes over the places from the last to the first, and removes by
    name.
    [src tcmu-runner/libtcmu.c close_devices] *)
Fixpoint close_devices (es : nat -> life_env) (i : nat) (p : proc) : option proc :=
  match i with
  | O => Some p
  | S i =>
      d ← p_devs p !! i;
      p ← remove_device (es i) (cd_name d.1) true p;
      close_devices es i p
  end.

(** [src tcmu-runner/libtcmu.c tcmulib_close] *)
Definition tcmulib_close (es : nat -> life_env) (p : proc) : option proc :=
  close_devices es (length (p_devs p)) p.
End lib.
Arguments proc : clear implicits.

(** ** What the library relies on *)

(** What no callout changes: the names, the handler and its string. *)
Record same_dev (c c' : cdev) : Prop := {
  sd_name : cd_name c' = cd_name c;
  sd_names : cd_names c' = cd_names c;
  sd_handler : cd_handler c' = cd_handler c;
  sd_rhandler : rhandler (cd_dev c') = rhandler (cd_dev c);
  sd_cfg : cfgstring (cd_dev c') = cfgstring (cd_dev c)
}.

#[export] Instance same_dev_refl : Reflexive same_dev.
Proof. by intros c. Qed.
#[export] Instance same_dev_trans : Transitive same_dev.
Proof. intros a b c [] []. split; congruence. Qed.

(** The promise of a client: a device that it refuses holds nothing of the
    client's; one that it accepts holds [cl_own], which removing gives back.
    [cl_env]: what it asks of the environment; [cl_handler]: of a handler. *)
Class CalloutsLaws (K : Type) {HC : Callouts K} := {
  cl_env : life_env -> Prop;
  cl_handler : tcmur_handler -> Prop;
  cl_own : cdev -> gset res;
  cl_ok : cdev -> Prop;
  cl_added : forall e (k : K) c, cl_env e -> cl_handler (rhandler (cd_dev c)) ->
    exists ret c', added e (LSt k lib_res c) = Some (ret, LSt k (if ret =? 0 then lib_res ∪ cl_own c' else lib_res) c') /\
      same_dev c c' /\ (ret = 0 -> cl_ok c');
  cl_removed : forall e (k : K) c, cl_env e -> cl_handler (rhandler (cd_dev c)) -> cl_ok c ->
    exists c', removed e (LSt k (lib_res ∪ cl_own c) c) = Some (tt, LSt k lib_res c') /\ same_dev c c';
  cl_reconfig : forall f e cfg (k : K) c, reconfig = Some f -> cl_env e -> cl_handler (rhandler (cd_dev c)) ->
    cd_handler c <> None -> cl_ok c ->
    exists ret c', f e cfg (LSt k (lib_res ∪ cl_own c) c) = Some (ret, LSt k (lib_res ∪ cl_own c') c') /\
      same_dev c c' /\ cl_ok c'
}.
