(* ===== verification/Runner.v ===== *)
(** * The runner as a client of the library

    [main.c], [tcmur_aio.c]: registering handlers; what the runner does when the
    library has added a device (attributes, locks, work queue, opening the
    handler, the thread that fetches commands), when it is removed, and when it
    is reconfigured.  The runner is an instance of [Callouts]. *)

From S2P Require Import Prelude Scsi Device Backstore Rdev Configfs Alua Dispatch Life Libtcmu.

(** ** Setters *)

(** [src tcmu-runner/libtcmu.c tcmu_set_dev_block_size] *)
Definition tcmu_set_dev_block_size (d : tcmu_device) (n : Z) : tcmu_device :=
  Dev (num_lbas d) (u32 n) (max_xfer_len d) (opt_unmap_gran d) (unmap_gran_align d)
      (write_cache_enabled d) (solid_state_media d) (cfgstring d) (dev_wwn d) (rhandler d).
(** [src tcmu-runner/libtcmu.c tcmu_set_dev_max_xfer_len] *)
Definition tcmu_set_dev_max_xfer_len (d : tcmu_device) (n : Z) : tcmu_device :=
  Dev (num_lbas d) (block_size d) (u32 n) (opt_unmap_gran d) (unmap_gran_align d)
      (write_cache_enabled d) (solid_state_media d) (cfgstring d) (dev_wwn d) (rhandler d).
(** [src tcmu-runner/libtcmu.c tcmu_set_dev_opt_unmap_gran] *)
Definition tcmu_set_dev_opt_unmap_gran (d : tcmu_device) (n : Z) : tcmu_device :=
  Dev (num_lbas d) (block_size d) (max_xfer_len d) (u32 n) (unmap_gran_align d)
      (write_cache_enabled d) (solid_state_media d) (cfgstring d) (dev_wwn d) (rhandler d).
(** [src tcmu-runner/libtcmu.c tcmu_set_dev_unmap_gran_align] *)
Definition tcmu_set_dev_unmap_gran_align (d : tcmu_device) (n : Z) : tcmu_device :=
  Dev (num_lbas d) (block_size d) (max_xfer_len d) (opt_unmap_gran d) (u32 n)
      (write_cache_enabled d) (solid_state_media d) (cfgstring d) (dev_wwn d) (rhandler d).

(** ** Handlers *)

(** [g_runner_handlers]: a handler is its address and its subtype. *)
Record rhandler_ref := Rh { rh_addr : nat; rh_subtype : list Z; rh_dbus : bool }.

#[export] Instance rhandler_ref_eq_dec : EqDecision rhandler_ref.
Proof. solve_decision. Defined.

(** [src tcmu-runner/main.c tcmur_register_handler] *)
Definition tcmur_register_handler (g : list rhandler_ref) (h : rhandler_ref) : list rhandler_ref * Z :=
  if existsb (fun x => bool_decide (rh_subtype x = rh_subtype h)) g then (g, -1) else (g ++ [h], 0).

(** [None]: the assertion.
    [src tcmu-runner/main.c tcmur_register_dbus_handler] *)
Definition tcmur_register_dbus_handler (g : list rhandler_ref) (h : rhandler_ref) : option (list rhandler_ref * Z) :=
  if rh_dbus h then Some (tcmur_register_handler g h) else None.

(** [src tcmu-runner/main.c tcmur_unregister_handler] *)
Definition tcmur_unregister_handler (g : list rhandler_ref) (addr : nat) : list rhandler_ref * bool :=
  match list_find (fun x => rh_addr x = addr) g with
  | Some (i, _) => (delete i g, true)
  | None => (g, false)
  end.

(** [src tcmu-runner/main.c tcmur_unregister_dbus_handler] *)
Definition tcmur_unregister_dbus_handler (g : list rhandler_ref) (h : rhandler_ref) : option (list rhandler_ref * bool) :=
  if rh_dbus h then Some (tcmur_unregister_handler g (rh_addr h)) else None.

(** A file of the handler directory: its name, whether the path can be
    allocated, the library loaded and the symbol found, the handlers that its
    [handler_init] registers, and what that returns when they all are. *)
Record module := Module_ {
  md_name : list Z; md_path : bool; md_open : bool; md_sym : bool; md_handlers : list rhandler_ref; md_ret : Z
}.

(** [src tcmu-runner/main.c is_handler] *)
Definition is_handler (d_name : list Z) : bool := starts_with (str "handler_") d_name.

(** [handler_init] registers until one is refused. *)
Fixpoint run_init (g : list rhandler_ref) (hs : list rhandler_ref) (ret : Z) : list rhandler_ref * Z :=
  match hs with
  | [] => (g, ret)
  | h :: hs => let '(g, r) := tcmur_register_handler g h in if r =? 0 then run_init g hs ret else (g, r)
  end.

(** [src tcmu-runner/main.c 142-182 open_handlers] *)
Fixpoint load_modules (g : list rhandler_ref) (ms : list module) (num_good : Z) : list rhandler_ref * Z :=
  match ms with
  | [] => (g, num_good)
  | m :: ms =>
      if negb (md_path m && md_open m && md_sym m) then load_modules g ms num_good
      else
        let '(g, ret) := run_init g (md_handlers m) (md_ret m) in
        load_modules g ms (if ret =? 0 then num_good + 1 else num_good)
  end.

(** [dir]: the files, unless the directory cannot be scanned.
    [src tcmu-runner/main.c open_handlers] *)
Definition open_handlers (g : list rhandler_ref) (dir : option (list module)) : list rhandler_ref * Z :=
  match dir with
  | None => (g, -1)
  | Some ms => load_modules g (List.filter (fun m => is_handler (md_name m)) ms) 0
  end.

Section runner.
Context {K : Type} {HK : Kernel K}.

Definition rdev_update (f : tcmur_device -> tcmur_device) : L K unit :=
  holding RRdev;; mod_dev (fun c => cd_set_rdev c (f (cd_rdev c))).
Definition dev_update (f : tcmu_device -> tcmu_device) : L K unit := mod_dev (fun c => cd_set_dev c (f (cd_dev c))).
Definition get_nr_threads : L K Z := c ← get_dev; mret (nr_threads (rhandler (cd_dev c))).

(** ** Request tracking and the work queue *)

(** [src tcmu-runner/tcmur_aio.c setup_aio_tracking] *)
Definition setup_aio_tracking (e : life_env) : L K Z := init e RTrackLock.

(** The assertion comes first.
    [src tcmu-runner/tcmur_aio.c cleanup_aio_tracking] *)
Definition cleanup_aio_tracking (ops : Z) : L K unit :=
  if ops =? 0 then release RTrackLock else undefined.

(** Cancels the threads whose entry is set.
    [src tcmu-runner/tcmur_aio.c 272-276 cleanup_io_work_queue_threads] *)
Fixpoint cancel_workers (i : nat) (threads : list bool) : L K unit :=
  match threads with
  | [] => mret tt
  | t :: threads => (if t : bool then release (RWorker i) else mret tt);; cancel_workers (S i) threads
  end.

(** [src tcmu-runner/tcmur_aio.c cleanup_io_work_queue_threads] *)
Definition cleanup_io_work_queue_threads : L K unit :=
  c ← get_dev;
  match io_wq_threads c with
  | None => mret tt
  | Some threads => holding RThreads;; cancel_workers 0 threads
  end.

(** The entries from [i] on, [n] of them.
    [src tcmu-runner/tcmur_aio.c 305-311 setup_io_work_queue] *)
Fixpoint create_workers (e : life_env) (i n : nat) : L K Z :=
  match n with
  | O => mret 0
  | S n =>
      ret ← init e (RWorker i);
      if negb (ret =? 0) then mret ret
      else
        mod_dev (fun c => cd_set_threads c ((fun t => <[i := true]> t) <$> io_wq_threads c));;
        create_workers e (S i) n
  end.

(** When the array cannot be allocated the result is still that of the last
    call, which is 0.
    [src tcmu-runner/tcmur_aio.c setup_io_work_queue] *)
Definition setup_io_work_queue (e : life_env) : L K Z :=
  nr ← get_nr_threads;
  if nr =? 0 then mret 0
  else
    ret ← init e RIoLock;
    if negb (ret =? 0) then mret ret
    else
      ret ← init e RIoCond;
      if negb (ret =? 0) then release RIoLock;; mret ret
      else if negb (en_calloc e RThreads) || (nr <? 0) then
        mod_dev (fun c => cd_set_threads c None);;
        release RIoCond;; release RIoLock;; mret ret
      else
        acquire RThreads;;
        mod_dev (fun c => cd_set_threads c (Some (replicate (Z.to_nat nr) false)));;
        ret ← create_workers e 0 (Z.to_nat nr);
        if negb (ret =? 0) then
          cleanup_io_work_queue_threads;; release RThreads;;
          release RIoCond;; release RIoLock;; mret ret
        else mret 0.

(** [src tcmu-runner/tcmur_aio.c cleanup_io_work_queue] *)
Definition cleanup_io_work_queue (cancel : bool) : L K unit :=
  c ← get_dev;
  match io_wq_threads c with
  | None => mret tt
  | Some _ =>
      (if cancel then cleanup_io_work_queue_threads else mret tt);;
      release RIoLock;; release RIoCond;; release RThreads
  end.

(** ** A device was added *)

(** The labels at the end, each of which goes on with the next.
    [src tcmu-runner/main.c 841-843 dev_added] *)
Definition free_rdev (ret : Z) : L K Z := release RRdev;; mret ret.
(** [src tcmu-runner/main.c 839-840 dev_added] *)
Definition cleanup_dev_lock (ret : Z) : L K Z := release RSpin;; free_rdev ret.
(** [src tcmu-runner/main.c 837-838 dev_added] *)
Definition cleanup_caw_lock (ret : Z) : L K Z := release RCawLock;; cleanup_dev_lock ret.
(** [src tcmu-runner/main.c 835-836 dev_added] *)
Definition cleanup_format_lock (ret : Z) : L K Z := release RFormatLock;; cleanup_caw_lock ret.
(** [src tcmu-runner/main.c 833-834 dev_added] *)
Definition cleanup_state_lock (ret : Z) : L K Z := release RStateLock;; cleanup_format_lock ret.
(** [src tcmu-runner/main.c 831-832 dev_added] *)
Definition cleanup_wq (ret : Z) : L K Z := cleanup_io_work_queue true;; cleanup_state_lock ret.
(** [src tcmu-runner/main.c 829-830 dev_added] *)
Definition cleanup_tracking (ret : Z) : L K Z := cleanup_aio_tracking 0;; cleanup_wq ret.
(** [src tcmu-runner/main.c 827-828 dev_added] *)
Definition close_dev (ret : Z) : L K Z := release RHandler;; cleanup_tracking ret.
(** [src tcmu-runner/main.c 825-826 dev_added] *)
Definition cleanup_lock_cond (ret : Z) : L K Z := release RLockCond;; close_dev ret.

(** The attributes; the first one that is missing.
    [src tcmu-runner/main.c 746-764 dev_added] *)
Definition read_attributes : L K bool :=
  c ← get_dev; k ← get_k;
  bs ← opt (tcmu_get_attribute k (cd_names c) (str "hw_block_size"));
  if bs <=? 0 then mret false
  else
    dev_update (fun d => tcmu_set_dev_block_size d bs);;
    size ← opt (tcmu_get_dev_size k (cd_names c));
    if size <? 0 then mret false
    else
      dev_update (fun d => tcmu_set_dev_num_lbas d (size / bs));;
      sectors ← opt (tcmu_get_attribute k (cd_names c) (str "hw_max_sectors"));
      if sectors <? 0 then mret false
      else dev_update (fun d => tcmu_set_dev_max_xfer_len d sectors);; mret true.

(** From the opened handler on.  The groups are read for the failover type; a
    failure to read them is ignored.
    [src tcmu-runner/main.c 800-823 dev_added] *)
Definition start_device (e : life_env) : L K Z :=
  c ← get_dev; k ← get_k;
  '(rdev, _) ← opt (tcmu_get_alua_grps (cd_dev c) (cd_names c) k (cd_rdev c));
  rdev_update (fun _ => rdev);;
  rdev_update (fun d => set_open d true);;
  ret ← init e RLockCond;
  if ret <? 0 then close_dev ret
  else
    dev_update (fun d => tcmu_set_dev_opt_unmap_gran d (tcmu_get_dev_max_xfer_len d));;
    dev_update (fun d => tcmu_set_dev_unmap_gran_align d 0);;
    ret ← init e RCmdproc;
    if ret <? 0 then cleanup_lock_cond ret else mret 0.

(** The work queue, the tracking and the handler.
    [src tcmu-runner/main.c 785-823 dev_added] *)
Definition open_device (e : life_env) : L K Z :=
  ret ← setup_io_work_queue e;
  if ret <? 0 then cleanup_state_lock ret
  else
    ret ← setup_aio_tracking e;
    if ret <? 0 then cleanup_wq ret
    else if negb (en_open e =? 0) then cleanup_tracking (en_open e)
    else acquire RHandler;; start_device e.

(** [src tcmu-runner/main.c dev_added] *)
Definition dev_added (e : life_env) : L K Z :=
  if negb (en_calloc e RRdev) then mret (- ENOMEM)
  else
    acquire RRdev;;
    mod_dev (fun c => cd_set_threads (cd_set_rdev c rdev0) None);;
    ok ← read_attributes;
    if negb ok then free_rdev (- EINVAL)
    else
      ret ← init e RSpin;
      if negb (ret =? 0) then free_rdev ret
      else
        ret ← init e RCawLock;
        if negb (ret =? 0) then cleanup_dev_lock ret
        else
          ret ← init e RFormatLock;
          if negb (ret =? 0) then cleanup_caw_lock ret
          else
            ret ← init e RStateLock;
            if negb (ret =? 0) then cleanup_format_lock ret
            else open_device e.

(** ** A device is removed *)

(** [tcmur_stop_device] closes the handler when it is open.
    [src tcmu-runner/main.c tcmur_stop_device] *)
Definition stop_device (e : life_env) : L K unit :=
  holding RStateLock;;
  c ← get_dev;
  let d := cd_rdev c in
  rdev_update (fun d => d_rdev (tcmur_stop_device (DSt d (en_answers e) [])));;
  if negb (stopped d) && is_open d then release RHandler else mret tt.

(** [en_tracked]: the commands that are tracked after
    [aio_wait_for_empty_queue].
    [src tcmu-runner/main.c dev_removed] *)
Definition dev_removed (e : life_env) : L K unit :=
  holding RStateLock;;
  rdev_update (fun d => set_stop d true (stopped d));;
  cleanup_io_work_queue_threads;;
  holding RTrackLock;;
  release RCmdproc;;
  stop_device e;;
  cleanup_io_work_queue false;;
  cleanup_aio_tracking (en_tracked e);;
  release RLockCond;;
  release RStateLock;;
  release RFormatLock;;
  release RCawLock;;
  release RSpin;;
  release RRdev.

(** ** A device is reconfigured *)

(** [src tcmu-runner/main.c dev_resize] *)
Definition dev_resize (e : life_env) (size : Z) : L K Z :=
  c ← get_dev;
  let d := cd_dev c in
  if u64 (tcmu_get_dev_num_lbas d * tcmu_get_dev_block_size d) =? size then mret 0
  else if negb (en_reconfig e =? 0) then mret (en_reconfig e)
  else
    '(d, ret) ← opt (tcmu_update_num_lbas d size);
    dev_update (fun _ => d);;
    (if ret =? 0 then rdev_update (fun d => tcmur_set_pending_ua d TCMUR_UA_DEV_SIZE_CHANGED) else mret tt);;
    mret ret.

(** [src tcmu-runner/main.c dev_reconfig] *)
Definition dev_reconfig (e : life_env) (cfg : tcmulib_cfg_info) : L K Z :=
  c ← get_dev;
  match cd_handler c with
  | None => undefined
  | Some h =>
      if negb (rh_reconfig h) then mret (- EOPNOTSUPP)
      else match cfg with
      | TCMULIB_CFG_DEV_SIZE size => dev_resize e size
      | _ => mret (en_reconfig e)
      end
  end.

#[export] Instance runner : Callouts K := {
  added := dev_added;
  removed := dev_removed;
  reconfig := Some dev_reconfig
}.
End runner.
