(* ===== verification/RunnerThm.v ===== *)
(** * The runner's devices: all or nothing

    The interface [CalloutsLaws] of what the library relies on, and the proof
    that the runner keeps it when the calls succeed whose failure it does not
    notice; what becomes of a device when they fail. *)

From S2P Require Import Prelude Scsi Device Backstore Rdev Configfs Alua Dispatch Life Libtcmu Runner.

(** Runs the operations that only look at the state or change the object. *)
Ltac lrun :=
  unfold rdev_update, dev_update, get_nr_threads, get_dev, mod_dev, get_k, put_k, opt, mbind, L_bind, mret, L_ret;
  cbn [l_k l_held l_dev cd_dev cd_names cd_name cd_handler cd_rdev io_wq_threads cd_set_dev cd_set_rdev
       cd_set_threads cd_set_ring].

(** ** The work queue *)

Definition workers_from (i n : nat) : gset res := list_to_set (RWorker <$> seq i n).

Lemma elem_of_workers x i n : x ∈ workers_from i n <-> exists j, x = RWorker j /\ (i <= j < i + n)%nat.
Proof.
  unfold workers_from. rewrite elem_of_list_to_set, list_elem_of_fmap.
  split; [intros (j & -> & Hj%elem_of_seq)|intros (j & -> & Hj)]; exists j; split; try done. by apply elem_of_seq.
Qed.

Lemma workers_S i n : workers_from i (S n) = {[RWorker i]} ∪ workers_from (S i) n.
Proof. unfold workers_from. cbn [seq fmap list_fmap list_to_set]. done. Qed.

Lemma not_worker r i n : (forall j, r <> RWorker j) -> r ∉ workers_from i n.
Proof. intros H (j & -> & _)%elem_of_workers. by apply (H j). Qed.

Lemma cancel_workers_run {K} n : forall i (k : K) h c, no_workers h ->
  cancel_workers i (replicate n true) (LSt k (h ∪ workers_from i n) c) = Some (tt, LSt k h c).
Proof.
  induction n as [|n IH]; intros i k h c Hh; cbn [replicate cancel_workers].
  - lrun. do 3 f_equal. unfold workers_from. cbn. set_solver.
  - rewrite (bind_some _ _ _ tt (LSt k (h ∪ workers_from (S i) n) c)); [by apply IH|].
    apply release_from; [rewrite workers_S; set_solver| |by intros []|done].
    intros [H|(j & [= <-] & Hj)%elem_of_workers]%elem_of_union; [by apply (Hh i)|lia].
Qed.

Lemma insert_next i n : <[i := true]> (replicate i true ++ replicate (S n) false) = replicate (S i) true ++ replicate n false.
Proof.
  cbn [replicate]. pose proof (insert_app_r (replicate i true) (false :: replicate n false) 0 true) as H.
  rewrite length_replicate, Nat.add_0_r in H. rewrite H. cbn.
  change (true :: replicate i true ++ replicate n false) with ((true :: replicate i true) ++ replicate n false).
  by rewrite replicate_cons_app, <- app_assoc.
Qed.

Lemma create_workers_run {K} e n : forall i (k : K) h c, (forall j, en_init e (RWorker j) = 0) -> no_workers h ->
  io_wq_threads c = Some (replicate i true ++ replicate n false) ->
  create_workers e i n (LSt k (h ∪ workers_from 0 i) c) =
  Some (0, LSt k (h ∪ workers_from 0 (i + n)) (cd_set_threads c (Some (replicate (i + n) true)))).
Proof.
  induction n as [|n IH]; intros i k h c He Hh Ht; cbn [create_workers].
  - rewrite Nat.add_0_r. lrun. cbn [replicate] in Ht. rewrite app_nil_r in Ht. destruct c. cbn in Ht. by rewrite Ht.
  - assert (RWorker i ∉ h ∪ workers_from 0 i) as Hi.
    { intros [H|(j & [= <-] & Hj)%elem_of_workers]%elem_of_union; [by apply (Hh i)|lia]. }
    rewrite (bind_some _ _ _ _ _ (init_zero e (RWorker i) k _ c (He i) Hi)).
    cbn [Z.eqb negb]. lrun. rewrite Ht. cbn [fmap option_fmap option_map]. rewrite insert_next.
    replace (h ∪ workers_from 0 i ∪ {[RWorker i]}) with (h ∪ workers_from 0 (S i)).
    + rewrite IH; [|done..]. rewrite Nat.add_succ_r. done.
    + unfold workers_from. rewrite seq_S, fmap_app, list_to_set_app_L. cbn. set_solver.
Qed.

(** The locks of [struct tcmur_device]. *)
Definition base_res : gset res :=
  lib_res ∪ {[RRdev]} ∪ {[RSpin]} ∪ {[RCawLock]} ∪ {[RFormatLock]} ∪ {[RStateLock]}.

Definition wq_res (n : nat) : gset res :=
  match n with O => ∅ | S _ => {[RIoLock]} ∪ {[RIoCond]} ∪ {[RThreads]} ∪ workers_from 0 n end.
Definition wq_threads (n : nat) : option (list bool) := match n with O => None | S _ => Some (replicate n true) end.
Definition threads_of (c : cdev) : nat := Z.to_nat (nr_threads (rhandler (cd_dev c))).

(** The calls whose failure [dev_added] does not notice. *)
Definition unnoticed (r : res) : bool :=
  match r with RIoLock | RIoCond | RThreads | RWorker _ | RTrackLock | RLockCond | RCmdproc => true | _ => false end.

(** An environment in which those succeed, except perhaps the array of threads
    and the thread of the device. *)
Record env_fair (e : life_env) : Prop := {
  ef_init : forall r, unnoticed r = true -> r <> RCmdproc -> en_init e r = 0;
  ef_cmdproc : 0 <= en_init e RCmdproc
}.

(** An environment in which all of them succeed, and in which no command is
    tracked once a device was waited for; the rest may fail. *)
Record env_sound (e : life_env) : Prop := {
  es_fair : env_fair e;
  es_cmdproc : en_init e RCmdproc = 0;
  es_threads : en_calloc e RThreads = true;
  es_tracked : en_tracked e = 0
}.

(** The threads that the device gets. *)
Definition got_threads (e : life_env) (c : cdev) : nat := if en_calloc e RThreads then threads_of c else 0.

Lemma set_threads_same c : cd_set_threads c (io_wq_threads c) = c.
Proof. by destruct c. Qed.

Lemma no_workers_base : no_workers base_res.
Proof. intros j. unfold base_res, lib_res. set_solver. Qed.

Lemma setup_wq_run {K} e (k : K) c : env_fair e -> 0 <= nr_threads (rhandler (cd_dev c)) -> io_wq_threads c = None ->
  setup_io_work_queue e (LSt k base_res c) =
  Some (0, LSt k (base_res ∪ wq_res (got_threads e c)) (cd_set_threads c (wq_threads (got_threads e c)))).
Proof.
  intros [He _] Hn Hc. unfold setup_io_work_queue, got_threads, threads_of. lrun.
  generalize dependent (nr_threads (rhandler (cd_dev c))). intros nr Hn.
  destruct (Z.eqb_spec nr 0) as [->|Hz].
  - change (Z.to_nat 0) with 0%nat.
    replace (if en_calloc e RThreads then 0%nat else 0%nat) with 0%nat by (by destruct (en_calloc e RThreads)).
    cbn [wq_res wq_threads]. rewrite <- Hc, set_threads_same. by rewrite union_empty_r_L.
  - destruct (Z.to_nat nr) as [|n] eqn:En; [lia|].
    rewrite init_zero; [|by apply He|unfold base_res, lib_res; set_solver]. cbn [Z.eqb negb].
    rewrite init_zero; [|by apply He|unfold base_res, lib_res; set_solver]. cbn [Z.eqb negb].
    rewrite (proj2 (Z.ltb_ge _ _) Hn). destruct (en_calloc e RThreads); cbn [negb orb].
    2:{ lrun. rewrite release_last by first [done|unfold base_res, lib_res; set_solver|unfold base_res; nobody].
        rewrite release_last by first [done|unfold base_res, lib_res; set_solver|unfold base_res; nobody].
        cbn [wq_res wq_threads]. by rewrite union_empty_r_L. }
    rewrite acquire_ok by (unfold base_res, lib_res; cbn [l_held]; set_solver). cbn [l_k l_held l_dev].
    pose proof (create_workers_run e (S n) 0 k (base_res ∪ {[RIoLock]} ∪ {[RIoCond]} ∪ {[RThreads]})
      (cd_set_threads c (Some (replicate (S n) false)))) as H.
    replace (base_res ∪ {[RIoLock]} ∪ {[RIoCond]} ∪ {[RThreads]})
      with (base_res ∪ {[RIoLock]} ∪ {[RIoCond]} ∪ {[RThreads]} ∪ workers_from 0 0) by (unfold workers_from; cbn; set_solver).
    rewrite H; [| |intros j; unfold base_res, lib_res; set_solver|done].
    + cbn [Z.eqb negb Nat.add]. do 3 f_equal. unfold wq_res. set_solver.
    + intros j. by apply He.
Qed.

Lemma cleanup_wq_run {K} n (k : K) h c : no_workers h -> (n <> 0%nat -> RIoLock ∉ h /\ RIoCond ∉ h /\ RThreads ∉ h) ->
  io_wq_threads c = wq_threads n ->
  cleanup_io_work_queue true (LSt k (h ∪ wq_res n) c) = Some (tt, LSt k h c).
Proof.
  intros Hw Hf Hc. unfold cleanup_io_work_queue, cleanup_io_work_queue_threads. lrun. rewrite Hc.
  destruct n as [|n]; cbn [wq_threads wq_res]; [do 3 f_equal; set_solver|].
  destruct (Hf ltac:(done)) as (H1 & H2 & H3).
  cbn [l_dev]. rewrite Hc. cbn [wq_threads]. rewrite holding_ok by (cbn [l_held]; set_solver).
  replace (h ∪ ({[RIoLock]} ∪ {[RIoCond]} ∪ {[RThreads]} ∪ workers_from 0 (S n)))
    with (h ∪ {[RIoLock]} ∪ {[RIoCond]} ∪ {[RThreads]} ∪ workers_from 0 (S n)) by set_solver.
  rewrite cancel_workers_run by (intros j; specialize (Hw j); set_solver).
  rel RIoLock (h ∪ {[RIoCond]} ∪ {[RThreads]}).
  rel RIoCond (h ∪ {[RThreads]}).
  by rel RThreads h.
Qed.

(** ** Giving up *)

Section labels.
Context {K : Type} (ret : Z) (k : K) (c : cdev).

Lemma free_rdev_run : free_rdev ret (LSt k (lib_res ∪ {[RRdev]}) c) = Some (ret, LSt k lib_res c).
Proof. unfold free_rdev. lrun. unfold lib_res. by rel RRdev lib_res. Qed.

Lemma cleanup_dev_lock_run :
  cleanup_dev_lock ret (LSt k (lib_res ∪ {[RRdev]} ∪ {[RSpin]}) c) = Some (ret, LSt k lib_res c).
Proof.
  unfold cleanup_dev_lock. lrun. unfold lib_res. rel RSpin (lib_res ∪ {[RRdev]}). apply free_rdev_run.
Qed.

Lemma cleanup_caw_lock_run :
  cleanup_caw_lock ret (LSt k (lib_res ∪ {[RRdev]} ∪ {[RSpin]} ∪ {[RCawLock]}) c) = Some (ret, LSt k lib_res c).
Proof.
  unfold cleanup_caw_lock. lrun. unfold lib_res. rel RCawLock (lib_res ∪ {[RRdev]} ∪ {[RSpin]}).
  apply cleanup_dev_lock_run.
Qed.

Lemma cleanup_format_lock_run :
  cleanup_format_lock ret (LSt k (lib_res ∪ {[RRdev]} ∪ {[RSpin]} ∪ {[RCawLock]} ∪ {[RFormatLock]}) c) =
  Some (ret, LSt k lib_res c).
Proof.
  unfold cleanup_format_lock. lrun. unfold lib_res.
  rel RFormatLock (lib_res ∪ {[RRdev]} ∪ {[RSpin]} ∪ {[RCawLock]}). apply cleanup_caw_lock_run.
Qed.

Lemma cleanup_state_lock_run : cleanup_state_lock ret (LSt k base_res c) = Some (ret, LSt k lib_res c).
Proof.
  unfold cleanup_state_lock, base_res. lrun. unfold lib_res.
  rel RStateLock (lib_res ∪ {[RRdev]} ∪ {[RSpin]} ∪ {[RCawLock]} ∪ {[RFormatLock]}). apply cleanup_format_lock_run.
Qed.

Lemma elem_of_wq x n : x ∈ wq_res n -> x = RIoLock \/ x = RIoCond \/ x = RThreads \/ exists j, x = RWorker j.
Proof.
  destruct n as [|n]; cbn [wq_res]; [set_solver|].
  intros [H|(j & -> & _)%elem_of_workers]%elem_of_union; [set_solver|eauto].
Qed.

Lemma not_in_base_wq r n : r ∉ base_res -> match r with RIoLock | RIoCond | RThreads | RWorker _ => False | _ => True end ->
  r ∉ base_res ∪ wq_res n.
Proof. intros H Hr [?|Hw]%elem_of_union; [done|]. by destruct (elem_of_wq _ _ Hw) as [->|[->|[->|(j & ->)]]]. Qed.

Lemma cleanup_tracking_run n : io_wq_threads c = wq_threads n ->
  cleanup_tracking ret (LSt k (base_res ∪ wq_res n ∪ {[RTrackLock]}) c) = Some (ret, LSt k lib_res c).
Proof.
  intros Hc. unfold cleanup_tracking, cleanup_wq, cleanup_aio_tracking. lrun. cbn [Z.eqb].
  rewrite release_last; [| | |done].
  - rewrite cleanup_wq_run; [apply cleanup_state_lock_run|apply no_workers_base| |done].
    intros _. unfold base_res, lib_res. set_solver.
  - apply not_in_base_wq; [unfold base_res, lib_res; set_solver|done].
  - intros x Hx. destruct x; try done. exfalso. revert Hx.
    apply not_in_base_wq; [unfold base_res, lib_res; set_solver|done].
Qed.
End labels.

(** ** Adding *)

(** What the runner reads in configfs is text that its readers can parse. *)
Class Readable (K : Type) {HK : Kernel K} := {
  rd_attribute : forall (k : K) nm name, exists v, tcmu_get_attribute k nm name = Some v /\ v <= INT_MAX;
  rd_size : forall (k : K) nm, is_Some (tcmu_get_dev_size k nm);
  rd_groups : forall dev nm (k : K) d, is_Some (tcmu_get_alua_grps dev nm k d)
}.

Section adding.
Context {K : Type} {HK : Kernel K} {HR : Readable K}.

(** Everything the runner holds of a device. *)
Definition full_res (n : nat) (open : bool) : gset res :=
  base_res ∪ wq_res n ∪ {[RTrackLock]} ∪ (if open then {[RHandler]} else ∅) ∪ {[RLockCond]} ∪ {[RCmdproc]}.

(** The attributes of the kernel, when they are what a device needs. *)
Definition attributes (k : K) (nm : dev_names) (bs size sectors : Z) : Prop :=
  tcmu_get_attribute k nm (str "hw_block_size") = Some bs /\ tcmu_get_dev_size k nm = Some size /\
  tcmu_get_attribute k nm (str "hw_max_sectors") = Some sectors /\ 0 < bs <= INT_MAX /\ 0 <= size /\ 0 <= sectors.

(** They are in the device. *)
Definition configured (k : K) (nm : dev_names) (d : tcmu_device) : Prop :=
  exists bs size sectors, attributes k nm bs size sectors /\
    block_size d = u32 bs /\ num_lbas d = u64 (size / bs) /\ max_xfer_len d = u32 sectors.

Lemma read_attributes_run (k : K) h c :
  exists ok d, read_attributes (LSt k h c) = Some (ok, LSt k h (cd_set_dev c d)) /\
    rhandler d = rhandler (cd_dev c) /\ cfgstring d = cfgstring (cd_dev c) /\
    (ok = true -> configured k (cd_names c) d) /\
    (ok = false -> forall bs size sectors, ~ attributes k (cd_names c) bs size sectors).
Proof.
  unfold read_attributes. lrun.
  destruct (rd_attribute k (cd_names c) (str "hw_block_size")) as (bs & Hbs & Hmax).
  destruct (rd_size k (cd_names c)) as [size Hs].
  destruct (rd_attribute k (cd_names c) (str "hw_max_sectors")) as (sec & Hsec & _).
  assert (forall d, bs <= 0 \/ size < 0 \/ sec < 0 -> exists d', Some (false, LSt k h (cd_set_dev c d)) = Some (false, LSt k h (cd_set_dev c d')) /\
    forall bs size sectors, ~ attributes k (cd_names c) bs size sectors) as Hno.
  { intros d Hbad. exists d. split; [done|]. intros bs' size' sec' (H1 & H2 & H3 & H4 & H5 & H6). simplify_eq. lia. }
  rewrite Hbs. cbn [option_bind]. case_if.
  { exists false, (cd_dev c). destruct (Hno (cd_dev c)) as (_ & _ & H); [lia|]. by destruct c. }
  lrun. rewrite Hs. cbn [option_bind]. case_if.
  { eexists false, _. split; [done|]. destruct (Hno (cd_dev c)) as (_ & _ & H); [lia|]. done. }
  lrun. rewrite Hsec. cbn [option_bind]. case_if.
  { eexists false, _. split; [done|]. destruct (Hno (cd_dev c)) as (_ & _ & H); [lia|]. done. }
  eexists true, _. split; [done|]. split; [done|]. split; [done|]. split; [|done]. intros _. exists bs, size, sec.
  repeat split; try done; lia.
Qed.

(** The device was not stopped, and its work queue has [n] threads. *)
Record running (n : nat) (c : cdev) : Prop := {
  ru_stopped : stopped (cd_rdev c) = false;
  ru_threads : io_wq_threads c = wq_threads n
}.

Lemma in_full_parts r n (open : bool) : r ∈ full_res n open <->
  r ∈ base_res \/ r ∈ wq_res n \/ r = RTrackLock \/ (open = true /\ r = RHandler) \/ r = RLockCond \/ r = RCmdproc.
Proof. unfold full_res. destruct open; set_solver. Qed.

Ltac out_of_base := unfold base_res, lib_res in *; set_solver.

(** What a device that was added holds. *)
Definition held_after (e : life_env) (n : nat) : gset res :=
  base_res ∪ wq_res n ∪ {[RTrackLock]} ∪ {[RHandler]} ∪ {[RLockCond]} ∪
  (if en_init e RCmdproc =? 0 then {[RCmdproc]} else ∅).

Lemma start_device_run e (k : K) c n : env_fair e -> stopped (cd_rdev c) = false -> io_wq_threads c = wq_threads n ->
  exists c', start_device e (LSt k (base_res ∪ wq_res n ∪ {[RTrackLock]} ∪ {[RHandler]}) c) =
      Some (0, LSt k (held_after e n) c') /\
    same_dev c c' /\ stopped (cd_rdev c') = false /\ is_open (cd_rdev c') = true /\ io_wq_threads c' = wq_threads n /\
    (forall nm, configured k nm (cd_dev c) -> configured k nm (cd_dev c')).
Proof.
  intros [He Hcp] Hs Hc. unfold start_device. lrun.
  destruct (rd_groups (cd_dev c) (cd_names c) k (cd_rdev c)) as [[rd gs] Hg]. rewrite Hg. cbn [option_bind].
  apply alua_grps_failover in Hg as [fo ->].
  set (h := base_res ∪ wq_res n ∪ {[RTrackLock]} ∪ {[RHandler]}).
  assert (RRdev ∈ h) as Hr by (unfold h; out_of_base).
  rewrite holding_ok by done. lrun. rewrite holding_ok by done. lrun.
  assert (forall r, r ∉ base_res -> r <> RTrackLock -> r <> RHandler ->
    match r with RIoLock | RIoCond | RThreads | RWorker _ => False | _ => True end -> r ∉ h) as Hn.
  { intros r Hb Ht Hh Hw [[Hx|Hx%elem_of_singleton]%elem_of_union|Hx%elem_of_singleton]%elem_of_union; [|done|done].
    by apply (not_in_base_wq r n Hb Hw). }
  rewrite init_zero; [|by apply He|apply Hn; [out_of_base|done..]]. cbn [Z.ltb Z.compare]. lrun.
  unfold held_after. fold h. destruct (Z.eqb_spec (en_init e RCmdproc) 0) as [E|E].
  - rewrite init_zero; [|done|]. 2:{ apply not_elem_of_union. split; [apply Hn; [out_of_base|done..]|set_solver]. }
    cbn [Z.ltb Z.compare]. eexists. split; [reflexivity|]. destruct c; cbn in *. by repeat split.
  - rewrite init_fails by done. rewrite (proj2 (Z.ltb_ge _ _) Hcp). rewrite union_empty_r_L.
    eexists. split; [reflexivity|]. destruct c; cbn in *. by repeat split.
Qed.

Lemma same_dev_threads c t : same_dev c (cd_set_threads c t).
Proof. by destruct c. Qed.
Lemma same_dev_rdev c d : same_dev c (cd_set_rdev c d).
Proof. by destruct c. Qed.
Lemma same_dev_dev c d : rhandler d = rhandler (cd_dev c) -> cfgstring d = cfgstring (cd_dev c) -> same_dev c (cd_set_dev c d).
Proof. by destruct c. Qed.

(** What an added device is: running, with an open handler, and configured. *)
Definition started (e : life_env) (k : K) (nm : dev_names) (c : cdev) : Prop :=
  running (got_threads e c) c /\ is_open (cd_rdev c) = true /\ configured k nm (cd_dev c).

(** When adding a device succeeds, whatever else fails. *)
Definition starts (e : life_env) (k : K) (nm : dev_names) : Prop :=
  en_calloc e RRdev = true /\ (exists bs size sectors, attributes k nm bs size sectors) /\
  en_init e RSpin = 0 /\ en_init e RCawLock = 0 /\ en_init e RFormatLock = 0 /\ en_init e RStateLock = 0 /\ en_open e = 0.

(** What adding a device leaves. *)
Definition added_as (e : life_env) (k : K) (c : cdev) (x : option (Z * lst K)) : Prop :=
  exists ret c', x = Some (ret, LSt k (if ret =? 0 then held_after e (got_threads e c') else lib_res) c') /\
    same_dev c c' /\ (ret = 0 -> started e k (cd_names c) c') /\ (starts e k (cd_names c) -> ret = 0).

Lemma refused e k c ret c' : ret <> 0 -> same_dev c c' -> ~ starts e k (cd_names c) ->
  added_as e k c (Some (ret, LSt k lib_res c')).
Proof. intros Hr Hs Hn. exists ret, c'. rewrite (proj2 (Z.eqb_neq _ _) Hr). by split_and!. Qed.

Lemma threads_same c c' : same_dev c c' -> threads_of c' = threads_of c.
Proof. intros H. unfold threads_of. by rewrite (sd_rhandler _ _ H). Qed.

Lemma got_same e c c' : same_dev c c' -> got_threads e c' = got_threads e c.
Proof. intros H. unfold got_threads. by rewrite (threads_same c c' H). Qed.

Lemma open_device_run e (k : K) c : env_fair e -> 0 <= nr_threads (rhandler (cd_dev c)) ->
  stopped (cd_rdev c) = false -> io_wq_threads c = None -> configured k (cd_names c) (cd_dev c) ->
  added_as e k c (open_device e (LSt k base_res c)).
Proof.
  intros He Hn Hs Hc Hcfg. unfold open_device. lrun. rewrite (setup_wq_run e k c He Hn Hc).
  cbn [Z.ltb Z.compare]. set (n := got_threads e c). unfold setup_aio_tracking.
  rewrite init_zero; [|by apply (ef_init _ He)|apply not_in_base_wq; [out_of_base|done]]. cbn [Z.ltb Z.compare].
  destruct (Z.eqb_spec (en_open e) 0) as [Ho|Ho]; cbn [negb].
  - rewrite acquire_ok; cbn [l_held l_k l_dev].
    2:{ intros [Hx|Hx%elem_of_singleton]%elem_of_union; [|done]. revert Hx. apply not_in_base_wq; [out_of_base|done]. }
    destruct (start_device_run e k (cd_set_threads c (wq_threads n)) n He) as (c' & E & S & H1 & H2 & H3 & H4);
      [by destruct c|by destruct c|].
    assert (same_dev c c') as S' by (etrans; [apply same_dev_threads|exact S]).
    rewrite E. exists 0, c'. cbn [Z.eqb]. rewrite (got_same e c c' S'). fold n.
    split; [done|]. split; [done|]. split; [|done]. intros _. split; [split; [done|]|split; [done|]].
    + rewrite H3. unfold n. by rewrite (got_same e c c' S').
    + apply H4. by destruct c.
  - rewrite cleanup_tracking_run by (by destruct c). apply refused; [done|apply same_dev_threads|by intros (?&?&?&?&?&?&?)].
Qed.

(** A lock that is initialised, or gives up with [run]. *)
Ltac try_init e r run Hno :=
  let E := fresh "E" in
  destruct (Z.eqb_spec (en_init e r) 0) as [E|E];
  [rewrite init_zero by first [done|unfold lib_res; set_solver]; cbn [Z.eqb negb]
  |rewrite init_fails by done; rewrite (proj2 (Z.eqb_neq _ _) E); cbn [negb]; rewrite run; apply Hno; [done|done|by intros (?&?&?&?&?&?&?)]].

Lemma dev_added_run e (k : K) c : env_fair e -> 0 <= nr_threads (rhandler (cd_dev c)) ->
  added_as e k c (dev_added e (LSt k lib_res c)).
Proof.
  intros He Hn. unfold dev_added. destruct (en_calloc e RRdev) eqn:Er; cbn [negb]; [|apply refused; [done..|intros (?&?); congruence]].
  lrun. rewrite acquire_ok by (unfold lib_res; cbn [l_held]; set_solver). lrun.
  set (c0 := cd_set_threads (cd_set_rdev c rdev0) None).
  destruct (read_attributes_run k (lib_res ∪ {[RRdev]}) c0) as (ok & d & E & Hd & Hcf & Hok & Hbad). rewrite E.
  set (c1 := cd_set_dev c0 d).
  assert (same_dev c c1) as S by by split.
  destruct ok; cbn [negb].
  2:{ rewrite free_rdev_run. apply refused; [done..|]. intros (_ & (bs & size & sec & Ha) & _). by apply (Hbad eq_refl bs size sec). }
  assert (forall ret (c' : cdev), same_dev c1 c' -> ret <> 0 -> ~ starts e k (cd_names c) ->
    added_as e k c (Some (ret, LSt k lib_res c'))) as Hno.
  { intros ret c' S' Hr Hst. apply refused; [done| |done]. by etrans. }
  try_init e RSpin (@free_rdev_run K) Hno.
  try_init e RCawLock (@cleanup_dev_lock_run K) Hno.
  try_init e RFormatLock (@cleanup_caw_lock_run K) Hno.
  try_init e RStateLock (@cleanup_format_lock_run K) Hno.
  destruct (open_device_run e k c1 He) as (ret & c' & E' & S' & Ho & Hst).
  - unfold c1. cbn. by rewrite Hd.
  - done.
  - done.
  - by apply Hok.
  - fold base_res. rewrite E'. exists ret, c'. split; [done|]. split; [by etrans|].
    by rewrite (sd_names _ _ S) in Ho, Hst.
Qed.

(** ** Removing *)

(** What is left of the work queue without its threads. *)
Definition wq_shell (n : nat) : gset res := match n with O => ∅ | S _ => {[RIoLock]} ∪ {[RIoCond]} ∪ {[RThreads]} end.

Lemma wq_split n : wq_res n = wq_shell n ∪ match n with O => ∅ | S _ => workers_from 0 n end.
Proof. destruct n; cbn [wq_res wq_shell]; set_solver. Qed.

Lemma elem_of_shell x n : x ∈ wq_shell n -> x = RIoLock \/ x = RIoCond \/ x = RThreads.
Proof. destruct n; cbn [wq_shell]; set_solver. Qed.

Lemma cancel_all n (k : K) h c : io_wq_threads c = wq_threads n -> no_workers h ->
  (n <> 0%nat -> RThreads ∈ h) ->
  cleanup_io_work_queue_threads (LSt k (h ∪ match n with O => ∅ | S _ => workers_from 0 n end) c) = Some (tt, LSt k h c).
Proof.
  intros Hc Hh Ht. unfold cleanup_io_work_queue_threads. lrun. rewrite Hc. destruct n as [|n]; cbn [wq_threads].
  - by rewrite union_empty_r_L.
  - specialize (Ht ltac:(done)). rewrite holding_ok by (cbn [l_held]; set_solver). by apply cancel_workers_run.
Qed.

Lemma shell_gone n (k : K) h c : io_wq_threads c = wq_threads n ->
  RIoLock ∉ h -> RIoCond ∉ h -> RThreads ∉ h -> no_workers h ->
  cleanup_io_work_queue false (LSt k (h ∪ wq_shell n) c) = Some (tt, LSt k h c).
Proof.
  intros Hc H1 H2 H3 Hw. unfold cleanup_io_work_queue. lrun. rewrite Hc. destruct n as [|n]; cbn [wq_threads wq_shell].
  - by rewrite union_empty_r_L.
  - replace (h ∪ ({[RIoLock]} ∪ {[RIoCond]} ∪ {[RThreads]})) with (h ∪ {[RIoLock]} ∪ {[RIoCond]} ∪ {[RThreads]}) by set_solver.
    rel RIoLock (h ∪ {[RIoCond]} ∪ {[RThreads]}). rel RIoCond (h ∪ {[RThreads]}). by rel RThreads h.
Qed.

Lemma locks_gone (k : K) c :
  (release RLockCond;; release RStateLock;; release RFormatLock;; release RCawLock;; release RSpin;; release RRdev)
    (LSt k (base_res ∪ {[RLockCond]}) c) = Some (tt, LSt k lib_res c).
Proof.
  lrun. rewrite release_last by first [done|unfold base_res, lib_res; set_solver|unfold base_res; nobody].
  unfold base_res. do 4 rewrite release_last by first [done|unfold lib_res; set_solver|nobody].
  by rewrite release_last by first [done|unfold lib_res; set_solver|nobody].
Qed.

(** Membership in what is left of a device while it is taken apart. *)
Ltac parts :=
  let Hx := fresh "Hx" in
  intros Hx; repeat (apply elem_of_union in Hx as [Hx|Hx]);
  first [by apply elem_of_singleton in Hx
        |by destruct (elem_of_shell _ _ Hx) as [?|[?|?]]
        |revert Hx; unfold base_res, lib_res; set_solver].

Lemma dev_removed_run e (k : K) n c : env_sound e -> running n c ->
  exists c', dev_removed e (LSt k (full_res n (is_open (cd_rdev c))) c) = Some (tt, LSt k lib_res c') /\
    same_dev c c'.
Proof.
  intros [_ _ _ Htr] [Hs Hc]. set (o := is_open (cd_rdev c)).
  assert (forall r, r ∈ base_res -> r ∈ full_res n o) as Hb by (intros r Hr; apply in_full_parts; by left).
  unfold dev_removed. lrun.
  rewrite holding_ok by (apply Hb; unfold base_res; set_solver). lrun.
  rewrite holding_ok by (apply Hb; unfold base_res; set_solver). lrun.
  set (c1 := cd_set_rdev c (set_stop (cd_rdev c) true (stopped (cd_rdev c)))).
  set (w := match n with O => ∅ | S _ => workers_from 0 n end).
  set (hd := if o then {[RHandler]} else ∅ : gset res).
  set (h1 := base_res ∪ wq_shell n ∪ {[RTrackLock]} ∪ {[RLockCond]} ∪ hd).
  replace (full_res n o) with (h1 ∪ {[RCmdproc]} ∪ w).
  2:{ unfold full_res, h1. rewrite wq_split. fold w hd. clear. set_solver. }
  assert (forall x, x ∈ hd -> x = RHandler) as Hhd by (unfold hd; destruct o; set_solver).
  assert (no_workers h1) as Hw1 by (intros j; unfold h1; intros [Hx|Hx%Hhd]%elem_of_union; [revert Hx; parts|done]).
  rewrite (cancel_all n k (h1 ∪ {[RCmdproc]}) c1); [|done| |].
  2:{ intros j [Hx|Hx%elem_of_singleton]%elem_of_union; [by apply (Hw1 j)|done]. }
  2:{ intros Hn. unfold h1. destruct n; [done|]. cbn [wq_shell]. set_solver. }
  rewrite holding_ok by (unfold h1; cbn [l_held]; set_solver).
  assert (RCmdproc ∉ h1) as Hcp by (unfold h1; intros [Hx|Hx%Hhd]%elem_of_union; [revert Hx; parts|done]).
  rewrite release_last by first [done|intros x _; by destruct x].
  set (h2 := base_res ∪ wq_shell n ∪ {[RTrackLock]} ∪ {[RLockCond]}).
  assert (stop_device e (LSt k h1 c1) =
    Some (tt, LSt k h2 (cd_set_rdev c1 (d_rdev (tcmur_stop_device (DSt (cd_rdev c1) (en_answers e) [])))))) as ->.
  { unfold stop_device. lrun. rewrite holding_ok by (unfold h1, base_res; cbn [l_held]; set_solver).
    rewrite holding_ok by (unfold h1, base_res; cbn [l_held]; set_solver). unfold c1. cbn [l_dev l_k l_held cd_rdev cd_set_rdev stopped set_stop is_open].
    rewrite Hs. cbn [negb andb]. fold o. unfold h1, hd. destruct o.
    - rewrite release_last; [done| | |done].
      + parts.
      + intros x Hx. destruct x; try done; exfalso; revert Hx; parts.
    - by rewrite union_empty_r_L. }
  set (c2 := cd_set_rdev c1 _).
  replace h2 with (base_res ∪ {[RLockCond]} ∪ {[RTrackLock]} ∪ wq_shell n) by (unfold h2; clear; set_solver).
  rewrite shell_gone; [|done|parts..|intros j; parts].
  unfold cleanup_aio_tracking. rewrite Htr. cbn [Z.eqb].
  rewrite release_last; [|parts| |done].
  2:{ intros x Hx. destruct x; try done; exfalso; revert Hx; parts. }
  pose proof (locks_gone k c2) as H. revert H. lrun. intros ->. exists c2. split; [done|].
  unfold c2, c1. etrans; apply same_dev_rdev.
Qed.

(** ** Reconfiguring *)

Lemma holding_full r n o (k : K) c : r ∈ base_res -> holding r (LSt k (full_res n o) c) = Some (tt, LSt k (full_res n o) c).
Proof. intros Hr. apply holding_ok, in_full_parts. by left. Qed.

Lemma dev_reconfig_run e cfg (k : K) n c : cd_handler c <> None -> running n c -> block_size (cd_dev c) <> 0 ->
  let h := full_res n (is_open (cd_rdev c)) in
  exists ret c', dev_reconfig e cfg (LSt k h c) = Some (ret, LSt k h c') /\
    same_dev c c' /\ running n c' /\ is_open (cd_rdev c') = is_open (cd_rdev c) /\ block_size (cd_dev c') <> 0.
Proof.
  intros Hh [Hs Hc] Hb h. unfold dev_reconfig. lrun. destruct (cd_handler c) as [th|] eqn:Eh; [|done].
  assert (forall ret : Z, exists ret' c', Some (ret, LSt k h c) = Some (ret', LSt k h c') /\
    same_dev c c' /\ running n c' /\ is_open (cd_rdev c') = is_open (cd_rdev c) /\ block_size (cd_dev c') <> 0) as Hsame
    by (intros ret; by exists ret, c).
  case_if; [apply Hsame|]. destruct cfg as [s|size|b]; [apply Hsame| |apply Hsame].
  unfold dev_resize. lrun. case_if; [apply Hsame|]. case_if; [apply Hsame|].
  unfold tcmu_update_num_lbas. destruct (Z.eqb_spec size 0) as [->|Hz].
  - cbn [option_bind]. lrun. replace (- EINVAL =? 0) with false by done. lrun.
    eexists _, _. split; [done|]. destruct c; cbn in *. by repeat split.
  - rewrite (proj2 (Z.eqb_neq _ _) Hb). cbn [option_bind Z.eqb]. lrun.
    unfold h. rewrite holding_full by (unfold base_res; set_solver). lrun.
    eexists _, _. split; [done|]. destruct c; cbn in *. by repeat split.
Qed.

(** ** Failures that are not noticed *)

Lemma holding_some r (s : lst K) x : holding r s = Some x -> x = (tt, s).
Proof. unfold holding. case_decide; by intros [= <-]. Qed.

Lemma release_some r (s s' : lst K) : release r s = Some (tt, s') -> l_held s' ⊆ l_held s.
Proof. unfold release. case_decide; [|done]. case_if; [done|]. intros [= <-]. cbn [l_held]. set_solver. Qed.

Lemma cancel_workers_sub t : forall i (s s' : lst K), cancel_workers i t s = Some (tt, s') -> l_held s' ⊆ l_held s.
Proof.
  induction t as [|b t IH]; intros i s s'; cbn [cancel_workers]; [by intros [= <-]|]. lrun.
  destruct b; [|apply IH].
  destruct (release (RWorker i) s) as [[[] s1]|] eqn:E; [|done]. intros H. apply IH in H. apply release_some in E. set_solver.
Qed.

(** A device whose thread does not exist cannot be removed. *)
Lemma removed_without_thread e (s : lst K) : RCmdproc ∉ l_held s -> dev_removed e s = None.
Proof.
  intros Hn. unfold dev_removed. lrun.
  destruct (holding RStateLock s) as [[[] s1]|] eqn:E1; [|done]. apply holding_some in E1 as [= ->].
  destruct (holding RRdev s) as [[[] s2]|] eqn:E2; [|done]. apply holding_some in E2 as [= ->].
  set (s3 := LSt _ _ _).
  destruct (cleanup_io_work_queue_threads s3) as [[[] s4]|] eqn:E4; [|done].
  assert (l_held s4 ⊆ l_held s3) as Hs.
  { revert E4. unfold cleanup_io_work_queue_threads. lrun. destruct (io_wq_threads _) as [t|]; [|by intros [= <-]].
    destruct (holding RThreads s3) as [[[] s5]|] eqn:E5; [|done]. apply holding_some in E5 as [= ->]. apply cancel_workers_sub. }
  destruct (holding RTrackLock s4) as [[[] s5]|] eqn:E5; [|done]. apply holding_some in E5 as [= ->].
  unfold release at 1. rewrite decide_False; [done|]. cbn [l_held s3] in Hs. set_solver.
Qed.

(** C38: Thread and lock functions report failure by a positive number, and the
    runner looks for a negative one.  When everything before it succeeds, a
    device is accepted although the array of its worker threads cannot be
    allocated (it has neither workers nor the lock of their queue, which each of
    its commands takes) and although the thread that fetches commands cannot be
    created (nobody will, and removing the device is undefined). *)
Theorem start_failure_unnoticed e (k : K) c (He : env_fair e) (Hn : 0 <= nr_threads (rhandler (cd_dev c)))
  (Hs : starts e k (cd_names c)) :
  exists c' h, dev_added e (LSt k lib_res c) = Some (0, LSt k h c') /\
    (en_calloc e RThreads = false -> io_wq_threads c' = None /\ RIoLock ∉ h /\ forall i, RWorker i ∉ h) /\
    (en_init e RCmdproc <> 0 -> RCmdproc ∉ h /\ forall e', dev_removed e' (LSt k h c') = None).
Proof.
  destruct (dev_added_run e k c He Hn) as (ret & c' & E & S & H & Hz). specialize (Hz Hs). subst ret.
  exists c', (held_after e (got_threads e c')). rewrite E. split; [done|].
  destruct (H eq_refl) as ([_ Ht] & _). split.
  - intros Hc. unfold got_threads in *. rewrite Hc in *. split; [done|]. unfold held_after, base_res, lib_res. cbn [wq_res].
    split; [case_if; set_solver|]. intros i. case_if; set_solver.
  - intros Hi. assert (RCmdproc ∉ held_after e (got_threads e c')) as Hm.
    { unfold held_after. rewrite (proj2 (Z.eqb_neq _ _) Hi).
      pose proof (not_in_base_wq RCmdproc (got_threads e c')) as Hb. unfold base_res, lib_res in *. set_solver. }
    split; [done|]. intros e'. by apply removed_without_thread.
Qed.

(** ** The runner is a client of the library *)

Definition runner_own (c : cdev) : gset res := full_res (threads_of c) (is_open (cd_rdev c)) ∖ lib_res.

Lemma lib_own n o : lib_res ∪ (full_res n o ∖ lib_res) = full_res n o.
Proof.
  symmetry. apply union_difference_L. intros r Hr. apply in_full_parts. left. unfold base_res. set_solver.
Qed.

Lemma u32_positive bs : 0 < bs <= INT_MAX -> u32 bs <> 0.
Proof. intros H. unfold INT_MAX in H. rewrite u32_small by lia. lia. Qed.

#[export] Program Instance runner_laws : CalloutsLaws K := {
  cl_env := env_sound;
  cl_handler h := 0 <= nr_threads h;
  cl_own := runner_own;
  cl_ok c := running (threads_of c) c /\ block_size (cd_dev c) <> 0
}.
Next Obligation.
  intros e k c He Hn. destruct (dev_added_run e k c (es_fair _ He) Hn) as (ret & c' & E & S & H & _). exists ret, c'.
  assert (forall x, got_threads e x = threads_of x) as Hg by (intros x; unfold got_threads; by rewrite (es_threads _ He)).
  rewrite Hg in E. unfold held_after in E. rewrite (es_cmdproc _ He) in E. split; [|split; [done|]].
  - cbn [added runner]. rewrite E. unfold runner_own. destruct (Z.eqb_spec ret 0) as [Hr|Hr]; [|done].
    destruct (H Hr) as (_ & Ho & _). by rewrite Ho, lib_own.
  - intros Hr. destruct (H Hr) as (R & _ & bs & size & sec & (_ & _ & _ & Hbs & _) & -> & _).
    rewrite Hg in R. split; [done|]. by apply u32_positive.
Qed.
Next Obligation.
  intros e k c He _ [R _]. unfold runner_own. rewrite lib_own. by apply dev_removed_run.
Qed.
Next Obligation.
  intros f e cfg k c [= <-] He _ Hh [R Hb]. unfold runner_own. rewrite lib_own.
  destruct (dev_reconfig_run e cfg k _ c Hh R Hb) as (ret & c' & E & S & R' & Ho & Hb'). exists ret, c'.
  rewrite lib_own, (threads_same c c' S), Ho. done.
Qed.
End adding.

(** ** Over a small kernel *)

(** A kernel that remembers what is written to a file, with one uio device.
    Below /sys/c(lass), a file whose path ends with "me" holds its name, any
    other one the size of the ring. *)
Abbreviation demo_k := (gmap (list Z) (list Z)).

#[export] Instance demo_kernel : Kernel demo_k := {
  k_read k p := inr (if bool_decide (p !! 5%nat <> Some 99) then str "512 Size: 1048576 " ++ [10]
                     else if bool_decide (drop (length p - 2) p = str "me") then str "tcm-user/1/vol/file/img" ++ [10]
                     else str "65536" ++ [10]);
  k_write k p v := (<[p := v]> k, None);
  k_exists k p := true;
  k_scandir k p := if bool_decide (p = str "/dev") then Some [str "null"; str "uio0"] else None
}.

Lemma dev_path_head nm rest i : (i < 20)%nat -> dev_path nm rest !! i = CFGFS_CORE !! i.
Proof.
  intros Hi. unfold dev_path, path. rewrite lookup_take_lt by (unfold PATH_MAX; lia). by rewrite lookup_app_l by (cbn; lia).
Qed.

Lemma dev_path_not_dev nm rest : dev_path nm rest <> str "/dev".
Proof. intros E. pose proof (dev_path_head nm rest 1 ltac:(lia)) as H. rewrite E in H. discriminate H. Qed.

Lemma demo_read_dev (k : demo_k) nm rest : k_read k (dev_path nm rest) = inr (str "512 Size: 1048576 " ++ [10]).
Proof. cbn [k_read demo_kernel]. rewrite bool_decide_true; [done|]. by rewrite dev_path_head by lia. Qed.

#[export] Program Instance demo_readable : Readable demo_k.
Next Obligation.
  intros k nm name. unfold tcmu_get_attribute, tcmu_get_cfgfs_int. rewrite demo_read_dev.
  exists 512. split; [by vm_compute|unfold INT_MAX; lia].
Qed.
Next Obligation. intros k nm. unfold tcmu_get_dev_size. rewrite demo_read_dev. exists 1048576. by vm_compute. Qed.
Next Obligation.
  intros dev nm k d. unfold tcmu_get_alua_grps. cbn [k_scandir demo_kernel].
  rewrite bool_decide_false by apply dev_path_not_dev. by eexists.
Qed.

(** Everything succeeds, and the handler has two threads. *)
Definition calm_env : life_env := LifeEnv (fun _ => true) true (fun _ => 0) true true 2 0 0 0
  (Answers [] [] [] [] [] UNLOCKED) 0 true.
Definition file_handler : tcmulib_handler :=
  TH (str "file") None (Handler false true true true true false false 2) true.

(** Without memory for the threads, and without a thread. *)
Definition poor_env : life_env := LifeEnv (fun r => negb (bool_decide (r = RThreads))) true
  (fun r => if bool_decide (r = RCmdproc) then 11 else 0) true true 2 0 0 0 (Answers [] [] [] [] [] UNLOCKED) 0 true.

Definition new_dev : cdev := CDev (str "uio0") (DevNames (str "user_1") (str "vol")) (Some file_handler)
  (Dev 0 0 0 0 0 false false (str "file/img") None (hm_private file_handler)) 0 0 rdev0 None.

Lemma start_failure_unnoticed_witness :
  exists c' h, dev_added poor_env (LSt (∅ : demo_k) lib_res new_dev) = Some (0, LSt ∅ h c') /\
    (io_wq_threads c' = None /\ RIoLock ∉ h /\ forall i, RWorker i ∉ h) /\
    (RCmdproc ∉ h /\ forall e', dev_removed e' (LSt (∅ : demo_k) h c') = None).
Proof.
  destruct (start_failure_unnoticed poor_env (∅ : demo_k) new_dev) as (c' & h & E & H1 & H2).
  - split; [by intros []|done].
  - cbn. lia.
  - split; [done|]. split; [exists 512, 1048576, 512; split_and!; first [by vm_compute|unfold INT_MAX; lia]|by split_and!].
  - exists c', h. split; [exact E|]. split; [by apply H1|by apply H2].
Defined.
