(* ===== verification/LibThm.v ===== *)
(** * The library: nothing leaks, nothing stays blocked

    Over any client that keeps [CalloutsLaws]: a device is added whole or not at
    all, removing gives everything back, netlink commands act on the list of
    devices as they say, and from start to end the process neither leaks nor
    leaves a device of the kernel blocked. *)

From S2P Require Import Prelude Scsi Device Rdev Configfs Target Alua Life Libtcmu Runner RunnerThm.

(** ** The kernel *)

(** The file that blocks a device holds what was last written to it. *)
Class BlockLaws (K : Type) {HK : Kernel K} := {
  k_blocked : K -> list Z -> bool;
  k_blocked_write : forall (k : K) p v q, k_blocked (k_write k p v).1 q =
    match (k_write k p v).2 with
    | Some _ => k_blocked k q
    | None => if decide (q = p) then negb (bool_decide (v = str "0" ++ [0])) else k_blocked k q
    end;
  k_exists_write : forall (k : K) p v q, k_exists (k_write k p v).1 q = k_exists k q
}.

(** Unblocking is never refused. *)
Definition unblocks (K : Type) {HK : Kernel K} : Prop := forall (k : K) p, (k_write k p (str "0" ++ [0])).2 = None.

Definition names_fit (nm : dev_names) : Prop := (length (tcm_hba_name nm) <= 15)%nat /\ (length (tcm_dev_name nm) <= 127)%nat.
Definition block_path (nm : dev_names) : list Z := dev_path nm (str "action/block_dev").
Definition reset_path (nm : dev_names) : list Z := dev_path nm (str "action/reset_ring").

Lemma dev_path_fits nm rest : names_fit nm -> (length rest <= 100)%nat ->
  dev_path nm rest = CFGFS_CORE ++ str "/" ++ tcm_hba_name nm ++ str "/" ++ tcm_dev_name nm ++ str "/" ++ rest.
Proof.
  intros [H1 H2] H3. unfold dev_path, path. apply take_ge. rewrite !length_app.
  change (length CFGFS_CORE) with 30%nat. change (length (str "/")) with 1%nat. unfold PATH_MAX. lia.
Qed.

Lemma block_not_reset nm nm' : names_fit nm -> names_fit nm' -> block_path nm <> reset_path nm'.
Proof.
  intros H1 H2 E. apply (f_equal last) in E. unfold block_path, reset_path in E.
  rewrite !dev_path_fits in E by (done || (cbn; lia)). rewrite !app_assoc, !last_app in E. discriminate E.
Qed.

Lemma fit_length n s : (length (fit n s) <= n - 1)%nat.
Proof. unfold fit. rewrite length_take. lia. Qed.

Lemma parse_names_fit cfg nm rest : parse_cfgstring cfg = Some (nm, rest) -> names_fit nm.
Proof.
  unfold parse_cfgstring. destruct (cut_slash cfg) as [[pre r1]|]; [|done]. cbn [mbind option_bind].
  case_if; [done|]. destruct (cut_slash r1) as [[hba r2]|]; [|done]. cbn [mbind option_bind].
  destruct (cut_slash r2) as [[name r3]|]; [|done]. cbn [mbind option_bind]. intros [= <- _].
  split; [apply (fit_length 16)|apply (fit_length 128)].
Qed.

(** Numbers with a terminating NUL can always be parsed. *)
Lemma radix_val_ends b s : forall acc, is_Some (radix_val b acc (s ++ [0])).
Proof.
  induction s as [|c s IH]; intros acc; cbn [app radix_val]; [by eexists|].
  destruct (char_to_hex c); [|by eexists]. case_if; [apply IH|by eexists].
Qed.

Lemma strtoul0_ends s : is_Some (strtoul0 (s ++ [0])).
Proof.
  assert (forall t, is_Some (radix_prefix (t ++ [0]))) as Hp.
  { intros [|c t]; [by eexists|]. cbn [app radix_prefix]. case_if; [apply (radix_val_ends 10 (c :: t))|].
    destruct t as [|x h]; [by eexists|]. cbn [app]. case_if; [|apply (radix_val_ends 8 (x :: h))].
    destruct h as [|d h]; [by eexists|]. cbn [app]. destruct (char_to_hex d); [|by eexists].
    apply (radix_val_ends 16 (d :: h)). }
  unfold strtoul0. assert (exists t, skip_space (s ++ [0]) = t ++ [0]) as [t ->].
  { induction s as [|c s [t IH]]; [by exists []|]. cbn [app skip_space]. case_if; [by exists t|by exists (c :: s)]. }
  destruct t as [|c t]; [by eexists|]. cbn [app].
  case_if; [|case_if]; [destruct (Hp t) as [v ->]|destruct (Hp t) as [v ->]|destruct (Hp (c :: t)) as [v Hv]; cbn [app] in Hv; rewrite Hv];
    by eexists.
Qed.

Lemma s32_bounds z : - 2 ^ 31 <= s32 z < 2 ^ 31.
Proof. unfold s32. pose proof (u32_bound (z + 2 ^ 31)) as H. unfold u32 in H. lia. Qed.

(** Names of uio devices fit their field. *)
Lemma uio_name_fits minor : fit 16 (uio_name minor) = uio_name minor.
Proof.
  assert (length (dec_int minor) <= 11)%nat as H.
  { pose proof (s32_bounds minor). unfold dec_int, dec. case_if; cbn [length];
      [pose proof (length_dec_loop 20 (- s32 minor) [] 10)|pose proof (length_dec_loop 20 (s32 minor) [] 10)]; cbn [length] in *; lia. }
  unfold uio_name, fit. rewrite (take_ge (_ ++ _)); [apply take_ge|]; rewrite length_app; change (length (str "uio")) with 3%nat; lia.
Qed.

Section lib.
Context {K : Type} {HK : Kernel K} {HB : BlockLaws K} {HC : Callouts K} {HL : CalloutsLaws K}.
Context (Hunb : unblocks K).

(** [k'] comes after [k] and blocks nothing that [k] does not. *)
Record calm (k k' : K) : Prop := {
  calm_exists : forall q, k_exists k' q = k_exists k q;
  calm_blocked : forall nm, names_fit nm -> k_blocked k' (block_path nm) = true -> k_blocked k (block_path nm) = true
}.

#[export] Instance calm_refl : Reflexive calm.
Proof. by intros k. Qed.
#[export] Instance calm_trans : Transitive calm.
Proof. intros a b c [H1 H2] [H3 H4]. split; [intros q; by rewrite H3|]. auto. Qed.

(** The same, but the device of [nm] may be blocked. *)
Record holds_back (nm : dev_names) (k k' : K) : Prop := {
  hb_exists : forall q, k_exists k' q = k_exists k q;
  hb_blocked : forall nm', names_fit nm' -> block_path nm' <> block_path nm ->
    k_blocked k' (block_path nm') = true -> k_blocked k (block_path nm') = true;
  hb_unsupported : tcmu_cfgfs_file_is_supported k nm (str "action") = false -> k' = k
}.

Lemma write_ul (k : K) nm a v : v = 0 \/ v = 1 ->
  tcmu_exec_cfgfs_dev_action k nm a v =
  Some (tcmu_set_cfgfs_str k (dev_path nm (str "action/" ++ a)) ((if v =? 0 then str "0" else str "1") ++ [0])).
Proof. by intros [-> | ->]. Qed.

Ltac lrun :=
  unfold get_dev, mod_dev, get_k, put_k, opt, mbind, L_bind, mret, L_ret;
  cbn [l_k l_held l_dev cd_dev cd_names cd_name cd_handler cd_rdev io_wq_threads cd_set_ring].

Lemma write_holds_back (k : K) nm p v : names_fit nm ->
  tcmu_cfgfs_file_is_supported k nm (str "action") = true -> p = block_path nm \/ p = reset_path nm ->
  holds_back nm k (k_write k p v).1.
Proof.
  intros Hf Hs Hp. split.
  - intros q. apply k_exists_write.
  - intros nm' Hf' Hne. rewrite k_blocked_write. destruct (k_write k p v).2; [done|]. rewrite decide_False; [done|].
    destruct Hp as [-> | ->]; [done|]. by apply block_not_reset.
  - congruence.
Qed.

Lemma set_str_fst (k : K) p v : (tcmu_set_cfgfs_str k p v).1 = (k_write k p v).1.
Proof. unfold tcmu_set_cfgfs_str. by destruct (k_write k p v). Qed.

(** An action that is written when the kernel has the directory. *)
Lemma action_run (k : K) (h : gset res) c a v : names_fit (cd_names c) -> a = str "block_dev" \/ a = str "reset_ring" ->
  v = 0 \/ v = 1 ->
  exists k', (if tcmu_cfgfs_file_is_supported k (cd_names c) (str "action")
              then '(k, _) ← opt (tcmu_exec_cfgfs_dev_action k (cd_names c) a v); put_k k
              else mret tt) (LSt k h c) = Some (tt, LSt k' h c) /\ holds_back (cd_names c) k k' /\
    (tcmu_cfgfs_file_is_supported k (cd_names c) (str "action") = true ->
     k' = (k_write k (dev_path (cd_names c) (str "action/" ++ a)) ((if v =? 0 then str "0" else str "1") ++ [0])).1).
Proof.
  intros Hf Ha Hv. destruct (tcmu_cfgfs_file_is_supported k (cd_names c) (str "action")) eqn:Es.
  - rewrite write_ul by done. lrun. cbn [option_bind]. destruct (tcmu_set_cfgfs_str _ _ _) as [k' r] eqn:E.
    pose proof (set_str_fst k (dev_path (cd_names c) (str "action/" ++ a)) ((if v =? 0 then str "0" else str "1") ++ [0])) as H.
    rewrite E in H. cbn [fst] in H. subst k'. eexists. split; [done|]. split; [|done].
    apply write_holds_back; [done..|]. destruct Ha as [-> | ->]; [by left|by right].
  - exists k. split; [done|]. split; [|done]. by split.
Qed.

Lemma negb_if {A} (b : bool) (x y : A) : (if negb b then x else y) = if b then y else x.
Proof. by destruct b. Qed.

Lemma block_run (k : K) h c : names_fit (cd_names c) ->
  exists k', tcmu_block_device (LSt k h c) = Some (tt, LSt k' h c) /\ holds_back (cd_names c) k k'.
Proof.
  intros Hf. unfold tcmu_block_device. lrun. rewrite negb_if.
  destruct (action_run k h c (str "block_dev") 1 Hf) as (k' & E & H & _); [by left|by right|]. by exists k'.
Qed.

Lemma reset_run (k : K) h c : names_fit (cd_names c) ->
  exists k', reset_ring (LSt k h c) = Some (tt, LSt k' h c) /\ holds_back (cd_names c) k k'.
Proof.
  intros Hf. unfold reset_ring. lrun.
  destruct (action_run k h c (str "reset_ring") 1 Hf) as (k' & E & H & _); [by right|by right|]. by exists k'.
Qed.

(** Unblocking ends what blocking began. *)
Lemma unblock_run (k0 k : K) h c : names_fit (cd_names c) -> holds_back (cd_names c) k0 k ->
  exists k', tcmu_unblock_device (LSt k h c) = Some (tt, LSt k' h c) /\ calm k0 k'.
Proof.
  intros Hf H0. unfold tcmu_unblock_device. lrun. rewrite negb_if.
  destruct (action_run k h c (str "block_dev") 0 Hf) as (k' & E & H & Hw); [by left|by left|].
  exists k'. split; [done|]. destruct (tcmu_cfgfs_file_is_supported k (cd_names c) (str "action")) eqn:Es.
  - split; [intros q; by rewrite (hb_exists _ _ _ H), (hb_exists _ _ _ H0)|].
    intros nm Hn Hb. destruct (decide (block_path nm = block_path (cd_names c))) as [Ep|Ep].
    + rewrite Hw in Hb by done. rewrite k_blocked_write in Hb. cbn [Z.eqb] in Hb. rewrite Hunb in Hb.
      rewrite decide_True in Hb by done. by rewrite bool_decide_true in Hb.
    + apply (hb_blocked _ _ _ H0 nm Hn Ep), (hb_blocked _ _ _ H nm Hn Ep), Hb.
  - pose proof (hb_unsupported _ _ _ H Es) as ->.
    assert (k = k0) as ->; [|done]. apply (hb_unsupported _ _ _ H0). unfold tcmu_cfgfs_file_is_supported in *.
    by rewrite <- (hb_exists _ _ _ H0).
Qed.

Lemma holds_back_refl nm k : holds_back nm k k.
Proof. by split. Qed.
Lemma holds_back_trans nm k1 k2 k3 : holds_back nm k1 k2 -> holds_back nm k2 k3 -> holds_back nm k1 k3.
Proof.
  intros [H1 H2 H3] [H4 H5 H6]. split; [intros q; by rewrite H4| |].
  - intros nm' Hf Hn Hb. by apply H2, H5.
  - intros Hs. rewrite H6; [by apply H3|]. unfold tcmu_cfgfs_file_is_supported in *. by rewrite H1.
Qed.

(** ** Adding *)

(** The kernel while a device is set up. *)
Definition may_block (reopen : bool) (nm : dev_names) (k0 k : K) : Prop :=
  holds_back nm k0 k /\ (reopen = false -> k = k0).

Lemma may_unblock_run reopen (k0 k : K) h c : names_fit (cd_names c) -> may_block reopen (cd_names c) k0 k ->
  exists k', (if reopen then tcmu_unblock_device else mret tt) (LSt k h c) = Some (tt, LSt k' h c) /\ calm k0 k'.
Proof.
  intros Hf [Hh Hr]. destruct reopen; [by apply unblock_run|]. rewrite Hr by done. by exists k0.
Qed.

(** A failed attempt: the error, and nothing is held. *)
Definition gave_up (k0 : K) (x : option (Z * lst K)) : Prop :=
  exists k' c', x = Some (- ENOENT, LSt k' ∅ c') /\ calm k0 k'.

Lemma err_free_run (k0 k : K) c : calm k0 k -> gave_up k0 (err_free (LSt k {[RDev]} c)).
Proof.
  intros Hk. unfold err_free. lrun. rewrite release_ok; cbn [l_held l_k l_dev]; [|set_solver|].
  - exists k, c. by rewrite difference_diag_L.
  - by intros x ->%elem_of_singleton.
Qed.

Lemma err_unblock_run reopen (k0 k : K) c : names_fit (cd_names c) -> may_block reopen (cd_names c) k0 k ->
  gave_up k0 (err_unblock reopen (LSt k {[RDev]} c)).
Proof.
  intros Hf Hm. unfold err_unblock. destruct (may_unblock_run reopen k0 k {[RDev]} c Hf Hm) as (k' & E & Hc).
  rewrite (bind_some _ _ _ _ _ E). by apply err_free_run.
Qed.

Lemma err_fd_close_run reopen (k0 k : K) c : names_fit (cd_names c) -> may_block reopen (cd_names c) k0 k ->
  gave_up k0 (err_fd_close reopen (LSt k ({[RDev]} ∪ {[RFd]}) c)).
Proof.
  intros Hf Hm. unfold err_fd_close. rewrite (bind_some _ _ _ tt (LSt k {[RDev]} c)); [by apply err_unblock_run|].
  by apply release_last; [set_solver|nobody|].
Qed.

Lemma err_munmap_run reopen (k0 k : K) c : names_fit (cd_names c) -> may_block reopen (cd_names c) k0 k ->
  gave_up k0 (err_munmap reopen (LSt k lib_res c)).
Proof.
  intros Hf Hm. unfold err_munmap. rewrite (bind_some _ _ _ tt (LSt k ({[RDev]} ∪ {[RFd]}) c)); [by apply err_fd_close_run|].
  by apply release_last; [set_solver|nobody|].
Qed.

Lemma read_map_len_total (k : K) name : exists len, read_map_len k name = Some len.
Proof.
  unfold read_map_len. destruct (k_read k _) as [errno|content]; [by eexists|]. case_decide; [by eexists|].
  destruct (strtoul0_ends (take (length (take 256 content) - 1) (take 256 content))) as [v ->]. by eexists.
Qed.

(** A device of the process: it holds its own and the client's resources. *)
Record whole (d : cdev * gset res) : Prop := {
  wh_held : d.2 = lib_res ∪ cl_own d.1;
  wh_ok : cl_ok d.1;
  wh_handler : cl_handler (rhandler (cd_dev d.1));
  wh_set : cd_handler d.1 <> None;
  wh_names : names_fit (cd_names d.1)
}.

(** A device that was added, with what stays as it was. *)
Definition made (k0 : K) (c : cdev) (x : option (Z * lst K)) : Prop :=
  exists k' c' h, x = Some (0, LSt k' h c') /\ whole (c', h) /\ same_dev c c' /\ calm k0 k'.

Lemma open_uio_run e reopen (k0 k : K) c : cl_env e -> cl_handler (rhandler (cd_dev c)) -> cd_handler c <> None ->
  names_fit (cd_names c) -> may_block reopen (cd_names c) k0 k ->
  made k0 c (open_uio e reopen (LSt k {[RDev]} c)) \/ gave_up k0 (open_uio e reopen (LSt k {[RDev]} c)).
Proof.
  intros He Hh Hs Hf Hm. unfold open_uio. destruct (en_open_uio e); cbn [negb]; [|right; by apply err_unblock_run].
  lrun. rewrite acquire_ok by (cbn [l_held]; set_solver). lrun.
  destruct (read_map_len_total k (cd_name c)) as [len ->]. cbn [option_bind]. destruct len as [len|]; [|right; by apply err_fd_close_run].
  destruct (en_mmap e); cbn [negb]; [|right; by apply err_fd_close_run].
  lrun. rewrite acquire_ok by (cbn [l_held]; set_solver). cbn [l_k l_held l_dev]. change ({[RDev]} ∪ {[RFd]} ∪ {[RMap]}) with lib_res.
  case_if; [right; by apply err_munmap_run|]. lrun.
  destruct (cl_added e k (cd_set_ring c len (en_tail e)) He Hh) as (ret & c' & -> & S & Hok).
  assert (same_dev c c') as S' by (etrans; [|exact S]; by destruct c).
  assert (cd_names c' = cd_names c) as En by apply S'.
  destruct (Z.eqb_spec ret 0) as [->|Hr]; cbn [negb].
  - lrun. left.
    destruct (may_unblock_run reopen k0 k (lib_res ∪ cl_own c') c') as (k' & E & Hc); [by rewrite En..|].
    revert E. lrun. intros E. rewrite E. exists k', c', (lib_res ∪ cl_own c').
    split; [done|]. split; [|done]. split; cbn [fst snd]; [done|by apply Hok| | |by rewrite En].
    + by rewrite (sd_rhandler _ _ S').
    + by rewrite (sd_handler _ _ S').
  - right. apply err_munmap_run; by rewrite En.
Qed.

Definition handlers_ok (handlers : list tcmulib_handler) : Prop := Forall (fun h => cl_handler (hm_private h)) handlers.

(** The object before the uio device is opened. *)
Definition named (dev_name : list Z) (nm : dev_names) (cfg : list Z) (h : tcmulib_handler) : cdev :=
  CDev (fit 16 dev_name) nm (Some h) (Dev 0 0 0 0 0 false false cfg None (hm_private h)) 0 0 rdev0 None.

Lemma find_handler_in handlers cfg h : find_handler handlers cfg = Some h -> h ∈ handlers.
Proof. intros [H _]%find_some. by apply list_elem_of_In. Qed.

Lemma build_device_run e handlers cfgs reopen (k : K) dev_name : cl_env e -> handlers_ok handlers ->
  let x := build_device e handlers cfgs reopen (LSt k {[RDev]} (cdev0 dev_name)) in
  gave_up k x \/ exists nm cfg h, parse_cfgstring cfgs = Some (nm, cfg) /\ find_handler handlers cfg = Some h /\
    made k (named dev_name nm cfg h) x.
Proof.
  intros He Hh x. subst x. unfold build_device. destruct (parse_cfgstring cfgs) as [[nm cfg]|] eqn:Ep; [|left; by apply err_free_run].
  pose proof (parse_names_fit _ _ _ Ep) as Hf.
  destruct (find_handler handlers cfg) as [h|] eqn:Ef; [|left; by apply err_free_run].
  assert (cl_handler (hm_private h)) as Hcl by (eapply Forall_forall in Hh; [exact Hh|by eapply find_handler_in]).
  lrun. destruct (match check_config h with Some check => negb (check cfg) | None => false end); [left; by apply err_free_run|].
  change (CDev _ _ _ _ _ _ _ _) with (named dev_name nm cfg h).
  assert (exists k1, (if reopen then tcmu_block_device;; reset_ring else mret tt) (LSt k {[RDev]} (named dev_name nm cfg h)) =
    Some (tt, LSt k1 {[RDev]} (named dev_name nm cfg h)) /\ may_block reopen nm k k1) as (k1 & E & Hm).
  { destruct reopen; [|exists k; split; [done|split; [apply holds_back_refl|done]]].
    destruct (block_run k {[RDev]} (named dev_name nm cfg h) Hf) as (k1 & E1 & H1).
    destruct (reset_run k1 {[RDev]} (named dev_name nm cfg h) Hf) as (k2 & E2 & H2).
    exists k2. rewrite (bind_some _ _ _ _ _ E1). split; [done|]. split; [by eapply holds_back_trans|done]. }
  revert E. lrun. intros E. rewrite E.
  destruct (open_uio_run e reopen k k1 (named dev_name nm cfg h) He Hcl ltac:(done) Hf Hm) as [Hmade|Hgave]; [right|by left].
  by exists nm, cfg, h.
Qed.

(** ** The process *)

Record proc_ok (p : proc K) : Prop := {
  po_lost : p_lost p = [];
  po_devs : Forall whole (p_devs p)
}.

Definition dev_names_of (p : proc K) : list (list Z) := (fun d => cd_name d.1) <$> p_devs p.

(** A step of the process that leaves it whole. *)
Definition steps_to (p p' : proc K) : Prop := proc_ok p' /\ calm (p_k p) (p_k p').

Lemma add_device_run e handlers dev_name cfgs reopen p : cl_env e -> handlers_ok handlers -> proc_ok p ->
  exists ret p', add_device e handlers dev_name cfgs reopen p = Some (ret, p') /\ steps_to p p' /\
    ((ret < 0 /\ p_devs p' = p_devs p) \/
     (ret = 0 /\ exists d nm cfg h, p_devs p' = p_devs p ++ [d] /\ parse_cfgstring cfgs = Some (nm, cfg) /\
        find_handler handlers cfg = Some h /\ same_dev (named dev_name nm cfg h) d.1)).
Proof.
  intros He Hh [Hl Hd]. unfold add_device. destruct (en_calloc e RDev); cbn [negb].
  2:{ exists (- ENOMEM), p. split; [done|]. split; [by repeat split|]. left. split; [unfold ENOMEM; lia|done]. }
  destruct (build_device_run e handlers cfgs reopen (p_k p) dev_name He Hh)
    as [(k' & c' & -> & Hc)|(nm & cfg & h & Ep & Ef & k' & c' & hd & -> & Hw & Hs & Hc)]; cbn [mbind option_bind].
  - replace (- ENOENT =? 0) with false by done. eexists _, _. split; [done|]. split.
    + split; [|done]. split; [|done]. cbn [p_lost l_held]. unfold lose. by rewrite decide_True.
    + left. split; [unfold ENOENT; lia|done].
  - cbn [Z.eqb]. eexists _, _. split; [done|]. split.
    + split; [|done]. split; [done|]. apply Forall_app. split; [done|]. by constructor.
    + right. split; [done|]. by exists (c', hd), nm, cfg, h.
Qed.

(** ** Removing *)

Lemma may_block_first (b : bool) e (k : K) c : names_fit (cd_names c) -> (b = true -> en_drains e = true) ->
  let h := lib_res ∪ cl_own c in
  exists k', (if b then tcmu_block_device;; tcmu_flush_device e else mret tt) (LSt k h c) = Some (tt, LSt k' h c) /\
    may_block b (cd_names c) k k'.
Proof.
  intros Hf Hd h. destruct b; [|exists k; split; [done|split; [apply holds_back_refl|done]]].
  destruct (block_run k h c Hf) as (k1 & E1 & H1). exists k1. rewrite (bind_some _ _ _ _ _ E1).
  split; [|done]. unfold tcmu_flush_device. rewrite Hd by done. lrun.
  rewrite holding_ok; [done|]. unfold h, lib_res. cbn [l_held]. set_solver.
Qed.

Lemma drop_device_run e (b : bool) (k : K) c h : cl_env e -> whole (c, h) -> (b = true -> en_drains e = true) ->
  exists k' c', drop_device e b (LSt k h c) = Some (tt, LSt k' ∅ c') /\ calm k k'.
Proof.
  intros He [Hh Hok Hcl Hset Hf] Hd. cbn [fst snd] in *. subst h. unfold drop_device.
  destruct (may_block_first b e k c Hf Hd) as (k1 & E1 & Hm). rewrite (bind_some _ _ _ _ _ E1).
  destruct (cl_removed e k1 c He Hcl Hok) as (c' & E2 & S). rewrite (bind_some _ _ _ _ _ E2).
  rewrite (bind_some _ _ _ tt (LSt k1 ({[RDev]} ∪ {[RMap]}) c')).
  2:{ apply release_from; [unfold lib_res; set_solver|set_solver|nobody|done]. }
  rewrite (bind_some _ _ _ tt (LSt k1 {[RDev]} c')).
  2:{ apply release_last; [set_solver|nobody|done]. }
  destruct (may_unblock_run b k k1 {[RDev]} c') as (k2 & E3 & Hc); [by rewrite (sd_names _ _ S)..|].
  rewrite (bind_some _ _ _ _ _ E3). exists k2, c'. split; [|done].
  rewrite release_ok; cbn [l_held l_k l_dev]; [by rewrite difference_diag_L|set_solver|].
  by intros x ->%elem_of_singleton.
Qed.

Lemma remove_device_run e name b p : cl_env e -> proc_ok p -> (b = true -> en_drains e = true) ->
  exists p', remove_device e name b p = Some p' /\ steps_to p p' /\
    match list_find (fun n => n = name) (dev_names_of p) with
    | Some (i, _) => p_devs p' = delete i (p_devs p)
    | None => p' = p
    end.
Proof.
  intros He [Hl Hd] Hdr. unfold remove_device, lookup_dev_by_name, dev_names_of. rewrite list_find_fmap.
  change (list_find ((fun n => n = name) ∘ (fun d : cdev * gset res => cd_name d.1)) (p_devs p))
    with (list_find (fun d : cdev * gset res => cd_name d.1 = name) (p_devs p)).
  destruct (list_find _ (p_devs p)) as [[i [c h]]|] eqn:Ef; cbn [fmap option_fmap option_map prod_map].
  - apply list_find_Some in Ef as (Hi & _). pose proof (proj1 (Forall_lookup _ _) Hd _ _ Hi) as Hw.
    destruct (drop_device_run e b (p_k p) c h He Hw Hdr) as (k' & c' & -> & Hc). cbn [mbind option_bind l_k l_held].
    eexists. split; [done|]. split; [|done]. split; [|done]. split; cbn [p_lost p_devs].
    + unfold lose. by rewrite decide_True.
    + by apply Forall_delete.
  - exists p. split; [done|]. split; [|done]. by repeat split.
Qed.

(** ** Netlink *)

(** What a command does to the names of the devices, by its status. *)
Inductive nl_effect : tcmu_genl_cmd -> list Z -> Z -> list (list Z) -> list (list Z) -> Prop :=
| EffAdded name l : nl_effect TCMU_CMD_ADDED_DEVICE name 0 l (l ++ [name])
| EffRefused name st l : st < 0 -> nl_effect TCMU_CMD_ADDED_DEVICE name st l l
| EffRemoved name l1 l2 : name ∉ l1 -> nl_effect TCMU_CMD_REMOVED_DEVICE name 0 (l1 ++ name :: l2) (l1 ++ l2)
| EffUnknown name l : name ∉ l -> nl_effect TCMU_CMD_REMOVED_DEVICE name 0 l l
| EffReconfig name st l : (name ∉ l -> st = - ENODEV) -> st <= 0 -> nl_effect TCMU_CMD_RECONFIG_DEVICE name st l l.

(** The device that a message is about; [None]: the message is dropped. *)
Definition nl_request (cmd : tcmu_genl_cmd) (info : genl_info) : option (list Z) :=
  match nl_minor info, nl_device info, cmd with
  | None, _, _ | _, None, _ | _, _, TCMU_CMD_OTHER => None
  | Some minor, Some _, _ =>
      if (1 <? nl_version info) && match nl_device_id info with None => true | Some _ => false end then None
      else Some (uio_name minor)
  end.

Lemma find_split (l : list (list Z)) name i x : list_find (fun n => n = name) l = Some (i, x) ->
  l = take i l ++ name :: drop (S i) l /\ name ∉ take i l.
Proof.
  intros (Hi & -> & Hlt)%list_find_Some. split.
  - symmetry. by apply take_drop_middle.
  - intros (j & Hj)%list_elem_of_lookup. apply lookup_take_Some in Hj as [Hj Hlt']. by apply (Hlt j name).
Qed.

Lemma find_none_names (l : list (list Z)) name : list_find (fun n => n = name) l = None -> name ∉ l.
Proof. intros H%list_find_None Hin. eapply Forall_forall in H; [|exact Hin]. done. Qed.

Lemma remove_effect e name p : cl_env e -> proc_ok p ->
  exists p', remove_device e name false p = Some p' /\ steps_to p p' /\
    nl_effect TCMU_CMD_REMOVED_DEVICE name 0 (dev_names_of p) (dev_names_of p').
Proof.
  intros He Hp. destruct (remove_device_run e name false p He Hp ltac:(done)) as (p' & E & Hs & Hd).
  exists p'. split; [done|]. split; [done|]. destruct (list_find _ _) as [[i x]|] eqn:Ef.
  - destruct (find_split _ _ _ _ Ef) as [Hl Hn].
    assert (dev_names_of p' = take i (dev_names_of p) ++ drop (S i) (dev_names_of p)) as ->.
    { unfold dev_names_of. rewrite Hd, list_fmap_delete. apply delete_take_drop. }
    rewrite Hl at 1. by constructor.
  - rewrite Hd. constructor. by apply find_none_names.
Qed.

Lemma reconfig_effect e name info p : cl_env e -> proc_ok p ->
  exists st p', reconfig_device e name info p = Some (st, p') /\ steps_to p p' /\
    nl_effect TCMU_CMD_RECONFIG_DEVICE name st (dev_names_of p) (dev_names_of p').
Proof.
  intros He [Hl Hd]. assert (steps_to p p) as Hsame by (by repeat split).
  unfold reconfig_device, lookup_dev_by_name.
  destruct (list_find _ (p_devs p)) as [[i [c h]]|] eqn:Ef.
  2:{ exists (- ENODEV), p. split; [done|]. split; [done|]. constructor; [done|unfold ENODEV; lia]. }
  apply list_find_Some in Ef as (Hi & Hname & _). cbn [fst] in Hname.
  assert (name ∈ dev_names_of p) as Hin.
  { apply list_elem_of_fmap. exists (c, h). split; [done|]. by eapply list_elem_of_lookup_2. }
  destruct reconfig as [f|] eqn:Er.
  2:{ exists (- EOPNOTSUPP), p. split; [done|]. split; [done|]. constructor; [done|unfold EOPNOTSUPP; lia]. }
  destruct (cfg_of info) as [cfg|].
  2:{ exists (- EOPNOTSUPP), p. split; [done|]. split; [done|]. constructor; [done|unfold EOPNOTSUPP; lia]. }
  destruct (proj1 (Forall_lookup _ _) Hd _ _ Hi) as [Hh Hok Hcl Hset Hf]. cbn [fst snd] in *. subst h.
  destruct (cl_reconfig f e cfg (p_k p) c Er He Hcl Hset Hok) as (ret & c' & -> & S & Hok'). cbn [mbind option_bind l_k l_held l_dev].
  eexists _, _. split; [done|]. split; [split; [|done]|].
  - split; [done|]. apply Forall_insert; [done|]. split; cbn [fst snd]; [done|done| | |].
    + by rewrite (sd_rhandler _ _ S).
    + by rewrite (sd_handler _ _ S).
    + by rewrite (sd_names _ _ S).
  - unfold dev_names_of. cbn [p_devs]. rewrite list_fmap_insert. cbn [fst]. rewrite (sd_name _ _ S), list_insert_id.
    + constructor; [done|case_if; lia].
    + by rewrite list_lookup_fmap, Hi.
Qed.

(** The effect of a message. *)
Definition nl_outcome (cmd : tcmu_genl_cmd) (info : genl_info) (sent : Z) (p : proc K) (x : Z * proc K * option nl_reply) : Prop :=
  let '(ret, p', reply) := x in
  match nl_request cmd info with
  | None => p' = p /\ reply = None
  | Some name => exists st, nl_effect cmd name st (dev_names_of p) (dev_names_of p') /\
      if 1 <? nl_version info then reply = Some (Reply cmd (default 0 (nl_device_id info)) st) /\ ret = sent
      else reply = None /\ ret = st
  end.

Lemma netlink_refines_total e sent handlers cmd info p : cl_env e -> handlers_ok handlers -> proc_ok p ->
  exists ret p' reply, handle_netlink e sent handlers cmd info p = Some (ret, p', reply) /\ steps_to p p' /\
    nl_outcome cmd info sent p (ret, p', reply).
Proof.
  intros He Hh Hp.
  assert (steps_to p p) as Hsame by (by split).
  unfold handle_netlink, nl_outcome, nl_request.
  destruct (nl_minor info) as [minor|]; [|by exists 0, p, None]. destruct (nl_device info) as [device|]; [|by exists 0, p, None].
  destruct ((1 <? nl_version info) && _) eqn:Ev; [exists 0, p, None; by destruct cmd|].
  assert (forall st p', cmd <> TCMU_CMD_OTHER -> steps_to p p' ->
    netlink_command e handlers cmd (uio_name minor) device info p = Some (Some st, p') ->
    nl_effect cmd (uio_name minor) st (dev_names_of p) (dev_names_of p') ->
    exists ret p'' reply, ('(ret, p) ← netlink_command e handlers cmd (uio_name minor) device info p;
      match ret with
      | None => Some (- EOPNOTSUPP, p, None)
      | Some ret => if 1 <? nl_version info then Some (sent, p, Some (Reply cmd (default 0 (nl_device_id info)) ret))
                    else Some (ret, p, None)
      end) = Some (ret, p'', reply) /\ steps_to p p'' /\
      exists st, nl_effect cmd (uio_name minor) st (dev_names_of p) (dev_names_of p'') /\
        if 1 <? nl_version info then reply = Some (Reply cmd (default 0 (nl_device_id info)) st) /\ ret = sent
        else reply = None /\ ret = st) as Hgo.
  { intros st p' _ Hst -> Heff. cbn [mbind option_bind]. destruct (1 <? nl_version info).
    - eexists _, _, _. split; [done|]. split; [done|]. by exists st.
    - eexists _, _, _. split; [done|]. split; [done|]. by exists st. }
  destruct cmd.
  - destruct (add_device_run e handlers (uio_name minor) device false p He Hh Hp) as (ret & p' & E & Hst & Hd).
    apply (Hgo ret p'); [done|done|cbn [netlink_command]; by rewrite E|]. unfold dev_names_of.
    destruct Hd as [[Hr ->]|[-> (d & nm & cfg & h & -> & _ & _ & S)]]; [by constructor|].
    rewrite fmap_app. cbn [fmap list_fmap]. rewrite (sd_name _ _ S). unfold named. cbn [cd_name]. rewrite uio_name_fits. constructor.
  - destruct (remove_effect e (uio_name minor) p He Hp) as (p' & E & Hst & Heff).
    apply (Hgo 0 p'); [done|done|cbn [netlink_command]; by rewrite E|done].
  - destruct (reconfig_effect e (uio_name minor) info p He Hp) as (st & p' & E & Hst & Heff).
    apply (Hgo st p'); [done|done|cbn [netlink_command]; by rewrite E|done].
  - exists (- EOPNOTSUPP), p, None. done.
Qed.


(** ** From start to end *)

Record nl_msg := Msg { ms_env : life_env; ms_sent : Z; ms_cmd : tcmu_genl_cmd; ms_info : genl_info }.

(** The messages one after the other, and the replies. *)
Fixpoint nl_run (handlers : list tcmulib_handler) (ms : list nl_msg) (p : proc K) : option (proc K * list (option nl_reply)) :=
  match ms with
  | [] => Some (p, [])
  | m :: ms =>
      '(_, p, r) ← handle_netlink (ms_env m) (ms_sent m) handlers (ms_cmd m) (ms_info m) p;
      '(p, rs) ← nl_run handlers ms p;
      Some (p, r :: rs)
  end.

Lemma steps_to_trans p q r : steps_to p q -> steps_to q r -> steps_to p r.
Proof. intros [_ H1] [H2 H3]. split; [done|by etrans]. Qed.

Lemma nl_run_total handlers ms : forall p, handlers_ok handlers -> Forall (fun m => cl_env (ms_env m)) ms -> proc_ok p ->
  exists p' rs, nl_run handlers ms p = Some (p', rs) /\ steps_to p p' /\ length rs = length ms.
Proof.
  induction ms as [|m ms IH]; intros p Hh Hm Hp; cbn [nl_run].
  - exists p, []. split; [done|]. split; [by split|done].
  - apply Forall_cons in Hm as [He Hm].
    destruct (netlink_refines_total (ms_env m) (ms_sent m) handlers (ms_cmd m) (ms_info m) p He Hh Hp)
      as (ret & p1 & reply & -> & H1 & _). cbn [mbind option_bind].
    destruct (IH p1 Hh Hm (proj1 H1)) as (p2 & rs & -> & H2 & Hl). cbn [mbind option_bind].
    eexists _, _. split; [done|]. split; [by eapply steps_to_trans|]. cbn [length]. by rewrite Hl.
Qed.

(** The name of a uio device, once it is there, is not empty. *)
Definition uio_named : Prop := forall (k : K) n, k_read k (str "/sys/class/uio/" ++ n ++ str "/name") <> inr [].

Lemma read_uio_name_ok (k : K) n : uio_named -> read_uio_name true k n <> Some None.
Proof.
  intros Hn. unfold read_uio_name. specialize (Hn k n). destruct (k_read k _) as [|content]; [done|].
  case_decide as Hl; [by apply nil_length_inv in Hl; subst|]. case_decide; [done|].
  destruct (cstring (take (length content - 1) content ++ [0])) as [s|] eqn:E; [done|]. exfalso.
  unfold cstring, strlen in E. destruct (list_find _ _) as [[i x]|] eqn:Ef; [done|].
  apply list_find_None, Forall_app in Ef as [_ Hz]. by inversion Hz.
Qed.

Lemma uio_devices_ok es (k : K) names : uio_named -> (forall i, en_strdup (es i) = true) ->
  forall i, exists l, uio_devices es i k names = Some l.
Proof.
  intros Hn Hs. induction names as [|n names IH]; intros i; cbn [uio_devices]; [by eexists|].
  assert (exists b, is_uio (en_strdup (es i)) k n = Some b) as [b ->].
  { rewrite Hs. unfold is_uio. case_if; [by eexists|]. pose proof (read_uio_name_ok k n Hn) as Hr.
    destruct (read_uio_name true k n) as [[name|]|]; [by eexists|done|by eexists]. }
  cbn [mbind option_bind]. destruct (IH (S i)) as [l ->]. by eexists.
Qed.

Lemma open_loop_ok es handlers names : uio_named -> (forall i, en_strdup (es i) = true) -> (forall i, cl_env (es i)) ->
  handlers_ok handlers -> forall i n p, 0 <= n -> proc_ok p ->
  exists ret p', open_loop es handlers i names n p = Some (ret, p') /\ 0 <= ret /\ steps_to p p'.
Proof.
  intros Hn Hs He Hh. induction names as [|name names IH]; intros i n p Hz Hp; cbn [open_loop].
  - exists n, p. by split.
  - rewrite Hs. pose proof (read_uio_name_ok (p_k p) name Hn) as Hr.
    destruct (read_uio_name true (p_k p) name) as [[cfg|]|]; [|done|by apply IH].
    destruct (add_device_run (es i) handlers name cfg true p (He i) Hh Hp) as (ret & p1 & -> & H1 & _). cbn [mbind option_bind].
    destruct (IH (S i) (if ret <? 0 then n else n + 1) p1) as (r & p2 & E & Hr2 & H2); [case_if; lia|by destruct H1|].
    exists r, p2. split; [done|]. split; [done|]. by eapply steps_to_trans.
Qed.

Lemma close_devices_ok es : (forall i, cl_env (es i) /\ en_drains (es i) = true) ->
  forall n p, n = length (p_devs p) -> proc_ok p ->
  exists p', close_devices es n p = Some p' /\ p_devs p' = [] /\ steps_to p p'.
Proof.
  intros He. induction n as [|n IH]; intros p Hl Hp; cbn [close_devices].
  - exists p. split; [done|]. split; [by apply nil_length_inv|by split].
  - destruct (lookup_lt_is_Some_2 (p_devs p) n) as [d Hd]; [lia|]. rewrite Hd. cbn [mbind option_bind].
    destruct (He n) as [He1 He2].
    destruct (remove_device_run (es n) (cd_name d.1) true p He1 Hp ltac:(done)) as (p1 & -> & H1 & Hdel). cbn [mbind option_bind].
    assert (cd_name d.1 ∈ dev_names_of p) as Hin.
    { apply list_elem_of_fmap. exists d. split; [done|]. by eapply list_elem_of_lookup_2. }
    destruct (list_find _ _) as [[j x]|] eqn:Ef; [|by apply find_none_names in Ef].
    apply list_find_Some in Ef as (Hj & _). apply lookup_lt_Some in Hj. unfold dev_names_of in Hj. rewrite length_fmap in Hj.
    destruct (IH p1) as (p2 & -> & H2 & H3).
    + rewrite Hdel, length_delete by (by apply lookup_lt_is_Some). lia.
    + by destruct H1.
    + exists p2. split; [done|]. split; [done|]. by eapply steps_to_trans.
Qed.

End lib.

(** ** The runner over a small kernel *)

Definition demo_blocked (k : demo_k) (p : list Z) : bool :=
  match k !! p with Some v => negb (bool_decide (v = str "0" ++ [0])) | None => false end.

#[export] Program Instance demo_block : BlockLaws demo_k := { k_blocked := demo_blocked }.
Next Obligation.
  intros k p v q. cbn [k_write demo_kernel fst snd]. unfold demo_blocked.
  case_decide as Hq; [subst; by rewrite lookup_insert_eq|by rewrite lookup_insert_ne].
Qed.
Next Obligation. done. Qed.

Lemma demo_named : uio_named (K := demo_k).
Proof. intros k n. cbn [k_read demo_kernel]. by repeat case_bool_decide. Qed.

Lemma calm_env_sound : cl_env (K := demo_k) calm_env.
Proof. change (env_sound calm_env). by repeat split. Qed.

Lemma demo_unblocks : unblocks demo_k.
Proof. by intros k p. Qed.

Lemma file_handler_ok : handlers_ok (K := demo_k) [file_handler].
Proof. constructor; [cbn; lia|constructor]. Qed.

Definition info_of (minor : Z) (id : Z) : genl_info :=
  Info 2 (Some minor) (Some (str "tcm-user/2/copy/file/other")) (Some id) None None None.


Definition demo_messages : list nl_msg :=
  [Msg calm_env 0 TCMU_CMD_ADDED_DEVICE (info_of 3 7); Msg calm_env 0 TCMU_CMD_REMOVED_DEVICE (info_of 0 8)].

Lemma demo_messages_ok : Forall (fun m => cl_env (K := demo_k) (ms_env m)) demo_messages.
Proof. repeat (apply Forall_cons; split; [exact calm_env_sound|]). by apply Forall_nil. Qed.


(** ** Finding the handler of a device *)

(** The lists of handlers that registering and unregistering lead to. *)
Inductive registered : list rhandler_ref -> Prop :=
| RegNone : registered []
| RegAdd g h : registered g -> registered (tcmur_register_handler g h).1
| RegRemove g addr : registered g -> registered (tcmur_unregister_handler g addr).1.

Lemma registered_distinct g : registered g -> NoDup (rh_subtype <$> g).
Proof.
  induction 1 as [|g h _ IH|g addr _ IH]; [constructor| |].
  - unfold tcmur_register_handler. destruct (existsb _ g) eqn:E; [done|]. cbn [fst]. rewrite fmap_app.
    apply NoDup_app. split; [done|]. split; [|apply NoDup_singleton].
    intros s Hs Hn. apply list_elem_of_singleton in Hn. subst s. apply list_elem_of_fmap in Hs as (x & Hx & Hin).
    assert (existsb (fun x => bool_decide (rh_subtype x = rh_subtype h)) g = true) as E'; [|congruence].
    apply existsb_exists. exists x. split; [by apply list_elem_of_In|]. by apply bool_decide_eq_true.
  - unfold tcmur_unregister_handler. destruct (list_find _ g) as [[i x]|]; [|done]. cbn [fst].
    rewrite list_fmap_delete. eapply sublist_NoDup; [done|]. apply sublist_delete.
Qed.

Definition no_slash (s : list Z) : Prop := Forall (fun c => c <> 47) s.

Lemma upto_slash_app s rest : no_slash s -> upto_slash (s ++ 47 :: rest) = s.
Proof.
  induction 1 as [|c s Hc _ IH]; [done|]. cbn [app upto_slash]. by rewrite (proj2 (Z.eqb_neq c 47) Hc), IH.
Qed.

Lemma cut_slash_app s rest : no_slash s -> cut_slash (s ++ 47 :: rest) = Some (s, rest).
Proof. intros H. unfold cut_slash. by rewrite (upto_slash_app s rest H), drop_app_length. Qed.

Lemma dec_loop_no_slash f : forall n acc, 0 <= n -> no_slash acc -> no_slash (dec_loop f n acc).
Proof.
  induction f as [|f IH]; intros n acc Hn Ha; cbn [dec_loop]; [done|].
  destruct (Z.ltb_spec n 10); [constructor; [lia|done]|].
  apply IH; [apply Z.div_pos; lia|]. constructor; [|done]. pose proof (Z.mod_pos_bound n 10). lia.
Qed.

(** What the kernel calls a device: the number of its HBA, its name and the
    configuration string. *)
Definition kernel_name (hba : Z) (name cfg : list Z) : list Z :=
  str "tcm-user" ++ str "/" ++ dec hba ++ str "/" ++ name ++ str "/" ++ cfg.

Lemma parse_kernel_name hba name cfg : 0 <= hba < 10 ^ 10 -> no_slash name -> (length name <= 127)%nat ->
  (length cfg < PATH_MAX)%nat ->
  parse_cfgstring (kernel_name hba name cfg) = Some (DevNames (str "user_" ++ dec hba) name, cfg).
Proof.
  intros Hh Hn Hl Hc. unfold parse_cfgstring, kernel_name.
  change (str "/" ++ dec hba ++ str "/" ++ name ++ str "/" ++ cfg) with (47 :: dec hba ++ 47 :: name ++ 47 :: cfg).
  rewrite cut_slash_app by (by repeat constructor). cbn [mbind option_bind].
  replace (starts_with (str "tcm-user") (str "tcm-user")) with true by (by vm_compute). cbn [negb].
  rewrite cut_slash_app by (apply dec_loop_no_slash; [lia|constructor]). cbn [mbind option_bind].
  rewrite cut_slash_app by done. cbn [mbind option_bind]. unfold fit.
  assert (length (str "user_" ++ dec hba) <= 15)%nat as Hu.
  { rewrite length_app. change (length (str "user_")) with 5%nat.
    pose proof (length_dec_loop 20 hba [] 10 ltac:(lia) ltac:(lia)) as H. unfold dec. cbn [length] in H. lia. }
  rewrite (take_ge (str "user_" ++ dec hba)) by lia. rewrite (take_ge name) by lia. by rewrite (take_ge cfg) by lia.
Qed.

Lemma starts_with_self p : starts_with p p = true.
Proof. induction p as [|c p IH]; [done|]. cbn [starts_with]. by rewrite Z.eqb_refl. Qed.

(** The first handler that matches, by its place. *)
Lemma find_first {A} (f : A -> bool) (l : list A) x : List.find f l = Some x ->
  exists i, l !! i = Some x /\ f x = true /\ forall j y, l !! j = Some y -> f y = true -> (i <= j)%nat.
Proof.
  induction l as [|a l IH]; cbn [List.find]; [done|]. destruct (f a) eqn:E.
  - intros [= <-]. exists 0%nat. split; [done|]. split; [done|]. lia.
  - intros (i & Hi & Hx & Hm)%IH. exists (S i). split; [done|]. split; [done|].
    intros [|j] y Hj Hy; [simplify_eq/=; congruence|]. apply le_n_S. by eapply Hm.
Qed.

Lemma find_exists {A} (f : A -> bool) (l : list A) i x : l !! i = Some x -> f x = true -> exists y, List.find f l = Some y.
Proof.
  revert i. induction l as [|a l IH]; intros i Hi Hx; [done|]. cbn [List.find]. destruct (f a) eqn:E; [by eexists|].
  destruct i as [|i]; [simplify_eq/=; congruence|]. by apply (IH i).
Qed.

(** A device of the kernel gets the names it has in configfs, and the handler
    that was registered for the first part of its configuration string,
    provided no other registered subtype begins with that part; if an earlier
    one does, the device gets that handler instead. *)
Theorem device_finds_handler g handlers hba name sub path i (h : tcmulib_handler)
  (Hg : registered g) (Hsub : subtype <$> handlers = rh_subtype <$> g)
  (Hhba : 0 <= hba < 10 ^ 10) (Hname : no_slash name) (Hlen : (length name <= 127)%nat)
  (Hs : no_slash sub) (Hpath : (length sub + length path < 4095)%nat)
  (Hi : handlers !! i = Some h) (Hh : subtype h = sub) :
  let cfg := sub ++ str "/" ++ path in
  parse_cfgstring (kernel_name hba name cfg) = Some (DevNames (str "user_" ++ dec hba) name, cfg) /\
  ((forall h', h' ∈ handlers -> starts_with sub (subtype h') = true -> subtype h' = sub) ->
   find_handler handlers cfg = Some h) /\
  (forall j h', (j < i)%nat -> handlers !! j = Some h' -> starts_with sub (subtype h') = true ->
   exists h'', find_handler handlers cfg = Some h'' /\ subtype h'' <> sub).
Proof.
  intros cfg. assert (upto_slash cfg = sub) as Hup by (by apply upto_slash_app).
  pose proof (registered_distinct g Hg) as Hd. rewrite <- Hsub in Hd.
  assert (forall j h', handlers !! j = Some h' -> subtype h' = sub -> j = i) as Huniq.
  { intros j h' Hj Hj'. eapply NoDup_lookup; [exact Hd| |]; rewrite list_lookup_fmap.
    - by rewrite Hj.
    - rewrite Hi. cbn. by rewrite Hh, Hj'. }
  unfold find_handler. rewrite Hup. split; [|split].
  - apply parse_kernel_name; [done..|]. unfold cfg, PATH_MAX. rewrite !length_app. cbn [length str]. change (length (str "/")) with 1%nat. lia.
  - intros Hext. destruct (find_exists (fun x => starts_with sub (subtype x)) handlers i h Hi) as [y Hy];
      [rewrite Hh; apply starts_with_self|].
    rewrite Hy. destruct (find_first _ _ _ Hy) as (j & Hj & Hm & _).
    assert (j = i) as -> by (apply (Huniq j y Hj), (Hext y); [by eapply list_elem_of_lookup_2|done]). by simplify_eq.
  - intros j h' Hlt Hj Hm. destruct (find_exists (fun x => starts_with sub (subtype x)) handlers j h' Hj Hm) as [y Hy].
    exists y. split; [done|]. destruct (find_first _ _ _ Hy) as (j' & Hj' & _ & Hmin). specialize (Hmin j h' Hj Hm).
    intros Hs'. pose proof (Huniq j' y Hj' Hs'). lia.
Qed.

(** Two handlers, of which the first has a subtype that begins with that of the
    second: the second one never gets a device. *)
Definition two_registered : list rhandler_ref :=
  (tcmur_register_handler (tcmur_register_handler [] (Rh 1 (str "file_zbc") false)).1 (Rh 2 (str "file") false)).1.
Definition two_handlers : list tcmulib_handler :=
  [TH (str "file_zbc") None (hm_private file_handler) false; file_handler].

Lemma device_finds_handler_witness :
  let cfg := str "file" ++ str "/" ++ str "img" in
  parse_cfgstring (kernel_name 1 (str "vol") cfg) = Some (DevNames (str "user_" ++ dec 1) (str "vol"), cfg) /\
  ((forall h', h' ∈ two_handlers -> starts_with (str "file") (subtype h') = true -> subtype h' = str "file") ->
   find_handler two_handlers cfg = Some file_handler) /\
  (forall j h', (j < 1)%nat -> two_handlers !! j = Some h' -> starts_with (str "file") (subtype h') = true ->
   exists h'', find_handler two_handlers cfg = Some h'' /\ subtype h'' <> str "file").
Proof.
  apply (device_finds_handler two_registered two_handlers 1 (str "vol") (str "file") (str "img") 1 file_handler).
  - apply RegAdd, RegAdd, RegNone.
  - by vm_compute.
  - lia.
  - by repeat constructor.
  - cbn. lia.
  - by repeat constructor.
  - cbn. lia.
  - done.
  - done.
Defined.
