(* ===== verification/Optical.v ===== *)
(** * The optical handler: state and parameter data

    The state of a drive of [file_optical.c], and the commands that answer with
    a buffer built from it: INQUIRY, REQUEST SENSE, mode pages, table of
    contents, features, events, disc and DVD structures, capacities. *)

From S2P Require Import Prelude Scsi Iovec Sense Device.

(** ** Constants *)

Definition FBO_READ_ONLY : Z := 0x01.
Definition FBO_PREV_EJECT : Z := 0x02.
Definition FBO_DEV_IO : Z := 0x04.
Definition FBO_BUSY_EVENT : Z := 0x08.
Definition FBO_FORMATTING : Z := 0x10.
Definition FBO_FORMAT_IMMED : Z := 0x20.

Definition READ_FORMAT_CAPACITIES : Z := 0x23.
Definition GET_CONFIGURATION : Z := 0x46.
Definition READ_DISC_INFORMATION : Z := 0x51.
Definition READ_DVD_STRUCTURE : Z := 0xad.
Definition MECHANISM_STATUS : Z := 0xbd.

(** From [scsi/scsi.h] and [linux/cdrom.h]. *)
Definition ALLOW_MEDIUM_REMOVAL : Z := 0x1e.
Definition VERIFY : Z := 0x2f.
Definition READ_TOC : Z := 0x43.
Definition GPCMD_GET_EVENT_STATUS_NOTIFICATION : Z := 0x4a.
Definition GPMODE_R_W_ERROR_PAGE : Z := 0x01.
Definition GPMODE_WCACHING_PAGE : Z := 0x08.
Definition GPMODE_TO_PROTECT_PAGE : Z := 0x1d.
Definition CD_SECS : Z := 60.
Definition CD_FRAMES : Z := 75.
Definition CD_MSF_OFFSET : Z := 150.
Definition CDROM_MSF : Z := 0x02.
Definition CDROM_LEADOUT : Z := 0xAA.
Definition DVD_STRUCT_PHYSICAL : Z := 0x00.
Definition DVD_STRUCT_COPYRIGHT : Z := 0x01.
Definition DVD_STRUCT_MANUFACT : Z := 0x04.
Definition CDF_RWRT : Z := 0x0020.
Definition CDF_HWDM : Z := 0x0024.

(** ** State *)

(** The descriptor and the mutex are not data: the file is a field of the
    command's state, and what runs under the mutex is one step.
    [src tcmu-runner/file_optical.c struct fbo_state] *)
Record fbo_state := Fbo {
  fb_num_lbas : Z;
  fb_block_size : Z;
  fb_cur_lba : Z;
  fb_flags : Z;
  fb_format_progress : Z;
  fb_event_op_ch_code : Z;
  fb_async_cache_count : Z
}.

Definition fb_set_cur (s : fbo_state) (lba : Z) : fbo_state :=
  Fbo (fb_num_lbas s) (fb_block_size s) (u32 lba) (fb_flags s) (fb_format_progress s)
      (fb_event_op_ch_code s) (fb_async_cache_count s).
Definition fb_set_flags (s : fbo_state) (f : Z) : fbo_state :=
  Fbo (fb_num_lbas s) (fb_block_size s) (fb_cur_lba s) f (fb_format_progress s)
      (fb_event_op_ch_code s) (fb_async_cache_count s).
Definition fb_set_progress (s : fbo_state) (p : Z) : fbo_state :=
  Fbo (fb_num_lbas s) (fb_block_size s) (fb_cur_lba s) (fb_flags s) (u32 p)
      (fb_event_op_ch_code s) (fb_async_cache_count s).
Definition fb_set_event (s : fbo_state) (e : Z) : fbo_state :=
  Fbo (fb_num_lbas s) (fb_block_size s) (fb_cur_lba s) (fb_flags s) (fb_format_progress s)
      (u8 e) (fb_async_cache_count s).
Definition fb_set_count (s : fbo_state) (n : Z) : fbo_state :=
  Fbo (fb_num_lbas s) (fb_block_size s) (fb_cur_lba s) (fb_flags s) (fb_format_progress s)
      (fb_event_op_ch_code s) (u8 n).

(** [flags & f], [flags |= f], [flags &= ~f]. *)
Definition fb_has (s : fbo_state) (f : Z) : bool := negb (Z.land (fb_flags s) f =? 0).
Definition fb_on (s : fbo_state) (f : Z) : fbo_state := fb_set_flags s (Z.lor (fb_flags s) f).
Definition fb_off (s : fbo_state) (f : Z) : fbo_state := fb_set_flags s (Z.ldiff (fb_flags s) f).

(** The threads a command starts. *)
Inductive fbo_thread := SyncThread | FormatThread.

#[export] Instance fbo_thread_eq_dec : EqDecision fbo_thread.
Proof. solve_decision. Defined.

(** A command at work: the drive, the bytes of its file, the memory, the
    command's iovec and sense buffer, the threads it has started. *)
Record fcmd := FCmd {
  fc_st : fbo_state;
  fc_file : list Z;
  fc_mem : mem;
  fc_iov : list iovec;
  fc_sense : list Z;
  fc_thr : list fbo_thread
}.

Abbreviation fresult := (option (fcmd * tcmu_sts)).

Definition fc_set_st (s : fcmd) (x : fbo_state) : fcmd :=
  FCmd x (fc_file s) (fc_mem s) (fc_iov s) (fc_sense s) (fc_thr s).
Definition fc_set_file (s : fcmd) (f : list Z) : fcmd :=
  FCmd (fc_st s) f (fc_mem s) (fc_iov s) (fc_sense s) (fc_thr s).
Definition fc_set_mem (s : fcmd) (m : mem) (iov : list iovec) : fcmd :=
  FCmd (fc_st s) (fc_file s) m iov (fc_sense s) (fc_thr s).
Definition fc_set_sense (s : fcmd) (b : list Z) : fcmd :=
  FCmd (fc_st s) (fc_file s) (fc_mem s) (fc_iov s) b (fc_thr s).
Definition fc_start (s : fcmd) (t : fbo_thread) : fcmd :=
  FCmd (fc_st s) (fc_file s) (fc_mem s) (fc_iov s) (fc_sense s) (fc_thr s ++ [t]).

(** Sends the first [len] bytes of a buffer to the initiator. *)
Definition fsend (s : fcmd) (buf : list Z) (len : Z) : fresult :=
  '(m, iov, _) ← tcmu_memcpy_into_iovec (fc_mem s) (fc_iov s) (Z.of_nat (length (fc_iov s))) buf len;
  Some (fc_set_mem s m iov, TCMU_STS_OK).

Definition fsend_page (s : fcmd) (page : option (list Z)) (len : Z) : fresult :=
  buf ← page; fsend s buf len.

(** [src tcmu-runner/file_optical.c fbo_report_op_change] *)
Definition fbo_report_op_change (s : fbo_state) (code : Z) : fbo_state :=
  if fb_event_op_ch_code s <? code then fb_set_event s code else s.

(** ** INQUIRY and REQUEST SENSE *)

(** [src tcmu-runner/file_optical.c 204-217 fbo_emulate_inquiry] *)
Definition fbo_inquiry_data : option (list Z) :=
  let buf := zeros 36 in
  buf ← bset1 buf 0 0x05;
  buf ← bset1 buf 1 0x80;
  buf ← bset1 buf 2 0x05;
  buf ← bset1 buf 3 0x02;
  buf ← bset1 buf 7 0x02;
  buf ← bset buf 8 (str "LIO-ORG ");
  buf ← bset buf 16 (replicate 16 0x20);
  buf ← bset buf 16 (str "VOPTA");
  buf ← bset buf 32 (str "0001");
  bset1 buf 4 31.

(** [src tcmu-runner/file_optical.c fbo_emulate_inquiry] *)
Definition fbo_emulate_inquiry (cdb : list Z) (s : fcmd) : fresult :=
  if negb (Z.land (byte_at cdb 1) 0x01 =? 0) || negb (byte_at cdb 2 =? 0)
  then Some (s, TCMU_STS_INVALID_CDB)
  else fsend_page s fbo_inquiry_data 36.

Definition NO_SENSE : Z := 0x00.

(** [src tcmu-runner/file_optical.c 238-251 fbo_emulate_request_sense] *)
Definition fbo_request_sense_data (st : fbo_state) : option (list Z) :=
  let buf := zeros 18 in
  buf ← bset1 buf 0 0x70;
  buf ← bset1 buf 7 0xa;
  if fb_has st FBO_FORMATTING then
    buf ← bset1 buf 2 NOT_READY;
    buf ← bset1 buf 12 0x04;
    buf ← bset1 buf 13 0x04;
    buf ← bset1 buf 15 0x80;
    put_unaligned_be16 (u16 (fb_format_progress st)) buf 16
  else bset1 buf 2 NO_SENSE.

(** [src tcmu-runner/file_optical.c fbo_emulate_request_sense] *)
Definition fbo_emulate_request_sense (cdb : list Z) (s : fcmd) : fresult :=
  if negb (Z.land (byte_at cdb 1) 0x01 =? 0) then Some (s, TCMU_STS_INVALID_CDB)
  else fsend_page s (fbo_request_sense_data (fc_st s)) 18.

(** ** Mode pages *)

(** The pages get the rest of a buffer, from [off] on. *)
Abbreviation page_fn := (list Z -> nat -> Z -> option (list Z * Z)).

(** [src tcmu-runner/file_optical.c fbo_handle_rwerp_page] *)
Definition fbo_handle_rwerp_page (buf : list Z) (off : nat) (page_control : Z) : option (list Z * Z) :=
  if (length buf - off <? 12)%nat then Some (buf, -1)
  else
    buf ← bset1 buf off GPMODE_R_W_ERROR_PAGE;
    buf ← bset1 buf (off + 1) 10;
    buf ← (if page_control =? 1 then Some buf
           else buf ← bset1 buf (off + 3) 5; bset1 buf (off + 8) 5);
    Some (buf, 12).

(** [src tcmu-runner/file_optical.c fbo_handle_cache_page] *)
Definition fbo_handle_cache_page (buf : list Z) (off : nat) (page_control : Z) : option (list Z * Z) :=
  if (length buf - off <? 12)%nat then Some (buf, -1)
  else
    buf ← bset1 buf off GPMODE_WCACHING_PAGE;
    buf ← bset1 buf (off + 1) 10;
    buf ← (if page_control =? 1 then Some buf else bset1 buf (off + 2) 4);
    Some (buf, 12).

(** [src tcmu-runner/file_optical.c fbo_handle_timeout_page] *)
Definition fbo_handle_timeout_page (buf : list Z) (off : nat) (page_control : Z)
    : option (list Z * Z) :=
  if (length buf - off <? 10)%nat then Some (buf, -1)
  else
    buf ← bset1 buf off GPMODE_TO_PROTECT_PAGE;
    buf ← bset1 buf (off + 1) 8;
    buf ← (if page_control =? 1 then Some buf
           else
             buf ← bset1 buf (off + 6) 0xff; buf ← bset1 buf (off + 7) 0xff;
             buf ← bset1 buf (off + 8) 0xff; bset1 buf (off + 9) 0xff);
    Some (buf, 10).

(** [src tcmu-runner/file_optical.c 307-314 fbo_modesense_handlers] *)
Definition fbo_modesense_handlers : list (Z * page_fn) :=
  [(GPMODE_R_W_ERROR_PAGE, fbo_handle_rwerp_page);
   (GPMODE_WCACHING_PAGE, fbo_handle_cache_page);
   (GPMODE_TO_PROTECT_PAGE, fbo_handle_timeout_page)].

(** All pages, from [used_len] on.
    [src tcmu-runner/file_optical.c 344-357 fbo_emulate_mode_sense] *)
Fixpoint fbo_sense_all (hs : list (Z * page_fn)) (buf : list Z) (used_len alloc_len page_control : Z)
    : option (list Z * Z) :=
  match hs with
  | [] => Some (buf, used_len)
  | (_, get) :: hs =>
      '(buf, ret) ← get buf (Z.to_nat used_len) page_control;
      if ret <=? 0 then Some (buf, used_len)
      else if alloc_len <=? used_len + ret then Some (buf, used_len)
      else fbo_sense_all hs buf (used_len + ret) alloc_len page_control
  end.

Definition find_fbo_page (page_code : Z) : option page_fn :=
  option_map snd (List.find (fun h => page_code =? fst h) fbo_modesense_handlers).

(** The buffer and the length that is sent; [None] inside: no such page.
    [src tcmu-runner/file_optical.c 320-386 fbo_emulate_mode_sense] *)
Definition fbo_mode_sense_data (cdb : list Z) (alloc_len : Z) : option (option (list Z * Z)) :=
  let sense_ten := byte_at cdb 0 =? MODE_SENSE_10 in
  let page_control := Z.land (Z.shiftr (byte_at cdb 2) 6) 0x3 in
  let page_code := Z.land (byte_at cdb 2) 0x3f in
  let return_pages := negb ((page_code =? 0) && (page_control =? 0)) in
  let buf := zeros 512 in
  let used_len := if sense_ten then 8 else 4 in
  x ← (if return_pages then
         if page_code =? 0x3f then
           x ← fbo_sense_all fbo_modesense_handlers buf used_len alloc_len page_control; Some (Some x)
         else
           match find_fbo_page page_code with
           | None => Some None
           | Some get =>
               '(buf, ret) ← get buf (Z.to_nat used_len) page_control;
               Some (if ret <=? 0 then None else Some (buf, used_len + ret))
           end
       else Some (Some (buf, used_len)));
  match x with
  | None => Some None
  | Some (buf, used_len) =>
      buf ← (if sense_ten then bset buf 0 (be_enc 2 (u16 (used_len - 2)))
             else bset1 buf 0 (used_len - 1));
      Some (Some (buf, used_len))
  end.

(** [src tcmu-runner/file_optical.c fbo_emulate_mode_sense] *)
Definition fbo_emulate_mode_sense (cdb : list Z) (s : fcmd) : fresult :=
  alloc_len ← tcmu_get_xfer_length cdb;
  if Z.land (Z.shiftr (byte_at cdb 2) 6) 0x3 =? 3 then Some (s, TCMU_STS_NOTSUPP_SAVE_PARAMS)
  else
    x ← fbo_mode_sense_data cdb alloc_len;
    match x with
    | None => Some (s, TCMU_STS_INVALID_CDB)
    | Some (buf, used_len) => fsend s buf used_len
    end.

(** The loop over the parameter list; a page has at least ten bytes.
    [src tcmu-runner/file_optical.c 422-449 fbo_emulate_mode_select] *)
Fixpoint fbo_select_loop (fuel : nat) (buf in_buf : list Z) (used_len alloc_len : Z) : option tcmu_sts :=
  if used_len <? alloc_len then
    match fuel with
    | O => None
    | S fuel =>
        page_code ← bget1 in_buf (Z.to_nat used_len);
        match find_fbo_page page_code with
        | None => Some TCMU_STS_INVALID_PARAM_LIST
        | Some get =>
            '(buf, ret) ← get buf (Z.to_nat used_len) 0;
            if ret <=? 0 then Some TCMU_STS_INVALID_CDB
            else if alloc_len <? used_len + ret then Some TCMU_STS_INVALID_PARAM_LIST_LEN
            else
              a ← bget buf (Z.to_nat used_len) (Z.to_nat ret);
              b ← bget in_buf (Z.to_nat used_len) (Z.to_nat ret);
              if decide (a = b) then fbo_select_loop fuel buf in_buf (used_len + ret) alloc_len
              else Some TCMU_STS_INVALID_PARAM_LIST
        end
    end
  else Some TCMU_STS_OK.

(** [junk] is the uninitialised buffer.
    [src tcmu-runner/file_optical.c fbo_emulate_mode_select] *)
Definition fbo_emulate_mode_select (junk cdb : list Z) (s : fcmd) : fresult :=
  let select_ten := byte_at cdb 0 =? MODE_SELECT_10 in
  alloc_len ← tcmu_get_xfer_length cdb;
  if (Z.land (byte_at cdb 1) 0x10 =? 0) || negb (Z.land (byte_at cdb 1) 0x01 =? 0)
  then Some (s, TCMU_STS_INVALID_CDB)
  else if 512 <? alloc_len then Some (s, TCMU_STS_INVALID_PARAM_LIST_LEN)
  else
    '(in_buf, iov, copied) ←
      tcmu_memcpy_from_iovec (fc_mem s) junk 512 (fc_iov s) (Z.of_nat (length (fc_iov s)));
    let s := fc_set_mem s (fc_mem s) iov in
    if negb (copied =? alloc_len) then Some (s, TCMU_STS_INVALID_PARAM_LIST_LEN)
    else
      ret ← fbo_select_loop 52 (zeros 512) in_buf (if select_ten then 8 else 4) alloc_len;
      Some (s, ret).

(** [src tcmu-runner/file_optical.c fbo_emulate_allow_medium_removal] *)
Definition fbo_emulate_allow_medium_removal (cdb : list Z) (s : fcmd) : fresult :=
  Some (fc_set_st s (if negb (Z.land (byte_at cdb 4) 0x01 =? 0) then fb_on (fc_st s) FBO_PREV_EJECT
                     else fb_off (fc_st s) FBO_PREV_EJECT), TCMU_STS_OK).

(** ** READ TOC *)

(** The largest address that has the form 00:FF:3B:4A.
    [src tcmu-runner/file_optical.c 497-499 fbo_emulate_read_toc] *)
Definition toc_max : Z := (0xff * CD_SECS + CD_SECS - 1) * CD_FRAMES + CD_FRAMES - 1 - CD_MSF_OFFSET.

(** [src tcmu-runner/file_optical.c 483-518 fbo_emulate_read_toc] *)
Definition fbo_toc_formatted (st : fbo_state) (time_bit : bool) : option (list Z) :=
  let buf := zeros 512 in
  buf ← bset1 buf 1 0x12;
  buf ← bset1 buf 2 1;
  buf ← bset1 buf 3 1;
  buf ← bset1 buf 5 0x14;
  buf ← bset1 buf 6 1;
  buf ← (if time_bit then bset1 buf 10 CDROM_MSF else Some buf);
  buf ← bset1 buf 13 (if fb_has st FBO_READ_ONLY then 0x14 else 0x17);
  buf ← bset1 buf 14 CDROM_LEADOUT;
  if time_bit then
    if toc_max <=? fb_num_lbas st then
      buf ← bset1 buf 17 0xff;
      buf ← bset1 buf 18 (CD_SECS - 1);
      bset1 buf 19 (CD_FRAMES - 1)
    else
      buf ← bset1 buf 17 ((fb_num_lbas st / CD_FRAMES + 2) / CD_SECS);
      buf ← bset1 buf 18 ((fb_num_lbas st / CD_FRAMES + 2) mod CD_SECS);
      bset1 buf 19 (fb_num_lbas st mod CD_FRAMES)
  else put_unaligned_be32 (u32 (fb_num_lbas st)) buf 16.

(** [src tcmu-runner/file_optical.c 520-531 fbo_emulate_read_toc] *)
Definition fbo_toc_sessions (time_bit : bool) : option (list Z) :=
  let buf := zeros 512 in
  buf ← bset1 buf 1 0xa;
  buf ← bset1 buf 2 1;
  buf ← bset1 buf 3 1;
  buf ← bset1 buf 5 0x14;
  buf ← bset1 buf 6 1;
  if time_bit then bset1 buf 10 2 else Some buf.

(** [src tcmu-runner/file_optical.c fbo_emulate_read_toc] *)
Definition fbo_emulate_read_toc (cdb : list Z) (s : fcmd) : fresult :=
  let time_bit := negb (Z.land (byte_at cdb 1) 0x02 =? 0) in
  let format := Z.land (byte_at cdb 2) 0x0f in
  if format =? 0x00 then fsend_page s (fbo_toc_formatted (fc_st s) time_bit) 0x14
  else if format =? 0x01 then fsend_page s (fbo_toc_sessions time_bit) 0xc
  else Some (s, TCMU_STS_INVALID_CDB).

(** ** Events *)

(** The buffer, the length sent and the state after the report.
    [src tcmu-runner/file_optical.c 785-849 fbo_emulate_get_event_status_notification] *)
Definition fbo_event_data (st : fbo_state) (class_req alloc_len : Z)
    : option (list Z * Z * fbo_state) :=
  let buf := zeros 8 in
  buf ← bset1 buf 3 0x42;
  '(buf, used_len, st) ←
    (if Z.land class_req 0x42 =? 0 then buf ← bset1 buf 2 0x80; Some (buf, 4, st)
     else if negb (Z.land class_req 0x02 =? 0)
             && (negb (fb_event_op_ch_code st =? 0) || (Z.land class_req 0x40 =? 0)
                 || negb (fb_has st FBO_BUSY_EVENT))
     then
       buf ← bset1 buf 2 1;
       if 4 <? alloc_len then
         buf ← bset1 buf 4 (fb_event_op_ch_code st);
         buf ← (if fb_event_op_ch_code st =? 0 then Some buf else put_unaligned_be16 0x0001 buf 6);
         Some (buf, 8, fb_set_event st 0)
       else Some (buf, 4, st)
     else
       buf ← bset1 buf 2 6;
       if 4 <? alloc_len then
         '(buf, st) ← (if fb_has st FBO_BUSY_EVENT
                       then buf ← bset1 buf 4 1; Some (buf, fb_off st FBO_BUSY_EVENT)
                       else Some (buf, st));
         buf ← (if fb_has st FBO_FORMAT_IMMED || negb (fb_async_cache_count st =? 0)
                then bset1 buf 5 1 else Some buf);
         Some (buf, 8, st)
       else Some (buf, 4, st));
  buf ← put_unaligned_be16 (u16 (used_len - 4)) buf 0;
  Some (buf, used_len, st).

(** [src tcmu-runner/file_optical.c fbo_emulate_get_event_status_notification] *)
Definition fbo_emulate_get_event_status_notification (cdb : list Z) (s : fcmd) : fresult :=
  alloc_len ← tcmu_get_xfer_length cdb;
  if Z.land (byte_at cdb 1) 0x01 =? 0 then Some (s, TCMU_STS_INVALID_CDB)
  else
    '(buf, used_len, st) ← fbo_event_data (fc_st s) (byte_at cdb 4) (u16 alloc_len);
    fsend (fc_set_st s st) buf used_len.

(** ** Disc and DVD structures, mechanism status, format capacities *)

(** [src tcmu-runner/file_optical.c 863-874 fbo_emulate_read_disc_information] *)
Definition fbo_disc_information (st : fbo_state) : option (list Z) :=
  let buf := zeros 34 in
  buf ← bset1 buf 1 32;
  buf ← bset1 buf 2 (if fb_has st FBO_READ_ONLY then 0x0e else 0x1f);
  buf ← bset1 buf 3 1;
  buf ← bset1 buf 4 1;
  buf ← bset1 buf 5 1;
  buf ← bset1 buf 6 1;
  bset1 buf 7 0x20.

(** [src tcmu-runner/file_optical.c fbo_emulate_read_disc_information] *)
Definition fbo_emulate_read_disc_information (s : fcmd) : fresult :=
  fsend_page s (fbo_disc_information (fc_st s)) 34.

(** [src tcmu-runner/file_optical.c 900-920 fbo_emulate_read_dvd_structure] *)
Definition dvd_physical (st : fbo_state) : option (list Z) :=
  let ro := fb_has st FBO_READ_ONLY in
  let start_phys := if ro then 0x30000 else 0x31000 in
  let end_phys := u32 (start_phys + fb_num_lbas st - 1) in
  let buf := zeros 512 in
  buf ← bset1 buf 1 19;
  buf ← bset1 buf 4 (if ro then 0x02 else 0x12);
  buf ← bset1 buf 5 0x0f;
  buf ← (if ro then Some buf else bset1 buf 6 0x02);
  buf ← bset1 buf 9 (Z.shiftr start_phys 16);
  buf ← put_unaligned_be16 (u16 (Z.land start_phys 0xffff)) buf 10;
  buf ← bset1 buf 13 (Z.shiftr end_phys 16);
  put_unaligned_be16 (u16 (Z.land end_phys 0xffff)) buf 14.

Definition manuf_info : list Z := str "VIRTUAL FB OPT".

(** [src tcmu-runner/file_optical.c 928-934 fbo_emulate_read_dvd_structure] *)
Definition dvd_manufact : option (list Z) :=
  let buf := zeros 512 in
  buf ← bset1 buf 2 (Z.of_nat (length manuf_info) + 2);
  bset buf 4 manuf_info.

(** [src tcmu-runner/file_optical.c 946-966 fbo_emulate_read_dvd_structure] *)
Definition dvd_capabilities : option (list Z) :=
  let buf := zeros 512 in
  buf ← bset1 buf 1 18;
  buf ← bset1 buf 4 0x00; buf ← bset1 buf 5 0x40; buf ← bset1 buf 7 21;
  buf ← bset1 buf 8 0x01; buf ← bset1 buf 9 0x40; buf ← bset1 buf 11 8;
  buf ← bset1 buf 12 0x04; buf ← bset1 buf 13 0x40;
  buf ← bset1 buf 15 (Z.of_nat (length manuf_info) + 4);
  buf ← bset1 buf 16 0x09; buf ← bset1 buf 17 0x40; bset1 buf 19 8.

(** [src tcmu-runner/file_optical.c fbo_emulate_read_dvd_structure] *)
Definition fbo_emulate_read_dvd_structure (cdb : list Z) (s : fcmd) : fresult :=
  let format := byte_at cdb 7 in
  if negb (byte_at cdb 6 =? 0) then Some (s, TCMU_STS_INVALID_CDB)
  else if format =? DVD_STRUCT_PHYSICAL then fsend_page s (dvd_physical (fc_st s)) 21
  else if format =? DVD_STRUCT_COPYRIGHT then fsend_page s (bset1 (zeros 512) 1 6) 8
  else if format =? DVD_STRUCT_MANUFACT then
    fsend_page s dvd_manufact (Z.of_nat (length manuf_info) + 4)
  else if format =? 0x09 then
    if fb_has (fc_st s) FBO_READ_ONLY then Some (s, TCMU_STS_INVALID_CDB)
    else fsend_page s (buf ← bset1 (zeros 512) 1 6; bset1 buf 5 0x10) 8
  else if format =? 0xff then fsend_page s dvd_capabilities 20
  else Some (s, TCMU_STS_INVALID_CDB).

(** [src tcmu-runner/file_optical.c 982-988 fbo_emulate_mechanism_status] *)
Definition fbo_mechanism_data (st : fbo_state) : option (list Z) :=
  let buf := zeros 8 in
  if fb_has st FBO_DEV_IO then
    buf ← bset1 buf 1 0x20;
    buf ← bset1 buf 2 (Z.land (Z.shiftr (fb_cur_lba st) 16) 0xff);
    put_unaligned_be16 (u16 (Z.land (fb_cur_lba st) 0xffff)) buf 3
  else Some buf.

(** [src tcmu-runner/file_optical.c fbo_emulate_mechanism_status] *)
Definition fbo_emulate_mechanism_status (s : fcmd) : fresult :=
  fsend_page s (fbo_mechanism_data (fc_st s)) 8.

(** [src tcmu-runner/file_optical.c 1420-1434 fbo_emulate_read_format_capacities] *)
Definition fbo_format_capacities (st : fbo_state) : option (list Z * Z) :=
  let buf := zeros 20 in
  buf ← put_unaligned_be32 (u32 (fb_num_lbas st)) buf 4;
  buf ← bset1 buf 8 0x02;
  buf ← bset1 buf 9 (Z.land (Z.shiftr (fb_block_size st) 16) 0xff);
  buf ← put_unaligned_be16 (u16 (Z.land (fb_block_size st) 0xffff)) buf 10;
  '(buf, used_len) ←
    (if fb_has st FBO_READ_ONLY then Some (buf, 12)
     else
       d ← bget buf 4 8;
       buf ← bset buf 12 d;
       buf ← bset1 buf 16 0;
       Some (buf, 20));
  buf ← bset1 buf 3 (used_len - 4);
  Some (buf, used_len).

(** [src tcmu-runner/file_optical.c fbo_emulate_read_format_capacities] *)
Definition fbo_emulate_read_format_capacities (s : fcmd) : fresult :=
  '(buf, used_len) ← fbo_format_capacities (fc_st s);
  fsend s buf used_len.
