(* ===== verification/OpticalCfg.v ===== *)
(** * The optical handler: GET CONFIGURATION

    The feature descriptors of [file_optical.c], how a request selects them,
    and that the response is what an initiator parses back. *)

From Stdlib Require Import Sorting.Sorted.
From S2P Require Import Prelude Scsi Iovec Sense Device Optical.

(** ** Features *)

(** A feature descriptor: its code, whether a request for current features
    (RT 1) lists it, the stores into the buffer relative to [cur], and by how
    much [used_len] grows. *)
Record feature := Feature {
  ft_code : Z;
  ft_rt1 : bool;
  ft_stores : list (nat * list Z);
  ft_len : Z
}.

(** [src tcmu-runner/file_optical.c 565-586 fbo_emulate_get_configuration] *)
Definition profile_list_feature (st : fbo_state) : feature :=
  Feature 0x0000 true
    ([(0%nat, be_enc 2 0x0000); (2%nat, [3]); (3%nat, [16]); (4%nat, be_enc 2 0x12)]
     ++ (if fb_has st FBO_READ_ONLY then [] else [(6%nat, [1])])
     ++ [(8%nat, be_enc 2 0x10)]
     ++ (if fb_has st FBO_READ_ONLY then [(10%nat, [1])] else [])
     ++ [(12%nat, be_enc 2 0x0a); (16%nat, be_enc 2 0x08)]) 20.

(** [src tcmu-runner/file_optical.c 588-601 fbo_emulate_get_configuration] *)
Definition core_feature : feature :=
  Feature 0x0001 true
    [(0%nat, be_enc 2 0x0001); (2%nat, [7]); (3%nat, [8]); (4%nat, be_enc 4 1); (8%nat, [1])] 12.

(** [src tcmu-runner/file_optical.c 603-614 fbo_emulate_get_configuration] *)
Definition morphing_feature : feature :=
  Feature 0x0002 true [(0%nat, be_enc 2 0x0002); (2%nat, [7]); (3%nat, [4]); (4%nat, [2])] 8.

(** [src tcmu-runner/file_optical.c 616-627 fbo_emulate_get_configuration] *)
Definition removable_medium_feature : feature :=
  Feature 0x0003 true [(0%nat, be_enc 2 0x0003); (2%nat, [3]); (3%nat, [4]); (4%nat, [0x20])] 8.

(** [src tcmu-runner/file_optical.c 629-642 fbo_emulate_get_configuration] *)
Definition random_readable_feature (st : fbo_state) : feature :=
  Feature 0x0010 true
    [(0%nat, be_enc 2 0x0010); (2%nat, [1]); (3%nat, [8]); (4%nat, be_enc 4 (fb_block_size st));
     (8%nat, be_enc 2 0x10); (10%nat, [0x01])] 12.

(** [src tcmu-runner/file_optical.c 644-653 fbo_emulate_get_configuration] *)
Definition multi_read_feature : feature :=
  Feature 0x001d false [(0%nat, be_enc 2 0x001d); (2%nat, [0]); (3%nat, [0])] 4.

(** [src tcmu-runner/file_optical.c 655-664 fbo_emulate_get_configuration] *)
Definition cd_read_feature : feature :=
  Feature 0x001e false [(0%nat, be_enc 2 0x001e); (2%nat, [8]); (3%nat, [4])] 8.

(** [src tcmu-runner/file_optical.c 666-675 fbo_emulate_get_configuration] *)
Definition dvd_read_feature : feature :=
  Feature 0x001f true [(0%nat, be_enc 2 0x001f); (2%nat, [1]); (3%nat, [0])] 4.

(** [src tcmu-runner/file_optical.c 677-695 fbo_emulate_get_configuration] *)
Definition random_writable_feature (st : fbo_state) : feature :=
  Feature CDF_RWRT (negb (fb_has st FBO_READ_ONLY))
    [(0%nat, be_enc 2 CDF_RWRT); (2%nat, [if fb_has st FBO_READ_ONLY then 4 else 5]);
     (3%nat, [0xc]); (4%nat, be_enc 4 (u32 (fb_num_lbas st - 1)));
     (8%nat, be_enc 4 (fb_block_size st)); (12%nat, be_enc 2 0x10); (14%nat, [0x01])] 16.

(** [src tcmu-runner/file_optical.c 697-706 fbo_emulate_get_configuration] *)
Definition incremental_feature : feature :=
  Feature 0x0021 false [(0%nat, be_enc 2 0x0021); (2%nat, [4]); (3%nat, [4])] 8.

(** [src tcmu-runner/file_optical.c 708-721 fbo_emulate_get_configuration] *)
Definition formattable_feature (st : fbo_state) : feature :=
  Feature 0x0023 (negb (fb_has st FBO_READ_ONLY))
    [(0%nat, be_enc 2 0x0023); (2%nat, [if fb_has st FBO_READ_ONLY then 0 else 1]); (3%nat, [0])] 4.

(** [src tcmu-runner/file_optical.c 723-736 fbo_emulate_get_configuration] *)
Definition defect_management_feature (st : fbo_state) : feature :=
  Feature CDF_HWDM (negb (fb_has st FBO_READ_ONLY))
    [(0%nat, be_enc 2 CDF_HWDM); (2%nat, [if fb_has st FBO_READ_ONLY then 4 else 5]); (3%nat, [4])] 8.

(** [src tcmu-runner/file_optical.c 738-747 fbo_emulate_get_configuration] *)
Definition restricted_overwrite_feature : feature :=
  Feature 0x0026 false [(0%nat, be_enc 2 0x0026); (2%nat, [0]); (3%nat, [0])] 4.

(** [src tcmu-runner/file_optical.c 749-758 fbo_emulate_get_configuration] *)
Definition track_at_once_feature : feature :=
  Feature 0x002d false [(0%nat, be_enc 2 0x002d); (2%nat, [8]); (3%nat, [4])] 8.

(** [src tcmu-runner/file_optical.c 760-769 fbo_emulate_get_configuration] *)
Definition timeout_feature : feature :=
  Feature 0x0105 true [(0%nat, be_enc 2 0x0105); (2%nat, [5]); (3%nat, [4])] 8.

(** In the order of the code. *)
Definition fbo_features (st : fbo_state) : list feature :=
  [profile_list_feature st; core_feature; morphing_feature; removable_medium_feature;
   random_readable_feature st; multi_read_feature; cd_read_feature; dvd_read_feature;
   random_writable_feature st; incremental_feature; formattable_feature st;
   defect_management_feature st; restricted_overwrite_feature; track_at_once_feature;
   timeout_feature].

(** The condition in front of each feature. *)
Definition feature_selected (rt start : Z) (f : feature) : bool :=
  ((rt =? 2) && (start =? ft_code f))
  || ((start <=? ft_code f) && ((rt =? 0) || ((rt =? 1) && ft_rt1 f))).

(** The stores [cur[i] = ...] of a feature, [cur = &buf[used_len]]. *)
Fixpoint feature_stores (buf : list Z) (cur : nat) (l : list (nat * list Z)) : option (list Z) :=
  match l with
  | [] => Some buf
  | (i, bs) :: l => buf ← bset buf (cur + i) bs; feature_stores buf cur l
  end.

(** The features one after the other. *)
Fixpoint put_features (fs : list feature) (rt start : Z) (buf : list Z) (used_len : Z)
    : option (list Z * Z) :=
  match fs with
  | [] => Some (buf, used_len)
  | f :: fs =>
      if feature_selected rt start f then
        buf ← feature_stores buf (Z.to_nat used_len) (ft_stores f);
        put_features fs rt start buf (used_len + ft_len f)
      else put_features fs rt start buf used_len
  end.

(** The buffer and [used_len].
    [src tcmu-runner/file_optical.c 554-771 fbo_emulate_get_configuration] *)
Definition fbo_configuration (st : fbo_state) (rt start : Z) : option (list Z * Z) :=
  let buf := zeros 512 in
  buf ← put_unaligned_be16 (if fb_has st FBO_READ_ONLY then 0x10 else 0x12) buf 6;
  '(buf, used_len) ← put_features (fbo_features st) rt start buf 8;
  buf ← put_unaligned_be32 (u32 (used_len - 4)) buf 0;
  Some (buf, used_len).

(** [src tcmu-runner/file_optical.c fbo_emulate_get_configuration] *)
Definition fbo_emulate_get_configuration (cdb : list Z) (s : fcmd) : fresult :=
  let rt := Z.land (byte_at cdb 1) 0x03 in
  if rt =? 3 then Some (s, TCMU_STS_INVALID_CDB)
  else
    '(buf, used_len) ← fbo_configuration (fc_st s) rt (be_at cdb 2 2);
    fsend s buf used_len.

(** ** What an initiator parses *)

(** A descriptor of MMC: the code, the byte with version, persistence and the
    current bit, and as many bytes as its length byte says. *)
Record descriptor := Descr { ds_code : Z; ds_bits : Z; ds_data : list Z }.

Definition ds_current (d : descriptor) : bool := Z.testbit (ds_bits d) 0.

Fixpoint parse_features (fuel : nat) (l : list Z) : option (list descriptor) :=
  match l with
  | [] => Some []
  | c1 :: c0 :: b :: n :: l =>
      match fuel with
      | O => None
      | S fuel =>
          if (Z.to_nat n <=? length l)%nat then
            ds ← parse_features fuel (drop (Z.to_nat n) l);
            Some (Descr (be_dec [c1; c0]) b (take (Z.to_nat n) l) :: ds)
          else None
      end
  | _ => None
  end.

(** The descriptor a feature stands for. *)
Definition feature_bytes (f : feature) : list Z :=
  default [] (feature_stores (zeros (Z.to_nat (ft_len f))) 0 (ft_stores f)).

Definition feature_descriptor (f : feature) : descriptor :=
  Descr (ft_code f) (byte_at (feature_bytes f) 2) (drop 4 (feature_bytes f)).

(** A feature whose stores stay inside its length and whose header says what
    it is. *)
Record feature_ok (f : feature) : Prop := {
  fo_len : 4 <= ft_len f <= 20;
  fo_stores : feature_stores (zeros (Z.to_nat (ft_len f))) 0 (ft_stores f) = Some (feature_bytes f);
  fo_header : exists b, take 4 (feature_bytes f) = be_enc 2 (ft_code f) ++ [b; ft_len f - 4];
  fo_code : 0 <= ft_code f < 2 ^ 16;
  fo_current : ds_current (feature_descriptor f) = ft_rt1 f
}.

Lemma feature_stores_length l : forall buf cur b,
  feature_stores buf cur l = Some b -> length b = length buf.
Proof.
  induction l as [|[i bs] l IH]; intros buf cur b H; cbn in H; [by simplify_eq|].
  destruct (bset buf (cur + i) bs) as [b1|] eqn:E; [|done]. cbn in H.
  rewrite (IH _ _ _ H). by eapply bset_length.
Qed.

Lemma feature_bytes_length f : feature_ok f -> Z.of_nat (length (feature_bytes f)) = ft_len f.
Proof.
  intros [Hl Hs _ _ _]. apply feature_stores_length in Hs. rewrite Hs, length_zeros. lia.
Qed.

(** Stores inside a window do not depend on what is around it. *)
Lemma feature_stores_window l : forall w z t z',
  feature_stores z 0 l = Some z' ->
  feature_stores (w ++ z ++ t) (length w) l = Some (w ++ z' ++ t).
Proof.
  induction l as [|[i bs] l IH]; intros w z t z' H; cbn in H |- *; [by simplify_eq|].
  destruct (bset z i bs) as [z1|] eqn:E; [|done]. cbn in H.
  rewrite bset_app_r.
  assert (bset (z ++ t) i bs = Some (z1 ++ t)) as ->.
  { unfold bset in E |- *. case_decide; [|done]. simplify_eq.
    rewrite decide_True by (rewrite length_app; lia).
    rewrite take_app_le, drop_app_le by lia. by rewrite <- !app_assoc. }
  cbn. by apply IH.
Qed.

Lemma put_features_spec fs : forall rt start w n used,
  Forall feature_ok fs -> used = Z.of_nat (length w) ->
  (Z.to_nat (zsum (map ft_len fs)) <= n)%nat ->
  exists n',
    put_features fs rt start (w ++ zeros n) used =
      Some (w ++ concat (map feature_bytes (List.filter (feature_selected rt start) fs)) ++ zeros n',
            used + zsum (map ft_len (List.filter (feature_selected rt start) fs))).
Proof.
  induction fs as [|f fs IH]; intros rt start w n used Hok Hu Hn; cbn.
  { exists n. by rewrite Z.add_0_r. }
  inversion Hok as [|? ? Hf Hfs]; subst. pose proof (fo_len _ Hf). cbn in Hn.
  assert (0 <= zsum (map ft_len fs)).
  { apply zsum_nonneg, Forall_map. eapply Forall_impl; [exact Hfs|]. intros g Hg.
    pose proof (fo_len _ Hg). cbn. lia. }
  unfold zsum in *.
  destruct (feature_selected rt start f); [|apply IH; [done|done|lia]].
  rewrite (zeros_split (Z.to_nat (ft_len f)) n) by lia. rewrite Nat2Z.id.
  rewrite (feature_stores_window _ w _ _ _ (fo_stores _ Hf)). cbn.
  pose proof (feature_bytes_length f Hf) as L.
  destruct (IH rt start (w ++ feature_bytes f) (n - Z.to_nat (ft_len f))%nat
              (Z.of_nat (length w) + ft_len f) Hfs) as [n' E]; [rewrite length_app; lia|lia|].
  rewrite <- app_assoc in E. rewrite E. exists n'. cbn [map concat foldr]. rewrite <- !app_assoc.
  do 2 f_equal. lia.
Qed.

Lemma parse_concat fs : forall fuel,
  Forall feature_ok fs -> (length fs <= fuel)%nat ->
  parse_features fuel (concat (map feature_bytes fs)) = Some (map feature_descriptor fs).
Proof.
  induction fs as [|f fs IH]; intros fuel Hok Hfu; [by destruct fuel|].
  inversion Hok as [|? ? Hf Hfs]; subst. destruct fuel as [|fuel]; [cbn in Hfu; lia|].
  pose proof (feature_bytes_length f Hf) as L. pose proof (fo_len _ Hf).
  destruct (fo_header _ Hf) as [b Hb]. pose proof (fo_code _ Hf) as Hc.
  assert (feature_bytes f = (be_enc 2 (ft_code f) ++ [b; ft_len f - 4]) ++ drop 4 (feature_bytes f)) as E.
  { rewrite <- Hb. by rewrite take_drop. }
  assert (length (drop 4 (feature_bytes f)) = Z.to_nat (ft_len f - 4)) as Ld by (rewrite length_drop; lia).
  cbn [map concat]. unfold feature_descriptor. rewrite E at 1 3.
  set (d := drop 4 (feature_bytes f)) in *. cbn [be_enc app]. cbn [parse_features].
  rewrite (proj2 (Nat.leb_le _ _)) by (rewrite length_app; lia).
  rewrite <- Ld, drop_app_length, take_app_length, IH by (done || (cbn in Hfu; lia)).
  cbn [mbind option_bind]. do 3 f_equal; [exact (be_dec_enc 2 (ft_code f) Hc)|by rewrite E].
Qed.

Lemma fbo_features_ok st : Forall feature_ok (fbo_features st).
Proof.
  unfold fbo_features, profile_list_feature, random_writable_feature, formattable_feature,
    defect_management_feature.
  destruct (fb_has st FBO_READ_ONLY); repeat constructor; cbn [ft_len ft_code ft_rt1 ft_stores];
    try lia; try done; try (eexists; vm_compute; reflexivity); vm_compute; reflexivity.
Qed.

(** What MMC asks for: RT 0 is every feature from the starting code on, RT 1
    the current ones of these, RT 2 the one with the starting code. *)
Definition mmc_selects (rt start : Z) (d : descriptor) : bool :=
  if rt =? 0 then start <=? ds_code d
  else if rt =? 1 then (start <=? ds_code d) && ds_current d
  else ds_code d =? start.

(** The profiles of a profile list that are marked as current. *)
Fixpoint current_profiles (l : list Z) : list Z :=
  match l with
  | p1 :: p0 :: b :: _ :: l =>
      if Z.testbit b 0 then be_dec [p1; p0] :: current_profiles l else current_profiles l
  | _ => []
  end.

Definition fbo_profile (st : fbo_state) : Z := if fb_has st FBO_READ_ONLY then 0x10 else 0x12.

Lemma filter_map {A B} (g : A -> B) (p : B -> bool) (q : A -> bool) l :
  Forall (fun a => p (g a) = q a) l -> List.filter p (map g l) = map g (List.filter q l).
Proof.
  induction 1 as [|a l Ha _ IH]; [done|]. cbn. rewrite Ha. destruct (q a); cbn; by rewrite IH.
Qed.

Lemma feature_selected_mmc rt start f :
  feature_ok f -> 0 <= rt <= 2 -> mmc_selects rt start (feature_descriptor f) = feature_selected rt start f.
Proof.
  intros Hf Hrt. unfold mmc_selects, feature_selected. rewrite (fo_current _ Hf). cbn [ds_code feature_descriptor].
  assert (rt = 0 \/ rt = 1 \/ rt = 2) as [-> | [-> | ->]] by lia; cbn.
  - by rewrite andb_true_r.
  - done.
  - rewrite andb_false_r, orb_false_r. apply Z.eqb_sym.
Qed.

Lemma sorted_filter {A} (g : A -> Z) (p : A -> bool) l :
  StronglySorted Z.lt (map g l) -> StronglySorted Z.lt (map g (List.filter p l)).
Proof.
  induction l as [|a l IH]; intros H; [done|]. cbn in *. inversion H as [|? ? Hs Ha]; subst.
  destruct (p a); [|by apply IH]. cbn. constructor; [by apply IH|].
  rewrite Forall_forall in Ha |- *. intros z Hz. apply Ha. apply list_elem_of_In, in_map_iff in Hz as (b & <- & Hb).
  apply filter_In in Hb. apply list_elem_of_In, in_map_iff. exists b. tauto.
Qed.

Lemma sum_filter_bound fs p :
  Forall feature_ok fs -> 0 <= zsum (map ft_len (List.filter p fs)) <= zsum (map ft_len fs).
Proof.
  unfold zsum. induction 1 as [|f fs Hf _ IH]; cbn; [lia|]. pose proof (fo_len _ Hf).
  destruct (p f); cbn; lia.
Qed.

Lemma fbo_features_sum st : zsum (map ft_len (fbo_features st)) = 132.
Proof. done. Qed.

Lemma concat_length fs :
  Forall feature_ok fs -> Z.of_nat (length (concat (map feature_bytes fs))) = zsum (map ft_len fs).
Proof.
  unfold zsum. induction 1 as [|f fs Hf _ IH]; cbn; [done|].
  rewrite length_app. pose proof (feature_bytes_length f Hf). lia.
Qed.

Lemma put_be32 v l x0 x1 x2 x3 :
  put_unaligned_be32 (u32 v) (x0 :: x1 :: x2 :: x3 :: l) 0 = Some (be_enc 4 (u32 v) ++ l).
Proof.
  unfold put_unaligned_be32, bset1. cbn [Nat.add]. bset_run. cbn [be_enc app].
  pose proof (u32_bound v). unfold u8, wrap. rewrite !Z.shiftr_div_pow2 by lia.
  rewrite !Z.div_div by lia. done.
Qed.

(** Where the response comes from. *)
Lemma fbo_configuration_response st rt start :
  let fs := List.filter (feature_selected rt start) (fbo_features st) in
  let body := concat (map feature_bytes fs) in
  exists tail,
    fbo_configuration st rt start =
      Some (be_enc 4 (u32 (4 + zsum (map ft_len fs))) ++ [0; 0] ++ be_enc 2 (fbo_profile st) ++ body ++ tail,
            8 + zsum (map ft_len fs)).
Proof.
  cbv zeta. unfold fbo_configuration.
  assert (put_unaligned_be16 (if fb_has st FBO_READ_ONLY then 0x10 else 0x12) (zeros 512) 6 =
          Some (([0; 0; 0; 0; 0; 0] ++ be_enc 2 (fbo_profile st)) ++ zeros 504)) as ->.
  { unfold fbo_profile. by destruct (fb_has st FBO_READ_ONLY). }
  cbn [mbind option_bind].
  pose proof (sum_filter_bound _ (feature_selected rt start) (fbo_features_ok st)) as Hs.
  pose proof (fbo_features_sum st) as Ht.
  destruct (put_features_spec (fbo_features st) rt start ([0; 0; 0; 0; 0; 0] ++ be_enc 2 (fbo_profile st))
              504 8 (fbo_features_ok st) eq_refl) as [n' ->]; [lia|].
  cbn [mbind option_bind]. rewrite <- app_assoc. exists (zeros n').
  set (rest := be_enc 2 (fbo_profile st) ++ _). cbn [app]. rewrite put_be32. cbn [mbind option_bind].
  match goal with |- context [u32 (8 + ?z - 4)] => replace (8 + z - 4) with (4 + z) by lia end.
  done.
Qed.

(** GET CONFIGURATION answers every request type and starting feature with
    a response that parses: the length field counts what follows it, the
    descriptors one after the other are exactly those of the drive's features
    that MMC asks for (all, the current ones, or the one requested), in the
    order of their codes, and the profile of the header is the one that the profile
    list marks as current. *)
Theorem fbo_configuration_parses (st : fbo_state) (rt start : Z) (Hrt : 0 <= rt <= 2) :
  exists buf used body,
    fbo_configuration st rt start = Some (buf, used) /\
    take (Z.to_nat used) buf =
      be_enc 4 (used - 4) ++ [0; 0] ++ be_enc 2 (fbo_profile st) ++ body /\
    used = 8 + Z.of_nat (length body) /\ used <= 140 /\
    let ds := List.filter (mmc_selects rt start) (map feature_descriptor (fbo_features st)) in
    parse_features 15 body = Some ds /\ StronglySorted Z.lt (map ds_code ds) /\
    forall d, In d ds -> ds_code d = 0 -> current_profiles (ds_data d) = [fbo_profile st].
Proof.
  destruct (fbo_configuration_response st rt start) as [tail E].
  set (fs := List.filter _ _) in *.
  assert (Forall feature_ok fs) as Hfs.
  { apply Forall_forall. intros f Hf%list_elem_of_In%filter_In.
    pose proof (fbo_features_ok st) as Hok. rewrite Forall_forall in Hok.
    apply Hok, list_elem_of_In. tauto. }
  pose proof (sum_filter_bound _ (feature_selected rt start) (fbo_features_ok st)) as Hs. fold fs in Hs.
  pose proof (fbo_features_sum st) as Ht. pose proof (concat_length fs Hfs) as L.
  eexists _, _, (concat (map feature_bytes fs)). split; [exact E|]. rewrite u32_small by lia.
  split; [|split; [lia|split; [lia|]]].
  - rewrite !app_assoc, take_app_le, take_ge; rewrite ?length_app, ?be_enc_length; cbn [length]; try lia.
    rewrite <- !app_assoc. do 2 f_equal. lia.
  - cbv zeta. rewrite (filter_map feature_descriptor (mmc_selects rt start) (feature_selected rt start)).
    2:{ eapply Forall_impl; [apply fbo_features_ok|]. intros f Hf. by apply feature_selected_mmc. }
    split; [apply parse_concat; [done|]|].
    { unfold fs. etransitivity; [apply List.filter_length_le|]. done. }
    split.
    { rewrite map_map. apply sorted_filter. cbn. repeat constructor. }
    intros d (f & <- & Hf)%in_map_iff Hc. apply filter_In in Hf as [Hf _].
    unfold fbo_profile, fbo_features, profile_list_feature, random_writable_feature, formattable_feature,
      defect_management_feature in *.
    destruct (fb_has st FBO_READ_ONLY); cbn [In] in Hf;
      repeat (destruct Hf as [<-|Hf]; [try (vm_compute in Hc; discriminate); reflexivity|]); done.
Qed.

(** A drive with 1000 blocks and its file writable. *)
Definition demo_fbo : fbo_state := Fbo 1000 2048 0 0 0 2 0.

Lemma fbo_configuration_parses_witness :
  exists buf used body,
    fbo_configuration demo_fbo 1 0x20 = Some (buf, used) /\
    take (Z.to_nat used) buf = [0; 0; 0; 40; 0; 0; 0; 0x12] ++ body /\
    option_map (map ds_code) (parse_features 15 body) = Some [0x20; 0x23; 0x24; 0x105].
Proof.
  destruct (fbo_configuration_parses demo_fbo 1 0x20 ltac:(lia)) as (buf & used & body & E & T & L & _ & P & _ & _).
  exists buf, used, body. split; [exact E|]. vm_compute in E. injection E as <- <-. split; [exact T|].
  cbv zeta in P. rewrite P. vm_compute. reflexivity.
Defined.
