(* ===== verification/OpticalIo.v ===== *)
(** * The optical handler: opening, I/O, formatting, dispatch

    [fbo_open], the commands of [file_optical.c] that use the file, its
    background threads and [fbo_handle_cmd].  The file and its system calls
    are those of [FileBack]. *)

From S2P Require Import Prelude Scsi Iovec Sense Device Inquiry Mode Backstore FileBack Optical OpticalCfg.

(** ** Opening *)

(** How [open] is called. *)
Inductive fbo_open_mode := CreateRW | OpenRO | OpenRW.

(** The string from the first ['/'] on. *)
Fixpoint strchr_slash (s : list Z) : option (list Z) :=
  match s with
  | [] => None
  | c :: s' => if c =? 47 then Some s else strchr_slash s'
  end.

(** [!strncasecmp(options, "ro/", 3)]. *)
Definition is_ro_option (s : list Z) : bool :=
  match s with
  | r :: o :: 47 :: _ => ((r =? 114) || (r =? 82)) && ((o =? 111) || (o =? 79))
  | _ => false
  end.

(** The options up to the path: the flags and the path, or [None] when there
    is none.
    [src tcmu-runner/file_optical.c 143-155 fbo_open] *)
Fixpoint fbo_options (fuel : nat) (options : list Z) (flags : Z) : option (option (Z * list Z)) :=
  match options with
  | 47 :: _ => Some (Some (flags, options))
  | _ =>
      match fuel with
      | O => None
      | S fuel =>
          let flags := if is_ro_option options then Z.lor flags FBO_READ_ONLY else flags in
          match strchr_slash options with
          | None => Some None
          | Some rest => fbo_options fuel (tail rest) flags
          end
      end
  end.

(** The device with its new sizes, and the state or an error.  [size] is the
    answer of [tcmu_get_dev_size], [exists_] that of [access], [open_ok]
    that of [open].  The division truncates towards zero.
    [src tcmu-runner/file_optical.c fbo_open] *)
Definition fbo_open (alloc_ok : bool) (size : Z) (exists_ : list Z -> bool)
    (open_ok : fbo_open_mode -> list Z -> bool) (dev : tcmu_device)
    : option (tcmu_device * (Z + fbo_state)) :=
  if negb alloc_ok then Some (dev, inl (-12))
  else
    let dev := Dev (num_lbas dev) 2048 (max_xfer_len dev) (opt_unmap_gran dev) (unmap_gran_align dev)
                 (write_cache_enabled dev) (solid_state_media dev) (cfgstring dev) (dev_wwn dev)
                 (rhandler dev) in
    if size =? -1 then Some (dev, inl (- EINVAL))
    else
      let dev := tcmu_set_dev_num_lbas dev (Z.quot size 2048) in
      match strchr_slash (cfgstring dev) with
      | None => Some (dev, inl (- EINVAL))
      | Some options =>
          x ← fbo_options (length (cfgstring dev)) (tail options) 0;
          match x with
          | None => Some (dev, inl (- EINVAL))
          | Some (flags, path) =>
              let mode := if negb (exists_ path) then CreateRW
                          else if negb (Z.land flags FBO_READ_ONLY =? 0) then OpenRO else OpenRW in
              if open_ok mode path
              then Some (dev, inr (fbo_report_op_change
                                     (Fbo (u64 (Z.quot size 2048)) 2048 0 flags 0 0 0) 0x02))
              else Some (dev, inl (- EINVAL))
          end
      end.

(** ** Synchronisation *)

(** The environment of a command: the system calls on the file, whether
    [malloc] and [pthread_create] succeed, the uninitialised stack buffer. *)
Record fbo_env := FEnv {
  fe_sys : file_sys;
  fe_malloc : bool;
  fe_thread : bool;
  fe_junk : list Z
}.

(** [src tcmu-runner/file_optical.c fbo_do_sync] *)
Definition fbo_do_sync (e : fbo_env) : tcmu_sts :=
  if fsync_ret (fe_sys e) =? 0 then TCMU_STS_OK else TCMU_STS_WR_ERR.

(** The first critical section of the thread.
    [src tcmu-runner/file_optical.c 1014-1017 fbo_async_sync_cache] *)
Definition sync_begin (st : fbo_state) : fbo_state :=
  fb_on (fb_set_count st (fb_async_cache_count st + 1)) FBO_BUSY_EVENT.

(** The last one.
    [src tcmu-runner/file_optical.c 1022-1026 fbo_async_sync_cache] *)
Definition sync_end (st : fbo_state) : fbo_state :=
  fb_on (fb_set_count st (fb_async_cache_count st - 1)) FBO_BUSY_EVENT.

(** [src tcmu-runner/file_optical.c fbo_synchronize_cache] *)
Definition fbo_synchronize_cache (e : fbo_env) (cdb : list Z) (s : fcmd) : fresult :=
  if negb (Z.land (byte_at cdb 1) 0x01 =? 0) then Some (s, TCMU_STS_INVALID_CDB)
  else if negb (Z.land (byte_at cdb 1) 0x02 =? 0)
  then Some (if fe_thread e then fc_start s SyncThread else s, TCMU_STS_OK)
  else Some (s, fbo_do_sync e).

(** ** READ, VERIFY and WRITE *)

(** The address and the length; the product of the [uint32_t] is stored in an
    [int].
    [src tcmu-runner/file_optical.c fbo_check_lba_and_length] *)
Definition fbo_check_lba_and_length (st : fbo_state) (cdb : list Z) : option (tcmu_sts + Z * Z) :=
  lba ← tcmu_get_lba cdb;
  num_blocks ← tcmu_get_xfer_length cdb;
  if (fb_num_lbas st <=? lba) || (fb_num_lbas st <? u64 (lba + num_blocks))
  then Some (inl TCMU_STS_RANGE)
  else Some (inr (lba, s32 (u32 (num_blocks * fb_block_size st)))).

(** The transfer; [remaining] counts down to zero and a call that transfers
    nothing is repeated, so running out of fuel is not terminating.
    [src tcmu-runner/file_optical.c 1108-1118 fbo_read] *)
Fixpoint fbo_read_loop (fuel : nat) (sys : file_sys) (f : list Z) (m : mem) (iov : list iovec)
    (remaining offset : Z) (rc : tcmu_sts) : option (mem * list iovec * tcmu_sts) :=
  if remaining =? 0 then Some (m, iov, rc)
  else
    match fuel with
    | O => None
    | S fuel =>
        '(m, ret) ← preadv sys f m iov (Z.of_nat (length iov)) offset;
        if ret <? 0 then Some (m, iov, TCMU_STS_RD_ERR)
        else
          '(iov, _) ← tcmu_seek_in_iovec iov ret;
          fbo_read_loop fuel sys f m iov (s32 (remaining - ret)) (u64 (offset + ret)) rc
    end.

(** The result of the loop is dropped.
    [src tcmu-runner/file_optical.c fbo_read] *)
Definition fbo_read (e : fbo_env) (cdb : list Z) (s : fcmd) : fresult :=
  let fua := negb (Z.land (byte_at cdb 1) 0x08 =? 0) in
  if negb (byte_at cdb 0 =? READ_6) && negb (Z.land (byte_at cdb 1) 0x11 =? 0)
  then Some (s, TCMU_STS_INVALID_CDB)
  else
    x ← fbo_check_lba_and_length (fc_st s) cdb;
    match x with
    | inl rc => Some (s, rc)
    | inr (cur_lba, len) =>
        let offset := u64 (fb_block_size (fc_st s) * cur_lba) in
        if fua && negb (fsync_ret (fe_sys e) =? 0) then Some (s, TCMU_STS_RD_ERR)
        else
          let s := fc_set_st s (fb_on (fb_set_cur (fc_st s) cur_lba) FBO_DEV_IO) in
          '(m, iov, _) ← fbo_read_loop (Z.to_nat len) (fe_sys e) (fc_file s) (fc_mem s) (fc_iov s)
                           len offset TCMU_STS_OK;
          let s := fc_set_mem s m iov in
          Some (fc_set_st s (fb_off (fc_st s) FBO_DEV_IO), TCMU_STS_OK)
    end.

(** [pread] into a buffer of the process. *)
Definition fpread (sys : file_sys) (f : list Z) (n off : Z) : Z * list Z :=
  let r := preadv_ret sys off n in
  if r <? 0 then (r, [])
  else
    let bs := take (Z.to_nat (Z.min r n)) (drop (Z.to_nat off) f) in
    (Z.of_nat (length bs), bs).

(** Every round reads to the front of the buffer [p]; the offset of a
    difference is counted from where the round began.
    [src tcmu-runner/file_optical.c 1156-1174 fbo_do_verify] *)
Fixpoint fbo_verify_loop (fuel : nat) (sys : file_sys) (f : list Z) (m : mem) (p : ptr)
    (iov : list iovec) (sense : list Z) (remaining offset : Z)
    : option (mem * list iovec * list Z * tcmu_sts) :=
  if remaining =? 0 then Some (m, iov, sense, TCMU_STS_OK)
  else
    match fuel with
    | O => None
    | S fuel =>
        let '(ret, bs) := fpread sys f remaining offset in
        if ret <? 0 then Some (m, iov, sense, TCMU_STS_RD_ERR)
        else
          m ← mem_store m p bs;
          cmp ← tcmu_compare_with_iovec m p iov ret 0;
          if negb (u32 cmp =? 0xffffffff) then
            sense ← tcmu_set_sense_info sense (u32 cmp);
            Some (m, iov, sense, TCMU_STS_MISCOMPARE)
          else
            '(iov, _) ← tcmu_seek_in_iovec iov ret;
            fbo_verify_loop fuel sys f m p iov sense (s32 (remaining - ret)) (u64 (offset + ret))
    end.

(** A negative length is a huge [size_t], for which [malloc] fails.
    [src tcmu-runner/file_optical.c fbo_do_verify] *)
Definition fbo_do_verify (e : fbo_env) (s : fcmd) (offset len : Z) : fresult :=
  if negb (fe_malloc e) || (len <? 0) then Some (s, TCMU_STS_NO_RESOURCE)
  else
    let '(m, p) := mem_new (fc_mem s) (zeros (Z.to_nat len)) in
    cur ← (if fb_block_size (fc_st s) =? 0 then None else Some (offset / fb_block_size (fc_st s)));
    let s := fc_set_st s (fb_on (fb_set_cur (fc_st s) cur) FBO_DEV_IO) in
    '(m, iov, sense, rc) ← fbo_verify_loop (Z.to_nat len) (fe_sys e) (fc_file s) m p (fc_iov s)
                             (fc_sense s) len offset;
    let s := fc_set_sense (fc_set_mem s (mem_free m p) iov) sense in
    Some (fc_set_st s (fb_off (fc_st s) FBO_DEV_IO), rc).

(** [iov] is the copy [write_iovec].
    [src tcmu-runner/file_optical.c 1219-1229 fbo_write] *)
Fixpoint fbo_write_loop (fuel : nat) (sys : file_sys) (f : list Z) (m : mem) (iov : list iovec)
    (remaining offset : Z) : option (list Z * tcmu_sts) :=
  if remaining =? 0 then Some (f, TCMU_STS_OK)
  else
    match fuel with
    | O => None
    | S fuel =>
        '(f, ret) ← pwritev sys f m iov (Z.of_nat (length iov)) offset;
        if ret <? 0 then Some (f, TCMU_STS_WR_ERR)
        else
          '(iov, _) ← tcmu_seek_in_iovec iov ret;
          fbo_write_loop fuel sys f m iov (s32 (remaining - ret)) (u64 (offset + ret))
    end.

(** [src tcmu-runner/file_optical.c fbo_write] *)
Definition fbo_write (e : fbo_env) (cdb : list Z) (do_verify : bool) (s : fcmd) : fresult :=
  let fua := negb (Z.land (byte_at cdb 1) 0x08 =? 0) in
  if fb_has (fc_st s) FBO_READ_ONLY then Some (s, TCMU_STS_WR_ERR_INCOMPAT_FRMT)
  else
    x ← fbo_check_lba_and_length (fc_st s) cdb;
    match x with
    | inl rc => Some (s, rc)
    | inr (cur_lba, len) =>
        let offset := u64 (fb_block_size (fc_st s) * cur_lba) in
        let s := fc_set_st s (fb_on (fb_set_cur (fc_st s) cur_lba) FBO_DEV_IO) in
        '(f, rc) ← fbo_write_loop (Z.to_nat len) (fe_sys e) (fc_file s) (fc_mem s) (fc_iov s) len offset;
        let s := fc_set_file s f in
        let rc := if sts_ok rc && (do_verify || fua) && negb (fsync_ret (fe_sys e) =? 0)
                  then TCMU_STS_WR_ERR else rc in
        let s := fc_set_st s (fb_off (fc_st s) FBO_DEV_IO) in
        if negb do_verify || negb (sts_ok rc) then Some (s, rc)
        else fbo_do_verify e s offset len
    end.

(** [src tcmu-runner/file_optical.c fbo_verify] *)
Definition fbo_verify (e : fbo_env) (cdb : list Z) (s : fcmd) : fresult :=
  if fb_has (fc_st s) FBO_READ_ONLY then Some (s, TCMU_STS_WR_ERR_INCOMPAT_FRMT)
  else if negb (Z.land (byte_at cdb 1) 0x13 =? 0) then Some (s, TCMU_STS_INVALID_CDB)
  else
    x ← fbo_check_lba_and_length (fc_st s) cdb;
    match x with
    | inl rc => Some (s, rc)
    | inr (cur_lba, len) => fbo_do_verify e s (u64 (fb_block_size (fc_st s) * cur_lba)) len
    end.

(** ** FORMAT UNIT *)

(** [done_blocks], [offset] and [length] of the loop. *)
Record format_job := FJob { fj_done : Z; fj_offset : Z; fj_length : Z }.

Definition fbo_job0 : format_job := FJob 0 0 (1024 * 1024).

Definition fbo_job_busy (st : fbo_state) (j : format_job) : bool := fj_done j <? fb_num_lbas st.

(** One round; [None] inside: the write failed.  A short write counts as a
    whole one.
    [src tcmu-runner/file_optical.c 1296-1312 fbo_do_format] *)
Definition fbo_format_round (sys : file_sys) (st : fbo_state) (f : list Z) (j : format_job)
    : option (fbo_state * list Z * option format_job) :=
  if fb_block_size st =? 0 then None
  else
    let left := u64 ((fb_num_lbas st - fj_done j) * fb_block_size st) in
    let len := if left <? fj_length j then u32 left else fj_length j in
    let ret := pwritev_ret sys (fj_offset j) len in
    if ret <? 0 then Some (st, f, None)
    else
      let n := Z.to_nat (Z.min ret len) in
      let f := if (n =? 0)%nat then f
               else write_at (grow f (Z.to_nat (fj_offset j))) (fj_offset j) (zeros n) in
      let done_blocks := u32 (fj_done j + len / fb_block_size st) in
      let st := if done_blocks <? fb_num_lbas st
                then fb_set_progress st (u32 (0x10000 * done_blocks) / fb_num_lbas st) else st in
      Some (st, f, Some (FJob done_blocks (u64 (fj_offset j + len)) len)).

(** Each round formats at least one block.
    [src tcmu-runner/file_optical.c 1295-1312 fbo_do_format] *)
Fixpoint fbo_format_loop (fuel : nat) (sys : file_sys) (st : fbo_state) (f : list Z) (j : format_job)
    : option (fbo_state * list Z * tcmu_sts) :=
  if fbo_job_busy st j then
    match fuel with
    | O => None
    | S fuel =>
        '(st, f, j) ← fbo_format_round sys st f j;
        match j with
        | None => Some (st, f, TCMU_STS_WR_ERR)
        | Some j => fbo_format_loop fuel sys st f j
        end
    end
  else Some (st, f, TCMU_STS_OK).

(** Without memory the flag stays.
    [src tcmu-runner/file_optical.c fbo_do_format] *)
Definition fbo_do_format (e : fbo_env) (st : fbo_state) (f : list Z)
    : option (fbo_state * list Z * tcmu_sts) :=
  if negb (fe_malloc e) then Some (st, f, TCMU_STS_NO_RESOURCE)
  else
    '(st, f, rc) ← fbo_format_loop (Z.to_nat (fb_num_lbas st)) (fe_sys e) st f fbo_job0;
    Some (fb_off st FBO_FORMATTING, f, rc).

(** The first critical section of the thread.
    [src tcmu-runner/file_optical.c 1329-1331 fbo_async_format] *)
Definition format_begin (st : fbo_state) : fbo_state :=
  fb_on st (Z.lor FBO_BUSY_EVENT FBO_FORMAT_IMMED).

(** The last one.
    [src tcmu-runner/file_optical.c 1336-1340 fbo_async_format] *)
Definition format_end (st : fbo_state) : fbo_state := fb_on (fb_off st FBO_FORMAT_IMMED) FBO_BUSY_EVENT.

(** The checks on the CDB and the parameter list, in their order.
    [src tcmu-runner/file_optical.c 1363-1386 fbo_emulate_format_unit] *)
Definition fbo_format_params (st : fbo_state) (cdb param_list : list Z) : option tcmu_sts :=
  let opts := byte_at param_list 1 in
  len ← get_unaligned_be16 param_list 2;
  blocks ← get_unaligned_be16 param_list 4;
  bsize ← get_unaligned_be16 param_list 10;
  Some (
    if (Z.land opts 0x80 =? 0) && negb (Z.land opts 0x7c =? 0) then TCMU_STS_INVALID_PARAM_LIST
    else if negb (Z.land opts 0x1c =? 0) then TCMU_STS_INVALID_PARAM_LIST
    else if negb (len =? 8) then TCMU_STS_INVALID_PARAM_LIST
    else if negb (byte_at param_list 8 =? 0) then TCMU_STS_INVALID_PARAM_LIST
    else if (negb (Z.land (byte_at cdb 1) 0x08 =? 0) || (Z.land opts 0x20 =? 0))
            && negb (blocks =? fb_num_lbas st) then TCMU_STS_INVALID_PARAM_LIST
    else if negb (u32 (Z.shiftl (byte_at param_list 9) 16 + bsize) =? fb_block_size st)
    then TCMU_STS_INVALID_PARAM_LIST
    else TCMU_STS_OK).

(** The outcome of [pthread_create] is not looked at.
    [src tcmu-runner/file_optical.c fbo_emulate_format_unit] *)
Definition fbo_emulate_format_unit (e : fbo_env) (cdb : list Z) (s : fcmd) : fresult :=
  let st := fc_st s in
  let b1 := byte_at cdb 1 in
  if fb_has st FBO_READ_ONLY then Some (s, TCMU_STS_WR_ERR_INCOMPAT_FRMT)
  else if (Z.land b1 0x10 =? 0) || negb (Z.land b1 0x07 =? 1) || negb (byte_at cdb 3 =? 0)
          || negb (byte_at cdb 4 =? 0)
  then Some (s, TCMU_STS_INVALID_CDB)
  else
    '(param_list, iov, copied) ←
      tcmu_memcpy_from_iovec (fc_mem s) (zeros 12) 12 (fc_iov s) (Z.of_nat (length (fc_iov s)));
    let s := fc_set_mem s (fc_mem s) iov in
    if copied <? 12 then Some (s, TCMU_STS_INVALID_PARAM_LIST_LEN)
    else
      rc ← fbo_format_params st cdb param_list;
      if negb (sts_ok rc) then Some (s, rc)
      else if fb_has st FBO_FORMATTING then
        sense ← tcmu_set_sense_key_specific_info (fc_sense s) (u16 (fb_format_progress st));
        Some (fc_set_sense s sense, TCMU_STS_FRMT_IN_PROGRESS)
      else
        let s := fc_set_st s (fb_on (fb_set_progress st 0) FBO_FORMATTING) in
        if negb (Z.land (byte_at param_list 1) 0x02 =? 0)
        then Some (if fe_thread e then fc_start s FormatThread else s, TCMU_STS_OK)
        else
          '(st, f, rc) ← fbo_do_format e (fc_st s) (fc_file s);
          Some (fc_set_file (fc_set_st s st) f, rc).

(** ** Dispatch *)

(** Adapts a routine of [api.c]. *)
Definition fapi (s : fcmd) (r : emu_result) : fresult :=
  '(m, iov, sts) ← r; Some (fc_set_mem s m iov, sts).

(** The commands that run during a format.
    [src tcmu-runner/file_optical.c 1455-1460 fbo_handle_cmd] *)
Definition runs_while_formatting (op : Z) : bool :=
  (op =? INQUIRY) || (op =? REQUEST_SENSE) || (op =? GET_CONFIGURATION)
  || (op =? GPCMD_GET_EVENT_STATUS_NOTIFICATION).

(** The [switch].
    [src tcmu-runner/file_optical.c 1467-1551 fbo_handle_cmd] *)
Definition fbo_switch (e : fbo_env) (cdb : list Z) (s : fcmd) : fresult :=
  let op := byte_at cdb 0 in
  let st := fc_st s in
  let cnt := Z.of_nat (length (fc_iov s)) in
  if op =? TEST_UNIT_READY then fapi s (tcmu_emulate_test_unit_ready (fc_mem s) (fc_iov s))
  else if op =? REQUEST_SENSE then fbo_emulate_request_sense cdb s
  else if op =? FORMAT_UNIT then fbo_emulate_format_unit e cdb s
  else if (op =? READ_6) || (op =? READ_10) || (op =? READ_12) then fbo_read e cdb s
  else if op =? WRITE_VERIFY then fbo_write e cdb true s
  else if (op =? WRITE_6) || (op =? WRITE_10) || (op =? WRITE_12) then fbo_write e cdb false s
  else if op =? INQUIRY then fbo_emulate_inquiry cdb s
  else if (op =? MODE_SELECT) || (op =? MODE_SELECT_10) then fbo_emulate_mode_select (fe_junk e) cdb s
  else if (op =? MODE_SENSE) || (op =? MODE_SENSE_10) then fbo_emulate_mode_sense cdb s
  else if op =? START_STOP then Some (s, tcmu_emulate_start_stop cdb)
  else if op =? ALLOW_MEDIUM_REMOVAL then fbo_emulate_allow_medium_removal cdb s
  else if op =? READ_FORMAT_CAPACITIES then fbo_emulate_read_format_capacities s
  else if op =? READ_CAPACITY then
    fapi s (tcmu_emulate_read_capacity_10 (fb_num_lbas st) (fb_block_size st) (fc_mem s) (fc_iov s) cnt)
  else if op =? VERIFY then fbo_verify e cdb s
  else if op =? SYNCHRONIZE_CACHE then fbo_synchronize_cache e cdb s
  else if op =? READ_TOC then fbo_emulate_read_toc cdb s
  else if op =? GET_CONFIGURATION then fbo_emulate_get_configuration cdb s
  else if op =? GPCMD_GET_EVENT_STATUS_NOTIFICATION
  then fbo_emulate_get_event_status_notification cdb s
  else if op =? READ_DISC_INFORMATION then fbo_emulate_read_disc_information s
  else if op =? READ_DVD_STRUCTURE then fbo_emulate_read_dvd_structure cdb s
  else if op =? MECHANISM_STATUS then fbo_emulate_mechanism_status s
  else Some (s, TCMU_STS_NOT_HANDLED).

(** The state, the status given to [cmd->done] if it is called, and the
    status returned.
    [src tcmu-runner/file_optical.c fbo_handle_cmd] *)
Definition fbo_handle_cmd (e : fbo_env) (cdb : list Z) (s : fcmd)
    : option (fcmd * option tcmu_sts * tcmu_sts) :=
  let op := byte_at cdb 0 in
  if fb_has (fc_st s) FBO_FORMATTING && negb (runs_while_formatting op) then
    sense ← tcmu_set_sense_key_specific_info (fc_sense s) (u16 (fb_format_progress (fc_st s)));
    Some (fc_set_sense s sense, Some TCMU_STS_FRMT_IN_PROGRESS, TCMU_STS_OK)
  else if (op =? READ_CAPACITY)
          && (negb (Z.land (byte_at cdb 1) 0x01 =? 0) || negb (Z.land (byte_at cdb 8) 0x01 =? 0))
  then Some (s, None, TCMU_STS_INVALID_CDB)
  else '(s, ret) ← fbo_switch e cdb s; Some (s, Some ret, TCMU_STS_OK).

(** What the worker of the device completes the command with: all calls of
    [cmd->done], by the handler and for a status other than [TCMU_STS_OK].
    [src tcmu-runner/tcmur_aio.c 177-179 io_work_queue] *)
Definition fbo_work (e : fbo_env) (cdb : list Z) (s : fcmd) : option (fcmd * list tcmu_sts) :=
  '(s, done, ret) ← fbo_handle_cmd e cdb s;
  Some (s, (match done with Some r => [r] | None => [] end) ++ (if sts_ok ret then [] else [ret])).
