(* ===== verification/OpticalThm.v ===== *)
(** * The optical handler: reads, writes and verification

    What READ, WRITE, WRITE AND VERIFY and VERIFY of [file_optical.c] do to the
    file and the initiator's buffers, and the commands that never end. *)

From S2P Require Import Prelude Scsi Iovec Sense Device Backstore FileBack Rw RwSpec Optical OpticalCfg OpticalIo.

Lemma s32_small z : - 2 ^ 31 <= z < 2 ^ 31 -> s32 z = z.
Proof. intros H. unfold s32. rewrite wrap_small by lia. lia. Qed.

(** ** The loops are those of the file handler *)

Section loops.
Context (sys : file_sys) (Hsys : file_sys_ok sys).

Lemma fbo_write_loop_eq fuel : forall f m iov g off,
  gather m iov = Some g -> Z.of_nat (length g) < 2 ^ 31 -> 0 <= off ->
  off + Z.of_nat (length g) < 2 ^ 63 ->
  fbo_write_loop fuel sys f m iov (Z.of_nat (length g)) off =
    '(f, _, rc) ← file_write_loop fuel sys f m iov (Z.of_nat (length iov)) (Z.of_nat (length g)) off;
    Some (f, rc).
Proof.
  induction fuel as [|fuel IH]; intros f m iov g off Hg H31 Ho H63; cbn [fbo_write_loop file_write_loop];
    destruct (Z.eqb_spec (Z.of_nat (length g)) 0) as [E|E]; try done.
  destruct (pwritev_spec sys Hsys f m iov g off Hg ltac:(lia)) as (f1 & ret & -> & Hret).
  cbn [mbind option_bind]. destruct Hret as [[Hneg ->]|(k & -> & Hk & ->)].
  { by rewrite (proj2 (Z.ltb_lt _ _)) by done. }
  rewrite (proj2 (Z.ltb_ge _ _)) by lia.
  assert (iov_total iov = Z.of_nat (length g)) as T by (symmetry; by eapply gather_length).
  destruct (tcmu_seek_in_iovec_spec iov m _ (Z.of_nat k) Hg ltac:(lia)) as (iov' & c & -> & L & _ & G2 & _).
  cbn [mbind option_bind]. rewrite Nat2Z.id in G2. rewrite s32_small, u64_small by lia.
  replace (Z.of_nat (length g) - Z.of_nat k) with (Z.of_nat (length (drop k g))) by (rewrite length_drop; lia).
  rewrite <- L. apply IH; rewrite ?length_drop; try done; lia.
Qed.

Lemma fbo_read_loop_eq fuel : forall f m iov g off,
  gather m iov = Some g -> iov_disj iov -> Z.of_nat (length g) < 2 ^ 31 -> 0 <= off ->
  off + Z.of_nat (length g) < 2 ^ 63 -> off + Z.of_nat (length g) <= Z.of_nat (length f) ->
  fbo_read_loop fuel sys f m iov (Z.of_nat (length g)) off TCMU_STS_OK =
    file_read_loop fuel sys f m iov (Z.of_nat (length iov)) (Z.of_nat (length g)) off.
Proof.
  induction fuel as [|fuel IH]; intros f m iov g off Hg Hd H31 Ho H63 Hf;
    cbn [fbo_read_loop file_read_loop];
    destruct (Z.eqb_spec (Z.of_nat (length g)) 0) as [E|E]; try done.
  destruct (preadv_spec sys Hsys f m iov g off Hg Hd ltac:(lia)) as (m1 & ret & -> & _ & Hret).
  cbn [mbind option_bind]. destruct Hret as [[Hneg G1]|(bs & -> & Hb & Hbs & G1 & Heof)].
  { by rewrite (proj2 (Z.ltb_lt _ _)) by done. }
  rewrite (proj2 (Z.ltb_ge _ _)) by lia.
  assert (0 < length bs)%nat.
  { destruct bs; [|cbn; lia]. specialize (Heof eq_refl). apply (f_equal length) in Heof.
    rewrite length_drop in Heof. cbn in Heof. lia. }
  rewrite (proj2 (Z.eqb_neq _ _)) by lia.
  assert (iov_total iov = Z.of_nat (length g)) as T by (symmetry; by eapply gather_length).
  destruct (tcmu_seek_in_iovec_spec iov m1 _ (Z.of_nat (length bs)) G1 ltac:(lia))
    as (iov' & c & Es & L & _ & G2 & _).
  rewrite Es. cbn [mbind option_bind]. rewrite Nat2Z.id, drop_app_length in G2.
  destruct (seek_frame iov m1 m1 _ iov' c _ _ Es ltac:(lia) Hd G1 G2 (fun _ _ _ => eq_refl)) as (_ & D2 & _).
  rewrite s32_small, u64_small by lia.
  replace (Z.of_nat (length g) - Z.of_nat (length bs)) with (Z.of_nat (length (drop (length bs) g)))
    by (rewrite length_drop; lia).
  rewrite <- L. apply IH; rewrite ?length_drop; try done; lia.
Qed.

Lemma length_write_at_grow f off bs :
  0 <= off -> length (write_at (grow f (Z.to_nat off)) off bs) = Nat.max (length f) (Z.to_nat off + length bs).
Proof.
  intros Ho. unfold write_at. rewrite !length_app, length_take, length_drop, length_grow. lia.
Qed.

(** A write that succeeds leaves a file that covers its range. *)
Lemma file_write_loop_covers fuel : forall f m iov g off f' iov' rc,
  gather m iov = Some g -> Z.of_nat (length g) < 2 ^ 31 -> 0 <= off ->
  file_write_loop fuel sys f m iov (Z.of_nat (length iov)) (Z.of_nat (length g)) off = Some (f', iov', rc) ->
  (length f <= length f')%nat /\
  (rc = TCMU_STS_OK -> g = [] \/ off + Z.of_nat (length g) <= Z.of_nat (length f')).
Proof.
  induction fuel as [|fuel IH]; intros f m iov g off f' iov' rc Hg H31 Ho; cbn [file_write_loop];
    destruct (Z.eqb_spec (Z.of_nat (length g)) 0) as [E|E]; intros H; simplify_eq.
  1, 2: split; [done|]; left; destruct g; [done|cbn in E; lia].
  destruct (pwritev_spec sys Hsys f m iov g off Hg ltac:(lia)) as (f1 & ret & Ep & Hret).
  rewrite Ep in H. cbn [mbind option_bind] in H. destruct Hret as [[Hneg ->]|(k & -> & Hk & ->)].
  { rewrite (proj2 (Z.ltb_lt _ _)) in H by done. simplify_eq. done. }
  rewrite (proj2 (Z.ltb_ge _ _)) in H by lia.
  assert (iov_total iov = Z.of_nat (length g)) as T by (symmetry; by eapply gather_length).
  destruct (tcmu_seek_in_iovec_spec iov m _ (Z.of_nat k) Hg ltac:(lia)) as (iov2 & c & Es & L & _ & G2 & _).
  rewrite Es in H. cbn [mbind option_bind] in H. rewrite Nat2Z.id in G2.
  replace (Z.of_nat (length g) - Z.of_nat k) with (Z.of_nat (length (drop k g))) in H by (rewrite length_drop; lia).
  rewrite <- L in H.
  pose proof (length_write_at_grow f off (take k g) Ho) as Lw. rewrite length_take in Lw.
  destruct (fun A B => IH _ _ _ _ (off + Z.of_nat k) _ _ _ G2 A B H) as [H1 H2]; [rewrite length_drop; lia|lia|].
  rewrite length_drop in H2. split; [lia|]. intros Hrc. right.
  destruct (H2 Hrc) as [Hnil|?]; [|lia]. apply (f_equal length) in Hnil. rewrite length_drop in Hnil.
  cbn in Hnil. lia.
Qed.

Lemma fbo_write_loop_sts fuel : forall f m iov r off f' rc,
  fbo_write_loop fuel sys f m iov r off = Some (f', rc) -> rc = TCMU_STS_OK \/ rc = TCMU_STS_WR_ERR.
Proof.
  induction fuel as [|fuel IH]; intros f m iov r off f' rc; cbn [fbo_write_loop];
    (case_if; [intros; simplify_eq; auto|]); [done|].
  destruct (pwritev _ _ _ _ _ _) as [[f1 ret]|]; [|done]. cbn [mbind option_bind].
  case_if; [intros; simplify_eq; auto|]. destruct (tcmu_seek_in_iovec _ _) as [[iov2 c]|]; [|done]. apply IH.
Qed.

(** Reads that do not fail end with success. *)
Lemma fbo_read_loop_sts fuel : forall f m iov r off m' iov' rc,
  (forall o n, 0 <= preadv_ret sys o n) ->
  fbo_read_loop fuel sys f m iov r off TCMU_STS_OK = Some (m', iov', rc) -> rc = TCMU_STS_OK.
Proof.
  induction fuel as [|fuel IH]; intros f m iov r off m' iov' rc Hn; cbn [fbo_read_loop];
    (case_if; [intros; by simplify_eq|]); [done|].
  unfold preadv. destruct (tcmu_iovec_length _ _) as [want|]; [|done]. cbn [mbind option_bind].
  pose proof (Hn off want). rewrite (proj2 (Z.ltb_ge _ _)) by lia.
  destruct (scatter _ _ _ _) as [m1|]; [|done]. cbn [mbind option_bind].
  rewrite (proj2 (Z.ltb_ge _ _)) by lia.
  destruct (tcmu_seek_in_iovec _ _) as [[iov2 c]|]; [|done]. by apply IH.
Qed.

(** [off] within a file that may be shorter than the drive's [n] bytes. *)
Lemma fbo_write_loop_spec n f m iov g off :
  gather m iov = Some g -> Z.of_nat (length g) < 2 ^ 31 -> (length f <= n)%nat ->
  Z.of_nat n < 2 ^ 63 -> 0 <= off -> off + Z.of_nat (length g) <= Z.of_nat n ->
  exists f' rc w,
    fbo_write_loop (length g) sys f m iov (Z.of_nat (length g)) off = Some (f', rc) /\
    (length f <= length f' <= n)%nat /\ length w = length g /\ grow f' n = write_at (grow f n) off w /\
    (rc = TCMU_STS_OK -> w = g /\ (g = [] \/ off + Z.of_nat (length g) <= Z.of_nat (length f'))) /\
    (rc = TCMU_STS_OK \/ rc = TCMU_STS_WR_ERR).
Proof.
  intros Hg H31 Hf Hn Ho Hl. rewrite fbo_write_loop_eq by (done || lia).
  destruct (file_write_loop_spec sys Hsys n (length g) f m iov g off Hg) as
    (f' & iov' & rc & w & E & Hf' & Lw & Hw & Hok); try lia.
  destruct (file_write_loop_covers _ _ _ _ _ _ _ _ _ Hg H31 Ho E) as [C1 C2].
  rewrite E. cbn [mbind option_bind]. exists f', rc, w. split; [done|]. split; [lia|]. split; [done|].
  split; [done|]. split; [by eauto|].
  apply (fbo_write_loop_sts (length g) f m iov (Z.of_nat (length g)) off f').
  rewrite fbo_write_loop_eq by (done || lia). by rewrite E.
Qed.

Lemma fbo_read_loop_spec f m iov g off :
  gather m iov = Some g -> iov_disj iov -> Z.of_nat (length g) < 2 ^ 31 -> 0 <= off ->
  off + Z.of_nat (length g) <= Z.of_nat (length f) -> Z.of_nat (length f) < 2 ^ 63 ->
  exists m' iov' rc g',
    fbo_read_loop (length g) sys f m iov (Z.of_nat (length g)) off TCMU_STS_OK = Some (m', iov', rc) /\
    gather m' iov = Some g' /\ (rc = TCMU_STS_OK -> g' = read_at f off (Z.of_nat (length g))) /\
    (forall q k, outside iov q k -> mem_load m' q k = mem_load m q k) /\
    ((forall o n, 0 <= preadv_ret sys o n) -> rc = TCMU_STS_OK).
Proof.
  intros Hg Hd H31 Ho Hl Hf. pose proof (fbo_read_loop_eq (length g) f m iov g off Hg Hd H31 Ho
    ltac:(lia) Hl) as E.
  destruct (file_read_loop_spec sys Hsys f (length f) (length g) m iov g off Hg Hd) as
    (m' & iov' & rc & g' & E2 & G & R & F); try lia.
  rewrite E2 in E. exists m', iov', rc, g'. split; [done|]. split; [done|]. split.
  { intros Hrc. rewrite (R Hrc). f_equal. unfold grow. rewrite Nat.sub_diag. apply app_nil_r. }
  split; [done|]. intros Hnf. by apply (fbo_read_loop_sts _ _ _ _ _ _ _ _ _ Hnf E).
Qed.
End loops.

(** ** Flags *)

Lemma fb_has_on_other s f g : Z.land f g = 0 -> fb_has (fb_on s f) g = fb_has s g.
Proof.
  intros H. unfold fb_has, fb_on. cbn. rewrite Z.land_lor_distr_l, H. by rewrite Z.lor_0_r.
Qed.

Lemma fb_has_on s f g : Z.land f g = g -> g <> 0 -> fb_has (fb_on s f) g = true.
Proof.
  intros H Hg. unfold fb_has, fb_on. cbn. rewrite Z.land_lor_distr_l, H.
  apply negb_true_iff, Z.eqb_neq. intros E. by apply Z.lor_eq_0_iff in E as [_ ?].
Qed.

Lemma fb_has_off s f : fb_has (fb_off s f) f = false.
Proof.
  unfold fb_has, fb_off. cbn. apply negb_false_iff, Z.eqb_eq. apply Z.bits_inj'. intros i _.
  rewrite Z.land_spec, Z.ldiff_spec, Z.bits_0. by destruct (Z.testbit (fb_flags s) i), (Z.testbit f i).
Qed.

Lemma fb_has_off_other s f g : Z.land f g = 0 -> fb_has (fb_off s f) g = fb_has s g.
Proof.
  intros H. unfold fb_has, fb_off. cbn. do 2 f_equal. apply Z.bits_inj'. intros i _.
  assert (Z.testbit (Z.land f g) i = false) as Hi by (rewrite H; apply Z.bits_0).
  rewrite !Z.land_spec in *. rewrite Z.ldiff_spec.
  by destruct (Z.testbit (fb_flags s) i), (Z.testbit f i), (Z.testbit g i).
Qed.

(** Simplifies tests of single flags. *)
Ltac fb_flags_simpl :=
  repeat first
    [ rewrite fb_has_off
    | rewrite fb_has_off_other by reflexivity
    | rewrite fb_has_on_other by reflexivity
    | rewrite fb_has_on by (reflexivity || discriminate) ].

(** What stays when a command is done that is not about flags: everything but
    the address of the last transfer. *)
Definition st_io (st st' : fbo_state) : Prop :=
  fb_num_lbas st' = fb_num_lbas st /\ fb_block_size st' = fb_block_size st /\
  fb_format_progress st' = fb_format_progress st /\
  fb_event_op_ch_code st' = fb_event_op_ch_code st /\
  fb_async_cache_count st' = fb_async_cache_count st /\
  forall g, Z.land FBO_DEV_IO g = 0 -> fb_has st' g = fb_has st g.

#[export] Instance st_io_preorder : PreOrder st_io.
Proof.
  split; [intros st; unfold st_io; by split_and!|].
  intros a b c (A1 & A2 & A3 & A4 & A5 & A6) (B1 & B2 & B3 & B4 & B5 & B6).
  unfold st_io. split_and!; try congruence. intros g Hg. by rewrite B6, A6.
Qed.

Lemma st_io_transfer st cur :
  st_io st (fb_off (fb_on (fb_set_cur st cur) FBO_DEV_IO) FBO_DEV_IO).
Proof.
  unfold st_io. cbn [fb_off fb_on fb_set_cur fb_set_flags fb_num_lbas fb_block_size fb_format_progress
    fb_event_op_ch_code fb_async_cache_count]. split_and!; try done. intros g Hg.
  by rewrite fb_has_off_other, fb_has_on_other.
Qed.

(** ** Verification *)

Lemma seek_apart iov p : forall count iov' c,
  tcmu_seek_in_iovec iov count = Some (iov', c) -> 0 <= count -> apart_blk iov p -> apart_blk iov' p.
Proof.
  induction iov as [|v iov IH]; intros count iov' c; cbn [tcmu_seek_in_iovec].
  { case_if; intros; by simplify_eq. }
  case_if; [intros; by simplify_eq|]. case_if.
  - destruct (tcmu_seek_in_iovec iov _) as [[iov2 c2]|] eqn:E; [|done]. cbn. intros ? ? Ha.
    simplify_eq. inversion Ha; subst. constructor; [cbn; lia|]. eapply IH; [exact E|lia|done].
  - intros ? ? Ha. simplify_eq. inversion Ha as [|? ? Hv ?]; subst. constructor; [|done].
    cbn. destruct Hv; [lia|by right].
Qed.

Lemma fpread_spec sys f n off :
  file_sys_ok sys -> 0 <= off -> 0 < n -> off + n <= Z.of_nat (length f) ->
  fst (fpread sys f n off) < 0 \/
  exists k, (0 < k <= Z.to_nat n)%nat /\ fpread sys f n off = (Z.of_nat k, read_at f off (Z.of_nat k)).
Proof.
  intros Hsys Ho Hn Hf. unfold fpread. pose proof (fs_read _ Hsys off n Hn) as Hr.
  destruct (Z.ltb_spec (preadv_ret sys off n) 0) as [H|H]; [by left|right].
  exists (Z.to_nat (Z.min (preadv_ret sys off n) n)). split; [lia|].
  unfold read_at. rewrite Nat2Z.id. f_equal. rewrite length_take, length_drop. lia.
Qed.

Lemma read_at_split f off k n :
  0 <= off -> (k <= n)%nat ->
  read_at f off (Z.of_nat n) = read_at f off (Z.of_nat k) ++ read_at f (off + Z.of_nat k) (Z.of_nat (n - k)).
Proof.
  intros Ho Hk. unfold read_at. rewrite !Nat2Z.id.
  replace n with (k + (n - k))%nat at 1 by lia. rewrite <- take_take_drop, drop_drop. do 3 f_equal. lia.
Qed.

(** The statuses of a comparison and what they say about the bytes. *)
Definition verify_outcome (rc : tcmu_sts) (x y : list Z) : Prop :=
  rc = TCMU_STS_OK /\ x = y \/ rc = TCMU_STS_MISCOMPARE /\ x <> y \/ rc = TCMU_STS_RD_ERR.

Lemma verify_outcome_app rc a x y : verify_outcome rc x y -> verify_outcome rc (a ++ x) (a ++ y).
Proof.
  intros [[-> ->]|[[-> H]| ->]]; [by left|right; left|by right; right].
  split; [done|]. by intros E%app_inv_head.
Qed.

Ltac bset_lengths :=
  repeat match goal with
  | H : mbind _ ?x = Some _ |- _ => destruct x eqn:?; [|done]; cbn [mbind option_bind] in H
  | H : bset1 _ _ _ = Some _ |- _ => apply bset_length in H
  | H : bset _ _ _ = Some _ |- _ => apply bset_length in H
  end.

Lemma tcmu_set_sense_info_length l info l' :
  tcmu_set_sense_info l info = Some l' -> length l' = length l.
Proof. unfold tcmu_set_sense_info, put_unaligned_be32. intros H. bset_lengths. congruence. Qed.

Lemma key_specific_length l info l' :
  tcmu_set_sense_key_specific_info l info = Some l' -> length l' = length l.
Proof. unfold tcmu_set_sense_key_specific_info, put_unaligned_be16. intros H. bset_lengths. congruence. Qed.

Section verify.
Context (sys : file_sys) (Hsys : file_sys_ok sys).

Lemma fbo_verify_loop_spec fuel : forall f m p iov g sense off x,
  gather m iov = Some g -> apart_blk iov p -> mem_load m p (Z.of_nat (length g)) = Some x ->
  (length g <= fuel)%nat -> Z.of_nat (length g) < 2 ^ 31 -> 0 <= off -> (18 <= length sense)%nat ->
  g = [] \/ off + Z.of_nat (length g) <= Z.of_nat (length f) -> Z.of_nat (length f) < 2 ^ 63 ->
  exists m' iov' sense' rc,
    fbo_verify_loop fuel sys f m p iov sense (Z.of_nat (length g)) off = Some (m', iov', sense', rc) /\
    verify_outcome rc (read_at f off (Z.of_nat (length g))) g /\ length sense' = length sense /\
    (forall q k, p_blk q <> p_blk p -> mem_load m' q k = mem_load m q k).
Proof.
  induction fuel as [|fuel IH]; intros f m p iov g sense off x Hg Ha Hx Hfu H31 Ho Hse Hl Hf;
    cbn [fbo_verify_loop]; destruct (Z.eqb_spec (Z.of_nat (length g)) 0) as [E|E]; try lia.
  1, 2: assert (g = []) as -> by (destruct g; [done|cbn in *; lia]);
    eexists _, _, _, _; split; [reflexivity|]; split; [by left|done].
  destruct Hl as [->|Hl]; [done|].
  destruct (fpread_spec sys f (Z.of_nat (length g)) off Hsys Ho ltac:(lia) Hl) as [Hneg|(k & Hk & ->)].
  { destruct (fpread _ _ _ _) as [ret bs]. cbn [fst] in Hneg. rewrite (proj2 (Z.ltb_lt _ _)) by done.
    eexists _, _, _, _. split; [reflexivity|]. split; [by right; right|done]. }
  rewrite (proj2 (Z.ltb_ge _ _)) by lia.
  assert (length (read_at f off (Z.of_nat k)) = k) as Lb.
  { unfold read_at. rewrite length_take, length_drop. lia. }
  remember (read_at f off (Z.of_nat k)) as bs eqn:Ebs.
  destruct (mem_load_split m p (Z.of_nat (length g)) (Z.of_nat k) x ltac:(lia) Hx) as [Hx1 _].
  rewrite <- Lb in Hx1. destruct (mem_store_is_Some m p bs _ Hx1) as [m1 Em]. rewrite Em. cbn [mbind option_bind].
  assert (forall q j, p_blk q <> p_blk p -> mem_load m1 q j = mem_load m q j) as F1.
  { intros q j Hq. eapply mem_load_store_disj; [exact Em|]. left. congruence. }
  assert (gather m1 iov = Some g) as Hg1.
  { rewrite <- Hg. apply (gather_frame m m1 iov p (Z.of_nat (length bs)) Ha). intros q j Hq.
    inversion Hq; subst. eapply mem_load_store_disj; [exact Em|done]. }
  pose proof (mem_load_store_same _ _ _ _ Em) as Hb. rewrite Lb in Hb.
  assert (iov_total iov = Z.of_nat (length g)) as T by (symmetry; by eapply gather_length).
  destruct (compare_loop_spec iov m1 p g bs (Z.of_nat k) 0 Hg1 ltac:(lia) ltac:(lia)) as (r & -> & Hr).
  { unfold padd. rewrite Z.add_0_r. by destruct p. }
  cbn [mbind option_bind]. rewrite Nat2Z.id in Hr.
  pose proof (cmp_equal_spec _ _ _ Hr ltac:(lia)) as Hc. unfold cmp_equal in Hc. rewrite Hc.
  rewrite (read_at_split f off k (length g)) by lia. rewrite <- Ebs.
  destruct (decide (bs = take k g)) as [Eq|Ne].
  2:{ rewrite bool_decide_eq_false_2 by done. cbn [negb].
      destruct (tcmu_set_sense_info_is_Some sense (u32 r) Hse) as [se Es]. rewrite Es.
      cbn [mbind option_bind]. eexists _, _, _, _. split; [reflexivity|].
      split; [|split; [by eapply tcmu_set_sense_info_length|done]]. right. left. split; [done|].
      intros Heq. apply Ne. apply (f_equal (take k)) in Heq. rewrite take_app_le, take_ge in Heq by lia. done. }
  rewrite bool_decide_eq_true_2 by done. cbn [negb].
  destruct (tcmu_seek_in_iovec_spec iov m1 _ (Z.of_nat k) Hg1 ltac:(lia)) as (iov' & c & Es & L & _ & G2 & _).
  rewrite Es. cbn [mbind option_bind]. rewrite Nat2Z.id in G2. rewrite s32_small, u64_small by lia.
  replace (Z.of_nat (length g) - Z.of_nat k) with (Z.of_nat (length (drop k g))) by (rewrite length_drop; lia).
  assert (exists x1, mem_load m1 p (Z.of_nat (length (drop k g))) = Some x1) as [x1 Hx2].
  { pose proof (mem_load_store_prefix m p bs m1 _ x Em Hx ltac:(lia)) as Hfull.
    eexists. eapply (mem_load_split m1 p _ (Z.of_nat (length (drop k g)))); [|exact Hfull].
    rewrite length_drop. lia. }
  destruct (IH f m1 p iov' (drop k g) sense (off + Z.of_nat k) x1 G2
    ltac:(eapply seek_apart; [exact Es|lia|done]) Hx2) as (m' & iov2 & se & rc & El & V & Ls & F2);
    rewrite ?length_drop; try done; try lia.
  rewrite length_drop in El, V.
  exists m', iov2, se, rc. split; [exact El|]. split.
  { rewrite <- (take_drop k g) at 2. rewrite Eq. by apply verify_outcome_app. }
  split; [done|]. intros q j Hq. by rewrite F2, F1.
Qed.
End verify.

(** ** Requests *)

(** A drive of 2048-byte blocks whose size fits an [int64_t]. *)
Record fbo_wf (st : fbo_state) : Prop := {
  fw_size : fb_block_size st = 2048;
  fw_lbas : 0 <= fb_num_lbas st /\ fb_num_lbas st * 2048 < 2 ^ 63
}.

Definition fbo_bytes (st : fbo_state) : nat := Z.to_nat (fb_num_lbas st * 2048).

(** A CDB that asks for [nb] blocks from [lba] on of the drive, with a buffer
    of that size. *)
Record fbo_request (st : fbo_state) (cdb : list Z) (g : list Z) (lba nb : Z) : Prop := {
  rq_lba : tcmu_get_lba cdb = Some lba;
  rq_len : tcmu_get_xfer_length cdb = Some nb;
  rq_range : 0 <= lba < fb_num_lbas st /\ 0 <= nb /\ lba + nb <= fb_num_lbas st;
  rq_buf : Z.of_nat (length g) = nb * 2048 /\ nb * 2048 < 2 ^ 31
}.

Lemma st_io_wf st st' : st_io st st' -> fbo_wf st -> fbo_wf st'.
Proof. intros (H1 & H2 & _) [W1 W2]. split; rewrite ?H1, ?H2; done. Qed.

Lemma fbo_check_request st cdb g lba nb :
  fbo_wf st -> fbo_request st cdb g lba nb ->
  fbo_check_lba_and_length st cdb = Some (inr (lba, Z.of_nat (length g))).
Proof.
  intros [W1 W2] [H1 H2 H3 H4]. unfold fbo_check_lba_and_length. rewrite H1, H2, W1. cbn [mbind option_bind].
  rewrite u64_small by lia. rewrite (proj2 (Z.leb_gt _ _)), (proj2 (Z.ltb_ge _ _)) by lia. cbn [orb].
  rewrite u32_small, s32_small by lia. do 3 f_equal. lia.
Qed.

(** What verification leaves alone: the file, the blocks of the caller's memory
    that can be read, the drive but for its last address. *)
Definition verify_frame (s s' : fcmd) : Prop :=
  fc_file s' = fc_file s /\ st_io (fc_st s) (fc_st s') /\ fc_thr s' = fc_thr s /\
  length (fc_sense s') = length (fc_sense s) /\
  forall q k l, mem_load (fc_mem s) q k = Some l -> mem_load (fc_mem s') q k = Some l.

Lemma fbo_do_verify_spec e s g off :
  file_sys_ok (fe_sys e) -> fbo_wf (fc_st s) -> gather (fc_mem s) (fc_iov s) = Some g ->
  Z.of_nat (length g) < 2 ^ 31 -> 0 <= off -> (18 <= length (fc_sense s))%nat ->
  g = [] \/ off + Z.of_nat (length g) <= Z.of_nat (length (fc_file s)) -> Z.of_nat (length (fc_file s)) < 2 ^ 63 ->
  exists s' rc, fbo_do_verify e s off (Z.of_nat (length g)) = Some (s', rc) /\ verify_frame s s' /\
    (fe_malloc e = false /\ rc = TCMU_STS_NO_RESOURCE \/
     verify_outcome rc (read_at (fc_file s) off (Z.of_nat (length g))) g).
Proof.
  intros Hsys [W1 W2] Hg H31 Ho Hse Hl Hf. unfold fbo_do_verify. rewrite (proj2 (Z.ltb_ge _ 0)), orb_false_r by lia.
  destruct (fe_malloc e); cbn [negb].
  2:{ eexists _, _. split; [reflexivity|]. split; [|by left]. unfold verify_frame. by split_and!. }
  pose proof (mem_new_same (fc_mem s) (zeros (length g))) as Hx. rewrite length_zeros in Hx.
  pose proof (mem_new_apart_blk (fc_mem s) (zeros (length g)) _ _ Hg) as Ha.
  pose proof (gather_new (fc_mem s) (zeros (length g)) _ _ Hg) as Hg1.
  assert (forall q k l, mem_load (fc_mem s) q k = Some l -> k <> 0 -> p_blk q <> fresh_blk (fc_mem s)) as Hfr.
  { intros q k l Hq Hk E. apply mem_load_Some in Hq as (b & Hb & _).
    - by rewrite E, fresh_blk_spec in Hb.
    - apply mem_load_nonneg in Hq. lia. }
  rewrite Nat2Z.id. unfold mem_new in *. cbn [fst snd] in *. set (p := Ptr _ 0) in *. rewrite W1. cbn [Z.eqb mbind option_bind].
  destruct (fbo_verify_loop_spec (fe_sys e) Hsys (length g) (fc_file s) _ p (fc_iov s) g (fc_sense s) off _
              Hg1 Ha Hx ltac:(lia) H31 Ho Hse Hl Hf) as (m' & iov' & se & rc & E & V & Ls & F).
  cbn [fc_file fc_set_st fc_iov fc_sense fc_mem] in *. rewrite E. cbn [mbind option_bind].
  eexists _, _. split; [reflexivity|]. split; [|by right].
  unfold verify_frame. cbn. split; [done|]. split; [apply st_io_transfer|]. split; [done|]. split; [done|].
  intros q k l Hq. destruct (decide (k = 0)) as [->|Hk]; [done|]. pose proof (Hfr q k l Hq Hk) as Hb.
  assert (mem_load m' q k = Some l) as Hm.
  { rewrite F by done. by apply mem_new_load. }
  rewrite <- Hm. unfold mem_load, mem_free. case_if; [done|]. by rewrite lookup_delete_ne.
Qed.

Lemma gather_loads m m' iov g :
  (forall q k l, mem_load m q k = Some l -> mem_load m' q k = Some l) ->
  gather m iov = Some g -> gather m' iov = Some g.
Proof.
  intros H. revert g. induction iov as [|v iov IH]; intros g Hg; [done|].
  destruct (gather_cons_inv _ _ _ _ Hg) as (a & b & Ha & Hb & -> & _). cbn [gather].
  by rewrite (H _ _ _ Ha), (IH _ Hb).
Qed.

(** The bytes of the drive: those past the end of the file are zeros. *)
Definition fbo_data (s : fcmd) : list Z := grow (fc_file s) (fbo_bytes (fc_st s)).

Definition fbo_file_ok (s : fcmd) : Prop := (length (fc_file s) <= fbo_bytes (fc_st s))%nat.

Lemma read_at_covered f n off k :
  0 <= off -> off + k <= Z.of_nat (length f) -> read_at (grow f n) off k = read_at f off k.
Proof.
  intros Ho Hk. unfold read_at, grow. destruct (decide (k <= 0)).
  { by replace (Z.to_nat k) with 0%nat by lia. }
  rewrite drop_app_le, take_app_le by (rewrite ?length_drop; lia). done.
Qed.

(** WRITE and WRITE AND VERIFY. *)
Lemma fbo_write_spec e cdb dv s g lba nb :
  file_sys_ok (fe_sys e) -> fbo_wf (fc_st s) -> fbo_file_ok s -> fbo_request (fc_st s) cdb g lba nb ->
  gather (fc_mem s) (fc_iov s) = Some g -> fb_has (fc_st s) FBO_READ_ONLY = false ->
  (18 <= length (fc_sense s))%nat ->
  exists s' rc w,
    fbo_write e cdb dv s = Some (s', rc) /\ fbo_file_ok s' /\ st_io (fc_st s) (fc_st s') /\
    fc_thr s' = fc_thr s /\
    (forall q k l, mem_load (fc_mem s) q k = Some l -> mem_load (fc_mem s') q k = Some l) /\
    length w = length g /\ fbo_data s' = write_at (fbo_data s) (2048 * lba) w /\
    (rc = TCMU_STS_OK ->
       w = g /\ (g = [] \/ 2048 * lba + Z.of_nat (length g) <= Z.of_nat (length (fc_file s')))) /\
    (dv = false -> rc = TCMU_STS_OK \/ rc = TCMU_STS_WR_ERR).
Proof.
  intros Hsys W Hf Rq Hg Hro Hse. pose proof W as [W1 W2]. pose proof Rq as [R1 R2 R3 R4].
  unfold fbo_write. rewrite Hro, (fbo_check_request _ _ _ _ _ W Rq). cbn [mbind option_bind]. rewrite Nat2Z.id.
  rewrite W1, u64_small by lia. cbn [fc_file fc_mem fc_iov fc_set_st].
  unfold fbo_file_ok, fbo_bytes in Hf.
  destruct (fbo_write_loop_spec (fe_sys e) Hsys (fbo_bytes (fc_st s)) (fc_file s) (fc_mem s) (fc_iov s) g (2048 * lba))
    as (f' & rc & w & -> & Hf' & Lw & Hw & Hok & Hrc); unfold fbo_bytes in *; try lia; [done|].
  cbn [mbind option_bind].
  set (s1 := fc_set_st _ _). set (rc1 := if sts_ok rc && _ && _ then TCMU_STS_WR_ERR else rc).
  assert (rc1 = TCMU_STS_OK -> rc = TCMU_STS_OK) as Hrc1.
  { unfold rc1. case_if; [done|]. tauto. }
  assert (rc1 = TCMU_STS_OK \/ rc1 = TCMU_STS_WR_ERR) as Hrc2.
  { unfold rc1. case_if; [by right|done]. }
  assert (st_io (fc_st s) (fc_st s1)) as Hio by apply st_io_transfer.
  destruct (negb dv || negb (sts_ok rc1)) eqn:E.
  { exists s1, rc1, w. split; [done|]. unfold fbo_file_ok, fbo_bytes, fbo_data. cbn.
    split_and!; try done; try lia; try (apply st_io_transfer); intros; apply Hok; auto. }
  zbool. apply sts_ok_true in H0. destruct (Hok (Hrc1 H0)) as [-> Hc].
  destruct (fbo_do_verify_spec e s1 g (2048 * lba) Hsys) as (s' & rc2 & Ev & (F1 & F2 & F3 & F4 & F5) & V);
    try done; cbn; try lia.
  exists s', rc2, g. split; [exact Ev|]. unfold fbo_file_ok, fbo_data, fbo_bytes.
  pose proof F2 as (N1 & _). pose proof Hio as (N2 & _). rewrite F1, N1, N2. cbn [fc_file s1 fc_set_st fc_set_file].
  split; [lia|]. split; [by transitivity (fc_st s1)|]. split; [by rewrite F3|]. split; [done|]. split; [done|].
  split; [done|]. split; [done|]. intros ->. done.
Qed.

(** READ inside the file. *)
Lemma fbo_read_spec e cdb s g lba nb :
  file_sys_ok (fe_sys e) -> fbo_wf (fc_st s) -> fbo_request (fc_st s) cdb g lba nb ->
  gather (fc_mem s) (fc_iov s) = Some g -> iov_disj (fc_iov s) -> Z.of_nat (length (fc_file s)) < 2 ^ 63 ->
  g = [] \/ 2048 * lba + Z.of_nat (length g) <= Z.of_nat (length (fc_file s)) ->
  byte_at cdb 0 = READ_6 \/ Z.land (byte_at cdb 1) 0x11 = 0 ->
  Z.land (byte_at cdb 1) 0x08 = 0 \/ fsync_ret (fe_sys e) = 0 ->
  exists s' g',
    fbo_read e cdb s = Some (s', TCMU_STS_OK) /\ fc_file s' = fc_file s /\ st_io (fc_st s) (fc_st s') /\
    fc_thr s' = fc_thr s /\ fc_sense s' = fc_sense s /\
    gather (fc_mem s') (fc_iov s) = Some g' /\
    ((forall o n, 0 <= preadv_ret (fe_sys e) o n) ->
       g' = read_at (fc_file s) (2048 * lba) (Z.of_nat (length g))) /\
    (forall q k, outside (fc_iov s) q k -> mem_load (fc_mem s') q k = mem_load (fc_mem s) q k).
Proof.
  intros Hsys W Rq Hg Hd H63 Hl Hop Hfs. pose proof W as [W1 W2]. pose proof Rq as [_ _ R3 R4].
  unfold fbo_read. replace (negb (byte_at cdb 0 =? READ_6) && negb (Z.land (byte_at cdb 1) 0x11 =? 0)) with false.
  2:{ symmetry. destruct Hop as [-> | ->]; [done|apply andb_false_r]. }
  rewrite (fbo_check_request _ _ _ _ _ W Rq). cbn [mbind option_bind].
  replace (negb (Z.land (byte_at cdb 1) 0x08 =? 0) && negb (fsync_ret (fe_sys e) =? 0)) with false.
  2:{ symmetry. destruct Hfs as [-> | ->]; [done|apply andb_false_r]. }
  rewrite W1, u64_small by lia. rewrite Nat2Z.id. cbn [fc_file fc_mem fc_iov fc_set_st].
  destruct (decide (g = [])) as [->|Hne].
  { cbn. eexists _, []. split; [reflexivity|]. cbn. split; [done|]. split; [apply st_io_transfer|].
    split; [done|]. split; [done|]. split; [done|]. split; [done|done]. }
  destruct (fbo_read_loop_spec (fe_sys e) Hsys (fc_file s) (fc_mem s) (fc_iov s) g (2048 * lba) Hg Hd) as
    (m' & iov' & rc & g' & -> & G & R & F & Hnf); try lia; [tauto|].
  cbn [mbind option_bind]. eexists _, g'. split; [reflexivity|]. cbn. split; [done|].
  split; [apply st_io_transfer|]. split; [done|]. split; [done|]. split; [done|]. split; [|done].
  intros Hn. by apply R, Hnf.
Qed.

(** ** Through the dispatcher *)

Definition fbo_write_op (op : Z) : bool :=
  (op =? WRITE_6) || (op =? WRITE_10) || (op =? WRITE_12) || (op =? WRITE_VERIFY).
Definition fbo_read_op (op : Z) : bool := (op =? READ_6) || (op =? READ_10) || (op =? READ_12).

Lemma fbo_work_done e cdb s s' rc :
  fb_has (fc_st s) FBO_FORMATTING = false -> byte_at cdb 0 <> READ_CAPACITY ->
  fbo_switch e cdb s = Some (s', rc) -> fbo_work e cdb s = Some (s', [rc]).
Proof.
  intros Hf Hop E. unfold fbo_work, fbo_handle_cmd. rewrite Hf, (proj2 (Z.eqb_neq _ _)) by done.
  cbn [andb]. by rewrite E.
Qed.

Lemma fbo_switch_write e cdb s :
  fbo_write_op (byte_at cdb 0) = true ->
  byte_at cdb 0 <> READ_CAPACITY /\
  fbo_switch e cdb s = fbo_write e cdb (byte_at cdb 0 =? WRITE_VERIFY) s.
Proof.
  unfold fbo_write_op. rewrite !orb_true_iff, !Z.eqb_eq. unfold fbo_switch.
  intros [[[-> | ->] | ->] | ->]; by split.
Qed.

Lemma fbo_switch_read e cdb s :
  fbo_read_op (byte_at cdb 0) = true ->
  byte_at cdb 0 <> READ_CAPACITY /\ fbo_switch e cdb s = fbo_read e cdb s.
Proof.
  unfold fbo_read_op. rewrite !orb_true_iff, !Z.eqb_eq. unfold fbo_switch.
  intros [[-> | ->] | ->]; by split.
Qed.

(** C23: A WRITE or WRITE AND VERIFY to the optical drive completes exactly
    once, whatever short transfers and errors the system calls produce; it
    changes no byte of the drive outside its range and no memory of the
    initiator.  When it reports success, it has stored exactly its data, and a
    READ of the range whose system calls do not fail completes once with
    success and delivers the data, even where the file was shorter than the
    drive before. *)
Theorem fbo_write_then_read (e1 e2 : fbo_env) (s1 : fcmd) (wcdb rcdb g g2 : list Z) (lba nb : Z)
  (m2 : mem) (iov2 : list iovec) (se2 : list Z)
  (Hw : fbo_write_op (byte_at wcdb 0) = true) (Hr : fbo_read_op (byte_at rcdb 0) = true)
  (Hr1 : byte_at rcdb 0 = READ_6 \/ Z.land (byte_at rcdb 1) 0x11 = 0)
  (Hsys1 : file_sys_ok (fe_sys e1)) (Hsys2 : file_sys_ok (fe_sys e2))
  (Hrd : forall o n, 0 <= preadv_ret (fe_sys e2) o n) (Hfs : fsync_ret (fe_sys e2) = 0)
  (W : fbo_wf (fc_st s1)) (Hf : fbo_file_ok s1)
  (Hro : fb_has (fc_st s1) FBO_READ_ONLY = false) (Hfm : fb_has (fc_st s1) FBO_FORMATTING = false)
  (Rq1 : fbo_request (fc_st s1) wcdb g lba nb) (Rq2 : fbo_request (fc_st s1) rcdb g2 lba nb)
  (Hg : gather (fc_mem s1) (fc_iov s1) = Some g) (Hg2 : gather m2 iov2 = Some g2)
  (Hd2 : iov_disj iov2) (Hse : (18 <= length (fc_sense s1))%nat) :
  exists s2 rc w,
    fbo_work e1 wcdb s1 = Some (s2, [rc]) /\
    length w = length g /\ fbo_data s2 = write_at (fbo_data s1) (2048 * lba) w /\
    gather (fc_mem s2) (fc_iov s1) = Some g /\
    (rc = TCMU_STS_OK ->
       w = g /\
       exists s3, fbo_work e2 rcdb (FCmd (fc_st s2) (fc_file s2) m2 iov2 se2 []) = Some (s3, [TCMU_STS_OK]) /\
         gather (fc_mem s3) iov2 = Some g /\ fbo_data s3 = fbo_data s2).
Proof.
  destruct (fbo_switch_write e1 wcdb s1 Hw) as [Hop Esw].
  destruct (fbo_write_spec e1 wcdb (byte_at wcdb 0 =? WRITE_VERIFY) s1 g lba nb Hsys1 W Hf Rq1 Hg Hro Hse)
    as (s2 & rc & w & E & Hf2 & Hio & _ & Hm & Lw & Hdata & Hok & _).
  rewrite <- Esw in E. exists s2, rc, w. split; [by apply fbo_work_done|]. split; [done|]. split; [done|].
  split; [by eapply gather_loads|]. intros Hrc. destruct (Hok Hrc) as [-> Hcov]. split; [done|].
  destruct (fbo_switch_read e2 rcdb (FCmd (fc_st s2) (fc_file s2) m2 iov2 se2 []) Hr) as [Hop2 Esw2].
  pose proof (st_io_wf _ _ Hio W) as W'. pose proof Hio as (N1 & _ & _ & _ & _ & NF).
  pose proof Rq1 as [_ _ R3 [R4 R5]]. pose proof Rq2 as [Q1 Q2 Q3 [Q4 Q5]].
  assert (length g2 = length g) as Lg by lia.
  assert (g2 = [] \/ 2048 * lba + Z.of_nat (length g2) <= Z.of_nat (length (fc_file s2))) as Hcov2.
  { rewrite Lg. destruct Hcov as [->|?]; [left|by right]. by destruct g2. }
  destruct (fbo_read_spec e2 rcdb (FCmd (fc_st s2) (fc_file s2) m2 iov2 se2 []) g2 lba nb Hsys2 W')
    as (s3 & g' & E3 & Hff & Hio3 & _ & _ & G3 & R & _); try done; [..|by right|].
  { split; cbn; rewrite ?N1; done. }
  { cbn. destruct W' as [_ W2]. unfold fbo_file_ok, fbo_bytes in Hf2. lia. }
  rewrite <- Esw2 in E3. exists s3. split.
  { apply fbo_work_done; [cbn; by rewrite NF|done|exact E3]. }
  cbn [fc_iov fc_file fc_st] in *. pose proof Hio3 as (N3 & _).
  split; [|unfold fbo_data, fbo_bytes; by rewrite Hff, N3].
  rewrite G3, (R Hrd). f_equal. destruct Hcov2 as [->|Hc]; [by destruct g|].
  rewrite <- (read_at_covered (fc_file s2) (fbo_bytes (fc_st s2))) by lia. change (grow _ _) with (fbo_data s2).
  rewrite Hdata, Lg. apply read_write_at; [lia|]. unfold fbo_data. rewrite length_grow.
  unfold fbo_bytes. lia.
Qed.

(** System calls that transfer at most 1000 bytes. *)
Definition fbo_short : file_sys := FSys (fun _ n => Z.max 0 (Z.min n 1000)) (fun _ n => Z.max 0 (Z.min n 1000)) 0.
Definition demo_fenv : fbo_env := FEnv fbo_short true true (zeros 512).

Lemma fbo_short_ok : file_sys_ok fbo_short.
Proof. split; cbn; intros; lia. Qed.

Definition demo_fcmd : fcmd :=
  FCmd demo_fbo [] {[ 0%nat := replicate 2048 7 ]} [Iov (Ptr 0 0) 2000; Iov (Ptr 0 2000) 48] (zeros 96) [].

Lemma fbo_write_then_read_witness :
  exists s2 s3,
    fbo_work demo_fenv [0x2e; 0; 0; 0; 0; 3; 0; 0; 1; 0] demo_fcmd = Some (s2, [TCMU_STS_OK]) /\
    fbo_data s2 = write_at (fbo_data demo_fcmd) 6144 (replicate 2048 7) /\
    fbo_work demo_fenv [0x28; 0; 0; 0; 0; 3; 0; 0; 1; 0]
      (FCmd (fc_st s2) (fc_file s2) {[ 0%nat := zeros 2048 ]} [Iov (Ptr 0 0) 2048] (zeros 96) []) =
      Some (s3, [TCMU_STS_OK]) /\
    gather (fc_mem s3) [Iov (Ptr 0 0) 2048] = Some (replicate 2048 7).
Proof.
  destruct (fbo_write_then_read demo_fenv demo_fenv demo_fcmd [0x2e; 0; 0; 0; 0; 3; 0; 0; 1; 0]
    [0x28; 0; 0; 0; 0; 3; 0; 0; 1; 0] (replicate 2048 7) (zeros 2048) 3 1 {[ 0%nat := zeros 2048 ]}
    [Iov (Ptr 0 0) 2048] (zeros 96)) as (s2 & rc & w & E & _ & D & _ & Hok).
  1, 2: reflexivity.
  1: by right.
  1, 2: exact fbo_short_ok.
  1: cbn; intros; lia.
  1: reflexivity.
  1: split; cbn; lia.
  1: unfold fbo_file_ok; cbn; lia.
  1, 2: reflexivity.
  1, 2: split; cbn; done.
  1: vm_compute; reflexivity.
  1: vm_compute; reflexivity.
  1: split; [constructor|done].
  1: cbn; lia.
  assert (rc = TCMU_STS_OK) as ->.
  { assert (fbo_work demo_fenv [0x2e; 0; 0; 0; 0; 3; 0; 0; 1; 0] demo_fcmd =
            Some (s2, [rc])) as E2 by exact E.
    apply (f_equal (option_map snd)) in E2. vm_compute in E2. by injection E2 as <-. }
  destruct (Hok eq_refl) as [-> (s3 & E3 & G3 & _)]. exists s2, s3. by split_and!.
Defined.

(** VERIFY inside the file. *)
Lemma fbo_verify_spec e cdb s g lba nb :
  file_sys_ok (fe_sys e) -> fbo_wf (fc_st s) -> fbo_request (fc_st s) cdb g lba nb ->
  gather (fc_mem s) (fc_iov s) = Some g -> (18 <= length (fc_sense s))%nat ->
  Z.of_nat (length (fc_file s)) < 2 ^ 63 ->
  g = [] \/ 2048 * lba + Z.of_nat (length g) <= Z.of_nat (length (fc_file s)) ->
  fb_has (fc_st s) FBO_READ_ONLY = false -> Z.land (byte_at cdb 1) 0x13 = 0 ->
  exists s' rc,
    fbo_verify e cdb s = Some (s', rc) /\ verify_frame s s' /\
    (fe_malloc e = false /\ rc = TCMU_STS_NO_RESOURCE \/
     verify_outcome rc (read_at (fc_file s) (2048 * lba) (Z.of_nat (length g))) g).
Proof.
  intros Hsys W Rq Hg Hse H63 Hl Hro Hb. pose proof W as [W1 W2]. pose proof Rq as [_ _ R3 R4].
  unfold fbo_verify. rewrite Hro, Hb. cbn [Z.eqb negb]. rewrite (fbo_check_request _ _ _ _ _ W Rq).
  cbn [mbind option_bind]. rewrite W1, u64_small by lia. apply fbo_do_verify_spec; try done; lia.
Qed.

(** VERIFY compares: when reading succeeds, its status says whether the
    initiator's bytes are those of the file, and it changes neither the file nor
    memory that can be read. *)
Theorem fbo_verify_compares (e : fbo_env) (s : fcmd) (cdb g : list Z) (lba nb : Z)
  (Hop : byte_at cdb 0 = VERIFY) (Hb : Z.land (byte_at cdb 1) 0x13 = 0)
  (Hsys : file_sys_ok (fe_sys e)) (Hm : fe_malloc e = true) (W : fbo_wf (fc_st s))
  (Rq : fbo_request (fc_st s) cdb g lba nb) (Hg : gather (fc_mem s) (fc_iov s) = Some g)
  (Hse : (18 <= length (fc_sense s))%nat) (H63 : Z.of_nat (length (fc_file s)) < 2 ^ 63)
  (Hl : 2048 * lba + Z.of_nat (length g) <= Z.of_nat (length (fc_file s)))
  (Hro : fb_has (fc_st s) FBO_READ_ONLY = false) (Hfm : fb_has (fc_st s) FBO_FORMATTING = false) :
  exists s' rc,
    fbo_work e cdb s = Some (s', [rc]) /\ fc_file s' = fc_file s /\
    (rc = TCMU_STS_OK -> read_at (fc_file s) (2048 * lba) (Z.of_nat (length g)) = g) /\
    (rc = TCMU_STS_MISCOMPARE -> read_at (fc_file s) (2048 * lba) (Z.of_nat (length g)) <> g) /\
    (rc = TCMU_STS_OK \/ rc = TCMU_STS_MISCOMPARE \/ rc = TCMU_STS_RD_ERR) /\
    (forall q k l, mem_load (fc_mem s) q k = Some l -> mem_load (fc_mem s') q k = Some l).
Proof.
  destruct (fbo_verify_spec e cdb s g lba nb) as (s' & rc & E & (F1 & _ & _ & _ & F5) & V); try done; [by right|].
  exists s', rc. split.
  { apply fbo_work_done; [done|by rewrite Hop|]. unfold fbo_switch. rewrite Hop. exact E. }
  split; [done|]. destruct V as [[? _]|[[-> V]|[[-> V]| ->]]]; [congruence|..]; split_and!; auto; done.
Qed.

Lemma fbo_verify_compares_witness :
  exists s', fbo_work demo_fenv [0x2f; 0; 0; 0; 0; 0; 0; 0; 1; 0]
    (FCmd demo_fbo (replicate 2047 7 ++ [8]) (fc_mem demo_fcmd) (fc_iov demo_fcmd) (zeros 96) []) =
      Some (s', [TCMU_STS_MISCOMPARE]).
Proof.
  destruct (fbo_verify_compares demo_fenv
    (FCmd demo_fbo (replicate 2047 7 ++ [8]) (fc_mem demo_fcmd) (fc_iov demo_fcmd) (zeros 96) [])
    [0x2f; 0; 0; 0; 0; 0; 0; 0; 1; 0] (replicate 2048 7) 0 1) as (s' & rc & E & _ & Hok & _ & Hrc & _).
  1, 2: reflexivity.
  1: exact fbo_short_ok.
  1: reflexivity.
  1: split; cbn; lia.
  1: split; cbn; done.
  1: vm_compute; reflexivity.
  1, 2, 3: cbn; lia.
  1, 2: reflexivity.
  exists s'. rewrite E. do 3 f_equal. apply (f_equal (option_map snd)) in E. vm_compute in E.
  by injection E as <-.
Defined.

(** ** Where reads go wrong *)

Lemma preadv_eof sys f m iov off :
  (forall o n, 0 <= preadv_ret sys o n) -> Z.of_nat (length f) <= off ->
  preadv sys f m iov (Z.of_nat (length iov)) off = Some (m, 0).
Proof.
  intros Hn Ho. unfold preadv. rewrite tcmu_iovec_length_spec. cbn [mbind option_bind].
  rewrite (proj2 (Z.ltb_ge _ _)) by apply Hn. rewrite (drop_ge f) by lia. rewrite take_nil.
  unfold scatter. destruct iov; done.
Qed.

Lemma fbo_read_loop_eof sys fuel f m iov r off :
  (forall o n, 0 <= preadv_ret sys o n) -> Z.of_nat (length f) <= off < 2 ^ 64 -> 0 < r < 2 ^ 31 ->
  fbo_read_loop fuel sys f m iov r off TCMU_STS_OK = None.
Proof.
  intros Hn Ho Hr. induction fuel as [|fuel IH]; cbn [fbo_read_loop]; rewrite (proj2 (Z.eqb_neq _ _)) by lia; [done|].
  rewrite preadv_eof by (done || lia). cbn.
  assert (tcmu_seek_in_iovec iov 0 = Some (iov, 0)) as -> by (by destruct iov). cbn [mbind option_bind].
  rewrite Z.sub_0_r, Z.add_0_r, s32_small, u64_small by lia. exact IH.
Qed.

(** A READ of blocks past the end of the backing file never completes
    unless a read fails: [preadv] returns 0 there, which the loop takes for
    progress, however many rounds it gets.  Opening a missing file creates an
    empty one, so every READ before the first WRITE or FORMAT UNIT hangs the
    drive. *)
Theorem fbo_read_past_end_hangs (e : fbo_env) (s : fcmd) (cdb g : list Z) (lba nb : Z)
  (Hr : fbo_read_op (byte_at cdb 0) = true)
  (Hr1 : byte_at cdb 0 = READ_6 \/ Z.land (byte_at cdb 1) 0x11 = 0)
  (W : fbo_wf (fc_st s)) (Hfm : fb_has (fc_st s) FBO_FORMATTING = false)
  (Rq : fbo_request (fc_st s) cdb g lba nb) (Hnb : 0 < nb)
  (Hrd : forall o n, 0 <= preadv_ret (fe_sys e) o n) (Hfs : fsync_ret (fe_sys e) = 0)
  (Hl : Z.of_nat (length (fc_file s)) <= 2048 * lba) :
  (forall fuel, fbo_read_loop fuel (fe_sys e) (fc_file s) (fc_mem s) (fc_iov s) (Z.of_nat (length g))
                  (2048 * lba) TCMU_STS_OK = None) /\
  fbo_work e cdb s = None.
Proof.
  pose proof W as [W1 W2]. pose proof Rq as [_ _ R3 R4].
  assert (forall fuel, fbo_read_loop fuel (fe_sys e) (fc_file s) (fc_mem s) (fc_iov s) (Z.of_nat (length g))
            (2048 * lba) TCMU_STS_OK = None) as Hloop.
  { intros fuel. apply fbo_read_loop_eof; [done|lia|lia]. }
  split; [done|]. destruct (fbo_switch_read e cdb s Hr) as [Hop Esw].
  unfold fbo_work, fbo_handle_cmd. rewrite Hfm, (proj2 (Z.eqb_neq _ _)), Esw by done. cbn [andb].
  unfold fbo_read. replace (negb (byte_at cdb 0 =? READ_6) && negb (Z.land (byte_at cdb 1) 0x11 =? 0)) with false.
  2:{ symmetry. destruct Hr1 as [-> | ->]; [done|apply andb_false_r]. }
  rewrite (fbo_check_request _ _ _ _ _ W Rq). cbn [mbind option_bind]. rewrite Hfs, andb_false_r, W1, u64_small by lia.
  cbn [fc_file fc_mem fc_iov fc_set_st]. by rewrite Hloop.
Qed.

(** The path of a file that does not exist: the drive opens, and its first READ
    never ends. *)
Lemma fbo_read_past_end_hangs_witness :
  exists dev st,
    fbo_open true 2048000 (fun _ => false) (fun _ _ => true)
      (Dev 0 512 128 8 0 true false (str "fbo//var/new") None demo_handler) = Some (dev, inr st) /\
    num_lbas dev = 1000 /\ block_size dev = 2048 /\
    fbo_work demo_fenv [0x28; 0; 0; 0; 0; 0; 0; 0; 1; 0]
      (FCmd st [] (fc_mem demo_fcmd) (fc_iov demo_fcmd) (zeros 96) []) = None.
Proof.
  eexists _, demo_fbo. split; [reflexivity|]. split; [reflexivity|]. split; [reflexivity|].
  apply (fbo_read_past_end_hangs demo_fenv
    (FCmd demo_fbo [] (fc_mem demo_fcmd) (fc_iov demo_fcmd) (zeros 96) [])
    [0x28; 0; 0; 0; 0; 0; 0; 0; 1; 0] (zeros 2048) 0 1); try reflexivity; cbn; try lia.
  - by right.
  - split; cbn; lia.
  - split; cbn; done.
Defined.

(** A READ whose system calls fail reports success: the status is set in the
    loop and [TCMU_STS_OK] returned.  The initiator's buffer keeps what was in
    it. *)
Theorem fbo_read_error_hidden (e : fbo_env) (s : fcmd) (cdb g : list Z) (lba nb : Z)
  (Hr : fbo_read_op (byte_at cdb 0) = true)
  (Hr1 : byte_at cdb 0 = READ_6 \/ Z.land (byte_at cdb 1) 0x11 = 0)
  (W : fbo_wf (fc_st s)) (Hfm : fb_has (fc_st s) FBO_FORMATTING = false)
  (Rq : fbo_request (fc_st s) cdb g lba nb) (Hfs : fsync_ret (fe_sys e) = 0)
  (Hrd : forall o n, preadv_ret (fe_sys e) o n < 0) :
  exists s', fbo_work e cdb s = Some (s', [TCMU_STS_OK]) /\ fc_mem s' = fc_mem s.
Proof.
  pose proof W as [W1 W2]. pose proof Rq as [_ _ R3 R4]. destruct (fbo_switch_read e cdb s Hr) as [Hop Esw].
  assert (exists s', fbo_read e cdb s = Some (s', TCMU_STS_OK) /\ fc_mem s' = fc_mem s) as (s' & E & Hm).
  { unfold fbo_read. replace (negb (byte_at cdb 0 =? READ_6) && negb (Z.land (byte_at cdb 1) 0x11 =? 0)) with false.
    2:{ symmetry. destruct Hr1 as [-> | ->]; [done|apply andb_false_r]. }
    rewrite (fbo_check_request _ _ _ _ _ W Rq). cbn [mbind option_bind]. rewrite Hfs, andb_false_r, Nat2Z.id.
    cbn [fc_file fc_mem fc_iov fc_set_st].
    destruct (length g) eqn:L; cbn [fbo_read_loop]; [eexists; split; [reflexivity|done]|].
    rewrite (proj2 (Z.eqb_neq _ _)) by lia. unfold preadv. rewrite tcmu_iovec_length_spec. cbn [mbind option_bind].
    rewrite (proj2 (Z.ltb_lt _ _)) by apply Hrd. cbn [mbind option_bind].
    rewrite (proj2 (Z.ltb_lt _ _)) by apply Hrd. eexists. by split. }
  exists s'. split; [|done]. apply fbo_work_done; [done|done|by rewrite Esw].
Qed.

Lemma fbo_read_error_hidden_witness :
  exists s', fbo_work (FEnv (FSys (fun _ _ => -1) (fun _ _ => -1) 0) true true []) [0x28; 0; 0; 0; 0; 0; 0; 0; 1; 0]
    (FCmd demo_fbo (zeros 2048) (fc_mem demo_fcmd) (fc_iov demo_fcmd) (zeros 96) []) = Some (s', [TCMU_STS_OK]) /\
    fc_mem s' = fc_mem demo_fcmd.
Proof.
  apply (fbo_read_error_hidden (FEnv (FSys (fun _ _ => -1) (fun _ _ => -1) 0) true true [])
    (FCmd demo_fbo (zeros 2048) (fc_mem demo_fcmd) (fc_iov demo_fcmd) (zeros 96) [])
    [0x28; 0; 0; 0; 0; 0; 0; 0; 1; 0] (zeros 2048) 0 1); try reflexivity; cbn; try lia.
  - by right.
  - split; cbn; lia.
  - split; cbn; done.
Defined.
