(* ===== verification/OpticalFmt.v ===== *)
(** * The optical handler: formatting

    FORMAT UNIT of [file_optical.c]: termination, what it leaves in the file,
    and the drive that never stops formatting. *)

From S2P Require Import Prelude Scsi Iovec Sense Device Backstore FileBack Optical OpticalCfg OpticalIo OpticalThm.

(** ** The loop *)

(** A job in the middle of its work: whole blocks are done, and the next round
    has at least one block to write. *)
Record job_ok (st : fbo_state) (j : format_job) : Prop := {
  jb_done : 0 <= fj_done j <= fb_num_lbas st;
  jb_offset : fj_offset j = fj_done j * 2048;
  jb_length : exists k, fj_length j = k * 2048 /\ 0 < k <= 512
}.

Lemma job0_ok st : fbo_wf st -> job_ok st fbo_job0.
Proof. intros [_ W]. split; cbn; [lia|done|]. exists 512. lia. Qed.

(** The drive with another progress. *)
Definition same_but_progress (st st' : fbo_state) : Prop := exists p, st' = fb_set_progress st p \/ st' = st.

Lemma same_but_progress_refl st : same_but_progress st st.
Proof. exists 0. by right. Qed.

Lemma same_but_progress_fields st st' :
  same_but_progress st st' ->
  fb_num_lbas st' = fb_num_lbas st /\ fb_block_size st' = fb_block_size st /\ fb_flags st' = fb_flags st /\
  fb_event_op_ch_code st' = fb_event_op_ch_code st /\ fb_async_cache_count st' = fb_async_cache_count st.
Proof. by intros [p [-> | ->]]. Qed.

Lemma same_but_progress_trans a b c : same_but_progress a b -> same_but_progress b c -> same_but_progress a c.
Proof. intros [p [-> | ->]] [q [-> | ->]]; [exists q|exists p|exists q|exists 0]; by (left + right). Qed.

(** The number of blocks of a round. *)
Definition round_blocks (st : fbo_state) (j : format_job) : Z :=
  Z.min (fj_length j / 2048) (fb_num_lbas st - fj_done j).

(** What is in the file after a round that wrote [n] of its bytes. *)
Definition round_file (f : list Z) (off : Z) (n : nat) : list Z :=
  if (n =? 0)%nat then f else write_at (grow f (Z.to_nat off)) off (zeros n).

Lemma fbo_format_round_spec sys st f j :
  fbo_wf st -> fb_num_lbas st < 2 ^ 32 -> job_ok st j -> fbo_job_busy st j = true ->
  exists st', same_but_progress st st' /\
  ((exists off len, 0 < len /\ pwritev_ret sys off len < 0) /\ fbo_format_round sys st f j = Some (st', f, None) \/
   let n := round_blocks st j * 2048 in
   exists k j', (Z.of_nat k = Z.min (pwritev_ret sys (fj_offset j) n) n) /\
     fbo_format_round sys st f j = Some (st', round_file f (fj_offset j) k, Some j') /\
     job_ok st j' /\ fj_done j < fj_done j' /\ fj_offset j' = fj_offset j + n).
Proof.
  intros [W1 W2] H32 [J1 J2 (k & J3 & J4)] Hb. unfold fbo_job_busy in Hb. zbool.
  unfold fbo_format_round. rewrite W1. cbn [Z.eqb].
  assert (fj_length j / 2048 = k) as Hk by (rewrite J3; by rewrite Z.div_mul).
  rewrite u64_small by lia. set (left := (fb_num_lbas st - fj_done j) * 2048).
  assert ((if left <? fj_length j then u32 left else fj_length j) = round_blocks st j * 2048) as ->.
  { unfold round_blocks. rewrite Hk. case_if; unfold left in *; [rewrite u32_small by lia|]; lia. }
  set (b := round_blocks st j). assert (0 < b <= fb_num_lbas st - fj_done j) as Hb2 by (unfold b, round_blocks; lia).
  assert (b <= 512) by (unfold b, round_blocks; lia).
  rewrite Z.div_mul by lia. rewrite u32_small by lia.
  set (r := pwritev_ret _ _ _). destruct (Z.ltb_spec r 0) as [Hn|Hp].
  { exists st. split; [apply same_but_progress_refl|]. left. split; [|done].
    exists (fj_offset j), (b * 2048). split; [lia|done]. }
  eexists. split; [|right; exists (Z.to_nat (Z.min r (b * 2048)));
    exists (FJob (fj_done j + b) (u64 (fj_offset j + b * 2048)) (b * 2048)); split; [lia|]; split; [reflexivity|]].
  - case_if; [|apply same_but_progress_refl]. eexists. left. reflexivity.
  - cbn [fj_done fj_offset fj_length]. rewrite u64_small by lia. split; [|lia].
    split; cbn; [lia|lia|]. exists b. lia.
Qed.

Section loop.
Context (sys : file_sys).

Lemma length_round_file f off n :
  0 <= off -> (length (round_file f off n) <= Nat.max (length f) (Z.to_nat off + n))%nat.
Proof.
  intros Ho. unfold round_file. case_if; [lia|]. rewrite length_write_at_grow, length_zeros by done. lia.
Qed.

(** The loop ends, within one round per block. *)
Lemma fbo_format_loop_total fuel : forall st f j,
  fbo_wf st -> fb_num_lbas st < 2 ^ 32 -> job_ok st j ->
  (Z.to_nat (fb_num_lbas st - fj_done j) <= fuel)%nat ->
  exists st' f' rc, fbo_format_loop fuel sys st f j = Some (st', f', rc) /\ same_but_progress st st' /\
    (rc = TCMU_STS_OK \/ rc = TCMU_STS_WR_ERR) /\
    ((length f <= fbo_bytes st)%nat -> (length f' <= fbo_bytes st)%nat).
Proof.
  induction fuel as [|fuel IH]; intros st f j W H32 J Hfu; cbn [fbo_format_loop].
  { pose proof (jb_done _ _ J). unfold fbo_job_busy. rewrite (proj2 (Z.ltb_ge _ _)) by lia.
    eexists _, _, _. split; [reflexivity|]. split; [apply same_but_progress_refl|]. split; [by left|done]. }
  destruct (fbo_job_busy st j) eqn:Hb.
  2:{ eexists _, _, _. split; [reflexivity|]. split; [apply same_but_progress_refl|]. split; [by left|done]. }
  destruct (fbo_format_round_spec sys st f j W H32 J Hb) as
    (st1 & S1 & [[_ ->]|(k & j' & Hk & -> & J' & Hd & Ho)]); cbn [mbind option_bind].
  { eexists _, _, _. split; [reflexivity|]. split; [done|]. split; [by right|done]. }
  destruct (same_but_progress_fields _ _ S1) as (N1 & N2 & _).
  destruct (IH st1 (round_file f (fj_offset j) k) j') as (st' & f' & rc & -> & S2 & Hrc & Hlen);
    rewrite ?N1; try done; try lia.
  - destruct W. by split; rewrite ?N1, ?N2.
  - destruct J'. by split; rewrite ?N1.
  - exists st', f', rc. split; [done|]. split; [by eapply same_but_progress_trans|]. split; [done|].
    intros Hf. assert (fbo_bytes st1 = fbo_bytes st) as Eb by (unfold fbo_bytes; by rewrite N1).
    rewrite Eb in Hlen. apply Hlen. destruct J as [J1 J2 _], J' as [J1' J2' _].
    pose proof (length_round_file f (fj_offset j) k ltac:(lia)). unfold fbo_bytes in *. lia.
Qed.

Lemma round_file_zeros f off n :
  0 <= off -> (0 < n)%nat -> take (Z.to_nat off) f = zeros (Nat.min (Z.to_nat off) (length f)) ->
  round_file f off n = zeros (Z.to_nat off + n) ++ drop (Z.to_nat off + n) f.
Proof.
  intros Ho Hn Ht. unfold round_file. destruct n as [|n]; [lia|]. cbn [Nat.eqb]. unfold write_at.
  assert (take (Z.to_nat off) (grow f (Z.to_nat off)) = zeros (Z.to_nat off)) as ->.
  { unfold grow. rewrite take_app, Ht. rewrite take_ge by (rewrite length_zeros; lia).
    unfold zeros. rewrite <- replicate_add. f_equal. lia. }
  rewrite app_assoc. f_equal; [unfold zeros; by rewrite <- replicate_add|].
  rewrite length_zeros. unfold grow. destruct (decide (Z.to_nat off <= length f)%nat).
  - replace (Z.to_nat off - length f)%nat with 0%nat by lia. unfold zeros. cbn. by rewrite app_nil_r.
  - rewrite drop_ge by (rewrite length_app, length_zeros; lia). by rewrite drop_ge by lia.
Qed.

(** With complete writes the file becomes the zeros of the whole drive. *)
Lemma fbo_format_loop_zeros fuel : forall st f j,
  (forall o n, 0 <= n -> pwritev_ret sys o n = n) ->
  fbo_wf st -> fb_num_lbas st < 2 ^ 32 -> job_ok st j -> (length f <= fbo_bytes st)%nat ->
  (fj_done j = 0 \/ f = zeros (Z.to_nat (fj_offset j)) ++ drop (Z.to_nat (fj_offset j)) f) ->
  (Z.to_nat (fb_num_lbas st - fj_done j) <= fuel)%nat -> fj_done j < fb_num_lbas st ->
  exists st', fbo_format_loop fuel sys st f j = Some (st', zeros (fbo_bytes st), TCMU_STS_OK).
Proof.
  induction fuel as [|fuel IH]; intros st f j Hc W H32 J Hf Hz Hfu Hlt; [lia|]. cbn [fbo_format_loop].
  assert (fbo_job_busy st j = true) as Hb by (unfold fbo_job_busy; by apply Z.ltb_lt). rewrite Hb.
  pose proof J as [J1 J2 (k0 & J3 & J4)].
  destruct (fbo_format_round_spec sys st f j W H32 J Hb) as
    (st1 & S1 & [[(o & l & Hl & Hn) _]|(k & j' & Hk & -> & J' & Hd & Ho)]); cbn [mbind option_bind].
  { rewrite Hc in Hn by lia. lia. }
  destruct (same_but_progress_fields _ _ S1) as (N1 & N2 & _).
  assert (0 < round_blocks st j) as Hr.
  { unfold round_blocks. rewrite J3, Z.div_mul by lia. lia. }
  rewrite Hc, Z.min_id in Hk by lia.
  assert (round_file f (fj_offset j) k = zeros (Z.to_nat (fj_offset j')) ++ drop (Z.to_nat (fj_offset j')) f) as E.
  { rewrite round_file_zeros; [|lia|lia|].
    - by replace (Z.to_nat (fj_offset j) + k)%nat with (Z.to_nat (fj_offset j')) by lia.
    - destruct Hz as [H0|Hz]; [by rewrite J2, H0|]. rewrite Hz at 1.
      assert (Z.to_nat (fj_offset j) <= length f)%nat.
      { rewrite Hz, length_app, length_zeros. lia. }
      rewrite take_app_le, take_ge by (rewrite length_zeros; lia). f_equal. lia. }
  rewrite E. set (f1 := _ ++ _). pose proof J' as [J1' J2' _].
  assert (fbo_bytes st1 = fbo_bytes st) as Hbytes by (unfold fbo_bytes; by rewrite N1).
  assert (fbo_wf st1) as W' by (destruct W; by split; rewrite ?N1, ?N2).
  assert (length f1 <= fbo_bytes st)%nat as Hf1.
  { unfold f1. rewrite length_app, length_zeros, length_drop. unfold fbo_bytes in *. lia. }
  destruct (decide (fj_done j' = fb_num_lbas st)) as [Hend|Hmore].
  - exists st1. destruct fuel; cbn [fbo_format_loop]; unfold fbo_job_busy;
      rewrite (proj2 (Z.ltb_ge _ _)) by lia; unfold f1; rewrite J2', Hend, drop_ge, app_nil_r;
      solve [done|unfold fbo_bytes in *; lia].
  - destruct (IH st1 f1 j' Hc W') as [st' E2]; rewrite ?N1, ?Hbytes; try done; try lia.
    + destruct J'. by split; rewrite ?N1.
    + right. unfold f1. by rewrite drop_app_length' by (by rewrite length_zeros).
    + rewrite Hbytes in E2. by exists st'.
Qed.
End loop.

(** ** FORMAT UNIT *)

(** How FORMAT UNIT ends: refused, started in the background, stopped for lack
    of memory with the flag set, or formatted. *)
Inductive format_outcome (e : fbo_env) (s s' : fcmd) (rc : tcmu_sts) : Prop :=
| FmtRefused :
    fc_st s' = fc_st s -> fc_file s' = fc_file s -> fc_thr s' = fc_thr s -> rc <> TCMU_STS_OK ->
    format_outcome e s s' rc
| FmtStarted :
    fb_has (fc_st s) FBO_FORMATTING = false -> rc = TCMU_STS_OK ->
    fc_st s' = fb_on (fb_set_progress (fc_st s) 0) FBO_FORMATTING -> fc_file s' = fc_file s ->
    fc_thr s' = fc_thr s ++ (if fe_thread e then [FormatThread] else []) ->
    format_outcome e s s' rc
| FmtNoMemory :
    fb_has (fc_st s) FBO_FORMATTING = false -> fe_malloc e = false -> rc = TCMU_STS_NO_RESOURCE ->
    fc_st s' = fb_on (fb_set_progress (fc_st s) 0) FBO_FORMATTING -> fc_file s' = fc_file s ->
    fc_thr s' = fc_thr s -> format_outcome e s s' rc
| FmtDone st1 :
    fb_has (fc_st s) FBO_FORMATTING = false -> fe_malloc e = true ->
    rc = TCMU_STS_OK \/ rc = TCMU_STS_WR_ERR ->
    same_but_progress (fb_on (fb_set_progress (fc_st s) 0) FBO_FORMATTING) st1 ->
    fc_st s' = fb_off st1 FBO_FORMATTING -> fc_thr s' = fc_thr s ->
    (fbo_file_ok s -> fbo_file_ok s') ->
    ((forall o n, 0 <= n -> pwritev_ret (fe_sys e) o n = n) -> fbo_file_ok s ->
       rc = TCMU_STS_OK /\ fc_file s' = zeros (fbo_bytes (fc_st s))) ->
    format_outcome e s s' rc.

Lemma fbo_do_format_spec e st f :
  fbo_wf st -> fb_num_lbas st < 2 ^ 32 -> fe_malloc e = true ->
  exists st' f' rc, fbo_do_format e st f = Some (fb_off st' FBO_FORMATTING, f', rc) /\
    same_but_progress st st' /\ (rc = TCMU_STS_OK \/ rc = TCMU_STS_WR_ERR) /\
    ((length f <= fbo_bytes st)%nat -> (length f' <= fbo_bytes st)%nat) /\
    ((forall o n, 0 <= n -> pwritev_ret (fe_sys e) o n = n) -> (length f <= fbo_bytes st)%nat ->
       rc = TCMU_STS_OK /\ f' = zeros (fbo_bytes st)).
Proof.
  intros W H32 Hm. unfold fbo_do_format. rewrite Hm. cbn [negb].
  destruct (fbo_format_loop_total (fe_sys e) (Z.to_nat (fb_num_lbas st)) st f fbo_job0 W H32 (job0_ok st W))
    as (st' & f' & rc & E & S & Hrc & Hlen); [cbn; lia|].
  rewrite E. cbn [mbind option_bind]. exists st', f', rc. split; [done|]. split; [done|]. split; [done|].
  split; [done|]. intros Hc Hf. destruct (decide (fb_num_lbas st = 0)) as [E0|E0].
  - assert (fbo_job_busy st fbo_job0 = false) as Hb by (unfold fbo_job_busy; by rewrite E0).
    rewrite E0 in E. change (Z.to_nat 0) with 0%nat in E. cbn [fbo_format_loop] in E. rewrite Hb in E. injection E as <- <- <-.
    split; [done|]. unfold fbo_bytes in *. rewrite E0 in *. cbn in *. by destruct f; [|cbn in Hf; lia].
  - pose proof (fw_lbas _ W).
    destruct (fbo_format_loop_zeros (fe_sys e) (Z.to_nat (fb_num_lbas st)) st f fbo_job0 Hc) as [st2 E2];
      try done; try (cbn; lia); [by apply job0_ok|].
    rewrite E in E2. by simplify_eq.
Qed.

Lemma get_be16_ok l off : (off + 2 <= length l)%nat -> exists v, get_unaligned_be16 l off = Some v.
Proof.
  intros Hl. unfold get_unaligned_be16, bget1.
  destruct (lookup_lt_is_Some_2 l off) as [a ->]; [lia|].
  destruct (lookup_lt_is_Some_2 l (off + 1)) as [b ->]; [lia|]. cbn. by eexists.
Qed.

Lemma fbo_format_params_total st cdb pl :
  length pl = 12%nat -> exists rc, fbo_format_params st cdb pl = Some rc.
Proof.
  intros L. unfold fbo_format_params.
  destruct (get_be16_ok pl 2) as [a ->]; [lia|]. destruct (get_be16_ok pl 4) as [b ->]; [lia|].
  destruct (get_be16_ok pl 10) as [c ->]; [lia|]. cbn. by eexists.
Qed.

(** The parameter list as the command reads it. *)
Lemma fbo_param_list m iov g :
  gather m iov = Some g -> exists pl iov' n,
    tcmu_memcpy_from_iovec m (zeros 12) 12 iov (Z.of_nat (length iov)) = Some (pl, iov', n) /\
    length pl = 12%nat /\ n = Z.min 12 (Z.of_nat (length g)) /\ (12 <= n -> pl = take 12 g).
Proof.
  intros Hg. unfold tcmu_memcpy_from_iovec.
  destruct (memcpy_from_loop_spec iov m g (zeros 12) 12 0 Hg) as (iov' & E & _); [lia|lia|rewrite length_zeros; lia|].
  rewrite E. pose proof (gather_length _ _ _ Hg) as L. rewrite <- L. eexists _, _, _. split; [reflexivity|].
  unfold min_nat. change (Z.to_nat 0) with 0%nat. rewrite take_0, app_nil_l, Nat.add_0_l.
  split; [rewrite length_app, length_take, length_drop, length_zeros; lia|]. split; [lia|]. intros Hn. rewrite drop_ge, app_nil_r by (rewrite length_zeros; lia).
  f_equal. lia.
Qed.

Lemma fbo_format_unit_cases e cdb s g :
  gather (fc_mem s) (fc_iov s) = Some g -> (18 <= length (fc_sense s))%nat ->
  fbo_wf (fc_st s) -> fb_num_lbas (fc_st s) < 2 ^ 32 ->
  exists s' rc, fbo_emulate_format_unit e cdb s = Some (s', rc) /\ format_outcome e s s' rc.
Proof.
  intros Hg Hse W H32. unfold fbo_emulate_format_unit. cbv zeta.
  case_if; [eexists _, _; split; [done|by apply FmtRefused]|].
  case_if; [eexists _, _; split; [done|by apply FmtRefused]|].
  destruct (fbo_param_list _ _ _ Hg) as (pl & iov' & n & -> & Lp & Hn & _). cbn [mbind option_bind].
  case_if; [eexists _, _; split; [done|by apply FmtRefused]|].
  destruct (fbo_format_params_total (fc_st s) cdb pl Lp) as [rc ->]. cbn [mbind option_bind].
  destruct (negb (sts_ok rc)) eqn:Er.
  { zbool. apply sts_ok_false in Er. eexists _, _; split; [done|by apply FmtRefused]. }
  destruct (fb_has (fc_st s) FBO_FORMATTING) eqn:Hfm.
  { cbn [fc_sense fc_set_mem]. destruct (format_sense_some (fc_sense s) (u16 (fb_format_progress (fc_st s))) Hse) as [se ->].
    cbn. eexists _, _; split; [done|by apply FmtRefused]. }
  case_if.
  { eexists _, _. split; [done|]. apply FmtStarted; try done; destruct (fe_thread e); cbn; rewrite ?app_nil_r; done. }
  destruct (fe_malloc e) eqn:Hm.
  - destruct (fbo_do_format_spec e (fb_on (fb_set_progress (fc_st s) 0) FBO_FORMATTING) (fc_file s))
      as (st' & f' & rc2 & E & S & Hrc & Hlen & Hz); try done; [by destruct W; split|].
    cbn [fc_st fc_file fc_set_st fc_set_mem]. rewrite E. cbn [mbind option_bind].
    pose proof (same_but_progress_fields _ _ S) as (N1 & _).
    eexists _, _. split; [done|]. apply (FmtDone _ _ _ _ st'); try done.
    unfold fbo_file_ok, fbo_bytes in *. cbn. rewrite N1. exact Hlen.
  - unfold fbo_do_format. rewrite Hm. cbn. eexists _, _. split; [done|]. by apply FmtNoMemory.
Qed.

(** A FORMAT UNIT whose parameter list is accepted, without the immediate bit. *)
Lemma fbo_format_unit_accepted e cdb s g :
  gather (fc_mem s) (fc_iov s) = Some g -> 12 <= Z.of_nat (length g) ->
  fb_has (fc_st s) FBO_READ_ONLY = false -> fb_has (fc_st s) FBO_FORMATTING = false ->
  Z.land (byte_at cdb 1) 0x10 <> 0 -> Z.land (byte_at cdb 1) 0x07 = 1 -> byte_at cdb 3 = 0 -> byte_at cdb 4 = 0 ->
  fbo_format_params (fc_st s) cdb (take 12 g) = Some TCMU_STS_OK -> Z.land (byte_at (take 12 g) 1) 0x02 = 0 ->
  exists iov',
    fbo_emulate_format_unit e cdb s =
      '(st, f, rc) ← fbo_do_format e (fb_on (fb_set_progress (fc_st s) 0) FBO_FORMATTING) (fc_file s);
      Some (fc_set_file (fc_set_st (fc_set_mem s (fc_mem s) iov') st) f, rc).
Proof.
  intros Hg Hl Hro Hfm B1 B2 B3 B4 Hp Hi. unfold fbo_emulate_format_unit. cbv zeta.
  rewrite Hro, (proj2 (Z.eqb_neq _ _) B1), B2, B3, B4. cbn [Z.eqb Pos.eqb negb orb].
  destruct (fbo_param_list _ _ _ Hg) as (pl & iov' & n & -> & Lp & Hn & Hpl). cbn [mbind option_bind].
  rewrite (proj2 (Z.ltb_ge _ _)) by lia. rewrite (Hpl ltac:(lia)), Hp. cbn [mbind option_bind].
  unfold sts_ok. rewrite bool_decide_eq_true_2 by done. cbn [negb]. rewrite Hfm, Hi. cbn [Z.eqb negb].
  by exists iov'.
Qed.


(** A drive that just opened, and the parameter list for it with the bit that
    skips the number of blocks. *)
Definition full_sys : file_sys := FSys (fun _ n => n) (fun _ n => n) 0.
Definition format_cmd : fcmd :=
  FCmd (Fbo 3 2048 0 0 0 2 0) [1; 2; 3] {[ 0%nat := [0; 0xa0; 0; 8; 0; 0; 3; 232; 0; 0; 8; 0] ]} [Iov (Ptr 0 0) 12] (zeros 18) [].


(** ** The capacity that is refused *)

(** The two descriptors of a writable drive. *)
Lemma fbo_capacities_bytes st :
  fb_has st FBO_READ_ONLY = false ->
  let v := u32 (fb_num_lbas st) in
  let b1 := u8 (Z.land (Z.shiftr (fb_block_size st) 16) 0xff) in
  let b2 := u16 (Z.land (fb_block_size st) 0xffff) in
  fbo_format_capacities st =
    Some ([0; 0; 0; 16] ++ be_enc 4 v ++ [2; b1; u8 (Z.shiftr b2 8); u8 b2]
          ++ be_enc 4 v ++ [0; b1; u8 (Z.shiftr b2 8); u8 b2], 20).
Proof.
  intros Hro. cbv zeta. unfold fbo_format_capacities. rewrite Hro, be_enc_4 by apply u32_bound. cbv zeta.
  unfold put_unaligned_be32, put_unaligned_be16, bset1. cbn [zeros replicate Nat.add]. bset_run.
  unfold bget. rewrite decide_True by (cbn; lia). cbn [take drop mbind option_bind].
  rewrite (bset_take_drop _ _ 12 8) by (cbn; lia).
  cbn [take drop app length Nat.add mbind option_bind]. bset_run. reflexivity.
Qed.

(** FORMAT UNIT compares the number of blocks of the parameter list's
    descriptor with 16 bits of it, the high ones: an initiator that sends back
    the formattable capacity that READ FORMAT CAPACITIES reports is refused, on
    every drive with at least one block and fewer than 2^32. *)
Theorem fbo_format_rejects_reported_capacity (e : fbo_env) (s : fcmd) (cdb g cap : list Z) (used opts : Z)
  (Hop : byte_at cdb 0 = FORMAT_UNIT) (Hb1 : Z.land (byte_at cdb 1) 0x10 <> 0)
  (Hb2 : Z.land (byte_at cdb 1) 0x07 = 1) (Hb3 : byte_at cdb 3 = 0) (Hb4 : byte_at cdb 4 = 0)
  (Hn : 0 < fb_num_lbas (fc_st s) < 2 ^ 32) (Hsz : fb_block_size (fc_st s) = 2048)
  (Hro : fb_has (fc_st s) FBO_READ_ONLY = false) (Hfm : fb_has (fc_st s) FBO_FORMATTING = false)
  (Hcap : fbo_format_capacities (fc_st s) = Some (cap, used))
  (Hopts : opts = 0 \/ opts = 0x02 \/ opts = 0x80 \/ opts = 0x82)
  (Hg : gather (fc_mem s) (fc_iov s) = Some g)
  (Hgl : g = [0; opts; 0; 8] ++ take 8 (drop 12 cap)) :
  exists s', fbo_work e cdb s = Some (s', [TCMU_STS_INVALID_PARAM_LIST]) /\ fc_file s' = fc_file s.
Proof.
  rewrite (fbo_capacities_bytes _ Hro) in Hcap. simplify_eq.
  set (b1 := u8 (Z.land _ 0xff)) in *. set (b2 := u16 _) in *.
  rewrite u32_small in Hg by lia. rewrite be_enc_4 in Hg by lia. cbn [app take drop] in Hg.
  set (v := fb_num_lbas (fc_st s)) in *.
  unfold fbo_work, fbo_handle_cmd. rewrite Hfm, Hop. cbn [andb]. change (FORMAT_UNIT =? READ_CAPACITY) with false.
  cbn [andb]. unfold fbo_switch. rewrite Hop. cbn [Z.eqb Pos.eqb TEST_UNIT_READY REQUEST_SENSE FORMAT_UNIT].
  unfold fbo_emulate_format_unit. cbv zeta. rewrite Hro, (proj2 (Z.eqb_neq _ _) Hb1), Hb2, Hb3, Hb4.
  cbn [Z.eqb Pos.eqb negb orb].
  destruct (fbo_param_list _ _ _ Hg) as (pl & iov' & n & -> & Lp & Hn2 & Hpl). cbn [mbind option_bind].
  cbn [length] in Hn2. rewrite (proj2 (Z.ltb_ge _ _)) by lia. rewrite (Hpl ltac:(lia)). cbn [take].
  assert (fbo_format_params (fc_st s) cdb
            [0; opts; 0; 8; u8 (Z.shiftr v 24); u8 (Z.shiftr v 16); u8 (Z.shiftr v 8); u8 v; 0; b1;
             u8 (Z.shiftr b2 8); u8 b2] = Some TCMU_STS_INVALID_PARAM_LIST) as ->.
  2:{ cbn. by eexists. }
  unfold fbo_format_params, get_unaligned_be16, bget1. cbn [lookup list_lookup Nat.add mbind option_bind byte_at nth].
  f_equal.
  assert (u16 (Z.lor (Z.shiftl (u8 (Z.shiftr v 24)) 8) (u8 (Z.shiftr v 16))) =? v = false) as Hbl.
  { apply Z.eqb_neq. rewrite lor_shiftl_low by (try lia; apply u8_bound). unfold u16, u8, wrap.
    rewrite !Z.shiftr_div_pow2 by lia. dlia. }
  change (fb_num_lbas (fc_st s)) with v. rewrite Hbl.
  destruct Hopts as [-> |[-> |[-> | ->]]]; cbn [Z.land Z.eqb negb andb Pos.land Pos.eqb]; rewrite ?orb_true_r;
    cbn [negb andb]; repeat case_if; done.
Qed.

Lemma fbo_format_rejects_reported_capacity_witness :
  exists s', fbo_work (FEnv full_sys true true []) [0x04; 0x11; 0; 0; 0; 0]
    (FCmd demo_fbo [] {[ 0%nat := [0; 0; 0; 8; 0; 0; 3; 232; 0; 0; 8; 0] ]} [Iov (Ptr 0 0) 12] (zeros 18) []) =
      Some (s', [TCMU_STS_INVALID_PARAM_LIST]) /\ fc_file s' = [].
Proof.
  apply (fbo_format_rejects_reported_capacity (FEnv full_sys true true [])
    (FCmd demo_fbo [] {[ 0%nat := [0; 0; 0; 8; 0; 0; 3; 232; 0; 0; 8; 0] ]} [Iov (Ptr 0 0) 12] (zeros 18) [])
    [0x04; 0x11; 0; 0; 0; 0] [0; 0; 0; 8; 0; 0; 3; 232; 0; 0; 8; 0]
    [0; 0; 0; 16; 0; 0; 3; 232; 2; 0; 8; 0; 0; 0; 3; 232; 0; 0; 8; 0] 20 0);
    try reflexivity; try (cbn; lia); try discriminate.
Defined.
