(* ===== verification/OpticalAll.v ===== *)
(** * The optical handler: every command

    Each command of [fbo_handle_cmd] returns and is completed exactly once, and
    what it may change of the drive. *)

From S2P Require Import Prelude Scsi Iovec Sense Device Inquiry Mode Backstore FileBack Optical OpticalCfg OpticalIo OpticalThm OpticalFmt.

(** ** What commands leave alone *)

Definition FBO_TRANSIENT : Z := Z.lor FBO_DEV_IO FBO_PREV_EJECT.

(** All but the address of the last transfer and the flags for a transfer and
    for ejecting. *)
Definition st_keep (st st' : fbo_state) : Prop :=
  fb_num_lbas st' = fb_num_lbas st /\ fb_block_size st' = fb_block_size st /\
  fb_format_progress st' = fb_format_progress st /\
  fb_event_op_ch_code st' = fb_event_op_ch_code st /\
  fb_async_cache_count st' = fb_async_cache_count st /\
  forall g, Z.land FBO_TRANSIENT g = 0 -> fb_has st' g = fb_has st g.

Lemma st_keep_refl st : st_keep st st.
Proof. unfold st_keep. by split_and!. Qed.

Lemma st_io_keep st st' : st_io st st' -> st_keep st st'.
Proof.
  intros (A1 & A2 & A3 & A4 & A5 & A6). unfold st_keep. split_and!; try done. intros g Hg. apply A6.
  unfold FBO_TRANSIENT in Hg. rewrite Z.land_lor_distr_l in Hg. by apply Z.lor_eq_0_iff in Hg as [? _].
Qed.

(** A command that only answers. *)
Record keeps (s s' : fcmd) : Prop := {
  kp_st : st_keep (fc_st s) (fc_st s');
  kp_file : fc_file s' = fc_file s;
  kp_thr : fc_thr s' = fc_thr s
}.

Lemma keeps_refl s : keeps s s.
Proof. split; [apply st_keep_refl|done|done]. Qed.

(** The buffers of a command. *)
Record fbo_buffers (s : fcmd) : Prop := {
  fu_gather : exists g, gather (fc_mem s) (fc_iov s) = Some g;
  fu_disj : iov_disj (fc_iov s);
  fu_sense : (18 <= length (fc_sense s))%nat
}.

Definition answers (s : fcmd) (r : fresult) : Prop := exists s' rc, r = Some (s', rc) /\ keeps s s'.

Lemma answers_now s rc : answers s (Some (s, rc)).
Proof. exists s, rc. split; [done|apply keeps_refl]. Qed.

Lemma fsend_total s buf len :
  fbo_buffers s -> 0 <= len <= Z.of_nat (length buf) ->
  exists m iov, fsend s buf len = Some (fc_set_mem s m iov, TCMU_STS_OK).
Proof.
  intros [[g Hg] Hd _] Hl. unfold fsend, tcmu_memcpy_into_iovec.
  destruct (memcpy_into_loop_spec (fc_iov s) (fc_mem s) g buf len 0 Hg Hd) as (m & iov & -> & _); try lia.
  cbn. by exists m, iov.
Qed.

Lemma answers_send s buf len :
  fbo_buffers s -> 0 <= len <= Z.of_nat (length buf) -> answers s (fsend s buf len).
Proof.
  intros Hb Hl. destruct (fsend_total s buf len Hb Hl) as (m & iov & ->). eexists _, _. split; [done|].
  split; [apply st_keep_refl|done|done].
Qed.

Lemma answers_page s page buf len :
  fbo_buffers s -> page = Some buf -> 0 <= len <= Z.of_nat (length buf) -> answers s (fsend_page s page len).
Proof. intros Hb -> Hl. by apply answers_send. Qed.

#[export] Hint Resolve answers_now : lio.

(** A chain of stores into a buffer that is long enough succeeds and keeps the
    length. *)
Definition stored (n : nat) (r : option (list Z)) : Prop := exists b, r = Some b /\ length b = n.

Lemma stored_zeros n : stored n (Some (zeros n)).
Proof. exists (zeros n). split; [done|apply length_zeros]. Qed.

Lemma stored_bind n r (k : list Z -> option (list Z)) :
  stored n r -> (forall b, length b = n -> stored n (k b)) -> stored n (b ← r; k b).
Proof. intros (b & -> & Hb) Hk. cbn. by apply Hk. Qed.

Lemma stored_some n b : length b = n -> stored n (Some b).
Proof. intros Hb. by exists b. Qed.

Lemma stored_bset n b off bs : length b = n -> (off + length bs <= n)%nat -> stored n (bset b off bs).
Proof.
  intros Hb Hl. destruct (bset_is_Some b off bs) as [b' E]; [lia|]. exists b'. split; [done|].
  rewrite <- Hb. by eapply bset_length.
Qed.

Lemma stored_bset1 n b off v : length b = n -> (off < n)%nat -> stored n (bset1 b off v).
Proof. intros Hb Hl. apply stored_bset; [done|cbn; lia]. Qed.

Lemma stored_be16 n v b off : length b = n -> (off + 2 <= n)%nat -> stored n (put_unaligned_be16 v b off).
Proof.
  intros Hb Hl. unfold put_unaligned_be16. apply stored_bind; [apply stored_bset1; lia|].
  intros b' Hb'. apply stored_bset1; lia.
Qed.

Lemma stored_be32 n v b off : length b = n -> (off + 4 <= n)%nat -> stored n (put_unaligned_be32 v b off).
Proof.
  intros Hb Hl. unfold put_unaligned_be32.
  repeat (apply stored_bind; [apply stored_bset1; lia|intros ? ?]). apply stored_bset1; lia.
Qed.

Lemma stored_if n (c : bool) r1 r2 : stored n r1 -> stored n r2 -> stored n (if c then r1 else r2).
Proof. by destruct c. Qed.

(** The next store of one byte. *)
Ltac step_bset1 b L :=
  lazymatch goal with
  | |- context [bset1 ?x ?off ?v] =>
      destruct (stored_bset1 (length x) x off v eq_refl) as (b & -> & L); [lia|];
      cbn [mbind option_bind]
  end.

(** Follows the stores of a buffer. *)
Ltac stores :=
  cbv zeta;
  repeat lazymatch goal with
  | |- stored _ (if ?c then ?r1 else ?r2) => apply (stored_if _ c r1 r2)
  | |- stored _ (bset1 ?b ?off ?v) => apply (stored_bset1 _ b off v); [assumption || apply length_zeros|lia]
  | |- stored _ (put_unaligned_be16 ?v ?b ?off) =>
      apply (stored_be16 _ v b off); [assumption || apply length_zeros|lia]
  | |- stored _ (put_unaligned_be32 ?v ?b ?off) =>
      apply (stored_be32 _ v b off); [assumption || apply length_zeros|lia]
  | |- stored _ (bset ?b ?off ?l) => apply (stored_bset _ b off l); [assumption || apply length_zeros|cbn; lia]
  | |- stored _ (Some ?b) => apply (stored_some _ b); assumption || apply length_zeros
  | |- stored _ (mbind _ ?r) => apply (stored_bind _ r); [|intros ? ?]
  end.

Lemma answers_stored s page n len :
  fbo_buffers s -> stored n page -> 0 <= len <= Z.of_nat n -> answers s (fsend_page s page len).
Proof. intros Hb (b & E & L) Hl. eapply answers_page; [done|exact E|lia]. Qed.

(** A page that is one buffer of [n] bytes; its stores are left. *)
Ltac page_answer Hb n :=
  lazymatch goal with
  | |- answers ?s (fsend_page ?s ?page ?len) => apply (answers_stored s page n len Hb); [|cbn; lia]
  end.

(** ** The answers *)

Lemma fbo_inquiry_answers cdb s : fbo_buffers s -> answers s (fbo_emulate_inquiry cdb s).
Proof.
  intros Hb. unfold fbo_emulate_inquiry. case_if; [auto with lio|].
  apply (answers_stored s _ 36 _ Hb); [|lia]. unfold fbo_inquiry_data. stores.
Qed.

Lemma fbo_request_sense_answers cdb s : fbo_buffers s -> answers s (fbo_emulate_request_sense cdb s).
Proof.
  intros Hb. unfold fbo_emulate_request_sense. case_if; [auto with lio|].
  apply (answers_stored s _ 18 _ Hb); [|lia]. unfold fbo_request_sense_data. stores.
Qed.

Lemma fbo_read_toc_answers cdb s : fbo_buffers s -> answers s (fbo_emulate_read_toc cdb s).
Proof.
  intros Hb. unfold fbo_emulate_read_toc. cbv zeta.
  case_if; [page_answer Hb 512%nat; unfold fbo_toc_formatted; stores|].
  case_if; [page_answer Hb 512%nat; unfold fbo_toc_sessions; stores|auto with lio].
Qed.

Lemma fbo_configuration_answers cdb s : fbo_buffers s -> answers s (fbo_emulate_get_configuration cdb s).
Proof.
  intros Hb. unfold fbo_emulate_get_configuration. case_if; [auto with lio|].
  destruct (fbo_configuration_response (fc_st s) (Z.land (byte_at cdb 1) 0x03) (be_at cdb 2 2)) as [tail ->].
  cbn [mbind option_bind]. apply answers_send; [done|].
  pose proof (sum_filter_bound _ (feature_selected (Z.land (byte_at cdb 1) 0x03) (be_at cdb 2 2))
                (fbo_features_ok (fc_st s))).
  rewrite !length_app, !be_enc_length, !Nat2Z.inj_add, concat_length; [cbn [length]; lia|].
  pose proof (fbo_features_ok (fc_st s)) as Hok. rewrite Forall_forall in Hok |- *.
  intros f Hf%list_elem_of_In%filter_In. apply Hok, list_elem_of_In. tauto.
Qed.

Lemma fbo_disc_answers s : fbo_buffers s -> answers s (fbo_emulate_read_disc_information s).
Proof.
  intros Hb. apply (answers_stored s _ 34 _ Hb); [|lia]. unfold fbo_disc_information. stores.
Qed.

Lemma fbo_dvd_answers cdb s : fbo_buffers s -> answers s (fbo_emulate_read_dvd_structure cdb s).
Proof.
  intros Hb. unfold fbo_emulate_read_dvd_structure. cbv zeta.
  case_if; [auto with lio|]. case_if; [page_answer Hb 512%nat; unfold dvd_physical; stores|].
  case_if; [page_answer Hb 512%nat; stores|]. case_if; [page_answer Hb 512%nat; unfold dvd_manufact; stores|].
  case_if; [case_if; [auto with lio|page_answer Hb 512%nat; stores]|].
  case_if; [page_answer Hb 512%nat; unfold dvd_capabilities; stores|auto with lio].
Qed.

Lemma fbo_mechanism_answers s : fbo_buffers s -> answers s (fbo_emulate_mechanism_status s).
Proof.
  intros Hb. apply (answers_stored s _ 8 _ Hb); [|lia]. unfold fbo_mechanism_data. stores.
Qed.

Lemma fbo_capacities_answers s : fbo_buffers s -> answers s (fbo_emulate_read_format_capacities s).
Proof.
  intros Hb. unfold fbo_emulate_read_format_capacities.
  assert (exists b u, fbo_format_capacities (fc_st s) = Some (b, u) /\ 0 <= u <= Z.of_nat (length b)) as (b & u & -> & Hu).
  { unfold fbo_format_capacities. cbv zeta.
    destruct (stored_be32 20 (u32 (fb_num_lbas (fc_st s))) (zeros 20) 4) as (b1 & -> & L1);
      [by rewrite length_zeros|lia|]; cbn [mbind option_bind].
    step_bset1 b2 L2. step_bset1 b3 L3.
    destruct (stored_be16 20 (u16 (Z.land (fb_block_size (fc_st s)) 0xffff)) b3 10) as (b4 & -> & L4);
      [lia|lia|]; cbn [mbind option_bind].
    destruct (fb_has (fc_st s) FBO_READ_ONLY); cbn [mbind option_bind].
    - step_bset1 b5 L5. exists b5, 12. split; [done|lia].
    - destruct (bget_is_Some b4 4 8) as [d Ed]; [lia|]. rewrite Ed. cbn [mbind option_bind].
      destruct (stored_bset 20 b4 12 d L4) as (b5 & -> & L5); [rewrite (bget_length _ _ _ _ Ed); lia|].
      cbn [mbind option_bind]. step_bset1 b6 L6. step_bset1 b7 L7. exists b7, 20. split; [done|lia]. }
  cbn [mbind option_bind]. by apply answers_send.
Qed.

Lemma fbo_allow_answers cdb s : answers s (fbo_emulate_allow_medium_removal cdb s).
Proof.
  eexists _, _. split; [reflexivity|]. split; [|done|done]. cbn.
  destruct (negb _); unfold st_keep; cbn [fb_on fb_off fb_set_flags fb_num_lbas fb_block_size fb_format_progress
    fb_event_op_ch_code fb_async_cache_count]; split_and!; try done; intros g Hg;
    unfold FBO_TRANSIENT in Hg; rewrite Z.land_lor_distr_l in Hg; apply Z.lor_eq_0_iff in Hg as [_ Hg].
  - by apply fb_has_on_other.
  - by apply fb_has_off_other.
Qed.

(** ** Mode pages *)

(** What a page routine does: it refuses a short buffer, or adds ten or twelve
    bytes inside it. *)
Definition page_adds (get : page_fn) : Prop :=
  forall buf off pc, length buf = 512%nat -> (off <= 512)%nat ->
  exists b ret, get buf off pc = Some (b, ret) /\ length b = 512%nat /\
    (ret = -1 \/ 10 <= ret /\ Z.of_nat off + ret <= 512).

Lemma stored_pair n r (ret : Z) :
  stored n r -> exists b, (b ← r; Some (b, ret)) = Some (b, ret) /\ length b = n.
Proof. intros (b & -> & L). by exists b. Qed.

Lemma fbo_pages_add : Forall (fun h => page_adds (snd h)) fbo_modesense_handlers.
Proof.
  unfold fbo_modesense_handlers, fbo_handle_rwerp_page, fbo_handle_cache_page, fbo_handle_timeout_page.
  repeat constructor; cbn [snd]; intros buf off pc L Ho; rewrite L;
    (case_if; [eexists _, _; split; [done|]; split; [done|by left]|]);
    match goal with H : (_ <? _)%nat = false |- _ => apply Nat.ltb_ge in H end;
    step_bset1 b1 L1; step_bset1 b2 L2.
  - destruct (pc =? 1); cbn [mbind option_bind]; [|step_bset1 b3 L3; step_bset1 b4 L4];
      eexists _, _; (split; [done|]); split; [lia|right; lia|lia|right; lia].
  - destruct (pc =? 1); cbn [mbind option_bind]; [|step_bset1 b3 L3];
      eexists _, _; (split; [done|]); split; [lia|right; lia|lia|right; lia].
  - destruct (pc =? 1); cbn [mbind option_bind];
      [|step_bset1 b3 L3; step_bset1 b4 L4; step_bset1 b5 L5; step_bset1 b6 L6];
      eexists _, _; (split; [done|]); split; [lia|right; lia|lia|right; lia].
Qed.

Lemma find_fbo_page_adds page_code get : find_fbo_page page_code = Some get -> page_adds get.
Proof.
  unfold find_fbo_page. destruct (List.find _ _) as [[p h]|] eqn:E; intros [= <-].
  apply find_some in E as [Hin _]. pose proof fbo_pages_add as H. rewrite Forall_forall in H.
  apply (H (p, h)), list_elem_of_In, Hin.
Qed.

Lemma fbo_sense_all_total hs : forall buf used alloc pc,
  Forall (fun h => page_adds (snd h)) hs -> length buf = 512%nat -> 0 <= used <= 512 ->
  exists b u, fbo_sense_all hs buf used alloc pc = Some (b, u) /\ length b = 512%nat /\ used <= u <= 512.
Proof.
  induction hs as [|[p get] hs IH]; intros buf used alloc pc Hh L Hu; cbn [fbo_sense_all].
  { exists buf, used. split; [done|]. split; [done|lia]. }
  inversion Hh as [|? ? Hget Hhs]; subst. cbn in Hget.
  destruct (Hget buf (Z.to_nat used) pc L ltac:(lia)) as (b & ret & -> & Lb & Hr). cbn [mbind option_bind].
  case_if; [exists b, used; split; [done|]; split; [done|lia]|].
  case_if; [exists b, used; split; [done|]; split; [done|lia]|].
  destruct (IH b (used + ret) alloc pc Hhs Lb ltac:(lia)) as (b2 & u & -> & Lb2 & Hu2).
  exists b2, u. split; [done|]. split; [done|lia].
Qed.

Lemma fbo_mode_sense_data_total cdb alloc :
  exists x, fbo_mode_sense_data cdb alloc = Some x /\
  match x with None => True | Some (b, u) => length b = 512%nat /\ 0 <= u <= 512 end.
Proof.
  unfold fbo_mode_sense_data. cbv zeta. set (pc := Z.land (Z.shiftr _ 6) 3).
  set (ten := byte_at cdb 0 =? MODE_SENSE_10).
  set (used := if ten then 8 else 4). assert (4 <= used <= 8) as Hu by (unfold used; destruct ten; lia).
  assert (forall b u, length b = 512%nat -> 0 <= u <= 512 ->
    exists x, (buf ← (if ten then bset b 0 (be_enc 2 (u16 (u - 2))) else bset1 b 0 (u - 1)); Some (Some (buf, u))) = Some x /\
    match x with None => True | Some (b, u) => length b = 512%nat /\ 0 <= u <= 512 end) as Hfin.
  { intros b u Lb Hb.
    assert (stored 512 (if ten then bset b 0 (be_enc 2 (u16 (u - 2))) else bset1 b 0 (u - 1))) as (b2 & -> & L2).
    { destruct ten; [apply stored_bset|apply stored_bset1]; rewrite ?be_enc_length; lia. }
    cbn. eexists. split; [done|]. split; [done|lia]. }
  pose proof (length_zeros 512) as L0.
  destruct (negb _); cbn [mbind option_bind]; [|by apply Hfin; [|lia]].
  destruct (_ =? 0x3f).
  - destruct (fbo_sense_all_total fbo_modesense_handlers (zeros 512) used alloc pc fbo_pages_add L0 ltac:(lia))
      as (b & u & -> & Lb & Hb). cbn [mbind option_bind]. apply Hfin; [done|lia].
  - destruct (find_fbo_page _) as [get|] eqn:Ef; cbn [mbind option_bind]; [|by exists None].
    destruct (find_fbo_page_adds _ _ Ef (zeros 512) (Z.to_nat used) pc L0 ltac:(lia)) as (b & ret & -> & Lb & Hr).
    cbn [mbind option_bind]. case_if; [by exists None|]. apply Hfin; [done|lia].
Qed.

Lemma fbo_mode_sense_answers cdb alloc s :
  fbo_buffers s -> tcmu_get_xfer_length cdb = Some alloc -> answers s (fbo_emulate_mode_sense cdb s).
Proof.
  intros Hb Hx. unfold fbo_emulate_mode_sense. rewrite Hx. cbn [mbind option_bind]. case_if; [auto with lio|].
  destruct (fbo_mode_sense_data_total cdb alloc) as (x & -> & Hs). cbn [mbind option_bind].
  destruct x as [[b u]|]; [|auto with lio]. apply answers_send; [done|lia].
Qed.

Lemma fbo_select_loop_total fuel : forall buf in_buf used alloc,
  length buf = 512%nat -> length in_buf = 512%nat -> 0 <= used -> used <= 512 -> alloc <= 512 ->
  (alloc - used < 10 * Z.of_nat fuel) -> exists rc, fbo_select_loop fuel buf in_buf used alloc = Some rc.
Proof.
  induction fuel as [|fuel IH]; intros buf in_buf used alloc L1 L2 H0 Hu Ha Hf; cbn [fbo_select_loop];
    (case_if; [|by eexists]); [lia|].
  destruct (lookup_lt_is_Some_2 in_buf (Z.to_nat used)) as [pg Epg]; [lia|].
  unfold bget1. rewrite Epg. cbn [mbind option_bind].
  destruct (find_fbo_page pg) as [get|] eqn:Ef; [|by eexists].
  destruct (find_fbo_page_adds _ _ Ef buf (Z.to_nat used) 0 L1 ltac:(lia)) as (b & ret & -> & Lb & Hr).
  cbn [mbind option_bind]. case_if; [by eexists|]. case_if; [by eexists|].
  destruct (bget_is_Some b (Z.to_nat used) (Z.to_nat ret)) as [x ->]; [lia|].
  destruct (bget_is_Some in_buf (Z.to_nat used) (Z.to_nat ret)) as [y ->]; [lia|].
  cbn [mbind option_bind]. case_decide; [|by eexists]. apply IH; try done; lia.
Qed.

Lemma fbo_mode_select_answers junk cdb alloc s :
  fbo_buffers s -> length junk = 512%nat -> tcmu_get_xfer_length cdb = Some alloc ->
  answers s (fbo_emulate_mode_select junk cdb s).
Proof.
  intros [[g Hg] _ _] Lj Hx. unfold fbo_emulate_mode_select. rewrite Hx. cbn [mbind option_bind].
  case_if; [auto with lio|]. case_if; [auto with lio|].
  unfold tcmu_memcpy_from_iovec.
  destruct (memcpy_from_loop_spec (fc_iov s) (fc_mem s) g junk 512 0 Hg) as (iov' & E & _); try lia.
  rewrite E. cbn [mbind option_bind].
  case_if; [eexists _, _; split; [done|]; split; [apply st_keep_refl|done|done]|].
  match goal with |- context [fbo_select_loop _ _ ?ib ?u _] =>
    destruct (fbo_select_loop_total 52 (zeros 512) ib u alloc) as [rc ->] end; try (apply length_zeros); try lia.
  - pose proof (gather_length _ _ _ Hg). rewrite !length_app, !length_take, length_drop. unfold min_nat. lia.
  - case_if; lia.
  - case_if; lia.
  - case_if; lia.
  - cbn [mbind option_bind]. eexists _, _. split; [done|]. split; [apply st_keep_refl|done|done].
Qed.

(** ** Events *)

(** Whether a background operation is under way, as the drive sees it. *)
Definition fbo_busy (st : fbo_state) : bool :=
  fb_has st FBO_FORMAT_IMMED || negb (fb_async_cache_count st =? 0).

(** What an initiator learns from [used] bytes of a response: the busy status,
    when the response reports one. *)
Definition reported_busy (buf : list Z) (used : Z) : option bool :=
  if (used =? 8) && (byte_at buf 2 =? 6) then Some (negb (byte_at buf 5 =? 0)) else None.

(** The state after the report: the busy event is gone when it was reported,
    the operational change when that was. *)
Record event_taken (st st' : fbo_state) (rep : option bool) : Prop := {
  et_lbas : fb_num_lbas st' = fb_num_lbas st;
  et_size : fb_block_size st' = fb_block_size st;
  et_progress : fb_format_progress st' = fb_format_progress st;
  et_count : fb_async_cache_count st' = fb_async_cache_count st;
  et_flags : forall g, Z.land FBO_BUSY_EVENT g = 0 -> fb_has st' g = fb_has st g;
  et_busy : match rep with
            | Some v => v = fbo_busy st /\ fb_has st' FBO_BUSY_EVENT = false
            | None => fb_has st' FBO_BUSY_EVENT = fb_has st FBO_BUSY_EVENT
            end
}.

Lemma event_taken_none st st' :
  st' = st \/ st' = fb_set_event st 0 -> event_taken st st' None.
Proof. intros [-> | ->]; by split. Qed.

Lemma event_taken_busy st :
  event_taken st (if fb_has st FBO_BUSY_EVENT then fb_off st FBO_BUSY_EVENT else st) (Some (fbo_busy st)).
Proof.
  destruct (fb_has st FBO_BUSY_EVENT) eqn:E; split; try done; cbn.
  - intros g Hg. by apply fb_has_off_other.
  - by rewrite fb_has_off.
Qed.

(** Runs the first store of the goal, all of whose arguments are known. *)
Ltac run_store :=
  lazymatch goal with
  | |- context [bset1 ?b ?o ?v] =>
      let r := eval vm_compute in (bset1 b o v) in
      change (bset1 b o v) with r; cbn [mbind option_bind]
  end.

Lemma fbo_event_data_spec st cr al :
  exists buf used st', fbo_event_data st cr al = Some (buf, used, st') /\ length buf = 8%nat /\
    4 <= used <= 8 /\ event_taken st st' (reported_busy buf used).
Proof.
  unfold fbo_event_data. cbv zeta. run_store.
  destruct (Z.land cr 0x42 =? 0); cbn [mbind option_bind].
  { eexists _, _, _. split; [reflexivity|]. split; [done|]. split; [lia|]. apply event_taken_none. by left. }
  destruct (negb (Z.land cr 2 =? 0) && _).
  - destruct (4 <? al); [destruct (fb_event_op_ch_code st =? 0)|]; eexists _, _, _;
      (split; [reflexivity|]); (split; [done|]); (split; [lia|]); apply event_taken_none; by (left + right).
  - destruct (4 <? al).
    2:{ eexists _, _, _. split; [reflexivity|]. split; [done|]. split; [lia|]. apply event_taken_none. by left. }
    pose proof (event_taken_busy st) as Hb. unfold fbo_busy in Hb. run_store.
    destruct (fb_has st FBO_BUSY_EVENT) eqn:E; unfold fbo_busy;
      [assert (fb_has (fb_off st FBO_BUSY_EVENT) FBO_FORMAT_IMMED = fb_has st FBO_FORMAT_IMMED) as Hi
         by (by apply fb_has_off_other); run_store|];
      cbn [mbind option_bind]; rewrite ?Hi;
      cbn [fb_off fb_set_flags fb_async_cache_count];
      destruct (fb_has st FBO_FORMAT_IMMED || negb (fb_async_cache_count st =? 0)) eqn:Ei;
      eexists _, _, _; (split; [reflexivity|]); (split; [done|]); (split; [lia|]); exact Hb.
Qed.

(** ** I/O *)

(** The buffer of a transfer has the size its CDB asks for, and the file covers
    what is read. *)
Definition fbo_io_ok (s : fcmd) (cdb : list Z) : Prop :=
  forall lba nb, tcmu_get_lba cdb = Some lba -> tcmu_get_xfer_length cdb = Some nb ->
    lba < fb_num_lbas (fc_st s) -> lba + nb <= fb_num_lbas (fc_st s) ->
    iov_total (fc_iov s) = nb * 2048 /\ nb * 2048 < 2 ^ 31 /\
    (fbo_write_op (byte_at cdb 0) = false -> nb = 0 \/ 2048 * (lba + nb) <= Z.of_nat (length (fc_file s))).

Definition fbo_io_op (op : Z) : bool := fbo_read_op op || fbo_write_op op || (op =? VERIFY).

Lemma fbo_io_op_decodes cdb :
  fbo_io_op (byte_at cdb 0) = true ->
  exists lba nb, tcmu_get_lba cdb = Some lba /\ tcmu_get_xfer_length cdb = Some nb.
Proof.
  unfold fbo_io_op, fbo_read_op, fbo_write_op. rewrite !orb_true_iff, !Z.eqb_eq.
  unfold tcmu_get_lba, tcmu_get_xfer_length, tcmu_get_cdb_length.
  intros [[[[E|E]|E]|[[[E|E]|E]|E]]|E]; rewrite E; eexists _, _; split; reflexivity.
Qed.

Lemma fbo_check_cases s cdb g :
  fbo_wf (fc_st s) -> bytes_ok cdb -> fbo_io_op (byte_at cdb 0) = true -> fbo_io_ok s cdb ->
  gather (fc_mem s) (fc_iov s) = Some g ->
  fbo_check_lba_and_length (fc_st s) cdb = Some (inl TCMU_STS_RANGE) \/
  exists lba nb, fbo_request (fc_st s) cdb g lba nb /\
    (fbo_write_op (byte_at cdb 0) = false ->
       g = [] \/ 2048 * lba + Z.of_nat (length g) <= Z.of_nat (length (fc_file s))).
Proof.
  intros W Hb Hop Hio Hg. destruct (fbo_io_op_decodes cdb Hop) as (lba & nb & Hl & Hn).
  pose proof (tcmu_get_lba_bound _ _ Hb Hl). pose proof (tcmu_get_xfer_length_bound _ _ Hb Hn).
  destruct W as [W1 W2]. destruct (decide (lba < fb_num_lbas (fc_st s) /\ lba + nb <= fb_num_lbas (fc_st s))) as [[R1 R2]|Hout].
  - right. exists lba, nb. destruct (Hio lba nb Hl Hn R1 R2) as (T & T2 & Hc).
    rewrite <- (gather_length _ _ _ Hg) in T. split; [split; try done; lia|].
    intros Hw. destruct (Hc Hw); [left; destruct g; [done|cbn in *; lia]|right; lia].
  - left. unfold fbo_check_lba_and_length. rewrite Hl, Hn. cbn [mbind option_bind].
    destruct (Z.leb_spec (fb_num_lbas (fc_st s)) lba); [done|]. cbn [orb].
    rewrite u64_small by lia. by rewrite (proj2 (Z.ltb_lt _ _)) by lia.
Qed.

Section io.
Context (e : fbo_env) (Hsys : file_sys_ok (fe_sys e)).

Lemma fbo_read_answers cdb s :
  fbo_wf (fc_st s) -> bytes_ok cdb -> fbo_read_op (byte_at cdb 0) = true -> fbo_io_ok s cdb ->
  fbo_buffers s -> Z.of_nat (length (fc_file s)) < 2 ^ 63 -> answers s (fbo_read e cdb s).
Proof.
  intros W Hb Hop Hio [[g Hg] Hd _] H63.
  assert (fbo_io_op (byte_at cdb 0) = true) as Hop2 by (unfold fbo_io_op; by rewrite Hop).
  assert (fbo_write_op (byte_at cdb 0) = false) as Hw.
  { unfold fbo_read_op in Hop. rewrite !orb_true_iff, !Z.eqb_eq in Hop. destruct Hop as [[-> | ->] | ->]; done. }
  destruct (negb (byte_at cdb 0 =? READ_6) && negb (Z.land (byte_at cdb 1) 0x11 =? 0)) eqn:E1.
  { unfold fbo_read. rewrite E1. auto with lio. }
  destruct (fbo_check_cases s cdb g W Hb Hop2 Hio Hg) as [E2|(lba & nb & Rq & Hc)].
  { unfold fbo_read. rewrite E1, E2. cbn. auto with lio. }
  destruct (negb (Z.land (byte_at cdb 1) 0x08 =? 0) && negb (fsync_ret (fe_sys e) =? 0)) eqn:E3.
  { unfold fbo_read. rewrite E1, (fbo_check_request _ _ _ _ _ W Rq). cbn [mbind option_bind]. rewrite E3.
    auto with lio. }
  destruct (fbo_read_spec e cdb s g lba nb Hsys W Rq Hg Hd H63 (Hc Hw)) as (s' & g' & E & F & S & T & _).
  - apply andb_false_iff in E1 as [E1|E1]; zbool; [by left|by right].
  - apply andb_false_iff in E3 as [E3|E3]; zbool; [by left|by right].
  - eexists _, _. split; [exact E|]. split; [by apply st_io_keep|done|done].
Qed.

Lemma fbo_verify_answers cdb s :
  fbo_wf (fc_st s) -> bytes_ok cdb -> byte_at cdb 0 = VERIFY -> fbo_io_ok s cdb ->
  fbo_buffers s -> Z.of_nat (length (fc_file s)) < 2 ^ 63 -> answers s (fbo_verify e cdb s).
Proof.
  intros W Hb Hop Hio [[g Hg] Hd Hse] H63.
  destruct (fb_has (fc_st s) FBO_READ_ONLY) eqn:Hro; [unfold fbo_verify; rewrite Hro; auto with lio|].
  destruct (decide (Z.land (byte_at cdb 1) 0x13 = 0)) as [E1|E1].
  2:{ unfold fbo_verify. rewrite Hro, (proj2 (Z.eqb_neq _ _)) by done. cbn. auto with lio. }
  destruct (fbo_check_cases s cdb g W Hb ltac:(by rewrite Hop) Hio Hg) as [E2|(lba & nb & Rq & Hc)].
  { unfold fbo_verify. rewrite Hro, E1, E2. cbn. auto with lio. }
  destruct (fbo_verify_spec e cdb s g lba nb) as (s' & rc & E & (F1 & F2 & F3 & _) & _); try done.
  { apply Hc. by rewrite Hop. }
  eexists _, _. split; [exact E|]. split; [by apply st_io_keep|done|done].
Qed.

(** WRITE answers too; it may change the file. *)
Lemma fbo_write_answers cdb dv s :
  fbo_wf (fc_st s) -> bytes_ok cdb -> fbo_write_op (byte_at cdb 0) = true -> fbo_io_ok s cdb ->
  fbo_buffers s -> fbo_file_ok s ->
  exists s' rc, fbo_write e cdb dv s = Some (s', rc) /\ st_keep (fc_st s) (fc_st s') /\
    fc_thr s' = fc_thr s /\ fbo_file_ok s' /\ (fb_has (fc_st s) FBO_READ_ONLY = true -> fc_file s' = fc_file s).
Proof.
  intros W Hb Hop Hio [[g Hg] Hd Hse] Hf.
  destruct (fb_has (fc_st s) FBO_READ_ONLY) eqn:Hro.
  { unfold fbo_write. rewrite Hro. eexists _, _. split; [done|]. split; [apply st_keep_refl|done]. }
  destruct (fbo_check_cases s cdb g W Hb) as [E2|(lba & nb & Rq & _)]; try done.
  { unfold fbo_io_op. by rewrite Hop, orb_true_r. }
  { unfold fbo_write. rewrite Hro, E2. cbn. eexists _, _. split; [done|]. split; [apply st_keep_refl|done]. }
  destruct (fbo_write_spec e cdb dv s g lba nb) as (s' & rc & w & E & Hf2 & S & T & _); try done.
  eexists _, _. split; [exact E|]. split; [by apply st_io_keep|done].
Qed.
End io.

(** ** All commands *)

(** A command with its environment and buffers fits the drive. *)
Record fbo_cmd_ok (e : fbo_env) (cdb : list Z) (s : fcmd) : Prop := {
  fk_sys : file_sys_ok (fe_sys e);
  fk_junk : length (fe_junk e) = 512%nat;
  fk_cdb : bytes_ok cdb;
  fk_buffers : fbo_buffers s;
  fk_io : fbo_io_op (byte_at cdb 0) = true -> fbo_io_ok s cdb
}.

(** A drive and its file. *)
Record fbo_ready (s : fcmd) : Prop := {
  fy_wf : fbo_wf (fc_st s);
  fy_lbas : fb_num_lbas (fc_st s) < 2 ^ 32;
  fy_file : fbo_file_ok s
}.

Lemma fbo_ready_63 s : fbo_ready s -> Z.of_nat (length (fc_file s)) < 2 ^ 63.
Proof. intros [[_ W] _ Hf]. unfold fbo_file_ok, fbo_bytes in Hf. lia. Qed.

(** What a command may have done by the time it is answered. *)
Inductive cmd_effect (e : fbo_env) (op : Z) (s s' : fcmd) (rc : tcmu_sts) : Prop :=
| EffKeep : keeps s s' -> cmd_effect e op s s' rc
| EffSync :
    op = SYNCHRONIZE_CACHE -> fc_st s' = fc_st s -> fc_file s' = fc_file s ->
    fc_thr s' = fc_thr s ++ [SyncThread] -> cmd_effect e op s s' rc
| EffWrite :
    fbo_write_op op = true -> st_keep (fc_st s) (fc_st s') -> fc_thr s' = fc_thr s -> fbo_file_ok s' ->
    (fb_has (fc_st s) FBO_READ_ONLY = true -> fc_file s' = fc_file s) ->
    cmd_effect e op s s' rc
| EffEvent buf used :
    op = GPCMD_GET_EVENT_STATUS_NOTIFICATION ->
    event_taken (fc_st s) (fc_st s') (reported_busy buf used) ->
    fc_file s' = fc_file s -> fc_thr s' = fc_thr s -> cmd_effect e op s s' rc
| EffFormat :
    op = FORMAT_UNIT -> format_outcome e s s' rc ->
    (fb_has (fc_st s) FBO_READ_ONLY = true -> fc_file s' = fc_file s) -> cmd_effect e op s s' rc.

Lemma answers_effect e op s r :
  answers s r -> exists s' rc, r = Some (s', rc) /\ cmd_effect e op s s' rc.
Proof. intros (s' & rc & -> & K). exists s', rc. split; [done|by apply EffKeep]. Qed.

Lemma fbo_event_effect e cdb al s :
  fbo_buffers s -> tcmu_get_xfer_length cdb = Some al ->
  byte_at cdb 0 = GPCMD_GET_EVENT_STATUS_NOTIFICATION ->
  exists s' rc, fbo_emulate_get_event_status_notification cdb s = Some (s', rc) /\
    cmd_effect e (byte_at cdb 0) s s' rc.
Proof.
  intros Hb Hx Hop. unfold fbo_emulate_get_event_status_notification. rewrite Hx. cbn [mbind option_bind].
  case_if; [apply answers_effect; auto with lio|].
  destruct (fbo_event_data_spec (fc_st s) (byte_at cdb 4) (u16 al)) as (buf & used & st' & -> & L & Hu & T).
  cbn [mbind option_bind].
  assert (fbo_buffers (fc_set_st s st')) as Hb' by (destruct Hb; by split).
  destruct (fsend_total (fc_set_st s st') buf used Hb') as (m & iov & ->); [lia|].
  eexists _, _. split; [done|]. by eapply EffEvent.
Qed.

Lemma fbo_sync_effect e cdb s :
  byte_at cdb 0 = SYNCHRONIZE_CACHE ->
  exists s' rc, fbo_synchronize_cache e cdb s = Some (s', rc) /\ cmd_effect e (byte_at cdb 0) s s' rc.
Proof.
  intros Hop. unfold fbo_synchronize_cache. case_if; [apply answers_effect; auto with lio|].
  case_if; [|apply answers_effect; auto with lio].
  destruct (fe_thread e); [|apply answers_effect; auto with lio].
  eexists _, _. split; [done|]. by apply EffSync.
Qed.

Lemma answers_capacity num size s :
  fbo_buffers s -> answers s (fapi s (tcmu_emulate_read_capacity_10 num size (fc_mem s) (fc_iov s)
                                       (Z.of_nat (length (fc_iov s))))).
Proof.
  intros Hb. unfold tcmu_emulate_read_capacity_10, Inquiry.reply_page, Inquiry.reply.
  assert (exists b, read_capacity_10_data num size = Some b) as [b ->].
  { unfold read_capacity_10_data. cbv zeta.
    destruct (stored_bset 8 (zeros 8) 0 (if num <? 0x100000000 then be_enc 4 (u32 (num - 1))
      else [0xff; 0xff; 0xff; 0xff])) as (b1 & -> & L1); [done|destruct (_ <? _); cbn; lia|].
    cbn [mbind option_bind]. destruct (stored_bset 8 b1 4 (be_enc 4 (u32 size))) as (b2 & -> & _);
      [done|rewrite be_enc_length; lia|]. by eexists. }
  cbn [mbind option_bind].
  destruct (answers_send s b (Z.of_nat (length b)) Hb ltac:(lia)) as (s' & rc & E & K). unfold fsend in E.
  destruct (tcmu_memcpy_into_iovec _ _ _ _ _) as [[[m iov] c]|]; [|done]. cbn in E |- *.
  eexists _, _. split; [reflexivity|]. split; [apply st_keep_refl|done|done].
Qed.

Lemma xfer_length_op cdb op :
  byte_at cdb 0 = op -> In op [MODE_SELECT; MODE_SELECT_10; MODE_SENSE; MODE_SENSE_10;
    GPCMD_GET_EVENT_STATUS_NOTIFICATION] -> exists n, tcmu_get_xfer_length cdb = Some n.
Proof.
  intros Hop Hin. unfold tcmu_get_xfer_length, tcmu_get_cdb_length. rewrite Hop.
  cbn [In] in Hin. destruct Hin as [<-|[<-|[<-|[<-|[<-|[]]]]]]; eexists; reflexivity.
Qed.

Lemma eqb_or_cases a b c : (a =? b) || (a =? c) = true -> a = b \/ a = c.
Proof. rewrite orb_true_iff, !Z.eqb_eq. done. Qed.

(** The condition of the first branch of the dispatcher. *)
Ltac on_branch tac :=
  lazymatch goal with
  | |- exists _ _, (if ?c then _ else _) = _ /\ _ => tac c
  end.

(** Every command of the [switch] returns, with one of these effects. *)
Lemma fbo_switch_effect e cdb s :
  fbo_cmd_ok e cdb s -> fbo_ready s ->
  exists s' rc, fbo_switch e cdb s = Some (s', rc) /\ cmd_effect e (byte_at cdb 0) s s' rc.
Proof.
  intros [Hsys Hj Hc Hb Hio] Hy. pose proof (fbo_ready_63 s Hy) as H63. pose proof Hy as [W H32 Hf].
  unfold fbo_switch. cbv zeta.
  destruct (Z.eqb_spec (byte_at cdb 0) TEST_UNIT_READY).
  { eexists _, _. split; [done|]. apply EffKeep. split; [apply st_keep_refl|done|done]. }
  destruct (Z.eqb_spec (byte_at cdb 0) REQUEST_SENSE).
  { by apply answers_effect, fbo_request_sense_answers. }
  destruct (Z.eqb_spec (byte_at cdb 0) FORMAT_UNIT) as [E|].
  { destruct Hb as [[g Hg] Hd Hse]. destruct (fbo_format_unit_cases e cdb s g Hg Hse W H32) as (s' & rc & Ef & O).
    exists s', rc. split; [done|]. apply EffFormat; [done|done|]. intros Hro.
    unfold fbo_emulate_format_unit in Ef. cbv zeta in Ef. rewrite Hro in Ef. by simplify_eq. }
  on_branch ltac:(fun c => destruct c eqn:E1).
  { apply answers_effect. apply fbo_read_answers; try done. apply Hio. unfold fbo_io_op, fbo_read_op. by rewrite E1. }
  assert (forall dv, fbo_write_op (byte_at cdb 0) = true ->
    exists s' rc, fbo_write e cdb dv s = Some (s', rc) /\ cmd_effect e (byte_at cdb 0) s s' rc) as Hw.
  { intros dv Hop. destruct (fbo_write_answers e Hsys cdb dv s W Hc Hop) as (s' & rc & E & K & T & F & R); try done.
    { apply Hio. unfold fbo_io_op. by rewrite Hop, orb_true_r. }
    exists s', rc. split; [done|by apply EffWrite]. }
  destruct (Z.eqb_spec (byte_at cdb 0) WRITE_VERIFY) as [E|]; [apply Hw; by rewrite E|].
  on_branch ltac:(fun c => destruct c eqn:E2); [apply Hw; unfold fbo_write_op; by rewrite E2|].
  destruct (Z.eqb_spec (byte_at cdb 0) INQUIRY); [by apply answers_effect, fbo_inquiry_answers|].
  on_branch ltac:(fun c => destruct c eqn:E3).
  { apply eqb_or_cases in E3. destruct (xfer_length_op cdb _ eq_refl) as [xl Hxl];
      [destruct E3 as [-> | ->]; cbn; auto|]. by apply answers_effect, (fbo_mode_select_answers _ _ xl). }
  on_branch ltac:(fun c => destruct c eqn:E4).
  { apply eqb_or_cases in E4. destruct (xfer_length_op cdb _ eq_refl) as [xl Hxl];
      [destruct E4 as [-> | ->]; cbn; auto|]. by apply answers_effect, (fbo_mode_sense_answers _ xl). }
  case_if; [apply answers_effect; auto with lio|].
  case_if; [apply answers_effect, fbo_allow_answers|].
  case_if; [by apply answers_effect, fbo_capacities_answers|].
  case_if; [by apply answers_effect, answers_capacity|].
  destruct (Z.eqb_spec (byte_at cdb 0) VERIFY) as [E|].
  { apply answers_effect, fbo_verify_answers; try done. apply Hio. by rewrite E. }
  destruct (Z.eqb_spec (byte_at cdb 0) SYNCHRONIZE_CACHE); [by apply fbo_sync_effect|].
  case_if; [by apply answers_effect, fbo_read_toc_answers|].
  case_if; [by apply answers_effect, fbo_configuration_answers|].
  destruct (Z.eqb_spec (byte_at cdb 0) GPCMD_GET_EVENT_STATUS_NOTIFICATION) as [E|].
  { destruct (xfer_length_op cdb _ E ltac:(cbn; tauto)) as [xl Hxl]. by apply (fbo_event_effect e cdb xl). }
  case_if; [by apply answers_effect, fbo_disc_answers|].
  case_if; [by apply answers_effect, fbo_dvd_answers|].
  case_if; [by apply answers_effect, fbo_mechanism_answers|].
  apply answers_effect; auto with lio.
Qed.

Lemma format_outcome_ready e s s' rc : format_outcome e s s' rc -> fbo_ready s -> fbo_ready s'.
Proof.
  intros O [W H32 Hf]. unfold fbo_file_ok, fbo_bytes in *.
  destruct O as [E1 E2 _ _|_ _ E1 E2 _|_ _ _ E1 E2 _|st1 _ _ _ S E1 _ Hlen _].
  - split; unfold fbo_file_ok, fbo_bytes; rewrite ?E1, ?E2; done.
  - split; unfold fbo_file_ok, fbo_bytes; rewrite ?E1, ?E2; [destruct W; by split|done|done].
  - split; unfold fbo_file_ok, fbo_bytes; rewrite ?E1, ?E2; [destruct W; by split|done|done].
  - pose proof (same_but_progress_fields _ _ S) as (N1 & N2 & _). cbn in N1, N2.
    split; [|by rewrite E1; cbn; rewrite N1|by apply Hlen].
    rewrite E1. destruct W. split; cbn; rewrite ?N1, ?N2; done.
Qed.

Lemma cmd_effect_ready e op s s' rc : cmd_effect e op s s' rc -> fbo_ready s -> fbo_ready s'.
Proof.
  intros E Hy. pose proof Hy as [W H32 Hf]. unfold fbo_file_ok, fbo_bytes in *.
  assert (forall st, fb_num_lbas st = fb_num_lbas (fc_st s) -> fb_block_size st = fb_block_size (fc_st s) ->
    fbo_wf st /\ fb_num_lbas st < 2 ^ 32) as Hst.
  { intros st N1 N2. destruct W as [W1 W2]. split; [split|]; by rewrite ?N1, ?N2. }
  destruct E as [[(N1 & N2 & _) F _]|_ Es F _|_ (N1 & N2 & _) _ F _|buf used _ [N1 N2 _ _ _ _] F _|_ O _].
  - destruct (Hst _ N1 N2). split; try done. unfold fbo_file_ok, fbo_bytes. by rewrite F, N1.
  - split; unfold fbo_file_ok, fbo_bytes; by rewrite ?Es, ?F.
  - destruct (Hst _ N1 N2). by split.
  - destruct (Hst _ N1 N2). split; try done. unfold fbo_file_ok, fbo_bytes. by rewrite F, N1.
  - by eapply format_outcome_ready.
Qed.

Lemma cmd_effect_file e op s s' rc :
  cmd_effect e op s s' rc -> fbo_write_op op = false -> op <> FORMAT_UNIT -> fc_file s' = fc_file s.
Proof. intros [K| | | |]; try congruence; done || (intros; by destruct K). Qed.

Lemma cmd_effect_read_only e op s s' rc :
  cmd_effect e op s s' rc -> fb_has (fc_st s) FBO_READ_ONLY = true -> fc_file s' = fc_file s.
Proof. intros [K| | | |]; auto. intros _. by destruct K. Qed.

(** The command that a drive refuses while it formats. *)
Lemma fbo_work_refused e cdb s :
  fb_has (fc_st s) FBO_FORMATTING = true -> runs_while_formatting (byte_at cdb 0) = false ->
  (18 <= length (fc_sense s))%nat ->
  exists sense,
    fbo_work e cdb s = Some (fc_set_sense s sense, [TCMU_STS_FRMT_IN_PROGRESS]) /\
    tcmu_set_sense_key_specific_info (fc_sense s) (u16 (fb_format_progress (fc_st s))) = Some sense.
Proof.
  intros Hf Hop Hse. destruct (format_sense_some (fc_sense s) (u16 (fb_format_progress (fc_st s))) Hse) as [se E].
  exists se. split; [|done]. unfold fbo_work, fbo_handle_cmd. rewrite Hf, Hop. cbn [andb negb]. by rewrite E.
Qed.

Lemma fbo_work_switch e cdb s :
  fb_has (fc_st s) FBO_FORMATTING = false \/ runs_while_formatting (byte_at cdb 0) = true ->
  fbo_work e cdb s = Some (s, [TCMU_STS_INVALID_CDB]) \/
  fbo_work e cdb s = '(s', rc) ← fbo_switch e cdb s; Some (s', [rc]).
Proof.
  intros H. unfold fbo_work, fbo_handle_cmd.
  replace (fb_has (fc_st s) FBO_FORMATTING && negb (runs_while_formatting (byte_at cdb 0))) with false.
  2:{ destruct H as [-> | ->]; [done|by rewrite andb_false_r]. }
  case_if; [by left|right]. by destruct (fbo_switch e cdb s) as [[s' rc]|].
Qed.

(** What happens to a command, whatever it is. *)
Lemma fbo_work_effect e cdb s :
  fbo_cmd_ok e cdb s -> fbo_ready s ->
  exists s' rc, fbo_work e cdb s = Some (s', [rc]) /\ cmd_effect e (byte_at cdb 0) s s' rc /\
    (fb_has (fc_st s) FBO_FORMATTING = true -> runs_while_formatting (byte_at cdb 0) = false ->
       rc = TCMU_STS_FRMT_IN_PROGRESS /\ fc_file s' = fc_file s /\ fc_mem s' = fc_mem s /\ fc_st s' = fc_st s).
Proof.
  intros Hok Hy. pose proof (fu_sense _ (fk_buffers _ _ _ Hok)) as Hse.
  destruct (fb_has (fc_st s) FBO_FORMATTING && negb (runs_while_formatting (byte_at cdb 0))) eqn:Ef.
  - zbool. destruct (fbo_work_refused e cdb s) as (se & E & _); try done.
    eexists _, _. split; [exact E|]. split; [|done]. apply EffKeep. split; [apply st_keep_refl|done|done].
  - assert (fb_has (fc_st s) FBO_FORMATTING = false \/ runs_while_formatting (byte_at cdb 0) = true) as Hr.
    { apply andb_false_iff in Ef as [?|?]; [by left|right; by apply negb_false_iff]. }
    destruct (fbo_work_switch e cdb s Hr) as [E|E].
    + eexists _, _. split; [exact E|]. split; [apply EffKeep, keeps_refl|]. intros. destruct Hr; congruence.
    + destruct (fbo_switch_effect e cdb s Hok Hy) as (s' & rc & Es & Ee). rewrite Es in E. cbn in E.
      eexists _, _. split; [exact E|]. split; [done|]. intros. destruct Hr; congruence.
Qed.

(** C24: Every command to the optical drive is completed exactly once, whatever
    its CDB and the outcomes of system calls, memory allocation and thread
    creation, provided that its buffers have the size it asks for and reads stay
    inside the file; the drive stays well formed.  Only the WRITE commands and
    FORMAT UNIT change the file, and none does on a read-only drive.  While the
    drive formats, all but four commands are refused without effect, with
    sense data that carry the progress. *)
Theorem fbo_one_answer (e : fbo_env) (cdb : list Z) (s : fcmd)
  (Hok : fbo_cmd_ok e cdb s) (Hy : fbo_ready s) :
  exists s' rc,
    fbo_work e cdb s = Some (s', [rc]) /\ fbo_ready s' /\
    (fbo_write_op (byte_at cdb 0) = false -> byte_at cdb 0 <> FORMAT_UNIT -> fc_file s' = fc_file s) /\
    (fb_has (fc_st s) FBO_READ_ONLY = true -> fc_file s' = fc_file s) /\
    (fb_has (fc_st s) FBO_FORMATTING = true -> runs_while_formatting (byte_at cdb 0) = false ->
       rc = TCMU_STS_FRMT_IN_PROGRESS /\ fc_file s' = fc_file s /\ fc_mem s' = fc_mem s /\
       exists sense, tcmu_sts_to_scsi rc (fc_sense s') = Some (SAM_STAT_CHECK_CONDITION, sense) /\
         view_sense sense =
           SenseView 0x70 false NOT_READY 0 0x04 0x04 true (u16 (fb_format_progress (fc_st s)))).
Proof.
  destruct (fbo_work_effect e cdb s Hok Hy) as (s' & rc & E & Ee & Hr).
  exists s', rc. split; [done|]. split; [by eapply cmd_effect_ready|].
  split; [by eapply cmd_effect_file|]. split; [by eapply cmd_effect_read_only|].
  intros Hf Hop. destruct (Hr Hf Hop) as (-> & F & M & _). split; [done|]. split; [done|]. split; [done|].
  pose proof (fu_sense _ (fk_buffers _ _ _ Hok)) as Hse.
  destruct (fbo_work_refused e cdb s Hf Hop Hse) as (se & E2 & Es). rewrite E in E2. simplify_eq.
  destruct (format_in_progress_sense (fc_sense s) (u16 (fb_format_progress (fc_st s))) Hse) as
    (l1 & l2 & E1 & E3 & V & _). rewrite E1 in Es. simplify_eq. exists l2. split; [exact E3|].
  rewrite V. f_equal. apply u16_small, u16_bound.
Qed.

(** A READ TOC while a format is at a quarter. *)
Lemma fbo_one_answer_witness :
  exists s', fbo_work demo_fenv [0x43; 0; 0; 0; 0; 0; 0; 0; 20; 0]
    (FCmd (Fbo 1000 2048 0 FBO_FORMATTING 0x4000 0 0) [] {[ 0%nat := zeros 20 ]} [Iov (Ptr 0 0) 20] (zeros 96) []) =
      Some (s', [TCMU_STS_FRMT_IN_PROGRESS]) /\ fc_mem s' = {[ 0%nat := zeros 20 ]}.
Proof.
  destruct (fbo_one_answer demo_fenv [0x43; 0; 0; 0; 0; 0; 0; 0; 20; 0]
    (FCmd (Fbo 1000 2048 0 FBO_FORMATTING 0x4000 0 0) [] {[ 0%nat := zeros 20 ]} [Iov (Ptr 0 0) 20] (zeros 96) []))
    as (s' & rc & E & _ & _ & _ & H).
  - split; [exact fbo_short_ok|reflexivity|repeat constructor; cbn; lia| |discriminate].
    split; [eexists; vm_compute; reflexivity|by split|cbn; lia].
  - split; [split; cbn; lia|cbn; lia|]. unfold fbo_file_ok. cbn [fc_file length]. lia.
  - destruct (H eq_refl eq_refl) as (-> & _ & M & _). by exists s'.
Defined.

(** ** The drive that never stops formatting *)

(** A command of a sequence. *)
Record fbo_cmd := FbCmd {
  cm_env : fbo_env; cm_cdb : list Z; cm_mem : mem; cm_iov : list iovec; cm_sense : list Z
}.

Definition cm_start (c : fbo_cmd) (st : fbo_state) (f : list Z) : fcmd :=
  FCmd st f (cm_mem c) (cm_iov c) (cm_sense c) [].

(** The commands one after the other on the drive's worker, with the answers
    each gets. *)
Fixpoint fbo_run (cs : list fbo_cmd) (st : fbo_state) (f : list Z)
    : option (fbo_state * list Z * list (list tcmu_sts)) :=
  match cs with
  | [] => Some (st, f, [])
  | c :: cs =>
      '(s, a) ← fbo_work (cm_env c) (cm_cdb c) (cm_start c st f);
      '(st, f, l) ← fbo_run cs (fc_st s) (fc_file s);
      Some (st, f, a :: l)
  end.

Lemma fbo_stuck_step e cdb s :
  fbo_buffers s -> fb_has (fc_st s) FBO_FORMATTING = true ->
  exists s' rc, fbo_work e cdb s = Some (s', [rc]) /\ fb_has (fc_st s') FBO_FORMATTING = true /\
    fc_file s' = fc_file s /\ (runs_while_formatting (byte_at cdb 0) = false -> rc = TCMU_STS_FRMT_IN_PROGRESS).
Proof.
  intros Hb Hf. destruct (runs_while_formatting (byte_at cdb 0)) eqn:Hop.
  2:{ destruct (fbo_work_refused e cdb s Hf Hop (fu_sense _ Hb)) as (se & E & _). eexists _, _. by split. }
  assert (forall r, fbo_switch e cdb s = r -> answers s r ->
    exists s' rc, fbo_work e cdb s = Some (s', [rc]) /\ fb_has (fc_st s') FBO_FORMATTING = true /\
      fc_file s' = fc_file s /\ (true = false -> rc = TCMU_STS_FRMT_IN_PROGRESS)) as Hans.
  { intros r Er (s' & rc & -> & [K F _]).
    destruct (fbo_work_switch e cdb s (or_intror Hop)) as [E|E]; [eexists _, _; by split|].
    rewrite Er in E. cbn in E. eexists _, _. split; [exact E|]. destruct K as (_ & _ & _ & _ & _ & K).
    by rewrite K. }
  unfold runs_while_formatting in Hop. rewrite !orb_true_iff, !Z.eqb_eq in Hop.
  destruct Hop as [[[Hop|Hop]|Hop]|Hop].
  - eapply Hans; [unfold fbo_switch; rewrite Hop; reflexivity|]. by apply fbo_inquiry_answers.
  - eapply Hans; [unfold fbo_switch; rewrite Hop; reflexivity|]. by apply fbo_request_sense_answers.
  - eapply Hans; [unfold fbo_switch; rewrite Hop; reflexivity|]. by apply fbo_configuration_answers.
  - destruct (xfer_length_op cdb _ Hop ltac:(cbn; tauto)) as [n Hn].
    destruct (fbo_event_effect e cdb n s Hb Hn Hop) as (s' & rc & E & Ee).
    assert (fbo_switch e cdb s = Some (s', rc)) as Es by (unfold fbo_switch; by rewrite Hop).
    assert (runs_while_formatting (byte_at cdb 0) = true) as Hrw by (by rewrite Hop).
    destruct (fbo_work_switch e cdb s (or_intror Hrw)) as [Ew|Ew]; [eexists _, _; by split|].
    rewrite Es in Ew. exists s', rc. split; [exact Ew|].
    destruct Ee as [[(_ & _ & _ & _ & _ & K) F _]|Ex| |buf used _ T F _|Ex]; try (rewrite Hop in *; discriminate).
    + by rewrite K.
    + split; [|by split]. rewrite (et_flags _ _ _ T); done.
Qed.

(** When FORMAT UNIT cannot allocate its buffer, or cannot start its thread,
    it leaves the drive marked as formatting with nothing at work: whatever
    commands follow, every one that needs the medium, a further FORMAT UNIT
    included, is refused as long as the device is open. *)
Theorem fbo_stuck_formatting (e : fbo_env) (s : fcmd) (cdb g : list Z)
  (Hop : byte_at cdb 0 = FORMAT_UNIT) (Hb1 : Z.land (byte_at cdb 1) 0x10 <> 0)
  (Hb2 : Z.land (byte_at cdb 1) 0x07 = 1) (Hb3 : byte_at cdb 3 = 0) (Hb4 : byte_at cdb 4 = 0)
  (Hro : fb_has (fc_st s) FBO_READ_ONLY = false) (Hfm : fb_has (fc_st s) FBO_FORMATTING = false)
  (Hg : gather (fc_mem s) (fc_iov s) = Some g) (Hl : 12 <= Z.of_nat (length g))
  (Hp : fbo_format_params (fc_st s) cdb (take 12 g) = Some TCMU_STS_OK)
  (Hres : Z.land (byte_at (take 12 g) 1) 0x02 = 0 /\ fe_malloc e = false \/
          Z.land (byte_at (take 12 g) 1) 0x02 <> 0 /\ fe_thread e = false) :
  exists s1 rc, fbo_work e cdb s = Some (s1, [rc]) /\ fc_thr s1 = fc_thr s /\
    forall cs, Forall (fun c => fbo_buffers (cm_start c (fc_st s1) [])) cs ->
    exists st answers, fbo_run cs (fc_st s1) (fc_file s1) = Some (st, fc_file s, answers) /\
      Forall2 (fun c a => runs_while_formatting (byte_at (cm_cdb c) 0) = false ->
                          a = [TCMU_STS_FRMT_IN_PROGRESS]) cs answers.
Proof.
  assert (exists s1 rc, fbo_emulate_format_unit e cdb s = Some (s1, rc) /\ fc_thr s1 = fc_thr s /\
            fc_file s1 = fc_file s /\ fb_has (fc_st s1) FBO_FORMATTING = true) as (s1 & rc & E & T & F & Hs).
  { destruct Hres as [[Hi Hm]|[Hi Ht]].
    - destruct (fbo_format_unit_accepted e cdb s g Hg Hl Hro Hfm Hb1 Hb2 Hb3 Hb4 Hp Hi) as [iov' E].
      unfold fbo_do_format in E. rewrite Hm in E. cbn in E. eexists _, _. split; [exact E|].
      split; [done|]. split; [done|]. by apply fb_has_on.
    - unfold fbo_emulate_format_unit. cbv zeta.
      rewrite Hro, (proj2 (Z.eqb_neq _ _) Hb1), Hb2, Hb3, Hb4. cbn [Z.eqb Pos.eqb negb orb].
      destruct (fbo_param_list _ _ _ Hg) as (pl & iov' & n & -> & Lp & Hn & Hpl). cbn [mbind option_bind].
      rewrite (proj2 (Z.ltb_ge _ _)) by lia. rewrite (Hpl ltac:(lia)), Hp. cbn [mbind option_bind].
      unfold sts_ok. rewrite bool_decide_eq_true_2 by done. cbn [negb].
      rewrite Hfm, (proj2 (Z.eqb_neq _ _) Hi), Ht. cbn [negb]. eexists _, _. split; [reflexivity|].
      split; [done|]. split; [done|]. by apply fb_has_on. }
  exists s1, rc. split.
  { apply fbo_work_done; [done|by rewrite Hop|]. unfold fbo_switch. rewrite Hop. exact E. }
  split; [done|]. rewrite <- F. clear -Hs. intros cs Hc. revert Hs Hc.
  generalize (fc_st s1) (fc_file s1). clear s1.
  induction cs as [|c cs IH]; intros st f Hs Hc; [by exists st, []|].
  inversion Hc as [|? ? [B1 B2 B3] Hcs]; subst.
  destruct (fbo_stuck_step (cm_env c) (cm_cdb c) (cm_start c st f)) as (s' & rc & E & Hs' & F & Hr); [by split|done|].
  cbn [fbo_run]. rewrite E. cbn [mbind option_bind]. rewrite F. cbn [cm_start fc_file].
  destruct (IH (fc_st s') f Hs') as (st2 & l & -> & Hl2).
  { eapply Forall_impl; [exact Hcs|]. intros d [? ? ?]. by split. }
  cbn. exists st2, ([rc] :: l). split; [done|]. constructor; [|done]. intros Hop. by rewrite Hr.
Qed.

(** The allocation fails once; the next command finds memory again. *)
Lemma fbo_stuck_formatting_witness :
  exists s1 rc st, fbo_work (FEnv full_sys false true []) [0x04; 0x11; 0; 0; 0; 0] format_cmd = Some (s1, [rc]) /\
    fbo_run [FbCmd demo_fenv [0x04; 0x11; 0; 0; 0; 0] (fc_mem format_cmd) (fc_iov format_cmd) (zeros 18)]
      (fc_st s1) (fc_file s1) = Some (st, [1; 2; 3], [[TCMU_STS_FRMT_IN_PROGRESS]]).
Proof.
  destruct (fbo_stuck_formatting (FEnv full_sys false true []) format_cmd [0x04; 0x11; 0; 0; 0; 0]
    [0; 0xa0; 0; 8; 0; 0; 3; 232; 0; 0; 8; 0]) as (s1 & rc & E & _ & H);
    try reflexivity; try (cbn; lia); try discriminate.
  { left. by split. }
  destruct (H [FbCmd demo_fenv [0x04; 0x11; 0; 0; 0; 0] (fc_mem format_cmd) (fc_iov format_cmd) (zeros 18)])
    as (st & l & R & Hf).
  { constructor; [|constructor]. split; [eexists; vm_compute; reflexivity|by split|cbn; lia]. }
  inversion Hf as [|? a ? l' Ha Hn]; subst. inversion Hn; subst. rewrite (Ha eq_refl) in R. exists s1, rc, st. by split.
Defined.
