(* ===== verification/OpticalBg.v ===== *)
(** * The optical handler: background threads

    The worker that takes commands, the threads for SYNCHRONIZE CACHE and FORMAT
    UNIT with the immediate bit, and the events that tell an initiator about
    them, as a step relation over [fbo_work].

    The worker runs one command at a time.  A command is one step: what it and
    a thread both touch is touched under the mutex, or by commands that are
    refused while a format runs. *)

From S2P Require Import Prelude Scsi Iovec Sense Device Inquiry Mode Backstore FileBack Optical OpticalCfg OpticalIo OpticalThm OpticalFmt OpticalAll.

(** ** Threads *)

Inductive fbo_pc :=
| SyncNew | SyncRun
| FmtNew | FmtRun (j : format_job) | FmtDone.

Definition thread_start (t : fbo_thread) : fbo_pc :=
  match t with SyncThread => SyncNew | FormatThread => FmtNew end.

(** What is left of the thread, the drive and the file after its next step.
    The buffer of the format is allocated; the outcomes of [fsync] and of the
    format are not used.
    [src tcmu-runner/file_optical.c 1323-1343 fbo_async_format] *)
Definition thread_step (sys : file_sys) (p : fbo_pc) (st : fbo_state) (f : list Z)
    : option (option fbo_pc * fbo_state * list Z) :=
  match p with
  | SyncNew => Some (Some SyncRun, sync_begin st, f)
  | SyncRun => Some (None, sync_end st, f)
  | FmtNew => Some (Some (FmtRun fbo_job0), format_begin st, f)
  | FmtRun j =>
      if fbo_job_busy st j then
        '(st, f, j) ← fbo_format_round sys st f j;
        Some (match j with
              | Some j => (Some (FmtRun j), st, f)
              | None => (Some FmtDone, fb_off st FBO_FORMATTING, f)
              end)
      else Some (Some FmtDone, fb_off st FBO_FORMATTING, f)
  | FmtDone => Some (None, format_end st, f)
  end.

(** The drive, its file, the threads, and the busy status that was last
    reported. *)
Record fbo_sysm := Sysm {
  sy_st : fbo_state;
  sy_file : list Z;
  sy_thr : list fbo_pc;
  sy_seen : bool
}.

(** The busy status that the answer to a command reports. *)
Definition fbo_report (cdb : list Z) (st : fbo_state) : option bool :=
  if negb (byte_at cdb 0 =? GPCMD_GET_EVENT_STATUS_NOTIFICATION) || (Z.land (byte_at cdb 1) 0x01 =? 0)
  then None
  else
    al ← tcmu_get_xfer_length cdb;
    '(buf, used, _) ← fbo_event_data st (byte_at cdb 4) (u16 al);
    reported_busy buf used.

(** Replaces or removes a thread. *)
Definition thread_put (l : list fbo_pc) (i : nat) (p : option fbo_pc) : list fbo_pc :=
  match p with Some p => <[i := p]> l | None => take i l ++ drop (S i) l end.

(** A step of one thread. *)
Inductive bg_step : fbo_sysm -> fbo_sysm -> Prop :=
| BgStep sys st f thr seen i p p' st' f' :
    thr !! i = Some p -> thread_step sys p st f = Some (p', st', f') ->
    bg_step (Sysm st f thr seen) (Sysm st' f' (thread_put thr i p') seen).

(** A command, or a step of a thread. *)
Inductive fbo_step : fbo_sysm -> fbo_sysm -> Prop :=
| StepCmd e cdb m iov se st f thr seen s' rc :
    fbo_cmd_ok e cdb (FCmd st f m iov se []) -> fe_malloc e = true -> fe_thread e = true ->
    fbo_work e cdb (FCmd st f m iov se []) = Some (s', [rc]) ->
    fbo_step (Sysm st f thr seen)
             (Sysm (fc_st s') (fc_file s') (thr ++ map thread_start (fc_thr s'))
                   (default seen (fbo_report cdb st)))
| StepThread s s' : bg_step s s' -> fbo_step s s'.

(** A drive after [fbo_open], with a file that fits it. *)
Definition fbo_initial (s : fbo_sysm) : Prop :=
  fbo_ready (FCmd (sy_st s) (sy_file s) ∅ [] [] []) /\
  (fb_flags (sy_st s) = 0 \/ fb_flags (sy_st s) = FBO_READ_ONLY) /\
  fb_async_cache_count (sy_st s) = 0 /\ sy_thr s = [] /\ sy_seen s = false.

Inductive fbo_reachable : fbo_sysm -> Prop :=
| ReachInit s : fbo_initial s -> fbo_reachable s
| ReachStep s s' : fbo_reachable s -> fbo_step s s' -> fbo_reachable s'.

(** ** The invariant *)

Definition is_formatting (p : fbo_pc) : bool :=
  match p with FmtNew | FmtRun _ => true | _ => false end.
Definition is_syncing (p : fbo_pc) : bool := match p with SyncRun => true | _ => false end.
(** A format between its two critical sections. *)
Definition is_immed (p : fbo_pc) : bool := match p with FmtRun _ | FmtDone => true | _ => false end.

Definition pc_ok (st : fbo_state) (p : fbo_pc) : Prop :=
  match p with FmtRun j => job_ok st j | _ => True end.

Record bg_inv (s : fbo_sysm) : Prop := {
  bi_wf : fbo_wf (sy_st s);
  bi_lbas : fb_num_lbas (sy_st s) < 2 ^ 32;
  bi_file : (length (sy_file s) <= fbo_bytes (sy_st s))%nat;
  bi_format : count is_formatting (sy_thr s) = (if fb_has (sy_st s) FBO_FORMATTING then 1 else 0)%nat;
  bi_count : fb_async_cache_count (sy_st s) = u8 (Z.of_nat (count is_syncing (sy_thr s)));
  bi_immed : fb_has (sy_st s) FBO_FORMAT_IMMED = true -> (0 < count is_immed (sy_thr s))%nat;
  bi_jobs : Forall (pc_ok (sy_st s)) (sy_thr s);
  bi_event : sy_seen s <> fbo_busy (sy_st s) -> fb_has (sy_st s) FBO_BUSY_EVENT = true
}.

Lemma bg_inv_initial s : fbo_initial s -> bg_inv s.
Proof.
  destruct s as [st f thr seen]. intros ([W H32 Hf] & Hfl & Hc & Ht & Hs). cbn in *. subst.
  assert (forall g, Z.land FBO_READ_ONLY g = 0 -> fb_has st g = false) as Hflag.
  { intros g Hg. unfold fb_has. destruct Hfl as [-> | ->]; [by rewrite Z.land_0_l|by rewrite Hg]. }
  split; cbn; try done.
  - by rewrite Hflag.
  - by rewrite Hflag.
  - unfold fbo_busy. by rewrite Hflag, Hc.
Qed.

(** States that agree on what the invariant looks at. *)
Record bg_same (st st' : fbo_state) : Prop := {
  bs_lbas : fb_num_lbas st' = fb_num_lbas st;
  bs_size : fb_block_size st' = fb_block_size st
}.

Lemma bg_same_wf st st' : bg_same st st' -> fbo_wf st -> fbo_wf st'.
Proof. intros [N1 N2] [W1 W2]. split; by rewrite ?N1, ?N2. Qed.

Lemma bg_same_job st st' j : bg_same st st' -> job_ok st j -> job_ok st' j.
Proof. intros [N1 _] [J1 J2 J3]. split; by rewrite ?N1. Qed.

Lemma bg_same_jobs st st' l : bg_same st st' -> Forall (pc_ok st) l -> Forall (pc_ok st') l.
Proof.
  intros B H. eapply Forall_impl; [exact H|]. intros [| | |j|]; cbn; auto. by apply bg_same_job.
Qed.

Lemma thread_put_count f l i p p' :
  l !! i = Some p ->
  (count f (thread_put l i p') + (if f p then 1 else 0) =
   count f l + match p' with Some q => if f q then 1 else 0 | None => 0 end)%nat.
Proof.
  intros Hi. destruct p' as [q|]; cbn [thread_put]; [by apply count_insert|].
  rewrite <- (take_drop_middle l i p Hi) at 3. rewrite !count_app, count_cons. lia.
Qed.

Lemma thread_put_Forall (P : fbo_pc -> Prop) l i p' :
  Forall P l -> match p' with Some q => P q | None => True end -> Forall P (thread_put l i p').
Proof.
  intros H Hq. destruct p' as [q|]; cbn [thread_put]; [by apply Forall_insert|].
  apply Forall_app. split; [by apply Forall_take|by apply Forall_drop].
Qed.

Lemma u8_u8_add a b : u8 (u8 a + b) = u8 (a + b).
Proof. unfold u8, wrap. by rewrite Z.add_mod_idemp_l. Qed.

Lemma fb_has_flags a b g : fb_flags a = fb_flags b -> fb_has a g = fb_has b g.
Proof. unfold fb_has. by intros ->. Qed.

Lemma fb_has_on_counted st n f g :
  Z.land f g = 0 -> fb_has (fb_on (fb_set_count st n) f) g = fb_has st g.
Proof. intros H. by rewrite fb_has_on_other. Qed.

(** A thread always can take its step, and comes closer to its end. *)
Definition pc_measure (st : fbo_state) (p : fbo_pc) : nat :=
  match p with
  | SyncNew => 2
  | SyncRun => 1
  | FmtNew => Z.to_nat (fb_num_lbas st) + 3
  | FmtRun j => Z.to_nat (fb_num_lbas st - fj_done j) + 2
  | FmtDone => 1
  end.

Definition after_measure (st : fbo_state) (p : option fbo_pc) : nat :=
  match p with Some p => pc_measure st p | None => 0 end.

(** What a step of a thread does. *)
Record step_effect (st : fbo_state) (f : list Z) (p : fbo_pc) (p' : option fbo_pc) (st' : fbo_state)
    (f' : list Z) : Prop := {
  se_same : bg_same st st';
  se_file : (length f <= fbo_bytes st)%nat -> (length f' <= fbo_bytes st)%nat;
  se_pc : match p' with Some q => pc_ok st' q | None => True end;
  se_measure : (after_measure st' p' < pc_measure st p)%nat;
  se_format : fb_has st' FBO_FORMATTING =
    (if is_formatting p then match p' with Some q => is_formatting q && fb_has st FBO_FORMATTING | None => false end
     else fb_has st FBO_FORMATTING);
  se_count : fb_async_cache_count st' =
    match p with
    | SyncNew => u8 (fb_async_cache_count st + 1)
    | SyncRun => u8 (fb_async_cache_count st - 1)
    | _ => fb_async_cache_count st
    end;
  se_immed : fb_has st' FBO_FORMAT_IMMED =
    match p with FmtNew => true | FmtDone => false | _ => fb_has st FBO_FORMAT_IMMED end;
  se_event : fb_has st' FBO_BUSY_EVENT = true \/
    fb_has st' FBO_BUSY_EVENT = fb_has st FBO_BUSY_EVENT /\ fbo_busy st' = fbo_busy st;
  se_kind : match p, p' with
            | SyncNew, Some SyncRun | SyncRun, None | FmtNew, Some (FmtRun _) | FmtRun _, Some (FmtRun _)
            | FmtRun _, Some FmtDone | FmtDone, None => True
            | _, _ => False
            end
}.

(** The round of a format, when it fails and when the job is over. *)
Lemma format_off_effect st st1 f f' j :
  same_but_progress st st1 -> ((length f <= fbo_bytes st)%nat -> (length f' <= fbo_bytes st)%nat) ->
  step_effect st f (FmtRun j) (Some FmtDone) (fb_off st1 FBO_FORMATTING) f'.
Proof.
  intros S Hf. destruct (same_but_progress_fields _ _ S) as (N1 & N2 & N3 & N4 & N5).
  split; cbn; try done; try lia.
  - apply fb_has_off.
  - rewrite fb_has_off_other by done. by apply fb_has_flags.
  - right. rewrite fb_has_off_other by done. split; [by apply fb_has_flags|].
    unfold fbo_busy. rewrite fb_has_off_other by done. cbn. rewrite N5. f_equal. by apply fb_has_flags.
Qed.

Lemma thread_step_effect sys p st f :
  fbo_wf st -> fb_num_lbas st < 2 ^ 32 -> pc_ok st p ->
  exists p' st' f', thread_step sys p st f = Some (p', st', f') /\ step_effect st f p p' st' f'.
Proof.
  intros W H32 Hp. destruct p as [| | |j|]; cbn [thread_step].
  - eexists _, _, _. split; [done|]. split; cbn; try done; try lia; [by apply fb_has_on_counted..|left].
    by apply fb_has_on.
  - eexists _, _, _. split; [done|]. split; cbn; try done; try lia; [by apply fb_has_on_counted..|left].
    by apply fb_has_on.
  - eexists _, _, _. split; [done|]. split; cbn; try done; try lia.
    + apply (bg_same_job st); [by split|by apply job0_ok].
    + by apply fb_has_on_other.
    + by apply fb_has_on.
    + left. by apply fb_has_on.
  - cbn [pc_ok] in Hp. destruct (fbo_job_busy st j) eqn:Hb.
    2:{ eexists _, _, _. split; [done|]. apply format_off_effect; [apply same_but_progress_refl|done]. }
    destruct (fbo_format_round_spec sys st f j W H32 Hp Hb) as
      (st1 & S & [[_ ->]|(k & j' & Hk & -> & J & Hd & Ho)]); cbn [mbind option_bind].
    + eexists _, _, _. split; [done|]. by apply format_off_effect.
    + destruct (same_but_progress_fields _ _ S) as (N1 & N2 & N3 & N4 & N5).
      assert (bg_same st st1) as B by (by split).
      eexists _, _, _. split; [done|]. pose proof Hp as [J1 J2 _]. pose proof J as [J1' J2' _].
      split; cbn; try done.
      * intros Hf. pose proof (length_round_file f (fj_offset j) k ltac:(lia)).
        unfold fbo_bytes in *. destruct W as [_ W2]. lia.
      * by apply (bg_same_job st).
      * rewrite N1. lia.
      * by apply fb_has_flags.
      * by apply fb_has_flags.
      * right. split; [by apply fb_has_flags|]. unfold fbo_busy. rewrite N5. f_equal. by apply fb_has_flags.
  - eexists _, _, _. split; [done|]. split; cbn; try done; try lia.
    + unfold format_end. rewrite fb_has_on_other by done. by apply fb_has_off_other.
    + unfold format_end. rewrite fb_has_on_other by done. apply fb_has_off.
    + left. by apply fb_has_on.
Qed.

Lemma Forall_lookup_pc (P : fbo_pc -> Prop) l i p : Forall P l -> l !! i = Some p -> P p.
Proof. intros H Hi. by apply (proj1 (Forall_lookup _ _) H i). Qed.

Lemma bg_inv_thread s s' : bg_inv s -> bg_step s s' -> bg_inv s'.
Proof.
  intros I H. destruct H as [sys st f thr seen i p p' st' f' Hi Hs].
  destruct I as [W H32 Hf Hfmt Hcnt Him Hjobs Hev]. cbn [sy_st sy_file sy_thr sy_seen] in *.
  pose proof (Forall_lookup_pc _ _ _ _ Hjobs Hi) as Hp.
  destruct (thread_step_effect sys p st f W H32 Hp) as (q & st2 & f2 & Hs2 & E). rewrite Hs in Hs2. simplify_eq.
  destruct E as [B Ef Epc _ Efmt Ecnt Eim Eev Ek]. pose proof B as [N1 N2].
  pose proof (thread_put_count is_formatting thr i p q Hi) as C1.
  pose proof (thread_put_count is_syncing thr i p q Hi) as C2.
  pose proof (thread_put_count is_immed thr i p q Hi) as C3.
  split; cbn [sy_st sy_file sy_thr sy_seen].
  - by eapply bg_same_wf.
  - by rewrite N1.
  - unfold fbo_bytes in *. rewrite N1. by apply Ef.
  - rewrite Efmt. destruct p, q as [[| | |?|]|]; try done; cbn [is_formatting andb] in *;
      destruct (fb_has st FBO_FORMATTING); lia.
  - rewrite Ecnt, Hcnt. destruct p, q as [[| | |?|]|]; try done; cbn [is_syncing] in *;
      rewrite ?Z.sub_opp_r, <- ?Z.add_opp_r, ?u8_u8_add; f_equal; lia.
  - rewrite Eim. destruct p, q as [[| | |?|]|]; try done; cbn [is_immed] in *; intros Hx;
      try (specialize (Him Hx)); lia.
  - apply thread_put_Forall; [by eapply bg_same_jobs|done].
  - intros Hne. destruct Eev as [?|[E1 E2]]; [done|]. rewrite E1. apply Hev. by rewrite <- E2.
Qed.

(** ** Commands *)

(** What a command does to what the threads share with it. *)
Record cmd_bg_effect (st st' : fbo_state) (new : list fbo_pc) (rep : option bool) : Prop := {
  ce_same : bg_same st st';
  ce_format : (count is_formatting new + (if fb_has st FBO_FORMATTING then 1 else 0) =
               (if fb_has st' FBO_FORMATTING then 1 else 0))%nat;
  ce_count : fb_async_cache_count st' = fb_async_cache_count st;
  ce_immed : fb_has st' FBO_FORMAT_IMMED = fb_has st FBO_FORMAT_IMMED;
  ce_new : Forall (fun p => p = SyncNew \/ p = FmtNew) new;
  ce_event : match rep with
             | Some v => v = fbo_busy st
             | None => fb_has st' FBO_BUSY_EVENT = fb_has st FBO_BUSY_EVENT
             end
}.

Lemma keep_bg_effect st st' : st_keep st st' -> cmd_bg_effect st st' [] None.
Proof.
  intros (N1 & N2 & _ & _ & N5 & K). split; try done; try (by apply K); try constructor; try done.
  by rewrite K.
Qed.

(** The events that a GET EVENT STATUS NOTIFICATION takes away are the ones its
    answer reports. *)
Lemma event_bg_effect e cdb s s' rc :
  fbo_buffers s -> fc_thr s = [] -> byte_at cdb 0 = GPCMD_GET_EVENT_STATUS_NOTIFICATION ->
  fbo_work e cdb s = Some (s', [rc]) ->
  cmd_bg_effect (fc_st s) (fc_st s') (map thread_start (fc_thr s')) (fbo_report cdb (fc_st s)) /\
  fc_file s' = fc_file s.
Proof.
  intros Hb Ht Hop E. unfold fbo_work, fbo_handle_cmd in E. rewrite Hop in E.
  change (runs_while_formatting GPCMD_GET_EVENT_STATUS_NOTIFICATION) with true in E. rewrite andb_false_r in E.
  change (GPCMD_GET_EVENT_STATUS_NOTIFICATION =? READ_CAPACITY) with false in E. cbn [andb] in E.
  assert (fbo_switch e cdb s = fbo_emulate_get_event_status_notification cdb s) as Es
    by (unfold fbo_switch; by rewrite Hop).
  rewrite Es in E. unfold fbo_report. rewrite Hop, Z.eqb_refl. cbn [negb orb].
  destruct (xfer_length_op cdb _ Hop ltac:(cbn; tauto)) as [al Hal]. rewrite Hal. cbn [mbind option_bind].
  unfold fbo_emulate_get_event_status_notification in E. rewrite Hal in E. cbn [mbind option_bind] in E.
  destruct (Z.land (byte_at cdb 1) 0x01 =? 0).
  { cbn in E. simplify_eq. rewrite Ht. split; [apply keep_bg_effect, st_keep_refl|done]. }
  destruct (fbo_event_data_spec (fc_st s) (byte_at cdb 4) (u16 al)) as (buf & used & st' & Ed & L & Hu & T).
  rewrite Ed in E |- *. cbn [mbind option_bind] in E |- *.
  assert (fbo_buffers (fc_set_st s st')) as Hb' by (destruct Hb; by split).
  destruct (fsend_total (fc_set_st s st') buf used Hb') as (m & iov & Ef); [lia|].
  rewrite Ef in E. cbn in E. simplify_eq. cbn. rewrite Ht. split; [|done].
  destruct T as [T1 T2 _ T4 T5 T6]. split; cbn; try done; try (by apply T5); try (by rewrite T5).
  destruct (reported_busy buf used); [by destruct T6|done].
Qed.

Lemma format_bg_effect e s s' rc :
  fe_malloc e = true -> fe_thread e = true -> fc_thr s = [] -> format_outcome e s s' rc ->
  cmd_bg_effect (fc_st s) (fc_st s') (map thread_start (fc_thr s')) None.
Proof.
  intros Hm Hth Ht O. destruct O as [E1 _ E3 _|H0 _ E1 _ E3|_ Hn|st1 H0 _ _ S E1 E3 _ _].
  - rewrite E1, E3, Ht. apply keep_bg_effect, st_keep_refl.
  - rewrite E1, E3, Ht, Hth. cbn [map app thread_start].
    assert (fb_has (fb_on (fb_set_progress (fc_st s) 0) FBO_FORMATTING) FBO_FORMATTING = true) as Hon
      by (by apply fb_has_on).
    split; rewrite ?Hon, ?H0; try done; try (by rewrite fb_has_on_other). constructor; [by right|done].
  - congruence.
  - rewrite E1, E3, Ht. destruct (same_but_progress_fields _ _ S) as (N1 & N2 & N3 & N4 & N5).
    assert (forall g, Z.land FBO_FORMATTING g = 0 -> fb_has (fb_off st1 FBO_FORMATTING) g = fb_has (fc_st s) g) as Hg.
    { intros g Hg. rewrite fb_has_off_other by done. rewrite (fb_has_flags _ _ _ N3). by rewrite fb_has_on_other. }
    split; try done; try (by apply Hg); try (by split). all: try (by rewrite fb_has_off, H0).
Qed.

Lemma cmd_bg e cdb s s' rc :
  fbo_cmd_ok e cdb s -> fe_malloc e = true -> fe_thread e = true -> fbo_ready s -> fc_thr s = [] ->
  fbo_work e cdb s = Some (s', [rc]) ->
  cmd_bg_effect (fc_st s) (fc_st s') (map thread_start (fc_thr s')) (fbo_report cdb (fc_st s)).
Proof.
  intros Hok Hm Hth Hy Ht E.
  destruct (Z.eqb_spec (byte_at cdb 0) GPCMD_GET_EVENT_STATUS_NOTIFICATION) as [Hop|Hop].
  { by apply (event_bg_effect e cdb s s' rc (fk_buffers _ _ _ Hok)). }
  assert (fbo_report cdb (fc_st s) = None) as ->.
  { unfold fbo_report. by rewrite (proj2 (Z.eqb_neq _ _) Hop). }
  destruct (fbo_work_effect e cdb s Hok Hy) as (s2 & rc2 & E2 & Ee & _). rewrite E in E2. simplify_eq.
  destruct Ee as [[K _ T]|_ Es _ T|_ K T _ _| |_ O _]; try congruence.
  - rewrite T, Ht. by apply keep_bg_effect.
  - rewrite T, Ht, Es. cbn [map app thread_start]. split; try done. constructor; [by left|done].
  - rewrite T, Ht. by apply keep_bg_effect.
  - by eapply format_bg_effect.
Qed.

Lemma count_all_false {A} (f : A -> bool) l : Forall (fun p => f p = false) l -> count f l = 0%nat.
Proof. unfold count. induction 1 as [|p l Hp _ IH]; cbn; [done|]. by rewrite Hp. Qed.

Lemma bg_inv_step s s' : bg_inv s -> fbo_step s s' -> bg_inv s'.
Proof.
  intros I H. destruct H as [e cdb m iov se st f thr seen s2 rc Hok Hm Hth E|s1 s2 H];
    [|exact (bg_inv_thread _ _ I H)].
  destruct I as [W H32 Hf Hfmt Hcnt Him Hjobs Hev]. cbn [sy_st sy_file sy_thr sy_seen] in *.
  assert (fbo_ready (FCmd st f m iov se [])) as Hy by (by split).
  pose proof (cmd_bg e cdb _ _ _ Hok Hm Hth Hy eq_refl E) as [B Cf Cc Ci Cn Ce]. cbn [fc_st] in *.
  destruct (fbo_work_effect e cdb _ Hok Hy) as (s3 & rc3 & E3 & Ee & _). rewrite E in E3. simplify_eq.
  pose proof (cmd_effect_ready _ _ _ _ _ Ee Hy) as [W' H32' Hf'].
  assert (fbo_busy (fc_st s3) = fbo_busy st) as Hbusy by (unfold fbo_busy; by rewrite Ci, Cc).
  set (new := map thread_start (fc_thr s3)) in *.
  assert (count is_syncing new = 0%nat) as C1.
  { apply count_all_false. eapply Forall_impl; [exact Cn|]. by intros p [-> | ->]. }
  split; cbn [sy_st sy_file sy_thr sy_seen]; try done.
  - rewrite count_app. lia.
  - rewrite Cc, Hcnt, count_app, C1. do 2 f_equal. lia.
  - rewrite Ci, count_app. intros Hx. specialize (Him Hx). lia.
  - apply Forall_app. split; [by eapply bg_same_jobs|]. eapply Forall_impl; [exact Cn|]. by intros p [-> | ->].
  - rewrite Hbusy. destruct (fbo_report cdb st) as [v|]; [intros Hne; by destruct Hne|].
    rewrite Ce. exact Hev.
Qed.

Lemma bg_inv_reachable s : fbo_reachable s -> bg_inv s.
Proof.
  induction 1 as [s H|s s' _ IH Hs]; [by apply bg_inv_initial|by eapply bg_inv_step].
Qed.

(** ** Draining *)

Fixpoint nsum (l : list nat) : nat := match l with [] => 0 | n :: l => n + nsum l end.

Lemma nsum_app a b : nsum (a ++ b) = (nsum a + nsum b)%nat.
Proof. induction a; cbn; lia. Qed.

Definition bg_measure (s : fbo_sysm) : nat := nsum (map (pc_measure (sy_st s)) (sy_thr s)).

Lemma pc_measure_same st st' p : bg_same st st' -> pc_measure st' p = pc_measure st p.
Proof. intros [N1 _]. destruct p; cbn; by rewrite ?N1. Qed.

Lemma map_measure_same st st' l : bg_same st st' -> map (pc_measure st') l = map (pc_measure st) l.
Proof. intros B. apply map_ext. intros p. by apply pc_measure_same. Qed.

Lemma thread_put_sum st l i p p' :
  l !! i = Some p ->
  (nsum (map (pc_measure st) (thread_put l i p')) + pc_measure st p =
   nsum (map (pc_measure st) l) + after_measure st p')%nat.
Proof.
  intros Hi. pose proof (take_drop_middle l i p Hi) as E.
  assert (nsum (map (pc_measure st) l) =
          (nsum (map (pc_measure st) (take i l)) + pc_measure st p + nsum (map (pc_measure st) (drop (S i) l)))%nat) as El.
  { rewrite <- E at 1. rewrite map_app, nsum_app. cbn. lia. }
  rewrite El. destruct p' as [q|]; cbn [thread_put after_measure].
  - rewrite (insert_take_drop l i q) by (by eapply lookup_lt_Some). rewrite map_app, nsum_app. cbn. lia.
  - rewrite map_app, nsum_app. lia.
Qed.

Lemma bg_step_measure s s' : bg_inv s -> bg_step s s' -> (bg_measure s' < bg_measure s)%nat.
Proof.
  intros I H. destruct H as [sys st f thr seen i p p' st' f' Hi Hs].
  destruct I as [W H32 _ _ _ _ Hjobs _]. cbn [sy_st sy_file sy_thr sy_seen] in *.
  pose proof (Forall_lookup_pc _ _ _ _ Hjobs Hi) as Hp.
  destruct (thread_step_effect sys p st f W H32 Hp) as (q & st2 & f2 & Hs2 & E). rewrite Hs in Hs2. simplify_eq.
  pose proof (se_same _ _ _ _ _ _ E) as B. pose proof (se_measure _ _ _ _ _ _ E) as M.
  unfold bg_measure. cbn [sy_st sy_thr]. rewrite (map_measure_same st st2) by done.
  pose proof (thread_put_sum st thr i p q Hi).
  assert (after_measure st2 q = after_measure st q) as Em by (destruct q; cbn; [by apply pc_measure_same|done]).
  lia.
Qed.

(** Runs of the threads alone. *)
Inductive bg_run : nat -> fbo_sysm -> fbo_sysm -> Prop :=
| BgRun0 s : bg_run 0 s s
| BgRunS n s s1 s2 : bg_step s s1 -> bg_run n s1 s2 -> bg_run (S n) s s2.

Lemma bg_run_inv n s s' : bg_inv s -> bg_run n s s' -> bg_inv s' /\ (n + bg_measure s' <= bg_measure s)%nat.
Proof.
  intros I H. induction H as [s|n s s1 s2 Hs _ IH]; [by split|].
  pose proof (bg_step_measure _ _ I Hs). destruct (IH (bg_inv_thread _ _ I Hs)). split; [done|lia].
Qed.

Lemma bg_can_step (sys : file_sys) s : bg_inv s -> sy_thr s <> [] -> exists s', bg_step s s'.
Proof.
  destruct s as [st f thr seen]. intros [W H32 _ _ _ _ Hjobs _] Hne. cbn [sy_st sy_file sy_thr sy_seen] in *.
  destruct thr as [|p thr]; [done|].
  inversion Hjobs as [|? ? Hp _]; subst.
  destruct (thread_step_effect sys p st f W H32 Hp) as (q & st2 & f2 & Hs & _).
  eexists. by eapply (BgStep sys st f (p :: thr) seen 0).
Qed.

Lemma bg_inv_quiet s :
  bg_inv s -> sy_thr s = [] -> fb_has (sy_st s) FBO_FORMATTING = false /\ fbo_busy (sy_st s) = false.
Proof.
  intros [_ _ _ Hfmt Hcnt Him _ _] Ht. rewrite Ht in *. cbn in *. split.
  - by destruct (fb_has (sy_st s) FBO_FORMATTING).
  - unfold fbo_busy. rewrite Hcnt. destruct (fb_has (sy_st s) FBO_FORMAT_IMMED); [specialize (Him eq_refl); lia|done].
Qed.

(** ** Theorems *)

(** C25: Under every interleaving of commands and background threads, whatever
    the system calls do (but with memory and threads to be had): the drive is
    marked as formatting exactly while one format is at work in the background;
    the count of synchronisations is the number that run, modulo 256; and no
    change of the busy status is lost: while the last report differs from the
    status, an event is pending, and the next poll for busy events reports it
    with the status. *)
Theorem fbo_background_exact (s : fbo_sysm) (H : fbo_reachable s) :
  (fb_has (sy_st s) FBO_FORMATTING = true <-> exists p, In p (sy_thr s) /\ is_formatting p = true) /\
  (count is_formatting (sy_thr s) <= 1)%nat /\
  fb_async_cache_count (sy_st s) = Z.of_nat (count is_syncing (sy_thr s)) mod 256 /\
  (sy_seen s <> fbo_busy (sy_st s) ->
   exists st', fbo_event_data (sy_st s) 0x40 8 =
     Some ([0; 4; 6; 0x42; 1; if fbo_busy (sy_st s) then 1 else 0; 0; 0], 8, st') /\
     fb_has st' FBO_BUSY_EVENT = false).
Proof.
  destruct (bg_inv_reachable s H) as [_ _ _ Hfmt Hcnt _ _ Hev].
  split; [|split; [|split]].
  - split.
    + intros Hf. rewrite Hf in Hfmt. unfold count in Hfmt.
      destruct (List.filter is_formatting (sy_thr s)) as [|p l] eqn:E; [done|].
      exists p. apply filter_In. rewrite E. by left.
    + intros (p & Hin & Hp). apply list_elem_of_In, list_elem_of_lookup in Hin as [i Hi].
      pose proof (count_pos is_formatting _ _ _ Hi Hp). destruct (fb_has (sy_st s) FBO_FORMATTING); [done|lia].
  - rewrite Hfmt. destruct (fb_has _ _); lia.
  - exact Hcnt.
  - intros Hne. specialize (Hev Hne). unfold fbo_event_data. cbv zeta. run_store.
    change (Z.land 0x40 0x42 =? 0) with false. change (Z.land 0x40 2 =? 0) with true.
    cbn [negb andb mbind option_bind]. run_store. change (4 <? 8) with true. rewrite Hev.
    cbn [mbind option_bind]. run_store.
    assert (fb_has (fb_off (sy_st s) FBO_BUSY_EVENT) FBO_FORMAT_IMMED = fb_has (sy_st s) FBO_FORMAT_IMMED) as ->
      by (by apply fb_has_off_other).
    change (fb_async_cache_count (fb_off (sy_st s) FBO_BUSY_EVENT)) with (fb_async_cache_count (sy_st s)).
    fold (fbo_busy (sy_st s)).
    destruct (fbo_busy (sy_st s)); eexists; (split; [reflexivity|apply fb_has_off]).
Qed.

(** From every reachable state the background threads end: any run of them
    alone is finite, some run finishes them all, and then the drive is neither
    formatting nor busy.  This holds whatever the writes of the format do. *)
Theorem fbo_background_drains (s : fbo_sysm) (sys : file_sys) (H : fbo_reachable s) :
  (forall n s', bg_run n s s' -> (n <= bg_measure s)%nat) /\
  exists n s', bg_run n s s' /\ sy_thr s' = [] /\ fb_has (sy_st s') FBO_FORMATTING = false /\
    fbo_busy (sy_st s') = false.
Proof.
  pose proof (bg_inv_reachable s H) as I. split.
  { intros n s' Hr. destruct (bg_run_inv n s s' I Hr). lia. }
  clear H. remember (bg_measure s) as k eqn:Ek. revert s I Ek.
  induction (lt_wf k) as [k _ IH]. intros s I ->.
  destruct (decide (sy_thr s = [])) as [Ht|Hne].
  { exists 0%nat, s. split; [constructor|]. split; [done|]. by apply bg_inv_quiet. }
  destruct (bg_can_step sys s I Hne) as [s1 Hs].
  destruct (IH _ (bg_step_measure _ _ I Hs) s1 (bg_inv_thread _ _ I Hs) eq_refl) as (n & s' & Hr & Hq).
  exists (S n), s'. split; [by econstructor|done].
Qed.

(** ** A background format, and its race *)

Definition bg_params : list Z := [0; 0xa2; 0; 8; 0; 0; 0; 3; 0; 0; 8; 0].

Definition bg_env : fbo_env := FEnv full_sys true true (zeros 512).

(** A drive of three blocks. *)
Definition bg_system (flags progress : Z) (f : list Z) (thr : list fbo_pc) : fbo_sysm :=
  Sysm (Fbo 3 2048 0 flags progress 2 0) f thr false.

(** FORMAT UNIT with the immediate bit. *)
Definition bg_cmd (flags progress : Z) (f : list Z) : fcmd :=
  FCmd (Fbo 3 2048 0 flags progress 2 0) f {[ 0%nat := bg_params ]} [Iov (Ptr 0 0) 12] (zeros 18) [].

Lemma bg_format_step flags progress flags' f thr m iov se :
  fbo_work bg_env [0x04; 0x11; 0; 0; 0; 0] (bg_cmd flags progress f) =
    Some (FCmd (Fbo 3 2048 0 flags' 0 2 0) f m iov se [FormatThread], [TCMU_STS_OK]) ->
  fbo_step (bg_system flags progress f thr) (bg_system flags' 0 f (thr ++ [FmtNew])).
Proof.
  intros E.
  refine (StepCmd bg_env [0x04; 0x11; 0; 0; 0; 0] _ _ _ _ f thr false _ TCMU_STS_OK _ eq_refl eq_refl E).
  split; [split; cbn; lia|reflexivity|repeat constructor; cbn; lia| |discriminate].
  split; [eexists; vm_compute; reflexivity|by split|cbn; lia].
Qed.

Lemma bg_thread_step sys flags progress flags' progress' f f' thr thr' i p p' :
  thr !! i = Some p ->
  thread_step sys p (Fbo 3 2048 0 flags progress 2 0) f = Some (p', Fbo 3 2048 0 flags' progress' 2 0, f') ->
  thr' = thread_put thr i p' ->
  fbo_step (bg_system flags progress f thr) (bg_system flags' progress' f' thr').
Proof. intros Hi Hs ->. apply StepThread. by eapply (BgStep sys). Qed.

Lemma bg_initial_reachable : fbo_reachable (bg_system 0 0 [] []).
Proof.
  apply ReachInit. split; [|by auto]. split; [by split|done|apply Nat.le_0_l].
Qed.

(** The format is accepted, and its thread has entered its loop. *)
Lemma bg_formatting_reachable : fbo_reachable (bg_system 0x38 0 [] [FmtRun fbo_job0]).
Proof.
  eapply ReachStep; [eapply ReachStep; [exact bg_initial_reachable|]|].
  - by eapply (bg_format_step 0 0 0x10 [] []).
  - by eapply (bg_thread_step full_sys _ _ _ _ _ _ _ _ 0).
Qed.

(** The drive whose format has just begun: it is not reported as busy yet. *)
Lemma fbo_background_exact_witness :
  exists st', fbo_event_data (sy_st (bg_system 0x38 0 [] [FmtRun fbo_job0])) 0x40 8 =
    Some ([0; 4; 6; 0x42; 1; 1; 0; 0], 8, st') /\ fb_has st' FBO_BUSY_EVENT = false.
Proof.
  destruct (fbo_background_exact _ bg_formatting_reachable) as (_ & _ & _ & H). by apply H.
Defined.

Lemma fbo_background_drains_witness :
  exists n s', bg_run n (bg_system 0x38 0 [] [FmtRun fbo_job0]) s' /\ sy_thr s' = [] /\
    fb_has (sy_st s') FBO_FORMATTING = false /\ fbo_busy (sy_st s') = false.
Proof. exact (proj2 (fbo_background_drains _ full_sys bg_formatting_reachable)). Defined.

(** The end of a background format and the start of the next one race: the
    thread leaves the state of formatting before it clears its immediate flag,
    so that a second FORMAT UNIT is accepted in between and loses its flag.  A
    drive of which a thread is formatting, and which is marked so, can be
    reported as not busy. *)
Theorem fbo_format_busy_lost :
  exists s, fbo_reachable s /\ sy_thr s = [FmtRun fbo_job0] /\
    fb_has (sy_st s) FBO_FORMATTING = true /\ fbo_busy (sy_st s) = false.
Proof.
  exists (bg_system (Z.lor FBO_FORMATTING FBO_BUSY_EVENT) 0 (zeros 6144) [FmtRun fbo_job0]).
  split; [|by vm_compute].
  eapply ReachStep; [eapply ReachStep; [eapply ReachStep; [eapply ReachStep; [eapply ReachStep;
    [exact bg_formatting_reachable|]|]|]|]|].
  - by eapply (bg_thread_step full_sys _ _ _ _ _ _ _ _ 0).
  - by eapply (bg_thread_step full_sys _ _ _ _ _ _ _ _ 0).
  - by eapply (bg_format_step _ _ 0x38).
  - by eapply (bg_thread_step full_sys _ _ _ _ _ _ _ _ 1).
  - by eapply (bg_thread_step full_sys _ _ _ _ _ _ _ _ 0).
Qed.
