(* ===== verification/Qcow.v ===== *)
(** * The QCOW handler: images

    [qcow.c]: the headers of QCOW images of version 1 and 2/3, opening them, the
    two table levels with the cache of second-level tables, allocation and
    reference counts, and the scattered reads and writes over them.

    A file is its bytes; the results of the coming system calls and allocations
    are a list in the state, and once it is used up they succeed completely.
    Backing images are behind the interface [Bdev] ([struct bdev_ops]), zlib is a
    parameter. *)

From S2P Require Import Prelude Scsi Iovec Device Backstore FileBack Configfs.

(** ** Files *)

Record img := Img { i_file : list Z; i_out : list Z }.

(** The result of the next call that could transfer [want] bytes: a negative
    number is an error. *)
Definition next_out (want : Z) (f : img) : Z * img :=
  match i_out f with
  | [] => (want, f)
  | r :: out => (r, Img (i_file f) out)
  end.

(** [off_t] is signed. *)
Definition img_pread (f : img) (len off : Z) : list Z * Z * img :=
  let '(r, f) := next_out len f in
  if (r <? 0) || (s64 off <? 0) then ([], -1, f)
  else
    let bs := take (Z.to_nat (Z.min r len)) (drop (Z.to_nat off) (i_file f)) in
    (bs, Z.of_nat (length bs), f).

Definition img_pwrite (f : img) (bs : list Z) (off : Z) : Z * img :=
  let '(r, f) := next_out (Z.of_nat (length bs)) f in
  if (r <? 0) || (s64 off <? 0) then (-1, f)
  else
    let bs := take (Z.to_nat r) bs in
    match bs with
    | [] => (0, f)
    | _ => (Z.of_nat (length bs), Img (write_at (grow (i_file f) (Z.to_nat off)) off bs) (i_out f))
    end.

(** Both take the answer to this call for their own [file_sys]. *)
Definition img_preadv (f : img) (m : mem) (iov : list iovec) (cnt off : Z) : option (img * mem * Z) :=
  want ← tcmu_iovec_length iov cnt;
  let '(r, f) := next_out want f in
  if s64 off <? 0 then Some (f, m, -1)
  else '(m, ret) ← preadv (FSys (fun _ _ => r) (fun _ _ => r) 0) (i_file f) m iov cnt off; Some (f, m, ret).

Definition img_pwritev (f : img) (m : mem) (iov : list iovec) (cnt off : Z) : option (img * Z) :=
  want ← tcmu_iovec_length iov cnt;
  let '(r, f) := next_out want f in
  if s64 off <? 0 then Some (f, -1)
  else '(b, ret) ← pwritev (FSys (fun _ _ => r) (fun _ _ => r) 0) (i_file f) m iov cnt off;
       Some (Img b (i_out f), ret).

(** ** Block devices *)

(** The data operations of an image.
    [src tcmu-runner/qcow.c 96-102 struct bdev_ops] *)
Class Bdev (B : Type) := {
  bd_preadv : B -> mem -> list iovec -> Z -> Z -> option (B * mem * Z);
  bd_pwritev : B -> mem -> list iovec -> Z -> Z -> option (B * Z)
}.

(** [src tcmu-runner/qcow.c raw_preadv] *)
Definition raw_preadv (f : img) (m : mem) (iov : list iovec) (cnt off : Z) : option (img * mem * Z) :=
  img_preadv f m iov cnt off.

(** [src tcmu-runner/qcow.c raw_pwritev] *)
Definition raw_pwritev (f : img) (m : mem) (iov : list iovec) (cnt off : Z) : option (img * Z) :=
  img_pwritev f m iov cnt off.

#[export] Instance raw_ops : Bdev img := {| bd_preadv := raw_preadv; bd_pwritev := raw_pwritev |}.

(** ** Headers *)

Definition QCOW_MAGIC : Z := 0x514649fb.
Definition QCOW_OFLAG_COMPRESSED : Z := 2 ^ 63.
Definition QCOW2_OFLAG_COPIED : Z := 2 ^ 63.
Definition QCOW2_OFLAG_COMPRESSED : Z := 2 ^ 62.
Definition QCOW2_OFLAG_ZERO : Z := 1.
Definition QCOW_CRYPT_NONE : Z := 0.
Definition L2_CACHE_SIZE : nat := 16.

(** [n] big-endian bytes at [off] of a header. *)
Definition hfield (h : list Z) (off n : nat) : Z := be_dec (take n (drop off h)).

(** The fields that are used.
    [src tcmu-runner/qcow.h 15-28 struct qcow_header] *)
Record qcow_header := QHdr {
  h_magic : Z; h_version : Z; h_backing_file_offset : Z; h_backing_file_size : Z; h_size : Z;
  h_cluster_bits : Z; h_l2_bits : Z; h_crypt_method : Z; h_l1_table_offset : Z
}.

(** [src tcmu-runner/qcow.c qcow_header_bswap] *)
Definition qcow_header_bswap (be : list Z) : qcow_header :=
  QHdr (hfield be 0 4) (hfield be 4 4) (hfield be 8 8) (hfield be 16 4) (hfield be 24 8)
    (hfield be 32 1) (hfield be 33 1) (hfield be 36 4) (hfield be 40 8).

(** [src tcmu-runner/qcow2.h 120-142 struct qcow2_header] *)
Record qcow2_header := Q2Hdr {
  h2_magic : Z; h2_version : Z; h2_backing_file_offset : Z; h2_backing_file_size : Z; h2_cluster_bits : Z;
  h2_size : Z; h2_crypt_method : Z; h2_l1_size : Z; h2_l1_table_offset : Z; h2_refcount_table_offset : Z;
  h2_refcount_table_clusters : Z; h2_refcount_order : Z
}.

(** [src tcmu-runner/qcow.c qcow2_header_bswap] *)
Definition qcow2_header_bswap (be : list Z) : qcow2_header :=
  let version := hfield be 4 4 in
  Q2Hdr (hfield be 0 4) version (hfield be 8 8) (hfield be 16 4) (hfield be 20 4) (hfield be 24 8)
    (hfield be 32 4) (hfield be 36 4) (hfield be 40 8) (hfield be 48 8) (hfield be 56 4)
    (if version =? 2 then 4 else hfield be 96 4).

(** [src tcmu-runner/qcow.c qcow_validate_header] *)
Definition qcow_validate_header (h : qcow_header) : bool :=
  (h_magic h =? QCOW_MAGIC) && (h_version h =? 1)
  && negb ((h_cluster_bits h <? 9) || (16 <? h_cluster_bits h))
  && negb ((h_l2_bits h <? 9 - 3) || (16 - 3 <? h_l2_bits h))
  && (h_crypt_method h =? QCOW_CRYPT_NONE).

(** [src tcmu-runner/qcow.c qcow2_validate_header] *)
Definition qcow2_validate_header (h : qcow2_header) : bool :=
  (h2_magic h =? QCOW_MAGIC) && negb (h2_version h <? 2)
  && negb ((h2_cluster_bits h <? 9) || (16 <? h2_cluster_bits h))
  && (h2_crypt_method h =? QCOW_CRYPT_NONE).

(** Whether the file can be accessed is not a matter of its bytes.
    [src tcmu-runner/qcow.c qcow_probe] *)
Definition qcow_probe (f : list Z) : bool :=
  (hfield f 0 4 =? QCOW_MAGIC) && (hfield f 4 4 =? 1).

(** [src tcmu-runner/qcow.c qcow2_probe] *)
Definition qcow2_probe (f : list Z) : bool :=
  (hfield f 0 4 =? QCOW_MAGIC) && negb (hfield f 4 4 <? 2).

(** [src tcmu-runner/qcow.c raw_probe] *)
Definition raw_probe (size : Z) (f : list Z) : bool := Z.of_nat (length f) =? size.

(** ** State *)

(** What opening computes from the header.  [q_v2] stands for the function
    pointers [block_alloc] and [set_refcount].
    [src tcmu-runner/qcow.c 201-234 struct qcow_state] *)
Record qinfo := QInfo {
  q_v2 : bool;
  q_size : Z;
  cluster_bits : Z;
  l2_bits : Z;
  l1_size : Z;
  l1_table_offset : Z;
  cluster_compressed : Z;
  cluster_copied : Z;
  cluster_mask : Z;
  refcount_table_offset : Z;
  refcount_table_size : Z;
  refcount_order : Z
}.

(** The sizes that opening computes.
    [src tcmu-runner/qcow.c 488-488 qcow_image_open] *)
Definition cluster_size (q : qinfo) : Z := Z.shiftl 1 (cluster_bits q).
(** Sectors in a cluster.
    [src tcmu-runner/qcow.c 489-489 qcow_image_open] *)
Definition cluster_sectors (q : qinfo) : Z := Z.shiftl 1 (cluster_bits q - 9).
(** Entries of a second-level table.
    [src tcmu-runner/qcow.c 491-491 qcow_image_open] *)
Definition l2_size (q : qinfo) : Z := Z.shiftl 1 (l2_bits q).
(** The offset bits of a compressed entry.
    [src tcmu-runner/qcow.c 492-492 qcow_image_open] *)
Definition cluster_offset_mask (q : qinfo) : Z := Z.shiftl 1 (63 - cluster_bits q) - 1.

(** A cache of tables: contents, file offsets, use counts.
    [src tcmu-runner/qcow.c 218-220 struct qcow_state] *)
Record cache := Cache { c_data : list (list Z); c_offs : list Z; c_cnts : list Z }.

(** Tables are kept as the bytes of the file.  [cluster_data] is only a
    buffer.
    [src tcmu-runner/qcow.c 201-247 struct qcow_state] *)
Record qcow_state (B : Type) := QSt {
  q_info : qinfo;
  q_img : img;
  l1_table : list Z;
  l2_cache : cache;
  cluster_cache : list Z;
  cluster_cache_offset : Z;
  backing_image : option B;
  refcount_table : list Z;
  rc_cache : cache;
  first_free_cluster : Z
}.
Arguments QSt {B}. Arguments q_info {B}. Arguments q_img {B}. Arguments l1_table {B}. Arguments l2_cache {B}.
Arguments cluster_cache {B}. Arguments cluster_cache_offset {B}. Arguments backing_image {B}.
Arguments refcount_table {B}. Arguments rc_cache {B}. Arguments first_free_cluster {B}.

Section setters.
Context {B : Type}.
Implicit Types s : qcow_state B.
Definition set_img s f : qcow_state B := QSt (q_info s) f (l1_table s) (l2_cache s) (cluster_cache s)
  (cluster_cache_offset s) (backing_image s) (refcount_table s) (rc_cache s) (first_free_cluster s).
Definition set_l1 s t : qcow_state B := QSt (q_info s) (q_img s) t (l2_cache s) (cluster_cache s)
  (cluster_cache_offset s) (backing_image s) (refcount_table s) (rc_cache s) (first_free_cluster s).
Definition set_l2c s c : qcow_state B := QSt (q_info s) (q_img s) (l1_table s) c (cluster_cache s)
  (cluster_cache_offset s) (backing_image s) (refcount_table s) (rc_cache s) (first_free_cluster s).
Definition set_cc s c off : qcow_state B := QSt (q_info s) (q_img s) (l1_table s) (l2_cache s) c
  off (backing_image s) (refcount_table s) (rc_cache s) (first_free_cluster s).
Definition set_back s b : qcow_state B := QSt (q_info s) (q_img s) (l1_table s) (l2_cache s) (cluster_cache s)
  (cluster_cache_offset s) b (refcount_table s) (rc_cache s) (first_free_cluster s).
Definition set_rct s t : qcow_state B := QSt (q_info s) (q_img s) (l1_table s) (l2_cache s) (cluster_cache s)
  (cluster_cache_offset s) (backing_image s) t (rc_cache s) (first_free_cluster s).
Definition set_rcc s c : qcow_state B := QSt (q_info s) (q_img s) (l1_table s) (l2_cache s) (cluster_cache s)
  (cluster_cache_offset s) (backing_image s) (refcount_table s) c (first_free_cluster s).
Definition set_ffc s o : qcow_state B := QSt (q_info s) (q_img s) (l1_table s) (l2_cache s) (cluster_cache s)
  (cluster_cache_offset s) (backing_image s) (refcount_table s) (rc_cache s) o.
End setters.

(** [be64toh(t[i])].
    [src tcmu-runner/qcow.c 1106-1106 get_cluster_offset] *)
Definition get64 (t : list Z) (i : Z) : option Z := b ← bget t (Z.to_nat (8 * i)) 8; Some (be_dec b).
(** An entry stored big-endian.
    [src tcmu-runner/qcow.c 796-796 l1_table_update] *)
Definition set64 (t : list Z) (i v : Z) : option (list Z) := bset t (Z.to_nat (8 * i)) (be_enc 8 v).

(** ** The caches *)

(** The entry with an offset.
    [src tcmu-runner/qcow.c 735-736 l2_cache_lookup] *)
Fixpoint cache_find (offs : list Z) (off : Z) (i : nat) : option nat :=
  match offs with
  | [] => None
  | o :: offs => if off =? o then Some i else cache_find offs off (S i)
  end.

(** The least used entry.
    [src tcmu-runner/qcow.c 748-753 l2_cache_lookup] *)
Fixpoint cache_evict (cnts : list Z) (i min_index : nat) (min_count : Z) : nat :=
  match cnts with
  | [] => min_index
  | n :: cnts => if n <? min_count then cache_evict cnts (S i) i n else cache_evict cnts (S i) min_index min_count
  end.

(** The table at [off], of [bytes] bytes: its place, or [None] inside when it
    cannot be read (the evicted table is then partly overwritten, and keeps its
    offset).  A count that reaches [INT_MAX] starts a loop whose condition does
    not depend on its counter: [None] outside.
    [src tcmu-runner/qcow.c 735-761 l2_cache_lookup] *)
Definition cache_lookup (c : cache) (f : img) (bytes off : Z) : option (option nat * cache * img) :=
  match cache_find (c_offs c) off 0 with
  | Some i =>
      n ← c_cnts c !! i;
      if n + 1 =? INT_MAX then None
      else Some (Some i, Cache (c_data c) (c_offs c) (<[i := n + 1]> (c_cnts c)), f)
  | None =>
      let i := cache_evict (c_cnts c) 0 0 INT_MAX in
      let '(bs, ret, f) := img_pread f bytes off in
      d ← c_data c !! i;
      let data := <[i := bs ++ drop (length bs) d]> (c_data c) in
      if negb (ret =? bytes) then Some (None, Cache data (c_offs c) (c_cnts c), f)
      else Some (Some i, Cache data (<[i := off]> (c_offs c)) (<[i := 1]> (c_cnts c)), f)
  end.

Section qcow.
Context {B : Type}.
Implicit Types s : qcow_state B.

(** [src tcmu-runner/qcow.c l2_cache_lookup] *)
Definition l2_cache_lookup s (l2_offset : Z) : option (option nat * qcow_state B) :=
  '(i, c, f) ← cache_lookup (l2_cache s) (q_img s) (l2_size (q_info s) * 8) l2_offset;
  Some (i, set_l2c (set_img s f) c).

(** The same over the blocks of reference counts.
    [src tcmu-runner/qcow.c rc_cache_lookup] *)
Definition rc_cache_lookup s (rc_offset : Z) : option (option nat * qcow_state B) :=
  '(i, c, f) ← cache_lookup (rc_cache s) (q_img s) (cluster_size (q_info s)) rc_offset;
  Some (i, set_rcc (set_img s f) c).

(** ** Tables *)

(** An 8-byte entry written back; a failure is only logged.
    [src tcmu-runner/qcow.c 798-807 l1_table_update] *)
Definition write_entry s (v off : Z) : Z * qcow_state B :=
  let '(ret, f) := img_pwrite (q_img s) (be_enc 8 v) off in (ret, set_img s f).

(** [src tcmu-runner/qcow.c l1_table_update] *)
Definition l1_table_update s (l1_index l2_offset : Z) : option (Z * qcow_state B) :=
  t ← set64 (l1_table s) l1_index l2_offset;
  Some (write_entry (set_l1 s t) l2_offset (u64 (l1_table_offset (q_info s) + l1_index * 8))).

(** [i] is the place of the table in the cache.
    [src tcmu-runner/qcow.c l2_table_update] *)
Definition l2_table_update s (i : nat) (l2_table_offset l2_index cluster_offset : Z)
    : option (Z * qcow_state B) :=
  let c := l2_cache s in
  t ← c_data c !! i;
  t ← set64 t l2_index cluster_offset;
  Some (write_entry (set_l2c s (Cache (<[i := t]> (c_data c)) (c_offs c) (c_cnts c)))
          cluster_offset (u64 (l2_table_offset + l2_index * 8))).

(** ** Reference counts *)

(** A field of [w] bits ([w <= 8]) of a block.  [None] is [assert(0)].
    [src tcmu-runner/qcow.c get_refcount] *)
Definition get_refcount (order : Z) (rcblock : list Z) (index : Z) : option Z :=
  if order =? 0 then b ← rcblock !! Z.to_nat (index / 8); Some (Z.land (Z.shiftr b (index mod 8)) 0x1)
  else if order =? 1 then b ← rcblock !! Z.to_nat (index / 4); Some (Z.land (Z.shiftr b (2 * (index mod 4))) 0x3)
  else if order =? 2 then b ← rcblock !! Z.to_nat (index / 2); Some (Z.land (Z.shiftr b (4 * (index mod 2))) 0xf)
  else if order =? 3 then rcblock !! Z.to_nat index
  else if order =? 4 then b ← bget rcblock (Z.to_nat (2 * index)) 2; Some (be_dec b)
  else if order =? 5 then b ← bget rcblock (Z.to_nat (4 * index)) 4; Some (be_dec b)
  else if order =? 6 then get64 rcblock index
  else None.

(** Clears and sets a field of a byte.
    [src tcmu-runner/qcow.c 842-843 set_refcount] *)
Definition set_bits (rcblock : list Z) (byte sh mask value : Z) : option (list Z) :=
  b ← rcblock !! Z.to_nat byte;
  let b := u8 (Z.land b (Z.lnot (Z.shiftl mask sh))) in
  Some (<[Z.to_nat byte := u8 (Z.lor b (Z.shiftl value sh))]> rcblock).

(** The assertion shifts by the width of the count, which C does not define for
    64 bits.
    [src tcmu-runner/qcow.c set_refcount] *)
Definition set_refcount (order : Z) (rcblock : list Z) (index value : Z) : option (list Z) :=
  if (64 <=? Z.shiftl 1 order) || negb (Z.shiftr value (Z.shiftl 1 order) =? 0) then None
  else if order =? 0 then set_bits rcblock (index / 8) (index mod 8) 0x1 value
  else if order =? 1 then set_bits rcblock (index / 4) (2 * (index mod 4)) 0x3 value
  else if order =? 2 then set_bits rcblock (index / 2) (4 * (index mod 2)) 0xf value
  else if order =? 3 then bset rcblock (Z.to_nat index) [u8 value]
  else if order =? 4 then bset rcblock (Z.to_nat (2 * index)) (be_enc 2 value)
  else if order =? 5 then bset rcblock (Z.to_nat (4 * index)) (be_enc 4 value)
  else if order =? 6 then set64 rcblock index value
  else None.

(** The number of counts in a block, as a power of two.
    [src tcmu-runner/qcow.c 916-916 qcow2_get_refcount] *)
Definition refcount_bits (q : qinfo) : Z := cluster_bits q - refcount_order q + 3.

(** [rc_index] and [refblock_index] of a cluster.
    [src tcmu-runner/qcow.c 916-926 qcow2_get_refcount] *)
Definition rc_place (q : qinfo) (cluster_offset : Z) : Z * Z :=
  (Z.shiftr cluster_offset (cluster_bits q + refcount_bits q),
   Z.land (Z.shiftr cluster_offset (cluster_bits q)) (Z.shiftl 1 (refcount_bits q) - 1)).

(** A block that cannot be read counts as zeros.
    [src tcmu-runner/qcow.c qcow2_get_refcount] *)
Definition qcow2_get_refcount s (cluster_offset : Z) : option (Z * qcow_state B) :=
  let '(rc_index, refblock_index) := rc_place (q_info s) cluster_offset in
  refblock_offset ← get64 (refcount_table s) rc_index;
  if refblock_offset =? 0 then Some (0, s)
  else
    '(i, s) ← rc_cache_lookup s refblock_offset;
    match i with
    | None => Some (0, s)
    | Some i =>
        refblock ← c_data (rc_cache s) !! i;
        rc ← get_refcount (refcount_order (q_info s)) refblock refblock_index;
        Some (rc, s)
    end.

(** [src tcmu-runner/qcow.c rc_table_update] *)
Definition rc_table_update s (rc_index refblock_offset : Z) : option (Z * qcow_state B) :=
  t ← set64 (refcount_table s) rc_index refblock_offset;
  Some (write_entry (set_rct s t) refblock_offset (u64 (refcount_table_offset (q_info s) + rc_index * 8))).

(** ** Allocation *)

(** Round up to the end of the file and extend it; [ftruncate] refuses a length
    that is not an [off_t].
    [src tcmu-runner/qcow.c qcow_block_alloc] *)
Definition qcow_block_alloc s (size : Z) : Z * qcow_state B :=
  let f := q_img s in
  let off := Z.of_nat (length (i_file f)) in
  let '(r, f) := next_out off f in
  if r <? 0 then (0, set_img s f)
  else
    let offset := Z.land (u64 (off + size - 1)) (u64 (Z.lnot (size - 1))) in
    let '(r, f) := next_out 0 f in
    if (r <? 0) || (s64 (u64 (offset + size)) <? 0) then (0, set_img s f)
    else (offset, set_img s (Img (grow (i_file f) (Z.to_nat (offset + size))) (i_out f))).

(** The first cluster from [cluster] on without references; [None] when the
    search leaves the reference count table.
    [src tcmu-runner/qcow.c 1002-1005 qcow2_block_alloc] *)
Fixpoint find_free (fuel : nat) s (cluster : Z) : option (Z * qcow_state B) :=
  match fuel with
  | O => None
  | S fuel =>
      '(rc, s) ← qcow2_get_refcount s cluster;
      if rc =? 0 then Some (cluster, s) else find_free fuel s (u64 (cluster + cluster_size (q_info s)))
  end.

(** Each round passes a cluster that the table covers.
    [src tcmu-runner/qcow.c qcow2_block_alloc] *)
Definition qcow2_block_alloc s (size : Z) : option (Z * qcow_state B) :=
  let q := q_info s in
  if negb (size =? cluster_size q) then None
  else
    '(cluster, s) ← find_free (S (length (refcount_table s) * Z.to_nat (Z.shiftl 1 (refcount_bits q)))) s
                      (first_free_cluster s);
    let '(r, f) := next_out 0 (q_img s) in
    if negb (r =? 0) then Some (0, set_img s f)
    else
      let file := write_at (grow (i_file f) (Z.to_nat cluster)) cluster (zeros (Z.to_nat size)) in
      Some (cluster, set_ffc (set_img s (Img file (i_out f))) (u64 (cluster + size))).

(** The function pointer [block_alloc].
    [src tcmu-runner/qcow.c 243-243 struct qcow_state] *)
Definition block_alloc s (size : Z) : option (Z * qcow_state B) :=
  if q_v2 (q_info s) then qcow2_block_alloc s size else Some (qcow_block_alloc s size).

(** [src tcmu-runner/qcow.c qcow_cluster_alloc] *)
Definition qcow_cluster_alloc s : option (Z * qcow_state B) := block_alloc s (cluster_size (q_info s)).

(** [src tcmu-runner/qcow.c l2_table_alloc] *)
Definition l2_table_alloc s : option (Z * qcow_state B) := block_alloc s (l2_size (q_info s) * 8).

(** A block that holds no counts yet is allocated, and counts itself or in
    another block; [fuel] bounds how often this happens.
    [src tcmu-runner/qcow.c 950-989 qcow2_set_refcount] *)
Fixpoint qcow2_set_refcount_loop (fuel : nat) s (cluster_offset value : Z) : option (Z * qcow_state B) :=
  let '(rc_index, refblock_index) := rc_place (q_info s) cluster_offset in
  refblock_offset ← get64 (refcount_table s) rc_index;
  r ← (if refblock_offset =? 0 then
         '(o, s) ← qcow_cluster_alloc s;
         if o =? 0 then Some (inl s)
         else
           '(_, s) ← rc_table_update s rc_index o;
           match fuel with
           | O => None
           | S fuel => '(_, s) ← qcow2_set_refcount_loop fuel s o 1; Some (inr (o, s))
           end
       else Some (inr (refblock_offset, s)));
  match r with
  | inl s => Some (-1, s)
  | inr (refblock_offset, s) =>
      '(i, s) ← rc_cache_lookup s refblock_offset;
      match i with
      | None => Some (-1, s)
      | Some i =>
          let c := rc_cache s in
          t ← c_data c !! i;
          t ← set_refcount (refcount_order (q_info s)) t refblock_index value;
          let s := set_rcc s (Cache (<[i := t]> (c_data c)) (c_offs c) (c_cnts c)) in
          let '(ret, f) := img_pwrite (q_img s) t refblock_offset in
          Some (ret, set_img s f)
      end
  end.

(** Every recursive call fills an empty entry of the table.
    [src tcmu-runner/qcow.c qcow2_set_refcount] *)
Definition qcow2_set_refcount s (cluster_offset value : Z) : option (Z * qcow_state B) :=
  qcow2_set_refcount_loop (length (refcount_table s)) s cluster_offset value.

(** The function pointer [set_refcount]; version 1 counts nothing.
    [src tcmu-runner/qcow.c qcow_no_refcount] *)
Definition q_set_refcount s (cluster_offset value : Z) : option (Z * qcow_state B) :=
  if q_v2 (q_info s) then qcow2_set_refcount s cluster_offset value else Some (0, s).

(** ** Compressed clusters *)

Section zlib.
(** [inflate] on a stream with a window of 12 bits: the result code (negative
    when the stream cannot be set up) and the bytes that were produced, at most
    as many as asked for. *)
Variable inflate : list Z -> Z -> Z * list Z.

Definition Z_STREAM_END : Z := 1.
Definition Z_BUF_ERROR : Z := -5.

(** The new contents of [dst], and the result.
    [src tcmu-runner/qcow.c decompress_buffer] *)
Definition decompress_buffer (dst : list Z) (dst_size : Z) (src : list Z) : list Z * Z :=
  let '(ret, out) := inflate src dst_size in
  (out ++ drop (length out) dst,
   if negb ((ret =? Z_STREAM_END) || (ret =? Z_BUF_ERROR)) || negb (Z.of_nat (length out) =? dst_size)
   then -1 else 0).

(** Where a compressed cluster is in the file.
    [src tcmu-runner/qcow.c 1071-1074 decompress_cluster] *)
Definition compressed_place (q : qinfo) (cluster_offset : Z) : Z * Z :=
  (Z.land cluster_offset (cluster_offset_mask q),
   Z.land (Z.shiftr cluster_offset (63 - cluster_bits q)) (cluster_size q - 1)).

(** [src tcmu-runner/qcow.c decompress_cluster] *)
Definition decompress_cluster s (cluster_offset : Z) : Z * qcow_state B :=
  let '(coffset, csize) := compressed_place (q_info s) cluster_offset in
  if cluster_cache_offset s =? coffset then (0, s)
  else
    let '(data, ret, f) := img_pread (q_img s) csize coffset in
    let s := set_img s f in
    if negb (ret =? csize) then (-1, s)
    else
      let '(cc, ret) := decompress_buffer (cluster_cache s) (cluster_size (q_info s)) data in
      if ret <? 0 then (-1, set_cc s cc (cluster_cache_offset s))
      else (0, set_cc s cc coffset).

(** ** From virtual offsets to clusters *)

(** Links a new cluster: the second-level entry and its reference count.
    [src tcmu-runner/qcow.c 1132-1133 get_cluster_offset] *)
Definition link_cluster s (i : nat) (l2_offset l2_index cluster_offset : Z) : option (Z * qcow_state B) :=
  '(_, s) ← l2_table_update s i l2_offset l2_index (Z.lor cluster_offset (cluster_copied (q_info s)));
  '(_, s) ← q_set_refcount s cluster_offset 1;
  Some (Z.land cluster_offset (u64 (Z.lnot (cluster_copied (q_info s)))), s).

(** The second-level table of a virtual offset, 0 when there is none.
    [src tcmu-runner/qcow.c 1105-1118 get_cluster_offset] *)
Definition get_l2_offset s (l1_index : Z) (allocate : bool) : option (Z * qcow_state B) :=
  e ← get64 (l1_table s) l1_index;
  let l2_offset := Z.land e (cluster_mask (q_info s)) in
  if l2_offset =? 0 then
    if negb allocate then Some (0, s)
    else
      '(o, s) ← l2_table_alloc s;
      if o =? 0 then Some (0, s)
      else
        '(_, s) ← l1_table_update s l1_index (Z.lor o (cluster_copied (q_info s)));
        '(_, s) ← q_set_refcount s o 1;
        Some (o, s)
  else Some (l2_offset, s).

(** [src tcmu-runner/qcow.c get_cluster_offset] *)
Definition get_cluster_offset s (offset : Z) (allocate : bool) : option (Z * qcow_state B) :=
  let q := q_info s in
  let l1_index := u32 (Z.shiftr offset (l2_bits q + cluster_bits q)) in
  let l2_index := u32 (Z.land (Z.shiftr offset (cluster_bits q)) (l2_size q - 1)) in
  '(l2_offset, s) ← get_l2_offset s l1_index allocate;
  if l2_offset =? 0 then Some (0, s)
  else
    '(i, s) ← l2_cache_lookup s l2_offset;
    match i with
    | None => Some (0, s)
    | Some i =>
        l2_table ← c_data (l2_cache s) !! i;
        cluster_offset ← get64 l2_table l2_index;
        if cluster_offset =? 0 then
          if negb allocate then Some (0, s)
          else
            '(o, s) ← qcow_cluster_alloc s;
            if o =? 0 then Some (0, s) else link_cluster s i l2_offset l2_index o
        else if negb (Z.land cluster_offset (cluster_compressed q) =? 0) && allocate then
          let '(r, s) := decompress_cluster s cluster_offset in
          if r <? 0 then Some (0, s)
          else
            '(o, s) ← qcow_cluster_alloc s;
            if o =? 0 then Some (0, s)
            else
              let '(r, f) := img_pwrite (q_img s) (cluster_cache s) o in
              let s := set_img s f in
              if negb (r =? cluster_size q) then Some (0, s) else link_cluster s i l2_offset l2_index o
        else if (Z.land cluster_offset (cluster_copied q) =? 0) && allocate then
          let old_offset := Z.land cluster_offset (cluster_mask q) in
          let '(r, f) := next_out 0 (q_img s) in
          let s := set_img s f in
          if r <? 0 then Some (0, s)
          else
            '(o, s) ← qcow_cluster_alloc s;
            if o =? 0 then Some (0, s)
            else
              let '(cow_buffer, r, f) := img_pread (q_img s) (cluster_size q) old_offset in
              let s := set_img s f in
              if negb (r =? cluster_size q) then Some (0, s)
              else
                let '(r, f) := img_pwrite (q_img s) cow_buffer o in
                let s := set_img s f in
                if negb (r =? cluster_size q) then Some (0, s) else link_cluster s i l2_offset l2_index o
        else Some (Z.land cluster_offset (u64 (Z.lnot (cluster_copied q))), s)
    end.
End zlib.
End qcow.

(** ** Segments of a scatter list *)

(** The second loop of [iovec_segment].
    [src tcmu-runner/qcow.c 1193-1199 iovec_segment] *)
Fixpoint segment_take (iov : list iovec) (len : Z) : option (list iovec) :=
  if len =? 0 then Some []
  else match iov with
  | [] => None
  | v :: iov =>
      let n := Z.min (iov_len v) len in
      seg ← segment_take iov (len - n);
      Some (Iov (iov_base v) n :: seg)
  end.

(** [src tcmu-runner/qcow.c iovec_segment] *)
Fixpoint iovec_segment (iov : list iovec) (off len : Z) : option (list iovec) :=
  if off =? 0 then segment_take iov len
  else match iov with
  | [] => None
  | v :: iov =>
      if iov_len v <=? off then iovec_segment iov (off - iov_len v) len
      else
        let n := Z.min (iov_len v - off) len in
        seg ← segment_take iov (len - n);
        Some (Iov (padd (iov_base v) off) n :: seg)
  end.

(** [src tcmu-runner/qcow.c iovec_memset] *)
Fixpoint iovec_memset (m : mem) (iov : list iovec) (iovcnt c len : Z) : option mem :=
  if (len =? 0) || (iovcnt =? 0) then Some m
  else match iov with
  | [] => None
  | v :: iov =>
      let n := Z.min (iov_len v) len in
      m ← mem_store m (iov_base v) (replicate (Z.to_nat n) c);
      iovec_memset m iov (iovcnt - 1) c (len - n)
  end.

(** ** Reading and writing *)

Section io.
Context {B : Type} {HB : Bdev B} (inflate : list Z -> Z -> Z * list Z).
Implicit Types s : qcow_state B.

(** The part of a read inside one cluster: the state, the memory, and whether
    it went well ([Some true]), the loop ends ([Some false]) or the read fails
    ([None] inside).
    [src tcmu-runner/qcow.c 1239-1267 qcow_preadv] *)
Definition read_chunk s (m : mem) (seg : list iovec) (sector_num n : Z)
    : option (qcow_state B * mem * option bool) :=
  let cnt := Z.of_nat (length seg) in
  let sector_index := Z.land sector_num (cluster_sectors (q_info s) - 1) in
  '(cluster_offset, s) ← get_cluster_offset inflate s (u64 (Z.shiftl sector_num 9)) false;
  if cluster_offset =? 0 then
    match backing_image s with
    | None => m ← iovec_memset m seg cnt 0 (512 * n); Some (s, m, Some true)
    | Some b =>
        '(b, m, read) ← bd_preadv b m seg cnt (sector_num * 512);
        Some (set_back s (Some b), m, Some (read =? n * 512))
    end
  else if cluster_offset =? QCOW2_OFLAG_ZERO then
    m ← iovec_memset m seg cnt 0 (512 * n); Some (s, m, Some true)
  else if negb (Z.land cluster_offset (cluster_compressed (q_info s)) =? 0) then
    let '(r, s) := decompress_cluster inflate s cluster_offset in
    if r <? 0 then Some (s, m, None)
    else
      '(m, _, _) ← tcmu_memcpy_into_iovec m seg cnt (drop (Z.to_nat (sector_index * 512)) (cluster_cache s)) (512 * n);
      Some (s, m, Some true)
  else
    '(f, m, read) ← img_preadv (q_img s) m seg cnt (u64 (cluster_offset + sector_index * 512));
    Some (set_img s f, m, Some (read =? n * 512)).

(** [_off ? _off : -1].
    [src tcmu-runner/qcow.c 1272-1272 qcow_preadv] *)
Definition io_result (off : Z) : Z := if off =? 0 then -1 else off.

(** [src tcmu-runner/qcow.c 1235-1272 qcow_preadv] *)
Fixpoint qcow_preadv_loop (fuel : nat) s (m : mem) (iov : list iovec) (off sector_num sector_count : Z)
    : option (qcow_state B * mem * Z) :=
  if sector_count =? 0 then Some (s, m, io_result off)
  else match fuel with
  | O => None
  | S fuel =>
      let sector_index := Z.land sector_num (cluster_sectors (q_info s) - 1) in
      let n := Z.min sector_count (cluster_sectors (q_info s) - sector_index) in
      seg ← iovec_segment iov off (n * 512);
      '(s, m, r) ← read_chunk s m seg sector_num n;
      match r with
      | None => Some (s, m, -1)
      | Some false => Some (s, m, io_result off)
      | Some true => qcow_preadv_loop fuel s m iov (off + n * 512) (sector_num + n) (sector_count - n)
      end
  end.

(** [None] for a length that is not a multiple of 512 is the assertion.
    [src tcmu-runner/qcow.c qcow_preadv] *)
Definition qcow_preadv s (m : mem) (iov : list iovec) (iovcnt offset : Z) : option (qcow_state B * mem * Z) :=
  count ← tcmu_iovec_length iov iovcnt;
  if negb (Z.land count 511 =? 0) then None
  else
    let sector_count := count / 512 in
    qcow_preadv_loop (Z.to_nat sector_count) s m iov 0 (Z.shiftr offset 9) sector_count.

(** As [read_chunk]; the number of bytes that were written is not looked at.
    [src tcmu-runner/qcow.c 1304-1319 qcow_pwritev] *)
Definition write_chunk s (m : mem) (seg : list iovec) (sector_num : Z) : option (qcow_state B * option bool) :=
  let sector_index := Z.land sector_num (cluster_sectors (q_info s) - 1) in
  '(cluster_offset, s) ← get_cluster_offset inflate s (u64 (Z.shiftl sector_num 9)) true;
  if (cluster_offset =? 0) || negb (Z.land cluster_offset QCOW_OFLAG_COMPRESSED =? 0) then Some (s, None)
  else
    '(f, written) ← img_pwritev (q_img s) m seg (Z.of_nat (length seg)) (u64 (cluster_offset + sector_index * 512));
    Some (set_img s f, Some (negb (written <? 0))).

(** [src tcmu-runner/qcow.c 1300-1324 qcow_pwritev] *)
Fixpoint qcow_pwritev_loop (fuel : nat) s (m : mem) (iov : list iovec) (off sector_num sector_count : Z)
    : option (qcow_state B * Z) :=
  if sector_count =? 0 then Some (s, io_result off)
  else match fuel with
  | O => None
  | S fuel =>
      let sector_index := Z.land sector_num (cluster_sectors (q_info s) - 1) in
      let n := Z.min sector_count (cluster_sectors (q_info s) - sector_index) in
      seg ← iovec_segment iov off (n * 512);
      '(s, r) ← write_chunk s m seg sector_num;
      match r with
      | None => Some (s, -1)
      | Some false => Some (s, io_result off)
      | Some true => qcow_pwritev_loop fuel s m iov (off + n * 512) (sector_num + n) (sector_count - n)
      end
  end.

(** [src tcmu-runner/qcow.c qcow_pwritev] *)
Definition qcow_pwritev s (m : mem) (iov : list iovec) (iovcnt offset : Z) : option (qcow_state B * Z) :=
  count ← tcmu_iovec_length iov iovcnt;
  if negb (Z.land count 511 =? 0) then None
  else
    let sector_num := Z.shiftr offset 9 in
    let size := q_size (q_info s) / 512 in
    if size <=? sector_num then Some (s, 0)
    else
      let sector_count := Z.min (count / 512) (size - sector_num) in
      qcow_pwritev_loop (Z.to_nat sector_count) s m iov 0 sector_num sector_count.

End io.

#[export] Instance qcow_ops {B} `{Bdev B} (inflate : list Z -> Z -> Z * list Z) : Bdev (qcow_state B) | 10 :=
  {| bd_preadv := qcow_preadv inflate; bd_pwritev := qcow_pwritev inflate |}.

(** ** The callouts *)

Section callouts.
Context {D : Type} {HD : Bdev D}.
Implicit Types d : D.

(** A call that transfers nothing without an error is repeated for ever.
    [src tcmu-runner/qcow.c 1450-1461 qcow_read] *)
Fixpoint qcow_read_loop (fuel : nat) d (m : mem) (iov : list iovec) (iov_cnt remaining offset : Z)
    : option (D * mem * list iovec * tcmu_sts) :=
  if remaining =? 0 then Some (d, m, iov, TCMU_STS_OK)
  else match fuel with
  | O => None
  | S fuel =>
      '(d, m, ret) ← bd_preadv d m iov iov_cnt offset;
      if ret <? 0 then Some (d, m, iov, TCMU_STS_RD_ERR)
      else
        '(iov, _) ← tcmu_seek_in_iovec iov ret;
        qcow_read_loop fuel d m iov iov_cnt (u64 (remaining - ret)) (offset + ret)
  end.

(** [src tcmu-runner/qcow.c qcow_read] *)
Definition qcow_read d (m : mem) (iov : list iovec) (iov_cnt length offset : Z)
    : option (D * mem * list iovec * reply) :=
  '(d, m, iov, ret) ← qcow_read_loop (Z.to_nat length) d m iov iov_cnt length offset;
  Some (d, m, iov, Done ret).

(** [src tcmu-runner/qcow.c 1475-1486 qcow_write] *)
Fixpoint qcow_write_loop (fuel : nat) d (m : mem) (iov : list iovec) (iov_cnt remaining offset : Z)
    : option (D * list iovec * tcmu_sts) :=
  if remaining =? 0 then Some (d, iov, TCMU_STS_OK)
  else match fuel with
  | O => None
  | S fuel =>
      '(d, ret) ← bd_pwritev d m iov iov_cnt offset;
      if ret <? 0 then Some (d, iov, TCMU_STS_WR_ERR)
      else
        '(iov, _) ← tcmu_seek_in_iovec iov ret;
        qcow_write_loop fuel d m iov iov_cnt (u64 (remaining - ret)) (offset + ret)
  end.

(** [src tcmu-runner/qcow.c qcow_write] *)
Definition qcow_write d (m : mem) (iov : list iovec) (iov_cnt length offset : Z)
    : option (D * list iovec * reply) :=
  '(d, iov, ret) ← qcow_write_loop (Z.to_nat length) d m iov iov_cnt length offset;
  Some (d, iov, Done ret).

End callouts.
