(* ===== verification/QcowOpen.v ===== *)
(** * The QCOW handler: opening images

    [qcow.c] from [qcow_open] down: the choice between the formats, the checks of
    the two headers, loading the tables, the backing image.  An image and the
    chain of images behind it are one value. *)

From S2P Require Import Prelude Scsi Iovec Device Backstore FileBack Configfs WriteSame Qcow.

(** ** Images *)

(** [bdev->ops] tells the two apart.
    [src tcmu-runner/qcow.c 84-94 struct bdev] *)
Inductive bdev (B : Type) := BRaw (f : img) | BQcow (s : qcow_state B).
Arguments BRaw {B}. Arguments BQcow {B}.

Section ops.
Context {B : Type} {HB : Bdev B} (inflate : list Z -> Z -> Z * list Z).

(** [preadv] of the operations that the image has.
    [src tcmu-runner/qcow.c 96-102 struct bdev_ops] *)
Definition bdev_preadv (d : bdev B) (m : mem) (iov : list iovec) (cnt off : Z) : option (bdev B * mem * Z) :=
  match d with
  | BRaw f => '(f, m, r) ← raw_preadv f m iov cnt off; Some (BRaw f, m, r)
  | BQcow s => '(s, m, r) ← qcow_preadv inflate s m iov cnt off; Some (BQcow s, m, r)
  end.

(** [pwritev] of the operations that the image has.
    [src tcmu-runner/qcow.c 96-102 struct bdev_ops] *)
Definition bdev_pwritev (d : bdev B) (m : mem) (iov : list iovec) (cnt off : Z) : option (bdev B * Z) :=
  match d with
  | BRaw f => '(f, r) ← raw_pwritev f m iov cnt off; Some (BRaw f, r)
  | BQcow s => '(s, r) ← qcow_pwritev inflate s m iov cnt off; Some (BQcow s, r)
  end.

(** [fsync(bdev->fd)]: backing images are not written.
    [src tcmu-runner/qcow.c qcow_flush] *)
Definition qcow_flush (d : bdev B) : bdev B * reply :=
  let '(r, d) :=
    match d with
    | BRaw f => let '(r, f) := next_out 0 f in (r, BRaw f)
    | BQcow s => let '(r, f) := next_out 0 (q_img s) in (r, BQcow (set_img s f))
    end in
  (d, Done (if r =? 0 then TCMU_STS_OK else TCMU_STS_WR_ERR)).
End ops.

#[export] Instance bdev_ops {B} `{Bdev B} (inflate : list Z -> Z -> Z * list Z) : Bdev (bdev B) | 20 :=
  {| bd_preadv := bdev_preadv inflate; bd_pwritev := bdev_pwritev inflate |}.

(** An image with at most [n - 1] images behind it. *)
Fixpoint chain (n : nat) : Type := match n with O => Empty_set | S n => bdev (chain n) end.

Fixpoint chain_ops (inflate : list Z -> Z -> Z * list Z) (n : nat) : Bdev (chain n) :=
  match n with
  | O => {| bd_preadv (d : chain 0) := match d with end; bd_pwritev (d : chain 0) := match d with end |}
  | S n => bdev_ops (H := chain_ops inflate n) inflate
  end.

(** ** Opening an image *)

(** A call whose only answer is success or failure; also an allocation.
    [src tcmu-runner/qcow.c 452-454 qcow_image_open] *)
Definition sys_ok (f : img) : option img := let '(r, f) := next_out 0 f in if r <? 0 then None else Some f.

(** [src tcmu-runner/qcow.c raw_image_open] *)
Definition raw_image_open {B} (f : img) : option (bdev B) := f ← sys_ok f; Some (BRaw f).

(** All [len] bytes at [off].
    [src tcmu-runner/qcow.c 464-467 qcow_image_open] *)
Definition read_whole (f : img) (len off : Z) : option (list Z * img) :=
  let '(bs, r, f) := img_pread f len off in if r =? len then Some (bs, f) else None.

(** The checks on the size; the length of the first-level table.
    [src tcmu-runner/qcow.c 494-509 qcow_image_open] *)
Definition image_l1_size (size block_size shift : Z) : option Z :=
  if u64 (-1) - Z.shiftl 1 shift <? size then None
  else
    let l1_size := Z.shiftr (size + Z.shiftl 1 shift - 1) shift in
    if INT_MAX / 8 <? l1_size then None
    else
      r ← round_up size block_size;
      if negb (r =? size) then None else Some l1_size.

(** A cache with no table in it.
    [src tcmu-runner/qcow.c 523-527 qcow_image_open] *)
Definition empty_cache (bytes : Z) : cache :=
  Cache (replicate L2_CACHE_SIZE (zeros (Z.to_nat bytes))) (replicate L2_CACHE_SIZE 0) (replicate L2_CACHE_SIZE 0).

(** What the header of a version 1 image says.
    [src tcmu-runner/qcow.c 487-545 qcow_image_open] *)
Definition qcow_info (h : qcow_header) (l1_size : Z) : qinfo :=
  QInfo false (h_size h) (h_cluster_bits h) (h_l2_bits h) l1_size (h_l1_table_offset h)
    QCOW_OFLAG_COMPRESSED 0 (u64 (Z.lnot QCOW_OFLAG_COMPRESSED)) 0 0 0.

(** What the header of an image of a later version says.
    [src tcmu-runner/qcow.c 603-692 qcow2_image_open] *)
Definition qcow2_info (h : qcow2_header) (l1_size : Z) : qinfo :=
  QInfo true (h2_size h) (h2_cluster_bits h) (h2_cluster_bits h - 3) l1_size (h2_l1_table_offset h)
    QCOW2_OFLAG_COMPRESSED QCOW2_OFLAG_COPIED
    (u64 (Z.lnot (Z.lor (Z.lor QCOW_OFLAG_COMPRESSED QCOW2_OFLAG_COPIED) QCOW2_OFLAG_ZERO)))
    (h2_refcount_table_offset h) (u32 (Z.shiftl (h2_refcount_table_clusters h) (h2_cluster_bits h - 3)))
    (h2_refcount_order h).

Section open.
Context {B : Type}.

(** How the image with a name is opened, relative to this one. *)
Variable open_backing : list Z -> option B.

(** [None] is -1.  The fields are at the same place in both headers.
    [src tcmu-runner/qcow.c qcow_setup_backing_file] *)
Definition qcow_setup_backing_file (f : img) (offset len : Z) : option (img * option B) :=
  if (offset =? 0) || (len =? 0) then Some (f, None)
  else if Z.of_nat PATH_MAX <=? len then None
  else
    '(backing_file, f) ← read_whole f len offset;
    backing_file ← cstring (backing_file ++ [0]);
    f ← sys_ok f;
    f ← sys_ok f;
    b ← open_backing backing_file;
    Some (f, Some b).

(** [src tcmu-runner/qcow.c qcow_image_open] *)
Definition qcow_image_open (f : img) (size block_size : Z) : option (qcow_state B) :=
  f ← sys_ok f;
  f ← sys_ok f;
  '(buf, f) ← read_whole f 48 0;
  let header := qcow_header_bswap buf in
  if negb (qcow_validate_header header) then None
  else if negb (u64 size =? h_size header) then None
  else if negb (block_size =? 512) then None
  else
    l1_size ← image_l1_size (h_size header) block_size (h_cluster_bits header + h_l2_bits header);
    let q := qcow_info header l1_size in
    f ← sys_ok f;
    '(l1, f) ← read_whole f (l1_size * 8) (l1_table_offset q);
    f ← sys_ok f;
    f ← sys_ok f;
    f ← sys_ok f;
    '(f, b) ← qcow_setup_backing_file f (h_backing_file_offset header) (h_backing_file_size header);
    Some (QSt q f l1 (empty_cache (l2_size q * 8)) (zeros (Z.to_nat (cluster_size q))) (u64 (-1)) b
            [] (Cache [] (replicate L2_CACHE_SIZE 0) (replicate L2_CACHE_SIZE 0)) 0).

(** [src tcmu-runner/qcow.c qcow2_setup_backing_file] *)
Definition qcow2_setup_backing_file (f : img) (h : qcow2_header) : option (img * option B) :=
  qcow_setup_backing_file f (h2_backing_file_offset h) (h2_backing_file_size h).

(** [src tcmu-runner/qcow.c qcow2_image_open] *)
Definition qcow2_image_open (f : img) (size block_size : Z) : option (qcow_state B) :=
  f ← sys_ok f;
  f ← sys_ok f;
  '(buf, f) ← read_whole f 104 0;
  let header := qcow2_header_bswap buf in
  if negb (qcow2_validate_header header) then None
  else if negb (u64 size =? h2_size header) then None
  else if negb (block_size =? 512) then None
  else
    l1_size ← image_l1_size (h2_size header) block_size (h2_cluster_bits header + (h2_cluster_bits header - 3));
    let q := qcow2_info header l1_size in
    if negb (h2_l1_size header =? l1_size) then None
    else
      f ← sys_ok f;
      '(l1, f) ← read_whole f (l1_size * 8) (l1_table_offset q);
      f ← sys_ok f;
      f ← sys_ok f;
      f ← sys_ok f;
      f ← sys_ok f;
      '(rct, f) ← read_whole f (refcount_table_size q * 8) (refcount_table_offset q);
      f ← sys_ok f;
      '(f, b) ← qcow2_setup_backing_file f header;
      Some (QSt q f l1 (empty_cache (l2_size q * 8)) (zeros (Z.to_nat (cluster_size q))) (u64 (-1)) b
              rct (empty_cache (cluster_size q)) 0).
End open.

(** ** Opening a chain *)

(** A file: its bytes, whether it may be written, and the results of the calls
    once it is open. *)
Record fs_file := FsFile { fe_bytes : list Z; fe_writable : bool; fe_out : list Z }.

Section chain.
(** The files that can be read, and the path that a name in an image at a path
    stands for ([get_dirfd] and [openat]). *)
Variables (fs : list Z -> option fs_file) (resolve : list Z -> list Z -> list Z).

(** [n] images can be opened until no file descriptor is left.  The QCOW probes
    ask for write access.
    [src tcmu-runner/qcow.c bdev_open] *)
Fixpoint bdev_open (n : nat) (path : list Z) (size block_size : Z) : option (chain n) :=
  match n return option (chain n) with
  | O => None
  | S n =>
      file ← fs path;
      let f := Img (fe_bytes file) (fe_out file) in
      let open_backing name := bdev_open n (resolve path name) size block_size in
      if fe_writable file && qcow_probe (fe_bytes file) then
        s ← qcow_image_open open_backing f size block_size; Some (BQcow s)
      else if fe_writable file && qcow2_probe (fe_bytes file) then
        s ← qcow2_image_open open_backing f size block_size; Some (BQcow s)
      else if raw_probe size (fe_bytes file) then raw_image_open f
      else None
  end.

(** What is behind the first slash.
    [src tcmu-runner/qcow.c 1411-1416 qcow_open] *)
Fixpoint after_slash (s : list Z) : option (list Z) :=
  match s with [] => None | c :: s => if c =? 47 then Some s else after_slash s end.

(** [src tcmu-runner/libtcmu.c tcmu_set_dev_write_cache_enabled] *)
Definition tcmu_set_dev_write_cache_enabled (d : tcmu_device) (b : bool) : tcmu_device :=
  Dev (num_lbas d) (block_size d) (max_xfer_len d) (opt_unmap_gran d) (unmap_gran_align d)
      b (solid_state_media d) (cfgstring d) (dev_wwn d) (rhandler d).

(** [size] is the answer of [tcmu_get_dev_size].
    [src tcmu-runner/qcow.c qcow_open] *)
Definition qcow_open (n : nat) (dev : tcmu_device) (size : Z) : tcmu_device * option (chain n) :=
  if size <? 0 then (dev, None)
  else
    match after_slash (cfgstring dev) with
    | None => (dev, None)
    | Some config =>
        (tcmu_set_dev_write_cache_enabled dev true, bdev_open n config size (tcmu_get_dev_block_size dev))
    end.
End chain.
