(* ===== verification/QcowTab.v ===== *)
(** * The QCOW handler: the tables of an image

    The entry of a cluster as the bytes of the file have it, when the tables of a
    version 1 image are sound, and that sound tables stay sound when the file
    grows, a cluster is written, and a new table or cluster is linked.  The
    cache of tables in front of the file. *)

From S2P Require Import Prelude Iovec Backstore FileBack Configfs Qcow.

(** ** Regions of a file *)

(** The ranges of [n] bytes at [o] and of [n'] at [o'] do not meet. *)
Definition disj (o n o' n' : Z) : Prop := o + n <= o' \/ o' + n' <= o.

Lemma disj_sym o n o' n' : disj o n o' n' -> disj o' n' o n.
Proof. unfold disj. tauto. Qed.

Lemma disj_sub o n a k o' n' : o <= a -> a + k <= o + n -> disj o n o' n' -> disj a k o' n'.
Proof. unfold disj. lia. Qed.

Lemma lookup_read_at f a n i :
  read_at f a n !! i = if decide (i < Z.to_nat n)%nat then f !! (Z.to_nat a + i)%nat else None.
Proof.
  unfold read_at. case_decide; [by rewrite lookup_take_lt, lookup_drop by lia|by rewrite lookup_take_ge by lia].
Qed.

Lemma length_read_at_Z f a n :
  0 <= a -> 0 <= n -> a + n <= Z.of_nat (length f) -> length (read_at f a n) = Z.to_nat n.
Proof. intros. pose proof (length_read_at f a n). lia. Qed.

Lemma read_at_write_disj f o bs a n :
  0 <= o -> o + Z.of_nat (length bs) <= Z.of_nat (length f) -> 0 <= a ->
  disj o (Z.of_nat (length bs)) a n -> read_at (write_at f o bs) a n = read_at f a n.
Proof.
  intros H0 H1 H2 Hd. apply list_eq. intros i. rewrite !lookup_read_at. case_decide; [|done].
  rewrite lookup_write_at by lia. unfold disj in Hd. repeat case_decide; try done; lia.
Qed.

Lemma read_at_write_in f o bs a n :
  0 <= a <= o -> o + Z.of_nat (length bs) <= a + n -> a + n <= Z.of_nat (length f) ->
  read_at (write_at f o bs) a n = write_at (read_at f a n) (o - a) bs.
Proof.
  intros H0 H1 H2. pose proof (length_read_at_Z f a n). apply list_eq. intros i.
  rewrite lookup_write_at by lia. rewrite !lookup_read_at. case_decide.
  - rewrite lookup_write_at by lia. repeat case_decide; try done; try lia. f_equal. lia.
  - repeat case_decide; try done; try lia.
Qed.

Lemma read_at_app_l f x a n :
  0 <= a -> a + n <= Z.of_nat (length f) -> read_at (f ++ x) a n = read_at f a n.
Proof.
  intros H0 H1. apply list_eq. intros i. rewrite !lookup_read_at. case_decide; [|done].
  by rewrite lookup_app_l by lia.
Qed.

Lemma read_at_read_at f a n b k :
  0 <= a -> 0 <= b -> 0 <= k -> b + k <= n -> read_at (read_at f a n) b k = read_at f (a + b) k.
Proof.
  intros Ha Hb Hk Hn. apply list_eq. intros i. rewrite !lookup_read_at. case_decide; [|done].
  rewrite decide_True by lia. f_equal. lia.
Qed.

Lemma read_at_same f o bs n :
  0 <= o -> o <= Z.of_nat (length f) -> n = Z.of_nat (length bs) -> read_at (write_at f o bs) o n = bs.
Proof. intros ? ? ->. by apply read_write_at. Qed.

Lemma write_at_in_range f o bs :
  0 <= o -> o + Z.of_nat (length bs) <= Z.of_nat (length f) -> length (write_at f o bs) = length f.
Proof. apply length_write_at. Qed.

(** ** Entries *)

Definition entry (t : list Z) (i : Z) : Z := be_dec (read_at t (8 * i) 8).

Lemma get64_entry t i : 0 <= i -> 8 * i + 8 <= Z.of_nat (length t) -> get64 t i = Some (entry t i).
Proof.
  intros H0 H1. unfold get64, bget. rewrite decide_True by lia. cbn [mbind option_bind]. done.
Qed.

Lemma set64_write t i v :
  0 <= i -> 8 * i + 8 <= Z.of_nat (length t) -> set64 t i v = Some (write_at t (8 * i) (be_enc 8 v)).
Proof. intros H0 H1. unfold set64, bset. rewrite be_enc_length, decide_True by lia. unfold write_at. by rewrite be_enc_length. Qed.

Lemma entry_write_same t i v :
  0 <= i -> 8 * i + 8 <= Z.of_nat (length t) -> 0 <= v < 2 ^ 64 ->
  entry (write_at t (8 * i) (be_enc 8 v)) i = v.
Proof.
  intros H0 H1 Hv. unfold entry. rewrite read_at_same by (rewrite ?be_enc_length; lia).
  by apply be_dec_enc.
Qed.

Lemma entry_write_other t i j v :
  0 <= i -> 8 * i + 8 <= Z.of_nat (length t) -> 0 <= j -> i <> j ->
  entry (write_at t (8 * i) (be_enc 8 v)) j = entry t j.
Proof.
  intros H0 H1 Hj Hn. unfold entry. rewrite read_at_write_disj; [done|..]; rewrite ?be_enc_length; unfold disj; lia.
Qed.

Lemma entry_read_at f o n i :
  0 <= o -> 0 <= i -> 8 * i + 8 <= n -> entry (read_at f o n) i = be_dec (read_at f (o + 8 * i) 8).
Proof. intros. unfold entry. by rewrite read_at_read_at by lia. Qed.

(** ** System calls that succeed *)

Lemma s64_off off : 0 <= off < 2 ^ 63 -> (s64 off <? 0) = false.
Proof. intros H. unfold s64, wrap. rewrite Z.mod_small by lia. apply Z.ltb_ge. lia. Qed.

Lemma img_pread_ok f len off :
  0 <= off < 2 ^ 63 -> 0 <= len -> off + len <= Z.of_nat (length f) ->
  img_pread (Img f []) len off = (read_at f off len, len, Img f []).
Proof.
  intros H0 H1 H2. unfold img_pread. cbn [next_out i_out i_file]. rewrite s64_off by done.
  rewrite (proj2 (Z.ltb_ge _ _)) by lia. cbn [orb]. rewrite Z.min_id. fold (read_at f off len).
  rewrite length_read_at by lia. done.
Qed.

Lemma grow_id f n : (n <= length f)%nat -> grow f n = f.
Proof. intros. unfold grow. replace (n - length f)%nat with 0%nat by lia. apply app_nil_r. Qed.

Lemma img_pwrite_ok f bs off :
  0 <= off < 2 ^ 63 -> off + Z.of_nat (length bs) <= Z.of_nat (length f) ->
  img_pwrite (Img f []) bs off = (Z.of_nat (length bs), Img (write_at f off bs) []).
Proof.
  intros H0 H1. unfold img_pwrite. cbn [next_out i_out i_file]. rewrite s64_off by done.
  rewrite (proj2 (Z.ltb_ge _ _)) by lia. cbn [orb]. rewrite Nat2Z.id, firstn_all.
  destruct bs as [|b bs]; [by rewrite write_at_nil|]. by rewrite grow_id by (simpl in *; lia).
Qed.

Lemma iovec_length_of m iov g :
  gather m iov = Some g -> Z.of_nat (length g) < 2 ^ 64 ->
  tcmu_iovec_length iov (Z.of_nat (length iov)) = Some (Z.of_nat (length g)).
Proof.
  intros Hg Hl. rewrite tcmu_iovec_length_spec, <- (gather_length _ _ _ Hg). by rewrite u64_small by lia.
Qed.

(** A scatter of as many bytes as the buffers hold. *)
Lemma scatter_all m iov g bs :
  gather m iov = Some g -> iov_disj iov -> length bs = length g ->
  exists m', scatter m iov (Z.of_nat (length iov)) bs = Some m' /\ gather m' iov = Some bs /\
    (forall q n, outside iov q n -> mem_load m' q n = mem_load m q n).
Proof.
  intros Hg Hd Hl. unfold scatter.
  destruct (memcpy_into_loop_spec iov m g bs (Z.of_nat (length bs)) 0 Hg Hd) as (m' & iov' & -> & G & _ & F);
    try lia.
  cbn [mbind option_bind]. exists m'. split; [done|]. split; [|done].
  rewrite G, <- (gather_length _ _ _ Hg). unfold min_nat. rewrite Z.min_l by lia.
  rewrite Nat2Z.id. cbn [Z.to_nat]. by rewrite drop_0, firstn_all, drop_ge, app_nil_r by lia.
Qed.

Lemma img_preadv_ok f m iov g off :
  gather m iov = Some g -> iov_disj iov -> Z.of_nat (length g) < 2 ^ 64 -> 0 <= off < 2 ^ 63 ->
  off + Z.of_nat (length g) <= Z.of_nat (length f) ->
  exists m', img_preadv (Img f []) m iov (Z.of_nat (length iov)) off =
      Some (Img f [], m', Z.of_nat (length g)) /\
    gather m' iov = Some (read_at f off (Z.of_nat (length g))) /\
    (forall q n, outside iov q n -> mem_load m' q n = mem_load m q n).
Proof.
  intros Hg Hd Hl Ho Hf. unfold img_preadv, preadv. rewrite (iovec_length_of m iov g) by done.
  cbn [mbind option_bind next_out i_out i_file preadv_ret]. rewrite s64_off by done.
  rewrite (proj2 (Z.ltb_ge _ _)) by lia. rewrite Z.min_id. fold (read_at f off (Z.of_nat (length g))).
  pose proof (length_read_at f off (Z.of_nat (length g)) ltac:(lia) ltac:(lia) Hf) as L.
  destruct (scatter_all m iov g (read_at f off (Z.of_nat (length g))) Hg Hd) as (m' & -> & G & F); [lia|].
  cbn [mbind option_bind]. rewrite L. by exists m'.
Qed.

Lemma img_pwritev_ok f m iov g off :
  gather m iov = Some g -> Z.of_nat (length g) < 2 ^ 64 -> 0 <= off < 2 ^ 63 ->
  off + Z.of_nat (length g) <= Z.of_nat (length f) ->
  img_pwritev (Img f []) m iov (Z.of_nat (length iov)) off =
    Some (Img (write_at f off g) [], Z.of_nat (length g)).
Proof.
  intros Hg Hl Ho Hf. unfold img_pwritev, pwritev. rewrite (iovec_length_of m iov g) by done.
  cbn [mbind option_bind next_out i_out i_file pwritev_ret]. rewrite s64_off by done.
  rewrite (proj2 (Z.ltb_ge _ _)) by lia. rewrite Nat2Z.id, firstn_all, Hg. cbn [mbind option_bind].
  rewrite Z.min_id, Nat2Z.id, firstn_all. destruct g as [|x g]; [by rewrite (write_at_nil f off)|].
  cbn [length Z.of_nat Z.eqb]. rewrite grow_id by (simpl in *; lia). done.
Qed.

(** ** Geometry *)

(** What opening a version 1 image establishes. *)
Record geo (q : qinfo) : Prop := {
  g_v1 : q_v2 q = false;
  g_cb : 9 <= cluster_bits q <= 16;
  g_l2b : 6 <= l2_bits q <= 13;
  g_comp : cluster_compressed q = 2 ^ 63;
  g_cop : cluster_copied q = 0;
  g_mask : cluster_mask q = 2 ^ 63 - 1;
  g_l1 : 0 <= l1_size q <= 2 ^ 28;
  g_size : 0 <= q_size q <= l1_size q * l2_size q * cluster_size q;
  g_512 : q_size q mod 512 = 0
}.

Section geo.
Context (q : qinfo) (Hq : geo q).

Lemma cluster_size_pow : cluster_size q = 2 ^ cluster_bits q.
Proof. unfold cluster_size. rewrite Z.shiftl_mul_pow2; destruct Hq; lia. Qed.

Lemma cluster_sectors_pow : cluster_sectors q = 2 ^ (cluster_bits q - 9).
Proof. unfold cluster_sectors. rewrite Z.shiftl_mul_pow2; destruct Hq; lia. Qed.

Lemma l2_size_pow : l2_size q = 2 ^ l2_bits q.
Proof. unfold l2_size. rewrite Z.shiftl_mul_pow2; destruct Hq; lia. Qed.

Lemma cluster_size_sectors : cluster_size q = 512 * cluster_sectors q.
Proof.
  rewrite cluster_size_pow, cluster_sectors_pow. pose proof (g_cb _ Hq).
  change 512 with (2 ^ 9). rewrite <- Z.pow_add_r by lia. f_equal. lia.
Qed.

Lemma cluster_sectors_bounds : 1 <= cluster_sectors q <= 2 ^ 7.
Proof.
  rewrite cluster_sectors_pow. pose proof (g_cb _ Hq). split.
  - apply (Z.pow_le_mono_r 2 0); lia.
  - apply Z.pow_le_mono_r; lia.
Qed.

Lemma cluster_size_bounds : 512 <= cluster_size q <= 2 ^ 16.
Proof. rewrite cluster_size_sectors. pose proof cluster_sectors_bounds. lia. Qed.

Lemma l2_size_bounds : 64 <= l2_size q <= 2 ^ 13.
Proof.
  rewrite l2_size_pow. pose proof (g_l2b _ Hq). split.
  - apply (Z.pow_le_mono_r 2 6); lia.
  - apply Z.pow_le_mono_r; lia.
Qed.

(** The indexes that the code computes by shifts and masks. *)
Lemma sector_index_mod n : Z.land n (cluster_sectors q - 1) = n mod cluster_sectors q.
Proof.
  rewrite cluster_sectors_pow. pose proof (g_cb _ Hq).
  rewrite <- Z.land_ones by lia. f_equal. rewrite Z.ones_equiv. lia.
Qed.

Lemma l2_index_mod n : Z.land n (l2_size q - 1) = n mod l2_size q.
Proof.
  rewrite l2_size_pow. pose proof (g_l2b _ Hq).
  rewrite <- Z.land_ones by lia. f_equal. rewrite Z.ones_equiv. lia.
Qed.

Lemma cluster_index_div n : Z.shiftr n (cluster_bits q) = n / cluster_size q.
Proof. pose proof (g_cb _ Hq). by rewrite cluster_size_pow, Z.shiftr_div_pow2 by lia. Qed.

Lemma l1_index_div n : Z.shiftr n (l2_bits q + cluster_bits q) = n / cluster_size q / l2_size q.
Proof.
  pose proof (g_cb _ Hq). pose proof (g_l2b _ Hq).
  rewrite cluster_size_pow, l2_size_pow, Z.shiftr_div_pow2, Z.pow_add_r, Z.mul_comm by lia.
  rewrite Z.div_div by lia. done.
Qed.
End geo.

(** ** Entries of clusters *)

(** The second-level table that entry [j] of the first one names, 0 for none. *)
Definition l2off (q : qinfo) (l1 : list Z) (j : Z) : Z := Z.land (entry l1 j) (cluster_mask q).

(** The entry of cluster [c], 0 when it has none. *)
Definition ent (q : qinfo) (f l1 : list Z) (c : Z) : Z :=
  let o := l2off q l1 (c / l2_size q) in
  if o =? 0 then 0 else entry (read_at f o (l2_size q * 8)) (c mod l2_size q).

Definition is_comp (e : Z) : bool := negb (Z.land e (2 ^ 63) =? 0).

(** Where the bytes of a cluster are. *)
Definition place (q : qinfo) (e : Z) : Z * Z :=
  if is_comp e then compressed_place q e else (e, cluster_size q).

Definition live_table (q : qinfo) (j : Z) : Prop := 0 <= j < l1_size q.
Definition live (q : qinfo) (c : Z) : Prop := 0 <= c < l1_size q * l2_size q.

(** Apart from all tables. *)
Definition apart (q : qinfo) (l1 : list Z) (o n : Z) : Prop :=
  disj o n (l1_table_offset q) (8 * l1_size q) /\
  forall j, live_table q j -> l2off q l1 j <> 0 -> disj o n (l2off q l1 j) (l2_size q * 8).

(** Apart from the bytes of every cluster, except perhaps [x]. *)
Definition owns (q : qinfo) (f l1 : list Z) (x : option Z) (o n : Z) : Prop :=
  forall c, live q c -> x <> Some c -> ent q f l1 c <> 0 ->
    disj o n (place q (ent q f l1 c)).1 (place q (ent q f l1 c)).2.

Lemma live_index q c : geo q -> live q c -> live_table q (c / l2_size q) /\ 0 <= c mod l2_size q < l2_size q.
Proof.
  intros Hq [H0 H1]. pose proof (l2_size_bounds q Hq). split; [|apply Z.mod_pos_bound; lia]. split.
  - apply Z.div_pos; lia.
  - apply Z.div_lt_upper_bound; lia.
Qed.

Section zlib.
Variable inflate : list Z -> Z -> Z * list Z.

(** A compressed cluster that can be read. *)
Definition inflates (q : qinfo) (f : list Z) (e : Z) : Prop :=
  let r := inflate (read_at f (place q e).1 (place q e).2) (cluster_size q) in
  (r.1 = Z_STREAM_END \/ r.1 = Z_BUF_ERROR) /\ Z.of_nat (length r.2) = cluster_size q.

(** The tables of an image are sound. *)
Record tabs (q : qinfo) (f l1 : list Z) : Prop := {
  t_len : Z.of_nat (length l1) = 8 * l1_size q;
  t_l1 : 48 <= l1_table_offset q /\ l1_table_offset q + 8 * l1_size q <= Z.of_nat (length f);
  t_l1f : read_at f (l1_table_offset q) (8 * l1_size q) = l1;
  t_l2 : forall j, live_table q j -> l2off q l1 j <> 0 ->
    48 <= l2off q l1 j /\ l2off q l1 j + l2_size q * 8 <= Z.of_nat (length f) /\
    disj (l2off q l1 j) (l2_size q * 8) (l1_table_offset q) (8 * l1_size q);
  t_l2d : forall j k, live_table q j -> live_table q k -> j <> k -> l2off q l1 j <> 0 -> l2off q l1 k <> 0 ->
    disj (l2off q l1 j) (l2_size q * 8) (l2off q l1 k) (l2_size q * 8);
  t_ent : forall c, live q c -> ent q f l1 c <> 0 ->
    0 <= ent q f l1 c < 2 ^ 64 /\ 48 <= (place q (ent q f l1 c)).1 /\
    (place q (ent q f l1 c)).1 + (place q (ent q f l1 c)).2 <= Z.of_nat (length f) /\
    apart q l1 (place q (ent q f l1 c)).1 (place q (ent q f l1 c)).2;
  t_comp : forall c, live q c -> ent q f l1 c <> 0 -> is_comp (ent q f l1 c) = true ->
    inflates q f (ent q f l1 c) /\
    forall c', live q c' -> ent q f l1 c' <> 0 -> is_comp (ent q f l1 c') = true ->
      (place q (ent q f l1 c')).1 = (place q (ent q f l1 c)).1 ->
      (place q (ent q f l1 c')).2 = (place q (ent q f l1 c)).2
}.

(** The bytes of a cluster with an entry. *)
Definition cbyte (q : qinfo) (f : list Z) (e i : Z) : Z :=
  if is_comp e then
    default 0 ((inflate (read_at f (place q e).1 (place q e).2) (cluster_size q)).2 !! Z.to_nat i)
  else default 0 (f !! Z.to_nat (e + i)).

(** The byte at a virtual offset; [bk] is what lies behind the image. *)
Definition vbyte (q : qinfo) (f l1 : list Z) (bk : Z -> Z) (v : Z) : Z :=
  let e := ent q f l1 (v / cluster_size q) in
  if e =? 0 then bk v else cbyte q f e (v mod cluster_size q).

Lemma cbyte_agree q f f' e i :
  0 <= e -> 0 <= i < cluster_size q -> read_at f' (place q e).1 (place q e).2 = read_at f (place q e).1 (place q e).2 ->
  cbyte q f' e i = cbyte q f e i.
Proof.
  intros He Hi Hr. unfold cbyte. destruct (is_comp e) eqn:Hc; [by rewrite Hr|].
  unfold place in Hr. rewrite Hc in Hr. cbn [fst snd] in Hr.
  apply (f_equal (fun l => l !! Z.to_nat i)) in Hr. rewrite !lookup_read_at in Hr.
  rewrite !decide_True in Hr by lia. by replace (Z.to_nat (e + i)) with (Z.to_nat e + Z.to_nat i)%nat by lia; rewrite Hr.
Qed.

Section keep.
Context (q : qinfo) (Hq : geo q).

(** What matters of the file: the tables and the compressed clusters. *)
Lemma tabs_agree f f' l1 :
  tabs q f l1 -> (length f <= length f')%nat ->
  read_at f' (l1_table_offset q) (8 * l1_size q) = read_at f (l1_table_offset q) (8 * l1_size q) ->
  (forall j, live_table q j -> l2off q l1 j <> 0 ->
     read_at f' (l2off q l1 j) (l2_size q * 8) = read_at f (l2off q l1 j) (l2_size q * 8)) ->
  (forall c, live q c -> ent q f l1 c <> 0 -> is_comp (ent q f l1 c) = true ->
     read_at f' (place q (ent q f l1 c)).1 (place q (ent q f l1 c)).2 =
     read_at f (place q (ent q f l1 c)).1 (place q (ent q f l1 c)).2) ->
  tabs q f' l1 /\ forall c, live q c -> ent q f' l1 c = ent q f l1 c.
Proof.
  intros T Hlen H1 H2 H3.
  assert (forall c, live q c -> ent q f' l1 c = ent q f l1 c) as He.
  { intros c Hc. destruct (live_index q c Hq Hc) as [Hj Hk]. unfold ent.
    destruct (Z.eqb_spec (l2off q l1 (c / l2_size q)) 0); [done|]. by rewrite H2. }
  split; [|done]. destruct T as [Tl T1 T1f T2 T2d Te Tc]. split; auto.
  - lia.
  - by rewrite H1.
  - intros j Hj Ho. destruct (T2 j Hj Ho) as (? & ? & ?). split_and!; try done; lia.
  - intros c Hc. rewrite (He c Hc). intros Hn. destruct (Te c Hc Hn) as (? & ? & ? & ?). split_and!; try done; lia.
  - intros c Hc. rewrite (He c Hc). intros Hn Hcp. destruct (Tc c Hc Hn Hcp) as [HI HU]. split.
    + unfold inflates in *. by rewrite H3.
    + intros c' Hc'. rewrite (He c' Hc'). auto.
Qed.

(** The file grows. *)
Lemma tabs_ext f x l1 :
  tabs q f l1 -> tabs q (f ++ x) l1 /\ forall c, live q c -> ent q (f ++ x) l1 c = ent q f l1 c.
Proof.
  intros T. apply tabs_agree; [done|rewrite length_app; lia|..].
  - apply read_at_app_l; destruct (t_l1 _ _ _ T); lia.
  - intros j Hj Ho. destruct (t_l2 _ _ _ T j Hj Ho) as (? & ? & _). apply read_at_app_l; lia.
  - intros c Hc Hn _. destruct (t_ent _ _ _ T c Hc Hn) as (_ & ? & ? & _). apply read_at_app_l; lia.
Qed.

(** A write outside the tables and the compressed clusters. *)
Lemma tabs_write f l1 o bs :
  tabs q f l1 -> 0 <= o -> o + Z.of_nat (length bs) <= Z.of_nat (length f) ->
  apart q l1 o (Z.of_nat (length bs)) ->
  (forall c, live q c -> ent q f l1 c <> 0 -> is_comp (ent q f l1 c) = true ->
     disj o (Z.of_nat (length bs)) (place q (ent q f l1 c)).1 (place q (ent q f l1 c)).2) ->
  tabs q (write_at f o bs) l1 /\ forall c, live q c -> ent q (write_at f o bs) l1 c = ent q f l1 c.
Proof.
  intros T H0 Hl [A1 A2] HC. apply tabs_agree; [done|rewrite length_write_at; lia|..].
  - apply read_at_write_disj; try done. destruct (t_l1 _ _ _ T); lia.
  - intros j Hj Ho. apply read_at_write_disj; auto. destruct (t_l2 _ _ _ T j Hj Ho); lia.
  - intros c Hc Hn Hp. apply read_at_write_disj; auto. destruct (t_ent _ _ _ T c Hc Hn) as (_ & ? & _); lia.
Qed.

Lemma is_comp_small e : 0 <= e < 2 ^ 63 -> is_comp e = false.
Proof.
  intros He. unfold is_comp. replace (Z.land e (2 ^ 63)) with 0; [done|]. symmetry.
  replace (2 ^ 63) with (Z.shiftl 1 63) by done. rewrite Z.land_comm. by apply land_shiftl_low.
Qed.

Lemma place_small e : 0 <= e < 2 ^ 63 -> place q e = (e, cluster_size q).
Proof. intros He. unfold place. by rewrite is_comp_small. Qed.

(** Linking a cluster: its entry is written. *)
Lemma link_entry f l1 c o :
  tabs q f l1 -> live q c -> l2off q l1 (c / l2_size q) <> 0 ->
  48 <= o < 2 ^ 63 -> o + cluster_size q <= Z.of_nat (length f) ->
  apart q l1 o (cluster_size q) -> owns q f l1 (Some c) o (cluster_size q) ->
  let t := l2off q l1 (c / l2_size q) in
  let f' := write_at f (t + (c mod l2_size q) * 8) (be_enc 8 o) in
  length f' = length f /\
  (forall a n, 0 <= a -> apart q l1 a n -> read_at f' a n = read_at f a n) /\
  (forall j, live_table q j -> l2off q l1 j <> 0 -> j <> c / l2_size q ->
     read_at f' (l2off q l1 j) (l2_size q * 8) = read_at f (l2off q l1 j) (l2_size q * 8)) /\
  read_at f' t (l2_size q * 8) = write_at (read_at f t (l2_size q * 8)) (8 * (c mod l2_size q)) (be_enc 8 o) /\
  ent q f' l1 c = o /\ (forall c', live q c' -> c' <> c -> ent q f' l1 c' = ent q f l1 c') /\
  tabs q f' l1.
Proof.
  intros T Hc Ht Ho Hl Ha Hw t f'. destruct (live_index q c Hq Hc) as [Hj Hk].
  destruct (t_l2 _ _ _ T _ Hj Ht) as (Ht48 & Htl & Ht1). fold t in Ht, Ht48, Htl, Ht1.
  set (k := c mod l2_size q) in *. pose proof (be_enc_length 8 o) as Lo.
  assert (length f' = length f) as Lf by (apply length_write_at; rewrite ?Lo; lia).
  assert (forall a n, 0 <= a -> disj a n t (l2_size q * 8) -> read_at f' a n = read_at f a n) as Hd.
  { intros a n H0 Hd. apply read_at_write_disj; rewrite ?Lo; unfold disj in *; lia. }
  assert (forall a n, 0 <= a -> apart q l1 a n -> read_at f' a n = read_at f a n) as Hap.
  { intros a n H0 [_ Hd2]. apply Hd; [done|]. by apply Hd2. }
  assert (forall j, live_table q j -> l2off q l1 j <> 0 -> j <> c / l2_size q ->
     read_at f' (l2off q l1 j) (l2_size q * 8) = read_at f (l2off q l1 j) (l2_size q * 8)) as Hoth.
  { intros j Hjl Hjo Hne. apply Hd; [destruct (t_l2 _ _ _ T j Hjl Hjo); lia|]. by apply (t_l2d _ _ _ T). }
  assert (read_at f' t (l2_size q * 8) = write_at (read_at f t (l2_size q * 8)) (8 * k) (be_enc 8 o)) as Hown.
  { unfold f'. rewrite read_at_write_in by (rewrite ?Lo; lia). f_equal. lia. }
  assert (length (read_at f t (l2_size q * 8)) = Z.to_nat (l2_size q * 8)) as Lt
    by (apply length_read_at_Z; lia).
  assert (ent q f' l1 c = o) as Hec.
  { unfold ent. fold t k. rewrite (proj2 (Z.eqb_neq t 0)), Hown by done. apply entry_write_same; lia. }
  assert (forall c', live q c' -> c' <> c -> ent q f' l1 c' = ent q f l1 c') as Heo.
  { intros c' Hc' Hne. destruct (live_index q c' Hq Hc') as [Hj' Hk']. unfold ent.
    destruct (Z.eqb_spec (l2off q l1 (c' / l2_size q)) 0) as [|Hn]; [done|].
    destruct (decide (c' / l2_size q = c / l2_size q)) as [E|E]; [|by rewrite Hoth].
    rewrite E. fold t. rewrite Hown. apply entry_write_other; [lia..|].
    intros Ek. apply Hne. rewrite (Z.div_mod c' (l2_size q)), (Z.div_mod c (l2_size q)) by lia.
    fold k. rewrite <- Ek. by rewrite E. }
  split_and!; try done. split; [apply T|..].
  - destruct (t_l1 _ _ _ T). lia.
  - rewrite Hd; [apply T|destruct (t_l1 _ _ _ T); lia|by apply disj_sym].
  - intros j Hjl Hjo. destruct (t_l2 _ _ _ T j Hjl Hjo) as (? & ? & ?). split_and!; try done; lia.
  - apply T.
  - intros c' Hc' Hn. destruct (decide (c' = c)) as [->|Hne].
    + rewrite Hec, place_small in * by lia. cbn [fst snd]. split_and!; try done; lia.
    + rewrite Heo in * by done. rewrite Lf. by apply T.
  - intros c' Hc' Hn Hcp. destruct (decide (c' = c)) as [->|Hne].
    { rewrite Hec, is_comp_small in Hcp by lia. done. }
    rewrite Heo in * by done. destruct (t_comp _ _ _ T c' Hc' Hn Hcp) as [HI HU].
    destruct (t_ent _ _ _ T c' Hc' Hn) as (_ & H48 & _ & Hapc). split.
    + unfold inflates in *. by rewrite Hap by (done || lia).
    + intros d Hd' Hdn Hdc. destruct (decide (d = c)) as [->|Hne'].
      { rewrite Hec, is_comp_small in Hdc by lia. done. }
      rewrite Heo in * by done. auto.
Qed.

Lemma l2off_small l1 j o : 0 <= o < 2 ^ 63 -> entry l1 j = o -> l2off q l1 j = o.
Proof.
  intros Ho E. unfold l2off. rewrite E, (g_mask _ Hq). change (2 ^ 63 - 1) with (Z.ones 63).
  rewrite Z.land_ones by lia. apply Z.mod_small. lia.
Qed.

Lemma entry_zeros n i : entry (zeros n) i = 0.
Proof.
  unfold entry, read_at. rewrite drop_zeros. unfold zeros. rewrite take_replicate. generalize (Z.to_nat 8 `min` (n - Z.to_nat (8 * i)))%nat.
  intros k. induction k as [|k IH]; [done|]. by rewrite replicate_S_end, be_dec_snoc, IH.
Qed.

(** Linking a table of zeros. *)
Lemma link_table f l1 j o :
  tabs q f l1 -> live_table q j -> l2off q l1 j = 0 ->
  48 <= o < 2 ^ 63 -> o + l2_size q * 8 <= Z.of_nat (length f) ->
  apart q l1 o (l2_size q * 8) -> owns q f l1 None o (l2_size q * 8) ->
  read_at f o (l2_size q * 8) = zeros (Z.to_nat (l2_size q * 8)) ->
  let l1' := write_at l1 (8 * j) (be_enc 8 o) in
  let f' := write_at f (l1_table_offset q + j * 8) (be_enc 8 o) in
  length f' = length f /\
  (forall a n, 0 <= a -> apart q l1 a n -> read_at f' a n = read_at f a n) /\
  (forall k, live_table q k -> l2off q l1 k <> 0 ->
     l2off q l1' k = l2off q l1 k /\
     read_at f' (l2off q l1 k) (l2_size q * 8) = read_at f (l2off q l1 k) (l2_size q * 8)) /\
  l2off q l1' j = o /\ (forall c, live q c -> ent q f' l1' c = ent q f l1 c) /\
  tabs q f' l1'.
Proof.
  intros T Hj Hj0 Ho Hl Ha Hw Hz l1' f'. pose proof (be_enc_length 8 o) as Lo.
  destruct (t_l1 _ _ _ T) as [H48 Hl1]. pose proof (t_len _ _ _ T) as Ll1. red in Hj.
  pose proof (l2_size_bounds q Hq) as Hls.
  assert (length f' = length f) as Lf by (apply length_write_at; rewrite ?Lo; lia).
  assert (length l1' = length l1) as Ll by (apply length_write_at; rewrite ?Lo; lia).
  assert (forall a n, 0 <= a -> disj a n (l1_table_offset q) (8 * l1_size q) -> read_at f' a n = read_at f a n) as Hd.
  { intros a n H0 Hd. apply read_at_write_disj; rewrite ?Lo; unfold disj in *; lia. }
  assert (l2off q l1' j = o) as Hjo by (apply l2off_small; [lia|]; apply entry_write_same; lia).
  assert (forall k, live_table q k -> k <> j -> l2off q l1' k = l2off q l1 k) as Hko.
  { intros k Hk Hne. unfold l2off, l1'. by rewrite entry_write_other by (red in Hk; lia). }
  assert (forall k, live_table q k -> l2off q l1 k <> 0 -> k <> j) as Hkj by (intros k _ Hk0 ->; done).
  assert (forall k, live_table q k -> l2off q l1 k <> 0 ->
     l2off q l1' k = l2off q l1 k /\
     read_at f' (l2off q l1 k) (l2_size q * 8) = read_at f (l2off q l1 k) (l2_size q * 8)) as Hk2.
  { intros k Hk Hk0. split; [apply Hko; auto|]. destruct (t_l2 _ _ _ T k Hk Hk0) as (? & ? & ?).
    apply Hd; [lia|done]. }
  assert (forall c, live q c -> ent q f' l1' c = ent q f l1 c) as He.
  { intros c Hc. destruct (live_index q c Hq Hc) as [Hcj Hck]. unfold ent.
    destruct (decide (c / l2_size q = j)) as [->|Hne].
    - rewrite Hjo, Hj0, (proj2 (Z.eqb_neq o 0)), Hd, Hz by (lia || apply Ha). apply entry_zeros.
    - rewrite Hko by done. destruct (Z.eqb_spec (l2off q l1 (c / l2_size q)) 0); [done|].
      by destruct (Hk2 _ Hcj n) as [_ ->]. }
  assert (forall a n, 0 <= a -> apart q l1 a n -> read_at f' a n = read_at f a n) as Hap
    by (intros a n H0 [Hx _]; by apply Hd).
  split_and!; try done. split; rewrite ?Lf, ?Ll; auto.
  - unfold f'. rewrite read_at_write_in by (rewrite ?Lo; lia). rewrite (t_l1f _ _ _ T). unfold l1'. f_equal. lia.
  - intros k Hk. destruct (decide (k = j)) as [->|Hne].
    + rewrite Hjo. intros _. split_and!; [lia|done|apply Ha].
    + rewrite Hko by done. by apply T.
  - intros i k Hi Hk Hne. destruct (decide (i = j)) as [->|Hij], (decide (k = j)) as [->|Hkj'];
      rewrite ?Hjo, ?Hko by done; [done| | |by apply T].
    + intros _ Hn. by apply Ha.
    + intros Hn _. apply disj_sym. by apply Ha.
  - intros c Hc. rewrite He by done. intros Hn. destruct (t_ent _ _ _ T c Hc Hn) as (? & ? & ? & [? Hap2]).
    do 4 (split; [done|]). intros k Hk. destruct (decide (k = j)) as [->|Hne]; [|rewrite Hko by done; auto].
    rewrite Hjo. intros _. apply disj_sym. by apply Hw.
  - intros c Hc. rewrite He by done. intros Hn Hcp. destruct (t_comp _ _ _ T c Hc Hn Hcp) as [HI HU].
    destruct (t_ent _ _ _ T c Hc Hn) as (_ & ? & _ & Hpa). split.
    + unfold inflates in *. by rewrite Hap by (done || lia).
    + intros c' Hc'. rewrite He by done. auto.
Qed.
End keep.
End zlib.
