(* ===== verification/QcowCache.v ===== *)
(** * The QCOW handler: the cache of tables

    A cache in front of a file: every table it gives out is the one in the file,
    whatever was asked for before, and it stays so when both are updated
    together. *)

From S2P Require Import Prelude Backstore FileBack Configfs Qcow QcowTab.

(** [ok] holds for the offsets of tables, and [k] lookups are left before a use
    count reaches [INT_MAX]. *)
Record cache_ok (f : list Z) (bytes : Z) (ok : Z -> Prop) (k : Z) (c : cache) : Prop := {
  co_data : length (c_data c) = L2_CACHE_SIZE;
  co_offs : length (c_offs c) = L2_CACHE_SIZE;
  co_cnts : length (c_cnts c) = L2_CACHE_SIZE;
  co_len : forall i d, c_data c !! i = Some d -> Z.of_nat (length d) = bytes;
  co_cnt : forall i n, c_cnts c !! i = Some n -> 0 <= n /\ n + k < INT_MAX;
  co_tab : forall i o, c_offs c !! i = Some o -> o <> 0 -> ok o /\ c_data c !! i = Some (read_at f o bytes);
  co_inj : forall i j o, c_offs c !! i = Some o -> c_offs c !! j = Some o -> o <> 0 -> i = j
}.

Lemma cache_find_spec offs off : forall i0,
  match cache_find offs off i0 with
  | Some i => (i0 <= i)%nat /\ offs !! (i - i0)%nat = Some off
  | None => off ∉ offs
  end.
Proof.
  induction offs as [|o offs IH]; intros i0; [apply not_elem_of_nil|]. cbn [cache_find].
  destruct (Z.eqb_spec off o) as [->|Hne].
  - split; [lia|]. by rewrite Nat.sub_diag.
  - specialize (IH (S i0)). destruct (cache_find offs off (S i0)) as [i|].
    + destruct IH as [Hi Hl]. split; [lia|]. by replace (i - i0)%nat with (S (i - S i0)) by lia.
    + by apply not_elem_of_cons.
Qed.

Lemma cache_evict_bound cnts : forall i mi mc n,
  (mi < n)%nat -> (i + length cnts <= n)%nat -> (cache_evict cnts i mi mc < n)%nat.
Proof.
  induction cnts as [|x cnts IH]; intros i mi mc n Hm Hi; [done|]. cbn [cache_evict length] in *.
  case_if; apply IH; lia.
Qed.

Section cache.
Context (f : list Z) (bytes : Z) (ok : Z -> Prop).

Lemma cache_ok_weaken k k' c : cache_ok f bytes ok k c -> k' <= k -> cache_ok f bytes ok k' c.
Proof. intros [] Hk. split; auto. intros i n Hi. specialize (co_cnt0 i n Hi). lia. Qed.

(** A table that is in the cache. *)
Lemma cache_lookup_hit k c i off :
  cache_ok f bytes ok k c -> 0 < k -> off <> 0 -> cache_find (c_offs c) off 0 = Some i ->
  exists c', cache_lookup c (Img f []) bytes off = Some (Some i, c', Img f []) /\
    c_offs c' !! i = Some off /\ c_data c' !! i = Some (read_at f off bytes) /\
    cache_ok f bytes ok (k - 1) c'.
Proof.
  intros C Hk Hoff E. unfold cache_lookup. pose proof (cache_find_spec (c_offs c) off 0) as Hf.
  rewrite E in Hf |- *. destruct Hf as [_ Hi]. rewrite Nat.sub_0_r in Hi.
  pose proof (lookup_lt_Some _ _ _ Hi) as Hlt. rewrite (co_offs _ _ _ _ _ C), <- (co_cnts _ _ _ _ _ C) in Hlt.
  destruct (lookup_lt_is_Some_2 _ _ Hlt) as [n Hn]. rewrite Hn. cbn [mbind option_bind].
  destruct (co_cnt _ _ _ _ _ C _ _ Hn) as [Hn0 Hnk]. rewrite (proj2 (Z.eqb_neq _ _)) by lia.
  eexists. split; [reflexivity|]. cbn [c_data c_offs c_cnts]. split; [done|].
  split; [by apply (co_tab _ _ _ _ _ C)|]. destruct C as [Cd Co Cc Cl Cn Ct Ci]. split; cbn [c_data c_offs c_cnts]; auto.
  - by rewrite length_insert.
  - intros j x Hj. destruct (decide (j = i)) as [->|Hne].
    + rewrite list_lookup_insert_eq in Hj by done. simplify_eq. lia.
    + rewrite list_lookup_insert_ne in Hj by done. specialize (Cn _ _ Hj). lia.
Qed.

(** A table that has to be read. *)
Lemma cache_lookup_miss k c off :
  cache_ok f bytes ok k c -> 0 < k -> ok off -> 0 < off < 2 ^ 63 -> 0 <= bytes ->
  off + bytes <= Z.of_nat (length f) -> cache_find (c_offs c) off 0 = None ->
  exists i c', cache_lookup c (Img f []) bytes off = Some (Some i, c', Img f []) /\
    c_offs c' !! i = Some off /\ c_data c' !! i = Some (read_at f off bytes) /\
    cache_ok f bytes ok (k - 1) c'.
Proof.
  intros C Hk Hok Hoff Hb Hl E. unfold cache_lookup. pose proof (cache_find_spec (c_offs c) off 0) as Hnot.
  rewrite E in Hnot |- *. set (i := cache_evict _ _ _ _).
  assert (i < L2_CACHE_SIZE)%nat as Hi
    by (apply cache_evict_bound; rewrite ?(co_cnts _ _ _ _ _ C); unfold L2_CACHE_SIZE; lia).
  rewrite img_pread_ok by lia. destruct C as [Cd Co Cc Cl Cn Ct Ci].
  destruct (lookup_lt_is_Some_2 (c_data c) i ltac:(lia)) as [d Hd].
  destruct (lookup_lt_is_Some_2 (c_cnts c) i ltac:(lia)) as [n Hn]. specialize (Cn i n Hn) as Hnk.
  rewrite Hd. cbn [mbind option_bind]. rewrite Z.eqb_refl. cbn [negb].
  pose proof (length_read_at_Z f off bytes ltac:(lia) Hb Hl) as Lr. specialize (Cl i d Hd) as Ld.
  rewrite (drop_ge d), app_nil_r by lia.
  exists i. eexists. split; [reflexivity|]. cbn [c_data c_offs c_cnts].
  split; [apply list_lookup_insert_eq; lia|]. split; [apply list_lookup_insert_eq; lia|].
  split; cbn [c_data c_offs c_cnts]; rewrite ?length_insert; auto.
  - intros j x Hj. destruct (decide (j = i)) as [->|Hne].
    + rewrite list_lookup_insert_eq in Hj by lia. simplify_eq. lia.
    + rewrite list_lookup_insert_ne in Hj by done. by apply (Cl j).
  - intros j x Hj. destruct (decide (j = i)) as [->|Hne].
    + rewrite list_lookup_insert_eq in Hj by lia. simplify_eq. lia.
    + rewrite list_lookup_insert_ne in Hj by done. specialize (Cn _ _ Hj). lia.
  - intros j o Hj Ho. destruct (decide (j = i)) as [->|Hne].
    + rewrite !list_lookup_insert_eq in * by lia. by simplify_eq.
    + rewrite !list_lookup_insert_ne in * by done. by apply Ct.
  - assert (forall j, c_offs c !! j <> Some off) as Hno by (intros j Hj; apply Hnot; by eapply list_elem_of_lookup_2).
    intros j j' o [(-> & <- & _)|[_ Hj]]%list_lookup_insert_Some [(-> & E' & _)|[_ Hj']]%list_lookup_insert_Some Ho;
      simplify_eq; [done|by destruct (Hno j')|by destruct (Hno j)|].
    by eapply Ci.
Qed.

(** Looking a table up gives the one in the file. *)
Lemma cache_lookup_ok k c off :
  cache_ok f bytes ok k c -> 0 < k -> ok off -> 0 < off < 2 ^ 63 -> 0 <= bytes ->
  off + bytes <= Z.of_nat (length f) ->
  exists i c', cache_lookup c (Img f []) bytes off = Some (Some i, c', Img f []) /\
    c_offs c' !! i = Some off /\ c_data c' !! i = Some (read_at f off bytes) /\
    cache_ok f bytes ok (k - 1) c'.
Proof.
  intros C Hk Hok Hoff Hb Hl. destruct (cache_find (c_offs c) off 0) as [i|] eqn:E.
  - destruct (cache_lookup_hit k c i off) as (c' & H); auto; [lia|]. by exists i, c'.
  - by apply cache_lookup_miss.
Qed.
End cache.

(** The file changes outside the tables. *)
Lemma cache_ok_agree f f' bytes ok ok' k c :
  cache_ok f bytes ok k c ->
  (forall o, ok o -> o <> 0 -> ok' o /\ read_at f' o bytes = read_at f o bytes) -> cache_ok f' bytes ok' k c.
Proof.
  intros [Cd Co Cc Cl Cn Ct Ci] H. split; auto. intros i o Hi Ho. destruct (Ct i o Hi Ho) as [Hok Hd].
  destruct (H o Hok Ho) as [? ->]. done.
Qed.

(** One table changes in the file and in its slot. *)
Lemma cache_ok_update f f' bytes ok k c i off t :
  cache_ok f bytes ok k c -> c_offs c !! i = Some off -> off <> 0 ->
  (forall o, ok o -> o <> 0 -> o <> off -> read_at f' o bytes = read_at f o bytes) ->
  read_at f' off bytes = t -> Z.of_nat (length t) = bytes ->
  cache_ok f' bytes ok k (Cache (<[i := t]> (c_data c)) (c_offs c) (c_cnts c)).
Proof.
  intros [Cd Co Cc Cl Cn Ct Ci] Hi Hoff Hoth Ht Lt.
  assert (i < length (c_data c))%nat as Hlt by (rewrite Cd, <- Co; by eapply lookup_lt_Some).
  split; cbn [c_data c_offs c_cnts]; rewrite ?length_insert; auto.
  - intros j x Hj. destruct (decide (j = i)) as [->|Hne].
    + rewrite list_lookup_insert_eq in Hj by lia. by simplify_eq.
    + rewrite list_lookup_insert_ne in Hj by done. by apply (Cl j).
  - intros j o Hj Ho. destruct (Ct j o Hj Ho) as [Hok Hd]. split; [done|].
    destruct (decide (j = i)) as [->|Hne].
    + rewrite list_lookup_insert_eq by lia. replace o with off by congruence. by rewrite Ht.
    + rewrite list_lookup_insert_ne by done. rewrite Hoth; auto. intros ->. apply Hne. by eapply Ci.
Qed.
