(* ===== verification/QcowSpec.v ===== *)
(** * The QCOW handler: from virtual offsets to clusters

    The contents of an image of version 1, the invariant of its state, and what
    [get_cluster_offset] does: reading finds the entry of the cluster; writing
    makes the cluster the image's own, at a place of the file that nothing else
    uses, and changes no byte of the contents. *)

From S2P Require Import Prelude Iovec Backstore FileBack Configfs Qcow QcowTab QcowCache.

(** ** Images behind an image *)

(** What an image behind another one promises: a read of whole sectors inside it
    delivers its bytes.  [bd_wf k]: this holds for the next [k] sectors. *)
Class BdevLaws (B : Type) `{Bdev B} := {
  bd_wf : Z -> B -> Prop;
  bd_data : B -> list Z;
  bd_weaken k k' b : bd_wf k b -> 0 <= k' <= k -> bd_wf k' b;
  bd_read_law b m iov g off k :
    bd_wf (k + Z.of_nat (length g) / 512) b -> 0 <= k -> gather m iov = Some g -> iov_disj iov ->
    0 < Z.of_nat (length g) < 2 ^ 63 -> Z.of_nat (length g) mod 512 = 0 -> 0 <= off -> off mod 512 = 0 ->
    off + Z.of_nat (length g) <= Z.of_nat (length (bd_data b)) ->
    exists b' m',
      bd_preadv b m iov (Z.of_nat (length iov)) off = Some (b', m', Z.of_nat (length g)) /\
      bd_wf k b' /\ bd_data b' = bd_data b /\
      gather m' iov = Some (read_at (bd_data b) off (Z.of_nat (length g))) /\
      (forall p n, outside iov p n -> mem_load m' p n = mem_load m p n)
}.

Section qcow.
Context {B : Type} {HB : Bdev B} {HL : BdevLaws B} (inflate : list Z -> Z -> Z * list Z).
Implicit Types s : qcow_state B.

(** ** Contents and invariant *)

Definition bk_byte (b : option B) (v : Z) : Z :=
  match b with None => 0 | Some b => default 0 (bd_data b !! Z.to_nat v) end.

Definition q_file s : list Z := i_file (q_img s).

Definition qbyte s (v : Z) : Z :=
  vbyte inflate (q_info s) (q_file s) (l1_table s) (bk_byte (backing_image s)) v.

(** The bytes of the disk. *)
Definition qdata s : list Z := qbyte s <$> seqZ 0 (q_size (q_info s)).

Definition s_ent s (c : Z) : Z := ent (q_info s) (q_file s) (l1_table s) c.

Definition is_table (q : qinfo) (l1 : list Z) (o : Z) : Prop := exists j, live_table q j /\ l2off q l1 j = o.

(** The cluster that was inflated last. *)
Definition cc_ok s : Prop :=
  Z.of_nat (length (cluster_cache s)) = cluster_size (q_info s) /\
  forall c, live (q_info s) c -> s_ent s c <> 0 -> is_comp (s_ent s c) = true ->
    (place (q_info s) (s_ent s c)).1 = cluster_cache_offset s ->
    cluster_cache s =
      (inflate (read_at (q_file s) (place (q_info s) (s_ent s c)).1 (place (q_info s) (s_ent s c)).2)
        (cluster_size (q_info s))).2.

(** The invariant of an open image of version 1 whose system calls succeed, for
    the next [k] lookups. *)
Record qwf (k : Z) s : Prop := {
  w_geo : geo (q_info s);
  w_out : i_out (q_img s) = [];
  w_len : Z.of_nat (length (q_file s)) <= 2 ^ 62;
  w_tabs : tabs inflate (q_info s) (q_file s) (l1_table s);
  w_cache : cache_ok (q_file s) (l2_size (q_info s) * 8) (is_table (q_info s) (l1_table s)) k (l2_cache s);
  w_cc : cc_ok s;
  w_back : match backing_image s with
           | None => True
           | Some b => bd_wf k b /\ Z.of_nat (length (bd_data b)) = q_size (q_info s)
           end;
  w_k : 0 <= k
}.

Lemma qwf_weaken k k' s : qwf k s -> 0 <= k' <= k -> qwf k' s.
Proof.
  intros [] Hk. split; try done; try lia.
  - eapply cache_ok_weaken; [done|lia].
  - destruct (backing_image s); [|done]. destruct w_back0. split; [|done]. by eapply bd_weaken.
Qed.

Lemma q_img_file s : i_out (q_img s) = [] -> q_img s = Img (q_file s) [].
Proof. unfold q_file. destruct (q_img s) as [f o]. cbn. by intros ->. Qed.

(** Nothing that a guest sees has changed, and the header is still there. *)
Record pres s s' : Prop := {
  p_info : q_info s' = q_info s;
  p_back : backing_image s' = None <-> backing_image s = None;
  p_byte : forall v, 0 <= v < q_size (q_info s) -> qbyte s' v = qbyte s v;
  p_head : read_at (q_file s') 0 48 = read_at (q_file s) 0 48;
  p_len : (length (q_file s) <= length (q_file s'))%nat
}.

Lemma pres_refl s : pres s s.
Proof. by split. Qed.

Lemma pres_trans s1 s2 s3 : pres s1 s2 -> pres s2 s3 -> pres s1 s3.
Proof.
  intros [I1 B1 Y1 H1 L1] [I2 B2 Y2 H2 L2]. split; [congruence|tauto| |congruence|lia].
  intros v Hv. rewrite Y2 by (rewrite I1; done). by apply Y1.
Qed.

(** The cluster of a virtual offset inside the image. *)
Lemma live_cluster q v : geo q -> 0 <= v < q_size q -> live q (v / cluster_size q).
Proof.
  intros Hq Hv. pose proof (cluster_size_bounds q Hq). pose proof (g_size _ Hq). split; [apply Z.div_pos; lia|].
  apply Z.div_lt_upper_bound; lia.
Qed.

(** ** Changes of the state that keep the invariant *)

(** Only the cache of tables. *)
Lemma qwf_set_l2c k k' s c :
  qwf k s -> 0 <= k' <= k ->
  cache_ok (q_file s) (l2_size (q_info s) * 8) (is_table (q_info s) (l1_table s)) k' c -> qwf k' (set_l2c s c).
Proof. intros W Hk Hc. apply (qwf_weaken _ k') in W; [|done]. destruct W. by split. Qed.

Lemma pres_set_l2c s c : pres s (set_l2c s c).
Proof. by split. Qed.

(** The file grows; what is in the new part does not matter. *)
Lemma qwf_extend k s f :
  qwf k s -> (length (q_file s) <= length f)%nat -> Z.of_nat (length f) <= 2 ^ 62 ->
  (forall a n, 0 <= a -> a + n <= Z.of_nat (length (q_file s)) -> read_at f a n = read_at (q_file s) a n) ->
  let s' := set_img s (Img f []) in
  qwf k s' /\ pres s s' /\ (forall c, live (q_info s) c -> s_ent s' c = s_ent s c).
Proof.
  intros W Hl Hm Hr s'. destruct W as [Hq Ho Hlen T C CC K Hk].
  destruct (tabs_agree inflate (q_info s) Hq (q_file s) f (l1_table s) T Hl) as [T' He].
  { apply Hr; destruct (t_l1 _ _ _ _ T); lia. }
  { intros j Hj Hj0. destruct (t_l2 _ _ _ _ T j Hj Hj0) as (? & ? & _). apply Hr; lia. }
  { intros c Hc Hn _. destruct (t_ent _ _ _ _ T c Hc Hn) as (_ & ? & ? & _). apply Hr; lia. }
  assert (forall c, live (q_info s) c -> s_ent s c <> 0 ->
    read_at f (place (q_info s) (s_ent s c)).1 (place (q_info s) (s_ent s c)).2 =
    read_at (q_file s) (place (q_info s) (s_ent s c)).1 (place (q_info s) (s_ent s c)).2) as Hp.
  { intros c Hc Hn. destruct (t_ent _ _ _ _ T c Hc Hn) as (_ & ? & ? & _). apply Hr; unfold s_ent; lia. }
  split; [|split; [|exact He]].
  - split; try done.
    + eapply cache_ok_agree; [exact C|]. intros o (j & Hj & <-) Hj0. split; [by exists j|].
      change (q_info s') with (q_info s). destruct (t_l2 _ _ _ _ T j Hj Hj0) as (? & ? & _). apply Hr; lia.
    + destruct CC as [CL CC]. split; [done|]. intros c Hc.
      change (s_ent s' c) with (ent (q_info s) f (l1_table s) c). rewrite (He c Hc).
      change (q_file s') with f. change (q_info s') with (q_info s).
      intros Hn Hcp E. specialize (Hp c Hc Hn). unfold s_ent in Hp. rewrite Hp. by apply CC.
  - split; try done; [|apply Hr; destruct (t_l1 _ _ _ _ T), (g_l1 _ Hq); lia].
    intros v Hv. pose proof (cluster_size_bounds _ Hq) as Hcs. unfold qbyte, vbyte.
    change (q_file s') with f. cbn [q_info l1_table backing_image set_img s'].
    pose proof (live_cluster _ v Hq Hv) as Hc. rewrite (He _ Hc).
    destruct (Z.eqb_spec (ent (q_info s) (q_file s) (l1_table s) (v / cluster_size (q_info s))) 0) as [|Hn]; [done|].
    apply cbyte_agree; [by destruct (t_ent _ _ _ _ T _ Hc Hn) as ((? & ?) & _)|apply Z.mod_pos_bound; lia|].
    by apply Hp.
Qed.
(** ** Allocation *)

Lemma land_round_up x p : 0 <= p <= 63 -> 0 <= x < 2 ^ 64 ->
  Z.land x (u64 (Z.lnot (2 ^ p - 1))) = x / 2 ^ p * 2 ^ p.
Proof.
  intros Hp Hx. rewrite <- (Z.shiftr_div_pow2 x p), <- Z.shiftl_mul_pow2 by lia.
  apply Z.bits_inj'. intros n Hn. rewrite Z.land_spec, Z.shiftl_spec by lia.
  unfold u64, wrap. rewrite <- Z.land_ones, Z.land_spec, Z.lnot_spec, Z.testbit_ones_nonneg by lia.
  replace (2 ^ p - 1) with (Z.ones p) by (rewrite Z.ones_equiv; lia).
  rewrite Z.testbit_ones_nonneg by lia. destruct (Z.ltb_spec n p) as [|Hnp].
  - cbn [negb andb]. by rewrite andb_false_r, (Z.testbit_neg_r _ (n - p)) by lia.
  - rewrite Z.shiftr_spec by lia. replace (n - p + p) with n by lia.
    destruct (Z.ltb_spec n 64); [by rewrite andb_true_r|].
    rewrite <- (Z.mod_small x (2 ^ 64)) by lia. rewrite <- Z.land_ones, Z.land_spec by lia.
    rewrite Z.testbit_ones_nonneg by lia. rewrite (proj2 (Z.ltb_ge n 64)) by lia. by rewrite !andb_false_r.
Qed.

(** New space starts at or after the end of the file, and reads as zeros. *)
Lemma block_alloc_ok s size p :
  q_v2 (q_info s) = false -> i_out (q_img s) = [] -> size = 2 ^ p -> 9 <= p <= 16 ->
  Z.of_nat (length (q_file s)) + 2 * size <= 2 ^ 62 ->
  exists o n, block_alloc s size = Some (o, set_img s (Img (q_file s ++ zeros n) [])) /\
    Z.of_nat (length (q_file s)) <= o /\ o + size = Z.of_nat (length (q_file s ++ zeros n)) /\
    o + size <= Z.of_nat (length (q_file s)) + 2 * size /\
    read_at (q_file s ++ zeros n) o size = zeros (Z.to_nat size).
Proof.
  intros Hv Hi -> Hp Hl. pose proof (Z.pow_le_mono_r 2 9 p ltac:(lia) ltac:(lia)) as P1.
  set (size := 2 ^ p) in *. set (L := Z.of_nat (length (q_file s))) in *.
  unfold block_alloc. rewrite Hv. unfold qcow_block_alloc. rewrite (q_img_file s Hi).
  cbn [next_out i_out i_file]. fold L. rewrite (proj2 (Z.ltb_ge L 0)) by lia.
  rewrite (u64_small (L + size - 1)) by lia.
  pose proof (land_round_up (L + size - 1) p ltac:(lia) ltac:(lia)) as R. fold size in R. rewrite R.
  set (o := (L + size - 1) / size * size). rewrite (proj2 (Z.ltb_ge 0 0)) by lia.
  assert (L <= o < L + size) as Ho by (unfold o; dlia).
  rewrite u64_small, s64_off by lia. cbn [orb]. unfold grow.
  exists o, (Z.to_nat (o + size) - length (q_file s))%nat. split; [done|]. rewrite length_app, length_zeros.
  split_and!; try lia. apply list_eq. intros i. rewrite lookup_read_at. unfold zeros. case_decide.
  - rewrite lookup_app_r, !lookup_replicate_2 by lia. done.
  - symmetry. apply lookup_ge_None. rewrite length_replicate. lia.
Qed.

(** Space behind the old end of the file is free. *)
Lemma fresh_apart s k o n :
  qwf k s -> Z.of_nat (length (q_file s)) <= o ->
  apart (q_info s) (l1_table s) o n /\ owns (q_info s) (q_file s) (l1_table s) None o n.
Proof.
  intros W Ho. pose proof (w_tabs _ _ W) as T. split; [split|].
  - right. destruct (t_l1 _ _ _ _ T). lia.
  - intros j Hj Hj0. right. destruct (t_l2 _ _ _ _ T j Hj Hj0). lia.
  - intros c Hc _ Hn. right. destruct (t_ent _ _ _ _ T c Hc Hn) as (_ & _ & ? & _). lia.
Qed.

(** [qcow_cluster_alloc] followed by the bytes of the new cluster. *)
Lemma cluster_alloc_fill k s data :
  qwf k s -> Z.of_nat (length data) = cluster_size (q_info s) ->
  Z.of_nat (length (q_file s)) + 2 * cluster_size (q_info s) <= 2 ^ 62 ->
  exists o f,
    qcow_cluster_alloc s = Some (o, set_img s (Img f [])) /\
    let f' := write_at f o data in
    let s' := set_img s (Img f' []) in
    48 <= o /\ Z.of_nat (length (q_file s)) <= o /\ o + cluster_size (q_info s) = Z.of_nat (length f) /\
    length f' = length f /\ o + cluster_size (q_info s) <= Z.of_nat (length (q_file s)) + 2 * cluster_size (q_info s) /\
    read_at f o (cluster_size (q_info s)) = zeros (Z.to_nat (cluster_size (q_info s))) /\
    (forall a n, 0 <= a -> a + n <= Z.of_nat (length (q_file s)) -> read_at f a n = read_at (q_file s) a n) /\
    qwf k s' /\ pres s s' /\ (forall c, live (q_info s) c -> s_ent s' c = s_ent s c) /\
    read_at f' o (cluster_size (q_info s)) = data.
Proof.
  intros W Hd Hl. pose proof (w_geo _ _ W) as Hq. pose proof (cluster_size_bounds _ Hq) as Hcs.
  destruct (block_alloc_ok s (cluster_size (q_info s)) (cluster_bits (q_info s))) as (o & n & E & H1 & H2 & H3 & H4);
    [apply Hq|apply W|by apply cluster_size_pow|apply Hq|done|].
  exists o, (q_file s ++ zeros n). split; [exact E|]. intros f' s'.
  assert (length f' = length (q_file s ++ zeros n)) as Lf by (apply length_write_at; lia).
  assert (forall a n', 0 <= a -> a + n' <= Z.of_nat (length (q_file s)) ->
    read_at (q_file s ++ zeros n) a n' = read_at (q_file s) a n') as Hr by (intros; by apply read_at_app_l).
  assert (48 <= o) by (destruct (t_l1 _ _ _ _ (w_tabs _ _ W)), (g_l1 _ Hq); lia).
  destruct (qwf_extend k s f' W) as (W' & P' & He).
  { rewrite Lf, length_app. lia. }
  { lia. }
  { intros a n' Ha Hn. rewrite <- (Hr a n') by done. apply read_at_write_disj; unfold disj; lia. }
  split_and!; try done; try lia. by apply read_at_same; [lia..|].
Qed.

(** ** Linking *)

Lemma land_uncopied e : 0 <= e < 2 ^ 64 -> Z.land e (u64 (Z.lnot 0)) = e.
Proof. intros He. change (u64 (Z.lnot 0)) with (Z.ones 64). rewrite Z.land_ones by lia. by apply Z.mod_small. Qed.

Lemma link_cluster_run k s c i o :
  qwf k s -> live (q_info s) c ->
  let t := l2off (q_info s) (l1_table s) (c / l2_size (q_info s)) in
  let idx := c mod l2_size (q_info s) in
  let tab := read_at (q_file s) t (l2_size (q_info s) * 8) in
  t <> 0 -> c_data (l2_cache s) !! i = Some tab -> 0 <= o < 2 ^ 64 ->
  link_cluster s i t idx o = Some (o,
    set_img (set_l2c s (Cache (<[i := write_at tab (8 * idx) (be_enc 8 o)]> (c_data (l2_cache s)))
                          (c_offs (l2_cache s)) (c_cnts (l2_cache s))))
      (Img (write_at (q_file s) (t + idx * 8) (be_enc 8 o)) [])).
Proof.
  intros W Hc t idx tab Ht Hi Ho. pose proof (w_geo _ _ W) as Hq. pose proof (w_len _ _ W) as Hl.
  destruct (live_index _ c Hq Hc) as [Hj Hk]. destruct (t_l2 _ _ _ _ (w_tabs _ _ W) _ Hj Ht) as (H1 & H2 & _).
  fold t in H1, H2. fold idx in Hk. pose proof (be_enc_length 8 o) as Lo.
  assert (length tab = Z.to_nat (l2_size (q_info s) * 8)) as Lt by (apply length_read_at_Z; lia).
  unfold link_cluster, l2_table_update, q_set_refcount, write_entry. rewrite Hi. cbn [mbind option_bind].
  rewrite (g_cop _ Hq), Z.lor_0_r, set64_write by lia. cbn [mbind option_bind].
  change (q_img (set_l2c _ _)) with (q_img s). rewrite (q_img_file s (w_out _ _ W)), u64_small by lia.
  rewrite img_pwrite_ok by lia. cbn [mbind option_bind].
  change (q_info (set_img _ _)) with (q_info s). rewrite (g_v1 _ Hq). cbn [mbind option_bind].
  change (q_info (set_img _ _)) with (q_info s). rewrite (g_cop _ Hq). by rewrite land_uncopied.
Qed.

Lemma link_cluster_ok k s c i o :
  qwf k s -> live (q_info s) c ->
  let t := l2off (q_info s) (l1_table s) (c / l2_size (q_info s)) in
  t <> 0 -> c_offs (l2_cache s) !! i = Some t ->
  c_data (l2_cache s) !! i = Some (read_at (q_file s) t (l2_size (q_info s) * 8)) ->
  48 <= o < 2 ^ 63 -> o + cluster_size (q_info s) <= Z.of_nat (length (q_file s)) ->
  apart (q_info s) (l1_table s) o (cluster_size (q_info s)) ->
  owns (q_info s) (q_file s) (l1_table s) (Some c) o (cluster_size (q_info s)) ->
  exists s', link_cluster s i t (c mod l2_size (q_info s)) o = Some (o, s') /\
    qwf k s' /\ q_info s' = q_info s /\ backing_image s' = backing_image s /\ l1_table s' = l1_table s /\
    s_ent s' c = o /\ length (q_file s') = length (q_file s) /\
    read_at (q_file s') 0 48 = read_at (q_file s) 0 48 /\
    owns (q_info s) (q_file s') (l1_table s) (Some c) o (cluster_size (q_info s)) /\
    (forall v, 0 <= v < q_size (q_info s) ->
       qbyte s' v = if v / cluster_size (q_info s) =? c
                    then cbyte inflate (q_info s) (q_file s) o (v mod cluster_size (q_info s)) else qbyte s v).
Proof.
  intros W Hc t Ht Hoff Hi Ho Hl Ha Hw. pose proof (w_geo _ _ W) as Hq. pose proof (w_tabs _ _ W) as T.
  pose proof (link_cluster_run k s c i o W Hc Ht Hi ltac:(lia)) as R. fold t in R.
  destruct (link_entry inflate _ Hq (q_file s) (l1_table s) c o T Hc Ht Ho Hl Ha Hw)
    as (Lf & Hap & Hoth & Hown & Hec & Heo & T'). fold t in Lf, Hap, Hoth, Hown, Hec, Heo, T'.
  set (f' := write_at (q_file s) (t + _) _) in *. eexists. split; [exact R|].
  destruct (live_index _ c Hq Hc) as [Hj Hk]. destruct (t_l2 _ _ _ _ T _ Hj Ht) as (H1 & H2 & _). fold t in H1, H2.
  assert (forall c', live (q_info s) c' -> c' <> c -> s_ent s c' <> 0 ->
    read_at f' (place (q_info s) (s_ent s c')).1 (place (q_info s) (s_ent s c')).2 =
    read_at (q_file s) (place (q_info s) (s_ent s c')).1 (place (q_info s) (s_ent s c')).2) as Hp.
  { intros c' Hc' Hne Hn. destruct (t_ent _ _ _ _ T c' Hc' Hn) as (_ & ? & _ & ?). apply Hap; [unfold s_ent; lia|done]. }
  split_and!; try done.
  - destruct W as [_ Hout Hlen _ C CC K Hk0]. split; try done.
    + unfold q_file in *. cbn. lia.
    + change (cache_ok f' (l2_size (q_info s) * 8) (is_table (q_info s) (l1_table s)) k
        (Cache (<[i := write_at (read_at (q_file s) t (l2_size (q_info s) * 8)) (8 * (c mod l2_size (q_info s))) (be_enc 8 o)]>
            (c_data (l2_cache s))) (c_offs (l2_cache s)) (c_cnts (l2_cache s)))).
      eapply (cache_ok_update _ f'); [exact C|exact Hoff|done| |exact Hown|].
      * intros o' (j & Hjl & <-) Hj0 Hne. apply Hoth; [done|done|]. intros ->. by apply Hne.
      * pose proof (length_read_at_Z (q_file s) t (l2_size (q_info s) * 8)) as Lr.
        rewrite length_write_at; rewrite ?be_enc_length; lia.
    + destruct CC as [CL CC]. split; [done|]. intros c' Hc'.
      change (s_ent _ c') with (ent (q_info s) f' (l1_table s) c').
      change (q_info (set_img _ _)) with (q_info s). change (q_file (set_img _ _)) with f'.
      destruct (decide (c' = c)) as [->|Hne]; [rewrite Hec, is_comp_small by lia; done|].
      rewrite Heo by done. intros Hn Hcp E. specialize (Hp c' Hc' Hne Hn). unfold s_ent in Hp. rewrite Hp.
      by apply CC.
  - apply read_at_write_disj; rewrite ?be_enc_length; unfold disj; try lia.
  - intros c' Hc' Hne. change (q_file (set_img _ _)) with f'. rewrite Heo by congruence. by apply Hw.
  - intros v Hv. pose proof (cluster_size_bounds _ Hq) as Hcs. pose proof (live_cluster _ v Hq Hv) as Hvc.
    unfold qbyte at 1, vbyte. change (q_file (set_img _ _)) with f'. cbn [q_info l1_table backing_image set_img set_l2c].
    assert (0 <= v mod cluster_size (q_info s) < cluster_size (q_info s)) as Hm by (apply Z.mod_pos_bound; lia).
    destruct (Z.eqb_spec (v / cluster_size (q_info s)) c) as [->|Hne].
    + rewrite Hec, (proj2 (Z.eqb_neq o 0)) by lia. apply cbyte_agree; [lia|done|].
      rewrite place_small by lia. apply Hap; [cbn; lia|done].
    + rewrite Heo by done. unfold qbyte, vbyte.
      destruct (Z.eqb_spec (ent (q_info s) (q_file s) (l1_table s) (v / cluster_size (q_info s))) 0) as [|Hn]; [done|].
      apply cbyte_agree; [by destruct (t_ent _ _ _ _ T _ Hvc Hn) as ((? & ?) & _)|done|]. by apply Hp.
Qed.

(** ** Second-level tables *)

Lemma l1_entry k s j : qwf k s -> live_table (q_info s) j -> get64 (l1_table s) j = Some (entry (l1_table s) j).
Proof. intros W Hj. red in Hj. pose proof (t_len _ _ _ _ (w_tabs _ _ W)). apply get64_entry; lia. Qed.

Lemma get_l2_offset_hit k s j al :
  qwf k s -> live_table (q_info s) j -> l2off (q_info s) (l1_table s) j <> 0 ->
  get_l2_offset s j al = Some (l2off (q_info s) (l1_table s) j, s).
Proof.
  intros W Hj Hn. unfold get_l2_offset. rewrite (l1_entry k) by done. cbn [mbind option_bind].
  fold (l2off (q_info s) (l1_table s) j). by rewrite (proj2 (Z.eqb_neq _ _)).
Qed.

Lemma get_l2_offset_none k s j :
  qwf k s -> live_table (q_info s) j -> l2off (q_info s) (l1_table s) j = 0 ->
  get_l2_offset s j false = Some (0, s).
Proof.
  intros W Hj Hn. unfold get_l2_offset. rewrite (l1_entry k) by done. cbn [mbind option_bind].
  fold (l2off (q_info s) (l1_table s) j). by rewrite Hn.
Qed.

(** Linking a free range of zeros as a table. *)
Lemma link_table_ok k s j o :
  qwf k s -> live_table (q_info s) j -> l2off (q_info s) (l1_table s) j = 0 ->
  48 <= o < 2 ^ 63 -> o + l2_size (q_info s) * 8 <= Z.of_nat (length (q_file s)) ->
  apart (q_info s) (l1_table s) o (l2_size (q_info s) * 8) ->
  owns (q_info s) (q_file s) (l1_table s) None o (l2_size (q_info s) * 8) ->
  read_at (q_file s) o (l2_size (q_info s) * 8) = zeros (Z.to_nat (l2_size (q_info s) * 8)) ->
  let s' := set_img (set_l1 s (write_at (l1_table s) (8 * j) (be_enc 8 o)))
              (Img (write_at (q_file s) (l1_table_offset (q_info s) + j * 8) (be_enc 8 o)) []) in
  qwf k s' /\ pres s s' /\ l2off (q_info s) (l1_table s') j = o /\
  (forall c, live (q_info s) c -> s_ent s' c = s_ent s c) /\ length (q_file s') = length (q_file s).
Proof.
  intros W Hj Hj0 Ho Hl Ha Hw Hz. pose proof (w_geo _ _ W) as Hq. pose proof (w_tabs _ _ W) as T.
  destruct (link_table inflate _ Hq (q_file s) (l1_table s) j o T Hj Hj0 Ho Hl Ha Hw Hz)
    as (Lf & Hap & Hk2 & Hjo & He & T').
  set (f' := write_at (q_file s) _ _) in *. set (l1' := write_at (l1_table s) _ _) in *. intros s'.
  assert (forall c, live (q_info s) c -> s_ent s c <> 0 ->
    read_at f' (place (q_info s) (s_ent s c)).1 (place (q_info s) (s_ent s c)).2 =
    read_at (q_file s) (place (q_info s) (s_ent s c)).1 (place (q_info s) (s_ent s c)).2) as Hp.
  { intros c Hc Hn. destruct (t_ent _ _ _ _ T c Hc Hn) as (_ & ? & _ & ?). apply Hap; [unfold s_ent; lia|done]. }
  split_and!; try done.
  - destruct W as [_ Hout Hlen _ C CC K Hk0]. split; try done.
    + unfold q_file in *. cbn. lia.
    + change (cache_ok f' (l2_size (q_info s) * 8) (is_table (q_info s) l1') k (l2_cache s)).
      eapply cache_ok_agree; [exact C|]. intros o' (i & Hi & <-) Hi0. destruct (Hk2 i Hi Hi0) as [E ->].
      split; [by exists i|done].
    + destruct CC as [CL CC]. split; [done|]. intros c Hc.
      change (s_ent s' c) with (ent (q_info s) f' l1' c). change (q_file s') with f'.
      change (q_info s') with (q_info s). rewrite He by done.
      intros Hn Hcp E. specialize (Hp c Hc Hn). unfold s_ent in Hp. rewrite Hp. by apply CC.
  - split; try done; [| |by rewrite <- Lf].
    + intros v Hv. pose proof (cluster_size_bounds _ Hq) as Hcs. pose proof (live_cluster _ v Hq Hv) as Hvc.
      unfold qbyte, vbyte. change (q_file s') with f'. cbn [q_info l1_table backing_image set_img set_l1 s'].
      fold l1'. rewrite He by done.
      destruct (Z.eqb_spec (ent (q_info s) (q_file s) (l1_table s) (v / cluster_size (q_info s))) 0) as [|Hn]; [done|].
      apply cbyte_agree; [by destruct (t_ent _ _ _ _ T _ Hvc Hn) as ((? & ?) & _)|apply Z.mod_pos_bound; lia|].
      by apply Hp.
    + pose proof (t_l1 _ _ _ _ T). red in Hj.
      apply read_at_write_disj; rewrite ?be_enc_length; unfold disj; lia.
Qed.

Lemma get_l2_offset_alloc k s j :
  qwf k s -> live_table (q_info s) j -> l2off (q_info s) (l1_table s) j = 0 ->
  Z.of_nat (length (q_file s)) + 2 ^ 17 <= 2 ^ 62 ->
  exists o s', get_l2_offset s j true = Some (o, s') /\ qwf k s' /\ pres s s' /\
    l2off (q_info s) (l1_table s') j = o /\ o <> 0 /\
    (forall c, live (q_info s) c -> s_ent s' c = s_ent s c) /\
    Z.of_nat (length (q_file s')) <= Z.of_nat (length (q_file s)) + 2 ^ 17.
Proof.
  intros W Hj Hj0 Hr. pose proof (w_geo _ _ W) as Hq. pose proof (l2_size_bounds _ Hq) as Hls.
  pose proof (g_l2b _ Hq) as Hlb.
  destruct (block_alloc_ok s (l2_size (q_info s) * 8) (l2_bits (q_info s) + 3)) as (o & n & E & H1 & H2 & H3 & H4);
    [apply Hq|apply W|by rewrite (l2_size_pow _ Hq), Z.pow_add_r by lia|lia|lia|].
  destruct (qwf_extend k s (q_file s ++ zeros n) W) as (W1 & P1 & He1);
    [rewrite length_app; lia|lia|intros; by apply read_at_app_l|].
  set (s1 := set_img s (Img (q_file s ++ zeros n) [])) in *.
  destruct (fresh_apart s k o (l2_size (q_info s) * 8) W H1) as [Ha Hw].
  pose proof (t_l1 _ _ _ _ (w_tabs _ _ W)) as Tl. pose proof (g_l1 _ Hq) as Gl.
  destruct (link_table_ok k s1 j o W1 Hj Hj0) as (W2 & P2 & Hjo & He2 & L2); try done.
  { lia. } { unfold s1. cbn [q_info set_img]. change (q_file _) with (q_file s ++ zeros n). lia. }
  { intros c Hc Hx Hn. pose proof (He1 c Hc) as X. unfold s_ent in X. change (q_info s1) with (q_info s) in *.
    rewrite X in *. by apply Hw. }
  set (s2 := set_img (set_l1 s1 _) _) in *.
  exists o, s2. split.
  { unfold get_l2_offset. rewrite (l1_entry k) by done. cbn [mbind option_bind].
    fold (l2off (q_info s) (l1_table s) j). rewrite Hj0. cbn [Z.eqb negb]. unfold l2_table_alloc.
    rewrite E. cbn [mbind option_bind]. rewrite (proj2 (Z.eqb_neq o 0)) by lia. fold s1.
    pose proof (t_len _ _ _ _ (w_tabs _ _ W)) as Ll. red in Hj. pose proof (be_enc_length 8 o) as Lo.
    unfold l1_table_update, write_entry. change (q_info s1) with (q_info s). change (l1_table s1) with (l1_table s).
    rewrite (g_cop _ Hq), Z.lor_0_r, set64_write by lia. cbn [mbind option_bind].
    change (q_img (set_l1 s1 _)) with (Img (q_file s ++ zeros n) []). rewrite u64_small by lia.
    rewrite img_pwrite_ok by lia. cbn [mbind option_bind]. unfold q_set_refcount.
    change (q_v2 (q_info (set_img _ _))) with (q_v2 (q_info s)). by rewrite (g_v1 _ Hq). }
  split_and!; try done.
  - by apply (pres_trans s s1).
  - lia.
  - intros c Hc. by rewrite He2, He1.
  - rewrite L2. change (q_file s1) with (q_file s ++ zeros n). lia.
Qed.

(** ** Moving a cluster *)

(** Cluster [c] has the place [o] for itself, and no byte of the disk changed. *)
Record owned s s' (c o g : Z) : Prop := {
  ow_pres : pres s s';
  ow_ent : s_ent s' c = o;
  ow_low : 48 <= o;
  ow_high : o + cluster_size (q_info s') <= Z.of_nat (length (q_file s'));
  ow_apart : apart (q_info s') (l1_table s') o (cluster_size (q_info s'));
  ow_owns : owns (q_info s') (q_file s') (l1_table s') (Some c) o (cluster_size (q_info s'));
  ow_grow : Z.of_nat (length (q_file s')) <= Z.of_nat (length (q_file s)) + g
}.

Lemma owned_pres s0 s s' c o g g' :
  pres s0 s -> owned s s' c o g -> Z.of_nat (length (q_file s)) <= Z.of_nat (length (q_file s0)) + g' ->
  owned s0 s' c o (g + g').
Proof. intros P [] Hg. split; try done; [by apply (pres_trans _ s)|lia]. Qed.

(** Cluster [c] has moved to [o] and holds [data]. *)
Record moved s s' (c o g : Z) (data : list Z) : Prop := {
  mv_info : q_info s' = q_info s;
  mv_back : backing_image s' = backing_image s;
  mv_head : read_at (q_file s') 0 48 = read_at (q_file s) 0 48;
  mv_len : (length (q_file s) <= length (q_file s'))%nat;
  mv_ent : s_ent s' c = o;
  mv_low : 48 <= o;
  mv_high : o + cluster_size (q_info s') <= Z.of_nat (length (q_file s'));
  mv_apart : apart (q_info s') (l1_table s') o (cluster_size (q_info s'));
  mv_owns : owns (q_info s') (q_file s') (l1_table s') (Some c) o (cluster_size (q_info s'));
  mv_grow : Z.of_nat (length (q_file s')) <= Z.of_nat (length (q_file s)) + g;
  mv_byte : forall v, 0 <= v < q_size (q_info s) ->
    qbyte s' v = if v / cluster_size (q_info s) =? c
                 then default 0 (data !! Z.to_nat (v mod cluster_size (q_info s))) else qbyte s v
}.

Lemma moved_owned s s' c o g data :
  moved s s' c o g data ->
  (forall v, 0 <= v < q_size (q_info s) -> v / cluster_size (q_info s) = c ->
     qbyte s v = default 0 (data !! Z.to_nat (v mod cluster_size (q_info s)))) -> owned s s' c o g.
Proof.
  intros [I Bk Hh Ln E H1 H2 Ha Ho Hg Y] Hb. split; try done. split; [done|by rewrite Bk| |done|done].
  intros v Hv. rewrite Y by done. destruct (Z.eqb_spec (v / cluster_size (q_info s)) c) as [Ev|_]; [|done].
  symmetry. by apply Hb.
Qed.

Lemma relocate_ok k s c i data :
  qwf k s -> live (q_info s) c ->
  let t := l2off (q_info s) (l1_table s) (c / l2_size (q_info s)) in
  t <> 0 -> c_offs (l2_cache s) !! i = Some t ->
  c_data (l2_cache s) !! i = Some (read_at (q_file s) t (l2_size (q_info s) * 8)) ->
  Z.of_nat (length data) = cluster_size (q_info s) ->
  Z.of_nat (length (q_file s)) + 2 ^ 17 <= 2 ^ 62 ->
  exists o f s',
    qcow_cluster_alloc s = Some (o, set_img s (Img f [])) /\ 48 <= o < 2 ^ 63 /\
    img_pwrite (Img f []) data o = (cluster_size (q_info s), Img (write_at f o data) []) /\
    (data = zeros (Z.to_nat (cluster_size (q_info s))) -> write_at f o data = f) /\
    (forall a n, 0 <= a -> a + n <= Z.of_nat (length (q_file s)) -> read_at f a n = read_at (q_file s) a n) /\
    (length (q_file s) <= length f)%nat /\
    link_cluster (set_img s (Img (write_at f o data) [])) i t (c mod l2_size (q_info s)) o = Some (o, s') /\
    qwf k s' /\ moved s s' c o (2 ^ 17) data.
Proof.
  intros W Hc t Ht Hoff Hi Hd Hroom. pose proof (w_geo _ _ W) as Hq.
  pose proof (cluster_size_bounds _ Hq) as Hcs.
  destruct (cluster_alloc_fill k s data W Hd) as (o & f & E & H48 & Hend & Hlen & Lf & Hgr & Hz & Hr & W1 & P1 & He1 & Hrd);
    [lia|].
  set (s1 := set_img s (Img (write_at f o data) [])) in *.
  assert (o + cluster_size (q_info s) <= Z.of_nat (length (q_file s1))) as Hl1
    by (change (q_file s1) with (write_at f o data); lia).
  destruct (fresh_apart s k o (cluster_size (q_info s)) W Hend) as [Ha Hw].
  assert (owns (q_info s) (q_file s1) (l1_table s) (Some c) o (cluster_size (q_info s))) as Hw1.
  { intros c' Hc' _ Hn. pose proof (He1 c' Hc') as X. unfold s_ent in X. change (q_info s1) with (q_info s) in X.
    change (l1_table s1) with (l1_table s) in X. rewrite X in *. by apply Hw. }
  assert (read_at (q_file s1) t (l2_size (q_info s) * 8) = read_at (q_file s) t (l2_size (q_info s) * 8)) as Htab.
  { destruct (live_index _ c Hq Hc) as [Hj _]. destruct (t_l2 _ _ _ _ (w_tabs _ _ W) _ Hj Ht) as (X1 & X2 & _).
    fold t in X1, X2. change (q_file s1) with (write_at f o data).
    rewrite read_at_write_disj; [by apply Hr; lia|unfold disj; lia..]. }
  destruct (link_cluster_ok k s1 c i o W1 Hc Ht Hoff) as (s2 & El & W2 & I2 & B2 & T2 & Ec & L2 & Hh & Ow & Hb);
    [etrans; [exact Hi|f_equal; symmetry; exact Htab]|lia|done|done|done|].
  change (q_info s1) with (q_info s) in *. change (l1_table s1) with (l1_table s) in *.
  exists o, f, s2. split_and!; try done; try lia.
  - rewrite img_pwrite_ok by lia. by rewrite Hd.
  - intros ->. by rewrite <- Hz, write_read_at by lia.
  - destruct P1 as [_ _ Y1 Hh1 L1]. split; rewrite ?I2, ?T2; try done; try lia.
    + congruence.
    + change (q_file s1) with (write_at f o data) in *. lia.
    + intros v Hv. rewrite Hb by done. destruct (Z.eqb_spec (v / cluster_size (q_info s)) c) as [Ev|_]; [|by apply Y1].
      unfold cbyte. rewrite is_comp_small by lia.
      apply (f_equal (fun l => l !! Z.to_nat (v mod cluster_size (q_info s)))) in Hrd.
      rewrite lookup_read_at, decide_True in Hrd by (pose proof (Z.mod_pos_bound v (cluster_size (q_info s))); lia).
      change (q_file s1) with (write_at f o data). rewrite <- Hrd.
      by rewrite Z2Nat.inj_add by (pose proof (Z.mod_pos_bound v (cluster_size (q_info s))); lia).
Qed.

(** ** [get_cluster_offset] *)

Lemma index_l1 q v : geo q -> 0 <= v < q_size q ->
  u32 (Z.shiftr v (l2_bits q + cluster_bits q)) = v / cluster_size q / l2_size q.
Proof.
  intros Hq Hv. rewrite l1_index_div by done. pose proof (live_index q _ Hq (live_cluster q v Hq Hv)) as [[? ?] _].
  pose proof (g_l1 _ Hq). apply u32_small. lia.
Qed.

Lemma index_l2 q v : geo q ->
  u32 (Z.land (Z.shiftr v (cluster_bits q)) (l2_size q - 1)) = (v / cluster_size q) mod l2_size q.
Proof.
  intros Hq. rewrite l2_index_mod, cluster_index_div by done. pose proof (l2_size_bounds _ Hq).
  apply u32_small. pose proof (Z.mod_pos_bound (v / cluster_size q) (l2_size q)). lia.
Qed.

Lemma l2_cache_lookup_ok k s j :
  qwf k s -> 0 < k -> live_table (q_info s) j ->
  let t := l2off (q_info s) (l1_table s) j in
  t <> 0 ->
  exists i ch, l2_cache_lookup s t = Some (Some i, set_l2c s ch) /\ c_offs ch !! i = Some t /\
    c_data ch !! i = Some (read_at (q_file s) t (l2_size (q_info s) * 8)) /\ qwf (k - 1) (set_l2c s ch).
Proof.
  intros W Hk Hj t Ht. pose proof (w_geo _ _ W) as Hq. pose proof (l2_size_bounds _ Hq).
  destruct (t_l2 _ _ _ _ (w_tabs _ _ W) j Hj Ht) as (H1 & H2 & _). fold t in H1, H2. pose proof (w_len _ _ W).
  destruct (cache_lookup_ok _ _ _ k (l2_cache s) t (w_cache _ _ W)) as (i & ch & E & Eo & Ed & C);
    [done|by exists j|lia|lia|lia|].
  exists i, ch. unfold l2_cache_lookup. rewrite (q_img_file s (w_out _ _ W)), E. cbn [mbind option_bind].
  rewrite <- (q_img_file s (w_out _ _ W)). split_and!; try done. by apply (qwf_set_l2c k); [|lia|].
Qed.

Lemma entry_in_table k s c :
  qwf k s -> live (q_info s) c -> l2off (q_info s) (l1_table s) (c / l2_size (q_info s)) <> 0 ->
  get64 (read_at (q_file s) (l2off (q_info s) (l1_table s) (c / l2_size (q_info s))) (l2_size (q_info s) * 8))
    (c mod l2_size (q_info s)) = Some (s_ent s c).
Proof.
  intros W Hc Ht. pose proof (w_geo _ _ W) as Hq. destruct (live_index _ c Hq Hc) as [Hj Hk].
  destruct (t_l2 _ _ _ _ (w_tabs _ _ W) _ Hj Ht) as (H1 & H2 & _).
  rewrite get64_entry; [|lia|rewrite length_read_at_Z by lia; lia].
  unfold s_ent, ent. by rewrite (proj2 (Z.eqb_neq _ _)).
Qed.

Lemma s_ent_bound k s c : qwf k s -> live (q_info s) c -> 0 <= s_ent s c < 2 ^ 64.
Proof.
  intros W Hc. destruct (Z.eqb_spec (s_ent s c) 0) as [->|Hn]; [lia|].
  by destruct (t_ent _ _ _ _ (w_tabs _ _ W) c Hc Hn) as (? & _).
Qed.

(** Reading: the entry of the cluster; only the cache of tables changes. *)
Lemma get_cluster_offset_read k s v :
  qwf k s -> 0 < k -> 0 <= v < q_size (q_info s) ->
  exists ch, get_cluster_offset inflate s v false = Some (s_ent s (v / cluster_size (q_info s)), set_l2c s ch) /\
    qwf (k - 1) (set_l2c s ch).
Proof.
  intros W Hk Hv. pose proof (w_geo _ _ W) as Hq. pose proof (live_cluster _ v Hq Hv) as Hc.
  set (c := v / cluster_size (q_info s)) in *. destruct (live_index _ c Hq Hc) as [Hj _].
  unfold get_cluster_offset. rewrite index_l1, index_l2 by done. fold c.
  destruct (Z.eqb_spec (l2off (q_info s) (l1_table s) (c / l2_size (q_info s))) 0) as [H0|Hn].
  - rewrite (get_l2_offset_none k) by done. cbn [mbind option_bind]. rewrite Z.eqb_refl.
    unfold s_ent, ent. rewrite H0, Z.eqb_refl. exists (l2_cache s).
    replace (set_l2c s (l2_cache s)) with s by (by destruct s). split; [done|]. apply (qwf_weaken k); [done|lia].
  - rewrite (get_l2_offset_hit k) by done. cbn [mbind option_bind]. rewrite (proj2 (Z.eqb_neq _ _)) by done.
    destruct (l2_cache_lookup_ok k s _ W Hk Hj Hn) as (i & ch & -> & _ & Hi & W'). cbn [mbind option_bind].
    exists ch. split; [|done]. change (l2_cache (set_l2c s ch)) with ch. rewrite Hi. cbn [mbind option_bind].
    rewrite (entry_in_table k) by done. cbn [mbind option_bind]. destruct (Z.eqb_spec (s_ent s c) 0) as [->|_]; [done|].
    rewrite !andb_false_r. cbn [negb]. rewrite (g_cop _ Hq), land_uncopied by (by eapply s_ent_bound). done.
Qed.

Lemma decompress_cluster_ok k s c :
  qwf k s -> live (q_info s) c -> s_ent s c <> 0 -> is_comp (s_ent s c) = true ->
  let r := (inflate (read_at (q_file s) (place (q_info s) (s_ent s c)).1 (place (q_info s) (s_ent s c)).2)
              (cluster_size (q_info s))).2 in
  exists off, decompress_cluster inflate s (s_ent s c) = (0, set_cc s r off) /\ qwf k (set_cc s r off) /\
    Z.of_nat (length r) = cluster_size (q_info s).
Proof.
  intros W Hc Hn Hcp r. destruct (t_ent _ _ _ _ (w_tabs _ _ W) c Hc Hn) as (_ & H1 & H2 & _).
  destruct (t_comp _ _ _ _ (w_tabs _ _ W) c Hc Hn Hcp) as [[Hr1 Hr2] Hu]. fold (s_ent s c) in *.
  destruct (w_cc _ _ W) as [CL CC].
  assert (qwf k (set_cc s r (place (q_info s) (s_ent s c)).1)) as W'.
  { destruct W. split; try done. split; [done|]. intros c' Hc' Hn' Hcp' E.
    change (s_ent (set_cc _ _ _) c') with (s_ent s c') in *. change (q_info (set_cc _ _ _)) with (q_info s) in *.
    cbn [cluster_cache set_cc] in *. change (q_file (set_cc _ _ _)) with (q_file s).
    unfold r. rewrite E. f_equal. f_equal. f_equal. symmetry. by apply Hu. }
  unfold decompress_cluster. specialize (CC c Hc Hn Hcp). fold r in CC.
  assert (compressed_place (q_info s) (s_ent s c) = place (q_info s) (s_ent s c)) as Ep by (unfold place; by rewrite Hcp).
  rewrite Ep. destruct (place (q_info s) (s_ent s c)) as [coff csz] eqn:P. cbn [fst snd] in *.
  destruct (Z.eqb_spec (cluster_cache_offset s) coff) as [E|E].
  - exists coff. split; [|done]. rewrite <- E, <- CC by done. by destruct s.
  - exists coff. split; [|done]. rewrite (q_img_file s (w_out _ _ W)). pose proof (w_len _ _ W).
    assert (0 <= csz) as Hcz.
    { apply (f_equal snd) in Ep. cbn in Ep. rewrite <- Ep. apply Z.land_nonneg. right.
      pose proof (cluster_size_bounds _ (w_geo _ _ W)). lia. }
    rewrite img_pread_ok, Z.eqb_refl by lia. cbn [negb]. rewrite <- (q_img_file s (w_out _ _ W)).
    replace (set_img s (q_img s)) with s by (by destruct s). unfold decompress_buffer.
    unfold inflates in Hr1. rewrite ?P in Hr1, Hr2. cbn [fst snd] in Hr1, Hr2. fold (q_file s).
    destruct (inflate (read_at (q_file s) coff csz) (cluster_size (q_info s))) as [ret out] eqn:EI.
    cbn [fst snd] in *. unfold r. cbn [snd]. rewrite drop_ge, app_nil_r by lia.
    rewrite Hr2, Z.eqb_refl. destruct Hr1 as [-> | ->]; done.
Qed.

Lemma not_comp_small e : 0 <= e < 2 ^ 64 -> is_comp e = false -> e < 2 ^ 63.
Proof.
  intros He Hc. destruct (Z.lt_ge_cases e (2 ^ 63)) as [|Hge]; [done|exfalso]. unfold is_comp in Hc.
  apply negb_false_iff, Z.eqb_eq in Hc.
  assert (Z.testbit (Z.land e (2 ^ 63)) 63 = true) as Hb; [|by rewrite Hc in Hb].
  rewrite Z.land_spec, Z.pow2_bits_true, andb_true_r by lia.
  replace e with (e - 2 ^ 63 + 1 * 2 ^ 63) by lia. rewrite Z.testbit_true by lia.
  rewrite Z.div_add by lia. rewrite Z.div_small by lia. done.
Qed.

(** The table of a cluster that is written to. *)
Lemma table_for_write k s c :
  qwf k s -> live (q_info s) c -> Z.of_nat (length (q_file s)) + 2 ^ 17 <= 2 ^ 62 ->
  exists t s1, get_l2_offset s (c / l2_size (q_info s)) true = Some (t, s1) /\ qwf k s1 /\ pres s s1 /\
    l2off (q_info s) (l1_table s1) (c / l2_size (q_info s)) = t /\ t <> 0 /\ s_ent s1 c = s_ent s c /\
    Z.of_nat (length (q_file s1)) <= Z.of_nat (length (q_file s)) + 2 ^ 17.
Proof.
  intros W Hc Hr. destruct (live_index _ c (w_geo _ _ W) Hc) as [Hj _].
  destruct (Z.eq_dec (l2off (q_info s) (l1_table s) (c / l2_size (q_info s))) 0) as [H0|Hn].
  - destruct (get_l2_offset_alloc k s _ W Hj H0 Hr) as (o & s1 & E & W1 & P1 & Ho & Hn & He & Hl).
    exists o, s1. split_and!; try done. by apply He.
  - exists (l2off (q_info s) (l1_table s) (c / l2_size (q_info s))), s. split_and!; try done.
    + by apply (get_l2_offset_hit k).
    + lia.
Qed.

(** What [relocate_ok] needs of the state in which the entry has been looked up. *)
Record found (k : Z) s (c : Z) (i : nat) : Prop := {
  fo_wf : qwf k s;
  fo_live : live (q_info s) c;
  fo_table : l2off (q_info s) (l1_table s) (c / l2_size (q_info s)) <> 0;
  fo_offs : c_offs (l2_cache s) !! i = Some (l2off (q_info s) (l1_table s) (c / l2_size (q_info s)));
  fo_data : c_data (l2_cache s) !! i =
    Some (read_at (q_file s) (l2off (q_info s) (l1_table s) (c / l2_size (q_info s))) (l2_size (q_info s) * 8));
  fo_room : Z.of_nat (length (q_file s)) + 2 ^ 17 <= 2 ^ 62
}.

(** What [get_cluster_offset] does with the entry, for writes. *)
Definition take_cluster s (i : nat) (t idx e : Z) : option (Z * qcow_state B) :=
  let q := q_info s in
  if e =? 0 then
    '(o, s) ← qcow_cluster_alloc s; if o =? 0 then Some (0, s) else link_cluster s i t idx o
  else if is_comp e then
    let '(r, s) := decompress_cluster inflate s e in
    if r <? 0 then Some (0, s)
    else
      '(o, s) ← qcow_cluster_alloc s;
      if o =? 0 then Some (0, s)
      else
        let '(r, f) := img_pwrite (q_img s) (cluster_cache s) o in
        let s := set_img s f in
        if negb (r =? cluster_size q) then Some (0, s) else link_cluster s i t idx o
  else
    let '(r, f) := next_out 0 (q_img s) in
    let s := set_img s f in
    if r <? 0 then Some (0, s)
    else
      '(o, s) ← qcow_cluster_alloc s;
      if o =? 0 then Some (0, s)
      else
        let '(cow_buffer, r, f) := img_pread (q_img s) (cluster_size q) (Z.land e (cluster_mask q)) in
        let s := set_img s f in
        if negb (r =? cluster_size q) then Some (0, s)
        else
          let '(r, f) := img_pwrite (q_img s) cow_buffer o in
          let s := set_img s f in
          if negb (r =? cluster_size q) then Some (0, s) else link_cluster s i t idx o.

Lemma take_empty_moved k s c i :
  found k s c i -> s_ent s c = 0 ->
  exists o s', take_cluster s i (l2off (q_info s) (l1_table s) (c / l2_size (q_info s))) (c mod l2_size (q_info s)) 0 =
      Some (o, s') /\ qwf k s' /\ moved s s' c o (2 ^ 17) (zeros (Z.to_nat (cluster_size (q_info s)))).
Proof.
  intros [W Hc Ht Ho Hd Hr] E0. pose proof (cluster_size_bounds _ (w_geo _ _ W)) as Hcs.
  destruct (relocate_ok k s c i (zeros (Z.to_nat (cluster_size (q_info s)))) W Hc Ht Ho Hd) as
    (o & f & s' & Ea & Hob & _ & Hz & _ & _ & El & W' & Mv); [rewrite length_zeros; lia|done|].
  exists o, s'. split; [|done]. unfold take_cluster. rewrite Z.eqb_refl, Ea. cbn [mbind option_bind].
  rewrite (proj2 (Z.eqb_neq o 0)) by lia. by rewrite <- (Hz eq_refl).
Qed.

Lemma default_zeros n i : default 0 (zeros n !! i) = 0.
Proof. unfold zeros. destruct (replicate _ _ !! _) eqn:X; [|done]. by apply lookup_replicate in X as [-> _]. Qed.

Lemma take_empty k s c i :
  found k s c i -> s_ent s c = 0 -> backing_image s = None ->
  exists o s', take_cluster s i (l2off (q_info s) (l1_table s) (c / l2_size (q_info s))) (c mod l2_size (q_info s)) 0 =
      Some (o, s') /\ qwf k s' /\ owned s s' c o (2 ^ 17).
Proof.
  intros F E0 Hb. destruct (take_empty_moved k s c i F E0) as (o & s' & E & W' & Mv). exists o, s'.
  split_and!; [done|done|]. apply (moved_owned _ _ _ _ _ _ Mv). intros v Hv <-.
  unfold qbyte, vbyte. unfold s_ent in E0. rewrite E0. cbn [Z.eqb]. rewrite Hb. cbn [bk_byte]. by rewrite default_zeros.
Qed.

Lemma take_compressed k s c i :
  found k s c i -> s_ent s c <> 0 -> is_comp (s_ent s c) = true ->
  exists o s', take_cluster s i (l2off (q_info s) (l1_table s) (c / l2_size (q_info s))) (c mod l2_size (q_info s))
      (s_ent s c) = Some (o, s') /\ qwf k s' /\ owned s s' c o (2 ^ 17).
Proof.
  intros [W Hc Ht Ho Hd Hr] En Hcp. pose proof (cluster_size_bounds _ (w_geo _ _ W)) as Hcs.
  destruct (decompress_cluster_ok k s c W Hc En Hcp) as (off & Ed & W1 & Lr).
  set (r := (inflate _ _).2) in *. set (s1 := set_cc s r off) in *.
  destruct (relocate_ok k s1 c i r W1 Hc Ht Ho Hd Lr Hr) as
    (o & f & s' & Ea & Hob & Ew & _ & _ & _ & El & W' & Mv).
  assert (owned s1 s' c o (2 ^ 17)) as Ow.
  { apply (moved_owned _ _ _ _ _ _ Mv). intros v Hv Ev. unfold qbyte, vbyte. change (q_info s1) with (q_info s) in *. rewrite Ev.
    change (ent _ (q_file s1) (l1_table s1) c) with (s_ent s c). rewrite (proj2 (Z.eqb_neq _ 0)) by done.
    unfold cbyte. by rewrite Hcp. }
  exists o, s'. split.
  - unfold take_cluster. rewrite (proj2 (Z.eqb_neq _ 0)), Hcp, Ed by done. cbn [Z.ltb Z.compare].
    rewrite Ea. cbn [mbind option_bind]. rewrite (proj2 (Z.eqb_neq o 0)) by lia.
    change (q_img (set_img s1 _)) with (Img f []). change (cluster_cache (set_img s1 _)) with r.
    rewrite Ew. change (q_info s1) with (q_info s). rewrite Z.eqb_refl. cbn [negb]. exact El.
  - split; [done|]. destruct Ow as [P ? ? ? ? ? ?]. split; try done. destruct P. by split.
Qed.

Lemma take_shared k s c i :
  found k s c i -> s_ent s c <> 0 -> is_comp (s_ent s c) = false ->
  exists o s', take_cluster s i (l2off (q_info s) (l1_table s) (c / l2_size (q_info s))) (c mod l2_size (q_info s))
      (s_ent s c) = Some (o, s') /\ qwf k s' /\ owned s s' c o (2 ^ 17).
Proof.
  intros [W Hc Ht Ho Hd Hr] En Hcp. pose proof (w_geo _ _ W) as Hq. pose proof (cluster_size_bounds _ Hq) as Hcs.
  destruct (t_ent _ _ _ _ (w_tabs _ _ W) c Hc En) as (Hb & H48 & Hhi & _). fold (s_ent s c) in *.
  pose proof (not_comp_small _ Hb Hcp) as Hsm. rewrite place_small in H48, Hhi by lia. cbn [fst snd] in H48, Hhi.
  set (e := s_ent s c) in *. set (cs := cluster_size (q_info s)) in *. pose proof (w_len _ _ W) as Hlen.
  pose proof (length_read_at_Z (q_file s) e cs ltac:(lia) ltac:(lia) Hhi) as Ld.
  destruct (relocate_ok k s c i (read_at (q_file s) e cs) W Hc Ht Ho Hd) as
    (o & f & s' & Ea & Hob & Ew & _ & Hrf & Hlf & El & W' & Mv); [fold cs; lia|done|].
  assert (owned s s' c o (2 ^ 17)) as Ow.
  { apply (moved_owned _ _ _ _ _ _ Mv). intros v Hv Ev. fold cs in Ev |- *. unfold qbyte, vbyte. fold cs. rewrite Ev.
    change (ent _ (q_file s) (l1_table s) c) with e. rewrite (proj2 (Z.eqb_neq e 0)) by done.
    unfold cbyte. rewrite Hcp, lookup_read_at. pose proof (Z.mod_pos_bound v cs).
    rewrite decide_True by lia. by rewrite Z2Nat.inj_add by lia. }
  exists o, s'. split; [|done]. unfold take_cluster. rewrite (proj2 (Z.eqb_neq e 0)), Hcp by done.
  rewrite (q_img_file s (w_out _ _ W)) at 1. cbn [next_out i_out]. cbn [Z.ltb Z.compare].
  rewrite <- (q_img_file s (w_out _ _ W)). replace (set_img s (q_img s)) with s by (by destruct s).
  rewrite Ea. cbn [mbind option_bind]. rewrite (proj2 (Z.eqb_neq o 0)) by lia.
  change (q_img (set_img s _)) with (Img f []). rewrite (g_mask _ Hq). fold cs.
  replace (Z.land e (2 ^ 63 - 1)) with e
    by (change (2 ^ 63 - 1) with (Z.ones 63); rewrite Z.land_ones by lia; by rewrite Z.mod_small by lia).
  rewrite img_pread_ok by lia. rewrite Z.eqb_refl. cbn [negb]. rewrite Hrf by lia.
  change (q_img (set_img _ _)) with (Img f []). rewrite Ew. fold cs. rewrite Z.eqb_refl. exact El.
Qed.

Lemma take_cluster_ok k s c i :
  found k s c i -> (s_ent s c <> 0 \/ backing_image s = None) ->
  exists o s', take_cluster s i (l2off (q_info s) (l1_table s) (c / l2_size (q_info s))) (c mod l2_size (q_info s))
      (s_ent s c) = Some (o, s') /\ qwf k s' /\ owned s s' c o (2 ^ 17).
Proof.
  intros F Hb. destruct (Z.eq_dec (s_ent s c) 0) as [E|En].
  - rewrite E. apply (take_empty k); [done..|]. by destruct Hb.
  - destruct (is_comp (s_ent s c)) eqn:Hcp; [by apply take_compressed|by apply take_shared].
Qed.

(** The table is found or made, then the entry is looked at. *)
Lemma get_cluster_offset_take k s v :
  qwf k s -> 0 < k -> 0 <= v < q_size (q_info s) -> Z.of_nat (length (q_file s)) + 2 ^ 18 <= 2 ^ 62 ->
  let c := v / cluster_size (q_info s) in
  exists s2 i, found (k - 1) s2 c i /\ pres s s2 /\ s_ent s2 c = s_ent s c /\
    Z.of_nat (length (q_file s2)) <= Z.of_nat (length (q_file s)) + 2 ^ 17 /\
    get_cluster_offset inflate s v true =
      take_cluster s2 i (l2off (q_info s2) (l1_table s2) (c / l2_size (q_info s2))) (c mod l2_size (q_info s2)) (s_ent s2 c).
Proof.
  intros W Hk Hv Hr c. pose proof (w_geo _ _ W) as Hq. pose proof (live_cluster _ v Hq Hv) as Hc. fold c in Hc.
  destruct (live_index _ c Hq Hc) as [Hj _].
  destruct (table_for_write k s c W Hc) as (t & s1 & E1 & W1 & P1 & Ht & Hn & He1 & Hl1); [lia|].
  pose proof (p_info _ _ P1) as I1. rewrite <- I1 in Ht, Hj. rewrite <- Ht in Hn.
  destruct (l2_cache_lookup_ok k s1 _ W1 Hk Hj Hn) as (i & ch & E2 & Eo & Ed & W2).
  rewrite I1 in E2, Eo, Ed, Ht, Hn. set (s2 := set_l2c s1 ch) in *.
  assert (found (k - 1) s2 c i) as F.
  { split; change (q_info s2) with (q_info s1); rewrite ?I1; try done. change (q_file s2) with (q_file s1). lia. }
  exists s2, i. split_and!; [done|by apply (pres_trans _ s1), pres_set_l2c|done|done|].
  unfold get_cluster_offset. rewrite index_l1, index_l2 by done. fold c. rewrite E1. cbn [mbind option_bind].
  rewrite <- Ht, (proj2 (Z.eqb_neq _ _)), E2 by done. cbn [mbind option_bind].
  change (l2_cache s2) with ch. rewrite Ed. cbn [mbind option_bind].
  pose proof (entry_in_table (k - 1) s2 c W2 (fo_live _ _ _ _ F) (fo_table _ _ _ _ F)) as En.
  change (q_info s2) with (q_info s1) in En. change (q_file s2) with (q_file s1) in En.
  change (l1_table s2) with (l1_table s1) in En. change (s_ent s2 c) with (s_ent s1 c) in En |- *.
  rewrite I1 in En. rewrite En, He1. cbn [mbind option_bind]. rewrite (g_comp _ Hq), (g_cop _ Hq), Z.land_0_r.
  fold (is_comp (s_ent s c)). cbn [Z.eqb negb]. rewrite !andb_true_r. unfold take_cluster.
  change (q_info s2) with (q_info s1). rewrite I1. reflexivity.
Qed.

(** Writing: the cluster gets a place of its own. *)
Lemma get_cluster_offset_write k s v :
  qwf k s -> 0 < k -> 0 <= v < q_size (q_info s) ->
  (s_ent s (v / cluster_size (q_info s)) <> 0 \/ backing_image s = None) ->
  Z.of_nat (length (q_file s)) + 2 ^ 18 <= 2 ^ 62 ->
  exists o s', get_cluster_offset inflate s v true = Some (o, s') /\ qwf (k - 1) s' /\
    owned s s' (v / cluster_size (q_info s)) o (2 ^ 18).
Proof.
  intros W Hk Hv Hb Hr. destruct (get_cluster_offset_take k s v W Hk Hv Hr) as (s2 & i & F & P & Ee & Hl & E).
  destruct (take_cluster_ok (k - 1) s2 _ i F) as (o & s' & E3 & W3 & Ow).
  { destruct Hb as [|Hb]; [left; by rewrite Ee|]. right. by apply (p_back _ _ P). }
  exists o, s'. split; [by rewrite E|]. split; [done|].
  change (2 ^ 18) with (2 ^ 17 + 2 ^ 17). by apply (owned_pres s s2).
Qed.
End qcow.
