(* ===== verification/QcowSeg.v ===== *)
(** * The QCOW handler: segments of scatter lists

    [iovec_segment] cuts out of a scatter list the buffers of a range of its
    bytes: what they hold is that range, and what is stored there shows up in
    the whole list at its place. *)

From S2P Require Import Prelude Iovec Backstore FileBack Qcow.

(** [q], [n] is inside the buffer [v]. *)
Definition inside (v : iovec) (q : ptr) (n : Z) : Prop :=
  p_blk q = p_blk (iov_base v) /\ p_off (iov_base v) <= p_off q /\ p_off q + n <= p_off (iov_base v) + iov_len v.

(** The memories agree on the parts of [iov] outside [seg]. *)
Definition same_rest (m m' : mem) (iov seg : list iovec) : Prop :=
  forall v q n, In v iov -> inside v q n -> outside seg q n -> mem_load m' q n = mem_load m q n.

(** [seg] stands for [l] bytes from the [o]-th on of [iov], whose bytes are [g]. *)
Record seg_ok (m : mem) (iov : list iovec) (g : list Z) (o l : nat) (seg : list iovec) : Prop := {
  sg_gather : gather m seg = Some (take l (drop o g));
  sg_disj : iov_disj seg;
  sg_out : forall q n, outside iov q n -> outside seg q n;
  sg_back : forall m' y, gather m' seg = Some y -> same_rest m m' iov seg ->
    gather m' iov = Some (take o g ++ y ++ drop (o + l) g)
}.

Lemma padd_0 p : padd p 0 = p.
Proof. destruct p. unfold padd. cbn. f_equal. lia. Qed.

Lemma inside_self v : inside v (iov_base v) (iov_len v).
Proof. split; [done|lia]. Qed.

Lemma apart_outside v iov : Forall (iov_apart v) iov -> outside iov (iov_base v) (iov_len v).
Proof. intros H. eapply Forall_impl; [exact H|]. intros w. apply range_disj_sym. Qed.

Lemma outside_inside iov v q n : outside iov (iov_base v) (iov_len v) -> inside v q n -> outside iov q n.
Proof.
  intros H (Hb & H1 & H2). eapply Forall_impl; [exact H|]. intros w Hw. apply range_disj_sym.
  apply range_disj_sym in Hw. by eapply range_disj_within.
Qed.

Lemma seg_ok_nil m iov g : gather m iov = Some g -> seg_ok m iov g 0 0 [].
Proof.
  intros Hg. split; try done; [constructor|]. intros m' y Hy HS. cbn in Hy. simplify_eq.
  cbn [app Nat.add]. rewrite take_0, drop_0. cbn [app]. rewrite <- Hg. apply gather_agree.
  apply Forall_forall. intros v Hv. apply (HS v); [by apply list_elem_of_In|apply inside_self|constructor].
Qed.

(** Buffers before the range. *)
Lemma seg_ok_skip m v iov a b o l seg :
  mem_load m (iov_base v) (iov_len v) = Some a -> Forall (iov_apart v) iov ->
  seg_ok m iov b o l seg -> seg_ok m (v :: iov) (a ++ b) (length a + o) l seg.
Proof.
  intros Ha Hv [G D O Bk]. split; [by rewrite drop_app_add|done| |].
  - intros q n Hq. inversion Hq; subst. auto.
  - intros m' y Hy HS. cbn [gather].
    assert (mem_load m' (iov_base v) (iov_len v) = Some a) as ->.
    { rewrite <- Ha. apply (HS v); [by left|apply inside_self|]. by apply O, apart_outside. }
    assert (same_rest m m' iov seg) as HS' by (intros w q n Hw; apply HS; by right).
    rewrite (Bk _ _ Hy HS'). cbn [mbind option_bind].
    rewrite take_app_add, <- Nat.add_assoc, drop_app_add, <- app_assoc. done.
Qed.

(** A buffer that the range starts in. *)
Lemma seg_ok_cons m v iov a b o n l seg :
  mem_load m (iov_base v) (iov_len v) = Some a -> Forall (iov_apart v) iov ->
  (o + n <= length a)%nat -> (o + n = length a)%nat \/ l = 0%nat ->
  seg_ok m iov b 0 l seg ->
  seg_ok m (v :: iov) (a ++ b) o (n + l) (Iov (padd (iov_base v) (Z.of_nat o)) (Z.of_nat n) :: seg).
Proof.
  intros Ha Hv Hon Hl [G D O Bk]. pose proof (mem_load_length _ _ _ _ Ha) as La.
  set (p := iov_base v) in *.
  assert (inside v (padd p (Z.of_nat o)) (Z.of_nat n)) as Hin by (split; [done|]; cbn; fold p; lia).
  destruct (mem_load_split m p (iov_len v) (Z.of_nat o) a ltac:(lia) Ha) as [H1 H2].
  destruct (mem_load_split m (padd p (Z.of_nat o)) (iov_len v - Z.of_nat o) (Z.of_nat n) _ ltac:(lia) H2) as [H3 H4].
  rewrite !Nat2Z.id in *. pose proof (apart_outside v iov Hv) as Hvo.
  assert (forall q k, inside v q k -> outside seg q k) as Hseg
    by (intros q k Hqk; by eapply outside_inside; [apply O, Hvo|]).
  split.
  - cbn [gather iov_base iov_len]. rewrite H3, G. cbn [mbind option_bind]. rewrite drop_0.
    rewrite drop_app_le by lia. destruct Hl as [Hl| ->].
    + rewrite take_app_add' by (rewrite length_drop; lia). by rewrite (take_ge (drop o a)) by (rewrite length_drop; lia).
    + rewrite take_0, app_nil_r, Nat.add_0_r, take_app_le by (rewrite length_drop; lia). done.
  - split; [|done]. eapply Forall_impl; [exact (Hseg _ _ Hin)|]. intros w. apply range_disj_sym.
  - intros q k Hq. inversion Hq as [|? ? Hq1 Hq2]; subst. constructor; [|by apply O].
    destruct Hin as (? & ? & ?). by eapply range_disj_within.
  - intros m' y Hy HS. destruct (gather_cons_inv _ _ _ _ Hy) as (y1 & y2 & Hy1 & Hy2 & -> & Ly1).
    cbn [iov_base iov_len] in Hy1, Ly1.
    assert (mem_load m' p (Z.of_nat o) = Some (take o a)) as E1.
    { rewrite <- H1. apply (HS v); [by left|split; [done|cbn; fold p; lia]|]. constructor.
      - right. right. left. cbn. lia.
      - apply Hseg. split; [done|]. fold p. lia. }
    assert (mem_load m' (padd (padd p (Z.of_nat o)) (Z.of_nat n)) (iov_len v - Z.of_nat o - Z.of_nat n) =
            Some (drop n (drop o a))) as E2.
    { rewrite <- H4. apply (HS v); [by left|split; [done|cbn; fold p; lia]|]. constructor.
      - right. left. cbn. lia.
      - apply Hseg. split; [done|]. cbn. fold p. lia. }
    assert (same_rest m m' iov seg) as HS'.
    { intros w q k Hw Hk Ho. apply (HS w); [by right|done|]. constructor; [|done].
      destruct Hin as (? & ? & ?). eapply range_disj_within; [done..|].
      eapply (Forall_forall (fun v' => range_disj p (iov_len v) (iov_base v') (iov_len v'))) in Hv;
        [|by apply list_elem_of_In, Hw]. destruct Hk as (? & ? & ?).
      apply range_disj_sym. eapply range_disj_within; [done..|]. by apply range_disj_sym. }
    pose proof (mem_load_join m' (padd p (Z.of_nat o)) (iov_len v - Z.of_nat o) (Z.of_nat n) y1 _ ltac:(lia) Hy1 E2) as E3.
    pose proof (mem_load_join m' p (iov_len v) (Z.of_nat o) _ _ ltac:(lia) E1 E3) as E4.
    cbn [gather]. fold p. rewrite E4, (Bk _ _ Hy2 HS'). cbn [mbind option_bind]. rewrite take_0. cbn [app Nat.add].
    rewrite take_app_le by lia. rewrite drop_drop. destruct Hl as [Hl| ->].
    + rewrite (drop_ge a) by lia. replace (o + (n + l))%nat with (length a + l)%nat by lia.
      rewrite drop_app_add, app_nil_r, !app_assoc. done.
    + rewrite Nat.add_0_r, drop_0, drop_app_le by lia. rewrite !app_assoc.
      assert (y2 = []) as ->.
      { apply gather_length in Hy2. apply gather_length in G. rewrite take_0 in G. simpl in G.
        destruct y2; [done|]. simpl in Hy2. lia. }
      by rewrite !app_nil_r.
Qed.

Lemma segment_take_ok iov : forall m g len,
  gather m iov = Some g -> iov_disj iov -> 0 <= len <= Z.of_nat (length g) ->
  exists seg, segment_take iov len = Some seg /\ seg_ok m iov g 0 (Z.to_nat len) seg.
Proof.
  induction iov as [|v iov IH]; intros m g len Hg Hd Hl.
  { cbn in Hg. simplify_eq. cbn in Hl. assert (len = 0) as -> by lia. exists []. split; [done|]. by apply seg_ok_nil. }
  cbn [segment_take]. destruct (Z.eqb_spec len 0) as [->|Hl0].
  { exists []. split; [done|]. by apply seg_ok_nil. }
  destruct (gather_cons_inv _ _ _ _ Hg) as (a & b & Ha & Hb & -> & La). destruct Hd as [Hv Hd].
  rewrite length_app in Hl.
  destruct (IH m b (len - Z.min (iov_len v) len) Hb Hd) as (seg & -> & S); [lia|]. cbn [mbind option_bind].
  eexists. split; [reflexivity|].
  pose proof (seg_ok_cons m v iov a b 0 (Z.to_nat (Z.min (iov_len v) len))
      (Z.to_nat (len - Z.min (iov_len v) len)) seg Ha Hv) as H.
  rewrite padd_0, Z2Nat.id in H by lia.
  replace (Z.to_nat len) with (Z.to_nat (Z.min (iov_len v) len) + Z.to_nat (len - Z.min (iov_len v) len))%nat by lia.
  apply H; [lia|lia|done].
Qed.

Lemma iovec_segment_ok iov : forall m g off len,
  gather m iov = Some g -> iov_disj iov -> 0 <= off -> 0 <= len -> off + len <= Z.of_nat (length g) ->
  exists seg, iovec_segment iov off len = Some seg /\ seg_ok m iov g (Z.to_nat off) (Z.to_nat len) seg.
Proof.
  induction iov as [|v iov IH]; intros m g off len Hg Hd Ho Hn Hl.
  { cbn in Hg. simplify_eq. cbn in Hl. assert (off = 0) as -> by lia. by apply segment_take_ok. }
  cbn [iovec_segment]. destruct (Z.eqb_spec off 0) as [->|Ho0].
  { apply segment_take_ok; [done|done|lia]. }
  destruct (gather_cons_inv _ _ _ _ Hg) as (a & b & Ha & Hb & -> & La). destruct Hd as [Hv Hd].
  rewrite length_app in Hl. destruct (Z.leb_spec (iov_len v) off) as [Hle|Hgt].
  - destruct (IH m b (off - iov_len v) len Hb Hd) as (seg & E & S); [lia..|]. exists seg. split; [done|].
    replace (Z.to_nat off) with (length a + Z.to_nat (off - iov_len v))%nat by lia. by apply seg_ok_skip.
  - destruct (segment_take_ok iov m b (len - Z.min (iov_len v - off) len) Hb Hd) as (seg & -> & S); [lia|].
    cbn [mbind option_bind]. eexists. split; [reflexivity|].
    pose proof (seg_ok_cons m v iov a b (Z.to_nat off) (Z.to_nat (Z.min (iov_len v - off) len))
      (Z.to_nat (len - Z.min (iov_len v - off) len)) seg Ha Hv) as H.
    rewrite !Z2Nat.id in H by lia.
    replace (Z.to_nat len) with
      (Z.to_nat (Z.min (iov_len v - off) len) + Z.to_nat (len - Z.min (iov_len v - off) len))%nat by lia.
    apply H; [lia|lia|done].
Qed.

(** What a store into the segment does to the whole list. *)
Lemma seg_ok_stored m m' iov g o l seg y :
  seg_ok m iov g o l seg -> gather m' seg = Some y ->
  (forall q n, outside seg q n -> mem_load m' q n = mem_load m q n) ->
  gather m' iov = Some (take o g ++ y ++ drop (o + l) g) /\
  (forall q n, outside iov q n -> mem_load m' q n = mem_load m q n).
Proof.
  intros [G D O Bk] Hy HF. split; [|auto]. apply Bk; [done|]. intros v q n _ _. apply HF.
Qed.

(** [iovec_memset] over a whole list. *)
Lemma iovec_memset_ok iov : forall m g c,
  gather m iov = Some g -> iov_disj iov ->
  exists m', iovec_memset m iov (Z.of_nat (length iov)) c (Z.of_nat (length g)) = Some m' /\
    gather m' iov = Some (replicate (length g) c) /\
    (forall q n, outside iov q n -> mem_load m' q n = mem_load m q n).
Proof.
  induction iov as [|v iov IH]; intros m g c Hg Hd.
  { cbn in Hg. simplify_eq. by exists m. }
  destruct (gather_cons_inv _ _ _ _ Hg) as (a & b & Ha & Hb & -> & La). destruct Hd as [Hv Hd].
  cbn [iovec_memset]. rewrite length_app.
  destruct (Z.eqb_spec (Z.of_nat (length a + length b)) 0) as [E|E].
  { exists m. split; [done|]. split; [|done].
    assert (a = []) as -> by (destruct a; [done|simpl in *; lia]).
    assert (b = []) as -> by (destruct b; [done|simpl in *; lia]). exact Hg. }
  rewrite (proj2 (Z.eqb_neq _ 0)) by (simpl; lia). cbn [orb].
  replace (Z.of_nat (length (v :: iov)) - 1) with (Z.of_nat (length iov)) by (simpl; lia).
  rewrite Z.min_l by lia.
  destruct (memcpy_into_head m v iov a b (replicate (Z.to_nat (iov_len v)) c) Ha Hb Hv) as (m1 & -> & Hb1 & F1 & Hh).
  { rewrite length_replicate. lia. }
  cbn [mbind option_bind]. replace (Z.of_nat (length a + length b) - iov_len v) with (Z.of_nat (length b)) by lia.
  destruct (IH m1 b c Hb1 Hd) as (m' & -> & G & F). exists m'. split; [done|]. destruct (Hh m' F) as [Hv' _]. split.
  - cbn [gather]. rewrite Hv', G. cbn [mbind option_bind]. rewrite drop_ge by (rewrite length_replicate; lia).
    rewrite app_nil_r, replicate_add. do 3 f_equal. lia.
  - intros q n Hq. inversion Hq; subst. rewrite F by done. by apply F1.
Qed.
