(* ===== verification/QcowIo.v ===== *)
(** * The QCOW handler: reads and writes of a disk

    What [qcow_preadv] and [qcow_pwritev] do to a disk kept in an image of
    version 1: cluster by cluster, each read delivers the bytes of the disk and
    each write replaces them, through the tables, the caches, compressed and
    shared clusters, and (for reads) the images behind. *)

From S2P Require Import Prelude Iovec Backstore FileBack Configfs Qcow QcowTab QcowCache QcowSpec QcowSeg.

Section io.
Context {B : Type} {HB : Bdev B} {HL : BdevLaws B} (inflate : list Z -> Z -> Z * list Z).
Implicit Types s : qcow_state B.

(** ** Stretches of the disk *)

Definition qbytes s (off n : Z) : list Z := qbyte inflate s <$> seqZ off n.

Lemma length_qbytes s off n : length (qbytes s off n) = Z.to_nat n.
Proof. unfold qbytes. by rewrite length_fmap, length_seqZ. Qed.

Lemma lookup_qbytes s off n i :
  qbytes s off n !! i = if decide (Z.of_nat i < n) then Some (qbyte inflate s (off + Z.of_nat i)) else None.
Proof.
  unfold qbytes. rewrite list_lookup_fmap. case_decide.
  - by rewrite lookup_seqZ_lt by lia.
  - rewrite lookup_seqZ_ge by lia. done.
Qed.

Lemma read_qdata s off n :
  0 <= off -> off + n <= q_size (q_info s) -> read_at (qdata inflate s) off n = qbytes s off n.
Proof.
  intros H0 H1. apply list_eq. intros i. rewrite lookup_read_at, lookup_qbytes.
  change (qdata inflate s) with (qbytes s 0 (q_size (q_info s))).
  repeat case_decide; try lia; [|done]. rewrite lookup_qbytes, decide_True by lia. do 2 f_equal. lia.
Qed.

Lemma qbytes_app s off n k : 0 <= n -> 0 <= k -> qbytes s off (n + k) = qbytes s off n ++ qbytes s (off + n) k.
Proof. intros Hn Hk. unfold qbytes. by rewrite seqZ_app, fmap_app by lia. Qed.

Lemma qbytes_pres s s' off n :
  pres inflate s s' -> 0 <= off -> off + n <= q_size (q_info s) -> qbytes s' off n = qbytes s off n.
Proof.
  intros P H0 H1. apply list_eq. intros i. rewrite !lookup_qbytes. case_decide; [|done].
  f_equal. apply (p_byte _ _ _ P). lia.
Qed.

(** [n] sectors from [sn] on inside one cluster. *)
Definition in_cluster (q : qinfo) (sn n : Z) : Prop :=
  0 <= sn /\ 0 < n <= cluster_sectors q - sn mod cluster_sectors q /\ 512 * (sn + n) <= q_size q.

Lemma in_cluster_index q sn n x : geo q -> in_cluster q sn n -> 0 <= x < 512 * n ->
  (512 * sn + x) / cluster_size q = 512 * sn / cluster_size q /\
  (512 * sn + x) mod cluster_size q = sn mod cluster_sectors q * 512 + x /\
  sn mod cluster_sectors q * 512 + x < cluster_size q /\ 0 <= sn mod cluster_sectors q.
Proof.
  intros Hq (H0 & Hn & _) Hx. pose proof (cluster_sectors_bounds _ Hq) as Hs.
  rewrite (cluster_size_sectors _ Hq). set (c := cluster_sectors q) in *.
  pose proof (Z.mod_pos_bound sn c ltac:(lia)). pose proof (Z.div_mod sn c ltac:(lia)) as D.
  assert (512 * sn + x = 512 * c * (sn / c) + (sn mod c * 512 + x)) as E by (rewrite D at 1; ring).
  assert (512 * sn = 512 * c * (sn / c) + sn mod c * 512) as E0 by (rewrite D at 1; ring).
  rewrite <- (Z.div_unique_pos (512 * sn + x) (512 * c) (sn / c) (sn mod c * 512 + x) ltac:(lia) E).
  rewrite <- (Z.div_unique_pos (512 * sn) (512 * c) (sn / c) (sn mod c * 512) ltac:(lia) E0).
  rewrite <- (Z.mod_unique_pos (512 * sn + x) (512 * c) (sn / c) (sn mod c * 512 + x) ltac:(lia) E).
  split_and!; lia.
Qed.

Lemma in_cluster_bytes q sn n : in_cluster q sn n -> 0 <= 512 * sn < q_size q.
Proof. intros (? & ? & ?). lia. Qed.

(** The bytes of a stretch, by the kind of its cluster. *)
Lemma qbytes_chunk s sn n (l : list Z) :
  geo (q_info s) -> in_cluster (q_info s) sn n -> Z.of_nat (length l) = 512 * n ->
  (forall x, 0 <= x < 512 * n -> qbyte inflate s (512 * sn + x) = default 0 (l !! Z.to_nat x)) ->
  qbytes s (512 * sn) (512 * n) = l.
Proof.
  intros Hq Hin Hl Hx. apply list_eq. intros i. rewrite lookup_qbytes. case_decide.
  - rewrite Hx by lia. rewrite Nat2Z.id. destruct (l !! i) eqn:E; [done|].
    apply lookup_ge_None in E. lia.
  - symmetry. apply lookup_ge_None. lia.
Qed.

Lemma sector_shift sn : 0 <= sn -> 512 * sn < 2 ^ 64 -> u64 (Z.shiftl sn 9) = 512 * sn.
Proof. intros. rewrite Z.shiftl_mul_pow2 by lia. rewrite u64_small by lia. lia. Qed.

Lemma q_size_bound k s : qwf inflate k s -> q_size (q_info s) <= 2 ^ 57.
Proof.
  intros W. pose proof (w_geo _ _ _ W) as Hq. pose proof (g_size _ Hq). pose proof (g_l1 _ Hq).
  pose proof (l2_size_bounds _ Hq). pose proof (cluster_size_bounds _ Hq).
  assert (l1_size (q_info s) * l2_size (q_info s) <= 2 ^ 28 * 2 ^ 13) by (apply Z.mul_le_mono_nonneg; lia).
  assert (l1_size (q_info s) * l2_size (q_info s) * cluster_size (q_info s) <= 2 ^ 28 * 2 ^ 13 * 2 ^ 16)
    by (apply Z.mul_le_mono_nonneg; lia). lia.
Qed.

(** ** Reading *)

(** What a read of a stretch into [seg] achieves. *)
Definition reads k s m seg sn n (r : option (qcow_state B * mem * option bool)) : Prop :=
  exists s' m', r = Some (s', m', Some true) /\ qwf inflate k s' /\ pres inflate s s' /\
    gather m' seg = Some (qbytes s (512 * sn) (512 * n)) /\
    (forall q p, outside seg q p -> mem_load m' q p = mem_load m q p).

(** Clusters without an entry: zeros, or the image behind. *)
Lemma read_hole k s s1 m seg g sn n :
  qwf inflate (k + n) s -> qwf inflate k s1 -> (exists ch, s1 = set_l2c s ch) -> 0 <= k ->
  in_cluster (q_info s) sn n -> s_ent s (512 * sn / cluster_size (q_info s)) = 0 ->
  gather m seg = Some g -> iov_disj seg -> Z.of_nat (length g) = 512 * n ->
  reads k s m seg sn n
    (match backing_image s1 with
     | None => m ← iovec_memset m seg (Z.of_nat (length seg)) 0 (512 * n); Some (s1, m, Some true)
     | Some b =>
         '(b, m, read) ← bd_preadv b m seg (Z.of_nat (length seg)) (sn * 512);
         Some (set_back s1 (Some b), m, Some (read =? n * 512))
     end).
Proof.
  intros W W1 (ch & ->) Hk Hin He Hg Hd Hl. pose proof (w_geo _ _ _ W) as Hq.
  assert (forall x, 0 <= x < 512 * n -> qbyte inflate s (512 * sn + x) = bk_byte (backing_image s) (512 * sn + x)) as Hb.
  { intros x Hx. destruct (in_cluster_index _ sn n x Hq Hin Hx) as (E & _). unfold qbyte, vbyte. rewrite E.
    unfold s_ent in He. by rewrite He. }
  change (backing_image (set_l2c s ch)) with (backing_image s). pose proof (w_back _ _ _ W) as Wb.
  destruct (backing_image s) as [b|] eqn:Eb.
  - destruct Wb as [Wb Lb]. destruct Hin as (H0 & Hn & Hs). pose proof (q_size_bound _ _ W) as Hqs.
    pose proof (cluster_sectors_bounds _ Hq) as Hcs.
    destruct (bd_read_law b m seg g (sn * 512) k) as (b' & m' & E & Wb' & Db & G & F); try done; try lia.
    { rewrite Hl. by replace (512 * n / 512) with n by (rewrite Z.mul_comm, Z.div_mul; lia). }
    { rewrite Hl. rewrite Z.mul_comm. by apply Z_mod_mult. }
    { by apply Z_mod_mult. }
    rewrite E. cbn [mbind option_bind]. exists (set_back (set_l2c s ch) (Some b')), m'. split_and!; try done.
    + do 2 f_equal. f_equal. apply Z.eqb_eq. lia.
    + destruct W1 as [? ? ? ? ? ? ? ?]. split; try done. cbn. by rewrite Db.
    + split; try done; [cbn; by rewrite Eb|]. intros v Hv. unfold qbyte. cbn [backing_image set_back set_l2c].
      rewrite Eb. unfold bk_byte. by rewrite Db.
    + rewrite G. f_equal. symmetry. apply qbytes_chunk; [done|done| |].
      * rewrite length_read_at; lia.
      * intros x Hx. rewrite Hb by done. cbn [bk_byte]. rewrite lookup_read_at, decide_True by lia.
        f_equal. f_equal. lia.
  - destruct (iovec_memset_ok seg m g 0 Hg Hd) as (m' & E & G & F). rewrite Hl in E. rewrite E.
    cbn [mbind option_bind]. exists (set_l2c s ch), m'. split_and!; try done.
    rewrite G. f_equal. symmetry. apply qbytes_chunk; [done|done|by rewrite length_replicate|].
    intros x Hx. rewrite Hb by done. cbn [bk_byte]. rewrite lookup_replicate_2 by lia. done.
Qed.

Lemma read_compressed k s s1 m seg g sn n :
  qwf inflate k s1 -> (exists ch, s1 = set_l2c s ch) ->
  in_cluster (q_info s) sn n ->
  let e := s_ent s (512 * sn / cluster_size (q_info s)) in
  e <> 0 -> is_comp e = true ->
  gather m seg = Some g -> iov_disj seg -> Z.of_nat (length g) = 512 * n ->
  reads k s m seg sn n
    (let '(r, s2) := decompress_cluster inflate s1 e in
     if r <? 0 then Some (s2, m, None)
     else
       '(m, _, _) ← tcmu_memcpy_into_iovec m seg (Z.of_nat (length seg))
                      (drop (Z.to_nat (sn mod cluster_sectors (q_info s) * 512)) (cluster_cache s2)) (512 * n);
       Some (s2, m, Some true)).
Proof.
  intros W1 (ch & ->) Hin e He Hcp Hg Hd Hl. pose proof (w_geo _ _ _ W1) as Hq.
  change (q_info (set_l2c s ch)) with (q_info s) in Hq.
  pose proof (live_cluster _ _ Hq (in_cluster_bytes _ _ _ Hin)) as Hc.
  destruct (decompress_cluster_ok inflate k (set_l2c s ch) _ W1 Hc He Hcp) as (off & E & W2 & Lr).
  change (s_ent (set_l2c s ch) _) with e in *. rewrite E. set (r := (inflate _ _).2) in *. cbn [Z.ltb Z.compare].
  change (cluster_cache (set_cc _ r off)) with r. set (a := sn mod cluster_sectors (q_info s) * 512) in *.
  change (q_info (set_l2c s ch)) with (q_info s) in Lr.
  assert (0 <= a /\ a + 512 * n <= cluster_size (q_info s)) as [Ha0 Ha].
  { destruct Hin as (? & ? & ?). rewrite (cluster_size_sectors _ Hq).
    pose proof (cluster_sectors_bounds _ Hq). pose proof (Z.mod_pos_bound sn (cluster_sectors (q_info s))). lia. }
  unfold tcmu_memcpy_into_iovec.
  destruct (memcpy_into_loop_spec seg m g (drop (Z.to_nat a) r) (512 * n) 0 Hg Hd) as (m' & iov' & Em & G & _ & F);
    [destruct Hin as (? & ? & ?); lia|lia|rewrite length_drop; lia|].
  rewrite Em. cbn [mbind option_bind]. exists (set_cc (set_l2c s ch) r off), m'. split_and!; try done.
  rewrite G, <- (gather_length _ _ _ Hg). unfold min_nat. rewrite Z.min_l by lia. cbn [Z.to_nat]. rewrite drop_0.
  rewrite (drop_ge g), app_nil_r by lia. f_equal. symmetry. apply qbytes_chunk; [done|done| |].
  - rewrite length_take, length_drop. destruct Hin as (? & ? & ?). lia.
  - intros x Hx. destruct (in_cluster_index _ sn n x Hq Hin Hx) as (E1 & E2 & _). fold a in E2.
    unfold qbyte, vbyte. rewrite E1, E2. fold (s_ent s (512 * sn / cluster_size (q_info s))). fold e.
    rewrite (proj2 (Z.eqb_neq e 0)) by done. unfold cbyte. rewrite Hcp.
    rewrite lookup_take_lt, lookup_drop by lia. by rewrite Z2Nat.inj_add by lia.
Qed.

Lemma read_plain k s s1 m seg g sn n :
  qwf inflate k s1 -> (exists ch, s1 = set_l2c s ch) ->
  in_cluster (q_info s) sn n ->
  let e := s_ent s (512 * sn / cluster_size (q_info s)) in
  e <> 0 -> is_comp e = false ->
  gather m seg = Some g -> iov_disj seg -> Z.of_nat (length g) = 512 * n ->
  reads k s m seg sn n
    ('(f, m, read) ← img_preadv (q_img s1) m seg (Z.of_nat (length seg))
                       (u64 (e + sn mod cluster_sectors (q_info s) * 512));
     Some (set_img s1 f, m, Some (read =? n * 512))).
Proof.
  intros W1 (ch & ->) Hin e He Hcp Hg Hd Hl. pose proof (w_geo _ _ _ W1) as Hq.
  change (q_info (set_l2c s ch)) with (q_info s) in Hq.
  pose proof (live_cluster _ _ Hq (in_cluster_bytes _ _ _ Hin)) as Hc.
  destruct (t_ent _ _ _ _ (w_tabs _ _ _ W1) _ Hc He) as (Hb & H48 & Hhi & _).
  change (ent _ _ _ _) with e in Hb, H48, Hhi. change (q_info (set_l2c s ch)) with (q_info s) in *.
  change (q_file (set_l2c s ch)) with (q_file s) in *. pose proof (w_len _ _ _ W1) as Hlen.
  change (q_file (set_l2c s ch)) with (q_file s) in *.
  pose proof (not_comp_small _ Hb Hcp) as Hsm. rewrite place_small in H48, Hhi by lia. cbn [fst snd] in H48, Hhi.
  set (a := sn mod cluster_sectors (q_info s) * 512) in *.
  assert (0 <= a /\ a + 512 * n <= cluster_size (q_info s)) as [Ha0 Ha].
  { destruct Hin as (? & ? & ?). rewrite (cluster_size_sectors _ Hq).
    pose proof (cluster_sectors_bounds _ Hq). pose proof (Z.mod_pos_bound sn (cluster_sectors (q_info s))). lia. }
  rewrite u64_small by lia. change (q_img (set_l2c s ch)) with (q_img s).
  rewrite (q_img_file s (w_out _ _ _ W1)).
  destruct (img_preadv_ok (q_file s) m seg g (e + a) Hg Hd) as (m' & -> & G & F); [lia..|]. cbn [mbind option_bind].
  rewrite <- (q_img_file s (w_out _ _ _ W1)).
  exists (set_l2c s ch), m'. rewrite Hl in *. split_and!; try done.
  - rewrite (proj2 (Z.eqb_eq _ _)) by lia. by destruct s.
  - rewrite G. f_equal. symmetry. apply qbytes_chunk; [done|done| |].
    + rewrite length_read_at; destruct Hin as (? & ? & ?); lia.
    + intros x Hx. destruct (in_cluster_index _ sn n x Hq Hin Hx) as (E1 & E2 & _). fold a in E2.
      unfold qbyte, vbyte. rewrite E1, E2. fold (s_ent s (512 * sn / cluster_size (q_info s))). fold e.
      rewrite (proj2 (Z.eqb_neq e 0)) by done. unfold cbyte. rewrite Hcp.
      rewrite lookup_read_at, decide_True by lia. f_equal. f_equal. lia.
Qed.

Lemma read_chunk_ok k s m seg g sn n :
  qwf inflate (k + n) s -> 0 <= k -> in_cluster (q_info s) sn n ->
  gather m seg = Some g -> iov_disj seg -> Z.of_nat (length g) = 512 * n ->
  reads k s m seg sn n (read_chunk inflate s m seg sn n).
Proof.
  intros W Hk Hin Hg Hd Hl. pose proof (w_geo _ _ _ W) as Hq. pose proof (in_cluster_bytes _ _ _ Hin) as Hv.
  pose proof (q_size_bound _ _ W) as Hqs. pose proof Hin as (H0 & Hn & Hs).
  destruct (get_cluster_offset_read inflate (k + n) s (512 * sn) W) as (ch & E & W1); [lia|done|].
  unfold read_chunk. rewrite sector_index_mod, sector_shift by (done || lia). rewrite E. cbn [mbind option_bind].
  apply (qwf_weaken inflate _ k) in W1; [|lia]. set (s1 := set_l2c s ch) in *.
  set (e := s_ent s (512 * sn / cluster_size (q_info s))) in *.
  destruct (Z.eqb_spec e 0) as [He|He]; [by apply (read_hole k s s1 m seg g); eauto|].
  pose proof (live_cluster _ _ Hq Hv) as Hc.
  destruct (t_ent _ _ _ _ (w_tabs _ _ _ W) _ Hc He) as (Hb & H48 & _ & _).
  change (ent _ _ _ _) with e in Hb, H48.
  assert (e <> QCOW2_OFLAG_ZERO) as Hz.
  { intros E1. rewrite E1, place_small in H48 by (done || (unfold QCOW2_OFLAG_ZERO; lia)). cbn [fst] in H48. unfold QCOW2_OFLAG_ZERO in H48. lia. }
  rewrite (proj2 (Z.eqb_neq e QCOW2_OFLAG_ZERO)) by done. change (q_info s1) with (q_info s).
  rewrite (g_comp _ Hq). fold (is_comp e). destruct (is_comp e) eqn:Hcp.
  - by apply (read_compressed k s s1 m seg g); eauto.
  - by apply (read_plain k s s1 m seg g); eauto.
Qed.

(** The sectors of one round stay inside a cluster. *)
Lemma round_in_cluster q sn count :
  geo q -> 0 <= sn -> 0 < count -> 512 * (sn + count) <= q_size q ->
  let n := Z.min count (cluster_sectors q - sn mod cluster_sectors q) in
  in_cluster q sn n /\ 0 < n <= count.
Proof.
  intros Hq H0 Hc Hs n. pose proof (cluster_sectors_bounds _ Hq).
  pose proof (Z.mod_pos_bound sn (cluster_sectors q)). unfold in_cluster. lia.
Qed.

Lemma qcow_preadv_loop_ok iov fuel : forall k s m g off sn count,
  qwf inflate (k + count) s -> 0 <= k -> 0 <= count <= Z.of_nat fuel -> 0 <= off -> 0 <= sn ->
  512 * (sn + count) <= q_size (q_info s) -> gather m iov = Some g -> iov_disj iov ->
  off + 512 * count = Z.of_nat (length g) -> 0 < Z.of_nat (length g) ->
  exists s' m', qcow_preadv_loop inflate fuel s m iov off sn count = Some (s', m', Z.of_nat (length g)) /\
    qwf inflate k s' /\ pres inflate s s' /\
    gather m' iov = Some (take (Z.to_nat off) g ++ qbytes s (512 * sn) (512 * count)) /\
    (forall q p, outside iov q p -> mem_load m' q p = mem_load m q p).
Proof.
  induction fuel as [|fuel IH]; intros k s m g off sn count W Hk Hc Ho Hs Hin Hg Hd Hl Hpos.
  1: assert (count = 0) as -> by lia.
  2: destruct (Z.eq_dec count 0) as [->|Hc0].
  1, 2: exists s, m; cbn [qcow_preadv_loop Z.eqb]; unfold io_result; rewrite (proj2 (Z.eqb_neq off 0)) by lia;
    split_and!; [do 2 f_equal; lia|by replace k with (k + 0) by lia|apply pres_refl| |done];
    by rewrite take_ge, app_nil_r by lia.
  pose proof (w_geo _ _ _ W) as Hq. cbn [qcow_preadv_loop]. rewrite (proj2 (Z.eqb_neq count 0)) by done.
  rewrite sector_index_mod by done.
  destruct (round_in_cluster _ sn count Hq Hs ltac:(lia) Hin) as [Hic Hn].
  set (n := Z.min count _) in *.
  destruct (iovec_segment_ok iov m g off (n * 512) Hg Hd) as (seg & E & S); [lia..|].
  rewrite E. cbn [mbind option_bind]. pose proof (sg_gather _ _ _ _ _ _ S) as Gs.
  assert (Z.of_nat (length (take (Z.to_nat (n * 512)) (drop (Z.to_nat off) g))) = 512 * n) as Ls
    by (rewrite length_take, length_drop; lia).
  destruct (read_chunk_ok (k + (count - n)) s m seg (take (Z.to_nat (n * 512)) (drop (Z.to_nat off) g)) sn n) as (s1 & m1 & E1 & W1 & P1 & G1 & F1);
    [by replace (k + (count - n) + n) with (k + count) by lia|lia|done|exact Gs|apply S|done|].
  rewrite E1. cbn [mbind option_bind]. pose proof (p_info _ _ _ P1) as I1.
  destruct (seg_ok_stored _ _ _ _ _ _ _ _ S G1 F1) as [G1' F1'].
  set (g1 := take (Z.to_nat off) g ++ _ ++ _) in *.
  assert (length g1 = length g) as Lg1.
  { unfold g1. rewrite !length_app, length_take, length_drop, length_qbytes. lia. }
  destruct (IH k s1 m1 g1 (off + n * 512) (sn + n) (count - n)) as (s' & m' & E2 & W2 & P2 & G2 & F2);
    [done|done|lia|lia|lia|rewrite I1; lia|done|done|lia|lia|].
  exists s', m'. rewrite E2, Lg1. split_and!; [done|done|by apply (pres_trans _ _ s1)| |].
  - rewrite G2. f_equal. rewrite (qbytes_pres s s1) by (done || lia).
    assert (take (Z.to_nat (off + n * 512)) g1 = take (Z.to_nat off) g ++ qbytes s (512 * sn) (512 * n)) as ->.
    { unfold g1. rewrite app_assoc, take_app_length'; [done|].
      rewrite length_app, length_take, length_qbytes. lia. }
    rewrite <- app_assoc. f_equal. replace (512 * count) with (512 * n + 512 * (count - n)) by lia.
    rewrite qbytes_app by lia. do 2 f_equal. lia.
  - intros q p Hq'. by rewrite F2, F1'.
Qed.

Lemma length_qdata s : length (qdata inflate s) = Z.to_nat (q_size (q_info s)).
Proof. apply (length_qbytes s 0). Qed.

Lemma qdata_pres s s' : pres inflate s s' -> 0 <= q_size (q_info s) -> qdata inflate s' = qdata inflate s.
Proof.
  intros P H. unfold qdata. rewrite (p_info _ _ _ P). change (qbytes s' 0 (q_size (q_info s)) = qbytes s 0 (q_size (q_info s))).
  apply qbytes_pres; [done|lia|lia].
Qed.

(** A length of whole sectors, as the code takes it apart. *)
Lemma whole_sectors n : 0 <= n -> n mod 512 = 0 -> Z.land n 511 = 0 /\ n = 512 * (n / 512).
Proof.
  intros H0 Hm. split; [change 511 with (Z.ones 9); by rewrite Z.land_ones by lia|].
  apply Z.div_exact; lia.
Qed.

Lemma qcow_preadv_ok k s m iov g off :
  qwf inflate (k + Z.of_nat (length g) / 512) s -> 0 <= k -> gather m iov = Some g -> iov_disj iov ->
  0 < Z.of_nat (length g) < 2 ^ 63 -> Z.of_nat (length g) mod 512 = 0 -> 0 <= off -> off mod 512 = 0 ->
  off + Z.of_nat (length g) <= q_size (q_info s) ->
  exists s' m', qcow_preadv inflate s m iov (Z.of_nat (length iov)) off = Some (s', m', Z.of_nat (length g)) /\
    qwf inflate k s' /\ pres inflate s s' /\
    gather m' iov = Some (read_at (qdata inflate s) off (Z.of_nat (length g))) /\
    (forall q p, outside iov q p -> mem_load m' q p = mem_load m q p).
Proof.
  intros W Hk Hg Hd Hl Hm Ho Hom Hin. unfold qcow_preadv. rewrite (iovec_length_of m iov g) by (done || lia).
  cbn [mbind option_bind]. destruct (whole_sectors _ (Nat2Z.is_nonneg _) Hm) as [-> El].
  destruct (whole_sectors off Ho Hom) as [_ Eo]. cbn [Z.eqb negb]. rewrite Z.shiftr_div_pow2 by lia.
  change (2 ^ 9) with 512. set (sn := off / 512) in *. set (c := Z.of_nat (length g) / 512) in *.
  destruct (qcow_preadv_loop_ok iov (Z.to_nat c) k s m g 0 sn c) as (s' & m' & E & W' & P & G & F); try done; try lia.
  exists s', m'. rewrite E. split_and!; try done. rewrite read_qdata by lia. rewrite G. cbn [Z.to_nat]. rewrite take_0.
  by rewrite <- El, <- Eo.
Qed.
End io.

(** ** Interfaces *)

(** A plain file behind an image. *)
#[export] Instance raw_laws : BdevLaws img.
Proof.
  refine {| bd_wf _ f := i_out f = [] /\ Z.of_nat (length (i_file f)) <= 2 ^ 62; bd_data := i_file |}.
  - done.
  - intros [f out] m iov g off k [Ho Hf] _ Hg Hd Hl _ H0 _ Hin. cbn in Ho, Hf, Hin. subst out.
    destruct (img_preadv_ok f m iov g off Hg Hd) as (m' & E & G & F); [lia..|].
    exists (Img f []), m'. split_and!; try done.
Defined.

(** An image behind an image. *)
#[export] Instance qcow_laws {B} {HB : Bdev B} {HL : BdevLaws B} (inflate : list Z -> Z -> Z * list Z) :
  @BdevLaws (qcow_state B) (qcow_ops inflate).
Proof.
  refine {| bd_wf := qwf inflate; bd_data := qdata inflate |}.
  - intros k k' s. apply qwf_weaken.
  - intros s m iov g off k W Hk Hg Hd Hl Hm Ho Hom Hin. pose proof (g_size _ (w_geo _ _ _ W)) as Hs.
    rewrite length_qdata in Hin.
    destruct (qcow_preadv_ok inflate k s m iov g off W Hk Hg Hd Hl Hm Ho Hom) as (s' & m' & E & W' & P & G & F); [lia|].
    exists s', m'. split_and!; try done. apply qdata_pres; [done|lia].
Defined.
