(* ===== verification/QcowWrite.v ===== *)
(** * The QCOW handler: writes, and the contract of the handler

    [qcow_pwritev] replaces the bytes of the disk it is asked to and no others,
    and [qcow_read] and [qcow_write] deliver and store whole requests. *)

From S2P Require Import Prelude Scsi Iovec Device Backstore FileBack Configfs Qcow QcowTab QcowCache QcowSpec QcowSeg QcowIo.

Section write.
Context {B : Type} {HB : Bdev B} {HL : BdevLaws B} (inflate : list Z -> Z -> Z * list Z).
Implicit Types s : qcow_state B.

(** Bytes stored in the own place of a cluster. *)
Lemma write_owned k s c o a bs :
  qwf inflate k s -> live (q_info s) c -> s_ent s c = o -> 48 <= o < 2 ^ 63 ->
  o + cluster_size (q_info s) <= Z.of_nat (length (q_file s)) ->
  apart (q_info s) (l1_table s) o (cluster_size (q_info s)) ->
  owns (q_info s) (q_file s) (l1_table s) (Some c) o (cluster_size (q_info s)) ->
  0 <= a -> a + Z.of_nat (length bs) <= cluster_size (q_info s) ->
  let s' := set_img s (Img (write_at (q_file s) (o + a) bs) []) in
  qwf inflate k s' /\ length (q_file s') = length (q_file s) /\ read_at (q_file s') 0 48 = read_at (q_file s) 0 48 /\
  (forall v, 0 <= v < q_size (q_info s) ->
     qbyte inflate s' v =
       if decide (v / cluster_size (q_info s) = c /\
                  a <= v mod cluster_size (q_info s) < a + Z.of_nat (length bs))
       then default 0 (bs !! Z.to_nat (v mod cluster_size (q_info s) - a)) else qbyte inflate s v).
Proof.
  intros W Hc Ho Hob Hl [Ha1 Ha2] Hw H0 Hbs s'. pose proof (w_geo _ _ _ W) as Hq. pose proof (w_tabs _ _ _ W) as T.
  set (cs := cluster_size (q_info s)) in *. set (f' := write_at (q_file s) (o + a) bs) in *.
  assert (forall x n, disj o cs x n -> disj (o + a) (Z.of_nat (length bs)) x n) as Hsub by (unfold disj; lia).
  assert (forall x n, 0 <= x -> disj o cs x n -> read_at f' x n = read_at (q_file s) x n) as Hr.
  { intros x n Hx Hd. apply read_at_write_disj; auto; lia. }
  assert (length f' = length (q_file s)) as Lf by (apply length_write_at; lia).
  assert (forall c', live (q_info s) c' -> s_ent s c' <> 0 -> c' <> c ->
    disj o cs (place (q_info s) (s_ent s c')).1 (place (q_info s) (s_ent s c')).2) as Hpl.
  { intros c' Hc' Hn Hne. apply Hw; [done|congruence|done]. }
  destruct (tabs_write inflate _ Hq (q_file s) (l1_table s) (o + a) bs T) as [T' He]; [lia|lia| | |].
  { split; [by apply Hsub|]. intros j Hj Hn. by apply Hsub, Ha2. }
  { intros c' Hc' Hn Hcp. destruct (decide (c' = c)) as [->|Hne].
    - unfold s_ent in Ho. rewrite Ho, is_comp_small in Hcp by lia. done.
    - by apply Hsub, Hpl. }
  assert (forall c', live (q_info s) c' -> s_ent s c' <> 0 -> c' <> c ->
    read_at f' (place (q_info s) (s_ent s c')).1 (place (q_info s) (s_ent s c')).2 =
    read_at (q_file s) (place (q_info s) (s_ent s c')).1 (place (q_info s) (s_ent s c')).2) as Hp.
  { intros c' Hc' Hn Hne. destruct (t_ent _ _ _ _ T c' Hc' Hn) as (_ & ? & _).
    apply Hr; [unfold s_ent; lia|by apply Hpl]. }
  split_and!; [|done| |].
  - destruct W as [_ Hout Hlen _ C CC K Hk0]. split; try done.
    + change (Z.of_nat (length f') <= 2 ^ 62). lia.
    + change (cache_ok f' (l2_size (q_info s) * 8) (is_table (q_info s) (l1_table s)) k (l2_cache s)).
      eapply cache_ok_agree; [exact C|]. intros x (j & Hj & <-) Hj0. split; [by exists j|].
      destruct (t_l2 _ _ _ _ T j Hj Hj0) as (? & _). apply Hr; [lia|by apply Ha2].
    + destruct CC as [CL CC]. split; [done|]. intros c' Hc'.
      change (s_ent s' c') with (ent (q_info s) f' (l1_table s) c'). change (q_file s') with f'.
      change (q_info s') with (q_info s). rewrite He by done. intros Hn Hcp E.
      destruct (decide (c' = c)) as [->|Hne].
      * unfold s_ent in Ho. rewrite Ho, is_comp_small in Hcp by lia. done.
      * specialize (Hp c' Hc' Hn Hne). unfold s_ent in Hp. rewrite Hp. by apply CC.
  - apply read_at_write_disj; unfold disj; lia.
  - intros v Hv. pose proof (live_cluster _ v Hq Hv) as Hvc. pose proof (cluster_size_bounds _ Hq) as Hcs.
    assert (0 <= v mod cs < cs) as Hm by (apply Z.mod_pos_bound; fold cs in Hcs; lia).
    unfold qbyte, vbyte. change (q_file s') with f'. cbn [q_info l1_table backing_image set_img s'].
    fold cs. rewrite He by done.
    destruct (decide (v / cs = c)) as [Ev|Hne].
    + rewrite Ev. fold (s_ent s c). rewrite Ho, (proj2 (Z.eqb_neq o 0)) by lia.
      unfold cbyte. rewrite is_comp_small by lia. unfold f'. rewrite lookup_write_at by lia.
      repeat case_decide; try done; try tauto; try lia; do 2 f_equal; lia.
    + rewrite decide_False by tauto. fold (s_ent s (v / cs)).
      destruct (Z.eqb_spec (s_ent s (v / cs)) 0) as [|Hn]; [done|].
      apply cbyte_agree; [by destruct (t_ent _ _ _ _ T _ Hvc Hn) as ((? & ?) & _)|done|]. by apply Hp.
Qed.

(** ** Writing *)

(** [s'] is [s] with [g] written at [off] of the disk. *)
Record wpres s s' (off : Z) (g : list Z) : Prop := {
  wp_info : q_info s' = q_info s;
  wp_back : backing_image s' = None <-> backing_image s = None;
  wp_head : read_at (q_file s') 0 48 = read_at (q_file s) 0 48;
  wp_len : (length (q_file s) <= length (q_file s'))%nat;
  wp_byte : forall v, 0 <= v < q_size (q_info s) ->
    qbyte inflate s' v =
      if decide (off <= v < off + Z.of_nat (length g)) then default 0 (g !! Z.to_nat (v - off))
      else qbyte inflate s v
}.

Lemma wpres_trans s1 s2 s3 off g1 g2 :
  wpres s1 s2 off g1 -> wpres s2 s3 (off + Z.of_nat (length g1)) g2 -> wpres s1 s3 off (g1 ++ g2).
Proof.
  intros [I1 B1 H1 L1 Y1] [I2 B2 H2 L2 Y2]. split; [congruence|tauto|congruence|lia|].
  intros v Hv. rewrite Y2 by (rewrite I1; done). rewrite length_app. case_decide.
  - rewrite decide_True by lia. rewrite lookup_app_r by lia. do 2 f_equal. lia.
  - rewrite Y1 by done. destruct (decide (off <= v < off + Z.of_nat (length g1))).
    + rewrite decide_True by lia. by rewrite lookup_app_l by lia.
    + by rewrite decide_False by lia.
Qed.

Lemma wpres_nil s off : wpres s s off [].
Proof. split; try done. intros v _. rewrite decide_False by (cbn; lia). done. Qed.

Lemma write_chunk_ok k s m seg g sn n :
  qwf inflate (k + n) s -> 0 <= k -> in_cluster (q_info s) sn n -> backing_image s = None ->
  gather m seg = Some g -> Z.of_nat (length g) = 512 * n ->
  Z.of_nat (length (q_file s)) + 2 ^ 18 <= 2 ^ 62 ->
  exists s', write_chunk inflate s m seg sn = Some (s', Some true) /\ qwf inflate k s' /\
    wpres s s' (512 * sn) g /\ Z.of_nat (length (q_file s')) <= Z.of_nat (length (q_file s)) + 2 ^ 18.
Proof.
  intros W Hk Hin Hb Hg Hl Hroom. pose proof (w_geo _ _ _ W) as Hq. pose proof (in_cluster_bytes _ _ _ Hin) as Hv.
  pose proof (q_size_bound _ _ _ W) as Hqs. pose proof Hin as (H0 & Hn & Hs).
  destruct (get_cluster_offset_write inflate (k + n) s (512 * sn) W) as (o & s1 & E & W1 & Ow);
    [lia|done|by right|done|].
  apply (qwf_weaken inflate _ k) in W1; [|lia]. set (c := 512 * sn / cluster_size (q_info s)) in *.
  destruct Ow as [P Ec H48 Hhi Hap How Hgr]. pose proof (p_info _ _ _ P) as I1. rewrite I1 in *.
  pose proof (live_cluster _ _ Hq Hv) as Hc. fold c in Hc. pose proof (w_len _ _ _ W1) as Hlen.
  pose proof (cluster_size_bounds _ Hq) as Hcs. pose proof (cluster_sectors_bounds _ Hq) as Hsec.
  set (a := sn mod cluster_sectors (q_info s) * 512).
  assert (0 <= a /\ a + 512 * n <= cluster_size (q_info s)) as [Ha0 Ha].
  { rewrite (cluster_size_sectors _ Hq). pose proof (Z.mod_pos_bound sn (cluster_sectors (q_info s))). unfold a. lia. }
  destruct (write_owned k s1 c o a g W1) as (W2 & L2 & Hh & Hby); rewrite ?I1; try done; try lia.
  exists (set_img s1 (Img (write_at (q_file s1) (o + a) g) [])). split; [|split; [done|split]].
  - unfold write_chunk. rewrite sector_index_mod, sector_shift by (done || lia). rewrite E. cbn [mbind option_bind].
    fold a. change QCOW_OFLAG_COMPRESSED with (2 ^ 63). fold (is_comp o). rewrite is_comp_small by lia.
    rewrite (proj2 (Z.eqb_neq o 0)), u64_small by lia. cbn [orb]. rewrite (q_img_file s1 (w_out _ _ _ W1)).
    rewrite (img_pwritev_ok _ m seg g) by (done || lia). cbn [mbind option_bind].
    by rewrite (proj2 (Z.ltb_ge _ 0)) by lia.
  - destruct P as [_ B1 Y1 Hd1 L1]. split; try done; [by rewrite Hh|lia|].
    intros v Hv'. rewrite I1 in Hby. rewrite Hby by done.
    destruct (decide (512 * sn <= v < 512 * sn + Z.of_nat (length g))) as [Hi|Hi].
    + destruct (in_cluster_index _ sn n (v - 512 * sn) Hq Hin ltac:(lia)) as (E1 & E2 & _).
      replace (512 * sn + (v - 512 * sn)) with v in * by lia. fold c in E1. fold a in E2.
      rewrite decide_True by (split; [done|lia]). do 2 f_equal. lia.
    + rewrite decide_False; [by apply Y1|]. intros [Ev Hm]. apply Hi.
      destruct (in_cluster_index _ sn n 0 Hq Hin ltac:(lia)) as (_ & E2 & _). fold a in E2.
      rewrite Z.add_0_r in E2. unfold c in Ev.
      pose proof (Z.div_mod v (cluster_size (q_info s)) ltac:(lia)).
      pose proof (Z.div_mod (512 * sn) (cluster_size (q_info s)) ltac:(lia)). rewrite Ev in *. lia.
  - rewrite L2. done.
Qed.

Lemma qcow_pwritev_loop_ok m iov g fuel : forall k s off sn count,
  qwf inflate (k + count) s -> 0 <= k -> 0 <= count <= Z.of_nat fuel -> 0 <= off -> 0 <= sn ->
  backing_image s = None -> 512 * (sn + count) <= q_size (q_info s) -> gather m iov = Some g -> iov_disj iov ->
  off + 512 * count = Z.of_nat (length g) -> 0 < Z.of_nat (length g) ->
  Z.of_nat (length (q_file s)) + 2 ^ 18 * count <= 2 ^ 62 ->
  exists s', qcow_pwritev_loop inflate fuel s m iov off sn count = Some (s', Z.of_nat (length g)) /\
    qwf inflate k s' /\ wpres s s' (512 * sn) (drop (Z.to_nat off) g) /\
    Z.of_nat (length (q_file s')) <= Z.of_nat (length (q_file s)) + 2 ^ 18 * count.
Proof.
  induction fuel as [|fuel IH]; intros k s off sn count W Hk Hc Ho Hs Hb Hin Hg Hd Hl Hpos Hroom.
  1: assert (count = 0) as -> by lia.
  2: destruct (Z.eq_dec count 0) as [->|Hc0].
  1, 2: exists s; cbn [qcow_pwritev_loop Z.eqb]; unfold io_result; rewrite (proj2 (Z.eqb_neq off 0)) by lia;
    split_and!; [do 2 f_equal; lia|by replace k with (k + 0) by lia| |lia];
    rewrite drop_ge by lia; apply wpres_nil.
  pose proof (w_geo _ _ _ W) as Hq. cbn [qcow_pwritev_loop]. rewrite (proj2 (Z.eqb_neq count 0)) by done.
  rewrite sector_index_mod by done.
  destruct (round_in_cluster _ sn count Hq Hs ltac:(lia) Hin) as [Hic Hn].
  set (n := Z.min count _) in *.
  destruct (iovec_segment_ok iov m g off (n * 512) Hg Hd) as (seg & E & S); [lia..|].
  rewrite E. cbn [mbind option_bind]. pose proof (sg_gather _ _ _ _ _ _ S) as Gs.
  set (g1 := take (Z.to_nat (n * 512)) (drop (Z.to_nat off) g)) in *.
  assert (Z.of_nat (length g1) = 512 * n) as Ls by (unfold g1; rewrite length_take, length_drop; lia).
  destruct (write_chunk_ok (k + (count - n)) s m seg g1 sn n) as (s1 & E1 & W1 & P1 & L1);
    [by replace (k + (count - n) + n) with (k + count) by lia|lia|done|done|exact Gs|done|lia|].
  rewrite E1. cbn [mbind option_bind]. pose proof (wp_info _ _ _ _ P1) as I1.
  destruct (IH k s1 (off + n * 512) (sn + n) (count - n)) as (s' & E2 & W2 & P2 & L2);
    [done|done|lia|lia|lia|by apply (wp_back _ _ _ _ P1)|rewrite I1; lia|done|done|lia|lia|lia|].
  exists s'. rewrite E2. split_and!; [done|done| |lia].
  replace (drop (Z.to_nat off) g) with (g1 ++ drop (Z.to_nat (off + n * 512)) g).
  - apply (wpres_trans _ s1); [done|]. rewrite Ls. by replace (512 * sn + 512 * n) with (512 * (sn + n)) by lia.
  - unfold g1. rewrite Z2Nat.inj_add by lia. rewrite <- drop_drop. apply take_drop.
Qed.

Lemma qdata_wpres s s' off g :
  wpres s s' off g -> 0 <= off -> off + Z.of_nat (length g) <= q_size (q_info s) ->
  qdata inflate s' = write_at (qdata inflate s) off g.
Proof.
  intros [I _ _ _ Y] H0 H1. apply list_eq. intros i. pose proof (length_qdata inflate s) as L.
  rewrite lookup_write_at by lia. change (qdata inflate s') with (qbytes inflate s' 0 (q_size (q_info s'))).
  change (qdata inflate s) with (qbytes inflate s 0 (q_size (q_info s))). rewrite I, !lookup_qbytes, !Z.add_0_l.
  case_decide as Hi.
  - rewrite Y by lia. repeat case_decide; try done; try lia.
    destruct (lookup_lt_is_Some_2 g (i - Z.to_nat off)) as [x Hx]; [lia|]. rewrite Hx.
    replace (Z.to_nat (Z.of_nat i - off)) with (i - Z.to_nat off)%nat by lia. by rewrite Hx.
  - repeat case_decide; try done; try lia.
Qed.

Lemma qcow_pwritev_ok k s m iov g off :
  qwf inflate (k + Z.of_nat (length g) / 512) s -> 0 <= k -> backing_image s = None ->
  gather m iov = Some g -> iov_disj iov ->
  0 < Z.of_nat (length g) < 2 ^ 63 -> Z.of_nat (length g) mod 512 = 0 -> 0 <= off -> off mod 512 = 0 ->
  off + Z.of_nat (length g) <= q_size (q_info s) ->
  Z.of_nat (length (q_file s)) + 2 ^ 18 * (Z.of_nat (length g) / 512) <= 2 ^ 62 ->
  exists s', qcow_pwritev inflate s m iov (Z.of_nat (length iov)) off = Some (s', Z.of_nat (length g)) /\
    qwf inflate k s' /\ wpres s s' off g /\
    Z.of_nat (length (q_file s')) <= Z.of_nat (length (q_file s)) + 2 ^ 18 * (Z.of_nat (length g) / 512).
Proof.
  intros W Hk Hb Hg Hd Hl Hm Ho Hom Hin Hroom. unfold qcow_pwritev. rewrite (iovec_length_of m iov g) by (done || lia).
  cbn [mbind option_bind]. destruct (whole_sectors _ (Nat2Z.is_nonneg _) Hm) as [-> El].
  destruct (whole_sectors off Ho Hom) as [_ Eo]. cbn [Z.eqb negb]. rewrite Z.shiftr_div_pow2 by lia.
  change (2 ^ 9) with 512. set (sn := off / 512) in *. set (c := Z.of_nat (length g) / 512) in *.
  pose proof (g_512 _ (w_geo _ _ _ W)) as Hsz. pose proof (g_size _ (w_geo _ _ _ W)) as [Hsz0 _].
  destruct (whole_sectors _ Hsz0 Hsz) as [_ Es]. rewrite (proj2 (Z.leb_gt _ _)), Z.min_l by lia.
  destruct (qcow_pwritev_loop_ok m iov g (Z.to_nat c) k s 0 sn c) as (s' & E & W' & P & L); try done; try lia.
  exists s'. rewrite E. split_and!; try done. cbn [Z.to_nat] in P. rewrite drop_0 in P. by rewrite Eo.
Qed.

(** ** The callouts *)

(** One call that transfers everything ends the loops. *)
Lemma qcow_read_loop_once {D} {HD : Bdev D} fuel (d d' : D) m m' iov iov' c cnt n off :
  (0 < fuel)%nat -> 0 < n -> bd_preadv d m iov cnt off = Some (d', m', n) ->
  tcmu_seek_in_iovec iov n = Some (iov', c) ->
  qcow_read_loop fuel d m iov cnt n off = Some (d', m', iov', TCMU_STS_OK).
Proof.
  intros Hf Hn E Es. destruct fuel as [|fuel]; [lia|]. cbn [qcow_read_loop].
  rewrite (proj2 (Z.eqb_neq n 0)), E by lia. cbn [mbind option_bind]. rewrite (proj2 (Z.ltb_ge n 0)), Es by lia.
  cbn [mbind option_bind]. rewrite Z.sub_diag. by destruct fuel.
Qed.

Lemma qcow_write_loop_once {D} {HD : Bdev D} fuel (d d' : D) m iov iov' c cnt n off :
  (0 < fuel)%nat -> 0 < n -> bd_pwritev d m iov cnt off = Some (d', n) ->
  tcmu_seek_in_iovec iov n = Some (iov', c) ->
  qcow_write_loop fuel d m iov cnt n off = Some (d', iov', TCMU_STS_OK).
Proof.
  intros Hf Hn E Es. destruct fuel as [|fuel]; [lia|]. cbn [qcow_write_loop].
  rewrite (proj2 (Z.eqb_neq n 0)), E by lia. cbn [mbind option_bind]. rewrite (proj2 (Z.ltb_ge n 0)), Es by lia.
  cbn [mbind option_bind]. rewrite Z.sub_diag. by destruct fuel.
Qed.

(** A whole request: [qcow_read] is done after one call of [preadv]. *)
Lemma qcow_read_ok k s m iov g off :
  qwf inflate (k + Z.of_nat (length g) / 512) s -> 0 <= k -> gather m iov = Some g -> iov_disj iov ->
  Z.of_nat (length g) < 2 ^ 63 -> Z.of_nat (length g) mod 512 = 0 -> 0 <= off -> off mod 512 = 0 ->
  off + Z.of_nat (length g) <= q_size (q_info s) ->
  exists s' m' iov',
    qcow_read (HD := qcow_ops inflate) s m iov (Z.of_nat (length iov)) (Z.of_nat (length g)) off =
      Some (s', m', iov', Done TCMU_STS_OK) /\
    qwf inflate k s' /\ pres inflate s s' /\
    gather m' iov = Some (read_at (qdata inflate s) off (Z.of_nat (length g))) /\
    (forall q p, outside iov q p -> mem_load m' q p = mem_load m q p).
Proof.
  intros W Hk Hg Hd Hl Hm Ho Hom Hin. unfold qcow_read. rewrite Nat2Z.id.
  destruct (decide (g = [])) as [->|Hne].
  { exists s, m, iov. split_and!; try done. by replace k with (k + 0) by lia. }
  assert (0 < length g)%nat as Hpos by (destruct g; [done|cbn; lia]).
  destruct (qcow_preadv_ok inflate k s m iov g off W Hk Hg Hd) as (s' & m' & E & W' & P & G & F); try done; [lia|].
  destruct (tcmu_seek_in_iovec_spec iov m g (Z.of_nat (length g)) Hg) as (iov' & c & Es & _);
    [rewrite <- (gather_length _ _ _ Hg); lia|].
  exists s', m', iov'. rewrite (qcow_read_loop_once (HD := qcow_ops inflate) _ s s' m m' iov iov' c) by (done || lia).
  done.
Qed.

Lemma qcow_write_ok k s m iov g off :
  qwf inflate (k + Z.of_nat (length g) / 512) s -> 0 <= k -> backing_image s = None ->
  gather m iov = Some g -> iov_disj iov ->
  Z.of_nat (length g) < 2 ^ 63 -> Z.of_nat (length g) mod 512 = 0 -> 0 <= off -> off mod 512 = 0 ->
  off + Z.of_nat (length g) <= q_size (q_info s) ->
  Z.of_nat (length (q_file s)) + 2 ^ 18 * (Z.of_nat (length g) / 512) <= 2 ^ 62 ->
  exists s' iov',
    qcow_write (HD := qcow_ops inflate) s m iov (Z.of_nat (length iov)) (Z.of_nat (length g)) off =
      Some (s', iov', Done TCMU_STS_OK) /\
    qwf inflate k s' /\ wpres s s' off g /\
    Z.of_nat (length (q_file s')) <= Z.of_nat (length (q_file s)) + 2 ^ 18 * (Z.of_nat (length g) / 512).
Proof.
  intros W Hk Hb Hg Hd Hl Hm Ho Hom Hin Hroom. unfold qcow_write. rewrite Nat2Z.id.
  destruct (decide (g = [])) as [->|Hne].
  { exists s, iov. split_and!; [done|by replace k with (k + 0) by lia|apply wpres_nil|]. change (Z.of_nat (@length Z []) / 512) with 0 in *. lia. }
  assert (0 < length g)%nat as Hpos by (destruct g; [done|cbn; lia]).
  destruct (qcow_pwritev_ok k s m iov g off W Hk Hb Hg Hd) as (s' & E & W' & P & L); try done; [lia|].
  destruct (tcmu_seek_in_iovec_spec iov m g (Z.of_nat (length g)) Hg) as (iov' & c & Es & _);
    [rewrite <- (gather_length _ _ _ Hg); lia|].
  exists s', iov'. rewrite (qcow_write_loop_once (HD := qcow_ops inflate) _ s s' m iov iov' c) by (done || lia).
  done.
Qed.
End write.
