(* ===== verification/QcowThm.v ===== *)
(** * The QCOW handler: the disk and its image file

    Opening establishes the invariant, the contract of the handler on a disk
    kept in an image of version 1, that the disk survives closing and opening,
    chains of images, and the cache seen from outside. *)

From S2P Require Import Prelude Scsi Iovec Device Backstore FileBack Configfs WriteSame Qcow QcowOpen QcowTab QcowCache QcowSpec QcowSeg QcowIo QcowWrite.

(** ** The cache against the file *)

(** Lookups one after the other: the tables they give out. *)
Fixpoint lookups (c : cache) (f : img) (bytes : Z) (offs : list Z) : option (list (list Z)) :=
  match offs with
  | [] => Some []
  | off :: offs =>
      '(i, c, f) ← cache_lookup c f bytes off;
      i ← i;
      t ← c_data c !! i;
      ts ← lookups c f bytes offs;
      Some (t :: ts)
  end.

Lemma empty_cache_ok f bytes ok k :
  0 <= bytes -> k < INT_MAX -> cache_ok f bytes ok k (empty_cache bytes).
Proof.
  intros Hb Hk. unfold empty_cache. split; cbn [c_data c_offs c_cnts]; try by rewrite length_replicate.
  - intros i d [-> _]%lookup_replicate. rewrite length_zeros. lia.
  - intros i n [-> _]%lookup_replicate. lia.
  - by intros i o [-> _]%lookup_replicate Hn.
  - by intros i j o [-> _]%lookup_replicate _ Hn.
Qed.

Lemma lookups_ok f bytes offs : forall k c,
  cache_ok f bytes (fun _ => True) k c -> Z.of_nat (length offs) <= k -> 0 <= bytes ->
  Forall (fun o => 0 < o < 2 ^ 63 /\ o + bytes <= Z.of_nat (length f)) offs ->
  lookups c (Img f []) bytes offs = Some ((fun o => read_at f o bytes) <$> offs).
Proof.
  induction offs as [|o offs IH]; intros k c C Hk Hb Ho; [done|]. inversion Ho as [|? ? [H1 H2] Ho']; subst.
  cbn [lookups length] in *.
  destruct (cache_lookup_ok f bytes (fun _ => True) k c o C) as (i & c' & -> & _ & Hd & C'); [lia|done|done|done|done|].
  cbn [mbind option_bind]. rewrite Hd. cbn [mbind option_bind].
  rewrite (IH (k - 1)) by (done || lia). done.
Qed.

(** C31: the cache in front of the second-level tables (and of the blocks of
    reference counts) is equivalent to reading the file every time: from the
    empty cache on, any sequence of lookups, with whatever hits and evictions it
    causes, gives out exactly the tables of the file. *)
Theorem cache_equals_file (f : list Z) (bytes : Z) (offs : list Z)
  (Hb : 0 <= bytes) (Hn : Z.of_nat (length offs) < INT_MAX)
  (Ho : Forall (fun o => 0 < o < 2 ^ 63 /\ o + bytes <= Z.of_nat (length f)) offs) :
  lookups (empty_cache bytes) (Img f []) bytes offs = Some ((fun o => read_at f o bytes) <$> offs).
Proof. apply (lookups_ok f bytes offs (INT_MAX - 1)); [by apply empty_cache_ok|lia|done|done]. Qed.

(** Twenty tables through sixteen slots, one of them again and again. *)
Definition demo_offs : list Z := flat_map (fun i => [8; Z.of_nat i]) (seq 1 20).

Lemma cache_equals_file_witness :
  lookups (empty_cache 4) (Img (Z.of_nat <$> seq 0 40) []) 4 demo_offs =
    Some ((fun o => read_at (Z.of_nat <$> seq 0 40) o 4) <$> demo_offs).
Proof.
  apply (cache_equals_file (Z.of_nat <$> seq 0 40) 4 demo_offs); [lia|reflexivity|].
  repeat (constructor; [vm_compute; split; [split|]; congruence|]). constructor.
Defined.

(** ** Opening *)

Lemma image_l1_size_spec size shift n :
  0 <= size -> 0 <= shift -> image_l1_size size 512 shift = Some n ->
  0 <= n <= 2 ^ 28 /\ size <= n * 2 ^ shift /\ size mod 512 = 0.
Proof.
  intros Hs Hsh. unfold image_l1_size. rewrite Z.shiftl_1_l. pose proof (Z.pow_pos_nonneg 2 shift ltac:(lia) Hsh) as Hp.
  destruct (Z.ltb_spec (u64 (-1) - 2 ^ shift) size) as [|H1]; [done|]. change (u64 (-1)) with (2 ^ 64 - 1) in H1.
  rewrite Z.shiftr_div_pow2 by done. destruct (Z.ltb_spec (INT_MAX / 8) ((size + 2 ^ shift - 1) / 2 ^ shift)) as [|H2]; [done|].
  unfold round_up. cbn [Z.eqb mbind option_bind].
  destruct (negb _) eqn:E; [done|]. intros [= <-]. apply negb_false_iff, Z.eqb_eq in E.
  change (INT_MAX / 8) with 268435455 in H2. split_and!.
  - apply Z.div_pos; lia.
  - lia.
  - pose proof (Z.div_mod (size + 2 ^ shift - 1) (2 ^ shift) ltac:(lia)).
    pose proof (Z.mod_pos_bound (size + 2 ^ shift - 1) (2 ^ shift) ltac:(lia)). lia.
  - rewrite <- E. unfold u64, wrap. change (2 ^ 64) with (512 * 2 ^ 55).
    rewrite Z.mul_comm, Zmult_mod_distr_l. rewrite Z.mul_comm. apply Z_mod_mult.
Qed.

Lemma read_whole_inv f len off bs f' :
  0 <= len -> read_whole (Img f []) len off = Some (bs, f') ->
  bs = read_at f off len /\ f' = Img f [] /\ Z.of_nat (length bs) = len.
Proof.
  intros Hlen. unfold read_whole, img_pread. cbn [next_out i_out i_file]. intros H.
  destruct ((len <? 0) || (s64 off <? 0)) eqn:E.
  { destruct (Z.eqb_spec (-1) len) as [<-|]; [lia|done]. }
  rewrite Z.min_id in H. fold (read_at f off len) in H.
  destruct (Z.eqb_spec (Z.of_nat (length (read_at f off len))) len); [|done]. by simplify_eq.
Qed.

Lemma read_whole_ok f len off :
  0 <= off < 2 ^ 63 -> 0 <= len -> off + len <= Z.of_nat (length f) ->
  read_whole (Img f []) len off = Some (read_at f off len, Img f []).
Proof. intros. unfold read_whole. rewrite img_pread_ok by done. by rewrite Z.eqb_refl. Qed.

Lemma read_whole_same f len off bs f' : read_whole (Img f []) len off = Some (bs, f') -> f' = Img f [].
Proof.
  unfold read_whole, img_pread. cbn [next_out i_out i_file]. intros H. do 2 (case_if_in H; try done); by simplify_eq.
Qed.

Section open.
Context {B : Type} {HB : Bdev B} {HL : BdevLaws B} (inflate : list Z -> Z -> Z * list Z).
Context (open_backing : list Z -> option B).
Implicit Types s : qcow_state B.

Lemma setup_backing_inv f off len f' b :
  qcow_setup_backing_file open_backing (Img f []) off len = Some (f', b) -> f' = Img f [].
Proof.
  unfold qcow_setup_backing_file. intros H. case_if_in H; [by simplify_eq|]. case_if_in H; [done|].
  destruct (read_whole (Img f []) len off) as [[nm f1]|] eqn:E; [|done]. cbn [mbind option_bind] in H.
  apply read_whole_same in E as ->.
  destruct (cstring _); [|done]. cbn in H. destruct (open_backing _); [|done]. cbn in H. by simplify_eq.
Qed.

Lemma setup_backing_none f off len f' :
  qcow_setup_backing_file open_backing (Img f []) off len = Some (f', None) -> off = 0 \/ len = 0.
Proof.
  unfold qcow_setup_backing_file. intros H. destruct ((off =? 0) || (len =? 0)) eqn:E.
  - apply orb_prop in E as [E|E]; zbool; tauto.
  - case_if_in H; [done|]. destruct (read_whole _ _ _) as [[nm f1]|]; [|done]. cbn in H.
    destruct (cstring _); [|done]. cbn in H. destruct (sys_ok f1) as [f2|]; [|done]. cbn in H.
    destruct (sys_ok f2); [|done]. cbn in H. by destruct (open_backing _).
Qed.

(** The state that opening builds, from the header and the tables of the file. *)
Definition opened (f : list Z) (n : Z) (b : option B) : qcow_state B :=
  let q := qcow_info (qcow_header_bswap (read_at f 0 48)) n in
  QSt q (Img f []) (read_at f (l1_table_offset q) (n * 8)) (empty_cache (l2_size q * 8))
    (zeros (Z.to_nat (cluster_size q))) (u64 (-1)) b [] (Cache [] (replicate L2_CACHE_SIZE 0) (replicate L2_CACHE_SIZE 0)) 0.

(** What opening has checked. *)
Record checked (f : list Z) (size n : Z) : Prop := {
  ch_valid : qcow_validate_header (qcow_header_bswap (read_at f 0 48)) = true;
  ch_size : u64 size = h_size (qcow_header_bswap (read_at f 0 48));
  ch_l1 : image_l1_size (h_size (qcow_header_bswap (read_at f 0 48))) 512
            (h_cluster_bits (qcow_header_bswap (read_at f 0 48)) + h_l2_bits (qcow_header_bswap (read_at f 0 48))) = Some n
}.

Lemma valid_bits h : qcow_validate_header h = true -> 9 <= h_cluster_bits h <= 16 /\ 6 <= h_l2_bits h <= 13.
Proof.
  unfold qcow_validate_header. intros H. apply andb_prop in H as [H _]. apply andb_prop in H as [H H2].
  apply andb_prop in H as [_ H1]. apply negb_true_iff, orb_false_iff in H1 as [? ?].
  apply negb_true_iff, orb_false_iff in H2 as [? ?]. zbool. lia.
Qed.

Lemma checked_geo f size n :
  checked f size n -> geo (qcow_info (qcow_header_bswap (read_at f 0 48)) n).
Proof.
  intros [Hv Hs Hl]. destruct (valid_bits _ Hv) as [Hc Hb]. set (h := qcow_header_bswap _) in *.
  pose proof (u64_bound size) as Hu. rewrite Hs in Hu.
  destruct (image_l1_size_spec (h_size h) (h_cluster_bits h + h_l2_bits h) n) as (H1 & H2 & H3); [lia|lia|done|].
  split; cbn; try done. change (hfield (read_at f 0 48) 24 8) with (h_size h).
  unfold l2_size, cluster_size. cbn [l2_bits cluster_bits qcow_info].
  split; [lia|]. rewrite !Z.shiftl_1_l. rewrite <- Z.mul_assoc, <- Z.pow_add_r by lia. rewrite (Z.add_comm (h_l2_bits h)). lia.
Qed.

Lemma qcow_image_open_inv f size bs s :
  qcow_image_open open_backing (Img f []) size bs = Some s ->
  exists n b, checked f size n /\ s = opened f n b /\ bs = 512 /\ Z.of_nat (length (l1_table s)) = 8 * n /\
    exists f', qcow_setup_backing_file open_backing (Img f [])
      (h_backing_file_offset (qcow_header_bswap (read_at f 0 48)))
      (h_backing_file_size (qcow_header_bswap (read_at f 0 48))) = Some (f', b).
Proof.
  unfold qcow_image_open. cbn [sys_ok next_out i_out Z.ltb Z.compare mbind option_bind]. intros H.
  destruct (read_whole (Img f []) 48 0) as [[buf f1]|] eqn:E1; [|done]. cbn [mbind option_bind] in H.
  apply read_whole_inv in E1 as (-> & -> & L1); [|done]. set (h := qcow_header_bswap _) in *.
  destruct (qcow_validate_header h) eqn:Hv; [|done].
  destruct (Z.eqb_spec (u64 size) (h_size h)) as [Hs|]; [|done].
  destruct (Z.eqb_spec bs 512) as [->|]; [|done]. cbn [negb] in H.
  destruct (image_l1_size (h_size h) 512 _) as [n|] eqn:E2; [|done]. cbn [mbind option_bind] in H.
  assert (checked f size n) as Hch by (by split).
  pose proof (g_l1 _ (checked_geo _ _ _ Hch)) as Hn. cbn in Hn.
  cbn [sys_ok next_out i_out Z.ltb Z.compare mbind option_bind] in H.
  destruct (read_whole (Img f []) (n * 8) _) as [[l1 f1]|] eqn:E3; [|done]. cbn [mbind option_bind] in H.
  apply read_whole_inv in E3 as (-> & -> & L3); [|lia].
  cbn [sys_ok next_out i_out Z.ltb Z.compare mbind option_bind] in H.
  destruct (qcow_setup_backing_file _ _ _ _) as [[f2 b]|] eqn:E4; [|done]. cbn [mbind option_bind] in H.
  exists n, b. split; [done|]. pose proof E4 as E5. apply setup_backing_inv in E4 as ->.
  simplify_eq. split; [done|]. split; [done|]. split; [cbn in L3 |- *; lia|eauto].
Qed.

(** An image whose tables are sound has the invariant once it is open. *)
Lemma opened_wf k f size n b :
  checked f size n -> Z.of_nat (length f) <= 2 ^ 62 -> 0 <= k < INT_MAX ->
  tabs inflate (q_info (opened f n b)) f (l1_table (opened f n b)) ->
  match b with None => True | Some b => bd_wf k b /\ Z.of_nat (length (bd_data b)) = q_size (q_info (opened f n (Some b))) end ->
  qwf inflate k (opened f n b).
Proof.
  intros Hc Hf Hk T Hb. pose proof (checked_geo _ _ _ Hc) as Hq. pose proof (l2_size_bounds _ Hq).
  pose proof (cluster_size_bounds _ Hq). set (q := qcow_info _ n) in *.
  split; try done; [| |lia]; [apply empty_cache_ok; [change (0 <= l2_size q * 8); lia|lia]|].
  split; change (q_info (opened f n b)) with q in *.
  { change (cluster_cache (opened f n b)) with (zeros (Z.to_nat (cluster_size q))). rewrite length_zeros. lia. }
  intros c Hl Hn _ E. exfalso. destruct (t_ent _ _ _ _ T c Hl Hn) as (_ & H48 & Hhi & _).
  change (ent q f _ c) with (s_ent (opened f n b) c) in *. rewrite E in H48, Hhi.
  change (cluster_cache_offset (opened f n b)) with (2 ^ 64 - 1) in Hhi.
  set (e := s_ent (opened f n b) c) in *.
  assert (0 <= (place q e).2); [|lia]. unfold place. destruct (is_comp e); [|cbn [snd]; lia].
  apply Z.land_nonneg. right. lia.
Qed.

(** The file of [s] has the header [s] was opened with, without a backing file. *)
Record image_of s (size : Z) : Prop := {
  im_checked : checked (q_file s) size (l1_size (q_info s));
  im_info : q_info s = qcow_info (qcow_header_bswap (read_at (q_file s) 0 48)) (l1_size (q_info s));
  im_back : h_backing_file_offset (qcow_header_bswap (read_at (q_file s) 0 48)) = 0 \/
            h_backing_file_size (qcow_header_bswap (read_at (q_file s) 0 48)) = 0
}.

Lemma image_of_wpres s s' size off g : wpres inflate s s' off g -> image_of s size -> image_of s' size.
Proof.
  intros [I _ Hh _ _] [[C1 C2 C3] Hi Hb]. split; [split|..]; rewrite ?Hh, ?I; done.
Qed.

(** Closing the image and opening its file again. *)
Lemma reopen_ok k s size :
  qwf inflate k s -> image_of s size -> backing_image s = None ->
  exists s', qcow_image_open open_backing (Img (q_file s) []) size 512 = Some s' /\
    qdata inflate s' = qdata inflate s /\ backing_image s' = None /\
    forall k', 0 <= k' < INT_MAX -> qwf inflate k' s'.
Proof.
  intros W [Hc Hi Hb] Hnb. pose proof (w_geo _ _ _ W) as Hq. pose proof (w_tabs _ _ _ W) as T.
  pose proof (w_len _ _ _ W) as Hlen. pose proof (t_l1 _ _ _ _ T) as Hl1. pose proof (g_l1 _ Hq) as Hn.
  set (n := l1_size (q_info s)) in *. exists (opened (q_file s) n None).
  assert (q_info (opened (q_file s) n None) = q_info s) as Eq by (symmetry; exact Hi).
  assert (l1_table (opened (q_file s) n None) = l1_table s) as El.
  { rewrite <- (t_l1f _ _ _ _ T). fold n. unfold opened. cbn [l1_table]. rewrite <- Hi.
    by rewrite (Z.mul_comm n 8). }
  split; [|split; [|split; [done|]]].
  - unfold qcow_image_open. cbn [sys_ok next_out i_out Z.ltb Z.compare mbind option_bind].
    rewrite read_whole_ok by lia. cbn [mbind option_bind].
    destruct Hc as [-> Hs2 Hs3]. rewrite (proj2 (Z.eqb_eq _ _) Hs2). cbn [negb Z.eqb Pos.eqb].
    rewrite Hs3. cbn [sys_ok next_out i_out Z.ltb Z.compare mbind option_bind]. rewrite <- Hi.
    rewrite read_whole_ok by lia.
    cbn [sys_ok next_out i_out Z.ltb Z.compare mbind option_bind].
    unfold qcow_setup_backing_file.
    destruct Hb as [-> | ->]; rewrite Z.eqb_refl, ?orb_true_r; cbn [orb mbind option_bind]; unfold opened; by rewrite <- Hi.
  - unfold qdata, qbyte. rewrite Eq, El. by rewrite Hnb.
  - intros k' Hk'. apply (opened_wf k' _ size); try done. by rewrite Eq, El.
Qed.
End open.

(** ** Chains of images *)

#[export] Instance bdev_laws {B} {HB : Bdev B} {HL : BdevLaws B} (inflate : list Z -> Z -> Z * list Z) :
  @BdevLaws (bdev B) (bdev_ops inflate).
Proof.
  refine {| bd_wf k (d : bdev B) := match d with BRaw f => bd_wf k f | BQcow s => qwf inflate k s end;
            bd_data d := match d with BRaw f => bd_data f | BQcow s => qdata inflate s end |}.
  - intros k k' [f|s]; [apply (bd_weaken k k' f)|apply qwf_weaken].
  - intros [f|s] m iov g off k W Hk Hg Hd Hl Hm Ho Hom Hin.
    + destruct (bd_read_law f m iov g off k W Hk Hg Hd Hl Hm Ho Hom Hin) as (f' & m' & E & H).
      exists (BRaw f'), m'. cbn [bd_preadv bdev_ops bdev_preadv]. cbn [bd_preadv raw_ops] in E. by rewrite E.
    + destruct (bd_read_law (BdevLaws := qcow_laws inflate) s m iov g off k W Hk Hg Hd Hl Hm Ho Hom Hin)
        as (s' & m' & E & H).
      exists (BQcow s'), m'. cbn [bd_preadv bdev_ops bdev_preadv]. cbn [bd_preadv qcow_ops] in E. by rewrite E.
Defined.

Definition no_laws (inflate : list Z -> Z -> Z * list Z) : @BdevLaws (chain 0) (chain_ops inflate 0).
Proof.
  refine {| bd_wf _ (d : chain 0) := match d with end; bd_data (d : chain 0) := match d with end |}; intros; by destruct b.
Defined.

Fixpoint chain_laws (inflate : list Z -> Z -> Z * list Z) (n : nat) : @BdevLaws (chain n) (chain_ops inflate n) :=
  match n with
  | O => no_laws inflate
  | S n => bdev_laws (HL := chain_laws inflate n) inflate
  end.

(** Whole requests over anything that reads as it promises. *)
Lemma qcow_read_laws {D} {HD : Bdev D} {HL : BdevLaws D} (d : D) m iov g off k :
  bd_wf (k + Z.of_nat (length g) / 512) d -> 0 <= k -> gather m iov = Some g -> iov_disj iov ->
  Z.of_nat (length g) < 2 ^ 63 -> Z.of_nat (length g) mod 512 = 0 -> 0 <= off -> off mod 512 = 0 ->
  off + Z.of_nat (length g) <= Z.of_nat (length (bd_data d)) ->
  exists d' m' iov',
    qcow_read d m iov (Z.of_nat (length iov)) (Z.of_nat (length g)) off = Some (d', m', iov', Done TCMU_STS_OK) /\
    bd_wf k d' /\ bd_data d' = bd_data d /\
    gather m' iov = Some (read_at (bd_data d) off (Z.of_nat (length g))) /\
    (forall q p, outside iov q p -> mem_load m' q p = mem_load m q p).
Proof.
  intros W Hk Hg Hd Hl Hm Ho Hom Hin. unfold qcow_read. rewrite Nat2Z.id.
  destruct (decide (g = [])) as [->|Hne].
  { exists d, m, iov. split_and!; try done. by replace k with (k + 0) by lia. }
  assert (0 < length g)%nat as Hpos by (destruct g; [done|cbn; lia]).
  destruct (bd_read_law d m iov g off k W Hk Hg Hd) as (d' & m' & E & W' & Dd & G & F); try done; [lia|].
  destruct (tcmu_seek_in_iovec_spec iov m g (Z.of_nat (length g)) Hg) as (iov' & c & Es & _);
    [rewrite <- (gather_length _ _ _ Hg); lia|].
  exists d', m', iov'. rewrite (qcow_read_loop_once _ d d' m m' iov iov' c) by (done || lia). done.
Qed.

(** C16: a read request on a chain of images (the device's own QCOW image of
    version 1, any number of such images behind it, a plain file at the end)
    ends with success and puts into the buffers exactly the bytes of the disk:
    the clusters of the first image in the chain that has them, inflated where
    they are compressed, zeros where none has; nothing outside the buffers
    changes, and the disk stays what it was. *)
Theorem qcow_chain_read (inflate : list Z -> Z -> Z * list Z) (n : nat) (d : chain n) (m : mem) (iov : list iovec)
  (g : list Z) (off k : Z)
  (W : @bd_wf _ _ (chain_laws inflate n) (k + Z.of_nat (length g) / 512) d) (Hk : 0 <= k)
  (Hg : gather m iov = Some g) (Hd : iov_disj iov) (Hl : Z.of_nat (length g) < 2 ^ 63)
  (Hm : Z.of_nat (length g) mod 512 = 0) (Ho : 0 <= off) (Hom : off mod 512 = 0)
  (Hin : off + Z.of_nat (length g) <= Z.of_nat (length (@bd_data _ _ (chain_laws inflate n) d))) :
  exists d' m' iov',
    @qcow_read _ (chain_ops inflate n) d m iov (Z.of_nat (length iov)) (Z.of_nat (length g)) off =
      Some (d', m', iov', Done TCMU_STS_OK) /\
    @bd_wf _ _ (chain_laws inflate n) k d' /\
    @bd_data _ _ (chain_laws inflate n) d' = @bd_data _ _ (chain_laws inflate n) d /\
    gather m' iov = Some (read_at (@bd_data _ _ (chain_laws inflate n) d) off (Z.of_nat (length g))) /\
    (forall q p, outside iov q p -> mem_load m' q p = mem_load m q p).
Proof. exact (qcow_read_laws (HL := chain_laws inflate n) d m iov g off k W Hk Hg Hd Hl Hm Ho Hom Hin). Qed.

(** ** Concrete images *)

(** No table and no cluster yet. *)
Lemma tabs_empty inflate q f :
  geo q -> 48 <= l1_table_offset q -> l1_table_offset q + 8 * l1_size q <= Z.of_nat (length f) ->
  read_at f (l1_table_offset q) (8 * l1_size q) = zeros (Z.to_nat (8 * l1_size q)) ->
  tabs inflate q f (zeros (Z.to_nat (8 * l1_size q))).
Proof.
  intros Hq H1 H2 Hz. pose proof (g_l1 _ Hq).
  assert (forall j, l2off q (zeros (Z.to_nat (8 * l1_size q))) j = 0) as H0
    by (intros j; unfold l2off; by rewrite entry_zeros).
  assert (forall c, ent q f (zeros (Z.to_nat (8 * l1_size q))) c = 0) as He by (intros c; unfold ent; by rewrite H0).
  split; try done; try (intros c Hc; rewrite ?H0, ?He; done).
  - rewrite length_zeros. lia.
Qed.

(** A new image of 4096 bytes with clusters of 1024 and tables of 64 entries. *)
Definition demo_header (back_off back_len : Z) : list Z :=
  be_enc 4 QCOW_MAGIC ++ be_enc 4 1 ++ be_enc 8 back_off ++ be_enc 4 back_len ++ zeros 4 ++ be_enc 8 4096 ++
  [10; 6] ++ zeros 2 ++ be_enc 4 0 ++ be_enc 8 48.
Definition demo_image : list Z := demo_header 0 0 ++ zeros 8.
Definition demo_overlay : list Z := demo_header 56 4 ++ zeros 8 ++ str "base".
Definition demo_base : list Z := replicate 1024 1 ++ replicate 1024 2 ++ replicate 2048 3.

Definition demo_inflate (bs : list Z) (n : Z) : Z * list Z := (Z_STREAM_END, replicate (Z.to_nat n) 7).
Definition demo_fs (path : list Z) : option fs_file :=
  if decide (path = str "base") then Some (FsFile demo_base true []) else Some (FsFile demo_overlay true []).

Lemma demo_opened_wf inflate {B} {HB : Bdev B} {HL : BdevLaws B} (f : list Z) (b : option B) k :
  f = demo_image \/ f = demo_overlay -> 0 <= k < INT_MAX ->
  match b with None => True | Some b => bd_wf k b /\ Z.of_nat (length (bd_data b)) = 4096 end ->
  qwf inflate k (opened f 1 b).
Proof.
  intros Hf Hk Hb. assert (checked f 4096 1) as Hc by (destruct Hf as [-> | ->]; by split).
  assert (q_size (q_info (opened f 1 b)) = 4096) as Es by (destruct Hf as [-> | ->]; done).
  apply (opened_wf inflate k f 4096 1 b); try done; [destruct Hf as [-> | ->]; vm_compute; congruence| |].
  - pose proof (tabs_empty inflate (q_info (opened f 1 b)) f (checked_geo _ _ _ Hc)) as T.
    replace (l1_table (opened f 1 b)) with (zeros (Z.to_nat (8 * l1_size (q_info (opened f 1 b)))))
      by (destruct Hf as [-> | ->]; vm_compute; reflexivity).
    apply T; destruct Hf as [-> | ->]; vm_compute; congruence.
  - destruct b; [|done]. destruct Hb. split; [done|]. by destruct Hf as [-> | ->].
Qed.

(** The overlay of the plain file, opened through the file system, and a read of
    its second kilobyte and a half. *)
Definition demo_chain : option (chain 2) := bdev_open demo_fs (fun _ name => name) 2 (str "top") 4096 512.

Lemma demo_chain_is : demo_chain = Some (BQcow (opened demo_overlay 1 (Some (BRaw (Img demo_base []))))).
Proof. reflexivity. Qed.

Lemma qcow_chain_read_witness :
  exists (d d' : chain 2) (m' : mem) iov',
    demo_chain = Some d /\
    @qcow_read _ (chain_ops demo_inflate 2) d {[ 0%nat := zeros 1600 ]} [Iov (Ptr 0 0) 500; Iov (Ptr 0 600) 524] 2 1024 1536 =
      Some (d', m', iov', Done TCMU_STS_OK) /\
    gather m' [Iov (Ptr 0 0) 500; Iov (Ptr 0 600) 524] = Some (replicate 512 2 ++ replicate 512 3).
Proof.
  set (d := BQcow (opened demo_overlay 1 (Some (BRaw (Img demo_base [])))) : chain 2).
  destruct (qcow_chain_read demo_inflate 2 d {[ 0%nat := zeros 1600 ]} [Iov (Ptr 0 0) 500; Iov (Ptr 0 600) 524]
    (zeros 1024) 1536 10) as (d' & m' & iov' & E & _ & _ & G & _).
  - apply (demo_opened_wf demo_inflate demo_overlay (Some (BRaw (Img demo_base []) : chain 1))); [by right|by vm_compute|].
    split; [|reflexivity]. by vm_compute.
  - lia.
  - reflexivity.
  - split; [|by split]. constructor; [|constructor]. right. left. cbn. lia.
  - reflexivity.
  - reflexivity.
  - lia.
  - reflexivity.
  - vm_compute. congruence.
  - exists d, d', m', iov'. split; [exact demo_chain_is|]. split; [exact E|].
    rewrite G. vm_compute. reflexivity.
Defined.

(** ** Writes *)

Section durable.
Context {B : Type} {HB : Bdev B} {HL : BdevLaws B} (inflate : list Z -> Z -> Z * list Z).
Implicit Types s : qcow_state B.

(** A write request of whole sectors. *)
Record wreq := WReq { r_mem : mem; r_iov : list iovec; r_data : list Z; r_off : Z }.

Record req_ok (size : Z) (r : wreq) : Prop := {
  ro_gather : gather (r_mem r) (r_iov r) = Some (r_data r);
  ro_disj : iov_disj (r_iov r);
  ro_len : Z.of_nat (length (r_data r)) < 2 ^ 63;
  ro_512 : Z.of_nat (length (r_data r)) mod 512 = 0;
  ro_off : 0 <= r_off r;
  ro_off512 : r_off r mod 512 = 0;
  ro_in : r_off r + Z.of_nat (length (r_data r)) <= size
}.

Definition sectors (r : wreq) : Z := Z.of_nat (length (r_data r)) / 512.

(** The requests one after the other, as long as they succeed. *)
Fixpoint qcow_writes s (reqs : list wreq) : option (qcow_state B) :=
  match reqs with
  | [] => Some s
  | r :: reqs =>
      '(s, _, rep) ← qcow_write (HD := qcow_ops inflate) s (r_mem r) (r_iov r) (Z.of_nat (length (r_iov r)))
                       (Z.of_nat (length (r_data r))) (r_off r);
      match rep with Done TCMU_STS_OK => qcow_writes s reqs | _ => None end
  end.

Definition written (data : list Z) (reqs : list wreq) : list Z :=
  fold_left (fun d r => write_at d (r_off r) (r_data r)) reqs data.

Lemma qcow_writes_ok size reqs : forall k s,
  qwf inflate (k + zsum (sectors <$> reqs)) s -> 0 <= k -> backing_image s = None -> image_of s size ->
  Forall (req_ok (q_size (q_info s))) reqs ->
  Z.of_nat (length (q_file s)) + 2 ^ 18 * zsum (sectors <$> reqs) <= 2 ^ 62 ->
  exists s', qcow_writes s reqs = Some s' /\ qwf inflate k s' /\ backing_image s' = None /\ image_of s' size /\
    qdata inflate s' = written (qdata inflate s) reqs.
Proof.
  induction reqs as [|r reqs IH]; intros k s W Hk Hb Hi Hr Hroom.
  { exists s. split_and!; try done. by replace k with (k + 0) by lia. }
  inversion Hr as [|? ? [Hg Hd Hl H5 Ho Ho5 Hin] Hrs]; subst. cbn [fmap list_fmap zsum fold_right] in W, Hroom.
  fold (zsum (sectors <$> reqs)) in W, Hroom.
  assert (0 <= sectors r) as Hs0 by (apply Z.div_pos; lia).
  assert (0 <= zsum (sectors <$> reqs)) as Hz.
  { apply zsum_nonneg, Forall_forall. intros z. rewrite list_elem_of_fmap. intros (r' & -> & _). apply Z.div_pos; lia. }
  destruct (qcow_write_ok inflate (k + zsum (sectors <$> reqs)) s (r_mem r) (r_iov r) (r_data r) (r_off r))
    as (s1 & iov1 & E & W1 & P & L); try done; try (fold (sectors r); lia).
  { by replace (k + zsum (sectors <$> reqs) + _) with (k + (sectors r + zsum (sectors <$> reqs))) by (unfold sectors; lia). }
  fold (sectors r) in L. pose proof (wp_info _ _ _ _ _ P) as I1.
  destruct (IH k s1) as (s' & E2 & W2 & B2 & Im2 & Dt); try done; try lia.
  { by apply (wp_back _ _ _ _ _ P). } { by apply (image_of_wpres inflate s s1 size (r_off r) (r_data r)). } { by rewrite I1. }
  exists s'. cbn [qcow_writes]. rewrite E. cbn [mbind option_bind]. split_and!; try done.
  rewrite Dt. cbn [written fold_left]. by rewrite (qdata_wpres inflate s s1 (r_off r) (r_data r)) by done.
Qed.

(** C14: a write request on a disk in a QCOW image of version 1 without a
    backing file ends with success and changes the disk exactly where it was
    asked to: the disk afterwards is the disk before with the data written at
    the offset, through allocation of tables and clusters, inflation of
    compressed clusters and copying of shared ones.  The invariant holds on for
    the lookups that are left, and the file grows by at most 256 KiB for each
    sector. *)
Theorem qcow_write_contract (k : Z) s (m : mem) (iov : list iovec) (g : list Z) (off : Z)
  (W : qwf inflate (k + Z.of_nat (length g) / 512) s) (Hk : 0 <= k) (Hb : backing_image s = None)
  (Hg : gather m iov = Some g) (Hd : iov_disj iov) (Hl : Z.of_nat (length g) < 2 ^ 63)
  (Hm : Z.of_nat (length g) mod 512 = 0) (Ho : 0 <= off) (Hom : off mod 512 = 0)
  (Hin : off + Z.of_nat (length g) <= q_size (q_info s))
  (Hroom : Z.of_nat (length (q_file s)) + 2 ^ 18 * (Z.of_nat (length g) / 512) <= 2 ^ 62) :
  exists s' iov',
    qcow_write (HD := qcow_ops inflate) s m iov (Z.of_nat (length iov)) (Z.of_nat (length g)) off =
      Some (s', iov', Done TCMU_STS_OK) /\
    qdata inflate s' = write_at (qdata inflate s) off g /\
    qwf inflate k s' /\ backing_image s' = None /\
    Z.of_nat (length (q_file s')) <= Z.of_nat (length (q_file s)) + 2 ^ 18 * (Z.of_nat (length g) / 512).
Proof.
  destruct (qcow_write_ok inflate k s m iov g off W Hk Hb Hg Hd Hl Hm Ho Hom Hin Hroom) as (s' & iov' & E & W' & P & L).
  exists s', iov'. split_and!; try done; [by apply (qdata_wpres inflate s s')|by apply (wp_back _ _ _ _ _ P)].
Qed.

(** C37: taking a cluster that the image does not have yet for a write, however
    small, makes the whole cluster read as zeros and leaves every other cluster
    alone; what an image behind this one holds there is not copied, so that the
    part of the cluster that the write does not reach loses its contents. *)
Theorem allocation_hides_backing (k : Z) s (v : Z)
  (W : qwf inflate k s) (Hk : 0 < k) (Hv : 0 <= v < q_size (q_info s))
  (He : s_ent s (v / cluster_size (q_info s)) = 0)
  (Hroom : Z.of_nat (length (q_file s)) + 2 ^ 18 <= 2 ^ 62) :
  exists o s', get_cluster_offset inflate s v true = Some (o, s') /\
    (backing_image s' = None <-> backing_image s = None) /\
    forall w, 0 <= w < q_size (q_info s) ->
      qbyte inflate s' w =
        if w / cluster_size (q_info s) =? v / cluster_size (q_info s) then 0 else qbyte inflate s w.
Proof.
  destruct (get_cluster_offset_take inflate k s v W Hk Hv Hroom) as (s2 & i & F & P & Ee & _ & E).
  rewrite He in Ee. rewrite Ee in E. pose proof (p_info _ _ _ P) as I.
  destruct (take_empty_moved inflate (k - 1) s2 _ i F Ee) as (o & s' & Et & _ & Mv).
  exists o, s'. split; [by rewrite E|]. split; [rewrite (mv_back _ _ _ _ _ _ _ Mv); apply (p_back _ _ _ P)|].
  intros w Hw. rewrite (mv_byte _ _ _ _ _ _ _ Mv) by (rewrite I; done). rewrite I, default_zeros.
  case_if; [done|]. by apply (p_byte _ _ _ P).
Qed.

(** C15: what was written survives: open an image file of version 1 with sound
    tables and no backing file, serve any number of write requests, and open the
    file that this leaves; all of it succeeds, and the disk that is found then
    is the first one with all the writes applied in their order. *)
Theorem qcow_disk_durable (open_backing : list Z -> option B) (f : list Z) (size : Z) s (reqs : list wreq)
  (Hopen : qcow_image_open open_backing (Img f []) size 512 = Some s) (Hb : backing_image s = None)
  (Ht : tabs inflate (q_info s) f (l1_table s)) (Hr : Forall (req_ok size) reqs) (Hs : 0 <= size < 2 ^ 63)
  (Hn : zsum (sectors <$> reqs) < INT_MAX)
  (Hroom : Z.of_nat (length f) + 2 ^ 18 * zsum (sectors <$> reqs) <= 2 ^ 62) :
  exists s1 s2,
    qcow_writes s reqs = Some s1 /\
    qcow_image_open open_backing (Img (q_file s1) []) size 512 = Some s2 /\
    qdata inflate s2 = written (qdata inflate s) reqs /\
    forall k, 0 <= k < INT_MAX -> qwf inflate k s2.
Proof.
  destruct (qcow_image_open_inv _ f size 512 s Hopen) as (n & b & Hc & -> & _ & Hl1 & f' & Hback).
  cbn [backing_image opened] in Hb. subst b.
  assert (0 <= zsum (sectors <$> reqs)) as Hz.
  { apply zsum_nonneg, Forall_forall. intros z. rewrite list_elem_of_fmap. intros (r' & -> & _). apply Z.div_pos; lia. }
  assert (q_size (q_info (opened (B := B) f n None)) = size) as Eqs.
  { change (h_size (qcow_header_bswap (read_at f 0 48)) = size). rewrite <- (ch_size _ _ _ Hc). apply u64_small. lia. }
  pose proof (opened_wf inflate (INT_MAX - 1) f size n (None : option B) Hc ltac:(lia) ltac:(unfold INT_MAX; lia) Ht I) as W.
  destruct (qcow_writes_ok size reqs (INT_MAX - 1 - zsum (sectors <$> reqs)) (opened f n None))
    as (s1 & E1 & W1 & B1 & Im1 & D1); try done; try lia.
  { by replace (INT_MAX - 1 - zsum (sectors <$> reqs) + _) with (INT_MAX - 1) by lia. }
  { split; [exact Hc|reflexivity|]. by apply (setup_backing_none inflate open_backing f _ _ f'). }
  { by rewrite Eqs. }
  destruct (reopen_ok inflate open_backing _ s1 size W1 Im1 B1) as (s2 & E2 & D2 & _ & W2).
  exists s1, s2. split_and!; try done. by rewrite D2.
Qed.
End durable.

(** Two overlapping writes, then the image is closed and opened. *)
Definition demo_mem : mem := {[ 0%nat := replicate 1024 5; 1%nat := replicate 512 6 ]}.
Definition demo_reqs : list wreq :=
  [WReq demo_mem [Iov (Ptr 0 0) 700; Iov (Ptr 0 700) 324] (replicate 1024 5) 512;
   WReq demo_mem [Iov (Ptr 1 0) 512] (replicate 512 6) 1024].

Lemma qcow_disk_durable_witness :
  exists (s s1 s2 : qcow_state img),
    qcow_image_open (fun _ => None) (Img demo_image []) 4096 512 = Some s /\
    qcow_writes demo_inflate s demo_reqs = Some s1 /\
    qcow_image_open (fun _ => None) (Img (q_file s1) []) 4096 512 = Some s2 /\
    qdata demo_inflate s2 = zeros 512 ++ replicate 512 5 ++ replicate 512 6 ++ zeros 2560.
Proof.
  set (s := opened demo_image 1 None : qcow_state img).
  destruct (qcow_disk_durable demo_inflate (fun _ => None : option img) demo_image 4096 s demo_reqs) as (s1 & s2 & E1 & E2 & D & _).
  - reflexivity.
  - reflexivity.
  - apply (w_tabs demo_inflate 1). apply (demo_opened_wf demo_inflate demo_image None); [by left|by vm_compute|done].
  - constructor; [|constructor; [|constructor]]; split; try done; try (vm_compute; congruence).
    + split; [|by split]. constructor; [|constructor]. right. left. cbn. lia.
  - lia.
  - reflexivity.
  - vm_compute. congruence.
  - exists s, s1, s2. split; [reflexivity|]. split; [exact E1|]. split; [exact E2|]. rewrite D. vm_compute. reflexivity.
Defined.

Lemma qcow_write_contract_witness :
  exists (s' : qcow_state img) iov',
    qcow_write (HD := qcow_ops demo_inflate) (opened demo_image 1 None) demo_mem [Iov (Ptr 0 0) 512] 1 512 1024 =
      Some (s', iov', Done TCMU_STS_OK) /\
    qdata demo_inflate s' = zeros 1024 ++ replicate 512 5 ++ zeros 2560.
Proof.
  destruct (qcow_write_contract demo_inflate 10 (opened demo_image 1 None : qcow_state img) demo_mem [Iov (Ptr 0 0) 512]
    (replicate 512 5) 1024) as (s' & iov' & E & D & _).
  - apply (demo_opened_wf demo_inflate demo_image None); [by left|by vm_compute|done].
  - lia.
  - reflexivity.
  - reflexivity.
  - by split.
  - reflexivity.
  - reflexivity.
  - lia.
  - reflexivity.
  - vm_compute. congruence.
  - vm_compute. congruence.
  - exists s', iov'. split; [exact E|]. rewrite D. vm_compute. reflexivity.
Defined.

(** One sector of the overlay: the other half of its cluster was 1s. *)
Lemma allocation_hides_backing_witness :
  let s : qcow_state img := opened demo_overlay 1 (Some (Img demo_base [])) in
  exists o s', get_cluster_offset demo_inflate s 0 true = Some (o, s') /\
    qbyte demo_inflate s 512 = 1 /\ qbyte demo_inflate s' 512 = 0 /\ qbyte demo_inflate s' 1024 = 2.
Proof.
  intros s. destruct (allocation_hides_backing demo_inflate 10 s 0) as (o & s' & E & _ & H).
  - apply (demo_opened_wf demo_inflate demo_overlay (Some (Img demo_base []))); [by right|by vm_compute|].
    split; [|reflexivity]. split; [reflexivity|]. vm_compute. congruence.
  - lia.
  - vm_compute. split; congruence.
  - reflexivity.
  - vm_compute. congruence.
  - exists o, s'. split; [exact E|]. rewrite !H by (vm_compute; split; congruence).
    split; [reflexivity|]. split; reflexivity.
Defined.
