(* ===== verification/QcowRef.v ===== *)
(** * The QCOW handler: reference counts

    The fields of a block of reference counts, from one bit to 32 bits: what is
    set is what is read, and the neighbours keep their counts.  The allocation
    of clusters of version 2 images by these counts. *)

From S2P Require Import Prelude Iovec Backstore FileBack Configfs Qcow QcowTab QcowCache.

(** ** Fields of a byte *)

(** One field of [w] bits in place [r] of a byte. *)
Definition field_get (w b r : Z) : Z := Z.land (Z.shiftr b (w * r)) (2 ^ w - 1).
Definition field_set (w b r v : Z) : Z :=
  u8 (Z.lor (u8 (Z.land b (Z.lnot (Z.shiftl (2 ^ w - 1) (w * r))))) (Z.shiftl v (w * r))).

Lemma field_bit w x n : 0 < w -> 0 <= n -> Z.testbit (Z.land x (2 ^ w - 1)) n = Z.testbit x n && (n <? w).
Proof.
  intros Hw Hn. rewrite Z.land_spec. f_equal. replace (2 ^ w - 1) with (Z.ones w) by (rewrite Z.ones_equiv; lia).
  by rewrite Z.testbit_ones_nonneg by lia.
Qed.

Lemma u8_bit x n : 0 <= n -> Z.testbit (u8 x) n = Z.testbit x n && (n <? 8).
Proof.
  intros Hn. unfold u8, wrap. rewrite <- Z.land_ones, Z.land_spec by lia. f_equal.
  by rewrite Z.testbit_ones_nonneg by lia.
Qed.

Lemma small_bit w v n : 0 < w -> 0 <= v < 2 ^ w -> w <= n -> Z.testbit v n = false.
Proof.
  intros Hw Hv Hn. rewrite <- (Z.mod_small v (2 ^ w)), <- Z.land_ones, Z.land_spec by lia.
  rewrite Z.testbit_ones_nonneg, (proj2 (Z.ltb_ge n w)) by lia. apply andb_false_r.
Qed.

(** The bits of a byte after one of its fields has been set. *)
Lemma field_set_bit w b r v n :
  0 < w -> 0 <= r -> w * r + w <= 8 -> 0 <= v < 2 ^ w -> 0 <= n < 8 ->
  Z.testbit (field_set w b r v) n =
    if (w * r <=? n) && (n <? w * r + w) then Z.testbit v (n - w * r) else Z.testbit b n.
Proof.
  intros Hw Hr H8 Hv Hn. unfold field_set. rewrite u8_bit, Z.lor_spec, u8_bit, Z.land_spec, Z.lnot_spec by lia.
  rewrite !Z.shiftl_spec by lia. rewrite (proj2 (Z.ltb_lt n 8)) by lia. rewrite !andb_true_r.
  replace (2 ^ w - 1) with (Z.ones w) by (rewrite Z.ones_equiv; lia).
  destruct (Z.leb_spec (w * r) n) as [H1|H1]; cbn [andb].
  - rewrite Z.testbit_ones_nonneg by lia. destruct (Z.ltb_spec n (w * r + w)) as [H2|H2].
    + rewrite (proj2 (Z.ltb_lt (n - w * r) w)) by lia. by rewrite andb_false_r.
    + rewrite (proj2 (Z.ltb_ge (n - w * r) w)) by lia. rewrite (small_bit w v) by lia.
      by rewrite andb_true_r, orb_false_r.
  - rewrite !(Z.testbit_neg_r _ (n - w * r)) by lia. by rewrite andb_true_r, orb_false_r.
Qed.

Lemma field_get_set w b r v :
  0 < w -> 0 <= r -> w * r + w <= 8 -> 0 <= v < 2 ^ w -> field_get w (field_set w b r v) r = v.
Proof.
  intros Hw Hr H8 Hv. apply Z.bits_inj'. intros n Hn. unfold field_get. rewrite field_bit, Z.shiftr_spec by lia.
  destruct (Z.ltb_spec n w) as [H|H].
  - rewrite field_set_bit by lia. rewrite (proj2 (Z.leb_le _ _)), (proj2 (Z.ltb_lt _ _)) by lia.
    cbn [andb]. rewrite andb_true_r. f_equal. lia.
  - rewrite andb_false_r. symmetry. by apply (small_bit w).
Qed.

Lemma field_get_other w b r r' v :
  0 < w -> 0 <= r -> 0 <= r' -> w * r + w <= 8 -> w * r' + w <= 8 -> 0 <= v < 2 ^ w -> r <> r' ->
  field_get w (field_set w b r v) r' = field_get w b r'.
Proof.
  intros Hw Hr Hr' H8 H8' Hv Hne. apply Z.bits_inj'. intros n Hn. unfold field_get.
  rewrite !field_bit, !Z.shiftr_spec by lia. destruct (Z.ltb_spec n w) as [H|H]; [|by rewrite !andb_false_r].
  rewrite field_set_bit by lia. rewrite !andb_true_r.
  assert (n + w * r' < w * r \/ w * r + w <= n + w * r') as [Hlt|Hge].
  { destruct (Z.lt_total r r') as [?|[?|?]]; [right|done|left]; nia. }
  - rewrite (proj2 (Z.leb_gt _ _)) by lia. done.
  - rewrite (proj2 (Z.ltb_ge _ _)) by lia. by rewrite andb_false_r.
Qed.

(** ** Blocks *)

(** Fields of less than a byte. *)
Definition bits_get (w : Z) (t : list Z) (i : Z) : option Z :=
  b ← t !! Z.to_nat (i / (8 / w)); Some (field_get w b (i mod (8 / w))).
Definition bits_set (w : Z) (t : list Z) (i v : Z) : option (list Z) :=
  b ← t !! Z.to_nat (i / (8 / w)); Some (<[Z.to_nat (i / (8 / w)) := field_set w b (i mod (8 / w)) v]> t).

Lemma bits_roundtrip w t i v t' :
  w = 1 \/ w = 2 \/ w = 4 -> 0 <= i -> 0 <= v < 2 ^ w -> bits_set w t i v = Some t' ->
  bits_get w t' i = Some v /\ length t' = length t /\
  forall j, 0 <= j -> j <> i -> bits_get w t' j = bits_get w t j.
Proof.
  intros Hw Hi Hv H. unfold bits_set in H. set (p := 8 / w) in *.
  assert (0 < w /\ w * p = 8) as [Hw0 Hp] by (unfold p; destruct Hw as [->|[->| ->]]; split; done).
  destruct (t !! Z.to_nat (i / p)) as [b|] eqn:Hb; [|done]. cbn [mbind option_bind] in H. injection H as <-.
  pose proof (lookup_lt_Some _ _ _ Hb) as Hlt. assert (0 < p) as Hp0 by nia.
  assert (forall j, w * (j mod p) + w <= 8) as Hr by (intros j; pose proof (Z.mod_pos_bound j p Hp0); nia).
  pose proof (Z.mod_pos_bound i p Hp0) as Hmi. unfold bits_get. fold p. split; [|split; [apply length_insert|]].
  - rewrite list_lookup_insert_eq by done. cbn [mbind option_bind]. f_equal.
    apply field_get_set; [done|lia|apply Hr|done].
  - intros j Hj Hne. pose proof (Z.mod_pos_bound j p Hp0) as Hmj. destruct (decide (i / p = j / p)) as [E|E].
    + rewrite <- E, list_lookup_insert_eq, Hb by done. cbn [mbind option_bind]. f_equal.
      apply field_get_other; [done|lia|lia|apply Hr|apply Hr|done|].
      intros Em. apply Hne. rewrite (Z.div_mod j p), (Z.div_mod i p) by lia. by rewrite E, Em.
    + rewrite list_lookup_insert_ne; [done|]. intros En. apply E.
      pose proof (Z.div_pos i p). pose proof (Z.div_pos j p). lia.
Qed.

(** Fields of whole bytes. *)
Definition wide_get (n : nat) (t : list Z) (i : Z) : option Z :=
  b ← bget t (Z.to_nat (Z.of_nat n * i)) n; Some (be_dec b).
Definition wide_set (n : nat) (t : list Z) (i v : Z) : option (list Z) :=
  bset t (Z.to_nat (Z.of_nat n * i)) (be_enc n v).

Lemma wide_roundtrip n t i v t' :
  (0 < n)%nat -> 0 <= i -> 0 <= v < 256 ^ Z.of_nat n -> wide_set n t i v = Some t' ->
  wide_get n t' i = Some v /\ length t' = length t /\
  forall j, 0 <= j -> j <> i -> wide_get n t' j = wide_get n t j.
Proof.
  intros Hn Hi Hv H. unfold wide_set in H. pose proof (be_enc_length n v) as L. split; [|split].
  - apply bget_bset in H. rewrite L in H. unfold wide_get. rewrite H. cbn [mbind option_bind]. by rewrite be_dec_enc.
  - by eapply bset_length.
  - intros j Hj Hne. unfold wide_get. pose proof (bset_length _ _ _ _ H) as Ll. unfold bget. rewrite Ll.
    assert (Z.of_nat n * i + Z.of_nat n <= Z.of_nat n * j \/ Z.of_nat n * j + Z.of_nat n <= Z.of_nat n * i) as Hd.
    { destruct (Z.lt_total i j) as [?|[?|?]]; [left|lia|right]; nia. }
    case_decide as Hin; [|done]. f_equal. f_equal. apply list_eq. intros k. rewrite !lookup_take, !lookup_drop.
    case_decide; [|done]. rewrite (lookup_bset _ _ _ _ _ H), L. repeat case_decide; try done; lia.
Qed.

Lemma wide_get_1 t i : wide_get 1 t i = t !! Z.to_nat i.
Proof.
  unfold wide_get, bget. rewrite Z.mul_1_l. case_decide as H.
  - destruct (lookup_lt_is_Some_2 t (Z.to_nat i)) as [b Hb]; [lia|]. rewrite Hb.
    by rewrite (drop_S t b (Z.to_nat i)) by done.
  - symmetry. apply lookup_ge_None. lia.
Qed.

Lemma get_refcount_bits order w t i :
  (order = 0 /\ w = 1) \/ (order = 1 /\ w = 2) \/ (order = 2 /\ w = 4) -> get_refcount order t i = bits_get w t i.
Proof.
  unfold bits_get, field_get. intros [[-> ->]|[[-> ->]|[-> ->]]]; unfold get_refcount; cbn [Z.eqb Pos.eqb];
    [change (8 / 1) with 8|change (8 / 2) with 4|change (8 / 4) with 2]; rewrite ?Z.mul_1_l; done.
Qed.

Lemma get_refcount_wide order n t i :
  (order = 3 /\ n = 1%nat) \/ (order = 4 /\ n = 2%nat) \/ (order = 5 /\ n = 4%nat) -> get_refcount order t i = wide_get n t i.
Proof. intros [[-> ->]|[[-> ->]|[-> ->]]]; [by rewrite wide_get_1|done|done]. Qed.

Lemma shiftr_0_bound v w : 0 <= v -> 0 <= w -> Z.shiftr v w = 0 -> v < 2 ^ w.
Proof.
  intros Hv Hw H. rewrite Z.shiftr_div_pow2 in H by done. pose proof (Z.pow_pos_nonneg 2 w ltac:(lia) Hw).
  apply Z.div_small_iff in H; lia.
Qed.

(** What [set_refcount] does, by the width of the counts. *)
Lemma set_refcount_cases order t i v t' :
  0 <= v -> set_refcount order t i v = Some t' ->
  (exists w, ((order = 0 /\ w = 1) \/ (order = 1 /\ w = 2) \/ (order = 2 /\ w = 4)) /\ v < 2 ^ w /\ bits_set w t i v = Some t') \/
  (exists n, ((order = 3 /\ n = 1%nat) \/ (order = 4 /\ n = 2%nat) \/ (order = 5 /\ n = 4%nat)) /\
     v < 256 ^ Z.of_nat n /\ wide_set n t i v = Some t').
Proof.
  intros Hv H. unfold set_refcount in H.
  destruct ((64 <=? Z.shiftl 1 order) || negb (Z.shiftr v (Z.shiftl 1 order) =? 0)) eqn:E; [done|].
  apply orb_false_iff in E as [E1 E2].
  apply negb_false_iff, Z.eqb_eq in E2.
  assert (v < 2 ^ Z.shiftl 1 order) as Hb by (apply shiftr_0_bound; [done|by apply Z.shiftl_nonneg|done]).
  destruct (Z.eqb_spec order 0) as [->|]; [left; exists 1|destruct (Z.eqb_spec order 1) as [->|];
    [left; exists 2|destruct (Z.eqb_spec order 2) as [->|]; [left; exists 4|]]].
  1-3: split; [tauto|split; [exact Hb|]];
    unfold bits_set, field_set; unfold set_bits in H; rewrite ?Z.mul_1_l; exact H.
  destruct (Z.eqb_spec order 3) as [->|]; [right; exists 1%nat|destruct (Z.eqb_spec order 4) as [->|];
    [right; exists 2%nat|destruct (Z.eqb_spec order 5) as [->|]; [right; exists 4%nat|]]].
  1-3: split; [tauto|split; [exact Hb|]];
    unfold wide_set; rewrite ?Z.mul_1_l; exact H.
  destruct (Z.eqb_spec order 6) as [->|]; [|done]. cbn in E1. done.
Qed.

(** the count that [set_refcount] stores is the one [get_refcount] finds,
    for every width the format allows (a bit to 32 bits, packed in bytes or in
    big-endian words); every other count of the block keeps its value, and the
    block its length. *)
Theorem refcount_set_get (order : Z) (rcblock rcblock' : list Z) (index value : Z)
  (Hi : 0 <= index) (Hv : 0 <= value) (H : set_refcount order rcblock index value = Some rcblock') :
  get_refcount order rcblock' index = Some value /\ length rcblock' = length rcblock /\
  forall j, 0 <= j -> j <> index -> get_refcount order rcblock' j = get_refcount order rcblock j.
Proof.
  destruct (set_refcount_cases _ _ _ _ _ Hv H) as [(w & Hw & Hb & E)|(n & Hn & Hb & E)].
  - destruct (bits_roundtrip w rcblock index value rcblock') as (G & L & F); [lia|done|lia|done|].
    rewrite (get_refcount_bits order w) by done. split_and!; try done. intros j Hj Hne.
    rewrite !(get_refcount_bits order w) by done. by apply F.
  - destruct (wide_roundtrip n rcblock index value rcblock') as (G & L & F); [lia|done|lia|done|].
    rewrite (get_refcount_wide order n) by done. split_and!; try done. intros j Hj Hne.
    rewrite !(get_refcount_wide order n) by done. by apply F.
Qed.

Lemma refcount_set_get_witness :
  exists t', set_refcount 1 [0x1b; 0xe4] 5 2 = Some t' /\ t' = [0x1b; 0xe8] /\
    get_refcount 1 t' 5 = Some 2 /\ get_refcount 1 t' 4 = Some 0.
Proof.
  exists [0x1b; 0xe8]. destruct (refcount_set_get 1 [0x1b; 0xe4] [0x1b; 0xe8] 5 2) as (G & _ & F);
    [lia|lia|reflexivity|]. split; [reflexivity|]. split; [reflexivity|]. split; [exact G|]. rewrite F by lia. reflexivity.
Defined.

(** ** Allocation by the counts *)

Section alloc.
Context {B : Type}.
Implicit Types s : qcow_state B.

(** The count of the cluster at [o], as the file has it; [None] outside the
    table. *)
Definition file_count s (o : Z) : option Z :=
  let '(rc_index, refblock_index) := rc_place (q_info s) o in
  e ← get64 (refcount_table s) rc_index;
  if e =? 0 then Some 0
  else get_refcount (refcount_order (q_info s)) (read_at (i_file (q_img s)) e (cluster_size (q_info s))) refblock_index.

(** An open image of version 2 whose blocks of counts are in the file, for the
    next [k] lookups. *)
Record rcwf (k : Z) s : Prop := {
  rw_out : i_out (q_img s) = [];
  rw_cb : 9 <= cluster_bits (q_info s) <= 16;
  rw_order : 0 <= refcount_order (q_info s) <= 6;
  rw_cache : cache_ok (i_file (q_img s)) (cluster_size (q_info s)) (fun _ => True) k (rc_cache s);
  rw_block : forall i e, get64 (refcount_table s) i = Some e -> e <> 0 ->
    0 < e < 2 ^ 63 /\ e + cluster_size (q_info s) <= Z.of_nat (length (i_file (q_img s)))
}.

Lemma qcow2_get_refcount_ok k s o rc :
  rcwf k s -> 0 < k -> file_count s o = Some rc ->
  exists ch, qcow2_get_refcount s o = Some (rc, set_rcc s ch) /\ rcwf (k - 1) (set_rcc s ch).
Proof.
  intros W Hk Hc. unfold file_count in Hc. unfold qcow2_get_refcount.
  destruct (rc_place (q_info s) o) as [ri bi]. destruct (get64 (refcount_table s) ri) as [e|] eqn:Ee; [|done].
  cbn [mbind option_bind] in *. assert (rcwf (k - 1) s) as Ww.
  { destruct W. split; try done. eapply cache_ok_weaken; [done|lia]. }
  destruct (Z.eqb_spec e 0) as [->|Hne].
  { simplify_eq. exists (rc_cache s). replace (set_rcc s (rc_cache s)) with s by (by destruct s). done. }
  destruct (rw_block _ _ W ri e Ee Hne) as [He1 He2].
  assert (0 <= cluster_size (q_info s)) as Hcs.
  { unfold cluster_size. apply Z.shiftl_nonneg. lia. }
  destruct (cache_lookup_ok _ _ _ k (rc_cache s) e (rw_cache _ _ W)) as (i & ch & El & _ & Hd & C); [done..|].
  assert (q_img s = Img (i_file (q_img s)) []) as Ei by (pose proof (rw_out _ _ W); destruct (q_img s); cbn in *; by subst).
  unfold rc_cache_lookup. rewrite Ei, El. cbn [mbind option_bind]. rewrite <- Ei.
  change (rc_cache (set_rcc _ ch)) with ch. rewrite Hd. cbn [mbind option_bind].
  change (q_info (set_rcc _ ch)) with (q_info s). rewrite Hc. cbn [mbind option_bind].
  exists ch. split; [done|]. destruct W. by split.
Qed.

Lemma file_count_rcc s ch o : file_count (set_rcc s ch) o = file_count s o.
Proof. done. Qed.

Lemma find_free_ok n : forall fuel k s start,
  rcwf k s -> Z.of_nat n < k -> (n < fuel)%nat -> 0 <= start ->
  start + Z.of_nat (S n) * cluster_size (q_info s) <= 2 ^ 62 -> 0 <= cluster_size (q_info s) ->
  (forall i, (i < n)%nat -> exists rc, file_count s (start + Z.of_nat i * cluster_size (q_info s)) = Some rc /\ rc <> 0) ->
  file_count s (start + Z.of_nat n * cluster_size (q_info s)) = Some 0 ->
  exists ch, find_free fuel s start = Some (start + Z.of_nat n * cluster_size (q_info s), set_rcc s ch) /\
    rcwf (k - Z.of_nat (S n)) (set_rcc s ch).
Proof.
  induction n as [|n IH]; intros fuel k s start W Hk Hf Hs Hmax Hcs Hused Hfree.
  - destruct fuel as [|fuel]; [lia|]. cbn [find_free]. replace (start + Z.of_nat 0 * _) with start in * by lia.
    destruct (qcow2_get_refcount_ok k s start 0 W) as (ch & -> & W'); [lia|done|]. cbn [mbind option_bind Z.eqb].
    by exists ch.
  - destruct fuel as [|fuel]; [lia|]. cbn [find_free].
    destruct (Hused 0%nat) as (rc & Hrc & Hne); [lia|]. replace (start + Z.of_nat 0 * _) with start in Hrc by lia.
    destruct (qcow2_get_refcount_ok k s start rc W) as (ch & -> & W'); [lia|done|]. cbn [mbind option_bind].
    rewrite (proj2 (Z.eqb_neq rc 0)) by done. change (q_info (set_rcc s ch)) with (q_info s).
    set (cs := cluster_size (q_info s)) in *. rewrite u64_small by lia.
    destruct (IH fuel (k - 1) (set_rcc s ch) (start + cs)) as (ch' & E & W''); change (q_info (set_rcc s ch)) with (q_info s);
      fold cs; try done; try lia.
    { intros i Hi. destruct (Hused (S i)) as (rc' & H' & ?); [lia|]. exists rc'. split; [|done].
      rewrite file_count_rcc, <- H'. f_equal. lia. }
    { rewrite file_count_rcc, <- Hfree. f_equal. lia. }
    change (q_info (set_rcc s ch)) with (q_info s) in E. fold cs in E. exists ch'. rewrite E. split; [do 2 f_equal; lia|]. replace (k - Z.of_nat (S (S n))) with (k - 1 - Z.of_nat (S n)) by lia. exact W''.
Qed.

(** A cluster that the table covers is found before the fuel ends. *)
Lemma covered_bound s start n rc :
  9 <= cluster_bits (q_info s) <= 16 -> 0 <= refcount_order (q_info s) <= 6 -> 0 <= start ->
  file_count s (start + Z.of_nat n * cluster_size (q_info s)) = Some rc ->
  (n < S (length (refcount_table s) * Z.to_nat (Z.shiftl 1 (refcount_bits (q_info s)))))%nat.
Proof.
  intros Hcb Hro Hs Hc. unfold file_count, rc_place in Hc.
  set (rb := refcount_bits (q_info s)) in *. set (cb := cluster_bits (q_info s)) in *.
  assert (0 <= rb) as Hrb by (unfold rb, refcount_bits; fold cb; lia).
  unfold cluster_size in Hc. fold cb in Hc. rewrite !Z.shiftl_1_l in *. rewrite !Z.shiftr_div_pow2 in Hc by lia.
  set (x := start + Z.of_nat n * 2 ^ cb) in *.
  destruct (get64 (refcount_table s) (x / 2 ^ (cb + rb))) as [e|] eqn:Ee; [|done]. clear Hc.
  unfold get64, bget in Ee. case_decide as Hd; [|done]. clear Ee.
  pose proof (Z.pow_pos_nonneg 2 cb ltac:(lia) ltac:(lia)) as P1.
  pose proof (Z.pow_pos_nonneg 2 rb ltac:(lia) Hrb) as P2.
  assert (0 <= x / 2 ^ (cb + rb)) as Hx0 by (apply Z.div_pos; [unfold x; nia|apply Z.pow_pos_nonneg; lia]).
  rewrite Z.pow_add_r, <- Z.div_div in Hd, Hx0 by lia.
  assert (Z.of_nat n <= x / 2 ^ cb) as Hn by (apply Z.div_le_lower_bound; [done|unfold x; nia]).
  set (y := x / 2 ^ cb) in *. pose proof (Z.div_mod y (2 ^ rb) ltac:(lia)) as D.
  pose proof (Z.mod_pos_bound y (2 ^ rb) P2) as M.
  assert (y / 2 ^ rb + 1 <= Z.of_nat (length (refcount_table s))) as Hl by lia.
  assert (y < Z.of_nat (length (refcount_table s)) * 2 ^ rb) by nia.
  apply Nat2Z.inj_lt. rewrite Nat2Z.inj_succ, Nat2Z.inj_mul, Z2Nat.id by lia. lia.
Qed.

(** allocating a cluster in an image of version 2 takes the first one from
    [first_free_cluster] on that has no references, and no other: given that the
    clusters before it are counted, the search ends there (it does not run out
    of its fuel), exactly that cluster is filled with zeros, every byte of the
    file outside it stays, and the next search starts behind it. *)
Theorem qcow2_block_alloc_first_free (k : Z) s (n : nat)
  (W : rcwf k s) (Hk : Z.of_nat n < k) (H0 : 0 <= first_free_cluster s)
  (Hmax : first_free_cluster s + Z.of_nat (S n) * cluster_size (q_info s) <= 2 ^ 62)
  (Hused : forall i, (i < n)%nat -> exists rc,
     file_count s (first_free_cluster s + Z.of_nat i * cluster_size (q_info s)) = Some rc /\ rc <> 0)
  (Hfree : file_count s (first_free_cluster s + Z.of_nat n * cluster_size (q_info s)) = Some 0) :
  let o := first_free_cluster s + Z.of_nat n * cluster_size (q_info s) in
  exists s', qcow2_block_alloc s (cluster_size (q_info s)) = Some (o, s') /\
    first_free_cluster s' = o + cluster_size (q_info s) /\
    read_at (i_file (q_img s')) o (cluster_size (q_info s)) = zeros (Z.to_nat (cluster_size (q_info s))) /\
    (forall a m, 0 <= a -> a + m <= Z.of_nat (length (i_file (q_img s))) -> disj o (cluster_size (q_info s)) a m ->
       read_at (i_file (q_img s')) a m = read_at (i_file (q_img s)) a m).
Proof.
  intros o. assert (0 <= cluster_size (q_info s)) as Hcs.
  { unfold cluster_size. apply Z.shiftl_nonneg. lia. }
  pose proof (covered_bound s _ n 0 (rw_cb _ _ W) (rw_order _ _ W) H0 Hfree) as Hfuel.
  destruct (find_free_ok n _ k s (first_free_cluster s) W Hk Hfuel H0 Hmax Hcs Hused Hfree) as (ch & E & W').
  unfold qcow2_block_alloc. rewrite Z.eqb_refl. cbn [negb]. rewrite E. cbn [mbind option_bind]. fold o.
  assert (q_img (set_rcc s ch) = Img (i_file (q_img s)) []) as ->
    by (pose proof (rw_out _ _ W); destruct s as [? [? ?]]; cbn in *; by subst).
  cbn [next_out i_out Z.eqb negb i_file]. set (cs := cluster_size (q_info s)) in *.
  pose proof (length_grow (i_file (q_img s)) (Z.to_nat o)) as Lg.
  assert (0 <= o /\ o + cs <= 2 ^ 62) as [Ho1 Ho2] by (unfold o; nia).
  eexists. split; [reflexivity|]. cbn [first_free_cluster set_ffc q_img set_img i_file]. split_and!.
  - apply u64_small. lia.
  - apply read_at_same; [lia|lia|]. rewrite length_zeros. lia.
  - intros a m Ha Hm Hd. apply list_eq. intros i. rewrite !lookup_read_at. case_decide as Hi; [|done].
    rewrite lookup_write_at, length_zeros by lia. unfold disj in Hd.
    repeat case_decide; try lia; rewrite lookup_grow, decide_True by lia; done.
Qed.
End alloc.

(** Three clusters are in use: the header, the block of counts and one more. *)
Definition demo2_counts : list Z := be_enc 2 1 ++ be_enc 2 1 ++ be_enc 2 1 ++ zeros 506.
Definition demo2_file : list Z := zeros 512 ++ demo2_counts ++ replicate 512 9.
Definition demo2_state : qcow_state img :=
  QSt (QInfo true 4096 9 6 1 512 QCOW2_OFLAG_COMPRESSED QCOW2_OFLAG_COPIED (2 ^ 63 - 2) 0 1 4)
    (Img demo2_file []) (zeros 8) (Cache [] [] []) [] 0 None (be_enc 8 512)
    (Cache (replicate 16 (zeros 512)) (replicate 16 0) (replicate 16 0)) 0.

Lemma qcow2_block_alloc_first_free_witness :
  exists s', qcow2_block_alloc demo2_state 512 = Some (1536, s') /\ first_free_cluster s' = 2048 /\
    read_at (i_file (q_img s')) 1536 512 = zeros 512 /\ read_at (i_file (q_img s')) 1024 512 = replicate 512 9.
Proof.
  destruct (qcow2_block_alloc_first_free 10 demo2_state 3) as (s' & E & F & Z1 & K).
  - split; [done|cbn; lia|cbn; lia| |].
    + split; cbn [c_data c_offs c_cnts demo2_state rc_cache]; try by rewrite length_replicate.
      * intros i d [-> _]%lookup_replicate. reflexivity.
      * intros i n [-> _]%lookup_replicate. split; [lia|reflexivity].
      * by intros i o [-> _]%lookup_replicate Hn.
      * by intros i j o [-> _]%lookup_replicate _ Hn.
    + intros i e Hg Hne. unfold get64, bget in Hg. cbn [demo2_state refcount_table] in Hg. case_decide as Hd; [|done].
      change (length (be_enc 8 512)) with 8%nat in Hd. replace (Z.to_nat (8 * i)) with 0%nat in Hg by lia.
      cbv in Hg. injection Hg as <-. split; [lia|]. vm_compute. congruence.
  - lia.
  - done.
  - vm_compute. congruence.
  - intros i Hi. exists 1. split; [|done]. destruct i as [|[|[|i]]]; [reflexivity..|lia].
  - reflexivity.
  - exists s'. split; [exact E|]. split; [exact F|]. split; [exact Z1|].
    rewrite K; [reflexivity|lia|vm_compute; congruence|]. right. vm_compute. congruence.
Defined.
