(* ===== verification/RbdLock.v ===== *)
(** * The lock of the RBD handler

    The callouts [lock], [unlock] and [get_lock_tag] of [rbd.c]: an exclusive
    lock of the image and a piece of its metadata that says for which port group
    it was taken.  librbd is a parameter: the class [LockApi] has the calls and
    [LockLaws] what they are documented to do to the holder of the lock, the
    metadata and the clients that the cluster fences. *)

From S2P Require Import Prelude Scsi Device Rdev Configfs Target ConfigThm.

Definition ENOENT : Z := 2.
Definition ENOMEM : Z := 12.
Definition ESHUTDOWN : Z := 108.
Definition ETIMEDOUT : Z := 110.

Definition TCMU_RBD_LOCKER_TAG_KEY : list Z := str "tcmu_rbd_locker_tag".
Definition TCMU_RBD_LOCKER_BUF_LEN : nat := 256.

(** [R] is the cluster and [C] a client of it.  [rbd_lock_get_owners] is asked
    for one owner: the result, the mode of the lock, the owner if there is one. *)
Class LockApi (R C : Type) := {
  RBD_LOCK_MODE_EXCLUSIVE : Z;
  rbd_is_exclusive_lock_owner : R -> C -> Z * bool;
  rbd_lock_get_owners : R -> C -> Z * Z * option (list Z);
  rbd_lock_break : R -> C -> list Z -> R * Z;
  rbd_lock_acquire : R -> C -> R * Z;
  rbd_lock_release : R -> C -> R * Z;
  rbd_metadata_get : R -> C -> list Z -> nat -> Z * list Z;
  rbd_metadata_set : R -> C -> list Z -> list Z -> R * Z
}.

(** ** The text of the tag *)

(** [src tcmu-runner/rbd.c 79-79 TCMU_RBD_LOCKER_TAG_FMT] *)
Definition tag_text (tag : Z) (owner : list Z) : list Z :=
  str "tcmu_tag=" ++ dec (u16 tag) ++ str ",rbd_client=" ++ owner.

(** The tag in the metadata when its client is the owner, or an error.
    [src tcmu-runner/rbd.c 613-641 tcmu_rbd_get_lock_tag] *)
Definition parse_tag (buf owner : list Z) : Z + Z :=
  match strstr (str "rbd_client=") buf with
  | None => inl (- ENOENT)
  | Some m =>
      if negb (bool_decide (drop 11 m = owner)) then inl (- ENOENT)
      else
        match scan_lit (str "tcmu_tag=") buf ≫= scan_num with
        | None => inl (- ENOENT)
        | Some (v, _) => inr (u16 v)
        end
  end.

(** *** What comes back *)

Lemma starts_with_app p t : starts_with p (p ++ t) = true.
Proof. induction p as [|a p IH]; [done|]. cbn. by rewrite Z.eqb_refl, IH. Qed.

Lemma strstr_skip c p pre t : Forall (fun x => x <> c) pre -> strstr (c :: p) (pre ++ (c :: p) ++ t) = Some ((c :: p) ++ t).
Proof.
  induction 1 as [|x pre Hx _ IH].
  - cbn [app strstr]. by rewrite (starts_with_app (c :: p) t : starts_with (c :: p) (c :: p ++ t) = true).
  - cbn [app strstr starts_with]. rewrite (proj2 (Z.eqb_neq c x)) by congruence. exact IH.
Qed.

Lemma digits_not_r n : 0 <= n < 2 ^ 64 -> Forall (fun x => x <> 114) (dec n).
Proof.
  intros Hn. eapply Forall_impl; [by apply dec_digits|]. cbn beta. unfold is_digit. intros x Hx ->. done.
Qed.

Lemma digits_val_app l acc v t : digits_val acc l = (v, []) -> (forall c u, t = c :: u -> is_digit c = false) ->
  digits_val acc (l ++ t) = (v, t).
Proof.
  revert acc. induction l as [|c l IH]; intros acc Hl Ht; cbn [digits_val app] in *.
  - injection Hl as ->. destruct t as [|c u]; [done|]. cbn. by rewrite (Ht c u).
  - destruct (is_digit c); [by apply IH|done].
Qed.

Lemma scan_num_dec n t : 0 <= n < 2 ^ 64 -> (forall c u, t = c :: u -> is_digit c = false) ->
  scan_num (dec n ++ t) = Some (n, t).
Proof.
  intros Hn Ht. pose proof (dec_digits n Hn) as Hd. pose proof (digits_val_dec n Hn) as Hv.
  pose proof (digits_val_app _ _ _ _ Hv Ht) as Ha. destruct (dec n) as [|c l] eqn:E; [by destruct (dec_nonempty n)|].
  inversion Hd as [|? ? Hc _]; subst. cbn [app] in *. unfold scan_num, strtoul. cbv zeta.
  assert (skip_space (c :: l ++ t) = c :: l ++ t) as Hs.
  { unfold is_digit in Hc. cbn. unfold is_space. destruct (Z.leb_spec 48 c); [|done].
    rewrite (proj2 (Z.eqb_neq c 32)), (proj2 (Z.leb_gt c 13)) by lia. by rewrite andb_false_r. }
  assert (c <> 43 /\ c <> 45) as [H1 H2] by (unfold is_digit in Hc; destruct (Z.leb_spec 48 c); [lia|done]).
  pose proof (proj2 (Z.eqb_neq c 43) H1) as H1'. pose proof (proj2 (Z.eqb_neq c 45) H2) as H2'.
  rewrite Hs. cbv iota beta. rewrite H1', H2'. cbn [orb]. cbv iota beta zeta.
  rewrite Hc, !Hs, H2'. cbv iota beta. rewrite H1'. cbv iota beta. rewrite Hc, Ha. cbv iota beta. change (u64 (-1)) with 18446744073709551615.
  by rewrite (proj2 (Z.ltb_ge 18446744073709551615 n)) by lia.
Qed.

(** A tag is read back for the client it was written for and for no other. *)
Lemma parse_tag_text t o o' : parse_tag (tag_text t o) o' = if decide (o = o') then inr (u16 t) else inl (- ENOENT).
Proof.
  assert (0 <= u16 t < 2 ^ 64) as Ht by (unfold u16, wrap; pose proof (Z.mod_pos_bound t (2 ^ 16)); lia).
  unfold parse_tag, tag_text.
  assert (strstr (str "rbd_client=") (str "tcmu_tag=" ++ dec (u16 t) ++ str ",rbd_client=" ++ o) = Some (str "rbd_client=" ++ o)) as ->.
  { change (str ",rbd_client=" ++ o) with ([44] ++ str "rbd_client=" ++ o). rewrite !app_assoc, <- (app_assoc _ (str "rbd_client=")).
    apply (strstr_skip 114). rewrite !Forall_app. split; [split|]; [|by apply digits_not_r|]; repeat constructor; done. }
  change (drop 11 (str "rbd_client=" ++ o)) with o. unfold scan_lit. rewrite starts_with_app.
  rewrite drop_app_length. cbn [mbind option_bind].
  change (str ",rbd_client=" ++ o) with (44 :: str "rbd_client=" ++ o).
  rewrite scan_num_dec by first [done|intros c u E; by injection E as <- _].
  case_bool_decide as E; cbn [negb]; [rewrite decide_True by done|by rewrite decide_False].
  f_equal. unfold u16, wrap. by rewrite Z.mod_mod.
Qed.

Section lock.
Context {R C : Type} {HL : LockApi R C}.

(** [src tcmu-runner/rbd.c tcmu_rbd_to_sts] *)
Definition tcmu_rbd_to_sts (rc : Z) : tcmu_sts :=
  if rc =? 0 then TCMU_STS_OK
  else if rc =? - ESHUTDOWN then TCMU_STS_FENCED
  else if rc =? - ENOENT then TCMU_STS_NO_LOCK_HOLDERS
  else if rc =? - ETIMEDOUT then TCMU_STS_TIMEOUT
  else if rc =? - ENOMEM then TCMU_STS_NO_RESOURCE
  else TCMU_STS_HW_ERR.

(** [src tcmu-runner/rbd.c tcmu_rbd_has_lock] *)
Definition tcmu_rbd_has_lock (r : R) (c : C) : Z :=
  let '(ret, is_owner) := rbd_is_exclusive_lock_owner r c in
  if (ret =? - ESHUTDOWN) || (ret =? - ETIMEDOUT) then ret
  else if ret <? 0 then - EIO
  else if is_owner : bool then 1 else 0.

(** What the owners of the lock say about breaking it: done with a result, or
    the owner to break it from.  [None]: an owner that was not returned is
    used.
    [src tcmu-runner/rbd.c 538-555 tcmu_rbd_lock_break] *)
Definition whom_to_break (x : Z * Z * option (list Z)) : option (Z + list Z) :=
  let '(ret, mode, owner) := x in
  if (ret =? - ENOENT) || ((ret =? 0) && match owner with None => true | Some _ => false end) then Some (inl 0)
  else if ret <? 0 then Some (inl ret)
  else if negb (mode =? RBD_LOCK_MODE_EXCLUSIVE) then Some (inl (- EIO))
  else o ← owner; Some (inr o).

(** [src tcmu-runner/rbd.c tcmu_rbd_lock_break] *)
Definition tcmu_rbd_lock_break (r : R) (c : C) : option (R * Z) :=
  w ← whom_to_break (rbd_lock_get_owners r c);
  Some (match w with inl ret => (r, ret) | inr o => rbd_lock_break r c o end).

(** After the metadata was read.
    [src tcmu-runner/rbd.c 602-648 tcmu_rbd_get_lock_tag] *)
Definition tag_of_owner (buf : list Z) (r : R) (c : C) : tcmu_sts * option Z :=
  let '(ret, _, owner) := rbd_lock_get_owners r c in
  if negb (ret =? 0) then (tcmu_rbd_to_sts ret, None)
  else match owner with
  | None => (tcmu_rbd_to_sts (- ENOENT), None)
  | Some o => match parse_tag buf o with
              | inl ret => (tcmu_rbd_to_sts ret, None)
              | inr tag => (TCMU_STS_OK, Some tag)
              end
  end.

(** [src tcmu-runner/rbd.c tcmu_rbd_get_lock_tag] *)
Definition tcmu_rbd_get_lock_tag (r : R) (c : C) : tcmu_sts * option Z :=
  let '(ret, buf) := rbd_metadata_get r c TCMU_RBD_LOCKER_TAG_KEY TCMU_RBD_LOCKER_BUF_LEN in
  if negb (ret =? 0) then (tcmu_rbd_to_sts ret, None) else tag_of_owner buf r c.

(** The owner whose name goes into the metadata.
    [src tcmu-runner/rbd.c 667-674 tcmu_rbd_set_lock_tag] *)
Definition whom_to_name (x : Z * Z * option (list Z)) : Z + list Z :=
  let '(ret, _, owner) := x in
  if negb (ret =? 0) then inl ret else match owner with None => inl (- ENOENT) | Some o => inr o end.

(** [src tcmu-runner/rbd.c tcmu_rbd_set_lock_tag] *)
Definition tcmu_rbd_set_lock_tag (asprintf_ok : bool) (r : R) (c : C) (tag : Z) : R * Z :=
  match whom_to_name (rbd_lock_get_owners r c) with
  | inl ret => (r, ret)
  | inr o => if asprintf_ok then rbd_metadata_set r c TCMU_RBD_LOCKER_TAG_KEY (tag_text tag o) else (r, - ENOMEM)
  end.

(** [src tcmu-runner/rbd.c tcmu_rbd_unlock] *)
Definition tcmu_rbd_unlock (r : R) (c : C) : R * tcmu_sts :=
  if negb (tcmu_rbd_has_lock r c =? 1) then (r, TCMU_STS_OK)
  else
    let '(r, ret) := rbd_lock_release r c in
    (r, tcmu_rbd_to_sts ret).

(** The status of the service is updated last; that changes nothing here.
    [src tcmu-runner/rbd.c tcmu_rbd_lock] *)
Definition tcmu_rbd_lock (asprintf_ok : bool) (r : R) (c : C) (tag : Z) : option (R * tcmu_sts) :=
  let ret := tcmu_rbd_has_lock r c in
  let set_tag r := let '(r, ret) := tcmu_rbd_set_lock_tag asprintf_ok r c tag in Some (r, tcmu_rbd_to_sts ret) in
  if ret =? 1 then set_tag r
  else if negb (ret =? 0) then Some (r, tcmu_rbd_to_sts ret)
  else
    '(r, ret) ← tcmu_rbd_lock_break r c;
    if negb (ret =? 0) then Some (r, tcmu_rbd_to_sts ret)
    else
      let '(r, ret) := rbd_lock_acquire r c in
      if negb (ret =? 0) then Some (r, tcmu_rbd_to_sts ret) else set_tag r.

(** ** The same, one call of librbd at a time *)

Inductive lock_pc := LkHas | LkOwners | LkBreak (owner : list Z) | LkAcquire | LkName | LkTag (owner : list Z) | LkDone (ret : Z).

Definition go (ret : Z) (next : lock_pc) : lock_pc := if ret =? 0 then next else LkDone ret.

Definition lock_step (asprintf_ok : bool) (tag : Z) (pc : lock_pc) (r : R) (c : C) : option (R * lock_pc) :=
  match pc with
  | LkHas => let ret := tcmu_rbd_has_lock r c in Some (r, if ret =? 1 then LkName else go ret LkOwners)
  | LkOwners => w ← whom_to_break (rbd_lock_get_owners r c);
                Some (r, match w with inl ret => go ret LkAcquire | inr o => LkBreak o end)
  | LkBreak o => let '(r, ret) := rbd_lock_break r c o in Some (r, go ret LkAcquire)
  | LkAcquire => let '(r, ret) := rbd_lock_acquire r c in Some (r, go ret LkName)
  | LkName => Some (r, match whom_to_name (rbd_lock_get_owners r c) with
                       | inl ret => LkDone ret
                       | inr o => if asprintf_ok then LkTag o else LkDone (- ENOMEM)
                       end)
  | LkTag o => let '(r, ret) := rbd_metadata_set r c TCMU_RBD_LOCKER_TAG_KEY (tag_text tag o) in Some (r, LkDone ret)
  | LkDone _ => Some (r, pc)
  end.

Fixpoint lock_steps (n : nat) (asprintf_ok : bool) (tag : Z) (pc : lock_pc) (r : R) (c : C) : option (R * lock_pc) :=
  match n with
  | O => Some (r, pc)
  | S n => '(r, pc) ← lock_step asprintf_ok tag pc r c; lock_steps n asprintf_ok tag pc r c
  end.

End lock.

(** ** What librbd promises *)

(** [lk_holder], [lk_meta]: the lock and the value of the key.  [lk_fenced]: the
    clients whose requests the cluster refuses; taking the lock from a client
    fences it.  A failed request may have been carried out. *)
Class LockLaws (R C : Type) {HL : LockApi R C} := {
  lk_holder : R -> option C;
  lk_meta : R -> option (list Z);
  lk_fenced : R -> C -> bool;
  lk_name : C -> list Z;
  lk_name_inj : forall c c', lk_name c = lk_name c' -> c = c';
  law_is_owner : forall r c, let '(ret, b) := rbd_is_exclusive_lock_owner r c in
    0 <= ret -> b = true <-> lk_holder r = Some c;
  law_owners : forall r c, let '(ret, _, o) := rbd_lock_get_owners r c in
    ret = 0 -> o = lk_name <$> lk_holder r;
  law_break : forall r c o, let '(r', _) := rbd_lock_break r c o in
    lk_meta r' = lk_meta r /\ (forall x, lk_fenced r x = true -> lk_fenced r' x = true) /\
    (lk_holder r' = lk_holder r \/
     exists h, lk_holder r = Some h /\ lk_name h = o /\ lk_holder r' = None /\ lk_fenced r' h = true);
  law_acquire : forall r c, let '(r', ret) := rbd_lock_acquire r c in
    lk_meta r' = lk_meta r /\ (forall x, lk_fenced r x = true -> lk_fenced r' x = true) /\
    (lk_holder r' = lk_holder r \/
     lk_holder r' = Some c /\ forall h, lk_holder r = Some h -> h = c \/ lk_fenced r' h = true) /\
    (ret = 0 -> lk_holder r' = Some c);
  law_release : forall r c, let '(r', _) := rbd_lock_release r c in
    lk_meta r' = lk_meta r /\ (forall x, lk_fenced r x = true -> lk_fenced r' x = true) /\
    (lk_holder r' = lk_holder r \/ lk_holder r = Some c /\ lk_holder r' = None);
  law_set : forall r c v, let '(r', ret) := rbd_metadata_set r c TCMU_RBD_LOCKER_TAG_KEY v in
    lk_holder r' = lk_holder r /\ (forall x, lk_fenced r x = true -> lk_fenced r' x = true) /\
    (lk_meta r' = lk_meta r \/ lk_meta r' = Some v /\ lk_fenced r c = false) /\
    (ret = 0 -> lk_meta r' = Some v /\ lk_fenced r c = false);
  law_get : forall r c, let '(ret, buf) := rbd_metadata_get r c TCMU_RBD_LOCKER_TAG_KEY TCMU_RBD_LOCKER_BUF_LEN in
    ret = 0 -> lk_meta r = Some buf
}.

(** ** Nodes that take the lock from each other *)

(** What a client is doing; its callouts do not overlap.  [Owner]: its last
    [lock] callout succeeded and it has not unlocked since. *)
Inductive job := Idle | Locking (tag : Z) (pc : lock_pc) | Owner (tag : Z) | Unlocking | Releasing.

(** The cluster, the clients, and the tags that each stored. *)
Record nodes (R C : Type) := Nodes { nd_r : R; nd_jobs : C -> job; nd_wrote : list (C * Z) }.
Arguments Nodes {R C}. Arguments nd_r {R C}. Arguments nd_jobs {R C}. Arguments nd_wrote {R C}.

Section nodes_sec.
Context {R C : Type} `{EqDecision C} {HL : LockApi R C} {LL : LockLaws R C}.

Definition set_job (n : nodes R C) (r : R) (c : C) (j : job) : nodes R C :=
  Nodes r (fun x => if decide (x = c) then j else nd_jobs n x) (nd_wrote n).
Definition add_tag (n : nodes R C) (c : C) (tag : Z) : nodes R C :=
  Nodes (nd_r n) (nd_jobs n) ((c, u16 tag) :: nd_wrote n).

(** One call of librbd by one client, or what the cluster does to a client that
    is gone: it is fenced and may lose the lock. *)
Inductive node_step (n : nodes R C) : nodes R C -> Prop :=
| StLock c tag : (nd_jobs n c = Idle \/ exists t, nd_jobs n c = Owner t) ->
    node_step n (set_job n (nd_r n) c (Locking tag LkHas))
| StRun c ok tag pc r' pc' : nd_jobs n c = Locking tag pc -> lock_step ok tag pc (nd_r n) c = Some (r', pc') ->
    node_step n (set_job (match pc with LkTag _ => add_tag n c tag | _ => n end) r' c (Locking tag pc'))
| StEnd c tag ret : nd_jobs n c = Locking tag (LkDone ret) ->
    node_step n (set_job n (nd_r n) c (if ret =? 0 then Owner tag else Idle))
| StUnlock c : (nd_jobs n c = Idle \/ exists t, nd_jobs n c = Owner t) ->
    node_step n (set_job n (nd_r n) c Unlocking)
| StHas c : nd_jobs n c = Unlocking ->
    node_step n (set_job n (nd_r n) c (if tcmu_rbd_has_lock (nd_r n) c =? 1 then Releasing else Idle))
| StRelease c : nd_jobs n c = Releasing ->
    node_step n (set_job n (rbd_lock_release (nd_r n) c).1 c Idle)
| StGone r' c : lk_meta r' = lk_meta (nd_r n) -> lk_fenced r' c = true ->
    (forall x, lk_fenced (nd_r n) x = true -> lk_fenced r' x = true) ->
    (lk_holder r' = lk_holder (nd_r n) \/ lk_holder (nd_r n) = Some c /\ lk_holder r' = None) ->
    node_step n (Nodes r' (nd_jobs n) (nd_wrote n)).

(** No client has done anything yet, and a stale tag is known. *)
Definition node_init (n : nodes R C) : Prop :=
  (forall c, nd_jobs n c = Idle) /\
  (forall v, lk_meta (nd_r n) = Some v -> exists c t, v = tag_text t (lk_name c) /\ (c, u16 t) ∈ nd_wrote n).

(** The holder is known to the client from here on. *)
Definition has_it (pc : lock_pc) : bool :=
  match pc with LkName | LkTag _ => true | LkDone ret => ret =? 0 | _ => false end.
Definition holds (j : job) : bool :=
  match j with Locking _ pc => has_it pc | Owner _ => true | _ => false end.

Definition node_inv (n : nodes R C) : Prop :=
  (forall v, lk_meta (nd_r n) = Some v -> exists c t, v = tag_text t (lk_name c) /\ (c, u16 t) ∈ nd_wrote n) /\
  (forall c, holds (nd_jobs n c) = true -> lk_fenced (nd_r n) c = true \/ lk_holder (nd_r n) = Some c) /\
  (forall c t o, nd_jobs n c = Locking t (LkTag o) -> o = lk_name c \/ lk_fenced (nd_r n) c = true).

(** ** The invariant *)

Definition has_fenced (r r' : R) : Prop := forall x, lk_fenced r x = true -> lk_fenced r' x = true.
(** Nobody but [c] loses the lock without being fenced. *)
Definition keeps_lock (P : C -> Prop) (r r' : R) : Prop :=
  forall x, P x -> lk_holder r = Some x -> lk_holder r' = Some x \/ lk_fenced r' x = true.

Lemma keeps_same P r r' : lk_holder r' = lk_holder r -> keeps_lock P r r'.
Proof. intros E x _ Hx. left. congruence. Qed.

Lemma break_keeps r c o : let r' := (rbd_lock_break r c o).1 in
  lk_meta r' = lk_meta r /\ has_fenced r r' /\ keeps_lock (fun _ => True) r r'.
Proof.
  pose proof (law_break r c o) as H. destruct (rbd_lock_break r c o) as [r' ret]. destruct H as (Hm & Hf & Hh).
  split; [done|]. split; [done|]. destruct Hh as [Hh|(h & E & _ & _ & Hh)]; [by apply keeps_same|].
  intros x _ Hx. right. cbn. congruence.
Qed.

Lemma acquire_keeps r c : let r' := (rbd_lock_acquire r c).1 in
  lk_meta r' = lk_meta r /\ has_fenced r r' /\ keeps_lock (fun _ => True) r r' /\
  ((rbd_lock_acquire r c).2 = 0 -> lk_holder r' = Some c).
Proof.
  pose proof (law_acquire r c) as H. destruct (rbd_lock_acquire r c) as [r' ret]. destruct H as (Hm & Hf & Hh & H0).
  split; [done|]. split; [done|]. split; [|done]. destruct Hh as [Hh|[E Hh]]; [by apply keeps_same|].
  intros x _ Hx. destruct (Hh x Hx) as [->|?]; [by left|by right].
Qed.

Lemma has_lock_holder r c : tcmu_rbd_has_lock r c = 1 -> lk_holder r = Some c.
Proof.
  unfold tcmu_rbd_has_lock. pose proof (law_is_owner r c) as H. destruct (rbd_is_exclusive_lock_owner r c) as [ret b].
  case_if; [intros ->; done|]. case_if; [done|]. destruct b; [|done]. intros _. apply H; [|done]. lia.
Qed.

Definition stores (tag : Z) (pc : lock_pc) (r r' : R) (c : C) : Prop :=
  exists o, pc = LkTag o /\ lk_meta r' = Some (tag_text tag o) /\ lk_fenced r c = false.

(** What one call does for everybody and for its client. *)
Lemma lock_step_keeps ok tag pc r c r' pc' : lock_step ok tag pc r c = Some (r', pc') ->
  has_fenced r r' /\ keeps_lock (fun _ => True) r r' /\
  (lk_meta r' = lk_meta r \/ stores tag pc r r' c) /\
  (has_it pc' = true -> has_it pc = true \/ lk_holder r' = Some c) /\
  (forall o, pc' = LkTag o -> pc = LkName /\ exists h, lk_holder r = Some h /\ o = lk_name h).
Proof.
  assert (forall r, has_fenced r r /\ keeps_lock (fun _ => True) r r) as Hid.
  { intros x. split; [by intros ? ?|by apply keeps_same]. }
  assert (forall ret next, has_it (go ret next) = true -> ret = 0 /\ has_it next = true) as Hgo.
  { intros ret next. unfold go. destruct (Z.eqb_spec ret 0) as [->|Hr]; [done|]. cbn. by rewrite (proj2 (Z.eqb_neq _ _) Hr). }
  assert (forall ret next o, go ret next = LkTag o -> next = LkTag o) as Hgt.
  { intros ret next o. unfold go. by case_if. }
  destruct pc as [ | |o| | |o|ret]; cbn [lock_step].
  - intros [= <- <-]. destruct (Hid r) as [? ?]. do 2 (split; [done|]). split; [by left|]. split.
    + destruct (Z.eqb_spec (tcmu_rbd_has_lock r c) 1) as [E|E]; [right; by apply has_lock_holder|]. by intros [_ ?]%Hgo.
    + intros o. case_if; [done|]. by intros ?%Hgt.
  - destruct (whom_to_break _) as [w|]; [|done]. cbn [mbind option_bind]. intros [= <- <-].
    destruct (Hid r) as [? ?]. do 2 (split; [done|]). split; [by left|].
    destruct w; (split; [|intros o']); try done; [by intros [_ ?]%Hgo|by intros ?%Hgt].
  - pose proof (break_keeps r c o) as (Hm & Hf & Hk). destruct (rbd_lock_break r c o) as [r1 ret]. cbn [fst] in *.
    intros [= <- <-]. do 2 (split; [done|]). split; [by left|]. split; [by intros [_ ?]%Hgo|by intros o' ?%Hgt].
  - pose proof (acquire_keeps r c) as (Hm & Hf & Hk & H0). destruct (rbd_lock_acquire r c) as [r1 ret]. cbn [fst snd] in *.
    intros [= <- <-]. do 2 (split; [done|]). split; [by left|]. split; [|by intros o' ?%Hgt].
    intros [E _]%Hgo. right. auto.
  - intros [= <- <-]. destruct (Hid r) as [? ?]. do 2 (split; [done|]). split; [by left|]. split; [by left|].
    pose proof (law_owners r c) as Ho. destruct (rbd_lock_get_owners r c) as [[ret m] own]. cbn [whom_to_name].
    intros o. destruct (Z.eqb_spec ret 0) as [E|]; cbn [negb]; [|done]. specialize (Ho E).
    destruct own as [n|]; [|done]. destruct ok; [|done]. intros [= <-]. split; [done|].
    destruct (lk_holder r) as [h|]; [|done]. exists h. split; [done|]. by injection Ho.
  - pose proof (law_set r c (tag_text tag o)) as H. destruct (rbd_metadata_set _ _ _ _) as [r1 ret].
    destruct H as (Hh & Hf & Hm & _). intros [= <- <-]. split; [done|]. split; [by apply keeps_same|]. split; [|by split; [left|]].
    destruct Hm as [?|[? ?]]; [by left|]. right. by exists o.
  - intros [= <- <-]. destruct (Hid r) as [? ?]. do 2 (split; [done|]). split; [by left|]. split; [by left|done].
Qed.

Lemma release_keeps r c : let r' := (rbd_lock_release r c).1 in
  lk_meta r' = lk_meta r /\ has_fenced r r' /\ keeps_lock (fun x => x <> c) r r'.
Proof.
  pose proof (law_release r c) as H. destruct (rbd_lock_release r c) as [r' ret]. destruct H as (Hm & Hf & Hh).
  split; [done|]. split; [done|]. destruct Hh as [Hh|[E _]]; [by apply keeps_same|]. intros x Hx. congruence.
Qed.

Lemma init_inv n : node_init n -> node_inv n.
Proof.
  intros [Hj Hm]. split; [done|]. split; [|by intros c t o; rewrite Hj]. intros c. by rewrite Hj.
Qed.

(** A step of one client that keeps what the others have. *)
Lemma client_step_inv n r' c j w :
  node_inv n -> has_fenced (nd_r n) r' -> keeps_lock (fun x => x <> c) (nd_r n) r' ->
  (forall v, lk_meta r' = Some v -> exists d t, v = tag_text t (lk_name d) /\ (d, u16 t) ∈ w) ->
  (holds j = true -> lk_fenced r' c = true \/ lk_holder r' = Some c) ->
  (forall t o, j = Locking t (LkTag o) -> o = lk_name c \/ lk_fenced r' c = true) ->
  node_inv (set_job (Nodes (nd_r n) (nd_jobs n) w) r' c j).
Proof.
  intros (_ & Hh & Ht) Hf Hk Hm H1 H2. split; [done|]. cbn [set_job nd_r nd_jobs]. split.
  - intros x. case_decide as E; [subst; done|]. intros [Hx|Hx]%Hh; [left; by apply Hf|].
    destruct (Hk x E Hx); [by right|by left].
  - intros x t o. case_decide as E; [subst; eauto|]. intros [->|Hx]%Ht; [by left|right; by apply Hf].
Qed.

(** A step that asks the cluster for nothing. *)
Lemma client_idle_inv n c j : node_inv n ->
  (holds j = true -> lk_fenced (nd_r n) c = true \/ lk_holder (nd_r n) = Some c) ->
  (forall t o, j <> Locking t (LkTag o)) -> node_inv (set_job n (nd_r n) c j).
Proof.
  intros Hn H1 H2. destruct n as [r js w]. apply (client_step_inv (Nodes r js w)); try done; [by intros x|by apply keeps_same|apply Hn|].
  intros t o E. by destruct (H2 t o).
Qed.

Lemma node_step_inv n n' : node_inv n -> node_step n n' -> node_inv n'.
Proof.
  intros Hn Hs. pose proof Hn as (Hm & Hh & Ht).
  destruct Hs as [c tag Hj|c ok tag pc r' pc' Hj Hs|c tag ret Hj|c Hj|c Hj|c Hj|r' c Em Hf Hg Hd].
  - by apply client_idle_inv.
  - destruct (lock_step_keeps _ _ _ _ _ _ _ Hs) as (Hf & Hk & Em & Hi & Hnm).
    assert (holds (Locking tag pc') = true -> lk_fenced r' c = true \/ lk_holder r' = Some c) as H1.
    { cbn. intros [Hp|?]%Hi; [|by right]. destruct (Hh c) as [?|?]; [by rewrite Hj|left; by apply Hf|].
      destruct (Hk c I); tauto. }
    assert (forall t o, Locking tag pc' = Locking t (LkTag o) -> o = lk_name c \/ lk_fenced r' c = true) as H2.
    { intros t o [= -> ->]. destruct (Hnm o eq_refl) as (-> & h & Eh & ->).
      destruct (Hh c) as [?|E]; [by rewrite Hj|right; by apply Hf|]. left. congruence. }
    assert (keeps_lock (fun x => x <> c) (nd_r n) r') as Hk' by (intros x _; by apply Hk).
    destruct Em as [Em|(o & -> & Em & Hc)].
    + assert (forall w, (forall p, p ∈ nd_wrote n -> p ∈ w) ->
        node_inv (set_job (Nodes (nd_r n) (nd_jobs n) w) r' c (Locking tag pc'))) as Hw.
      { intros w Hw. apply client_step_inv; try done. intros v. rewrite Em. intros (d & t & -> & Hin)%Hm. eauto. }
      destruct n as [r js w]; cbn [nd_r nd_jobs nd_wrote] in *. destruct pc; apply Hw; set_solver.
    + apply (client_step_inv n _ _ _ ((c, u16 tag) :: nd_wrote n)); try done. intros v. rewrite Em. intros [= <-].
      exists c, tag. destruct (Ht c tag o Hj) as [->|E]; [|congruence]. split; [done|set_solver].
  - apply client_idle_inv; [done| |by intros t o; case_if]. intros E. apply Hh. rewrite Hj. cbn. by destruct (ret =? 0).
  - by apply client_idle_inv.
  - apply client_idle_inv; [done| |]; by case_if.
  - destruct (release_keeps (nd_r n) c) as (Em & Hf & Hk). destruct n as [r js w]; cbn [nd_r nd_jobs nd_wrote] in *.
    apply (client_step_inv (Nodes r js w)); try done. intros v. rewrite Em. apply Hm.
  - split; [cbn; rewrite Em; done|]. cbn [nd_r nd_jobs]. split; [|intros x t o [->|?]%Ht; auto].
    intros x [Hx|Hx]%Hh; [auto|]. destruct Hd as [E|[E _]]; [right; congruence|]. left. congruence.
Qed.

Definition node_reach := rtc node_step.

Lemma node_reach_inv n n' : node_inv n -> node_reach n n' -> node_inv n'.
Proof. intros Hn Hr. induction Hr; eauto using node_step_inv. Qed.

(** ** One callout at a time *)

Definition lock_run (n : nat) (ok : bool) (tag : Z) (pc : lock_pc) (r : R) (c : C) : option (R * tcmu_sts) :=
  '(r', pc) ← lock_steps n ok tag pc r c;
  match pc with LkDone ret => Some (r', tcmu_rbd_to_sts ret) | _ => None end.

Lemma lock_run_S n ok tag pc r c :
  lock_run (S n) ok tag pc r c = '(r', pc) ← lock_step ok tag pc r c; lock_run n ok tag pc r' c.
Proof. unfold lock_run. cbn [lock_steps]. by destruct (lock_step _ _ _ _ _) as [[r' pc']|]. Qed.

Lemma lock_run_done n ok tag ret r c : lock_run n ok tag (LkDone ret) r c = Some (r, tcmu_rbd_to_sts ret).
Proof. induction n as [|n IH]; [done|]. by rewrite lock_run_S. Qed.

Lemma lock_run_go n ok tag ret pc r c :
  lock_run n ok tag (go ret pc) r c =
  if negb (ret =? 0) then Some (r, tcmu_rbd_to_sts ret) else lock_run n ok tag pc r c.
Proof. unfold go. destruct (Z.eqb_spec ret 0); [done|]. apply lock_run_done. Qed.

Lemma lock_run_name n ok tag r c :
  lock_run (2 + n) ok tag LkName r c =
  let '(r', ret) := tcmu_rbd_set_lock_tag ok r c tag in Some (r', tcmu_rbd_to_sts ret).
Proof.
  cbn [Nat.add]. rewrite lock_run_S. cbn [lock_step mbind option_bind]. unfold tcmu_rbd_set_lock_tag.
  destruct (whom_to_name _) as [ret|o]; [apply lock_run_done|]. destruct ok; [|apply lock_run_done].
  rewrite lock_run_S. cbn [lock_step]. destruct (rbd_metadata_set _ _ _ _) as [r1 ret]. apply lock_run_done.
Qed.

Lemma lock_run_acquire n ok tag r c :
  lock_run (3 + n) ok tag LkAcquire r c =
  let '(r, ret) := rbd_lock_acquire r c in
  if negb (ret =? 0) then Some (r, tcmu_rbd_to_sts ret)
  else let '(r', ret) := tcmu_rbd_set_lock_tag ok r c tag in Some (r', tcmu_rbd_to_sts ret).
Proof.
  cbn [Nat.add]. rewrite lock_run_S. cbn [lock_step]. destruct (rbd_lock_acquire r c) as [r1 ret].
  cbn [mbind option_bind]. rewrite lock_run_go. by rewrite (lock_run_name n).
Qed.

(** Six calls at most, one after the other, are the callout. *)
Lemma lock_run_lock ok tag r c : lock_run 6 ok tag LkHas r c = tcmu_rbd_lock ok r c tag.
Proof.
  rewrite lock_run_S. cbn [lock_step mbind option_bind]. unfold tcmu_rbd_lock.
  destruct (tcmu_rbd_has_lock r c =? 1); [by rewrite (lock_run_name 3)|]. rewrite lock_run_go. case_if; [done|].
  rewrite lock_run_S. cbn [lock_step]. unfold tcmu_rbd_lock_break.
  destruct (whom_to_break _) as [[ret|o]|]; cbn [mbind option_bind]; [| |done].
  - rewrite lock_run_go. case_if; [done|]. by rewrite (lock_run_acquire 1).
  - rewrite lock_run_S. cbn [lock_step]. destruct (rbd_lock_break r c o) as [r1 ret]. cbn [mbind option_bind].
    rewrite lock_run_go. case_if; [done|]. by rewrite (lock_run_acquire 0).
Qed.

Lemma to_sts_ok ret : tcmu_rbd_to_sts ret = TCMU_STS_OK -> ret = 0.
Proof. unfold tcmu_rbd_to_sts. repeat case_if; done || lia. Qed.

(** What a [lock] callout that succeeds leaves behind. *)
Lemma set_lock_tag_spec ok r c tag r' : lk_holder r = Some c -> tcmu_rbd_set_lock_tag ok r c tag = (r', 0) ->
  lk_holder r' = Some c /\ lk_meta r' = Some (tag_text tag (lk_name c)) /\ lk_fenced r c = false.
Proof.
  intros Hh. unfold tcmu_rbd_set_lock_tag. pose proof (law_owners r c) as Ho.
  destruct (rbd_lock_get_owners r c) as [[ret m] o]. cbn [whom_to_name].
  destruct (Z.eqb_spec ret 0) as [E|E]; cbn [negb]; [|by intros [= _ ?]]. specialize (Ho E). rewrite Hh in Ho. subst o.
  cbn [fmap option_fmap option_map]. destruct ok; [|done]. intros Hs.
  pose proof (law_set r c (tag_text tag (lk_name c))) as H. rewrite Hs in H. destruct H as (E1 & _ & _ & H0).
  destruct (H0 eq_refl). split; [congruence|]. done.
Qed.

Lemma rbd_lock_spec ok r c tag r' : tcmu_rbd_lock ok r c tag = Some (r', TCMU_STS_OK) ->
  lk_holder r' = Some c /\ lk_meta r' = Some (tag_text tag (lk_name c)).
Proof.
  assert (forall r, lk_holder r = Some c ->
    (let '(r', ret) := tcmu_rbd_set_lock_tag ok r c tag in Some (r', tcmu_rbd_to_sts ret)) = Some (r', TCMU_STS_OK) ->
    lk_holder r' = Some c /\ lk_meta r' = Some (tag_text tag (lk_name c))) as Hs.
  { intros r0 Hr. destruct (tcmu_rbd_set_lock_tag ok r0 c tag) as [r1 ret] eqn:E. intros [= <- ->%to_sts_ok].
    destruct (set_lock_tag_spec _ _ _ _ _ Hr E) as (? & ? & _). done. }
  unfold tcmu_rbd_lock. destruct (Z.eqb_spec (tcmu_rbd_has_lock r c) 1) as [E|_].
  { apply Hs. by apply has_lock_holder. }
  destruct (Z.eqb_spec (tcmu_rbd_has_lock r c) 0); cbn [negb]; [|by intros [= _ ?%to_sts_ok]].
  destruct (tcmu_rbd_lock_break r c) as [[r1 ret]|]; [|done]. cbn [mbind option_bind].
  destruct (Z.eqb_spec ret 0); cbn [negb]; [|by intros [= _ ?%to_sts_ok]].
  pose proof (acquire_keeps r1 c) as (_ & _ & _ & H0). destruct (rbd_lock_acquire r1 c) as [r2 ret2]. cbn [fst snd] in H0.
  destruct (Z.eqb_spec ret2 0) as [E|]; cbn [negb]; [|by intros [= _ ?%to_sts_ok]]. apply Hs, H0, E.
Qed.

(** C12: the callout [lock] makes at most six calls of librbd, one after the
    other; when it succeeds its client holds the lock, and every client whose
    two requests of [get_lock_tag] are answered gets the tag, as a [uint16_t],
    back out of its text. *)
Theorem rbd_lock_tag_roundtrip ok r c tag r' :
  lock_run 6 ok tag LkHas r c = tcmu_rbd_lock ok r c tag /\
  (tcmu_rbd_lock ok r c tag = Some (r', TCMU_STS_OK) ->
   lk_holder r' = Some c /\
   forall d, (rbd_metadata_get r' d TCMU_RBD_LOCKER_TAG_KEY TCMU_RBD_LOCKER_BUF_LEN).1 = 0 ->
     (rbd_lock_get_owners r' d).1.1 = 0 -> tcmu_rbd_get_lock_tag r' d = (TCMU_STS_OK, Some (u16 tag))).
Proof.
  split; [apply lock_run_lock|]. intros [Hh Hm]%rbd_lock_spec. split; [done|]. intros d H1 H2.
  unfold tcmu_rbd_get_lock_tag, tag_of_owner. pose proof (law_get r' d) as Hg. pose proof (law_owners r' d) as Ho.
  destruct (rbd_metadata_get _ _ _ _) as [ret buf]. destruct (rbd_lock_get_owners r' d) as [[ret2 m] o]. cbn [fst] in *.
  subst. specialize (Hg eq_refl). specialize (Ho eq_refl). rewrite Hm in Hg. injection Hg as <-. rewrite Hh in Ho.
  subst o. cbn [Z.eqb negb fmap option_fmap option_map]. rewrite parse_tag_text. by rewrite decide_True.
Qed.

(** ** What the nodes can rely on *)

(** C17: however the nodes interleave their calls, two nodes whose [lock]
    callout has succeeded are one node, or one of them is fenced; and a node
    that reads the metadata at one time and the owner at a later one gets a tag
    only if the client that holds the lock at the later time stored that tag. *)
Theorem rbd_lock_exclusive n0 n1 n2 :
  node_init n0 -> node_reach n0 n1 -> node_reach n1 n2 ->
  (forall c d t u, nd_jobs n2 c = Owner t -> nd_jobs n2 d = Owner u ->
     lk_fenced (nd_r n2) c = false -> lk_fenced (nd_r n2) d = false -> c = d /\ lk_holder (nd_r n2) = Some c) /\
  (forall c ret buf tag,
     rbd_metadata_get (nd_r n1) c TCMU_RBD_LOCKER_TAG_KEY TCMU_RBD_LOCKER_BUF_LEN = (ret, buf) -> ret = 0 ->
     tag_of_owner buf (nd_r n2) c = (TCMU_STS_OK, Some tag) ->
     exists h, lk_holder (nd_r n2) = Some h /\ (h, tag) ∈ nd_wrote n1).
Proof.
  intros H0 H1 H2. pose proof (node_reach_inv _ _ (init_inv _ H0) H1) as I1.
  pose proof (node_reach_inv _ _ I1 H2) as (_ & Hh & _). destruct I1 as (Hm & _ & _). split.
  - intros c d t u Hc Hd Fc Fd. destruct (Hh c) as [E|Ec]; [by rewrite Hc|congruence|].
    destruct (Hh d) as [E|Ed]; [by rewrite Hd|congruence|]. split; [congruence|done].
  - intros c ret buf tag Hg -> Hq. pose proof (law_get (nd_r n1) c) as Hl. rewrite Hg in Hl.
    destruct (Hm buf (Hl eq_refl)) as (w & t & -> & Hw). unfold tag_of_owner in Hq.
    pose proof (law_owners (nd_r n2) c) as Ho. destruct (rbd_lock_get_owners (nd_r n2) c) as [[ro m] o].
    destruct (Z.eqb_spec ro 0) as [E|]; cbn [negb] in Hq; [|done]. specialize (Ho E). destruct o as [o|]; [|done].
    rewrite parse_tag_text in Hq. case_decide as En; [|done]. destruct (lk_holder (nd_r n2)) as [h|]; [|done].
    injection Hq as <-. injection Ho as ->. apply lk_name_inj in En as ->. by exists h.
Qed.
End nodes_sec.

(** ** A cluster that keeps its promises *)

Module Demo.

(** Clients are numbers; only the key of the tag is kept. *)
Record cluster := Cluster { cl_holder : option nat; cl_meta : option (list Z); cl_fenced : list nat }.

Definition fenced (r : cluster) (c : nat) : bool := existsb (Nat.eqb c) (cl_fenced r).
Definition name (c : nat) : list Z := [48 + Z.of_nat c].

Definition break (r : cluster) (c : nat) (o : list Z) : cluster * Z :=
  match cl_holder r with
  | Some h => if decide (name h = o) then (Cluster None (cl_meta r) (h :: cl_fenced r), 0) else (r, - ENOENT)
  | None => (r, - ENOENT)
  end.
Definition acquire (r : cluster) (c : nat) : cluster * Z :=
  if fenced r c then (r, - ESHUTDOWN)
  else match cl_holder r with
       | None => (Cluster (Some c) (cl_meta r) (cl_fenced r), 0)
       | Some h => (r, if Nat.eqb h c then 0 else - EBUSY)
       end.
Definition release (r : cluster) (c : nat) : cluster * Z :=
  match cl_holder r with
  | Some h => if Nat.eqb h c then (Cluster None (cl_meta r) (cl_fenced r), 0) else (r, - ENOENT)
  | None => (r, - ENOENT)
  end.
Definition set_meta (r : cluster) (c : nat) (v : list Z) : cluster * Z :=
  if fenced r c then (r, - ESHUTDOWN) else (Cluster (cl_holder r) (Some v) (cl_fenced r), 0).
Definition get_meta (r : cluster) (n : nat) : Z * list Z :=
  match cl_meta r with
  | Some v => if (length v <? n)%nat then (0, v) else (- 34, [])
  | None => (- ENOENT, [])
  end.
Definition owners (r : cluster) (c : nat) : Z * Z * option (list Z) :=
  if fenced r c then (- ESHUTDOWN, 0, None) else (0, 0, name <$> cl_holder r).
Definition is_owner (r : cluster) (c : nat) : Z * bool :=
  if fenced r c then (- ESHUTDOWN, false) else (0, bool_decide (cl_holder r = Some c)).

#[global] Instance demo_api : LockApi cluster nat := {|
  RBD_LOCK_MODE_EXCLUSIVE := 0;
  rbd_is_exclusive_lock_owner := is_owner;
  rbd_lock_get_owners := owners;
  rbd_lock_break := break;
  rbd_lock_acquire := acquire;
  rbd_lock_release := release;
  rbd_metadata_get r _ _ n := get_meta r n;
  rbd_metadata_set r c _ v := set_meta r c v
|}.

#[global] Program Instance demo_laws : LockLaws cluster nat := {|
  lk_holder := cl_holder;
  lk_meta := cl_meta;
  lk_fenced := fenced;
  lk_name := name
|}.
Next Obligation. unfold name. intros c c' [= H]. lia. Qed.
Next Obligation.
  intros r c. change (rbd_is_exclusive_lock_owner r c) with (is_owner r c).
  unfold is_owner. destruct (fenced r c); [intros H; unfold ESHUTDOWN in H; lia|]. intros _. apply bool_decide_eq_true.
Qed.
Next Obligation.
  intros r c. change (rbd_lock_get_owners r c) with (owners r c). unfold owners.
  by destruct (fenced r c).
Qed.
Next Obligation.
  intros r c o. change (rbd_lock_break r c o) with (break r c o).
  unfold break. destruct (cl_holder r) as [h|] eqn:E; [|by split_and!; auto].
  case_decide as Eo; [|by split_and!; auto].
  cbn. split; [done|]. split; [intros x Hx; unfold fenced in *; cbn; rewrite Hx; by apply orb_true_r|].
  right. exists h. split_and!; try done. unfold fenced. cbn. by rewrite Nat.eqb_refl.
Qed.
Next Obligation.
  intros r c. change (rbd_lock_acquire r c) with (acquire r c).
  unfold acquire. destruct (fenced r c); [by split_and!; auto|].
  destruct (cl_holder r) as [h|] eqn:E.
  - rewrite E. destruct (Nat.eqb_spec h c) as [->|]; split_and!; auto. done.
  - cbn. split_and!; auto. by right.
Qed.
Next Obligation.
  intros r c. change (rbd_lock_release r c) with (release r c).
  unfold release. destruct (cl_holder r) as [h|] eqn:E; [|by split_and!; auto].
  destruct (Nat.eqb_spec h c) as [->|]; [|by split_and!; auto]. cbn. by split_and!; auto.
Qed.
Next Obligation.
  intros r c v. change (rbd_metadata_set r c TCMU_RBD_LOCKER_TAG_KEY v) with (set_meta r c v).
  unfold set_meta. destruct (fenced r c) eqn:E; cbn; [by split_and!; auto|]. by split_and!; auto.
Qed.
Next Obligation.
  intros r c.
  change (rbd_metadata_get r c TCMU_RBD_LOCKER_TAG_KEY TCMU_RBD_LOCKER_BUF_LEN) with (get_meta r TCMU_RBD_LOCKER_BUF_LEN).
  unfold get_meta. destruct (cl_meta r); [|done]. case_if; [by intros _|done].
Qed.

(** The next step of a client that locks with a tag when it is idle. *)
Definition next (c : nat) (tag : Z) (n : nodes cluster nat) : nodes cluster nat :=
  match nd_jobs n c with
  | Idle | Owner _ => set_job n (nd_r n) c (Locking tag LkHas)
  | Locking t (LkDone ret) => set_job n (nd_r n) c (if ret =? 0 then Owner t else Idle)
  | Locking t pc =>
      match lock_step true t pc (nd_r n) c with
      | Some (r', pc') => set_job (match pc with LkTag _ => add_tag n c t | _ => n end) r' c (Locking t pc')
      | None => n
      end
  | Unlocking => set_job n (nd_r n) c (if tcmu_rbd_has_lock (nd_r n) c =? 1 then Releasing else Idle)
  | Releasing => set_job n (rbd_lock_release (nd_r n) c).1 c Idle
  end.

Lemma next_reach c tag n : node_reach n (next c tag n).
Proof.
  unfold next. destruct (nd_jobs n c) as [|t pc|t| |] eqn:E.
  1, 3: apply rtc_once, StLock; eauto.
  2: by apply rtc_once, StHas.
  2: by apply rtc_once, StRelease.
  assert (forall o, (o = lock_step true t pc (nd_r n) c) ->
    node_reach n match o with
    | Some (r', pc') => set_job (match pc with LkTag _ => add_tag n c t | _ => n end) r' c (Locking t pc')
    | None => n end) as H.
  { intros [[r' pc']|] Ho; [|done]. apply rtc_once. by eapply StRun. }
  destruct pc; try by apply H. apply rtc_once. by apply StEnd.
Qed.

Fixpoint run (l : list (nat * Z)) (n : nodes cluster nat) : nodes cluster nat :=
  match l with [] => n | (c, tag) :: l => run l (next c tag n) end.

Lemma run_reach l n : node_reach n (run l n).
Proof. revert n. induction l as [|[c tag] l IH]; intros n; [done|]. etransitivity; [apply next_reach|apply IH]. Qed.

Definition start : nodes cluster nat := Nodes (Cluster None None []) (fun _ => Idle) [].
(** Client 0 locks with tag 1, then client 1 takes the lock with tag 2. *)
Definition taken : nodes cluster nat := run (replicate 7 (0%nat, 1)) start.
Definition retaken : nodes cluster nat := run (replicate 8 (1%nat, 2)) taken.

Lemma start_init : node_init start.
Proof. split; [done|]. by intros v [=]. Qed.
End Demo.

Example rbd_lock_exclusive_witness :
  nd_jobs Demo.retaken 0%nat = Owner 1 /\ nd_jobs Demo.retaken 1%nat = Owner 2 /\
  Demo.fenced (nd_r Demo.retaken) 0 = true /\
  exists h : nat, lk_holder (nd_r Demo.retaken) = Some h /\ (h, 2) ∈ nd_wrote Demo.retaken.
Proof.
  split; [reflexivity|]. split; [reflexivity|]. split; [reflexivity|].
  destruct (rbd_lock_exclusive Demo.start Demo.retaken Demo.retaken) as [_ H].
  - exact Demo.start_init.
  - etransitivity; apply Demo.run_reach.
  - reflexivity.
  - exact (H 1%nat 0 (tag_text 2 (Demo.name 1)) 2 eq_refl eq_refl eq_refl).
Defined.

Example rbd_lock_tag_roundtrip_witness :
  tcmu_rbd_get_lock_tag (Demo.Cluster (Some 1%nat) (Some (tag_text 7 (Demo.name 1))) [0%nat]) 2%nat =
  (TCMU_STS_OK, Some 7).
Proof.
  destruct (rbd_lock_tag_roundtrip true (Demo.Cluster (Some 0%nat) None []) 1%nat 7
    (Demo.Cluster (Some 1%nat) (Some (tag_text 7 (Demo.name 1))) [0%nat])) as [_ H].
  destruct (H eq_refl) as [_ H']. exact (H' 2%nat eq_refl eq_refl).
Defined.
