(* ===== verification/Offload.v ===== *)
(** * Commands that a handler does itself

    [tcmur_handle_caw] and [tcmur_handle_writesame] of [tcmur_cmd_handler.c]: a
    handler whose storage can compare and write, or write a pattern, gets the
    whole command after the checks of the runner. *)

From S2P Require Import Prelude Scsi Iovec Sense Device Backstore Aio Rw RwSpec Unmap WriteSame.
From S2P Require Import Rdev Alua.

Section offload.
Context {B : Type} {HB : Backstore B} (dev : tcmu_device).

(** A function of the handler gets the sense buffer of the command, a byte
    offset and a byte count, the iovec and the number of its entries. *)
Definition offload_fn : Type :=
  list Z -> Z -> Z -> list iovec -> Z -> xst B -> option (xst B * list Z * reply).

(** The sense buffer beside the backstore, while a worker has the command. *)
Definition with_sense (x : xst B) (sense : list Z) : xst (B * list Z) :=
  XSt (x_bs x, sense) (x_mem x) (x_alloc x) (x_caw x).
Definition no_sense (y : xst (B * list Z)) : xst B := XSt (x_bs y).1 (x_mem y) (x_alloc y) (x_caw y).

(** The command on the work queue or in the caller's context, completed by
    [handle_generic_cbk]. *)
Definition run_offload (work : xst (B * list Z) -> option (xst (B * list Z) * reply)) (cmd : tcmulib_cmd) (x : xst B)
    : option (fin B) :=
  r ← async_handle_cmd dev work (fun y ret => handle_generic_cbk (x_bs y).2 (no_sense y) ret)
        (with_sense x (sense_buf cmd));
  Some (match r with inl (y, s) => Fin (no_sense y) (x_bs y).2 false s | inr f => f end).

Definition call_offload (fn : offload_fn) (off len : Z) (cmd : tcmulib_cmd) (y : xst (B * list Z))
    : option (xst (B * list Z) * reply) :=
  '(x, sense, r) ← fn (x_bs y).2 off len (cmd_iovec cmd) (iov_cnt cmd) (no_sense y);
  Some (with_sense x sense, r).

(** The byte count is the product of two [uint32_t].
    [src tcmu-runner/tcmur_cmd_handler.c tcmur_writesame_work_fn] *)
Definition tcmur_writesame_work_fn (write_same_fn : offload_fn) (cmd : tcmulib_cmd) (y : xst (B * list Z))
    : option (xst (B * list Z) * reply) :=
  let block_size := tcmu_get_dev_block_size dev in
  lba ← tcmu_get_lba (cdb cmd);
  n ← tcmu_get_xfer_length (cdb cmd);
  call_offload write_same_fn (u64 (block_size * lba)) (u32 (block_size * n)) cmd y.

(** [inr] when the range is unmapped.
    [src tcmu-runner/tcmur_cmd_handler.c tcmur_handle_writesame] *)
Definition tcmur_handle_writesame (spawn_ok : bool) (write_same_fn : offload_fn) (cmd : tcmulib_cmd)
    (rdev : tcmur_device) (x : xst B) : option (tcmur_device * (fin B + unmap_result B)) :=
  let '(ret, rdev) := alua_check_state dev spawn_ok rdev in
  if negb (sts_ok ret) then Some (rdev, inl (Fin x (sense_buf cmd) false ret))
  else
    ret ← handle_writesame_check dev cmd;
    if negb (sts_ok ret) then Some (rdev, inl (Fin x (sense_buf cmd) false ret))
    else if has_unmap (rhandler dev) && negb (Z.land (byte_at (cdb cmd) 1) 0x08 =? 0) then
      r ← handle_unmap_in_writesame dev cmd x; Some (rdev, inr r)
    else
      f ← run_offload (tcmur_writesame_work_fn write_same_fn cmd) cmd x;
      Some (rdev, inl f).

(** [src tcmu-runner/tcmur_cmd_handler.c tcmur_caw_fn] *)
Definition tcmur_caw_fn (caw_fn : offload_fn) (cmd : tcmulib_cmd) (y : xst (B * list Z))
    : option (xst (B * list Z) * reply) :=
  let block_size := tcmu_get_dev_block_size dev in
  lba ← tcmu_get_lba (cdb cmd);
  total ← tcmu_iovec_length (cmd_iovec cmd) (iov_cnt cmd);
  call_offload caw_fn (u64 (block_size * lba)) (total / 2) cmd y.

(** [src tcmu-runner/tcmur_cmd_handler.c tcmur_handle_caw] *)
Definition tcmur_handle_caw (spawn_ok : bool) (caw_fn : offload_fn) (cmd : tcmulib_cmd)
    (rdev : tcmur_device) (x : xst B) : option (tcmur_device * fin B) :=
  let '(ret, rdev) := alua_check_state dev spawn_ok rdev in
  if negb (sts_ok ret) then Some (rdev, Fin x (sense_buf cmd) false ret)
  else
    ret ← handle_caw_check dev cmd;
    if negb (sts_ok ret) then Some (rdev, Fin x (sense_buf cmd) false ret)
    else
      f ← run_offload (tcmur_caw_fn caw_fn cmd) cmd x;
      Some (rdev, f).
End offload.

(** ** What the handler's function leaves is what the command leaves *)

(** Every way a command goes: no memory for the queue, or the function ran and
    its status went to the caller or to the ring. *)
Lemma run_offload_cases {B} dev (work : xst (B * list Z) -> option (xst (B * list Z) * reply)) cmd x (P : fin B -> Prop) :
  (forall l, P (Fin (XSt (x_bs x) (x_mem x) l (x_caw x)) (sense_buf cmd) false TCMU_STS_NO_RESOURCE)) ->
  (forall l, exists x' sense r, work (with_sense (XSt (x_bs x) (x_mem x) l (x_caw x)) (sense_buf cmd)) =
      Some (with_sense x' sense, r) /\
     match r with
     | Rejected s => P (Fin x' sense false s) /\ P (Fin x' sense true s)
     | Done s => P (Fin x' sense true s)
     end) ->
  exists f, run_offload dev work cmd x = Some f /\ P f.
Proof.
  intros H1 H2. unfold run_offload.
  pattern (async_handle_cmd dev work (fun y ret => handle_generic_cbk (x_bs y).2 (no_sense y) ret)
             (with_sense x (sense_buf cmd))).
  apply async_handle_cmd_cases.
  - intros l. eexists. split; [reflexivity|]. apply H1.
  - intros l. destruct (H2 l) as (x' & sense & r & E & Hr). exists (with_sense x' sense), r. split; [exact E|].
    destruct x' as [b m a c]. destruct r as [s|s]; [destruct Hr; split|]; eexists; split; reflexivity || done.
Qed.

Lemma alua_check_sts dev spawn rdev : (alua_check_state dev spawn rdev).1 <> TCMU_STS_MISCOMPARE.
Proof.
  unfold alua_check_state, alua_implicit_transition. case_if; [done|].
  destruct (failover_type rdev), (lock_state rdev); try done; cbn; by repeat case_if.
Qed.
