(* ===== verification/Rbd.v ===== *)
(** * The I/O of the RBD handler

    The callouts of [rbd.c] for data: an asynchronous request to librbd and what
    its completion makes of the command, with librbd's scatter lists or with a
    bounce buffer; and COMPARE AND WRITE and WRITE SAME that librbd does itself,
    through [tcmur_handle_caw] and [tcmur_handle_writesame] of
    [tcmur_cmd_handler.c].  librbd is a parameter: the class [RbdApi]. *)

From S2P Require Import Prelude Scsi Iovec Sense Device Backstore FileBack Aio Rw RwSpec Unmap WriteSame.
From S2P Require Import Rdev Alua Offload RbdLock.

Definition EILSEQ : Z := 84.
Definition EINVAL : Z := 22.

(** ** librbd *)

(** [rbd_data]: the bytes of the image.  A request returns the image, what the
    call returned, and what [rbd_aio_get_return_value] says when it is complete;
    a read also the bytes that it stored into its buffers from their start on, a
    compare and write the mismatch offset. *)
Class RbdApi (I : Type) := {
  rbd_data : I -> list Z;
  rbd_aio_create_completion : I -> I * Z;
  rbd_aio_read : I -> Z -> Z -> I * Z * Z * list Z;
  rbd_aio_write : I -> Z -> list Z -> I * Z * Z;
  rbd_aio_discard : I -> Z -> Z -> I * Z * Z;
  rbd_aio_flush : I -> I * Z * Z;
  rbd_aio_writesame : I -> Z -> Z -> list Z -> I * Z * Z;
  rbd_aio_compare_and_write : I -> Z -> list Z -> list Z -> I * Z * Z * Z
}.

(** ** State *)

(** What a completion tells the runner: [tcmu_notify_conn_lost],
    [tcmu_notify_lock_lost]. *)
Inductive note := ConnLost | LockLost.

(** The image, the outcomes of the coming allocations and the notifications. *)
Record rbd_st (I : Type) := RbdSt { rb_image : I; rb_alloc : list bool; rb_notes : list note }.
Arguments RbdSt {I}. Arguments rb_image {I}. Arguments rb_alloc {I}. Arguments rb_notes {I}.

(** [src tcmu-runner/rbd.c 93-97 enum rbd_aio_type] *)
Inductive rbd_aio_type := RBD_AIO_TYPE_WRITE | RBD_AIO_TYPE_READ | RBD_AIO_TYPE_CAW.

#[export] Instance rbd_aio_type_eq_dec : EqDecision rbd_aio_type.
Proof. solve_decision. Defined.

(** The device and the command are those of the callout.
    [src tcmu-runner/rbd.c 99-115 struct rbd_aio_cb] *)
Record rbd_aio_cb := AioCb {
  cb_type : rbd_aio_type;
  read_length : Z;
  caw_offset : Z;
  caw_miscompare_offset : Z;
  bounce_buffer : option (list Z);
  cb_iov : list iovec;
  cb_iov_cnt : Z
}.

Definition write_cb : rbd_aio_cb := AioCb RBD_AIO_TYPE_WRITE 0 0 0 None [] 0.

(** The notifications in their order. *)
Definition apply_notes (l : list note) (d : dst) : dst :=
  fold_left (fun d n => match n with ConnLost => tcmu_notify_conn_lost d | LockLost => tcmu_notify_lock_lost d end) l d.

Section rbd.
Context {I : Type} {HI : RbdApi I} (RBD_IOVEC_SUPPORT : bool).

Definition set_image (s : rbd_st I) (i : I) : rbd_st I := RbdSt i (rb_alloc s) (rb_notes s).
Definition add_note (s : rbd_st I) (n : note) : rbd_st I := RbdSt (rb_image s) (rb_alloc s) (rb_notes s ++ [n]).

Definition rbd_try (s : rbd_st I) : bool * rbd_st I :=
  match rb_alloc s with [] => (true, s) | ok :: l => (ok, RbdSt (rb_image s) l (rb_notes s)) end.

Definition create_completion (s : rbd_st I) : rbd_st I * Z :=
  let '(i, ret) := rbd_aio_create_completion (rb_image s) in (set_image s i, ret).

(** ** Completion *)

(** [src tcmu-runner/rbd.c tcmu_rbd_handle_blacklisted_cmd] *)
Definition tcmu_rbd_handle_blacklisted_cmd (s : rbd_st I) : rbd_st I * tcmu_sts :=
  (add_note s LockLost, TCMU_STS_TRANSITION).

(** [src tcmu-runner/rbd.c tcmu_rbd_handle_timedout_cmd] *)
Definition tcmu_rbd_handle_timedout_cmd (s : rbd_st I) : rbd_st I * tcmu_sts :=
  (add_note s ConnLost, TCMU_STS_TIMEOUT).

(** [ret]: the return value of the completion.  The result has the memory, the
    iovec, the sense data and the status that [done] gets.
    [src tcmu-runner/rbd.c rbd_finish_aio_generic] *)
Definition rbd_finish_aio_generic (cb : rbd_aio_cb) (ret : Z) (s : rbd_st I) (m : mem) (sense : list Z)
    : option (rbd_st I * mem * list iovec * list Z * tcmu_sts) :=
  if ret =? - ETIMEDOUT then
    let '(s, r) := tcmu_rbd_handle_timedout_cmd s in Some (s, m, cb_iov cb, sense, r)
  else if ret =? - ESHUTDOWN then
    let '(s, r) := tcmu_rbd_handle_blacklisted_cmd s in Some (s, m, cb_iov cb, sense, r)
  else if (ret =? - EILSEQ) && bool_decide (cb_type cb = RBD_AIO_TYPE_CAW) then
    let cmp_offset := u32 (caw_miscompare_offset cb - caw_offset cb) in
    sense ← tcmu_set_sense_info sense cmp_offset;
    Some (s, m, cb_iov cb, sense, TCMU_STS_MISCOMPARE)
  else if ret =? - EINVAL then Some (s, m, cb_iov cb, sense, TCMU_STS_INVALID_CDB)
  else if ret <? 0 then
    Some (s, m, cb_iov cb, sense, if decide (cb_type cb = RBD_AIO_TYPE_READ) then TCMU_STS_RD_ERR else TCMU_STS_WR_ERR)
  else
    match cb_type cb, bounce_buffer cb with
    | RBD_AIO_TYPE_READ, Some b =>
        '(m, iov, _) ← tcmu_memcpy_into_iovec m (cb_iov cb) (cb_iov_cnt cb) b (read_length cb);
        Some (s, m, iov, sense, TCMU_STS_OK)
    | _, _ => Some (s, m, cb_iov cb, sense, TCMU_STS_OK)
    end.

(** ** Requests *)

(** A bounce buffer of [length] bytes filled from the iovec.  [None]: librbd
    would get bytes of the buffer that nothing was stored into. *)
Definition fill_bounce (m : mem) (length : Z) (iov : list iovec) (cnt : Z) : option (list Z * list iovec) :=
  '(b, iov, copied) ← tcmu_memcpy_from_iovec m (zeros (Z.to_nat length)) length iov cnt;
  if copied =? length then Some (b, iov) else None.

(** What the call returned and the completion's value.
    [src tcmu-runner/rbd.c tcmu_rbd_aio_read] *)
Definition tcmu_rbd_aio_read (cb : rbd_aio_cb) (s : rbd_st I) (m : mem) (length offset : Z)
    : option (rbd_st I * mem * rbd_aio_cb * Z * Z) :=
  if RBD_IOVEC_SUPPORT then
    let '(i, sub, ret, bs) :=
      rbd_aio_read (rb_image s) offset (iov_total (take (Z.to_nat (cb_iov_cnt cb)) (cb_iov cb))) in
    m ← (if sub <? 0 then Some m else scatter m (cb_iov cb) (cb_iov_cnt cb) bs);
    Some (set_image s i, m, cb, sub, ret)
  else
    let '(ok, s) := rbd_try s in
    if negb ok then Some (s, m, cb, - ENOMEM, 0)
    else
      let '(i, sub, ret, bs) := rbd_aio_read (rb_image s) offset length in
      Some (set_image s i, m,
            AioCb (cb_type cb) (read_length cb) (caw_offset cb) (caw_miscompare_offset cb) (Some bs) (cb_iov cb) (cb_iov_cnt cb),
            sub, ret).

(** The iovec is the one that the copy has consumed.
    [src tcmu-runner/rbd.c tcmu_rbd_aio_write] *)
Definition tcmu_rbd_aio_write (s : rbd_st I) (m : mem) (iov : list iovec) (cnt length offset : Z)
    : option (rbd_st I * list iovec * Z * Z) :=
  if RBD_IOVEC_SUPPORT then
    bs ← gather m (take (Z.to_nat cnt) iov);
    let '(i, sub, ret) := rbd_aio_write (rb_image s) offset bs in
    Some (set_image s i, iov, sub, ret)
  else
    let '(ok, s) := rbd_try s in
    if negb ok then Some (s, iov, - ENOMEM, 0)
    else
      '(b, iov) ← fill_bounce m length iov cnt;
      let '(i, sub, ret) := rbd_aio_write (rb_image s) offset b in
      Some (set_image s i, iov, sub, ret).

(** [src tcmu-runner/rbd.c tcmu_rbd_read] *)
Definition tcmu_rbd_read (s : rbd_st I) (m : mem) (iov : list iovec) (iov_cnt length offset : Z)
    : option (rbd_st I * mem * list iovec * reply) :=
  let '(ok, s) := rbd_try s in
  if negb ok then Some (s, m, iov, Rejected TCMU_STS_NO_RESOURCE)
  else
    let '(s, ret) := create_completion s in
    if ret <? 0 then Some (s, m, iov, Rejected TCMU_STS_NO_RESOURCE)
    else
      '(s, m, cb, ret, v) ← tcmu_rbd_aio_read (AioCb RBD_AIO_TYPE_READ length 0 0 None iov iov_cnt) s m length offset;
      if ret <? 0 then Some (s, m, iov, Rejected TCMU_STS_NO_RESOURCE)
      else
        '(s, m, iov, _, r) ← rbd_finish_aio_generic cb v s m [];
        Some (s, m, iov, Done r).

(** The iovec is not used again.
    [src tcmu-runner/rbd.c tcmu_rbd_write] *)
Definition tcmu_rbd_write (s : rbd_st I) (m : mem) (iov : list iovec) (iov_cnt length offset : Z)
    : option (rbd_st I * list iovec * reply) :=
  let '(ok, s) := rbd_try s in
  if negb ok then Some (s, iov, Rejected TCMU_STS_NO_RESOURCE)
  else
    let '(s, ret) := create_completion s in
    if ret <? 0 then Some (s, iov, Rejected TCMU_STS_NO_RESOURCE)
    else
      '(s, iov, ret, v) ← tcmu_rbd_aio_write s m iov iov_cnt length offset;
      if ret <? 0 then Some (s, iov, Rejected TCMU_STS_NO_RESOURCE)
      else
        '(s, _, _, _, r) ← rbd_finish_aio_generic write_cb v s m [];
        Some (s, iov, Done r).

(** [src tcmu-runner/rbd.c tcmu_rbd_unmap] *)
Definition tcmu_rbd_unmap (s : rbd_st I) (off len : Z) : option (rbd_st I * reply) :=
  let '(ok, s) := rbd_try s in
  if negb ok then Some (s, Rejected TCMU_STS_NO_RESOURCE)
  else
    let '(s, ret) := create_completion s in
    if ret <? 0 then Some (s, Rejected TCMU_STS_NO_RESOURCE)
    else
      let '(i, ret, v) := rbd_aio_discard (rb_image s) off len in
      if ret <? 0 then Some (set_image s i, Rejected TCMU_STS_NO_RESOURCE)
      else
        '(s, _, _, _, r) ← rbd_finish_aio_generic write_cb v (set_image s i) ∅ [];
        Some (s, Done r).

(** [src tcmu-runner/rbd.c tcmu_rbd_flush] *)
Definition tcmu_rbd_flush (s : rbd_st I) : option (rbd_st I * reply) :=
  let '(ok, s) := rbd_try s in
  if negb ok then Some (s, Rejected TCMU_STS_NO_RESOURCE)
  else
    let '(s, ret) := create_completion s in
    if ret <? 0 then Some (s, Rejected TCMU_STS_NO_RESOURCE)
    else
      let '(i, ret, v) := rbd_aio_flush (rb_image s) in
      if ret <? 0 then Some (set_image s i, Rejected TCMU_STS_NO_RESOURCE)
      else
        '(s, _, _, _, r) ← rbd_finish_aio_generic write_cb v (set_image s i) ∅ [];
        Some (s, Done r).

(** [src tcmu-runner/rbd.c tcmu_rbd_aio_writesame] *)
Definition tcmu_rbd_aio_writesame (sense : list Z) (off len : Z) (iov : list iovec) (iov_cnt : Z) (s : rbd_st I) (m : mem)
    : option (rbd_st I * mem * list Z * reply) :=
  length ← tcmu_iovec_length iov iov_cnt;
  let refuse s := Some (s, m, sense, Rejected TCMU_STS_NO_RESOURCE) in
  let '(ok, s) := rbd_try s in
  if negb ok then refuse s
  else
    let '(ok, s) := rbd_try s in
    if negb ok then refuse s
    else
      '(b, _) ← fill_bounce m length iov iov_cnt;
      let '(s, ret) := create_completion s in
      if ret <? 0 then refuse s
      else
        let '(i, ret, v) := rbd_aio_writesame (rb_image s) off len b in
        if ret <? 0 then refuse (set_image s i)
        else
          '(s, m, _, sense, r) ← rbd_finish_aio_generic write_cb v (set_image s i) m sense;
          Some (s, m, sense, Done r).

(** [src tcmu-runner/rbd.c tcmu_rbd_aio_caw] *)
Definition tcmu_rbd_aio_caw (sense : list Z) (off len : Z) (iov : list iovec) (iov_cnt : Z) (s : rbd_st I) (m : mem)
    : option (rbd_st I * mem * list Z * reply) :=
  let buffer_length := u64 (2 * len) in
  let refuse s := Some (s, m, sense, Rejected TCMU_STS_NO_RESOURCE) in
  let '(ok, s) := rbd_try s in
  if negb ok then refuse s
  else
    let '(ok, s) := rbd_try s in
    if negb ok then refuse s
    else
      '(b, _) ← fill_bounce m buffer_length iov iov_cnt;
      let '(s, ret) := create_completion s in
      if ret <? 0 then refuse s
      else
        let '(i, ret, v, mis) :=
          rbd_aio_compare_and_write (rb_image s) off (take (Z.to_nat len) b) (take (Z.to_nat len) (drop (Z.to_nat len) b)) in
        if ret <? 0 then refuse (set_image s i)
        else
          '(s, m, _, sense, r) ← rbd_finish_aio_generic (AioCb RBD_AIO_TYPE_CAW 0 off mis None [] 0) v (set_image s i) m sense;
          Some (s, m, sense, Done r).

(** The callouts as a backstore. *)
#[export] Instance rbd_backstore : Backstore (rbd_st I) := {|
  bs_data s := rbd_data (rb_image s);
  bs_read := tcmu_rbd_read;
  bs_write := tcmu_rbd_write;
  bs_unmap := tcmu_rbd_unmap;
  bs_flush := tcmu_rbd_flush
|}.

(** ** Commands that librbd does *)

(** A request over the state of a command. *)
Definition on_xst (f : rbd_st I -> mem -> option (rbd_st I * mem * list Z * reply)) (x : xst (rbd_st I))
    : option (xst (rbd_st I) * list Z * reply) :=
  '(s, m, sense, r) ← f (x_bs x) (x_mem x);
  Some (set_mem (set_bs x s) m, sense, r).

Definition rbd_caw_fn : offload_fn (B := rbd_st I) :=
  fun sense off len iov cnt => on_xst (tcmu_rbd_aio_caw sense off len iov cnt).
Definition rbd_writesame_fn : offload_fn (B := rbd_st I) :=
  fun sense off len iov cnt => on_xst (tcmu_rbd_aio_writesame sense off len iov cnt).

(** [src tcmu-runner/rbd.c tcmu_rbd_handle_cmd] *)
Definition tcmu_rbd_handle_cmd (dev : tcmu_device) (spawn_ok : bool) (cmd : tcmulib_cmd) (rdev : tcmur_device)
    (x : xst (rbd_st I)) : option (tcmur_device * (fin (rbd_st I) + unmap_result (rbd_st I))) :=
  let op := byte_at (cdb cmd) 0 in
  if (op =? WRITE_SAME) || (op =? WRITE_SAME_16) then tcmur_handle_writesame dev spawn_ok rbd_writesame_fn cmd rdev x
  else if op =? COMPARE_AND_WRITE then
    '(rdev, f) ← tcmur_handle_caw dev spawn_ok rbd_caw_fn cmd rdev x; Some (rdev, inl f)
  else Some (rdev, inl (Fin x (sense_buf cmd) false TCMU_STS_NOT_HANDLED)).
End rbd.
