(* ===== verification/RbdThm.v ===== *)
(** * The RBD handler keeps the contract of a backstore

    What librbd promises ([RbdLaws]), the proof that the callouts of [rbd.c]
    then satisfy [BackstoreLaws], and the commands that librbd does itself. *)

From S2P Require Import Prelude Scsi Iovec Sense Device Backstore FileBack Aio Rw RwSpec Unmap WriteSame.
From S2P Require Import Rdev Alua Offload RbdLock Rbd.

(** A range that a request wrote: its data on success, else anything. *)
Definition stored (data : list Z) (off : Z) (bs data' : list Z) (ok : Prop) : Prop :=
  exists w, length w = length bs /\ data' = write_at data off w /\ (ok -> w = bs).

Lemma stored_weaken data off bs data' (P Q : Prop) : stored data off bs data' P -> (Q -> P) -> stored data off bs data' Q.
Proof. intros (w & H1 & H2 & H3) H. exists w. auto. Qed.

(** Documented behaviour inside the image.  A request is complete with success
    when the call did not fail and the completion's value is not negative. *)
Class RbdLaws (I : Type) {HI : RbdApi I} := {
  rbd_wf : I -> Prop;
  law_completion : forall i, rbd_wf i -> let '(i', _) := rbd_aio_create_completion i in
    rbd_wf i' /\ rbd_data i' = rbd_data i;
  law_read : forall i off len, rbd_wf i -> 0 <= off -> 0 <= len -> off + len <= Z.of_nat (length (rbd_data i)) ->
    let '(i', sub, ret, bs) := rbd_aio_read i off len in
    rbd_wf i' /\ rbd_data i' = rbd_data i /\ Z.of_nat (length bs) <= len /\
    (0 <= sub -> 0 <= ret -> bs = read_at (rbd_data i) off len);
  law_write : forall i off bs, rbd_wf i -> 0 <= off -> off + Z.of_nat (length bs) <= Z.of_nat (length (rbd_data i)) ->
    let '(i', sub, ret) := rbd_aio_write i off bs in
    rbd_wf i' /\ stored (rbd_data i) off bs (rbd_data i') (0 <= sub /\ 0 <= ret);
  law_writesame : forall i off n bs, rbd_wf i -> 0 <= off -> 0 <= n -> bs <> [] ->
    off + n * Z.of_nat (length bs) <= Z.of_nat (length (rbd_data i)) ->
    let '(i', sub, ret) := rbd_aio_writesame i off (n * Z.of_nat (length bs)) bs in
    rbd_wf i' /\ stored (rbd_data i) off (same_blocks n bs) (rbd_data i') (0 <= sub /\ 0 <= ret);
  law_caw : forall i off cmp bs, rbd_wf i -> 0 <= off -> length cmp = length bs -> bs <> [] ->
    off + Z.of_nat (length bs) <= Z.of_nat (length (rbd_data i)) ->
    let '(i', sub, ret, mis) := rbd_aio_compare_and_write i off cmp bs in
    let old := read_at (rbd_data i) off (Z.of_nat (length bs)) in
    rbd_wf i' /\
    (cmp <> old -> rbd_data i' = rbd_data i /\ (0 <= sub -> ret < 0)) /\
    (cmp = old -> stored (rbd_data i) off bs (rbd_data i') (0 <= sub /\ 0 <= ret) /\ (0 <= sub -> ret <> - EILSEQ)) /\
    (0 <= sub -> ret = - EILSEQ -> off <= mis /\ compare_result cmp old off mis)
}.

Section contract.
Context {I : Type} {HI : RbdApi I} {HL : RbdLaws I} (iovecs : bool).

Lemma rbd_try_same (s : rbd_st I) : exists ok l, rbd_try s = (ok, RbdSt (rb_image s) l (rb_notes s)).
Proof. destruct s as [i [|ok l] n]; [by exists true, []|by exists ok, l]. Qed.

(** The start of a request. *)
Lemma create_completion_spec (s : rbd_st I) : rbd_wf (rb_image s) ->
  exists i ret, create_completion s = (RbdSt i (rb_alloc s) (rb_notes s), ret) /\ rbd_wf i /\ rbd_data i = rbd_data (rb_image s).
Proof.
  intros W. unfold create_completion. pose proof (law_completion _ W) as H.
  destruct (rbd_aio_create_completion (rb_image s)) as [i ret]. exists i, ret. by destruct H.
Qed.

(** The end of a request without a bounce buffer to copy back. *)
Lemma finish_plain cb ret (s : rbd_st I) m sense :
  (18 <= length sense)%nat \/ cb_type cb <> RBD_AIO_TYPE_CAW -> cb_type cb <> RBD_AIO_TYPE_READ \/ bounce_buffer cb = None \/ ret < 0 ->
  exists l sense' st, rbd_finish_aio_generic cb ret s m sense =
      Some (RbdSt (rb_image s) (rb_alloc s) l, m, cb_iov cb, sense', st) /\
    (st = TCMU_STS_OK <-> 0 <= ret) /\ (st <> TCMU_STS_MISCOMPARE -> sense' = sense) /\
    (st = TCMU_STS_MISCOMPARE -> ret = - EILSEQ /\ cb_type cb = RBD_AIO_TYPE_CAW /\
       tcmu_set_sense_info sense (u32 (caw_miscompare_offset cb - caw_offset cb)) = Some sense').
Proof.
  intros Hs Hb. unfold rbd_finish_aio_generic, tcmu_rbd_handle_timedout_cmd, tcmu_rbd_handle_blacklisted_cmd, add_note.
  destruct s as [i al ns]. cbn [rb_image rb_alloc rb_notes].
  destruct (Z.eqb_spec ret (- ETIMEDOUT)) as [->|_]; [eexists _, _, _; split; [reflexivity|]; by split_and!|].
  destruct (Z.eqb_spec ret (- ESHUTDOWN)) as [->|_]; [eexists _, _, _; split; [reflexivity|]; by split_and!|].
  case_bool_decide as Et; destruct (Z.eqb_spec ret (- EILSEQ)) as [El|_]; cbn [andb].
  1: { destruct Hs as [Hs|Hs]; [|done].
    destruct (tcmu_set_sense_info_is_Some sense (u32 (caw_miscompare_offset cb - caw_offset cb)) Hs) as [sn E].
    rewrite E. cbn [mbind option_bind].
    eexists _, _, _. split; [reflexivity|]. subst. by split_and!. }
  all: destruct (Z.eqb_spec ret (- EINVAL)) as [->|_]; [eexists _, _, _; split; [reflexivity|]; by split_and!|].
  all: try (eexists _, _, _; split; [reflexivity|]; case_decide; by split_and!).
  all: destruct (Z.ltb_spec ret 0).
  all: try (eexists _, _, _; split; [reflexivity|]; case_decide;
    (split; [split; [done|intros; exfalso; lia]|by split])).
  all: destruct (cb_type cb), (bounce_buffer cb), Hb as [|[|]]; try done; try lia; eexists _, _, _; (split; [reflexivity|]); by split_and!.
Qed.

(** ** Reads and writes *)

Lemma stored_none data off bs (P : Prop) : 0 <= off -> off + Z.of_nat (length bs) <= Z.of_nat (length data) -> ~ P ->
  stored data off bs data P.
Proof.
  intros H1 H2 H3. exists (read_at data off (Z.of_nat (length bs))).
  pose proof (length_read_at data off (Z.of_nat (length bs))). split; [lia|]. split; [by rewrite write_read_at by lia|done].
Qed.

Lemma fill_bounce_spec m iov g : gather m iov = Some g ->
  exists iov', fill_bounce m (Z.of_nat (length g)) iov (Z.of_nat (length iov)) = Some (g, iov').
Proof.
  intros Hg. unfold fill_bounce. rewrite Nat2Z.id. destruct (gather_whole m iov g Hg) as [iov' ->].
  cbn [mbind option_bind]. rewrite Z.eqb_refl. by exists iov'.
Qed.

Lemma scatter_spec m iov g bs : gather m iov = Some g -> iov_disj iov -> (length bs <= length g)%nat ->
  exists m', scatter m iov (Z.of_nat (length iov)) bs = Some m' /\
    gather m' iov = Some (bs ++ drop (length bs) g) /\
    (forall q n, outside iov q n -> mem_load m' q n = mem_load m q n).
Proof.
  intros Hg Hd Hl. destruct (memcpy_into_loop_spec iov m g bs (Z.of_nat (length bs)) 0 Hg Hd) as (m' & iov' & E & G & _ & F);
    try lia.
  exists m'. unfold scatter. rewrite E. split; [done|]. split; [|done]. rewrite G, <- (gather_length _ _ _ Hg).
  unfold min_nat. rewrite Z.min_l by lia. by rewrite Nat2Z.id, drop_0, firstn_all.
Qed.

Definition rbd_ok (s : rbd_st I) : Prop := rbd_wf (rb_image s).

Lemma rbd_write_spec s m iov g off :
  rbd_ok s -> gather m iov = Some g -> 0 <= off -> off + Z.of_nat (length g) <= Z.of_nat (length (rbd_data (rb_image s))) ->
  exists s' iov' r, tcmu_rbd_write iovecs s m iov (Z.of_nat (length iov)) (Z.of_nat (length g)) off = Some (s', iov', r) /\
    rbd_ok s' /\ r <> Rejected TCMU_STS_OK /\
    stored (rbd_data (rb_image s)) off g (rbd_data (rb_image s')) (r = Done TCMU_STS_OK).
Proof.
  intros W Hg H0 Hl. unfold tcmu_rbd_write. destruct (rbd_try_same s) as (ok & al & ->).
  assert (forall i st, rbd_data i = rbd_data (rb_image s) -> stored (rbd_data (rb_image s)) off g (rbd_data i) (Rejected st = Done TCMU_STS_OK)) as Hno.
  { intros i st ->. by apply stored_none. }
  destruct ok; cbn [negb]; [|by eexists _, _, _; split_and!; eauto].
  destruct (create_completion_spec (RbdSt (rb_image s) al (rb_notes s)) W) as (i & ret & -> & Wi & Di). cbn [rb_image rb_alloc rb_notes] in *.
  case_if; [by eexists _, _, _; split_and!; eauto|].
  assert (forall (s0 : rbd_st I) (iov0 : list iovec) bs, rb_image s0 = i -> bs = g -> exists s' iov' r,
    (let '(i', sub, v) := rbd_aio_write (rb_image s0) off bs in
     '(s, iov, ret, v) ← Some (set_image s0 i', iov0, sub, v);
     if ret <? 0 then Some (s, iov, Rejected TCMU_STS_NO_RESOURCE)
     else '(s, _, _, _, r) ← rbd_finish_aio_generic write_cb v s m []; Some (s, iov, Done r)) = Some (s', iov', r) /\
    rbd_ok s' /\ r <> Rejected TCMU_STS_OK /\
    stored (rbd_data (rb_image s)) off g (rbd_data (rb_image s')) (r = Done TCMU_STS_OK)) as Hw.
  { intros s0 iov0 bs -> ->. rewrite <- Di in Hl |- *. pose proof (law_write i off g Wi H0 Hl) as Hlaw.
    destruct (rbd_aio_write i off g) as [[i' sub] v]. destruct Hlaw as [Wi' Hst]. cbn [mbind option_bind].
    destruct (Z.ltb_spec sub 0).
    - eexists _, _, _. split_and!; try done. eapply stored_weaken; [exact Hst|]. done.
    - destruct (finish_plain write_cb v (set_image s0 i') m []) as (l & sn & st & -> & Hok & _); [by right|by left|].
      cbn [mbind option_bind]. eexists _, _, _. split_and!; try done.
      eapply stored_weaken; [exact Hst|]. intros [= ->]. split; [done|]. by apply Hok. }
  unfold tcmu_rbd_aio_write. destruct iovecs.
  - rewrite Nat2Z.id, firstn_all, Hg. cbn [mbind option_bind].
    specialize (Hw (RbdSt i al (rb_notes s)) iov g eq_refl eq_refl). cbn [rb_image] in *.
    destruct (rbd_aio_write i off g) as [[i' sub] v]. exact Hw.
  - destruct (rbd_try_same (RbdSt i al (rb_notes s))) as (ok & al' & ->). cbn [rb_image rb_notes].
    destruct ok; cbn [negb]; [|cbn [mbind option_bind]; by eexists _, _, _; split_and!; eauto].
    destruct (fill_bounce_spec m iov g Hg) as [iov' ->]. cbn [mbind option_bind].
    specialize (Hw (RbdSt i al' (rb_notes s)) iov' g eq_refl eq_refl). cbn [rb_image] in *.
    destruct (rbd_aio_write i off g) as [[i' sub] v]. exact Hw.
Qed.

(** A read that is complete, with its bytes in the iovec or in the bounce
    buffer. *)
Lemma finish_read iov len (bs : list Z) v (s0 : rbd_st I) m (g : list Z) :
  gather m iov = Some g -> iov_disj iov -> len = Z.of_nat (length g) -> (0 <= v -> length bs = length g) ->
  exists s' m' iov' sn st,
    rbd_finish_aio_generic (AioCb RBD_AIO_TYPE_READ len 0 0 (Some bs) iov (Z.of_nat (length iov))) v s0 m [] =
      Some (s', m', iov', sn, st) /\ rb_image s' = rb_image s0 /\ (st = TCMU_STS_OK <-> 0 <= v) /\
    gather m' iov = Some (if decide (0 <= v) then bs else g) /\
    (forall q k, outside iov q k -> mem_load m' q k = mem_load m q k).
Proof.
  intros Hg Hd -> Hb. set (cb := AioCb _ _ _ _ _ _ _). case_decide as Hv.
  - unfold rbd_finish_aio_generic. unfold ETIMEDOUT, ESHUTDOWN, EILSEQ, EINVAL.
    rewrite !(proj2 (Z.eqb_neq v _)) by lia. rewrite (proj2 (Z.ltb_ge v 0)) by lia. cbn [andb cb cb_type bounce_buffer].
    destruct (memcpy_into_loop_spec iov m g bs (Z.of_nat (length g)) 0 Hg Hd) as (m' & iov' & E & G & _ & F);
      [lia|lia|specialize (Hb Hv); lia|].
    unfold tcmu_memcpy_into_iovec. cbn [cb_iov cb_iov_cnt read_length cb]. rewrite E. cbn [mbind option_bind].
    eexists _, m', _, _, _. split; [reflexivity|]. split; [done|]. split; [done|]. split; [|done]. rewrite G.
    rewrite <- (gather_length _ _ _ Hg). unfold min_nat. rewrite Z.min_l, Nat2Z.id by lia. cbn [Z.to_nat].
    specialize (Hb Hv).
    by rewrite drop_0, take_ge, drop_all, app_nil_r by lia.
  - destruct (finish_plain cb v s0 m []) as (l & sn & st & -> & Hok & _); [by right|right; right; lia|].
    eexists _, _, _, _, _. split; [reflexivity|]. by split_and!.
Qed.

Lemma rbd_read_spec s m iov g off :
  rbd_ok s -> gather m iov = Some g -> iov_disj iov -> 0 <= off ->
  off + Z.of_nat (length g) <= Z.of_nat (length (rbd_data (rb_image s))) ->
  exists s' m' iov' r g', tcmu_rbd_read iovecs s m iov (Z.of_nat (length iov)) (Z.of_nat (length g)) off = Some (s', m', iov', r) /\
    rbd_ok s' /\ r <> Rejected TCMU_STS_OK /\ rbd_data (rb_image s') = rbd_data (rb_image s) /\
    gather m' iov = Some g' /\ (r = Done TCMU_STS_OK -> g' = read_at (rbd_data (rb_image s)) off (Z.of_nat (length g))) /\
    (forall q k, outside iov q k -> mem_load m' q k = mem_load m q k).
Proof.
  intros W Hg Hd H0 Hl. unfold tcmu_rbd_read. destruct (rbd_try_same s) as (ok & al & ->).
  destruct ok; cbn [negb]; [|by eexists _, _, _, _, g; split_and!; eauto].
  destruct (create_completion_spec (RbdSt (rb_image s) al (rb_notes s)) W) as (i & ret & -> & Wi & Di). cbn [rb_image rb_alloc rb_notes] in *.
  case_if; [by eexists _, _, _, _, g; split_and!; eauto|]. rewrite <- Di in Hl |- *.
  pose proof (length_read_at (rbd_data i) off (Z.of_nat (length g))) as Lr. unfold tcmu_rbd_aio_read.
  pose proof (law_read i off (Z.of_nat (length g)) Wi H0 ltac:(lia) Hl) as Hlaw. destruct iovecs.
  - cbn [cb_iov cb_iov_cnt rb_image]. rewrite Nat2Z.id, firstn_all, <- (gather_length _ _ _ Hg).
    destruct (rbd_aio_read i off (Z.of_nat (length g))) as [[[i' sub] v] bs]. destruct Hlaw as (Wi' & Di' & Lb & Hok).
    destruct (Z.ltb_spec sub 0) as [Hs|Hs]; cbn [mbind option_bind].
    { rewrite (proj2 (Z.ltb_lt _ _) Hs). by eexists _, _, _, _, g; split_and!; eauto. }
    destruct (scatter_spec m iov g bs Hg Hd ltac:(lia)) as (m' & -> & G & F). cbn [mbind option_bind].
    rewrite (proj2 (Z.ltb_ge _ _) Hs).
    destruct (finish_plain (AioCb RBD_AIO_TYPE_READ (Z.of_nat (length g)) 0 0 None iov (Z.of_nat (length iov))) v (set_image (RbdSt i al (rb_notes s)) i') m' [])
      as (l & sn & st & -> & Hst & _); [by right|by right; left|]. cbn [mbind option_bind].
    eexists _, _, _, _, _. split; [reflexivity|]. split_and!; try done. intros [= ->].
    rewrite Hok at 1 by (try apply Hst; done). assert (length bs = length g) as -> by (rewrite Hok by (try apply Hst; done); lia).
    by rewrite drop_all, app_nil_r.
  - destruct (rbd_try_same (RbdSt i al (rb_notes s))) as (ok & al' & ->). cbn [rb_image rb_notes].
    destruct ok; cbn [negb]; [|cbn [mbind option_bind]; by eexists _, _, _, _, g; split_and!; eauto].
    destruct (rbd_aio_read i off (Z.of_nat (length g))) as [[[i' sub] v] bs]. destruct Hlaw as (Wi' & Di' & Lb & Hok).
    cbn [mbind option_bind cb_type read_length caw_offset caw_miscompare_offset cb_iov cb_iov_cnt].
    destruct (Z.ltb_spec sub 0) as [Hs|Hs]; [by eexists _, _, _, _, g; split_and!; eauto|].
    destruct (finish_read iov (Z.of_nat (length g)) bs v (set_image (RbdSt i al' (rb_notes s)) i') m g)
      as (s' & m' & iov' & sn & st & -> & Ei & Hst & G & F); auto.
    { intros Hv. rewrite Hok by lia. lia. }
    cbn [mbind option_bind]. eexists _, _, _, _, _. split; [reflexivity|]. unfold rbd_ok. rewrite Ei.
    split_and!; try done. intros [= ->]. rewrite decide_True by by apply Hst. apply Hok; [done|by apply Hst].
Qed.

(** The contract as an instance, for the theorems about commands. *)
#[export] Instance rbd_laws : @BackstoreLaws (rbd_st I) (rbd_backstore iovecs).
Proof.
  refine {| bs_wf (s : rbd_st I) := rbd_ok s |}.
  - intros s m iov g off W Hg _ H0 Hl. destruct (rbd_write_spec s m iov g off W Hg H0 Hl)
      as (s' & iov' & r & E & W' & Hr & w & L & Ed & Hw). exists s', iov', r, w. by split_and!.
  - intros s m iov g off W Hg Hd H0 Hl. destruct (rbd_read_spec s m iov g off W Hg Hd H0 Hl)
      as (s' & m' & iov' & r & g' & E & W' & Hr & Ed & G & Hok & F). exists s', m', iov', r. split_and!; try done. by exists g'.
Defined.

(** ** COMPARE AND WRITE by librbd *)

(** [k]: the offset of the first byte that differs. *)
Definition miscompares (sense sense' : list Z) (c old : list Z) : Prop :=
  exists k, 0 <= k /\ compare_result c old 0 k /\ tcmu_set_sense_info sense (u32 k) = Some sense'.

Lemma compare_result_base c old off mis : 0 <= off <= mis -> compare_result c old off mis -> compare_result c old 0 (mis - off).
Proof.
  intros H. unfold compare_result. rewrite (proj2 (Z.eqb_neq mis (-1))), (proj2 (Z.eqb_neq (mis - off) (-1))) by lia.
  intros (H1 & H2 & H3). replace (mis - off - 0) with (mis - off) by lia. split; [lia|done].
Qed.

(** What a request leaves of the image [data], and how it answers. *)
Definition caw_answer (data : list Z) (sense : list Z) (off : Z) (c d : list Z) (s' : rbd_st I) (sense' : list Z) (r : reply) : Prop :=
  let old := read_at data off (Z.of_nat (length d)) in
  rbd_ok s' /\ r <> Rejected TCMU_STS_OK /\
  (c <> old -> rbd_data (rb_image s') = data /\ r <> Done TCMU_STS_OK) /\
  (c = old -> stored data off d (rbd_data (rb_image s')) (r = Done TCMU_STS_OK)) /\
  (r = Done TCMU_STS_MISCOMPARE -> miscompares sense sense' c old) /\ r <> Rejected TCMU_STS_MISCOMPARE.

Lemma caw_refused data sense off c d i al n :
  rbd_wf i -> rbd_data i = data -> 0 <= off -> off + Z.of_nat (length d) <= Z.of_nat (length data) ->
  caw_answer data sense off c d (RbdSt i al n) sense (Rejected TCMU_STS_NO_RESOURCE).
Proof. intros W <- H0 H1. unfold caw_answer. split_and!; try done. intros _. by apply stored_none. Qed.

Lemma rbd_caw_spec sense off iov s m c d :
  rbd_ok s -> gather m iov = Some (c ++ d) -> length c = length d -> d <> [] -> (18 <= length sense)%nat ->
  2 * Z.of_nat (length d) < 2 ^ 64 -> 0 <= off -> off + Z.of_nat (length d) <= Z.of_nat (length (rbd_data (rb_image s))) ->
  exists s' sense' r,
    tcmu_rbd_aio_caw sense off (Z.of_nat (length d)) iov (Z.of_nat (length iov)) s m = Some (s', m, sense', r) /\
    caw_answer (rbd_data (rb_image s)) sense off c d s' sense' r.
Proof.
  intros W Hg Hl Hd Hs H64 H0 Hin. unfold tcmu_rbd_aio_caw. destruct (rbd_try_same s) as (ok & al & ->).
  destruct ok; cbn [negb]; [|eexists _, _, _; split; [reflexivity|by apply caw_refused]].
  destruct (rbd_try_same (RbdSt (rb_image s) al (rb_notes s))) as (ok & al' & ->). cbn [rb_image rb_notes].
  destruct ok; cbn [negb]; [|eexists _, _, _; split; [reflexivity|by apply caw_refused]].
  rewrite u64_small by lia. replace (2 * Z.of_nat (length d)) with (Z.of_nat (length (c ++ d))) by (rewrite length_app; lia).
  destruct (fill_bounce_spec m iov _ Hg) as [iov' ->]. cbn [mbind option_bind].
  destruct (create_completion_spec (RbdSt (rb_image s) al' (rb_notes s)) W) as (i & ret & -> & Wi & Di). cbn [rb_image rb_alloc rb_notes] in *.
  case_if; [eexists _, _, _; split; [reflexivity|by apply caw_refused]|].
  rewrite Nat2Z.id, <- Hl, take_app_length, drop_app_length, Hl, firstn_all.
  rewrite <- Di in Hin. pose proof (law_caw i off c d Wi H0 Hl Hd Hin) as Hlaw. rewrite <- Di.
  destruct (rbd_aio_compare_and_write i off c d) as [[[i' sub] v] mis]. destruct Hlaw as (Wi' & Hne & Heq & Hmis).
  destruct (Z.ltb_spec sub 0) as [Hsub|Hsub].
  - eexists _, _, _. split; [reflexivity|]. split_and!; try done; cbn [rb_image set_image].
    + intros Hc. by destruct (Hne Hc).
    + intros Hc. destruct (Heq Hc) as [Hst _]. eapply stored_weaken; [exact Hst|]. intros; lia || done.
  - destruct (finish_plain (AioCb RBD_AIO_TYPE_CAW 0 off mis None [] 0) v (set_image (RbdSt i al' (rb_notes s)) i') m sense)
      as (l & sn & st & -> & Hst & Hsame & Hms); [by left|by left|]. cbn [mbind option_bind set_image rb_image].
    eexists _, _, _. split; [reflexivity|]. split_and!; try done; cbn [rb_image].
    + intros Hc. destruct (Hne Hc) as [Ed Hv]. split; [done|]. intros [= ->]. specialize (Hv Hsub).
      assert (0 <= v) by by apply Hst. lia.
    + intros Hc. destruct (Heq Hc) as [Hsto _]. eapply stored_weaken; [exact Hsto|]. intros [= ->].
      split; [done|by apply Hst].
    + intros [= ->]. destruct (Hms eq_refl) as (-> & _ & E). destruct (Hmis Hsub eq_refl) as [Hle Hcmp].
      exists (mis - off). split; [lia|]. split; [by apply compare_result_base|exact E].
Qed.
End contract.

(** What an offloaded COMPARE AND WRITE of the verify data [c] and the write
    data [d] may leave. *)
Definition caw_done {I : Type} {HI : RbdApi I} (sense : list Z) (off : Z) (c d : list Z) (x : xst (rbd_st I)) (f : fin (rbd_st I)) : Prop :=
  let data := rbd_data (rb_image (x_bs x)) in
  let data' := rbd_data (rb_image (x_bs (f_x f))) in
  let old := read_at data off (Z.of_nat (length d)) in
  x_mem (f_x f) = x_mem x /\
  (c <> old -> data' = data /\ f_sts f <> TCMU_STS_OK) /\
  (c = old -> stored data off d data' (f_sts f = TCMU_STS_OK)) /\
  (f_sts f = TCMU_STS_MISCOMPARE -> miscompares sense (f_sense f) c old).

(** C18: COMPARE AND WRITE by librbd is a compare and write, for every layout of
    the two halves in memory: whatever allocations fail, with a work queue or
    without, when the verify data differs from the image the image is unchanged
    and the command fails; when it is equal, a command that reports success has
    stored the write data at the LBA, and a failing one has changed no byte
    outside that range; and a miscompare puts the offset of the first
    difference into the sense data. *)
Theorem rbd_caw_atomic {I : Type} {HI : RbdApi I} {HL : RbdLaws I} (iovecs : bool) (dev : tcmu_device) (spawn : bool)
  (cmd : tcmulib_cmd) (c d : list Z) (lba : Z) (rdev : tcmur_device) (x : xst (rbd_st I)) :
  bytes_ok (cdb cmd) -> tcmu_get_lba (cdb cmd) = Some lba ->
  Z.of_nat (length c) = byte_at (cdb cmd) 13 * block_size dev -> length c = length d -> d <> [] ->
  2 * Z.of_nat (length d) < 2 ^ 32 -> lba + byte_at (cdb cmd) 13 <= num_lbas dev ->
  (18 <= length (sense_buf cmd))%nat ->
  dev_over (HB := rbd_backstore iovecs) dev (x_bs x) -> cmd_data cmd (x_mem x) (c ++ d) ->
  exists rdev' f, tcmur_handle_caw dev spawn rbd_caw_fn cmd rdev x = Some (rdev', f) /\
    dev_over (HB := rbd_backstore iovecs) dev (x_bs (f_x f)) /\
    caw_done (sense_buf cmd) (block_size dev * lba) c d x f.
Proof.
  intros Hb Hlba Hc Hl Hd H32 Hin Hs D C. pose proof C as [Hcnt Hg Hdj Hlen H64].
  pose proof (tcmu_get_lba_bound _ _ Hb Hlba) as Hlb. pose proof D as (W & DO & L & S).
  pose proof (dev_block_size_ok _ DO). pose proof (dev_num_lbas_ok _ DO).
  assert (0 < length d)%nat by (destruct d; [done|cbn; lia]).
  assert (0 <= byte_at (cdb cmd) 13) by nia.
  destruct (lba_offset dev (x_bs x) lba (byte_at (cdb cmd) 13) D) as (Eo & Ho & Hr); [lia..|].
  set (off := block_size dev * lba) in *. cbn [bs_data rbd_backstore] in Hr, L.
  assert (forall st l s, st <> TCMU_STS_OK -> st <> TCMU_STS_MISCOMPARE ->
    dev_over (HB := rbd_backstore iovecs) dev (x_bs x) /\
    caw_done (sense_buf cmd) off c d x (Fin (XSt (x_bs x) (x_mem x) l (x_caw x)) s false st)) as Hno.
  { intros st l s Hk1 Hk2. split; [done|]. unfold caw_done. cbn [f_x f_sts f_sense x_bs x_mem].
    split_and!; try done. intros _. apply stored_none; [lia|lia|done]. }
  unfold tcmur_handle_caw. pose proof (alua_check_sts dev spawn rdev) as Ha.
  destruct (alua_check_state dev spawn rdev) as [st rdev']. cbn [fst] in Ha.
  assert (x = XSt (x_bs x) (x_mem x) (x_alloc x) (x_caw x)) as Ex by by destruct x.
  destruct (sts_ok st) eqn:Est; cbn [negb].
  2:{ eexists _, _. split; [reflexivity|]. rewrite Ex at 3. rewrite Ex at 5. apply Hno; [by apply sts_ok_false|done]. }
  assert (Z.of_nat (length (c ++ d)) = 2 * (byte_at (cdb cmd) 13 * block_size dev)) as Lcd by (rewrite length_app; lia).
  assert (tcmu_iovec_length (cmd_iovec cmd) (iov_cnt cmd) = Some (2 * (byte_at (cdb cmd) 13 * block_size dev))) as El.
  { rewrite Hcnt, tcmu_iovec_length_spec, <- (gather_length _ _ _ Hg), Lcd. by rewrite u64_small by lia. }
  assert (handle_caw_check dev cmd = Some TCMU_STS_OK) as ->.
  { unfold handle_caw_check, check_iovec_length. rewrite Hlba, El. cbn [mbind option_bind].
    unfold tcmu_get_dev_block_size.
    replace (byte_at (cdb cmd) 13 * 2 * block_size dev) with (2 * (byte_at (cdb cmd) 13 * block_size dev)) by lia.
    rewrite u32_small, Z.eqb_refl by lia. cbn [negb]. unfold sts_ok. rewrite bool_decide_true by done. cbn [negb].
    by rewrite check_lbas_spec, (proj2 (Z.leb_le _ _)) by lia. }
  cbn [mbind option_bind]. change (negb (sts_ok TCMU_STS_OK)) with false. cbv iota.
  destruct (run_offload_cases dev (tcmur_caw_fn dev rbd_caw_fn cmd) cmd x
    (fun f => dev_over (HB := rbd_backstore iovecs) dev (x_bs (f_x f)) /\ caw_done (sense_buf cmd) off c d x f))
    as (f & -> & Hf); [intros l; by apply Hno| |by exists rdev', f].
  intros l. unfold tcmur_caw_fn. rewrite Hlba, El. cbn [mbind option_bind].
  rewrite Eo, (Z.mul_comm 2), Z.div_mul by lia. unfold call_offload, rbd_caw_fn, on_xst. rewrite Hcnt.
  destruct (rbd_caw_spec (sense_buf cmd) off (cmd_iovec cmd) (x_bs x) (x_mem x) c d)
    as (s' & sn & r & E & W' & Hr1 & Hne & Heq & Hm & Hr2); try done; [lia|cbn; lia|].
  replace (byte_at (cdb cmd) 13 * block_size dev) with (Z.of_nat (length d)) by lia.
  cbn [with_sense no_sense x_bs x_mem x_alloc x_caw fst snd]. rewrite E. cbn [mbind option_bind].
  eexists (set_mem (set_bs (XSt (x_bs x) (x_mem x) l (x_caw x)) s') (x_mem x)), sn, r. split; [reflexivity|].
  assert (forall st a, r = Done st \/ r = Rejected st ->
    let f := Fin (set_mem (set_bs (XSt (x_bs x) (x_mem x) l (x_caw x)) s') (x_mem x)) sn a st in
    dev_over (HB := rbd_backstore iovecs) dev (x_bs (f_x f)) /\ caw_done (sense_buf cmd) off c d x f) as Hpost.
  { intros st' a Hst. cbn [f_x]. unfold caw_done. cbn [f_x f_sts f_sense x_bs x_mem set_mem set_bs].
    assert (st' = TCMU_STS_OK -> r = Done TCMU_STS_OK) as Hok by (intros ->; by destruct Hst as [->| ->]).
    split.
    - apply (dev_over_step (HB := rbd_backstore iovecs) dev (x_bs x)); auto. cbn [bs_data rbd_backstore].
      destruct (decide (c = read_at (rbd_data (rb_image (x_bs x))) off (Z.of_nat (length d)))) as [Ec|Ec].
      + destruct (Heq Ec) as (w & Lw & -> & _). apply length_write_at; lia.
      + by destruct (Hne Ec) as [-> _].
    - split_and!; try done.
      + intros Ec. destruct (Hne Ec) as [Ed Hnr]. split; [done|]. auto.
      + intros Ec. eapply stored_weaken; [by apply Heq|done].
      + intros ->. apply Hm. by destruct Hst as [->| ->]. }
  destruct r as [st'|st']; [split|]; apply Hpost; auto.
Qed.

(** ** WRITE SAME by librbd *)

Section writesame.
Context {I : Type} {HI : RbdApi I} {HL : RbdLaws I} (iovecs : bool).

Lemma rbd_writesame_spec sense off k iov s m g :
  rbd_ok s -> gather m iov = Some g -> g <> [] -> Z.of_nat (length g) < 2 ^ 64 -> 0 <= off -> 0 <= k ->
  off + k * Z.of_nat (length g) <= Z.of_nat (length (rbd_data (rb_image s))) ->
  exists s' sense' r,
    tcmu_rbd_aio_writesame sense off (k * Z.of_nat (length g)) iov (Z.of_nat (length iov)) s m = Some (s', m, sense', r) /\
    rbd_ok s' /\ r <> Rejected TCMU_STS_OK /\
    stored (rbd_data (rb_image s)) off (same_blocks k g) (rbd_data (rb_image s')) (r = Done TCMU_STS_OK).
Proof.
  intros W Hg Hne H64 H0 Hk Hl. unfold tcmu_rbd_aio_writesame.
  rewrite tcmu_iovec_length_spec, <- (gather_length _ _ _ Hg), u64_small by lia. cbn [mbind option_bind].
  assert (forall i st, rbd_data i = rbd_data (rb_image s) ->
    stored (rbd_data (rb_image s)) off (same_blocks k g) (rbd_data i) (Rejected st = Done TCMU_STS_OK)) as Hno.
  { intros i st ->. apply stored_none; [done| |done]. by rewrite (length_same_blocks k g _ eq_refl Hk). }
  destruct (rbd_try_same s) as (ok & al & ->). destruct ok; cbn [negb]; [|by eexists _, _, _; split_and!; eauto].
  destruct (rbd_try_same (RbdSt (rb_image s) al (rb_notes s))) as (ok & al' & ->). cbn [rb_image rb_notes].
  destruct ok; cbn [negb]; [|by eexists _, _, _; split_and!; eauto].
  destruct (fill_bounce_spec m iov g Hg) as [iov' ->]. cbn [mbind option_bind].
  destruct (create_completion_spec (RbdSt (rb_image s) al' (rb_notes s)) W) as (i & ret & -> & Wi & Di). cbn [rb_image rb_alloc rb_notes] in *.
  case_if; [by eexists _, _, _; split_and!; eauto|]. rewrite <- Di in Hl |- *.
  pose proof (law_writesame i off k g Wi H0 Hk Hne Hl) as Hlaw.
  destruct (rbd_aio_writesame i off (k * Z.of_nat (length g)) g) as [[i' sub] v]. destruct Hlaw as [Wi' Hst].
  destruct (Z.ltb_spec sub 0).
  - eexists _, _, _. split; [reflexivity|]. split_and!; try done. by eapply stored_weaken; [exact Hst|].
  - destruct (finish_plain write_cb v (set_image (RbdSt i al' (rb_notes s)) i') m sense) as (l & sn & st & -> & Hok & _);
      [by right|by left|].
    cbn [mbind option_bind]. eexists _, _, _. split; [reflexivity|]. split_and!; try done.
    eapply stored_weaken; [exact Hst|]. intros [= ->]. split; [done|by apply Hok].
Qed.

Lemma writesame_wraps n bs : 0 < bs -> 2 ^ 32 mod bs = 0 -> u32 (bs * n) = (n mod (2 ^ 32 / bs)) * bs.
Proof.
  intros Hb Hd. pose proof (Z.div_mod (2 ^ 32) bs ltac:(lia)) as E. set (q := 2 ^ 32 / bs) in *.
  assert (0 < q) by (apply Z.div_str_pos; split; [lia|]; apply Z.divide_pos_le; [lia|]; by apply Z.mod_divide; [lia|]).
  unfold u32, wrap. rewrite E, Hd, Z.add_0_r. rewrite Z.mul_mod_distr_l by lia. lia.
Qed.

(** The checks let a command of one block through. *)
Lemma offload_check_ok dev cmd m g lba n :
  dev_ok dev -> tcmu_get_lba (cdb cmd) = Some lba -> tcmu_get_xfer_length (cdb cmd) = Some n ->
  cmd_data cmd m g -> Z.of_nat (length g) = block_size dev -> length (cmd_iovec cmd) = 1%nat ->
  0 <= lba < 2 ^ 64 -> 0 < n < 2 ^ 32 -> lba + n <= num_lbas dev ->
  handle_writesame_check dev cmd = Some TCMU_STS_OK.
Proof.
  intros DO Hlba Hn [Hcnt Hg _ _ _] Hbs Hone Hl Hn0 Hin. pose proof (dev_num_lbas_ok _ DO).
  unfold handle_writesame_check. rewrite Hlba, Hn. cbn [mbind option_bind]. rewrite Hcnt, Hone.
  destruct (cmd_iovec cmd) as [|v [|]]; [done| |done]. change (negb (Z.of_nat 1 =? 1)) with false. cbv iota.
  cbn [head mbind option_bind gather] in *. destruct (mem_load m (iov_base v) (iov_len v)) as [a|] eqn:Ea; [|done].
  cbn [mbind option_bind] in Hg. rewrite app_nil_r in Hg. injection Hg as ->. apply mem_load_length in Ea.
  unfold tcmu_get_dev_block_size. rewrite <- Ea, Hbs, Z.eqb_refl. cbn [negb].
  rewrite (proj2 (Z.eqb_neq n 0)) by lia. unfold VPD_MAX_WRITE_SAME_LENGTH. rewrite (proj2 (Z.ltb_ge _ n)) by lia.
  by rewrite check_lbas_spec, (proj2 (Z.leb_le _ _)) by lia.
Qed.
End writesame.

(** C39: WRITE SAME by librbd, for block sizes that divide 4 GiB: the command
    writes as many copies of the block as are left of the count when whole
    multiples of 4 GiB are taken away, since the byte count is computed in 32
    bits.  Below 4 GiB a command that reports success has written all copies, and
    a failing one has changed no byte outside the range; a command for exactly
    4 GiB leaves the image as it was, whatever it reports. *)
Theorem rbd_writesame_truncated {I : Type} {HI : RbdApi I} {HL : RbdLaws I} (iovecs : bool) (dev : tcmu_device)
  (spawn : bool) (cmd : tcmulib_cmd) (g : list Z) (lba n : Z) (rdev : tcmur_device) (x : xst (rbd_st I)) :
  bytes_ok (cdb cmd) -> tcmu_get_lba (cdb cmd) = Some lba -> tcmu_get_xfer_length (cdb cmd) = Some n ->
  has_unmap (rhandler dev) = false \/ Z.land (byte_at (cdb cmd) 1) 0x08 = 0 ->
  0 < n -> lba + n <= num_lbas dev -> 2 ^ 32 mod block_size dev = 0 ->
  Z.of_nat (length g) = block_size dev -> length (cmd_iovec cmd) = 1%nat ->
  dev_over (HB := rbd_backstore iovecs) dev (x_bs x) -> cmd_data cmd (x_mem x) g ->
  exists rdev' f,
    tcmur_handle_writesame (HB := rbd_backstore iovecs) dev spawn rbd_writesame_fn cmd rdev x = Some (rdev', inl f) /\
    dev_over (HB := rbd_backstore iovecs) dev (x_bs (f_x f)) /\
    let data := rbd_data (rb_image (x_bs x)) in
    let data' := rbd_data (rb_image (x_bs (f_x f))) in
    stored data (block_size dev * lba) (same_blocks (n mod (2 ^ 32 / block_size dev)) g) data' (f_sts f = TCMU_STS_OK) /\
    (block_size dev * n < 2 ^ 32 -> n mod (2 ^ 32 / block_size dev) = n) /\
    (block_size dev * n = 2 ^ 32 -> data' = data).
Proof.
  intros Hb Hlba Hn Hun Hn0 Hin Hdiv Hbs Hone D C. pose proof C as [Hcnt Hg Hdj Hlen H64].
  pose proof (tcmu_get_lba_bound _ _ Hb Hlba). pose proof (tcmu_get_xfer_length_bound _ _ Hb Hn).
  pose proof D as (W & DO & L & S). pose proof (dev_block_size_ok _ DO). pose proof (dev_num_lbas_ok _ DO).
  destruct (lba_offset dev (x_bs x) lba n D) as (Eo & Ho & Hr); [lia..|]. cbn [bs_data rbd_backstore] in Hr, L.
  set (off := block_size dev * lba) in *. set (q := 2 ^ 32 / block_size dev). set (k := n mod q).
  pose proof (Z.div_mod (2 ^ 32) (block_size dev) ltac:(lia)) as Eq. fold q in Eq. rewrite Hdiv, Z.add_0_r in Eq.
  assert (0 < q) as Hq by nia. assert (0 <= k < q) as Hk by by apply Z.mod_pos_bound.
  assert (k <= n) as Hkn by (apply Z.mod_le; lia).
  pose proof (length_same_blocks k g _ Hbs ltac:(lia)) as Lk.
  assert (k * block_size dev <= n * block_size dev) as Hkn' by (apply Z.mul_le_mono_nonneg_r; lia).
  assert (0 <= k * block_size dev) as Hk0 by (apply Z.mul_nonneg_nonneg; lia).
  set (data := rbd_data (rb_image (x_bs x))) in *. set (post := fun data' st =>
    stored data off (same_blocks k g) data' (st = TCMU_STS_OK) /\
    (block_size dev * n < 2 ^ 32 -> k = n) /\ (block_size dev * n = 2 ^ 32 -> data' = data)).
  assert (forall data' st, stored data off (same_blocks k g) data' (st = TCMU_STS_OK) -> post data' st) as Hpost.
  { intros data' st Hst. split; [done|]. split; [intros; apply Z.mod_small; nia|]. intros E.
    assert (k = 0) as Ek by (replace k with (q mod q) by (unfold k; f_equal; nia); by apply Z_mod_same_full).
    destruct Hst as (w & Lw & -> & _). rewrite Ek in Lw. destruct w; [|done]. apply write_at_nil. }
  assert (forall st l s, st <> TCMU_STS_OK -> let f := Fin (XSt (x_bs x) (x_mem x) l (x_caw x)) s false st in
    dev_over (HB := rbd_backstore iovecs) dev (x_bs (f_x f)) /\ post (rbd_data (rb_image (x_bs (f_x f)))) (f_sts f)) as Hno.
  { intros st l s Hst. split; [done|]. apply Hpost. cbn [f_x f_sts x_bs]. fold data. apply stored_none; [done|lia|done]. }
  assert (x = XSt (x_bs x) (x_mem x) (x_alloc x) (x_caw x)) as Ex by by destruct x.
  unfold tcmur_handle_writesame. destruct (alua_check_state dev spawn rdev) as [st rdev'].
  destruct (sts_ok st) eqn:Est; cbn [negb].
  2:{ exists rdev', (Fin x (sense_buf cmd) false st). split; [done|]. rewrite Ex. apply Hno. by apply sts_ok_false. }
  rewrite (offload_check_ok dev cmd (x_mem x) g lba n) by (done || lia).
  cbn [mbind option_bind]. change (negb (sts_ok TCMU_STS_OK)) with false. cbv iota.
  assert (has_unmap (rhandler dev) && negb (Z.land (byte_at (cdb cmd) 1) 8 =? 0) = false) as ->
    by (destruct Hun as [->| ->]; [done|by rewrite andb_false_r]).
  destruct (run_offload_cases dev (tcmur_writesame_work_fn dev rbd_writesame_fn cmd) cmd x
    (fun f => dev_over (HB := rbd_backstore iovecs) dev (x_bs (f_x f)) /\
              post (rbd_data (rb_image (x_bs (f_x f)))) (f_sts f)))
    as (f & -> & Hf); [intros l; by apply Hno| |by exists rdev', f].
  intros l. unfold tcmur_writesame_work_fn. rewrite Hlba, Hn. cbn [mbind option_bind].
  rewrite Eo. unfold tcmu_get_dev_block_size. rewrite writesame_wraps by lia. fold q. fold k.
  unfold call_offload, rbd_writesame_fn, on_xst. rewrite Hcnt.
  destruct (rbd_writesame_spec (sense_buf cmd) off k (cmd_iovec cmd) (x_bs x) (x_mem x) g)
    as (s' & sn & r & E & W' & Hr1 & Hst); try done; [by destruct g; [cbn in Hbs; lia|]|lia|lia|rewrite Hbs; fold data; lia|].
  rewrite Hbs in E. cbn [with_sense no_sense x_bs x_mem x_alloc x_caw fst snd]. rewrite E. cbn [mbind option_bind].
  eexists (set_mem (set_bs (XSt (x_bs x) (x_mem x) l (x_caw x)) s') (x_mem x)), sn, r. split; [reflexivity|].
  assert (forall st' a, r = Done st' \/ r = Rejected st' ->
    let f := Fin (set_mem (set_bs (XSt (x_bs x) (x_mem x) l (x_caw x)) s') (x_mem x)) sn a st' in
    dev_over (HB := rbd_backstore iovecs) dev (x_bs (f_x f)) /\ post (rbd_data (rb_image (x_bs (f_x f)))) (f_sts f)) as Hfin.
  { intros st' a Hrs. cbn [f_x f_sts x_bs set_mem set_bs]. split.
    - apply (dev_over_step (HB := rbd_backstore iovecs) dev (x_bs x)); auto. cbn [bs_data rbd_backstore].
      destruct Hst as (w & Lw & -> & _). apply length_write_at; fold data; lia.
    - apply Hpost. eapply stored_weaken; [exact Hst|]. intros ->. by destruct Hrs as [->| ->]. }
  destruct r as [st'|st']; [split|]; apply Hfin; auto.
Qed.

(** ** Losing the cluster *)

Section loss.
Context {I : Type} {HI : RbdApi I} (iovecs : bool).

Definition notes_of (st : tcmu_sts) : list note :=
  match st with TCMU_STS_TIMEOUT => [ConnLost] | TCMU_STS_TRANSITION => [LockLost] | _ => [] end.

Lemma finish_notes cb v (s : rbd_st I) m sense s' m' iov' sense' st :
  rbd_finish_aio_generic cb v s m sense = Some (s', m', iov', sense', st) -> rb_notes s' = rb_notes s ++ notes_of st.
Proof.
  unfold rbd_finish_aio_generic, tcmu_rbd_handle_timedout_cmd, tcmu_rbd_handle_blacklisted_cmd.
  case_if; [by intros [= <- _ _ _ <-]|]. case_if; [by intros [= <- _ _ _ <-]|].
  case_if. { destruct (tcmu_set_sense_info _ _); [|done]. intros [= <- _ _ _ <-]. by rewrite app_nil_r. }
  case_if; [intros [= <- _ _ _ <-]; by rewrite app_nil_r|].
  case_if; [destruct (decide (cb_type cb = RBD_AIO_TYPE_READ)); intros [= <- _ _ _ <-]; by rewrite app_nil_r|].
  destruct (cb_type cb), (bounce_buffer cb); try (intros [= <- _ _ _ <-]; by rewrite app_nil_r).
  destruct (tcmu_memcpy_into_iovec _ _ _ _ _) as [[[m1 iov1] c1]|]; [|done]. intros [= <- _ _ _ <-]. by rewrite app_nil_r.
Qed.

Lemma try_notes (s : rbd_st I) : rb_notes (rbd_try s).2 = rb_notes s.
Proof. by destruct s as [i [|ok l] n]. Qed.

Lemma completion_notes (s : rbd_st I) : rb_notes (create_completion s).1 = rb_notes s.
Proof. unfold create_completion. by destruct (rbd_aio_create_completion _). Qed.

Lemma write_notes (s : rbd_st I) m iov cnt len off s' iov' st :
  tcmu_rbd_write iovecs s m iov cnt len off = Some (s', iov', Done st) -> rb_notes s' = rb_notes s ++ notes_of st.
Proof.
  unfold tcmu_rbd_write. pose proof (try_notes s) as H1. destruct (rbd_try s) as [ok s1]. cbn [snd] in H1.
  destruct ok; [|done]. cbn [negb]. pose proof (completion_notes s1) as H2. destruct (create_completion s1) as [s2 ret].
  cbn [fst] in H2. case_if; [done|]. destruct (tcmu_rbd_aio_write iovecs s2 m iov cnt len off) as [[[[s3 iov3] sub] v]|] eqn:E; [|done].
  assert (rb_notes s3 = rb_notes s2) as H3.
  { unfold tcmu_rbd_aio_write in E. destruct iovecs.
    - destruct (gather m _); [|done]. cbn [mbind option_bind] in E. destruct (rbd_aio_write _ _ _) as [[i sb] v0]. by injection E as <- _ _ _.
    - pose proof (try_notes s2) as H4. destruct (rbd_try s2) as [ok s4]. cbn [snd] in H4. destruct ok; cbn [negb] in E.
      + destruct (fill_bounce _ _ _ _) as [[b iov4]|]; [|done]. cbn [mbind option_bind] in E.
        destruct (rbd_aio_write _ _ _) as [[i sb] v0]. by injection E as <- _ _ _.
      + by injection E as <- _ _ _. }
  cbn [mbind option_bind]. case_if; [done|].
  destruct (rbd_finish_aio_generic write_cb v s3 m []) as [[[[[s5 m5] iov5] sn5] st5]|] eqn:Ef; [|done].
  cbn [mbind option_bind]. intros [= <- _ <-]. rewrite (finish_notes _ _ _ _ _ _ _ _ _ _ Ef). congruence.
Qed.
End loss.


(** ** An image that keeps the promises *)

Module DemoImage.

(** [im_ret]: what every completion says, if it is an error. *)
Record img := Img { im_data : list Z; im_ret : Z }.

Definition store (i : img) (off : Z) (bs : list Z) : img * Z * Z :=
  if im_ret i <? 0 then (i, 0, im_ret i) else (Img (write_at (im_data i) off bs) (im_ret i), 0, 0).
Definition compare_and_write (i : img) (off : Z) (cmp bs : list Z) : img * Z * Z * Z :=
  let old := read_at (im_data i) off (Z.of_nat (length bs)) in
  if im_ret i <? 0 then (i, 0, im_ret i, 0)
  else if bool_decide (cmp = old) then (store i off bs, 0)
  else (i, 0, - EILSEQ, off + first_mismatch cmp old).

#[global] Instance img_api : RbdApi img := {|
  rbd_data := im_data;
  rbd_aio_create_completion i := (i, 0);
  rbd_aio_read i off len := (i, 0, im_ret i, if im_ret i <? 0 then [] else read_at (im_data i) off len);
  rbd_aio_write := store;
  rbd_aio_discard i off len := store i off (zeros (Z.to_nat len));
  rbd_aio_flush i := (i, 0, im_ret i);
  rbd_aio_writesame i off len bs := store i off (same_blocks (len / Z.of_nat (length bs)) bs);
  rbd_aio_compare_and_write := compare_and_write
|}.

Lemma store_ok i off bs : im_ret i <> - EILSEQ -> 0 <= off -> off + Z.of_nat (length bs) <= Z.of_nat (length (im_data i)) ->
  let '(i', sub, ret) := store i off bs in
  im_ret i' <> - EILSEQ /\ stored (im_data i) off bs (im_data i') (0 <= sub /\ 0 <= ret).
Proof.
  intros W H0 Hl. unfold store. destruct (Z.ltb_spec (im_ret i) 0).
  - split; [done|]. apply stored_none; [done..|lia].
  - split; [done|]. exists bs. by split_and!.
Qed.

#[global] Instance img_laws : RbdLaws img.
Proof.
  refine {| rbd_wf i := im_ret i <> - EILSEQ |}.
  - done.
  - intros i off len W H0 H1 Hl. cbn in *. pose proof (length_read_at (im_data i) off len H0 H1 Hl) as L.
    destruct (Z.ltb_spec (im_ret i) 0); split_and!; try done; cbn; lia.
  - intros. by apply store_ok.
  - intros i off n bs W H0 H1 Hne Hl. cbn in *. rewrite Z.div_mul by (destruct bs; [done|cbn; lia]).
    apply store_ok; auto. by rewrite (length_same_blocks n bs _ eq_refl H1).
  - intros i off cmp bs W H0 Hc Hne Hl. cbn in *. pose proof (store_ok i off bs W H0 Hl) as Hs.
    pose proof (length_read_at (im_data i) off (Z.of_nat (length bs)) H0 ltac:(lia) Hl) as L. unfold compare_and_write.
    destruct (Z.ltb_spec (im_ret i) 0) as [Hr|Hr].
    + split_and!; try done; intros; split; try done; try lia. apply stored_none; [done..|lia].
    + case_bool_decide as E.
      * unfold store in *. rewrite (proj2 (Z.ltb_ge _ _) Hr) in *. destruct Hs as [_ Hs]. split_and!; try done.
      * destruct (first_mismatch_spec cmp (read_at (im_data i) off (Z.of_nat (length bs)))) as (H1 & H2 & H3); [lia|done|].
        split_and!; try done. intros _ _. split; [lia|]. unfold compare_result. rewrite (proj2 (Z.eqb_neq _ _)) by lia.
        replace (off + first_mismatch cmp (read_at (im_data i) off (Z.of_nat (length bs))) - off)
          with (first_mismatch cmp (read_at (im_data i) off (Z.of_nat (length bs)))) by lia. split; [lia|done].
Defined.
End DemoImage.

Definition rbd_dev (lbas bs : Z) : tcmu_device := Dev lbas bs 128 8 0 true false (str "rbd/disk") None ha_handler.
Definition rbd_start (data : list Z) (bytes : list Z) : xst (rbd_st DemoImage.img) :=
  XSt (RbdSt (DemoImage.Img data 0) [] []) {[ 0%nat := bytes ]} [] false.
Definition locked_dev : tcmur_device := Rdev false true false false FAILOVER_EXPLICIT LOCKED 0.

(** The two halves are separate segments. *)
Example rbd_caw_atomic_witness :
  exists rdev f,
    tcmur_handle_caw (rbd_dev 4 4) true rbd_caw_fn split_cmd locked_dev
      (rbd_start (replicate 16 5) [5; 5; 5; 5; 7; 7; 7; 7]) = Some (rdev, f) /\
    f_sts f = TCMU_STS_OK /\
    stored (replicate 16 5) 4 [7; 7; 7; 7] (rbd_data (rb_image (x_bs (f_x f)))) True /\
    rbd_data (rb_image (x_bs (f_x f))) = replicate 4 5 ++ replicate 4 7 ++ replicate 8 5.
Proof.
  destruct (rbd_caw_atomic true (rbd_dev 4 4) true split_cmd [5; 5; 5; 5] [7; 7; 7; 7] 1 locked_dev
    (rbd_start (replicate 16 5) [5; 5; 5; 5; 7; 7; 7; 7])) as (rdev & f & E & _ & _ & _ & Hst & _).
  - apply caw_cdb_ok. unfold is_byte. lia.
  - reflexivity.
  - reflexivity.
  - reflexivity.
  - done.
  - reflexivity.
  - done.
  - by apply leb_complete.
  - split; [done|]. split; [split; cbn; lia|]. by split.
  - split; [done|reflexivity| |cbn; lia|cbn; lia].
    split; [|by split]. constructor; [|constructor]. right. left. cbn. lia.
  - exists rdev, f. split; [exact E|]. vm_compute in E. injection E as <- <-. split; [reflexivity|]. split; [|reflexivity].
    eapply stored_weaken; [exact (Hst eq_refl)|done].
Defined.

Definition same_cmd (n : Z) : tcmulib_cmd :=
  Cmd 1 ([WRITE_SAME_16; 0] ++ be_enc 8 0 ++ be_enc 4 n ++ [0; 0]) [Iov (Ptr 0 0) 512] 1 (zeros 96).

(** 4 GiB of blocks: success, and nothing is written. *)
Example rbd_writesame_truncated_witness :
  exists (data : list Z) rdev f, Z.of_nat (length data) = 2 ^ 32 /\
    tcmur_handle_writesame (HB := rbd_backstore true) (rbd_dev (2 ^ 23) 512) true rbd_writesame_fn (same_cmd (2 ^ 23)) locked_dev
      (rbd_start data (replicate 512 7)) = Some (rdev, inl f) /\
    f_sts f = TCMU_STS_OK /\ rbd_data (rb_image (x_bs (f_x f))) = data.
Proof.
  assert (Z.of_nat (length (replicate (Z.to_nat (2 ^ 32)) 0)) = 2 ^ 32) as L by (rewrite length_replicate; apply Z2Nat.id; lia).
  exists (replicate (Z.to_nat (2 ^ 32)) 0). revert L. generalize (replicate (Z.to_nat (2 ^ 32)) 0). intros data L.
  destruct (rbd_writesame_truncated true (rbd_dev (2 ^ 23) 512) true (same_cmd (2 ^ 23)) (replicate 512 7) 0 (2 ^ 23)
    locked_dev (rbd_start data (replicate 512 7))) as (rdev & f & E & _ & _ & _ & Hw).
  - cbn. repeat apply Forall_cons_2; try apply Forall_nil_2; unfold is_byte; by vm_compute.
  - by vm_compute.
  - by vm_compute.
  - right. reflexivity.
  - done.
  - done.
  - reflexivity.
  - reflexivity.
  - reflexivity.
  - split; [done|]. split; [split; cbn; lia|]. split; [exact L|done].
  - split; [done|reflexivity|by split; constructor|cbn; lia|cbn; lia].
  - exists rdev, f. split; [done|]. split; [exact E|]. split; [|exact (Hw eq_refl)].
    vm_compute in E. injection E as _ <-. reflexivity.
Defined.

Definition fenced_img : rbd_st DemoImage.img := RbdSt (DemoImage.Img (replicate 16 5) (- ESHUTDOWN)) [] [].

