(* ===== verification/RbdOpen.v ===== *)
(** * Opening and closing an RBD device

    The callouts [open] and [close] of [rbd.c]: the configuration string, the
    connection to the cluster, the timeout of its requests, the class of the
    disks behind the pool, and the image.  librados and librbd are a parameter:
    the class [RadosApi].  What is connected, open and allocated is tracked: a
    call on a handle that is closed, a second release and an access through freed
    memory are undefined ([None]). *)

From S2P Require Import Prelude Scsi Device Rdev Configfs RbdLock Rbd QcowOpen.

(** ** librados and librbd *)

(** The functions of the libraries on a cluster handle, its context for a pool
    and an image.  [rados_mon_command]: the result and the answer, unless it is
    NULL.  [atof_gt s n] is [atof(s) > n] of the C library, on a floating point
    number that is not computed further. *)
Class RadosApi (W : Type) := {
  rados_create : W -> option (list Z) -> W * Z;
  rados_conf_read_file : W -> option (list Z) -> W * Z;
  rados_conf_get : W -> list Z -> Z * list Z;
  rados_conf_set : W -> list Z -> list Z -> W * Z;
  rados_connect : W -> W * Z;
  rados_mon_command : W -> list Z -> Z * option (list Z);
  rados_ioctx_create : W -> list Z -> W * Z;
  rbd_open : W -> list Z -> W * Z;
  rbd_get_id : W -> Z * list Z;
  rados_service_register : W -> list Z -> list Z -> W * Z;
  rbd_get_size : W -> Z * Z;
  rbd_stat : W -> Z;
  rbd_close : W -> W;
  rados_ioctx_destroy : W -> W;
  rados_shutdown : W -> W;
  atof_gt : list Z -> Z -> bool
}.

(** ** State *)

(** The three handles are fields of [opn].
    [src tcmu-runner/rbd.c 81-91 struct tcmu_rbd_state] *)
Record tcmu_rbd_state := RbdState {
  image_name : option (list Z);
  pool_name : option (list Z);
  osd_op_timeout : option (list Z);
  conf_path : option (list Z);
  rbd_id : option (list Z)
}.

Definition st_set_image (s : tcmu_rbd_state) v := RbdState v (pool_name s) (osd_op_timeout s) (conf_path s) (rbd_id s).
Definition st_set_pool (s : tcmu_rbd_state) v := RbdState (image_name s) v (osd_op_timeout s) (conf_path s) (rbd_id s).
Definition st_set_timeout (s : tcmu_rbd_state) v := RbdState (image_name s) (pool_name s) v (conf_path s) (rbd_id s).
Definition st_set_conf (s : tcmu_rbd_state) v := RbdState (image_name s) (pool_name s) (osd_op_timeout s) v (rbd_id s).
Definition st_set_id (s : tcmu_rbd_state) v := RbdState (image_name s) (pool_name s) (osd_op_timeout s) (conf_path s) v.

(** The handles of a device that are open: cluster, pool context, image. *)
Record handles := Handles { h_cluster : bool; h_ioctx : bool; h_image : bool }.
Definition no_handles : handles := Handles false false false.
Definition all_handles : handles := Handles true true true.

(** The libraries, the outcomes of the coming allocations, the private state
    while it is allocated, the handles, the device. *)
Record opn (W : Type) := Opn {
  op_w : W;
  op_alloc : list bool;
  op_state : option tcmu_rbd_state;
  op_handles : handles;
  op_dev : tcmu_device
}.
Arguments Opn {W}. Arguments op_w {W}. Arguments op_alloc {W}. Arguments op_state {W}.
Arguments op_handles {W}. Arguments op_dev {W}.

Definition O (W A : Type) : Type := opn W -> option (A * opn W).

#[export] Instance O_ret {W} : MRet (O W) := fun A a s => Some (a, s).
#[export] Instance O_bind {W} : MBind (O W) := fun A B f m s =>
  match m s with None => None | Some (a, s) => f a s end.

Section prims.
Context {W : Type}.

Definition crash {A} : O W A := fun _ => None.
Definition lift {A} (o : option A) : O W A := fun s => a ← o; Some (a, s).
Definition get_opn : O W (opn W) := fun s => Some (s, s).
Definition try_alloc : O W bool := fun s =>
  match op_alloc s with
  | [] => Some (true, s)
  | ok :: l => Some (ok, Opn (op_w s) l (op_state s) (op_handles s) (op_dev s))
  end.
Definition set_opn_dev (d : tcmu_device) : O W unit := fun s =>
  Some (tt, Opn (op_w s) (op_alloc s) (op_state s) (op_handles s) d).

(** The private state: an access when it is not allocated is undefined. *)
Definition get_state : O W tcmu_rbd_state := fun s => st ← op_state s; Some (st, s).
Definition put_state (f : tcmu_rbd_state -> tcmu_rbd_state) : O W unit := fun s =>
  st ← op_state s; Some (tt, Opn (op_w s) (op_alloc s) (Some (f st)) (op_handles s) (op_dev s)).
Definition new_state : O W unit := fun s =>
  Some (tt, Opn (op_w s) (op_alloc s) (Some (RbdState None None None None None)) (op_handles s) (op_dev s)).

(** A call of the libraries: the handles it needs and those there are after a
    success; a negative result opens nothing. *)
Definition call (need : handles -> bool) (gain : handles -> handles) (f : W -> W * Z) : O W Z := fun s =>
  if need (op_handles s) then
    let '(w, ret) := f (op_w s) in
    Some (ret, Opn w (op_alloc s) (op_state s) (if ret <? 0 then op_handles s else gain (op_handles s)) (op_dev s))
  else None.
Definition ask {A} (need : handles -> bool) (f : W -> A) : O W A := fun s =>
  if need (op_handles s) then Some (f (op_w s), s) else None.
Definition drop_handle (need : handles -> bool) (lose : handles -> handles) (f : W -> W) : O W unit := fun s =>
  if need (op_handles s)
  then Some (tt, Opn (f (op_w s)) (op_alloc s) (op_state s) (lose (op_handles s)) (op_dev s))
  else None.
End prims.

Definition no_cluster (h : handles) : bool := negb (h_cluster h).
Definition only_cluster (h : handles) : bool := h_cluster h && negb (h_ioctx h) && negb (h_image h).
Definition ioctx_no_image (h : handles) : bool := h_cluster h && h_ioctx h && negb (h_image h).
Definition with_image (h : handles) : bool := h_cluster h && h_ioctx h && h_image h.

(** ** Text *)

Fixpoint skip_delim (delim : Z) (s : list Z) : list Z :=
  match s with c :: t => if c =? delim then skip_delim delim t else s | [] => [] end.
Fixpoint take_tok (delim : Z) (s : list Z) : list Z * list Z :=
  match s with
  | c :: t => if c =? delim then ([], t) else let '(a, r) := take_tok delim t in (c :: a, r)
  | [] => ([], [])
  end.

(** [strtok] from [s] on: the token and what is left for the next call. *)
Definition strtok (delim : Z) (s : list Z) : option (list Z * list Z) :=
  match skip_delim delim s with [] => None | t => Some (take_tok delim t) end.

(** [atoi] and [int] arithmetic, [None] on overflow. *)
Definition to_int (z : Z) : option Z := if (- 2 ^ 31 <=? z) && (z <? 2 ^ 31) then Some z else None.
Definition atoi (s : list Z) : option Z :=
  match skip_space s with
  | 45 :: t => to_int (- (digits_val 0 t).1)
  | 43 :: t => to_int (digits_val 0 t).1
  | t => to_int (digits_val 0 t).1
  end.
(** ["%d"] *)
Definition sdec (n : Z) : list Z := if n <? 0 then 45 :: dec (- n) else dec n.

(** The string that starts a buffer. *)
Fixpoint c_string (buf : list Z) : list Z :=
  match buf with c :: t => if c =? 0 then [] else c :: c_string t | [] => [] end.

(** The index of the quote, or of the terminator that follows a backslash;
    [None] is NULL.
    [src tcmu-runner/rbd.c tcmu_rbd_find_quote] *)
Fixpoint tcmu_rbd_find_quote (s : list Z) : option nat :=
  match s with
  | [] => None
  | c :: t =>
      if c =? 34 then Some 0%nat
      else if c =? 92 then
        match t with
        | [] => Some 1%nat
        | _ :: t => i ← tcmu_rbd_find_quote t; Some (i + 2)%nat
        end
      else i ← tcmu_rbd_find_quote t; Some (i + 1)%nat
  end.

(** [strstr] for a pattern that need not be looked at further. *)
Definition occurs (pat s : list Z) : bool := match strstr pat s with Some _ => true | None => false end.

Definition quote : Z := 34.
Definition crush_key : list Z := [quote] ++ str "crush_rule" ++ [quote] ++ str ":" ++ [quote].

(** The quoted name of the rule in the answer; [Some None] when it is not found.
    [None]: the terminator is stored outside the buffer.
    [src tcmu-runner/rbd.c 278-297 tcmu_rbd_detect_device_class] *)
Definition crush_rule_of (mon_buf : list Z) : option (option (list Z)) :=
  if decide (mon_buf = []) then None
  else
    let s := c_string (take (length mon_buf - 1) mon_buf) in
    match strstr crush_key s with
    | None => Some None
    | Some m =>
        let crush_rule := drop 13 m in
        match tcmu_rbd_find_quote (drop 1 crush_rule) with
        | None => Some None
        | Some i =>
            if (length s - length crush_rule + i + 2 <? length mon_buf)%nat
            then Some (Some (take (i + 2) crush_rule)) else None
        end
    end.

(** Whether the list of rules has the quoted name.
    [src tcmu-runner/rbd.c 325-327 tcmu_rbd_detect_device_class] *)
Definition class_has (mon_buf crush_rule : list Z) : option bool :=
  if decide (mon_buf = []) then None
  else Some (occurs crush_rule (c_string (take (length mon_buf - 1) mon_buf))).

Definition json_str (s : list Z) : list Z := [quote] ++ s ++ [quote].
Definition pool_get_cmd (pool : list Z) : list Z :=
  str "{" ++ json_str (str "prefix") ++ str ": " ++ json_str (str "osd pool get") ++ str ", " ++
  json_str (str "pool") ++ str ": " ++ json_str pool ++ str ", " ++
  json_str (str "var") ++ str ": " ++ json_str (str "crush_rule") ++ str ", " ++
  json_str (str "format") ++ str ": " ++ json_str (str "json") ++ str "}".
Definition ls_by_class_cmd : list Z :=
  str "{" ++ json_str (str "prefix") ++ str ": " ++ json_str (str "osd crush rule ls-by-class") ++ str ", " ++
  json_str (str "class") ++ str ": " ++ json_str (str "ssd") ++ str ", " ++
  json_str (str "format") ++ str ": " ++ json_str (str "json") ++ str "}".

(** A string that is printed with [%s]. *)
Definition text_of (s : option (list Z)) : list Z := default (str "(null)") s.

(** [src tcmu-runner/libtcmu.c tcmu_set_dev_solid_state_media] *)
Definition tcmu_set_dev_solid_state_media (d : tcmu_device) (b : bool) : tcmu_device :=
  Dev (num_lbas d) (block_size d) (max_xfer_len d) (opt_unmap_gran d) (unmap_gran_align d)
      (write_cache_enabled d) b (cfgstring d) (dev_wwn d) (rhandler d).

Section open.
Context {W : Type} {HR : RadosApi W}.

(** ** The connection *)

(** [uname_ret] is what [uname] and [errno] give, with the name of the node.
    [src tcmu-runner/rbd.c tcmu_rbd_service_register] *)
Definition tcmu_rbd_service_register (uname_ret : Z) (nodename : list Z) : O W Z :=
  state ← get_state;
  if uname_ret <? 0 then mret uname_ret
  else
    ok ← try_alloc;
    if negb ok then mret (- ENOMEM)
    else
      '(ret, image_id) ← ask with_image rbd_get_id;
      if ret <? 0 then mret ret
      else
        ok ← try_alloc;
        if negb ok then mret (- ENOMEM)
        else
          let daemon := nodename ++ str ":" ++ text_of (pool_name state) ++ str "/" ++ text_of (image_name state) in
          ok ← try_alloc;
          if negb ok then mret (- ENOMEM)
          else
            let metadata := str "pool_name" ++ [0] ++ text_of (pool_name state) ++ [0] ++
                            str "image_name" ++ [0] ++ text_of (image_name state) ++ [0] ++
                            str "image_id" ++ [0] ++ image_id ++ [0] in
            call with_image (fun h => h) (fun w => rados_service_register w daemon metadata).

(** [dup_ok]: whether the rule can be copied, which is not checked.
    [src tcmu-runner/rbd.c tcmu_rbd_detect_device_class] *)
Definition tcmu_rbd_detect_device_class (dup_ok : bool) : O W unit :=
  state ← get_state;
  ok ← try_alloc;
  if negb ok then mret tt
  else
    '(ret, mon_buf) ← ask only_cluster (fun w => rados_mon_command w (pool_get_cmd (text_of (pool_name state))));
    match mon_buf with
    | None => mret tt
    | Some mon_buf =>
        if ret <? 0 then mret tt
        else
          crush_rule ← lift (crush_rule_of mon_buf);
          match crush_rule with
          | None => mret tt
          | Some crush_rule =>
              ok ← try_alloc;
              if negb ok then mret tt
              else
                '(ret, mon_buf) ← ask only_cluster (fun w => rados_mon_command w ls_by_class_cmd);
                match mon_buf with
                | None => mret tt
                | Some mon_buf =>
                    if ret <? 0 then mret tt
                    else if negb dup_ok then crash
                    else
                      has ← lift (class_has mon_buf crush_rule);
                      s ← get_opn;
                      if has : bool then set_opn_dev (tcmu_set_dev_solid_state_media (op_dev s) true) else mret tt
                end
          end
    end.

(** [src tcmu-runner/rbd.c tcmu_rbd_image_close] *)
Definition tcmu_rbd_image_close : O W unit :=
  drop_handle with_image (fun h => Handles (h_cluster h) (h_ioctx h) false) rbd_close;;
  drop_handle ioctx_no_image (fun h => Handles (h_cluster h) false false) rados_ioctx_destroy;;
  drop_handle only_cluster (fun _ => no_handles) rados_shutdown.

(** [src tcmu-runner/rbd.c 417-419 timer_check_and_set_def] *)
Definition set_op_timeout : O W Z :=
  state ← get_state;
  call only_cluster (fun h => h)
    (fun w => rados_conf_set w (str "rados_osd_op_timeout") (text_of (osd_op_timeout state))).

(** Whether the configured timeout is used as it is.
    [src tcmu-runner/rbd.c 386-386 timer_check_and_set_def] *)
Definition timeout_given (state : tcmu_rbd_state) (n : Z) : bool :=
  match osd_op_timeout state with Some t => atof_gt (W := W) t n | None => false end.

(** [src tcmu-runner/rbd.c timer_check_and_set_def] *)
Definition timer_check_and_set_def : O W Z :=
  state ← get_state;
  '(ret, buf) ← ask only_cluster (fun w => rados_conf_get w (str "osd_heartbeat_grace"));
  if negb (ret =? 0) then mret ret
  else
    grace ← lift (atoi buf);
    '(ret, buf) ← ask only_cluster (fun w => rados_conf_get w (str "osd_heartbeat_interval"));
    if negb (ret =? 0) then mret ret
    else
      interval ← lift (atoi buf);
      '(ret, buf) ← ask only_cluster (fun w => rados_conf_get w (str "rados_osd_op_timeout"));
      if negb (ret =? 0) then mret ret
      else
        sum ← lift (to_int (grace + interval));
        if timeout_given state sum then set_op_timeout
        else if atof_gt (W := W) buf sum then mret 0
        else
          n ← lift (to_int (sum + 5));
          ok ← try_alloc;
          put_state (fun s => st_set_timeout s (if ok : bool then Some (sdec n) else None));;
          if negb ok then mret (- ENOMEM) else set_op_timeout.

(** The labels, each of which goes on with the next.
    [src tcmu-runner/rbd.c 484-487 tcmu_rbd_image_open] *)
Definition err_shutdown (ret : Z) : O W Z :=
  drop_handle only_cluster (fun _ => no_handles) rados_shutdown;; mret ret.
(** [src tcmu-runner/rbd.c 481-483 tcmu_rbd_image_open] *)
Definition err_destroy (ret : Z) : O W Z :=
  drop_handle ioctx_no_image (fun h => Handles (h_cluster h) false false) rados_ioctx_destroy;; err_shutdown ret.
(** [src tcmu-runner/rbd.c 478-480 tcmu_rbd_image_open] *)
Definition err_close (ret : Z) : O W Z :=
  drop_handle with_image (fun h => Handles (h_cluster h) (h_ioctx h) false) rbd_close;; err_destroy ret.

(** [src tcmu-runner/rbd.c tcmu_rbd_image_open] *)
Definition tcmu_rbd_image_open (uname_ret : Z) (nodename : list Z) (dup_ok : bool) : O W Z :=
  state ← get_state;
  ret ← call no_cluster (fun _ => Handles true false false) (fun w => rados_create w (rbd_id state));
  if ret <? 0 then mret ret
  else
    ret ← call only_cluster (fun h => h) (fun w => rados_conf_read_file w (conf_path state));
    if bool_decide (is_Some (conf_path state)) && (ret <? 0) then err_shutdown ret
    else
      call only_cluster (fun h => h) (fun w => rados_conf_set w (str "rbd_cache") (str "false"));;
      timer_check_and_set_def;;
      ret ← call only_cluster (fun h => h) rados_connect;
      if ret <? 0 then err_shutdown ret
      else
        tcmu_rbd_detect_device_class dup_ok;;
        state ← get_state;
        ret ← call only_cluster (fun _ => Handles true true false)
                (fun w => rados_ioctx_create w (text_of (pool_name state)));
        if ret <? 0 then err_shutdown ret
        else
          ret ← call ioctx_no_image (fun _ => all_handles) (fun w => rbd_open w (text_of (image_name state)));
          if ret <? 0 then err_destroy ret
          else
            ret ← tcmu_rbd_service_register uname_ret nodename;
            if ret <? 0 then err_close ret else mret 0.

(** ** The device *)

(** [src tcmu-runner/rbd.c tcmu_rbd_state_free] *)
Definition tcmu_rbd_state_free : O W unit := fun s =>
  _ ← op_state s; Some (tt, Opn (op_w s) (op_alloc s) None (op_handles s) (op_dev s)).

(** [src tcmu-runner/rbd.c tcmu_rbd_check_image_size] *)
Definition tcmu_rbd_check_image_size (new_size : Z) : O W Z :=
  '(ret, rbd_size) ← ask with_image rbd_get_size;
  if ret <? 0 then mret ret else if negb (new_size =? rbd_size) then mret (- EINVAL) else mret 0.

(** [strdup] of a value that must not be empty, into a field.
    [src tcmu-runner/rbd.c 870-876 tcmu_rbd_open] *)
Definition copy_option (set : tcmu_rbd_state -> option (list Z) -> tcmu_rbd_state) (v : list Z) : O W bool :=
  ok ← try_alloc;
  put_state (fun s => set s (if ok : bool then Some v else None));;
  mret (ok && negb (bool_decide (v = []))).

(** One option; whether it could be taken.
    [src tcmu-runner/rbd.c 869-891 tcmu_rbd_open] *)
Definition take_option (opt : list Z) : O W bool :=
  if starts_with (str "osd_op_timeout=") opt then copy_option st_set_timeout (drop 15 opt)
  else if starts_with (str "conf=") opt then copy_option st_set_conf (drop 5 opt)
  else if starts_with (str "id=") opt then copy_option st_set_id (drop 3 opt)
  else mret true.

(** [fuel] bounds the options that are left.
    [src tcmu-runner/rbd.c 866-893 tcmu_rbd_open] *)
Fixpoint take_options (fuel : nat) (rest : list Z) : O W bool :=
  match strtok 59 rest with
  | None => mret true
  | Some (opt, rest) =>
      match fuel with
      | Datatypes.O => crash
      | S fuel => ok ← take_option opt; if ok : bool then take_options fuel rest else mret false
      end
  end.

(** Frees the copy of the string and the state.
    [src tcmu-runner/rbd.c 921-925 tcmu_rbd_open] *)
Definition free_config (ret : Z) : O W Z := tcmu_rbd_state_free;; mret ret.

(** [src tcmu-runner/rbd.c 919-920 tcmu_rbd_open] *)
Definition stop_image (ret : Z) : O W Z := tcmu_rbd_image_close;; free_config ret.

(** The configuration string behind its first slash: whether it was taken, or an
    error.
    [src tcmu-runner/rbd.c 839-893 tcmu_rbd_open] *)
Definition parse_config (config : list Z) : O W Z :=
  match strtok 47 config with
  | None => mret (- EINVAL)
  | Some (pool, rest) =>
      ok ← try_alloc;
      put_state (fun s => st_set_pool s (if ok : bool then Some pool else None));;
      if negb ok then mret (- ENOMEM)
      else
        match strtok 59 rest with
        | None => mret (- EINVAL)
        | Some (name, rest) =>
            ok ← try_alloc;
            put_state (fun s => st_set_image s (if ok : bool then Some name else None));;
            if negb ok then mret (- ENOMEM)
            else
              ok ← take_options (length rest) rest;
              mret (if ok : bool then 0 else - ENOMEM)
        end
  end.

(** From the parsed configuration on.
    [src tcmu-runner/rbd.c 895-920 tcmu_rbd_open] *)
Definition open_image (uname_ret : Z) (nodename : list Z) (dup_ok : bool) : O W Z :=
  ret ← tcmu_rbd_image_open uname_ret nodename dup_ok;
  if ret <? 0 then free_config ret
  else
    s ← get_opn;
    ret ← tcmu_rbd_check_image_size (u64 (tcmu_get_dev_block_size (op_dev s) * tcmu_get_dev_num_lbas (op_dev s)));
    if negb (ret =? 0) then stop_image ret
    else
      ret ← ask with_image rbd_stat;
      if ret <? 0 then stop_image ret
      else
        s ← get_opn;
        set_opn_dev (tcmu_set_dev_write_cache_enabled (op_dev s) false);;
        mret 0.

(** [src tcmu-runner/rbd.c tcmu_rbd_open] *)
Definition tcmu_rbd_open (uname_ret : Z) (nodename : list Z) (dup_ok : bool) : O W Z :=
  ok ← try_alloc;
  if negb ok then mret (- ENOMEM)
  else
    new_state;;
    ok ← try_alloc;
    if negb ok then free_config (- ENOMEM)
    else
      s ← get_opn;
      match after_slash (cfgstring (op_dev s)) with
      | None => free_config (- EINVAL)
      | Some config =>
          ret ← parse_config config;
          if negb (ret =? 0) then free_config ret else open_image uname_ret nodename dup_ok
      end.

(** [src tcmu-runner/rbd.c tcmu_rbd_close] *)
Definition tcmu_rbd_close : O W unit := tcmu_rbd_image_close;; tcmu_rbd_state_free.

(** A change of size is the cluster's business.
    [src tcmu-runner/rbd.c tcmu_rbd_reconfig] *)
Definition tcmu_rbd_reconfig (is_size : bool) : Z := if is_size then 0 else - 95.
End open.
