(* ===== verification/RbdOpenThm.v ===== *)
(** * Opening an RBD device: what is shown

    All or nothing, the configuration string, and the class of the disks. *)

From S2P Require Import Prelude Scsi Device Rdev Configfs RbdLock Rbd QcowOpen RbdOpen.

(** What the libraries promise: the settings of the cluster are numbers, and
    the answer of the monitor is a JSON text, which does not end in a backslash
    before its last character. *)
Definition answer_ok (buf : list Z) : Prop := exists pre a b, buf = pre ++ [a; b] /\ a <> 92.

Class RadosLaws (W : Type) {HR : RadosApi W} := {
  law_grace : forall w ret buf, rados_conf_get w (str "osd_heartbeat_grace") = (ret, buf) -> ret = 0 ->
    exists n, atoi buf = Some n /\ 0 <= n < 2 ^ 30;
  law_interval : forall w ret buf, rados_conf_get w (str "osd_heartbeat_interval") = (ret, buf) -> ret = 0 ->
    exists n, atoi buf = Some n /\ 0 <= n < 2 ^ 30 - 5;
  law_mon : forall w cmd ret buf, rados_mon_command w cmd = (ret, Some buf) -> 0 <= ret -> answer_ok buf
}.

(** ** The answers of the monitor *)

Lemma find_quote_bound s i : tcmu_rbd_find_quote s = Some i ->
  (i < length s)%nat \/ i = length s /\ exists pre, s = pre ++ [92].
Proof.
  revert i. induction s as [s IH] using (induction_ltof1 _ (@length Z)); unfold ltof in IH. intros i.
  destruct s as [|c t]; [done|]. cbn [tcmu_rbd_find_quote]. case_if; [intros [= <-]; left; cbn; lia|].
  case_if.
  - destruct t as [|d t].
    + intros [= <-]. right. split; [done|]. exists []. subst. cbn. congruence.
    + destruct (tcmu_rbd_find_quote t) as [j|] eqn:E; [|done]. cbn [mbind option_bind]. intros [= <-].
      destruct (IH t ltac:(cbn; lia) j E) as [H|[H [pre ->]]]; [left; cbn; lia|right]. split; [cbn; lia|].
      by exists (c :: d :: pre).
  - destruct (tcmu_rbd_find_quote t) as [j|] eqn:E; [|done]. cbn [mbind option_bind]. intros [= <-].
    destruct (IH t ltac:(cbn; lia) j E) as [H|[H [pre ->]]]; [left; cbn; lia|right]. split; [cbn; lia|].
    by exists (c :: pre).
Qed.

Lemma c_string_prefix s : exists t, s = c_string s ++ t /\ (c_string s = s \/ exists u, t = 0 :: u).
Proof.
  induction s as [|c s IH]; [by exists []; split; [|left]|]. cbn [c_string]. destruct (Z.eqb_spec c 0) as [->|Hc].
  - exists (0 :: s). split; [done|]. right. by exists s.
  - destruct IH as (t & E & H). exists t. split; [cbn; congruence|]. destruct H as [H|H]; [left; congruence|by right].
Qed.

Lemma strstr_suffix pat s m : strstr pat s = Some m -> exists pre, s = pre ++ m.
Proof.
  induction s as [|c s IH]; cbn [strstr]; case_if; try done; [by intros [= <-]; exists []|by intros [= <-]; exists []|].
  intros (pre & ->)%IH. by exists (c :: pre).
Qed.

Lemma starts_with_length p s : starts_with p s = true -> (length p <= length s)%nat.
Proof.
  revert s. induction p as [|a p IH]; intros [|b s]; cbn; try done; try lia.
  intros [_ H]%andb_prop. apply IH in H. lia.
Qed.

Lemma strstr_length pat s m : strstr pat s = Some m -> (length pat <= length m)%nat.
Proof.
  induction s as [|c s IH]; cbn [strstr]; case_if; try done; try apply IH; intros [= <-]; by apply starts_with_length.
Qed.

(** The end of the rule's name is inside the buffer. *)
Lemma crush_rule_defined buf : answer_ok buf -> is_Some (crush_rule_of buf).
Proof.
  intros (pre & a & b & -> & Ha). unfold crush_rule_of. rewrite decide_False by by destruct pre.
  assert (take (length (pre ++ [a; b]) - 1) (pre ++ [a; b]) = pre ++ [a]) as Eu.
  { replace (pre ++ [a; b]) with ((pre ++ [a]) ++ [b]) by by rewrite <- app_assoc.
    apply take_app_length'. rewrite !length_app. cbn. lia. }
  rewrite Eu. set (s := c_string (pre ++ [a])). destruct (c_string_prefix (pre ++ [a])) as (t & E & _). fold s in E.
  destruct (strstr crush_key s) as [m|] eqn:Em; [|done].
  destruct (tcmu_rbd_find_quote (drop 1 (drop 13 m))) as [i|] eqn:Ei; [|done].
  destruct (strstr_suffix _ _ _ Em) as [p Es]. rewrite (proj2 (Nat.ltb_lt _ _)); [done|].
  assert (length pre + 1 = length s + length t)%nat as Ls by (apply (f_equal length) in E; rewrite !length_app in E; cbn in E; lia).
  rewrite length_app. cbn [length]. rewrite length_drop.
  assert (length m <= length s)%nat by (rewrite Es, length_app; lia).
  pose proof (strstr_length _ _ _ Em) as Lm. cbn in Lm.
  apply find_quote_bound in Ei. rewrite !length_drop in Ei. destruct Ei as [Hi|[Hi [q Eq]]]; [lia|].
  destruct t as [|c t]; [|cbn in Ls; lia]. exfalso. rewrite app_nil_r in E.
  assert (exists q', m = q' ++ [92]) as [q' ->].
  { exists (take 14 m ++ q). rewrite <- app_assoc, <- Eq, drop_drop. symmetry. apply take_drop. }
  rewrite <- E in Es. rewrite app_assoc in Es. apply app_inj_2 in Es as [_ [= ->]]; done.
Qed.

Lemma class_has_defined buf rule : answer_ok buf -> is_Some (class_has buf rule).
Proof. intros (pre & a & b & -> & _). unfold class_has. by rewrite decide_False by by destruct pre. Qed.

(** ** Runs of the monad *)

Section runs.
Context {W : Type} {HR : RadosApi W}.

(** The operation is defined and ends in [P]. *)
Definition runs {A} (m : O W A) (s : opn W) (P : A -> opn W -> Prop) : Prop := exists a s', m s = Some (a, s') /\ P a s'.

(** The private state is allocated and the handles are [h]. *)
Definition at_ (h : handles) (s : opn W) : Prop := op_handles s = h /\ is_Some (op_state s).

Lemma runs_bind {A B} (m : O W A) (f : A -> O W B) s P :
  runs m s (fun a s' => runs (f a) s' P) -> runs (m ≫= f) s P.
Proof. intros (a & s' & E & b & s2 & E2 & H). exists b, s2. split; [|done]. unfold mbind, O_bind. by rewrite E. Qed.

Lemma runs_ret {A} (a : A) s (P : A -> opn W -> Prop) : P a s -> runs (mret a) s P.
Proof. intros H. by exists a, s. Qed.

Lemma runs_mono {A} (m : O W A) s (P Q : A -> opn W -> Prop) : runs m s P -> (forall a s', P a s' -> Q a s') -> runs m s Q.
Proof. intros (a & s' & E & H) HPQ. exists a, s'. auto. Qed.

Lemma runs_alloc h s (P : bool -> opn W -> Prop) : at_ h s -> (forall ok s', at_ h s' -> P ok s') -> runs try_alloc s P.
Proof.
  intros H HP. unfold runs, try_alloc. destruct s as [w al st hd dv]. cbn.
  destruct al as [|ok l]; eexists _, _; (split; [reflexivity|]); by apply HP.
Qed.

Lemma runs_state h s (P : tcmu_rbd_state -> opn W -> Prop) : at_ h s -> (forall st, P st s) -> runs get_state s P.
Proof. intros [_ [st E]] HP. exists st, s. split; [|done]. unfold get_state. by rewrite E. Qed.

Lemma runs_put h s f (P : unit -> opn W -> Prop) : at_ h s -> (forall s', at_ h s' -> P tt s') -> runs (put_state f) s P.
Proof.
  intros [Hh [st E]] HP. unfold runs, put_state. rewrite E. cbn. eexists _, _. split; [reflexivity|]. apply HP.
  split; [done|by eexists].
Qed.

Lemma runs_opn s (P : opn W -> opn W -> Prop) : P s s -> runs get_opn s P.
Proof. intros H. by exists s, s. Qed.

Lemma runs_dev h s d (P : unit -> opn W -> Prop) : at_ h s -> (forall s', at_ h s' -> op_dev s' = d -> P tt s') ->
  runs (set_opn_dev d) s P.
Proof. intros H HP. eexists _, _. split; [reflexivity|]. by apply HP. Qed.

Lemma runs_lift {A} (o : option A) a s (P : A -> opn W -> Prop) : o = Some a -> P a s -> runs (lift o) s P.
Proof. intros -> H. by exists a, s. Qed.

Lemma runs_call h need gain f s (P : Z -> opn W -> Prop) : at_ h s -> need h = true ->
  (forall ret s', ret < 0 -> at_ h s' -> P ret s') -> (forall ret s', 0 <= ret -> at_ (gain h) s' -> P ret s') ->
  runs (call need gain f) s P.
Proof.
  intros [<- Hs] Hn H1 H2. unfold runs, call. rewrite Hn. destruct (f (op_w s)) as [w ret].
  eexists _, _. split; [reflexivity|]. destruct (Z.ltb_spec ret 0); [by apply H1|]. by apply H2.
Qed.

(** A call that opens nothing. *)
Lemma runs_call_same h need f s (P : Z -> opn W -> Prop) : at_ h s -> need h = true ->
  (forall ret s', at_ h s' -> P ret s') -> runs (call need (fun h => h) f) s P.
Proof. intros H Hn HP. eapply runs_call; eauto. Qed.

Lemma runs_ask {A} h need (f : W -> A) s (P : A -> opn W -> Prop) : at_ h s -> need h = true ->
  P (f (op_w s)) s -> runs (ask need f) s P.
Proof. intros [<- Hs] Hn HP. unfold runs, ask. rewrite Hn. by eexists _, _. Qed.

Lemma runs_drop h need lose f s (P : unit -> opn W -> Prop) : at_ h s -> need h = true ->
  (forall s', at_ (lose h) s' -> P tt s') -> runs (drop_handle need lose f) s P.
Proof. intros [<- Hs] Hn HP. unfold runs, drop_handle. rewrite Hn. eexists _, _. split; [reflexivity|]. by apply HP. Qed.
End runs.

(** The next operation, in a state with the handles that are known. *)
Ltac op :=
  lazymatch goal with
  | |- runs (_ ≫= _) _ _ => apply runs_bind
  | |- runs (mret _) _ _ => apply runs_ret
  | |- runs get_opn _ _ => apply runs_opn
  | H : at_ ?h ?s |- runs try_alloc ?s _ => refine (runs_alloc h s _ H _); clear dependent s; intros ? s ?
  | H : at_ ?h ?s |- runs get_state ?s _ => refine (runs_state h s _ H _); intros ?
  | H : at_ ?h ?s |- runs (put_state _) ?s _ => refine (runs_put h s _ _ H _); clear dependent s; intros s ?
  | H : at_ ?h ?s |- runs (call _ (fun h => h) _) ?s _ =>
      refine (runs_call_same h _ _ s _ H eq_refl _); clear dependent s; intros ? s ?
  | H : at_ ?h ?s |- runs (drop_handle _ _ _) ?s _ =>
      refine (runs_drop h _ _ _ s _ H eq_refl _); clear dependent s; intros s ?; cbv beta in *; cbn [h_cluster h_ioctx h_image] in *
  | H : at_ ?h ?s |- runs (ask _ _) ?s _ => refine (runs_ask h _ _ s _ H eq_refl _)
  | |- runs (if ?b then _ else _) _ _ => let E := fresh "E" in destruct b eqn:E
  end; cbv beta.

Section all_or_nothing.
Context {W : Type} {HR : RadosApi W} {HL : RadosLaws W}.

Definition connected : handles := Handles true false false.

Lemma close_runs (s : opn W) P : at_ all_handles s -> (forall s', at_ no_handles s' -> P tt s') -> runs tcmu_rbd_image_close s P.
Proof. intros H HP. unfold tcmu_rbd_image_close, all_handles in *. op. op. op. op. op. by apply HP. Qed.

Lemma service_runs u n (s : opn W) P : at_ all_handles s -> (forall ret s', at_ all_handles s' -> P ret s') ->
  runs (tcmu_rbd_service_register u n) s P.
Proof.
  intros H HP. unfold tcmu_rbd_service_register. op. op. op; [op; by apply HP|]. op. op.
  op; [op; by apply HP|]. op. op. destruct (rbd_get_id (op_w s)) as [ret id]. op; [op; by apply HP|].
  op. op. op; [op; by apply HP|]. op. op. op; [op; by apply HP|]. op. by apply HP.
Qed.

Lemma detect_runs (s : opn W) P : at_ connected s -> (forall s', at_ connected s' -> P tt s') ->
  runs (tcmu_rbd_detect_device_class true) s P.
Proof.
  intros H HP. unfold tcmu_rbd_detect_device_class. op. op. op. op. op; [op; by apply HP|]. op. op.
  destruct (rados_mon_command (op_w s) _) as [ret [buf|]] eqn:E1; [|op; by apply HP]. op; [op; by apply HP|].
  destruct (crush_rule_defined buf) as [rule Er]; [eapply law_mon; [exact E1|lia]|].
  op. apply (runs_lift _ _ _ _ Er). destruct rule as [rule|]; [|op; by apply HP]. op. op.
  op; [op; by apply HP|]. op. op.
  destruct (rados_mon_command (op_w s) _) as [ret2 [buf2|]] eqn:E2; [|op; by apply HP]. op; [op; by apply HP|].
  cbn [negb]. destruct (class_has_defined buf2 rule) as [b Eb]; [eapply law_mon; [exact E2|lia]|].
  op. apply (runs_lift _ _ _ _ Eb). op. op. op; [|op; by apply HP]. eapply runs_dev; [done|]. intros s' Hs' _. by apply HP.
Qed.

Lemma set_timeout_runs (s : opn W) P : at_ connected s -> (forall ret s', at_ connected s' -> P ret s') ->
  runs set_op_timeout s P.
Proof. intros H HP. unfold set_op_timeout. op. op. op. by apply HP. Qed.

Lemma to_int_small z : - 2 ^ 31 <= z < 2 ^ 31 -> to_int z = Some z.
Proof. intros H. unfold to_int. by rewrite (proj2 (Z.leb_le _ _)), (proj2 (Z.ltb_lt _ _)) by lia. Qed.

Lemma timer_runs (s : opn W) P : at_ connected s -> (forall ret s', at_ connected s' -> P ret s') ->
  runs timer_check_and_set_def s P.
Proof.
  intros H HP. unfold timer_check_and_set_def. op. op. op. op.
  destruct (rados_conf_get (op_w s) (str "osd_heartbeat_grace")) as [r1 b1] eqn:E1.
  destruct (Z.eqb_spec r1 0) as [Z1|]; cbn [negb]; [|op; by apply HP].
  destruct (law_grace _ _ _ E1 Z1) as (g & Eg & Hg). op. apply (runs_lift _ _ _ _ Eg). op. op.
  destruct (rados_conf_get (op_w s) (str "osd_heartbeat_interval")) as [r2 b2] eqn:E2.
  destruct (Z.eqb_spec r2 0) as [Z2|]; cbn [negb]; [|op; by apply HP].
  destruct (law_interval _ _ _ E2 Z2) as (i & Ei & Hi). op. apply (runs_lift _ _ _ _ Ei). op. op.
  destruct (rados_conf_get (op_w s) (str "rados_osd_op_timeout")) as [r3 b3].
  destruct (Z.eqb_spec r3 0) as [Z3|]; cbn [negb]; [|op; by apply HP].
  op. apply (runs_lift _ (g + i)); [apply to_int_small; lia|].
  op; [by apply set_timeout_runs|]. op; [op; by apply HP|].
  op. apply (runs_lift _ (g + i + 5)); [apply to_int_small; lia|]. op. op. op. op.
  op; [op; by apply HP|]. by apply set_timeout_runs.
Qed.

Lemma image_open_runs u n (s : opn W) (P : Z -> opn W -> Prop) : at_ no_handles s ->
  (forall ret s', ret < 0 -> at_ no_handles s' -> P ret s') -> (forall s', at_ all_handles s' -> P 0 s') ->
  runs (tcmu_rbd_image_open u n true) s P.
Proof.
  intros H Hno Hyes.
  assert (forall ret s', ret < 0 -> at_ connected s' -> runs (err_shutdown ret) s' P) as H1.
  { intros ret s' Hr H1. unfold err_shutdown, connected in *. op. op. op. by apply Hno. }
  assert (forall ret s', ret < 0 -> at_ (Handles true true false) s' -> runs (err_destroy ret) s' P) as H2.
  { intros ret s' Hr H2. unfold err_destroy. op. op. by apply H1. }
  assert (forall ret s', ret < 0 -> at_ all_handles s' -> runs (err_close ret) s' P) as H3.
  { intros ret s' Hr H3. unfold err_close, all_handles in *. op. op. by apply H2. }
  unfold tcmu_rbd_image_open. op. op. op. eapply runs_call; [exact H|done| |].
  { intros ret s' Hr Hs'. rewrite (proj2 (Z.ltb_lt _ _) Hr). op. by apply Hno. }
  intros ret s1 Hr Hs1. rewrite (proj2 (Z.ltb_ge _ _) Hr). fold connected in Hs1. op. op.
  op. { apply H1; [|done]. apply andb_prop in E as [_ E]. lia. }
  op. op. op. apply timer_runs; [done|]. intros r2 s2 Hs2. op. op.
  op; [apply H1; [lia|done]|]. op. apply detect_runs; [done|]. intros s3 Hs3. op. op.
  op. eapply runs_call; [exact Hs3|done| |].
  { intros rc s' Hrc Hs'. rewrite (proj2 (Z.ltb_lt _ _) Hrc). by apply H1. }
  intros rc s4 Hrc Hs4. rewrite (proj2 (Z.ltb_ge _ _) Hrc). op. eapply runs_call; [exact Hs4|done| |].
  { intros ro s' Hro Hs'. rewrite (proj2 (Z.ltb_lt _ _) Hro). by apply H2. }
  intros ro s5 Hro Hs5. rewrite (proj2 (Z.ltb_ge _ _) Hro). op. apply service_runs; [done|]. intros rs s6 Hs6.
  op; [apply H3; [lia|done]|]. op. by apply Hyes.
Qed.

Lemma copy_option_runs h set v (s : opn W) P : at_ h s -> (forall ok s', at_ h s' -> P ok s') ->
  runs (copy_option set v) s P.
Proof. intros H HP. unfold copy_option. op. op. op. op. op. by apply HP. Qed.

Lemma take_option_runs h opt (s : opn W) P : at_ h s -> (forall ok s', at_ h s' -> P ok s') ->
  runs (take_option opt) s P.
Proof.
  intros H HP. unfold take_option. repeat (case_if; [by eapply copy_option_runs|]). op. by apply HP.
Qed.

Lemma strtok_shorter d s a r : strtok d s = Some (a, r) -> (length r < length s)%nat.
Proof.
  assert (forall s a r, take_tok d s = (a, r) -> (length r <= length s)%nat) as Ht.
  { induction s0 as [|c s0 IH]; intros a0 r0; cbn [take_tok]; [by intros [= <- <-]|].
    case_if; [intros [= <- <-]; cbn; lia|]. destruct (take_tok d s0) as [a1 r1]. intros [= <- <-].
    specialize (IH _ _ eq_refl). cbn. lia. }
  assert (forall s, (length (skip_delim d s) <= length s)%nat) as Hs.
  { induction s0 as [|c s0 IH]; cbn [skip_delim]; [done|]. case_if; cbn in *; lia. }
  unfold strtok. specialize (Hs s). destruct (skip_delim d s) as [|c t]; [done|]. cbn [take_tok].
  case_if; [intros [= <- <-]; cbn in Hs; lia|]. destruct (take_tok d t) as [a1 r1] eqn:E. apply Ht in E.
  intros [= <- <-]. cbn in Hs. lia.
Qed.

Lemma take_options_runs h fuel : forall rest (s : opn W) P, (length rest <= fuel)%nat -> at_ h s ->
  (forall ok s', at_ h s' -> P ok s') -> runs (take_options fuel rest) s P.
Proof.
  induction fuel as [|fuel IH]; intros rest s P Hf H HP; cbn [take_options].
  - destruct rest; [|cbn in Hf; lia]. cbn [strtok skip_delim]. op. by apply HP.
  - destruct (strtok 59 rest) as [[opt rest']|] eqn:E; [|op; by apply HP]. apply strtok_shorter in E.
    op. eapply take_option_runs; [exact H|]. intros ok s' Hs'. op; [|op; by apply HP]. apply IH; [lia|done|done].
Qed.

Lemma parse_config_runs h config (s : opn W) P : at_ h s -> (forall ret s', at_ h s' -> P ret s') ->
  runs (parse_config config) s P.
Proof.
  intros H HP. unfold parse_config. destruct (strtok 47 config) as [[pool rest]|]; [|op; by apply HP].
  op. op. op. op. op; [op; by apply HP|]. destruct (strtok 59 rest) as [[name rest']|]; [|op; by apply HP].
  op. op. op. op. op; [op; by apply HP|]. op. eapply take_options_runs; [lia|eassumption|]. intros b s' Hs'. op. by apply HP.
Qed.

Definition nothing (s : opn W) : Prop := op_handles s = no_handles /\ op_state s = None.

Lemma state_free_runs h (s : opn W) (P : unit -> opn W -> Prop) : at_ h s ->
  (forall s', op_handles s' = h -> op_state s' = None -> P tt s') -> runs tcmu_rbd_state_free s P.
Proof.
  intros [Hh [st E]] HP. unfold runs, tcmu_rbd_state_free. rewrite E. cbn. eexists _, _. split; [reflexivity|]. by apply HP.
Qed.

Lemma free_config_runs ret (s : opn W) (P : Z -> opn W -> Prop) : at_ no_handles s ->
  (forall s', nothing s' -> P ret s') -> runs (free_config ret) s P.
Proof.
  intros H HP. unfold free_config. op. eapply state_free_runs; [exact H|]. intros s' H1 H2. op. by apply HP.
Qed.

Lemma open_image_runs u n (s : opn W) (P : Z -> opn W -> Prop) : at_ no_handles s ->
  (forall ret s', ret <> 0 -> nothing s' -> P ret s') ->
  (forall s', at_ all_handles s' -> write_cache_enabled (op_dev s') = false -> P 0 s') ->
  runs (open_image u n true) s P.
Proof.
  intros H Hno Hyes.
  assert (forall ret s', ret <> 0 -> at_ all_handles s' -> runs (stop_image ret) s' P) as H1.
  { intros ret s' Hr H1. unfold stop_image. op. apply close_runs; [done|]. intros s2 H2. apply free_config_runs; eauto. }
  unfold open_image. op. apply image_open_runs; [done| |].
  { intros ret s' Hr Hs'. rewrite (proj2 (Z.ltb_lt _ _) Hr). apply free_config_runs; [done|]. intros. apply Hno; [lia|done]. }
  intros s1 Hs1. cbn [Z.ltb Z.compare]. op. op. op. unfold tcmu_rbd_check_image_size. op. op.
  destruct (rbd_get_size (op_w s1)) as [ret size].
  op; [op; destruct (Z.eqb_spec ret 0); cbn [negb]; [lia|by apply H1]|]. op; [op; by apply H1|]. op. cbn [Z.eqb negb].
  op. op. op; [apply H1; [lia|done]|]. op. op. op. eapply runs_dev; [exact Hs1|]. intros s2 Hs2 Hd. op.
  apply Hyes; [done|]. by rewrite Hd.
Qed.

End all_or_nothing.

(** ** The configuration string *)

Inductive rbd_opt := OptTimeout (v : list Z) | OptConf (v : list Z) | OptId (v : list Z) | OptOther (text : list Z).

Definition opt_text (o : rbd_opt) : list Z :=
  match o with
  | OptTimeout v => str "osd_op_timeout=" ++ v
  | OptConf v => str "conf=" ++ v
  | OptId v => str "id=" ++ v
  | OptOther t => t
  end.

Definition apply_opt (st : tcmu_rbd_state) (o : rbd_opt) : tcmu_rbd_state :=
  match o with
  | OptTimeout v => st_set_timeout st (Some v)
  | OptConf v => st_set_conf st (Some v)
  | OptId v => st_set_id st (Some v)
  | OptOther _ => st
  end.

(** A value that can be written down; another option is not one of the three. *)
Definition opt_ok (o : rbd_opt) : Prop :=
  (59 ∉ opt_text o) /\
  match o with
  | OptTimeout v | OptConf v | OptId v => v <> []
  | OptOther t => t <> [] /\ starts_with (str "osd_op_timeout=") t = false /\
                  starts_with (str "conf=") t = false /\ starts_with (str "id=") t = false
  end.

Definition opts_text (opts : list rbd_opt) : list Z := concat (map (fun o => 59 :: opt_text o) opts).

(** [pool/image;option;option] *)
Definition config_text (pool image : list Z) (opts : list rbd_opt) : list Z :=
  pool ++ [47] ++ image ++ opts_text opts.

Lemma take_tok_app d a r : d ∉ a -> take_tok d (a ++ d :: r) = (a, r).
Proof.
  induction a as [|c a IH]; intros H; cbn [take_tok app]; [by rewrite Z.eqb_refl|].
  rewrite (proj2 (Z.eqb_neq c d)) by set_solver. by rewrite IH by set_solver.
Qed.

Lemma take_tok_all d a : d ∉ a -> take_tok d a = (a, []).
Proof.
  induction a as [|c a IH]; intros H; cbn [take_tok]; [done|].
  rewrite (proj2 (Z.eqb_neq c d)) by set_solver. by rewrite IH by set_solver.
Qed.

Lemma skip_delim_here d c a : c <> d -> skip_delim d (c :: a) = c :: a.
Proof. intros H. cbn. by rewrite (proj2 (Z.eqb_neq c d)). Qed.

Lemma strtok_app d a r : a <> [] -> d ∉ a -> strtok d (a ++ d :: r) = Some (a, r).
Proof.
  intros Hne H. unfold strtok. rewrite <- (take_tok_app d a r H). destruct a as [|c a]; [done|].
  cbn [app]. rewrite skip_delim_here by set_solver. done.
Qed.

Lemma strtok_all d a : a <> [] -> d ∉ a -> strtok d a = Some (a, []).
Proof.
  intros Hne H. unfold strtok. rewrite <- (take_tok_all d a H). destruct a as [|c a]; [done|].
  rewrite skip_delim_here by set_solver. done.
Qed.

(** A token and the options behind it. *)
Lemma strtok_opts a opts : a <> [] -> 59 ∉ a ->
  strtok 59 (a ++ opts_text opts) =
  Some (a, drop 1 (opts_text opts)).
Proof.
  intros Hne H. unfold opts_text. destruct opts as [|o opts]; cbn [map concat app drop]; [rewrite app_nil_r; by apply strtok_all|].
  by apply strtok_app.
Qed.

Section config.
Context {W : Type} {HR : RadosApi W}.

Definition with_state (s : opn W) (st : tcmu_rbd_state) : opn W := Opn (op_w s) [] (Some st) (op_handles s) (op_dev s).

Lemma take_option_ok o (s : opn W) st : opt_ok o ->
  take_option (opt_text o) (with_state s st) = Some (true, with_state s (apply_opt st o)).
Proof.
  assert (forall set v, v <> [] -> copy_option set v (with_state s st) = Some (true, with_state s (set st (Some v)))) as Hc.
  { intros set v Hv. unfold copy_option, mbind, O_bind, try_alloc, put_state, with_state. cbn.
    by rewrite bool_decide_false. }
  intros [_ Ho]. unfold take_option. destruct o as [v|v|v|t]; cbn [opt_text].
  - rewrite starts_with_app. by apply Hc.
  - change (starts_with (str "osd_op_timeout=") (str "conf=" ++ v)) with false. cbv iota.
    rewrite starts_with_app. by apply Hc.
  - change (starts_with (str "osd_op_timeout=") (str "id=" ++ v)) with false.
    change (starts_with (str "conf=") (str "id=" ++ v)) with false. cbv iota. rewrite starts_with_app. by apply Hc.
  - destruct Ho as (_ & -> & -> & ->). done.
Qed.

Lemma take_options_ok opts : forall fuel st (s : opn W), Forall opt_ok opts ->
  (length (drop 1 (opts_text opts)) <= fuel)%nat ->
  take_options fuel (drop 1 (opts_text opts)) (with_state s st) =
  Some (true, with_state s (fold_left apply_opt opts st)).
Proof.
  induction opts as [|o opts IH]; intros fuel st s Ho Hf; [by destruct fuel|].
  inversion Ho as [|? ? H Ho']; subst. change (drop 1 (opts_text (o :: opts))) with (opt_text o ++ opts_text opts) in *.
    assert (opt_text o <> []) as Hne.
    { destruct H as [_ H]. destruct o; cbn; try done. by destruct H. }
    destruct fuel as [|fuel].
    { destruct (opt_text o); [done|cbn in Hf; lia]. }
    cbn [take_options]. rewrite strtok_opts by (done || apply H).
    unfold mbind, O_bind. rewrite take_option_ok by done. cbn [fold_left]. apply IH; [done|].
    rewrite length_app, length_drop in *. destruct (opt_text o); [done|cbn in Hf; lia].
Qed.
End config.

(** the configuration string of an RBD device is read back: from
    [pool/image;option;option] with any options in any order, the private state
    gets the pool, the image and for each option the last value that was given;
    options of other kinds are ignored. *)
Theorem rbd_config_roundtrip {W : Type} {HR : RadosApi W} (pool image : list Z) (opts : list rbd_opt) (s : opn W) (st : tcmu_rbd_state) :
  pool <> [] -> 47 ∉ pool -> image <> [] -> 59 ∉ image -> Forall opt_ok opts ->
  parse_config (config_text pool image opts) (with_state s st) =
  Some (0, with_state s (fold_left apply_opt opts (st_set_image (st_set_pool st (Some pool)) (Some image)))).
Proof.
  intros Hp Hp' Hi Hi' Ho. unfold parse_config, config_text. cbn [app]. rewrite strtok_app by done.
  rewrite strtok_opts by done.
  pose proof (take_options_ok opts (length (drop 1 (opts_text opts)))
    (st_set_image (st_set_pool st (Some pool)) (Some image)) s Ho (le_n _)) as E.
  unfold mbind, O_bind, try_alloc, put_state, with_state in *. cbn [op_alloc op_state op_w op_handles op_dev mbind option_bind negb].
  rewrite E. done.
Qed.

(** ** The class of the disks *)

(** A name of a rule in the text of an answer without escapes. *)
Definition plain_name (s : list Z) : Prop := Forall (fun c => c <> 34 /\ c <> 92 /\ c <> 44 /\ c <> 0) s.

(** A list of names as the monitor prints it, with the character behind that is
    overwritten. *)
Fixpoint join_names (l : list (list Z)) : list Z :=
  match l with
  | [] => []
  | [s] => json_str s
  | s :: l => json_str s ++ [44] ++ join_names l
  end.
Definition names_text (l : list (list Z)) : list Z := [91] ++ join_names l ++ [93].

Lemma find_quote_name s t : plain_name s -> tcmu_rbd_find_quote (s ++ 34 :: t) = Some (length s).
Proof.
  induction 1 as [|c s (H1 & H2 & _) _ IH]; [done|]. cbn [tcmu_rbd_find_quote app].
  rewrite (proj2 (Z.eqb_neq c 34)), (proj2 (Z.eqb_neq c 92)) by done. rewrite IH. cbn. f_equal. lia.
Qed.

Lemma c_string_app s t : Forall (fun c => c <> 0) s -> c_string (s ++ t) = s ++ c_string t.
Proof. induction 1 as [|c s H _ IH]; [done|]. cbn. by rewrite (proj2 (Z.eqb_neq c 0)), IH by done. Qed.

Lemma c_string_all s : Forall (fun c => c <> 0) s -> c_string s = s.
Proof. intros H. rewrite <- (app_nil_r s) at 1. rewrite c_string_app by done. apply app_nil_r. Qed.

Lemma starts_with_true p s : starts_with p s = true -> exists t, s = p ++ t.
Proof.
  revert s. induction p as [|a p IH]; intros s H; [by exists s|]. destruct s as [|b s]; [done|]. cbn in H.
  apply andb_prop in H as [->%Z.eqb_eq H]. destruct (IH s H) as [t ->]. by exists t.
Qed.

(** The first place of a pattern. *)
Lemma strstr_first p z pre t : occurs (p ++ [z]) (pre ++ p) = false ->
  strstr (p ++ [z]) (pre ++ (p ++ [z]) ++ t) = Some ((p ++ [z]) ++ t).
Proof.
  assert (forall u, starts_with (p ++ [z]) u = true -> strstr (p ++ [z]) u = Some u) as Hs.
  { intros u Hu. destruct u; cbn [strstr]; by rewrite Hu. }
  unfold occurs. induction pre as [|c pre IH]; intros H; [by apply Hs, starts_with_app|].
  change ((c :: pre) ++ (p ++ [z]) ++ t) with (c :: pre ++ (p ++ [z]) ++ t).
  change ((c :: pre) ++ p) with (c :: pre ++ p) in H. cbn [strstr] in *.
  destruct (starts_with (p ++ [z]) (c :: pre ++ (p ++ [z]) ++ t)) eqn:E1.
  - exfalso. destruct (starts_with_true _ _ E1) as [u Eu].
    assert (starts_with (p ++ [z]) (c :: pre ++ p) = true) as Es; [|by rewrite Es in H].
    rewrite <- (take_drop (length (p ++ [z])) (c :: pre ++ p)).
    assert (take (length (p ++ [z])) (c :: pre ++ p) = p ++ [z]) as ->; [|apply starts_with_app].
    apply (f_equal (take (length (p ++ [z])))) in Eu. rewrite take_app_length in Eu. rewrite <- Eu at 2.
    replace (c :: pre ++ (p ++ [z]) ++ t) with ((c :: pre ++ p) ++ [z] ++ t) by (cbn; by rewrite <- !app_assoc).
    rewrite take_app_le; [done|]. cbn. rewrite !length_app. cbn. lia.
  - destruct (starts_with (p ++ [z]) (c :: pre ++ p)); [done|]. by apply IH.
Qed.

Lemma json_no_nul s : plain_name s -> Forall (fun c => c <> 0) (json_str s).
Proof.
  intros H. unfold json_str. rewrite !Forall_app. split; [by repeat constructor|]. split; [|by repeat constructor].
  eapply Forall_impl; [exact H|]. by intros c (_ & _ & _ & ?).
Qed.

Lemma names_no_nul l : Forall plain_name l -> Forall (fun c => c <> 0) (names_text l).
Proof.
  intros H. unfold names_text. rewrite !Forall_app. split; [by repeat constructor|]. split; [|by repeat constructor].
  induction H as [|s l Hs Hl IH]; [constructor|]. destruct l as [|s2 l]; [by apply json_no_nul|].
  change (join_names (s :: s2 :: l)) with (json_str s ++ [44] ++ join_names (s2 :: l)).
  rewrite !Forall_app. split; [by apply json_no_nul|]. split; [by repeat constructor|done].
Qed.

(** Whether a pattern in quotes starts at a place. *)
Lemma quoted_starts r s t : plain_name r -> plain_name s ->
  starts_with (json_str r) (json_str s ++ t) = bool_decide (r = s).
Proof.
  intros Hr Hs. unfold json_str. cbn [app starts_with]. rewrite Z.eqb_refl. cbn [andb].
  revert s Hs. induction Hr as [|c r Hc Hr IH]; intros s Hs.
  - destruct s as [|d s]; cbn [app starts_with].
    + by rewrite Z.eqb_refl, bool_decide_true.
    + inversion Hs as [|? ? Hd _]; subst. rewrite (proj2 (Z.eqb_neq quote d)) by (unfold quote; by intros <-; destruct Hd).
      by rewrite bool_decide_false.
  - destruct s as [|d s]; cbn [app starts_with].
    + rewrite (proj2 (Z.eqb_neq c quote)) by (unfold quote; by intros ->; destruct Hc). by rewrite bool_decide_false.
    + inversion Hs as [|? ? Hd Hs']; subst. rewrite IH by done. destruct (Z.eqb_spec c d) as [->|Hne]; cbn [andb].
      * case_bool_decide as E; [subst; by rewrite bool_decide_true|]. rewrite bool_decide_false; [done|congruence].
      * by rewrite bool_decide_false by congruence.
Qed.

(** No match starts inside a name, or at the quote that ends one. *)
Lemma occurs_skip r pre t : Forall (fun c => c <> 34) pre -> occurs (json_str r) (pre ++ t) = occurs (json_str r) t.
Proof.
  unfold occurs. induction 1 as [|c pre Hc _ IH]; [done|]. cbn [app strstr]. unfold json_str at 1. cbn [app starts_with].
  rewrite (proj2 (Z.eqb_neq quote c)) by (unfold quote; congruence). exact IH.
Qed.

Lemma occurs_close r c t : plain_name r -> c = 44 \/ c = 93 /\ t = [] ->
  occurs (json_str r) (34 :: c :: t) = occurs (json_str r) (c :: t).
Proof.
  intros Hr Hc. unfold occurs. cbn [strstr]. unfold json_str at 1. cbn [app starts_with]. rewrite Z.eqb_refl. cbn [andb].
  destruct r as [|d r]; cbn [app starts_with].
  - by rewrite (proj2 (Z.eqb_neq quote c)) by (unfold quote; lia).
  - inversion Hr as [|? ? (H1 & _ & H2 & _) _]; subst. destruct (Z.eqb_spec d c) as [->|]; [|done]. cbn [andb].
    destruct Hc as [->|[-> ->]]; [done|]. by destruct r.
Qed.

Lemma occurs_names r l : plain_name r -> Forall plain_name l -> occurs (json_str r) (names_text l) = bool_decide (r ∈ l).
Proof.
  intros Hr Hl. unfold names_text. rewrite occurs_skip by (repeat constructor; done).
  assert (forall s t, plain_name s -> occurs (json_str r) (json_str s ++ t) =
    bool_decide (r = s) || occurs (json_str r) (34 :: t)) as Hstep.
  { intros s t Hs. unfold occurs at 1. pose proof (quoted_starts r s t Hr Hs) as E. unfold json_str in E at 2.
    unfold json_str at 2. cbn [app] in E |- *. cbn [strstr]. rewrite E. case_bool_decide; [done|]. cbn [orb].
    change (occurs (json_str r) ((s ++ [quote]) ++ t) = occurs (json_str r) (34 :: t)). rewrite <- app_assoc.
    apply occurs_skip. eapply Forall_impl; [exact Hs|]. by intros c (? & _). }
  induction Hl as [|s l Hs Hl IH].
  - cbn [join_names app]. unfold occurs. cbn. by rewrite bool_decide_false by apply not_elem_of_nil.
  - assert (bool_decide (r ∈ s :: l) = bool_decide (r = s) || bool_decide (r ∈ l)) as ->.
    { destruct (decide (r ∈ s :: l)) as [H|H].
      - rewrite bool_decide_true by done. apply elem_of_cons in H as [H|H]; rewrite (bool_decide_true _ H); [done|by rewrite orb_true_r].
      - rewrite !bool_decide_false; [done|..]; set_solver. }
    destruct l as [|s2 l].
    + cbn [join_names]. rewrite Hstep by done. f_equal. rewrite occurs_close by (done || by right).
      by rewrite (bool_decide_false (r ∈ [])) by apply not_elem_of_nil.
    + change (join_names (s :: s2 :: l)) with (json_str s ++ [44] ++ join_names (s2 :: l)).
      rewrite <- !app_assoc, Hstep by done. f_equal. cbn [app]. rewrite occurs_close by (done || by left).
      change (44 :: join_names (s2 :: l) ++ [93]) with ([44] ++ join_names (s2 :: l) ++ [93]).
      rewrite occurs_skip by (repeat constructor; done). exact IH.
Qed.

Lemma crush_rule_spec pre r post b : Forall (fun c => c <> 0) pre -> Forall (fun c => c <> 0) post -> plain_name r ->
  occurs crush_key (pre ++ take 13 crush_key) = false ->
  crush_rule_of (pre ++ crush_key ++ r ++ [quote] ++ post ++ [b]) = Some (Some (json_str r)).
Proof.
  intros Hpre Hpost Hr Hk. unfold crush_rule_of. rewrite decide_False by by destruct pre.
  set (text := pre ++ crush_key ++ r ++ [quote] ++ post).
  replace (pre ++ crush_key ++ r ++ [quote] ++ post ++ [b]) with (text ++ [b]) by (unfold text; by rewrite <- !app_assoc).
  rewrite take_app_length' by (rewrite length_app; cbn; lia).
  assert (Forall (fun c => c <> 0) text) as Ht.
  { unfold text. rewrite !Forall_app. split_and!; try done; [by repeat constructor| |by repeat constructor].
    eapply Forall_impl; [exact Hr|]. by intros c (_ & _ & _ & ?). }
  rewrite (c_string_all _ Ht). unfold text at 1.
  pose proof (strstr_first (take 13 crush_key) quote pre (r ++ [quote] ++ post) Hk) as E.
  change (take 13 crush_key ++ [quote]) with crush_key in E. rewrite E.
  change (drop 13 (crush_key ++ r ++ [quote] ++ post)) with (quote :: r ++ 34 :: post).
  change (drop 1 (quote :: r ++ 34 :: post)) with (r ++ 34 :: post). rewrite find_quote_name by done. rewrite (proj2 (Nat.ltb_lt _ _)).
  - unfold json_str. do 2 f_equal. change (quote :: r ++ 34 :: post) with ([quote] ++ r ++ [quote] ++ post).
    rewrite !app_assoc. rewrite take_app_length' by (rewrite !length_app; cbn; lia). by rewrite <- app_assoc.
  - unfold text. rewrite !length_app. cbn [length]. rewrite length_app. cbn [length crush_key app str]. lia.
Qed.

(** the class of the disks is taken from the answers of the monitor: when
    the first names the rule of the pool behind its key and the second lists the
    rules of solid state disks, the device becomes a solid state medium exactly
    when the list has the rule, for names without quotes, backslashes and
    commas; nothing else changes. *)
Theorem rbd_solid_state_exact {W : Type} {HR : RadosApi W} (s : opn W) (st : tcmu_rbd_state) (pre r post : list Z) (b b' : Z)
  (names : list (list Z)) :
  op_handles s = connected -> op_state s = Some st -> op_alloc s = [] ->
  Forall (fun c => c <> 0) pre -> Forall (fun c => c <> 0) post -> occurs crush_key (pre ++ take 13 crush_key) = false ->
  plain_name r -> Forall plain_name names ->
  rados_mon_command (op_w s) (pool_get_cmd (text_of (pool_name st))) =
    (0, Some (pre ++ crush_key ++ r ++ [quote] ++ post ++ [b])) ->
  rados_mon_command (op_w s) ls_by_class_cmd = (0, Some (names_text names ++ [b'])) ->
  tcmu_rbd_detect_device_class true s =
    Some (tt, Opn (op_w s) [] (Some st) connected
      (if bool_decide (r ∈ names) then tcmu_set_dev_solid_state_media (op_dev s) true else op_dev s)).
Proof.
  intros Hh Hst Ha Hpre Hpost Hk Hr Hn H1 H2. destruct s as [w al os hd dv]. cbn [op_w op_alloc op_state op_handles op_dev] in Hh, Hst, Ha, H1, H2 |- *. subst.
  unfold tcmu_rbd_detect_device_class, mbind, O_bind, get_state, try_alloc, ask, lift, get_opn, set_opn_dev.
  cbn [op_state op_alloc op_w op_handles op_dev mbind option_bind negb only_cluster h_cluster h_ioctx h_image connected andb].
  rewrite H1. cbn [Z.ltb Z.compare]. rewrite crush_rule_spec by done. cbn [mbind option_bind op_alloc negb].
  cbn [op_w op_handles only_cluster h_cluster h_ioctx h_image connected andb negb]. rewrite H2. cbn [Z.ltb Z.compare negb].
  unfold class_has. rewrite decide_False by by destruct names.
  rewrite take_app_length' by (rewrite length_app; cbn; lia). rewrite c_string_all by by apply names_no_nul.
  rewrite occurs_names by done. cbn [mbind option_bind]. by case_bool_decide.
Qed.

(** ** A cluster *)

(** Its answers are fixed; calls have no effect that is looked at here. *)
Module DemoRados.
Definition rule_answer : list Z :=
  str "{" ++ json_str (str "pool") ++ str ":" ++ json_str (str "disks") ++ str "," ++ crush_key ++ str "fast" ++ [quote] ++
  str "}" ++ [10].
Definition names : list (list Z) := [str "fast"; str "faster"].
Definition mon (cmd : list Z) : list Z := if bool_decide (cmd = ls_by_class_cmd) then names_text names ++ [10] else rule_answer.
Definition conf (key : list Z) : list Z := if bool_decide (key = str "osd_heartbeat_grace") then str "20" else str "6".

#[global] Instance api : RadosApi unit := {|
  rados_create w _ := (w, 0);
  rados_conf_read_file w _ := (w, 0);
  rados_conf_get _ key := (0, conf key);
  rados_conf_set w _ _ := (w, 0);
  rados_connect w := (w, 0);
  rados_mon_command _ cmd := (0, Some (mon cmd));
  rados_ioctx_create w _ := (w, 0);
  rbd_open w _ := (w, 0);
  rbd_get_id _ := (0, str "1f");
  rados_service_register w _ _ := (w, 0);
  rbd_get_size _ := (0, 64 * 512);
  rbd_stat _ := 0;
  rbd_close w := w;
  rados_ioctx_destroy w := w;
  rados_shutdown w := w;
  atof_gt s n := n <? (digits_val 0 s).1
|}.

#[global] Instance laws : RadosLaws unit.
Proof.
  split.
  - intros w ret buf [= <- <-] _. exists 20. split; [by vm_compute|lia].
  - intros w ret buf [= <- <-] _. exists 6. split; [by vm_compute|lia].
  - intros w cmd ret buf [= <- <-] _. unfold mon. case_bool_decide.
    + exists (take (length (names_text names) - 1) (names_text names)), 93, 10. by vm_compute.
    + exists (take (length rule_answer - 2) rule_answer), 125, 10. by vm_compute.
Qed.

Definition rbd_handler : tcmur_handler := Handler false true true true true true true 1.
Definition dev (lbas : Z) : tcmu_device :=
  Dev lbas 512 128 8 0 true false (str "rbd/disks/image;osd_op_timeout=30;id=a") None rbd_handler.
Definition start (lbas : Z) : opn unit := Opn tt [] None no_handles (dev lbas).
Definition st0 : tcmu_rbd_state := RbdState None (Some (str "disks")) None None None.
End DemoRados.

(** An image of the right size is opened, as a solid state medium; with another
    size, or without memory, it is not. *)
Example rbd_open_cases :
  option_map (fun r => (r.1, op_handles r.2, solid_state_media (op_dev r.2), op_state r.2))
    (tcmu_rbd_open 0 (str "host") true (DemoRados.start 64)) =
    Some (0, all_handles, true, Some (RbdState (Some (str "image")) (Some (str "disks")) (Some (str "30")) None (Some (str "a")))) /\
  option_map (fun r => (r.1, op_handles r.2, op_state r.2)) (tcmu_rbd_open 0 (str "host") true (DemoRados.start 65)) =
    Some (- EINVAL, no_handles, None) /\
  option_map (fun r => (r.1, op_handles r.2, op_state r.2))
    (tcmu_rbd_open 0 (str "host") true (Opn tt [true; true; true; false] None no_handles (DemoRados.dev 64))) =
    Some (- ENOMEM, no_handles, None).
Proof. by vm_compute. Qed.

(** The copy of the rule's name is not checked. *)
Example rbd_open_no_copy : tcmu_rbd_open 0 (str "host") false (DemoRados.start 64) = None.
Proof. by vm_compute. Qed.

(** An answer whose text ends in a backslash: the terminator goes past its end. *)
Example crush_rule_overrun : crush_rule_of (crush_key ++ str "fast" ++ [92; 10]) = None.
Proof. by vm_compute. Qed.


Example rbd_config_roundtrip_witness :
  parse_config (str "disks/image;id=a;trace;id=b") (with_state (DemoRados.start 64) DemoRados.st0) =
  Some (0, with_state (DemoRados.start 64) (RbdState (Some (str "image")) (Some (str "disks")) None None (Some (str "b")))).
Proof.
  refine (rbd_config_roundtrip (str "disks") (str "image") [OptId (str "a"); OptOther (str "trace"); OptId (str "b")]
    (DemoRados.start 64) DemoRados.st0 _ _ _ _ _).
  - done.
  - by apply (bool_decide_unpack _).
  - done.
  - by apply (bool_decide_unpack _).
  - repeat constructor; try done; by apply (bool_decide_unpack _).
Defined.

Example rbd_solid_state_exact_witness :
  tcmu_rbd_detect_device_class true (Opn tt [] (Some DemoRados.st0) connected (DemoRados.dev 64)) =
  Some (tt, Opn tt [] (Some DemoRados.st0) connected (tcmu_set_dev_solid_state_media (DemoRados.dev 64) true)).
Proof.
  refine (rbd_solid_state_exact (Opn tt [] (Some DemoRados.st0) connected (DemoRados.dev 64)) DemoRados.st0
    (str "{" ++ json_str (str "pool") ++ str ":" ++ json_str (str "disks") ++ str ",") (str "fast") (str "}") 10 10
    DemoRados.names _ _ _ _ _ _ _ _ _ _); try done.
  - repeat (apply Forall_cons; split; [done|]). constructor.
  - repeat (apply Forall_cons; split; [done|]). constructor.
  - repeat (apply Forall_cons; split; [done|]). constructor.
  - repeat (apply Forall_cons; split; [repeat (apply Forall_cons; split; [done|]); constructor|]). constructor.
Defined.
